(* ===== verification/_CoqProject ===== *)
-Q . S2P
Prelude.v
GoStd.v
Json.v
JsonCodec.v
Api.v
Apimachinery.v
External.v
Util.v
Conditions.v
MdUtil.v
MachineDeployment.v
MachineDeploymentSpec.v
Version.v
Collections.v
FailureDomains.v
ConditionsV1Beta2.v
ConditionsMerge.v
StatusConditions.v
MachineSetStatus.v
MachineDeploymentStatus.v
ConditionsUnstructured.v
MachineConditions.v
StatusEndToEnd.v
MachineSetPolicy.v
MachineSet.v
MachineSetSpec.v
Kubeadm.v
KubeadmConfig.v
KcpTypes.v
KubeadmControlPlane.v
KubeadmControlPlaneSpec.v
KcpUpToDate.v
KcpMachines.v
KcpWorkload.v
KcpReconcile.v
KcpReconcileSpec.v
KcpDeletionSpec.v
RolloutLiveness.v
MachineHealthCheck.v
MachineHealthCheckSpec.v
TopologyUpgrade.v
TopologyUpgradeSpec.v
TopologyInvariant.v
RemediationHandoff.v
InitLock.v
StructuredMerge.v
