(* ===== verification/Prelude.v ===== *)
(** * Cluster API: a verification development

    Cluster API manages the machines of Kubernetes clusters with controllers: each watches one
    kind of object, reads the state of the API server, decides, and writes objects back.  This
    library models the decisions of the controllers and the packages they share as Rocq
    functions, and proves what they promise.

    ** The program and its parts

    - A Cluster with a managed topology (internal/controllers/topology, exp/topology) decides
      which Kubernetes version its control plane and workers get, and when.
    - A KubeadmControlPlane (controlplane/kubeadm) creates, scales, rolls out and remediates
      control plane Machines, protecting the etcd quorum; a machine takes an init lock before
      kubeadm init (bootstrap/kubeadm/internal/locking).
    - A MachineDeployment (internal/controllers/machinedeployment) resizes MachineSets to roll
      out a template; a MachineSet (internal/controllers/machineset) creates and deletes
      Machines; a Machine (internal/controllers/machine) follows its Node and provider objects.
    - A MachineHealthCheck (internal/controllers/machinehealthcheck) marks unhealthy Machines,
      which their owners (MachineSet, KubeadmControlPlane) then remediate.
    - All report through conditions (util/conditions, util/conditions/v1beta2).

    ** How the code is modelled

    Pure functions are Rocq functions of the same name.  A fallible function returns [result]:
    [Ok], [Err] with the error, or [Panic] where Go would panic (nil dereference, failed
    type assertion, index out of range).  A handler is a computation of the monad [M], which
    threads a state and keeps the state reached when it fails: what was mutated or called
    before an error stays.  Calls of the API server, the patch helper and extensions are recorded
    in the state, and their outcomes are given by an environment that is a function of the calls
    made so far, so that a theorem quantifies over every sequence of failures.  Where a slice
    of pointers is shared and mutated, objects live in a heap ([gmap] of pointers).  [int32] and
    [int64] counters wrap around ([wrap32], [wrap64], the operators +32 and -32); float64 numbers are the
    binary64 numbers of the Standard Library.  Maps are ranged over in the order of the class
    [GoRange] and sorted by the class [GoSort], so that theorems hold for any order Go may
    choose and any result its unstable sort may give.  A time is a number of nanoseconds, with the zero
    time apart; readings of the clock are arguments.

    Code outside the repository (apimachinery, semver, flect, json-patch, unstructured objects)
    is a class whose laws are its documented behaviour, with an instance that shows that the laws can hold: Apimachinery,
    MetaConditions, LabelSelectors, Semver, Flect, GoCmp, KubeTypes, Unstructured,
    UnstructuredContent, JsonPatch.

    ** Files

    - Prelude: results, the monad [M] and its logged runs, integers, sums, sorting; GoStd: the
      part of strconv, strings, fmt and time that is used; Json: the encoding/json texts;
      Api: the objects; Apimachinery: third-party functions; External: annotations and
      provider objects (util/annotations, controllers/external); Util: util/util.go.
    - Conditions: util/conditions, with the three-way merge of patches.  ConditionsV1Beta2,
      ConditionsMerge, ConditionsUnstructured: util/conditions/v1beta2.
    - MdUtil, MachineDeployment, MachineDeploymentSpec, RolloutLiveness: mdutil/util.go and the
      MachineDeployment controller; safety of a rolling reconciliation under failures, exact
      scaling, and that a rollout finishes.
    - Version (util/version), Collections (util/collections), FailureDomains.
    - MachineSetPolicy (delete policies, preflight checks), MachineSet, MachineSetSpec: the
      MachineSet controller.
    - StatusConditions, MachineSetStatus, MachineDeploymentStatus, MachineConditions,
      StatusEndToEnd: the v1beta2 status of MachineSets, MachineDeployments and Machines, and
      availability followed from the deployment down to the Nodes.
    - KubeadmControlPlane, KubeadmControlPlaneSpec: selectors, preflight checks, scaling down and
      remediation (control_plane.go, controllers/scale.go, controllers/remediation.go).
    - MachineHealthCheck, MachineHealthCheckSpec, RemediationHandoff: health checks and what they
      hand over to the owners of Machines.
    - TopologyUpgrade, TopologyUpgradeSpec, TopologyInvariant: upgrades of managed topologies.
    - InitLock: the init lock under interleaving.  StructuredMerge: intents and
      two way patches of managed topologies.
    - JsonCodec, Kubeadm, KubeadmConfig: JSON of structs; the types of kubeadm with their
      defaulting, validation and encoding (bootstrap/kubeadm/api/v1beta1).
    - KcpTypes: the KubeadmControlPlane and its [ControlPlane].  KcpUpToDate, KcpMachines: whether a
      Machine is up to date (controlplane/kubeadm/internal/filters.go), the Machine and the
      KubeadmConfig that are created (controllers/helpers.go), and what the bootstrap provider
      completes in it (bootstrap/kubeadm/internal/controllers/kubeadmconfig_controller.go).
    - KcpWorkload: etcd members and the ClusterConfiguration of the workload cluster
      (workload_cluster_etcd.go, etcd_client_generator.go, workload_cluster.go).
    - KcpReconcile, KcpReconcileSpec, KcpDeletionSpec: [reconcile] and [reconcileDelete] of the
      control plane controller with all they call (controllers/controller.go, scale.go,
      upgrade.go, helpers.go); KcpReconcileSpec has a small program logic ([triple]) for them.

    ** What the theorems show

    - Merging: a condition patch is a three-way merge, summaries and aggregates have the status
      their inputs imply for any order of maps; intents filter and patch only allowed paths.
    - Safety under failures: a rolling reconciliation, scaling, remediation and health checks
      stay within their limits whatever calls fail, and delete only what they may delete.
    - Control planes: etcd keeps its quorum, retries are limited; until the control plane is
      initialized at most one machine has the init lock, unless a machine is deleted.
    - Upgrades: no worker is ever ahead of the control plane, upgrades respect the concurrency, a
      Cluster reported as reconciled is reconciled.
    - Progress: rollouts complete, upgrades are not held back without a reason.
    - Status: what conditions report is true of the objects they are computed from, through
      three controllers.
    - Control plane reconciliation: one pass creates or deletes at most one Machine, in a stable
      control plane and within the allowed number; a failed creation leaves nothing behind; etcd
      members go before the hook that protects their Machines; a control plane goes after all
      workers; when a Machine is up to date, and that one made from the specification is, but for
      a first Machine whose InitConfiguration the bootstrap provider added; an upgrade
      writes the ClusterConfiguration it means to.

    ** Bounds and fuel

    The JSON scanner and the filters recurse on the length of the text or the structure of the
    value.  The conditions that the MachineSet controller polls are run as often as the
    environment says ([e_polls], the timeout of the third-party poll), any number of times; that
    these loops end is not a theorem.  The liveness theorem of rollouts states its own number of rounds, the replicas to add and to remove.
    No theorem is conditional on fuel: where a function takes some, the callers pass enough and
    a lemma says so.

    ** Not modelled

    Command line tools, webhooks, conversions, generated code, process set-up and caches do I/O
    or run elsewhere.  The patch helper, certificates, cloud-init, CoreDNS, RBAC and the inspection of
    static Pods appear as recorded calls with arbitrary outcomes.  The Cluster controller, the
    phases of the Machine controller, node drain, ClusterClass patches, MachinePools and the
    status of the KubeadmControlPlane are left out.  Logs, events and metrics are left out
    everywhere; error values keep their structure and the constant part of their text, and
    formatted arguments of error texts may be shortened, since no code of the repository reads
    them. *)

From stdpp Require Export base tactics numbers list strings gmap fin_maps sorting.
From Stdlib Require Export ZArith Lia.
From Stdlib Require Import OrderedTypeEx.

#[global] Open Scope Z_scope.

(** ** Go results

    A Go call either returns normally, returns a non-nil [error], or panics (a nil
    pointer is dereferenced, a slice is indexed out of range). *)

Inductive error :=
| Errorf (msg : string)
| ApiError (notFound : bool) (msg : string)
| Wrap (msg : string) (cause : error)
| NewAggregate (errs : list error).

Inductive result (A : Type) :=
| Ok (a : A)
| Err (e : error)
| Panic.
Arguments Ok {A} _.
Arguments Err {A} _.
Arguments Panic {A}.

#[global] Instance result_ret : MRet result := λ A a, Ok a.
#[global] Instance result_bind : MBind result := λ A B f m,
  match m with Ok a => f a | Err e => Err e | Panic => Panic end.
#[global] Instance result_fmap : FMap result := λ A B f m,
  match m with Ok a => Ok (f a) | Err e => Err e | Panic => Panic end.

Definition is_Ok {A} (r : result A) : bool :=
  match r with Ok _ => true | _ => false end.

(** [*p] on a possibly nil pointer. *)
Definition deref {A} (p : option A) : result A :=
  match p with Some a => Ok a | None => Panic end.

(** [errors.Wrap(err, msg)]. *)
Definition wrapErr {A} (msg : string) (r : result A) : result A :=
  match r with Err e => Err (Wrap msg e) | r => r end.

(** ** The effect monad of the controllers

    State is threaded explicitly; a mutation made before an error or a panic stays in
    the returned state, as it does in the Go heap. *)

Definition M (S A : Type) : Type := S → result A * S.

#[global] Instance M_ret {S} : MRet (M S) := λ A a s, (Ok a, s).
#[global] Instance M_bind {S} : MBind (M S) := λ A B f m s,
  match m s with
  | (Ok a, s') => f a s'
  | (Err e, s') => (Err e, s')
  | (Panic, s') => (Panic, s')
  end.

Definition lift {S A} (r : result A) : M S A := λ s, (r, s).
Definition get {S} : M S S := λ s, (Ok s, s).
Definition gets {S A} (f : S → A) : M S A := λ s, (Ok (f s), s).
Definition modify {S} (f : S → S) : M S unit := λ s, (Ok tt, f s).
Definition throw {S A} (e : error) : M S A := λ s, (Err e, s).

(** Runs [m] and returns its error, if any, as a value (the Go [err] variable). *)
Definition try_err {S} (m : M S unit) : M S (option error) := λ s,
  match m s with
  | (Ok _, s') => (Ok None, s')
  | (Err e, s') => (Ok (Some e), s')
  | (Panic, s') => (Panic, s')
  end.

(** [for _, x := range l { body }], where the body may [return] an error. *)
Fixpoint forM {S A} (l : list A) (body : A → M S unit) : M S unit :=
  match l with
  | [] => mret tt
  | x :: l => _ ← body x; forM l body
  end.

(** [for _, x := range l { acc = body(acc, x) }]; the body answers [inr acc] to
    [break] out of the loop. *)
Fixpoint foldM {S A B} (body : B → A → M S (B + B)) (acc : B) (l : list A) : M S B :=
  match l with
  | [] => mret acc
  | x :: l =>
      r ← body acc x;
      match r with inl acc' => foldM body acc' l | inr acc' => mret acc' end
  end.

(** [errors.Wrap] around an action. *)
Definition mwrap {S A} (msg : string) (m : M S A) : M S A := λ s,
  let '(r, s') := m s in (wrapErr msg r, s').

(** Runs [m] and returns its outcome as a value. *)
Definition attempt {S A} (m : M S A) : M S (A + error) := λ s,
  match m s with
  | (Ok a, s') => (Ok (inl a), s')
  | (Err e, s') => (Ok (inr e), s')
  | (Panic, s') => (Panic, s')
  end.

(** A run that succeeds, taken apart. *)
Lemma bind_Ok {S A B} (m : M S A) (f : A → M S B) s b s' :
  (m ≫= f) s = (Ok b, s') → ∃ a s1, m s = (Ok a, s1) ∧ f a s1 = (Ok b, s').
Proof. unfold mbind, M_bind. destruct (m s) as [[a|e|] s1]; [eauto|done..]. Qed.

Lemma mwrap_Ok {S A} msg (m : M S A) s a s' : mwrap msg m s = (Ok a, s') → m s = (Ok a, s').
Proof. unfold mwrap. destruct (m s) as [[x|e|] s1]; [done|discriminate..]. Qed.

Lemma lift_Ok {S A} (r : result A) (s : S) a s' : lift r s = (Ok a, s') → r = Ok a ∧ s' = s.
Proof. by intros [= -> ->]. Qed.

Lemma wrapErr_Ok {A} msg (r : result A) a : wrapErr msg r = Ok a → r = Ok a.
Proof. by destruct r. Qed.

(** A run from its result, with the state it leaves. *)
Lemma run_result {A B} (p : A * B) a : p.1 = a → p = (a, p.2).
Proof. destruct p as [x y]. simpl. by intros ->. Qed.

(** ** Actions that record calls

    [logged calls P R m]: whatever happens, [m] only appends calls that satisfy [P] to the log
    and changes the state only as [R] allows.  The relation composes along the structure of
    the actions. *)

Definition logged {S C A} (calls : S → list C) (P : C → Prop) (R : S → S → Prop) (m : M S A) : Prop :=
  ∀ s r s', m s = (r, s') →
    R s s' ∧ ∃ cs, calls s' = calls s ++ cs ∧ Forall P cs.

Section runs.
Context {S C} {calls : S → list C} (P : C → Prop) (R : S → S → Prop) `{!PreOrder R}.

Lemma runs_ret {A} (a : A) : logged calls P R (mret a).
Proof.
  intros s r s' [= <- <-]. split; [done|]. exists []. by rewrite app_nil_r.
Qed.

Lemma runs_throw {A} e : logged calls P R (throw e : M S A).
Proof.
  intros s r s' [= <- <-]. split; [done|]. exists []. by rewrite app_nil_r.
Qed.

Lemma runs_lift {A} (x : result A) : logged calls P R (lift x).
Proof.
  intros s r s' [= <- <-]. split; [done|]. exists []. by rewrite app_nil_r.
Qed.

Lemma runs_gets {A} (f : S → A) : logged calls P R (gets f).
Proof.
  intros s r s' [= <- <-]. split; [done|]. exists []. by rewrite app_nil_r.
Qed.

Lemma runs_bind {A B} (m : M S A) (f : A → M S B) :
  logged calls P R m → (∀ a, logged calls P R (f a)) → logged calls P R (m ≫= f).
Proof.
  intros Hm Hf s r s' E. unfold mbind, M_bind in E.
  destruct (m s) as [[a|e|] s1] eqn:E1; destruct (Hm _ _ _ E1) as (HR & cs & Hcs & HP).
  - destruct (Hf a _ _ _ E) as (HR' & cs' & Hcs' & HP'). split; [by etrans|].
    exists (cs ++ cs'). rewrite Hcs', Hcs, app_assoc. split; [done|]. by apply Forall_app.
  - injection E as <- <-. eauto.
  - injection E as <- <-. eauto.
Qed.

Lemma runs_try_err (m : M S unit) : logged calls P R m → logged calls P R (try_err m).
Proof.
  intros Hm s r s' E. unfold try_err in E. destruct (m s) as [[a|e|] s1] eqn:E1;
    injection E as <- <-; by eapply Hm.
Qed.

Lemma runs_mwrap {A} msg (m : M S A) : logged calls P R m → logged calls P R (mwrap msg m).
Proof.
  intros Hm s r s' E. unfold mwrap in E. destruct (m s) as [x s1] eqn:E1.
  injection E as _ <-. by eapply Hm.
Qed.

Lemma runs_foldM {A B} (body : B → A → M S (B + B)) l acc :
  (∀ acc x, x ∈ l → logged calls P R (body acc x)) → logged calls P R (foldM body acc l).
Proof.
  revert acc. induction l as [|x l IH]; intros acc Hb; simpl; [apply runs_ret|].
  apply runs_bind; [apply Hb; left|]. intros [acc'|acc']; [|apply runs_ret].
  apply IH. intros. apply Hb. by right.
Qed.

Lemma runs_forM {A} (body : A → M S unit) l :
  (∀ x, x ∈ l → logged calls P R (body x)) → logged calls P R (forM l body).
Proof.
  induction l as [|x l IH]; intros Hb; simpl; [apply runs_ret|].
  apply runs_bind; [apply Hb; left|]. intros _. apply IH. intros. apply Hb. by right.
Qed.

Lemma runs_modify (f : S → S) :
  (∀ s, R s (f s) ∧ calls (f s) = calls s) → logged calls P R (modify f).
Proof.
  intros Hf s r s' [= <- <-]. destruct (Hf s) as [HR ->]. split; [done|].
  exists []. by rewrite app_nil_r.
Qed.

Lemma runs_attempt {A} (m : M S A) : logged calls P R m → logged calls P R (attempt m).
Proof.
  intros Hm s r s' E. unfold attempt in E. destruct (m s) as [[a|e|] s1] eqn:E1;
    injection E as <- <-; by eapply Hm.
Qed.
End runs.

Lemma runs_weaken {S C A} {calls : S → list C} (P P' : C → Prop) (R R' : S → S → Prop) (m : M S A) :
  (∀ c, P c → P' c) → (∀ s s', R s s' → R' s s') → logged calls P R m → logged calls P' R' m.
Proof.
  intros HP HR Hm s r s' E. destruct (Hm _ _ _ E) as (? & cs & ? & Hcs).
  split; [auto|]. exists cs. split; [done|]. eapply Forall_impl; [exact Hcs|]. auto.
Qed.

(** One step through an action built from the combinators; the primitive actions of a component
    are left to it. *)
Ltac logged_step :=
  match goal with
  | |- logged _ _ _ (mret _) => apply runs_ret, _
  | |- logged _ _ _ (lift _) => apply runs_lift, _
  | |- logged _ _ _ (gets _) => apply runs_gets, _
  | |- logged _ _ _ (throw _) => apply runs_throw, _
  | |- logged _ _ _ (mbind _ _) => apply runs_bind; [apply _| |intros ?]
  | |- logged _ _ _ (try_err _) => apply runs_try_err
  | |- logged _ _ _ (attempt _) => apply runs_attempt
  | |- logged _ _ _ (mwrap _ _) => apply runs_mwrap
  | |- logged _ _ _ (match ?x with _ => _ end) => destruct x eqn:?
  | |- _ => progress cbn beta zeta
  end.

(** ** Fixed-width integers *)

Definition int32_min : Z := - 2 ^ 31.
Definition int32_max : Z := 2 ^ 31 - 1.
Definition int64_min : Z := - 2 ^ 63.
Definition int64_max : Z := 2 ^ 63 - 1.

Definition in_int32 (z : Z) : Prop := int32_min ≤ z ≤ int32_max.
Definition in_int64 (z : Z) : Prop := int64_min ≤ z ≤ int64_max.

(** Go's [int32] and [int64] arithmetic wraps around. *)
Definition wrap32 (z : Z) : Z := (z + 2 ^ 31) mod 2 ^ 32 - 2 ^ 31.
Definition wrap64 (z : Z) : Z := (z + 2 ^ 63) mod 2 ^ 64 - 2 ^ 63.

Declare Scope go_scope.
Delimit Scope go_scope with go.
Notation "a '+32' b" := (wrap32 (a + b)) (at level 50, left associativity) : go_scope.
Notation "a '-32' b" := (wrap32 (a - b)) (at level 50, left associativity) : go_scope.
Notation "a '*32' b" := (wrap32 (a * b)) (at level 40, left associativity) : go_scope.
Notation "a '+64' b" := (wrap64 (a + b)) (at level 50, left associativity) : go_scope.
#[global] Open Scope go_scope.

Lemma wrap32_id z : in_int32 z → wrap32 z = z.
Proof.
  unfold in_int32, wrap32, int32_min, int32_max. intros H.
  rewrite Z.mod_small; lia.
Qed.

Lemma wrap32_range z : in_int32 (wrap32 z).
Proof.
  unfold in_int32, wrap32, int32_min, int32_max.
  pose proof (Z.mod_pos_bound (z + 2 ^ 31) (2 ^ 32)). lia.
Qed.

Lemma wrap64_id z : in_int64 z → wrap64 z = z.
Proof.
  unfold in_int64, wrap64, int64_min, int64_max. intros H.
  rewrite Z.mod_small; lia.
Qed.

(** Addition modulo 2^32 may be performed on representatives. *)
Lemma wrap32_add_l a b : wrap32 (wrap32 a + b) = wrap32 (a + b).
Proof.
  unfold wrap32.
  replace ((a + 2 ^ 31) mod 2 ^ 32 - 2 ^ 31 + b + 2 ^ 31)
    with ((a + 2 ^ 31) mod 2 ^ 32 + b) by lia.
  rewrite Zplus_mod_idemp_l. do 2 f_equal. lia.
Qed.

(** A wrapped integer differs from the exact one by a multiple of 2^32, and two integers
    wrap to the same value exactly when they differ by one. *)
Lemma wrap32_ex z : ∃ k, wrap32 z = z + k * 2 ^ 32.
Proof.
  unfold wrap32. exists (- ((z + 2 ^ 31) / 2 ^ 32)).
  pose proof (Z.div_mod (z + 2 ^ 31) (2 ^ 32)). lia.
Qed.

Lemma wrap32_eq a b : wrap32 a = wrap32 b ↔ ∃ k, a = b + k * 2 ^ 32.
Proof.
  split.
  - intros E. destruct (wrap32_ex a) as [k Ha], (wrap32_ex b) as [k' Hb].
    exists (k' - k). lia.
  - intros [k ->]. unfold wrap32.
    replace (b + k * 2 ^ 32 + 2 ^ 31) with (b + 2 ^ 31 + k * 2 ^ 32) by lia.
    by rewrite Z.mod_add by lia.
Qed.

Create HintDb capi.
Create Rewrite HintDb capi.
#[export] Hint Resolve wrap32_range : capi.

(** Removes the wrap-around of every operation whose exact result is representable. *)
Ltac unwrap32 :=
  repeat match goal with
  | |- context [wrap32 ?z] =>
      rewrite (wrap32_id z) by (unfold in_int32, int32_min, int32_max in *; lia)
  | H : context [wrap32 ?z] |- _ =>
      rewrite (wrap32_id z) in H by (unfold in_int32, int32_min, int32_max in *; lia)
  end.

(** ** Boolean reflection *)

Ltac reflect_bool :=
  repeat match goal with
  | H : (_ && _) = true |- _ => apply andb_true_iff in H as [? ?]
  | H : (_ || _) = false |- _ => apply orb_false_iff in H as [? ?]
  | H : negb _ = true |- _ => apply negb_true_iff in H
  | H : negb _ = false |- _ => apply negb_false_iff in H
  | H : (_ =? _) = true |- _ => apply Z.eqb_eq in H
  | H : (_ =? _) = false |- _ => apply Z.eqb_neq in H
  | H : (_ <? _) = true |- _ => apply Z.ltb_lt in H
  | H : (_ <? _) = false |- _ => apply Z.ltb_ge in H
  | H : (_ <=? _) = true |- _ => apply Z.leb_le in H
  | H : (_ <=? _) = false |- _ => apply Z.leb_gt in H
  | H : bool_decide _ = true |- _ => apply bool_decide_eq_true in H
  | H : bool_decide _ = false |- _ => apply bool_decide_eq_false in H
  end.

(** Case analysis on the outermost [match] or [if] of a hypothesis or of the goal. *)
Ltac case_one :=
  match goal with
  | |- context [match ?x with _ => _ end] =>
      lazymatch x with context [match _ with _ => _ end] => fail | _ => destruct x eqn:? end
  | H : context [match ?x with _ => _ end] |- _ =>
      lazymatch x with context [match _ with _ => _ end] => fail | _ => destruct x eqn:? end
  end.

(** Boolean quantification over a list depends on its elements only. *)
Lemma forallb_ext_elem {A} (f g : A → bool) (l : list A) :
  (∀ x, x ∈ l → f x = g x) → forallb f l = forallb g l.
Proof.
  induction l as [|x l IH]; intros H; simpl; [done|].
  rewrite (H x), IH; [done| |]; set_solver.
Qed.

Lemma forallb_elem {A} (f : A → bool) (l : list A) :
  forallb f l = true ↔ ∀ x, x ∈ l → f x = true.
Proof.
  induction l as [|x l IH]; simpl; [set_solver|].
  rewrite andb_true_iff, IH. set_solver.
Qed.

Lemma foldl_ext {A B} (f g : B → A → B) (l : list A) b :
  (∀ b a, f b a = g b a) → foldl f b l = foldl g b l.
Proof. intros E. revert b. induction l as [|a l IH]; intros b; simpl; [done|]. by rewrite E, IH. Qed.

(** ** Sums *)

Definition sumZ {A} (f : A → Z) (l : list A) : Z := foldr (λ x acc, f x + acc) 0 l.

Section sumZ.
Context {A : Type}.
Implicit Types (f g : A → Z) (l : list A).

Lemma sumZ_app f l1 l2 : sumZ f (l1 ++ l2) = sumZ f l1 + sumZ f l2.
Proof. induction l1 as [|x l1 IH]; simpl; lia. Qed.

Lemma sumZ_fmap {B} (g : B → A) f (l : list B) : sumZ f (g <$> l) = sumZ (λ x, f (g x)) l.
Proof. induction l as [|x l IH]; [done|]. rewrite fmap_cons. simpl. by f_equal. Qed.

Lemma sumZ_perm f l1 l2 : l1 ≡ₚ l2 → sumZ f l1 = sumZ f l2.
Proof. induction 1; simpl; lia. Qed.

Lemma sumZ_ext f g l : (∀ x, x ∈ l → f x = g x) → sumZ f l = sumZ g l.
Proof.
  induction l as [|x l IH]; intros H; [done|]. simpl.
  rewrite (H x), IH; [done| |]; set_solver.
Qed.

Lemma sumZ_le f g l : (∀ x, x ∈ l → f x ≤ g x) → sumZ f l ≤ sumZ g l.
Proof.
  induction l as [|x l IH]; intros H; [done|]. simpl.
  assert (f x ≤ g x) by (apply H; set_solver).
  assert (sumZ f l ≤ sumZ g l) by (apply IH; set_solver). lia.
Qed.

Lemma sumZ_nonneg f l : (∀ x, x ∈ l → 0 ≤ f x) → 0 ≤ sumZ f l.
Proof.
  intros H. transitivity (sumZ (λ _ : A, 0) l).
  - clear. induction l; simpl; lia.
  - by apply sumZ_le.
Qed.

Lemma sumZ_0 f l : (∀ x, x ∈ l → f x = 0) → sumZ f l = 0.
Proof. induction l as [|x l IH]; simpl; [done|]. intros H. rewrite H, IH; set_solver. Qed.

Lemma sumZ_elem_le f l x : (∀ y, y ∈ l → 0 ≤ f y) → x ∈ l → f x ≤ sumZ f l.
Proof.
  intros Hpos (l1 & l2 & ->)%list_elem_of_split. rewrite sumZ_app. simpl.
  assert (0 ≤ sumZ f l1) by (apply sumZ_nonneg; set_solver).
  assert (0 ≤ sumZ f l2) by (apply sumZ_nonneg; set_solver). lia.
Qed.

(** Changing [f] at one element of a duplicate-free list moves the sum by the same
    amount. *)
Lemma sumZ_update f g l x :
  NoDup l → x ∈ l → (∀ y, y ∈ l → y ≠ x → g y = f y) →
  sumZ g l = sumZ f l + (g x - f x).
Proof.
  intros Hnd (l1 & l2 & ->)%list_elem_of_split Hg.
  apply NoDup_app in Hnd as (? & Hdis & [Hx ?]%NoDup_cons).
  rewrite !sumZ_app. simpl.
  rewrite (sumZ_ext g f l1), (sumZ_ext g f l2); [lia| |].
  - intros y Hy. apply Hg; [set_solver|]. intros ->. done.
  - intros y Hy. apply Hg; [set_solver|]. intros ->. set_solver.
Qed.
End sumZ.

(** ** Orders on Go strings

    Go compares strings byte by byte, as [String.compare] does. *)

Definition string_ltb (s t : string) : bool :=
  match String.compare s t with Lt => true | _ => false end.

Lemma string_ltb_lt s t : string_ltb s t = true ↔ String_as_OT.lt s t.
Proof.
  rewrite <- String_as_OT.cmp_lt. unfold string_ltb, String_as_OT.cmp.
  by destruct (String.compare s t).
Qed.

Lemma string_ltb_irrefl s : string_ltb s s = false.
Proof.
  destruct (string_ltb s s) eqn:E; [|done].
  apply string_ltb_lt, String_as_OT.lt_not_eq in E. by destruct E.
Qed.

Lemma string_ltb_asym s t : string_ltb s t = true → string_ltb t s = false.
Proof.
  unfold string_ltb. rewrite (String.compare_antisym t s).
  by destruct (String.compare s t).
Qed.

Lemma string_ltb_trans s t u :
  string_ltb s t = true → string_ltb t u = true → string_ltb s u = true.
Proof. rewrite !string_ltb_lt. apply String_as_OT.lt_trans. Qed.

Lemma string_ltb_total s t : string_ltb s t = false → string_ltb t s = false → s = t.
Proof.
  unfold string_ltb. rewrite (String.compare_antisym t s).
  destruct (String.compare s t) eqn:E; simpl; try done.
  intros _ _. by apply String.compare_eq_iff.
Qed.

(** ** Sorting

    [sort.Sort] and [sort.Slice] return some permutation of their argument which the
    [Less] method does not contradict; ties are left in an unspecified order.  The class
    is the contract of the standard library; a development over it holds for whichever
    algorithm the runtime uses. *)

Record strict_weak {A} (less : A → A → bool) : Prop := {
  sw_asym : ∀ a b, less a b = true → less b a = false;
  sw_negtrans : ∀ a b c, less b a = false → less c b = false → less c a = false;
}.

Definition not_after {A} (less : A → A → bool) (a b : A) : Prop := less b a = false.

(** A sort compares only elements of its argument, so it is enough that [less] is an order
    on those. *)
Record strict_weak_in {A} (less : A → A → bool) (l : list A) : Prop := {
  swi_asym : ∀ a b, a ∈ l → b ∈ l → less a b = true → less b a = false;
  swi_negtrans : ∀ a b c, a ∈ l → b ∈ l → c ∈ l →
    less b a = false → less c b = false → less c a = false;
}.

Lemma strict_weak_all {A} (less : A → A → bool) l : strict_weak less → strict_weak_in less l.
Proof.
  intros [Hasym Hneg]. split; [eauto|]. intros a b c _ _ _. apply Hneg.
Qed.

Class GoSort := {
  go_sort : ∀ {A : Type}, (A → A → bool) → list A → list A;
  go_sort_perm : ∀ {A : Type} (less : A → A → bool) l, go_sort less l ≡ₚ l;
  go_sort_sorted_in : ∀ {A : Type} (less : A → A → bool) l,
    strict_weak_in less l → StronglySorted (not_after less) (go_sort less l);
}.

Lemma go_sort_sorted `{GoSort} {A} (less : A → A → bool) l :
  strict_weak less → StronglySorted (not_after less) (go_sort less l).
Proof. intros Hsw. by apply go_sort_sorted_in, strict_weak_all. Qed.

(** Insertion sort, which the Go runtime itself uses on slices of at most twelve
    elements; it is stable, and so also the model of [sort.SliceStable]. *)
Fixpoint insert_sorted {A} (less : A → A → bool) (x : A) (l : list A) : list A :=
  match l with
  | [] => [x]
  | y :: l' => if less x y then x :: y :: l' else y :: insert_sorted less x l'
  end.

Definition insertion_sort {A} (less : A → A → bool) (l : list A) : list A :=
  foldl (λ acc x, insert_sorted less x acc) [] l.

Section insertion_sort.
Context {A : Type} (less : A → A → bool).

Lemma insert_sorted_perm x l : insert_sorted less x l ≡ₚ x :: l.
Proof.
  induction l as [|y l IH]; simpl; [done|]. destruct (less x y); [done|].
  rewrite IH. apply Permutation_swap.
Qed.

Lemma insertion_sort_perm l : insertion_sort less l ≡ₚ l.
Proof.
  unfold insertion_sort.
  assert (∀ acc, foldl (λ acc x, insert_sorted less x acc) acc l ≡ₚ l ++ acc) as H.
  { induction l as [|x l IH]; intros acc; simpl; [done|].
    rewrite IH, insert_sorted_perm. symmetry. apply Permutation_middle. }
  by rewrite H, app_nil_r.
Qed.

Lemma insert_sorted_sorted x l u :
  strict_weak_in less u → x ∈ u → (∀ y, y ∈ l → y ∈ u) →
  StronglySorted (not_after less) l → StronglySorted (not_after less) (insert_sorted less x l).
Proof.
  intros Hsw Hx Hu. induction 1 as [|y l Hl IH Hy]; simpl; [repeat constructor|].
  assert (y ∈ u) as Hyu by (apply Hu; left).
  assert (∀ z, z ∈ l → z ∈ u) as Hlu by (intros z Hz; apply Hu; by right).
  destruct (less x y) eqn:Hxy.
  - apply SSorted_cons; [by constructor|]. constructor.
    + by apply (swi_asym less u Hsw).
    + apply Forall_forall. intros z Hz. rewrite Forall_forall in Hy. specialize (Hy z Hz).
      unfold not_after in *. eapply (swi_negtrans less u Hsw); [..|exact Hy]; auto.
      by apply (swi_asym less u Hsw).
  - apply SSorted_cons; [by apply IH|]. rewrite insert_sorted_perm. by constructor.
Qed.

Lemma insertion_sort_sorted l :
  strict_weak_in less l → StronglySorted (not_after less) (insertion_sort less l).
Proof.
  intros Hsw. unfold insertion_sort.
  assert (∀ k acc, (∀ y, y ∈ k ++ acc → y ∈ l) → StronglySorted (not_after less) acc →
    StronglySorted (not_after less) (foldl (λ acc x, insert_sorted less x acc) acc k)) as H.
  { induction k as [|x k IH]; intros acc Hin Hacc; simpl; [done|]. apply IH.
    - intros y. rewrite elem_of_app, insert_sorted_perm. set_solver.
    - eapply insert_sorted_sorted; [exact Hsw| | |done]; set_solver. }
  apply H; [|constructor]. intros y. by rewrite app_nil_r.
Qed.
End insertion_sort.

#[export] Instance insertion_GoSort : GoSort | 100 := {
  go_sort _ less l := insertion_sort less l;
  go_sort_perm _ less l := insertion_sort_perm less l;
  go_sort_sorted_in _ less l := insertion_sort_sorted less l;
}.

Section go_sort.
Context `{GoSort} {A : Type} (less : A → A → bool).

Lemma elem_of_go_sort x l : x ∈ go_sort less l ↔ x ∈ l.
Proof. by rewrite go_sort_perm. Qed.

Lemma length_go_sort l : length (go_sort less l) = length l.
Proof. by rewrite go_sort_perm. Qed.

Lemma NoDup_go_sort l : NoDup l → NoDup (go_sort less l).
Proof. by rewrite go_sort_perm. Qed.

Lemma sumZ_go_sort f l : sumZ f (go_sort less l) = sumZ f l.
Proof. apply sumZ_perm, go_sort_perm. Qed.

(** The head of the sorted list is minimal. *)
Lemma go_sort_head_min l x l' y :
  strict_weak less → go_sort less l = x :: l' → y ∈ l → y = x ∨ less y x = false.
Proof.
  intros Hsw Heq Hy. pose proof (go_sort_sorted less l Hsw) as Hs.
  rewrite Heq in Hs. inversion Hs as [|?? _ Hall]; subst.
  rewrite <- (elem_of_go_sort y l), Heq, elem_of_cons in Hy.
  destruct Hy as [->|Hy]; [by left|right].
  rewrite Forall_forall in Hall. by apply Hall.
Qed.

(** When different elements are comparable, the head of the sorted list is the least element,
    and its last the greatest, whichever algorithm sorts. *)
Definition comparable_in (l : list A) : Prop :=
  ∀ a b, a ∈ l → b ∈ l → a ≠ b → less a b = true ∨ less b a = true.

Lemma go_sort_head_least l x :
  strict_weak_in less l → comparable_in l → head (go_sort less l) = Some x →
  x ∈ l ∧ ∀ y, y ∈ l → y ≠ x → less x y = true.
Proof.
  intros Hsw Hcmp Hx. pose proof (go_sort_sorted_in less l Hsw) as Hs.
  pose proof (λ y, elem_of_go_sort y l) as Hel.
  destruct (go_sort less l) as [|z l']; [done|]. injection Hx as ->.
  inversion Hs as [|?? _ Hall]; subst. rewrite Forall_forall in Hall.
  assert (x ∈ l) by (apply Hel; left). split; [done|].
  intros y Hy Hne. destruct (Hcmp x y) as [?|Hyx]; try done.
  apply Hel in Hy as [->|Hy]%elem_of_cons; [done|].
  specialize (Hall y Hy). unfold not_after in Hall. congruence.
Qed.

Lemma go_sort_last_greatest l x :
  strict_weak_in less l → comparable_in l → last (go_sort less l) = Some x →
  x ∈ l ∧ ∀ y, y ∈ l → y ≠ x → less y x = true.
Proof.
  intros Hsw Hcmp [l' Hx]%last_Some. pose proof (go_sort_sorted_in less l Hsw) as Hs.
  pose proof (λ y, elem_of_go_sort y l) as Hel. rewrite Hx in Hs, Hel.
  assert (x ∈ l) by (apply Hel; set_solver). split; [done|].
  intros y Hy Hne. destruct (Hcmp x y) as [Hxy|?]; try done.
  apply Hel, elem_of_app in Hy as [Hy|Hy%list_elem_of_singleton]; [|done].
  assert (not_after less y x) as Hyx
    by (eapply StronglySorted_app_1_elem_of; [exact Hs|done|left]).
  unfold not_after in Hyx. congruence.
Qed.

Lemma go_sort_nil_inv l : go_sort less l = [] → l = [].
Proof.
  intros Hnil. apply Permutation_nil_r. by rewrite <- Hnil, go_sort_perm.
Qed.
End go_sort.
#[export] Hint Resolve NoDup_go_sort : capi.
#[export] Hint Rewrite @elem_of_go_sort @length_go_sort @sumZ_go_sort : capi.

(** The first element of a sorted list with a given property is minimal among those that
    have it. *)
Lemma sorted_filter_head {A} (less : A → A → bool) (Q : A → Prop) `{∀ x, Decision (Q x)}
    (l : list A) x rest :
  StronglySorted (not_after less) l → filter Q l = x :: rest →
  x ∈ l ∧ Q x ∧ ∀ y, y ∈ l → Q y → y = x ∨ less y x = false.
Proof.
  induction 1 as [|z l Hl IH Hz]; [done|]. rewrite filter_cons. case_decide as HQ.
  - intros [= <- _]. split; [set_solver|]. split; [done|].
    intros y [->|Hy]%elem_of_cons _; [by left|right]. rewrite Forall_forall in Hz. by apply Hz.
  - intros Hf. destruct (IH Hf) as (? & ? & Hmin). split; [set_solver|]. split; [done|].
    intros y [->|Hy]%elem_of_cons HQy; [done|by apply Hmin].
Qed.

(** Comparing first by an integer key and then by another order is again an order. *)
Definition lex_less {A} (key : A → Z) (less : A → A → bool) (a b : A) : bool :=
  if key a =? key b then less a b else key a <? key b.

Lemma strict_weak_lex {A} (key : A → Z) (less : A → A → bool) :
  strict_weak less → strict_weak (lex_less key less).
Proof.
  intros Hsw. split; unfold lex_less.
  - intros a b. destruct (Z.eqb_spec (key a) (key b)) as [e|n].
    + rewrite e, Z.eqb_refl. apply (sw_asym less Hsw).
    + rewrite (proj2 (Z.eqb_neq _ _) (not_eq_sym n)), Z.ltb_lt, Z.ltb_ge. lia.
  - intros a b c. destruct (Z.eqb_spec (key b) (key a)), (Z.eqb_spec (key c) (key b)),
      (Z.eqb_spec (key c) (key a)); rewrite ?Z.ltb_ge; try lia.
    apply (sw_negtrans less Hsw).
Qed.

Lemma strict_weak_string {A} (name : A → string) :
  strict_weak (λ a b, string_ltb (name a) (name b)).
Proof.
  split; [intros a b; apply string_ltb_asym|].
  intros a b c Hba Hcb. destruct (string_ltb (name c) (name a)) eqn:Hca; [|done].
  destruct (string_ltb (name a) (name b)) eqn:Hab.
  - by rewrite (string_ltb_trans _ _ _ Hca Hab) in Hcb.
  - rewrite <- (string_ltb_total _ _ Hab Hba) in Hcb. congruence.
Qed.

Lemma strict_weak_key {A} (key : A → Z) : strict_weak (λ a b, key a <? key b).
Proof. split; intros *; rewrite ?Z.ltb_lt, ?Z.ltb_ge; lia. Qed.

(** [sort.Reverse]. *)
Definition reverse_less {A} (less : A → A → bool) (a b : A) : bool := less b a.

Lemma strict_weak_reverse {A} (less : A → A → bool) :
  strict_weak less → strict_weak (reverse_less less).
Proof.
  intros Hsw. split; unfold reverse_less; intros *.
  - apply (sw_asym less Hsw).
  - intros Hba Hcb. exact (sw_negtrans less Hsw _ _ _ Hcb Hba).
Qed.

(** An order pulled back along a function. *)
Lemma strict_weak_on {A B} (f : A → B) (less : B → B → bool) :
  strict_weak less → strict_weak (λ a b, less (f a) (f b)).
Proof. intros Hsw. split; intros *; [apply Hsw|apply Hsw]. Qed.

#[export] Hint Resolve strict_weak_lex strict_weak_string strict_weak_key
  strict_weak_reverse strict_weak_on : capi.

(** ** Iterating over a map

    [for k, v := range m] visits every entry once, in an order that may differ from one loop
    to the next.  The class is that contract; a result that depends on the order is a
    function of the instance. *)

Class GoRange := {
  go_range : ∀ {A : Type}, gmap string A → list (string * A);
  go_range_perm : ∀ {A : Type} (m : gmap string A), go_range m ≡ₚ map_to_list m;
}.

#[export] Instance sorted_GoRange : GoRange | 100 := {
  go_range A m := map_to_list m;
  go_range_perm A m := reflexivity _;
}.

Definition go_values `{GoRange} {A} (m : gmap string A) : list A := (go_range m).*2.

Section go_range.
Context `{GoRange} {A : Type}.

Lemma elem_of_go_range (m : gmap string A) k v : (k, v) ∈ go_range m ↔ m !! k = Some v.
Proof. by rewrite go_range_perm, elem_of_map_to_list. Qed.

Lemma elem_of_go_keys (m : gmap string A) k : k ∈ (go_range m).*1 ↔ is_Some (m !! k).
Proof.
  rewrite list_elem_of_fmap. split.
  - intros ([k' v] & -> & Hin%elem_of_go_range). eauto.
  - intros [v Hv]. exists (k, v). by rewrite elem_of_go_range.
Qed.

Lemma elem_of_go_values (m : gmap string A) v : v ∈ go_values m ↔ ∃ k, m !! k = Some v.
Proof.
  unfold go_values. rewrite list_elem_of_fmap. split.
  - intros ([k w] & -> & Hin). exists k. by apply elem_of_go_range.
  - intros [k Hk]. exists (k, v). by rewrite elem_of_go_range.
Qed.

Lemma length_go_values (m : gmap string A) : length (go_values m) = size m.
Proof. unfold go_values. by rewrite length_fmap, go_range_perm, length_map_to_list. Qed.

Lemma go_values_nil (m : gmap string A) : go_values m = [] → m = ∅.
Proof. intros E. apply map_size_empty_inv. by rewrite <- length_go_values, E. Qed.
End go_range.
#[export] Hint Rewrite @elem_of_go_values @length_go_values : capi.
