(* ===== verification/GoStd.v ===== *)
(** * The part of the Go standard library the sources use

    [strconv] (decimal integers), [strings], the argument-free case of [fmt.Sprintf] and
    the instants of [time] / [metav1.Time].  Strings are byte strings, as in Go. *)

From S2P Require Import Prelude.
From Stdlib Require Import Ascii.

(** ** strconv *)

Inductive num_error := ErrSyntax | ErrRange.

Definition digit_of (c : ascii) : option Z :=
  let n := Z.of_N (N_of_ascii c) in
  if (48 <=? n) && (n <=? 57) then Some (n - 48) else None.

Definition digit_char (d : Z) : ascii := ascii_of_N (Z.to_N (48 + d)).

(** The digit loop of [strconv.ParseUint]: it stops at the first non-digit with value 0,
    and at the first overflow with the largest value. *)
Fixpoint parse_loop (maxVal n : Z) (s : string) : Z * option num_error :=
  match s with
  | EmptyString => (n, None)
  | String c s' =>
      match digit_of c with
      | None => (0, Some ErrSyntax)
      | Some d =>
          if maxVal <? n * 10 + d then (maxVal, Some ErrRange)
          else parse_loop maxVal (n * 10 + d) s'
      end
  end.

(** [strconv.ParseUint(s, 10, bitSize)]. *)
Definition ParseUint (s : string) (bitSize : Z) : Z * option num_error :=
  match s with
  | EmptyString => (0, Some ErrSyntax)
  | _ => parse_loop (2 ^ bitSize - 1) 0 s
  end.

(** [strconv.ParseInt(s, 10, bitSize)]. *)
Definition ParseInt (s : string) (bitSize : Z) : Z * option num_error :=
  let cutoff := 2 ^ (bitSize - 1) in
  let signed (neg : bool) (body : string) :=
    match ParseUint body bitSize with
    | (_, Some ErrSyntax) => (0, Some ErrSyntax)
    | (un, _) =>
        if neg then (if cutoff <? un then (- cutoff, Some ErrRange) else (- un, None))
        else if cutoff <=? un then (cutoff - 1, Some ErrRange) else (un, None)
    end in
  match s with
  | EmptyString => (0, Some ErrSyntax)
  | String c s' =>
      if Ascii.eqb c "+" then signed false s'
      else if Ascii.eqb c "-" then signed true s'
      else signed false s
  end.

Fixpoint format_digits (fuel : nat) (n : Z) (acc : string) : string :=
  match fuel with
  | O => acc
  | S fuel =>
      let acc' := String (digit_char (n mod 10)) acc in
      if n <? 10 then acc' else format_digits fuel (n / 10) acc'
  end.

(** A number has at most as many decimal digits as binary ones. *)
Definition FormatUint (n : Z) : string :=
  format_digits (S (Z.to_nat (Z.log2 n))) n EmptyString.

(** [strconv.FormatInt(i, 10)], also [fmt.Sprintf("%d", i)]. *)
Definition FormatInt (i : Z) : string :=
  if i <? 0 then String "-" (FormatUint (- i)) else FormatUint i.

Lemma digit_of_char d : 0 ≤ d < 10 → digit_of (digit_char d) = Some d.
Proof.
  intros H. assert (d = 0 ∨ d = 1 ∨ d = 2 ∨ d = 3 ∨ d = 4 ∨ d = 5 ∨ d = 6 ∨ d = 7
    ∨ d = 8 ∨ d = 9) as E by lia.
  repeat (destruct E as [->|E]; [done|]). by subst d.
Qed.

Lemma parse_format_digits maxVal fuel n acc :
  0 ≤ n ≤ maxVal → n < 2 ^ Z.of_nat fuel →
  parse_loop maxVal 0 (format_digits fuel n acc) = parse_loop maxVal n acc.
Proof.
  revert n acc. induction fuel as [|fuel IH]; intros n acc Hn Hf; simpl format_digits.
  { simpl in Hf. replace n with 0 by lia. done. }
  pose proof (Z.mod_pos_bound n 10). pose proof (Z.div_mod n 10).
  destruct (Z.ltb_spec n 10).
  - cbn [parse_loop]. rewrite Z.mod_small, digit_of_char by lia.
    replace (0 * 10 + n) with n by lia. by rewrite (proj2 (Z.ltb_ge maxVal n)) by lia.
  - rewrite IH; [|nia|].
    + cbn [parse_loop]. rewrite digit_of_char by lia.
      replace (n / 10 * 10 + n mod 10) with n by lia.
      by rewrite (proj2 (Z.ltb_ge maxVal n)) by lia.
    + rewrite Nat2Z.inj_succ, Z.pow_succ_r in Hf by lia.
      apply Z.div_lt_upper_bound; lia.
Qed.

Lemma FormatUint_fuel n : 0 ≤ n → n < 2 ^ Z.of_nat (S (Z.to_nat (Z.log2 n))).
Proof.
  intros Hn. destruct (Z.eq_dec n 0) as [->|]; [done|].
  rewrite Nat2Z.inj_succ, Z2Nat.id by apply Z.log2_nonneg.
  apply Z.log2_spec. lia.
Qed.

Lemma format_digits_cons fuel n c s :
  ∃ c' s', format_digits fuel n (String c s) = String c' s'.
Proof.
  revert n c s. induction fuel as [|fuel IH]; intros n c s; simpl; [eauto|].
  destruct (n <? 10); eauto.
Qed.

Lemma FormatUint_cons n : ∃ c s, FormatUint n = String c s.
Proof.
  unfold FormatUint. simpl. destruct (n <? 10); [eauto|]. apply format_digits_cons.
Qed.

Lemma ParseUint_FormatUint n bits :
  0 ≤ n < 2 ^ bits → ParseUint (FormatUint n) bits = (n, None).
Proof.
  intros Hn. unfold ParseUint. destruct (FormatUint_cons n) as (c & s & E).
  rewrite E, <- E. unfold FormatUint. rewrite parse_format_digits; [done|lia|].
  apply FormatUint_fuel. lia.
Qed.

(** The first character of a formatted natural is a digit, never a sign. *)
Lemma format_digits_head fuel n acc c s :
  0 ≤ n → format_digits fuel n acc = String c s → (0 < fuel)%nat →
  is_Some (digit_of c).
Proof.
  revert n acc. induction fuel as [|fuel IH]; intros n acc Hn Heq Hf; [lia|].
  simpl in Heq. pose proof (Z.mod_pos_bound n 10).
  destruct (n <? 10).
  - injection Heq as <- _. rewrite digit_of_char by lia. eauto.
  - destruct fuel as [|fuel].
    + simpl in Heq. injection Heq as <- _. rewrite digit_of_char by lia. eauto.
    + eapply IH; [|exact Heq|lia]. apply Z.div_pos; lia.
Qed.

Lemma FormatUint_no_sign n c s :
  0 ≤ n → FormatUint n = String c s → Ascii.eqb c "+" = false ∧ Ascii.eqb c "-" = false.
Proof.
  intros Hn E. unfold FormatUint in E.
  apply format_digits_head in E as [d Hd]; [|done|lia].
  split; apply Ascii.eqb_neq; intros ->; discriminate.
Qed.

(** Formatting and then parsing an integer that fits the width gives it back. *)
Lemma ParseInt_FormatInt z bits :
  0 < bits → - 2 ^ (bits - 1) ≤ z < 2 ^ (bits - 1) →
  ParseInt (FormatInt z) bits = (z, None).
Proof.
  intros Hb Hz. assert (2 ^ bits = 2 * 2 ^ (bits - 1)) as Hp.
  { rewrite <- Z.pow_succ_r by lia. f_equal. lia. }
  unfold FormatInt. destruct (Z.ltb_spec z 0).
  - simpl. rewrite ParseUint_FormatUint by lia.
    destruct (Z.ltb_spec (2 ^ (bits - 1)) (- z)); [lia|]. f_equal. lia.
  - destruct (FormatUint_cons z) as (c & s & E).
    destruct (FormatUint_no_sign z c s) as [Hplus Hminus]; [lia|done|].
    rewrite E. unfold ParseInt. rewrite Hplus, Hminus, <- E.
    rewrite ParseUint_FormatUint by lia.
    destruct (Z.leb_spec (2 ^ (bits - 1)) z); [lia|done].
Qed.

Lemma FormatInt_inj32 a b : in_int32 a → in_int32 b → FormatInt a = FormatInt b → a = b.
Proof.
  unfold in_int32, int32_min, int32_max. intros Ha Hb E.
  pose proof (ParseInt_FormatInt a 32) as Pa. pose proof (ParseInt_FormatInt b 32) as Pb.
  rewrite E, Pb in Pa by lia. assert ((b, @None num_error) = (a, None)) by (apply Pa; lia).
  congruence.
Qed.

Lemma string_app_nil_r s : s +:+ "" = s.
Proof. induction s as [|c s IH]; [done|]. exact (f_equal (String c) IH). Qed.

Lemma string_app_assoc s t u : s +:+ (t +:+ u) = (s +:+ t) +:+ u.
Proof. induction s as [|c s IH]; [done|]. exact (f_equal (String c) IH). Qed.

(** Decimal representations, digit by digit. *)
Lemma format_digits_fuel fuel fuel' n acc :
  0 ≤ n < 2 ^ Z.of_nat fuel → n < 2 ^ Z.of_nat fuel' → (0 < fuel)%nat → (0 < fuel')%nat →
  format_digits fuel n acc = format_digits fuel' n acc.
Proof.
  revert fuel' n acc. induction fuel as [|fuel IH]; intros [|fuel'] n acc Hn Hn' Hf Hf'; try lia.
  simpl. destruct (Z.ltb_spec n 10); [done|].
  rewrite !Nat2Z.inj_succ, !Z.pow_succ_r in * by lia.
  assert (n / 10 * 2 ≤ n) by (pose proof (Z.div_mod n 10); pose proof (Z.mod_pos_bound n 10); lia).
  assert (0 < n / 10) by (apply Z.div_str_pos; lia).
  apply IH; [lia|lia| |].
  - destruct fuel; [simpl in *; lia|lia].
  - destruct fuel'; [simpl in *; lia|lia].
Qed.

Lemma format_digits_app fuel n s acc :
  format_digits fuel n (s +:+ acc) = format_digits fuel n s +:+ acc.
Proof.
  revert n s. induction fuel as [|fuel IH]; intros n s; simpl; [done|].
  destruct (n <? 10); [done|]. apply (IH _ (String _ s)).
Qed.

Lemma FormatUint_snoc n d :
  0 < n → 0 ≤ d < 10 →
  FormatUint (n * 10 + d) = FormatUint n +:+ String (digit_char d) EmptyString.
Proof.
  intros Hn Hd. unfold FormatUint at 1. cbn [format_digits].
  destruct (Z.ltb_spec (n * 10 + d) 10); [lia|].
  replace ((n * 10 + d) mod 10) with d by (rewrite Z.add_comm, Z.mod_add, Z.mod_small; lia).
  replace ((n * 10 + d) / 10) with n by (rewrite Z.div_add_l, Z.div_small; lia).
  unfold FormatUint. rewrite <- format_digits_app. simpl (EmptyString +:+ _).
  assert (4 ≤ Z.log2 (n * 10 + d) ∨ Z.log2 (n * 10 + d) = 3) as Hl.
  { pose proof (Z.log2_le_mono 10 (n * 10 + d)). change (Z.log2 10) with 3 in *. lia. }
  apply format_digits_fuel; [|apply FormatUint_fuel; lia|lia|lia]. split; [lia|].
  rewrite Z2Nat.id by lia. pose proof (Z.log2_spec (n * 10 + d)) as Hs.
  rewrite Z.pow_succ_r in Hs by lia. lia.
Qed.

Lemma FormatUint_0 : FormatUint 0 = "0"%string.
Proof. done. Qed.

Lemma digit_of_inv c d : digit_of c = Some d → 0 ≤ d < 10 ∧ c = digit_char d.
Proof.
  unfold digit_of. case_match eqn:E; [|done]. intros [= <-].
  apply andb_true_iff in E as [?%Z.leb_le ?%Z.leb_le]. split; [lia|].
  unfold digit_char. replace (48 + _) with (Z.of_N (N_of_ascii c)) by lia.
  by rewrite N2Z.id, ascii_N_embedding.
Qed.

(** What the digit loop reads is the decimal representation of what it returns. *)
Lemma parse_loop_format maxVal n s m :
  0 < n → parse_loop maxVal n s = (m, None) → FormatUint m = FormatUint n +:+ s ∧ n ≤ m.
Proof.
  revert n. induction s as [|c s IH]; intros n Hn; simpl.
  { intros [= <-]. by rewrite string_app_nil_r. }
  destruct (digit_of c) as [d|] eqn:E; [|done]. case_match; [done|]. intros Hp.
  apply digit_of_inv in E as [Hd ->]. destruct (IH (n * 10 + d) ltac:(lia) Hp) as [-> Hm].
  split; [|lia]. by rewrite FormatUint_snoc, <- string_app_assoc by lia.
Qed.

Lemma parse_loop_range maxVal n s m : parse_loop maxVal n s = (m, None) → n ≤ maxVal → m ≤ maxVal.
Proof.
  revert n. induction s as [|c s IH]; intros n; simpl; [by intros [= ->]|].
  destruct (digit_of c); [|done]. case_match eqn:E; [done|]. intros Hp _.
  apply Z.ltb_ge in E. by apply (IH _ Hp).
Qed.

(** ** strings *)

(** [strings.Split(s, sep)] for a one-byte separator. *)
Fixpoint Split (s : string) (sep : ascii) : list string :=
  match s with
  | EmptyString => [EmptyString]
  | String c s' =>
      if Ascii.eqb c sep then EmptyString :: Split s' sep
      else match Split s' sep with
           | [] => [String c EmptyString]
           | p :: ps => String c p :: ps
           end
  end.

(** [strings.Join(elems, sep)]. *)
Definition Join (elems : list string) (sep : string) : string := String.concat sep elems.

Lemma Split_cons s sep : ∃ p ps, Split s sep = p :: ps.
Proof.
  induction s as [|c s (p & ps & IH)]; simpl; [eauto|].
  rewrite IH. destruct (Ascii.eqb c sep); eauto.
Qed.

Lemma Join_cons p q ps sep : Join (p :: q :: ps) sep = p +:+ sep +:+ Join (q :: ps) sep.
Proof. done. Qed.

Lemma Join_Split s sep : Join (Split s sep) (String sep EmptyString) = s.
Proof.
  induction s as [|c s IH]; simpl; [done|].
  destruct (Split_cons s sep) as (p & ps & E). rewrite E in *.
  destruct (Ascii.eqb_spec c sep) as [->|].
  - rewrite Join_cons, IH. done.
  - destruct ps as [|q ps]; [by simpl in *; subst|].
    rewrite Join_cons in IH |- *. by rewrite <- IH.
Qed.

(** [strings.Contains(s, "c")] for a one-byte needle. *)
Fixpoint ContainsByte (s : string) (c : ascii) : bool :=
  match s with
  | EmptyString => false
  | String c' s' => Ascii.eqb c' c || ContainsByte s' c
  end.

Lemma Split_none s sep : ContainsByte s sep = false → Split s sep = [s].
Proof.
  induction s as [|c s IH]; simpl; [done|]. destruct (Ascii.eqb c sep); [done|].
  intros Hc. by rewrite IH.
Qed.

(** The first separator splits off what is before it. *)
Lemma Split_app s t sep :
  ContainsByte s sep = false → Split (s +:+ String sep t) sep = s :: Split t sep.
Proof.
  induction s as [|c s IH]; simpl; [by rewrite Ascii.eqb_refl|].
  destruct (Ascii.eqb c sep); [done|]. intros Hc. by rewrite IH.
Qed.

(** A formatted number has only digits. *)
Lemma Split_no_sep s sep x : x ∈ Split s sep → ContainsByte x sep = false.
Proof.
  revert x. induction s as [|c s IH]; intros x; simpl.
  { intros ->%list_elem_of_singleton. done. }
  destruct (Ascii.eqb c sep) eqn:Hc.
  - intros [->|Hx]%elem_of_cons; [done|by apply IH].
  - destruct (Split_cons s sep) as (p & ps & E). rewrite E in *.
    intros [->|Hx]%elem_of_cons; simpl.
    + rewrite Hc. apply IH. left.
    + apply IH. by right.
Qed.

Lemma Split_Join l sep :
  l ≠ [] → Forall (λ x, ContainsByte x sep = false) l →
  Split (Join l (String sep EmptyString)) sep = l.
Proof.
  intros Hne Hl. induction Hl as [|x l Hx Hl IH]; [done|].
  destruct l as [|y l]; [by apply Split_none|].
  rewrite Join_cons. change (String sep "" +:+ ?j) with (String sep j).
  rewrite Split_app by done. f_equal. by apply IH.
Qed.

Lemma format_digits_contains c fuel n acc :
  digit_of c = None → ContainsByte acc c = false → ContainsByte (format_digits fuel n acc) c = false.
Proof.
  intros Hc. revert n acc. induction fuel as [|fuel IH]; intros n acc Hacc; simpl; [done|].
  assert (ContainsByte (String (digit_char (n mod 10)) acc) c = false) as Hd.
  { simpl. destruct (Ascii.eqb_spec (digit_char (n mod 10)) c) as [<-|]; [|done].
    rewrite digit_of_char in Hc by (apply Z.mod_pos_bound; lia). done. }
  case_match; [done|]. by apply IH.
Qed.

Lemma FormatUint_contains c n : digit_of c = None → ContainsByte (FormatUint n) c = false.
Proof. intros Hc. unfold FormatUint. by apply format_digits_contains. Qed.


(** [strings.HasSuffix(s, suffix)]. *)
Fixpoint HasSuffix (s suffix : string) : bool :=
  String.eqb s suffix || match s with EmptyString => false | String _ s' => HasSuffix s' suffix end.

(** [strings.TrimSuffix(s, suffix)]. *)
Definition TrimSuffix (s suffix : string) : string :=
  if HasSuffix s suffix
  then String.substring 0 (String.length s - String.length suffix) s else s.

Fixpoint HasPrefix (s prefix : string) : bool :=
  match prefix, s with
  | EmptyString, _ => true
  | String p prefix', String c s' => Ascii.eqb c p && HasPrefix s' prefix'
  | String _ _, EmptyString => false
  end.

Definition TrimPrefix (s prefix : string) : string :=
  if HasPrefix s prefix
  then String.substring (String.length prefix) (String.length s - String.length prefix) s else s.

Definition bytes (l : list N) : string :=
  foldr (λ n s, String (ascii_of_N n) s) EmptyString l.

(** The white space of Unicode, as UTF-8. *)
Definition white_space : list string :=
  (bytes <$> [[9]; [10]; [11]; [12]; [13]; [32]; [194; 133]; [194; 160]; [225; 154; 128];
    [226; 128; 168]; [226; 128; 169]; [226; 128; 175]; [226; 129; 159]; [227; 128; 128]]%N)
  ++ ((λ n, bytes [226; 128; n]%N) <$> [128; 129; 130; 131; 132; 133; 134; 135; 136; 137; 138]%N).

Definition trim_once (strip : string → string → string) (s : string) : string :=
  foldl strip s white_space.

(** Every round that changes the string makes it shorter. *)
Fixpoint trim_rounds (fuel : nat) (strip : string → string → string) (s : string) : string :=
  match fuel with O => s | S fuel => trim_rounds fuel strip (trim_once strip s) end.

(** [strings.TrimSpace(s)]. *)
Definition TrimSpace (s : string) : string :=
  let left := trim_rounds (String.length s) TrimPrefix s in
  trim_rounds (String.length left) TrimSuffix left.

(** ** fmt

    [fmt.Sprintf(format)] with no further argument: text is copied, ["%%"] prints a
    percent sign, and every other verb has no argument to print.  Flags, width and
    precision are skipped; [*] asks for a missing width or precision. *)

Inductive fmt_state := Text | Verb (flags : bool) (prec : bool).

Definition in_range (c : ascii) (lo hi : N) : bool :=
  (lo <=? N_of_ascii c)%N && (N_of_ascii c <=? hi)%N.

Fixpoint sprintf_loop (st : fmt_state) (s : string) : string :=
  match st, s with
  | Text, EmptyString => ""
  | Text, String c s' =>
      if Ascii.eqb c "%" then sprintf_loop (Verb true false) s'
      else String c (sprintf_loop Text s')
  | Verb _ _, EmptyString => "%!(NOVERB)"
  | Verb flags prec, String c s' =>
      if flags && (Ascii.eqb c "#" || Ascii.eqb c "0" || Ascii.eqb c "+" || Ascii.eqb c "-"
                   || Ascii.eqb c " ")
      then sprintf_loop (Verb true prec) s'
      else if in_range c 48 57 then sprintf_loop (Verb false prec) s'
      else if negb prec && Ascii.eqb c "." then sprintf_loop (Verb false true) s'
      else if Ascii.eqb c "*"
      then (if prec then "%!(BADPREC)" else "%!(BADWIDTH)") +:+ sprintf_loop (Verb false prec) s'
      else if Ascii.eqb c "%" then String c (sprintf_loop Text s')
      else "%!" +:+ String c "(MISSING)" +:+ sprintf_loop Text s'
  end.

(** [%q] of a string of printable ASCII without quotes and backslashes. *)
Definition quoted (s : string) : string := String (ascii_of_N 34) (s +:+ bytes [34]%N).

(** The text of a [*strconv.NumError]. *)
Definition NumError_Error (func num : string) (e : num_error) : string :=
  "strconv." +:+ func +:+ ": parsing " +:+ quoted num +:+ ": "
  +:+ match e with ErrSyntax => "invalid syntax" | ErrRange => "value out of range" end.

Definition Sprintf (format : string) : string := sprintf_loop Text format.

Lemma Sprintf_no_verb format : ContainsByte format "%" = false → Sprintf format = format.
Proof.
  unfold Sprintf. induction format as [|c s IH]; simpl; [done|].
  intros [-> H]%orb_false_iff. by rewrite IH.
Qed.

(** ** time

    An instant is a number of nanoseconds since the zero [time.Time]; a [*metav1.Time] is
    an optional instant.  [time.Duration] is a number of nanoseconds. *)

Abbreviation Time := Z (only parsing).
Definition zero_time : Time := 0.
Definition Second : Z := 10 ^ 9.
Definition Minute : Z := 60 * Second.
Definition Hour : Z := 60 * Minute.

(** [t.Sub(u)], which stops at the limits of a duration. *)
Definition time_Sub (t u : Time) : Z := Z.max int64_min (Z.min int64_max (t - u)).

(** [time.fmtFrac]: the fraction of [v / 10^prec] without trailing zeros, and [v / 10^prec]. *)
Fixpoint fmtFrac (prec : nat) (v : Z) (print : bool) (acc : string) : string * Z :=
  match prec with
  | O => (if print then String (ascii_of_N 46) acc else acc, v)
  | S prec =>
      let digit := v mod 10 in
      let print := print || negb (digit =? 0) in
      fmtFrac prec (v / 10) print (if print then String (digit_char digit) acc else acc)
  end.

(** [time.Duration.String]; the micro sign takes two bytes. *)
Definition Duration_String (d : Z) : string :=
  let u := Z.abs d in
  let text :=
    if u =? 0 then "0s"%string
    else if u <? Second then
      let '(prec, unit) :=
        if u <? 10 ^ 3 then (0%nat, "ns"%string)
        else if u <? 10 ^ 6 then (3%nat, bytes [194; 181; 115]%N)
        else (6%nat, "ms"%string) in
      let '(frac, v) := fmtFrac prec u false unit in FormatUint v +:+ frac
    else
      let '(frac, secs) := fmtFrac 9 u false "s" in
      let s := FormatUint (secs mod 60) +:+ frac in
      let mins := secs / 60 in
      if 0 <? mins then
        let s := FormatUint (mins mod 60) +:+ "m" +:+ s in
        let hours := mins / 60 in
        if 0 <? hours then FormatUint hours +:+ "h" +:+ s else s
      else s in
  if d <? 0 then "-" +:+ text else text.

Example Duration_String_examples :
  Duration_String (10 * Minute) = "10m0s"%string ∧ Duration_String (90 * Minute) = "1h30m0s"%string ∧
  Duration_String 1500000000 = "1.5s"%string ∧ Duration_String (-1500000) = "-1.5ms"%string ∧
  Duration_String 0 = "0s"%string.
Proof. by vm_compute. Qed.

(** [metav1.Time.IsZero]: nil or the zero instant. *)
Definition IsZero (t : option Time) : bool :=
  match t with None => true | Some t => t =? zero_time end.

(** [metav1.Time.Before]: false as soon as one side is nil. *)
Definition Before (t u : option Time) : bool :=
  match t, u with Some t, Some u => t <? u | _, _ => false end.

(** [metav1.Time.Equal]. *)
Definition TimeEqual (t u : option Time) : bool :=
  match t, u with Some t, Some u => t =? u | None, None => true | _, _ => false end.

(** [t.Truncate(time.Second)]. *)
Definition TruncateSecond (t : Time) : Time := t - t mod Second.
