(* ===== verification/Json.v ===== *)
(** * JSON texts (encoding/json)

    The part of the standard library that the stored JSON of the program goes through: the
    encoding of strings, and the scanner and decoder of values.  Texts are byte strings. *)

From Stdlib Require Import Ascii.
From S2P Require Import Prelude GoStd.

Inductive json :=
| JNull
| JBool (b : bool)
| JNumber (literal : string)
| JString (s : string)
| JArray (l : list json)
| JObject (fields : list (string * json)).

Lemma json_ind' (P : json → Prop) :
  P JNull → (∀ b, P (JBool b)) → (∀ n, P (JNumber n)) → (∀ s, P (JString s)) →
  (∀ l, Forall P l → P (JArray l)) → (∀ fields, Forall (λ kv, P kv.2) fields → P (JObject fields)) →
  ∀ v, P v.
Proof.
  intros Hn Hb Hnum Hs Ha Ho. fix go 1. intros [|b|n|s|l|fields]; [done|apply Hb|apply Hnum|apply Hs|..].
  - apply Ha. induction l as [|v l IH]; constructor; [apply go|exact IH].
  - apply Ho. induction fields as [|[k v] fields IH]; constructor; [apply go|exact IH].
Qed.

Fixpoint json_eqb (a b : json) : bool :=
  match a, b with
  | JNull, JNull => true
  | JBool x, JBool y => Bool.eqb x y
  | JNumber x, JNumber y => String.eqb x y
  | JString x, JString y => String.eqb x y
  | JArray l, JArray k =>
      (fix go (l k : list json) : bool :=
         match l, k with
         | [], [] => true
         | x :: l, y :: k => json_eqb x y && go l k
         | _, _ => false
         end) l k
  | JObject l, JObject k =>
      (fix go (l k : list (string * json)) : bool :=
         match l, k with
         | [], [] => true
         | (f, x) :: l, (g, y) :: k => String.eqb f g && json_eqb x y && go l k
         | _, _ => false
         end) l k
  | _, _ => false
  end.

Lemma json_eqb_eq a b : json_eqb a b = true ↔ a = b.
Proof.
  revert b. induction a as [|x|x|x|l IH|l IH] using json_ind'; intros b; destruct b as [|y|y|y|k|k]; simpl;
    try (by split); rewrite ?eqb_true_iff, ?String.eqb_eq; try (by split; congruence).
  - revert k. induction l as [|x l IHl]; intros [|y k]; try (by split).
    apply Forall_cons in IH as [IHx IH]. rewrite andb_true_iff, IHx, (IHl IH k).
    split; [by intros [-> [= ->]]|by intros [= -> ->]].
  - revert k. induction l as [|[f x] l IHl]; intros [|[g y] k]; try (by split).
    apply Forall_cons in IH as [IHx IH]. rewrite !andb_true_iff, String.eqb_eq, (IHx y), (IHl IH k). simpl.
    split; [by intros [[-> ->] [= ->]]|by intros [= -> -> ->]].
Qed.

#[export] Instance json_eq_dec : EqDecision json.
Proof. intros a b. refine (cast_if (decide (json_eqb a b = true))); by rewrite <- json_eqb_eq. Defined.

(** ** Bytes *)

Definition byte (c : ascii) : Z := Z.of_N (N_of_ascii c).
Definition of_byte (z : Z) : ascii := ascii_of_N (Z.to_N z).

Definition hex_digit (n : Z) : ascii := of_byte (if n <? 10 then 48 + n else 87 + n).

Definition hex_value (c : ascii) : option Z :=
  let b := byte c in
  if (48 <=? b) && (b <=? 57) then Some (b - 48)
  else if (97 <=? b) && (b <=? 102) then Some (b - 87)
  else if (65 <=? b) && (b <=? 70) then Some (b - 55)
  else None.

Definition quote : ascii := of_byte 34.
Definition backslash : ascii := of_byte 92.

(** ** UTF-8 (unicode/utf8) *)

(** The rune at the start of a text whose first byte is at least 0x80, with the bytes it
    takes; [None] for an invalid sequence, which is one byte long. *)
Definition continuation (b : Z) : bool := (128 <=? b) && (b <=? 191).

Definition multi_byte_rune (b0 : Z) (rest : list Z) : option (Z * nat) :=
  match rest with
  | b1 :: rest1 =>
      if (194 <=? b0) && (b0 <=? 223) && continuation b1 then Some ((b0 - 192) * 64 + (b1 - 128), 2%nat)
      else
        match rest1 with
        | b2 :: rest2 =>
            let lo := if b0 =? 224 then 160 else 128 in
            let hi := if b0 =? 237 then 159 else 191 in
            if (224 <=? b0) && (b0 <=? 239) && (lo <=? b1) && (b1 <=? hi) && continuation b2
            then Some ((b0 - 224) * 4096 + (b1 - 128) * 64 + (b2 - 128), 3%nat)
            else
              match rest2 with
              | b3 :: _ =>
                  let lo := if b0 =? 240 then 144 else 128 in
                  let hi := if b0 =? 244 then 143 else 191 in
                  if (240 <=? b0) && (b0 <=? 244) && (lo <=? b1) && (b1 <=? hi) && continuation b2
                     && continuation b3
                  then Some ((b0 - 240) * 262144 + (b1 - 128) * 4096 + (b2 - 128) * 64 + (b3 - 128), 4%nat)
                  else None
              | [] => None
              end
        | [] => None
        end
  | [] => None
  end.

(** [utf8.AppendRune]; a rune that is no code point is the replacement character. *)
Definition append_rune (r : Z) : string :=
  let r := if (r <? 0) || (1114111 <? r) || ((55296 <=? r) && (r <=? 57343)) then 65533 else r in
  if r <=? 127 then String (of_byte r) EmptyString
  else if r <=? 2047 then
    String (of_byte (192 + r / 64)) (String (of_byte (128 + r mod 64)) EmptyString)
  else if r <=? 65535 then
    String (of_byte (224 + r / 4096)) (String (of_byte (128 + r / 64 mod 64))
      (String (of_byte (128 + r mod 64)) EmptyString))
  else
    String (of_byte (240 + r / 262144)) (String (of_byte (128 + r / 4096 mod 64))
      (String (of_byte (128 + r / 64 mod 64)) (String (of_byte (128 + r mod 64)) EmptyString))).

Fixpoint first_bytes (n : nat) (s : string) : list Z :=
  match n, s with S n, String c s => byte c :: first_bytes n s | _, _ => [] end.

Definition rune_at (c : ascii) (rest : string) : option (Z * nat) :=
  multi_byte_rune (byte c) (first_bytes 3 rest).

(** ** Encoding a string *)

Definition unicode_escape (n : Z) : string :=
  String backslash (String (of_byte 117) (String (hex_digit (n / 4096)) (String (hex_digit (n / 256 mod 16))
    (String (hex_digit (n / 16 mod 16)) (String (hex_digit (n mod 16)) EmptyString))))).

Definition short_escape (c : ascii) : string := String backslash (String c EmptyString).

(** A byte below 0x80, with HTML escaping. *)
Definition encode_ascii (c : ascii) : string :=
  let b := byte c in
  if (b =? 92) || (b =? 34) then short_escape c
  else if b =? 8 then short_escape (of_byte 98)
  else if b =? 12 then short_escape (of_byte 102)
  else if b =? 10 then short_escape (of_byte 110)
  else if b =? 13 then short_escape (of_byte 114)
  else if b =? 9 then short_escape (of_byte 116)
  else if (b <? 32) || (b =? 60) || (b =? 62) || (b =? 38) then unicode_escape b
  else String c EmptyString.

(** [copy] and [drop] count the bytes of a rune that are still to be copied or left out. *)
Fixpoint encode_bytes (copy drop : nat) (s : string) : string :=
  match s with
  | EmptyString => EmptyString
  | String c rest =>
      match copy, drop with
      | S copy, _ => String c (encode_bytes copy drop rest)
      | O, S drop => encode_bytes 0 drop rest
      | O, O =>
          if byte c <? 128 then encode_ascii c +:+ encode_bytes 0 0 rest
          else
            match rune_at c rest with
            | None => unicode_escape 65533 +:+ encode_bytes 0 0 rest
            | Some (r, n) =>
                if (r =? 8232) || (r =? 8233)
                then unicode_escape r +:+ encode_bytes 0 (n - 1) rest
                else String c (encode_bytes (n - 1) 0 rest)
            end
      end
  end.

Definition encode_string (s : string) : string :=
  String quote (encode_bytes 0 0 s +:+ String quote EmptyString).

(** ** Decoding *)

Definition is_space (c : ascii) : bool :=
  let b := byte c in (b =? 32) || (b =? 9) || (b =? 10) || (b =? 13).

Fixpoint skip_space (s : string) : string :=
  match s with
  | String c s' => if is_space c then skip_space s' else s
  | EmptyString => EmptyString
  end.

Definition hex4 (a b c d : ascii) : option Z :=
  match hex_value a, hex_value b, hex_value c, hex_value d with
  | Some a, Some b, Some c, Some d => Some (a * 4096 + b * 256 + c * 16 + d)
  | _, _, _, _ => None
  end.

Definition is_surrogate (r : Z) : bool := (55296 <=? r) && (r <=? 57343).

(** [utf16.DecodeRune]. *)
Definition surrogate_pair (r1 r2 : Z) : option Z :=
  if (55296 <=? r1) && (r1 <? 56320) && (56320 <=? r2) && (r2 <? 57344)
  then Some ((r1 - 55296) * 1024 + (r2 - 56320) + 65536) else None.

Definition unescape (c : ascii) : option string :=
  let b := byte c in
  if (b =? 34) || (b =? 92) || (b =? 47) then Some (String c EmptyString)
  else if b =? 98 then Some (String (of_byte 8) EmptyString)
  else if b =? 102 then Some (String (of_byte 12) EmptyString)
  else if b =? 110 then Some (String (of_byte 10) EmptyString)
  else if b =? 114 then Some (String (of_byte 13) EmptyString)
  else if b =? 116 then Some (String (of_byte 9) EmptyString)
  else None.

Definition prepend (p : string) (r : option (string * string)) : option (string * string) :=
  match r with Some (s, rest) => Some (p +:+ s, rest) | None => None end.

(** The decoded text up to the closing quote, and what follows it.  [copy] is as in the
    encoder; [high] is a high surrogate that waits for its partner. *)
Fixpoint decode_bytes (copy : nat) (high : option Z) (s : string) : option (string * string) :=
  let pending := match high with Some _ => append_rune 65533 | None => EmptyString end in
  match s with
  | EmptyString => None
  | String c rest =>
      match copy with
      | S copy => prepend (String c EmptyString) (decode_bytes copy None rest)
      | O =>
          let b := byte c in
          if b =? 34 then Some (pending, rest)
          else if b =? 92 then
            match rest with
            | EmptyString => None
            | String u rest1 =>
                if byte u =? 117 then
                  match rest1 with
                  | String h1 (String h2 (String h3 (String h4 rest4))) =>
                      match hex4 h1 h2 h3 h4, high with
                      | None, _ => None
                      | Some r, Some r1 =>
                          match surrogate_pair r1 r with
                          | Some both => prepend (append_rune both) (decode_bytes 0 None rest4)
                          | None =>
                              if (55296 <=? r) && (r <? 56320)
                              then prepend pending (decode_bytes 0 (Some r) rest4)
                              else prepend (pending +:+ append_rune r) (decode_bytes 0 None rest4)
                          end
                      | Some r, None =>
                          if (55296 <=? r) && (r <? 56320) then decode_bytes 0 (Some r) rest4
                          else prepend (append_rune r) (decode_bytes 0 None rest4)
                      end
                  | _ => None
                  end
                else
                  match unescape u with
                  | None => None
                  | Some t => prepend (pending +:+ t) (decode_bytes 0 None rest1)
                  end
            end
          else if b <? 32 then None
          else if b <? 128 then prepend (pending +:+ String c EmptyString) (decode_bytes 0 None rest)
          else
            match rune_at c rest with
            | None => prepend (pending +:+ append_rune 65533) (decode_bytes 0 None rest)
            | Some (_, n) => prepend (pending +:+ String c EmptyString) (decode_bytes (n - 1) None rest)
            end
      end
  end.

(** *** Numbers *)

Fixpoint span_digits (s : string) : string * string :=
  match s with
  | String c s' =>
      if in_range c 48 57 then let '(d, rest) := span_digits s' in (String c d, rest)
      else (EmptyString, s)
  | EmptyString => (EmptyString, EmptyString)
  end.

Definition optional_sign (signs : list ascii) (s : string) : string * string :=
  match s with
  | String c s' => if existsb (Ascii.eqb c) signs then (String c EmptyString, s') else (EmptyString, s)
  | EmptyString => (EmptyString, s)
  end.

(** One digit or more. *)
Definition digits1 (s : string) : option (string * string) :=
  match span_digits s with (EmptyString, _) => None | r => Some r end.

Definition scan_int (s : string) : option (string * string) :=
  match s with
  | String c s' =>
      if Ascii.eqb c (of_byte 48) then Some (String c EmptyString, s') else digits1 s
  | EmptyString => None
  end.

Definition scan_frac (s : string) : option (string * string) :=
  match s with
  | String c s' =>
      if Ascii.eqb c (of_byte 46) then prepend (String c EmptyString) (digits1 s')
      else Some (EmptyString, s)
  | EmptyString => Some (EmptyString, EmptyString)
  end.

Definition scan_exp (s : string) : option (string * string) :=
  match s with
  | String c s' =>
      if Ascii.eqb c (of_byte 101) || Ascii.eqb c (of_byte 69) then
        let '(sign, s') := optional_sign [of_byte 43; of_byte 45] s' in
        prepend (String c sign) (digits1 s')
      else Some (EmptyString, s)
  | EmptyString => Some (EmptyString, EmptyString)
  end.

Definition scan_number (s : string) : option (string * string) :=
  let '(sign, s) := optional_sign [of_byte 45] s in
  match scan_int s with
  | None => None
  | Some (i, s) =>
      match scan_frac s with
      | None => None
      | Some (f, s) => prepend (sign +:+ i +:+ f) (scan_exp s)
      end
  end.

(** *** Values

    A value at a nesting depth; every call consumes a byte, so the length of the text is
    enough fuel. *)

Definition max_nesting_depth : Z := 10000.

Definition literal (lit : string) (v : json) (s : string) : option (json * string) :=
  if HasPrefix s lit then Some (v, TrimPrefix s lit) else None.

Fixpoint decode_value (fuel : nat) (depth : Z) (s : string) : option (json * string) :=
  match fuel with
  | O => None
  | S fuel =>
      match skip_space s with
      | EmptyString => None
      | String c rest =>
          let b := byte c in
          if b =? 34 then
            match decode_bytes 0 None rest with
            | Some (t, rest) => Some (JString t, rest)
            | None => None
            end
          else if b =? 91 then
            if max_nesting_depth <=? depth then None
            else
              match skip_space rest with
              | String c' rest' =>
                  if byte c' =? 93 then Some (JArray [], rest')
                  else match decode_elements fuel (depth + 1) rest with
                       | Some (l, rest) => Some (JArray l, rest)
                       | None => None
                       end
              | EmptyString => None
              end
          else if b =? 123 then
            if max_nesting_depth <=? depth then None
            else
              match skip_space rest with
              | String c' rest' =>
                  if byte c' =? 125 then Some (JObject [], rest')
                  else match decode_fields fuel (depth + 1) rest with
                       | Some (l, rest) => Some (JObject l, rest)
                       | None => None
                       end
              | EmptyString => None
              end
          else if b =? 110 then literal "null" JNull (String c rest)
          else if b =? 116 then literal "true" (JBool true) (String c rest)
          else if b =? 102 then literal "false" (JBool false) (String c rest)
          else
            match scan_number (String c rest) with
            | Some (n, rest) => Some (JNumber n, rest)
            | None => None
            end
      end
  end
with decode_elements (fuel : nat) (depth : Z) (s : string) : option (list json * string) :=
  match fuel with
  | O => None
  | S fuel =>
      match decode_value fuel depth s with
      | None => None
      | Some (v, rest) =>
          match skip_space rest with
          | String c rest =>
              if byte c =? 93 then Some ([v], rest)
              else if byte c =? 44 then
                match decode_elements fuel depth rest with
                | Some (l, rest) => Some (v :: l, rest)
                | None => None
                end
              else None
          | EmptyString => None
          end
      end
  end
with decode_fields (fuel : nat) (depth : Z) (s : string) : option (list (string * json) * string) :=
  match fuel with
  | O => None
  | S fuel =>
      match skip_space s with
      | EmptyString => None
      | String q rest =>
          if negb (byte q =? 34) then None
          else
            match decode_bytes 0 None rest with
            | None => None
            | Some (key, rest) =>
                match skip_space rest with
                | String colon rest =>
                    if negb (byte colon =? 58) then None
                    else
                      match decode_value fuel depth rest with
                      | None => None
                      | Some (v, rest) =>
                          match skip_space rest with
                          | String c rest =>
                              if byte c =? 125 then Some ([(key, v)], rest)
                              else if byte c =? 44 then
                                match decode_fields fuel depth rest with
                                | Some (l, rest) => Some ((key, v) :: l, rest)
                                | None => None
                                end
                              else None
                          | EmptyString => None
                          end
                      end
                | EmptyString => None
                end
            end
      end
  end.

(** A text is one value with space around it. *)
Definition decode (s : string) : option json :=
  match decode_value (2 * String.length s + 2) 0 s with
  | Some (v, rest) => match skip_space rest with EmptyString => Some v | _ => None end
  | None => None
  end.

(** ** Round trip of strings *)

Fixpoint all_ascii (s : string) : bool :=
  match s with
  | EmptyString => true
  | String c s => (byte c <? 128) && all_ascii s
  end.

Lemma decode_encode_ascii c t :
  byte c < 128 →
  decode_bytes 0 None (encode_ascii c +:+ t) = prepend (String c EmptyString) (decode_bytes 0 None t).
Proof.
  intros Hc. destruct c as [[] [] [] [] [] [] [] []]; try reflexivity; exfalso; vm_compute in Hc; discriminate.
Qed.

Lemma decode_encode_bytes s rest :
  all_ascii s = true →
  decode_bytes 0 None (encode_bytes 0 0 s +:+ String quote rest) = Some (s, rest).
Proof.
  induction s as [|c s IH]; [done|]. simpl all_ascii. intros [Hc Hs]%andb_true_iff.
  cbn [encode_bytes]. rewrite Hc, <- string_app_assoc, decode_encode_ascii by (by apply Z.ltb_lt).
  by rewrite IH.
Qed.

Lemma decode_value_quote fuel depth t :
  decode_value (S fuel) depth (String quote t) =
    match decode_bytes 0 None t with Some (t, rest) => Some (JString t, rest) | None => None end.
Proof. reflexivity. Qed.

Lemma encode_string_app s rest :
  encode_string s +:+ rest = String quote (encode_bytes 0 0 s +:+ String quote rest).
Proof. unfold encode_string. change (String ?c ?t +:+ rest) with (String c (t +:+ rest)). by rewrite <- string_app_assoc. Qed.

Lemma decode_value_string fuel depth s rest :
  all_ascii s = true →
  decode_value (S fuel) depth (encode_string s +:+ rest) = Some (JString s, rest).
Proof. intros Hs. by rewrite encode_string_app, decode_value_quote, decode_encode_bytes. Qed.

(** An object with one field. *)
Definition encode_field (key value : string) : string :=
  "{" +:+ encode_string key +:+ ":" +:+ encode_string value +:+ "}".

Lemma decode_fields_quote fuel depth t :
  decode_fields (S fuel) depth (String quote t) =
    match decode_bytes 0 None t with
    | None => None
    | Some (key, rest) =>
        match skip_space rest with
        | String colon rest =>
            if negb (byte colon =? 58) then None
            else
              match decode_value fuel depth rest with
              | None => None
              | Some (v, rest) =>
                  match skip_space rest with
                  | String c rest =>
                      if byte c =? 125 then Some ([(key, v)], rest)
                      else if byte c =? 44 then
                        match decode_fields fuel depth rest with
                        | Some (l, rest) => Some ((key, v) :: l, rest)
                        | None => None
                        end
                      else None
                  | EmptyString => None
                  end
              end
        | EmptyString => None
        end
    end.
Proof. reflexivity. Qed.

Lemma decode_object_quote fuel t :
  decode_value (S fuel) 0 (String (of_byte 123) (String quote t)) =
    match decode_fields fuel 1 (String quote t) with
    | Some (l, rest) => Some (JObject l, rest)
    | None => None
    end.
Proof. reflexivity. Qed.

Lemma decode_encode_field key value :
  all_ascii key = true → all_ascii value = true →
  decode (encode_field key value) = Some (JObject [(key, JString value)]).
Proof.
  intros Hk Hv. unfold decode, encode_field.
  set (n := String.length _). assert (1 ≤ n)%nat as Hn by (apply le_n_S, Nat.le_0_l).
  destruct (2 * n + 2)%nat as [|[|[|k]]] eqn:E; [lia..|]. clear E.
  change ("{" +:+ ?t) with (String (of_byte 123) t).
  rewrite encode_string_app, decode_object_quote, decode_fields_quote, decode_encode_bytes by done.
  change (skip_space (":" +:+ ?t)) with (String (of_byte 58) t). simpl negb. cbv iota.
  rewrite decode_value_string by done. reflexivity.
Qed.

(** ** The fuel is enough

    Every parser returns a shorter rest, so a text of [n] bytes needs at most [2 * n + 1]
    calls. *)

Lemma prepend_Some p r s rest :
  prepend p r = Some (s, rest) → ∃ s', r = Some (s', rest).
Proof. destruct r as [[s' rest']|]; [|done]. intros [= _ <-]. eauto. Qed.

Lemma skip_space_length s : (String.length (skip_space s) ≤ String.length s)%nat.
Proof. induction s as [|c s IH]; simpl; [lia|]. destruct (is_space c); simpl; lia. Qed.

Lemma decode_bytes_length copy high s t rest :
  decode_bytes copy high s = Some (t, rest) → (String.length rest < String.length s)%nat.
Proof.
  assert (∀ n copy high s t rest, (String.length s ≤ n)%nat →
    decode_bytes copy high s = Some (t, rest) → (String.length rest < String.length s)%nat) as Hn;
    [|by apply (Hn (String.length s))].
  clear. induction n as [|n IH]; intros copy high s t rest Hl; destruct s as [|c s]; simpl in Hl |- *; try lia; try done.
  assert (∀ copy high u t' rest', (String.length u ≤ String.length s)%nat →
    decode_bytes copy high u = Some (t', rest') → (String.length rest' < S (String.length s))%nat) as IH'.
  { intros copy' high' u t' rest' Hu E. apply IH in E; lia. }
  intros E.
  repeat (case_match; simplify_eq; try (by apply prepend_Some in E as [? E]; eapply IH' in E; simpl in *; lia);
    try (by eapply IH' in E; simpl in *; lia)); try lia.
Qed.

Lemma span_digits_length s : (String.length (span_digits s).2 ≤ String.length s)%nat.
Proof.
  induction s as [|c s IH]; simpl; [lia|]. destruct (in_range c 48 57); simpl; [|lia].
  destruct (span_digits s). simpl in *. lia.
Qed.

Lemma digits1_length s d rest :
  digits1 s = Some (d, rest) → (String.length rest < String.length s)%nat.
Proof.
  unfold digits1. destruct s as [|c s]; [done|]. simpl. destruct (in_range c 48 57); [|done].
  pose proof (span_digits_length s) as Hl. destruct (span_digits s) as [d' r]. simpl in *.
  intros [= _ <-]. lia.
Qed.

Lemma optional_sign_length signs s : (String.length (optional_sign signs s).2 ≤ String.length s)%nat.
Proof. destruct s as [|c s]; simpl; [lia|]. case_match; simpl; lia. Qed.

Lemma scan_number_length s n rest :
  scan_number s = Some (n, rest) → (String.length rest < String.length s)%nat.
Proof.
  unfold scan_number. pose proof (optional_sign_length [of_byte 45] s) as Hs.
  destruct (optional_sign _ s) as [sign s1]. simpl in Hs.
  destruct (scan_int s1) as [[i s2]|] eqn:Ei; [|done].
  assert (String.length s2 < String.length s1)%nat as H2.
  { unfold scan_int in Ei. destruct s1 as [|c s1]; [done|]. case_match.
    - injection Ei as _ <-. simpl. lia.
    - by apply digits1_length in Ei. }
  destruct (scan_frac s2) as [[f s3]|] eqn:Ef; [|done].
  assert (String.length s3 ≤ String.length s2)%nat as H3.
  { unfold scan_frac in Ef. destruct s2 as [|c s2]; [by injection Ef as _ <-|]. case_match.
    - apply prepend_Some in Ef as [? Ef]. apply digits1_length in Ef. simpl. lia.
    - by injection Ef as _ <-. }
  intros [? Ee]%prepend_Some. unfold scan_exp in Ee.
  destruct s3 as [|c s3]; [injection Ee as _ <-; simpl in *; lia|].
  case_match; [|injection Ee as _ <-; simpl in *; lia].
  pose proof (optional_sign_length [of_byte 43; of_byte 45] s3) as H4.
  destruct (optional_sign _ s3) as [sg s4]. apply prepend_Some in Ee as [? Ee].
  apply digits1_length in Ee. simpl in *. lia.
Qed.

Lemma literal_length lit v s w rest :
  lit ≠ EmptyString → literal lit v s = Some (w, rest) → (String.length rest < String.length s)%nat.
Proof.
  intros Hne. unfold literal, TrimPrefix. destruct (HasPrefix s lit) eqn:E; [|done].
  intros [= _ <-].
  assert (∀ s p, HasPrefix s p = true → (String.length p ≤ String.length s)%nat) as Hp.
  { clear. intros s p. revert s. induction p as [|a p IH]; intros [|c s]; simpl; try lia; try done.
    intros [_ Hp]%andb_true_iff. apply IH in Hp. lia. }
  assert (∀ n m s, (String.length (String.substring n m s) ≤ m)%nat) as Hsub.
  { clear. induction n as [|n IHn]; intros m s.
    - revert s. induction m as [|m IH]; intros [|c s]; simpl; try lia. specialize (IH s). lia.
    - destruct s as [|c s]; simpl; [destruct m; simpl; lia|apply IHn]. }
  apply Hp in E. destruct lit as [|a lit]; [done|]. simpl in E |- *.
  specialize (Hsub (S (String.length lit)) (String.length s - S (String.length lit))%nat s). lia.
Qed.

Lemma decode_length n :
  (∀ fuel depth s v rest, (fuel ≤ n)%nat → decode_value fuel depth s = Some (v, rest) →
     (String.length rest < String.length s)%nat) ∧
  (∀ fuel depth s v rest, (fuel ≤ n)%nat → decode_elements fuel depth s = Some (v, rest) →
     (String.length rest < String.length s)%nat) ∧
  (∀ fuel depth s v rest, (fuel ≤ n)%nat → decode_fields fuel depth s = Some (v, rest) →
     (String.length rest < String.length s)%nat).
Proof.
  induction n as [|n (IHv & IHe & IHf)].
  { split_and!; intros [|fuel] depth s v rest Hf; [done|lia|done|lia|done|lia]. }
  split_and!; intros [|fuel] depth s v rest Hf; try done; simpl.
  - pose proof (skip_space_length s) as Hs. destruct (skip_space s) as [|c s1]; [done|]. simpl in Hs.
    intros E. pose proof (skip_space_length s1) as Hs1.
    repeat (case_match; simplify_eq; simpl in *); try lia;
      try (match goal with H : decode_bytes _ _ _ = Some _ |- _ => apply decode_bytes_length in H; lia end);
      try (match goal with H : decode_elements _ _ _ = Some _ |- _ => apply IHe in H; simpl in *; lia end);
      try (match goal with H : decode_fields _ _ _ = Some _ |- _ => apply IHf in H; simpl in *; lia end);
      try (apply literal_length in E; [simpl in *; lia|done]).
    match goal with H : scan_number _ = Some _ |- _ => apply scan_number_length in H; simpl in *; lia end.
  - destruct (decode_value fuel depth s) as [[w r]|] eqn:Ev; [|done]. apply IHv in Ev; [|lia].
    pose proof (skip_space_length r) as Hs. intros E.
    repeat (case_match; simplify_eq; simpl in *); try lia.
    match goal with H : decode_elements _ _ _ = Some _ |- _ => apply IHe in H; lia end.
  - pose proof (skip_space_length s) as Hs. destruct (skip_space s) as [|q s1]; [done|]. simpl in Hs.
    case_match; [done|]. destruct (decode_bytes 0 None s1) as [[key r]|] eqn:Eb; [|done].
    apply decode_bytes_length in Eb. pose proof (skip_space_length r) as Hr.
    destruct (skip_space r) as [|colon s2]; [done|]. simpl in Hr. case_match; [done|].
    destruct (decode_value fuel depth s2) as [[w r2]|] eqn:Ev; [|done]. apply IHv in Ev; [|lia].
    pose proof (skip_space_length r2) as Hr2. intros E.
    repeat (case_match; simplify_eq; simpl in *); try lia.
    match goal with H : decode_fields _ _ _ = Some _ |- _ => apply IHf in H; lia end.
Qed.

Lemma decode_fuel n :
  (∀ f f' depth s, (String.length s ≤ n)%nat → (2 * n < f)%nat → (2 * n < f')%nat →
     decode_value f depth s = decode_value f' depth s) ∧
  (∀ f f' depth s, (String.length s ≤ n)%nat → (2 * n + 1 < f)%nat → (2 * n + 1 < f')%nat →
     decode_elements f depth s = decode_elements f' depth s) ∧
  (∀ f f' depth s, (String.length s ≤ n)%nat → (2 * n + 1 < f)%nat → (2 * n + 1 < f')%nat →
     decode_fields f depth s = decode_fields f' depth s).
Proof.
  induction n as [n IH] using lt_wf_ind.
  assert (∀ f f' depth s, (String.length s ≤ n)%nat → (2 * n < f)%nat → (2 * n < f')%nat →
     decode_value f depth s = decode_value f' depth s) as Hv.
  { intros [|f] [|f'] depth s Hl Hf Hf'; try lia. simpl.
    pose proof (skip_space_length s) as Hs. destruct (skip_space s) as [|c s1]; [done|]. simpl in Hs.
    destruct n as [|n]; [lia|]. destruct (IH n) as (_ & IHe & IHf); [lia|].
    rewrite (IHe f f'), (IHf f f') by lia. done. }
  split_and!; [done| |].
  - intros [|f] [|f'] depth s Hl Hf Hf'; try lia. simpl. rewrite (Hv f f') by lia.
    destruct (decode_value f' depth s) as [[v r]|] eqn:Ev; [|done].
    apply (proj1 (decode_length f')) in Ev; [|lia].
    pose proof (skip_space_length r) as Hs. destruct (skip_space r) as [|c s1]; [done|]. simpl in Hs.
    destruct n as [|n]; [lia|]. destruct (IH n) as (_ & IHe & _); [lia|].
    by rewrite (IHe f f') by lia.
  - intros [|f] [|f'] depth s Hl Hf Hf'; try lia. simpl.
    pose proof (skip_space_length s) as Hs. destruct (skip_space s) as [|q s1]; [done|]. simpl in Hs.
    case_match; [done|]. destruct (decode_bytes 0 None s1) as [[key r]|] eqn:Eb; [|done].
    apply decode_bytes_length in Eb. pose proof (skip_space_length r) as Hr.
    destruct (skip_space r) as [|colon s2]; [done|]. simpl in Hr. case_match; [done|].
    rewrite (Hv f f') by lia.
    destruct (decode_value f' depth s2) as [[w r2]|] eqn:Ev; [|done].
    apply (proj1 (decode_length f')) in Ev; [|lia]. pose proof (skip_space_length r2) as Hr2.
    destruct (skip_space r2) as [|c s3]; [done|]. simpl in Hr2.
    destruct n as [|n]; [lia|]. destruct (IH n) as (_ & _ & IHf); [lia|].
    by rewrite (IHf f f') by lia.
Qed.

(** [decode] is the limit: more fuel gives the same value. *)
Lemma decode_enough fuel s :
  (2 * String.length s + 2 ≤ fuel)%nat →
  decode s = match decode_value fuel 0 s with
             | Some (v, rest) => match skip_space rest with EmptyString => Some v | _ => None end
             | None => None
             end.
Proof.
  intros Hf. unfold decode.
  by rewrite (proj1 (decode_fuel (String.length s)) fuel (2 * String.length s + 2)%nat) by lia.
Qed.
