(* ===== verification/JsonCodec.v ===== *)
(** * Marshal and Unmarshal of Go types (encoding/json)

    [encode_value] prints a value, and parsing the text gives the value back.  A Go type is
    encoded through the class [GoJson]: its zero value, when [omitempty] drops it, and how it
    is written to and read from a value.  [Unmarshal] decodes into an existing value: a null
    leaves strings, booleans and structs as they are, and resets pointers, slices and maps; the
    members of an object are taken in their order, matched to the fields by their name, or else
    by their name without regard to case, and skipped when no field matches.  A nil slice or map
    is [None], which differs from an empty one. *)

From Stdlib Require Import Ascii.
From S2P Require Import Prelude GoStd Json.

(** ** Texts *)

Fixpoint encode_value (j : json) : string :=
  match j with
  | JNull => "null"
  | JBool b => if b then "true" else "false"
  | JNumber literal => literal
  | JString s => encode_string s
  | JArray l => "[" +:+ Join (List.map encode_value l) "," +:+ "]"
  | JObject fields =>
      "{" +:+ Join (List.map (λ kv, encode_string kv.1 +:+ ":" +:+ encode_value kv.2) fields) "," +:+ "}"
  end.

(** Values without numbers whose strings are ASCII. *)
Fixpoint printable (j : json) : bool :=
  match j with
  | JNull | JBool _ => true
  | JNumber _ => false
  | JString s => all_ascii s
  | JArray l => forallb printable l
  | JObject fields => forallb (λ kv, all_ascii kv.1 && printable kv.2) fields
  end.

Fixpoint nesting (j : json) : Z :=
  match j with
  | JArray l => 1 + foldr (λ v n, Z.max (nesting v) n) 0 l
  | JObject fields => 1 + foldr (λ kv n, Z.max (nesting kv.2) n) 0 fields
  | _ => 0
  end.

Fixpoint calls (j : json) : nat :=
  match j with
  | JArray l => S (foldr (λ v n, S (calls v + n)) 0%nat l)
  | JObject fields => S (foldr (λ kv n, S (calls kv.2 + n)) 0%nat fields)
  | _ => 1
  end.

Lemma encode_head j :
  printable j = true →
  ∃ c t, encode_value j = String c t ∧ is_space c = false ∧ byte c ≠ 93 ∧ byte c ≠ 125.
Proof.
  destruct j as [|[]|n|s|l|fields]; simpl; try done; intros _; eexists _, _; (split; [reflexivity|]);
    split_and!; vm_compute; congruence.
Qed.

Lemma skip_space_head c t : is_space c = false → skip_space (String c t) = String c t.
Proof. intros E. simpl. by rewrite E. Qed.

Lemma decode_array fuel depth t :
  decode_value (S fuel) depth ("[" +:+ t) =
    if max_nesting_depth <=? depth then None
    else
      match skip_space t with
      | String c' rest' =>
          if byte c' =? 93 then Some (JArray [], rest')
          else match decode_elements fuel (depth + 1) t with
               | Some (l, rest) => Some (JArray l, rest)
               | None => None
               end
      | EmptyString => None
      end.
Proof. reflexivity. Qed.

Lemma decode_object fuel depth t :
  decode_value (S fuel) depth ("{" +:+ t) =
    if max_nesting_depth <=? depth then None
    else
      match skip_space t with
      | String c' rest' =>
          if byte c' =? 125 then Some (JObject [], rest')
          else match decode_fields fuel (depth + 1) t with
               | Some (l, rest) => Some (JObject l, rest)
               | None => None
               end
      | EmptyString => None
      end.
Proof. reflexivity. Qed.

Lemma decode_literal lit rest v : literal lit v (lit +:+ rest) = Some (v, rest).
Proof.
  unfold literal, TrimPrefix.
  assert (HasPrefix (lit +:+ rest) lit = true) as -> by (induction lit as [|c lit IH]; simpl; [by destruct rest|by rewrite Ascii.eqb_refl]).
  do 2 f_equal. induction lit as [|c lit IH]; [|done].
  change (String.substring 0 (String.length rest - 0) rest = rest). rewrite Nat.sub_0_r.
  induction rest as [|c rest IH]; [done|]. change (String c (String.substring 0 (String.length rest) rest) = String c rest).
  by rewrite IH.
Qed.

(** The statement of the round trip at a value. *)
Definition reads_back (j : json) : Prop := ∀ fuel depth rest,
  (calls j ≤ fuel)%nat → depth + nesting j ≤ max_nesting_depth →
  decode_value fuel depth (encode_value j +:+ rest) = Some (j, rest).

Lemma reads_back_elements v l fuel depth rest :
  Forall reads_back (v :: l) → forallb printable (v :: l) = true →
  (foldr (λ v n, S (calls v + n)) 0 (v :: l) ≤ fuel)%nat →
  depth + foldr (λ v n, Z.max (nesting v) n) 0 (v :: l) ≤ max_nesting_depth →
  decode_elements fuel depth (Join (List.map encode_value (v :: l)) "," +:+ "]" +:+ rest)
  = Some (v :: l, rest).
Proof.
  revert v fuel. induction l as [|w l IH]; intros v fuel [Hv Hl]%Forall_cons Hp Hf Hd;
    apply andb_true_iff in Hp as [Hpv Hpl]; destruct fuel as [|fuel]; simpl in Hf; try lia; simpl in Hd.
  - cbn [List.map Join String.concat decode_elements]. rewrite Hv by lia. reflexivity.
  - rewrite !map_cons, Join_cons, <- !string_app_assoc. cbn [decode_elements]. rewrite Hv by lia.
    change (skip_space ("," +:+ ?t)) with (String (of_byte 44) t). cbv iota beta.
    change (byte (of_byte 44) =? 93) with false. change (byte (of_byte 44) =? 44) with true. cbv iota.
    rewrite <- map_cons, IH; [done|done|done|simpl; lia|simpl; lia].
Qed.

Abbreviation encode_field_text kv := (encode_string kv.1 +:+ ":" +:+ encode_value kv.2).

Lemma decode_field fuel depth (kv : string * json) rest :
  reads_back kv.2 → all_ascii kv.1 = true → (calls kv.2 ≤ fuel)%nat →
  depth + nesting kv.2 ≤ max_nesting_depth →
  decode_fields (S fuel) depth (encode_field_text kv +:+ rest) =
    match skip_space rest with
    | String c rest =>
        if byte c =? 125 then Some ([kv], rest)
        else if byte c =? 44 then
          match decode_fields fuel depth rest with
          | Some (l, rest) => Some (kv :: l, rest)
          | None => None
          end
        else None
    | EmptyString => None
    end.
Proof.
  destruct kv as [k v]. cbn [fst snd]. intros Hv Hk Hf Hd.
  rewrite <- !string_app_assoc, encode_string_app, decode_fields_quote, decode_encode_bytes by done.
  change (skip_space (":" +:+ ?t)) with (String (of_byte 58) t). simpl negb. cbv iota.
  by rewrite Hv by done.
Qed.

Lemma reads_back_fields kv l fuel depth rest :
  Forall (λ kv, reads_back kv.2) (kv :: l) →
  forallb (λ kv, all_ascii kv.1 && printable kv.2) (kv :: l) = true →
  (foldr (λ kv n, S (calls kv.2 + n)) 0 (kv :: l) ≤ fuel)%nat →
  depth + foldr (λ kv n, Z.max (nesting kv.2) n) 0 (kv :: l) ≤ max_nesting_depth →
  decode_fields fuel depth
    (Join (List.map (λ kv, encode_field_text kv) (kv :: l)) "," +:+ "}" +:+ rest) = Some (kv :: l, rest).
Proof.
  revert kv fuel. induction l as [|kw l IH]; intros kv fuel [Hv Hl]%Forall_cons Hp Hf Hd;
    apply andb_true_iff in Hp as [[Hk _]%andb_true_iff Hpl]; destruct fuel as [|fuel]; simpl in Hf; try lia;
    simpl in Hd.
  - cbn [List.map Join String.concat]. by rewrite decode_field by (done || lia).
  - rewrite !map_cons, Join_cons, <- (string_app_assoc (encode_field_text kv)), <- (string_app_assoc ","),
      decode_field by (done || lia).
    change (skip_space ("," +:+ ?t)) with (String (of_byte 44) t). cbv iota beta.
    change (byte (of_byte 44) =? 125) with false. change (byte (of_byte 44) =? 44) with true. cbv iota.
    specialize (IH kw fuel). rewrite map_cons in IH. rewrite IH; [done|done|done|simpl; lia|simpl; lia].
Qed.

Lemma Join_head s l rest c t : s = String c t → ∃ u, Join (s :: l) "," +:+ rest = String c u.
Proof. intros ->. destruct l as [|s' l]; [|rewrite Join_cons]; eexists; reflexivity. Qed.

Lemma reads_back_all j : printable j = true → reads_back j.
Proof.
  induction j as [|b|n|s|l IH|fields IH] using json_ind'; intros Hp fuel depth rest Hf Hd;
    destruct fuel as [|fuel]; simpl in Hf; try lia.
  - apply (decode_literal "null").
  - destruct b; [apply (decode_literal "true")|apply (decode_literal "false")].
  - done.
  - by apply decode_value_string.
  - cbn [encode_value]. rewrite <- !string_app_assoc, decode_array. cbn [printable nesting] in Hp, Hd.
    assert (0 ≤ foldr (λ v n, Z.max (nesting v) n) 0 l) by (clear; induction l; simpl; lia).
    rewrite (proj2 (Z.leb_gt _ _)) by lia. destruct l as [|v l]; [done|].
    destruct (encode_head v) as (c & t & E & Hs & H93 & _); [by apply andb_true_iff in Hp as []|].
    destruct (Join_head (encode_value v) (List.map encode_value l) ("]" +:+ rest) c t E) as [u Hu].
    rewrite map_cons, Hu, skip_space_head, (proj2 (Z.eqb_neq _ _)), <- Hu, <- map_cons by done.
    rewrite reads_back_elements; [done| |done|simpl in *; lia|lia].
    rewrite Forall_forall in IH |- *. rewrite forallb_elem in Hp. auto.
  - cbn [encode_value]. rewrite <- !string_app_assoc, decode_object. cbn [printable nesting] in Hp, Hd.
    assert (0 ≤ foldr (λ kv n, Z.max (nesting kv.2) n) 0 fields) by (clear; induction fields; simpl; lia).
    rewrite (proj2 (Z.leb_gt _ _)) by lia. destruct fields as [|kv l]; [done|].
    destruct (Join_head (encode_field_text kv) (List.map (λ kv, encode_field_text kv) l) ("}" +:+ rest)
      quote _ eq_refl) as [u Hu].
    rewrite map_cons, Hu, skip_space_head by done. change (byte quote =? 125) with false. cbv iota.
    pose proof (reads_back_fields kv l fuel (depth + 1) rest) as Hr. rewrite map_cons, Hu in Hr.
    rewrite Hr; [done| |done|simpl in *; lia|lia].
    rewrite Forall_forall in IH |- *. rewrite forallb_elem in Hp. intros x Hx. apply IH; [done|].
    specialize (Hp x Hx). simpl in Hp. by apply andb_true_iff in Hp as [_ ?].
Qed.

(** The text of a value is read back as the value, at the nesting Go accepts. *)
Lemma decode_encode_value j :
  printable j = true → nesting j ≤ max_nesting_depth → decode (encode_value j) = Some j.
Proof.
  intros Hp Hn. rewrite (decode_enough (2 * String.length (encode_value j) + 2 + calls j)) by lia.
  rewrite <- (string_app_nil_r (encode_value j)) at 2. by rewrite reads_back_all by (done || lia).
Qed.

(** ** Go types *)

Record codec (A : Type) := {
  zero_value : A;
  is_empty : A → bool;
  marshal : A → json;
  unmarshal : json → A → option A;
  (** The values that [marshal] and [unmarshal] preserve. *)
  survives : A → Prop;
}.
Arguments zero_value {_} _.
Arguments is_empty {_} _ _.
Arguments marshal {_} _ _.
Arguments unmarshal {_} _ _ _.
Arguments survives {_} _ _.

Definition lawful {A} (c : codec A) : Prop :=
  ∀ x, survives c x → unmarshal c (marshal c x) (zero_value c) = Some x.

Definition string_codec : codec string := {|
  zero_value := "";
  is_empty s := String.eqb s "";
  marshal := JString;
  unmarshal j old := match j with JString s => Some s | JNull => Some old | _ => None end;
  survives _ := True;
|}.

Definition bool_codec : codec bool := {|
  zero_value := false;
  is_empty b := negb b;
  marshal := JBool;
  unmarshal j old := match j with JBool b => Some b | JNull => Some old | _ => None end;
  survives _ := True;
|}.

(** A pointer is followed; null makes it nil. *)
Definition pointer_codec {A} (c : codec A) : codec (option A) := {|
  zero_value := None;
  is_empty p := bool_decide (p = None);
  marshal p := match p with None => JNull | Some x => marshal c x end;
  unmarshal j old :=
    match j with
    | JNull => Some None
    | _ => Some <$> unmarshal c j (default (zero_value c) old)
    end;
  survives p := match p with None => True | Some x => survives c x ∧ marshal c x ≠ JNull end;
|}.

(** The elements of an array are decoded over the elements the slice already has. *)
Fixpoint unmarshal_elements {A} (c : codec A) (l : list json) (old : list A) : option (list A) :=
  match l with
  | [] => Some []
  | j :: l =>
      x ← unmarshal c j (default (zero_value c) (head old));
      xs ← unmarshal_elements c l (tail old);
      Some (x :: xs)
  end.

Definition slice_codec {A} (c : codec A) : codec (option (list A)) := {|
  zero_value := None;
  is_empty s := match s with None | Some [] => true | _ => false end;
  marshal s := match s with None => JNull | Some l => JArray (marshal c <$> l) end;
  unmarshal j old :=
    match j with
    | JNull => Some None
    | JArray l => Some <$> unmarshal_elements c l (default [] old)
    | _ => None
    end;
  survives s := Forall (survives c) (default [] s);
|}.

(** Maps are written in the order of their keys. *)
Definition sorted_entries {A} (m : gmap string A) : list (string * A) :=
  insertion_sort (λ a b, string_ltb a.1 b.1) (map_to_list m).

Fixpoint unmarshal_entries {A} (c : codec A) (l : list (string * json)) (m : gmap string A) :
    option (gmap string A) :=
  match l with
  | [] => Some m
  | (k, j) :: l => x ← unmarshal c j (zero_value c); unmarshal_entries c l (<[k := x]> m)
  end.

Definition map_codec {A} (c : codec A) : codec (option (gmap string A)) := {|
  zero_value := None;
  is_empty m := match m with None => true | Some m => (size m =? 0)%nat end;
  marshal m :=
    match m with
    | None => JNull
    | Some m => JObject ((λ kv, (kv.1, marshal c kv.2)) <$> sorted_entries m)
    end;
  unmarshal j old :=
    match j with
    | JNull => Some None
    | JObject fields => Some <$> unmarshal_entries c fields (default ∅ old)
    | _ => None
    end;
  survives m := ∀ k x, default ∅ m !! k = Some x → survives c x;
|}.

(** ** Structs *)

Record field (T : Type) := Field {
  f_type : Type;
  f_codec : codec f_type;
  f_name : string;
  f_omitempty : bool;
  f_get : T → f_type;
  f_set : f_type → T → T;
}.
Arguments Field {_ _} _ _ _ _ _.
Arguments f_type {_} _.
Arguments f_codec {_} _.
Arguments f_name {_} _.
Arguments f_omitempty {_} _.
Arguments f_get {_} _ _.
Arguments f_set {_} _ _ _.

(** The fields of an embedded struct are fields of the outer one. *)
Definition inline {T U} (get : T → U) (set : U → T → T) (fs : list (field U)) : list (field T) :=
  (λ f, Field (f_codec f) (f_name f) (f_omitempty f) (λ x, f_get f (get x))
          (λ v x, set (f_set f v (get x)) x)) <$> fs.

(** Names are compared without regard to case; the Kelvin sign and the long s are the two
    letters beyond ASCII that have an ASCII letter as another case. *)
Fixpoint fold_name (s : string) : string :=
  match s with
  | EmptyString => EmptyString
  | String c s' =>
      let b := byte c in
      if (97 <=? b) && (b <=? 122) then String (of_byte (b - 32)) (fold_name s')
      else
        match s' with
        | String c' s'' =>
            if (b =? 197) && (byte c' =? 191) then String "S" (fold_name s'')
            else
              match s'' with
              | String c'' s''' =>
                  if (b =? 226) && (byte c' =? 132) && (byte c'' =? 170) then String "K" (fold_name s''')
                  else String c (fold_name s')
              | EmptyString => String c (fold_name s')
              end
        | EmptyString => String c (fold_name s')
        end
  end.

Definition find_field {T} (fs : list (field T)) (name : string) : option (field T) :=
  match find (λ f, String.eqb (f_name f) name) fs with
  | Some f => Some f
  | None => find (λ f, String.eqb (fold_name (f_name f)) (fold_name name)) fs
  end.

Definition field_entry {T} (x : T) (f : field T) : list (string * json) :=
  let v := f_get f x in
  if f_omitempty f && is_empty (f_codec f) v then [] else [(f_name f, marshal (f_codec f) v)].

Fixpoint unmarshal_members {T} (fs : list (field T)) (l : list (string * json)) (a : T) : option T :=
  match l with
  | [] => Some a
  | (k, j) :: l =>
      match find_field fs k with
      | None => unmarshal_members fs l a
      | Some f => v ← unmarshal (f_codec f) j (f_get f a); unmarshal_members fs l (f_set f v a)
      end
  end.

Definition field_survives {T} (x : T) (f : field T) : Prop :=
  survives (f_codec f) (f_get f x) ∧
  (f_omitempty f && is_empty (f_codec f) (f_get f x) = true → f_get f x = zero_value (f_codec f)).

(** [omitempty] never drops a struct. *)
Definition struct_codec {T} (zero : T) (fs : list (field T)) : codec T := {|
  zero_value := zero;
  is_empty _ := false;
  marshal x := JObject (concat (field_entry x <$> fs));
  unmarshal j old :=
    match j with
    | JNull => Some old
    | JObject members => unmarshal_members fs members old
    | _ => None
    end;
  survives x := Forall (field_survives x) fs;
|}.

(** ** Round trips *)

Lemma string_lawful : lawful string_codec.
Proof. done. Qed.

Lemma bool_lawful : lawful bool_codec.
Proof. done. Qed.

Lemma pointer_lawful {A} (c : codec A) : lawful c → lawful (pointer_codec c).
Proof.
  intros Hc [x|] Hx; [|done]. destruct Hx as [Hx Hn]. simpl. rewrite Hc by done.
  by destruct (marshal c x).
Qed.

Lemma slice_lawful {A} (c : codec A) : lawful c → lawful (slice_codec c).
Proof.
  intros Hc [l|] Hl; [|done]. simpl in *. cut (unmarshal_elements c (marshal c <$> l) [] = Some l).
  { by intros ->. }
  induction Hl as [|x l Hx Hl IH]; [done|]. rewrite fmap_cons. cbn [unmarshal_elements head tail default].
  change (default (zero_value c) None) with (zero_value c). by rewrite Hc, IH.
Qed.

Lemma unmarshal_entries_read {A} (c : codec A) l m :
  lawful c → NoDup l.*1 → (∀ k x, (k, x) ∈ l → survives c x ∧ m !! k = None) →
  unmarshal_entries c ((λ kv, (kv.1, marshal c kv.2)) <$> l) m = Some (list_to_map l ∪ m).
Proof.
  intros Hc. revert m. induction l as [|[k x] l IH]; intros m Hnd Hl; simpl.
  { by rewrite (left_id_L ∅ (∪)). }
  apply NoDup_cons in Hnd as [Hk Hnd]. destruct (Hl k x) as [Hx Hm]; [left|]. rewrite Hc by done. simpl.
  rewrite IH; [|done|].
  - f_equal. rewrite <- insert_union_r by (by apply not_elem_of_list_to_map_1). by rewrite insert_union_l.
  - intros k' x' Hin. destruct (Hl k' x') as [? ?]; [by right|]. split; [done|].
    rewrite lookup_insert_ne; [done|]. intros ->. apply Hk. by apply (list_elem_of_fmap_2 fst) in Hin.
Qed.

Lemma map_lawful {A} (c : codec A) : lawful c → lawful (map_codec c).
Proof.
  intros Hc [m|] Hm; [|done]. simpl in *.
  assert (sorted_entries m ≡ₚ map_to_list m) as Hp by apply insertion_sort_perm.
  rewrite unmarshal_entries_read; [|done|by rewrite Hp; apply NoDup_fst_map_to_list|].
  - rewrite (right_id_L ∅ (∪)). simpl. do 2 f_equal. rewrite <- (list_to_map_to_list m) at 2.
    apply list_to_map_proper; [rewrite Hp; apply NoDup_fst_map_to_list|done].
  - intros k x Hin. rewrite Hp in Hin. apply elem_of_map_to_list in Hin.
    split; [by eapply Hm|apply lookup_empty].
Qed.

(** The fields are read into a value that has none of them yet, and together make up [x]. *)
Fixpoint assembles {T} (x a : T) (fs : list (field T)) : Prop :=
  match fs with
  | [] => a = x
  | f :: fs =>
      f_get f a = zero_value (f_codec f) ∧ f_set f (zero_value (f_codec f)) a = a ∧
      assembles x (f_set f (f_get f x) a) fs
  end.

Lemma find_field_name {T} (fs : list (field T)) f :
  NoDup (f_name <$> fs) → f ∈ fs → find_field fs (f_name f) = Some f.
Proof.
  intros Hnd Hf. unfold find_field. cut (find (λ g, String.eqb (f_name g) (f_name f)) fs = Some f).
  { by intros ->. }
  induction Hf as [f l|f g l Hf IH]; simpl; [by rewrite String.eqb_refl|].
  apply NoDup_cons in Hnd as [Hg Hnd]. destruct (String.eqb_spec (f_name g) (f_name f)) as [E|]; [|auto].
  exfalso. apply Hg. rewrite E. by apply list_elem_of_fmap_2.
Qed.

Lemma unmarshal_members_read {T} (all fs : list (field T)) x a :
  NoDup (f_name <$> all) → fs ⊆ all → assembles x a fs → Forall (field_survives x) fs →
  Forall (λ f, lawful (f_codec f)) fs →
  unmarshal_members all (concat (field_entry x <$> fs)) a = Some x.
Proof.
  intros Hnd. revert a. induction fs as [|f fs IH]; intros a Hsub Ha Hs Hl; simpl.
  { simpl in Ha. by subst. }
  destruct Ha as (Hz & Hset & Ha). apply Forall_cons in Hs as [[Hx Hdrop] Hs].
  apply Forall_cons in Hl as [Hlf Hl]. unfold field_entry at 1.
  destruct (f_omitempty f && is_empty (f_codec f) (f_get f x)) eqn:E; simpl.
  - apply IH; [set_solver| |done|done]. by rewrite (Hdrop eq_refl), Hset in Ha.
  - rewrite find_field_name; [|done|set_solver]. rewrite Hz, Hlf by done. simpl. apply IH; set_solver.
Qed.

Lemma struct_lawful {T} (zero : T) fs :
  NoDup (f_name <$> fs) → (∀ x, assembles x zero fs) → Forall (λ f, lawful (f_codec f)) fs →
  lawful (struct_codec zero fs).
Proof. intros Hnd Ha Hl x Hx. by apply unmarshal_members_read. Qed.

Create HintDb lawful.
#[export] Hint Resolve string_lawful bool_lawful pointer_lawful slice_lawful map_lawful : lawful.

(** A codec of a record, taken apart by the pattern, whose fields have distinct names. *)
Tactic Notation "struct_lawful" "as" simple_intropattern(p) :=
  apply struct_lawful;
  [apply (bool_decide_unpack _); vm_compute; exact I
  |intros p; vm_compute; repeat split
  |repeat (apply Forall_cons; split; [simpl; auto with lawful|]); apply Forall_nil_2].

(** A closed value survives. *)
Ltac survive :=
  repeat lazymatch goal with
    | |- True => exact I
    | |- _ ∧ _ => split
    | |- field_survives _ _ => split; [simpl|by vm_compute]
    | |- Forall _ _ => simpl; first [apply Forall_nil_2 | apply Forall_cons; split]
    | |- ∀ _ _, _ !! _ = Some _ → _ =>
        let E := fresh in intros ? ? E; first [by rewrite lookup_empty in E | clear E; simpl]
    | |- _ ≠ _ => discriminate
    | |- survives _ _ => progress simpl
    end.
