(* ===== verification/Api.v ===== *)
(** * The API types

    The Kubernetes objects the controllers read and write: conditions, Machines,
    MachineSets and MachineDeployments (api/v1beta1), with the metadata types of
    apimachinery they embed.  A Go pointer to a scalar or struct is an [option], a Go map is
    a [gmap] (the nil map and the empty map read the same), a slice is a list. *)

From S2P Require Import Prelude GoStd.

(** ** Apimachinery types *)

Record OwnerReference := {
  or_APIVersion : string;
  or_Kind : string;
  or_Name : string;
  or_UID : string;
  or_Controller : option bool;
  or_BlockOwnerDeletion : option bool;
}.
#[global] Instance OwnerReference_eq_dec : EqDecision OwnerReference.
Proof. solve_decision. Defined.

Record ObjectReference := {
  ref_Kind : string;
  ref_Namespace : string;
  ref_Name : string;
  ref_UID : string;
  ref_APIVersion : string;
  ref_ResourceVersion : string;
  ref_FieldPath : string;
}.
#[global] Instance ObjectReference_eq_dec : EqDecision ObjectReference.
Proof. solve_decision. Defined.

Definition emptyRef : ObjectReference :=
  {| ref_Kind := ""; ref_Namespace := ""; ref_Name := ""; ref_UID := "";
     ref_APIVersion := ""; ref_ResourceVersion := ""; ref_FieldPath := "" |}.

Record TypeMeta := { tm_Kind : string; tm_APIVersion : string }.
Definition emptyTypeMeta : TypeMeta := {| tm_Kind := ""; tm_APIVersion := "" |}.

(** metav1.ObjectMeta; the timestamp of an object that was never stored is the zero
    instant. *)
Record Meta := {
  om_Name : string;
  om_Namespace : string;
  om_UID : string;
  om_Generation : Z;
  om_CreationTimestamp : Time;
  om_DeletionTimestamp : option Time;
  om_Labels : gmap string string;
  om_Annotations : gmap string string;
  om_OwnerReferences : list OwnerReference;
  om_Finalizers : list string;
}.
#[global] Instance Meta_eq_dec : EqDecision Meta.
Proof. solve_decision. Defined.

Definition emptyMeta : Meta :=
  {| om_Name := ""; om_Namespace := ""; om_UID := ""; om_Generation := 0;
     om_CreationTimestamp := zero_time; om_DeletionTimestamp := None;
     om_Labels := ∅; om_Annotations := ∅; om_OwnerReferences := []; om_Finalizers := [] |}.

Definition meta_set_Annotations (a : gmap string string) (m : Meta) : Meta :=
  {| om_Name := om_Name m; om_Namespace := om_Namespace m; om_UID := om_UID m;
     om_Generation := om_Generation m; om_CreationTimestamp := om_CreationTimestamp m;
     om_DeletionTimestamp := om_DeletionTimestamp m; om_Labels := om_Labels m;
     om_Annotations := a; om_OwnerReferences := om_OwnerReferences m;
     om_Finalizers := om_Finalizers m |}.

Definition meta_set_OwnerReferences (o : list OwnerReference) (m : Meta) : Meta :=
  {| om_Name := om_Name m; om_Namespace := om_Namespace m; om_UID := om_UID m;
     om_Generation := om_Generation m; om_CreationTimestamp := om_CreationTimestamp m;
     om_DeletionTimestamp := om_DeletionTimestamp m; om_Labels := om_Labels m;
     om_Annotations := om_Annotations m; om_OwnerReferences := o;
     om_Finalizers := om_Finalizers m |}.

Record LabelSelectorRequirement := {
  lsr_Key : string;
  lsr_Operator : string;
  lsr_Values : list string;
}.
Record LabelSelector := {
  ls_MatchLabels : gmap string string;
  ls_MatchExpressions : list LabelSelectorRequirement;
}.

(** metav1.Condition, the v1beta2 condition. *)
Record MetaCondition := {
  mc_Type : string;
  mc_Status : string;
  mc_ObservedGeneration : Z;
  mc_LastTransitionTime : Time;
  mc_Reason : string;
  mc_Message : string;
}.
#[global] Instance MetaCondition_eq_dec : EqDecision MetaCondition.
Proof. solve_decision. Defined.

(** An [intstr.IntOrString]. *)
Inductive IntOrString := FromInt (i : Z) | FromString (s : string).
#[global] Instance IntOrString_eq_dec : EqDecision IntOrString.
Proof. solve_decision. Defined.

(** ** Conditions (api/v1beta1/condition_types.go) *)

Definition ConditionTrue : string := "True".
Definition ConditionFalse : string := "False".
Definition ConditionUnknown : string := "Unknown".

Abbreviation ConditionSeverity := string (only parsing).
Definition ConditionSeverityError : ConditionSeverity := "Error".
Definition ConditionSeverityWarning : ConditionSeverity := "Warning".
Definition ConditionSeverityInfo : ConditionSeverity := "Info".
Definition ConditionSeverityNone : ConditionSeverity := "".

Abbreviation ConditionType := string (only parsing).

Record Condition := {
  c_Type : ConditionType;
  c_Status : string;
  c_Severity : ConditionSeverity;
  c_LastTransitionTime : Time;
  c_Reason : string;
  c_Message : string;
}.
#[global] Instance Condition_eq_dec : EqDecision Condition.
Proof. solve_decision. Defined.

Abbreviation Conditions := (list Condition) (only parsing).

Definition ReadyCondition : ConditionType := "Ready".
Definition MachineHealthCheckSucceededCondition : ConditionType := "HealthCheckSucceeded".
Definition MachineOwnerRemediatedCondition : ConditionType := "OwnerRemediated".
Definition MachineNodeHealthyCondition : ConditionType := "NodeHealthy".
Definition MachineDeploymentAvailableCondition : ConditionType := "Available".
Definition MachineSetReadyCondition : ConditionType := "MachineSetReady".
Definition MachinesCreatedCondition : ConditionType := "MachinesCreated".
Definition MachinesReadyCondition : ConditionType := "MachinesReady".
Definition ResizedCondition : ConditionType := "Resized".

(** ** Machine (api/v1beta1/machine_types.go) *)

Record Bootstrap := {
  b_ConfigRef : option ObjectReference;
  b_DataSecretName : option string;
}.
#[global] Instance Bootstrap_eq_dec : EqDecision Bootstrap.
Proof. solve_decision. Defined.

Record MachineReadinessGate := { rg_ConditionType : string }.

Record MachineSpec := {
  sp_ClusterName : string;
  sp_Bootstrap : Bootstrap;
  sp_InfrastructureRef : ObjectReference;
  sp_Version : option string;
  sp_ProviderID : option string;
  sp_FailureDomain : option string;
  sp_ReadinessGates : list MachineReadinessGate;
  sp_NodeDrainTimeout : option Z;
  sp_NodeVolumeDetachTimeout : option Z;
  sp_NodeDeletionTimeout : option Z;
}.

Record MachineAddress := { ma_Type : string; ma_Address : string }.

Record MachineDeletionStatus := {
  mds_NodeDrainStartTime : option Time;
  mds_WaitForNodeVolumeDetachStartTime : option Time;
}.

Record MachineV1Beta2Status := { mv_Conditions : list MetaCondition }.

Record MachineStatus := {
  st_NodeRef : option ObjectReference;
  st_NodeInfo : option (gmap string string);
  st_LastUpdated : option Time;
  st_FailureReason : option string;
  st_FailureMessage : option string;
  st_Addresses : list MachineAddress;
  st_Phase : string;
  st_CertificatesExpiryDate : option Time;
  st_BootstrapReady : bool;
  st_InfrastructureReady : bool;
  st_ObservedGeneration : Z;
  st_Conditions : Conditions;
  st_Deletion : option MachineDeletionStatus;
  st_V1Beta2 : option MachineV1Beta2Status;
}.

Record Machine := {
  m_TypeMeta : TypeMeta;
  m_Meta : Meta;
  m_Spec : MachineSpec;
  m_Status : MachineStatus;
}.

Definition m_Name (m : Machine) : string := om_Name (m_Meta m).

Definition emptySpec : MachineSpec :=
  {| sp_ClusterName := ""; sp_Bootstrap := {| b_ConfigRef := None; b_DataSecretName := None |};
     sp_InfrastructureRef := emptyRef; sp_Version := None; sp_ProviderID := None;
     sp_FailureDomain := None; sp_ReadinessGates := []; sp_NodeDrainTimeout := None;
     sp_NodeVolumeDetachTimeout := None; sp_NodeDeletionTimeout := None |}.

Definition emptyStatus : MachineStatus :=
  {| st_NodeRef := None; st_NodeInfo := None; st_LastUpdated := None; st_FailureReason := None;
     st_FailureMessage := None; st_Addresses := []; st_Phase := "";
     st_CertificatesExpiryDate := None; st_BootstrapReady := false;
     st_InfrastructureReady := false; st_ObservedGeneration := 0; st_Conditions := [];
     st_Deletion := None; st_V1Beta2 := None |}.

Definition emptyMachine : Machine :=
  {| m_TypeMeta := emptyTypeMeta; m_Meta := emptyMeta; m_Spec := emptySpec;
     m_Status := emptyStatus |}.

Definition m_set_Conditions (cs : Conditions) (m : Machine) : Machine :=
  let st := m_Status m in
  {| m_TypeMeta := m_TypeMeta m; m_Meta := m_Meta m; m_Spec := m_Spec m; m_Status :=
    {| st_NodeRef := st_NodeRef st; st_NodeInfo := st_NodeInfo st;
       st_LastUpdated := st_LastUpdated st; st_FailureReason := st_FailureReason st;
       st_FailureMessage := st_FailureMessage st; st_Addresses := st_Addresses st;
       st_Phase := st_Phase st; st_CertificatesExpiryDate := st_CertificatesExpiryDate st;
       st_BootstrapReady := st_BootstrapReady st;
       st_InfrastructureReady := st_InfrastructureReady st;
       st_ObservedGeneration := st_ObservedGeneration st; st_Conditions := cs;
       st_Deletion := st_Deletion st; st_V1Beta2 := st_V1Beta2 st |} |}.

Definition m_set_NodeRef (ref : option ObjectReference) (m : Machine) : Machine :=
  let st := m_Status m in
  {| m_TypeMeta := m_TypeMeta m; m_Meta := m_Meta m; m_Spec := m_Spec m; m_Status :=
    {| st_NodeRef := ref; st_NodeInfo := st_NodeInfo st;
       st_LastUpdated := st_LastUpdated st; st_FailureReason := st_FailureReason st;
       st_FailureMessage := st_FailureMessage st; st_Addresses := st_Addresses st;
       st_Phase := st_Phase st; st_CertificatesExpiryDate := st_CertificatesExpiryDate st;
       st_BootstrapReady := st_BootstrapReady st;
       st_InfrastructureReady := st_InfrastructureReady st;
       st_ObservedGeneration := st_ObservedGeneration st; st_Conditions := st_Conditions st;
       st_Deletion := st_Deletion st; st_V1Beta2 := st_V1Beta2 st |} |}.

Definition m_set_V1Beta2Conditions (cs : list MetaCondition) (m : Machine) : Machine :=
  let st := m_Status m in
  {| m_TypeMeta := m_TypeMeta m; m_Meta := m_Meta m; m_Spec := m_Spec m; m_Status :=
    {| st_NodeRef := st_NodeRef st; st_NodeInfo := st_NodeInfo st;
       st_LastUpdated := st_LastUpdated st; st_FailureReason := st_FailureReason st;
       st_FailureMessage := st_FailureMessage st; st_Addresses := st_Addresses st;
       st_Phase := st_Phase st; st_CertificatesExpiryDate := st_CertificatesExpiryDate st;
       st_BootstrapReady := st_BootstrapReady st;
       st_InfrastructureReady := st_InfrastructureReady st;
       st_ObservedGeneration := st_ObservedGeneration st; st_Conditions := st_Conditions st;
       st_Deletion := st_Deletion st; st_V1Beta2 := Some {| mv_Conditions := cs |} |} |}.

(** ** MachineSet (api/v1beta1/machineset_types.go) *)

Record TemplateMeta := {
  tm_Labels : gmap string string;
  tm_Annotations : gmap string string;
}.

Record MachineTemplateSpec := {
  mt_Meta : TemplateMeta;
  mt_Spec : MachineSpec;
}.

Record MachineSetSpec := {
  mss_ClusterName : string;
  mss_Replicas : option Z;
  mss_MinReadySeconds : Z;
  mss_DeletePolicy : string;
  mss_Selector : LabelSelector;
  mss_Template : MachineTemplateSpec;
}.

Record MachineSetV1Beta2Status := {
  msv_Conditions : list MetaCondition;
  msv_ReadyReplicas : option Z;
  msv_AvailableReplicas : option Z;
  msv_UpToDateReplicas : option Z;
}.

Record MachineSetStatus := {
  mst_Selector : string;
  mst_Replicas : Z;
  mst_FullyLabeledReplicas : Z;
  mst_ReadyReplicas : Z;
  mst_AvailableReplicas : Z;
  mst_ObservedGeneration : Z;
  mst_FailureReason : option string;
  mst_FailureMessage : option string;
  mst_Conditions : Conditions;
  mst_V1Beta2 : option MachineSetV1Beta2Status;
}.

Record MachineSet := {
  ms_TypeMeta : TypeMeta;
  ms_Meta : Meta;
  ms_Spec : MachineSetSpec;
  ms_Status : MachineSetStatus;
}.

Definition ms_Name (ms : MachineSet) : string := om_Name (ms_Meta ms).
Definition ms_Replicas (ms : MachineSet) : option Z := mss_Replicas (ms_Spec ms).
Definition ms_AvailableReplicas (ms : MachineSet) : Z := mst_AvailableReplicas (ms_Status ms).
Definition ms_Annotations (ms : MachineSet) : gmap string string := om_Annotations (ms_Meta ms).
Definition ms_CreationTimestamp (ms : MachineSet) : Time := om_CreationTimestamp (ms_Meta ms).

Definition emptySelector : LabelSelector := {| ls_MatchLabels := ∅; ls_MatchExpressions := [] |}.
Definition emptyTemplate : MachineTemplateSpec :=
  {| mt_Meta := {| tm_Labels := ∅; tm_Annotations := ∅ |}; mt_Spec := emptySpec |}.
Definition emptyMSSpec : MachineSetSpec :=
  {| mss_ClusterName := ""; mss_Replicas := None; mss_MinReadySeconds := 0;
     mss_DeletePolicy := ""; mss_Selector := emptySelector; mss_Template := emptyTemplate |}.
Definition emptyMSStatus : MachineSetStatus :=
  {| mst_Selector := ""; mst_Replicas := 0; mst_FullyLabeledReplicas := 0;
     mst_ReadyReplicas := 0; mst_AvailableReplicas := 0; mst_ObservedGeneration := 0;
     mst_FailureReason := None; mst_FailureMessage := None; mst_Conditions := [];
     mst_V1Beta2 := None |}.
#[global] Instance MachineSet_inhabited : Inhabited MachineSet :=
  populate {| ms_TypeMeta := emptyTypeMeta; ms_Meta := emptyMeta; ms_Spec := emptyMSSpec;
              ms_Status := emptyMSStatus |}.

Definition ms_set_Meta (m : Meta) (ms : MachineSet) : MachineSet :=
  {| ms_TypeMeta := ms_TypeMeta ms; ms_Meta := m; ms_Spec := ms_Spec ms; ms_Status := ms_Status ms |}.

Definition ms_set_Annotations (a : gmap string string) (ms : MachineSet) : MachineSet :=
  ms_set_Meta (meta_set_Annotations a (ms_Meta ms)) ms.

Definition ms_set_Replicas (r : Z) (ms : MachineSet) : MachineSet :=
  let sp := ms_Spec ms in
  {| ms_TypeMeta := ms_TypeMeta ms; ms_Meta := ms_Meta ms; ms_Status := ms_Status ms; ms_Spec :=
    {| mss_ClusterName := mss_ClusterName sp; mss_Replicas := Some r;
       mss_MinReadySeconds := mss_MinReadySeconds sp; mss_DeletePolicy := mss_DeletePolicy sp;
       mss_Selector := mss_Selector sp; mss_Template := mss_Template sp |} |}.

Definition ms_set_Conditions (cs : Conditions) (ms : MachineSet) : MachineSet :=
  let st := ms_Status ms in
  {| ms_TypeMeta := ms_TypeMeta ms; ms_Meta := ms_Meta ms; ms_Spec := ms_Spec ms; ms_Status :=
    {| mst_Selector := mst_Selector st; mst_Replicas := mst_Replicas st;
       mst_FullyLabeledReplicas := mst_FullyLabeledReplicas st;
       mst_ReadyReplicas := mst_ReadyReplicas st;
       mst_AvailableReplicas := mst_AvailableReplicas st;
       mst_ObservedGeneration := mst_ObservedGeneration st;
       mst_FailureReason := mst_FailureReason st; mst_FailureMessage := mst_FailureMessage st;
       mst_Conditions := cs; mst_V1Beta2 := mst_V1Beta2 st |} |}.

(** ** MachineDeployment (api/v1beta1/machinedeployment_types.go) *)

Definition RollingUpdateMachineDeploymentStrategyType : string := "RollingUpdate".
Definition OnDeleteMachineDeploymentStrategyType : string := "OnDelete".
Definition RevisionAnnotation : string := "machinedeployment.clusters.x-k8s.io/revision".
Definition RevisionHistoryAnnotation : string :=
  "machinedeployment.clusters.x-k8s.io/revision-history".
Definition DesiredReplicasAnnotation : string :=
  "machinedeployment.clusters.x-k8s.io/desired-replicas".
Definition MaxReplicasAnnotation : string := "machinedeployment.clusters.x-k8s.io/max-replicas".
Definition MachineDeploymentUniqueLabel : string := "machine-template-hash".
Definition DisableMachineCreateAnnotation : string := "cluster.x-k8s.io/disable-machine-create".
Definition DeleteMachineAnnotation : string := "cluster.x-k8s.io/delete-machine".
Definition ClusterNameLabel : string := "cluster.x-k8s.io/cluster-name".
Definition MachineSetNameLabel : string := "cluster.x-k8s.io/set-name".
Definition MachineDeploymentNameLabel : string := "cluster.x-k8s.io/deployment-name".
Definition MachineControlPlaneLabel : string := "cluster.x-k8s.io/control-plane".
Definition TemplateSuffix : string := "Template".

Record MachineRollingUpdateDeployment := {
  ru_MaxUnavailable : option IntOrString;
  ru_MaxSurge : option IntOrString;
  ru_DeletePolicy : option string;
}.

Record RemediationStrategy := { rs_MaxInFlight : option IntOrString }.

Record MachineDeploymentStrategy := {
  mdst_Type : string;
  mdst_RollingUpdate : option MachineRollingUpdateDeployment;
  mdst_Remediation : option RemediationStrategy;
}.

Record MachineDeploymentSpec := {
  mds_ClusterName : string;
  mds_Replicas : option Z;
  mds_RolloutAfter : option Time;
  mds_Selector : LabelSelector;
  mds_Template : MachineTemplateSpec;
  mds_Strategy : option MachineDeploymentStrategy;
  mds_MinReadySeconds : option Z;
  mds_RevisionHistoryLimit : option Z;
  mds_Paused : bool;
  mds_ProgressDeadlineSeconds : option Z;
}.

Record MachineDeploymentV1Beta2Status := {
  mdv_Conditions : list MetaCondition;
  mdv_ReadyReplicas : option Z;
  mdv_AvailableReplicas : option Z;
  mdv_UpToDateReplicas : option Z;
}.

Record MachineDeploymentStatus := {
  mdt_ObservedGeneration : Z;
  mdt_Selector : string;
  mdt_Replicas : Z;
  mdt_UpdatedReplicas : Z;
  mdt_ReadyReplicas : Z;
  mdt_AvailableReplicas : Z;
  mdt_UnavailableReplicas : Z;
  mdt_Phase : string;
  mdt_Conditions : Conditions;
  mdt_V1Beta2 : option MachineDeploymentV1Beta2Status;
}.

Record MachineDeployment := {
  md_TypeMeta : TypeMeta;
  md_Meta : Meta;
  md_Spec : MachineDeploymentSpec;
  md_Status : MachineDeploymentStatus;
}.

Definition md_Name (md : MachineDeployment) : string := om_Name (md_Meta md).
Definition md_Replicas (md : MachineDeployment) : option Z := mds_Replicas (md_Spec md).
Definition md_Template (md : MachineDeployment) : MachineTemplateSpec := mds_Template (md_Spec md).
Definition md_Annotations (md : MachineDeployment) : gmap string string :=
  om_Annotations (md_Meta md).

Definition md_set_Meta (m : Meta) (md : MachineDeployment) : MachineDeployment :=
  {| md_TypeMeta := md_TypeMeta md; md_Meta := m; md_Spec := md_Spec md; md_Status := md_Status md |}.
Definition md_set_Annotations (a : gmap string string) (md : MachineDeployment) :
    MachineDeployment :=
  md_set_Meta (meta_set_Annotations a (md_Meta md)) md.
Definition md_set_Status (st : MachineDeploymentStatus) (md : MachineDeployment) :
    MachineDeployment :=
  {| md_TypeMeta := md_TypeMeta md; md_Meta := md_Meta md; md_Spec := md_Spec md; md_Status := st |}.

Definition md_set_Conditions (cs : Conditions) (md : MachineDeployment) : MachineDeployment :=
  let st := md_Status md in
  md_set_Status
    {| mdt_ObservedGeneration := mdt_ObservedGeneration st; mdt_Selector := mdt_Selector st;
       mdt_Replicas := mdt_Replicas st; mdt_UpdatedReplicas := mdt_UpdatedReplicas st;
       mdt_ReadyReplicas := mdt_ReadyReplicas st;
       mdt_AvailableReplicas := mdt_AvailableReplicas st;
       mdt_UnavailableReplicas := mdt_UnavailableReplicas st; mdt_Phase := mdt_Phase st;
       mdt_Conditions := cs; mdt_V1Beta2 := mdt_V1Beta2 st |} md.

Definition emptyMDStatus : MachineDeploymentStatus :=
  {| mdt_ObservedGeneration := 0; mdt_Selector := ""; mdt_Replicas := 0;
     mdt_UpdatedReplicas := 0; mdt_ReadyReplicas := 0; mdt_AvailableReplicas := 0;
     mdt_UnavailableReplicas := 0; mdt_Phase := ""; mdt_Conditions := []; mdt_V1Beta2 := None |}.

(** A rolling deployment with the given size and fenceposts, for examples. *)
Definition md_spec_of (replicas : Z) (surge unavailable : IntOrString) : MachineDeploymentSpec :=
  {| mds_ClusterName := "c"; mds_Replicas := Some replicas; mds_RolloutAfter := None;
     mds_Selector := emptySelector; mds_Template := emptyTemplate;
     mds_Strategy := Some {| mdst_Type := RollingUpdateMachineDeploymentStrategyType;
       mdst_RollingUpdate := Some {| ru_MaxUnavailable := Some unavailable;
         ru_MaxSurge := Some surge; ru_DeletePolicy := None |};
       mdst_Remediation := None |};
     mds_MinReadySeconds := None; mds_RevisionHistoryLimit := Some 1; mds_Paused := false;
     mds_ProgressDeadlineSeconds := None |}.

(** ** Clusters (cluster_types.go)

    The fields of the specification and of the status that the controllers modelled here
    read. *)

Record ClusterSpec := {
  cls_Paused : bool;
  cls_ControlPlaneRef : option ObjectReference;
  cls_InfrastructureRef : option ObjectReference;
}.

Record ClusterStatus := {
  clt_InfrastructureReady : bool;
  clt_ControlPlaneReady : bool;
  clt_Conditions : Conditions;
  clt_V1Beta2 : option (list MetaCondition);
}.

Record Cluster := {
  cl_TypeMeta : TypeMeta;
  cl_Meta : Meta;
  cl_Spec : ClusterSpec;
  cl_Status : ClusterStatus;
}.

Definition cl_set_Conditions (cs : Conditions) (c : Cluster) : Cluster :=
  {| cl_TypeMeta := cl_TypeMeta c; cl_Meta := cl_Meta c; cl_Spec := cl_Spec c;
     cl_Status := {| clt_InfrastructureReady := clt_InfrastructureReady (cl_Status c);
       clt_ControlPlaneReady := clt_ControlPlaneReady (cl_Status c); clt_Conditions := cs;
       clt_V1Beta2 := clt_V1Beta2 (cl_Status c) |} |}.

Definition cl_set_V1Beta2Conditions (cs : list MetaCondition) (c : Cluster) : Cluster :=
  {| cl_TypeMeta := cl_TypeMeta c; cl_Meta := cl_Meta c; cl_Spec := cl_Spec c;
     cl_Status := {| clt_InfrastructureReady := clt_InfrastructureReady (cl_Status c);
       clt_ControlPlaneReady := clt_ControlPlaneReady (cl_Status c);
       clt_Conditions := clt_Conditions (cl_Status c); clt_V1Beta2 := Some cs |} |}.

Definition cl_set_Meta (m : Meta) (c : Cluster) : Cluster :=
  {| cl_TypeMeta := cl_TypeMeta c; cl_Meta := m; cl_Spec := cl_Spec c; cl_Status := cl_Status c |}.

Definition emptyCluster : Cluster :=
  {| cl_TypeMeta := emptyTypeMeta; cl_Meta := emptyMeta;
     cl_Spec := {| cls_Paused := false; cls_ControlPlaneRef := None; cls_InfrastructureRef := None |};
     cl_Status := {| clt_InfrastructureReady := false; clt_ControlPlaneReady := false;
       clt_Conditions := []; clt_V1Beta2 := None |} |}.

Definition InfrastructureReadyCondition : ConditionType := "InfrastructureReady".
Definition ControlPlaneInitializedCondition : ConditionType := "ControlPlaneInitialized".
Definition WaitingForRemediationReason : string := "WaitingForRemediation".
