(* ===== verification/Apimachinery.v ===== *)
(** * Third-party functions the controllers call

    [GetScaledValueFromIntOrPercent] of apimachinery, [RoundToInt32] of k8s.io/utils, the
    group of an API version, controller references and the content hash of a machine template are not part of the
    repository: they are the operations of a class, with the documented behaviour the
    theorems rely on as its laws.  The instance at the end is used by the witnesses.
    [float64] values are the IEEE binary64 numbers of the Standard Library. *)

From S2P Require Import Prelude GoStd Api.
From Stdlib Require Import Ascii.
From Stdlib Require Export SpecFloat.

(** ** float64 *)

(** [float64(i)] for an integer. *)
Definition float64_of_int (i : Z) : spec_float := binary_normalize 53 1024 i 0 false.

(** Division of float64 values. *)
Definition float64_div (x y : spec_float) : spec_float := SFdiv 53 1024 x y.

(** ** The interface *)

(** The percentage [p] of [total], rounded up or down. *)
Definition percent_of (p total : Z) (roundUp : bool) : Z :=
  if roundUp then - ((- (p * total)) / 100) else p * total / 100.

Class Apimachinery := {
  GetScaledValueFromIntOrPercent : option IntOrString → Z → bool → result Z;
  RoundToInt32 : spec_float → Z;
  APIGroup : string → string;
  ParseGroupVersion : string → option string;
  GetControllerOf : Meta → option OwnerReference;
  metav1_IsControlledBy : Meta → Meta → bool;
  NewControllerRef : Meta → string → OwnerReference;
  TemplateHash : MachineTemplateSpec → result string;
  (** A nil value is an error and never a panic; an integer stands for itself; a
      percentage is taken of the total. *)
  scaled_nil : ∀ total up, ∃ e, GetScaledValueFromIntOrPercent None total up = Err e;
  scaled_int : ∀ i total up, GetScaledValueFromIntOrPercent (Some (FromInt i)) total up = Ok i;
  scaled_percent : ∀ p total up,
    0 ≤ p ≤ 100 → 0 ≤ total ≤ int32_max →
    GetScaledValueFromIntOrPercent (Some (FromString (FormatInt p +:+ "%"))) total up
    = Ok (percent_of p total up);
  scaled_no_panic : ∀ v total up, GetScaledValueFromIntOrPercent v total up ≠ Panic;
  RoundToInt32_range : ∀ x, in_int32 (RoundToInt32 x);
  TemplateHash_no_panic : ∀ t, TemplateHash t ≠ Panic;
  (** The controller is the first owner that is marked as such, and is compared by UID; a
      controller reference points to its owner and is marked. *)
  GetControllerOf_find : ∀ m, GetControllerOf m =
    head (filter (λ r, or_Controller r = Some true) (om_OwnerReferences m));
  metav1_IsControlledBy_uid : ∀ obj owner, metav1_IsControlledBy obj owner =
    match GetControllerOf obj with
    | Some ref => bool_decide (or_UID ref = om_UID owner)
    | None => false
    end;
  NewControllerRef_spec : ∀ m kind,
    or_UID (NewControllerRef m kind) = om_UID m ∧ or_Name (NewControllerRef m kind) = om_Name m ∧
    or_Kind (NewControllerRef m kind) = kind ∧ or_Controller (NewControllerRef m kind) = Some true;
}.

Lemma percent_of_bounds p total up :
  0 ≤ p ≤ 100 → 0 ≤ total → 0 ≤ percent_of p total up ≤ total.
Proof.
  intros Hp Ht. unfold percent_of. destruct up.
  - pose proof (Z.div_mod (- (p * total)) 100). pose proof (Z.mod_pos_bound (- (p * total)) 100).
    nia.
  - pose proof (Z.div_mod (p * total) 100). pose proof (Z.mod_pos_bound (p * total) 100). nia.
Qed.

(** ** A concrete instance *)

(** Rounds half away from zero, towards the representable range. *)
Definition round_spec_float (x : spec_float) : Z :=
  match x with
  | S754_finite sign mant exp =>
      let twice := Z.shiftl (2 * Zpos mant) exp in
      let r := (twice + 1) / 2 in
      let v := if sign then - r else r in
      Z.max int32_min (Z.min int32_max v)
  | _ => 0
  end.

Definition scaled_value (v : option IntOrString) (total : Z) (up : bool) : result Z :=
  match v with
  | None => Err (Errorf "nil value for IntOrString")
  | Some (FromInt i) => Ok i
  | Some (FromString s) =>
      if HasSuffix s "%" then
        match ParseInt (TrimSuffix s "%") 64 with
        | (p, None) => Ok (percent_of p total up)
        | (_, Some _) => Err (Errorf "invalid value for IntOrString")
        end
      else Err (Errorf "invalid type: string is not a percentage")
  end.

Fixpoint before_slash (s : string) : option string :=
  match s with
  | EmptyString => None
  | String c s' => if Ascii.eqb c "/" then Some EmptyString else String c <$> before_slash s'
  end.

Definition group_of (apiVersion : string) : string := default "" (before_slash apiVersion).

Lemma HasSuffix_append s t : HasSuffix (s +:+ t) t = true.
Proof.
  induction s as [|c s IH]; simpl.
  - destruct t; simpl; by rewrite ?Ascii.eqb_refl, ?String.eqb_refl.
  - by rewrite IH, orb_true_r.
Qed.

Lemma length_append (s t : string) :
  String.length (s +:+ t) = (String.length s + String.length t)%nat.
Proof. induction s as [|c s IH]; simpl; [done|by rewrite IH]. Qed.

Lemma substring_append (s t : string) : String.substring 0 (String.length s) (s +:+ t) = s.
Proof. induction s as [|c s IH]; simpl; [by destruct t|congruence]. Qed.

Lemma TrimSuffix_append s t : TrimSuffix (s +:+ t) t = s.
Proof.
  unfold TrimSuffix. rewrite HasSuffix_append, length_append.
  replace (String.length s + String.length t - String.length t)%nat with (String.length s) by lia.
  apply substring_append.
Qed.

#[export] Instance concrete_Apimachinery : Apimachinery | 100.
Proof.
  refine {| GetScaledValueFromIntOrPercent := scaled_value; RoundToInt32 := round_spec_float;
            APIGroup := group_of; TemplateHash := λ t, Ok "hash"%string;
            ParseGroupVersion := λ v, Some (group_of v);
            GetControllerOf := λ m,
              head (filter (λ r, or_Controller r = Some true) (om_OwnerReferences m));
            metav1_IsControlledBy := λ obj owner,
              match head (filter (λ r, or_Controller r = Some true) (om_OwnerReferences obj)) with
              | Some ref => bool_decide (or_UID ref = om_UID owner)
              | None => false
              end;
            NewControllerRef := λ m kind,
              {| or_APIVersion := "cluster.x-k8s.io/v1beta1"; or_Kind := kind;
                 or_Name := om_Name m; or_UID := om_UID m; or_Controller := Some true;
                 or_BlockOwnerDeletion := Some true |} |}; simpl.
  - eauto.
  - done.
  - intros p total up Hp Ht. unfold scaled_value.
    rewrite HasSuffix_append, TrimSuffix_append, ParseInt_FormatInt by lia. done.
  - intros [[i|s]|] total up; simpl; try done.
    destruct (HasSuffix s "%"); [|done]. by destruct (ParseInt _ _) as [? [?|]].
  - unfold in_int32, int32_min, int32_max.
    intros [| | |sign mant exp]; cbn -[Z.shiftl Z.max Z.min Z.div]; try lia.
    unfold int32_min, int32_max. lia.
  - done.
  - done.
  - done.
  - done.
Defined.
