(* ===== verification/External.v ===== *)
(** * Annotations and external objects (util/annotations/helpers.go, controllers/external/util.go)

    External objects are unstructured objects of apimachinery, read and written through the
    accessors of that package; the class [Unstructured] states what they do. *)

From S2P Require Import Prelude GoStd Api.

(** ** Annotations *)

Definition PausedAnnotation : string := "cluster.x-k8s.io/paused".
Definition MachineSkipRemediationAnnotation : string := "cluster.x-k8s.io/skip-remediation".
Definition RemediateMachineAnnotation : string := "cluster.x-k8s.io/remediate-machine".
Definition ManagedByAnnotation : string := "cluster.x-k8s.io/managed-by".
Definition ReplicasManagedByAnnotation : string := "cluster.x-k8s.io/replicas-managed-by".
Definition TemplateClonedFromNameAnnotation : string := "cluster.x-k8s.io/cloned-from-name".
Definition TemplateClonedFromGroupKindAnnotation : string :=
  "cluster.x-k8s.io/cloned-from-groupkind".

Definition hasAnnotation (o : Meta) (annotation : string) : bool :=
  bool_decide (is_Some (om_Annotations o !! annotation)).

Definition hasTruthyAnnotationValue (o : Meta) (annotation : string) : bool :=
  match om_Annotations o !! annotation with
  | Some val => negb (String.eqb val "false")
  | None => false
  end.

Definition HasPaused (o : Meta) : bool := hasAnnotation o PausedAnnotation.
Definition HasSkipRemediation (o : Meta) : bool := hasAnnotation o MachineSkipRemediationAnnotation.
Definition HasRemediateMachine (o : Meta) : bool := hasAnnotation o RemediateMachineAnnotation.
Definition IsExternallyManaged (o : Meta) : bool := hasAnnotation o ManagedByAnnotation.
Definition IsPaused (cluster : Cluster) (o : Meta) : bool :=
  if cls_Paused (cl_Spec cluster) then true else HasPaused o.
Definition ReplicasManagedByExternalAutoscaler (o : Meta) : bool :=
  hasTruthyAnnotationValue o ReplicasManagedByAnnotation.

(** The iteration over a map; the answer does not depend on its order. *)
Definition HasWithPrefix (prefix : string) (annotations : gmap string string) : bool :=
  existsb (λ kv, HasPrefix kv.1 prefix) (map_to_list annotations).

(** One turn of the loop of [AddAnnotations]. *)
Definition add_annotation (kv : string * string) (acc : gmap string string * bool) :
    gmap string string * bool :=
  if bool_decide (acc.1 !! kv.1 = Some kv.2) then acc else (<[kv.1 := kv.2]> acc.1, true).

Definition AddAnnotations (o : Meta) (desired : gmap string string) : Meta * bool :=
  if bool_decide (desired = ∅) then (o, false)
  else
    let '(annotations, hasChanged) :=
      foldr add_annotation (om_Annotations o, false) (map_to_list desired) in
    (meta_set_Annotations annotations o, hasChanged).

(** ** Unstructured objects *)

Class Unstructured := {
  Obj : Type;
  o_TypeMeta : Obj → TypeMeta;
  o_Meta : Obj → Meta;
  o_set_TypeMeta : TypeMeta → Obj → Obj;
  o_set_Meta : Meta → Obj → Obj;
  SetResourceVersion : string → Obj → Obj;
  SetSelfLink : string → Obj → Obj;
  (** The map under some fields as an object, whether it was found, and the error if there is
      something else than a map; the same for strings and booleans. *)
  NestedMap : Obj → list string → Obj * bool * option error;
  NestedString : Obj → list string → string * bool * option error;
  NestedBool : Obj → list string → bool * bool * option error;
  gvk_String : TypeMeta → string;
  groupKind_String : TypeMeta → string;
  o_TypeMeta_set : ∀ tm o, o_TypeMeta (o_set_TypeMeta tm o) = tm;
  o_Meta_set : ∀ m o, o_Meta (o_set_Meta m o) = m;
  o_TypeMeta_set_Meta : ∀ m o, o_TypeMeta (o_set_Meta m o) = o_TypeMeta o;
  o_Meta_set_TypeMeta : ∀ tm o, o_Meta (o_set_TypeMeta tm o) = o_Meta o;
  SetResourceVersion_keeps : ∀ v o,
    o_TypeMeta (SetResourceVersion v o) = o_TypeMeta o ∧ o_Meta (SetResourceVersion v o) = o_Meta o;
  SetSelfLink_keeps : ∀ v o,
    o_TypeMeta (SetSelfLink v o) = o_TypeMeta o ∧ o_Meta (SetSelfLink v o) = o_Meta o;
  (** An accessor that finds something else than a map has not found the map. *)
  NestedMap_error : ∀ o path m found e, NestedMap o path = (m, found, Some e) → found = false;
}.

Create Rewrite HintDb unstructured.
#[export] Hint Rewrite @o_TypeMeta_set @o_Meta_set @o_TypeMeta_set_Meta @o_Meta_set_TypeMeta
  : unstructured.

Section external.
Context `{Unstructured}.

Definition meta_set_Name (name : string) (m : Meta) : Meta :=
  {| om_Name := name; om_Namespace := om_Namespace m; om_UID := om_UID m;
     om_Generation := om_Generation m; om_CreationTimestamp := om_CreationTimestamp m;
     om_DeletionTimestamp := om_DeletionTimestamp m; om_Labels := om_Labels m;
     om_Annotations := om_Annotations m; om_OwnerReferences := om_OwnerReferences m;
     om_Finalizers := om_Finalizers m |}.

Definition meta_set_Labels (l : gmap string string) (m : Meta) : Meta :=
  {| om_Name := om_Name m; om_Namespace := om_Namespace m; om_UID := om_UID m;
     om_Generation := om_Generation m; om_CreationTimestamp := om_CreationTimestamp m;
     om_DeletionTimestamp := om_DeletionTimestamp m; om_Labels := l;
     om_Annotations := om_Annotations m; om_OwnerReferences := om_OwnerReferences m;
     om_Finalizers := om_Finalizers m |}.

(** [SetFinalizers(nil)], [SetUID("")] and [SetNamespace]. *)
Definition meta_clean (namespace : string) (m : Meta) : Meta :=
  {| om_Name := om_Name m; om_Namespace := namespace; om_UID := "";
     om_Generation := om_Generation m; om_CreationTimestamp := om_CreationTimestamp m;
     om_DeletionTimestamp := om_DeletionTimestamp m; om_Labels := om_Labels m;
     om_Annotations := om_Annotations m; om_OwnerReferences := om_OwnerReferences m;
     om_Finalizers := [] |}.

Definition o_SetName (name : string) (o : Obj) : Obj := o_set_Meta (meta_set_Name name (o_Meta o)) o.

Record GenerateTemplateInput := {
  gt_Template : Obj;
  gt_TemplateRef : ObjectReference;
  gt_Namespace : string;
  gt_Name : string;
  gt_ClusterName : string;
  gt_OwnerRef : option OwnerReference;
  gt_Labels : gmap string string;
  gt_Annotations : gmap string string;
}.

Definition ref_TypeMeta (ref : ObjectReference) : TypeMeta :=
  {| tm_Kind := ref_Kind ref; tm_APIVersion := ref_APIVersion ref |}.

(** [GenerateName] is the name generator of Kubernetes. *)
Definition GenerateTemplate (GenerateName : string → string) (i : GenerateTemplateInput) :
    result Obj :=
  let t := gt_Template i in
  let described := gvk_String (o_TypeMeta t) +:+ " " +:+ quoted (om_Name (o_Meta t)) in
  match NestedMap t ["spec"; "template"]%string with
  | (_, false, _) => Err (Errorf ("missing Spec.Template on " +:+ described))
  | (_, true, Some e) => Err (Wrap ("failed to retrieve Spec.Template map on " +:+ described) e)
  | (template, true, None) =>
      let to := SetSelfLink "" (SetResourceVersion "" template) in
      let m := meta_clean (gt_Namespace i) (o_Meta to) in
      let name := gt_Name i in
      let name := if String.eqb name "" then GenerateName (om_Name (o_Meta t) +:+ "-") else name in
      let m := meta_set_Name name m in
      let annotations := gt_Annotations i ∪ om_Annotations m in
      let annotations :=
        <[TemplateClonedFromGroupKindAnnotation :=
            groupKind_String (ref_TypeMeta (gt_TemplateRef i))]>
          (<[TemplateClonedFromNameAnnotation := ref_Name (gt_TemplateRef i)]> annotations) in
      let m := meta_set_Annotations annotations m in
      let m := meta_set_Labels (<[ClusterNameLabel := gt_ClusterName i]>
                                  (gt_Labels i ∪ om_Labels m)) m in
      let m := match gt_OwnerRef i with
               | Some ref => meta_set_OwnerReferences [ref] m
               | None => m
               end in
      let tm := o_TypeMeta to in
      let tm := if String.eqb (tm_APIVersion tm) ""
                then {| tm_Kind := tm_Kind tm; tm_APIVersion := tm_APIVersion (o_TypeMeta t) |}
                else tm in
      let tm := if String.eqb (tm_Kind tm) ""
                then {| tm_Kind := TrimSuffix (tm_Kind (o_TypeMeta t)) TemplateSuffix;
                        tm_APIVersion := tm_APIVersion tm |}
                else tm in
      Ok (o_set_TypeMeta tm (o_set_Meta m to))
  end.

Definition GetObjectReference (obj : Obj) : ObjectReference :=
  {| ref_Kind := tm_Kind (o_TypeMeta obj); ref_Namespace := om_Namespace (o_Meta obj);
     ref_Name := om_Name (o_Meta obj); ref_UID := om_UID (o_Meta obj);
     ref_APIVersion := tm_APIVersion (o_TypeMeta obj);
     ref_ResourceVersion := ""; ref_FieldPath := "" |}.

Definition described (obj : Obj) : string :=
  gvk_String (o_TypeMeta obj) +:+ " " +:+ quoted (om_Name (o_Meta obj)).

Definition FailuresFrom (obj : Obj) : result (string * string) :=
  match NestedString obj ["status"; "failureReason"]%string with
  | (_, _, Some e) => Err (Wrap ("failed to determine failureReason on " +:+ described obj) e)
  | (failureReason, _, None) =>
      match NestedString obj ["status"; "failureMessage"]%string with
      | (_, _, Some e) => Err (Wrap ("failed to determine failureMessage on " +:+ described obj) e)
      | (failureMessage, _, None) => Ok (failureReason, failureMessage)
      end
  end.

Definition status_bool (obj : Obj) (field what : string) : result bool :=
  match NestedBool obj ["status"%string; field] with
  | (_, _, Some e) => Err (Wrap ("failed to determine " +:+ described obj +:+ " " +:+ what) e)
  | (b, found, None) => Ok (b && found)
  end.

Definition external_IsReady (obj : Obj) : result bool := status_bool obj "ready" "readiness".
Definition external_IsInitialized (obj : Obj) : result bool := status_bool obj "initialized" "initialized".
End external.

(** ** Annotations: what is added *)

Lemma add_annotations_lookup (o : gmap string string) l k :
  NoDup l.*1 →
  (foldr add_annotation (o, false) l).1 !! k
  = match (list_to_map l : gmap string string) !! k with Some v => Some v | None => o !! k end.
Proof.
  induction l as [|[k' v] l IH]; [done|]. simpl. intros [Hk' Hnd]%NoDup_cons.
  unfold add_annotation at 1. case_bool_decide as Hv; simpl in *.
  - destruct (decide (k' = k)) as [<-|]; [by rewrite lookup_insert_eq|].
    rewrite lookup_insert_ne by done. by apply IH.
  - destruct (decide (k' = k)) as [<-|]; [by rewrite !lookup_insert_eq|].
    rewrite !lookup_insert_ne by done. by apply IH.
Qed.

Lemma add_annotations_changed (o : gmap string string) l :
  NoDup l.*1 →
  (foldr add_annotation (o, false) l).2 = true ↔ ∃ k v, (k, v) ∈ l ∧ o !! k ≠ Some v.
Proof.
  induction l as [|[k' v'] l IH]; intros Hnd; simpl; [split; [done|]; set_solver|].
  apply NoDup_cons in Hnd as [Hk' Hnd].
  assert ((foldr add_annotation (o, false) l).1 !! k' = o !! k') as Eo.
  { rewrite add_annotations_lookup by done. by rewrite not_elem_of_list_to_map_1. }
  unfold add_annotation at 1. simpl. rewrite Eo. case_bool_decide as Hv.
  - rewrite IH by done. split; intros (k & v & Hin & Hne).
    + exists k, v. set_solver.
    + apply elem_of_cons in Hin as [[= -> ->]|Hin]; [done|by exists k, v].
  - split; [|done]. intros _. exists k', v'. set_solver.
Qed.

(** The desired annotations override the present ones, and a change is reported exactly when
    one of them was missing or different. *)
Lemma AddAnnotations_spec o desired :
  om_Annotations (AddAnnotations o desired).1 = desired ∪ om_Annotations o ∧
  ((AddAnnotations o desired).2 = false ↔ desired ⊆ om_Annotations o).
Proof.
  unfold AddAnnotations. case_bool_decide as He; simpl.
  { subst. rewrite (left_id_L ∅ (∪)). split; [done|]. split; [|done]. intros _. apply map_empty_subseteq. }
  pose proof (NoDup_fst_map_to_list desired) as Hnd.
  destruct (foldr add_annotation _ _) as [a b] eqn:E. simpl.
  pose proof (add_annotations_lookup (om_Annotations o) (map_to_list desired)) as Hl.
  pose proof (add_annotations_changed (om_Annotations o) _ Hnd) as Hc.
  rewrite E in Hl, Hc. simpl in Hl, Hc. split.
  - apply map_eq. intros k. rewrite Hl, list_to_map_to_list, lookup_union by done.
    by destruct (desired !! k), (om_Annotations o !! k).
  - rewrite map_subseteq_spec. split.
    + intros -> k v Hk. apply dec_stable. intros Hne. assert (false = true); [|done].
      apply Hc. exists k, v. by rewrite elem_of_map_to_list.
    + intros Hsub. apply not_true_iff_false. rewrite Hc. intros (k & v & Hin & Hne).
      apply Hne, Hsub. by apply elem_of_map_to_list.
Qed.

(** ** Objects from templates *)

Section generate.
Context `{Unstructured}.

(** What a generated object is: named, placed, labelled and owned as the input says, without
    identity and finalizers. *)
Lemma GenerateTemplate_outcome GenerateName i o :
  GenerateTemplate GenerateName i = Ok o →
  om_Name (o_Meta o)
    = (if String.eqb (gt_Name i) "" then GenerateName (om_Name (o_Meta (gt_Template i)) +:+ "-")
       else gt_Name i) ∧
  om_Namespace (o_Meta o) = gt_Namespace i ∧ om_UID (o_Meta o) = ""%string ∧
  om_Finalizers (o_Meta o) = [] ∧ om_Labels (o_Meta o) !! ClusterNameLabel = Some (gt_ClusterName i) ∧
  (∀ ref, gt_OwnerRef i = Some ref → om_OwnerReferences (o_Meta o) = [ref]).
Proof.
  unfold GenerateTemplate.
  destruct (NestedMap _ _) as [[t []] [e|]]; try done.
  intros [= <-]. autorewrite with unstructured.
  destruct (gt_OwnerRef i) as [ref|]; simpl; rewrite lookup_insert_eq; split_and!; try done.
  by intros ? [= ->].
Qed.

Lemma GenerateTemplate_no_panic GenerateName i : GenerateTemplate GenerateName i ≠ Panic.
Proof. unfold GenerateTemplate. by destruct (NestedMap _ _) as [[t []] [e|]]. Qed.

(** Whatever is wrong with the template, it is reported as missing: the error that says what
    was found instead is never returned. *)
Lemma GenerateTemplate_error GenerateName i e :
  GenerateTemplate GenerateName i = Err e →
  e = Errorf ("missing Spec.Template on " +:+ described (gt_Template i)).
Proof.
  unfold GenerateTemplate.
  destruct (NestedMap _ _) as [[t []] [e'|]] eqn:E; try done.
  - by apply NestedMap_error in E.
  - by intros [= <-].
  - by intros [= <-].
Qed.
End generate.

(** ** A concrete instance *)

(** Objects with a template and the fields of the status that are read. *)
Record PlainObject := {
  po_TypeMeta : TypeMeta;
  po_Meta : Meta;
  po_template : option (TypeMeta * Meta);
}.

#[export] Instance concrete_Unstructured : Unstructured | 100.
Proof.
  refine {|
    Obj := PlainObject;
    o_TypeMeta := po_TypeMeta;
    o_Meta := po_Meta;
    o_set_TypeMeta tm o := {| po_TypeMeta := tm; po_Meta := po_Meta o; po_template := po_template o |};
    o_set_Meta m o := {| po_TypeMeta := po_TypeMeta o; po_Meta := m; po_template := po_template o |};
    SetResourceVersion _ o := o;
    SetSelfLink _ o := o;
    NestedMap o path :=
      match po_template o with
      | Some (tm, m) => if decide (path = ["spec"; "template"]%string)
                        then ({| po_TypeMeta := tm; po_Meta := m; po_template := None |}, true, None)
                        else (o, false, None)
      | None => (o, false, None)
      end;
    NestedString _ _ := (""%string, false, None);
    NestedBool _ _ := (false, false, None);
    gvk_String tm := tm_APIVersion tm +:+ ", Kind=" +:+ tm_Kind tm;
    groupKind_String tm := tm_Kind tm |}.
  all: try done. intros o path m found e. destruct (po_template o) as [[]|]; [case_decide|]; done.
Defined.
