(* ===== verification/Util.v ===== *)
(** * General helpers (util/util.go)

    Owner references, reconciliation results, maps and version skew.  An API version that
    does not parse has no group.  A slice that is updated in place is returned. *)

From S2P Require Import Prelude GoStd Api Apimachinery.
From Stdlib Require Import Ascii.

(** [math.Abs] on an [int] in the exact range of float64. *)
Definition Ordinalize (n : Z) : string :=
  let suffix (d : Z) : string :=
    if d =? 1 then "st" else if d =? 2 then "nd" else if d =? 3 then "rd" else "th" in
  let an := Z.abs n in
  if an <? 10 then FormatInt n +:+ suffix an else FormatInt n +:+ suffix (an mod 10).

Definition IsControlPlaneMachine (machine : Machine) : bool :=
  bool_decide (is_Some (om_Labels (m_Meta machine) !! MachineControlPlaneLabel)).

Section owners.
Context `{Apimachinery}.

Definition referSameObject (a b : OwnerReference) : bool :=
  match ParseGroupVersion (or_APIVersion a), ParseGroupVersion (or_APIVersion b) with
  | Some aGroup, Some bGroup =>
      bool_decide (aGroup = bGroup) && bool_decide (or_Kind a = or_Kind b)
      && bool_decide (or_Name a = or_Name b)
  | _, _ => false
  end.

(** The index of the owner reference, -1 if it is not there. *)
Fixpoint indexOwnerRef_from (i : Z) (ownerReferences : list OwnerReference)
    (ref : OwnerReference) : Z :=
  match ownerReferences with
  | [] => -1
  | r :: rs => if referSameObject r ref then i else indexOwnerRef_from (i + 1) rs ref
  end.

Definition indexOwnerRef (ownerReferences : list OwnerReference) (ref : OwnerReference) : Z :=
  indexOwnerRef_from 0 ownerReferences ref.

Definition HasOwnerRef (ownerReferences : list OwnerReference) (ref : OwnerReference) : bool :=
  -1 <? indexOwnerRef ownerReferences ref.

Definition EnsureOwnerRef (ownerReferences : list OwnerReference) (ref : OwnerReference) :
    list OwnerReference :=
  let idx := indexOwnerRef ownerReferences ref in
  if idx =? -1 then ownerReferences ++ [ref] else <[Z.to_nat idx := ref]> ownerReferences.

Fixpoint replace_uid (ownerReferences : list OwnerReference) (uid : string)
    (target : OwnerReference) : option (list OwnerReference) :=
  match ownerReferences with
  | [] => None
  | r :: rs =>
      if bool_decide (or_UID r = uid) then Some (target :: rs) else cons r <$> replace_uid rs uid target
  end.

Definition ReplaceOwnerRef (ownerReferences : list OwnerReference) (source : Meta)
    (target : OwnerReference) : list OwnerReference :=
  match replace_uid ownerReferences (om_UID source) target with
  | Some refs => refs
  | None => ownerReferences ++ [target]
  end.

Definition RemoveOwnerRef (ownerReferences : list OwnerReference) (inputRef : OwnerReference) :
    list OwnerReference :=
  let index := indexOwnerRef ownerReferences inputRef in
  if negb (index =? -1)
  then take (Z.to_nat index) ownerReferences ++ drop (S (Z.to_nat index)) ownerReferences
  else ownerReferences.

(** An object is given by its type and its metadata. *)
Definition refersTo (ref : OwnerReference) (tm : TypeMeta) (obj : Meta) : bool :=
  match ParseGroupVersion (or_APIVersion ref) with
  | None => false
  | Some refGroup =>
      bool_decide (refGroup = APIGroup (tm_APIVersion tm))
      && bool_decide (or_Kind ref = tm_Kind tm) && bool_decide (or_Name ref = om_Name obj)
  end.

Definition IsOwnedByObject (obj : Meta) (targetType : TypeMeta) (target : Meta) : bool :=
  existsb (λ ref, refersTo ref targetType target) (om_OwnerReferences obj).

Definition IsControlledBy (obj : Meta) (ownerType : TypeMeta) (owner : Meta) : bool :=
  match GetControllerOf obj with
  | None => false
  | Some controllerRef => refersTo controllerRef ownerType owner
  end.

Fixpoint has_owner_loop (group : string) (kinds : list string) (refList : list OwnerReference) :
    bool :=
  match refList with
  | [] => false
  | mr :: rest =>
      match ParseGroupVersion (or_APIVersion mr) with
      | None => false
      | Some mrGroup =>
          if bool_decide (mrGroup = group) && bool_decide (or_Kind mr ∈ kinds) then true
          else has_owner_loop group kinds rest
      end
  end.

Definition HasOwner (refList : list OwnerReference) (apiVersion : string) (kinds : list string) :
    bool :=
  match ParseGroupVersion apiVersion with
  | None => false
  | Some group => has_owner_loop group kinds refList
  end.
End owners.

(** ** Results, integers and maps *)

Record ctrl_Result := { cr_Requeue : bool; cr_RequeueAfter : Z }.

Definition ctrl_Result_IsZero (r : ctrl_Result) : bool :=
  negb (cr_Requeue r) && (cr_RequeueAfter r =? 0).

Definition LowestNonZeroResult (i j : ctrl_Result) : ctrl_Result :=
  if ctrl_Result_IsZero i then j
  else if ctrl_Result_IsZero j then i
  else if cr_Requeue i then i
  else if cr_Requeue j then j
  else if cr_RequeueAfter i <? cr_RequeueAfter j then i
  else j.

Definition LowestNonZeroInt32 (i j : Z) : Z :=
  if i =? 0 then j else if j =? 0 then i else if i <? j then i else j.

(** The maps are written from the last to the first; the nil result is the empty map. *)
Definition MergeMap (maps : list (gmap string string)) : gmap string string :=
  foldr (λ m acc, m ∪ acc) ∅ maps.

(** Major and minor are unsigned; the smaller is subtracted from the larger. *)
Definition IsSupportedVersionSkew (aMajor aMinor bMajor bMinor : Z) : bool :=
  if negb (aMajor =? bMajor) then false
  else if bMinor <? aMinor then aMinor - bMinor =? 1
  else bMinor - aMinor <=? 1.

(** ** Owner references have one entry per object *)

Section owner_theory.
Context `{Apimachinery}.

Lemma indexOwnerRef_from_spec i refs ref :
  0 ≤ i →
  (indexOwnerRef_from i refs ref = -1 ∧ ∀ r, r ∈ refs → referSameObject r ref = false) ∨
  (∃ r1 r r2, refs = r1 ++ r :: r2 ∧ indexOwnerRef_from i refs ref = i + Z.of_nat (length r1) ∧
    referSameObject r ref = true ∧ ∀ r', r' ∈ r1 → referSameObject r' ref = false).
Proof.
  revert i. induction refs as [|r refs IH]; intros i Hi; simpl; [left; set_solver|].
  destruct (referSameObject r ref) eqn:E.
  - right. exists [], r, refs. simpl. split_and!; [done|lia|done|set_solver].
  - destruct (IH (i + 1)) as [[-> Hno]|(r1 & r' & r2 & -> & -> & Hs & Hno)]; [lia|left|right].
    + set_solver.
    + exists (r :: r1), r', r2. split_and!; [done|simpl; lia|done|]. set_solver.
Qed.

Lemma indexOwnerRef_spec refs ref :
  (indexOwnerRef refs ref = -1 ∧ ∀ r, r ∈ refs → referSameObject r ref = false) ∨
  (∃ r1 r r2, refs = r1 ++ r :: r2 ∧ indexOwnerRef refs ref = Z.of_nat (length r1) ∧
    referSameObject r ref = true ∧ ∀ r', r' ∈ r1 → referSameObject r' ref = false).
Proof. apply (indexOwnerRef_from_spec 0). lia. Qed.

Lemma EnsureOwnerRef_cases refs ref :
  (EnsureOwnerRef refs ref = refs ++ [ref] ∧ ∀ r, r ∈ refs → referSameObject r ref = false) ∨
  (∃ r1 r r2, refs = r1 ++ r :: r2 ∧ EnsureOwnerRef refs ref = r1 ++ ref :: r2 ∧
    referSameObject r ref = true ∧ ∀ r', r' ∈ r1 → referSameObject r' ref = false).
Proof.
  unfold EnsureOwnerRef.
  destruct (indexOwnerRef_spec refs ref) as [[-> Hno]|(r1 & r & r2 & -> & -> & Hs & Hno)];
    [by left|right].
  exists r1, r, r2. split_and!; [done| |done|done].
  destruct (Z.eqb_spec (Z.of_nat (length r1)) (-1)); [lia|].
  rewrite Nat2Z.id, insert_app_r_alt by lia. by rewrite Nat.sub_diag.
Qed.

Lemma referSameObject_refl ref :
  is_Some (ParseGroupVersion (or_APIVersion ref)) → referSameObject ref ref = true.
Proof. intros [g Hg]. unfold referSameObject. rewrite Hg. by rewrite !bool_decide_eq_true_2. Qed.

(** The first reference to the object is found. *)
Lemma indexOwnerRef_at r1 ref r2 :
  is_Some (ParseGroupVersion (or_APIVersion ref)) →
  (∀ r', r' ∈ r1 → referSameObject r' ref = false) →
  indexOwnerRef (r1 ++ ref :: r2) ref = Z.of_nat (length r1).
Proof.
  intros Hg Hno. unfold indexOwnerRef. rewrite <- (Z.add_0_l (Z.of_nat _)). generalize 0.
  induction r1 as [|r r1 IH]; intros i; simpl; [rewrite referSameObject_refl by done; lia|].
  rewrite (Hno r) by set_solver. rewrite IH by set_solver. lia.
Qed.
End owner_theory.

(** ** Properties *)

(** [EnsureOwnerRef] leaves exactly one more entry when the object was not an owner and
    as many as before when it was; the reference is then present with its present UID and
    version, every reference to another object is kept in place, and a second call changes
    nothing. *)
Theorem EnsureOwnerRef_spec `{Apimachinery} (refs : list OwnerReference) (ref : OwnerReference) :
  is_Some (ParseGroupVersion (or_APIVersion ref)) →
  let refs' := EnsureOwnerRef refs ref in
  ref ∈ refs' ∧ HasOwnerRef refs' ref = true ∧ EnsureOwnerRef refs' ref = refs' ∧
  length refs' = (length refs + if HasOwnerRef refs ref then 0 else 1)%nat ∧
  (∀ r, referSameObject r ref = false → (r ∈ refs' ↔ r ∈ refs)) ∧
  (HasOwnerRef refs ref = false → RemoveOwnerRef refs' ref = refs).
Proof.
  intros Hg. assert (∀ r1 r2, (∀ r', r' ∈ r1 → referSameObject r' ref = false) →
    indexOwnerRef (r1 ++ ref :: r2) ref = Z.of_nat (length r1)) as Hidx
    by (intros; by apply indexOwnerRef_at).
  pose proof (referSameObject_refl ref Hg) as Hself. unfold HasOwnerRef at 2 3.
  destruct (EnsureOwnerRef_cases refs ref) as [[E Hno]|(r1 & r & r2 & -> & E & Hr & Hno)];
    rewrite E; simpl.
  - assert (indexOwnerRef refs ref = -1) as Ei.
    { destruct (indexOwnerRef_spec refs ref) as [[? _]|(?&r&?&->&_&?&_)]; [done|].
      rewrite (Hno r) in *; set_solver. }
    unfold HasOwnerRef, EnsureOwnerRef, RemoveOwnerRef. rewrite !Hidx, Ei by done.
    rewrite length_app, Nat2Z.id. simpl.
    destruct (Z.eqb_spec (Z.of_nat (length refs)) (-1)); [lia|]. simpl. split_and!.
    + set_solver.
    + apply Z.ltb_lt. lia.
    + rewrite insert_app_r_alt, Nat.sub_diag by lia. done.
    + lia.
    + intros r Hr. rewrite elem_of_app, list_elem_of_singleton. naive_solver congruence.
    + intros _. rewrite take_app_length, drop_ge by (rewrite length_app; simpl; lia).
      by rewrite app_nil_r.
  - assert (∃ n, indexOwnerRef (r1 ++ r :: r2) ref = Z.of_nat n) as [n Ei].
    { destruct (indexOwnerRef_spec (r1 ++ r :: r2) ref) as [[_ Hn]|(?&?&?&_&?&_)]; [|eauto].
      rewrite (Hn r) in Hr; set_solver. }
    unfold HasOwnerRef, EnsureOwnerRef. rewrite !Hidx, Ei by done.
    destruct (Z.eqb_spec (Z.of_nat (length r1)) (-1)); [lia|].
    assert ((-1 <? Z.of_nat n) = true) as -> by (apply Z.ltb_lt; lia).
    rewrite !length_app, Nat2Z.id. simpl. split_and!; try done; try lia.
    + set_solver.
    + rewrite insert_app_r_alt, Nat.sub_diag by lia. done.
    + intros x Hx. rewrite !elem_of_app, !elem_of_cons. naive_solver congruence.
Qed.

(** The ordinal of 11, 12 and 13 gets the suffix of 1, 2 and 3. *)
Theorem Ordinalize_teens :
  Ordinalize 11 = "11st"%string ∧ Ordinalize 12 = "12nd"%string ∧ Ordinalize 13 = "13rd"%string.
Proof. by vm_compute. Qed.

Definition owner_ref (apiVersion kind name : string) : OwnerReference :=
  {| or_APIVersion := apiVersion; or_Kind := kind; or_Name := name; or_UID := "uid";
     or_Controller := None; or_BlockOwnerDeletion := None |}.

(** [HasOwner] stops at the first reference whose API version does not parse, so that
    it can miss a matching reference that follows. *)
Theorem HasOwner_unparsable `{Apimachinery} (refs : list OwnerReference) (bad : OwnerReference)
    (apiVersion : string) (kinds : list string) :
  ParseGroupVersion (or_APIVersion bad) = None →
  HasOwner (bad :: refs) apiVersion kinds = false.
Proof.
  intros Hbad. unfold HasOwner. destruct (ParseGroupVersion apiVersion); [|done].
  simpl. by rewrite Hbad.
Qed.

(** ** Witnesses *)

(** A parser that rejects API versions with more than one slash. *)
Definition strict_group (v : string) : option string :=
  match Split v "/"%char with [_] => Some ""%string | [g; _] => Some g | _ => None end.

Definition strict_Apimachinery : Apimachinery :=
  {| GetScaledValueFromIntOrPercent := @GetScaledValueFromIntOrPercent concrete_Apimachinery;
     RoundToInt32 := @RoundToInt32 concrete_Apimachinery;
     APIGroup := @APIGroup concrete_Apimachinery; ParseGroupVersion := strict_group;
     GetControllerOf := @GetControllerOf concrete_Apimachinery;
     metav1_IsControlledBy := @metav1_IsControlledBy concrete_Apimachinery;
     NewControllerRef := @NewControllerRef concrete_Apimachinery;
     TemplateHash := @TemplateHash concrete_Apimachinery;
     scaled_nil := @scaled_nil concrete_Apimachinery;
     scaled_int := @scaled_int concrete_Apimachinery;
     scaled_percent := @scaled_percent concrete_Apimachinery;
     scaled_no_panic := @scaled_no_panic concrete_Apimachinery;
     RoundToInt32_range := @RoundToInt32_range concrete_Apimachinery;
     TemplateHash_no_panic := @TemplateHash_no_panic concrete_Apimachinery;
     GetControllerOf_find := @GetControllerOf_find concrete_Apimachinery;
     metav1_IsControlledBy_uid := @metav1_IsControlledBy_uid concrete_Apimachinery;
     NewControllerRef_spec := @NewControllerRef_spec concrete_Apimachinery |}.

Lemma EnsureOwnerRef_spec_witness :
  HasOwnerRef (EnsureOwnerRef [owner_ref "v1" "Secret" "s"] (owner_ref "cluster.x-k8s.io/v1beta1" "Cluster" "c"))
    (owner_ref "cluster.x-k8s.io/v1beta1" "Cluster" "c") = true.
Proof.
  apply (EnsureOwnerRef_spec [owner_ref "v1" "Secret" "s"]
    (owner_ref "cluster.x-k8s.io/v1beta1" "Cluster" "c")).
  eexists. reflexivity.
Defined.

Lemma HasOwner_unparsable_witness :
  @HasOwner strict_Apimachinery
    [owner_ref "a/b/c" "X" "x"; owner_ref "cluster.x-k8s.io/v1beta1" "Cluster" "c"]
    "cluster.x-k8s.io/v1beta1" ["Cluster"%string] = false.
Proof. apply (@HasOwner_unparsable strict_Apimachinery). reflexivity. Defined.
