(* ===== verification/Conditions.v ===== *)
(** * Conditions (util/conditions)

    The [Getter] and [Setter] interfaces are type classes; setting a condition threads the
    clock reading of [time.Now] as the argument [now].  [Section setter] models setter.go and
    the reads of getter.go, [Section merge] models merge.go, merge_strategies.go and the
    summary, mirror and aggregate of getter.go, [Section patch] models patch.go. *)

From S2P Require Import Prelude GoStd Api.
From Stdlib Require Import Ascii.

(** ** Interfaces *)

Class Getter (T : Type) := {
  GetConditions : T → Conditions;
  GetName : T → string;
  GetKind : T → string;
}.

Class Setter (T : Type) `{Getter T} := {
  SetConditions : Conditions → T → T;
  GetConditions_SetConditions : ∀ cs x, GetConditions (SetConditions cs x) = cs;
  SetConditions_SetConditions : ∀ cs cs' x,
    SetConditions cs (SetConditions cs' x) = SetConditions cs x;
}.

#[global] Instance Machine_Getter : Getter Machine := {
  GetConditions m := st_Conditions (m_Status m);
  GetName := m_Name;
  GetKind m := tm_Kind (m_TypeMeta m);
}.
#[global] Instance Machine_Setter : Setter Machine.
Proof. by refine {| SetConditions := m_set_Conditions |}. Defined.

#[global] Instance MachineSet_Getter : Getter MachineSet := {
  GetConditions ms := mst_Conditions (ms_Status ms);
  GetName := ms_Name;
  GetKind ms := tm_Kind (ms_TypeMeta ms);
}.
#[global] Instance MachineSet_Setter : Setter MachineSet.
Proof. by refine {| SetConditions := ms_set_Conditions |}. Defined.

#[global] Instance MachineDeployment_Getter : Getter MachineDeployment := {
  GetConditions md := mdt_Conditions (md_Status md);
  GetName := md_Name;
  GetKind md := tm_Kind (md_TypeMeta md);
}.
#[global] Instance MachineDeployment_Setter : Setter MachineDeployment.
Proof. by refine {| SetConditions := md_set_Conditions |}. Defined.

#[global] Instance Cluster_Getter : Getter Cluster := {
  GetConditions c := clt_Conditions (cl_Status c);
  GetName c := om_Name (cl_Meta c);
  GetKind c := tm_Kind (cl_TypeMeta c);
}.
#[global] Instance Cluster_Setter : Setter Cluster.
Proof. by refine {| SetConditions := cl_set_Conditions |}. Defined.

(** ** Reading conditions *)

Fixpoint find_condition (t : ConditionType) (cs : Conditions) : option Condition :=
  match cs with
  | [] => None
  | c :: cs => if bool_decide (c_Type c = t) then Some c else find_condition t cs
  end.

Section getter.
Context {T : Type} `{Getter T}.

Definition Get (from : T) (t : ConditionType) : option Condition :=
  find_condition t (GetConditions from).

Definition Has (from : T) (t : ConditionType) : bool := bool_decide (is_Some (Get from t)).

Definition IsTrue (from : T) (t : ConditionType) : bool :=
  match Get from t with Some c => bool_decide (c_Status c = ConditionTrue) | None => false end.

Definition IsFalse (from : T) (t : ConditionType) : bool :=
  match Get from t with Some c => bool_decide (c_Status c = ConditionFalse) | None => false end.

Definition IsUnknown (from : T) (t : ConditionType) : bool :=
  match Get from t with Some c => bool_decide (c_Status c = ConditionUnknown) | None => true end.

Definition GetReason (from : T) (t : ConditionType) : string :=
  match Get from t with Some c => c_Reason c | None => "" end.

Definition GetMessage (from : T) (t : ConditionType) : string :=
  match Get from t with Some c => c_Message c | None => "" end.

Definition GetSeverity (from : T) (t : ConditionType) : option ConditionSeverity :=
  c_Severity <$> Get from t.

Definition GetLastTransitionTime (from : T) (t : ConditionType) : option Time :=
  c_LastTransitionTime <$> Get from t.
End getter.

(** ** Setting conditions *)

(** Two conditions are in the same state when they agree on everything but the time. *)
Definition HasSameState (i j : Condition) : bool :=
  bool_decide (c_Type i = c_Type j) && bool_decide (c_Status i = c_Status j)
  && bool_decide (c_Reason i = c_Reason j) && bool_decide (c_Severity i = c_Severity j)
  && bool_decide (c_Message i = c_Message j).

(** Ready goes first, the others follow by type. *)
Definition lexicographicLess (i j : Condition) : bool :=
  (bool_decide (c_Type i = ReadyCondition) || string_ltb (c_Type i) (c_Type j))
  && negb (bool_decide (c_Type j = ReadyCondition)).

Definition with_time (t : Time) (c : Condition) : Condition :=
  {| c_Type := c_Type c; c_Status := c_Status c; c_Severity := c_Severity c;
     c_LastTransitionTime := t; c_Reason := c_Reason c; c_Message := c_Message c |}.

(** The loop of [Set] over the existing conditions: the first condition of the same type
    is replaced, unless it is already in the desired state. *)
Fixpoint set_existing (now : Time) (c : Condition) (cs : Conditions) : option Conditions :=
  match cs with
  | [] => None
  | e :: rest =>
      if bool_decide (c_Type e = c_Type c) then
        if HasSameState e c then Some (e :: rest)
        else Some (with_time (TruncateSecond now) c :: rest)
      else cons e <$> set_existing now c rest
  end.

Definition set_unsorted (now : Time) (c : Condition) (cs : Conditions) : Conditions :=
  match set_existing now c cs with
  | Some cs' => cs'
  | None =>
      cs ++ [if IsZero (Some (c_LastTransitionTime c))
             then with_time (TruncateSecond now) c else c]
  end.

Section setter.
Context `{GoSort} {T : Type} `{Setter T}.

Definition Set_ (now : Time) (to : T) (condition : option Condition) : T :=
  match condition with
  | None => to
  | Some c => SetConditions (go_sort lexicographicLess (set_unsorted now c (GetConditions to))) to
  end.

Definition TrueCondition (t : ConditionType) : Condition :=
  {| c_Type := t; c_Status := ConditionTrue; c_Severity := ConditionSeverityNone;
     c_LastTransitionTime := zero_time; c_Reason := ""; c_Message := "" |}.

Definition TrueConditionWithNegativePolarity (t : ConditionType) (reason : string)
    (severity : ConditionSeverity) (message : string) : Condition :=
  {| c_Type := t; c_Status := ConditionTrue; c_Severity := severity;
     c_LastTransitionTime := zero_time; c_Reason := reason; c_Message := message |}.

Definition FalseCondition (t : ConditionType) (reason : string)
    (severity : ConditionSeverity) (message : string) : Condition :=
  {| c_Type := t; c_Status := ConditionFalse; c_Severity := severity;
     c_LastTransitionTime := zero_time; c_Reason := reason; c_Message := message |}.

Definition FalseConditionWithNegativePolarity (t : ConditionType) : Condition :=
  {| c_Type := t; c_Status := ConditionFalse; c_Severity := ConditionSeverityNone;
     c_LastTransitionTime := zero_time; c_Reason := ""; c_Message := "" |}.

Definition UnknownCondition (t : ConditionType) (reason message : string) : Condition :=
  {| c_Type := t; c_Status := ConditionUnknown; c_Severity := ConditionSeverityNone;
     c_LastTransitionTime := zero_time; c_Reason := reason; c_Message := message |}.

Definition MarkTrue (now : Time) (to : T) (t : ConditionType) : T :=
  Set_ now to (Some (TrueCondition t)).

Definition MarkTrueWithNegativePolarity (now : Time) (to : T) (t : ConditionType)
    (reason : string) (severity : ConditionSeverity) (message : string) : T :=
  Set_ now to (Some (TrueConditionWithNegativePolarity t reason severity message)).

Definition MarkUnknown (now : Time) (to : T) (t : ConditionType) (reason message : string) : T :=
  Set_ now to (Some (UnknownCondition t reason message)).

Definition MarkFalse (now : Time) (to : T) (t : ConditionType) (reason : string)
    (severity : ConditionSeverity) (message : string) : T :=
  Set_ now to (Some (FalseCondition t reason severity message)).

Definition MarkFalseWithNegativePolarity (now : Time) (to : T) (t : ConditionType) : T :=
  Set_ now to (Some (FalseConditionWithNegativePolarity t)).

Definition Delete (to : T) (t : ConditionType) : T :=
  SetConditions (filter (λ c, c_Type c ≠ t) (GetConditions to)) to.
End setter.

(** ** The order of conditions *)

Definition ready_rank (c : Condition) : Z :=
  if bool_decide (c_Type c = ReadyCondition) then 0 else 1.

Lemma lexicographicLess_lex c d :
  lexicographicLess c d
  = lex_less ready_rank (λ c d, string_ltb (c_Type c) (c_Type d)) c d.
Proof.
  unfold lexicographicLess, lex_less, ready_rank.
  destruct (bool_decide_reflect (c_Type c = ReadyCondition)) as [Ec|Ec],
    (bool_decide_reflect (c_Type d = ReadyCondition)) as [Ed|Ed]; simpl.
  - by rewrite Ec, Ed, string_ltb_irrefl.
  - done.
  - by rewrite andb_false_r.
  - by rewrite andb_true_r.
Qed.

Lemma lexicographicLess_sw : strict_weak lexicographicLess.
Proof.
  assert (strict_weak (lex_less ready_rank (λ c d, string_ltb (c_Type c) (c_Type d))))
    as Hsw by auto with capi.
  split; intros *; rewrite !lexicographicLess_lex; apply Hsw.
Qed.
#[export] Hint Resolve lexicographicLess_sw : capi.

(** Only conditions of the same type are unordered. *)
Lemma lexicographicLess_total c d :
  lexicographicLess c d = false → lexicographicLess d c = false → c_Type c = c_Type d.
Proof.
  rewrite !lexicographicLess_lex. unfold lex_less.
  rewrite (Z.eqb_sym (ready_rank d)).
  destruct (Z.eqb_spec (ready_rank c) (ready_rank d)).
  - apply string_ltb_total.
  - rewrite !Z.ltb_ge. lia.
Qed.

(** ** Looking conditions up *)

Definition condition_types (cs : Conditions) : list ConditionType := c_Type <$> cs.

(** The invariant of the conditions of an object: one condition per type, Ready first and
    the others by type. *)
Definition wf_conditions (cs : Conditions) : Prop :=
  NoDup (condition_types cs) ∧ StronglySorted (not_after lexicographicLess) cs.

Lemma find_condition_Some t cs c :
  find_condition t cs = Some c → c ∈ cs ∧ c_Type c = t.
Proof.
  induction cs as [|d cs IH]; simpl; [done|].
  destruct (bool_decide_reflect (c_Type d = t)); [intros [= ->]; set_solver|set_solver].
Qed.

Lemma find_condition_None t cs : find_condition t cs = None ↔ t ∉ condition_types cs.
Proof.
  unfold condition_types. induction cs as [|d cs IH]; simpl; [set_solver|].
  destruct (bool_decide_reflect (c_Type d = t)); set_solver.
Qed.

Lemma find_condition_elem cs c :
  NoDup (condition_types cs) → c ∈ cs → find_condition (c_Type c) cs = Some c.
Proof.
  unfold condition_types. induction cs as [|d cs IH]; simpl; [set_solver|].
  intros [Hd Hnd]%NoDup_cons [->|Hc]%elem_of_cons; [by rewrite bool_decide_eq_true_2|].
  rewrite bool_decide_eq_false_2; [by apply IH|].
  intros E. apply Hd. rewrite E. apply list_elem_of_fmap. eauto.
Qed.

(** With one condition per type, the order of the list does not matter to readers. *)
Lemma find_condition_perm t cs cs' :
  cs ≡ₚ cs' → NoDup (condition_types cs) → find_condition t cs = find_condition t cs'.
Proof.
  intros Hp Hnd. assert (NoDup (condition_types cs')) as Hnd'.
  { unfold condition_types in *. by rewrite <- Hp. }
  destruct (find_condition t cs) as [c|] eqn:E.
  - apply find_condition_Some in E as [Hc <-]. symmetry.
    apply find_condition_elem; [done|]. by rewrite <- Hp.
  - symmetry. apply find_condition_None. apply find_condition_None in E.
    unfold condition_types in *. by rewrite <- Hp.
Qed.

Lemma wf_conditions_unique cs cs' :
  cs ≡ₚ cs' → wf_conditions cs → wf_conditions cs' → cs = cs'.
Proof.
  intros Hp [Hnd Hs] [_ Hs'].
  eapply StronglySorted_unique_strong; [|exact Hs|exact Hs'|done].
  intros c d Hc Hd H1 H2.
  pose proof (lexicographicLess_total d c H1 H2) as Et.
  pose proof (find_condition_elem cs c Hnd Hc) as Fc.
  assert (d ∈ cs) as Hd' by by rewrite Hp.
  pose proof (find_condition_elem cs d Hnd Hd') as Fd. congruence.
Qed.

(** ** The effect of [Set] *)

(** What [Set] stores under the type of [c], given what was stored before. *)
Definition set_value (now : Time) (c : Condition) (old : option Condition) : Condition :=
  match old with
  | Some e => if HasSameState e c then e else with_time (TruncateSecond now) c
  | None => if IsZero (Some (c_LastTransitionTime c))
            then with_time (TruncateSecond now) c else c
  end.

Lemma HasSameState_refl c : HasSameState c c = true.
Proof. unfold HasSameState. by rewrite !bool_decide_eq_true_2. Qed.

Lemma HasSameState_type c d : HasSameState c d = true → c_Type c = c_Type d.
Proof. unfold HasSameState. intros. by reflect_bool. Qed.

Lemma set_value_state now c old : HasSameState (set_value now c old) c = true.
Proof.
  unfold set_value. destruct old as [e|].
  - destruct (HasSameState e c) eqn:E; [done|]. apply (HasSameState_refl c).
  - destruct (IsZero _); apply (HasSameState_refl c).
Qed.

Lemma set_value_type now c old : c_Type (set_value now c old) = c_Type c.
Proof. apply HasSameState_type, set_value_state. Qed.

Lemma set_existing_None now c cs :
  set_existing now c cs = None ↔ find_condition (c_Type c) cs = None.
Proof.
  induction cs as [|e cs IH]; simpl; [done|].
  destruct (bool_decide_reflect (c_Type e = c_Type c)).
  - destruct (HasSameState e c); done.
  - rewrite <- IH. by destruct (set_existing now c cs).
Qed.

Lemma set_existing_find now c cs cs' t :
  set_existing now c cs = Some cs' →
  find_condition t cs' =
    if decide (t = c_Type c) then Some (set_value now c (find_condition t cs))
    else find_condition t cs.
Proof.
  revert cs'. induction cs as [|e cs IH]; intros cs' H; simpl in *; [done|].
  destruct (bool_decide_reflect (c_Type e = c_Type c)) as [Et|Et].
  - destruct (HasSameState e c) eqn:Es; simplify_eq; simpl; rewrite ?Et; case_decide; subst;
      rewrite ?bool_decide_eq_true_2, ?bool_decide_eq_false_2 by done; simpl; rewrite ?Es; done.
  - destruct (set_existing now c cs) as [cs''|] eqn:E; simplify_eq/=.
    destruct (bool_decide_reflect (c_Type e = t)); [|by apply IH].
    rewrite decide_False; [done|congruence].
Qed.

Lemma set_unsorted_find now c cs t :
  find_condition t (set_unsorted now c cs) =
    if decide (t = c_Type c) then Some (set_value now c (find_condition t cs))
    else find_condition t cs.
Proof.
  unfold set_unsorted. destruct (set_existing now c cs) as [cs'|] eqn:E.
  - by apply (set_existing_find now).
  - apply set_existing_None in E.
    assert (∀ d, find_condition t (cs ++ [d]) =
      match find_condition t cs with Some x => Some x | None => find_condition t [d] end) as Happ.
    { intros d. clear. induction cs as [|e cs IH]; simpl; [done|]. by case_bool_decide. }
    rewrite Happ. case_decide as Ht; [subst t; rewrite E|].
    + assert (c_Type (if IsZero (Some (c_LastTransitionTime c))
        then with_time (TruncateSecond now) c else c) = c_Type c) as Ety by by destruct (IsZero _).
      simpl. by rewrite bool_decide_eq_true_2.
    + destruct (find_condition t cs); [done|]. simpl.
      rewrite bool_decide_eq_false_2; [done|]. by destruct (_ =? _).
Qed.

Lemma set_existing_types now c cs cs' :
  set_existing now c cs = Some cs' → condition_types cs' = condition_types cs.
Proof.
  unfold condition_types. revert cs'.
  induction cs as [|e cs IH]; intros cs' H; simpl in *; [done|].
  destruct (bool_decide_reflect (c_Type e = c_Type c)) as [Et|Et].
  - destruct (HasSameState e c); simplify_eq/=; congruence.
  - destruct (set_existing now c cs) as [cs''|]; simplify_eq/=. by rewrite (IH cs'').
Qed.

Lemma set_unsorted_NoDup now c cs :
  NoDup (condition_types cs) → NoDup (condition_types (set_unsorted now c cs)).
Proof.
  intros Hnd. unfold set_unsorted. destruct (set_existing now c cs) as [cs'|] eqn:E.
  - by rewrite (set_existing_types now c cs cs' E).
  - apply set_existing_None, find_condition_None in E.
    unfold condition_types in *. rewrite fmap_app. apply NoDup_app. split; [done|].
    split; [|apply NoDup_singleton].
    intros t Ht Hc. apply list_elem_of_singleton in Hc. apply E.
    replace (c_Type c) with t; [done|]. rewrite Hc. by destruct (IsZero _).
Qed.

Section set_theory.
Context `{GoSort} {T : Type} `{Setter T}.
Implicit Types (to : T) (c : Condition).

Lemma Set_wf_aux now to c :
  NoDup (condition_types (GetConditions to)) →
  wf_conditions (GetConditions (Set_ now to (Some c))).
Proof.
  intros Hnd. simpl. rewrite GetConditions_SetConditions. split.
  - unfold condition_types. rewrite go_sort_perm. by apply set_unsorted_NoDup.
  - apply go_sort_sorted. auto with capi.
Qed.

Lemma Set_Get_aux now to c t :
  NoDup (condition_types (GetConditions to)) →
  Get (Set_ now to (Some c)) t =
    if decide (t = c_Type c) then Some (set_value now c (Get to t)) else Get to t.
Proof.
  intros Hnd. unfold Get. simpl. rewrite GetConditions_SetConditions.
  rewrite (find_condition_perm t _ (set_unsorted now c (GetConditions to)));
    [apply set_unsorted_find|apply go_sort_perm|].
  unfold condition_types. rewrite go_sort_perm. by apply set_unsorted_NoDup.
Qed.

Lemma Delete_Get to t t' :
  Get (Delete to t) t' = if decide (t' = t) then None else Get to t'.
Proof.
  unfold Get, Delete. rewrite GetConditions_SetConditions.
  induction (GetConditions to) as [|d cs IH]; [by case_decide|].
  simpl. destruct (decide (c_Type d = t)) as [Hd|Hd].
  - rewrite filter_cons_False by congruence. rewrite IH. case_decide; [done|].
    rewrite bool_decide_eq_false_2; congruence.
  - rewrite filter_cons_True by done. simpl. rewrite IH. case_bool_decide; [|done].
    rewrite decide_False; congruence.
Qed.

Lemma Delete_wf_aux to t :
  wf_conditions (GetConditions to) → wf_conditions (GetConditions (Delete to t)).
Proof.
  unfold Delete. rewrite GetConditions_SetConditions. intros [Hnd Hs]. split.
  - unfold condition_types in *. eapply sublist_NoDup; [exact Hnd|].
    apply fmap_sublist, sublist_filter.
  - clear Hnd. induction Hs as [|c cs Hs IH Hc]; [constructor|].
    rewrite filter_cons. case_decide; [|done]. constructor; [done|].
    apply Forall_forall. intros d [_ Hd]%list_elem_of_filter.
    rewrite Forall_forall in Hc. by apply Hc.
Qed.
End set_theory.

(** ** Merging conditions (merge.go, merge_strategies.go) *)

Inductive conditionPolarity := PositivePolarity | NegativePolarity.

(** A condition with the kind and name of the object it comes from.  An entry whose
    condition pointer is nil is [None] in a list of localized conditions. *)
Record localizedCondition := {
  lc_Condition : Condition;
  lc_Polarity : conditionPolarity;
  lc_Kind : string;
  lc_Name : string;
}.

(** A group of conditions of the same status and severity; always positive polarity. *)
Record conditionGroup := {
  g_status : string;
  g_severity : ConditionSeverity;
  g_conditions : list localizedCondition;
}.

Definition status_priority (status : string) (severity : ConditionSeverity) : Z :=
  if bool_decide (status = ConditionFalse) then
    if bool_decide (severity = ConditionSeverityError) then 0
    else if bool_decide (severity = ConditionSeverityWarning) then 1
    else if bool_decide (severity = ConditionSeverityInfo) then 2 else 99
  else if bool_decide (status = ConditionTrue) then 3
  else if bool_decide (status = ConditionUnknown) then 4 else 99.

Definition mergePriority (g : conditionGroup) : Z := status_priority (g_status g) (g_severity g).

(** The status of a condition with negative polarity is negated. *)
Definition groupStatus (c : localizedCondition) : string :=
  let status := c_Status (lc_Condition c) in
  match lc_Polarity c with
  | PositivePolarity => status
  | NegativePolarity =>
      if bool_decide (status = ConditionFalse) then ConditionTrue
      else if bool_decide (status = ConditionTrue) then ConditionFalse
      else status
  end.

Fixpoint add_to_groups (c : localizedCondition) (groups : list conditionGroup) :
    list conditionGroup :=
  match groups with
  | [] => [ {| g_status := groupStatus c; g_severity := c_Severity (lc_Condition c);
               g_conditions := [c] |} ]
  | g :: gs =>
      if bool_decide (g_status g = groupStatus c)
         && bool_decide (g_severity g = c_Severity (lc_Condition c))
      then {| g_status := g_status g; g_severity := g_severity g;
              g_conditions := g_conditions g ++ [c] |} :: gs
      else g :: add_to_groups c gs
  end.

Definition topGroupLess (a b : localizedCondition) : bool :=
  if bool_decide (c_Type (lc_Condition a) = c_Type (lc_Condition b))
  then string_ltb (lc_Name a) (lc_Name b)
  else lexicographicLess (lc_Condition a) (lc_Condition b).

Record mergeOptions := {
  mo_conditionTypes : option (list ConditionType);
  mo_negativeConditionTypes : list ConditionType;
  mo_addSourceRef : bool;
  mo_addStepCounter : bool;
  mo_addStepCounterIfOnlyConditionTypes : option (list ConditionType);
  mo_stepCounter : Z;
}.

Definition noMergeOptions : mergeOptions :=
  {| mo_conditionTypes := None; mo_negativeConditionTypes := []; mo_addSourceRef := false;
     mo_addStepCounter := false; mo_addStepCounterIfOnlyConditionTypes := None;
     mo_stepCounter := 0 |}.

Definition MergeOption := mergeOptions → mergeOptions.

(** The condition types are slices, with the nil slice as [None]: the summary tests for it. *)
Definition WithConditions (t : option (list ConditionType)) : MergeOption := λ o,
  {| mo_conditionTypes := t; mo_negativeConditionTypes := mo_negativeConditionTypes o;
     mo_addSourceRef := mo_addSourceRef o; mo_addStepCounter := mo_addStepCounter o;
     mo_addStepCounterIfOnlyConditionTypes := mo_addStepCounterIfOnlyConditionTypes o;
     mo_stepCounter := mo_stepCounter o |}.

Definition WithNegativePolarityConditions (t : list ConditionType) : MergeOption := λ o,
  {| mo_conditionTypes := mo_conditionTypes o; mo_negativeConditionTypes := t;
     mo_addSourceRef := mo_addSourceRef o; mo_addStepCounter := mo_addStepCounter o;
     mo_addStepCounterIfOnlyConditionTypes := mo_addStepCounterIfOnlyConditionTypes o;
     mo_stepCounter := mo_stepCounter o |}.

Definition WithStepCounterIf (value : bool) : MergeOption := λ o,
  {| mo_conditionTypes := mo_conditionTypes o;
     mo_negativeConditionTypes := mo_negativeConditionTypes o;
     mo_addSourceRef := mo_addSourceRef o; mo_addStepCounter := value;
     mo_addStepCounterIfOnlyConditionTypes := mo_addStepCounterIfOnlyConditionTypes o;
     mo_stepCounter := mo_stepCounter o |}.

Definition WithStepCounter : MergeOption := WithStepCounterIf true.

Definition WithStepCounterIfOnly (t : option (list ConditionType)) : MergeOption := λ o,
  {| mo_conditionTypes := mo_conditionTypes o;
     mo_negativeConditionTypes := mo_negativeConditionTypes o;
     mo_addSourceRef := mo_addSourceRef o; mo_addStepCounter := mo_addStepCounter o;
     mo_addStepCounterIfOnlyConditionTypes := t; mo_stepCounter := mo_stepCounter o |}.

Definition AddSourceRef : MergeOption := λ o,
  {| mo_conditionTypes := mo_conditionTypes o;
     mo_negativeConditionTypes := mo_negativeConditionTypes o;
     mo_addSourceRef := true; mo_addStepCounter := mo_addStepCounter o;
     mo_addStepCounterIfOnlyConditionTypes := mo_addStepCounterIfOnlyConditionTypes o;
     mo_stepCounter := mo_stepCounter o |}.

(** The step counter as the summary computes it. *)
Definition set_stepCounter (add : bool) (n : Z) (o : mergeOptions) : mergeOptions :=
  {| mo_conditionTypes := mo_conditionTypes o;
     mo_negativeConditionTypes := mo_negativeConditionTypes o;
     mo_addSourceRef := mo_addSourceRef o; mo_addStepCounter := add;
     mo_addStepCounterIfOnlyConditionTypes := mo_addStepCounterIfOnlyConditionTypes o;
     mo_stepCounter := n |}.

Definition applyMergeOptions (opts : list MergeOption) (o : mergeOptions) : mergeOptions :=
  foldl (λ o f, f o) o opts.

Section merge.
Context `{GoSort}.

Definition getConditionGroups (conditions : list (option localizedCondition)) :
    list conditionGroup :=
  let groups := foldl (λ gs c, match c with None => gs | Some c => add_to_groups c gs end)
                  [] conditions in
  match go_sort (λ g g', mergePriority g <? mergePriority g') groups with
  | [] => []
  | top :: gs =>
      {| g_status := g_status top; g_severity := g_severity top;
         g_conditions := go_sort topGroupLess (g_conditions top) |} :: gs
  end.

Definition TopGroup (g : list conditionGroup) : option conditionGroup := head g.

Definition getByStatusAndSeverity (g : list conditionGroup) (status : string)
    (severity : ConditionSeverity) : option conditionGroup :=
  head (filter (λ g, g_status g = status ∧ g_severity g = severity) g).

Definition TrueGroup (g : list conditionGroup) : option conditionGroup :=
  getByStatusAndSeverity g ConditionTrue ConditionSeverityNone.

Definition ErrorGroup (g : list conditionGroup) : option conditionGroup :=
  getByStatusAndSeverity g ConditionFalse ConditionSeverityError.

Definition WarningGroup (g : list conditionGroup) : option conditionGroup :=
  getByStatusAndSeverity g ConditionFalse ConditionSeverityWarning.

Fixpoint first_by_priority (priority : list ConditionType) (cs : list localizedCondition) :
    option localizedCondition :=
  match priority with
  | [] => head cs
  | p :: ps =>
      match filter (λ c, c_Type (lc_Condition c) = p) cs with
      | c :: _ => Some c
      | [] => first_by_priority ps cs
      end
  end.

Definition getFirstCondition (g : list conditionGroup) (priority : list ConditionType) :
    option localizedCondition :=
  match TopGroup g with
  | None => None
  | Some top =>
      match g_conditions top with
      | [] => None
      | [c] => Some c
      | cs => first_by_priority priority cs
      end
  end.

Definition localizeReason (reason : string) (kind name : string) : string :=
  if ContainsByte reason "@" then reason
  else reason +:+ " @ " +:+ kind +:+ "/" +:+ name.

Definition getFirstReason (g : list conditionGroup) (order : list ConditionType)
    (addSourceRef : bool) : string :=
  match getFirstCondition g order with
  | Some c =>
      let reason := c_Reason (lc_Condition c) in
      if addSourceRef then localizeReason reason (lc_Kind c) (lc_Name c) else reason
  | None => ""
  end.

Definition getReason (g : list conditionGroup) (o : mergeOptions) : string :=
  getFirstReason g (default [] (mo_conditionTypes o)) (mo_addSourceRef o).

Definition getStepCounterMessage (g : list conditionGroup) (to : Z) : string :=
  let ct := match TrueGroup g with
            | Some tg => Z.of_nat (length (g_conditions tg))
            | None => 0
            end in
  FormatInt ct +:+ " of " +:+ FormatInt to +:+ " completed".

Definition getFirstMessage (g : list conditionGroup) (order : list ConditionType) : string :=
  match getFirstCondition g order with
  | Some c => c_Message (lc_Condition c)
  | None => ""
  end.

Definition getMessage (g : list conditionGroup) (o : mergeOptions) : string :=
  if mo_addStepCounter o then getStepCounterMessage g (mo_stepCounter o)
  else getFirstMessage g (default [] (mo_conditionTypes o)).

(** The merged message is passed to [FalseCondition] and [UnknownCondition] in the
    place of a format, hence the call of [Sprintf] on it. *)
Definition merge (conditions : list (option localizedCondition))
    (targetCondition : ConditionType) (o : mergeOptions) : option Condition :=
  let g := getConditionGroups conditions in
  match TopGroup g with
  | None => None
  | Some top =>
      if bool_decide (g_status top = ConditionTrue) then Some (TrueCondition targetCondition)
      else
        let targetReason := getReason g o in
        let targetMessage := Sprintf (getMessage g o) in
        if bool_decide (g_status top = ConditionFalse)
        then Some (FalseCondition targetCondition targetReason (g_severity top) targetMessage)
        else Some (UnknownCondition targetCondition targetReason targetMessage)
  end.
End merge.

(** ** Summary, mirror and aggregate (getter.go, setter.go) *)

Record mirrorOptions := {
  mi_fallbackTo : option bool;
  mi_fallbackReason : string;
  mi_fallbackSeverity : ConditionSeverity;
  mi_fallbackMessage : string;
}.

Definition noMirrorOptions : mirrorOptions :=
  {| mi_fallbackTo := None; mi_fallbackReason := ""; mi_fallbackSeverity := "";
     mi_fallbackMessage := "" |}.

Definition WithFallbackValue (fallbackValue : bool) (reason : string)
    (severity : ConditionSeverity) (message : string) : mirrorOptions → mirrorOptions := λ _,
  {| mi_fallbackTo := Some fallbackValue; mi_fallbackReason := reason;
     mi_fallbackSeverity := severity; mi_fallbackMessage := message |}.

Section summary.
Context `{GoSort} {T : Type} `{Getter T}.

(** The conditions a summary considers: never Ready, and only the given types when types
    are given. *)
Definition in_scope (o : mergeOptions) (c : Condition) : bool :=
  negb (bool_decide (c_Type c = ReadyCondition))
  && match mo_conditionTypes o with
     | Some ts => bool_decide (c_Type c ∈ ts)
     | None => true
     end.

Definition localize (from : T) (o : mergeOptions) (c : Condition) : localizedCondition :=
  {| lc_Condition := c;
     lc_Polarity := if bool_decide (c_Type c ∈ mo_negativeConditionTypes o)
                    then NegativePolarity else PositivePolarity;
     lc_Kind := GetKind from; lc_Name := GetName from |}.

Definition summary (from : T) (options : list MergeOption) : option Condition :=
  let mergeOpt := applyMergeOptions options noMergeOptions in
  let scope := filter (λ c, in_scope mergeOpt c = true) (GetConditions from) in
  let addStepCounter :=
    match mo_addStepCounterIfOnlyConditionTypes mergeOpt with
    | Some ts => mo_addStepCounter mergeOpt && forallb (λ c, bool_decide (c_Type c ∈ ts)) scope
    | None => mo_addStepCounter mergeOpt
    end in
  let stepCounter :=
    if addStepCounter then
      match mo_addStepCounterIfOnlyConditionTypes mergeOpt, mo_conditionTypes mergeOpt with
      | Some ts, _ => Z.of_nat (length ts)
      | None, Some ts => Z.of_nat (length ts)
      | None, None => Z.of_nat (length scope)
      end
    else mo_stepCounter mergeOpt in
  merge (Some ∘ localize from mergeOpt <$> scope) ReadyCondition
    (set_stepCounter addStepCounter stepCounter mergeOpt).

Definition mirror (from : T) (targetCondition : ConditionType)
    (options : list (mirrorOptions → mirrorOptions)) : option Condition :=
  let o := foldl (λ o f, f o) noMirrorOptions options in
  let condition :=
    match Get from ReadyCondition, mi_fallbackTo o with
    | None, Some true => Some (TrueCondition targetCondition)
    | None, Some false =>
        Some (FalseCondition targetCondition (mi_fallbackReason o) (mi_fallbackSeverity o)
                (Sprintf (mi_fallbackMessage o)))
    | c, _ => c
    end in
  (λ c, {| c_Type := targetCondition; c_Status := c_Status c; c_Severity := c_Severity c;
           c_LastTransitionTime := c_LastTransitionTime c; c_Reason := c_Reason c;
           c_Message := c_Message c |}) <$> condition.

Definition aggregate (from : list T) (targetCondition : ConditionType)
    (options : list MergeOption) : option Condition :=
  let scope := (λ x, (λ c, {| lc_Condition := c; lc_Polarity := PositivePolarity;
                              lc_Kind := GetKind x; lc_Name := GetName x |})
                     <$> Get x ReadyCondition) <$> from in
  let mergeOpt := applyMergeOptions options
    (set_stepCounter true (Z.of_nat (length from)) noMergeOptions) in
  merge scope targetCondition mergeOpt.
End summary.

Section set_merged.
Context `{GoSort} {T : Type} `{Setter T} {F : Type} `{Getter F}.

Definition SetSummary (now : Time) (to : T) (options : list MergeOption) : T :=
  Set_ now to (summary to options).

Definition SetMirror (now : Time) (to : T) (targetCondition : ConditionType) (from : F)
    (options : list (mirrorOptions → mirrorOptions)) : T :=
  Set_ now to (mirror from targetCondition options).

Definition SetAggregate (now : Time) (to : T) (targetCondition : ConditionType)
    (from : list F) (options : list MergeOption) : T :=
  Set_ now to (aggregate from targetCondition options).
End set_merged.

(** ** Condition patches (patch.go)

    [reflect.DeepEqual] is equality of conditions.  The errors carry the condition type and
    the kind of the conflict, without the rendering of the differences. *)

Inductive PatchOperation :=
| AddConditionPatch (After : Condition)
| ChangeConditionPatch (Before After : Condition)
| RemoveConditionPatch (Before : Condition).

Abbreviation Patch := (list PatchOperation).

Record applyOptions := {
  ao_ownedConditions : list ConditionType;
  ao_forceOverwrite : bool;
}.

Definition noApplyOptions : applyOptions :=
  {| ao_ownedConditions := []; ao_forceOverwrite := false |}.

Definition isOwnedCondition (o : applyOptions) (t : ConditionType) : bool :=
  bool_decide (t ∈ ao_ownedConditions o).

Definition ApplyOption := applyOptions → applyOptions.

Definition WithOwnedConditions (t : list ConditionType) : ApplyOption := λ c,
  {| ao_ownedConditions := t; ao_forceOverwrite := ao_forceOverwrite c |}.

Definition WithForceOverwrite (v : bool) : ApplyOption := λ c,
  {| ao_ownedConditions := ao_ownedConditions c; ao_forceOverwrite := v |}.

(** The operation for one condition of the target, if it changed. *)
Definition patch_target (before : Conditions) (target : Condition) : option PatchOperation :=
  match find_condition (c_Type target) before with
  | None => Some (AddConditionPatch target)
  | Some current =>
      if bool_decide (target = current) then None
      else Some (ChangeConditionPatch current target)
  end.

(** The operation for one condition of the base, if the target lacks it. *)
Definition patch_base (after : Conditions) (base : Condition) : option PatchOperation :=
  match find_condition (c_Type base) after with
  | None => Some (RemoveConditionPatch base)
  | Some _ => None
  end.

Definition patch_conflict (t : ConditionType) (op : string) : error :=
  Errorf ("error patching conditions: " +:+ op +:+ " conflict on " +:+ t).

(** The options of [Apply], each of which must be non-nil. *)
Fixpoint apply_options (options : list (option ApplyOption)) (o : applyOptions) :
    result applyOptions :=
  match options with
  | [] => Ok o
  | None :: _ => Err (Errorf "error patching conditions: ApplyOption was nil")
  | Some f :: options => apply_options options (f o)
  end.

Section patch.
Context `{GoSort} {T : Type} `{Setter T}.

Definition NewPatch (before after : option T) : result Patch :=
  match before, after with
  | None, _ => Err (Errorf "error creating patch: before object is nil")
  | _, None => Err (Errorf "error creating patch: after object is nil")
  | Some before, Some after =>
      Ok (omap (patch_target (GetConditions before)) (GetConditions after)
          ++ omap (patch_base (GetConditions after)) (GetConditions before))
  end.

(** One iteration of the loop of [Apply], at the clock reading [now]. *)
Definition apply_operation (o : applyOptions) (now : Time) (op : PatchOperation) : M T unit :=
  latest ← get;
  match op with
  | AddConditionPatch after =>
      if ao_forceOverwrite o || isOwnedCondition o (c_Type after)
      then modify (λ l, Set_ now l (Some after))
      else match Get latest (c_Type after) with
           | Some latestCondition =>
               if negb (HasSameState latestCondition after)
               then throw (patch_conflict (c_Type after) "merge/AddCondition")
               else mret tt
           | None => modify (λ l, Set_ now l (Some after))
           end
  | ChangeConditionPatch before after =>
      if ao_forceOverwrite o || isOwnedCondition o (c_Type after)
      then modify (λ l, Set_ now l (Some after))
      else match Get latest (c_Type after) with
           | None => throw (patch_conflict (c_Type after) "merge/ChangeCondition")
           | Some latestCondition =>
               if negb (bool_decide (latestCondition = before)) then
                 if negb (HasSameState latestCondition after)
                 then throw (patch_conflict (c_Type after) "merge/ChangeCondition")
                 else mret tt
               else modify (λ l, Set_ now l (Some after))
           end
  | RemoveConditionPatch before =>
      if ao_forceOverwrite o || isOwnedCondition o (c_Type before)
      then modify (λ l, Delete l (c_Type before))
      else match Get latest (c_Type before) with
           | Some latestCondition =>
               if negb (HasSameState latestCondition before)
               then throw (patch_conflict (c_Type before) "merge/RemoveCondition")
               else modify (λ l, Delete l (c_Type before))
           | None => modify (λ l, Delete l (c_Type before))
           end
  end.

(** [clock i] is the reading of the clock while the i-th operation is applied. *)
Fixpoint apply_operations (o : applyOptions) (clock : nat → Time) (p : Patch) : M T unit :=
  match p with
  | [] => mret tt
  | op :: p =>
      _ ← apply_operation o (clock 0%nat) op;
      apply_operations o (λ i, clock (S i)) p
  end.

Definition Apply (clock : nat → Time) (p : Patch) (latest : option T)
    (options : list (option ApplyOption)) : result unit * option T :=
  match p, latest with
  | [], _ => (Ok tt, latest)
  | _, None => (Err (Errorf "error patching conditions: latest object was nil"), None)
  | _, Some l =>
      match apply_options options noApplyOptions with
      | Ok o => let '(r, l') := apply_operations o clock p l in (r, Some l')
      | Err e => (Err e, latest)
      | Panic => (Panic, latest)
      end
  end.
End patch.

(** ** Correctness of the merge *)

(** A group holds conditions of its status and severity, and at least one. *)
Definition wf_group (g : conditionGroup) : Prop :=
  g_conditions g ≠ [] ∧
  ∀ c, c ∈ g_conditions g →
    groupStatus c = g_status g ∧ c_Severity (lc_Condition c) = g_severity g.

(** The priority of one condition: that of the group it is put in. *)
Definition condition_priority (c : localizedCondition) : Z :=
  status_priority (groupStatus c) (c_Severity (lc_Condition c)).

Lemma add_to_groups_wf c gs : Forall wf_group gs → Forall wf_group (add_to_groups c gs).
Proof.
  induction 1 as [|g gs Hg Hgs IH]; simpl.
  - constructor; [|done]. split; [done|]. set_solver.
  - destruct (_ && _) eqn:E; [|by constructor]. reflect_bool.
    constructor; [|done]. destruct Hg as [_ Hg]. split; simpl.
    + by destruct (g_conditions g).
    + intros d [Hd| ->%list_elem_of_singleton]%elem_of_app; [by apply Hg|done].
Qed.

Lemma add_to_groups_perm c gs :
  mjoin (g_conditions <$> add_to_groups c gs) ≡ₚ c :: mjoin (g_conditions <$> gs).
Proof.
  induction gs as [|g gs IH]; simpl; [done|]. destruct (_ && _); simpl.
  - rewrite <- app_assoc. simpl. symmetry. apply Permutation_middle.
  - rewrite IH. symmetry. apply Permutation_middle.
Qed.

Definition group_all (conditions : list (option localizedCondition)) : list conditionGroup :=
  foldl (λ gs c, match c with None => gs | Some c => add_to_groups c gs end) [] conditions.

Lemma group_all_spec conditions :
  Forall wf_group (group_all conditions) ∧
  mjoin (g_conditions <$> group_all conditions) ≡ₚ omap id conditions.
Proof.
  unfold group_all.
  assert (∀ gs, Forall wf_group gs →
    let gs' := foldl (λ gs c, match c with None => gs | Some c => add_to_groups c gs end)
                 gs conditions in
    Forall wf_group gs' ∧
    mjoin (g_conditions <$> gs') ≡ₚ omap id conditions ++ mjoin (g_conditions <$> gs)) as Hgen.
  { induction conditions as [|[c|] cs IH]; intros gs Hgs; simpl; [done| |by apply IH].
    destruct (IH (add_to_groups c gs)) as [H1 H2]; [by apply add_to_groups_wf|].
    split; [done|]. rewrite H2, add_to_groups_perm. symmetry. apply Permutation_middle. }
  destruct (Hgen [] ltac:(constructor)) as [H1 H2]. simpl in H2.
  by rewrite app_nil_r in H2.
Qed.

Section merge_theory.
Context `{GoSort}.

Lemma getConditionGroups_nil conditions :
  getConditionGroups conditions = [] ↔ omap id conditions = [].
Proof.
  destruct (group_all_spec conditions) as [Hwf Hp].
  unfold getConditionGroups. fold (group_all conditions).
  destruct (go_sort _ (group_all conditions)) as [|top gs] eqn:E.
  - apply go_sort_nil_inv in E. rewrite E in Hp. simpl in Hp.
    split; [|done]. intros _. by apply Permutation_nil_l in Hp.
  - split; [done|]. intros Hnil. rewrite Hnil in Hp. apply Permutation_nil_r in Hp.
    assert (top ∈ group_all conditions) as Hin by
      (rewrite <- elem_of_go_sort, E; set_solver).
    rewrite Forall_forall in Hwf. destruct (Hwf top Hin) as [Hne _].
    destruct (g_conditions top) as [|c cs] eqn:Ec; [done|].
    assert (c ∈ mjoin (g_conditions <$> group_all conditions)) as Hc.
    { apply list_elem_of_join. exists (g_conditions top). rewrite Ec. split; [set_solver|].
      apply list_elem_of_fmap. eauto. }
    rewrite Hp in Hc. set_solver.
Qed.

(** The top group holds a condition of minimal priority value, and is well formed. *)
Lemma getConditionGroups_top conditions top gs :
  getConditionGroups conditions = top :: gs →
  wf_group top ∧
  (∀ c, c ∈ g_conditions top → Some c ∈ conditions) ∧
  (∀ c, Some c ∈ conditions → mergePriority top ≤ condition_priority c).
Proof.
  destruct (group_all_spec conditions) as [Hwf Hp]. rewrite Forall_forall in Hwf.
  unfold getConditionGroups. fold (group_all conditions).
  destruct (go_sort _ (group_all conditions)) as [|top' gs'] eqn:E; [done|].
  intros [= <- <-].
  assert (top' ∈ group_all conditions) as Hin by (rewrite <- elem_of_go_sort, E; set_solver).
  assert (∀ c, Some c ∈ conditions ↔
    ∃ g, g ∈ group_all conditions ∧ c ∈ g_conditions g) as Hmem.
  { intros c. transitivity (c ∈ omap id conditions).
    - rewrite list_elem_of_omap. split; [eauto|]. intros (x & ? & Hx). simpl in Hx. by subst x.
    - rewrite <- Hp, list_elem_of_join. split.
      + intros (l & ? & (g & -> & ?)%list_elem_of_fmap). eauto.
      + intros (g & ? & ?). exists (g_conditions g). split; [done|]. apply list_elem_of_fmap. eauto. }
  split; [|split].
  - destruct (Hwf _ Hin) as [Hne Hall]. split; simpl.
    + intros ?%go_sort_nil_inv. done.
    + intros c. rewrite elem_of_go_sort. apply Hall.
  - intros c. simpl. rewrite elem_of_go_sort. intros Hc. apply Hmem. eauto.
  - intros c (g & Hg & Hc)%Hmem. destruct (Hwf g Hg) as [_ Hall].
    destruct (Hall c Hc) as [Es Esev].
    destruct (go_sort_head_min _ _ _ _ g (strict_weak_key mergePriority) E Hg) as [->|Hlt];
      unfold mergePriority, condition_priority in *; simpl; rewrite Es, Esev; [done|].
    by apply Z.ltb_ge in Hlt.
Qed.
End merge_theory.

(** ** Correctness of patches *)

Definition op_type (op : PatchOperation) : ConditionType :=
  match op with
  | AddConditionPatch c | ChangeConditionPatch _ c | RemoveConditionPatch c => c_Type c
  end.

Definition overwrites (o : applyOptions) (t : ConditionType) : bool :=
  ao_forceOverwrite o || isOwnedCondition o t.

(** Whether the latest value of the condition admits an operation. *)
Definition op_admits (o : applyOptions) (op : PatchOperation) (latest : option Condition) : bool :=
  overwrites o (op_type op)
  || match op, latest with
     | AddConditionPatch after, Some l => HasSameState l after
     | ChangeConditionPatch before after, Some l =>
         bool_decide (l = before) || HasSameState l after
     | ChangeConditionPatch _ _, None => false
     | RemoveConditionPatch before, Some l => HasSameState l before
     | _, None => true
     end.

(** Agreement up to the transition time. *)
Definition same_state (x y : option Condition) : Prop :=
  match x, y with
  | Some c, Some d => HasSameState c d = true
  | None, None => True
  | _, _ => False
  end.

(** What an operation leaves under its type. *)
Definition op_target (op : PatchOperation) : option Condition :=
  match op with
  | AddConditionPatch after | ChangeConditionPatch _ after => Some after
  | RemoveConditionPatch _ => None
  end.

Lemma same_state_refl x : same_state x x.
Proof. destruct x; [apply HasSameState_refl|done]. Qed.

Lemma apply_options_Some (options : list ApplyOption) o :
  ∃ o', apply_options (Some <$> options) o = Ok o'.
Proof. revert o. induction options as [|f options IH]; intros o; simpl; eauto. Qed.

(** The operation that takes one value of a condition to another. *)
Definition diff_op (before after : option Condition) : option PatchOperation :=
  match before, after with
  | None, Some a => Some (AddConditionPatch a)
  | Some b, Some a => if bool_decide (a = b) then None else Some (ChangeConditionPatch b a)
  | Some b, None => Some (RemoveConditionPatch b)
  | None, None => None
  end.

(** An unchanged object admits every operation computed from it. *)
Lemma op_admits_before o before after op :
  diff_op before after = Some op → op_admits o op before = true.
Proof.
  unfold diff_op, op_admits. destruct before as [b|], after as [a|]; try done.
  - case_bool_decide; [done|]. intros [= <-]. by rewrite bool_decide_eq_true_2, orb_true_r.
  - intros [= <-]. by rewrite HasSameState_refl, orb_true_r.
  - intros [= <-]. by rewrite orb_true_r.
Qed.

Section patch_theory.
Context `{GoSort} {T : Type} `{Setter T}.
Implicit Types (l : T) (op : PatchOperation).

Lemma Set_same_state now l c :
  NoDup (condition_types (GetConditions l)) →
  same_state (Get (Set_ now l (Some c)) (c_Type c)) (Some c).
Proof.
  intros Hnd. rewrite Set_Get_aux by done. rewrite decide_True by done.
  apply set_value_state.
Qed.

Lemma Set_other now l c t :
  NoDup (condition_types (GetConditions l)) → t ≠ c_Type c →
  Get (Set_ now l (Some c)) t = Get l t.
Proof. intros Hnd Ht. rewrite Set_Get_aux by done. by rewrite decide_False. Qed.

Lemma Delete_NoDup l t :
  NoDup (condition_types (GetConditions l)) →
  NoDup (condition_types (GetConditions (Delete l t))).
Proof.
  intros Hnd. unfold Delete. rewrite GetConditions_SetConditions.
  unfold condition_types in *. eapply sublist_NoDup; [exact Hnd|].
  apply fmap_sublist, sublist_filter.
Qed.

(** The outcome of one operation: it fails, leaving the object alone, exactly when the
    latest condition does not admit it; otherwise it moves its condition to the target state
    and touches no other. *)
Definition op_outcome (o : applyOptions) op l (r : result unit * T) : Prop :=
  if op_admits o op (Get l (op_type op)) then
    r.1 = Ok tt ∧
    NoDup (condition_types (GetConditions r.2)) ∧
    same_state (Get r.2 (op_type op)) (op_target op) ∧
    (∀ t, t ≠ op_type op → Get r.2 t = Get l t)
  else (∃ e, r.1 = Err e) ∧ r.2 = l.

Lemma op_outcome_Set o now op l c :
  NoDup (condition_types (GetConditions l)) → op_target op = Some c → op_type op = c_Type c →
  op_admits o op (Get l (op_type op)) = true →
  op_outcome o op l (Ok tt, Set_ now l (Some c)).
Proof.
  intros Hnd Htg Hty Ha. unfold op_outcome. rewrite Ha, Htg, Hty. split; [done|].
  split; [by apply Set_wf_aux|]. split; [by apply Set_same_state|].
  intros t Ht. by apply Set_other.
Qed.

Lemma op_outcome_Delete o op l :
  NoDup (condition_types (GetConditions l)) → op_target op = None →
  op_admits o op (Get l (op_type op)) = true →
  op_outcome o op l (Ok tt, Delete l (op_type op)).
Proof.
  intros Hnd Htg Ha. unfold op_outcome. rewrite Ha, Htg. split; [done|].
  split; [by apply Delete_NoDup|]. split; [|intros t Ht]; simpl; rewrite Delete_Get.
  - by rewrite decide_True.
  - by rewrite decide_False.
Qed.

Lemma op_outcome_keep o op l :
  NoDup (condition_types (GetConditions l)) →
  same_state (Get l (op_type op)) (op_target op) →
  op_admits o op (Get l (op_type op)) = true → op_outcome o op l (Ok tt, l).
Proof. intros Hnd Hs Ha. unfold op_outcome. by rewrite Ha. Qed.

Lemma op_outcome_conflict o op l e :
  op_admits o op (Get l (op_type op)) = false → op_outcome o op l (Err e, l).
Proof. intros Ha. unfold op_outcome. rewrite Ha. eauto. Qed.

Lemma apply_operation_outcome o now op l :
  NoDup (condition_types (GetConditions l)) →
  op_outcome o op l (apply_operation o now op l).
Proof.
  intros Hnd. unfold apply_operation, mbind, M_bind, get.
  destruct op as [a|b a|b]; fold (overwrites o (c_Type a)) || fold (overwrites o (c_Type b));
    destruct (overwrites o _) eqn:Eo.
  1, 3: by apply op_outcome_Set; [..|unfold op_admits; simpl; rewrite Eo].
  3: by apply (op_outcome_Delete o (RemoveConditionPatch b)); [..|unfold op_admits; simpl; rewrite Eo].
  - destruct (Get l (c_Type a)) as [lc|] eqn:El.
    + destruct (HasSameState lc a) eqn:Es; simpl.
      * apply op_outcome_keep; simpl; rewrite ?El; [done|done|]. unfold op_admits. simpl.
        by rewrite Es, orb_true_r.
      * apply op_outcome_conflict. unfold op_admits. simpl. by rewrite Eo, El, Es.
    + apply op_outcome_Set; [done..|]. unfold op_admits. simpl. by rewrite El, orb_true_r.
  - destruct (Get l (c_Type a)) as [lc|] eqn:El.
    + destruct (bool_decide_reflect (lc = b)) as [->|Hb]; simpl.
      * apply op_outcome_Set; [done..|]. unfold op_admits. simpl.
        by rewrite El, bool_decide_eq_true_2, orb_true_r.
      * destruct (HasSameState lc a) eqn:Es; simpl.
        -- apply op_outcome_keep; simpl; rewrite ?El; [done|done|]. unfold op_admits. simpl.
           by rewrite Es, !orb_true_r.
        -- apply op_outcome_conflict. unfold op_admits. simpl.
           by rewrite Eo, El, Es, bool_decide_eq_false_2.
    + apply op_outcome_conflict. unfold op_admits. simpl. by rewrite Eo, El.
  - destruct (Get l (c_Type b)) as [lc|] eqn:El.
    + destruct (HasSameState lc b) eqn:Es; simpl.
      * apply (op_outcome_Delete o (RemoveConditionPatch b)); [done..|].
        unfold op_admits. simpl. by rewrite El, Es, orb_true_r.
      * apply op_outcome_conflict. unfold op_admits. simpl. by rewrite Eo, El, Es.
    + apply (op_outcome_Delete o (RemoveConditionPatch b)); [done..|].
      unfold op_admits. simpl. by rewrite El, orb_true_r.
Qed.

(** The operations of a patch with one operation per type do not interfere: all succeed
    exactly when the latest object admits each of them. *)
Lemma apply_operations_outcome o clock (p : Patch) l :
  NoDup (op_type <$> p) → NoDup (condition_types (GetConditions l)) →
  let r := apply_operations o clock p l in
  if forallb (λ op, op_admits o op (Get l (op_type op))) p then
    r.1 = Ok tt ∧
    NoDup (condition_types (GetConditions r.2)) ∧
    (∀ op, op ∈ p → same_state (Get r.2 (op_type op)) (op_target op)) ∧
    (∀ t, t ∉ op_type <$> p → Get r.2 t = Get l t)
  else ∃ e, r.1 = Err e.
Proof.
  revert clock l. induction p as [|op p IH]; intros clock l; simpl; [set_solver|].
  intros [Hop Hnd]%NoDup_cons Hl.
  pose proof (apply_operation_outcome o (clock 0%nat) op l Hl) as Hout.
  unfold op_outcome in Hout. unfold mbind, M_bind.
  destruct (apply_operation o (clock 0%nat) op l) as [r l']. simpl in Hout.
  destruct (op_admits o op (Get l (op_type op))); simpl.
  2:{ destruct Hout as [[e ->] ->]. eauto. }
  destruct Hout as (-> & Hl' & Hst & Hoth).
  specialize (IH (λ i, clock (S i)) l' Hnd Hl'). simpl in IH.
  assert (forallb (λ op, op_admits o op (Get l' (op_type op))) p
        = forallb (λ op, op_admits o op (Get l (op_type op))) p) as Ef.
  { apply forallb_ext_elem. intros op' Hop'. rewrite Hoth; [done|]. intros E. apply Hop.
    rewrite <- E. apply list_elem_of_fmap. eauto. }
  rewrite Ef in IH. destruct (forallb _ p); [|done].
  destruct IH as (? & ? & Hin & Hout). split_and!; [done|done| |].
  - intros op' [->|Hop']%elem_of_cons; [|by apply Hin]. by rewrite Hout.
  - intros t [Ht Ht']%not_elem_of_cons. rewrite Hout by done. by apply Hoth.
Qed.

Lemma patch_target_type bs c op : patch_target bs c = Some op → op_type op = c_Type c.
Proof.
  unfold patch_target. destruct (find_condition _ bs); [|by intros [= <-]].
  case_bool_decide; [done|]. by intros [= <-].
Qed.

Lemma patch_base_type cs b op : patch_base cs b = Some op → op_type op = c_Type b.
Proof. unfold patch_base. destruct (find_condition _ cs); [done|]. by intros [= <-]. Qed.

(** The operations produced from conditions of distinct types have distinct types. *)
Lemma omap_op_types (f : Condition → option PatchOperation) cs :
  (∀ c op, f c = Some op → op_type op = c_Type c) →
  sublist (op_type <$> omap f cs) (condition_types cs).
Proof.
  intros Hf. unfold condition_types. induction cs as [|c cs IH]; simpl; [done|].
  destruct (f c) as [op|] eqn:E; simpl; [|by apply sublist_cons].
  rewrite (Hf c op E). by apply sublist_skip.
Qed.

Lemma NewPatch_spec before after p :
  NewPatch (Some before) (Some after) = Ok p →
  NoDup (condition_types (GetConditions before)) →
  NoDup (condition_types (GetConditions after)) →
  NoDup (op_type <$> p) ∧
  ∀ op, op ∈ p ↔ diff_op (Get before (op_type op)) (Get after (op_type op)) = Some op.
Proof.
  intros [= <-] Hb Ha. split.
  - rewrite fmap_app. apply NoDup_app. split_and!.
    + eapply sublist_NoDup; [exact Ha|]. apply omap_op_types, patch_target_type.
    + intros t Ht (op & -> & (b & Hin & Hop)%list_elem_of_omap)%list_elem_of_fmap.
      rewrite (patch_base_type _ _ _ Hop) in Ht.
      assert (c_Type b ∈ condition_types (GetConditions after)) as Hbad.
      { eapply elem_of_sublist; [exact Ht|]. apply omap_op_types, patch_target_type. }
      unfold patch_base in Hop.
      destruct (find_condition (c_Type b) _) eqn:E; [done|]. by apply find_condition_None in E.
    + eapply sublist_NoDup; [exact Hb|]. apply omap_op_types, patch_base_type.
  - intros op. rewrite elem_of_app, !list_elem_of_omap. unfold Get. split.
    + intros [(c & Hc & Hop)|(b & Hin & Hop)].
      * rewrite (patch_target_type _ _ _ Hop), (find_condition_elem _ c Ha Hc).
        unfold patch_target in Hop. unfold diff_op. by destruct (find_condition _ _).
      * rewrite (patch_base_type _ _ _ Hop), (find_condition_elem _ b Hb Hin).
        unfold patch_base in Hop. unfold diff_op. by destruct (find_condition _ _).
    + unfold diff_op.
      destruct (find_condition _ (GetConditions before)) as [b|] eqn:Eb,
        (find_condition _ (GetConditions after)) as [a|] eqn:Ea; [| | |done].
      * case_bool_decide as Hab; [done|]. intros [= <-]. left.
        apply find_condition_Some in Ea as [Hin _]. exists a. split; [done|].
        simpl in Eb. unfold patch_target. by rewrite Eb, bool_decide_eq_false_2.
      * intros [= <-]. right. apply find_condition_Some in Eb as [Hin _]. exists b.
        split; [done|]. simpl in Ea. unfold patch_base. by rewrite Ea.
      * intros [= <-]. left. apply find_condition_Some in Ea as [Hin _]. exists a.
        split; [done|]. simpl in Eb. unfold patch_target. by rewrite Eb.
Qed.
Lemma Apply_three_way_aux (clock : nat → Time) (before after latest : T) (p : Patch)
    (options : list (option ApplyOption)) (o : applyOptions) :
  NoDup (condition_types (GetConditions before)) →
  NoDup (condition_types (GetConditions after)) →
  NoDup (condition_types (GetConditions latest)) →
  NewPatch (Some before) (Some after) = Ok p →
  apply_options options noApplyOptions = Ok o →
  ((∀ t op, diff_op (Get before t) (Get after t) = Some op →
      op_admits o op (Get latest t) = true) ∧
   ∃ l, Apply clock p (Some latest) options = (Ok tt, Some l) ∧
     NoDup (condition_types (GetConditions l)) ∧
     ∀ t, if decide (Get before t = Get after t) then Get l t = Get latest t
          else same_state (Get l t) (Get after t))
  ∨ ((∃ t op, diff_op (Get before t) (Get after t) = Some op ∧
        op_admits o op (Get latest t) = false) ∧
     ∃ e (l' : option T), Apply clock p (Some latest) options = (Err e, l')).
Proof.
  intros Hb Ha Hl Hp Ho.
  destruct (NewPatch_spec _ _ _ Hp Hb Ha) as [Hnd Hops].
  assert (Apply clock p (Some latest) options
    = let r := apply_operations o clock p latest in (r.1, Some r.2)) as ->.
  { unfold Apply. rewrite Ho. destruct p as [|op p]; [done|].
    by destruct (apply_operations o clock (op :: p) latest). }
  assert (∀ t op, diff_op (Get before t) (Get after t) = Some op → op_type op = t) as Hty.
  { intros t op. unfold Get, diff_op.
    destruct (find_condition t (GetConditions before)) as [b|] eqn:Eb,
      (find_condition t (GetConditions after)) as [a|] eqn:Ea; try case_bool_decide;
      try done; intros [= <-]; simpl;
      by (eapply find_condition_Some in Ea as [_ ?] || eapply find_condition_Some in Eb as [_ ?]). }
  pose proof (apply_operations_outcome o clock p latest Hnd Hl) as Hout. simpl in Hout.
  destruct (forallb _ p) eqn:Ef; [left|right].
  - rewrite forallb_elem in Ef. destruct Hout as (Hok & Hnd' & Hin & Hoth). split.
    { intros t op Hd. pose proof (Hty t op Hd) as <-. by apply Ef, Hops. }
    eexists. simpl. rewrite Hok. split; [done|]. split; [done|]. intros t.
    destruct (diff_op (Get before t) (Get after t)) as [op|] eqn:Ed.
    + pose proof (Hty t op Ed) as <-. specialize (Hin op (proj2 (Hops op) Ed)).
      unfold diff_op in Ed. destruct (Get before _) as [b|], (Get after _) as [a|];
        try case_bool_decide; simplify_eq; rewrite decide_False by congruence; exact Hin.
    + rewrite decide_True.
      * apply Hoth. intros (op & -> & Hop)%list_elem_of_fmap. apply Hops in Hop. congruence.
      * unfold diff_op in Ed. destruct (Get before t), (Get after t); try case_bool_decide;
          congruence.
  - apply not_true_iff_false in Ef. rewrite forallb_elem in Ef. split.
    + destruct (decide (Exists (λ op, op_admits o op (Get latest (op_type op)) = false) p))
        as [(op & Hop & Hbad)%Exists_exists|Hno].
      * exists (op_type op), op. split; [by apply Hops|done].
      * destruct Ef. intros op Hop. apply not_false_iff_true. intros Hbad.
        apply Hno, Exists_exists. eauto.
    + destruct Hout as [e Hout]. simpl. rewrite Hout. eauto.
Qed.
End patch_theory.

(** ** Properties *)

Section properties.
Context `{GoSort} {T : Type} `{Setter T}.

(** Setting a condition on an object with one condition per type keeps one condition
    per type and leaves them in the canonical order, Ready first. *)
Theorem Set_wf (now : Time) (to : T) (c : Condition) :
  NoDup (condition_types (GetConditions to)) →
  wf_conditions (GetConditions (Set_ now to (Some c))).
Proof. apply Set_wf_aux. Qed.

(** After [Set] the condition has the requested state and every other condition is as
    before; its transition time is the old one when the state did not change, the current
    time truncated to the second when it did, and for a new condition the time it came with
    unless that is zero. *)
Theorem Set_Get (now : Time) (to : T) (c : Condition) (t : ConditionType) :
  NoDup (condition_types (GetConditions to)) →
  Get (Set_ now to (Some c)) t =
    if decide (t = c_Type c) then
      Some (match Get to t with
            | Some e => if HasSameState e c then e else with_time (TruncateSecond now) c
            | None => if IsZero (Some (c_LastTransitionTime c))
                      then with_time (TruncateSecond now) c else c
            end)
    else Get to t.
Proof. apply Set_Get_aux. Qed.

(** The merged condition is that of a condition of the highest priority: its status
    and, when False, its severity are that condition's; there is none only when there is
    nothing to merge. *)
Theorem merge_spec (conditions : list (option localizedCondition)) (t : ConditionType)
    (o : mergeOptions) :
  match merge conditions t o with
  | None => ∀ c, Some c ∉ conditions
  | Some r =>
      c_Type r = t ∧
      ∃ c, Some c ∈ conditions ∧
        (∀ d, Some d ∈ conditions → condition_priority c ≤ condition_priority d) ∧
        (if decide (groupStatus c = ConditionTrue) then r = TrueCondition t
         else if decide (groupStatus c = ConditionFalse)
         then c_Status r = ConditionFalse ∧ c_Severity r = c_Severity (lc_Condition c)
         else c_Status r = ConditionUnknown ∧ c_Severity r = ConditionSeverityNone)
  end.
Proof.
  unfold merge, TopGroup. destruct (getConditionGroups conditions) as [|top gs] eqn:E; simpl.
  - apply getConditionGroups_nil in E. intros c Hc.
    assert (c ∈ omap id conditions) as Hin by (apply list_elem_of_omap; eauto).
    rewrite E in Hin. set_solver.
  - destruct (getConditionGroups_top _ _ _ E) as ([Hne Hall] & Hin & Hmin).
    destruct (g_conditions top) as [|c cs]; [done|].
    destruct (Hall c) as [Es Esev]; [set_solver|].
    assert (∀ d, Some d ∈ conditions → condition_priority c ≤ condition_priority d) as Hc.
    { intros d Hd. specialize (Hmin d Hd). unfold mergePriority in Hmin.
      unfold condition_priority at 1. by rewrite Es, Esev. }
    specialize (Hin c ltac:(set_solver)). rewrite <- Es, <- Esev.
    destruct (bool_decide_reflect (groupStatus c = ConditionTrue)) as [Htrue|Htrue];
      [|destruct (bool_decide_reflect (groupStatus c = ConditionFalse)) as [Hfalse|Hfalse]];
      (split; [done|]); exists c; (split; [done|]); (split; [done|]).
    + by rewrite decide_True.
    + by rewrite decide_False, decide_True.
    + by rewrite !decide_False.
Qed.

(** C15: the three-way merge of conditions. A patch from [before] to [after] applies to
    [latest] exactly when every condition the patch changes is overwritten or still admits
    its operation; then each changed condition ends in the state it has in [after] and no
    other condition of [latest] is touched, and otherwise an error is returned. *)
Theorem Apply_three_way (clock : nat → Time) (before after latest : T) (p : Patch)
    (options : list (option ApplyOption)) (o : applyOptions) :
  NoDup (condition_types (GetConditions before)) →
  NoDup (condition_types (GetConditions after)) →
  NoDup (condition_types (GetConditions latest)) →
  NewPatch (Some before) (Some after) = Ok p →
  apply_options options noApplyOptions = Ok o →
  ((∀ t op, diff_op (Get before t) (Get after t) = Some op →
      op_admits o op (Get latest t) = true) ∧
   ∃ l, Apply clock p (Some latest) options = (Ok tt, Some l) ∧
     NoDup (condition_types (GetConditions l)) ∧
     ∀ t, if decide (Get before t = Get after t) then Get l t = Get latest t
          else same_state (Get l t) (Get after t))
  ∨ ((∃ t op, diff_op (Get before t) (Get after t) = Some op ∧
        op_admits o op (Get latest t) = false) ∧
     ∃ e (l' : option T), Apply clock p (Some latest) options = (Err e, l')).
Proof. apply Apply_three_way_aux. Qed.

(** C19: a patch brings the object it was computed from to the state of the target: applied
    to [before] it succeeds whatever the options, and the result agrees with [after] on every
    condition up to transition times. *)
Theorem NewPatch_Apply_roundtrip (clock : nat → Time) (before after : T) (p : Patch)
    (options : list ApplyOption) :
  NoDup (condition_types (GetConditions before)) →
  NoDup (condition_types (GetConditions after)) →
  NewPatch (Some before) (Some after) = Ok p →
  ∃ l, Apply clock p (Some before) (Some <$> options) = (Ok tt, Some l) ∧
    ∀ t, same_state (Get l t) (Get after t).
Proof.
  intros Hb Ha Hp. destruct (apply_options_Some options noApplyOptions) as [o Ho].
  destruct (Apply_three_way_aux clock before after before p _ o Hb Ha Hb Hp Ho)
    as [(_ & l & Hl & _ & Hst)|((t & op & Hd & Hbad) & _)].
  - exists l. split; [done|]. intros t. specialize (Hst t). case_decide as E; [|done].
    rewrite Hst, E. apply same_state_refl.
  - by rewrite (op_admits_before o _ _ _ Hd) in Hbad.
Qed.
End properties.

(** ** Witnesses *)

Definition condition_at (t status reason : string) (time : Time) : Condition :=
  {| c_Type := t; c_Status := status; c_Severity := ConditionSeverityNone;
     c_LastTransitionTime := time; c_Reason := reason; c_Message := "" |}.

Definition machine_before : Machine :=
  m_set_Conditions [condition_at "Ready" "True" "" 0; condition_at "BootstrapReady" "True" "" 0;
    condition_at "NodeHealthy" "True" "" 0] emptyMachine.

Definition machine_after : Machine :=
  m_set_Conditions [condition_at "Ready" "False" "Down" 7; condition_at "BootstrapReady" "True" "" 0;
    condition_at "Drained" "False" "" 7] emptyMachine.

Definition machine_patch : Patch :=
  [ChangeConditionPatch (condition_at "Ready" "True" "" 0) (condition_at "Ready" "False" "Down" 7);
   AddConditionPatch (condition_at "Drained" "False" "" 7);
   RemoveConditionPatch (condition_at "NodeHealthy" "True" "" 0)].

Lemma Set_wf_witness :
  wf_conditions (GetConditions (MarkTrue Minute machine_before "Ready")).
Proof. apply Set_wf. apply (bool_decide_unpack _). by vm_compute. Defined.

Lemma Set_Get_witness :
  Get (MarkUnknown (90 * Second) machine_before "Ready" "R" "m") "Ready"
  = Some (with_time (90 * Second) (UnknownCondition "Ready" "R" "m")).
Proof.
  unfold MarkUnknown. rewrite Set_Get; [by vm_compute|].
  apply (bool_decide_unpack _). by vm_compute.
Defined.

Lemma Apply_three_way_witness :
  ∃ l, Apply (λ _, Minute) machine_patch (Some machine_before) [] = (Ok tt, Some l).
Proof.
  destruct (Apply_three_way (λ _, Minute) machine_before machine_after machine_before
    machine_patch [] noApplyOptions) as [(_ & l & Hl & _)|(_ & e & l & Hl)];
    [apply (bool_decide_unpack _); by vm_compute..|reflexivity|reflexivity|by exists l|].
  exfalso. vm_compute in Hl. discriminate Hl.
Defined.

Lemma NewPatch_Apply_roundtrip_witness :
  ∃ l, Apply (λ _, Minute) machine_patch (Some machine_before) [] = (Ok tt, Some l) ∧
    ∀ t, same_state (Get l t) (Get machine_after t).
Proof.
  apply (NewPatch_Apply_roundtrip (λ _, Minute) machine_before machine_after machine_patch []);
    [apply (bool_decide_unpack _); by vm_compute..|reflexivity].
Defined.

(** The merged message goes through [Sprintf] a second time: a per cent sign in the message
    of the dominating condition is not preserved. *)
Lemma merge_message_percent :
  c_Message <$> merge [Some {| lc_Condition := FalseCondition "X" "R" ConditionSeverityError "disk 95% full";
     lc_Polarity := PositivePolarity; lc_Kind := "Machine"; lc_Name := "m" |}] "Ready" noMergeOptions
  ≠ Some "disk 95% full"%string.
Proof. by vm_compute. Qed.
