(* ===== verification/MdUtil.v ===== *)
(** * Helpers of the MachineDeployment controller
      (internal/controllers/machinedeployment/mdutil/util.go)

    Replica counts are [int32] with their wrap-around.  A dereference of a nil pointer is
    [Panic].  Functions that select among MachineSets are parametric in the type [P] of
    pointers and in [get], which reads the MachineSet a pointer points to; a slice that may
    hold nil pointers is a list of options.  [sort.Sort] acts in place: a function that sorts
    its argument also returns the slice its caller is left with. *)

From S2P Require Import Prelude GoStd Api Apimachinery.
From Stdlib Require Import Ascii.

(** ** Orders *)

Definition MachineSetsByDecreasingReplicas_Less (i j : MachineSet) : bool :=
  match ms_Replicas i, ms_Replicas j with
  | None, _ => false
  | Some _, None => true
  | Some ri, Some rj =>
      if ri =? rj then
        if TimeEqual (Some (ms_CreationTimestamp i)) (Some (ms_CreationTimestamp j))
        then string_ltb (ms_Name i) (ms_Name j)
        else Before (Some (ms_CreationTimestamp i)) (Some (ms_CreationTimestamp j))
      else rj <? ri
  end.

Definition MachineSetsByCreationTimestamp_Less (i j : MachineSet) : bool :=
  if TimeEqual (Some (ms_CreationTimestamp i)) (Some (ms_CreationTimestamp j))
  then string_ltb (ms_Name i) (ms_Name j)
  else Before (Some (ms_CreationTimestamp i)) (Some (ms_CreationTimestamp j)).

(** These two dereference the replicas: [sort_by_size] is a panic when it meets a nil. *)
Definition MachineSetsBySizeOlder_Less (i j : MachineSet) : bool :=
  let ri := default 0 (ms_Replicas i) in
  let rj := default 0 (ms_Replicas j) in
  if ri =? rj then Before (Some (ms_CreationTimestamp i)) (Some (ms_CreationTimestamp j))
  else rj <? ri.

Definition MachineSetsBySizeNewer_Less (i j : MachineSet) : bool :=
  let ri := default 0 (ms_Replicas i) in
  let rj := default 0 (ms_Replicas j) in
  if ri =? rj then Before (Some (ms_CreationTimestamp j)) (Some (ms_CreationTimestamp i))
  else rj <? ri.

(** ** Revisions and annotations *)

Definition SetDeploymentRevision (deployment : MachineDeployment) (revision : string) :
    MachineDeployment * bool :=
  if bool_decide (default "" (md_Annotations deployment !! RevisionAnnotation) = revision)
  then (deployment, false)
  else (md_set_Annotations (<[RevisionAnnotation := revision]> (md_Annotations deployment))
          deployment, true).

(** The revision of an object with the given annotations; absent is 0. *)
Definition Revision (annotations : gmap string string) : Z * option num_error :=
  match annotations !! RevisionAnnotation with
  | None => (0, None)
  | Some v => ParseInt v 64
  end.

Definition MaxRevision (allMSs : list MachineSet) : Z :=
  foldl (λ maxVal ms,
    match Revision (ms_Annotations ms) with
    | (_, Some _) => maxVal
    | (v, None) => if maxVal <? v then v else maxVal
    end) 0 allMSs.

Definition LastAppliedConfigAnnotation : string :=
  "kubectl.kubernetes.io/last-applied-configuration".
Definition DataAnnotation : string := "cluster.x-k8s.io/conversion-data".

Definition annotationsToSkip : list string :=
  [LastAppliedConfigAnnotation; RevisionAnnotation; RevisionHistoryAnnotation;
   DesiredReplicasAnnotation; MaxReplicasAnnotation; DataAnnotation].

Definition skipCopyAnnotation (key : string) : bool := bool_decide (key ∈ annotationsToSkip).

Definition getIntFromAnnotation (ms : MachineSet) (annotationKey : string) : Z * bool :=
  match ms_Annotations ms !! annotationKey with
  | None => (0, false)
  | Some annotationValue =>
      match ParseInt annotationValue 32 with
      | (_, Some _) => (0, false)
      | (intValue, None) => (wrap32 intValue, true)
      end
  end.

Definition getMaxReplicasAnnotation (ms : MachineSet) : Z * bool :=
  getIntFromAnnotation ms MaxReplicasAnnotation.

Definition SetReplicasAnnotations (ms : MachineSet) (desiredReplicas maxReplicas : Z) :
    MachineSet * bool :=
  let desiredString := FormatInt desiredReplicas in
  let maxString := FormatInt maxReplicas in
  let '(a1, u1) :=
    if bool_decide (default "" (ms_Annotations ms !! DesiredReplicasAnnotation) = desiredString)
    then (ms_Annotations ms, false)
    else (<[DesiredReplicasAnnotation := desiredString]> (ms_Annotations ms), true) in
  let '(a2, u2) :=
    if bool_decide (default "" (a1 !! MaxReplicasAnnotation) = maxString)
    then (a1, u1)
    else (<[MaxReplicasAnnotation := maxString]> a1, true) in
  (ms_set_Annotations a2 ms, u2).

(** A nil map holds no annotation, and no formatted number is the empty string, so that
    the nil test of the code is subsumed. *)
Definition ReplicasAnnotationsNeedUpdate (ms : MachineSet) (desiredReplicas maxReplicas : Z) :
    bool :=
  if negb (bool_decide (default "" (ms_Annotations ms !! DesiredReplicasAnnotation)
                        = FormatInt desiredReplicas))
  then true
  else if negb (bool_decide (default "" (ms_Annotations ms !! MaxReplicasAnnotation)
                             = FormatInt maxReplicas))
  then true
  else false.

(** ** Sums over MachineSets *)

Definition GetReplicaCountForMachineSets (machineSets : list (option MachineSet)) : Z :=
  foldl (λ total ms,
    match ms ≫= ms_Replicas with Some r => total +32 r | None => total end) 0 machineSets.

Definition GetActualReplicaCountForMachineSets (machineSets : list (option MachineSet)) : Z :=
  foldl (λ total ms,
    match ms with Some ms => total +32 mst_Replicas (ms_Status ms) | None => total end)
    0 machineSets.

Definition TotalMachineSetsReplicaSum (machineSets : list (option MachineSet)) : result Z :=
  foldl (λ total ms,
    match ms with
    | Some ms =>
        t ← total; r ← deref (ms_Replicas ms);
        mret (t +32 Z.max r (mst_Replicas (ms_Status ms)))
    | None => total
    end) (Ok 0) machineSets.

Definition GetReadyReplicaCountForMachineSets (machineSets : list (option MachineSet)) : Z :=
  foldl (λ total ms,
    match ms with Some ms => total +32 mst_ReadyReplicas (ms_Status ms) | None => total end)
    0 machineSets.

Definition GetAvailableReplicaCountForMachineSets (machineSets : list (option MachineSet)) : Z :=
  foldl (λ total ms,
    match ms with Some ms => total +32 mst_AvailableReplicas (ms_Status ms) | None => total end)
    0 machineSets.

(** The v1beta2 counters: nil unless one MachineSet reports the counter. *)
Definition v1beta2_count (counter : MachineSetV1Beta2Status → option Z)
    (machineSets : list (option MachineSet)) : option Z :=
  foldl (λ total ms,
    match mbind counter (mbind (λ ms, mst_V1Beta2 (ms_Status ms)) ms) with
    | Some n => Some (default 0 total +32 n)
    | None => total
    end) None machineSets.

Definition GetV1Beta2ReadyReplicaCountForMachineSets := v1beta2_count msv_ReadyReplicas.
Definition GetV1Beta2AvailableReplicaCountForMachineSets := v1beta2_count msv_AvailableReplicas.
Definition GetV1Beta2UptoDateReplicaCountForMachineSets := v1beta2_count msv_UpToDateReplicas.

Definition GetDeletingMachineCount (machineList : list Machine) : Z :=
  foldl (λ count machine,
    if negb (IsZero (om_DeletionTimestamp (m_Meta machine))) then count +32 1 else count)
    0 machineList.

(** ** Filters *)

Definition FilterMachineSets {A} (mSes : list A) (filterFn : A → bool) : list A :=
  filter (λ ms, filterFn ms = true) mSes.

(** ** Labels *)

Definition CloneAndAddLabel (labels : gmap string string) (labelKey labelValue : string) :
    gmap string string :=
  if bool_decide (labelKey = "") then labels else <[labelKey := labelValue]> labels.

Definition CloneSelectorAndAddLabel (selector : LabelSelector) (labelKey labelValue : string) :
    LabelSelector :=
  if bool_decide (labelKey = "") then selector
  else {| ls_MatchLabels := <[labelKey := labelValue]> (ls_MatchLabels selector);
          ls_MatchExpressions := ls_MatchExpressions selector |}.

Section apimachinery.
Context `{Apimachinery}.

(** ** Rollout limits *)

(** [deployment.Spec.Strategy.Type]. *)
Definition strategy_Type (deployment : MachineDeployment) : result string :=
  s ← deref (mds_Strategy (md_Spec deployment)); mret (mdst_Type s).

(** [deployment.Spec.Strategy.RollingUpdate]. *)
Definition strategy_RollingUpdate (deployment : MachineDeployment) :
    result MachineRollingUpdateDeployment :=
  s ← deref (mds_Strategy (md_Spec deployment)); deref (mdst_RollingUpdate s).

Definition IsRollingUpdate (deployment : MachineDeployment) : result bool :=
  t ← strategy_Type deployment;
  mret (bool_decide (t = RollingUpdateMachineDeploymentStrategyType)).

Definition ResolveFenceposts (maxSurge maxUnavailable : option IntOrString) (desired : Z) :
    result (Z * Z) :=
  surge ← GetScaledValueFromIntOrPercent maxSurge desired true;
  unavailable ← GetScaledValueFromIntOrPercent maxUnavailable desired false;
  let unavailable := if (surge =? 0) && (unavailable =? 0) then 1 else unavailable in
  mret (wrap32 surge, wrap32 unavailable).

(** The value of a call whose error is ignored. *)
Definition ignore_err {A} (r : result A) (zero : A) : result A :=
  match r with Err _ => Ok zero | r => r end.

Definition MaxUnavailable (deployment : MachineDeployment) : result Z :=
  rolling ← IsRollingUpdate deployment;
  if negb rolling then mret 0 else
  replicas ← deref (md_Replicas deployment);
  if replicas =? 0 then mret 0 else
  ru ← strategy_RollingUpdate deployment;
  posts ← ignore_err (ResolveFenceposts (ru_MaxSurge ru) (ru_MaxUnavailable ru) replicas) (0, 0);
  let maxUnavailable := posts.2 in
  mret (if replicas <? maxUnavailable then replicas else maxUnavailable).

Definition MaxSurge (deployment : MachineDeployment) : result Z :=
  rolling ← IsRollingUpdate deployment;
  if negb rolling then mret 0 else
  ru ← strategy_RollingUpdate deployment;
  replicas ← deref (md_Replicas deployment);
  posts ← ignore_err (ResolveFenceposts (ru_MaxSurge ru) (ru_MaxUnavailable ru) replicas) (0, 0);
  mret posts.1.

(** ** Proportional scaling *)

Definition getMachineSetFraction (ms : MachineSet) (md : MachineDeployment) : result Z :=
  mdReplicas ← deref (md_Replicas md);
  msReplicas ← deref (ms_Replicas ms);
  if mdReplicas =? 0 then mret (wrap32 (- msReplicas)) else
  surge ← MaxSurge md;
  let deploymentReplicas := mdReplicas +32 surge in
  let '(annotated, ok) := getMaxReplicasAnnotation ms in
  let annotatedReplicas := if ok : bool then annotated else mdt_Replicas (md_Status md) in
  let newMSsize := float64_div (float64_of_int (msReplicas *32 deploymentReplicas))
                     (float64_of_int annotatedReplicas) in
  mret (RoundToInt32 newMSsize -32 msReplicas).

Definition GetProportion (ms : option MachineSet) (md : MachineDeployment)
    (deploymentReplicasToAdd deploymentReplicasAdded : Z) : result Z :=
  match ms with
  | None => mret 0
  | Some ms =>
      msReplicas ← deref (ms_Replicas ms);
      if (msReplicas =? 0) || (deploymentReplicasToAdd =? 0)
         || (deploymentReplicasToAdd =? deploymentReplicasAdded)
      then mret 0 else
      msFraction ← getMachineSetFraction ms md;
      let allowed := deploymentReplicasToAdd -32 deploymentReplicasAdded in
      mret (if 0 <? deploymentReplicasToAdd then Z.min msFraction allowed
            else Z.max msFraction allowed)
  end.

(** ** The annotations of a MachineSet *)

Definition ComputeMachineSetAnnotations (deployment : MachineDeployment)
    (oldMSs : list MachineSet) (newMS : option MachineSet) : result (gmap string string) :=
  let annotations := filter (λ kv, skipCopyAnnotation kv.1 = false) (md_Annotations deployment) in
  let maxOldRevision := MaxRevision oldMSs in
  let newRevisionInt := maxOldRevision +64 1 in
  let newRevision := FormatInt newRevisionInt in
  '(annotations, newRevision) ←
    match newMS with
    | None => Ok (annotations, newRevision)
    | Some newMS =>
        let currentRevision := ms_Annotations newMS !! RevisionAnnotation in
        newRevision ←
          match currentRevision with
          | None => Ok newRevision
          | Some cur =>
              match ParseInt cur 64 with
              | (_, Some _) => Err (Errorf "failed to parse current revision on MachineSet")
              | (currentRevisionInt, None) =>
                  Ok (if newRevisionInt <? currentRevisionInt then cur else newRevision)
              end
          end;
        let revisionHistory := ms_Annotations newMS !! RevisionHistoryAnnotation in
        let annotations :=
          match revisionHistory with
          | Some h => <[RevisionHistoryAnnotation := h]> annotations
          | None => annotations
          end in
        let annotations :=
          match currentRevision with
          | Some cur =>
              if bool_decide (cur = newRevision) then annotations
              else
                let oldRevisions := Split (default "" revisionHistory) "," in
                if bool_decide (head oldRevisions = Some "") then
                  <[RevisionHistoryAnnotation := cur]> annotations
                else <[RevisionHistoryAnnotation := Join (oldRevisions ++ [cur]) ","]> annotations
          | None => annotations
          end in
        Ok (annotations, newRevision)
    end;
  replicas ← deref (md_Replicas deployment);
  surge ← MaxSurge deployment;
  mret (<[MaxReplicasAnnotation := FormatInt (replicas +32 surge)]>
        (<[DesiredReplicasAnnotation := FormatInt replicas]>
         (<[RevisionAnnotation := newRevision]> annotations))).

(** ** Templates *)

(** The copy of a template with every field that is propagated in place dropped. *)
Definition MachineTemplateDeepCopyRolloutFields (template : MachineTemplateSpec) :
    MachineTemplateSpec :=
  let drop_version (r : ObjectReference) :=
    {| ref_Kind := ref_Kind r; ref_Namespace := ref_Namespace r; ref_Name := ref_Name r;
       ref_UID := ref_UID r; ref_APIVersion := APIGroup (ref_APIVersion r);
       ref_ResourceVersion := ref_ResourceVersion r; ref_FieldPath := ref_FieldPath r |} in
  let sp := mt_Spec template in
  {| mt_Meta := {| tm_Labels := ∅; tm_Annotations := ∅ |};
     mt_Spec :=
       {| sp_ClusterName := "";
          sp_Bootstrap :=
            {| b_ConfigRef := drop_version <$> b_ConfigRef (sp_Bootstrap sp);
               b_DataSecretName := b_DataSecretName (sp_Bootstrap sp) |};
          sp_InfrastructureRef := drop_version (sp_InfrastructureRef sp);
          sp_Version := sp_Version sp; sp_ProviderID := sp_ProviderID sp;
          sp_FailureDomain := sp_FailureDomain sp; sp_ReadinessGates := [];
          sp_NodeDrainTimeout := None; sp_NodeVolumeDetachTimeout := None;
          sp_NodeDeletionTimeout := None |} |}.

(** The comparison of a template with the desired one: whether it is up to date, and the
    messages for the log and for the condition. *)
Definition MachineTemplateUpToDate (current desired : MachineTemplateSpec) :
    bool * list string * list string :=
  let cur := mt_Spec (MachineTemplateDeepCopyRolloutFields current) in
  let des := mt_Spec (MachineTemplateDeepCopyRolloutFields desired) in
  let orNil (s : option string) := default "nil" s in
  let versions := orNil (sp_Version cur) +:+ ", " +:+ orNil (sp_Version des) +:+ " required" in
  let '(l1, c1) :=
    if bool_decide (sp_Version cur = sp_Version des) then ([], [])
    else (["spec.version " +:+ versions], ["Version " +:+ versions]) in
  let '(l2, c2) :=
    if bool_decide (sp_Bootstrap cur = sp_Bootstrap des) then ([], [])
    else
      match b_ConfigRef (sp_Bootstrap cur) with
      | Some ref =>
          let dref := default emptyRef (b_ConfigRef (sp_Bootstrap des)) in
          (["spec.bootstrap.configRef " +:+ ref_Kind ref +:+ " " +:+ ref_Name ref +:+ ", "
              +:+ ref_Kind dref +:+ " " +:+ ref_Name dref +:+ " required"],
           [TrimSuffix (ref_Kind ref) TemplateSuffix +:+ " is not up-to-date"])
      | None =>
          let msg := "spec.bootstrap.dataSecretName "
            +:+ orNil (b_DataSecretName (sp_Bootstrap cur)) +:+ ", "
            +:+ orNil (b_DataSecretName (sp_Bootstrap des)) +:+ " required" in
          ([msg], [msg])
      end in
  let '(l3, c3) :=
    if bool_decide (sp_InfrastructureRef cur = sp_InfrastructureRef des) then ([], [])
    else
      let ref := sp_InfrastructureRef cur in
      let dref := sp_InfrastructureRef des in
      (["spec.infrastructureRef " +:+ ref_Kind ref +:+ " " +:+ ref_Name ref +:+ ", "
          +:+ ref_Kind dref +:+ " " +:+ ref_Name dref +:+ " required"],
       [TrimSuffix (ref_Kind ref) TemplateSuffix +:+ " is not up-to-date"]) in
  let domains := orNil (sp_FailureDomain cur) +:+ ", " +:+ orNil (sp_FailureDomain des)
                 +:+ " required" in
  let '(l4, c4) :=
    if bool_decide (sp_FailureDomain cur = sp_FailureDomain des) then ([], [])
    else (["spec.failureDomain " +:+ domains], ["Failure domain " +:+ domains]) in
  let logMessages : list string := l1 ++ l2 ++ l3 ++ l4 in
  let conditionMessages : list string := c1 ++ c2 ++ c3 ++ c4 in
  if bool_decide (logMessages ≠ []) || bool_decide (conditionMessages ≠ [])
  then (false, logMessages, conditionMessages) else (true, [], []).

(** ** Scaling decisions *)

Definition DeploymentComplete (deployment : MachineDeployment)
    (newStatus : MachineDeploymentStatus) : result bool :=
  replicas ← deref (md_Replicas deployment);
  mret ((mdt_UpdatedReplicas newStatus =? replicas) && (mdt_Replicas newStatus =? replicas)
        && (mdt_AvailableReplicas newStatus =? replicas)
        && (om_Generation (md_Meta deployment) <=? mdt_ObservedGeneration newStatus)).

Definition NewMSNewReplicas (deployment : MachineDeployment) (allMSs : list (option MachineSet))
    (newMSReplicas : Z) : result Z :=
  strategy ← strategy_Type deployment;
  if bool_decide (strategy = RollingUpdateMachineDeploymentStrategyType) then
    ru ← strategy_RollingUpdate deployment;
    replicas ← deref (md_Replicas deployment);
    maxSurge ← GetScaledValueFromIntOrPercent (ru_MaxSurge ru) replicas true;
    currentMachineCount ← TotalMachineSetsReplicaSum allMSs;
    let maxTotalMachines := replicas +32 wrap32 maxSurge in
    if maxTotalMachines <=? currentMachineCount then mret newMSReplicas
    else
      let scaleUpCount := maxTotalMachines -32 currentMachineCount in
      let scaleUpCount := Z.min scaleUpCount (replicas -32 newMSReplicas) in
      mret (newMSReplicas +32 scaleUpCount)
  else if bool_decide (strategy = OnDeleteMachineDeploymentStrategyType) then
    currentMachineCount ← TotalMachineSetsReplicaSum allMSs;
    replicas ← deref (md_Replicas deployment);
    if replicas <=? currentMachineCount then mret newMSReplicas
    else mret (newMSReplicas +32 (replicas -32 currentMachineCount))
  else Err (Errorf ("failed to compute replicas: deployment strategy " +:+ strategy
                    +:+ " isn't supported")).

Definition IsSaturated (deployment : MachineDeployment) (ms : option MachineSet) : result bool :=
  match ms with
  | None => mret false
  | Some ms =>
      match ParseInt (default "" (ms_Annotations ms !! DesiredReplicasAnnotation)) 32 with
      | (_, Some _) => mret false
      | (desired, None) =>
          msReplicas ← deref (ms_Replicas ms);
          replicas ← deref (md_Replicas deployment);
          mret ((msReplicas =? replicas) && (wrap32 desired =? replicas)
                && (mst_AvailableReplicas (ms_Status ms) =? replicas))
      end
  end.

Section pointers.
Context `{GoSort} {P : Type} (get : P → MachineSet).

(** [sort.Sort] by size compares every element of a slice of two or more. *)
Definition sort_by_size (less : MachineSet → MachineSet → bool) (l : list P) : result (list P) :=
  if bool_decide (2 ≤ length l)%nat
     && existsb (λ p, bool_decide (ms_Replicas (get p) = None)) l
  then Panic else Ok (go_sort (λ p q, less (get p) (get q)) l).

(** Nil pointers never pass the filter. *)
Definition FilterActiveMachineSets (machineSets : list (option P)) : list P :=
  omap id (FilterMachineSets machineSets (λ p,
    match p with
    | Some p => match ms_Replicas (get p) with Some r => 0 <? r | None => false end
    | None => false
    end)).

(** The selected MachineSet, if any, and [oldMSs] as it is left: newest first. *)
Definition FindOneActiveOrLatest (newMS : option P) (oldMSs : list P) : option P * list P :=
  match newMS, oldMSs with
  | None, [] => (None, oldMSs)
  | _, _ =>
      let oldMSs := go_sort (reverse_less (λ p q,
        MachineSetsByCreationTimestamp_Less (get p) (get q))) oldMSs in
      let allMSs := FilterActiveMachineSets ((Some <$> oldMSs) ++ [newMS]) in
      match allMSs with
      | [] => (match newMS with Some p => Some p | None => head oldMSs end, oldMSs)
      | [p] => (Some p, oldMSs)
      | _ => (None, oldMSs)
      end
  end.

Definition matches_template (deployment : MachineDeployment) (p : P) : bool :=
  (MachineTemplateUpToDate (mss_Template (ms_Spec (get p))) (md_Template deployment)).1.1.

(** The new MachineSet, the reason to create one when there is none (without the rendering
    of the time), and [msList] as it is left: by decreasing replicas. *)
Definition FindNewMachineSet (deployment : MachineDeployment) (msList : list P)
    (reconciliationTime : option Time) : option P * string * list P :=
  match msList with
  | [] => (None, "no MachineSets exist for the MachineDeployment", [])
  | _ =>
      let msList := go_sort (λ p q,
        MachineSetsByDecreasingReplicas_Less (get p) (get q)) msList in
      let matching := filter (λ p, matches_template deployment p = true) msList in
      let diffs := (λ p, "MachineSet " +:+ ms_Name (get p) +:+ ": diff: " +:+
        Join (MachineTemplateUpToDate (mss_Template (ms_Spec (get p)))
                (md_Template deployment)).1.2 ", ")
        <$> filter (λ p, matches_template deployment p = false) msList in
      match matching with
      | [] => (None, "couldn't find MachineSet matching MachineDeployment spec template: "
                     +:+ Join diffs "; ", msList)
      | first :: _ =>
          match mds_RolloutAfter (md_Spec deployment) with
          | None => (Some first, ""%string, msList)
          | Some rolloutAfter =>
              if Before reconciliationTime (Some rolloutAfter)
              then (Some first, ""%string, msList)
              else
                match filter (λ p, rolloutAfter < ms_CreationTimestamp (get p)) matching with
                | p :: _ => (Some p, ""%string, msList)
                | [] => (None, "RolloutAfter on MachineDeployment set, no MachineSet has been created afterwards", msList)
                end
          end
      end
  end.

(** The old MachineSets, and [msList] as it is left. *)
Definition FindOldMachineSets (deployment : MachineDeployment) (msList : list P)
    (reconciliationTime : option Time) : list P * list P :=
  let '(newMS, _, msList) := FindNewMachineSet deployment msList reconciliationTime in
  (FilterMachineSets msList (λ p,
     match newMS with
     | Some n => negb (bool_decide (om_UID (ms_Meta (get p)) = om_UID (ms_Meta (get n))))
     | None => true
     end), msList).
End pointers.
End apimachinery.

#[global] Arguments GetProportion : simpl never.

(** ** The orders are strict weak orders *)

Lemma CreationTimestamp_Less_lex i j :
  MachineSetsByCreationTimestamp_Less i j
  = lex_less ms_CreationTimestamp (λ i j, string_ltb (ms_Name i) (ms_Name j)) i j.
Proof. done. Qed.

Lemma CreationTimestamp_Less_sw : strict_weak MachineSetsByCreationTimestamp_Less.
Proof.
  assert (strict_weak (lex_less ms_CreationTimestamp
    (λ i j, string_ltb (ms_Name i) (ms_Name j)))) as Hsw by auto with capi.
  split; intros *; rewrite !CreationTimestamp_Less_lex; apply Hsw.
Qed.

(** An order on optional keys that puts nil last, nils being tied. *)
Lemma strict_weak_nil_last {A} (key : A → option Z) (less : A → A → bool) :
  strict_weak less →
  strict_weak (λ i j,
    match key i, key j with
    | None, _ => false
    | Some _, None => true
    | Some ri, Some rj => if ri =? rj then less i j else rj <? ri
    end).
Proof.
  intros Hsw. split.
  - intros a b. destruct (key a) as [ra|], (key b) as [rb|]; try done.
    rewrite (Z.eqb_sym rb). destruct (Z.eqb_spec ra rb); [apply Hsw|].
    rewrite Z.ltb_lt, Z.ltb_ge. lia.
  - intros a b c. destruct (key a) as [ra|], (key b) as [rb|], (key c) as [rc|]; try done.
    destruct (Z.eqb_spec rb ra), (Z.eqb_spec rc rb), (Z.eqb_spec rc ra);
      rewrite ?Z.ltb_ge; try lia. apply Hsw.
Qed.

Lemma DecreasingReplicas_Less_sw : strict_weak MachineSetsByDecreasingReplicas_Less.
Proof.
  pose proof (strict_weak_nil_last ms_Replicas _ CreationTimestamp_Less_sw) as Hsw.
  split; [apply (sw_asym _ Hsw)|apply (sw_negtrans _ Hsw)].
Qed.
#[export] Hint Resolve CreationTimestamp_Less_sw DecreasingReplicas_Less_sw : capi.

(** ** Sums wrap around only as a whole *)

Definition spec_replicas (ms : option MachineSet) : Z := default 0 (ms ≫= ms_Replicas).
Definition available_replicas (ms : option MachineSet) : Z :=
  match ms with Some ms => mst_AvailableReplicas (ms_Status ms) | None => 0 end.
Definition total_replicas (ms : option MachineSet) : Z :=
  match ms with
  | Some ms => Z.max (default 0 (ms_Replicas ms)) (mst_Replicas (ms_Status ms))
  | None => 0
  end.

Lemma foldl_wrap32 {A} (f : A → Z) (step : Z → A → Z) (l : list A) a :
  (∀ t x, step (wrap32 t) x = wrap32 (t + f x)) →
  foldl step (wrap32 a) l = wrap32 (a + sumZ f l).
Proof.
  intros Hstep. revert a. induction l as [|x l IH]; intros a; simpl.
  - f_equal. lia.
  - rewrite Hstep, IH. f_equal. lia.
Qed.

Lemma GetReplicaCount_sum l :
  GetReplicaCountForMachineSets l = wrap32 (sumZ spec_replicas l).
Proof.
  apply (foldl_wrap32 spec_replicas _ l 0). intros t ms. unfold spec_replicas.
  destruct (ms ≫= ms_Replicas); simpl; [apply wrap32_add_l|]. f_equal. lia.
Qed.

Lemma GetAvailableReplicaCount_sum l :
  GetAvailableReplicaCountForMachineSets l = wrap32 (sumZ available_replicas l).
Proof.
  apply (foldl_wrap32 available_replicas _ l 0). intros t ms.
  destruct ms; simpl; [apply wrap32_add_l|]. f_equal. lia.
Qed.

Definition has_replicas (ms : option MachineSet) : Prop :=
  match ms with Some ms => is_Some (ms_Replicas ms) | None => True end.

Lemma TotalMachineSetsReplicaSum_sum l :
  Forall has_replicas l → TotalMachineSetsReplicaSum l = Ok (wrap32 (sumZ total_replicas l)).
Proof.
  intros Hl. unfold TotalMachineSetsReplicaSum.
  assert (∀ a, foldl (λ total ms,
    match ms with
    | Some ms => t ← total; r ← deref (ms_Replicas ms);
        mret (t +32 Z.max r (mst_Replicas (ms_Status ms)))
    | None => total
    end) (Ok (wrap32 a)) l = Ok (wrap32 (a + sumZ total_replicas l))) as Hgen.
  { induction Hl as [|ms l Hms Hl IH]; intros a; simpl; [by rewrite Z.add_0_r|].
    destruct ms as [ms|]; simpl.
    - destruct Hms as [r Hr]. rewrite Hr. simpl. rewrite wrap32_add_l.
      change (@mret result _ _ ?x) with (Ok x). rewrite IH. by rewrite Z.add_assoc.
    - by rewrite IH. }
  apply (Hgen 0).
Qed.

(** ** Fenceposts *)

Section fenceposts.
Context `{Apimachinery}.

(** The values validation admits: a non-negative integer or a percentage. *)
Definition valid_fencepost (v : option IntOrString) : Prop :=
  match v with
  | Some (FromInt i) => 0 ≤ i ≤ int32_max
  | Some (FromString s) => ∃ p, 0 ≤ p ≤ 100 ∧ s = FormatInt p +:+ "%"
  | None => False
  end.

Lemma scaled_valid v d up :
  valid_fencepost v → 0 ≤ d ≤ int32_max →
  ∃ x, GetScaledValueFromIntOrPercent v d up = Ok x ∧ 0 ≤ x ≤ int32_max.
Proof.
  destruct v as [[i|s]|]; simpl; [|intros (p & Hp & ->) Hd|done].
  - intros Hi _. exists i. by rewrite scaled_int.
  - exists (percent_of p d up). rewrite scaled_percent by done. split; [done|].
    pose proof (percent_of_bounds p d up Hp). lia.
Qed.

(** A deployment as the webhooks admit it: replicas set and non-negative, a strategy of one
    of the two types and, for a rolling update, valid fenceposts. *)
Record wf_deployment (md : MachineDeployment) (replicas : Z) : Prop := {
  wf_replicas : md_Replicas md = Some replicas;
  wf_range : 0 ≤ replicas ≤ int32_max;
  wf_strategy : ∃ s, mds_Strategy (md_Spec md) = Some s ∧
    ((mdst_Type s = RollingUpdateMachineDeploymentStrategyType ∧
      ∃ ru, mdst_RollingUpdate s = Some ru ∧
        valid_fencepost (ru_MaxSurge ru) ∧ valid_fencepost (ru_MaxUnavailable ru))
     ∨ mdst_Type s = OnDeleteMachineDeploymentStrategyType);
}.

Lemma ResolveFenceposts_valid s u d :
  valid_fencepost s → valid_fencepost u → 0 ≤ d ≤ int32_max →
  ∃ a b, ResolveFenceposts s u d = Ok (a, b) ∧
    GetScaledValueFromIntOrPercent s d true = Ok a ∧
    0 ≤ a ≤ int32_max ∧ 0 ≤ b ≤ int32_max ∧ 0 < a + b.
Proof.
  intros Hs Hu Hd.
  destruct (scaled_valid s d true Hs Hd) as (a & Ea & Ha).
  destruct (scaled_valid u d false Hu Hd) as (b & Eb & Hb).
  unfold ResolveFenceposts. rewrite Ea, Eb. simpl.
  exists a, (if (a =? 0) && (b =? 0) then 1 else b).
  assert (0 ≤ (if (a =? 0) && (b =? 0) then 1 else b) ≤ int32_max ∧
    0 < a + (if (a =? 0) && (b =? 0) then 1 else b)) as [? ?].
  { destruct (Z.eqb_spec a 0), (Z.eqb_spec b 0); simpl; unfold int32_max in *; lia. }
  unfold mret, result_ret. unwrap32. done.
Qed.

Lemma IsRollingUpdate_wf md n :
  wf_deployment md n → ∃ b, IsRollingUpdate md = Ok b.
Proof.
  intros [_ _ (s & Hs & _)]. unfold IsRollingUpdate, strategy_Type. rewrite Hs. simpl. eauto.
Qed.

(** What the limits of a well-formed deployment are. *)
Lemma limits_wf md n :
  wf_deployment md n →
  ∃ surge unavail, MaxSurge md = Ok surge ∧ MaxUnavailable md = Ok unavail ∧
    0 ≤ surge ≤ int32_max ∧ 0 ≤ unavail ≤ n ∧
    (IsRollingUpdate md = Ok true → 0 < n → 0 < surge + unavail) ∧
    (IsRollingUpdate md = Ok false → surge = 0 ∧ unavail = 0).
Proof.
  intros [Hn Hr (s & Hs & [(Ht & ru & Hru & Hv1 & Hv2)|Ht])];
    unfold MaxSurge, MaxUnavailable, IsRollingUpdate, strategy_Type, strategy_RollingUpdate;
    rewrite Hs; simpl; rewrite Ht; simpl.
  - rewrite Hru, Hn. simpl.
    destruct (ResolveFenceposts_valid _ _ n Hv1 Hv2 Hr) as (a & b & E & _ & Ha & Hb & Hab).
    rewrite E. simpl. exists a.
    destruct (Z.eqb_spec n 0); [exists 0|exists (if n <? b then n else b)];
      split_and!; try done; destruct (Z.ltb_spec n b); try lia.
  - exists 0, 0. unfold int32_max. split_and!; try done; try lia. 
Qed.
End fenceposts.

(** ** The size of the new MachineSet *)

Section new_replicas.
Context `{Apimachinery}.

(** The most machines a deployment may have: surge on top of its replicas. *)
Lemma NewMSNewReplicas_bounds_aux md n surge allMSs newMSReplicas :
  wf_deployment md n → MaxSurge md = Ok surge → n + surge ≤ int32_max →
  Forall has_replicas allMSs → 0 ≤ sumZ total_replicas allMSs ≤ int32_max →
  0 ≤ newMSReplicas ≤ n → newMSReplicas ≤ sumZ total_replicas allMSs →
  ∃ r, NewMSNewReplicas md allMSs newMSReplicas = Ok r ∧ newMSReplicas ≤ r ≤ n ∧
    let total := sumZ total_replicas allMSs in
    total + (r - newMSReplicas) ≤ Z.max total (n + surge) ∧
    (r = n ∨ n + surge ≤ total + (r - newMSReplicas)).
Proof.
  intros Hwf Hsurge Hmax Hall Hsum Hnew Hle.
  destruct Hwf as [Hn Hr (s & Hs & [(Ht & ru & Hru & Hv1 & Hv2)|Ht])];
    revert Hsurge; unfold MaxSurge, IsRollingUpdate, NewMSNewReplicas, strategy_Type,
      strategy_RollingUpdate; rewrite Hs; simpl; rewrite Ht; simpl.
  - rewrite Hru, Hn. simpl.
    destruct (ResolveFenceposts_valid _ _ n Hv1 Hv2 Hr) as (a & b & E & Ea & Ha & Hb & Hab).
    rewrite E, Ea. simpl. intros [= <-].
    rewrite TotalMachineSetsReplicaSum_sum by done. simpl.
    unfold int32_max in *. unwrap32.
    destruct (Z.leb_spec (n + a) (sumZ total_replicas allMSs)).
    + eexists. split; [done|]. lia.
    + eexists. split; [done|]. unwrap32. lia.
  - intros [= <-]. rewrite TotalMachineSetsReplicaSum_sum by done. simpl. rewrite Hn. simpl.
    unfold int32_max in *. unwrap32.
    destruct (Z.leb_spec n (sumZ total_replicas allMSs)).
    + eexists. split; [done|]. lia.
    + eexists. split; [done|]. unwrap32. lia.
Qed.
End new_replicas.

(** ** Replica annotations *)

Lemma SetReplicasAnnotations_lookup ms d m :
  let ms' := (SetReplicasAnnotations ms d m).1 in
  default "" (ms_Annotations ms' !! DesiredReplicasAnnotation) = FormatInt d ∧
  default "" (ms_Annotations ms' !! MaxReplicasAnnotation) = FormatInt m ∧
  (∀ k, k ≠ DesiredReplicasAnnotation → k ≠ MaxReplicasAnnotation →
    ms_Annotations ms' !! k = ms_Annotations ms !! k) ∧
  ms_Spec ms' = ms_Spec ms ∧ ms_Status ms' = ms_Status ms.
Proof.
  simpl. unfold SetReplicasAnnotations.
  assert (MaxReplicasAnnotation ≠ DesiredReplicasAnnotation) as Hne by done.
  case_bool_decide as E1; case_bool_decide as E2; simpl in *; unfold ms_Annotations; simpl;
    split_and!; try done; intros; by simplify_map_eq.
Qed.

Lemma NeedUpdate_false ms d m :
  ReplicasAnnotationsNeedUpdate ms d m = false ↔
  default "" (ms_Annotations ms !! DesiredReplicasAnnotation) = FormatInt d ∧
  default "" (ms_Annotations ms !! MaxReplicasAnnotation) = FormatInt m.
Proof.
  unfold ReplicasAnnotationsNeedUpdate. repeat case_bool_decide; simpl; naive_solver.
Qed.

Lemma FormatInt_nonempty z : FormatInt z ≠ "".
Proof.
  unfold FormatInt. destruct (z <? 0); [done|].
  destruct (FormatUint_cons z) as (c & s & ->). done.
Qed.

(** A number that was annotated is read back. *)
Lemma annotation_read ms k z :
  in_int32 z → default "" (ms_Annotations ms !! k) = FormatInt z →
  getIntFromAnnotation ms k = (z, true).
Proof.
  intros Hz E. unfold getIntFromAnnotation.
  destruct (ms_Annotations ms !! k) as [v|]; simpl in E; [subst v|by destruct (FormatInt_nonempty z)].
  unfold in_int32, int32_min, int32_max in *.
  rewrite ParseInt_FormatInt by lia. by unwrap32.
Qed.

(** ** Revisions *)

Lemma MaxRevision_gen allMSs a :
  let r := foldl (λ maxVal ms,
    match Revision (ms_Annotations ms) with
    | (_, Some _) => maxVal
    | (v, None) => if maxVal <? v then v else maxVal
    end) a allMSs in
  a ≤ r ∧ ∀ ms v, ms ∈ allMSs → Revision (ms_Annotations ms) = (v, None) → v ≤ r.
Proof.
  revert a. induction allMSs as [|ms l IH]; intros a; simpl; [set_solver by lia|].
  destruct (Revision (ms_Annotations ms)) as [v [e|]] eqn:E.
  - destruct (IH a) as [Ha Hl]. split; [done|].
    intros ms' v' [->|Hin]%elem_of_cons Ev; [congruence|by apply (Hl ms')].
  - destruct (IH (if a <? v then v else a)) as [Ha Hl]. split.
    + destruct (Z.ltb_spec a v); lia.
    + intros ms' v' [->|Hin]%elem_of_cons Ev; [|by apply (Hl ms')].
      rewrite E in Ev. injection Ev as ->. destruct (Z.ltb_spec a v'); lia.
Qed.

Lemma MaxRevision_ge allMSs ms v :
  ms ∈ allMSs → Revision (ms_Annotations ms) = (v, None) → v ≤ MaxRevision allMSs.
Proof. apply MaxRevision_gen. Qed.

Lemma MaxRevision_nonneg allMSs : 0 ≤ MaxRevision allMSs.
Proof. apply (MaxRevision_gen allMSs 0). Qed.

(** ** Templates *)

Section templates.
Context `{Apimachinery}.

(** The fields whose change triggers a rollout. *)
Definition rollout_fields (t : MachineTemplateSpec) :
    option string * Bootstrap * ObjectReference * option string :=
  let sp := mt_Spec (MachineTemplateDeepCopyRolloutFields t) in
  (sp_Version sp, sp_Bootstrap sp, sp_InfrastructureRef sp, sp_FailureDomain sp).

Lemma UpToDate_iff current desired :
  (MachineTemplateUpToDate current desired).1.1 = true ↔
  rollout_fields current = rollout_fields desired.
Proof.
  unfold MachineTemplateUpToDate, rollout_fields.
  set (cur := mt_Spec (MachineTemplateDeepCopyRolloutFields current)).
  set (des := mt_Spec (MachineTemplateDeepCopyRolloutFields desired)).
  clearbody cur des.
  destruct (bool_decide_reflect (sp_Version cur = sp_Version des)) as [->|H1],
    (bool_decide_reflect (sp_Bootstrap cur = sp_Bootstrap des)) as [->|H2],
    (bool_decide_reflect (sp_InfrastructureRef cur = sp_InfrastructureRef des)) as [->|H3],
    (bool_decide_reflect (sp_FailureDomain cur = sp_FailureDomain des)) as [->|H4];
    try destruct (b_ConfigRef (sp_Bootstrap cur)); simpl; split; try done; intros ?; exfalso; congruence.
Qed.
End templates.

(** ** Selecting MachineSets *)

Section selection.
Context `{Apimachinery} `{GoSort} {P : Type} (get : P → MachineSet).

Lemma elem_of_FilterActive p l :
  p ∈ FilterActiveMachineSets get l ↔
  Some p ∈ l ∧ ∃ r, ms_Replicas (get p) = Some r ∧ 0 < r.
Proof.
  unfold FilterActiveMachineSets, FilterMachineSets. rewrite list_elem_of_omap. split.
  - intros (o & [Ho Hin]%list_elem_of_filter & E). simpl in E. subst o. split; [done|].
    destruct (ms_Replicas (get p)) as [r|]; [|done]. apply Z.ltb_lt in Ho. eauto.
  - intros (Hin & r & Hr & Hpos). exists (Some p). split; [|done].
    apply list_elem_of_filter. split; [|done]. rewrite Hr. by apply Z.ltb_lt.
Qed.

(** The MachineSets a rollout may use: all of them before [RolloutAfter], and those created
    later once it has passed. *)
Definition eligible (md : MachineDeployment) (t : option Time) (p : P) : Prop :=
  match mds_RolloutAfter (md_Spec md) with
  | None => True
  | Some ra => Before t (Some ra) = true ∨ ra < ms_CreationTimestamp (get p)
  end.

Definition replicas_less (p q : P) : bool :=
  MachineSetsByDecreasingReplicas_Less (get p) (get q).

Lemma FindNewMachineSet_spec_aux md l t r reason l' :
  FindNewMachineSet get md l t = (r, reason, l') →
  l' ≡ₚ l ∧ StronglySorted (not_after replicas_less) l' ∧
  match r with
  | Some p =>
      p ∈ l ∧ matches_template get md p = true ∧ eligible md t p ∧
      ∀ q, q ∈ l → matches_template get md q = true → eligible md t q →
        q = p ∨ replicas_less q p = false
  | None => ∀ q, q ∈ l → matches_template get md q = true → ¬ eligible md t q
  end.
Proof.
  unfold FindNewMachineSet, eligible. destruct l as [|x0 l0] eqn:El.
  { intros [= <- <- <-]. split_and!; [done|constructor|set_solver]. }
  rewrite <- El in *. clear El x0 l0. fold replicas_less.
  assert (strict_weak replicas_less) as Hsw
    by exact (strict_weak_on get _ DecreasingReplicas_Less_sw).
  pose proof (go_sort_sorted replicas_less l Hsw) as Hs.
  pose proof (go_sort_perm replicas_less l) as Hp.
  set (sorted := go_sort replicas_less l) in *. clearbody sorted.
  destruct (filter (λ p, matches_template get md p = true) sorted) as [|first rest] eqn:Ef.
  { intros [= <- _ <-]. split_and!; [done|done|]. intros q Hq Hm _.
    assert (q ∈ filter (λ p, matches_template get md p = true) sorted) as Hin
      by (apply list_elem_of_filter; by rewrite Hp).
    rewrite Ef in Hin. set_solver. }
  destruct (sorted_filter_head _ _ _ _ _ Hs Ef) as (Hfin & Hfm & Hfmin).
  rewrite Hp in Hfin.
  assert (∀ q, q ∈ l → matches_template get md q = true →
    q = first ∨ replicas_less q first = false) as Hfirst.
  { intros q Hq Hm. apply Hfmin; [by rewrite Hp|done]. }
  destruct (mds_RolloutAfter (md_Spec md)) as [ra|]; [|intros [= <- _ <-]; naive_solver].
  destruct (Before t (Some ra)) eqn:Eb; [intros [= <- _ <-]; naive_solver|].
  rewrite <- Ef, list_filter_filter.
  case_match eqn:Eg; intros [= <- _ <-];
    (split; [done|]); (split; [done|]).
  - intros q Hq Hm [|Hlt]; [done|].
    assert (q ∈ @nil P) as Hin; [|set_solver]. rewrite <- Eg. apply list_elem_of_filter.
    by rewrite Hp.
  - destruct (sorted_filter_head _ _ _ _ _ Hs Eg) as (Hin & [Hlt Hm] & Hmin).
    rewrite Hp in Hin. split_and!; [done|done|by right|].
    intros q Hq Hmq [|Hltq]; [done|]. apply Hmin; [by rewrite Hp|done].
Qed.

(** Distinct MachineSets have distinct names and set replicas. *)
Definition distinct_sets (l : list P) : Prop :=
  (∀ p q, p ∈ l → q ∈ l → ms_Name (get p) = ms_Name (get q) → p = q) ∧
  (∀ p, p ∈ l → is_Some (ms_Replicas (get p))).

Lemma replicas_less_total l p q :
  distinct_sets l → p ∈ l → q ∈ l →
  replicas_less p q = false → replicas_less q p = false → p = q.
Proof.
  intros [Hnames Hrep] Hp Hq. unfold replicas_less, MachineSetsByDecreasingReplicas_Less.
  destruct (Hrep p Hp) as [rp ->], (Hrep q Hq) as [rq ->]. simpl.
  rewrite (Z.eqb_sym rq), (Z.eqb_sym (ms_CreationTimestamp (get q))).
  destruct (Z.eqb_spec rp rq), (Z.eqb_spec (ms_CreationTimestamp (get p))
    (ms_CreationTimestamp (get q))); rewrite ?Z.ltb_ge; try lia.
  intros H1 H2. by apply Hnames, string_ltb_total.
Qed.

(** The choice does not depend on the order the list is in. *)
Lemma FindNewMachineSet_perm md l l' t :
  distinct_sets l → l ≡ₚ l' → FindNewMachineSet get md l t = FindNewMachineSet get md l' t.
Proof.
  intros Hd Hp.
  assert (strict_weak replicas_less) as Hsw
    by exact (strict_weak_on get _ DecreasingReplicas_Less_sw).
  assert (go_sort replicas_less l = go_sort replicas_less l') as E.
  { eapply StronglySorted_unique_strong; [|by apply go_sort_sorted..|by rewrite !go_sort_perm].
    intros p q. rewrite !elem_of_go_sort, <- Hp. intros Hpin Hqin H1 H2.
    by apply (replicas_less_total l). }
  unfold FindNewMachineSet. fold replicas_less. rewrite E.
  destruct l, l'; [done|by apply Permutation_nil_l in Hp|by apply Permutation_nil_r in Hp|done].
Qed.

(** Old and new MachineSets together are all of them. *)
Lemma FindOldMachineSets_partition md l t old l' :
  NoDup l →
  (∀ p q, p ∈ l → q ∈ l → om_UID (ms_Meta (get p)) = om_UID (ms_Meta (get q)) → p = q) →
  FindOldMachineSets get md l t = (old, l') →
  ∃ new reason, FindNewMachineSet get md l t = (new, reason, l') ∧
    old ++ option_list new ≡ₚ l ∧ (∀ p, new = Some p → p ∉ old).
Proof.
  intros Hnd Huid. unfold FindOldMachineSets, FilterMachineSets.
  destruct (FindNewMachineSet get md l t) as [[new reason] l0] eqn:E.
  intros [= <- <-]. exists new, reason. split; [done|].
  apply FindNewMachineSet_spec_aux in E as (Hp & _ & Hspec).
  destruct new as [p|]; simpl.
  - destruct Hspec as (Hin & _). rewrite <- Hp in Hin, Hnd. clear reason.
    assert (∀ q, q ∈ l0 → (negb (bool_decide (om_UID (ms_Meta (get q))
      = om_UID (ms_Meta (get p)))) = true ↔ q ≠ p)) as Hiff.
    { intros q Hq. rewrite negb_true_iff, bool_decide_eq_false. split; [congruence|].
      intros Hne Eu. apply Hne, Huid; [by rewrite <- Hp..|done]. }
    split.
    + apply NoDup_Permutation; [|by rewrite <- Hp|].
      * apply NoDup_app. split; [by apply NoDup_filter|]. split; [|apply NoDup_singleton].
        intros q [Hq Hql]%list_elem_of_filter ->%list_elem_of_singleton.
        by apply Hiff in Hq.
      * intros q. rewrite elem_of_app, list_elem_of_filter, list_elem_of_singleton, <- Hp.
        split; [intros [[_ ?]| ->]; done|]. intros Hq.
        destruct (decide (om_UID (ms_Meta (get q)) = om_UID (ms_Meta (get p)))) as [Eu|Eu].
        -- right. apply Huid; [by rewrite <- Hp..|done].
        -- left. split; [|done]. by rewrite negb_true_iff, bool_decide_eq_false.
    + intros ? [= <-] [Hq _]%list_elem_of_filter. by apply Hiff in Hq.
  - split; [|done]. rewrite app_nil_r, <- Hp. clear.
    induction l0 as [|q l0 IH]; [done|]. by rewrite filter_cons_True, IH.
Qed.

Lemma FilterActive_NoDup l : NoDup l → NoDup (FilterActiveMachineSets get l).
Proof.
  intros Hnd. unfold FilterActiveMachineSets, FilterMachineSets.
  apply (NoDup_filter (λ p, (match p with
    | Some p => match ms_Replicas (get p) with Some r => 0 <? r | None => false end
    | None => false end) = true)) in Hnd.
  induction (filter _ l) as [|o k IH]; simpl; [constructor|].
  apply NoDup_cons in Hnd as [Ho Hnd]. destruct o as [p|]; simpl; [|by apply IH].
  constructor; [|by apply IH]. intros (o & Hin & Eo)%list_elem_of_omap.
  simpl in Eo. subst o. done.
Qed.

(** Whether a pointer is among the MachineSets of a deployment. *)
Definition among (newMS : option P) (oldMSs : list P) (p : P) : Prop :=
  p ∈ oldMSs ∨ newMS = Some p.

Definition active (p : P) : Prop := ∃ r, ms_Replicas (get p) = Some r ∧ 0 < r.

Definition newest_first (p q : P) : bool :=
  reverse_less (λ p q, MachineSetsByCreationTimestamp_Less (get p) (get q)) p q.

Lemma newest_first_sw : strict_weak newest_first.
Proof. exact (strict_weak_reverse _ (strict_weak_on get _ CreationTimestamp_Less_sw)). Qed.

(** The active MachineSets among the old ones and the new one. *)
Definition actives (newMS : option P) (oldMSs : list P) : list P :=
  FilterActiveMachineSets get ((Some <$> oldMSs) ++ [newMS]).

Lemma elem_of_actives newMS oldMSs p :
  p ∈ actives newMS oldMSs ↔ among newMS oldMSs p ∧ active p.
Proof.
  unfold actives, among, active. rewrite elem_of_FilterActive, elem_of_app, list_elem_of_singleton.
  rewrite list_elem_of_fmap. naive_solver.
Qed.

Lemma actives_NoDup newMS oldMSs :
  NoDup (oldMSs ++ option_list newMS) → NoDup (actives newMS oldMSs).
Proof.
  intros Hnd. apply FilterActive_NoDup, NoDup_app.
  apply NoDup_app in Hnd as (Hold & Hdis & _). split_and!; [|..|apply NoDup_singleton].
  - apply NoDup_fmap_2; [|done]. intros ?? [= ->]. done.
  - intros o (p & -> & Hp)%list_elem_of_fmap <-%list_elem_of_singleton.
    apply (Hdis p Hp). simpl. set_solver.
Qed.

Lemma FindOneActiveOrLatest_spec_aux newMS oldMSs r oldMSs' :
  FindOneActiveOrLatest get newMS oldMSs = (r, oldMSs') →
  NoDup (oldMSs ++ option_list newMS) →
  oldMSs' ≡ₚ oldMSs ∧
  match r with
  | Some p =>
      among newMS oldMSs p ∧
      (∀ q, among newMS oldMSs q → active q → q = p) ∧
      (¬ active p → newMS = Some p ∨ newMS = None ∧
        ∀ q, q ∈ oldMSs → q = p ∨ MachineSetsByCreationTimestamp_Less (get p) (get q) = false)
  | None =>
      (newMS = None ∧ oldMSs = []) ∨
      ∃ p q, p ≠ q ∧ among newMS oldMSs p ∧ among newMS oldMSs q ∧ active p ∧ active q
  end.
Proof.
  intros E Hnd.
  destruct (decide (newMS = None ∧ oldMSs = [])) as [[-> ->]|Hne].
  { injection E as <- <-. split; [done|]. by left. }
  pose proof (go_sort_perm newest_first oldMSs) as Hp.
  assert (FindOneActiveOrLatest get newMS oldMSs =
    (match actives newMS (go_sort newest_first oldMSs) with
     | [] => match newMS with Some p => Some p | None => head (go_sort newest_first oldMSs) end
     | [p] => Some p | _ => None end, go_sort newest_first oldMSs)) as E'.
  { unfold FindOneActiveOrLatest. fold newest_first. unfold actives.
    destruct newMS, oldMSs; try naive_solver; by destruct (FilterActiveMachineSets _ _) as [|?[|]]. }
  rewrite E' in E. injection E as <- <-. clear E'. split; [done|].
  assert (∀ p, p ∈ actives newMS (go_sort newest_first oldMSs) ↔
    among newMS oldMSs p ∧ active p) as Hact.
  { intros p. rewrite elem_of_actives. unfold among. by rewrite elem_of_go_sort. }
  assert (NoDup (actives newMS (go_sort newest_first oldMSs))) as Hnda
    by (apply actives_NoDup; by rewrite Hp).
  destruct (actives _ _) as [|a [|b rest]].
  - assert (∀ q, among newMS oldMSs q → active q → False) as Hno by set_solver.
    destruct newMS as [n|]; [split_and!; [by right|naive_solver|by left]|].
    destruct (go_sort newest_first oldMSs) as [|x l] eqn:Es; simpl.
    { apply go_sort_nil_inv in Es. naive_solver. }
    split_and!; [left; rewrite <- Hp; set_solver|naive_solver|].
    intros _. right. split; [done|]. intros q Hq.
    exact (go_sort_head_min newest_first _ _ _ q newest_first_sw Es Hq).
  - split_and!; [by apply Hact; set_solver| |].
    + intros q Hq Hq'. assert (q ∈ [a]) as Hin by by apply Hact. set_solver.
    + intros Hna. destruct Hna. by apply Hact; set_solver.
  - right. exists a, b. apply NoDup_cons in Hnda as [Hab _].
    split; [set_solver|]. destruct (proj1 (Hact a)), (proj1 (Hact b)); set_solver.
Qed.
End selection.

(** ** The annotations of a MachineSet *)

Section annotations.
Context `{Apimachinery}.

(** The annotations the controller writes itself are among those it does not copy. *)
Lemma not_skipped_insert key k (v : string) (a : gmap string string) :
  skipCopyAnnotation key = true → skipCopyAnnotation k = false →
  <[key := v]> a !! k = a !! k.
Proof. intros Hkey Hk. apply lookup_insert_ne. congruence. Qed.

Lemma copied_lookup k (a : gmap string string) :
  skipCopyAnnotation k = false →
  filter (λ kv, skipCopyAnnotation kv.1 = false) a !! k = a !! k.
Proof.
  intros Hk. rewrite map_lookup_filter. destruct (a !! k); simpl; [|done].
  by rewrite option_guard_True.
Qed.

(** What is computed before the replica annotations are written: the copied annotations,
    possibly with a history, and a revision above all old ones. *)
Lemma ComputeMachineSetAnnotations_inv md oldMSs newMS annotations :
  ComputeMachineSetAnnotations md oldMSs newMS = Ok annotations →
  MaxRevision oldMSs < int64_max →
  ∃ m d (a0 : gmap string string) newRevision v,
    annotations = <[MaxReplicasAnnotation := m]> (<[DesiredReplicasAnnotation := d]>
      (<[RevisionAnnotation := newRevision]> a0)) ∧
    ParseInt newRevision 64 = (v, None) ∧ MaxRevision oldMSs < v ∧
    (∀ ms v', newMS = Some ms → Revision (ms_Annotations ms) = (v', None) → v' ≤ v) ∧
    (∀ k, skipCopyAnnotation k = false → a0 !! k = md_Annotations md !! k).
Proof.
  intros E Hmax. pose proof (MaxRevision_nonneg oldMSs) as Hpos.
  revert E. unfold ComputeMachineSetAnnotations.
  assert (MaxRevision oldMSs +64 1 = MaxRevision oldMSs + 1) as ->
    by (apply wrap64_id; unfold in_int64, int64_min, int64_max in *; lia).
  assert (ParseInt (FormatInt (MaxRevision oldMSs + 1)) 64 = (MaxRevision oldMSs + 1, None))
    as Hparse by (apply ParseInt_FormatInt; unfold int64_max in *; lia).
  destruct newMS as [ms|]; cbn -[ParseInt FormatInt Split Join].
  2:{ destruct (md_Replicas md); [|done]. simpl. destruct (MaxSurge md); [|done..]. simpl.
      intros [= <-]. do 5 eexists. split; [done|]. split; [exact Hparse|]. split; [lia|].
      split; [done|]. intros k Hk. by rewrite copied_lookup. }
  unfold Revision. destruct (ms_Annotations ms !! RevisionAnnotation) as [cur|] eqn:Ecur;
    cbn -[ParseInt FormatInt Split Join].
  - destruct (ParseInt cur 64) as [c [?|]] eqn:Ec; [done|]. cbn -[FormatInt Split Join].
    destruct (md_Replicas md); [|done]. simpl. destruct (MaxSurge md); [|done..]. simpl.
    intros [= <-]. do 5 eexists. split; [done|]. split; [|split; [|split]].
    + instantiate (1 := Z.max (MaxRevision oldMSs + 1) c).
      destruct (Z.ltb_spec (MaxRevision oldMSs + 1) c);
        [rewrite Ec|rewrite Hparse]; f_equal; lia.
    + lia.
    + intros ms' v' [= <-]. rewrite Ecur, Ec. intros [= <-]. lia.
    + intros k Hk. repeat case_match; rewrite ?not_skipped_insert by done; by rewrite copied_lookup.
  - destruct (md_Replicas md); [|done]. simpl. destruct (MaxSurge md); [|done..]. simpl.
    intros [= <-]. do 5 eexists. split; [done|]. split; [exact Hparse|].
    split; [lia|]. split; [intros ms' v' [= <-]; rewrite Ecur; intros [= <-]; lia|].
    intros k Hk. repeat case_match; rewrite ?not_skipped_insert by done; by rewrite copied_lookup.
Qed.
End annotations.

(** ** Properties *)

Section properties.
Context `{Apimachinery} `{GoSort}.

(** C26: for every deployment the webhooks admit the rollout limits are defined, the surge
    is non-negative, no more replicas may be unavailable than exist, and a rolling update of
    a non-empty deployment can always make progress, by surging or by tolerating an
    unavailable replica. *)
Theorem rollout_limits (md : MachineDeployment) (n : Z) :
  wf_deployment md n →
  ∃ surge unavail, MaxSurge md = Ok surge ∧ MaxUnavailable md = Ok unavail ∧
    0 ≤ surge ≤ int32_max ∧ 0 ≤ unavail ≤ n ∧
    (IsRollingUpdate md = Ok true → 0 < n → 0 < surge + unavail) ∧
    (IsRollingUpdate md = Ok false → surge = 0 ∧ unavail = 0).
Proof. apply limits_wf. Qed.

(** C27: during a rolling or on-delete rollout, the size computed for the new MachineSet never
    shrinks it, never exceeds the desired replicas, never takes the deployment above replicas
    plus surge (or above its present size if that is already larger), and is as large as these
    bounds allow.  The MachineSets have sizes, the new one is not above the desired replicas,
    and the numbers are within an [int32]. *)
Theorem NewMSNewReplicas_bounds (md : MachineDeployment) (n surge : Z)
    (allMSs : list (option MachineSet)) (newMSReplicas : Z) :
  wf_deployment md n → MaxSurge md = Ok surge → n + surge ≤ int32_max →
  Forall has_replicas allMSs → 0 ≤ sumZ total_replicas allMSs ≤ int32_max →
  0 ≤ newMSReplicas ≤ n → newMSReplicas ≤ sumZ total_replicas allMSs →
  ∃ r, NewMSNewReplicas md allMSs newMSReplicas = Ok r ∧ newMSReplicas ≤ r ≤ n ∧
    let total := sumZ total_replicas allMSs in
    total + (r - newMSReplicas) ≤ Z.max total (n + surge) ∧
    (r = n ∨ n + surge ≤ total + (r - newMSReplicas)).
Proof. apply NewMSNewReplicas_bounds_aux. Qed.

(** The replica annotations round trip: once set they need no update, the maximum is
    read back, other annotations, the spec and the status are untouched, and setting them
    again changes nothing. *)
Theorem SetReplicasAnnotations_roundtrip (ms : MachineSet) (desired maxReplicas : Z) :
  in_int32 desired → in_int32 maxReplicas →
  let ms' := (SetReplicasAnnotations ms desired maxReplicas).1 in
  ReplicasAnnotationsNeedUpdate ms' desired maxReplicas = false ∧
  getMaxReplicasAnnotation ms' = (maxReplicas, true) ∧
  getIntFromAnnotation ms' DesiredReplicasAnnotation = (desired, true) ∧
  SetReplicasAnnotations ms' desired maxReplicas = (ms', false) ∧
  (∀ k, k ≠ DesiredReplicasAnnotation → k ≠ MaxReplicasAnnotation →
    ms_Annotations ms' !! k = ms_Annotations ms !! k) ∧
  ms_Spec ms' = ms_Spec ms ∧ ms_Status ms' = ms_Status ms.
Proof.
  intros Hd Hm ms'.
  destruct (SetReplicasAnnotations_lookup ms desired maxReplicas) as (Ed & Em & Ho & Hs & Ht).
  fold ms' in Ed, Em, Ho, Hs, Ht. split_and!; try done.
  - by apply NeedUpdate_false.
  - by apply annotation_read.
  - by apply annotation_read.
  - unfold SetReplicasAnnotations at 1.
    rewrite (bool_decide_eq_true_2 _ Ed), (bool_decide_eq_true_2 _ Em).
    f_equal. clearbody ms'. clear. destruct ms' as [tm [] sp st]. reflexivity.
Qed.

(** The revision given to a MachineSet is readable, greater than that of every old
    MachineSet, and never below the one it had; annotations of the deployment are propagated
    except the ones to skip. *)
Theorem ComputeMachineSetAnnotations_revision (md : MachineDeployment)
    (oldMSs : list MachineSet) (newMS : option MachineSet) (annotations : gmap string string) :
  ComputeMachineSetAnnotations md oldMSs newMS = Ok annotations →
  MaxRevision oldMSs < int64_max →
  ∃ v, Revision annotations = (v, None) ∧
    (∀ ms v', ms ∈ oldMSs → Revision (ms_Annotations ms) = (v', None) → v' < v) ∧
    (∀ ms v', newMS = Some ms → Revision (ms_Annotations ms) = (v', None) → v' ≤ v) ∧
    (∀ k, skipCopyAnnotation k = false → annotations !! k = md_Annotations md !! k).
Proof.
  intros E Hmax. destruct (ComputeMachineSetAnnotations_inv _ _ _ _ E Hmax)
    as (m & d & a0 & newRevision & v & -> & Hv & Hlt & Hnew & Hk).
  exists v. split_and!.
  - unfold Revision. by rewrite !lookup_insert_ne, lookup_insert_eq by done.
  - intros ms v' Hin Hr. pose proof (MaxRevision_ge _ _ _ Hin Hr). lia.
  - done.
  - intros k Hskip. by rewrite !not_skipped_insert; [apply Hk|..].
Qed.

Context {P : Type} (get : P → MachineSet).

(** The MachineSet a deployment adopts as its new one is in the list, has the template of
    the deployment in all rollout fields, respects [RolloutAfter], and no other such
    MachineSet precedes it in the order by decreasing replicas; none is returned only when
    none qualifies. *)
Theorem FindNewMachineSet_spec (md : MachineDeployment) (l : list P) (t : option Time)
    (r : option P) (reason : string) (l' : list P) :
  FindNewMachineSet get md l t = (r, reason, l') →
  l' ≡ₚ l ∧
  match r with
  | Some p =>
      p ∈ l ∧
      rollout_fields (mss_Template (ms_Spec (get p))) = rollout_fields (md_Template md) ∧
      eligible get md t p ∧
      ∀ q, q ∈ l →
        rollout_fields (mss_Template (ms_Spec (get q))) = rollout_fields (md_Template md) →
        eligible get md t q → q = p ∨ MachineSetsByDecreasingReplicas_Less (get q) (get p) = false
  | None =>
      ∀ q, q ∈ l →
        rollout_fields (mss_Template (ms_Spec (get q))) = rollout_fields (md_Template md) →
        ¬ eligible get md t q
  end.
Proof.
  intros (Hp & _ & Hr)%FindNewMachineSet_spec_aux. split; [done|].
  unfold matches_template in Hr. destruct r as [p|]; setoid_rewrite UpToDate_iff in Hr; exact Hr.
Qed.

(** Looking the new MachineSet up again, in the list the search for the old ones left
    re-sorted, splits the MachineSets of the deployment into the old ones and the new one. *)
Theorem FindOldMachineSets_complement (md : MachineDeployment) (l : list P) (t : option Time)
    (old l' : list P) :
  NoDup l → distinct_sets get l →
  (∀ p q, p ∈ l → q ∈ l → om_UID (ms_Meta (get p)) = om_UID (ms_Meta (get q)) → p = q) →
  FindOldMachineSets get md l t = (old, l') →
  let new := (FindNewMachineSet get md l' t).1.1 in
  old ++ option_list new ≡ₚ l ∧ ∀ p, new = Some p → p ∉ old.
Proof.
  intros Hnd Hd Huid Hold.
  destruct (FindOldMachineSets_partition get md l t old l' Hnd Huid Hold)
    as (new & reason & E & Hp & Hnot).
  pose proof (proj1 (FindNewMachineSet_spec_aux _ _ _ _ _ _ _ E)) as Hll.
  rewrite <- (FindNewMachineSet_perm get md l l' t Hd) by done. by rewrite E.
Qed.

(** The MachineSet to scale alone is the only active one, or else the new one or the
    newest old one; none is returned exactly when there is nothing or at least two are
    active. *)
Theorem FindOneActiveOrLatest_spec (newMS : option P) (oldMSs : list P) (r : option P)
    (oldMSs' : list P) :
  FindOneActiveOrLatest get newMS oldMSs = (r, oldMSs') →
  NoDup (oldMSs ++ option_list newMS) →
  oldMSs' ≡ₚ oldMSs ∧
  match r with
  | Some p =>
      among newMS oldMSs p ∧
      (∀ q, among newMS oldMSs q → active get q → q = p) ∧
      (¬ active get p → newMS = Some p ∨ newMS = None ∧
        ∀ q, q ∈ oldMSs → q = p ∨ MachineSetsByCreationTimestamp_Less (get p) (get q) = false)
  | None =>
      (newMS = None ∧ oldMSs = []) ∨
      ∃ p q, p ≠ q ∧ among newMS oldMSs p ∧ among newMS oldMSs q ∧ active get p ∧ active get q
  end.
Proof. apply FindOneActiveOrLatest_spec_aux. Qed.
End properties.

(** The product in [getMachineSetFraction] is an [int32] product: for a MachineSet of
    50000 replicas of a deployment of 50000, annotated as such, the fraction to add is not
    zero but a large negative number. *)
Theorem getMachineSetFraction_overflow :
  ∃ (ms : MachineSet) (md : MachineDeployment),
    ms_Replicas ms = Some 50000 ∧ md_Replicas md = Some 50000 ∧
    getMaxReplicasAnnotation ms = (50000, true) ∧ MaxSurge md = Ok 0 ∧
    getMachineSetFraction ms md = Ok (-85899).
Proof.
  exists (ms_set_Annotations {[MaxReplicasAnnotation := "50000"]} (ms_set_Replicas 50000 inhabitant)).
  exists {| md_TypeMeta := emptyTypeMeta; md_Meta := emptyMeta; md_Status := emptyMDStatus;
            md_Spec := md_spec_of 50000 (FromInt 0) (FromInt 1) |}.
  split_and!; by vm_compute.
Qed.

(** ** Witnesses *)

Definition rolling_md (replicas : Z) : MachineDeployment :=
  {| md_TypeMeta := emptyTypeMeta; md_Meta := emptyMeta; md_Status := emptyMDStatus;
     md_Spec := md_spec_of replicas (FromString "25%") (FromInt 1) |}.

Definition sized_ms (name : string) (replicas available : Z) (created : Time) : MachineSet :=
  {| ms_TypeMeta := emptyTypeMeta;
     ms_Meta := {| om_Name := name; om_Namespace := "default"; om_UID := name;
       om_Generation := 1; om_CreationTimestamp := created; om_DeletionTimestamp := None;
       om_Labels := {[MachineDeploymentUniqueLabel := name]}; om_Annotations := ∅;
       om_OwnerReferences := []; om_Finalizers := [] |};
     ms_Spec := {| mss_ClusterName := "c"; mss_Replicas := Some replicas;
       mss_MinReadySeconds := 0; mss_DeletePolicy := ""; mss_Selector := emptySelector;
       mss_Template := emptyTemplate |};
     ms_Status := {| mst_Selector := ""; mst_Replicas := replicas;
       mst_FullyLabeledReplicas := replicas; mst_ReadyReplicas := available;
       mst_AvailableReplicas := available; mst_ObservedGeneration := 1;
       mst_FailureReason := None; mst_FailureMessage := None; mst_Conditions := [];
       mst_V1Beta2 := None |} |}.

Lemma rolling_md_wf n : 0 ≤ n ≤ int32_max → wf_deployment (rolling_md n) n.
Proof.
  intros Hn. split; [done|done|]. eexists. split; [reflexivity|]. left. split; [done|].
  eexists. split; [reflexivity|]. split; [|simpl; unfold int32_max; lia].
  exists 25. split; [lia|done].
Qed.

Lemma rollout_limits_witness :
  ∃ surge unavail, MaxSurge (rolling_md 10) = Ok surge ∧
    MaxUnavailable (rolling_md 10) = Ok unavail ∧ 0 < surge + unavail.
Proof.
  destruct (rollout_limits (rolling_md 10) 10) as (s & u & Hs & Hu & _ & _ & Hp & _).
  - apply rolling_md_wf. unfold int32_max. lia.
  - exists s, u. split; [exact Hs|]. split; [exact Hu|]. apply Hp; [reflexivity|lia].
Defined.

Lemma NewMSNewReplicas_bounds_witness :
  ∃ r, NewMSNewReplicas (rolling_md 10) [Some (sized_ms "old" 10 10 0); Some (sized_ms "new" 1 0 1)] 1
       = Ok r ∧ 1 ≤ r ≤ 10.
Proof.
  destruct (NewMSNewReplicas_bounds (rolling_md 10) 10 3
    [Some (sized_ms "old" 10 10 0); Some (sized_ms "new" 1 0 1)] 1) as (r & Hr & Hb & _).
  - apply rolling_md_wf. unfold int32_max. lia.
  - reflexivity.
  - unfold int32_max. lia.
  - repeat constructor; eexists; reflexivity.
  - vm_compute. split; discriminate.
  - lia.
  - vm_compute. discriminate.
  - eauto.
Defined.

Lemma SetReplicasAnnotations_roundtrip_witness :
  getMaxReplicasAnnotation (SetReplicasAnnotations (sized_ms "a" 3 3 0) 10 13).1 = (13, true).
Proof.
  apply (SetReplicasAnnotations_roundtrip (sized_ms "a" 3 3 0) 10 13);
    vm_compute; split; discriminate.
Defined.

Definition revision_4 : list MachineSet :=
  [ms_set_Annotations {[RevisionAnnotation := "4"]} (sized_ms "old" 10 10 0)].

Definition after_revision_4 : gmap string string :=
  match ComputeMachineSetAnnotations (rolling_md 10) revision_4 None with
  | Ok a => a
  | _ => ∅
  end.

Lemma after_revision_4_Ok :
  ComputeMachineSetAnnotations (rolling_md 10) revision_4 None = Ok after_revision_4.
Proof. vm_cast_no_check (@eq_refl (result (gmap string string)) (Ok after_revision_4)). Qed.

Lemma ComputeMachineSetAnnotations_revision_witness :
  ∃ v, Revision after_revision_4 = (v, None) ∧ 4 < v.
Proof.
  destruct (ComputeMachineSetAnnotations_revision _ _ _ _ after_revision_4_Ok)
    as (v & Hv & Hold & _); [by vm_compute|].
  exists v. split; [exact Hv|]. eapply Hold; [left|by vm_compute].
Defined.

Definition two_sets : list MachineSet := [sized_ms "a" 3 3 0; sized_ms "b" 7 7 1].

Lemma FindNewMachineSet_spec_witness :
  ∃ r reason l', FindNewMachineSet id (rolling_md 10) two_sets (Some 5) = (r, reason, l') ∧
    l' ≡ₚ two_sets.
Proof.
  destruct (FindNewMachineSet id (rolling_md 10) two_sets (Some 5)) as [[r reason] l'] eqn:E.
  exists r, reason, l'. split; [reflexivity|].
  exact (proj1 (FindNewMachineSet_spec id _ _ _ _ _ _ E)).
Defined.

Lemma two_sets_distinct (f : MachineSet → string) :
  f (sized_ms "a" 3 3 0) ≠ f (sized_ms "b" 7 7 1) →
  ∀ p q, p ∈ two_sets → q ∈ two_sets → f p = f q → p = q.
Proof. unfold two_sets. set_solver. Qed.

Lemma FindOldMachineSets_complement_witness :
  ∃ old l', FindOldMachineSets id (rolling_md 10) two_sets (Some 5) = (old, l') ∧
    old ++ option_list (FindNewMachineSet id (rolling_md 10) l' (Some 5)).1.1 ≡ₚ two_sets.
Proof.
  destruct (FindOldMachineSets id (rolling_md 10) two_sets (Some 5)) as [old l'] eqn:E.
  exists old, l'. split; [reflexivity|].
  apply (FindOldMachineSets_complement id (rolling_md 10) two_sets (Some 5) old l').
  - repeat constructor; set_solver.
  - split; [by apply (two_sets_distinct ms_Name)|]. unfold two_sets. set_solver.
  - by apply (two_sets_distinct (λ p, om_UID (ms_Meta p))).
  - exact E.
Defined.

Lemma FindOneActiveOrLatest_spec_witness :
  ∃ r l', FindOneActiveOrLatest id (Some (sized_ms "n" 0 0 2)) [sized_ms "a" 3 3 0] = (r, l') ∧
    l' ≡ₚ [sized_ms "a" 3 3 0].
Proof.
  destruct (FindOneActiveOrLatest id (Some (sized_ms "n" 0 0 2)) [sized_ms "a" 3 3 0])
    as [r l'] eqn:E.
  exists r, l'. split; [reflexivity|].
  apply (FindOneActiveOrLatest_spec id _ _ _ _ E). repeat constructor; set_solver.
Defined.
