(* ===== verification/MachineDeployment.v ===== *)
(** * The MachineDeployment controller
      (internal/controllers/machinedeployment)

    MachineSets live in a heap and are shared through pointers, as they are in the
    controller: a pointer may be in several slices, and a mutation through one is seen through
    all.  Every call of the API client is recorded; its outcome is given by the environment as
    a function of the calls made so far, so that the theorems hold for any sequence of
    failures.  A mutation made before a failing call stays.  Appending the new MachineSet to
    the slice of old ones may share its array with it; sorting the one then permutes the
    other, which no reader of it can observe.  Logging and events are left out. *)

From S2P Require Import Prelude GoStd Api Apimachinery Util Conditions MdUtil.

(** ** State and environment *)

Abbreviation ptr := nat (only parsing).

Inductive Call :=
| CallNewHelper (ms : MachineSet)
| CallPatch (ms : MachineSet)
| CallApply (ms : MachineSet)
| CallGet (name : string)
| CallDelete (ms : MachineSet)
| CallListMachines (namespace : string) (labels : gmap string string)
| CallListMachineSets (namespace : string).

Record State := {
  s_heap : gmap ptr MachineSet;
  s_md : MachineDeployment;
  s_calls : list Call;
}.

(** The outside world. *)
Record Env := {
  api_error : list Call → Call → option error;
  api_applied : list Call → MachineSet → MachineSet;
  api_cached : list Call → MachineSet → bool;
  api_machines : list Call → Call → list Machine;
  api_machineSets : list Call → Call → list MachineSet;
  env_now : list Call → Time;
  env_random : list Call → string;
  env_polls : nat;
  selector_String : LabelSelector → string;
  selector_AsMap : LabelSelector → option (gmap string string);
  selector_Matches : LabelSelector → option (gmap string string → bool);
  selector_Empty : LabelSelector → bool;
  remove_finalizer : list string → string → list string;
}.

Definition heap_get (h : gmap ptr MachineSet) (p : ptr) : MachineSet := h !!! p.

(** A slice of possibly nil pointers, read through the heap. *)
Definition view (h : gmap ptr MachineSet) (l : list (option ptr)) : list (option MachineSet) :=
  (λ p : option ptr, heap_get h <$> p) <$> l.

Definition load (p : ptr) : M State MachineSet := gets (λ s, heap_get (s_heap s) p).

Definition store (p : ptr) (ms : MachineSet) : M State unit :=
  modify (λ s, {| s_heap := <[p := ms]> (s_heap s); s_md := s_md s; s_calls := s_calls s |}).

Definition alloc (ms : MachineSet) : M State ptr := λ s,
  let p := fresh (dom (s_heap s)) in
  (Ok p, {| s_heap := <[p := ms]> (s_heap s); s_md := s_md s; s_calls := s_calls s |}).

Definition set_md (md : MachineDeployment) : M State unit :=
  modify (λ s, {| s_heap := s_heap s; s_md := md; s_calls := s_calls s |}).

Definition nil_replicas {A} : M State A :=
  throw (Errorf "spec.replicas is nil, this is unexpected").

Section controller.
Context `{Apimachinery} `{GoSort} (env : Env).

(** One call of the API: recorded, with the outcome the environment gives it. *)
Definition call (c : Call) : M State unit := λ s,
  let s' := {| s_heap := s_heap s; s_md := s_md s; s_calls := s_calls s ++ [c] |} in
  match api_error env (s_calls s) c with
  | None => (Ok tt, s')
  | Some e => (Err e, s')
  end.

(** ** Scaling one MachineSet *)

Definition scaleMachineSet (p : ptr) (newScale : Z) : M State unit :=
  ms ← load p;
  match ms_Replicas ms with
  | None => nil_replicas
  | Some msReplicas =>
      md ← gets s_md;
      match md_Replicas md with
      | None => nil_replicas
      | Some replicas =>
          surge ← lift (MaxSurge md);
          let maxReplicas := replicas +32 surge in
          if (msReplicas =? newScale)
             && negb (ReplicasAnnotationsNeedUpdate ms replicas maxReplicas)
          then mret tt
          else
            _ ← call (CallNewHelper ms);
            let ms' := (SetReplicasAnnotations (ms_set_Replicas newScale ms)
                          replicas maxReplicas).1 in
            _ ← store p ms';
            call (CallPatch ms')
      end
  end.

(** ** The new MachineSet *)

Definition reconcileNewMachineSet (allMSs : list (option ptr)) (newMS : ptr) : M State unit :=
  md ← gets s_md;
  match md_Replicas md with
  | None => nil_replicas
  | Some replicas =>
      ms ← load newMS;
      match ms_Replicas ms with
      | None => nil_replicas
      | Some newReplicas =>
          if newReplicas =? replicas then mret tt
          else if replicas <? newReplicas then scaleMachineSet newMS replicas
          else
            h ← gets s_heap;
            newReplicasCount ← lift (NewMSNewReplicas md (view h allMSs) newReplicas);
            scaleMachineSet newMS newReplicasCount
      end
  end.

(** ** Old MachineSets in a rolling update *)

Definition by_creation (h : gmap ptr MachineSet) (p q : ptr) : bool :=
  MachineSetsByCreationTimestamp_Less (heap_get h p) (heap_get h q).

(** One iteration of the loop of [cleanupUnhealthyReplicas]. *)
Definition cleanup_step (maxCleanupCount : Z) (totalScaledDown : Z) (p : ptr) :
    M State (Z + Z) :=
  ms ← load p;
  match ms_Replicas ms with
  | None => nil_replicas
  | Some oldMSReplicas =>
      if maxCleanupCount <=? totalScaledDown then mret (inr totalScaledDown)
      else if oldMSReplicas =? 0 then mret (inl totalScaledDown)
      else
        let oldMSAvailableReplicas := mst_AvailableReplicas (ms_Status ms) in
        if oldMSReplicas =? oldMSAvailableReplicas then mret (inl totalScaledDown)
        else
          let remainingCleanupCount := maxCleanupCount -32 totalScaledDown in
          let unhealthyCount := oldMSReplicas -32 oldMSAvailableReplicas in
          let scaledDownCount := Z.min remainingCleanupCount unhealthyCount in
          let newReplicasCount := oldMSReplicas -32 scaledDownCount in
          if oldMSReplicas <? newReplicasCount
          then throw (Errorf "when cleaning up unhealthy replicas, got invalid request to scale down")
          else
            _ ← scaleMachineSet p newReplicasCount;
            mret (inl (totalScaledDown +32 scaledDownCount))
  end.

Definition cleanupUnhealthyReplicas (oldMSs : list ptr) (maxCleanupCount : Z) :
    M State (list ptr * Z) :=
  h ← gets s_heap;
  let oldMSs := go_sort (by_creation h) oldMSs in
  totalScaledDown ← foldM (cleanup_step maxCleanupCount) 0 oldMSs;
  mret (oldMSs, totalScaledDown).

(** One iteration of the loop of [scaleDownOldMachineSetsForRollingUpdate]. *)
Definition scaleDown_step (totalScaleDownCount : Z) (totalScaledDown : Z) (p : ptr) :
    M State (Z + Z) :=
  ms ← load p;
  match ms_Replicas ms with
  | None => nil_replicas
  | Some replicas =>
      if totalScaleDownCount <=? totalScaledDown then mret (inr totalScaledDown)
      else if replicas =? 0 then mret (inl totalScaledDown)
      else
        let scaleDownCount := Z.min replicas (totalScaleDownCount -32 totalScaledDown) in
        let newReplicasCount := replicas -32 scaleDownCount in
        if replicas <? newReplicasCount
        then throw (Errorf "when scaling down old MachineSet, got invalid request to scale down")
        else
          _ ← scaleMachineSet p newReplicasCount;
          mret (inl (totalScaledDown +32 scaleDownCount))
  end.

Definition scaleDownOldMachineSetsForRollingUpdate (allMSs : list (option ptr))
    (oldMSs : list ptr) : M State Z :=
  md ← gets s_md;
  match md_Replicas md with
  | None => nil_replicas
  | Some replicas =>
      maxUnavailable ← lift (MaxUnavailable md);
      let minAvailable := replicas -32 maxUnavailable in
      h ← gets s_heap;
      let availableMachineCount := GetAvailableReplicaCountForMachineSets (view h allMSs) in
      if availableMachineCount <=? minAvailable then mret 0
      else
        let oldMSs := go_sort (by_creation h) oldMSs in
        foldM (scaleDown_step (availableMachineCount -32 minAvailable)) 0 oldMSs
  end.

Definition reconcileOldMachineSets (allMSs : list (option ptr)) (oldMSs : list ptr)
    (newMS : ptr) : M State unit :=
  md ← gets s_md;
  match md_Replicas md with
  | None => nil_replicas
  | Some replicas =>
      new ← load newMS;
      match ms_Replicas new with
      | None => nil_replicas
      | Some newReplicas =>
          h ← gets s_heap;
          let oldMachinesCount := GetReplicaCountForMachineSets (view h (Some <$> oldMSs)) in
          if oldMachinesCount =? 0 then mret tt
          else
            let allMachinesCount := GetReplicaCountForMachineSets (view h allMSs) in
            maxUnavailable ← lift (MaxUnavailable md);
            let minAvailable := replicas -32 maxUnavailable in
            let newMSUnavailableMachineCount :=
              newReplicas -32 mst_AvailableReplicas (ms_Status new) in
            let maxScaledDown :=
              (allMachinesCount -32 minAvailable) -32 newMSUnavailableMachineCount in
            if maxScaledDown <=? 0 then mret tt
            else
              '(oldMSs, _) ← cleanupUnhealthyReplicas oldMSs maxScaledDown;
              _ ← scaleDownOldMachineSetsForRollingUpdate
                    ((Some <$> oldMSs) ++ [Some newMS]) oldMSs;
              mret tt
      end
  end.

(** ** The desired MachineSet *)

Definition maxNameLength : nat := 63.
Definition randomLength : nat := 5.
Definition maxGeneratedNameLength : nat := maxNameLength - randomLength.

(** [r] is the random string drawn. *)
Definition computeNewMachineSetName (base r : string) : string * string :=
  let base := if bool_decide (maxGeneratedNameLength < String.length base)%nat
              then String.substring 0 maxGeneratedNameLength base else base in
  (base +:+ r, r).

Definition cloneStringMap (m : gmap string string) : gmap string string := m.

(** What depends on whether the MachineSet exists: its name, UID, finalizers, unique label,
    replicas and machine spec. *)
Definition desired_identity (md : MachineDeployment) (existingMS : option MachineSet)
    (oldMSs : list MachineSet) (random : string) :
    result (string * string * list string * string * Z * MachineSpec) :=
  match existingMS with
  | None =>
      templateHash ←
        wrapErr "failed to compute desired MachineSet: failed to compute machine template hash"
          (TemplateHash (MachineTemplateDeepCopyRolloutFields (md_Template md)));
      let '(name, randomSuffix) := computeNewMachineSetName (md_Name md +:+ "-") random in
      replicas ← wrapErr "failed to compute desired MachineSet"
                   (NewMSNewReplicas md (Some <$> oldMSs) 0);
      mret (name, ""%string, [], templateHash +:+ "-" +:+ randomSuffix, replicas,
            mt_Spec (md_Template md))
  | Some ms =>
      match om_Labels (ms_Meta ms) !! MachineDeploymentUniqueLabel with
      | None => Err (Errorf "failed to compute desired MachineSet: failed to get unique identifier")
      | Some label =>
          replicas ← deref (ms_Replicas ms);
          mret (ms_Name ms, om_UID (ms_Meta ms), om_Finalizers (ms_Meta ms), label, replicas,
                mt_Spec (mss_Template (ms_Spec ms)))
      end
  end.

Definition computeDesiredMachineSet (md : MachineDeployment) (existingMS : option MachineSet)
    (oldMSs : list MachineSet) (random : string) : result MachineSet :=
  '(name, uid, finalizers, label, replicas, machineSpec) ←
    desired_identity md existingMS oldMSs random;
  let labels := CloneAndAddLabel (tm_Labels (mt_Meta (md_Template md)))
                  MachineDeploymentUniqueLabel label in
  annotations ← wrapErr "failed to compute desired MachineSet: failed to compute annotations"
                  (ComputeMachineSetAnnotations md oldMSs existingMS);
  let mdTemplate := mt_Spec (md_Template md) in
  mret
    {| ms_TypeMeta := {| tm_Kind := "MachineSet"; tm_APIVersion := "cluster.x-k8s.io/v1beta1" |};
       ms_Meta :=
         {| om_Name := name; om_Namespace := om_Namespace (md_Meta md); om_UID := uid;
            om_Generation := 0; om_CreationTimestamp := zero_time; om_DeletionTimestamp := None;
            om_Labels := <[MachineDeploymentNameLabel := md_Name md]> labels;
            om_Annotations := annotations;
            om_OwnerReferences := [NewControllerRef (md_Meta md) "MachineDeployment"];
            om_Finalizers := finalizers |};
       ms_Spec :=
         {| mss_ClusterName := mds_ClusterName (md_Spec md); mss_Replicas := Some replicas;
            mss_MinReadySeconds := default 0 (mds_MinReadySeconds (md_Spec md));
            mss_DeletePolicy :=
              match mds_Strategy (md_Spec md) ≫= mdst_RollingUpdate with
              | Some ru => default "" (ru_DeletePolicy ru)
              | None => ""
              end;
            mss_Selector := CloneSelectorAndAddLabel (mds_Selector (md_Spec md))
                              MachineDeploymentUniqueLabel label;
            mss_Template :=
              {| mt_Meta :=
                   {| tm_Labels := labels;
                      tm_Annotations := cloneStringMap (tm_Annotations (mt_Meta (md_Template md))) |};
                 mt_Spec :=
                   {| sp_ClusterName := sp_ClusterName machineSpec;
                      sp_Bootstrap := sp_Bootstrap machineSpec;
                      sp_InfrastructureRef := sp_InfrastructureRef machineSpec;
                      sp_Version := sp_Version machineSpec;
                      sp_ProviderID := sp_ProviderID machineSpec;
                      sp_FailureDomain := sp_FailureDomain machineSpec;
                      sp_ReadinessGates := sp_ReadinessGates mdTemplate;
                      sp_NodeDrainTimeout := sp_NodeDrainTimeout mdTemplate;
                      sp_NodeVolumeDetachTimeout := sp_NodeVolumeDetachTimeout mdTemplate;
                      sp_NodeDeletionTimeout := sp_NodeDeletionTimeout mdTemplate |} |} |};
       ms_Status := emptyMSStatus |}.

(** Server-side apply: the object becomes what the server answers or, when a request known
    to change nothing is cached, the original object. *)
Definition ssa_Patch (p : ptr) (original : option ptr) : M State unit :=
  ms ← load p;
  calls ← gets s_calls;
  match original with
  | Some o =>
      if api_cached env calls ms then original ← load o; store p original
      else _ ← call (CallApply ms); store p (api_applied env calls ms)
  | None => _ ← call (CallApply ms); store p (api_applied env calls ms)
  end.

(** The MachineSets of a list of non-nil pointers. *)
Definition load_all (l : list ptr) : M State (list MachineSet) :=
  gets (λ s, heap_get (s_heap s) <$> l).

Definition wrap_error {A} (msg : string) (m : M State A) : M State A := λ s,
  let '(r, s') := m s in (wrapErr msg r, s').

Definition updateMachineSet (ms : ptr) (oldMSs : list ptr) : M State ptr :=
  md ← gets s_md;
  existing ← load ms;
  olds ← load_all oldMSs;
  updated ← wrap_error "failed to update MachineSet"
    (lift (computeDesiredMachineSet md (Some existing) olds ""));
  p ← alloc updated;
  _ ← wrap_error "failed to update MachineSet" (ssa_Patch p (Some ms));
  mret p.

(** Polls until the MachineSet can be read, collecting the errors. *)
Fixpoint poll_get (polls : nat) (name : string) (pollErrors : list error) : M State unit :=
  match polls with
  | O => throw (Wrap "failed to get the MachineSet after creation" (NewAggregate pollErrors))
  | S polls =>
      err ← try_err (call (CallGet name));
      match err with
      | None => mret tt
      | Some e => poll_get polls name (pollErrors ++ [e])
      end
  end.

Definition createMachineSetAndWait (oldMSs : list ptr) : M State ptr :=
  md ← gets s_md;
  olds ← load_all oldMSs;
  calls ← gets s_calls;
  newMS ← wrap_error "failed to create new MachineSet"
    (lift (computeDesiredMachineSet md None olds (env_random env calls)));
  p ← alloc newMS;
  _ ← wrap_error "failed to create new MachineSet" (ssa_Patch p None);
  created ← load p;
  _ ← poll_get (env_polls env) (ms_Name created) [];
  mret p.

(** Copies the revision of a MachineSet to the deployment. *)
Definition sync_revision (p : ptr) : M State unit :=
  ms ← load p;
  md ← gets s_md;
  set_md (SetDeploymentRevision md (default "" (ms_Annotations ms !! RevisionAnnotation))).1.

Definition getNewMachineSet (msList oldMSs : list ptr) (createIfNotExists templateExists : bool)
    (reconciliationTime : Time) : M State (option ptr) :=
  md ← gets s_md;
  h ← gets s_heap;
  match (FindNewMachineSet (heap_get h) md msList (Some reconciliationTime)).1.1 with
  | Some matchingMS =>
      updatedMS ← updateMachineSet matchingMS oldMSs;
      _ ← sync_revision updatedMS;
      mret (Some updatedMS)
  | None =>
      if negb createIfNotExists then mret None
      else if negb templateExists
      then throw (Errorf "cannot create a new MachineSet when templates do not exist")
      else
        newMS ← createMachineSetAndWait oldMSs;
        _ ← sync_revision newMS;
        mret (Some newMS)
  end.

Definition getAllMachineSetsAndSyncRevision (msList : list ptr)
    (createIfNotExisted templateExists : bool) : M State (option ptr * list ptr) :=
  calls ← gets s_calls;
  let reconciliationTime := env_now env calls in
  md ← gets s_md;
  h ← gets s_heap;
  let '(allOldMSs, msList) := FindOldMachineSets (heap_get h) md msList (Some reconciliationTime) in
  newMS ← getNewMachineSet msList allOldMSs createIfNotExisted templateExists reconciliationTime;
  mret (newMS, allOldMSs).

(** ** Proportional scaling *)

(** The first loop: the size of each active MachineSet, and how much was added so far. *)
Fixpoint proportions (md : MachineDeployment) (toAdd : Z) (sets : list MachineSet)
    (added : Z) (nameToSize : gmap string Z) : result (Z * gmap string Z) :=
  match sets with
  | [] => Ok (added, nameToSize)
  | ms :: rest =>
      match ms_Replicas ms with
      | None => proportions md toAdd rest added nameToSize
      | Some replicas =>
          if negb (toAdd =? 0) then
            proportion ← GetProportion (Some ms) md toAdd added;
            proportions md toAdd rest (added +32 proportion)
              (<[ms_Name ms := replicas +32 proportion]> nameToSize)
          else proportions md toAdd rest added (<[ms_Name ms := replicas]> nameToSize)
      end
  end.

(** The leftover goes to the first, that is the largest, MachineSet. *)
Definition add_leftover (toAdd added : Z) (first : string) (nameToSize : gmap string Z) :
    gmap string Z :=
  if toAdd =? 0 then nameToSize
  else
    let size := default 0 (nameToSize !! first) +32 (toAdd -32 added) in
    <[first := if size <? 0 then 0 else size]> nameToSize.

(** The second loop. *)
Definition scale_all (sets : list ptr) (nameToSize : gmap string Z) : M State unit :=
  forM sets (λ p,
    ms ← load p;
    scaleMachineSet p (default 0 (nameToSize !! ms_Name ms))).

Definition scale_proportionally (md : MachineDeployment) (replicas : Z) (newMS : option ptr)
    (oldMSs : list ptr) : M State unit :=
  h ← gets s_heap;
  let allMSs := FilterActiveMachineSets (heap_get h) ((Some <$> oldMSs) ++ [newMS]) in
  let totalMSReplicas := GetReplicaCountForMachineSets (view h (Some <$> allMSs)) in
  surge ← lift (if 0 <? replicas then MaxSurge md else Ok 0);
  let allowedSize := if 0 <? replicas then replicas +32 surge else 0 in
  let deploymentReplicasToAdd := allowedSize -32 totalMSReplicas in
  allMSs ← lift
    (if 0 <? deploymentReplicasToAdd
     then sort_by_size (heap_get h) MachineSetsBySizeNewer_Less allMSs
     else if deploymentReplicasToAdd <? 0
     then sort_by_size (heap_get h) MachineSetsBySizeOlder_Less allMSs
     else Ok allMSs);
  '(added, nameToSize) ← lift
    (proportions md deploymentReplicasToAdd (heap_get h <$> allMSs) 0 ∅);
  match allMSs with
  | [] => mret tt
  | first :: _ =>
      scale_all allMSs
        (add_leftover deploymentReplicasToAdd added (ms_Name (heap_get h first)) nameToSize)
  end.

Definition scale (newMS : option ptr) (oldMSs : list ptr) : M State unit :=
  md ← gets s_md;
  match md_Replicas md with
  | None => nil_replicas
  | Some replicas =>
      h ← gets s_heap;
      let '(activeOrLatest, oldMSs) := FindOneActiveOrLatest (heap_get h) newMS oldMSs in
      match activeOrLatest with
      | Some p =>
          ms ← load p;
          match ms_Replicas ms with
          | None => nil_replicas
          | Some msReplicas =>
              if msReplicas =? replicas then mret tt else scaleMachineSet p replicas
          end
      | None =>
          saturated ← lift (IsSaturated md (heap_get h <$> newMS));
          if saturated : bool then
            forM (FilterActiveMachineSets (heap_get h) (Some <$> oldMSs))
              (λ old, scaleMachineSet old 0)
          else
            rolling ← lift (IsRollingUpdate md);
            if rolling : bool then scale_proportionally md replicas newMS oldMSs else mret tt
      end
  end.

(** ** Status *)

Definition calculateStatus (allMSs : list (option MachineSet)) (newMS : option MachineSet)
    (md : MachineDeployment) : result MachineDeploymentStatus :=
  let availableReplicas := GetAvailableReplicaCountForMachineSets allMSs in
  let totalReplicas := GetReplicaCountForMachineSets allMSs in
  let unavailableReplicas := totalReplicas -32 availableReplicas in
  let unavailableReplicas := if unavailableReplicas <? 0 then 0 else unavailableReplicas in
  let readyReplicas := GetReadyReplicaCountForMachineSets allMSs in
  replicas ← deref (md_Replicas md);
  let phase : string := "" in
  let phase := if replicas =? readyReplicas then "Running"%string else phase in
  let phase := if readyReplicas <? replicas then "ScalingUp"%string else phase in
  let phase := if totalReplicas -32 availableReplicas <? 0 then "ScalingDown"%string else phase in
  let failed := existsb (λ ms, match ms with
    | Some ms => bool_decide (is_Some (mst_FailureReason (ms_Status ms)))
                 || bool_decide (is_Some (mst_FailureMessage (ms_Status ms)))
    | None => false
    end) allMSs in
  let phase := if failed then "Failed"%string else phase in
  mret
    {| mdt_ObservedGeneration := om_Generation (md_Meta md);
       mdt_Selector := selector_String env (mds_Selector (md_Spec md));
       mdt_Replicas := GetActualReplicaCountForMachineSets allMSs;
       mdt_UpdatedReplicas := GetActualReplicaCountForMachineSets [newMS];
       mdt_ReadyReplicas := readyReplicas;
       mdt_AvailableReplicas := availableReplicas;
       mdt_UnavailableReplicas := unavailableReplicas;
       mdt_Phase := phase;
       mdt_Conditions := mdt_Conditions (md_Status md);
       mdt_V1Beta2 := mdt_V1Beta2 (md_Status md) |}.

Definition setReplicas (md : MachineDeployment) (machineSets : list (option MachineSet)) :
    MachineDeployment :=
  let st := md_Status md in
  md_set_Status
    {| mdt_ObservedGeneration := mdt_ObservedGeneration st; mdt_Selector := mdt_Selector st;
       mdt_Replicas := mdt_Replicas st; mdt_UpdatedReplicas := mdt_UpdatedReplicas st;
       mdt_ReadyReplicas := mdt_ReadyReplicas st;
       mdt_AvailableReplicas := mdt_AvailableReplicas st;
       mdt_UnavailableReplicas := mdt_UnavailableReplicas st; mdt_Phase := mdt_Phase st;
       mdt_Conditions := mdt_Conditions st;
       mdt_V1Beta2 := Some
         {| mdv_Conditions := match mdt_V1Beta2 st with Some v => mdv_Conditions v | None => [] end;
            mdv_ReadyReplicas := GetV1Beta2ReadyReplicaCountForMachineSets machineSets;
            mdv_AvailableReplicas := GetV1Beta2AvailableReplicaCountForMachineSets machineSets;
            mdv_UpToDateReplicas := GetV1Beta2UptoDateReplicaCountForMachineSets machineSets |} |}
    md.

Definition WaitingForAvailableMachinesReason : string := "WaitingForAvailableMachines".
Definition WaitingForMachineSetFallbackReason : string := "WaitingForMachineSet".

Definition syncDeploymentStatus (allMSs : list (option ptr)) (newMS : option ptr) : M State unit :=
  md ← gets s_md;
  h ← gets s_heap;
  calls ← gets s_calls;
  let now := env_now env calls in
  status ← lift (calculateStatus (view h allMSs) (heap_get h <$> newMS) md);
  let md := md_set_Status status md in
  _ ← set_md md;
  replicas ← lift (deref (md_Replicas md));
  maxUnavailable ← lift (MaxUnavailable md);
  let minReplicasNeeded := replicas -32 maxUnavailable in
  let md :=
    if minReplicasNeeded <=? mdt_AvailableReplicas (md_Status md)
    then MarkTrue now md MachineDeploymentAvailableCondition
    else MarkFalse now md MachineDeploymentAvailableCondition WaitingForAvailableMachinesReason
      ConditionSeverityWarning
      ("Minimum availability requires " +:+ FormatInt minReplicasNeeded +:+ " replicas, current "
       +:+ FormatInt (mdt_AvailableReplicas (md_Status md)) +:+ " available") in
  let md :=
    match newMS with
    | Some p =>
        SetMirror now md MachineSetReadyCondition (heap_get h p)
          [WithFallbackValue false WaitingForMachineSetFallbackReason ConditionSeverityInfo ""]
    | None =>
        MarkFalse now md MachineSetReadyCondition WaitingForMachineSetFallbackReason
          ConditionSeverityInfo "MachineSet not found"
    end in
  set_md (setReplicas md (view h allMSs)).

(** ** Cleaning up old MachineSets *)

(** The API deletes, and a MachineSet that is already gone is not an error. *)
Definition delete_ms (ms : MachineSet) : M State unit :=
  err ← try_err (call (CallDelete ms));
  match err with
  | None | Some (ApiError true _) => mret tt
  | Some e => throw e
  end.

Definition cleanup_one (p : ptr) : M State unit :=
  ms ← load p;
  match ms_Replicas ms with
  | None => nil_replicas
  | Some replicas =>
      if negb (mst_Replicas (ms_Status ms) =? 0) || negb (replicas =? 0)
         || (mst_ObservedGeneration (ms_Status ms) <? om_Generation (ms_Meta ms))
         || negb (IsZero (om_DeletionTimestamp (ms_Meta ms)))
      then mret tt
      else delete_ms ms
  end.

Definition cleanupDeployment (oldMSs : list ptr) : M State unit :=
  md ← gets s_md;
  match mds_RevisionHistoryLimit (md_Spec md) with
  | None => mret tt
  | Some limit =>
      h ← gets s_heap;
      let cleanableMSes := FilterMachineSets oldMSs
        (λ p, IsZero (om_DeletionTimestamp (ms_Meta (heap_get h p)))) in
      let diff := wrap32 (Z.of_nat (length cleanableMSes)) -32 limit in
      if diff <=? 0 then mret tt
      else
        let cleanableMSes := go_sort (by_creation h) cleanableMSes in
        if Z.of_nat (length cleanableMSes) <? diff
        then _ ← forM cleanableMSes cleanup_one; lift Panic
        else forM (take (Z.to_nat diff) cleanableMSes) cleanup_one
  end.

(** ** Rollout strategies *)

Definition sync (msList : list ptr) (templateExists : bool) : M State unit :=
  '(newMS, oldMSs) ← getAllMachineSetsAndSyncRevision msList false templateExists;
  _ ← scale newMS oldMSs;
  syncDeploymentStatus ((Some <$> oldMSs) ++ [newMS]) newMS.

(** The end of a rollout: clean up once the deployment is complete. *)
Definition cleanup_if_complete (oldMSs : list ptr) : M State unit :=
  md ← gets s_md;
  complete ← lift (DeploymentComplete md (md_Status md));
  if complete : bool then cleanupDeployment oldMSs else mret tt.

Definition rolloutRolling (msList : list ptr) (templateExists : bool) : M State unit :=
  '(newMS, oldMSs) ← getAllMachineSetsAndSyncRevision msList true templateExists;
  match newMS with
  | None => mret tt
  | Some newMS =>
      let allMSs := (Some <$> oldMSs) ++ [Some newMS] in
      _ ← reconcileNewMachineSet allMSs newMS;
      _ ← syncDeploymentStatus allMSs (Some newMS);
      _ ← reconcileOldMachineSets allMSs oldMSs newMS;
      _ ← syncDeploymentStatus allMSs (Some newMS);
      cleanup_if_complete oldMSs
  end.

(** The first loop of [reconcileOldMachineSetsOnDelete], on one old MachineSet. *)
Definition onDelete_adjust (scaleDownAmount : Z) (p : ptr) : M State (Z + Z) :=
  ms ← load p;
  match ms_Replicas ms with
  | None => mret (inl scaleDownAmount)
  | Some replicas =>
      if replicas <=? 0 then mret (inl scaleDownAmount)
      else
        _ ← match ms_Annotations ms !! DisableMachineCreateAnnotation with
            | Some _ => mret tt
            | None =>
                _ ← call (CallNewHelper ms);
                let ms' := ms_set_Annotations
                  (<[DisableMachineCreateAnnotation := "true"]> (ms_Annotations ms)) ms in
                _ ← store p ms';
                call (CallPatch ms')
            end;
        match selector_AsMap env (mss_Selector (ms_Spec ms)) with
        | None => mret (inl scaleDownAmount)
        | Some labels =>
            calls ← gets s_calls;
            let c := CallListMachines (om_Namespace (ms_Meta ms)) labels in
            _ ← wrap_error "failed to list machines" (call c);
            let machines := api_machines env calls c in
            let updatedReplicaCount :=
              wrap32 (Z.of_nat (length machines)) -32 GetDeletingMachineCount machines in
            if updatedReplicaCount <? 0
            then throw (Errorf "negative updated replica count, this is unexpected")
            else
              let scaleDownAmount := scaleDownAmount -32 (replicas -32 updatedReplicaCount) in
              _ ← scaleMachineSet p updatedReplicaCount;
              mret (inl scaleDownAmount)
        end
  end.

(** The second loop, on one old MachineSet. *)
Definition onDelete_scaleDown (scaleDownAmount : Z) (p : ptr) : M State (Z + Z) :=
  if scaleDownAmount <=? 0 then mret (inr scaleDownAmount)
  else
    ms ← load p;
    match ms_Replicas ms with
    | None => mret (inl scaleDownAmount)
    | Some replicas =>
        if replicas <=? 0 then mret (inl scaleDownAmount)
        else
          let '(updatedReplicaCount, scaleDownAmount) :=
            if scaleDownAmount <=? replicas then (replicas -32 scaleDownAmount, 0)
            else (0, scaleDownAmount -32 replicas) in
          _ ← scaleMachineSet p updatedReplicaCount;
          mret (inl scaleDownAmount)
    end.

Definition reconcileOldMachineSetsOnDelete (oldMSs : list ptr) (allMSs : list (option ptr)) :
    M State unit :=
  md ← gets s_md;
  match md_Replicas md with
  | None => nil_replicas
  | Some replicas =>
      h ← gets s_heap;
      let totalReplicas := GetReplicaCountForMachineSets (view h allMSs) in
      scaleDownAmount ← foldM onDelete_adjust (totalReplicas -32 replicas) oldMSs;
      _ ← foldM onDelete_scaleDown scaleDownAmount oldMSs;
      mret tt
  end.

Definition reconcileNewMachineSetOnDelete (allMSs : list (option ptr)) (newMS : ptr) :
    M State unit :=
  ms ← load newMS;
  _ ← match ms_Annotations ms !! DisableMachineCreateAnnotation with
      | None => mret tt
      | Some _ =>
          _ ← call (CallNewHelper ms);
          let ms' := ms_set_Annotations
            (delete DisableMachineCreateAnnotation (ms_Annotations ms)) ms in
          _ ← store newMS ms';
          call (CallPatch ms')
      end;
  reconcileNewMachineSet allMSs newMS.

Definition rolloutOnDelete (msList : list ptr) (templateExists : bool) : M State unit :=
  '(newMS, oldMSs) ← getAllMachineSetsAndSyncRevision msList true templateExists;
  match newMS with
  | None => mret tt
  | Some newMS =>
      let allMSs := (Some <$> oldMSs) ++ [Some newMS] in
      _ ← reconcileNewMachineSetOnDelete allMSs newMS;
      _ ← syncDeploymentStatus allMSs (Some newMS);
      _ ← reconcileOldMachineSetsOnDelete oldMSs allMSs;
      _ ← syncDeploymentStatus allMSs (Some newMS);
      cleanup_if_complete oldMSs
  end.

(** The choice of the strategy at the end of [reconcile]. *)
Definition reconcile_strategy (machineSets : list ptr)
    (infrastructureTemplateExists bootstrapTemplateExists : bool) : M State unit :=
  md ← gets s_md;
  let templateExists := infrastructureTemplateExists
    && (bool_decide (b_ConfigRef (sp_Bootstrap (mt_Spec (md_Template md))) = None)
        || bootstrapTemplateExists) in
  if mds_Paused (md_Spec md) then sync machineSets templateExists
  else
    match mds_Strategy (md_Spec md) with
    | None => throw (Errorf "missing MachineDeployment strategy")
    | Some strategy =>
        if bool_decide (mdst_Type strategy = RollingUpdateMachineDeploymentStrategyType) then
          match mdst_RollingUpdate strategy with
          | None => throw (Errorf "missing MachineDeployment settings for strategy type")
          | Some _ => rolloutRolling machineSets templateExists
          end
        else if bool_decide (mdst_Type strategy = OnDeleteMachineDeploymentStrategyType)
        then rolloutOnDelete machineSets templateExists
        else throw (Errorf ("unexpected deployment strategy type: " +:+ mdst_Type strategy))
    end.

(** ** Adoption and deletion *)

Definition adoptOrphan (p : ptr) : M State unit :=
  ms ← load p;
  md ← gets s_md;
  let newRef := NewControllerRef (md_Meta md) "MachineDeployment" in
  let ms' := ms_set_Meta (meta_set_OwnerReferences
    (EnsureOwnerRef (om_OwnerReferences (ms_Meta ms)) newRef) (ms_Meta ms)) ms in
  _ ← store p ms';
  call (CallPatch ms').

(** Whether one MachineSet of the namespace is kept, adopting it if it is an orphan. *)
Definition adopt_one (p : ptr) : M State (option ptr) :=
  ms ← load p;
  md ← gets s_md;
  let sel := mds_Selector (md_Spec md) in
  match selector_Matches env sel with
  | None => mret None
  | Some matches =>
      if selector_Empty env sel then mret None
      else if negb (matches (om_Labels (ms_Meta ms)))
              && negb (metav1_IsControlledBy (ms_Meta ms) (md_Meta md))
      then mret None
      else
        adopted ← match GetControllerOf (ms_Meta ms) with
                  | None => try_err (adoptOrphan p)
                  | Some _ => mret None
                  end;
        match adopted with
        | Some _ => mret None
        | None =>
            ms' ← load p;
            if negb (metav1_IsControlledBy (ms_Meta ms') (md_Meta md))
            then mret None else mret (Some p)
        end
  end.

Fixpoint adopt_all (l : list ptr) : M State (list ptr) :=
  match l with
  | [] => mret []
  | p :: l =>
      kept ← adopt_one p;
      rest ← adopt_all l;
      mret (option_list kept ++ rest)
  end.

Fixpoint alloc_all (l : list MachineSet) : M State (list ptr) :=
  match l with
  | [] => mret []
  | ms :: l => p ← alloc ms; ps ← alloc_all l; mret (p :: ps)
  end.

Definition getAndAdoptMachineSetsForDeployment : M State (list ptr) :=
  md ← gets s_md;
  calls ← gets s_calls;
  let c := CallListMachineSets (om_Namespace (md_Meta md)) in
  _ ← call c;
  items ← alloc_all (api_machineSets env calls c);
  adopt_all items.

Definition MachineDeploymentFinalizer : string := "cluster.x-k8s.io/machinedeployment".

Definition md_remove_finalizer (md : MachineDeployment) : MachineDeployment :=
  let m := md_Meta md in
  md_set_Meta
    {| om_Name := om_Name m; om_Namespace := om_Namespace m; om_UID := om_UID m;
       om_Generation := om_Generation m; om_CreationTimestamp := om_CreationTimestamp m;
       om_DeletionTimestamp := om_DeletionTimestamp m; om_Labels := om_Labels m;
       om_Annotations := om_Annotations m; om_OwnerReferences := om_OwnerReferences m;
       om_Finalizers := remove_finalizer env (om_Finalizers m) MachineDeploymentFinalizer |} md.

Definition reconcileDelete : M State unit :=
  machineSets ← getAndAdoptMachineSetsForDeployment;
  match machineSets with
  | [] => md ← gets s_md; set_md (md_remove_finalizer md)
  | _ =>
      forM machineSets (λ p,
        ms ← load p;
        if IsZero (om_DeletionTimestamp (ms_Meta ms))
        then wrap_error "failed to delete MachineSet" (delete_ms ms) else mret tt)
  end.
End controller.
