(* ===== verification/MachineDeploymentSpec.v ===== *)
(** * Correctness of the MachineDeployment controller

    The theorems about the definitions of MachineDeployment.v.  Specification replicas and
    available replicas are read through the heap ([reps], [avail]); [frame] says what scaling
    never changes.  The loops that scale old MachineSets down are instances of one bounded
    loop, [scaling_loop]. *)

From S2P Require Import Prelude GoStd Api Apimachinery Util Conditions MdUtil.
From S2P Require Import MachineDeployment.

(** ** Reading the heap *)

Definition reps (h : gmap ptr MachineSet) (p : ptr) : Z := default 0 (ms_Replicas (heap_get h p)).
Definition avail (h : gmap ptr MachineSet) (p : ptr) : Z :=
  mst_AvailableReplicas (ms_Status (heap_get h p)).

(** What scaling keeps of a MachineSet: its status, its identity, its age, and that its
    replicas are set. *)
Definition kept (ms ms' : MachineSet) : Prop :=
  ms_Status ms' = ms_Status ms ∧ ms_Name ms' = ms_Name ms ∧
  om_UID (ms_Meta ms') = om_UID (ms_Meta ms) ∧
  ms_CreationTimestamp ms' = ms_CreationTimestamp ms ∧
  om_DeletionTimestamp (ms_Meta ms') = om_DeletionTimestamp (ms_Meta ms) ∧
  (is_Some (ms_Replicas ms) → is_Some (ms_Replicas ms')).

Definition frame (h h' : gmap ptr MachineSet) : Prop :=
  ∀ p, kept (heap_get h p) (heap_get h' p).

#[global] Instance kept_PreOrder : PreOrder kept.
Proof.
  split; [by intros ms|]. intros a b c (?&?&?&?&?&?) (?&?&?&?&?&?).
  unfold kept. split_and!; try congruence. auto.
Qed.

#[global] Instance frame_PreOrder : PreOrder frame.
Proof. split; [by intros h p|]. intros a b c Hab Hbc p. by transitivity (heap_get b p). Qed.

Lemma frame_avail h h' p : frame h h' → avail h' p = avail h p.
Proof. intros Hf. destruct (Hf p) as (E & _). unfold avail. by rewrite E. Qed.

Lemma frame_is_Some h h' p :
  frame h h' → is_Some (ms_Replicas (heap_get h p)) → is_Some (ms_Replicas (heap_get h' p)).
Proof. intros Hf. by destruct (Hf p) as (_ & _ & _ & _ & _ & Hs). Qed.

Lemma heap_get_insert h p ms : heap_get (<[p := ms]> h) p = ms.
Proof. apply lookup_total_insert_eq. Qed.

Lemma heap_get_insert_ne h p q ms : p ≠ q → heap_get (<[p := ms]> h) q = heap_get h q.
Proof. apply lookup_total_insert_ne. Qed.

(** ** Scaling one MachineSet *)

Section scaling.
Context `{Apimachinery} `{GoSort} (env : Env).
Implicit Types (s : State) (p q : ptr).

(** The deployment can be read without a panic. *)
Definition readable (md : MachineDeployment) : Prop :=
  is_Some (md_Replicas md) ∧ ∃ surge, MaxSurge md = Ok surge.

Lemma wf_readable md n : wf_deployment md n → readable md.
Proof.
  intros Hwf. destruct (limits_wf md n Hwf) as (surge & _ & Hs & _).
  destruct Hwf as [Hn _ _]. split; eauto.
Qed.

(** The outcome of scaling [p] to [k]: whatever the environment answers nothing but the size
    and annotations of [p] changes, its size is the old or the new one, and it is the new one
    when no error is returned. *)
Lemma scaleMachineSet_outcome p k s r s' :
  readable (s_md s) → is_Some (ms_Replicas (heap_get (s_heap s) p)) →
  scaleMachineSet env p k s = (r, s') →
  s_md s' = s_md s ∧ frame (s_heap s) (s_heap s') ∧ r ≠ Panic ∧
  (∀ q, q ≠ p → heap_get (s_heap s') q = heap_get (s_heap s) q) ∧
  (reps (s_heap s') p = reps (s_heap s) p ∨ reps (s_heap s') p = k) ∧
  (r = Ok tt → reps (s_heap s') p = k).
Proof.
  intros [[n Hn] [surge Hsurge]] [m Hm].
  unfold scaleMachineSet, load, gets, mbind, M_bind. rewrite Hm, Hn. unfold lift. rewrite Hsurge.
  destruct (Z.eqb_spec m k) as [->|Hk]; simpl;
    [destruct (negb _); [intros [= <- <-]|]|].
  { split_and!; try done; unfold reps; rewrite Hm; auto. }
  all: unfold call; destruct (api_error env (s_calls s) _);
    [intros [= <- <-]; split_and!; try done; auto|].
  all: unfold store, modify, M_bind; cbn [s_heap s_md s_calls];
    set (ms' := (SetReplicasAnnotations _ n _).1);
    destruct (SetReplicasAnnotations_lookup (ms_set_Replicas k (heap_get (s_heap s) p)) n
      (n +32 surge)) as (_ & _ & _ & Esp & Est); fold ms' in Esp, Est;
    assert (ms_Replicas ms' = Some k) as Ek by (unfold ms_Replicas; by rewrite Esp);
    assert (kept (heap_get (s_heap s) p) ms') as Hkept;
    [unfold kept; rewrite Ek, Est; unfold ms', SetReplicasAnnotations;
     repeat case_bool_decide; done|].
  all: assert (∀ h, h = <[p := ms']> (s_heap s) →
    frame (s_heap s) h ∧ (∀ q, q ≠ p → heap_get h q = heap_get (s_heap s) q) ∧ reps h p = k)
    as Hh; [intros h ->; split_and!;
      [intros q; destruct (decide (p = q)) as [<-|Hpq];
        [by rewrite heap_get_insert|by rewrite heap_get_insert_ne]
      |intros q Hq; by rewrite heap_get_insert_ne
      |unfold reps; by rewrite heap_get_insert, Ek]|].
  all: destruct (Hh _ eq_refl) as (? & ? & ?); clearbody ms';
    destruct (api_error env _ _); intros [= <- <-]; simpl; split_and!; auto; done.
Qed.

(** ** The bounded scale-down loop *)

(** A MachineSet whose status is consistent with its spec: replicas set, and at most as many
    replicas available. *)
Definition good (h : gmap ptr MachineSet) p : Prop :=
  is_Some (ms_Replicas (heap_get h p)) ∧ 0 ≤ avail h p ≤ reps h p ∧ reps h p ≤ int32_max.

Lemma good_stable h h' p : frame h h' → reps h' p = reps h p → good h p → good h' p.
Proof.
  intros Hf E (Hs & Ha & Hr). unfold good. rewrite E, (frame_avail h h' p Hf).
  split_and!; [by apply (frame_is_Some h)|lia..].
Qed.

(** One iteration scales [p] down by some [d], at most to [floor p] and by no more than the
    rest of the budget [limit]; if it neither fails nor uses the budget up, it reaches the
    floor. *)
Definition step_spec (limit : Z) (floor : gmap ptr MachineSet → ptr → Z)
    (step : Z → ptr → M State (Z + Z)) : Prop :=
  ∀ total p s r s',
    0 ≤ total ≤ limit → readable (s_md s) → good (s_heap s) p →
    step total p s = (r, s') →
    s_md s' = s_md s ∧ frame (s_heap s) (s_heap s') ∧ r ≠ Panic ∧
    (∀ q, q ≠ p → heap_get (s_heap s') q = heap_get (s_heap s) q) ∧
    ∃ d, 0 ≤ d ∧ total + d ≤ limit ∧ reps (s_heap s') p = reps (s_heap s) p - d ∧
      floor (s_heap s) p ≤ reps (s_heap s') p ∧
      (∀ t, r = Ok (inl t) → t = total + d ∧
        (t = limit ∨ reps (s_heap s') p = floor (s_heap s) p)) ∧
      (∀ t, r = Ok (inr t) → t = total + d ∧ t = limit).

Lemma scaling_loop limit floor step :
  step_spec limit floor step →
  (∀ h h' p, frame h h' → floor h' p = floor h p) →
  (∀ h p, good h p → floor h p ≤ reps h p) →
  ∀ l total s r s',
    NoDup l → 0 ≤ total ≤ limit → readable (s_md s) → (∀ p, p ∈ l → good (s_heap s) p) →
    foldM step total l s = (r, s') →
    s_md s' = s_md s ∧ frame (s_heap s) (s_heap s') ∧ r ≠ Panic ∧
    (∀ q, q ∉ l → heap_get (s_heap s') q = heap_get (s_heap s) q) ∧
    (∀ q, q ∈ l → floor (s_heap s) q ≤ reps (s_heap s') q ≤ reps (s_heap s) q) ∧
    ∃ d, 0 ≤ d ∧ total + d ≤ limit ∧
      sumZ (reps (s_heap s')) l = sumZ (reps (s_heap s)) l - d ∧
      (∀ t, r = Ok t → t = total + d ∧
        (t = limit ∨ ∀ q, q ∈ l → reps (s_heap s') q = floor (s_heap s) q)).
Proof.
  intros Hstep Hfl Hfg. induction l as [|p l IH]; intros total s r s' Hnd Ht Hmd Hgood; simpl.
  { intros [= <- <-]. split_and!; try done; [set_solver|].
    exists 0. split_and!; try lia. intros t [= <-]. split; [lia|right; set_solver]. }
  apply NoDup_cons in Hnd as [Hp Hnd]. unfold mbind, M_bind.
  destruct (step total p s) as [r1 s1] eqn:E1.
  destruct (Hstep total p s r1 s1 Ht Hmd (Hgood p (list_elem_of_here _ _)) E1)
    as (Emd & Hf & Hnp & Hoth & d & Hd & Hlim & Hrep & Hfloor & Hinl & Hinr).
  assert (∀ q, q ∈ l → reps (s_heap s1) q = reps (s_heap s) q) as Hrest.
  { intros q Hq. unfold reps. rewrite Hoth; [done|]. by intros ->. }
  assert (sumZ (reps (s_heap s1)) l = sumZ (reps (s_heap s)) l) as Esum
    by by apply sumZ_ext.
  assert (∀ q, q ∈ l → floor (s_heap s) q ≤ reps (s_heap s) q) as Hlow
    by (intros q Hq; by apply Hfg, Hgood, list_elem_of_further).
  (* the loop ends here, with the effect of one step *)
  assert (∀ res, (∀ t, res = Ok t → t = total + d ∧ t = limit) → res ≠ Panic →
    (res, s1) = (r, s') →
    s_md s' = s_md s ∧ frame (s_heap s) (s_heap s') ∧ r ≠ Panic ∧
    (∀ q, q ∉ p :: l → heap_get (s_heap s') q = heap_get (s_heap s) q) ∧
    (∀ q, q ∈ p :: l → floor (s_heap s) q ≤ reps (s_heap s') q ≤ reps (s_heap s) q) ∧
    ∃ d, 0 ≤ d ∧ total + d ≤ limit ∧
      reps (s_heap s') p + sumZ (reps (s_heap s')) l
        = reps (s_heap s) p + sumZ (reps (s_heap s)) l - d ∧
      (∀ t, r = Ok t → t = total + d ∧
        (t = limit ∨ ∀ q, q ∈ p :: l → reps (s_heap s') q = floor (s_heap s) q))) as Hstop.
  { intros res Hres Hpan [= <- <-]. split_and!; try done.
    - intros q [Hq _]%not_elem_of_cons. by apply Hoth.
    - intros q [->|Hq]%elem_of_cons; [lia|]. rewrite Hrest by done. specialize (Hlow q Hq). lia.
    - exists d. split_and!; try lia. intros t Et. destruct (Hres t Et). auto. }
  destruct r1 as [[t1|t1]|e|]; [| |by apply Hstop|done].
  2:{ destruct (Hinr t1 eq_refl). apply Hstop; [|done]. intros t [= <-]. done. }
  destruct (Hinl t1 eq_refl) as [Et1 Hend]. clear Hstop. intros Hfold.
  destruct (IH t1 s1 r s') as (Emd' & Hf' & Hnp' & Hoth' & Hb' & d' & Hd' & Hlim' & Hsum' & Hok');
    [done|lia|by rewrite Emd|intros q Hq; eapply good_stable; eauto; by apply Hgood, list_elem_of_further|done|].
  assert (reps (s_heap s') p = reps (s_heap s1) p) as Ep by (unfold reps; by rewrite Hoth').
  split_and!; [congruence|by transitivity (s_heap s1)|done| | |].
  - intros q [Hq1 Hq2]%not_elem_of_cons. rewrite Hoth', Hoth; done.
  - intros q [->|Hq]%elem_of_cons; [lia|].
    specialize (Hb' q Hq). rewrite (Hfl _ _ q Hf), Hrest in Hb' by done. lia.
  - exists (d + d'). split_and!; try lia. intros t Et.
    destruct (Hok' t Et) as [-> [Hl|Hall]]; (split; [lia|]); [by left|].
    destruct Hend as [Hl|Hpf]; [left; lia|right].
    intros q [->|Hq]%elem_of_cons; [congruence|]. by rewrite Hall, (Hfl _ _ q Hf).
Qed.

(** ** The two scale-down steps *)

(** Scaling [p] from [m] down by [d] is one step. *)
Lemma scaled_step p s m d total limit floor (r : result unit) s1 :
  readable (s_md s) → ms_Replicas (heap_get (s_heap s) p) = Some m →
  scaleMachineSet env p (m - d) s = (r, s1) →
  0 ≤ d → total + d ≤ limit → floor ≤ m - d →
  (total + d = limit ∨ m - d = floor) →
  ∀ res s',
    match r with Ok _ => (Ok (inl (total + d) : Z + Z), s1) | Err e => (Err e, s1)
               | Panic => (Panic, s1) end = (res, s') →
    s_md s' = s_md s ∧ frame (s_heap s) (s_heap s') ∧ res ≠ Panic ∧
    (∀ q, q ≠ p → heap_get (s_heap s') q = heap_get (s_heap s) q) ∧
    ∃ d, 0 ≤ d ∧ total + d ≤ limit ∧ reps (s_heap s') p = reps (s_heap s) p - d ∧
      floor ≤ reps (s_heap s') p ∧
      (∀ t, res = Ok (inl t) → t = total + d ∧ (t = limit ∨ reps (s_heap s') p = floor)) ∧
      (∀ t, res = Ok (inr t) → t = total + d ∧ t = limit).
Proof.
  intros Hmd Hm E Hd Hlim Hfl Hend res s'.
  destruct (scaleMachineSet_outcome p (m - d) s r s1 Hmd ltac:(eauto) E)
    as (Emd & Hf & Hnp & Hoth & Hor & Hok).
  assert (reps (s_heap s) p = m) as Er by (unfold reps; by rewrite Hm).
  destruct r as [[]|e|]; intros [= <- <-]; [| |done]; split_and!; try done.
  - rewrite (Hok eq_refl), Er. exists d. split_and!; try lia; [|done].
    intros t [= <-]. auto.
  - destruct Hor as [Hor|Hor]; rewrite Hor, Er; [exists 0|exists d]; split_and!; try done; lia.
Qed.

(** An iteration that leaves everything alone. *)
Lemma idle_step p s total limit floor (res : result (Z + Z)) :
  0 ≤ total ≤ limit → floor ≤ reps (s_heap s) p →
  (res = Ok (inl total) ∧ reps (s_heap s) p = floor ∨ res = Ok (inr total) ∧ total = limit) →
  s_md s = s_md s ∧ frame (s_heap s) (s_heap s) ∧ res ≠ Panic ∧
  (∀ q, q ≠ p → heap_get (s_heap s) q = heap_get (s_heap s) q) ∧
  ∃ d, 0 ≤ d ∧ total + d ≤ limit ∧ reps (s_heap s) p = reps (s_heap s) p - d ∧
    floor ≤ reps (s_heap s) p ∧
    (∀ t, res = Ok (inl t) → t = total + d ∧ (t = limit ∨ reps (s_heap s) p = floor)) ∧
    (∀ t, res = Ok (inr t) → t = total + d ∧ t = limit).
Proof.
  intros Ht Hfl Hres. split_and!; try done; [by destruct Hres as [[-> _]|[-> _]]|].
  exists 0. split_and!; try lia; intros t Et; destruct Hres as [[-> Hr]|[-> Hr]];
    simplify_eq; split_and?; auto; lia.
Qed.

Lemma cleanup_step_spec limit :
  limit ≤ int32_max → step_spec limit avail (cleanup_step env limit).
Proof.
  intros Hlim total p s r s' Ht Hmd ([m Hm] & Ha & Hr) E.
  assert (reps (s_heap s) p = m) as Er by (unfold reps; by rewrite Hm).
  revert E. unfold cleanup_step, load, gets, mbind, M_bind. rewrite Hm.
  fold (avail (s_heap s) p). unfold int32_max in *.
  destruct (Z.leb_spec limit total).
  { intros [= <- <-]. apply idle_step; [done|lia|right; split; [done|lia]]. }
  destruct (Z.eqb_spec m 0); [intros [= <- <-]; apply idle_step; [done|lia|left; split; [done|lia]]|].
  destruct (Z.eqb_spec m (avail (s_heap s) p));
    [intros [= <- <-]; apply idle_step; [done|lia|left; split; [done|lia]]|].
  unwrap32. set (d := Z.min (limit - total) (m - avail (s_heap s) p)).
  assert (0 ≤ d ≤ limit - total ∧ d ≤ m - avail (s_heap s) p) as Hd by lia.
  unwrap32. destruct (Z.ltb_spec m (m - d)); [lia|].
  destruct (scaleMachineSet env p (m - d) s) as [r1 s1] eqn:E1.
  intros Hres. eapply (scaled_step p s m d total limit); eauto; lia.
Qed.

Lemma scaleDown_step_spec limit :
  limit ≤ int32_max → step_spec limit (λ _ _, 0) (scaleDown_step env limit).
Proof.
  intros Hlim total p s r s' Ht Hmd ([m Hm] & Ha & Hr) E.
  assert (reps (s_heap s) p = m) as Er by (unfold reps; by rewrite Hm).
  revert E. unfold scaleDown_step, load, gets, mbind, M_bind. rewrite Hm.
  unfold int32_max in *.
  destruct (Z.leb_spec limit total).
  { intros [= <- <-]. apply idle_step; [done|lia|right; split; [done|lia]]. }
  destruct (Z.eqb_spec m 0); [intros [= <- <-]; apply idle_step; [done|lia|left; split; [done|lia]]|].
  unwrap32. set (d := Z.min m (limit - total)).
  assert (0 ≤ d ≤ limit - total ∧ d ≤ m) as Hd by lia.
  unwrap32. destruct (Z.ltb_spec m (m - d)); [lia|].
  destruct (scaleMachineSet env p (m - d) s) as [r1 s1] eqn:E1.
  intros Hres. eapply (scaled_step p s m d total limit); eauto; lia.
Qed.

(** ** Old MachineSets in a rolling update *)

Lemma sumZ_view_spec h (l : list ptr) :
  sumZ spec_replicas (view h (Some <$> l)) = sumZ (reps h) l.
Proof. unfold view. by rewrite !sumZ_fmap. Qed.

Lemma sumZ_view_avail h (l : list ptr) :
  sumZ available_replicas (view h (Some <$> l)) = sumZ (avail h) l.
Proof. unfold view. by rewrite !sumZ_fmap. Qed.

Lemma view_snoc (l : list ptr) (p : ptr) : (Some <$> l) ++ [Some p] = Some <$> (l ++ [p]).
Proof. by rewrite fmap_app. Qed.

Lemma cleanupUnhealthyReplicas_outcome l limit s r s' :
  NoDup l → 0 ≤ limit ≤ int32_max → readable (s_md s) → (∀ p, p ∈ l → good (s_heap s) p) →
  cleanupUnhealthyReplicas env l limit s = (r, s') →
  s_md s' = s_md s ∧ frame (s_heap s) (s_heap s') ∧ r ≠ Panic ∧
  (∀ q, q ∉ l → heap_get (s_heap s') q = heap_get (s_heap s) q) ∧
  (∀ q, q ∈ l → avail (s_heap s) q ≤ reps (s_heap s') q ≤ reps (s_heap s) q) ∧
  ∃ d, 0 ≤ d ≤ limit ∧ sumZ (reps (s_heap s')) l = sumZ (reps (s_heap s)) l - d ∧
    ∀ l' t, r = Ok (l', t) → l' ≡ₚ l ∧ t = d ∧
      (t = limit ∨ ∀ q, q ∈ l → reps (s_heap s') q = avail (s_heap s) q).
Proof.
  intros Hnd Hlim Hmd Hgood. unfold cleanupUnhealthyReplicas, gets, mbind, M_bind.
  set (l0 := go_sort (by_creation (s_heap s)) l).
  assert (l0 ≡ₚ l) as Hp by apply go_sort_perm. clearbody l0.
  destruct (foldM (cleanup_step env limit) 0 l0 s) as [r0 s0] eqn:E.
  apply (scaling_loop limit avail _ (cleanup_step_spec limit (proj2 Hlim))) in E
    as (Emd & Hf & Hnp & Hoth & Hb & d & Hd & Hdl & Hsum & Hok);
    [|intros; by apply frame_avail|intros h p (_ & ? & _); lia|by rewrite Hp|lia|done
     |intros p; rewrite Hp; apply Hgood].
  setoid_rewrite Hp in Hoth. setoid_rewrite Hp in Hb. rewrite !(sumZ_perm _ _ _ Hp) in Hsum.
  setoid_rewrite Hp in Hok.
  destruct r0 as [t0|e|]; intros [= <- <-]; split_and!; try done;
    exists d; split_and!; try done; try lia.
  intros l' t [= <- <-]. destruct (Hok t0 eq_refl) as [-> Hend].
  split_and!; [done|lia|]. destruct Hend; [left; lia|by right].
Qed.

Lemma scaleDownOld_outcome l newMS n u s r s' :
  wf_deployment (s_md s) n → MaxUnavailable (s_md s) = Ok u →
  NoDup l → newMS ∉ l → (∀ p, p ∈ l ++ [newMS] → good (s_heap s) p) →
  sumZ (avail (s_heap s)) (l ++ [newMS]) ≤ int32_max →
  scaleDownOldMachineSetsForRollingUpdate env ((Some <$> l) ++ [Some newMS]) l s = (r, s') →
  s_md s' = s_md s ∧ frame (s_heap s) (s_heap s') ∧ r ≠ Panic ∧
  (∀ q, q ∉ l → heap_get (s_heap s') q = heap_get (s_heap s) q) ∧
  (∀ q, q ∈ l → 0 ≤ reps (s_heap s') q ≤ reps (s_heap s) q) ∧
  let budget := Z.max 0 (sumZ (avail (s_heap s)) (l ++ [newMS]) - (n - u)) in
  ∃ d, 0 ≤ d ≤ budget ∧ sumZ (reps (s_heap s')) l = sumZ (reps (s_heap s)) l - d ∧
    ∀ t, r = Ok t → t = d ∧ (t = budget ∨ ∀ q, q ∈ l → reps (s_heap s') q = 0).
Proof.
  intros Hwf Hu Hnd Hnew Hgood Hmax.
  destruct (limits_wf _ _ Hwf) as (surge & u' & _ & Hu' & _ & Hub & _).
  assert (u' = u) as -> by congruence. pose proof (wf_readable _ _ Hwf) as Hread.
  destruct Hwf as [Hn Hr _].
  assert (0 ≤ sumZ (avail (s_heap s)) (l ++ [newMS])) as Hpos
    by (apply sumZ_nonneg; intros p Hp; destruct (Hgood p Hp) as (_ & ? & _); lia).
  assert (∀ q, q ∈ l → 0 ≤ reps (s_heap s) q) as Hrpos.
  { intros q Hq. destruct (Hgood q) as (_ & ? & _); [set_solver|]. lia. }
  unfold scaleDownOldMachineSetsForRollingUpdate, gets, lift, mbind, M_bind. rewrite Hn, Hu.
  rewrite view_snoc, GetAvailableReplicaCount_sum, sumZ_view_avail.
  unfold int32_max in *. unwrap32.
  destruct (Z.leb_spec (sumZ (avail (s_heap s)) (l ++ [newMS])) (n - u)).
  { intros [= <- <-]. split_and!; try done; [intros q Hq; specialize (Hrpos q Hq); lia|].
    exists 0. split_and!; try lia. intros t [= <-]. split; [done|left; lia]. }
  unwrap32. set (T := sumZ (avail (s_heap s)) (l ++ [newMS]) - (n - u)).
  set (l0 := go_sort (by_creation (s_heap s)) l).
  assert (l0 ≡ₚ l) as Hp by apply go_sort_perm. clearbody l0. intros E.
  apply (scaling_loop T (λ _ _, 0) _ (scaleDown_step_spec T ltac:(unfold T, int32_max; lia))) in E
    as (Emd & Hf & Hnp & Hoth & Hb & d & Hd & Hdl & Hsum & Hok);
    [|done|intros h p (_ & ? & _); lia|by rewrite Hp|lia|done
     |intros p; rewrite Hp; intros; apply Hgood; set_solver].
  setoid_rewrite Hp in Hoth. setoid_rewrite Hp in Hb. rewrite !(sumZ_perm _ _ _ Hp) in Hsum.
  setoid_rewrite Hp in Hok.
  split_and!; try done. exists d. split_and!; try lia. intros t Et.
  destruct (Hok t Et) as [-> Hend]. split; [lia|]. destruct Hend; [left; lia|by right].
Qed.

(** The replicas that may remain available at the sizes of [h']. *)
Definition surviving (h h' : gmap ptr MachineSet) (l : list ptr) : Z :=
  sumZ (λ p, Z.min (avail h p) (reps h' p)) l.

Lemma surviving_all h h' l :
  (∀ p, p ∈ l → avail h p ≤ reps h' p) → surviving h h' l = sumZ (avail h) l.
Proof. intros Hl. apply sumZ_ext. intros p Hp. specialize (Hl p Hp). lia. Qed.

(** Removing [d] replicas costs at most [d] available ones. *)
Lemma surviving_loss h h1 h2 l :
  (∀ p, p ∈ l → avail h p ≤ reps h1 p) →
  (∀ p, p ∈ l → reps h2 p ≤ reps h1 p) →
  sumZ (avail h) l - (sumZ (reps h1) l - sumZ (reps h2) l) ≤ surviving h h2 l.
Proof.
  unfold surviving. induction l as [|p l IH]; simpl; [lia|]. intros H1 H2.
  specialize (IH ltac:(set_solver) ltac:(set_solver)).
  pose proof (H1 p ltac:(set_solver)). pose proof (H2 p ltac:(set_solver)). lia.
Qed.

(** What is known of the sizes after the clean-up: nothing available was removed. *)
Definition only_unhealthy_removed (h h1 : gmap ptr MachineSet) (l : list ptr) : Prop :=
  frame h h1 ∧ ∀ p, p ∈ l → good h p ∧ avail h p ≤ reps h1 p ≤ reps h p.

Lemma only_unhealthy_good h h1 l p :
  only_unhealthy_removed h h1 l → p ∈ l → good h1 p.
Proof.
  intros [Hf Hl] Hp. destruct (Hl p Hp) as [(Hs & Ha & Hr) Hb]. unfold good.
  rewrite (frame_avail h h1 p Hf). split_and!; [by apply (frame_is_Some h)|lia..].
Qed.

(** What reconciling old MachineSets guarantees: no panic, only old MachineSets are touched
    and they only shrink, and as many available replicas survive as the rollout must keep, or
    all of them if there are fewer. *)
Definition old_outcome (l : list ptr) (newMS : ptr) (minAvailable : Z) s
    (r : result unit) s' : Prop :=
  r ≠ Panic ∧ s_md s' = s_md s ∧ frame (s_heap s) (s_heap s') ∧
  (∀ q, q ∉ l → heap_get (s_heap s') q = heap_get (s_heap s) q) ∧
  (∀ q, q ∈ l → 0 ≤ reps (s_heap s') q ≤ reps (s_heap s) q) ∧
  Z.min minAvailable (sumZ (avail (s_heap s)) (l ++ [newMS]))
    ≤ surviving (s_heap s) (s_heap s') (l ++ [newMS]).

(** It holds as long as only unhealthy replicas were removed. *)
Lemma old_outcome_unhealthy l newMS minAvailable s (r : result unit) s' :
  r ≠ Panic → s_md s' = s_md s →
  (∀ q, q ∉ l → heap_get (s_heap s') q = heap_get (s_heap s) q) →
  only_unhealthy_removed (s_heap s) (s_heap s') (l ++ [newMS]) →
  old_outcome l newMS minAvailable s r s'.
Proof.
  intros Hr Emd Hoth [Hf Hrem]. split_and!; try done.
  - intros q Hq. destruct (Hrem q ltac:(set_solver)) as [(_ & ? & _) ?]. lia.
  - rewrite surviving_all by (intros p Hp; by apply Hrem). lia.
Qed.

(** Scaling down after the clean-up keeps the minimum available. *)
Lemma old_outcome_scaleDown l l1 newMS n u s s1 r s' :
  wf_deployment (s_md s) n → MaxUnavailable (s_md s) = Ok u → s_md s1 = s_md s →
  NoDup l → l1 ≡ₚ l → newMS ∉ l →
  (∀ q, q ∉ l → heap_get (s_heap s1) q = heap_get (s_heap s) q) →
  only_unhealthy_removed (s_heap s) (s_heap s1) (l ++ [newMS]) →
  sumZ (reps (s_heap s)) (l ++ [newMS]) ≤ int32_max →
  scaleDownOldMachineSetsForRollingUpdate env ((Some <$> l1) ++ [Some newMS]) l1 s1 = (r, s') →
  old_outcome l newMS (n - u) s (_ ← r; mret tt) s'.
Proof.
  intros Hwf Hu Emd Hnd Hp Hnew Hoth1 Hrem Hmax E.
  assert (l1 ++ [newMS] ≡ₚ l ++ [newMS]) as Hp' by by rewrite Hp.
  assert (sumZ (avail (s_heap s1)) (l ++ [newMS]) = sumZ (avail (s_heap s)) (l ++ [newMS])) as Ea
    by (apply sumZ_ext; intros p _; apply frame_avail, Hrem).
  assert (sumZ (avail (s_heap s)) (l ++ [newMS]) ≤ sumZ (reps (s_heap s)) (l ++ [newMS])) as Hle.
  { apply sumZ_le. intros p Hin. destruct (proj2 Hrem p Hin). lia. }
  apply (scaleDownOld_outcome l1 newMS n u) in E
    as (Emd' & Hf & Hnp & Hoth & Hb & d & Hd & Hsum & _);
    [|by rewrite Emd..|by rewrite Hp|by rewrite Hp
     |intros p; rewrite Hp'; by apply (only_unhealthy_good (s_heap s))
     |rewrite (sumZ_perm _ _ _ Hp'); lia].
  rewrite !(sumZ_perm _ _ _ Hp) in Hsum. rewrite (sumZ_perm _ _ _ Hp') in Hd.
  setoid_rewrite Hp in Hb. setoid_rewrite Hp in Hoth.
  assert (reps (s_heap s') newMS = reps (s_heap s1) newMS) as En
    by (unfold reps; by rewrite Hoth).
  split_and!.
  - by destruct r.
  - congruence.
  - transitivity (s_heap s1); [apply Hrem|done].
  - intros q Hq. by rewrite Hoth, Hoth1.
  - intros q Hq. specialize (Hb q Hq). destruct (proj2 Hrem q); [set_solver|]. lia.
  - etransitivity; [|apply (surviving_loss (s_heap s) (s_heap s1))].
    + rewrite !sumZ_app in *. simpl in *. lia.
    + intros p Hin. by apply (proj2 Hrem).
    + intros p [Hin| ->%list_elem_of_singleton]%elem_of_app; [by apply Hb|lia].
Qed.

Lemma reconcileOldMachineSets_outcome l newMS n u s r s' :
  wf_deployment (s_md s) n → MaxUnavailable (s_md s) = Ok u →
  NoDup l → newMS ∉ l → (∀ p, p ∈ l ++ [newMS] → good (s_heap s) p) →
  sumZ (reps (s_heap s)) (l ++ [newMS]) ≤ int32_max →
  reconcileOldMachineSets env ((Some <$> l) ++ [Some newMS]) l newMS s = (r, s') →
  old_outcome l newMS (n - u) s r s'.
Proof.
  intros Hwf Hu Hnd Hnew Hgood Hmax.
  destruct (limits_wf _ _ Hwf) as (surge & u' & _ & Hu' & _ & Hub & _).
  assert (u' = u) as -> by congruence.
  assert (md_Replicas (s_md s) = Some n ∧ 0 ≤ n ≤ int32_max) as [Hn Hr] by by destruct Hwf.
  assert (∀ p, p ∈ l ++ [newMS] → 0 ≤ avail (s_heap s) p ≤ reps (s_heap s) p) as Hav
    by (intros p Hp; by destruct (Hgood p Hp) as (_ & ? & _)).
  destruct (Hgood newMS) as ([m Hm] & Ham & Hrm); [set_solver|].
  assert (reps (s_heap s) newMS = m) as Em by (unfold reps; by rewrite Hm).
  assert (0 ≤ sumZ (reps (s_heap s)) l) as Hlpos
    by (apply sumZ_nonneg; intros p Hp; specialize (Hav p ltac:(set_solver)); lia).
  assert (sumZ (reps (s_heap s)) (l ++ [newMS]) = sumZ (reps (s_heap s)) l + m) as Esum
    by (rewrite sumZ_app; simpl; lia).
  assert (old_outcome l newMS (n - u) s (Ok tt) s) as Hidle.
  { apply old_outcome_unhealthy; try done. split; [done|]. intros p Hp.
    split; [by apply Hgood|specialize (Hav p Hp); lia]. }
  unfold reconcileOldMachineSets, load, gets, lift, mbind, M_bind. rewrite Hn, Hm, Hu.
  rewrite view_snoc, !GetReplicaCount_sum, !sumZ_view_spec.
  fold (avail (s_heap s) newMS). unfold int32_max in *. unwrap32.
  destruct (Z.eqb_spec (sumZ (reps (s_heap s)) l) 0); [by intros [= <- <-]|].
  destruct (Z.leb_spec (sumZ (reps (s_heap s)) (l ++ [newMS]) - (n - u)
    - (m - avail (s_heap s) newMS)) 0); [by intros [= <- <-]|].
  destruct (cleanupUnhealthyReplicas env l _ s) as [r1 s1] eqn:E1.
  apply cleanupUnhealthyReplicas_outcome in E1
    as (Emd1 & Hf1 & Hnp1 & Hoth1 & Hb1 & d1 & _ & _ & Hok1);
    [|done|unfold int32_max; lia|by apply (wf_readable _ n)|intros; apply Hgood; set_solver].
  assert (only_unhealthy_removed (s_heap s) (s_heap s1) (l ++ [newMS])) as Hrem.
  { split; [done|]. intros p Hp. split; [by apply Hgood|].
    apply elem_of_app in Hp as [Hp| ->%list_elem_of_singleton]; [by apply Hb1|].
    unfold reps. rewrite (Hoth1 _ Hnew), Hm. simpl. lia. }
  destruct r1 as [[l1 t1]|e|]; [|by intros [= <- <-]; apply old_outcome_unhealthy|done].
  destruct (Hok1 l1 t1 eq_refl) as (Hp1 & _ & _).
  destruct (scaleDownOldMachineSetsForRollingUpdate env _ l1 s1) as [r2 s2] eqn:E2.
  apply (old_outcome_scaleDown l l1 newMS n u s) in E2; try done.
  destruct r2; by intros [= <- <-].
Qed.

(** ** The new MachineSet *)

(** The machines of a MachineSet for the surge limit: those it wants or still has. *)
Definition machines (h : gmap ptr MachineSet) (p : ptr) : Z :=
  Z.max (reps h p) (mst_Replicas (ms_Status (heap_get h p))).

Lemma sumZ_view_total h (l : list ptr) :
  sumZ total_replicas (view h (Some <$> l)) = sumZ (machines h) l.
Proof. unfold view. by rewrite !sumZ_fmap. Qed.

Lemma view_has_replicas h (l : list ptr) :
  (∀ p, p ∈ l → is_Some (ms_Replicas (heap_get h p))) →
  Forall has_replicas (view h (Some <$> l)).
Proof.
  intros Hl. unfold view. apply Forall_fmap, Forall_fmap, Forall_forall. intros p Hp.
  by apply Hl.
Qed.

Lemma machines_scaled h h' p q k :
  frame h h' → (∀ q, q ≠ p → heap_get h' q = heap_get h q) →
  (reps h' p = reps h p ∨ reps h' p = k) →
  machines h' q ≤ machines h q + (if decide (q = p) then Z.max 0 (k - reps h p) else 0).
Proof.
  intros Hf Hoth Hor. unfold machines. destruct (Hf q) as (-> & _).
  case_decide as E; [subst q; lia|]. unfold reps. rewrite Hoth by done. lia.
Qed.

(** Scaling one MachineSet of a list up by at most [k - reps]. *)
Lemma sumZ_machines_scaled h h' (l : list ptr) p k :
  NoDup l → p ∈ l → frame h h' → (∀ q, q ≠ p → heap_get h' q = heap_get h q) →
  (reps h' p = reps h p ∨ reps h' p = k) →
  sumZ (machines h') l ≤ sumZ (machines h) l + Z.max 0 (k - reps h p).
Proof.
  intros Hnd Hp Hf Hoth Hor.
  rewrite (sumZ_update (machines h) (machines h') l p Hnd Hp).
  - pose proof (machines_scaled h h' p p k Hf Hoth Hor) as Hm.
    rewrite decide_True in Hm by done. lia.
  - intros q _ Hq. unfold machines, reps. by rewrite Hoth.
Qed.

Lemma reconcileNewMachineSet_outcome l newMS n surge s r s' :
  wf_deployment (s_md s) n → MaxSurge (s_md s) = Ok surge → n + surge ≤ int32_max →
  NoDup (l ++ [newMS]) →
  (∀ p, p ∈ l ++ [newMS] → is_Some (ms_Replicas (heap_get (s_heap s) p)) ∧
    0 ≤ reps (s_heap s) p) →
  sumZ (machines (s_heap s)) (l ++ [newMS]) ≤ int32_max →
  reconcileNewMachineSet env ((Some <$> l) ++ [Some newMS]) newMS s = (r, s') →
  r ≠ Panic ∧ s_md s' = s_md s ∧ frame (s_heap s) (s_heap s') ∧
  (∀ q, q ≠ newMS → heap_get (s_heap s') q = heap_get (s_heap s) q) ∧
  sumZ (machines (s_heap s')) (l ++ [newMS])
    ≤ Z.max (sumZ (machines (s_heap s)) (l ++ [newMS])) (n + surge) ∧
  Z.min n (reps (s_heap s) newMS) ≤ reps (s_heap s') newMS
    ≤ Z.max n (reps (s_heap s) newMS) ∧
  (r = Ok tt → reps (s_heap s') newMS ≤ n ∧
    (reps (s_heap s') newMS = n ∨
     n + surge ≤ sumZ (machines (s_heap s)) (l ++ [newMS])
       + (reps (s_heap s') newMS - reps (s_heap s) newMS))).
Proof.
  intros Hwf Hsurge Hmax Hnd Hrep Hsum.
  pose proof (wf_readable _ _ Hwf) as Hread.
  assert (md_Replicas (s_md s) = Some n) as Hn by by destruct Hwf.
  assert (newMS ∈ l ++ [newMS]) as Hin by set_solver.
  destruct (Hrep newMS Hin) as [[m Hm] Hm0].
  assert (reps (s_heap s) newMS = m) as Em by (unfold reps; by rewrite Hm).
  assert (0 ≤ sumZ (machines (s_heap s)) (l ++ [newMS]) ∧
    m ≤ sumZ (machines (s_heap s)) (l ++ [newMS])) as [Hpos Hle].
  { assert (∀ p, p ∈ l ++ [newMS] → 0 ≤ machines (s_heap s) p) as Hp0
      by (intros p Hp; destruct (Hrep p Hp); unfold machines; lia).
    split; [by apply sumZ_nonneg|].
    pose proof (sumZ_elem_le _ _ _ Hp0 Hin). unfold machines in *. lia. }
  unfold reconcileNewMachineSet, load, gets, lift, mbind, M_bind. rewrite Hn, Hm.
  destruct (Z.eqb_spec m n) as [->|Hne].
  { intros [= <- <-]. split_and!; try done; try lia. }
  destruct (Z.ltb_spec n m).
  { intros E. destruct (scaleMachineSet_outcome _ _ _ _ _ Hread ltac:(eauto) E)
      as (Emd & Hf & Hnp & Hoth & Hor & Hok).
    pose proof (sumZ_machines_scaled _ _ _ _ _ Hnd Hin Hf Hoth Hor).
    split_and!; try done; try lia. intros Hr. rewrite (Hok Hr). lia. }
  destruct (NewMSNewReplicas_bounds_aux (s_md s) n surge (view (s_heap s)
    (Some <$> (l ++ [newMS]))) m) as (k & Ek & Hk & Hkt & Hkmax);
    [done|done|done|apply view_has_replicas; intros p Hp; by apply Hrep
    |rewrite sumZ_view_total; unfold int32_max in *; lia|lia|by rewrite sumZ_view_total|].
  rewrite sumZ_view_total in Hkt, Hkmax. rewrite view_snoc, Ek. intros E.
  destruct (scaleMachineSet_outcome _ _ _ _ _ Hread ltac:(eauto) E)
    as (Emd & Hf & Hnp & Hoth & Hor & Hok).
  pose proof (sumZ_machines_scaled _ _ _ _ _ Hnd Hin Hf Hoth Hor).
  split_and!; try done; try lia. intros Hr. rewrite (Hok Hr). lia.
Qed.

(** ** Proportional scaling *)

Definition size_of (m : gmap string Z) (ms : MachineSet) : Z := default 0 (m !! ms_Name ms).

(** A MachineSet that is not in the list keeps the size it was given. *)
Lemma proportions_other md toAdd sets added m added' m' k :
  proportions md toAdd sets added m = Ok (added', m') →
  k ∉ ms_Name <$> sets → m' !! k = m !! k.
Proof.
  revert added m. induction sets as [|ms sets IH]; intros added m; simpl;
    [by intros [= _ ->]|].
  intros E [Hk Hks]%not_elem_of_cons.
  destruct (ms_Replicas ms) as [r|]; [|by eapply IH].
  destruct (negb (toAdd =? 0)).
  - destruct (GetProportion (Some ms) md toAdd added) as [d|?|]; simpl in E; [|done..].
    rewrite (IH _ _ E Hks). rewrite lookup_insert_ne; congruence.
  - rewrite (IH _ _ E Hks). rewrite lookup_insert_ne; congruence.
Qed.

(** The sizes computed add up to the present sizes plus what was added. *)
Lemma proportions_total md toAdd sets added m added' m' :
  proportions md toAdd sets added m = Ok (added', m') →
  NoDup (ms_Name <$> sets) → (∀ ms, ms ∈ sets → is_Some (ms_Replicas ms)) →
  wrap32 (sumZ (size_of m') sets - added')
  = wrap32 (sumZ (λ ms, default 0 (ms_Replicas ms)) sets - added).
Proof.
  revert added m. induction sets as [|ms sets IH]; intros added m E; simpl in *.
  { by injection E as -> ->. }
  intros [Hn Hnd]%NoDup_cons Hrep. destruct (Hrep ms) as [r Hr]; [set_solver|].
  rewrite Hr in E |- *. simpl in *.
  assert (∀ a m0 sz, proportions md toAdd sets a (<[ms_Name ms := sz]> m0) = Ok (added', m') →
    size_of m' ms = sz) as Hsz.
  { intros a m0 sz E'. unfold size_of.
    by rewrite (proportions_other _ _ _ _ _ _ _ _ E' Hn), lookup_insert_eq. }
  destruct (negb (toAdd =? 0)).
  - destruct (GetProportion (Some ms) md toAdd added) as [d|?|]; simpl in E; [|done..].
    rewrite (Hsz _ _ _ E). specialize (IH _ _ E Hnd ltac:(set_solver)).
    destruct (wrap32_ex (r + d)) as [k1 ->], (wrap32_ex (added + d)) as [k2 E2].
    apply wrap32_eq in IH as [k3 IH]. apply wrap32_eq. exists (k1 - k2 + k3). lia.
  - rewrite (Hsz _ _ _ E). specialize (IH _ _ E Hnd ltac:(set_solver)).
    apply wrap32_eq in IH as [k IH]. apply wrap32_eq. exists k. lia.
Qed.

(** Scaling every MachineSet of a list to the size given for its name. *)
Lemma scale_all_outcome l sizes s r s' :
  NoDup l → readable (s_md s) →
  (∀ p, p ∈ l → is_Some (ms_Replicas (heap_get (s_heap s) p))) →
  scale_all env l sizes s = (r, s') →
  s_md s' = s_md s ∧ frame (s_heap s) (s_heap s') ∧ r ≠ Panic ∧
  (∀ q, q ∉ l → heap_get (s_heap s') q = heap_get (s_heap s) q) ∧
  (r = Ok tt → ∀ p, p ∈ l → reps (s_heap s') p = size_of sizes (heap_get (s_heap s) p)).
Proof.
  unfold scale_all. revert s. induction l as [|p l IH]; intros s Hnd Hmd Hrep; simpl.
  { intros [= <- <-]. split_and!; try done. set_solver. }
  apply NoDup_cons in Hnd as [Hp Hnd].
  unfold load, gets, mbind, M_bind in *.
  destruct (scaleMachineSet env p _ s) as [r1 s1] eqn:E1.
  destruct (scaleMachineSet_outcome _ _ _ _ _ Hmd (Hrep p ltac:(set_solver)) E1)
    as (Emd & Hf & Hnp & Hoth & _ & Hok).
  destruct r1 as [[]|e|]; [|intros [= <- <-]|done].
  2:{ split_and!; try done. intros q [Hq _]%not_elem_of_cons. by apply Hoth. }
  intros E. destruct (IH s1) as (Emd' & Hf' & Hnp' & Hoth' & Hok'); [done|by rewrite Emd| |done|].
  { intros q Hq. apply (frame_is_Some _ _ _ Hf), Hrep. set_solver. }
  split_and!; [congruence|by transitivity (s_heap s1)|done| |].
  - intros q [Hq1 Hq2]%not_elem_of_cons. by rewrite Hoth', Hoth.
  - intros Hr q [->|Hq]%elem_of_cons.
    + unfold reps. rewrite Hoth' by done. by apply Hok.
    + rewrite (Hok' Hr q Hq). unfold size_of. by destruct (Hf q) as (_ & -> & _).
Qed.

Lemma sort_by_size_ok h less (l : list ptr) :
  (∀ p, p ∈ l → is_Some (ms_Replicas (heap_get h p))) →
  ∃ l', sort_by_size (heap_get h) less l = Ok l' ∧ l' ≡ₚ l.
Proof.
  intros Hl. unfold sort_by_size.
  assert (existsb (λ p, bool_decide (ms_Replicas (heap_get h p) = None)) l = false) as ->.
  { induction l as [|p l IH]; simpl; [done|].
    destruct (Hl p) as [r ->]; [set_solver|]. apply IH. set_solver. }
  rewrite andb_false_r. eexists. split; [done|]. apply go_sort_perm.
Qed.

(** The sizes given out, with the leftover on the first MachineSet, add up to the present
    sizes plus the replicas to add, unless the first one would have become negative. *)
Lemma leftover_total md toAdd first rest added m :
  proportions md toAdd (first :: rest) 0 ∅ = Ok (added, m) →
  NoDup (ms_Name <$> first :: rest) →
  (∀ ms, ms ∈ first :: rest → is_Some (ms_Replicas ms)) →
  (toAdd = 0 → added = 0) →
  let sizes := add_leftover toAdd added (ms_Name first) m in
  wrap32 (sumZ (size_of sizes) (first :: rest))
    = wrap32 (sumZ (λ ms, default 0 (ms_Replicas ms)) (first :: rest) + toAdd) ∨
  size_of sizes first = 0.
Proof.
  intros E Hnd Hrep Hz. pose proof (proportions_total _ _ _ _ _ _ _ E Hnd Hrep) as Ht.
  rewrite Z.sub_0_r in Ht. apply wrap32_eq in Ht as [k Ht]. simpl. unfold add_leftover.
  destruct (Z.eqb_spec toAdd 0) as [->|Hne].
  { left. rewrite (Hz eq_refl) in Ht. apply wrap32_eq. exists k. simpl in Ht. lia. }
  fold (size_of m first). set (size := size_of m first +32 (toAdd -32 added)).
  destruct (Z.ltb_spec size 0).
  { right. unfold size_of. by rewrite lookup_insert_eq. }
  left. unfold size_of at 1. rewrite lookup_insert_eq. simpl in *.
  apply NoDup_cons in Hnd as [Hn _].
  rewrite (sumZ_ext (size_of (<[ms_Name first := size]> m)) (size_of m) rest).
  - unfold size. destruct (wrap32_ex (toAdd - added)) as [k1 ->].
    destruct (wrap32_ex (size_of m first + (toAdd - added + k1 * 2 ^ 32))) as [k2 ->].
    apply wrap32_eq. exists (k + k1 + k2). lia.
  - intros ms Hms. unfold size_of. rewrite lookup_insert_ne; [done|].
    intros E'. apply Hn. rewrite E'. apply list_elem_of_fmap. eauto.
Qed.

Lemma proportions_zero md sets added m added' m' :
  proportions md 0 sets added m = Ok (added', m') → added' = added.
Proof.
  revert added m. induction sets as [|ms sets IH]; intros added m; simpl; [by intros [= <- _]|].
  destruct (ms_Replicas ms); intros E; by apply IH in E.
Qed.

(** Reading proportions never panics on MachineSets with replicas. *)
Lemma proportions_ok md toAdd sets added m :
  readable md → (∀ ms, ms ∈ sets → is_Some (ms_Replicas ms)) →
  ∃ r, proportions md toAdd sets added m = Ok r.
Proof.
  intros [[n Hn] [surge Hs]]. revert added m.
  induction sets as [|ms sets IH]; intros added m Hrep; simpl; [eauto|].
  destruct (Hrep ms) as [r Hr]; [set_solver|]. rewrite Hr.
  destruct (negb (toAdd =? 0)); [|apply IH; set_solver].
  assert (∃ d, GetProportion (Some ms) md toAdd added = Ok d) as [d ->]; [|apply IH; set_solver].
  unfold GetProportion. rewrite Hr. simpl. case_match; [by eexists|].
  unfold getMachineSetFraction. rewrite Hn, Hr. simpl.
  destruct (n =? 0); [by eexists|]. rewrite Hs. simpl.
  destruct (getMaxReplicasAnnotation ms). by eexists.
Qed.

(** The size the deployment may grow or shrink to in a scaling event. *)
Definition allowed_size (n surge : Z) : Z := if 0 <? n then n +32 surge else 0.

Lemma scale_proportionally_outcome newMS oldMSs n surge s r s' :
  wf_deployment (s_md s) n → MaxSurge (s_md s) = Ok surge →
  NoDup (oldMSs ++ option_list newMS) →
  let act := actives (heap_get (s_heap s)) newMS oldMSs in
  NoDup ((λ p, ms_Name (heap_get (s_heap s) p)) <$> act) →
  scale_proportionally env (s_md s) n newMS oldMSs s = (r, s') →
  r ≠ Panic ∧ s_md s' = s_md s ∧ frame (s_heap s) (s_heap s') ∧
  (∀ q, q ∉ act → heap_get (s_heap s') q = heap_get (s_heap s) q) ∧
  (r = Ok tt → act ≠ [] →
    wrap32 (sumZ (reps (s_heap s')) act) = allowed_size n surge ∨
    ∃ p, p ∈ act ∧ reps (s_heap s') p = 0).
Proof.
  intros Hwf Hs Hnd act Hnames. pose proof (wf_readable _ _ Hwf) as Hread.
  assert (NoDup act) as Hnda by by apply actives_NoDup.
  assert (∀ p, p ∈ act → is_Some (ms_Replicas (heap_get (s_heap s) p))) as Hrep.
  { intros p (_ & x & Hx & _)%elem_of_actives. eauto. }
  unfold scale_proportionally, gets, lift, mbind, M_bind.
  change (FilterActiveMachineSets (heap_get (s_heap s)) ((Some <$> oldMSs) ++ [newMS])) with act.
  rewrite GetReplicaCount_sum, sumZ_view_spec, Hs.
  assert ((if 0 <? n then Ok surge else Ok 0) = Ok (if 0 <? n then surge else 0)) as ->
    by by destruct (0 <? n).
  replace (if 0 <? n then n +32 (if 0 <? n then surge else 0) else 0)
    with (allowed_size n surge) by by unfold allowed_size; destruct (0 <? n).
  set (toAdd := allowed_size n surge -32 wrap32 (sumZ (reps (s_heap s)) act)).
  assert (∃ l', (if 0 <? toAdd then sort_by_size (heap_get (s_heap s)) MachineSetsBySizeNewer_Less act
    else if toAdd <? 0 then sort_by_size (heap_get (s_heap s)) MachineSetsBySizeOlder_Less act
    else Ok act) = Ok l' ∧ l' ≡ₚ act) as (l' & -> & Hp).
  { destruct (0 <? toAdd); [by apply sort_by_size_ok|].
    destruct (toAdd <? 0); [by apply sort_by_size_ok|eauto]. }
  destruct (proportions_ok (s_md s) toAdd (heap_get (s_heap s) <$> l') 0 ∅) as [[added m] Em];
    [done|intros ms (p & -> & Hin)%list_elem_of_fmap; apply Hrep; by rewrite <- Hp|].
  rewrite Em. destruct l' as [|first rest] eqn:El.
  { intros [= <- <-]. apply Permutation_nil_l in Hp. split_and!; done. }
  intros E. apply scale_all_outcome in E as (Emd & Hf & Hnp & Hoth & Hok);
    [|by rewrite Hp|done|intros p; rewrite Hp; apply Hrep].
  setoid_rewrite Hp in Hoth. split_and!; try done. intros Hr _. specialize (Hok Hr).
  destruct (leftover_total (s_md s) toAdd (heap_get (s_heap s) first)
    (heap_get (s_heap s) <$> rest) added m) as [Ht|Ht].
  - exact Em.
  - rewrite <- fmap_cons, <- list_fmap_compose. by rewrite Hp.
  - intros ms. rewrite <- fmap_cons. intros (p & -> & Hin)%list_elem_of_fmap. apply Hrep.
    by rewrite <- Hp.
  - intros ->. by apply proportions_zero in Em.
  - left. rewrite <- fmap_cons, !sumZ_fmap in Ht.
    rewrite (sumZ_perm (λ x, default 0 (ms_Replicas (heap_get (s_heap s) x))) _ _ Hp) in Ht.
    rewrite <- (sumZ_perm _ _ _ Hp), (sumZ_ext _ _ _ Hok), Ht.
    fold (reps (s_heap s)). unfold toAdd.
    change (sumZ (λ x, default 0 (ms_Replicas (heap_get (s_heap s) x))) act)
      with (sumZ (reps (s_heap s)) act).
    assert (allowed_size n surge = wrap32 (allowed_size n surge)) as Ea.
    { unfold allowed_size. destruct (0 <? n); [|done]. symmetry. apply wrap32_id, wrap32_range. }
    rewrite Ea at 2. apply wrap32_eq.
    destruct (wrap32_ex (sumZ (reps (s_heap s)) act)) as [k1 ->].
    destruct (wrap32_ex (allowed_size n surge - (sumZ (reps (s_heap s)) act + k1 * 2 ^ 32)))
      as [k2 ->]. exists (k2 - k1). lia.
  - right. exists first. split; [rewrite <- Hp; set_solver|]. rewrite Hok by set_solver. done.
Qed.

(** ** Cleaning up *)

(** A MachineSet that may be deleted: no replicas wanted or left, observed, not deleting. *)
Definition deletable (ms : MachineSet) : Prop :=
  ms_Replicas ms = Some 0 ∧ mst_Replicas (ms_Status ms) = 0 ∧
  om_Generation (ms_Meta ms) ≤ mst_ObservedGeneration (ms_Status ms) ∧
  IsZero (om_DeletionTimestamp (ms_Meta ms)) = true.

Lemma cleanup_one_outcome p s r s' :
  cleanup_one env p s = (r, s') →
  s_heap s' = s_heap s ∧ s_md s' = s_md s ∧ r ≠ Panic ∧
  (s_calls s' = s_calls s ∨
   s_calls s' = s_calls s ++ [CallDelete (heap_get (s_heap s) p)] ∧
   deletable (heap_get (s_heap s) p)).
Proof.
  unfold cleanup_one, load, gets, mbind, M_bind.
  destruct (ms_Replicas (heap_get (s_heap s) p)) as [m|] eqn:Em; [|intros [= <- <-]; split_and!; auto; done].
  destruct (_ || _) eqn:Ec; [intros [= <- <-]; split_and!; auto; done|]. reflect_bool.
  unfold delete_ms, try_err, call, mbind, M_bind.
  assert (deletable (heap_get (s_heap s) p)) as Hd
    by (split_and!; [congruence|done|lia|done]).
  destruct (api_error env (s_calls s) _) as [[| [] | |]|]; intros [= <- <-]; simpl;
    split_and!; auto; done.
Qed.

Lemma cleanup_all_outcome (l : list ptr) s r s' :
  forM l (cleanup_one env) s = (r, s') →
  s_heap s' = s_heap s ∧ s_md s' = s_md s ∧ r ≠ Panic ∧
  ∃ ds, s_calls s' = s_calls s ++ ((λ p, CallDelete (heap_get (s_heap s) p)) <$> ds) ∧
    ds `sublist_of` l ∧ ∀ p, p ∈ ds → deletable (heap_get (s_heap s) p).
Proof.
  revert s. induction l as [|p l IH]; intros s; simpl.
  { intros [= <- <-]. split_and!; try done. exists []. rewrite app_nil_r. set_solver. }
  unfold mbind, M_bind. destruct (cleanup_one env p s) as [r1 s1] eqn:E1.
  apply cleanup_one_outcome in E1 as (Eh & Em & Hnp & Hc).
  assert (∃ ds, s_calls s1 = s_calls s ++ ((λ p, CallDelete (heap_get (s_heap s) p)) <$> ds) ∧
    ds `sublist_of` [p] ∧ ∀ p, p ∈ ds → deletable (heap_get (s_heap s) p))
    as (ds1 & Ec1 & Hs1 & Hd1).
  { destruct Hc as [->|[-> Hd]]; [exists []; rewrite app_nil_r; split_and!; [done|apply sublist_nil_l|set_solver]|].
    exists [p]. split_and!; [done|done|]. intros q ->%list_elem_of_singleton. done. }
  destruct r1 as [[]|e|]; [|intros [= <- <-]|done].
  - intros E. destruct (IH s1 E) as (Eh' & Em' & Hnp' & ds & Ec & Hs & Hd).
    split_and!; [congruence|congruence|done|]. exists (ds1 ++ ds). rewrite Eh in *. split_and!.
    + by rewrite Ec, Ec1, fmap_app, app_assoc.
    + by apply (sublist_app ds1 [p] ds l).
    + intros q [?|?]%elem_of_app; auto.
  - split_and!; try done. exists ds1. split_and!; [done| |done].
    transitivity [p]; [done|]. by apply sublist_skip, sublist_nil_l.
Qed.

(** The old MachineSets that are not being deleted, oldest first. *)
Definition cleanable (h : gmap ptr MachineSet) (oldMSs : list ptr) : list ptr :=
  go_sort (by_creation h) (FilterMachineSets oldMSs
    (λ p, IsZero (om_DeletionTimestamp (ms_Meta (heap_get h p))))).

Lemma cleanupDeployment_outcome oldMSs limit s r s' :
  mds_RevisionHistoryLimit (md_Spec (s_md s)) = Some limit → 0 ≤ limit ≤ int32_max →
  Z.of_nat (length oldMSs) ≤ int32_max →
  cleanupDeployment env oldMSs s = (r, s') →
  s_heap s' = s_heap s ∧ s_md s' = s_md s ∧ r ≠ Panic ∧
  let l := cleanable (s_heap s) oldMSs in
  ∃ ds, s_calls s' = s_calls s ++ ((λ p, CallDelete (heap_get (s_heap s) p)) <$> ds) ∧
    ds `sublist_of` take (length l - Z.to_nat limit) l ∧
    ∀ p, p ∈ ds → deletable (heap_get (s_heap s) p).
Proof.
  intros Hl Hlim Hlen. unfold cleanupDeployment, gets, mbind, M_bind. rewrite Hl.
  set (alive := FilterMachineSets oldMSs _).
  assert (length alive ≤ length oldMSs)%nat as Hle by apply length_filter.
  assert (length (cleanable (s_heap s) oldMSs) = length alive) as El by apply length_go_sort.
  change (go_sort (by_creation (s_heap s)) alive) with (cleanable (s_heap s) oldMSs).
  cbv zeta. rewrite El. unfold int32_max in *. unwrap32.
  destruct (Z.leb_spec (Z.of_nat (length alive) - limit) 0).
  { intros [= <- <-]. split_and!; try done. exists []. rewrite app_nil_r.
    split_and!; [done|apply sublist_nil_l|set_solver]. }
  destruct (Z.ltb_spec (Z.of_nat (length alive)) (Z.of_nat (length alive) - limit)); [lia|].
  replace (Z.to_nat (Z.of_nat (length alive) - limit)) with (length alive - Z.to_nat limit)%nat
    by lia.
  apply cleanup_all_outcome.
Qed.

(** With a negative limit the loop runs past the end of the slice. *)
Lemma cleanupDeployment_negative oldMSs limit s :
  mds_RevisionHistoryLimit (md_Spec (s_md s)) = Some limit → int32_min < limit < 0 →
  Z.of_nat (length oldMSs) - limit ≤ int32_max →
  (∀ calls c, api_error env calls c = None) →
  (∀ p, p ∈ oldMSs → is_Some (ms_Replicas (heap_get (s_heap s) p))) →
  (cleanupDeployment env oldMSs s).1 = Panic.
Proof.
  intros Hl Hlim Hlen Hapi Hrep. unfold cleanupDeployment, gets, mbind, M_bind. rewrite Hl.
  set (alive := FilterMachineSets oldMSs _).
  assert (length alive ≤ length oldMSs)%nat as Hle by apply length_filter.
  unfold int32_min, int32_max in *. rewrite length_go_sort. unwrap32.
  destruct (Z.leb_spec (Z.of_nat (length alive) - limit) 0); [lia|].
  destruct (Z.ltb_spec (Z.of_nat (length alive)) (Z.of_nat (length alive) - limit)); [|lia].
  assert (∀ l s0, s_heap s0 = s_heap s → (∀ p, p ∈ l → p ∈ oldMSs) →
    ∃ s1, forM l (cleanup_one env) s0 = (Ok tt, s1)) as Hall.
  { induction l as [|p l IH]; intros s0 Eh Hin; simpl; [by eexists|].
    unfold mbind, M_bind. destruct (cleanup_one env p s0) as [r1 s1] eqn:E1.
    pose proof E1 as (Eh1 & _)%cleanup_one_outcome.
    assert (r1 = Ok tt) as ->; [|apply IH; [congruence|set_solver]].
    revert E1. unfold cleanup_one, load, gets, mbind, M_bind. rewrite Eh.
    destruct (Hrep p) as [m ->]; [set_solver|]. destruct (_ || _); [by intros [= <- _]|].
    unfold delete_ms, try_err, call, mbind, M_bind. rewrite Hapi. by intros [= <- _]. }
  destruct (Hall (go_sort (by_creation (s_heap s)) alive) s eq_refl) as [s1 ->]; [|done].
  intros p. rewrite elem_of_go_sort. by intros [_ ?]%list_elem_of_filter.
Qed.

(** ** One rolling reconciliation *)

(** The limits depend on the spec of the deployment only. *)
Lemma limits_spec md md' :
  md_Spec md' = md_Spec md →
  MaxSurge md' = MaxSurge md ∧ MaxUnavailable md' = MaxUnavailable md ∧
  ∀ n, wf_deployment md n → wf_deployment md' n.
Proof.
  intros E. unfold MaxSurge, MaxUnavailable, IsRollingUpdate, strategy_Type,
    strategy_RollingUpdate, md_Replicas. rewrite E. split_and!; try done.
  intros n [Hn Hr Hs]. split; unfold md_Replicas in *; by rewrite ?E.
Qed.

Lemma calculateStatus_ok allMSs newMS md n :
  md_Replicas md = Some n → ∃ st, calculateStatus env allMSs newMS md = Ok st.
Proof. intros Hn. unfold calculateStatus. rewrite Hn. simpl. by eexists. Qed.

Lemma syncDeploymentStatus_outcome allMSs newMS n s r s' :
  wf_deployment (s_md s) n →
  syncDeploymentStatus env allMSs newMS s = (r, s') →
  r = Ok tt ∧ s_heap s' = s_heap s ∧ s_calls s' = s_calls s ∧
  md_Spec (s_md s') = md_Spec (s_md s).
Proof.
  intros Hwf. destruct (limits_wf _ _ Hwf) as (_ & u & _ & Hu & _).
  assert (md_Replicas (s_md s) = Some n) as Hn by by destruct Hwf.
  unfold syncDeploymentStatus, gets, lift, set_md, modify, mbind, M_bind.
  destruct (calculateStatus_ok (view (s_heap s) allMSs) (heap_get (s_heap s) <$> newMS)
    (s_md s) n Hn) as [st ->].
  assert (∀ st', MaxUnavailable (md_set_Status st' (s_md s)) = Ok u) as Hu'
    by (intros st'; by rewrite (proj1 (proj2 (limits_spec (s_md s) (md_set_Status st' (s_md s)) eq_refl)))).
  rewrite Hu'. unfold md_Replicas in *. simpl. rewrite Hn. simpl.
  assert (∀ now (md : MachineDeployment) c, md_Spec (Set_ now md c) = md_Spec md) as Hset
    by by intros now md [c|].
  intros [= <- <-]. simpl. split_and!; try done.
  destruct newMS; unfold SetMirror, MarkFalse; rewrite Hset;
    (destruct (_ <=? _); unfold MarkTrue, MarkFalse; by rewrite Hset).
Qed.

(** The clean-up at the end panics for a negative history limit only, and leaves the
    MachineSets of the model alone. *)
Definition history_valid (md : MachineDeployment) : Prop :=
  ∀ limit, mds_RevisionHistoryLimit (md_Spec md) = Some limit → 0 ≤ limit ≤ int32_max.

Lemma cleanupDeployment_heap oldMSs s r s' : cleanupDeployment env oldMSs s = (r, s') → s_heap s' = s_heap s.
Proof.
  unfold cleanupDeployment, gets, mbind, M_bind. case_match; [|by intros [= <- <-]]. cbv zeta.
  case_match; [by intros [= <- <-]|]. case_match; [|by intros (? & _)%cleanup_all_outcome].
  destruct (forM _ _ s) as [x s1] eqn:E. apply cleanup_all_outcome in E as (Eh & _).
  by destruct x; intros [= <- <-].
Qed.

Lemma cleanup_if_complete_outcome oldMSs n s r s' :
  wf_deployment (s_md s) n →
  cleanup_if_complete env oldMSs s = (r, s') →
  (history_valid (s_md s) → Z.of_nat (length oldMSs) ≤ int32_max → r ≠ Panic) ∧ s_heap s' = s_heap s.
Proof.
  intros [Hn _ _]. unfold cleanup_if_complete, DeploymentComplete, gets, lift, mbind, M_bind. rewrite Hn. simpl.
  case_match; [|by intros [= <- <-]]. intros E. split; [|by eapply cleanupDeployment_heap].
  intros Hlim Hlen. destruct (mds_RevisionHistoryLimit (md_Spec (s_md s))) as [limit|] eqn:El.
  - by destruct (cleanupDeployment_outcome oldMSs limit s r s' El (Hlim _ El) Hlen E) as (_ & _ & ? & _).
  - revert E. unfold cleanupDeployment, gets, mbind, M_bind. rewrite El. by intros [= <- <-].
Qed.

(** The state a rolling reconciliation starts from, once the MachineSets are known. *)
Record rolling_ready (s : State) (newMS : ptr) (oldMSs : list ptr) (n surge u : Z) : Prop := {
  rr_wf : wf_deployment (s_md s) n;
  rr_surge : MaxSurge (s_md s) = Ok surge;
  rr_unavailable : MaxUnavailable (s_md s) = Ok u;
  rr_max : n + surge ≤ int32_max;
  rr_nodup : NoDup (oldMSs ++ [newMS]);
  rr_good : ∀ p, p ∈ oldMSs ++ [newMS] → good (s_heap s) p;
  rr_new : reps (s_heap s) newMS ≤ n;
  rr_total : sumZ (machines (s_heap s)) (oldMSs ++ [newMS]) ≤ int32_max;
}.

(** What one rolling reconciliation guarantees, from [h] to [h']. *)
Definition rolling_safe (newMS : ptr) (oldMSs : list ptr) (n surge u : Z)
    (h h' : gmap ptr MachineSet) : Prop :=
  sumZ (machines h') (oldMSs ++ [newMS])
    ≤ Z.max (sumZ (machines h) (oldMSs ++ [newMS])) (n + surge) ∧
  reps h newMS ≤ reps h' newMS ≤ n ∧
  (∀ p, p ∈ oldMSs → 0 ≤ reps h' p ≤ reps h p) ∧
  Z.min (n - u) (sumZ (avail h) (oldMSs ++ [newMS])) ≤ surviving h h' (oldMSs ++ [newMS]).

Lemma machines_shrink h h' l :
  frame h h' → (∀ p, p ∈ l → reps h' p ≤ reps h p) → sumZ (machines h') l ≤ sumZ (machines h) l.
Proof.
  intros Hf Hl. apply sumZ_le. intros p Hp. unfold machines. destruct (Hf p) as (-> & _).
  specialize (Hl p Hp). lia.
Qed.

(** Reconciling the new and then the old MachineSets composes. *)
Lemma rolling_compose newMS oldMSs n surge u s s2 s4 :
  rolling_ready s newMS oldMSs n surge u →
  frame (s_heap s) (s_heap s2) →
  (∀ q, q ≠ newMS → heap_get (s_heap s2) q = heap_get (s_heap s) q) →
  sumZ (machines (s_heap s2)) (oldMSs ++ [newMS])
    ≤ Z.max (sumZ (machines (s_heap s)) (oldMSs ++ [newMS])) (n + surge) →
  reps (s_heap s) newMS ≤ reps (s_heap s2) newMS ≤ n →
  frame (s_heap s2) (s_heap s4) →
  (∀ q, q ∉ oldMSs → heap_get (s_heap s4) q = heap_get (s_heap s2) q) →
  (∀ q, q ∈ oldMSs → 0 ≤ reps (s_heap s4) q ≤ reps (s_heap s2) q) →
  Z.min (n - u) (sumZ (avail (s_heap s2)) (oldMSs ++ [newMS]))
    ≤ surviving (s_heap s2) (s_heap s4) (oldMSs ++ [newMS]) →
  rolling_safe newMS oldMSs n surge u (s_heap s) (s_heap s4).
Proof.
  intros [] Hf2 Hoth2 Hm2 Hn2 Hf4 Hoth4 Hb4 Hs4.
  assert (newMS ∉ oldMSs) as Hnew.
  { apply NoDup_app in rr_nodup0 as (_ & Hdis & _). intros Hin. apply (Hdis _ Hin). set_solver. }
  assert (∀ q, q ∈ oldMSs → reps (s_heap s2) q = reps (s_heap s) q) as Hr2.
  { intros q Hq. unfold reps. rewrite Hoth2; [done|]. by intros ->. }
  assert (reps (s_heap s4) newMS = reps (s_heap s2) newMS) as En
    by (unfold reps; by rewrite Hoth4).
  split_and!.
  - etransitivity; [apply (machines_shrink (s_heap s2))|done]; [done|].
    intros p [Hp| ->%list_elem_of_singleton]%elem_of_app; [by apply Hb4|lia].
  - lia.
  - lia.
  - intros p Hp. rewrite <- Hr2 by done. by apply Hb4.
  - rewrite (sumZ_ext (avail (s_heap s)) (avail (s_heap s2)))
      by (intros p _; symmetry; by apply frame_avail).
    etransitivity; [exact Hs4|]. apply Z.eq_le_incl, sumZ_ext. intros p _.
    by rewrite (frame_avail _ _ p Hf2).
Qed.

(** Everything is still consistent after the new MachineSet was reconciled. *)
Lemma ready_after_new newMS oldMSs n surge u s s2 :
  rolling_ready s newMS oldMSs n surge u →
  frame (s_heap s) (s_heap s2) →
  (∀ q, q ≠ newMS → heap_get (s_heap s2) q = heap_get (s_heap s) q) →
  sumZ (machines (s_heap s2)) (oldMSs ++ [newMS])
    ≤ Z.max (sumZ (machines (s_heap s)) (oldMSs ++ [newMS])) (n + surge) →
  reps (s_heap s) newMS ≤ reps (s_heap s2) newMS ≤ n →
  (∀ p, p ∈ oldMSs ++ [newMS] → good (s_heap s2) p) ∧
  sumZ (reps (s_heap s2)) (oldMSs ++ [newMS]) ≤ int32_max ∧
  rolling_safe newMS oldMSs n surge u (s_heap s) (s_heap s2).
Proof.
  intros Hready Hf Hoth Hm Hn. pose proof Hready as [].
  assert (∀ p, p ∈ oldMSs ++ [newMS] → good (s_heap s2) p) as Hgood.
  { intros p Hp. destruct (decide (p = newMS)) as [->|Hne].
    - destruct (rr_good0 newMS Hp) as (Hs & Ha & Hr). unfold good.
      rewrite (frame_avail _ _ newMS Hf). split_and!; [by apply (frame_is_Some _ _ _ Hf)|lia..|].
      destruct rr_wf0 as [_ ? _]. lia.
    - apply (good_stable (s_heap s)); [done| |by apply rr_good0]. unfold reps. by rewrite Hoth. }
  split; [done|]. split.
  - etransitivity; [apply (sumZ_le _ (machines (s_heap s2))); intros p _; unfold machines; lia|].
    lia.
  - apply (rolling_compose newMS oldMSs n surge u s s2 s2); try done.
    + intros q Hq. destruct (Hgood q) as (_ & ? & _); [set_solver|]. lia.
    + rewrite surviving_all by (intros p Hp; destruct (Hgood p Hp) as (_ & ? & _); lia). lia.
Qed.

Lemma rolloutRolling_outcome msList templateExists newMS oldMSs n surge u s s1 r s' :
  getAllMachineSetsAndSyncRevision env msList true templateExists s
    = (Ok (Some newMS, oldMSs), s1) →
  rolling_ready s1 newMS oldMSs n surge u →
  rolloutRolling env msList templateExists s = (r, s') →
  (history_valid (s_md s1) → Z.of_nat (length oldMSs) ≤ int32_max → r ≠ Panic) ∧
  rolling_safe newMS oldMSs n surge u (s_heap s1) (s_heap s').
Proof.
  intros Hget Hready. pose proof Hready as [].
  unfold rolloutRolling, mbind, M_bind. rewrite Hget.
  destruct (reconcileNewMachineSet env _ newMS s1) as [r2 s2] eqn:E2.
  apply (reconcileNewMachineSet_outcome oldMSs newMS n surge) in E2
    as (Hnp2 & Emd2 & Hf2 & Hoth2 & Hm2 & Hb2 & _); try done.
  2:{ intros p Hp. destruct (rr_good0 p Hp) as (? & ? & _). split; [done|lia]. }
  destruct (ready_after_new newMS oldMSs n surge u s1 s2) as (Hgood2 & Hsum2 & Hsafe2);
    try done; [lia|].
  assert (wf_deployment (s_md s2) n) as Hwf2 by by rewrite Emd2.
  destruct r2 as [[]|e|]; [|by intros [= <- <-]|done].
  destruct (syncDeploymentStatus env _ _ s2) as [r3 s3] eqn:E3.
  apply (syncDeploymentStatus_outcome _ _ n) in E3 as (Hnp3 & Eh3 & _ & Esp3); [|done].
  destruct r3 as [[]|e|]; [|intros [= <- <-]; by rewrite Eh3|done].
  destruct (limits_spec (s_md s2) (s_md s3) Esp3) as (Es3 & Eu3 & Hwf3).
  destruct (reconcileOldMachineSets env _ oldMSs newMS s3) as [r4 s4] eqn:E4.
  apply NoDup_app in rr_nodup0 as (Hndo & Hdis & _).
  apply (reconcileOldMachineSets_outcome oldMSs newMS n u) in E4
    as (Hnp4 & Emd4 & Hf4 & Hoth4 & Hb4 & Hs4);
    [|by apply Hwf3|by rewrite Eu3, Emd2|done|intros Hin; apply (Hdis _ Hin); set_solver
     |by rewrite Eh3|by rewrite Eh3].
  rewrite Eh3 in Hf4, Hoth4, Hb4, Hs4.
  assert (rolling_safe newMS oldMSs n surge u (s_heap s1) (s_heap s4)) as Hsafe4
    by (apply (rolling_compose newMS oldMSs n surge u s1 s2 s4); try done; lia).
  destruct r4 as [[]|e|]; [|by intros [= <- <-]|done].
  assert (wf_deployment (s_md s4) n) as Hwf4 by (rewrite Emd4; by apply Hwf3).
  destruct (syncDeploymentStatus env _ _ s4) as [r5 s5] eqn:E5.
  apply (syncDeploymentStatus_outcome _ _ n) in E5 as (Hnp5 & Eh5 & _ & Esp5); [|done].
  destruct r5 as [[]|e|]; [|intros [= <- <-]; by rewrite Eh5|done].
  intros E6. apply (cleanup_if_complete_outcome _ n) in E6 as [Hnp6 Eh6].
  - rewrite Eh6, Eh5. split; [|done]. intros Hh. apply Hnp6. unfold history_valid in *.
    by rewrite Esp5, Emd4, Esp3, Emd2.
  - by apply (limits_spec (s_md s4)).
Qed.
End scaling.

(** ** Properties *)

Section properties.
Context `{Apimachinery} `{GoSort} (env : Env).

(** C2: one rolling reconciliation, whatever calls of the API fail on the way, keeps the
    machines of the deployment within replicas plus surge (or within their present number),
    grows the new MachineSet at most to the desired replicas, only shrinks old ones, and
    leaves at least the minimum of available replicas (or all of them, if there are fewer)
    untouched by the new sizes.  It does not panic if the revision history limit is not
    negative.  All of this is for a rollout (the new MachineSet is not above the desired
    replicas) on MachineSets with a size and with status counters that are not stale: none
    counts more available replicas than it is to have; and for numbers of machines in the
    range of an [int32]. *)
Theorem rolloutRolling_safe (msList : list ptr) (templateExists : bool) (newMS : ptr)
    (oldMSs : list ptr) (n surge u : Z) (s s1 : State) (r : result unit) (s' : State) :
  getAllMachineSetsAndSyncRevision env msList true templateExists s
    = (Ok (Some newMS, oldMSs), s1) →
  wf_deployment (s_md s1) n → MaxSurge (s_md s1) = Ok surge → MaxUnavailable (s_md s1) = Ok u →
  NoDup (oldMSs ++ [newMS]) →
  (∀ p, p ∈ oldMSs ++ [newMS] → is_Some (ms_Replicas (heap_get (s_heap s1) p)) ∧
     0 ≤ avail (s_heap s1) p ≤ reps (s_heap s1) p ∧ reps (s_heap s1) p ≤ int32_max) →
  reps (s_heap s1) newMS ≤ n →
  n + surge ≤ int32_max → sumZ (machines (s_heap s1)) (oldMSs ++ [newMS]) ≤ int32_max →
  rolloutRolling env msList templateExists s = (r, s') →
  (history_valid (s_md s1) → Z.of_nat (length oldMSs) ≤ int32_max → r ≠ Panic) ∧
  sumZ (machines (s_heap s')) (oldMSs ++ [newMS])
    ≤ Z.max (sumZ (machines (s_heap s1)) (oldMSs ++ [newMS])) (n + surge) ∧
  reps (s_heap s1) newMS ≤ reps (s_heap s') newMS ≤ n ∧
  (∀ p, p ∈ oldMSs → 0 ≤ reps (s_heap s') p ≤ reps (s_heap s1) p) ∧
  Z.min (n - u) (sumZ (avail (s_heap s1)) (oldMSs ++ [newMS]))
    ≤ sumZ (λ p, Z.min (avail (s_heap s1) p) (reps (s_heap s') p)) (oldMSs ++ [newMS]).
Proof. intros Hget ? ? ? ? ? ? ? ? E. eapply rolloutRolling_outcome; [exact Hget|by split|exact E]. Qed.

(** Cleaning up unhealthy replicas removes at most the given number, never an available
    replica, and nothing but replicas of old MachineSets; when no call fails the count it
    returns is what was removed, and it stops early only when the limit is reached. *)
Theorem cleanupUnhealthyReplicas_safe (oldMSs : list ptr) (limit : Z) (s : State)
    (r : result (list ptr * Z)) (s' : State) :
  NoDup oldMSs → 0 ≤ limit ≤ int32_max → readable (s_md s) →
  (∀ p, p ∈ oldMSs → good (s_heap s) p) →
  cleanupUnhealthyReplicas env oldMSs limit s = (r, s') →
  r ≠ Panic ∧
  (∀ q, q ∉ oldMSs → heap_get (s_heap s') q = heap_get (s_heap s) q) ∧
  (∀ q, q ∈ oldMSs → avail (s_heap s) q ≤ reps (s_heap s') q ≤ reps (s_heap s) q) ∧
  let removed := sumZ (reps (s_heap s)) oldMSs - sumZ (reps (s_heap s')) oldMSs in
  0 ≤ removed ≤ limit ∧
  ∀ l t, r = Ok (l, t) → l ≡ₚ oldMSs ∧ t = removed ∧
    (t = limit ∨ ∀ q, q ∈ oldMSs → reps (s_heap s') q = avail (s_heap s) q).
Proof.
  intros Hnd Hlim Hmd Hgood E.
  destruct (cleanupUnhealthyReplicas_outcome env _ _ _ _ _ Hnd Hlim Hmd Hgood E)
    as (_ & _ & Hnp & Hoth & Hb & d & Hd & Es & Hok).
  cbv zeta. rewrite Es. split_and!; try done; try lia. intros l t Er. destruct (Hok l t Er) as (? & -> & ?).
  split_and!; [done|lia|done].
Qed.

(** C28: scaling old MachineSets down, when no call fails, removes exactly the replicas that are
    available above the minimum (replicas minus [maxUnavailable]), or stops when all old
    MachineSets are empty, and returns what it removed; it never removes more, also when calls
    fail, and no MachineSet grows.  The MachineSets have sizes within an [int32], and none
    counts more available replicas than it is to have. *)
Theorem scaleDownOld_exact (oldMSs : list ptr) (newMS : ptr) (n u : Z) (s : State)
    (r : result Z) (s' : State) :
  wf_deployment (s_md s) n → MaxUnavailable (s_md s) = Ok u →
  NoDup oldMSs → newMS ∉ oldMSs → (∀ p, p ∈ oldMSs ++ [newMS] → good (s_heap s) p) →
  sumZ (avail (s_heap s)) (oldMSs ++ [newMS]) ≤ int32_max →
  scaleDownOldMachineSetsForRollingUpdate env ((Some <$> oldMSs) ++ [Some newMS]) oldMSs s
    = (r, s') →
  r ≠ Panic ∧
  (∀ q, q ∈ oldMSs → 0 ≤ reps (s_heap s') q ≤ reps (s_heap s) q) ∧
  let budget := Z.max 0 (sumZ (avail (s_heap s)) (oldMSs ++ [newMS]) - (n - u)) in
  let removed := sumZ (reps (s_heap s)) oldMSs - sumZ (reps (s_heap s')) oldMSs in
  0 ≤ removed ≤ budget ∧
  ∀ t, r = Ok t → t = removed ∧ (t = budget ∨ ∀ q, q ∈ oldMSs → reps (s_heap s') q = 0).
Proof.
  intros Hwf Hu Hnd Hnew Hgood Hmax E.
  destruct (scaleDownOld_outcome env _ _ _ _ _ _ _ Hwf Hu Hnd Hnew Hgood Hmax E)
    as (_ & _ & Hnp & _ & Hb & d & Hd & Es & Hok).
  cbv zeta. rewrite Es. split_and!; try done; try lia. intros t Er. destruct (Hok t Er) as (-> & ?).
  split; [lia|done].
Qed.

(** Reconciling the new MachineSet keeps the machines of the deployment within replicas
    plus surge, never leaves it larger than desired, and grows it as far as the surge
    allows. *)
Theorem reconcileNewMachineSet_surge (oldMSs : list ptr) (newMS : ptr) (n surge : Z) (s : State)
    (r : result unit) (s' : State) :
  wf_deployment (s_md s) n → MaxSurge (s_md s) = Ok surge → n + surge ≤ int32_max →
  NoDup (oldMSs ++ [newMS]) →
  (∀ p, p ∈ oldMSs ++ [newMS] → is_Some (ms_Replicas (heap_get (s_heap s) p)) ∧
    0 ≤ reps (s_heap s) p) →
  sumZ (machines (s_heap s)) (oldMSs ++ [newMS]) ≤ int32_max →
  reconcileNewMachineSet env ((Some <$> oldMSs) ++ [Some newMS]) newMS s = (r, s') →
  r ≠ Panic ∧
  (∀ q, q ≠ newMS → heap_get (s_heap s') q = heap_get (s_heap s) q) ∧
  sumZ (machines (s_heap s')) (oldMSs ++ [newMS])
    ≤ Z.max (sumZ (machines (s_heap s)) (oldMSs ++ [newMS])) (n + surge) ∧
  (r = Ok tt → reps (s_heap s') newMS ≤ n ∧
    (reps (s_heap s') newMS = n ∨
     n + surge ≤ sumZ (machines (s_heap s)) (oldMSs ++ [newMS])
       + (reps (s_heap s') newMS - reps (s_heap s) newMS))).
Proof.
  intros Hwf Hs Hmax Hnd Hrep Hsum E.
  destruct (reconcileNewMachineSet_outcome env _ _ _ _ _ _ _ Hwf Hs Hmax Hnd Hrep Hsum E)
    as (Hnp & _ & _ & Hoth & Hm & _ & Hok). done.
Qed.

(** C29: proportional scaling distributes all of the replicas: when no call fails the active
    MachineSets end with exactly the allowed size in total, counted modulo 2^32 as the code
    does, unless the largest would have become negative and is empty instead. *)
Theorem scale_proportionally_total (newMS : option ptr) (oldMSs : list ptr) (n surge : Z)
    (s : State) (r : result unit) (s' : State) :
  wf_deployment (s_md s) n → MaxSurge (s_md s) = Ok surge →
  NoDup (oldMSs ++ option_list newMS) →
  NoDup ((λ p, ms_Name (heap_get (s_heap s) p))
    <$> actives (heap_get (s_heap s)) newMS oldMSs) →
  scale_proportionally env (s_md s) n newMS oldMSs s = (r, s') →
  let act := actives (heap_get (s_heap s)) newMS oldMSs in
  r ≠ Panic ∧
  (∀ q, q ∉ act → heap_get (s_heap s') q = heap_get (s_heap s) q) ∧
  (r = Ok tt → act ≠ [] →
    wrap32 (sumZ (reps (s_heap s')) act) = (if 0 <? n then n +32 surge else 0) ∨
    ∃ p, p ∈ act ∧ reps (s_heap s') p = 0).
Proof.
  intros Hwf Hs Hnd Hnames E.
  destruct (scale_proportionally_outcome env _ _ _ _ _ _ _ Hwf Hs Hnd Hnames E)
    as (Hnp & _ & _ & Hoth & Hok). done.
Qed.

(** Cleaning up a deployment deletes only old MachineSets that want and have no replicas
    and are not being deleted, keeps the newest ones up to the history limit, and changes
    nothing else. *)
Theorem cleanupDeployment_safe (oldMSs : list ptr) (limit : Z) (s : State) (r : result unit)
    (s' : State) :
  mds_RevisionHistoryLimit (md_Spec (s_md s)) = Some limit → 0 ≤ limit ≤ int32_max →
  Z.of_nat (length oldMSs) ≤ int32_max →
  cleanupDeployment env oldMSs s = (r, s') →
  s_heap s' = s_heap s ∧ s_md s' = s_md s ∧ r ≠ Panic ∧
  let l := cleanable (s_heap s) oldMSs in
  ∃ ds, s_calls s' = s_calls s ++ ((λ p, CallDelete (heap_get (s_heap s) p)) <$> ds) ∧
    ds `sublist_of` take (length l - Z.to_nat limit) l ∧
    ∀ p, p ∈ ds → deletable (heap_get (s_heap s) p).
Proof. apply cleanupDeployment_outcome. Qed.

(** A negative history limit, which nothing rejects, makes the clean-up index past the
    end of its slice: it panics even though every call of the API succeeds. *)
Theorem cleanupDeployment_negative_limit (oldMSs : list ptr) (limit : Z) (s : State) :
  mds_RevisionHistoryLimit (md_Spec (s_md s)) = Some limit → int32_min < limit < 0 →
  Z.of_nat (length oldMSs) - limit ≤ int32_max →
  (∀ calls c, api_error env calls c = None) →
  (∀ p, p ∈ oldMSs → is_Some (ms_Replicas (heap_get (s_heap s) p))) →
  (cleanupDeployment env oldMSs s).1 = Panic.
Proof. apply cleanupDeployment_negative. Qed.
End properties.

(** While scaling up the proportions of the MachineSets can be negative, and the replicas
    added so far can exceed the replicas to add in absolute value: a deployment reduced from
    100 to 80 replicas whose MachineSets have 60 and 15. *)
Theorem proportions_can_oppose :
  ∃ (md : MachineDeployment) (sets : list MachineSet) (sizes : gmap string Z),
    md_Replicas md = Some 80 ∧ MaxSurge md = Ok 0 ∧
    ms_Replicas <$> sets = [Some 60; Some 15] ∧
    proportions md 5 sets 0 ∅ = Ok (-15, sizes).
Proof.
  eexists {| md_TypeMeta := emptyTypeMeta; md_Meta := emptyMeta; md_Status := emptyMDStatus;
             md_Spec := md_spec_of 80 (FromInt 0) (FromInt 1) |},
    [ms_set_Annotations {[MaxReplicasAnnotation := "100"]} (sized_ms "a" 60 60 0);
     ms_set_Annotations {[MaxReplicasAnnotation := "100"]} (sized_ms "b" 15 15 1)], _.
  split_and!; by vm_compute.
Qed.

(** ** Witnesses *)

(** A world where every call succeeds and the server stores what it is sent. *)
Definition quiet_env : Env :=
  {| api_error := λ _ _, None; api_applied := λ _ ms, ms; api_cached := λ _ _, false;
     api_machines := λ _ _, []; api_machineSets := λ _ _, []; env_now := λ _, 100 * Second;
     env_random := λ _, "abcde"%string; env_polls := 1; selector_String := λ _, ""%string;
     selector_AsMap := λ _, Some ∅; selector_Matches := λ _, Some (λ _, true);
     selector_Empty := λ _, false; remove_finalizer := λ fs f, filter (λ x, x ≠ f) fs |}.

(** The template of a MachineSet with another version. *)
Definition with_version (v : string) (ms : MachineSet) : MachineSet :=
  {| ms_TypeMeta := ms_TypeMeta ms; ms_Meta := ms_Meta ms; ms_Status := ms_Status ms;
     ms_Spec :=
       {| mss_ClusterName := "c"; mss_Replicas := ms_Replicas ms; mss_MinReadySeconds := 0;
          mss_DeletePolicy := ""; mss_Selector := emptySelector;
          mss_Template := {| mt_Meta := {| tm_Labels := ∅; tm_Annotations := ∅ |};
            mt_Spec := {| sp_ClusterName := ""; sp_Bootstrap := sp_Bootstrap emptySpec;
              sp_InfrastructureRef := emptyRef; sp_Version := Some v; sp_ProviderID := None;
              sp_FailureDomain := None; sp_ReadinessGates := []; sp_NodeDrainTimeout := None;
              sp_NodeVolumeDetachTimeout := None; sp_NodeDeletionTimeout := None |} |} |} |}.

(** Ten replicas, of which the old MachineSet has eight and the new one two. *)
Definition demo : State :=
  {| s_heap := {[0%nat := with_version "v1" (sized_ms "old" 8 7 0);
                 1%nat := sized_ms "new" 2 2 1]};
     s_md := rolling_md 10; s_calls := [] |}.

Lemma int32_le z : (z <=? int32_max) = true → z ≤ int32_max.
Proof. apply Z.leb_le. Qed.

Lemma demo_good p : p ∈ [0%nat; 1%nat] → good (s_heap demo) p.
Proof.
  intros [->|[->|[]%elem_of_nil]%elem_of_cons]%elem_of_cons;
    (split; [by eexists|]); vm_compute; repeat split; discriminate.
Qed.

(** The state once the MachineSets of the demonstration are known. *)
Definition demo1 : State :=
  (getAllMachineSetsAndSyncRevision quiet_env [0%nat; 1%nat] true true demo).2.

Lemma demo1_found :
  getAllMachineSetsAndSyncRevision quiet_env [0%nat; 1%nat] true true demo = (Ok (Some 2%nat, [0%nat]), demo1).
Proof.
  unfold demo1. rewrite (surjective_pairing (getAllMachineSetsAndSyncRevision _ _ _ _ demo)) at 1.
  apply (f_equal2 pair); [vm_compute; reflexivity|reflexivity].
Qed.

Lemma rolloutRolling_safe_witness :
  let s' := (rolloutRolling quiet_env [0%nat; 1%nat] true demo).2 in
  reps (s_heap s') 2%nat ≤ 10 ∧
  Z.min 9 (sumZ (avail (s_heap demo1)) [0%nat; 2%nat])
    ≤ sumZ (λ p, Z.min (avail (s_heap demo1) p) (reps (s_heap s') p)) [0%nat; 2%nat].
Proof.
  intros s'. destruct (rolloutRolling_safe quiet_env [0%nat; 1%nat] true 2%nat [0%nat] 10 3 1 demo
    demo1 (rolloutRolling quiet_env [0%nat; 1%nat] true demo).1 s' demo1_found) as (_ & _ & Hnew & _ & Hmin).
  - apply (limits_spec (rolling_md 10)); [vm_compute; reflexivity|].
    apply rolling_md_wf. unfold int32_max. lia.
  - vm_compute. reflexivity.
  - vm_compute. reflexivity.
  - apply (bool_decide_unpack _). vm_compute. exact I.
  - intros p [->|[->|[]%elem_of_nil]%elem_of_cons]%elem_of_cons; split_and!;
      solve [apply (bool_decide_unpack _); vm_compute; exact I|vm_compute; discriminate].
  - vm_compute. discriminate.
  - unfold int32_max. lia.
  - vm_compute. discriminate.
  - apply surjective_pairing.
  - split; [apply Hnew|exact Hmin].
Defined.

Lemma demo_readable : readable (s_md demo).
Proof. split; [by eexists|]. exists 3. by vm_compute. Qed.

Lemma demo_wf : wf_deployment (s_md demo) 10.
Proof. apply rolling_md_wf. unfold int32_max. lia. Qed.

Lemma cleanupUnhealthyReplicas_safe_witness :
  (cleanupUnhealthyReplicas quiet_env [0%nat] 4 demo).1 ≠ Panic.
Proof.
  refine (proj1 (cleanupUnhealthyReplicas_safe quiet_env [0%nat] 4 demo _ _ _ _ demo_readable
    _ (surjective_pairing _))).
  - apply NoDup_singleton.
  - unfold int32_max. lia.
  - intros p ->%list_elem_of_singleton. apply demo_good. left.
Defined.

Lemma scaleDownOld_exact_witness :
  (scaleDownOldMachineSetsForRollingUpdate quiet_env [Some 0%nat; Some 1%nat] [0%nat] demo).1
  ≠ Panic.
Proof.
  refine (proj1 (scaleDownOld_exact quiet_env [0%nat] 1%nat 10 1 demo _ _ demo_wf _ _ _ _ _
    (surjective_pairing _))).
  - vm_compute. reflexivity.
  - apply NoDup_singleton.
  - intros E%list_elem_of_singleton. discriminate E.
  - exact demo_good.
  - vm_compute. discriminate.
Defined.

Lemma reconcileNewMachineSet_surge_witness :
  (reconcileNewMachineSet quiet_env [Some 0%nat; Some 1%nat] 1%nat demo).1 ≠ Panic.
Proof.
  refine (proj1 (reconcileNewMachineSet_surge quiet_env [0%nat] 1%nat 10 3 demo _ _ demo_wf
    _ _ _ _ _ (surjective_pairing _))).
  - vm_compute. reflexivity.
  - unfold int32_max. lia.
  - apply (bool_decide_unpack _). vm_compute. exact I.
  - intros p Hp. destruct (demo_good p Hp) as (Hs & Ha & _). split; [exact Hs|lia].
  - vm_compute. discriminate.
Defined.

Lemma scale_proportionally_total_witness :
  (scale_proportionally quiet_env (s_md demo) 10 (Some 1%nat) [0%nat] demo).1 ≠ Panic.
Proof.
  refine (proj1 (scale_proportionally_total quiet_env (Some 1%nat) [0%nat] 10 3 demo _ _ demo_wf
    _ _ _ (surjective_pairing _))).
  - vm_compute. reflexivity.
  - apply (bool_decide_unpack _). vm_compute. exact I.
  - apply (bool_decide_unpack _). vm_compute. exact I.
Defined.

Lemma cleanupDeployment_safe_witness :
  (cleanupDeployment quiet_env [0%nat] demo).1 ≠ Panic.
Proof.
  refine (proj1 (proj2 (proj2 (cleanupDeployment_safe quiet_env [0%nat] 1 demo _ _ _ _ _
    (surjective_pairing _))))).
  - reflexivity.
  - unfold int32_max. lia.
  - unfold int32_max. simpl. lia.
Defined.

(** The same deployment with a negative history limit. *)
Definition negative_demo : State :=
  {| s_heap := s_heap demo; s_calls := [];
     s_md := {| md_TypeMeta := emptyTypeMeta; md_Meta := emptyMeta; md_Status := emptyMDStatus;
       md_Spec := let sp := md_Spec (s_md demo) in
         {| mds_ClusterName := "c"; mds_Replicas := mds_Replicas sp; mds_RolloutAfter := None;
            mds_Selector := emptySelector; mds_Template := emptyTemplate;
            mds_Strategy := mds_Strategy sp; mds_MinReadySeconds := None;
            mds_RevisionHistoryLimit := Some (-1); mds_Paused := false;
            mds_ProgressDeadlineSeconds := None |} |} |}.

Lemma cleanupDeployment_negative_limit_witness :
  (cleanupDeployment quiet_env [0%nat] negative_demo).1 = Panic.
Proof.
  apply (cleanupDeployment_negative_limit quiet_env [0%nat] (-1) negative_demo).
  - reflexivity.
  - unfold int32_min. lia.
  - unfold int32_max. simpl. lia.
  - intros calls c. reflexivity.
  - intros p ->%list_elem_of_singleton. eexists. reflexivity.
Defined.
