(* ===== verification/Version.v ===== *)
(** * Versions (util/version/version.go)

    Parsing of Kubernetes versions, and the comparison of semantic versions that also looks
    at build tags.  The semver package itself is outside the repository: its operations are
    the class [Semver], with the documented laws the repository relies on. *)

From S2P Require Import Prelude GoStd.
From Stdlib Require Import Ascii.

(** ** Three-way comparisons *)

(** A total preorder given by -1, 0 and 1. *)
Record total_compare {A} (cmp : A → A → Z) : Prop := {
  tc_range : ∀ a b, -1 ≤ cmp a b ≤ 1;
  tc_sym : ∀ a b, cmp b a = - cmp a b;
  tc_trans : ∀ a b c, cmp a b ≤ 0 → cmp b c ≤ 0 → cmp a c ≤ 0;
}.

Section total_compare.
Context {A : Type} (cmp : A → A → Z) (Htc : total_compare cmp).

Lemma tc_refl a : cmp a a = 0.
Proof. pose proof (tc_sym cmp Htc a a). lia. Qed.

(** Elements that compare equal are interchangeable. *)
Lemma tc_eq a b c : cmp a b = 0 → cmp a c = cmp b c.
Proof.
  intros E. pose proof (tc_sym cmp Htc a b). pose proof (tc_sym cmp Htc a c).
  pose proof (tc_sym cmp Htc b c). pose proof (tc_range cmp Htc a c).
  pose proof (tc_range cmp Htc b c). pose proof (tc_trans cmp Htc a b c).
  pose proof (tc_trans cmp Htc b a c). pose proof (tc_trans cmp Htc c a b).
  pose proof (tc_trans cmp Htc c b a). lia.
Qed.

Lemma tc_eq_r a b c : cmp a b = 0 → cmp c a = cmp c b.
Proof. intros E. rewrite (tc_sym cmp Htc a c), (tc_sym cmp Htc b c). by rewrite (tc_eq a b c). Qed.

Lemma tc_lt a b c : cmp a b = -1 → cmp b c = -1 → cmp a c = -1.
Proof.
  intros E F. pose proof (tc_range cmp Htc a c). pose proof (tc_sym cmp Htc a c).
  pose proof (tc_sym cmp Htc b c). pose proof (tc_trans cmp Htc a b c).
  pose proof (tc_trans cmp Htc c a b). lia.
Qed.
End total_compare.

(** ** github.com/blang/semver *)

Record PRVersion := { pr_VersionStr : string; pr_VersionNum : Z; pr_IsNum : bool }.

Record semver_Version := {
  v_Major : Z;
  v_Minor : Z;
  v_Patch : Z;
  v_Pre : list PRVersion;
  v_Build : list string;
}.

#[global] Instance PRVersion_eq_dec : EqDecision PRVersion.
Proof. solve_decision. Defined.
#[global] Instance semver_Version_eq_dec : EqDecision semver_Version.
Proof. solve_decision. Defined.

Definition v_set_Pre (pre : list PRVersion) (v : semver_Version) : semver_Version :=
  {| v_Major := v_Major v; v_Minor := v_Minor v; v_Patch := v_Patch v; v_Pre := pre;
     v_Build := v_Build v |}.

Definition v_set_Build (build : list string) (v : semver_Version) : semver_Version :=
  {| v_Major := v_Major v; v_Minor := v_Minor v; v_Patch := v_Patch v; v_Pre := v_Pre v;
     v_Build := build |}.

Definition semver_zero : semver_Version :=
  {| v_Major := 0; v_Minor := 0; v_Patch := 0; v_Pre := []; v_Build := [] |}.

(** The precedence of semantic versioning: -1, 0 or 1, a total preorder that ignores build
    metadata and looks at major, minor and patch first.  [ParseTolerant] answers nothing on
    a parse error, where the package returns the zero version with the error. *)
Class Semver := {
  semver_Compare : semver_Version → semver_Version → Z;
  ParseTolerant : string → option semver_Version;
  semver_Compare_total : total_compare semver_Compare;
  semver_Compare_build : ∀ a b build, semver_Compare (v_set_Build build a) b = semver_Compare a b;
  semver_Compare_core : ∀ a b, v_Major a < v_Major b ∨
    v_Major a = v_Major b ∧ (v_Minor a < v_Minor b ∨
      v_Minor a = v_Minor b ∧ v_Patch a < v_Patch b) → semver_Compare a b = -1;
}.

(** ** Parsing *)

Definition is_digit (c : ascii) : bool := in_range c 48 57.

(** [[-0-9a-zA-Z_\.+]] *)
Definition is_suffix_char (c : ascii) : bool :=
  Ascii.eqb c "-" || is_digit c || in_range c 97 122 || in_range c 65 90 || Ascii.eqb c "_"
  || Ascii.eqb c "." || Ascii.eqb c "+".

Fixpoint string_forallb (f : ascii → bool) (s : string) : bool :=
  match s with EmptyString => true | String c s => f c && string_forallb f s end.

Fixpoint span_digits (s : string) : string * string :=
  match s with
  | EmptyString => (EmptyString, EmptyString)
  | String c s' =>
      if is_digit c then let '(d, r) := span_digits s' in (String c d, r)
      else (EmptyString, s)
  end.

(** The group of a number, 0 or digits that do not start with 0, as far as it goes: taking
    fewer digits never helps what follows in the expressions, a dot or characters that
    include the digits. *)
Definition scan_number (s : string) : option (string * string) :=
  match s with
  | EmptyString => None
  | String c s' =>
      if Ascii.eqb c "0" then Some ("0"%string, s')
      else if is_digit c then let '(d, r) := span_digits s' in Some (String c d, r)
      else None
  end.

Definition scan_byte (b : ascii) (s : string) : option string :=
  match s with
  | String c s' => if Ascii.eqb c b then Some s' else None
  | EmptyString => None
  end.

Definition scan_optional (b : ascii) (s : string) : string := default s (scan_byte b s).

(** The groups 1 to 4 of both expressions after the [v]. *)
Definition scan_version (s : string) : option (string * string * string * string) :=
  '(major, s) ← scan_number s;
  s ← scan_byte "." s;
  '(minor, s) ← scan_number s;
  s ← scan_byte "." s;
  '(patch, s) ← scan_number s;
  if string_forallb is_suffix_char s then Some (major, minor, patch, s) else None.

(** [KubeSemver.FindStringSubmatch] *)
Definition KubeSemver (s : string) : option (string * string * string * string) :=
  s ← scan_byte "v" s; scan_version s.

(** [KubeSemverTolerant.FindStringSubmatch] *)
Definition KubeSemverTolerant (s : string) : option (string * string * string * string) :=
  scan_version (scan_optional "v" s).

Definition parse_component (what version group : string) : result Z :=
  match ParseUint group 64 with
  | (n, None) => Ok n
  | (_, Some _) =>
      Err (Wrap ("failed to parse " +:+ what +:+ " version from " +:+ version)
        (Errorf ("strconv.ParseUint: " +:+ group)))
  end.

Definition parseMajorMinorPatch (version : string) (tolerant : bool) : result semver_Version :=
  match (if tolerant then KubeSemverTolerant version else KubeSemver version) with
  | None => Err (Errorf ("failed to parse major.minor.patch from " +:+ version))
  | Some (g1, g2, g3, _) =>
      major ← parse_component "major" version g1;
      minor ← parse_component "minor" version g2;
      patch ← parse_component "patch" version g3;
      Ok {| v_Major := major; v_Minor := minor; v_Patch := patch; v_Pre := []; v_Build := [] |}
  end.

Definition ParseMajorMinorPatch (version : string) : result semver_Version :=
  parseMajorMinorPatch version false.

Definition ParseMajorMinorPatchTolerant (version : string) : result semver_Version :=
  parseMajorMinorPatch version true.

(** ** Comparison *)

Definition numbers : string := "01234567890".

(** Every character of [set] is a single byte, so that looking at bytes is looking at
    runes. *)
Definition containsOnly (s set : string) : bool := string_forallb (ContainsByte set) s.

Record buildIdentifier := {
  IdentifierInt : Z;
  IdentifierStr : string;
  IsNum : bool;
}.

Definition newBuildIdentifier (s : string) : buildIdentifier :=
  if containsOnly s numbers
  then {| IdentifierInt := (ParseUint s 64).1; IdentifierStr := ""; IsNum := true |}
  else {| IdentifierInt := 0; IdentifierStr := s; IsNum := false |}.

Definition newBuildIdentifiers (ids : list string) : list buildIdentifier :=
  newBuildIdentifier <$> ids.

Definition buildIdentifier_compare (v o : buildIdentifier) : Z :=
  if IsNum v && negb (IsNum o) then -1
  else if negb (IsNum v) && IsNum o then 1
  else if IsNum v && IsNum o then
    if IdentifierInt v <? IdentifierInt o then -1
    else if IdentifierInt v =? IdentifierInt o then 0 else 1
  else if String.eqb (IdentifierStr v) (IdentifierStr o) then 0 else 2.

Fixpoint buildIdentifiers_compare (v o : list buildIdentifier) : Z :=
  match v, o with
  | x :: v', y :: o' =>
      let comp := buildIdentifier_compare x y in
      if negb (comp =? 0) then comp else buildIdentifiers_compare v' o'
  | [], [] => 0
  | [], _ :: _ => -1
  | _ :: _, [] => 1
  end.

Record comparer := { buildTags : bool; withoutPreReleases : bool }.

Definition CompareOption : Type := comparer → comparer.

Definition WithBuildTags : CompareOption := λ c,
  {| buildTags := true; withoutPreReleases := withoutPreReleases c |}.

Definition WithoutPreReleases : CompareOption := λ c,
  {| buildTags := buildTags c; withoutPreReleases := true |}.

Definition Compare `{Semver} (a b : semver_Version) (options : list CompareOption) : Z :=
  let c := foldl (λ c o, o c) {| buildTags := false; withoutPreReleases := false |} options in
  let a := if withoutPreReleases c then v_set_Pre [] a else a in
  let b := if withoutPreReleases c then v_set_Pre [] b else b in
  if buildTags c then
    let comp := semver_Compare a b in
    if negb (comp =? 0) then comp
    else buildIdentifiers_compare (newBuildIdentifiers (v_Build a))
           (newBuildIdentifiers (v_Build b))
  else semver_Compare a b.

(** ** Theory of the comparison *)

(** What a comparison answers when its arguments are exchanged; 2 stands for versions of
    which neither is lower. *)
Definition opposite (comp : Z) : Z := if comp =? 2 then 2 else - comp.

Lemma buildIdentifier_compare_refl x : buildIdentifier_compare x x = 0.
Proof.
  unfold buildIdentifier_compare. rewrite Z.ltb_irrefl, Z.eqb_refl, String.eqb_refl.
  by destruct (IsNum x).
Qed.

Lemma buildIdentifier_compare_sym x y :
  buildIdentifier_compare y x = opposite (buildIdentifier_compare x y).
Proof.
  unfold buildIdentifier_compare. rewrite (String.eqb_sym (IdentifierStr y)).
  destruct (IsNum x), (IsNum y); simpl; try done.
  - destruct (Z.ltb_spec (IdentifierInt x) (IdentifierInt y)),
      (Z.eqb_spec (IdentifierInt x) (IdentifierInt y)),
      (Z.ltb_spec (IdentifierInt y) (IdentifierInt x)),
      (Z.eqb_spec (IdentifierInt y) (IdentifierInt x)); simpl; lia || done.
  - by destruct (String.eqb (IdentifierStr x) (IdentifierStr y)).
Qed.

(** Identifiers that compare equal are interchangeable. *)
Lemma buildIdentifier_compare_eq x y z :
  buildIdentifier_compare x y = 0 → buildIdentifier_compare x z = buildIdentifier_compare y z.
Proof.
  unfold buildIdentifier_compare. destruct (IsNum x), (IsNum y), (IsNum z); simpl; try done.
  - destruct (Z.eqb_spec (IdentifierInt x) (IdentifierInt y)) as [E|]; [by rewrite E|].
    by destruct (IdentifierInt x <? IdentifierInt y).
  - by destruct (String.eqb_spec (IdentifierStr x) (IdentifierStr y)) as [->|].
Qed.

Lemma buildIdentifier_compare_trans x y z :
  buildIdentifier_compare x y = -1 → buildIdentifier_compare y z = -1 →
  buildIdentifier_compare x z = -1.
Proof.
  unfold buildIdentifier_compare. destruct (IsNum x), (IsNum y), (IsNum z); simpl; try done;
    try (case_one; done).
  repeat case_one; reflect_bool; lia || done.
Qed.

Lemma buildIdentifier_compare_range x y :
  buildIdentifier_compare x y = -1 ∨ buildIdentifier_compare x y = 0 ∨
  buildIdentifier_compare x y = 1 ∨ buildIdentifier_compare x y = 2.
Proof. unfold buildIdentifier_compare. repeat case_one; auto. Qed.

Lemma buildIdentifiers_compare_refl v : buildIdentifiers_compare v v = 0.
Proof. induction v as [|x v IH]; [done|]. simpl. by rewrite buildIdentifier_compare_refl. Qed.

Lemma buildIdentifiers_compare_sym v o :
  buildIdentifiers_compare o v = opposite (buildIdentifiers_compare v o).
Proof.
  revert o. induction v as [|x v IH]; intros [|y o]; try done. simpl.
  rewrite (buildIdentifier_compare_sym x y), IH.
  destruct (buildIdentifier_compare_range x y) as [E|[E|[E|E]]]; by rewrite E.
Qed.

Lemma buildIdentifiers_compare_eq v o z :
  buildIdentifiers_compare v o = 0 → buildIdentifiers_compare v z = buildIdentifiers_compare o z.
Proof.
  revert o z. induction v as [|x v IH]; intros [|y o] z; try done. simpl.
  destruct (Z.eqb_spec (buildIdentifier_compare x y) 0) as [E|]; simpl; [|done].
  intros Ho. destruct z as [|t z]; [done|].
  by rewrite (buildIdentifier_compare_eq x y t E), (IH o z Ho).
Qed.

Lemma buildIdentifiers_compare_trans v o z :
  buildIdentifiers_compare v o = -1 → buildIdentifiers_compare o z = -1 →
  buildIdentifiers_compare v z = -1.
Proof.
  revert o z. induction v as [|x v IH]; intros [|y o] [|t z]; try done. simpl.
  destruct (Z.eqb_spec (buildIdentifier_compare x y) 0) as [E|Hne]; simpl.
  - rewrite (buildIdentifier_compare_eq x y t E). intros Hvo.
    destruct (Z.eqb_spec (buildIdentifier_compare y t) 0); simpl; [eauto|done].
  - intros Hxy. destruct (Z.eqb_spec (buildIdentifier_compare y t) 0) as [E|]; simpl.
    + intros _. pose proof (buildIdentifier_compare_eq y t x E) as Ex.
      rewrite (buildIdentifier_compare_sym x y), (buildIdentifier_compare_sym x t), Hxy in Ex.
      destruct (buildIdentifier_compare_range x t) as [F|[F|[F|F]]]; rewrite F in *; done.
    + intros Hyt. by rewrite (buildIdentifier_compare_trans x y t Hxy Hyt).
Qed.

Section compare.
Context `{Semver}.

Definition with_build (a b : semver_Version) : Z := Compare a b [WithBuildTags].

Lemma with_build_unfold a b :
  with_build a b = if negb (semver_Compare a b =? 0) then semver_Compare a b
    else buildIdentifiers_compare (newBuildIdentifiers (v_Build a)) (newBuildIdentifiers (v_Build b)).
Proof. done. Qed.

Lemma with_build_refl a : with_build a a = 0.
Proof.
  by rewrite with_build_unfold, (tc_refl _ semver_Compare_total), buildIdentifiers_compare_refl.
Qed.

Lemma with_build_sym a b : with_build b a = opposite (with_build a b).
Proof.
  rewrite !with_build_unfold, (tc_sym _ semver_Compare_total a b), buildIdentifiers_compare_sym.
  pose proof (tc_range _ semver_Compare_total a b) as Hr.
  destruct (Z.eqb_spec (semver_Compare a b) 0) as [E|]; [by rewrite E|].
  destruct (Z.eqb_spec (- semver_Compare a b) 0); [lia|]. unfold opposite. simpl.
  by destruct (Z.eqb_spec (semver_Compare a b) 2); [lia|].
Qed.

Lemma with_build_trans a b c : with_build a b = -1 → with_build b c = -1 → with_build a c = -1.
Proof.
  rewrite !with_build_unfold.
  destruct (Z.eqb_spec (semver_Compare a b) 0) as [E|]; simpl.
  - rewrite (tc_eq _ semver_Compare_total a b c E). case_one; [done|]. apply buildIdentifiers_compare_trans.
  - intros E. destruct (Z.eqb_spec (semver_Compare b c) 0) as [F|]; simpl.
    + intros _. pose proof (tc_eq _ semver_Compare_total b c a F) as G.
      rewrite (tc_sym _ semver_Compare_total a b), (tc_sym _ semver_Compare_total a c), E in G.
      by replace (semver_Compare a c) with (-1) by lia.
    + intros F. by rewrite (tc_lt _ semver_Compare_total a b c E F).
Qed.

Lemma with_build_eq a b c : with_build a b = 0 → with_build a c = with_build b c.
Proof.
  rewrite !with_build_unfold.
  destruct (Z.eqb_spec (semver_Compare a b) 0) as [E|]; simpl; [|done]. intros Hb.
  by rewrite (tc_eq _ semver_Compare_total a b c E), (buildIdentifiers_compare_eq _ _ _ Hb).
Qed.

Lemma with_build_range a b : -1 ≤ with_build a b ≤ 2.
Proof.
  rewrite with_build_unfold. pose proof (tc_range _ semver_Compare_total a b). case_one; [lia|].
  generalize (newBuildIdentifiers (v_Build a)) (newBuildIdentifiers (v_Build b)).
  intros v. induction v as [|x v IH]; intros [|y o]; simpl; try lia.
  case_one; [|apply IH]. destruct (buildIdentifier_compare_range x y) as [->|[->|[->| ->]]]; lia.
Qed.
End compare.

(** ** Theory of parsing *)

(** The string does not go on with a digit. *)
Definition ends_number (s : string) : Prop :=
  match s with String c _ => is_digit c = false | EmptyString => True end.

Lemma is_digit_of c : is_digit c = true ↔ is_Some (digit_of c).
Proof.
  unfold is_digit, in_range, digit_of. split.
  - intros [?%N.leb_le ?%N.leb_le]%andb_true_iff.
    rewrite (proj2 (Z.leb_le _ _)), (proj2 (Z.leb_le _ _)) by lia. eauto.
  - intros [d Hd]. case_match eqn:E; [|done].
    apply andb_true_iff in E as [?%Z.leb_le ?%Z.leb_le].
    apply andb_true_iff. rewrite !N.leb_le. lia.
Qed.

Lemma digit_char_is_digit d : 0 ≤ d < 10 → is_digit (digit_char d) = true.
Proof. intros Hd. apply is_digit_of. rewrite digit_of_char by done. eauto. Qed.

Lemma digit_char_zero d : 0 < d < 10 → Ascii.eqb (digit_char d) "0" = false.
Proof.
  intros Hd. apply Ascii.eqb_neq. intros E.
  assert (digit_of (digit_char d) = Some 0) as F by (by rewrite E).
  rewrite digit_of_char in F by lia. injection F. lia.
Qed.

Lemma span_digits_app d r :
  string_forallb is_digit d = true → ends_number r → span_digits (d +:+ r) = (d, r).
Proof.
  intros Hd Hr. induction d as [|c d IH].
  - destruct r as [|c r]; [done|]. simpl in Hr |- *. by rewrite Hr.
  - simpl in Hd. apply andb_true_iff in Hd as [Hc Hd].
    change (String c d +:+ r) with (String c (d +:+ r)). simpl. by rewrite Hc, IH.
Qed.

Lemma span_digits_spec s d r :
  span_digits s = (d, r) → s = d +:+ r ∧ string_forallb is_digit d = true ∧ ends_number r.
Proof.
  revert d r. induction s as [|c s IH]; intros d r; simpl; [by intros [= <- <-]|].
  destruct (is_digit c) eqn:Hc.
  - destruct (span_digits s) as [d' r'] eqn:E. intros [= <- <-].
    destruct (IH d' r' eq_refl) as (-> & Hd & Hr). simpl. by rewrite Hc, Hd.
  - intros [= <- <-]. done.
Qed.

(** A formatted positive number starts with a digit that is not 0, and has digits only. *)
Lemma format_digits_canonical fuel n acc :
  0 < n < 2 ^ Z.of_nat fuel → string_forallb is_digit acc = true →
  ∃ c s, format_digits fuel n acc = String c s ∧ is_digit c = true ∧ Ascii.eqb c "0" = false ∧
    string_forallb is_digit s = true.
Proof.
  revert n acc. induction fuel as [|fuel IH]; intros n acc Hn Hacc; [simpl in Hn; lia|].
  simpl. pose proof (Z.mod_pos_bound n 10). destruct (Z.ltb_spec n 10).
  - rewrite Z.mod_small by lia. eexists _, _. split; [done|].
    split; [apply digit_char_is_digit; lia|]. split; [apply digit_char_zero; lia|done].
  - apply IH.
    + rewrite Nat2Z.inj_succ, Z.pow_succ_r in Hn by lia.
      split; [apply Z.div_str_pos; lia|]. apply Z.div_lt_upper_bound; lia.
    + simpl. rewrite digit_char_is_digit by lia. done.
Qed.

Lemma scan_number_FormatUint n r :
  0 ≤ n → n = 0 ∨ ends_number r → scan_number (FormatUint n +:+ r) = Some (FormatUint n, r).
Proof.
  intros Hn Hr. destruct (decide (n = 0)) as [->|Hne]; [done|].
  destruct Hr as [|Hr]; [done|]. pose proof (FormatUint_fuel n Hn).
  destruct (format_digits_canonical (S (Z.to_nat (Z.log2 n))) n "") as (c & s & E & Hc & H0 & Hs);
    [lia|done|].
  unfold FormatUint. rewrite E. change (String c s +:+ r) with (String c (s +:+ r)).
  simpl. by rewrite H0, Hc, span_digits_app.
Qed.

Lemma scan_number_spec s d r n :
  scan_number s = Some (d, r) → ParseUint d 64 = (n, None) →
  s = FormatUint n +:+ r ∧ 0 ≤ n < 2 ^ 64 ∧ (n = 0 ∨ ends_number r) ∧ d = FormatUint n.
Proof.
  destruct s as [|c s]; [done|]. unfold scan_number.
  destruct (Ascii.eqb_spec c "0") as [->|Hc].
  { intros [= <- <-] [= <-]. split_and!; try done. by left. }
  destruct (is_digit c) eqn:Hdig; [|done]. destruct (span_digits s) as [d' r'] eqn:E.
  intros [= <- <-] Hp. apply span_digits_spec in E as (-> & Hd & Hr).
  apply is_digit_of in Hdig as [k Hk]. unfold ParseUint, parse_loop in Hp. rewrite Hk in Hp.
  fold parse_loop in Hp. destruct (digit_of_inv _ _ Hk) as [Hk' ->].
  assert (k ≠ 0) by (intros ->; done).
  change (0 * 10 + k) with k in Hp. case_match eqn:Hm; [done|].
  apply Z.ltb_ge in Hm. assert (0 < k) as Hpos by lia.
  destruct (parse_loop_format _ _ _ _ Hpos Hp) as [Ef Hle].
  assert (n ≤ 2 ^ 64 - 1) by (eapply parse_loop_range; [exact Hp|lia]).
  assert (FormatUint k = String (digit_char k) "") as Ek.
  { unfold FormatUint. simpl. rewrite (proj2 (Z.ltb_lt _ _)), Z.mod_small by lia. done. }
  rewrite Ef, Ek. split_and!; [done|lia|lia|by right|done].
Qed.

Lemma scan_byte_spec b s r : scan_byte b s = Some r ↔ s = String b r.
Proof.
  destruct s as [|c s]; simpl; [by split|]. destruct (Ascii.eqb_spec c b) as [->|]; split; congruence.
Qed.

Definition version_text (v : semver_Version) (suffix : string) : string :=
  FormatUint (v_Major v) +:+ String "." (FormatUint (v_Minor v)
    +:+ String "." (FormatUint (v_Patch v) +:+ suffix)).

(** What a version of which only major, minor and patch count is. *)
Record core_version (v : semver_Version) : Prop := {
  cv_Major : 0 ≤ v_Major v < 2 ^ 64;
  cv_Minor : 0 ≤ v_Minor v < 2 ^ 64;
  cv_Patch : 0 ≤ v_Patch v < 2 ^ 64;
  cv_Pre : v_Pre v = [];
  cv_Build : v_Build v = [];
}.

Definition valid_suffix (v : semver_Version) (suffix : string) : Prop :=
  string_forallb is_suffix_char suffix = true ∧ (v_Patch v = 0 ∨ ends_number suffix).

Lemma scan_version_text v suffix :
  core_version v → valid_suffix v suffix →
  scan_version (version_text v suffix)
    = Some (FormatUint (v_Major v), FormatUint (v_Minor v), FormatUint (v_Patch v), suffix).
Proof.
  intros [? ? ? ? ?] [Hs Hp]. unfold scan_version, version_text.
  rewrite scan_number_FormatUint by (lia || by right). simpl.
  rewrite scan_number_FormatUint by (lia || by right). simpl.
  rewrite scan_number_FormatUint by (lia || done). simpl. by rewrite Hs.
Qed.

Lemma parse_component_Ok what version group n :
  parse_component what version group = Ok n ↔ ParseUint group 64 = (n, None).
Proof.
  unfold parse_component. destruct (ParseUint group 64) as [m [e|]]; split; congruence.
Qed.

Lemma scan_version_inv s g1 g2 g3 g4 a b c :
  scan_version s = Some (g1, g2, g3, g4) →
  ParseUint g1 64 = (a, None) → ParseUint g2 64 = (b, None) → ParseUint g3 64 = (c, None) →
  let v := {| v_Major := a; v_Minor := b; v_Patch := c; v_Pre := []; v_Build := [] |} in
  core_version v ∧ valid_suffix v g4 ∧ s = version_text v g4.
Proof.
  unfold scan_version. intros E Ha Hb Hc.
  destruct (scan_number s) as [[d1 s1]|] eqn:E1; simpl in E; [|done].
  destruct (scan_byte "." s1) as [t1|] eqn:F1; simpl in E; [|done].
  destruct (scan_number t1) as [[d2 s2]|] eqn:E2; simpl in E; [|done].
  destruct (scan_byte "." s2) as [t2|] eqn:F2; simpl in E; [|done].
  destruct (scan_number t2) as [[d3 s3]|] eqn:E3; simpl in E; [|done].
  case_match eqn:Hs; [|done]. injection E as -> -> -> ->.
  apply scan_byte_spec in F1 as ->. apply scan_byte_spec in F2 as ->.
  destruct (scan_number_spec _ _ _ _ E1 Ha) as (-> & ? & _ & _).
  destruct (scan_number_spec _ _ _ _ E2 Hb) as (-> & ? & _ & _).
  destruct (scan_number_spec _ _ _ _ E3 Hc) as (-> & ? & Hend & _).
  simpl. split; [by split|]. split; [by split|done].
Qed.

Lemma scan_optional_inv b s : s = String b (scan_optional b s) ∨ s = scan_optional b s.
Proof.
  unfold scan_optional. destruct (scan_byte b s) as [r|] eqn:E; simpl; [left|by right].
  by apply scan_byte_spec.
Qed.

Lemma FormatUint_head n : 0 ≤ n → ∃ c s, FormatUint n = String c s ∧ is_digit c = true.
Proof.
  intros Hn. destruct (FormatUint_cons n) as (c & s & E). exists c, s. split; [done|].
  apply is_digit_of. unfold FormatUint in E. eapply format_digits_head; [|exact E|]; lia.
Qed.

(** A version parses exactly when it is a [v], optional in the tolerant case, three
    decimal numbers of 64 bits without leading zeros separated by dots, and a suffix of
    letters, digits and some punctuation; the parsed version has those numbers and nothing
    of the suffix.  Only after a patch of 0 can the suffix begin with a digit. *)
Theorem parseMajorMinorPatch_iff (s : string) (tolerant : bool) (v : semver_Version) :
  parseMajorMinorPatch s tolerant = Ok v ↔
  core_version v ∧ ∃ suffix, valid_suffix v suffix ∧
    (s = String "v" (version_text v suffix) ∨ tolerant = true ∧ s = version_text v suffix).
Proof.
  unfold parseMajorMinorPatch. split.
  - intros E. destruct (if tolerant then _ else _) as [[[[g1 g2] g3] g4]|] eqn:Es; [|done].
    destruct (parse_component "major" s g1) as [a| |] eqn:Ea; simpl in E; try done.
    destruct (parse_component "minor" s g2) as [b| |] eqn:Eb; simpl in E; try done.
    destruct (parse_component "patch" s g3) as [c| |] eqn:Ec; simpl in E; try done.
    injection E as <-. rewrite parse_component_Ok in Ea, Eb, Ec.
    destruct tolerant; [unfold KubeSemverTolerant in Es|unfold KubeSemver in Es].
    + destruct (scan_version_inv _ _ _ _ _ _ _ _ Es Ea Eb Ec) as (Hv & Hs & Et).
      split; [done|]. exists g4. split; [done|]. rewrite <- Et.
      destruct (scan_optional_inv "v" s); auto.
    + destruct (scan_byte "v" s) as [r|] eqn:Er; simpl in Es; [|done].
      destruct (scan_version_inv _ _ _ _ _ _ _ _ Es Ea Eb Ec) as (Hv & Hs & Et).
      split; [done|]. exists g4. split; [done|]. left. rewrite <- Et. by apply scan_byte_spec.
  - intros (Hv & suffix & Hs & Hshape).
    assert ((if tolerant then KubeSemverTolerant s else KubeSemver s) =
      scan_version (version_text v suffix)) as ->.
    { destruct Hshape as [->|[-> ->]]; [by destruct tolerant|].
      unfold KubeSemverTolerant, scan_optional, version_text.
      destruct (FormatUint_head (v_Major v)) as (c & t & -> & Hc); [apply Hv|].
      change (String c t +:+ ?r) with (String c (t +:+ r)). simpl.
      destruct (Ascii.eqb_spec c "v") as [->|]; done. }
    rewrite scan_version_text by done.
    destruct v as [a b c pre build], Hv as [Ha Hb Hc Hpre Hbuild]; simpl in *; subst.
    unfold parse_component. by rewrite !ParseUint_FormatUint.
Qed.

(** Comparing versions with their build tags is a strict partial order whose answers
    agree when the arguments are exchanged, with 2 for versions of which neither is lower,
    and which refines the precedence of the versions. *)
Theorem Compare_build_order `{Semver} (a b c : semver_Version) :
  let cmp x y := Compare x y [WithBuildTags] in
  cmp a a = 0 ∧ cmp b a = opposite (cmp a b) ∧ -1 ≤ cmp a b ≤ 2 ∧
  (cmp a b = -1 → cmp b c = -1 → cmp a c = -1) ∧
  (semver_Compare a b ≠ 0 → cmp a b = semver_Compare a b) ∧
  (cmp a b = 2 → semver_Compare a b = 0).
Proof.
  change (λ x y, Compare x y [WithBuildTags]) with with_build. cbv zeta. split_and!.
  - apply with_build_refl.
  - apply with_build_sym.
  - apply with_build_range.
  - apply with_build_range.
  - apply with_build_trans.
  - intros Hne. rewrite with_build_unfold. by destruct (Z.eqb_spec (semver_Compare a b) 0).
  - rewrite with_build_unfold. pose proof (tc_range _ semver_Compare_total a b).
    destruct (Z.eqb_spec (semver_Compare a b) 0); simpl; lia.
Qed.

(** ** An instance of the interface *)

Definition compare_by {A} (less : A → A → bool) (a b : A) : Z :=
  if less a b then -1 else if less b a then 1 else 0.

Lemma total_compare_by {A} (less : A → A → bool) :
  strict_weak less → total_compare (compare_by less).
Proof.
  intros Hsw. split; unfold compare_by.
  - intros a b. repeat case_one; lia.
  - intros a b. pose proof (sw_asym less Hsw a b). repeat case_one; naive_solver.
  - intros a b c Hab Hbc. pose proof (sw_negtrans less Hsw a b c) as Hn.
    pose proof (sw_asym less Hsw a b). pose proof (sw_asym less Hsw b c).
    destruct (less a c); [lia|].
    destruct (less b a) eqn:Eba; [destruct (less a b); [naive_solver|lia]|].
    destruct (less c b) eqn:Ecb; [destruct (less b c); [naive_solver|lia]|].
    rewrite Hn by done. lia.
Qed.

Definition then_by {A} (c1 c2 : A → A → Z) (a b : A) : Z :=
  if c1 a b =? 0 then c2 a b else c1 a b.

Lemma total_then_by {A} (c1 c2 : A → A → Z) :
  total_compare c1 → total_compare c2 → total_compare (then_by c1 c2).
Proof.
  intros H1 H2. split; unfold then_by.
  - intros a b. pose proof (tc_range c1 H1 a b). pose proof (tc_range c2 H2 a b). case_one; lia.
  - intros a b. rewrite (tc_sym c1 H1 a b), (tc_sym c2 H2 a b).
    destruct (Z.eqb_spec (- c1 a b) 0), (Z.eqb_spec (c1 a b) 0); lia.
  - intros a b c. pose proof (tc_eq c1 H1 a b c). pose proof (tc_eq_r c1 H1 b c a).
    pose proof (tc_trans c1 H1 a b c). pose proof (tc_trans c2 H2 a b c).
    pose proof (tc_lt c1 H1 a b c). pose proof (tc_range c1 H1 a b).
    pose proof (tc_range c1 H1 b c).
    destruct (Z.eqb_spec (c1 a b) 0), (Z.eqb_spec (c1 b c) 0), (Z.eqb_spec (c1 a c) 0); lia.
Qed.

Definition compare_on {A B} (f : A → B) (cmp : B → B → Z) (a b : A) : Z := cmp (f a) (f b).

Lemma total_compare_on {A B} (f : A → B) (cmp : B → B → Z) :
  total_compare cmp → total_compare (compare_on f cmp).
Proof. intros Htc. split; intros *; apply Htc. Qed.

Fixpoint list_compare {A} (cmp : A → A → Z) (l k : list A) : Z :=
  match l, k with
  | [], [] => 0
  | [], _ :: _ => -1
  | _ :: _, [] => 1
  | x :: l, y :: k => if cmp x y =? 0 then list_compare cmp l k else cmp x y
  end.

Lemma total_list_compare {A} (cmp : A → A → Z) :
  total_compare cmp → total_compare (list_compare cmp).
Proof.
  intros Htc. split.
  - intros l. induction l as [|x l IH]; intros [|y k]; simpl; try lia.
    pose proof (tc_range cmp Htc x y). case_one; [apply IH|lia].
  - intros l. induction l as [|x l IH]; intros [|y k]; simpl; try lia.
    rewrite (tc_sym cmp Htc x y), IH.
    destruct (Z.eqb_spec (- cmp x y) 0), (Z.eqb_spec (cmp x y) 0); lia.
  - intros l. induction l as [|x l IH]; intros [|y k] [|z m]; simpl; try lia.
    pose proof (tc_eq cmp Htc x y z). pose proof (tc_eq_r cmp Htc y z x).
    pose proof (tc_lt cmp Htc x y z). pose proof (tc_range cmp Htc x y).
    pose proof (tc_range cmp Htc y z). specialize (IH k m).
    destruct (Z.eqb_spec (cmp x y) 0), (Z.eqb_spec (cmp y z) 0), (Z.eqb_spec (cmp x z) 0); lia.
Qed.


(** Numeric identifiers come before alphanumeric ones. *)
Definition pr_compare : PRVersion → PRVersion → Z :=
  then_by (compare_by (λ a b, (if pr_IsNum a then 0 else 1) <? (if pr_IsNum b then 0 else 1)))
    (then_by (compare_by (λ a b, pr_VersionNum a <? pr_VersionNum b))
      (compare_by (λ a b, string_ltb (pr_VersionStr a) (pr_VersionStr b)))).

Lemma total_pr_compare : total_compare pr_compare.
Proof.
  unfold pr_compare. apply total_then_by; [|apply total_then_by]; apply total_compare_by.
  - apply (strict_weak_key (λ a, if pr_IsNum a then 0 else 1)).
  - apply strict_weak_key.
  - apply strict_weak_string.
Qed.

Definition release (v : semver_Version) : Z := match v_Pre v with [] => 1 | _ => 0 end.

(** A release comes after its pre-releases. *)
Definition precedence : semver_Version → semver_Version → Z :=
  then_by (compare_by (λ a b, v_Major a <? v_Major b))
    (then_by (compare_by (λ a b, v_Minor a <? v_Minor b))
      (then_by (compare_by (λ a b, v_Patch a <? v_Patch b))
        (then_by (compare_by (λ a b, release a <? release b))
          (compare_on v_Pre (list_compare pr_compare))))).

Lemma total_precedence : total_compare precedence.
Proof.
  unfold precedence. repeat apply total_then_by;
    try (apply total_compare_by; first [apply strict_weak_key
      | apply (strict_weak_key release)]).
  apply total_compare_on, total_list_compare, total_pr_compare.
Qed.

Definition pr_of (s : string) : PRVersion :=
  if containsOnly s numbers
  then {| pr_VersionStr := ""; pr_VersionNum := (ParseUint s 64).1; pr_IsNum := true |}
  else {| pr_VersionStr := s; pr_VersionNum := 0; pr_IsNum := false |}.

(** Three numbers, then pre-release identifiers after a hyphen, then build identifiers after
    a plus sign. *)
Definition parse_semver (s : string) : option semver_Version :=
  let parts := Split s "+" in
  let core := hd ""%string parts in
  let build := match tl parts with [] => [] | rest => Split (Join rest "+") "." end in
  '(g1, g2, g3, suffix) ← KubeSemverTolerant core;
  let pre := match suffix with String "-" r => Split r "." | _ => [] end in
  Some {| v_Major := (ParseUint g1 64).1; v_Minor := (ParseUint g2 64).1;
          v_Patch := (ParseUint g3 64).1; v_Pre := pr_of <$> pre; v_Build := build |}.

Lemma precedence_core a b :
  v_Major a < v_Major b ∨ v_Major a = v_Major b ∧ (v_Minor a < v_Minor b ∨
    v_Minor a = v_Minor b ∧ v_Patch a < v_Patch b) → precedence a b = -1.
Proof.
  intros Hlt. unfold precedence, then_by, compare_by.
  destruct Hlt as [Hlt|[-> [Hlt|[-> Hlt]]]]; rewrite ?Z.ltb_irrefl; simpl;
    by rewrite (proj2 (Z.ltb_lt _ _) Hlt).
Qed.

#[export] Instance concrete_Semver : Semver | 100 := {
  semver_Compare := precedence;
  ParseTolerant := parse_semver;
  semver_Compare_total := total_precedence;
  semver_Compare_build a b build := eq_refl;
  semver_Compare_core := precedence_core;
}.

(** ** Witnesses *)

Definition version_of (s : string) : semver_Version := default semver_zero (parse_semver s).

Lemma Compare_build_order_witness :
  Compare (version_of "v1.30.0+vendor.1") (version_of "v1.30.0+vendor.3") [WithBuildTags] = -1.
Proof.
  apply (Compare_build_order (version_of "v1.30.0+vendor.1") (version_of "v1.30.0+vendor.2")
    (version_of "v1.30.0+vendor.3")); vm_compute; reflexivity.
Defined.
