(* ===== verification/Collections.v ===== *)
(** * Sets of Machines and their filters (util/collections)

    A set of Machines is a Go map from the name of a Machine to the Machine; filters are
    predicates on possibly nil Machines. *)

From S2P Require Import Prelude GoStd Api Apimachinery Util Conditions Version.
From Stdlib Require Import Ascii.

(** ** Filters (machine_filters.go) *)

Definition Func : Type := option Machine → bool.

Definition And (filters : list Func) : Func := λ machine, forallb (λ f, f machine) filters.
Definition Or (filters : list Func) : Func := λ machine, existsb (λ f, f machine) filters.
Definition Not (mf : Func) : Func := λ machine, negb (mf machine).

(** [if machine == nil { return false }] *)
Definition on_machine (f : Machine → bool) : Func := λ machine,
  match machine with Some m => f m | None => false end.

Definition HasControllerRef `{Apimachinery} : Func :=
  on_machine (λ machine, bool_decide (is_Some (GetControllerOf (m_Meta machine)))).

Fixpoint in_failure_domains (failureDomains : list (option string)) (machine : Machine) : bool :=
  match failureDomains with
  | [] => false
  | None :: rest =>
      if bool_decide (sp_FailureDomain (m_Spec machine) = None) then true
      else in_failure_domains rest machine
  | Some fd :: rest =>
      match sp_FailureDomain (m_Spec machine) with
      | None => in_failure_domains rest machine
      | Some d => if bool_decide (fd = d) then true else in_failure_domains rest machine
      end
  end.

Definition InFailureDomains (failureDomains : list (option string)) : Func :=
  on_machine (in_failure_domains failureDomains).

Definition OwnedMachines `{Apimachinery} (ownerType : TypeMeta) (owner : Meta) : Func :=
  on_machine (λ machine, IsOwnedByObject (m_Meta machine) ownerType owner).

(** The label selectors of apimachinery, as far as the control plane selector uses them: a
    requirement is rejected when its key or a value is not a valid label, [Equals] asks for
    the value, [Exists] for the key, and a selector for all of its requirements. *)
Inductive selection_Operator := selection_Equals | selection_Exists.

Class LabelSelectors := {
  Requirement : Type;
  NewRequirement : string → selection_Operator → list string → result Requirement;
  Selector_Matches : list Requirement → gmap string string → bool;
  Requirement_Matches : Requirement → gmap string string → bool;
  NewRequirement_no_panic : ∀ k op vs, NewRequirement k op vs ≠ Panic;
  Requirement_Equals : ∀ k v r set, NewRequirement k selection_Equals [v] = Ok r →
    Requirement_Matches r set = bool_decide (set !! k = Some v);
  Requirement_Exists : ∀ k r set, NewRequirement k selection_Exists [] = Ok r →
    Requirement_Matches r set = bool_decide (is_Some (set !! k));
  Selector_Matches_all : ∀ rs set,
    Selector_Matches rs set = forallb (λ r, Requirement_Matches r set) rs;
}.

(** The [must] of the function panics on an error. *)
Definition must {A} (r : result A) : result A := match r with Ok a => Ok a | _ => Panic end.

Definition ControlPlaneSelectorForCluster `{LabelSelectors} (clusterName : string) :
    result (list Requirement) :=
  name ← must (NewRequirement ClusterNameLabel selection_Equals [clusterName]);
  controlPlane ← must (NewRequirement MachineControlPlaneLabel selection_Exists []);
  Ok [name; controlPlane].

Definition ControlPlaneMachines `{LabelSelectors} (clusterName : string) : result Func :=
  selector ← ControlPlaneSelectorForCluster clusterName;
  Ok (on_machine (λ machine, Selector_Matches selector (om_Labels (m_Meta machine)))).

Definition AdoptableControlPlaneMachines `{LabelSelectors} `{Apimachinery} (clusterName : string) :
    result Func :=
  f ← ControlPlaneMachines clusterName;
  Ok (And [f; Not HasControllerRef]).

Definition ActiveMachines : Func :=
  on_machine (λ machine, IsZero (om_DeletionTimestamp (m_Meta machine))).

Definition HasDeletionTimestamp : Func :=
  on_machine (λ machine, negb (IsZero (om_DeletionTimestamp (m_Meta machine)))).

Definition IsUnhealthyAndOwnerRemediated : Func :=
  on_machine (λ machine, IsFalse machine MachineHealthCheckSucceededCondition
    && IsFalse machine MachineOwnerRemediatedCondition).

Definition IsUnhealthy : Func :=
  on_machine (λ machine, IsFalse machine MachineHealthCheckSucceededCondition).

Definition MachineAPIServerPodHealthyCondition : ConditionType := "APIServerPodHealthy".
Definition MachineControllerManagerPodHealthyCondition : ConditionType :=
  "ControllerManagerPodHealthy".
Definition MachineSchedulerPodHealthyCondition : ConditionType := "SchedulerPodHealthy".
Definition MachineEtcdPodHealthyCondition : ConditionType := "EtcdPodHealthy".
Definition MachineEtcdMemberHealthyCondition : ConditionType := "EtcdMemberHealthy".

Definition HasUnhealthyControlPlaneComponents (isEtcdManaged : bool) : Func :=
  let controlPlaneMachineHealthConditions :=
    [MachineAPIServerPodHealthyCondition; MachineControllerManagerPodHealthyCondition;
     MachineSchedulerPodHealthyCondition]
    ++ (if isEtcdManaged
        then [MachineEtcdPodHealthyCondition; MachineEtcdMemberHealthyCondition] else []) in
  on_machine (λ machine,
    existsb (λ condition, IsFalse machine condition) controlPlaneMachineHealthConditions).

Definition IsReady : Func := on_machine (λ machine, IsTrue machine ReadyCondition).

Definition ShouldRolloutAfter (reconciliationTime rolloutAfter : option Time) : Func :=
  on_machine (λ machine,
    match reconciliationTime, rolloutAfter with
    | Some _, Some _ =>
        Before (Some (om_CreationTimestamp (m_Meta machine))) rolloutAfter
        && Before rolloutAfter reconciliationTime
    | _, _ => false
    end).

Record RolloutBefore := { CertificatesExpiryDays : option Z }.

(** [time.Duration(days) * 24 * time.Hour], in 64 bits. *)
Definition expiry_window (days : Z) : Z := wrap64 (wrap64 (days * 24) * Hour).

(** A nil reconciliation time is dereferenced. *)
Definition ShouldRolloutBefore (reconciliationTime : option Time)
    (rolloutBefore : option RolloutBefore) (machine : option Machine) : result bool :=
  match rolloutBefore with
  | Some {| CertificatesExpiryDays := Some days |} =>
      match machine with
      | None => Ok false
      | Some m =>
          match st_CertificatesExpiryDate (m_Status m) with
          | None => Ok false
          | Some certsExpiryTime =>
              now ← deref reconciliationTime;
              Ok (certsExpiryTime <? now + expiry_window days)
          end
      end
  | _ => Ok false
  end.

Definition HasAnnotationKey (key : string) : Func :=
  on_machine (λ machine, bool_decide (is_Some (om_Annotations (m_Meta machine) !! key))).

Definition MatchesKubernetesVersion (kubernetesVersion : string) : Func :=
  on_machine (λ machine,
    match sp_Version (m_Spec machine) with
    | None => false
    | Some v => bool_decide (v = kubernetesVersion)
    end).

Definition WithVersion `{Semver} : Func :=
  on_machine (λ machine,
    match sp_Version (m_Spec machine) with
    | None => false
    | Some v => bool_decide (is_Some (ParseTolerant v))
    end).

Definition HasNode : Func :=
  on_machine (λ machine, bool_decide (is_Some (st_NodeRef (m_Status machine)))).

(** ** Sets of Machines (machine_collection.go) *)

Abbreviation Machines := (gmap string Machine) (only parsing).

Definition Machines_New : Machines := ∅.

Definition Machines_Insert (s : Machines) (machines : list (option Machine)) : Machines :=
  foldl (λ s machine, match machine with Some m => <[m_Name m := m]> s | None => s end) s machines.

Definition FromMachines (machines : list (option Machine)) : Machines :=
  Machines_Insert Machines_New machines.

Definition FromMachineList (items : list Machine) : Machines :=
  foldl (λ ss m, Machines_Insert ss [Some m]) Machines_New items.

Section machines.
Context `{GoSort} `{GoRange}.

Definition ToMachineList (machines : Machines) : list Machine := go_values machines.

Definition UnsortedList (s : Machines) : list Machine := go_values s.

Definition Machines_Len (s : Machines) : Z := Z.of_nat (size s).

Definition newFilteredMachineCollection (filter : Func) (machines : list Machine) : Machines :=
  foldl (λ ss m, if filter (Some m) then Machines_Insert ss [Some m] else ss)
    Machines_New machines.

Definition Filter (s : Machines) (filters : list Func) : Machines :=
  newFilteredMachineCollection (And filters) (UnsortedList s).

Definition AnyFilter (s : Machines) (filters : list Func) : Machines :=
  newFilteredMachineCollection (Or filters) (UnsortedList s).

Definition Difference (s machines : Machines) : Machines :=
  Filter s [on_machine (λ m, negb (bool_decide (is_Some (machines !! m_Name m))))].

Definition machinesByCreationTimestamp_Less (a b : Machine) : bool :=
  let ta := om_CreationTimestamp (m_Meta a) in
  let tb := om_CreationTimestamp (m_Meta b) in
  if TimeEqual (Some ta) (Some tb) then string_ltb (m_Name a) (m_Name b)
  else Before (Some ta) (Some tb).

Definition machinesByDeletionTimestamp_Less (a b : Machine) : bool :=
  match om_DeletionTimestamp (m_Meta a), om_DeletionTimestamp (m_Meta b) with
  | None, None => string_ltb (m_Name a) (m_Name b)
  | None, Some _ => false
  | Some _, None => true
  | ta, tb => if TimeEqual ta tb then string_ltb (m_Name a) (m_Name b) else Before ta tb
  end.

(** Of versions that do not parse the zero version is compared. *)
Definition parsed_version `{Semver} (version : string) : semver_Version :=
  default semver_zero (ParseTolerant version).

Definition version_Less `{Semver} (vi ni vj nj : string) : bool :=
  let comp := Compare (parsed_version vi) (parsed_version vj) [WithBuildTags] in
  if comp =? 0 then string_ltb ni nj else comp =? -1.

Definition machinesByVersion_Less `{Semver} (a b : Machine) : result bool :=
  va ← deref (sp_Version (m_Spec a));
  vb ← deref (sp_Version (m_Spec b));
  Ok (version_Less va (m_Name a) vb (m_Name b)).

Definition SortedByCreationTimestamp (s : Machines) : list Machine :=
  go_sort machinesByCreationTimestamp_Less (go_values s).

Definition SortedByDeletionTimestamp (s : Machines) : list Machine :=
  go_sort machinesByDeletionTimestamp_Less (go_values s).

(** Every element of a slice with at least two is compared by the sort, which panics when
    one of them has no version. *)
Definition sortedByVersion `{Semver} (s : Machines) : result (list Machine) :=
  let res := go_values s in
  if (2 <=? Z.of_nat (length res))
     && existsb (λ m, bool_decide (sp_Version (m_Spec m) = None)) res
  then Panic
  else Ok (go_sort (λ a b, match machinesByVersion_Less a b with Ok r => r | _ => false end) res).

(** [l[0]] and [l[len(l)-1]] *)
Definition Oldest (s : Machines) : option Machine :=
  if (size s =? 0)%nat then None else head (SortedByCreationTimestamp s).

Definition Newest (s : Machines) : option Machine :=
  if (size s =? 0)%nat then None else last (SortedByCreationTimestamp s).

Definition OldestDeletionTimestamp (s : Machines) : option Machine :=
  if (size s =? 0)%nat then None else head (SortedByDeletionTimestamp s).

Definition ConditionGetters (s : Machines) : list Machine := go_values s.

Definition Names (s : Machines) : list string := m_Name <$> go_values s.

Definition LowestVersion `{Semver} (s : Machines) : result (option string) :=
  let machines := Filter s [WithVersion] in
  if (size machines =? 0)%nat then Ok None
  else
    sorted ← sortedByVersion machines;
    m ← deref (head sorted);
    Ok (sp_Version (m_Spec m)).
End machines.

(** ** Theory *)

(** Every Machine of a set is stored under its name. *)
Definition keyed (s : Machines) : Prop := ∀ k m, s !! k = Some m → m_Name m = k.

Lemma keyed_Insert s machines : keyed s → keyed (Machines_Insert s machines).
Proof.
  revert s. induction machines as [|[m|] machines IH]; intros s Hs; simpl; [done| |by apply IH].
  apply IH. intros k m'. rewrite lookup_insert_Some. naive_solver.
Qed.

Section theory.
Context `{GoSort} `{GoRange}.

Lemma elem_of_UnsortedList s m : keyed s → m ∈ UnsortedList s ↔ s !! m_Name m = Some m.
Proof.
  intros Hs. unfold UnsortedList. rewrite elem_of_go_values. split; [|eauto].
  intros [k Hk]. by rewrite (Hs k m Hk).
Qed.

Lemma keyed_names s : keyed s → m_Name <$> go_values s = (go_range s).*1.
Proof.
  intros Hs. unfold go_values. rewrite <- list_fmap_compose.
  apply list_fmap_ext. intros i [k m] Hi. simpl. apply Hs, elem_of_go_range.
  by eapply list_elem_of_lookup_2.
Qed.

Lemma NoDup_names s : keyed s → NoDup (m_Name <$> go_values s).
Proof.
  intros Hs. rewrite keyed_names by done. rewrite go_range_perm. apply NoDup_fst_map_to_list.
Qed.

Lemma newFiltered_lookup (f : Func) l s k :
  NoDup (m_Name <$> l) → (∀ m, m ∈ l → s !! m_Name m = None) →
  foldl (λ ss m, if f (Some m) then Machines_Insert ss [Some m] else ss) s l !! k
    = match find (λ m, bool_decide (m_Name m = k) && f (Some m)) l with
      | Some m => Some m
      | None => s !! k
      end.
Proof.
  revert s. induction l as [|m l IH]; intros s Hnd Hs; simpl; [done|].
  rewrite fmap_cons in Hnd. apply NoDup_cons in Hnd as [Hm Hnd].
  rewrite IH; [|done|].
  - destruct (bool_decide_reflect (m_Name m = k)) as [<-|Hne]; simpl.
    + destruct (f (Some m)); simpl; [|done]. rewrite lookup_insert_eq.
      destruct (find _ l) as [m'|] eqn:E; [|done].
      apply find_some in E as [Hin [?%bool_decide_eq_true _]%andb_true_iff].
      destruct Hm. rewrite <- H1. apply list_elem_of_fmap_2. by apply list_elem_of_In.
    + destruct (find _ l); [done|]. destruct (f (Some m)); [|done].
      simpl. by rewrite lookup_insert_ne.
  - intros m' Hm'. destruct (f (Some m)); simpl.
    + rewrite lookup_insert_ne; [apply Hs; by right|].
      intros E. apply Hm. rewrite E. by apply list_elem_of_fmap_2.
    + apply Hs. by right.
Qed.

Lemma newFiltered_spec (f : Func) s k m :
  keyed s →
  newFilteredMachineCollection f (UnsortedList s) !! k = Some m ↔ s !! k = Some m ∧ f (Some m) = true.
Proof.
  intros Hs. unfold newFilteredMachineCollection.
  rewrite newFiltered_lookup; [|by apply NoDup_names|by intros; apply lookup_empty].
  unfold Machines_New. rewrite lookup_empty. split.
  - destruct (find _ _) as [m'|] eqn:E; [|done]. intros [= ->].
    apply find_some in E as [Hin [?%bool_decide_eq_true Hf]%andb_true_iff]. split; [|done].
    apply list_elem_of_In, elem_of_UnsortedList in Hin; [|done]. by subst k.
  - intros [Hk Hf]. pose proof (Hs k m Hk) as Hname.
    assert (m ∈ UnsortedList s) as Hin by (apply elem_of_UnsortedList; [done|by rewrite Hname]).
    destruct (find _ _) as [m'|] eqn:E.
    + apply find_some in E as [Hin' [Hn%bool_decide_eq_true _]%andb_true_iff].
      apply list_elem_of_In, elem_of_UnsortedList in Hin'; [|done]. congruence.
    + apply list_elem_of_In in Hin. pose proof (find_none _ _ E m Hin) as Hfalse.
      simpl in Hfalse. by rewrite bool_decide_eq_true_2, Hf in Hfalse.
Qed.

Lemma And_true (filters : list Func) m : And filters m = true ↔ ∀ f, f ∈ filters → f m = true.
Proof. unfold And. rewrite forallb_forall. setoid_rewrite <- list_elem_of_In. done. Qed.

Lemma Or_true (filters : list Func) m : Or filters m = true ↔ ∃ f, f ∈ filters ∧ f m = true.
Proof. unfold Or. rewrite existsb_exists. setoid_rewrite <- list_elem_of_In. done. Qed.

Lemma Filter_lookup s filters k m :
  keyed s → Filter s filters !! k = Some m ↔
    s !! k = Some m ∧ ∀ f, f ∈ filters → f (Some m) = true.
Proof. intros Hs. unfold Filter. by rewrite newFiltered_spec, And_true. Qed.

Lemma keyed_Filter s filters : keyed s → keyed (Filter s filters).
Proof. intros Hs k m [Hk _]%Filter_lookup; [by apply Hs|done]. Qed.

(** *** Orders *)

Lemma machinesByCreationTimestamp_lex a b :
  machinesByCreationTimestamp_Less a b =
  lex_less (λ m, om_CreationTimestamp (m_Meta m)) (λ a b, string_ltb (m_Name a) (m_Name b)) a b.
Proof. done. Qed.

Lemma machinesByDeletionTimestamp_lex a b :
  machinesByDeletionTimestamp_Less a b =
  lex_less (λ m, if om_DeletionTimestamp (m_Meta m) is Some _ then 0 else 1)
    (lex_less (λ m, default 0 (om_DeletionTimestamp (m_Meta m)))
      (λ a b, string_ltb (m_Name a) (m_Name b))) a b.
Proof.
  unfold machinesByDeletionTimestamp_Less, lex_less.
  by destruct (om_DeletionTimestamp (m_Meta a)), (om_DeletionTimestamp (m_Meta b)).
Qed.

Lemma strict_weak_ext {A} (f g : A → A → bool) :
  (∀ a b, f a b = g a b) → strict_weak g → strict_weak f.
Proof.
  intros E [Ha Hn]. split; [intros a b; rewrite !E; apply Ha|].
  intros a b c. rewrite !E. apply Hn.
Qed.

Lemma strict_weak_creation : strict_weak machinesByCreationTimestamp_Less.
Proof. eapply strict_weak_ext; [apply machinesByCreationTimestamp_lex|eauto with capi]. Qed.

Lemma strict_weak_deletion : strict_weak machinesByDeletionTimestamp_Less.
Proof. eapply strict_weak_ext; [apply machinesByDeletionTimestamp_lex|eauto with capi]. Qed.

(** Different Machines of a set have different names, which the orders tell apart. *)
Lemma keyed_distinct s a b :
  keyed s → a ∈ go_values s → b ∈ go_values s → a ≠ b →
  string_ltb (m_Name a) (m_Name b) = true ∨ string_ltb (m_Name b) (m_Name a) = true.
Proof.
  intros Hs [i Hi]%elem_of_go_values [j Hj]%elem_of_go_values Hne.
  pose proof (Hs i a Hi). pose proof (Hs j b Hj).
  destruct (string_ltb (m_Name a) (m_Name b)) eqn:E1; [by left|].
  destruct (string_ltb (m_Name b) (m_Name a)) eqn:E2; [by right|].
  pose proof (string_ltb_total _ _ E1 E2). congruence.
Qed.

Lemma comparable_lex {A} (key : A → Z) less (l : list A) :
  comparable_in less l → comparable_in (lex_less key less) l.
Proof.
  intros Hc a b Ha Hb Hne. unfold lex_less.
  destruct (Z.eqb_spec (key a) (key b)) as [E|].
  - rewrite E, Z.eqb_refl. by apply Hc.
  - rewrite (proj2 (Z.eqb_neq (key b) (key a))), !Z.ltb_lt by done. lia.
Qed.

Lemma comparable_creation s :
  keyed s → comparable_in machinesByCreationTimestamp_Less (go_values s).
Proof.
  intros Hs a b. rewrite !machinesByCreationTimestamp_lex. apply comparable_lex.
  intros c d. by apply keyed_distinct.
Qed.

Lemma comparable_deletion s :
  keyed s → comparable_in machinesByDeletionTimestamp_Less (go_values s).
Proof.
  intros Hs a b. rewrite !machinesByDeletionTimestamp_lex. apply comparable_lex, comparable_lex.
  intros c d. by apply keyed_distinct.
Qed.

Lemma size_zero (s : Machines) : (size s =? 0)%nat = true ↔ s = ∅.
Proof. rewrite Nat.eqb_eq. apply map_size_empty_iff. Qed.

Lemma go_sort_head_is_Some {A} (less : A → A → bool) l : l ≠ [] → is_Some (head (go_sort less l)).
Proof.
  intros Hne. destruct (go_sort less l) eqn:E; [|eauto]. by apply go_sort_nil_inv in E.
Qed.

Lemma go_sort_last_is_Some {A} (less : A → A → bool) l : l ≠ [] → is_Some (last (go_sort less l)).
Proof.
  intros Hne. apply last_is_Some. intros E. by apply go_sort_nil_inv in E.
Qed.

(** *** Versions *)

Context `{Semver}.

Definition version_key (m : Machine) : semver_Version :=
  parsed_version (default ""%string (sp_Version (m_Spec m))).

(** The order of the sort, on Machines with a version. *)
Definition by_version (a b : Machine) : bool :=
  if with_build (version_key a) (version_key b) =? 0 then string_ltb (m_Name a) (m_Name b)
  else with_build (version_key a) (version_key b) =? -1.

Definition versioned (m : Machine) : Prop := WithVersion (Some m) = true.

Lemma versioned_Some m :
  versioned m ↔ ∃ v, sp_Version (m_Spec m) = Some v ∧ is_Some (ParseTolerant v).
Proof.
  unfold versioned, WithVersion, on_machine. destruct (sp_Version (m_Spec m)) as [v|].
  - rewrite bool_decide_eq_true. naive_solver.
  - naive_solver.
Qed.

Lemma machinesByVersion_Less_versioned a b :
  versioned a → versioned b → machinesByVersion_Less a b = Ok (by_version a b).
Proof.
  intros (va & Ha & _)%versioned_Some (vb & Hb & _)%versioned_Some.
  unfold machinesByVersion_Less, by_version, version_key. by rewrite Ha, Hb.
Qed.

(** No two versions of the list differ only in build tags that have no order. *)
Definition comparable_builds (l : list Machine) : Prop :=
  ∀ a b, a ∈ l → b ∈ l → with_build (version_key a) (version_key b) ≠ 2.

Lemma strict_weak_by_version l : comparable_builds l → strict_weak_in by_version l.
Proof.
  intros Hc. unfold by_version. split.
  - intros a b Ha Hb. rewrite (with_build_sym (version_key a) (version_key b)).
    specialize (Hc a b Ha Hb). unfold opposite.
    rewrite (proj2 (Z.eqb_neq _ 2)) by done.
    destruct (Z.eqb_spec (with_build (version_key a) (version_key b)) 0) as [E|].
    + rewrite E. apply string_ltb_asym.
    + rewrite (proj2 (Z.eqb_neq (- _) 0)), Z.eqb_eq, Z.eqb_neq by lia. lia.
  - intros a b c Ha Hb Hx.
    pose proof (Hc b a Hb Ha). pose proof (Hc c b Hx Hb). pose proof (Hc c a Hx Ha).
    pose proof (with_build_range (version_key b) (version_key a)).
    pose proof (with_build_range (version_key c) (version_key b)).
    pose proof (with_build_range (version_key c) (version_key a)).
    pose proof (with_build_eq (version_key c) (version_key b) (version_key a)) as Heq.
    pose proof (with_build_sym (version_key c) (version_key b)) as S1.
    pose proof (with_build_sym (version_key b) (version_key a)) as S2.
    pose proof (with_build_sym (version_key c) (version_key a)) as S3.
    pose proof (with_build_eq (version_key a) (version_key b) (version_key c)) as Heq'.
    pose proof (with_build_eq (version_key a) (version_key c) (version_key b)) as Heq''.
    pose proof (with_build_trans (version_key a) (version_key b) (version_key c)) as Htr.
    unfold opposite in *. rewrite (proj2 (Z.eqb_neq _ 2)) in S1 by done.
    rewrite (proj2 (Z.eqb_neq _ 2)) in S2 by done. rewrite (proj2 (Z.eqb_neq _ 2)) in S3 by done.
    pose proof (sw_negtrans _ (strict_weak_string m_Name) a b c) as Hn. simpl in Hn.
    destruct (Z.eqb_spec (with_build (version_key b) (version_key a)) 0),
      (Z.eqb_spec (with_build (version_key c) (version_key b)) 0),
      (Z.eqb_spec (with_build (version_key c) (version_key a)) 0);
      rewrite ?Z.eqb_neq; (done || lia).
Qed.

Lemma strict_weak_in_ext {A} (f g : A → A → bool) l :
  (∀ a b, a ∈ l → b ∈ l → f a b = g a b) → strict_weak_in g l → strict_weak_in f l.
Proof.
  intros E [Ha Hn]. split.
  - intros a b Hal Hbl. rewrite !E by done. by apply Ha.
  - intros a b c Hal Hbl Hcl. rewrite !E by done. by apply Hn.
Qed.

Definition result_less (a b : Machine) : bool :=
  match machinesByVersion_Less a b with Ok r => r | _ => false end.

Lemma sortedByVersion_versioned s :
  (∀ m, m ∈ go_values s → versioned m) →
  sortedByVersion s = Ok (go_sort result_less (go_values s)).
Proof.
  intros Hv. unfold sortedByVersion.
  assert (existsb (λ m, bool_decide (sp_Version (m_Spec m) = None)) (go_values s) = false) as ->.
  { apply not_true_iff_false. rewrite existsb_exists. intros (m & Hin & Hm).
    apply list_elem_of_In, Hv, versioned_Some in Hin as (v & E & _).
    apply bool_decide_eq_true in Hm. congruence. }
  by rewrite andb_false_r.
Qed.

Lemma sorted_version_head l m rest m' :
  (∀ x, x ∈ l → versioned x) → comparable_builds l → go_sort result_less l = m :: rest →
  m' ∈ l → with_build (version_key m') (version_key m) ≠ -1.
Proof.
  intros Hv Hc Es Hin Hlt. pose proof (elem_of_go_sort result_less m l) as Hm.
  rewrite Es in Hm. destruct Hm as [Hm _]. specialize (Hm (list_elem_of_here _ _)).
  assert (∀ a b, a ∈ l → b ∈ l → result_less a b = by_version a b) as Eless.
  { intros a b Ha Hb. unfold result_less. by rewrite machinesByVersion_Less_versioned by auto. }
  pose proof (go_sort_sorted_in result_less l
    (strict_weak_in_ext _ _ _ Eless (strict_weak_by_version _ Hc))) as Hsorted.
  rewrite Es in Hsorted. inversion Hsorted as [|?? _ Hall]; subst.
  rewrite Forall_forall in Hall.
  pose proof Hin as Hin'. rewrite <- (elem_of_go_sort result_less), Es in Hin'.
  apply elem_of_cons in Hin' as [->|Hin']; [by rewrite with_build_refl in Hlt|].
  specialize (Hall m' Hin'). unfold not_after in Hall. rewrite Eless in Hall by done.
  unfold by_version in Hall. by rewrite Hlt in Hall.
Qed.

Lemma LowestVersion_outcome s :
  keyed s →
  ∃ r, LowestVersion s = Ok r ∧
    (r = None ↔ ∀ k m, s !! k = Some m → ¬ versioned m) ∧
    (∀ v, r = Some v → ∃ k m, s !! k = Some m ∧ versioned m ∧ sp_Version (m_Spec m) = Some v ∧
      (comparable_builds (go_values (Filter s [WithVersion])) →
       ∀ k' m', s !! k' = Some m' → versioned m' →
         with_build (version_key m') (version_key m) ≠ -1)).
Proof.
  intros Hs. unfold LowestVersion. set (f := Filter s [WithVersion]).
  assert (∀ k m, f !! k = Some m ↔ s !! k = Some m ∧ versioned m) as Hf.
  { intros k m. unfold f. rewrite Filter_lookup by done. set_solver. }
  assert (∀ m, m ∈ go_values f → versioned m) as Hv.
  { intros m [k Hk]%elem_of_go_values. by apply Hf in Hk as [_ ?]. }
  destruct (size f =? 0)%nat eqn:E.
  { apply size_zero in E. exists None. split; [done|]. split; [|done]. split; [|done].
    intros _ k m Hk Hm. assert (f !! k = Some m) as Hfk by (by apply Hf).
    by rewrite E, lookup_empty in Hfk. }
  rewrite sortedByVersion_versioned by done. simpl.
  destruct (go_sort result_less (go_values f)) as [|m l] eqn:Es.
  { apply go_sort_nil_inv, go_values_nil in Es. by rewrite Es in E. }
  assert (m ∈ go_values f) as Hm by (rewrite <- (elem_of_go_sort result_less), Es; left).
  pose proof (Hv m Hm) as Hmv. destruct (proj1 (versioned_Some m) Hmv) as (v & Ev & _).
  exists (Some v). simpl. rewrite Ev. apply elem_of_go_values in Hm as [k [Hk _]%Hf].
  split; [done|]. split.
  { split; [done|]. intros Hno. by destruct (Hno k m Hk). }
  intros v' [= <-]. exists k, m. split_and!; try done. intros Hc k' m' Hk' Hm'.
  eapply sorted_version_head; [done..|]. apply elem_of_go_values. exists k'. by apply Hf.
Qed.
End theory.

(** ** Properties *)

Section properties.
Context `{GoSort} `{GoRange}.

(** Filtering a set of Machines, by all or by any of the filters, or by the difference
    with another set, keeps exactly the Machines concerned, each still stored under its
    name, in whichever order the maps are visited. *)
Theorem Filter_spec (s t : Machines) (filters : list Func) :
  keyed s →
  (keyed (Filter s filters) ∧ keyed (AnyFilter s filters) ∧ keyed (Difference s t)) ∧
  ∀ k m,
    (Filter s filters !! k = Some m ↔ s !! k = Some m ∧ ∀ f, f ∈ filters → f (Some m) = true) ∧
    (AnyFilter s filters !! k = Some m ↔
      s !! k = Some m ∧ ∃ f, f ∈ filters ∧ f (Some m) = true) ∧
    (Difference s t !! k = Some m ↔ s !! k = Some m ∧ t !! k = None).
Proof.
  intros Hs.
  assert (∀ k m, AnyFilter s filters !! k = Some m ↔
    s !! k = Some m ∧ ∃ f, f ∈ filters ∧ f (Some m) = true) as Hany.
  { intros k m. unfold AnyFilter. by rewrite newFiltered_spec, Or_true. }
  split; [split; [|split]|].
  - by apply keyed_Filter.
  - intros k m [Hk _]%Hany. by apply Hs.
  - by apply keyed_Filter.
  - intros k m. split; [by apply Filter_lookup|]. split; [apply Hany|].
    unfold Difference. rewrite Filter_lookup by done. split; intros [Hk Hf]; split; try done.
    + specialize (Hf _ (list_elem_of_here _ _)). simpl in Hf. rewrite (Hs k m Hk) in Hf.
      apply negb_true_iff, bool_decide_eq_false in Hf. by apply eq_None_not_Some.
    + intros f ->%list_elem_of_singleton. simpl. rewrite (Hs k m Hk), Hf.
      apply negb_true_iff, bool_decide_eq_false. by intros [? ?].
Qed.

Lemma Oldest_outcome (s : Machines) :
  keyed s →
  (Oldest s = None ↔ s = ∅) ∧ (Newest s = None ↔ s = ∅) ∧
  (OldestDeletionTimestamp s = None ↔ s = ∅) ∧
  (∀ m, Oldest s = Some m → m ∈ go_values s ∧
    ∀ m', m' ∈ go_values s → m' ≠ m → machinesByCreationTimestamp_Less m m' = true) ∧
  (∀ m, Newest s = Some m → m ∈ go_values s ∧
    ∀ m', m' ∈ go_values s → m' ≠ m → machinesByCreationTimestamp_Less m' m = true) ∧
  (∀ m, OldestDeletionTimestamp s = Some m → m ∈ go_values s ∧
    ∀ m', m' ∈ go_values s → m' ≠ m → machinesByDeletionTimestamp_Less m m' = true).
Proof.
  intros Hs. unfold Oldest, Newest, OldestDeletionTimestamp.
  destruct (size s =? 0)%nat eqn:E.
  { apply size_zero in E. split_and!; done. }
  assert (s ≠ ∅) as Hne by (intros Hs0%size_zero; congruence).
  assert (go_values s ≠ []) as Hv by (by intros ?%go_values_nil).
  split_and!.
  - split; [|done]. unfold SortedByCreationTimestamp.
    destruct (go_sort_head_is_Some machinesByCreationTimestamp_Less _ Hv) as [? ->]. done.
  - split; [|done]. unfold SortedByCreationTimestamp.
    destruct (go_sort_last_is_Some machinesByCreationTimestamp_Less _ Hv) as [? ->]. done.
  - split; [|done]. unfold SortedByDeletionTimestamp.
    destruct (go_sort_head_is_Some machinesByDeletionTimestamp_Less _ Hv) as [? ->]. done.
  - intros m. apply go_sort_head_least; [apply strict_weak_all, strict_weak_creation|].
    by apply comparable_creation.
  - intros m. apply go_sort_last_greatest; [apply strict_weak_all, strict_weak_creation|].
    by apply comparable_creation.
  - intros m. apply go_sort_head_least; [apply strict_weak_all, strict_weak_deletion|].
    by apply comparable_deletion.
Qed.

(** The oldest, the newest and the first deleted Machine of a set exist when it is not
    empty, and come strictly before, or after, every other Machine by creation or deletion
    time and then by name: the answer depends neither on the order in which the map is
    visited nor on the sorting algorithm. *)
Theorem Oldest_spec (s : Machines) :
  keyed s →
  (Oldest s = None ↔ s = ∅) ∧ (Newest s = None ↔ s = ∅) ∧
  (OldestDeletionTimestamp s = None ↔ s = ∅) ∧
  (∀ m, Oldest s = Some m → m ∈ go_values s ∧
    ∀ m', m' ∈ go_values s → m' ≠ m → machinesByCreationTimestamp_Less m m' = true) ∧
  (∀ m, Newest s = Some m → m ∈ go_values s ∧
    ∀ m', m' ∈ go_values s → m' ≠ m → machinesByCreationTimestamp_Less m' m = true) ∧
  (∀ m, OldestDeletionTimestamp s = Some m → m ∈ go_values s ∧
    ∀ m', m' ∈ go_values s → m' ≠ m → machinesByDeletionTimestamp_Less m m' = true).
Proof. apply Oldest_outcome. Qed.

(** The lowest version of a set is computed without a panic; it is missing exactly when
    no Machine has a version that parses; and when no two versions differ only in build tags
    without an order, no Machine has a lower one. *)
Theorem LowestVersion_spec `{Semver} (s : Machines) :
  keyed s →
  ∃ r, LowestVersion s = Ok r ∧
    (r = None ↔ ∀ k m, s !! k = Some m → ¬ versioned m) ∧
    (∀ v, r = Some v → ∃ k m, s !! k = Some m ∧ versioned m ∧ sp_Version (m_Spec m) = Some v ∧
      (comparable_builds (go_values (Filter s [WithVersion])) →
       ∀ k' m', s !! k' = Some m' → versioned m' →
         with_build (version_key m') (version_key m) ≠ -1)).
Proof. apply LowestVersion_outcome. Qed.
End properties.

(** ** Witnesses *)

Definition machine_at (name version : string) (created : Time) : Machine :=
  {| m_TypeMeta := emptyTypeMeta;
     m_Meta := {| om_Name := name; om_Namespace := "default"; om_UID := name;
       om_Generation := 1; om_CreationTimestamp := created; om_DeletionTimestamp := None;
       om_Labels := ∅; om_Annotations := ∅; om_OwnerReferences := []; om_Finalizers := [] |};
     m_Spec := {| sp_ClusterName := "c"; sp_Bootstrap :=
         {| b_ConfigRef := None; b_DataSecretName := None |};
       sp_InfrastructureRef := emptyRef; sp_Version := Some version; sp_ProviderID := None;
       sp_FailureDomain := None; sp_ReadinessGates := []; sp_NodeDrainTimeout := None;
       sp_NodeVolumeDetachTimeout := None; sp_NodeDeletionTimeout := None |};
     m_Status := emptyStatus |}.

Definition pair_of (a b : Machine) : Machines := Machines_Insert ∅ [Some a; Some b].

Lemma keyed_pair_of a b : keyed (pair_of a b).
Proof. apply keyed_Insert. intros k m. by rewrite lookup_empty. Qed.

(** The order of [map_to_list] the other way round. *)
Definition reversed_GoRange : GoRange := {|
  go_range A m := reverse (map_to_list m);
  go_range_perm A m := reverse_Permutation (map_to_list m);
|}.

(** Which version of two that differ only in build tags without an order is the lowest
    depends on the order in which the map is visited: the names do not break the tie. *)
Theorem LowestVersion_order_dependent :
  ∃ s, keyed s ∧
    @LowestVersion insertion_GoSort sorted_GoRange concrete_Semver s ≠
    @LowestVersion insertion_GoSort reversed_GoRange concrete_Semver s.
Proof.
  exists (pair_of (machine_at "a" "v1.30.0+abc" 0) (machine_at "b" "v1.30.0+def" 0)).
  split; [apply keyed_pair_of|]. vm_compute. discriminate.
Qed.

Definition two_machines : Machines :=
  pair_of (machine_at "a" "v1.30.1" 20) (machine_at "b" "v1.30.0" 10).

Lemma Filter_spec_witness :
  keyed (Filter two_machines [MatchesKubernetesVersion "v1.30.0"]).
Proof. apply (Filter_spec two_machines ∅). apply keyed_pair_of. Defined.

Lemma Oldest_spec_witness : Oldest two_machines = None ↔ two_machines = ∅.
Proof. apply (Oldest_spec two_machines). apply keyed_pair_of. Defined.

Lemma LowestVersion_spec_witness : ∃ r, LowestVersion two_machines = Ok r.
Proof.
  destruct (LowestVersion_spec two_machines (keyed_pair_of _ _)) as (r & Hr & _).
  exists r. exact Hr.
Defined.
