(* ===== verification/FailureDomains.v ===== *)
(** * Failure domains (util/failuredomains/failure_domains.go)

    Choosing the failure domain with the fewest Machines to place the next one, or the one
    with the most to remove one from. *)

From S2P Require Import Prelude GoStd Api Conditions Collections.

(** ** Failure domains of a cluster (api/v1beta1/cluster_types.go) *)

Record FailureDomainSpec := {
  fd_ControlPlane : bool;
  fd_Attributes : gmap string string;
}.

Abbreviation FailureDomains := (gmap string FailureDomainSpec) (only parsing).

Section failure_domains.
Context `{GoSort} `{GoRange}.

Definition FilterControlPlane (fds : FailureDomains) : FailureDomains :=
  foldl (λ res '(id, spec), if fd_ControlPlane spec then <[id := spec]> res else res)
    ∅ (go_range fds).

(** ** Operations *)

Record failureDomainAggregation := { fda_id : string; fda_count : Z }.

Definition failureDomainAggregations_Less (a b : failureDomainAggregation) : bool :=
  fda_count a <? fda_count b.

(** [counters[id]++], for a domain that is in the map. *)
Definition increment (id : string) (counters : gmap string Z) : gmap string Z :=
  <[id := default 0 (counters !! id) + 1]> counters.

Definition pick (failureDomains : FailureDomains) (machines : Machines) :
    list failureDomainAggregation :=
  if (size failureDomains =? 0)%nat then []
  else
    let counters := foldl (λ counters '(fd, _), <[fd := 0]> counters) ∅
      (go_range failureDomains) in
    let counters := foldl (λ counters m,
        match sp_FailureDomain (m_Spec m) with
        | None => counters
        | Some id =>
            match failureDomains !! id with
            | None => counters
            | Some _ => increment id counters
            end
        end) counters (go_values machines) in
    (λ '(fd, count), {| fda_id := fd; fda_count := count |}) <$> go_range counters.

Definition orderDescending (failureDomains : FailureDomains) (machines : Machines) :
    list failureDomainAggregation :=
  let aggregations := pick failureDomains machines in
  match aggregations with
  | [] => []
  | _ => go_sort (reverse_less failureDomainAggregations_Less) aggregations
  end.

Fixpoint first_with_machine (fds : list failureDomainAggregation) (machines : list Machine) :
    option string :=
  match fds with
  | [] => None
  | fd :: fds =>
      if existsb (λ m, bool_decide (sp_FailureDomain (m_Spec m) = Some (fda_id fd))) machines
      then Some (fda_id fd) else first_with_machine fds machines
  end.

Definition PickMost (failureDomains : FailureDomains) (groupMachines machines : Machines) :
    option string :=
  first_with_machine (orderDescending failureDomains groupMachines) (go_values machines).

Definition PickFewest (failureDomains : FailureDomains) (machines : Machines) : option string :=
  match pick failureDomains machines with
  | [] => None
  | aggregations => fda_id <$> head (go_sort failureDomainAggregations_Less aggregations)
  end.

(** ** Theory *)

Definition in_domain (id : string) (m : Machine) : Prop := sp_FailureDomain (m_Spec m) = Some id.

#[global] Instance in_domain_dec id m : Decision (in_domain id m).
Proof. unfold in_domain. apply _. Defined.

(** The Machines of a set in a failure domain. *)
Definition population (machines : Machines) (id : string) : Z :=
  Z.of_nat (length (filter (in_domain id) (go_values machines))).

Lemma lookup_init (l : list (string * FailureDomainSpec)) (c : gmap string Z) k :
  foldl (λ counters '(fd, _), <[fd := 0]> counters) c l !! k
    = if bool_decide (k ∈ l.*1) then Some 0 else c !! k.
Proof.
  revert c. induction l as [|[fd spec] l IH]; intros c; simpl; [done|].
  rewrite IH. destruct (bool_decide_reflect (k ∈ l.*1)) as [Hin|Hout].
  - by rewrite bool_decide_eq_true_2 by (by right).
  - destruct (decide (k = fd)) as [->|Hne].
    + rewrite bool_decide_eq_true_2 by (left). by rewrite lookup_insert_eq.
    + rewrite bool_decide_eq_false_2, lookup_insert_ne; [done|done|].
      by intros [->|?]%elem_of_cons.
Qed.

Lemma elem_of_domains (fds : FailureDomains) k : k ∈ (go_range fds).*1 ↔ is_Some (fds !! k).
Proof. apply elem_of_go_keys. Qed.

(** Counting leaves the known domains in the map, with the number of Machines in each. *)
Lemma lookup_count (fds : FailureDomains) (l : list Machine) (c : gmap string Z) k :
  (∀ id, is_Some (fds !! id) ↔ is_Some (c !! id)) →
  foldl (λ counters m,
      match sp_FailureDomain (m_Spec m) with
      | None => counters
      | Some id =>
          match fds !! id with None => counters | Some _ => increment id counters end
      end) c l !! k
    = (λ n, n + Z.of_nat (length (filter (in_domain k) l))) <$> c !! k.
Proof.
  revert c. induction l as [|m l IH]; intros c Hc; simpl.
  { destruct (c !! k); simpl; [f_equal; lia|done]. }
  rewrite filter_cons. destruct (decide (in_domain k m)) as [Hd|Hd]; unfold in_domain in Hd;
    destruct (sp_FailureDomain (m_Spec m)) as [id|]; try done; [injection Hd as ->| |by rewrite IH];
    destruct (fds !! _) as [spec|] eqn:E.
  - assert (is_Some (c !! k)) as [n Hn] by (apply Hc; eauto).
    rewrite IH by (intros id; unfold increment; rewrite Hc, lookup_insert_is_Some;
      destruct (decide (k = id)); naive_solver).
    unfold increment. rewrite lookup_insert_eq, Hn. simpl. f_equal. lia.
  - rewrite IH by done. assert (c !! k = None) as ->; [|done].
    apply eq_None_not_Some. rewrite <- Hc, E. by intros [? ?].
  - rewrite IH by (intros id'; unfold increment; rewrite Hc, lookup_insert_is_Some;
      destruct (decide (id = id')); naive_solver).
    unfold increment. by rewrite lookup_insert_ne by congruence.
  - by rewrite IH.
Qed.

Lemma elem_of_pick fds machines a :
  a ∈ pick fds machines ↔
    is_Some (fds !! fda_id a) ∧ fda_count a = population machines (fda_id a).
Proof.
  unfold pick. destruct (size fds =? 0)%nat eqn:E.
  { apply Nat.eqb_eq, map_size_empty_iff in E as ->. split; [by intros ?%not_elem_of_nil|].
    rewrite lookup_empty. by intros [[? ?] _]. }
  rewrite list_elem_of_fmap.
  assert (∀ id, is_Some (fds !! id) ↔ is_Some (foldl (λ counters '(fd, _), <[fd := 0]> counters)
    (∅ : gmap string Z) (go_range fds) !! id)) as Hc.
  { intros id. rewrite lookup_init, lookup_empty, <- elem_of_domains.
    case_bool_decide; naive_solver. }
  assert (∀ k n, (k, n) ∈ go_range (foldl (λ counters m,
      match sp_FailureDomain (m_Spec m) with
      | None => counters
      | Some id =>
          match fds !! id with None => counters | Some _ => increment id counters end
      end) (foldl (λ counters '(fd, _), <[fd := 0]> counters) ∅ (go_range fds))
      (go_values machines)) ↔ is_Some (fds !! k) ∧ n = population machines k) as Hk.
  { intros k n. rewrite elem_of_go_range, lookup_count, lookup_init, lookup_empty by done.
    rewrite <- elem_of_domains. case_bool_decide; simpl; unfold population; naive_solver. }
  split.
  - intros ([k n] & -> & [Hin ->]%Hk). done.
  - intros [Hin Hn]. exists (fda_id a, fda_count a). split; [by destruct a|]. by apply Hk.
Qed.

Lemma pick_nil fds machines : pick fds machines = [] ↔ fds = ∅.
Proof.
  split.
  - intros E. apply map_empty. intros id. apply eq_None_not_Some. intros Hid.
    assert ({| fda_id := id; fda_count := population machines id |} ∈ pick fds machines) as Hin
      by (by apply elem_of_pick).
    rewrite E in Hin. by apply not_elem_of_nil in Hin.
  - intros ->. done.
Qed.

Lemma strict_weak_Less : strict_weak failureDomainAggregations_Less.
Proof. apply strict_weak_key. Qed.

(** ** Properties *)

(** The failure domain chosen to place a Machine is one of the cluster and none has fewer
    Machines; there is one whenever the cluster has failure domains. *)
Theorem PickFewest_spec (failureDomains : FailureDomains) (machines : Machines) :
  match PickFewest failureDomains machines with
  | None => failureDomains = ∅
  | Some id =>
      is_Some (failureDomains !! id) ∧
      ∀ id', is_Some (failureDomains !! id') → population machines id ≤ population machines id'
  end.
Proof.
  unfold PickFewest. destruct (pick failureDomains machines) as [|a0 l] eqn:E.
  { by apply pick_nil in E. }
  rewrite <- E. destruct (go_sort _ _) as [|a rest] eqn:Es.
  { apply go_sort_nil_inv in Es. congruence. }
  simpl. assert (a ∈ pick failureDomains machines) as Ha
    by (rewrite <- (elem_of_go_sort failureDomainAggregations_Less), Es; left).
  apply elem_of_pick in Ha as [Hin Hcount]. split; [done|]. intros id' Hid'.
  set (b := {| fda_id := id'; fda_count := population machines id' |}).
  destruct (go_sort_head_min _ _ _ _ b strict_weak_Less Es) as [Eb|Hlt].
  - by apply elem_of_pick.
  - subst a. simpl in *. lia.
  - unfold failureDomainAggregations_Less in Hlt. simpl in Hlt. apply Z.ltb_ge in Hlt. lia.
Qed.

Lemma first_with_machine_spec fds machines :
  match first_with_machine fds machines with
  | None => ∀ fd m, fd ∈ fds → m ∈ machines → ¬ in_domain (fda_id fd) m
  | Some id => ∃ l1 fd l2 m, fds = l1 ++ fd :: l2 ∧ id = fda_id fd ∧ m ∈ machines ∧
      in_domain id m ∧ ∀ fd' m', fd' ∈ l1 → m' ∈ machines → ¬ in_domain (fda_id fd') m'
  end.
Proof.
  induction fds as [|fd fds IH]; simpl; [by intros ?? ?%not_elem_of_nil|].
  destruct (existsb _ _) eqn:E.
  - apply existsb_exists in E as (m & Hin%list_elem_of_In & Hm%bool_decide_eq_true).
    exists [], fd, fds, m. split_and!; try done. by intros ?? ?%not_elem_of_nil.
  - assert (∀ m, m ∈ machines → ¬ in_domain (fda_id fd) m) as Hno.
    { intros m Hin Hm. apply not_true_iff_false in E. apply E, existsb_exists.
      exists m. split; [by apply list_elem_of_In|]. by apply bool_decide_eq_true. }
    destruct (first_with_machine fds machines) as [id|].
    + destruct IH as (l1 & fd' & l2 & m & -> & -> & ? & ? & Hl1).
      exists (fd :: l1), fd', l2, m. split_and!; try done.
      intros x m' [->|Hx]%elem_of_cons; eauto.
    + intros x m' [->|Hx]%elem_of_cons; eauto.
Qed.

Lemma orderDescending_sort fds machines :
  orderDescending fds machines =
  go_sort (reverse_less failureDomainAggregations_Less) (pick fds machines).
Proof.
  unfold orderDescending. destruct (pick fds machines); [|done].
  symmetry. apply Permutation_nil_r. by rewrite go_sort_perm.
Qed.

(** Domains of the cluster with a Machine of the set. *)
Definition eligible (failureDomains : FailureDomains) (machines : Machines) (id : string) : Prop :=
  is_Some (failureDomains !! id) ∧ ∃ m, m ∈ go_values machines ∧ in_domain id m.

Lemma PickMost_outcome (failureDomains : FailureDomains) (groupMachines machines : Machines) :
  match PickMost failureDomains groupMachines machines with
  | None => ∀ id, ¬ eligible failureDomains machines id
  | Some id => eligible failureDomains machines id ∧
      ∀ id', eligible failureDomains machines id' → population groupMachines id' ≤ population groupMachines id
  end.
Proof.
  unfold PickMost, eligible. rewrite orderDescending_sort.
  set (less := reverse_less failureDomainAggregations_Less).
  pose proof (go_sort_sorted less (pick failureDomains groupMachines)
    (strict_weak_reverse _ strict_weak_Less)) as Hs.
  assert (∀ id, is_Some (failureDomains !! id) →
    {| fda_id := id; fda_count := population groupMachines id |}
      ∈ go_sort less (pick failureDomains groupMachines)) as Hall.
  { intros id Hid. by apply elem_of_go_sort, elem_of_pick. }
  assert (∀ a, a ∈ go_sort less (pick failureDomains groupMachines) →
    is_Some (failureDomains !! fda_id a) ∧ fda_count a = population groupMachines (fda_id a)) as Hel.
  { intros a. by rewrite elem_of_go_sort, elem_of_pick. }
  pose proof (first_with_machine_spec (go_sort less (pick failureDomains groupMachines))
    (go_values machines)) as Hf.
  destruct (first_with_machine _ _) as [id|].
  - destruct Hf as (l1 & fd & l2 & m & E & -> & Hm & Hd & Hl1). rewrite E in *.
    destruct (Hel fd) as [Hfd Hc]; [set_solver|]. split; [eauto|].
    intros id' [Hid' (m' & Hm' & Hd')]. specialize (Hall id' Hid').
    apply elem_of_app in Hall as [Hin|[<-|Hin]%elem_of_cons].
    + by destruct (Hl1 _ m' Hin Hm').
    + done.
    + apply StronglySorted_app in Hs as (_ & _ & Hs). inversion Hs as [|?? _ Hfa]; subst.
      rewrite Forall_forall in Hfa. specialize (Hfa _ Hin).
      unfold not_after, less, reverse_less, failureDomainAggregations_Less in Hfa.
      apply Z.ltb_ge in Hfa. simpl in Hfa. lia.
  - intros id [Hid (m & Hm & Hd)]. by destruct (Hf _ m (Hall id Hid) Hm).
Qed.

(** The failure domain chosen to remove a Machine from is one of the cluster, has a
    Machine of the given set, and none such has more Machines of the group; there is one
    whenever a Machine of the set is in a failure domain of the cluster. *)
Theorem PickMost_spec (failureDomains : FailureDomains) (groupMachines machines : Machines) :
  let eligible id := is_Some (failureDomains !! id) ∧ ∃ m, m ∈ go_values machines ∧ in_domain id m in
  match PickMost failureDomains groupMachines machines with
  | None => ∀ id, ¬ eligible id
  | Some id => eligible id ∧
      ∀ id', eligible id' → population groupMachines id' ≤ population groupMachines id
  end.
Proof. apply PickMost_outcome. Qed.
End failure_domains.
