(* ===== verification/ConditionsV1Beta2.v ===== *)
(** * Conditions of the v1beta2 types (util/conditions/v1beta2)

    Reading, setting, deleting and sorting conditions (getter.go, setter.go, sort.go) and the
    three-way merge of patches (patch.go).  The three functions of apimachinery's api/meta
    package they call are the class [MetaConditions]. *)

From S2P Require Import Prelude GoStd Api.

(** ** k8s.io/apimachinery/pkg/api/meta *)

Definition has_type (t : string) (c : MetaCondition) : bool := bool_decide (mc_Type c = t).

Definition mc_set_time (t : Time) (c : MetaCondition) : MetaCondition :=
  {| mc_Type := mc_Type c; mc_Status := mc_Status c;
     mc_ObservedGeneration := mc_ObservedGeneration c; mc_LastTransitionTime := t;
     mc_Reason := mc_Reason c; mc_Message := mc_Message c |}.

(** An existing condition takes all fields of the new one but the transition time, which it
    takes only when the status changes. *)
Definition updated (now : Time) (old new : MetaCondition) : MetaCondition :=
  mc_set_time (if bool_decide (mc_Status old = mc_Status new) then mc_LastTransitionTime old
               else if IsZero (Some (mc_LastTransitionTime new)) then now
               else mc_LastTransitionTime new) new.

Definition added (now : Time) (new : MetaCondition) : MetaCondition :=
  mc_set_time (if IsZero (Some (mc_LastTransitionTime new)) then now
               else mc_LastTransitionTime new) new.

(** The first condition of the type is updated, or the new one appended. *)
Fixpoint upsert (now : Time) (cs : list MetaCondition) (new : MetaCondition) :
    list MetaCondition * bool :=
  match cs with
  | [] => ([added now new], true)
  | c :: cs =>
      if has_type (mc_Type new) c then (updated now c new :: cs, bool_decide (updated now c new ≠ c))
      else let '(cs', changed) := upsert now cs new in (c :: cs', changed)
  end.

Class MetaConditions := {
  FindStatusCondition : list MetaCondition → string → option MetaCondition;
  SetStatusCondition : Time → list MetaCondition → MetaCondition → list MetaCondition * bool;
  RemoveStatusCondition : list MetaCondition → string → list MetaCondition;
  FindStatusCondition_first : ∀ cs t, FindStatusCondition cs t = find (has_type t) cs;
  SetStatusCondition_upsert : ∀ now cs c, SetStatusCondition now cs c = upsert now cs c;
  RemoveStatusCondition_filter : ∀ cs t,
    RemoveStatusCondition cs t = filter (λ c, mc_Type c ≠ t) cs;
}.

#[export] Instance concrete_MetaConditions : MetaConditions | 100 := {
  FindStatusCondition cs t := find (has_type t) cs;
  SetStatusCondition := upsert;
  RemoveStatusCondition cs t := filter (λ c, mc_Type c ≠ t) cs;
  FindStatusCondition_first _ _ := eq_refl;
  SetStatusCondition_upsert _ _ _ := eq_refl;
  RemoveStatusCondition_filter _ _ := eq_refl;
}.

(** ** Interfaces *)

Class V1Beta2Getter (T : Type) := { GetV1Beta2Conditions : T → list MetaCondition }.

Class V1Beta2Setter (T : Type) `{V1Beta2Getter T} := {
  SetV1Beta2Conditions : list MetaCondition → T → T;
  GetGeneration : T → Z;
  Get_SetV1Beta2Conditions : ∀ cs x, GetV1Beta2Conditions (SetV1Beta2Conditions cs x) = cs;
}.

#[global] Instance Machine_V1Beta2Getter : V1Beta2Getter Machine := {
  GetV1Beta2Conditions m :=
    match st_V1Beta2 (m_Status m) with None => [] | Some v => mv_Conditions v end;
}.
#[global] Instance Machine_V1Beta2Setter : V1Beta2Setter Machine := {
  SetV1Beta2Conditions := m_set_V1Beta2Conditions;
  GetGeneration m := om_Generation (m_Meta m);
  Get_SetV1Beta2Conditions cs x := eq_refl;
}.

#[global] Instance Cluster_V1Beta2Getter : V1Beta2Getter Cluster := {
  GetV1Beta2Conditions c := default [] (clt_V1Beta2 (cl_Status c));
}.
#[global] Instance Cluster_V1Beta2Setter : V1Beta2Setter Cluster := {
  SetV1Beta2Conditions := cl_set_V1Beta2Conditions;
  GetGeneration c := om_Generation (cl_Meta c);
  Get_SetV1Beta2Conditions cs x := eq_refl;
}.

(** ** Sorting (sort.go) *)

Definition AvailableV1Beta2Condition : string := "Available".
Definition ReadyV1Beta2Condition : string := "Ready".
Definition PausedV1Beta2Condition : string := "Paused".
Definition DeletingV1Beta2Condition : string := "Deleting".

Definition first_rank : gmap string Z :=
  <[AvailableV1Beta2Condition := 0]> {[ReadyV1Beta2Condition := 1]}.
Definition last_rank : gmap string Z :=
  <[PausedV1Beta2Condition := 0]> {[DeletingV1Beta2Condition := 1]}.

Definition defaultSortLessFunc (i j : MetaCondition) : bool :=
  match first_rank !! mc_Type i, first_rank !! mc_Type j with
  | Some _, None => true
  | None, Some _ => false
  | Some fi, Some fj => fi <? fj
  | None, None =>
      match last_rank !! mc_Type i, last_rank !! mc_Type j with
      | Some _, None => false
      | None, Some _ => true
      | Some li, Some lj => li <? lj
      | None, None => string_ltb (mc_Type i) (mc_Type j)
      end
  end.

Section v1beta2.
Context `{MetaConditions} {T : Type} `{V1Beta2Setter T}.

(** ** Reading (getter.go) *)

Definition v1beta2_Get (sourceObj : T) (t : string) : option MetaCondition :=
  FindStatusCondition (GetV1Beta2Conditions sourceObj) t.

Definition v1beta2_Has (from : T) (t : string) : bool := bool_decide (is_Some (v1beta2_Get from t)).

Definition v1beta2_IsTrue (from : T) (t : string) : bool :=
  match v1beta2_Get from t with
  | Some c => bool_decide (mc_Status c = ConditionTrue)
  | None => false
  end.

Definition v1beta2_IsFalse (from : T) (t : string) : bool :=
  match v1beta2_Get from t with
  | Some c => bool_decide (mc_Status c = ConditionFalse)
  | None => false
  end.

Definition v1beta2_IsUnknown (from : T) (t : string) : bool :=
  match v1beta2_Get from t with
  | Some c => bool_decide (mc_Status c = ConditionUnknown)
  | None => true
  end.

(** ** Setting and deleting (setter.go)

    [now] is the clock of [metav1.Now], [apiNow] that of the package of apimachinery. *)

Definition setStatusCondition (now apiNow : Time) (conditions : list MetaCondition)
    (condition : MetaCondition) : list MetaCondition * bool :=
  let condition := if IsZero (Some (mc_LastTransitionTime condition))
                   then mc_set_time now condition else condition in
  let condition := mc_set_time (TruncateSecond (mc_LastTransitionTime condition)) condition in
  SetStatusCondition apiNow conditions condition.

Definition mc_set_generation (g : Z) (c : MetaCondition) : MetaCondition :=
  {| mc_Type := mc_Type c; mc_Status := mc_Status c; mc_ObservedGeneration := g;
     mc_LastTransitionTime := mc_LastTransitionTime c;
     mc_Reason := mc_Reason c; mc_Message := mc_Message c |}.

(** The sort is [sort.SliceStable]; [sortFunc] is [None] for a nil function. *)
Definition v1beta2_Set_sorted (sortFunc : option (MetaCondition → MetaCondition → bool))
    (now apiNow : Time) (targetObj : T) (condition : MetaCondition) : T :=
  let condition := mc_set_generation (GetGeneration targetObj) condition in
  let '(conditions, changed) :=
    setStatusCondition now apiNow (GetV1Beta2Conditions targetObj) condition in
  if negb changed then targetObj
  else
    let conditions := match sortFunc with
                      | Some less => insertion_sort less conditions
                      | None => conditions
                      end in
    SetV1Beta2Conditions conditions targetObj.

Definition v1beta2_Set : Time → Time → T → MetaCondition → T :=
  v1beta2_Set_sorted (Some defaultSortLessFunc).

(** [make] panics when its capacity is negative. *)
Definition v1beta2_Delete (to : T) (conditionType : string) : result T :=
  let conditions := GetV1Beta2Conditions to in
  if Z.of_nat (length conditions) - 1 <? 0 then Panic
  else Ok (SetV1Beta2Conditions (filter (λ c, mc_Type c ≠ conditionType) conditions) to).

(** ** Patches (patch.go) *)

Inductive v1beta2_PatchOperation :=
| V1Beta2Add (After : MetaCondition)
| V1Beta2Change (Before After : MetaCondition)
| V1Beta2Remove (Before : MetaCondition).

Definition v1beta2_HasSameState (i j : MetaCondition) : bool :=
  bool_decide (mc_Type i = mc_Type j) && bool_decide (mc_Status i = mc_Status j)
  && bool_decide (mc_ObservedGeneration i = mc_ObservedGeneration j)
  && bool_decide (mc_Reason i = mc_Reason j) && bool_decide (mc_Message i = mc_Message j).

Definition v1beta2_NewPatch (before after : T) : list v1beta2_PatchOperation :=
  let beforeConditions := GetV1Beta2Conditions before in
  let afterConditions := GetV1Beta2Conditions after in
  omap (λ afterCondition,
      match FindStatusCondition beforeConditions (mc_Type afterCondition) with
      | None => Some (V1Beta2Add afterCondition)
      | Some beforeCondition =>
          if bool_decide (afterCondition = beforeCondition) then None
          else Some (V1Beta2Change beforeCondition afterCondition)
      end) afterConditions
  ++ omap (λ beforeCondition,
      match FindStatusCondition afterConditions (mc_Type beforeCondition) with
      | None => Some (V1Beta2Remove beforeCondition)
      | Some _ => None
      end) beforeConditions.

Record PatchApplyOptions := {
  ownedConditionTypes : list string;
  forceOverwrite2 : bool;
  conditionSortFunc : option (MetaCondition → MetaCondition → bool);
}.

Definition isOwnedConditionType (o : PatchApplyOptions) (t : string) : bool :=
  bool_decide (t ∈ ownedConditionTypes o).

Definition v1beta2_apply_operation (now apiNow : Time) (o : PatchApplyOptions)
    (latest : list MetaCondition) (op : v1beta2_PatchOperation) : result (list MetaCondition) :=
  match op with
  | V1Beta2Add after =>
      if forceOverwrite2 o || isOwnedConditionType o (mc_Type after)
      then Ok (setStatusCondition now apiNow latest after).1
      else
        match FindStatusCondition latest (mc_Type after) with
        | Some latestCondition =>
            if negb (v1beta2_HasSameState latestCondition after)
            then Err (Errorf "merge/AddCondition conflict") else Ok latest
        | None => Ok (setStatusCondition now apiNow latest after).1
        end
  | V1Beta2Change before after =>
      if forceOverwrite2 o || isOwnedConditionType o (mc_Type after)
      then Ok (setStatusCondition now apiNow latest after).1
      else
        match FindStatusCondition latest (mc_Type after) with
        | None => Err (Errorf "merge/ChangeCondition conflict: deleted")
        | Some latestCondition =>
            if bool_decide (latestCondition ≠ before) then
              if negb (v1beta2_HasSameState latestCondition after)
              then Err (Errorf "merge/ChangeCondition conflict") else Ok latest
            else Ok (setStatusCondition now apiNow latest after).1
        end
  | V1Beta2Remove before =>
      match latest with
      | [] => Ok latest
      | _ =>
          if forceOverwrite2 o || isOwnedConditionType o (mc_Type before)
          then Ok (RemoveStatusCondition latest (mc_Type before))
          else
            match FindStatusCondition latest (mc_Type before) with
            | Some latestCondition =>
                if negb (v1beta2_HasSameState latestCondition before)
                then Err (Errorf "merge/RemoveCondition conflict")
                else Ok (RemoveStatusCondition latest (mc_Type before))
            | None => Ok (RemoveStatusCondition latest (mc_Type before))
            end
      end
  end.

Fixpoint v1beta2_apply_operations (now apiNow : Time) (o : PatchApplyOptions)
    (latest : list MetaCondition) (p : list v1beta2_PatchOperation) : result (list MetaCondition) :=
  match p with
  | [] => Ok latest
  | op :: p =>
      latest ← v1beta2_apply_operation now apiNow o latest op;
      v1beta2_apply_operations now apiNow o latest p
  end.

Definition v1beta2_Apply (now apiNow : Time) (o : PatchApplyOptions)
    (p : list v1beta2_PatchOperation) (latest : T) : result T :=
  match p with
  | [] => Ok latest
  | _ =>
      conditions ← v1beta2_apply_operations now apiNow o (GetV1Beta2Conditions latest) p;
      let conditions := match conditionSortFunc o with
                        | Some less => insertion_sort less conditions
                        | None => conditions
                        end in
      Ok (SetV1Beta2Conditions conditions latest)
  end.
End v1beta2.

(** ** Theory *)

Definition types (cs : list MetaCondition) : list string := mc_Type <$> cs.

Lemma find_type t cs c : find (has_type t) cs = Some c → mc_Type c = t ∧ c ∈ cs.
Proof.
  intros [Hin Ht%bool_decide_eq_true]%find_some. split; [done|]. by apply list_elem_of_In.
Qed.

Lemma find_type_None t cs : find (has_type t) cs = None ↔ t ∉ types cs.
Proof.
  unfold types. rewrite list_elem_of_fmap. split.
  - intros E (c & -> & Hin%list_elem_of_In). pose proof (find_none _ _ E c Hin) as Hf.
    by apply bool_decide_eq_false in Hf.
  - intros Hno. destruct (find (has_type t) cs) as [c|] eqn:E; [|done].
    apply find_type in E as [<- Hin]. destruct Hno. eauto.
Qed.

Lemma find_type_elem cs c : NoDup (types cs) → c ∈ cs → find (has_type (mc_Type c)) cs = Some c.
Proof.
  induction cs as [|d cs IH]; [by intros _ ?%not_elem_of_nil|]. unfold types in *.
  rewrite fmap_cons. intros [Hd Hnd]%NoDup_cons [->|Hin]%elem_of_cons; simpl.
  - unfold has_type. by rewrite bool_decide_eq_true_2.
  - unfold has_type at 1. rewrite bool_decide_eq_false_2; [by apply IH|].
    intros E. destruct Hd. rewrite E. by apply list_elem_of_fmap_2.
Qed.

(** Which condition of a type there is does not depend on the order of the list. *)
Lemma find_type_perm t l k : NoDup (types l) → l ≡ₚ k → find (has_type t) l = find (has_type t) k.
Proof.
  intros Hnd Hp. assert (NoDup (types k)) as Hnd' by (unfold types in *; by rewrite <- Hp).
  destruct (find (has_type t) l) as [c|] eqn:E.
  - apply find_type in E as [<- Hin]. rewrite Hp in Hin. symmetry. by apply find_type_elem.
  - symmetry. apply find_type_None. apply find_type_None in E. unfold types in *. by rewrite <- Hp.
Qed.

Lemma has_type_self c : has_type (mc_Type c) c = true.
Proof. unfold has_type. by apply bool_decide_eq_true. Qed.

Lemma has_type_ne t c : t ≠ mc_Type c → has_type t c = false.
Proof. intros Hne. apply bool_decide_eq_false. congruence. Qed.

Lemma find_upsert now cs new t :
  find (has_type t) (upsert now cs new).1 =
    if decide (t = mc_Type new)
    then Some (match find (has_type t) cs with Some e => updated now e new | None => added now new end)
    else find (has_type t) cs.
Proof.
  induction cs as [|c cs IH]; simpl.
  - change (has_type t (added now new)) with (has_type t new).
    destruct (decide (t = mc_Type new)) as [->|Hne]; [by rewrite has_type_self|].
    by rewrite has_type_ne.
  - destruct (has_type (mc_Type new) c) eqn:Ec; simpl.
    + change (has_type t (updated now c new)) with (has_type t new).
      apply bool_decide_eq_true in Ec. destruct (decide (t = mc_Type new)) as [->|Hne].
      * by rewrite has_type_self, <- Ec, has_type_self.
      * rewrite !has_type_ne by congruence. done.
    + destruct (upsert now cs new) as [cs' changed]. simpl in *. rewrite IH.
      destruct (decide (t = mc_Type new)) as [->|Hne]; [by rewrite Ec|done].
Qed.

Lemma types_upsert now cs new :
  types (upsert now cs new).1 = types cs ∨
  types (upsert now cs new).1 = types cs ++ [mc_Type new] ∧ mc_Type new ∉ types cs.
Proof.
  induction cs as [|c cs IH]; simpl; [right; split; [done|apply not_elem_of_nil]|].
  destruct (has_type (mc_Type new) c) eqn:Ec.
  - apply bool_decide_eq_true in Ec. left. cbn [fst]. unfold types. rewrite !fmap_cons. cbn. by rewrite Ec.
  - apply bool_decide_eq_false in Ec. destruct (upsert now cs new) as [cs' changed].
    unfold types in *. cbn [fst] in *. rewrite !fmap_cons.
    destruct IH as [->|[-> Hni]]; [by left|right]. split; [done|]. by rewrite not_elem_of_cons.
Qed.

Lemma NoDup_upsert now cs new : NoDup (types cs) → NoDup (types (upsert now cs new).1).
Proof.
  intros Hnd. destruct (types_upsert now cs new) as [->|[-> Hni]]; [done|].
  apply NoDup_app. split_and!; [done| |apply NoDup_singleton].
  intros t Ht ->%list_elem_of_singleton. done.
Qed.

(** When nothing changed the list is the old one. *)
Lemma upsert_unchanged now cs new cs' : upsert now cs new = (cs', false) → cs' = cs.
Proof.
  revert cs'. induction cs as [|c cs IH]; intros cs'; simpl; [done|].
  case_match.
  - intros [= <- Hb]. apply bool_decide_eq_false, dec_stable in Hb. by rewrite Hb.
  - destruct (upsert now cs new) as [k b]. intros [= <- ->]. f_equal. by apply IH.
Qed.

Section theory.
Context `{MetaConditions} {T : Type} `{V1Beta2Setter T}.

(** The condition as it reaches the list: without a transition time it gets the current
    one, and it loses fractions of a second. *)
Definition stamped (now : Time) (c : MetaCondition) : MetaCondition :=
  mc_set_time (TruncateSecond (if IsZero (Some (mc_LastTransitionTime c)) then now
                               else mc_LastTransitionTime c)) c.

Lemma setStatusCondition_upsert now apiNow cs c :
  setStatusCondition now apiNow cs c = upsert apiNow cs (stamped now c).
Proof.
  unfold setStatusCondition, stamped. rewrite SetStatusCondition_upsert.
  by destruct (IsZero (Some (mc_LastTransitionTime c))).
Qed.

Lemma v1beta2_Set_Get_aux (sortFunc : option (MetaCondition → MetaCondition → bool))
    (now apiNow : Time) (x : T) (c : MetaCondition) (t : string) :
  NoDup (types (GetV1Beta2Conditions x)) →
  let c' := stamped now (mc_set_generation (GetGeneration x) c) in
  let x' := v1beta2_Set_sorted sortFunc now apiNow x c in
  NoDup (types (GetV1Beta2Conditions x')) ∧
  v1beta2_Get x' t =
    if decide (t = mc_Type c)
    then Some (match v1beta2_Get x t with Some e => updated apiNow e c' | None => added apiNow c' end)
    else v1beta2_Get x t.
Proof.
  intros Hnd c' x'. unfold v1beta2_Get. rewrite !FindStatusCondition_first.
  pose proof (find_upsert apiNow (GetV1Beta2Conditions x) c' t) as Hf.
  pose proof (NoDup_upsert apiNow _ c' Hnd) as Hnd'. change (mc_Type c') with (mc_Type c) in Hf.
  subst x'. unfold v1beta2_Set_sorted. rewrite setStatusCondition_upsert. fold c'.
  destruct (upsert apiNow (GetV1Beta2Conditions x) c') as [cs changed] eqn:E. simpl in Hf, Hnd'.
  destruct changed; simpl.
  - rewrite Get_SetV1Beta2Conditions. destruct sortFunc as [less|]; [|by split].
    rewrite <- Hf. split.
    + unfold types in *. by rewrite insertion_sort_perm.
    + symmetry. apply find_type_perm; [done|]. symmetry. apply insertion_sort_perm.
  - apply upsert_unchanged in E as ->. by split.
Qed.

(** *** Patches *)

Definition op_type (op : v1beta2_PatchOperation) : string :=
  match op with
  | V1Beta2Add a => mc_Type a
  | V1Beta2Change _ a => mc_Type a
  | V1Beta2Remove b => mc_Type b
  end.

Definition op_after (op : v1beta2_PatchOperation) : option MetaCondition :=
  match op with V1Beta2Add a => Some a | V1Beta2Change _ a => Some a | V1Beta2Remove _ => None end.

Definition op_before (op : v1beta2_PatchOperation) : option MetaCondition :=
  match op with V1Beta2Add _ => None | V1Beta2Change b _ => Some b | V1Beta2Remove b => Some b end.

(** The state of a condition and whether there is one agree. *)
Definition same_state (a b : option MetaCondition) : Prop :=
  match a, b with
  | Some a, Some b => v1beta2_HasSameState a b = true
  | None, None => True
  | _, _ => False
  end.

Lemma v1beta2_HasSameState_refl c : v1beta2_HasSameState c c = true.
Proof. unfold v1beta2_HasSameState. by rewrite !bool_decide_eq_true_2. Qed.

Lemma set_same_state now apiNow cs c :
  let cs' := (setStatusCondition now apiNow cs c).1 in
  same_state (find (has_type (mc_Type c)) cs') (Some c) ∧
  (∀ t, t ≠ mc_Type c → find (has_type t) cs' = find (has_type t) cs) ∧
  (NoDup (types cs) → NoDup (types cs')).
Proof.
  cbv zeta. rewrite setStatusCondition_upsert. split_and!.
  - rewrite find_upsert, decide_True by done.
    destruct (find (has_type (mc_Type c)) cs) as [e|]; simpl;
      unfold v1beta2_HasSameState; by rewrite !bool_decide_eq_true_2.
  - intros t Ht. by rewrite find_upsert, decide_False.
  - apply NoDup_upsert.
Qed.

Lemma find_filter_type t t' cs :
  find (has_type t) (filter (λ c, mc_Type c ≠ t') cs) =
    if decide (t = t') then None else find (has_type t) cs.
Proof.
  induction cs as [|c cs IH]; simpl; [by destruct (decide (t = t'))|]. rewrite filter_cons.
  destruct (decide (mc_Type c ≠ t')) as [Hc|Hc]; simpl; rewrite IH.
  - destruct (decide (t = t')) as [->|]; [|done]. by rewrite has_type_ne by congruence.
  - apply dec_stable in Hc. destruct (decide (t = t')) as [->|Hne]; [done|].
    by rewrite has_type_ne by congruence.
Qed.

(** An operation on a list that still has what it had before succeeds, and moves the
    condition of its type only. *)
Lemma apply_operation_ready now apiNow o latest op :
  NoDup (types latest) → find (has_type (op_type op)) latest = op_before op →
  ∃ latest', v1beta2_apply_operation now apiNow o latest op = Ok latest' ∧
    same_state (find (has_type (op_type op)) latest') (op_after op) ∧
    (∀ t, t ≠ op_type op → find (has_type t) latest' = find (has_type t) latest) ∧
    NoDup (types latest').
Proof.
  intros Hnd Hready. destruct op as [a|b a|b]; simpl in *; rewrite ?FindStatusCondition_first, ?Hready.
  - destruct (set_same_state now apiNow latest a) as (Hs & Ho & Hn).
    eexists. split; [by case_match|]. eauto.
  - destruct (set_same_state now apiNow latest a) as (Hs & Ho & Hn).
    eexists. split; [|eauto]. case_match; [done|]. by rewrite bool_decide_eq_false_2 by auto.
  - rewrite v1beta2_HasSameState_refl, RemoveStatusCondition_filter. simpl.
    exists (filter (λ c, mc_Type c ≠ mc_Type b) latest). split.
    { destruct latest; [done|]. by case_match. }
    rewrite find_filter_type, decide_True by done. split; [done|]. split.
    + intros t Ht. by rewrite find_filter_type, decide_False.
    + unfold types in *. eapply sublist_NoDup; [done|]. apply fmap_sublist, sublist_filter.
Qed.

Lemma apply_operations_ready now apiNow o p latest :
  NoDup (types latest) → NoDup (op_type <$> p) →
  (∀ op, op ∈ p → find (has_type (op_type op)) latest = op_before op) →
  ∃ latest', v1beta2_apply_operations now apiNow o latest p = Ok latest' ∧
    (∀ op, op ∈ p → same_state (find (has_type (op_type op)) latest') (op_after op)) ∧
    (∀ t, t ∉ op_type <$> p → find (has_type t) latest' = find (has_type t) latest) ∧
    NoDup (types latest').
Proof.
  revert latest. induction p as [|op p IH]; intros latest Hnd Hp Hready; simpl.
  { exists latest. split_and!; try done. by intros op ?%not_elem_of_nil. }
  rewrite fmap_cons in Hp. apply NoDup_cons in Hp as [Hop Hp].
  destruct (apply_operation_ready now apiNow o latest op) as (l1 & -> & Hs & Ho & Hnd1);
    [done|apply Hready; by left|]. simpl.
  destruct (IH l1 Hnd1 Hp) as (l2 & -> & Hs2 & Ho2 & Hnd2).
  { intros op' Hin. rewrite Ho; [apply Hready; by right|].
    intros E. apply Hop. rewrite <- E. by apply list_elem_of_fmap_2. }
  exists l2. split_and!; try done.
  - intros op' [->|Hin]%elem_of_cons; [by rewrite Ho2|auto].
  - intros t [? ?]%not_elem_of_cons. rewrite Ho2, Ho; done.
Qed.

Definition patch_upserts (before after : list MetaCondition) : list v1beta2_PatchOperation :=
  omap (λ a, match find (has_type (mc_Type a)) before with
             | None => Some (V1Beta2Add a)
             | Some b => if bool_decide (a = b) then None else Some (V1Beta2Change b a)
             end) after.

Definition patch_removes (before after : list MetaCondition) : list v1beta2_PatchOperation :=
  omap (λ b, match find (has_type (mc_Type b)) after with
             | None => Some (V1Beta2Remove b)
             | Some _ => None
             end) before.

Lemma NewPatch_split (before after : T) :
  v1beta2_NewPatch before after =
    patch_upserts (GetV1Beta2Conditions before) (GetV1Beta2Conditions after)
    ++ patch_removes (GetV1Beta2Conditions before) (GetV1Beta2Conditions after).
Proof.
  unfold v1beta2_NewPatch, patch_upserts, patch_removes.
  f_equal; apply list_omap_ext, Forall2_same_length_lookup; (split; [done|]);
    intros i x y Hx Hy; simplify_eq; by rewrite FindStatusCondition_first.
Qed.

Lemma elem_of_upserts before after op :
  op ∈ patch_upserts before after → ∃ a, a ∈ after ∧ op_after op = Some a ∧
    op_type op = mc_Type a ∧ op_before op = find (has_type (mc_Type a)) before.
Proof.
  intros (a & Ha & E)%list_elem_of_omap. exists a. split; [done|].
  destruct (find (has_type (mc_Type a)) before) as [b|].
  - case_bool_decide; [done|]. by injection E as <-.
  - by injection E as <-.
Qed.

Lemma elem_of_removes before after op :
  op ∈ patch_removes before after → ∃ b, b ∈ before ∧ op = V1Beta2Remove b ∧
    find (has_type (mc_Type b)) after = None.
Proof.
  intros (b & Hb & E)%list_elem_of_omap. exists b. split; [done|].
  destruct (find (has_type (mc_Type b)) after); [done|]. by injection E as <-.
Qed.

Lemma omap_types {A} (f : A → option v1beta2_PatchOperation) (key : A → string) l :
  (∀ x op, f x = Some op → op_type op = key x) → op_type <$> omap f l `sublist_of` key <$> l.
Proof.
  intros Hf. induction l as [|x l IH]; simpl; [constructor|]. destruct (f x) as [op|] eqn:E.
  - rewrite <- (Hf x op E). by constructor.
  - by constructor.
Qed.

Lemma NoDup_NewPatch before after :
  NoDup (types before) → NoDup (types after) →
  NoDup (op_type <$> (patch_upserts before after ++ patch_removes before after)).
Proof.
  intros Hb Ha. rewrite fmap_app. apply NoDup_app. split_and!.
  - eapply sublist_NoDup; [exact Ha|]. apply omap_types. intros x op E.
    destruct (find _ _); [case_bool_decide; [done|]|]; by injection E as <-.
  - intros t (op & -> & Hop)%list_elem_of_fmap (op' & E & Hop')%list_elem_of_fmap.
    apply elem_of_upserts in Hop as (a & Hin & _ & Et & _).
    apply elem_of_removes in Hop' as (b & _ & -> & Hno). simpl in E.
    apply find_type_None in Hno. apply Hno. rewrite <- E, Et. by apply list_elem_of_fmap_2.
  - eapply sublist_NoDup; [exact Hb|]. apply omap_types. intros x op E.
    destruct (find _ _); [done|]. by injection E as <-.
Qed.

Lemma NewPatch_complete before after t :
  NoDup (types before) → NoDup (types after) →
  t ∉ op_type <$> (patch_upserts before after ++ patch_removes before after) →
  find (has_type t) before = find (has_type t) after.
Proof.
  intros Hb Ha Hno.
  assert (∀ op, op ∈ patch_upserts before after ++ patch_removes before after → op_type op ≠ t) as Hop.
  { intros op Hin <-. apply Hno. by apply list_elem_of_fmap_2. }
  destruct (find (has_type t) after) as [a|] eqn:Ea.
  - apply find_type in Ea as [<- Hin]. destruct (find (has_type (mc_Type a)) before) as [b|] eqn:Eb.
    + destruct (decide (a = b)) as [->|Hne]; [done|].
      destruct (Hop (V1Beta2Change b a)); [|done]. apply elem_of_app. left.
      apply list_elem_of_omap. exists a. split; [done|]. rewrite Eb.
      by rewrite bool_decide_eq_false_2.
    + destruct (Hop (V1Beta2Add a)); [|done]. apply elem_of_app. left.
      apply list_elem_of_omap. exists a. split; [done|]. by rewrite Eb.
  - destruct (find (has_type t) before) as [b|] eqn:Eb; [|done].
    apply find_type in Eb as [<- Hin]. destruct (Hop (V1Beta2Remove b)); [|done].
    apply elem_of_app. right. apply list_elem_of_omap. exists b. split; [done|]. by rewrite Ea.
Qed.

Lemma v1beta2_roundtrip_aux now apiNow o (before after : T) :
  NoDup (types (GetV1Beta2Conditions before)) → NoDup (types (GetV1Beta2Conditions after)) →
  ∃ r, v1beta2_Apply now apiNow o (v1beta2_NewPatch before after) before = Ok r ∧
    ∀ t, same_state (v1beta2_Get r t) (v1beta2_Get after t).
Proof.
  intros Hb Ha. unfold v1beta2_Apply, v1beta2_Get. rewrite NewPatch_split.
  set (p := _ ++ _). pose proof (NoDup_NewPatch _ _ Hb Ha) as Hnd. fold p in Hnd.
  assert (∀ op, op ∈ p → find (has_type (op_type op)) (GetV1Beta2Conditions before) = op_before op
    ∧ op_after op = find (has_type (op_type op)) (GetV1Beta2Conditions after)) as Hop.
  { intros op [Hin|Hin]%elem_of_app.
    - apply elem_of_upserts in Hin as (a & Hin & -> & -> & ->). split; [done|].
      symmetry. by apply find_type_elem.
    - apply elem_of_removes in Hin as (b & Hin & -> & Hno). split; [by apply find_type_elem|done]. }
  destruct (apply_operations_ready now apiNow o p (GetV1Beta2Conditions before) Hb Hnd)
    as (cs & Ecs & Hs & Hother & Hnd'); [by intros op Hin; apply Hop|].
  assert (∀ t, same_state (find (has_type t) cs) (find (has_type t) (GetV1Beta2Conditions after))) as Hall.
  { intros t. destruct (decide (t ∈ op_type <$> p)) as [(op & -> & Hin)%list_elem_of_fmap|Hno].
    - rewrite <- (proj2 (Hop op Hin)). by apply Hs.
    - rewrite Hother, (NewPatch_complete _ _ _ Hb Ha Hno) by done.
      destruct (find _ _); simpl; [apply v1beta2_HasSameState_refl|done]. }
  assert (∀ x, GetV1Beta2Conditions x ≡ₚ cs → ∀ t, same_state (FindStatusCondition
    (GetV1Beta2Conditions x) t) (FindStatusCondition (GetV1Beta2Conditions after) t)) as Hx.
  { intros x Hperm t. rewrite !FindStatusCondition_first.
    rewrite <- (find_type_perm t cs); [apply Hall|done|done]. }
  destruct p as [|op p'] eqn:Ep.
  - exists before. split; [done|]. apply Hx. by injection Ecs as ->.
  - rewrite Ecs. simpl. eexists. split; [done|]. apply Hx. rewrite Get_SetV1Beta2Conditions.
    destruct (conditionSortFunc o); [apply insertion_sort_perm|done].
Qed.
End theory.

(** ** Properties *)

Section properties.
Context `{MetaConditions} {T : Type} `{V1Beta2Setter T}.

(** After [Set] there is still one condition per type; the condition has the requested
    state at the generation of the object, every other condition is as before, and the
    transition time moves only when the status changes. *)
Theorem v1beta2_Set_Get (sortFunc : option (MetaCondition → MetaCondition → bool))
    (now apiNow : Time) (x : T) (c : MetaCondition) (t : string) :
  NoDup (types (GetV1Beta2Conditions x)) →
  let c' := stamped now (mc_set_generation (GetGeneration x) c) in
  let x' := v1beta2_Set_sorted sortFunc now apiNow x c in
  NoDup (types (GetV1Beta2Conditions x')) ∧
  v1beta2_Get x' t =
    if decide (t = mc_Type c)
    then Some (match v1beta2_Get x t with Some e => updated apiNow e c' | None => added apiNow c' end)
    else v1beta2_Get x t.
Proof. apply v1beta2_Set_Get_aux. Qed.

(** A patch from one object to another, applied to the first with any options, succeeds
    and leaves the conditions in the state of the second. *)
Theorem v1beta2_patch_roundtrip (now apiNow : Time) (o : PatchApplyOptions) (before after : T) :
  NoDup (types (GetV1Beta2Conditions before)) → NoDup (types (GetV1Beta2Conditions after)) →
  ∃ r, v1beta2_Apply now apiNow o (v1beta2_NewPatch before after) before = Ok r ∧
    ∀ t, same_state (v1beta2_Get r t) (v1beta2_Get after t).
Proof. apply v1beta2_roundtrip_aux. Qed.

(** Deleting a condition of an object without conditions panics, since the capacity of
    the new slice is negative; of any other object it removes the conditions of the type. *)
Theorem v1beta2_Delete_cases (x : T) (t : string) :
  match v1beta2_Delete x t with
  | Panic => GetV1Beta2Conditions x = []
  | Ok x' => v1beta2_Get x' t = None ∧ ∀ t', t' ≠ t → v1beta2_Get x' t' = v1beta2_Get x t'
  | Err _ => False
  end.
Proof.
  unfold v1beta2_Delete. destruct (Z.ltb_spec (Z.of_nat (length (GetV1Beta2Conditions x)) - 1) 0).
  - apply length_zero_iff_nil. lia.
  - unfold v1beta2_Get. setoid_rewrite Get_SetV1Beta2Conditions.
    setoid_rewrite FindStatusCondition_first. split.
    + by rewrite find_filter_type, decide_True.
    + intros t' Ht'. by rewrite find_filter_type, decide_False.
Qed.
End properties.

(** ** Witnesses *)

Definition up_to_date : MetaCondition :=
  {| mc_Type := "UpToDate"; mc_Status := ConditionTrue; mc_ObservedGeneration := 0;
     mc_LastTransitionTime := 0; mc_Reason := "UpToDate"; mc_Message := "" |}.

Lemma v1beta2_Set_Get_witness :
  v1beta2_Get (v1beta2_Set_sorted None (5 * Second) 0 emptyMachine up_to_date) "UpToDate"
    = Some (added 0 (stamped (5 * Second) (mc_set_generation 0 up_to_date))).
Proof.
  refine (proj2 (v1beta2_Set_Get None (5 * Second) 0 emptyMachine up_to_date "UpToDate" _)).
  apply NoDup_nil_2.
Defined.

Lemma v1beta2_patch_roundtrip_witness :
  ∃ r, v1beta2_Apply 0 0 {| ownedConditionTypes := []; forceOverwrite2 := false;
         conditionSortFunc := Some defaultSortLessFunc |}
       (v1beta2_NewPatch emptyMachine (m_set_V1Beta2Conditions [up_to_date] emptyMachine))
       emptyMachine = Ok r.
Proof.
  destruct (v1beta2_patch_roundtrip 0 0 {| ownedConditionTypes := []; forceOverwrite2 := false;
    conditionSortFunc := Some defaultSortLessFunc |} emptyMachine
    (m_set_V1Beta2Conditions [up_to_date] emptyMachine)) as (r & Hr & _).
  - apply NoDup_nil_2.
  - apply NoDup_singleton.
  - exists r. exact Hr.
Defined.
