(* ===== verification/ConditionsMerge.v ===== *)
(** * Summaries, aggregates and mirrors of v1beta2 conditions (util/conditions/v1beta2)

    merge_strategies.go, summary.go, aggregate.go, mirror.go and options.go.  The plural of a
    kind is computed by the flect library, the class [Flect].  A set is unfolded in the order
    of the class [GoRange]. *)

From Stdlib Require Import Ascii.
From S2P Require Import Prelude GoStd Api ConditionsV1Beta2.

Class Flect := { Pluralize : string → string }.

#[export] Instance concrete_Flect : Flect | 100 := { Pluralize kind := kind +:+ "s" }.

(** ** Owners of conditions (merge_strategies.go) *)

Record ConditionOwnerInfo := { co_Kind : string; co_Name : string }.

Record ConditionWithOwnerInfo := {
  cw_OwnerResource : ConditionOwnerInfo;
  cw_Condition : MetaCondition;
}.

Definition cw_Type (c : ConditionWithOwnerInfo) : string := mc_Type (cw_Condition c).
Definition cw_Message (c : ConditionWithOwnerInfo) : string := mc_Message (cw_Condition c).

Definition ConditionOwnerInfo_String (o : ConditionOwnerInfo) : string :=
  co_Kind o +:+ " " +:+ co_Name o.

(** What reflection and the interfaces [runtime.Object] and [objectWithName] tell of an
    object: the kind of its type meta when it is a runtime object, the name of its Go type,
    and its own name when it has one. *)
Class ConditionOwner (T : Type) := {
  owner_kind : T → option string;
  owner_type_name : string;
  owner_name : T → option string;
}.

#[global] Instance Machine_ConditionOwner : ConditionOwner Machine := {
  owner_kind m := Some (tm_Kind (m_TypeMeta m));
  owner_type_name := "Machine";
  owner_name m := Some (m_Name m);
}.

Definition getConditionOwnerInfo {T} `{ConditionOwner T} (obj : T) : ConditionOwnerInfo :=
  let kind := default "" (owner_kind obj) in
  {| co_Kind := if String.eqb kind "" then owner_type_name (T := T) else kind;
     co_Name := default "" (owner_name obj) |}.

Definition getConditionsWithOwnerInfo {T} `{V1Beta2Getter T, ConditionOwner T} (obj : T) :
    list ConditionWithOwnerInfo :=
  let ownerInfo := getConditionOwnerInfo obj in
  (λ condition, {| cw_OwnerResource := ownerInfo; cw_Condition := condition |})
    <$> GetV1Beta2Conditions obj.

(** ** Priorities *)

(** A [uint8]; a custom function may return any. *)
Definition MergePriority : Type := Z.
Definition IssueMergePriority : MergePriority := 0.
Definition UnknownMergePriority : MergePriority := 1.
Definition InfoMergePriority : MergePriority := 2.

Definition GetDefaultMergePriorityFunc (negativePolarityConditionTypes : list string)
    (condition : MetaCondition) : MergePriority :=
  let negative := bool_decide (mc_Type condition ∈ negativePolarityConditionTypes) in
  if String.eqb (mc_Status condition) ConditionTrue then
    if negative then IssueMergePriority else InfoMergePriority
  else if String.eqb (mc_Status condition) ConditionFalse then
    if negative then InfoMergePriority else IssueMergePriority
  else if String.eqb (mc_Status condition) ConditionUnknown then UnknownMergePriority
  else UnknownMergePriority.

Definition issuesReportedReason : string := "IssuesReported".
Definition unknownReportedReason : string := "UnknownReported".
Definition infoReportedReason : string := "InfoReported".

Definition GetDefaultComputeMergeReasonFunc (issueReason unknownReason infoReason : string)
    (issueConditions unknownConditions _infoConditions : list ConditionWithOwnerInfo) : string :=
  match issueConditions, unknownConditions with
  | _ :: _, _ => issueReason
  | [], _ :: _ => unknownReason
  | [], [] => infoReason
  end.

(** ** Sorting and splitting *)

(** [conditionOrder]: the last index of a type in the list; a lookup of another type gives
    zero. *)
Definition condition_order (orderedConditionTypes : list string) : gmap string Z :=
  foldl (λ m '(i, t), <[t := Z.of_nat i]> m) ∅ (imap pair orderedConditionTypes).

Definition sort_less (order : gmap string Z) (a b : ConditionWithOwnerInfo) : bool :=
  let oa := default 0 (order !! cw_Type a) in
  let ob := default 0 (order !! cw_Type b) in
  (oa <? ob) || ((oa =? ob) && Before (Some (mc_LastTransitionTime (cw_Condition a)))
                                      (Some (mc_LastTransitionTime (cw_Condition b)))).

(** [sort.SliceStable]. *)
Definition sortConditions (conditions : list ConditionWithOwnerInfo)
    (orderedConditionTypes : list string) : list ConditionWithOwnerInfo :=
  insertion_sort (sort_less (condition_order orderedConditionTypes)) conditions.

Definition splitConditionsByPriority (conditions : list ConditionWithOwnerInfo)
    (getPriority : MetaCondition → MergePriority) :
    list ConditionWithOwnerInfo * list ConditionWithOwnerInfo * list ConditionWithOwnerInfo :=
  foldl (λ '(issueConditions, unknownConditions, infoConditions) condition,
      let p := getPriority (cw_Condition condition) in
      if p =? IssueMergePriority then
        (issueConditions ++ [condition], unknownConditions, infoConditions)
      else if p =? UnknownMergePriority then
        (issueConditions, unknownConditions ++ [condition], infoConditions)
      else if p =? InfoMergePriority then
        (issueConditions, unknownConditions, infoConditions ++ [condition])
      else (issueConditions, unknownConditions, infoConditions))
    ([], [], []) conditions.

(** ** Messages *)

Definition newline : ascii := ascii_of_N 10.
Definition nl : string := String newline EmptyString.

Definition indentIfMultiline (m : string) : string :=
  if ContainsByte m newline || HasPrefix m "* "
  then nl +:+ Join ((λ l, "  " +:+ l) <$> Split m newline) nl
  else " " +:+ m.

(** The names of the objects per message, for one kind: the order of the names is the order
    of the conditions. *)
Definition add_object (objs : gmap string (list string)) (m name : string) :
    gmap string (list string) :=
  <[m := default [] (objs !! m) ++ [name]]> objs.

Definition message_objects (conditions : list ConditionWithOwnerInfo) (dropEmpty : bool) :
    gmap string (gmap string (list string)) :=
  foldl (λ messageObjMap condition,
      if dropEmpty && String.eqb (cw_Message condition) "" then messageObjMap
      else
        let kind := co_Kind (cw_OwnerResource condition) in
        <[kind := add_object (default ∅ (messageObjMap !! kind)) (cw_Message condition)
                    (co_Name (cw_OwnerResource condition))]> messageObjMap)
    ∅ conditions.

Definition message_less (objs : gmap string (list string)) (a b : string) : bool :=
  let oa := default [] (objs !! a) in
  let ob := default [] (objs !! b) in
  (length ob <? length oa)%nat
  || ((length oa =? length ob)%nat && string_ltb (Join oa ",") (Join ob ",")).

Section merge.
Context `{Flect, GoRange, GoSort}.

Definition object_message (kind : string) (allObjects : list string) (m : string) : string :=
  let kindPlural := Pluralize kind in
  let allObjects := go_sort string_ltb allObjects in
  let n := length allObjects in
  (if (n =? 0)%nat then ""
   else if (n =? 1)%nat then "* " +:+ kind +:+ " " +:+ Join allObjects ", " +:+ ":"
   else if (n <=? 3)%nat then "* " +:+ kindPlural +:+ " " +:+ Join allObjects ", " +:+ ":"
   else "* " +:+ kindPlural +:+ " " +:+ Join (take 3 allObjects) ", " +:+ ", ... ("
        +:+ FormatInt (Z.of_nat n - 3) +:+ " more):")
  +:+ indentIfMultiline m.

(** The loop over the messages of one kind: [n] messages may still be added, [other] counts
    the objects of the messages that were not. *)
Definition pick_messages (kind : string) (objs : gmap string (list string)) :
    list string → Z * Z * list string → Z * Z * list string :=
  λ messageIndex start, foldl (λ '(n, other, messages) m,
      let allObjects := default [] (objs !! m) in
      if n =? 0 then (n, other + Z.of_nat (length allObjects), messages)
      else (n - 1, other, messages ++ [object_message kind allObjects m]))
    start messageIndex.

Definition kind_messages (otherMessage kind : string) (objs : gmap string (list string))
    (n : Z) (messages : list string) : Z * list string :=
  let messageIndex := insertion_sort (message_less objs) (go_range objs).*1 in
  let '(n, other, messages) := pick_messages kind objs messageIndex (n, 0, messages) in
  let messages := if other =? 1
    then messages ++ ["And " +:+ FormatInt other +:+ " " +:+ kind +:+ " " +:+ otherMessage]
    else messages in
  let messages := if 1 <? other
    then messages ++ ["And " +:+ FormatInt other +:+ " " +:+ Pluralize kind +:+ " " +:+ otherMessage]
    else messages in
  (n, messages).

Definition aggregateMessages (conditions : list ConditionWithOwnerInfo) (n : Z)
    (dropEmpty : bool) (otherMessage : string) : Z * list string :=
  let messageObjMap := message_objects conditions dropEmpty in
  let kinds := go_sort string_ltb (go_range messageObjMap).*1 in
  foldl (λ '(n, messages) kind,
      kind_messages otherMessage kind (default ∅ (messageObjMap !! kind)) n messages)
    (n, []) kinds.

(** ** The default strategy *)

Record defaultMergeStrategy := {
  ds_getPriorityFunc : option (MetaCondition → MergePriority);
  ds_computeReasonFunc : option (list ConditionWithOwnerInfo → list ConditionWithOwnerInfo →
    list ConditionWithOwnerInfo → string);
  ds_targetConditionHasPositivePolarity : bool;
}.

Definition merge_status (positive : bool) (issue unknown info : list ConditionWithOwnerInfo) :
    option string :=
  match issue, unknown, info with
  | _ :: _, _, _ => Some (if positive then ConditionFalse else ConditionTrue)
  | [], _ :: _, _ => Some ConditionUnknown
  | [], [], _ :: _ => Some (if positive then ConditionTrue else ConditionFalse)
  | [], [], [] => None
  end.

Definition summary_line (getPriority : MetaCondition → MergePriority) (status : string)
    (c : ConditionWithOwnerInfo) : option string :=
  if (getPriority (cw_Condition c) =? InfoMergePriority)
     && (negb (String.eqb status ConditionTrue) || String.eqb (cw_Message c) "")
  then None
  else Some ("* " +:+ cw_Type c +:+ ":"
    +:+ (if negb (String.eqb (cw_Message c) "") then indentIfMultiline (cw_Message c)
         else " No additional info provided")).

Definition summary_message (getPriority : MetaCondition → MergePriority) (status : string)
    (issue unknown info : list ConditionWithOwnerInfo) : string :=
  Join (omap (summary_line getPriority status) (issue ++ unknown ++ info)) nl.

Definition aggregate_message (issue unknown info : list ConditionWithOwnerInfo) : list string :=
  let '(n, messages) :=
    match issue with
    | [] => (3, [])
    | _ => aggregateMessages issue 3 false "with other issues"
    end in
  let '(n, messages) :=
    match unknown with
    | [] => (n, messages)
    | _ => let '(n, ms) := aggregateMessages unknown n false "with status unknown" in
           (n, messages ++ ms)
    end in
  match issue, unknown, info with
  | [], [], _ :: _ => messages ++ (aggregateMessages info n true "with additional info").2
  | _, _, _ => messages
  end.

Definition Merge (d : defaultMergeStrategy) (conditions : list ConditionWithOwnerInfo)
    (conditionTypes : list string) : result (string * string * string) :=
  match conditions with
  | [] => Err (Errorf "can't merge an empty list of conditions")
  | _ =>
      match ds_getPriorityFunc d with
      | None => Err (Errorf "can't merge without a getPriority func")
      | Some getPriority =>
          let isAggregateOperation := (length conditionTypes =? 1)%nat in
          let conditions := sortConditions conditions conditionTypes in
          let '(issue, unknown, info) := splitConditionsByPriority conditions getPriority in
          match merge_status (ds_targetConditionHasPositivePolarity d) issue unknown info with
          | None => Err (Errorf "can't merge an empty list of conditions")
          | Some status =>
              computeReason ← deref (ds_computeReasonFunc d);
              let reason := computeReason issue unknown info in
              let message := if isAggregateOperation then Join (aggregate_message issue unknown info) nl
                             else summary_message getPriority status issue unknown info in
              Ok (status, reason, message)
          end
      end
  end.

Inductive DefaultMergeStrategyOption :=
| GetPriorityFunc (f : option (MetaCondition → MergePriority))
| TargetConditionHasPositivePolarity (t : bool)
| ComputeReasonFunc (f : option (list ConditionWithOwnerInfo → list ConditionWithOwnerInfo →
    list ConditionWithOwnerInfo → string)).

Definition ApplyToDefaultMergeStrategy (o : defaultMergeStrategy)
    (opt : DefaultMergeStrategyOption) : defaultMergeStrategy :=
  match opt with
  | GetPriorityFunc f => {| ds_getPriorityFunc := f;
      ds_computeReasonFunc := ds_computeReasonFunc o;
      ds_targetConditionHasPositivePolarity := ds_targetConditionHasPositivePolarity o |}
  | TargetConditionHasPositivePolarity t => {| ds_getPriorityFunc := ds_getPriorityFunc o;
      ds_computeReasonFunc := ds_computeReasonFunc o;
      ds_targetConditionHasPositivePolarity := t |}
  | ComputeReasonFunc f => {| ds_getPriorityFunc := ds_getPriorityFunc o;
      ds_computeReasonFunc := f;
      ds_targetConditionHasPositivePolarity := ds_targetConditionHasPositivePolarity o |}
  end.

Definition DefaultMergeStrategy (opts : list DefaultMergeStrategyOption) : defaultMergeStrategy :=
  foldl ApplyToDefaultMergeStrategy
    {| ds_getPriorityFunc := Some (GetDefaultMergePriorityFunc []);
       ds_computeReasonFunc := Some (GetDefaultComputeMergeReasonFunc issuesReportedReason
         unknownReportedReason infoReportedReason);
       ds_targetConditionHasPositivePolarity := true |} opts.

(** A strategy as the summary and aggregate operations call it; a custom one may be any, and
    one that wraps a nil interface panics. *)
Definition MergeStrategy : Type :=
  list ConditionWithOwnerInfo → list string → result (string * string * string).

(** ** Summaries (summary.go) *)

Record SummaryOptions := {
  su_mergeStrategy : option MergeStrategy;
  su_conditionTypes : list string;
  su_negativePolarityConditionTypes : list string;
  su_ignoreTypesIfMissing : list string;
  su_overrideConditions : list ConditionWithOwnerInfo;
}.

Inductive SummaryOption :=
| ForConditionTypes (t : list string)
| SummaryNegativePolarity (t : list string)
| IgnoreTypesIfMissing (t : list string)
| OverrideConditions (t : list ConditionWithOwnerInfo)
| SummaryMergeStrategy (t : MergeStrategy).

Definition ApplyToSummary (o : SummaryOptions) (opt : SummaryOption) : SummaryOptions :=
  let 'Build_SummaryOptions strategy types negative ignore override := o in
  match opt with
  | ForConditionTypes t => Build_SummaryOptions strategy t negative ignore override
  | SummaryNegativePolarity t => Build_SummaryOptions strategy types t ignore override
  | IgnoreTypesIfMissing t => Build_SummaryOptions strategy types negative t override
  | OverrideConditions t => Build_SummaryOptions strategy types negative ignore t
  | SummaryMergeStrategy t => Build_SummaryOptions (Some t) types negative ignore override
  end.

Definition SummaryOptions_ApplyOptions (opts : list SummaryOption) : SummaryOptions :=
  foldl ApplyToSummary (Build_SummaryOptions None [] [] [] []) opts.

Definition summary_strategy (o : SummaryOptions) : MergeStrategy :=
  match su_mergeStrategy o with
  | Some strategy => strategy
  | None => Merge (DefaultMergeStrategy [GetPriorityFunc
      (Some (GetDefaultMergePriorityFunc (su_negativePolarityConditionTypes o)))])
  end.

Definition NotYetReportedReason : string := "NotYetReported".

Definition by_type (conditions : list ConditionWithOwnerInfo) :
    gmap string ConditionWithOwnerInfo :=
  foldl (λ m c, <[cw_Type c := c]> m) ∅ conditions.

Fixpoint overrides_by_type (source : gmap string ConditionWithOwnerInfo)
    (acc : gmap string ConditionWithOwnerInfo) (overrides : list ConditionWithOwnerInfo) :
    result (gmap string ConditionWithOwnerInfo) :=
  match overrides with
  | [] => Ok acc
  | c :: overrides =>
      match acc !! cw_Type c with
      | Some _ => Err (Errorf ("override condition " +:+ cw_Type c +:+ " specified multiple times"))
      | None =>
          match source !! cw_Type c with
          | None => Err (Errorf ("override condition " +:+ cw_Type c +:+ " must exist in source object"))
          | Some _ => overrides_by_type source (<[cw_Type c := c]> acc) overrides
          end
      end
  end.

(** [UnsortedList] of a set. *)
Definition set_of (l : list string) : gmap string unit := list_to_map ((λ t, (t, tt)) <$> l).

Definition not_yet_reported (t message : string) : MetaCondition :=
  {| mc_Type := t; mc_Status := ConditionUnknown; mc_ObservedGeneration := 0;
     mc_LastTransitionTime := zero_time; mc_Reason := NotYetReportedReason;
     mc_Message := message |}.

Definition summary_in_scope (expected : list string) (overrides : gmap string ConditionWithOwnerInfo)
    (conditions : list ConditionWithOwnerInfo) : list ConditionWithOwnerInfo :=
  (λ c, default c (overrides !! cw_Type c)) <$> filter (λ c, cw_Type c ∈ expected) conditions.

Definition missing_types (expected existing ignore : list string) : list string :=
  (go_range (filter (λ '(t, _), (t ∉ existing) ∧ (t ∉ ignore)) (set_of expected))).*1.

Definition new_condition (t : string) (merged : string * string * string) : MetaCondition :=
  let '(status, reason, message) := merged in
  {| mc_Type := t; mc_Status := status; mc_ObservedGeneration := 0;
     mc_LastTransitionTime := zero_time; mc_Reason := reason; mc_Message := message |}.

Section operations.
Context {T : Type} `{V1Beta2Getter T, ConditionOwner T}.

Definition summary_scope (sourceObj : T) (o : SummaryOptions)
    (overrides : gmap string ConditionWithOwnerInfo) : list ConditionWithOwnerInfo :=
  let conditions := getConditionsWithOwnerInfo sourceObj in
  let expected := su_conditionTypes o in
  let existing := cw_Type <$> filter (λ c, cw_Type c ∈ expected) conditions in
  let diff := missing_types expected existing (su_ignoreTypesIfMissing o) in
  let conditionOwner := getConditionOwnerInfo sourceObj in
  summary_in_scope expected overrides conditions
  ++ ((λ t, {| cw_OwnerResource := conditionOwner;
               cw_Condition := not_yet_reported t "Condition not yet reported" |}) <$> diff).

Definition NewSummaryCondition (sourceObj : T) (targetConditionType : string)
    (opts : list SummaryOption) : result MetaCondition :=
  let o := SummaryOptions_ApplyOptions opts in
  let strategy := summary_strategy o in
  match su_conditionTypes o with
  | [] => Err (Errorf "option ForConditionTypes not provided or empty")
  | _ =>
      if bool_decide (targetConditionType ∈ su_conditionTypes o)
      then Err (Errorf ("option ForConditionTypes cannot include " +:+ targetConditionType
                        +:+ " (target condition type)"))
      else
        let conditionsByType := by_type (getConditionsWithOwnerInfo sourceObj) in
        overrides ← overrides_by_type conditionsByType ∅ (su_overrideConditions o);
        match summary_scope sourceObj o overrides with
        | [] => Err (Errorf "summary can't be performed when the list of conditions to be summarized is empty")
        | conditionsInScope =>
            merged ← strategy conditionsInScope (su_conditionTypes o);
            Ok (new_condition targetConditionType merged)
        end
  end.

(** ** Aggregates (aggregate.go) *)

Record AggregateOptions := {
  ag_mergeStrategy : option MergeStrategy;
  ag_targetConditionType : string;
  ag_negativePolarityConditionTypes : list string;
}.

Inductive AggregateOption :=
| AggregateTargetConditionType (t : string)
| AggregateNegativePolarity (t : list string)
| AggregateMergeStrategy (t : MergeStrategy).

Definition ApplyToAggregate (o : AggregateOptions) (opt : AggregateOption) : AggregateOptions :=
  let 'Build_AggregateOptions strategy target negative := o in
  match opt with
  | AggregateTargetConditionType t => Build_AggregateOptions strategy t negative
  | AggregateNegativePolarity t => Build_AggregateOptions strategy target t
  | AggregateMergeStrategy t => Build_AggregateOptions (Some t) target negative
  end.

Definition aggregate_strategy (o : AggregateOptions) (sourceConditionType : string) :
    MergeStrategy :=
  let negative := ag_negativePolarityConditionTypes o in
  match ag_mergeStrategy o with
  | Some strategy => strategy
  | None => Merge (DefaultMergeStrategy
      [TargetConditionHasPositivePolarity (negb (bool_decide (sourceConditionType ∈ negative)));
       GetPriorityFunc (Some (GetDefaultMergePriorityFunc negative))])
  end.

Definition aggregate_source (sourceConditionType : string) (obj : T) : ConditionWithOwnerInfo :=
  match find (λ c, String.eqb (cw_Type c) sourceConditionType) (getConditionsWithOwnerInfo obj) with
  | Some condition => condition
  | None => {| cw_OwnerResource := getConditionOwnerInfo obj;
               cw_Condition := not_yet_reported sourceConditionType
                 ("Condition " +:+ sourceConditionType +:+ " not yet reported") |}
  end.

Definition NewAggregateCondition (sourceObjs : list T) (sourceConditionType : string)
    (opts : list AggregateOption) : result MetaCondition :=
  match sourceObjs with
  | [] => Err (Errorf "sourceObjs can't be empty")
  | _ =>
      let o := foldl ApplyToAggregate (Build_AggregateOptions None sourceConditionType []) opts in
      (match ag_negativePolarityConditionTypes o with
      | t :: rest =>
          if negb (String.eqb t sourceConditionType) || (1 <? length (t :: rest))%nat
          then Err (Errorf ("negativePolarityConditionTypes can only be set to ["
                            +:+ quoted sourceConditionType +:+ "]"))
          else mret tt
      | [] => mret tt
      end) ≫= λ _,
      merged ← aggregate_strategy o sourceConditionType
                 (aggregate_source sourceConditionType <$> sourceObjs) [sourceConditionType];
      Ok (new_condition (ag_targetConditionType o) merged)
  end.

(** ** Mirrors (mirror.go) *)

Record MirrorOptions := {
  mi_targetConditionType : string;
  mi_fallbackStatus : string;
  mi_fallbackReason : string;
  mi_fallbackMessage : string;
}.

Inductive MirrorOption :=
| MirrorTargetConditionType (t : string)
| FallbackCondition (Status Reason Message : string).

Definition ApplyToMirror (o : MirrorOptions) (opt : MirrorOption) : MirrorOptions :=
  match opt with
  | MirrorTargetConditionType t => {| mi_targetConditionType := t;
      mi_fallbackStatus := mi_fallbackStatus o; mi_fallbackReason := mi_fallbackReason o;
      mi_fallbackMessage := mi_fallbackMessage o |}
  | FallbackCondition status reason message =>
      {| mi_targetConditionType := mi_targetConditionType o; mi_fallbackStatus := status;
         mi_fallbackReason := reason; mi_fallbackMessage := message |}
  end.

Definition newMirrorCondition (sourceCondition : option MetaCondition)
    (sourceConditionType : string) (opts : list MirrorOption) : MetaCondition :=
  let o := foldl ApplyToMirror {| mi_targetConditionType := sourceConditionType;
    mi_fallbackStatus := ""; mi_fallbackReason := ""; mi_fallbackMessage := "" |} opts in
  match sourceCondition with
  | Some c => {| mc_Type := mi_targetConditionType o; mc_Status := mc_Status c;
      mc_ObservedGeneration := 0; mc_LastTransitionTime := mc_LastTransitionTime c;
      mc_Reason := mc_Reason c; mc_Message := mc_Message c |}
  | None =>
      if negb (String.eqb (mi_fallbackStatus o) "")
      then new_condition (mi_targetConditionType o)
             (mi_fallbackStatus o, mi_fallbackReason o, mi_fallbackMessage o)
      else new_condition (mi_targetConditionType o)
             (ConditionUnknown, NotYetReportedReason,
              "Condition " +:+ sourceConditionType +:+ " not yet reported")
  end.

Definition NewMirrorCondition `{MetaConditions} (sourceObj : T) (sourceConditionType : string)
    (opts : list MirrorOption) : MetaCondition :=
  newMirrorCondition (v1beta2_Get sourceObj sourceConditionType) sourceConditionType opts.
End operations.

(** ** Setting them on a target *)

Section setters.
Context {S T : Type} `{V1Beta2Getter S, ConditionOwner S, V1Beta2Setter T, MetaConditions}.

Definition SetSummaryCondition (now apiNow : Time) (sourceObj : S) (targetObj : T)
    (targetConditionType : string) (opts : list SummaryOption) : result T :=
  summaryCondition ← NewSummaryCondition sourceObj targetConditionType opts;
  Ok (v1beta2_Set now apiNow targetObj summaryCondition).

Definition SetAggregateCondition (now apiNow : Time) (sourceObjs : list S) (targetObj : T)
    (conditionType : string) (opts : list AggregateOption) : result T :=
  aggregateCondition ← NewAggregateCondition sourceObjs conditionType opts;
  Ok (v1beta2_Set now apiNow targetObj aggregateCondition).

Definition SetMirrorCondition (now apiNow : Time) (sourceObj : S) (targetObj : T)
    (sourceConditionType : string) (opts : list MirrorOption) : T :=
  v1beta2_Set now apiNow targetObj (NewMirrorCondition sourceObj sourceConditionType opts).
End setters.
End merge.

Definition BoolToStatus (status : bool) : string := if status then ConditionTrue else ConditionFalse.

(** ** Theory: sorting and splitting *)

Lemma condition_order_snoc l t :
  condition_order (l ++ [t]) = <[t := Z.of_nat (length l)]> (condition_order l).
Proof. unfold condition_order. rewrite imap_app, foldl_app. simpl. by rewrite Nat.add_0_r. Qed.

Lemma condition_order_Some l t i :
  condition_order l !! t = Some i → 0 ≤ i ∧ l !! Z.to_nat i = Some t.
Proof.
  induction l as [|u l IH] using rev_ind; [done|]. rewrite condition_order_snoc.
  intros [[-> <-]|[Hne Hl]]%lookup_insert_Some.
  - rewrite Nat2Z.id, list_lookup_middle by done. split; [lia|done].
  - destruct (IH Hl) as [Hi Hli]. split; [done|]. by apply lookup_app_l_Some.
Qed.

Lemma condition_order_elem l t : t ∈ l → is_Some (condition_order l !! t).
Proof.
  induction l as [|u l IH] using rev_ind; [by intros ?%not_elem_of_nil|].
  rewrite condition_order_snoc, elem_of_app, list_elem_of_singleton, lookup_insert_is_Some.
  destruct (decide (u = t)) as [->|Hne]; [by left|]. intros [Hl| ->]; [right; auto|done].
Qed.

Lemma condition_order_inj l t u :
  t ∈ l → u ∈ l → default 0 (condition_order l !! t) = default 0 (condition_order l !! u) → t = u.
Proof.
  intros [i Hi]%condition_order_elem [j Hj]%condition_order_elem. rewrite Hi, Hj. simpl. intros ->.
  apply condition_order_Some in Hi as [_ Hi], Hj as [_ Hj]. congruence.
Qed.

Lemma sort_less_strict_weak order : strict_weak (sort_less order).
Proof.
  split; unfold sort_less, Before; intros *;
    rewrite ?orb_true_iff, ?orb_false_iff, ?andb_true_iff, ?andb_false_iff, ?Z.ltb_lt, ?Z.ltb_ge,
      ?Z.eqb_eq, ?Z.eqb_neq; lia.
Qed.

(** Conditions of distinct listed types have one order only. *)
Lemma sortConditions_perm_unique l cs ds :
  NoDup (cw_Type <$> cs) → (∀ c, c ∈ cs → cw_Type c ∈ l) → cs ≡ₚ ds →
  sortConditions cs l = sortConditions ds l.
Proof.
  intros Hnd Hl Hp. unfold sortConditions.
  eapply (StronglySorted_unique_strong (not_after (sort_less (condition_order l))));
    [|apply insertion_sort_sorted, strict_weak_all, sort_less_strict_weak..
     |by rewrite !insertion_sort_perm].
  intros c d. rewrite !insertion_sort_perm, <- Hp. intros Hc Hd Hcd Hdc.
  assert (cw_Type c = cw_Type d) as Et.
  { apply (condition_order_inj l); [auto..|]. unfold not_after, sort_less in *.
    apply orb_false_iff in Hcd as [Hcd _], Hdc as [Hdc _]. rewrite !Z.ltb_ge in *. lia. }
  apply list_elem_of_lookup in Hc as [i Hi], Hd as [j Hj].
  assert (i = j) as ->; [|congruence].
  apply (NoDup_lookup (cw_Type <$> cs) i j (cw_Type c)); [done|..]; rewrite list_lookup_fmap.
  - by rewrite Hi.
  - by rewrite Hj, Et.
Qed.

Definition of_priority (f : MetaCondition → MergePriority) (p : MergePriority)
    (cs : list ConditionWithOwnerInfo) : list ConditionWithOwnerInfo :=
  filter (λ c, f (cw_Condition c) = p) cs.

Lemma splitConditionsByPriority_filter cs f :
  splitConditionsByPriority cs f =
    (of_priority f IssueMergePriority cs, of_priority f UnknownMergePriority cs,
     of_priority f InfoMergePriority cs).
Proof.
  unfold splitConditionsByPriority, of_priority.
  induction cs as [|c cs IH] using rev_ind; [done|]. rewrite foldl_app, IH. simpl.
  rewrite !filter_app. simpl. rewrite !filter_cons, !filter_nil.
  destruct (Z.eqb_spec (f (cw_Condition c)) IssueMergePriority) as [E|E];
    [|destruct (Z.eqb_spec (f (cw_Condition c)) UnknownMergePriority) as [E'|E'];
      [|destruct (Z.eqb_spec (f (cw_Condition c)) InfoMergePriority) as [E''|E'']]];
    repeat case_decide; rewrite ?app_nil_r; try done; exfalso;
    unfold IssueMergePriority, UnknownMergePriority, InfoMergePriority, MergePriority in *; lia.
Qed.

Lemma of_priority_perm f p cs ds : cs ≡ₚ ds → of_priority f p cs ≡ₚ of_priority f p ds.
Proof. intros E. unfold of_priority. by rewrite E. Qed.

Lemma of_priority_nil f p cs :
  of_priority f p cs = [] ↔ ∀ c, c ∈ cs → f (cw_Condition c) ≠ p.
Proof.
  unfold of_priority. split.
  - intros E c Hc Hp. apply (not_elem_of_nil c). rewrite <- E. by apply list_elem_of_filter.
  - intros Hno. destruct (filter _ cs) as [|c l] eqn:E; [done|].
    assert (c ∈ filter (λ c, f (cw_Condition c) = p) cs) as [Hp Hc]%list_elem_of_filter
      by (rewrite E; left). by destruct (Hno c).
Qed.

(** Some condition of the list has the priority. *)
Definition reports (f : MetaCondition → MergePriority) (p : MergePriority)
    (cs : list MetaCondition) : bool := existsb (λ c, f c =? p) cs.

(** The status a list of conditions merges to, worst first. *)
Definition worst_status (f : MetaCondition → MergePriority) (positive : bool)
    (cs : list MetaCondition) : string :=
  if reports f IssueMergePriority cs then (if positive then ConditionFalse else ConditionTrue)
  else if reports f UnknownMergePriority cs then ConditionUnknown
  else (if positive then ConditionTrue else ConditionFalse).

Lemma reports_elem f p cs : reports f p cs = true ↔ ∃ c, c ∈ cs ∧ f c = p.
Proof.
  unfold reports. rewrite existsb_exists. split; intros (c & Hin & E); exists c.
  - rewrite list_elem_of_In. by apply Z.eqb_eq in E.
  - rewrite <- list_elem_of_In, Z.eqb_eq. done.
Qed.

Lemma reports_perm f p cs ds : cs ≡ₚ ds → reports f p cs = reports f p ds.
Proof. intros E. apply eq_true_iff_eq. rewrite !reports_elem. by setoid_rewrite E. Qed.

Lemma of_priority_reports f p cs :
  of_priority f p cs = [] ↔ reports f p (cw_Condition <$> cs) = false.
Proof.
  rewrite of_priority_nil, <- not_true_iff_false, reports_elem. split.
  - intros Hno (c & (d & -> & Hd)%list_elem_of_fmap & E). by apply (Hno d).
  - intros Hno c Hc E. apply Hno. exists (cw_Condition c).
    split; [by apply list_elem_of_fmap_2|done].
Qed.

(** Every priority is one of the three. *)
Definition proper_priority (f : MetaCondition → MergePriority) : Prop :=
  ∀ c, f c = IssueMergePriority ∨ f c = UnknownMergePriority ∨ f c = InfoMergePriority.

Lemma default_priority_proper negative : proper_priority (GetDefaultMergePriorityFunc negative).
Proof. intros c. unfold GetDefaultMergePriorityFunc. repeat case_match; auto. Qed.

Lemma merge_status_worst f positive cs :
  proper_priority f → cs ≠ [] →
  merge_status positive (of_priority f IssueMergePriority cs)
    (of_priority f UnknownMergePriority cs) (of_priority f InfoMergePriority cs)
  = Some (worst_status f positive (cw_Condition <$> cs)).
Proof.
  intros Hf Hne. unfold merge_status, worst_status.
  pose proof (of_priority_reports f IssueMergePriority cs) as Hi.
  pose proof (of_priority_reports f UnknownMergePriority cs) as Hu.
  pose proof (of_priority_nil f InfoMergePriority cs) as Hn.
  destruct (of_priority f IssueMergePriority cs) as [|ci li] eqn:Ei.
  - rewrite (proj1 Hi eq_refl). destruct (of_priority f UnknownMergePriority cs) as [|cu lu] eqn:Eu.
    + rewrite (proj1 Hu eq_refl). destruct (of_priority f InfoMergePriority cs); [|done].
      destruct cs as [|c cs]; [done|]. exfalso.
      rewrite of_priority_nil in Ei, Eu. destruct (Hf (cw_Condition c)) as [E|[E|E]].
      * apply (Ei c); [left|done].
      * apply (Eu c); [left|done].
      * apply (proj1 Hn eq_refl c); [left|done].
    + destruct (reports f UnknownMergePriority _); [done|]. discriminate (proj2 Hu eq_refl).
  - destruct (reports f IssueMergePriority _); [done|]. discriminate (proj2 Hi eq_refl).
Qed.

Section merge_theory.
Context `{Flect, GoRange, GoSort}.

Lemma Merge_worst d f cs types :
  ds_getPriorityFunc d = Some f → is_Some (ds_computeReasonFunc d) → proper_priority f →
  cs ≠ [] →
  ∃ r m, Merge d cs types =
    Ok (worst_status f (ds_targetConditionHasPositivePolarity d) (cw_Condition <$> cs), r, m).
Proof.
  intros Ef [reason Er] Hf Hne. unfold Merge. destruct cs as [|c cs]; [done|]. rewrite Ef, Er.
  rewrite splitConditionsByPriority_filter.
  assert (sortConditions (c :: cs) types ≡ₚ c :: cs) as Hp by apply insertion_sort_perm.
  rewrite merge_status_worst; [|done|by intros E; rewrite E in Hp; apply Permutation_nil_cons in Hp].
  simpl. do 2 eexists. do 3 f_equal. unfold worst_status.
  by rewrite !(reports_perm _ _ _ _ (fmap_Permutation cw_Condition _ _ Hp)).
Qed.

Section summary_theory.
Context {T : Type} `{V1Beta2Getter T, ConditionOwner T}.

Lemma types_with_owner (x : T) :
  cw_Type <$> getConditionsWithOwnerInfo x = types (GetV1Beta2Conditions x).
Proof. unfold getConditionsWithOwnerInfo. rewrite <- list_fmap_compose. done. Qed.

Lemma by_type_keys cs t : is_Some (by_type cs !! t) ↔ t ∈ cw_Type <$> cs.
Proof.
  unfold by_type. induction cs as [|c cs IH] using rev_ind.
  - simpl. rewrite lookup_empty. split; [by intros []|by intros ?%not_elem_of_nil].
  - rewrite foldl_app, fmap_app. simpl.
    rewrite lookup_insert_is_Some, elem_of_app, list_elem_of_singleton, IH.
    destruct (decide (cw_Type c = t)); naive_solver.
Qed.

(** The map of the overrides is built exactly when their types are distinct and exist in the
    source. *)
Lemma overrides_by_type_Ok source acc os :
  NoDup (cw_Type <$> os) →
  (∀ c, c ∈ os → acc !! cw_Type c = None ∧ is_Some (source !! cw_Type c)) →
  overrides_by_type source acc os = Ok (list_to_map ((λ c, (cw_Type c, c)) <$> os) ∪ acc).
Proof.
  revert acc. induction os as [|c os IH]; intros acc Hnd Hos.
  { simpl. by rewrite (left_id_L ∅ (∪)). }
  rewrite fmap_cons in Hnd. apply NoDup_cons in Hnd as [Hc Hnd]. simpl.
  destruct (Hos c) as [-> [e He]]; [left|]. rewrite He.
  rewrite IH; [|done|].
  - f_equal. rewrite <- insert_union_r; [by rewrite insert_union_l|]. apply not_elem_of_list_to_map.
    rewrite <- list_fmap_compose. done.
  - intros d Hd. destruct (Hos d) as [Hn Hs]; [by right|]. split; [|done].
    rewrite lookup_insert_ne; [done|]. intros E. apply Hc. rewrite E.
    by apply list_elem_of_fmap_2.
Qed.

Lemma overrides_by_type_inv source acc os m :
  overrides_by_type source acc os = Ok m →
  NoDup (cw_Type <$> os) ∧ (∀ c, c ∈ os → acc !! cw_Type c = None ∧ is_Some (source !! cw_Type c)).
Proof.
  revert acc. induction os as [|c os IH]; intros acc; simpl.
  { intros _. split; [constructor|]. by intros ? ?%not_elem_of_nil. }
  destruct (acc !! cw_Type c) eqn:Ea; [done|]. destruct (source !! cw_Type c) eqn:Es; [|done].
  intros [Hnd Hos]%IH. split.
  - constructor; [|done]. intros (d & E & Hd)%list_elem_of_fmap.
    destruct (Hos d Hd) as [Hn _]. by rewrite E, lookup_insert_eq in Hn.
  - intros d [->|Hd]%elem_of_cons; [eauto|]. destruct (Hos d Hd) as [Hn Hs].
    apply lookup_insert_None in Hn as [? ?]. eauto.
Qed.

Lemma overrides_by_type_fails source acc os :
  overrides_by_type source acc os ≠ Panic.
Proof.
  revert acc. induction os as [|c os IH]; intros acc; simpl; [done|].
  destruct (acc !! _); [done|]. destruct (source !! _); [apply IH|done].
Qed.

(** What a summary makes of a type: the override, else the condition of the object, else,
    unless the type may be missing, a condition with status Unknown. *)
Definition effective `{MetaConditions} (x : T) (o : SummaryOptions) (t : string) :
    option MetaCondition :=
  match find (λ c, String.eqb (cw_Type c) t) (su_overrideConditions o) with
  | Some c => Some (cw_Condition c)
  | None =>
      match v1beta2_Get x t with
      | Some c => Some c
      | None => if bool_decide (t ∈ su_ignoreTypesIfMissing o) then None
                else Some (not_yet_reported t "Condition not yet reported")
      end
  end.

Definition overrides_valid (x : T) (o : SummaryOptions) : Prop :=
  NoDup (cw_Type <$> su_overrideConditions o) ∧
  ∀ c, c ∈ su_overrideConditions o → cw_Type c ∈ types (GetV1Beta2Conditions x).

Lemma find_override os t :
  (list_to_map ((λ c, (cw_Type c, c)) <$> os) : gmap string ConditionWithOwnerInfo) !! t =
    find (λ c, String.eqb (cw_Type c) t) os.
Proof.
  induction os as [|c os IH]; [done|]. simpl.
  destruct (String.eqb_spec (cw_Type c) t) as [->|Hne]; [by rewrite lookup_insert_eq|].
  by rewrite lookup_insert_ne.
Qed.

Lemma find_override_type os t c :
  find (λ c, String.eqb (cw_Type c) t) os = Some c → cw_Type c = t ∧ c ∈ os.
Proof. intros [Hin E%String.eqb_eq]%find_some. by rewrite list_elem_of_In. Qed.

Lemma elem_of_missing_types expected existing ignore t :
  t ∈ missing_types expected existing ignore ↔ t ∈ expected ∧ (t ∉ existing) ∧ (t ∉ ignore).
Proof.
  unfold missing_types. rewrite elem_of_go_keys. unfold is_Some. setoid_rewrite map_lookup_filter_Some.
  unfold set_of. split.
  - intros [[] [Hl%elem_of_list_to_map_2 ?]]. split; [|done].
    apply list_elem_of_fmap in Hl as (u & [= ->] & Hu). done.
  - intros (Hin & Hx). exists tt. split; [|done].
    destruct (list_to_map _ !! t) as [[]|] eqn:E; [done|]. exfalso.
    apply not_elem_of_list_to_map in E. apply E. rewrite <- list_fmap_compose.
    by apply list_elem_of_fmap; exists t.
Qed.

Lemma NoDup_missing_types expected existing ignore : NoDup (missing_types expected existing ignore).
Proof. unfold missing_types. rewrite go_range_perm. apply NoDup_fst_map_to_list. Qed.

Section scope.
Context `{MetaConditions} (x : T) (o : SummaryOptions).
Hypothesis Hnd : NoDup (types (GetV1Beta2Conditions x)).
Hypothesis Hov : overrides_valid x o.

Let ov : gmap string ConditionWithOwnerInfo :=
  list_to_map ((λ c, (cw_Type c, c)) <$> su_overrideConditions o).

Lemma source_overrides :
  overrides_by_type (by_type (getConditionsWithOwnerInfo x)) ∅ (su_overrideConditions o) = Ok ov.
Proof.
  destruct Hov as [Hno Hin]. rewrite overrides_by_type_Ok; [by rewrite (right_id_L ∅ (∪))|done|].
  intros c Hc. split; [done|]. rewrite by_type_keys, types_with_owner. auto.
Qed.

Lemma override_type t c : ov !! t = Some c → cw_Type c = t.
Proof. unfold ov. rewrite find_override. by intros [? _]%find_override_type. Qed.

Lemma summary_in_scope_types expected cs :
  cw_Type <$> summary_in_scope expected ov cs = cw_Type <$> filter (λ c, cw_Type c ∈ expected) cs.
Proof.
  unfold summary_in_scope. rewrite <- list_fmap_compose. apply list_fmap_ext. intros i c _. simpl.
  destruct (ov !! cw_Type c) as [d|] eqn:E; [|done]. by apply override_type in E.
Qed.

Lemma summary_scope_types :
  NoDup (cw_Type <$> summary_scope x o ov) ∧
  ∀ c, c ∈ summary_scope x o ov → cw_Type c ∈ su_conditionTypes o.
Proof.
  assert (∀ c, c ∈ filter (λ c, cw_Type c ∈ su_conditionTypes o) (getConditionsWithOwnerInfo x) →
    cw_Type c ∈ su_conditionTypes o) as Hf by by intros c [? _]%list_elem_of_filter.
  unfold summary_scope. split.
  - rewrite fmap_app, summary_in_scope_types, <- list_fmap_compose. apply NoDup_app. split_and!.
    + eapply sublist_NoDup; [|apply fmap_sublist, sublist_filter]. by rewrite types_with_owner.
    + intros t Ht (u & -> & Hu)%list_elem_of_fmap. apply elem_of_missing_types in Hu as (_ & Hu & _).
      done.
    + rewrite (list_fmap_ext _ id), list_fmap_id by done. apply NoDup_missing_types.
  - intros c [Hc|Hc]%elem_of_app.
    + apply (list_elem_of_fmap_2 cw_Type) in Hc. rewrite summary_in_scope_types in Hc.
      apply list_elem_of_fmap in Hc as (d & -> & Hd). auto.
    + apply list_elem_of_fmap in Hc as (t & -> & Ht). by apply elem_of_missing_types in Ht as [? _].
Qed.

Lemma with_owner_elem t c :
  find (has_type t) (GetV1Beta2Conditions x) = Some c ↔
  ∃ d, d ∈ getConditionsWithOwnerInfo x ∧ cw_Condition d = c ∧ cw_Type d = t.
Proof.
  unfold getConditionsWithOwnerInfo. split.
  - intros [<- Hin]%find_type. eexists. split; [by apply list_elem_of_fmap_2|done].
  - intros (d & (e & -> & He)%list_elem_of_fmap & <- & <-). by apply find_type_elem.
Qed.

Lemma effective_find t :
  effective x o t =
    match ov !! t with
    | Some c => Some (cw_Condition c)
    | None =>
        match find (has_type t) (GetV1Beta2Conditions x) with
        | Some c => Some c
        | None => if bool_decide (t ∈ su_ignoreTypesIfMissing o) then None
                  else Some (not_yet_reported t "Condition not yet reported")
        end
    end.
Proof.
  unfold effective, v1beta2_Get, ov. by rewrite FindStatusCondition_first, find_override.
Qed.

(** The conditions a summary merges are the effective ones of the expected types. *)
Lemma summary_scope_effective c :
  c ∈ cw_Condition <$> summary_scope x o ov ↔
  ∃ t, t ∈ su_conditionTypes o ∧ effective x o t = Some c.
Proof.
  unfold summary_scope. rewrite fmap_app, elem_of_app. split.
  - intros [Hc|Hc].
    + apply list_elem_of_fmap in Hc as (d & -> & Hd). unfold summary_in_scope in Hd.
      apply list_elem_of_fmap in Hd as (e & -> & [He Hin]%list_elem_of_filter).
      exists (cw_Type e). split; [done|]. rewrite effective_find.
      destruct (ov !! cw_Type e) as [d|]; [done|]. simpl.
      by rewrite (proj2 (with_owner_elem (cw_Type e) (cw_Condition e))) by eauto.
    + rewrite <- list_fmap_compose in Hc. apply list_elem_of_fmap in Hc as (t & -> & Ht).
      apply elem_of_missing_types in Ht as (Hin & Hex & Hig). exists t. split; [done|].
      assert (find (has_type t) (GetV1Beta2Conditions x) = None) as Hno.
      { apply find_type_None. intros Ht. apply Hex. rewrite <- types_with_owner in Ht.
        apply list_elem_of_fmap in Ht as (d & -> & Hd). apply list_elem_of_fmap_2.
        by apply list_elem_of_filter. }
      rewrite effective_find, Hno, bool_decide_eq_false_2 by done.
      destruct (ov !! t) as [d|] eqn:Ed; [|done]. exfalso.
      unfold ov in Ed. rewrite find_override in Ed. apply find_override_type in Ed as [<- Hd]. apply find_type_None in Hno. by apply Hno, Hov.
  - intros (t & Hin & He). rewrite effective_find in He.
    destruct (find (has_type t) (GetV1Beta2Conditions x)) as [e|] eqn:Ee.
    + left. apply with_owner_elem in Ee as (d & Hd & <- & <-).
      apply list_elem_of_fmap. exists (default d (ov !! cw_Type d)). split.
      * by destruct (ov !! cw_Type d); injection He as <-.
      * apply list_elem_of_fmap. exists d. split; [done|]. by apply list_elem_of_filter.
    + right. assert (ov !! t = None) as Eo.
      { destruct (ov !! t) as [d|] eqn:Ed; [|done]. exfalso. apply find_type_None in Ee. apply Ee.
        unfold ov in Ed. rewrite find_override in Ed. apply find_override_type in Ed as [<- Hd].
        by apply Hov. }
      rewrite Eo in He. case_bool_decide as Hig; [done|]. injection He as <-.
      rewrite <- list_fmap_compose. apply list_elem_of_fmap. exists t. split; [done|].
      apply elem_of_missing_types. split_and!; [done| |done].
      intros (d & -> & [_ Hd]%list_elem_of_filter)%list_elem_of_fmap.
      apply find_type_None in Ee. apply Ee. rewrite <- types_with_owner.
      by apply list_elem_of_fmap_2.
Qed.
End scope.

(** The options that let a summary succeed. *)
Definition summarizable `{MetaConditions} (x : T) (o : SummaryOptions) (target : string) : Prop :=
  (target ∉ su_conditionTypes o) ∧ overrides_valid x o ∧
  ∃ t, t ∈ su_conditionTypes o ∧ is_Some (effective x o t).

(** A summary whose strategy merges by priorities. *)
Lemma summary_merge `{MetaConditions} (x : T) target opts d f :
  let o := SummaryOptions_ApplyOptions opts in
  NoDup (types (GetV1Beta2Conditions x)) → summary_strategy o = Merge d →
  ds_getPriorityFunc d = Some f → is_Some (ds_computeReasonFunc d) → proper_priority f →
  ds_targetConditionHasPositivePolarity d = true → summarizable x o target →
  ∃ cs r m, NewSummaryCondition x target opts = Ok (new_condition target (worst_status f true cs, r, m)) ∧
    ∀ c, c ∈ cs ↔ ∃ t, t ∈ su_conditionTypes o ∧ effective x o t = Some c.
Proof.
  intros o Hnd Hstr Hf Hr Hproper Hpos (Htarget & Hov & t & Ht & c & Hc).
  pose proof (summary_scope_effective x o Hnd Hov) as Hscope.
  exists (cw_Condition <$> summary_scope x o (list_to_map ((λ c, (cw_Type c, c)) <$> su_overrideConditions o))).
  unfold NewSummaryCondition. fold o.
  destruct (su_conditionTypes o) as [|t0 ts] eqn:Ets; [by apply not_elem_of_nil in Ht|].
  rewrite bool_decide_eq_false_2 by done. rewrite (source_overrides x o Hov). simpl.
  assert (c ∈ cw_Condition <$> summary_scope x o
    (list_to_map ((λ c, (cw_Type c, c)) <$> su_overrideConditions o))) as Hin by (apply Hscope; eauto).
  clear Ht. destruct (summary_scope x o _) as [|e es]; [by apply not_elem_of_nil in Hin|].
  rewrite Hstr. destruct (Merge_worst d f (e :: es) (t0 :: ts)) as (r & m & E); [done..|].
  exists r, m. split; [|done]. rewrite E. by rewrite Hpos.
Qed.

Section default_summary.
Context `{MetaConditions} (x : T) (target : string) (opts : list SummaryOption).
Let o := SummaryOptions_ApplyOptions opts.
Let f := GetDefaultMergePriorityFunc (su_negativePolarityConditionTypes o).
Hypothesis Hnd : NoDup (types (GetV1Beta2Conditions x)).

Lemma summary_run :
  su_mergeStrategy o = None → summarizable x o target →
  ∃ cs r m, NewSummaryCondition x target opts = Ok (new_condition target (worst_status f true cs, r, m)) ∧
    ∀ c, c ∈ cs ↔ ∃ t, t ∈ su_conditionTypes o ∧ effective x o t = Some c.
Proof.
  intros Hdef Hs. apply (summary_merge x target opts (DefaultMergeStrategy [GetPriorityFunc (Some f)]));
    [done| |done|done|apply default_priority_proper|done|done].
  unfold summary_strategy. fold o. by rewrite Hdef.
Qed.

Lemma summary_cases :
  (∃ e, NewSummaryCondition x target opts = Err e) ∨ summarizable x o target.
Proof.
  unfold NewSummaryCondition. fold o.
  destruct (su_conditionTypes o) as [|t0 ts] eqn:Ets; [eauto|]. rewrite <- Ets in *.
  case_bool_decide as Ht; [eauto|].
  destruct (overrides_by_type _ _ _) as [m|e|] eqn:Eo; [|eauto|by apply overrides_by_type_fails in Eo].
  simpl. assert (overrides_valid x o) as Hov.
  { apply overrides_by_type_inv in Eo as [Hno' Hin]. split; [done|]. intros c Hc.
    rewrite <- types_with_owner, <- by_type_keys. by apply Hin. }
  rewrite (source_overrides x o Hov) in Eo. injection Eo as <-.
  destruct (summary_scope x o _) as [|d ds] eqn:Es; [eauto|]. right.
  split; [done|]. split; [done|].
  destruct (proj1 (summary_scope_effective x o Hnd Hov (cw_Condition d))) as (t & Hin & He).
  { rewrite Es. left. }
  eauto.
Qed.
End default_summary.


(** C21: A summary with the default strategy fails exactly when the options are not usable:
    no types are listed, the target type is listed, an override is given twice or for a
    condition the object does not have, or every listed type is missing and may be; it
    never panics. *)
Theorem summary_errors `{MetaConditions} (x : T) target opts :
  let o := SummaryOptions_ApplyOptions opts in
  NoDup (types (GetV1Beta2Conditions x)) → su_mergeStrategy o = None →
  match NewSummaryCondition x target opts with
  | Ok _ => summarizable x o target
  | Err _ => ¬ summarizable x o target
  | Panic => False
  end.
Proof.
  intros o Hnd Hdef. destruct (summary_cases x target opts Hnd) as [[e E]|Hs].
  - rewrite E. intros Hs. destruct (summary_run x target opts Hnd Hdef Hs) as (? & ? & ? & E' & _).
    congruence.
  - destruct (summary_run x target opts Hnd Hdef Hs) as (? & ? & ? & E' & _). by rewrite E'.
Qed.
End summary_theory.
End merge_theory.

(** ** Theory: messages do not depend on the order of maps and sets *)

Lemma go_sort_strings_unique (S1 S2 : GoSort) (l k : list string) :
  l ≡ₚ k → @go_sort S1 _ string_ltb l = @go_sort S2 _ string_ltb k.
Proof.
  intros Hp. apply (StronglySorted_unique_strong (not_after string_ltb));
    [|apply go_sort_sorted, (strict_weak_string id)..|by rewrite !go_sort_perm].
  intros a b _ _ Hab Hba. by apply string_ltb_total.
Qed.

Lemma message_less_strict_weak objs : strict_weak (message_less objs).
Proof.
  pose proof (strict_weak_string (λ a, Join (default [] (objs !! a)) ",")) as [Has Hneg].
  split; unfold message_less; intros *;
    rewrite ?orb_true_iff, ?orb_false_iff, ?andb_true_iff, ?andb_false_iff, ?Nat.ltb_lt, ?Nat.ltb_ge,
      ?Nat.eqb_eq, ?Nat.eqb_neq.
  - intros [Hl|[Hl Hj]]; [split; [lia|left; lia]|]. split; [lia|]. right. by apply Has.
  - intros [Hl1 H1] [Hl2 H2]. split; [lia|]. destruct H1, H2; try (left; lia). right. by eapply Hneg.
Qed.

(** The names of the objects of a kind that report a message, in the order of the
    conditions. *)
Definition objects_of (dropEmpty : bool) (cs : list ConditionWithOwnerInfo) (kind m : string) :
    list string :=
  (λ c, co_Name (cw_OwnerResource c)) <$>
    filter (λ c, (dropEmpty && String.eqb (cw_Message c) "") = false ∧
                 co_Kind (cw_OwnerResource c) = kind ∧ cw_Message c = m) cs.

Lemma add_object_lookup objs m name m' :
  add_object objs m name !! m' =
    if decide (m = m') then Some (default [] (objs !! m) ++ [name]) else objs !! m'.
Proof.
  unfold add_object. case_decide as E; [subst; by rewrite lookup_insert_eq|by rewrite lookup_insert_ne].
Qed.

Lemma message_objects_lookup cs dropEmpty kind m :
  default ∅ (message_objects cs dropEmpty !! kind) !! m =
    match objects_of dropEmpty cs kind m with [] => None | names => Some names end.
Proof.
  unfold message_objects, objects_of.
  induction cs as [|c cs IH] using rev_ind; [done|].
  rewrite foldl_app, filter_app, fmap_app. simpl. rewrite filter_cons, filter_nil.
  destruct (dropEmpty && String.eqb (cw_Message c) "") eqn:Ed.
  { rewrite decide_False by naive_solver. simpl. rewrite app_nil_r. exact IH. }
  destruct (decide (co_Kind (cw_OwnerResource c) = kind)) as [<-|Hk].
  - rewrite lookup_insert_eq. simpl. rewrite add_object_lookup.
    destruct (decide (cw_Message c = m)) as [<-|Hm].
    + rewrite IH, decide_True by done. by destruct (filter _ cs).
    + rewrite IH, decide_False by naive_solver. by rewrite app_nil_r.
  - rewrite lookup_insert_ne, decide_False by naive_solver. simpl. by rewrite app_nil_r.
Qed.

Lemma elem_of_objects_of dropEmpty cs kind m name :
  name ∈ objects_of dropEmpty cs kind m →
  ∃ c, c ∈ cs ∧ cw_OwnerResource c = {| co_Kind := kind; co_Name := name |} ∧ cw_Message c = m.
Proof.
  intros (c & -> & [(_ & <- & <-) Hc]%list_elem_of_filter)%list_elem_of_fmap.
  exists c. by destruct (cw_OwnerResource c) eqn:E.
Qed.

(** Messages of different objects: no two conditions come from the same object, and names
    have no comma (or there is a single condition). *)
Definition distinct_owners (cs : list ConditionWithOwnerInfo) : Prop :=
  NoDup (cw_OwnerResource <$> cs) ∧
  ((length cs ≤ 1)%nat ∨ Forall (λ c, ContainsByte (co_Name (cw_OwnerResource c)) "," = false) cs).

Lemma distinct_owners_sub cs ds : distinct_owners cs → ds ⊆+ cs → distinct_owners ds.
Proof.
  intros [Hnd Hl] Hs. split.
  - apply submseteq_Permutation in Hs as [k Hk]. rewrite Hk, fmap_app in Hnd.
    by apply NoDup_app in Hnd as [? _].
  - destruct Hl as [Hl|Hl]; [left; apply submseteq_length in Hs; lia|right].
    apply submseteq_Permutation in Hs as [k Hk]. rewrite Hk in Hl. by apply Forall_app in Hl as [? _].
Qed.

Lemma distinct_owners_elem cs c d :
  distinct_owners cs → c ∈ cs → d ∈ cs → cw_OwnerResource c = cw_OwnerResource d → c = d.
Proof.
  intros [Hnd _] [i Hi]%list_elem_of_lookup [j Hj]%list_elem_of_lookup E.
  assert (i = j) as ->; [|congruence].
  apply (NoDup_lookup (cw_OwnerResource <$> cs) i j (cw_OwnerResource c)); [done|..];
    rewrite list_lookup_fmap; [by rewrite Hi|by rewrite Hj, E].
Qed.

(** Two messages of a kind with the same joined names are the same message. *)
Lemma joined_names_inj cs dropEmpty kind a b :
  distinct_owners cs →
  objects_of dropEmpty cs kind a ≠ [] → objects_of dropEmpty cs kind b ≠ [] →
  Join (objects_of dropEmpty cs kind a) "," = Join (objects_of dropEmpty cs kind b) "," → a = b.
Proof.
  intros Hd Ha Hb E.
  assert (∀ m, objects_of dropEmpty cs kind m ≠ [] → ∃ c, c ∈ cs ∧ cw_Message c = m ∧
    co_Name (cw_OwnerResource c) ∈ objects_of dropEmpty cs kind m ∧
    co_Kind (cw_OwnerResource c) = kind) as Hex.
  { intros m Hm. destruct (objects_of dropEmpty cs kind m) as [|name l] eqn:El; [done|].
    destruct (elem_of_objects_of dropEmpty cs kind m name) as (c & Hc & Ho & Hmsg); [rewrite El; left|].
    exists c. rewrite Ho. split_and!; [done..|left|done]. }
  destruct (proj2 Hd) as [Hl|Hc].
  - destruct (Hex a Ha) as (c & Hc & <- & _), (Hex b Hb) as (d & Hd' & <- & _).
    destruct cs as [|e [|]]; simpl in Hl; [by apply not_elem_of_nil in Hc| |lia].
    apply list_elem_of_singleton in Hc as ->, Hd' as ->. done.
  - assert (∀ m, Forall (λ n, ContainsByte n "," = false) (objects_of dropEmpty cs kind m)) as Hno.
    { intros m. apply Forall_forall. intros n (c & Hin & Ho & _)%elem_of_objects_of.
      rewrite Forall_forall in Hc. specialize (Hc c Hin). by rewrite Ho in Hc. }
    apply (f_equal (λ s, Split s ",")) in E.
    rewrite !(Split_Join _ ",") in E by done.
    destruct (Hex a Ha) as (c & Hcin & <- & Hn & Hk). rewrite E in Hn.
    destruct (elem_of_objects_of _ _ _ _ _ Hn) as (d & Hdin & Ho & <-).
    f_equal. eapply distinct_owners_elem; [done..|]. rewrite Ho. by destruct (cw_OwnerResource c); simpl in *; subst.
Qed.

Section determinism.
Context `{Flect} (R1 R2 : GoRange) (S1 S2 : GoSort).

Lemma object_message_unique kind l m :
  @object_message _ S1 kind l m = @object_message _ S2 kind l m.
Proof. unfold object_message. by rewrite (go_sort_strings_unique S1 S2 l l). Qed.

Lemma go_keys_perm {A} (m : gmap string A) : (@go_range R1 _ m).*1 ≡ₚ (@go_range R2 _ m).*1.
Proof. by rewrite !go_range_perm. Qed.

Lemma kind_messages_unique otherMessage kind objs n messages :
  (∀ a b, is_Some (objs !! a) → is_Some (objs !! b) →
    Join (default [] (objs !! a)) "," = Join (default [] (objs !! b)) "," → a = b) →
  @kind_messages _ R1 S1 otherMessage kind objs n messages =
  @kind_messages _ R2 S2 otherMessage kind objs n messages.
Proof.
  intros Hinj. unfold kind_messages.
  assert (insertion_sort (message_less objs) (@go_range R1 _ objs).*1 =
          insertion_sort (message_less objs) (@go_range R2 _ objs).*1) as ->.
  { apply (StronglySorted_unique_strong (not_after (message_less objs)));
      [|apply insertion_sort_sorted, strict_weak_all, message_less_strict_weak..
       |by rewrite !insertion_sort_perm, go_keys_perm].
    intros a b. rewrite !insertion_sort_perm, !elem_of_go_keys. intros Ha Hb.
    unfold not_after, message_less. intros [Hl1 H1]%orb_false_iff [Hl2 H2]%orb_false_iff.
    rewrite Nat.ltb_ge in Hl1, Hl2.
    rewrite (proj2 (Nat.eqb_eq _ _)) in H1 by lia. rewrite (proj2 (Nat.eqb_eq _ _)) in H2 by lia. by apply Hinj, string_ltb_total. }
  assert (∀ l st, @pick_messages _ S1 kind objs l st = @pick_messages _ S2 kind objs l st) as E.
  { intros l st. unfold pick_messages. apply foldl_ext.
    intros [[k other] ms] m. case_match; [done|]. by rewrite object_message_unique. }
  by rewrite E.
Qed.

Lemma aggregateMessages_unique cs n dropEmpty otherMessage :
  distinct_owners cs →
  @aggregateMessages _ R1 S1 cs n dropEmpty otherMessage =
  @aggregateMessages _ R2 S2 cs n dropEmpty otherMessage.
Proof.
  intros Hd. unfold aggregateMessages.
  rewrite (go_sort_strings_unique S1 S2 _ _ (go_keys_perm (message_objects cs dropEmpty))).
  apply foldl_ext. intros [k ms] kind. apply kind_messages_unique. intros a b.
  rewrite !message_objects_lookup.
  destruct (objects_of dropEmpty cs kind a) as [|x l] eqn:Ea; [by intros []|].
  destruct (objects_of dropEmpty cs kind b) as [|y k'] eqn:Eb; [by intros _ []|].
  intros _ _. simpl default. rewrite <- Ea, <- Eb. apply joined_names_inj; [done|by rewrite Ea|by rewrite Eb].
Qed.

Lemma aggregate_message_unique issue unknown info :
  distinct_owners issue → distinct_owners unknown → distinct_owners info →
  @aggregate_message _ R1 S1 issue unknown info = @aggregate_message _ R2 S2 issue unknown info.
Proof.
  intros Hi Hu Hf. unfold aggregate_message.
  rewrite (aggregateMessages_unique issue) by done.
  destruct issue as [|i l]; [|destruct (@aggregateMessages _ R2 S2 (i :: l) 3 false _) as [n ms]];
    (destruct unknown as [|u us]; [|by rewrite (aggregateMessages_unique (u :: us))]); [|done].
  destruct info as [|c cs]; [done|]. by rewrite aggregateMessages_unique.
Qed.

(** A merge of the same conditions in another order gives the same result, when their order
    is settled by the sort and, for an aggregate, their owners are distinct. *)
Lemma Merge_unique d cs ds ts :
  cs ≡ₚ ds → sortConditions cs ts = sortConditions ds ts →
  (length ts = 1%nat → distinct_owners cs) →
  @Merge _ R1 S1 d cs ts = @Merge _ R2 S2 d ds ts.
Proof.
  intros Hp Hs Hd. unfold Merge. rewrite Hs.
  destruct cs as [|c cs], ds as [|e ds];
    [done|by apply Permutation_nil_cons in Hp|by symmetry in Hp; apply Permutation_nil_cons in Hp|].
  destruct (ds_getPriorityFunc d) as [f|]; [|done].
  rewrite splitConditionsByPriority_filter. case_match; [|done].
  destruct (ds_computeReasonFunc d); [|done]. simpl.
  destruct (Nat.eqb_spec (length ts) 1) as [E|E]; [|done]. do 3 f_equal.
  assert (∀ p, of_priority f p (sortConditions (e :: ds) ts) ⊆+ c :: cs) as Hsub.
  { intros p. rewrite <- Hs. unfold of_priority, sortConditions.
    rewrite insertion_sort_perm. apply sublist_submseteq, sublist_filter. }
  apply aggregate_message_unique; (eapply distinct_owners_sub; [by apply Hd|done]).
Qed.
End determinism.

(** The summary of an object does not depend on the order in which Go unfolds the set of
    the missing types or ranges over maps: whatever the runtime does, NewSummaryCondition
    gives the same condition or the same error.  A controller that recomputes a summary of
    an unchanged object therefore never writes a different message. *)
Theorem summary_deterministic {T} `{V1Beta2Getter T, ConditionOwner T, Flect}
    (R1 R2 : GoRange) (S1 S2 : GoSort) (x : T) target opts :
  NoDup (types (GetV1Beta2Conditions x)) →
  su_mergeStrategy (SummaryOptions_ApplyOptions opts) = None →
  @NewSummaryCondition _ R1 S1 T _ _ x target opts = @NewSummaryCondition _ R2 S2 T _ _ x target opts.
Proof.
  intros Hnd Hdef. unfold NewSummaryCondition. set (o := SummaryOptions_ApplyOptions opts) in *.
  destruct (su_conditionTypes o) as [|t ts] eqn:Et; [done|]. rewrite <- Et.
  case_bool_decide; [done|]. destruct (overrides_by_type _ _ _) as [m| |] eqn:Eo; [|done..]. simpl.
  assert (overrides_valid x o) as Hov.
  { apply overrides_by_type_inv in Eo as [Hno Hin]. split; [done|]. intros c Hc.
    rewrite <- types_with_owner, <- by_type_keys. by apply Hin. }
  rewrite (source_overrides x o Hov) in Eo. injection Eo as <-.
  pose proof (@summary_scope_types R1 T _ _ x o Hnd) as [Hn1 Hin1].
  assert (@summary_scope R1 T _ _ x o (list_to_map ((λ c, (cw_Type c, c)) <$> su_overrideConditions o)) ≡ₚ
          @summary_scope R2 T _ _ x o (list_to_map ((λ c, (cw_Type c, c)) <$> su_overrideConditions o))) as Hp.
  { unfold summary_scope, missing_types. f_equiv. by rewrite (go_keys_perm R1 R2). }
  destruct (@summary_scope R1 T _ _ x o _) as [|c cs], (@summary_scope R2 T _ _ x o _) as [|d ds];
    [done|by apply Permutation_nil_cons in Hp|by symmetry in Hp; apply Permutation_nil_cons in Hp|].
  unfold summary_strategy. rewrite Hdef. f_equal.
  apply (Merge_unique R1 R2 S1 S2); [done|by apply sortConditions_perm_unique|].
  intros Hone. destruct (su_conditionTypes o) as [|u [|]]; try done.
  assert (length (c :: cs) ≤ 1)%nat as Hl.
  { destruct cs as [|e cs]; [simpl; lia|]. exfalso. rewrite !fmap_cons in Hn1.
    apply NoDup_cons in Hn1 as [Hne _]. apply Hne.
    rewrite (proj1 (list_elem_of_singleton _ _) (Hin1 c ltac:(left))).
    rewrite (proj1 (list_elem_of_singleton _ _) (Hin1 e ltac:(right; left))). left. }
  split; [|by left]. destruct cs; [apply NoDup_singleton|simpl in Hl; lia].
Qed.

(** ** Theory: aggregates *)

Definition status_priority (good bad s : string) : MergePriority :=
  if String.eqb s bad then IssueMergePriority
  else if String.eqb s good then InfoMergePriority else UnknownMergePriority.

(** Merging the conditions of a list of objects, each with a status: bad if one is bad, good
    if all are good. *)
Lemma worst_status_objects {A} (f : MetaCondition → MergePriority) (positive : bool)
    (cond : A → MetaCondition) (objs : list A) good bad :
  good = (if positive then ConditionTrue else ConditionFalse) →
  bad = (if positive then ConditionFalse else ConditionTrue) →
  (∀ x, f (cond x) = status_priority good bad (mc_Status (cond x))) →
  let s := worst_status f positive (cond <$> objs) in
  (s = bad ↔ ∃ x, x ∈ objs ∧ mc_Status (cond x) = bad) ∧
  (s = good ↔ ∀ x, x ∈ objs → mc_Status (cond x) = good) ∧
  (s = good ∨ s = bad ∨ s = ConditionUnknown).
Proof.
  intros Hg Hb Hf s. subst s. unfold worst_status. rewrite <- Hg, <- Hb.
  assert (good ≠ bad ∧ good ≠ ConditionUnknown ∧ bad ≠ ConditionUnknown) as (Hgb & Hgu & Hbu)
    by (subst; by destruct positive).
  assert (∀ p, reports f p (cond <$> objs) = true ↔
    ∃ x, x ∈ objs ∧ status_priority good bad (mc_Status (cond x)) = p) as Hr.
  { intros p. rewrite reports_elem. split.
    - intros (c & (x & -> & Hx)%list_elem_of_fmap & <-). exists x. by rewrite <- Hf.
    - intros (x & Hx & <-). exists (cond x). split; [by apply list_elem_of_fmap_2|apply Hf]. }
  pose proof (Hr IssueMergePriority) as Hi. pose proof (Hr UnknownMergePriority) as Hu.
  unfold status_priority in Hi, Hu.
  destruct (reports f IssueMergePriority _); [|destruct (reports f UnknownMergePriority _)].
  - destruct (proj1 Hi eq_refl) as (x & Hx & E).
    assert (mc_Status (cond x) = bad) as Ex.
    { destruct (String.eqb_spec (mc_Status (cond x)) bad); [done|]. by case_match. }
    split_and!; [naive_solver| |by right; left]. split; [congruence|].
    intros Hall. rewrite (Hall x Hx) in Ex. congruence.
  - destruct (proj1 Hu eq_refl) as (x & Hx & E). split_and!; [|split; [congruence|]|by right; right].
    + split; [congruence|]. intros (y & Hy & Ey). exfalso. enough (false = true) by done.
      apply Hi. exists y. rewrite Ey, String.eqb_refl. done.
    + intros Hall. rewrite (Hall x Hx), String.eqb_refl in E. by destruct (String.eqb good bad).
  - assert (∀ x, x ∈ objs → mc_Status (cond x) = good) as Hall.
    { intros x Hx. destruct (String.eqb_spec (mc_Status (cond x)) good) as [|Hg']; [done|]. exfalso.
      enough (false = true) by done.
      destruct (String.eqb_spec (mc_Status (cond x)) bad) as [Eb|Eb].
      - apply Hi. exists x. rewrite Eb, String.eqb_refl. done.
      - apply Hu. exists x. rewrite (proj2 (String.eqb_neq _ _)) by done.
        by rewrite (proj2 (String.eqb_neq _ _)). }
    split_and!; [|done|by left]. split; [congruence|]. intros (x & Hx & E).
    rewrite (Hall x Hx) in E. congruence.
Qed.

Section aggregate_theory.
Context {T : Type} `{V1Beta2Getter T, ConditionOwner T}.

Lemma aggregate_source_owner t (x : T) :
  cw_OwnerResource (aggregate_source t x) = getConditionOwnerInfo x.
Proof.
  unfold aggregate_source. destruct (find _ _) as [d|] eqn:E; [|done].
  apply find_override_type in E as [_ Hin]. unfold getConditionsWithOwnerInfo in Hin.
  by apply list_elem_of_fmap in Hin as (c & -> & _).
Qed.

Lemma aggregate_source_condition `{MetaConditions} t (x : T) :
  cw_Condition (aggregate_source t x) =
    default (not_yet_reported t ("Condition " +:+ t +:+ " not yet reported")) (v1beta2_Get x t).
Proof.
  unfold aggregate_source, v1beta2_Get, getConditionsWithOwnerInfo. rewrite FindStatusCondition_first.
  induction (GetV1Beta2Conditions x) as [|c cs IH]; [done|]. simpl. unfold cw_Type at 1, has_type at 1. simpl.
  destruct (String.eqb_spec (mc_Type c) t) as [E|E]; [by rewrite bool_decide_eq_true_2|].
  by rewrite bool_decide_eq_false_2.
Qed.

Lemma aggregate_source_type t (x : T) : cw_Type (aggregate_source t x) = t.
Proof.
  unfold aggregate_source. destruct (find _ _) as [d|] eqn:E; [|done].
  by apply find_override_type in E as [? _].
Qed.

(** The option for types of negative polarity is either not used or lists the source type. *)
Definition polarity_valid (o : AggregateOptions) (t : string) : Prop :=
  ag_negativePolarityConditionTypes o = [] ∨ ag_negativePolarityConditionTypes o = [t].

#[global] Instance polarity_valid_dec o t : Decision (polarity_valid o t).
Proof. unfold polarity_valid. apply _. Defined.

Definition aggregate_options (t : string) (opts : list AggregateOption) : AggregateOptions :=
  foldl ApplyToAggregate (Build_AggregateOptions None t []) opts.

Lemma NewAggregateCondition_run `{Flect, GoRange, GoSort} (objs : list T) t opts :
  let o := aggregate_options t opts in
  NewAggregateCondition objs t opts =
    match objs with
    | [] => Err (Errorf "sourceObjs can't be empty")
    | _ =>
        if bool_decide (polarity_valid o t) then
          merged ← aggregate_strategy o t (aggregate_source t <$> objs) [t];
          Ok (new_condition (ag_targetConditionType o) merged)
        else Err (Errorf ("negativePolarityConditionTypes can only be set to [" +:+ quoted t +:+ "]"))
    end.
Proof.
  intros o. unfold NewAggregateCondition. destruct objs as [|x objs]; [done|]. fold (aggregate_options t opts).
  fold o. case_bool_decide as Hv; unfold polarity_valid in Hv.
  - destruct Hv as [-> | ->]; [done|]. by rewrite String.eqb_refl.
  - destruct (ag_negativePolarityConditionTypes o) as [|u us]; [naive_solver|].
    destruct (String.eqb_spec u t) as [->|Hne]; [|done]. destruct us; [naive_solver|done].
Qed.

(** The default priorities in terms of the good and the bad status of a polarity. *)
Lemma default_priority_status negatives e :
  let negative := bool_decide (mc_Type e ∈ negatives) in
  let good := if negative then ConditionFalse else ConditionTrue in
  let bad := if negative then ConditionTrue else ConditionFalse in
  GetDefaultMergePriorityFunc negatives e =
    if String.eqb (mc_Status e) bad then IssueMergePriority
    else if String.eqb (mc_Status e) good then InfoMergePriority else UnknownMergePriority.
Proof.
  intros negative good bad. unfold GetDefaultMergePriorityFunc. fold negative. subst good bad.
  destruct negative; unfold ConditionTrue, ConditionFalse, ConditionUnknown;
    repeat case_match; try done;
    repeat match goal with H : String.eqb _ _ = true |- _ => apply String.eqb_eq in H end; congruence.
Qed.

(** What a strategy with default priorities makes of the conditions of the objects: the
    good status when all report it, the bad one when one does. *)
Lemma aggregate_merge `{Flect, GoRange, GoSort, MetaConditions} d negatives (objs : list T) t :
  let negative := bool_decide (t ∈ negatives) in
  let good := if negative then ConditionFalse else ConditionTrue in
  let bad := if negative then ConditionTrue else ConditionFalse in
  let reports status x := ∃ e, v1beta2_Get x t = Some e ∧ mc_Status e = status in
  ds_getPriorityFunc d = Some (GetDefaultMergePriorityFunc negatives) →
  is_Some (ds_computeReasonFunc d) →
  ds_targetConditionHasPositivePolarity d = negb negative →
  objs ≠ [] →
  ∃ s r m, Merge d (aggregate_source t <$> objs) [t] = Ok (s, r, m) ∧
    (s = bad ↔ ∃ x, x ∈ objs ∧ reports bad x) ∧
    (s = good ↔ ∀ x, x ∈ objs → reports good x) ∧
    (s = good ∨ s = bad ∨ s = ConditionUnknown).
Proof.
  intros negative good bad reports Ef Er Ep Hne. set (f := GetDefaultMergePriorityFunc negatives).
  destruct (Merge_worst d f (aggregate_source t <$> objs) [t]) as (r & m & E);
    [done|done|apply default_priority_proper|by destruct objs|]. rewrite Ep in E.
  eexists _, r, m. split; [exact E|].
  assert (∀ x, f (cw_Condition (aggregate_source t x)) = status_priority good bad
    (mc_Status (cw_Condition (aggregate_source t x)))) as Hf.
  { intros x. unfold f. rewrite default_priority_status. unfold status_priority.
    change (mc_Type (cw_Condition (aggregate_source t x))) with (cw_Type (aggregate_source t x)).
    by rewrite aggregate_source_type. }
  assert (∀ s x, s ≠ ConditionUnknown →
    reports s x ↔ mc_Status (cw_Condition (aggregate_source t x)) = s) as Hr.
  { intros s x Hs. unfold reports. rewrite aggregate_source_condition.
    destruct (v1beta2_Get x t) as [e|]; simpl; [naive_solver|]. split; [by intros (? & ? & _)|congruence]. }
  rewrite <- list_fmap_compose.
  destruct (worst_status_objects f (negb negative) (cw_Condition ∘ aggregate_source t) objs
    good bad) as (Hsb & Hsg & Hs); [by unfold good; destruct negative|by unfold bad; destruct negative|done|].
  split_and!; [| |done].
  - rewrite Hsb. setoid_rewrite Hr; [done|]. unfold bad. by destruct negative.
  - rewrite Hsg. setoid_rewrite Hr; [done|]. unfold good. by destruct negative.
Qed.

(** An aggregate (NewAggregateCondition with the default strategy) over a list of objects
    exists exactly when the list is not empty and the polarity option is usable; it is good
    (True, or False for a type of negative polarity) exactly when every object reports the
    good status, bad exactly when one object reports the bad one, and Unknown otherwise. *)
Theorem aggregate_status `{Flect, GoRange, GoSort, MetaConditions} (objs : list T) t opts :
  let o := aggregate_options t opts in
  let negative := bool_decide (t ∈ ag_negativePolarityConditionTypes o) in
  let good := if negative then ConditionFalse else ConditionTrue in
  let bad := if negative then ConditionTrue else ConditionFalse in
  let reports status x := ∃ e, v1beta2_Get x t = Some e ∧ mc_Status e = status in
  ag_mergeStrategy o = None →
  match NewAggregateCondition objs t opts with
  | Ok c =>
      objs ≠ [] ∧ polarity_valid o t ∧ mc_Type c = ag_targetConditionType o ∧
      (mc_Status c = bad ↔ ∃ x, x ∈ objs ∧ reports bad x) ∧
      (mc_Status c = good ↔ ∀ x, x ∈ objs → reports good x) ∧
      (mc_Status c = good ∨ mc_Status c = bad ∨ mc_Status c = ConditionUnknown)
  | Err _ => objs = [] ∨ ¬ polarity_valid o t
  | Panic => False
  end.
Proof.
  intros o negative good bad reports Hdef. rewrite NewAggregateCondition_run. fold o.
  destruct objs as [|x0 objs]; [by left|]. case_bool_decide as Hv; [|by right].
  unfold aggregate_strategy. rewrite Hdef. fold negative.
  destruct (aggregate_merge (DefaultMergeStrategy [TargetConditionHasPositivePolarity (negb negative);
    GetPriorityFunc (Some (GetDefaultMergePriorityFunc (ag_negativePolarityConditionTypes o)))])
    (ag_negativePolarityConditionTypes o) (x0 :: objs) t) as (s & r & m & E & Hs); [done..|].
  rewrite E. simpl mbind. split_and!; [done|done|done|apply Hs..].
Qed.

(** The aggregate over objects of distinct kinds and names does not depend on the order in
    which Go ranges over the maps of the messages: the same objects always give the same
    condition, so that an unchanged fleet of machines never gets a different message. *)
Theorem aggregate_deterministic `{Flect} (R1 R2 : GoRange) (S1 S2 : GoSort) (objs : list T) t opts :
  ag_mergeStrategy (aggregate_options t opts) = None →
  NoDup (getConditionOwnerInfo <$> objs) →
  Forall (λ x, ContainsByte (co_Name (getConditionOwnerInfo x)) "," = false) objs →
  @NewAggregateCondition _ R1 S1 T _ _ objs t opts = @NewAggregateCondition _ R2 S2 T _ _ objs t opts.
Proof.
  intros Hdef Hnd Hno. rewrite !NewAggregateCondition_run. destruct objs as [|x objs]; [done|].
  case_bool_decide; [|done]. unfold aggregate_strategy. rewrite Hdef. f_equal.
  apply (Merge_unique R1 R2 S1 S2); [done..|]. intros _. split.
  - rewrite <- list_fmap_compose.
    rewrite (list_fmap_ext _ getConditionOwnerInfo); [done|]. intros i y _. apply aggregate_source_owner.
  - right. apply Forall_fmap. eapply Forall_impl; [exact Hno|]. intros y Hy. simpl.
    by rewrite aggregate_source_owner.
Qed.

Section bounds.
Context `{Flect, GoRange, GoSort}.

Lemma pick_messages_length kind objs l n other ms n' other' ms' :
  pick_messages kind objs l (n, other, ms) = (n', other', ms') → 0 ≤ n →
  0 ≤ n' ∧ Z.of_nat (length ms') = Z.of_nat (length ms) + (n - n').
Proof.
  unfold pick_messages. revert n other ms. induction l as [|m l IH]; intros n other ms; simpl.
  - intros [= <- <- <-]. lia.
  - destruct (Z.eqb_spec n 0) as [->|Hn]; intros E Hge; [by eapply IH in E|].
    apply IH in E as [? E]; [|lia]. rewrite length_app in E. simpl in E. lia.
Qed.

Lemma kind_messages_length otherMessage kind objs n ms n' ms' :
  kind_messages otherMessage kind objs n ms = (n', ms') → 0 ≤ n →
  0 ≤ n' ∧ Z.of_nat (length ms') ≤ Z.of_nat (length ms) + (n - n') + 1.
Proof.
  unfold kind_messages. destruct (pick_messages _ _ _ _) as [[k other] l] eqn:E.
  intros [= <- <-] Hn. apply pick_messages_length in E as [? El]; [|done].
  destruct (Z.eqb_spec other 1) as [->|]; simpl; [rewrite length_app; simpl; lia|].
  destruct (1 <? other); rewrite ?length_app; simpl; lia.
Qed.

Lemma message_objects_kinds cs dropEmpty kind :
  (∀ c, c ∈ cs → co_Kind (cw_OwnerResource c) = kind) →
  dom (message_objects cs dropEmpty) ⊆ {[kind]}.
Proof.
  unfold message_objects. induction cs as [|c cs IH] using rev_ind; intros Hk; [set_solver|].
  rewrite foldl_app. simpl.
  assert (dom (foldl (λ messageObjMap condition,
    if dropEmpty && (cw_Message condition =? "")%string then messageObjMap
    else <[co_Kind (cw_OwnerResource condition):=add_object
      (default ∅ (messageObjMap !! co_Kind (cw_OwnerResource condition))) (cw_Message condition)
      (co_Name (cw_OwnerResource condition))]> messageObjMap) (∅ : gmap string (gmap string (list string))) cs)
    ⊆ {[kind]}) as IH' by (apply IH; intros d Hd; apply Hk; set_solver).
  case_match; [done|]. rewrite dom_insert_L, (Hk c) by set_solver. set_solver.
Qed.

(** The messages of objects of one kind: at most the [n] left and one line for the rest. *)
Lemma aggregateMessages_length cs n dropEmpty otherMessage kind n' ms :
  (∀ c, c ∈ cs → co_Kind (cw_OwnerResource c) = kind) →
  aggregateMessages cs n dropEmpty otherMessage = (n', ms) → 0 ≤ n →
  0 ≤ n' ∧ Z.of_nat (length ms) ≤ (n - n') + 1.
Proof.
  intros Hk E Hn. unfold aggregateMessages in E.
  assert (length (go_sort string_ltb (go_range (message_objects cs dropEmpty)).*1) ≤ 1)%nat as Hl.
  { rewrite go_sort_perm, go_range_perm, length_fmap, length_map_to_list, <- size_dom.
    transitivity (size ({[kind]} : gset string)); [|by rewrite size_singleton].
    apply subseteq_size, message_objects_kinds, Hk. }
  destruct (go_sort string_ltb _) as [|k [|k2 l]]; simpl in Hl; [|clear Hl|lia].
  - injection E as <- <-. simpl. lia.
  - simpl in E. apply kind_messages_length in E; [|done]. simpl in E. lia.
Qed.

(** An aggregate over objects of one kind has at most five entries: three messages, and a
    line each for further issues and further unknown statuses. *)
Lemma aggregate_message_length issue unknown info kind :
  (∀ c, c ∈ issue ++ unknown ++ info → co_Kind (cw_OwnerResource c) = kind) →
  (length (aggregate_message issue unknown info) ≤ 5)%nat.
Proof.
  intros Hk. unfold aggregate_message.
  assert (∃ n ms, match issue with
    | [] => (3, [])
    | _ => aggregateMessages issue 3 false "with other issues"
    end = (n, ms) ∧ 0 ≤ n ∧ Z.of_nat (length ms) ≤ 4 - n ∧ (issue = [] → n = 3 ∧ ms = []))
    as (n & ms & -> & Hn & Hms & Hi).
  { destruct issue as [|c l]; [exists 3, []; simpl; split_and!; try done; lia|].
    destruct (aggregateMessages (c :: l) _ _ _) as [n ms] eqn:E.
    apply (aggregateMessages_length _ _ _ _ kind) in E; [|intros; apply Hk; set_solver|lia].
    exists n, ms. split_and!; [done|lia|lia|done]. }
  destruct unknown as [|u us].
  - destruct issue; [|simpl; lia]. destruct Hi as [-> ->]; [done|]. destruct info; [simpl; lia|].
    destruct (aggregateMessages (c :: info) _ _ _) as [n' ms] eqn:E.
    apply (aggregateMessages_length _ _ _ _ kind) in E; [|intros; apply Hk; set_solver|lia].
    simpl in *. lia.
  - destruct (aggregateMessages (u :: us) _ _ _) as [n' ms'] eqn:E.
    apply (aggregateMessages_length _ _ _ _ kind) in E; [|intros; apply Hk; set_solver|lia].
    destruct issue; rewrite length_app; lia.
Qed.
End bounds.
End aggregate_theory.

(** ** Theory: mirrors *)

(** After SetMirrorCondition the target reports the status, reason and message of the source,
    or that nothing was reported yet; its other conditions are as before. *)
Lemma SetMirrorCondition_Get {S T} `{V1Beta2Getter S, V1Beta2Setter T, MetaConditions}
    now apiNow (src : S) (dst : T) t u :
  NoDup (types (GetV1Beta2Conditions dst)) →
  let dst' := SetMirrorCondition now apiNow src dst t [] in
  match v1beta2_Get dst' u with
  | Some c =>
      if decide (u = t) then
        (mc_Status c, mc_Reason c, mc_Message c) =
          match v1beta2_Get src t with
          | Some s => (mc_Status s, mc_Reason s, mc_Message s)
          | None => (ConditionUnknown, NotYetReportedReason, "Condition " +:+ t +:+ " not yet reported")
          end
      else v1beta2_Get dst u = Some c
  | None => u ≠ t ∧ v1beta2_Get dst u = None
  end.
Proof.
  intros Hnd. unfold SetMirrorCondition, v1beta2_Set.
  destruct (v1beta2_Set_Get_aux (Some defaultSortLessFunc) now apiNow dst
    (NewMirrorCondition src t []) u Hnd) as [_ ->].
  assert (mc_Type (NewMirrorCondition src t []) = t) as ->.
  { unfold NewMirrorCondition, newMirrorCondition. by destruct (v1beta2_Get src t). }
  destruct (decide (u = t)) as [->|Hne].
  - unfold NewMirrorCondition, newMirrorCondition.
    by destruct (v1beta2_Get src t), (v1beta2_Get dst t).
  - by destruct (v1beta2_Get dst u).
Qed.

(** ** Examples and witnesses *)

Definition condition_of (t status reason message : string) : MetaCondition :=
  {| mc_Type := t; mc_Status := status; mc_ObservedGeneration := 1; mc_LastTransitionTime := Second;
     mc_Reason := reason; mc_Message := message |}.

Definition machine_named (name : string) (cs : list MetaCondition) : Machine :=
  m_set_V1Beta2Conditions cs
    {| m_TypeMeta := emptyTypeMeta;
       m_Meta := {| om_Name := name; om_Namespace := "default"; om_UID := name; om_Generation := 1;
         om_CreationTimestamp := Second; om_DeletionTimestamp := None; om_Labels := ∅;
         om_Annotations := ∅; om_OwnerReferences := []; om_Finalizers := [] |};
       m_Spec := emptySpec; m_Status := emptyStatus |}.

Definition example_machine : Machine :=
  machine_named "m1"
    [condition_of "BootstrapConfigReady" "True" "Ready" "";
     condition_of "Deleting" "True" "Draining" "drain is blocked"].

Definition example_options : list SummaryOption :=
  [ForConditionTypes ["Deleting"; "BootstrapConfigReady"; "NodeHealthy"];
   SummaryNegativePolarity ["Deleting"]].

(** Another order of a range over a map. *)
Definition reversed_GoRange : GoRange :=
  {| go_range A m := reverse (map_to_list m);
     go_range_perm A m := reverse_Permutation (map_to_list m) |}.

Lemma example_summary :
  NewSummaryCondition example_machine "Ready" example_options =
    Ok (new_condition "Ready" ("False", "IssuesReported",
      Join ["* Deleting: drain is blocked"; "* NodeHealthy: Condition not yet reported"] nl)).
Proof. vm_compute. reflexivity. Qed.

(** A single issue in the group does not lend its reason to the summary. *)
Lemma single_issue_generic_reason :
  ∃ c, NewSummaryCondition (machine_named "m1" [condition_of "NodeHealthy" "False" "NodeDown" "down"])
    "Ready" [ForConditionTypes ["NodeHealthy"]] = Ok c ∧ mc_Reason c = "IssuesReported".
Proof. eexists. split; vm_compute; reflexivity. Qed.

Lemma example_types : NoDup (types (GetV1Beta2Conditions example_machine)).
Proof. apply (bool_decide_unpack _). vm_compute. exact I. Qed.


Lemma summary_errors_witness :
  NewSummaryCondition example_machine "NodeHealthy" example_options =
    Err (Errorf "option ForConditionTypes cannot include NodeHealthy (target condition type)") ∧
  ¬ summarizable example_machine (SummaryOptions_ApplyOptions example_options) "NodeHealthy".
Proof.
  split; [vm_compute; reflexivity|].
  exact (summary_errors example_machine "NodeHealthy" example_options example_types eq_refl).
Defined.

Lemma summary_deterministic_witness :
  @NewSummaryCondition _ sorted_GoRange insertion_GoSort _ _ _ example_machine "Ready" example_options =
  @NewSummaryCondition _ reversed_GoRange insertion_GoSort _ _ _ example_machine "Ready" example_options.
Proof. exact (summary_deterministic _ _ _ _ example_machine "Ready" example_options example_types eq_refl). Defined.

Definition example_machines : list Machine :=
  [machine_named "m1" [condition_of "Ready" "True" "Ready" ""];
   machine_named "m2" [condition_of "Ready" "False" "NodeDown" "node is down"];
   machine_named "m3" []].

Lemma example_aggregate :
  NewAggregateCondition example_machines "Ready" [AggregateTargetConditionType "MachinesReady"] =
    Ok (new_condition "MachinesReady" ("False", "IssuesReported",
      Join ["* Machine m2: node is down"; "* Machine m3: Condition Ready not yet reported"] nl)).
Proof. vm_compute. reflexivity. Qed.

Lemma aggregate_status_witness :
  ∃ c, NewAggregateCondition example_machines "Ready" [AggregateTargetConditionType "MachinesReady"] = Ok c ∧
    mc_Status c = ConditionFalse.
Proof.
  eexists. split; [apply example_aggregate|].
  pose proof (aggregate_status example_machines "Ready" [AggregateTargetConditionType "MachinesReady"] eq_refl) as Hs.
  rewrite example_aggregate in Hs. destruct Hs as (_ & _ & _ & Hb & _). apply Hb.
  exists (machine_named "m2" [condition_of "Ready" "False" "NodeDown" "node is down"]). split.
  - right. left.
  - eexists. split; vm_compute; reflexivity.
Defined.

Lemma aggregate_deterministic_witness :
  @NewAggregateCondition _ sorted_GoRange insertion_GoSort _ _ _ example_machines "Ready" [] =
  @NewAggregateCondition _ reversed_GoRange insertion_GoSort _ _ _ example_machines "Ready" [].
Proof.
  apply (aggregate_deterministic _ _ _ _ example_machines "Ready" [] eq_refl).
  - apply NoDup_cons. split; [set_solver|]. apply NoDup_cons. split; [set_solver|]. apply NoDup_singleton.
  - repeat constructor.
Defined.
