(* ===== verification/StatusConditions.v ===== *)
(** * What the status functions of the controllers share

    The v1beta2 conditions of MachineSets and MachineDeployments, the reasons of
    api/v1beta1/v1beta2_condition_consts.go, the messages about machines that both status
    files compute in the same way, and a view of an object by what its conditions report.
    Every status function ends in one call of [v1beta2conditions.Set] on each of its paths;
    the functions here are written as the condition they set. *)

From S2P Require Import Prelude GoStd Api Conditions Collections ConditionsV1Beta2 ConditionsMerge.

(** ** MachineSets and MachineDeployments have v1beta2 conditions *)

Definition ms_set_V1Beta2 (v : option MachineSetV1Beta2Status) (ms : MachineSet) : MachineSet :=
  let st := ms_Status ms in
  {| ms_TypeMeta := ms_TypeMeta ms; ms_Meta := ms_Meta ms; ms_Spec := ms_Spec ms; ms_Status :=
    {| mst_Selector := mst_Selector st; mst_Replicas := mst_Replicas st;
       mst_FullyLabeledReplicas := mst_FullyLabeledReplicas st;
       mst_ReadyReplicas := mst_ReadyReplicas st;
       mst_AvailableReplicas := mst_AvailableReplicas st;
       mst_ObservedGeneration := mst_ObservedGeneration st;
       mst_FailureReason := mst_FailureReason st; mst_FailureMessage := mst_FailureMessage st;
       mst_Conditions := mst_Conditions st; mst_V1Beta2 := v |} |}.

Definition emptyMSV1Beta2 : MachineSetV1Beta2Status :=
  {| msv_Conditions := []; msv_ReadyReplicas := None; msv_AvailableReplicas := None;
     msv_UpToDateReplicas := None |}.

Definition ms_GetV1Beta2Conditions (ms : MachineSet) : list MetaCondition :=
  match mst_V1Beta2 (ms_Status ms) with None => [] | Some v => msv_Conditions v end.

Definition ms_SetV1Beta2Conditions (conditions : list MetaCondition) (ms : MachineSet) : MachineSet :=
  let v := default emptyMSV1Beta2 (mst_V1Beta2 (ms_Status ms)) in
  ms_set_V1Beta2 (Some {| msv_Conditions := conditions; msv_ReadyReplicas := msv_ReadyReplicas v;
    msv_AvailableReplicas := msv_AvailableReplicas v;
    msv_UpToDateReplicas := msv_UpToDateReplicas v |}) ms.

#[global] Instance MachineSet_V1Beta2Getter : V1Beta2Getter MachineSet :=
  { GetV1Beta2Conditions := ms_GetV1Beta2Conditions }.
#[global] Instance MachineSet_V1Beta2Setter : V1Beta2Setter MachineSet := {
  SetV1Beta2Conditions := ms_SetV1Beta2Conditions;
  GetGeneration ms := om_Generation (ms_Meta ms);
  Get_SetV1Beta2Conditions cs x := eq_refl;
}.

Definition md_set_V1Beta2 (v : option MachineDeploymentV1Beta2Status) (md : MachineDeployment) :
    MachineDeployment :=
  let st := md_Status md in
  md_set_Status
    {| mdt_ObservedGeneration := mdt_ObservedGeneration st; mdt_Selector := mdt_Selector st;
       mdt_Replicas := mdt_Replicas st; mdt_UpdatedReplicas := mdt_UpdatedReplicas st;
       mdt_ReadyReplicas := mdt_ReadyReplicas st;
       mdt_AvailableReplicas := mdt_AvailableReplicas st;
       mdt_UnavailableReplicas := mdt_UnavailableReplicas st; mdt_Phase := mdt_Phase st;
       mdt_Conditions := mdt_Conditions st; mdt_V1Beta2 := v |} md.

Definition emptyMDV1Beta2 : MachineDeploymentV1Beta2Status :=
  {| mdv_Conditions := []; mdv_ReadyReplicas := None; mdv_AvailableReplicas := None;
     mdv_UpToDateReplicas := None |}.

Definition md_GetV1Beta2Conditions (md : MachineDeployment) : list MetaCondition :=
  match mdt_V1Beta2 (md_Status md) with None => [] | Some v => mdv_Conditions v end.

Definition md_SetV1Beta2Conditions (conditions : list MetaCondition) (md : MachineDeployment) :
    MachineDeployment :=
  let v := default emptyMDV1Beta2 (mdt_V1Beta2 (md_Status md)) in
  md_set_V1Beta2 (Some {| mdv_Conditions := conditions; mdv_ReadyReplicas := mdv_ReadyReplicas v;
    mdv_AvailableReplicas := mdv_AvailableReplicas v;
    mdv_UpToDateReplicas := mdv_UpToDateReplicas v |}) md.

#[global] Instance MachineDeployment_V1Beta2Getter : V1Beta2Getter MachineDeployment :=
  { GetV1Beta2Conditions := md_GetV1Beta2Conditions }.
#[global] Instance MachineDeployment_V1Beta2Setter : V1Beta2Setter MachineDeployment := {
  SetV1Beta2Conditions := md_SetV1Beta2Conditions;
  GetGeneration md := om_Generation (md_Meta md);
  Get_SetV1Beta2Conditions cs x := eq_refl;
}.

(** ** Condition types and reasons *)

Definition MachinesReadyV1Beta2Condition : string := "MachinesReady".
Definition MachinesUpToDateV1Beta2Condition : string := "MachinesUpToDate".
Definition ScalingUpV1Beta2Condition : string := "ScalingUp".
Definition ScalingDownV1Beta2Condition : string := "ScalingDown".
Definition RemediatingV1Beta2Condition : string := "Remediating".

Definition AvailableV1Beta2Reason : string := "Available".
Definition NotAvailableV1Beta2Reason : string := "NotAvailable".
Definition ReadyV1Beta2Reason : string := "Ready".
Definition NotReadyV1Beta2Reason : string := "NotReady".
Definition ReadyUnknownV1Beta2Reason : string := "ReadyUnknown".
Definition UpToDateV1Beta2Reason : string := "UpToDate".
Definition NotUpToDateV1Beta2Reason : string := "NotUpToDate".
Definition UpToDateUnknownV1Beta2Reason : string := "UpToDateUnknown".
Definition ScalingUpV1Beta2Reason : string := "ScalingUp".
Definition NotScalingUpV1Beta2Reason : string := "NotScalingUp".
Definition ScalingDownV1Beta2Reason : string := "ScalingDown".
Definition NotScalingDownV1Beta2Reason : string := "NotScalingDown".
Definition RemediatingV1Beta2Reason : string := "Remediating".
Definition NotRemediatingV1Beta2Reason : string := "NotRemediating".
Definition NoReplicasV1Beta2Reason : string := "NoReplicas".
Definition WaitingForReplicasSetV1Beta2Reason : string := "WaitingForReplicasSet".
Definition InternalErrorV1Beta2Reason : string := "InternalError".
Definition DeletionTimestampNotSetV1Beta2Reason : string := "DeletionTimestampNotSet".
Definition DeletionTimestampSetV1Beta2Reason : string := "DeletionTimestampSet".

Definition internal_error (t : string) : MetaCondition :=
  new_condition t (ConditionUnknown, InternalErrorV1Beta2Reason,
                   "Please check controller logs for errors"%string).

(** ** Messages about machines *)

(** [clog.ListToString] (util/log/log.go) of strings. *)
Definition ListToString (list : list string) (n : nat) : string :=
  let shortenedBy := (length list - n)%nat in
  let stringList := take n list in
  Join (if (0 <? shortenedBy)%nat
        then stringList ++ ["... (" +:+ FormatInt (Z.of_nat shortenedBy) +:+ " more)"]%string
        else stringList) ", ".

(** [sort.Strings]. *)
Definition sort_Strings (l : list string) : list string := insertion_sort string_ltb l.

Definition machines_message (machineNames : list string) (what : string) : string :=
  match machineNames with
  | [] => ""
  | _ =>
      let message := if (1 <? length machineNames)%nat then "Machines"%string else "Machine"%string in
      let message := message +:+ " " +:+ ListToString (sort_Strings machineNames) 3 in
      message +:+ (if (length machineNames =? 1)%nat then " is " else " are ") +:+ what
  end.

(** In deletion for more than 30 minutes; [now] is the clock of [time.Since]. *)
Definition is_stale (now : Time) (machine : Machine) : bool :=
  negb (IsZero (om_DeletionTimestamp (m_Meta machine)))
  && (30 * Minute <? time_Sub now (default zero_time (om_DeletionTimestamp (m_Meta machine)))).

Definition aggregateStaleMachines (now : Time) (machines : list Machine) : string :=
  machines_message (m_Name <$> filter (λ m, is_stale now m = true) machines)
    "in deletion since more than 30m".

Definition with_stale (message : string) (now : Time) (machines : list Machine) : string :=
  let staleMessage := aggregateStaleMachines now machines in
  if negb (String.eqb staleMessage "") then message +:+ " and " +:+ staleMessage else message.

(** The start of the message of the Deleting conditions. *)
Definition deleting_message (now : Time) (machines : list Machine) : string :=
  match machines with
  | [] => ""
  | _ =>
      let n := length machines in
      let message := "Deleting " +:+ FormatInt (Z.of_nat n)
        +:+ (if (n =? 1)%nat then " Machine" else " Machines") in
      with_stale message now machines
  end.

(** The kinds of the templates that a scale up misses. *)
Definition missing_objects (template : MachineSpec) (bootstrapTemplateNotFound
    infraMachineTemplateNotFound : bool) : result (list string) :=
  bootstrap ← (if bootstrapTemplateNotFound
               then ref ← deref (b_ConfigRef (sp_Bootstrap template)); mret [ref_Kind ref]
               else mret []);
  mret (bootstrap ++ (if infraMachineTemplateNotFound
                      then [ref_Kind (sp_InfrastructureRef template)] else [])).

Section aggregates.
Context `{Flect, GoRange, GoSort}.

Definition aggregateUnhealthyMachines (machines : gmap string Machine) (what : string) : string :=
  machines_message (Names machines) what.

(** An aggregate whose error is surfaced as an internal error. *)
Definition or_internal_error (t : string) (aggregated : result MetaCondition) : result MetaCondition :=
  match aggregated with
  | Ok c => Ok c
  | Err _ => Ok (internal_error t)
  | Panic => Panic
  end.

(** The aggregate of a condition of the machines, with the given reasons. *)
Definition machines_condition (machines : list Machine) (source target : string)
    (issueReason unknownReason infoReason : string) : result MetaCondition :=
  match machines with
  | [] => Ok (new_condition target (ConditionTrue, NoReplicasV1Beta2Reason, ""%string))
  | _ =>
      or_internal_error target (NewAggregateCondition machines source
        [AggregateTargetConditionType target;
         AggregateMergeStrategy (Merge (DefaultMergeStrategy
           [ComputeReasonFunc (Some (GetDefaultComputeMergeReasonFunc issueReason unknownReason
              infoReason))]))])
  end.

Definition machinesReadyCondition (machines : list Machine) (succeeded : bool) :
    result MetaCondition :=
  if negb succeeded then Ok (internal_error MachinesReadyV1Beta2Condition)
  else machines_condition machines ReadyV1Beta2Condition MachinesReadyV1Beta2Condition
         NotReadyV1Beta2Reason ReadyUnknownV1Beta2Reason ReadyV1Beta2Reason.

Definition machinesUpToDateCondition (machines : list Machine) (succeeded : bool) :
    result MetaCondition :=
  if negb succeeded then Ok (internal_error MachinesUpToDateV1Beta2Condition)
  else machines_condition machines "UpToDate" MachinesUpToDateV1Beta2Condition
         NotUpToDateV1Beta2Reason UpToDateUnknownV1Beta2Reason UpToDateV1Beta2Reason.

Definition remediatingCondition (machinesToBeRemediated unhealthyMachines : gmap string Machine)
    (what : string) (succeeded : bool) : result MetaCondition :=
  if negb succeeded then Ok (internal_error RemediatingV1Beta2Condition)
  else if (size machinesToBeRemediated =? 0)%nat
  then Ok (new_condition RemediatingV1Beta2Condition (ConditionFalse, NotRemediatingV1Beta2Reason,
             aggregateUnhealthyMachines unhealthyMachines what))
  else
    match NewAggregateCondition (UnsortedList machinesToBeRemediated) "OwnerRemediated"
            [AggregateTargetConditionType RemediatingV1Beta2Condition] with
    | Ok c => Ok (new_condition (mc_Type c)
                    (ConditionTrue, RemediatingV1Beta2Reason, mc_Message c))
    | Err _ => Ok (internal_error RemediatingV1Beta2Condition)
    | Panic => Panic
    end.
End aggregates.

(** ** Theory *)

(** What an object reports in a condition: its status, reason and message. *)
Definition state_of (c : MetaCondition) : string * string * string :=
  (mc_Status c, mc_Reason c, mc_Message c).

Section reported.
Context `{MetaConditions} {T : Type} `{V1Beta2Setter T}.

Definition reported (x : T) (t : string) : option (string * string * string) :=
  state_of <$> v1beta2_Get x t.

Definition reported_status (x : T) (t : string) : option string := mc_Status <$> v1beta2_Get x t.

(** No two conditions of a type. *)
Definition wf_conditions (x : T) : Prop := NoDup (types (GetV1Beta2Conditions x)).

Lemma v1beta2_Set_wf now apiNow x c : wf_conditions x → wf_conditions (v1beta2_Set now apiNow x c).
Proof. intros Hx. apply (v1beta2_Set_Get_aux _ now apiNow x c "" Hx). Qed.

Lemma v1beta2_Set_other now apiNow x c t :
  wf_conditions x → t ≠ mc_Type c → v1beta2_Get (v1beta2_Set now apiNow x c) t = v1beta2_Get x t.
Proof.
  intros Hx Hne. destruct (v1beta2_Set_Get_aux (Some defaultSortLessFunc) now apiNow x c t Hx) as [_ E].
  by rewrite decide_False in E.
Qed.

Lemma v1beta2_Set_reports now apiNow x c :
  wf_conditions x → reported (v1beta2_Set now apiNow x c) (mc_Type c) = Some (state_of c).
Proof.
  intros Hx.
  destruct (v1beta2_Set_Get_aux (Some defaultSortLessFunc) now apiNow x c (mc_Type c) Hx) as [_ E].
  unfold reported, v1beta2_Set. rewrite E, decide_True by done. simpl. by destruct (v1beta2_Get x (mc_Type c)).
Qed.

Lemma reported_Set now apiNow x c t :
  wf_conditions x →
  reported (v1beta2_Set now apiNow x c) t =
    if decide (t = mc_Type c) then Some (state_of c) else reported x t.
Proof.
  intros Hx. destruct (decide _) as [->|Hne]; [by apply v1beta2_Set_reports|].
  unfold reported. by rewrite v1beta2_Set_other.
Qed.

(** A sequence of sets. *)
Definition sets (now : Time) (x : T) (cs : list MetaCondition) : T :=
  foldl (λ x c, v1beta2_Set now now x c) x cs.

Lemma sets_wf now x cs : wf_conditions x → wf_conditions (sets now x cs).
Proof. revert x. induction cs as [|c cs IH]; intros x Hx; [done|]. by apply IH, v1beta2_Set_wf. Qed.

Lemma sets_other now x cs t :
  wf_conditions x → t ∉ types cs → v1beta2_Get (sets now x cs) t = v1beta2_Get x t.
Proof.
  revert x. induction cs as [|c cs IH]; intros x Hx; [done|]. unfold types. rewrite fmap_cons.
  intros [Hne Hni]%not_elem_of_cons. simpl. rewrite IH; [|by apply v1beta2_Set_wf|done].
  by apply v1beta2_Set_other.
Qed.

Lemma sets_reported now x cs c :
  wf_conditions x → NoDup (types cs) → c ∈ cs →
  reported (sets now x cs) (mc_Type c) = Some (state_of c).
Proof.
  revert x. induction cs as [|d cs IH]; intros x Hx; [by intros _ ?%not_elem_of_nil|].
  unfold types. rewrite fmap_cons. intros [Hd Hnd]%NoDup_cons [->|Hin]%elem_of_cons; simpl.
  - unfold reported at 1. rewrite sets_other; [|by apply v1beta2_Set_wf|done].
    by apply v1beta2_Set_reports.
  - apply IH; [by apply v1beta2_Set_wf|done|done].
Qed.

Lemma reported_status_of x t s r m : reported x t = Some (s, r, m) → reported_status x t = Some s.
Proof.
  unfold reported, reported_status. destruct (v1beta2_Get x t) as [c|]; [|done].
  simpl. intros [= <- _ _]. done.
Qed.
End reported.

Lemma IsTrue_iff `{MetaConditions} {T} `{V1Beta2Getter T} (x : T) t :
  v1beta2_IsTrue x t = true ↔ ∃ e, v1beta2_Get x t = Some e ∧ mc_Status e = ConditionTrue.
Proof.
  unfold v1beta2_IsTrue. destruct (v1beta2_Get x t) as [e|]; [rewrite bool_decide_eq_true|]; naive_solver.
Qed.

Lemma IsFalse_iff `{MetaConditions} {T} `{V1Beta2Getter T} (x : T) t :
  v1beta2_IsFalse x t = true ↔ ∃ e, v1beta2_Get x t = Some e ∧ mc_Status e = ConditionFalse.
Proof.
  unfold v1beta2_IsFalse. destruct (v1beta2_Get x t) as [e|]; [rewrite bool_decide_eq_true|]; naive_solver.
Qed.

(** A status is decided by the machines: True when all report True, False when one reports
    False, Unknown otherwise. *)
Definition decided_by `{MetaConditions} (machines : list Machine) (source status : string) : Prop :=
  (status = ConditionTrue ↔ ∀ m, m ∈ machines → v1beta2_IsTrue m source = true) ∧
  (status = ConditionFalse ↔ ∃ m, m ∈ machines ∧ v1beta2_IsFalse m source = true) ∧
  (status = ConditionTrue ∨ status = ConditionFalse ∨ status = ConditionUnknown).

Section aggregate_reports.
Context `{Flect, GoRange, GoSort, MetaConditions}.

Lemma machines_condition_reports machines source target i u o :
  ∃ c, machines_condition machines source target i u o = Ok c ∧ mc_Type c = target ∧
    decided_by machines source (mc_Status c).
Proof.
  unfold machines_condition, decided_by. destruct machines as [|m machines].
  - eexists. split; [done|]. split; [done|]. simpl. split_and!; [|split; [done|]|by left].
    + split; [by intros _ m ?%not_elem_of_nil|done].
    + by intros (m & ?%not_elem_of_nil & _).
  - rewrite NewAggregateCondition_run. rewrite bool_decide_eq_true_2 by by left.
    unfold aggregate_strategy, aggregate_options. cbn [foldl ApplyToAggregate ag_mergeStrategy].
    set (d := DefaultMergeStrategy _).
    destruct (aggregate_merge d [] (m :: machines) source) as (s & r & msg & E & Hb & Hg & Hs);
      [done..|]. rewrite E. eexists. split; [done|]. split; [done|]. simpl mc_Status.
    rewrite bool_decide_eq_false_2 in Hb, Hg, Hs by apply not_elem_of_nil.
    setoid_rewrite IsTrue_iff. setoid_rewrite IsFalse_iff. done.
Qed.

Lemma machinesReady_reports machines :
  ∃ c, machinesReadyCondition machines true = Ok c ∧ mc_Type c = MachinesReadyV1Beta2Condition ∧
    decided_by machines ReadyV1Beta2Condition (mc_Status c).
Proof. apply machines_condition_reports. Qed.

Lemma machinesUpToDate_reports machines :
  ∃ c, machinesUpToDateCondition machines true = Ok c ∧
    mc_Type c = MachinesUpToDateV1Beta2Condition ∧ decided_by machines "UpToDate" (mc_Status c).
Proof. apply machines_condition_reports. Qed.

Lemma remediating_reports toBeRemediated unhealthy what :
  ∃ c, remediatingCondition toBeRemediated unhealthy what true = Ok c ∧
    mc_Type c = RemediatingV1Beta2Condition ∧
    mc_Status c = BoolToStatus (bool_decide (toBeRemediated ≠ ∅)).
Proof.
  unfold remediatingCondition. simpl. destruct (size toBeRemediated =? 0)%nat eqn:E.
  - apply Nat.eqb_eq, map_size_empty_inv in E as ->. eexists. split; [done|]. split; [done|].
    by rewrite bool_decide_eq_false_2 by naive_solver.
  - apply Nat.eqb_neq in E. rewrite NewAggregateCondition_run.
    rewrite bool_decide_eq_true_2 by by left. unfold aggregate_strategy, aggregate_options.
    cbn [foldl ApplyToAggregate ag_mergeStrategy ag_negativePolarityConditionTypes].
    assert (UnsortedList toBeRemediated ≠ []) as Hne.
    { intros Hn%go_values_nil. subst. by rewrite map_size_empty in E. }
    destruct (aggregate_merge (DefaultMergeStrategy
      [TargetConditionHasPositivePolarity (negb (bool_decide ("OwnerRemediated"%string ∈ []%list)));
       GetPriorityFunc (Some (GetDefaultMergePriorityFunc []))]) [] (UnsortedList toBeRemediated)
      "OwnerRemediated") as (s & r & msg & Em & _); [done..|].
    destruct (UnsortedList toBeRemediated) as [|m ms]; [done|]. rewrite Em. eexists. split; [done|].
    split; [done|]. rewrite bool_decide_eq_true_2; [done|]. intros ->. by rewrite map_size_empty in E.
Qed.
End aggregate_reports.

(** *** Collections of machines with distinct names *)

Lemma Insert_all l s k m :
  NoDup (m_Name <$> l) → (∀ x, x ∈ l → s !! m_Name x = None) →
  Machines_Insert s (Some <$> l) !! k = Some m ↔ s !! k = Some m ∨ m ∈ l ∧ m_Name m = k.
Proof.
  unfold Machines_Insert. revert s. induction l as [|x l IH]; intros s; simpl.
  { intros _ _. rewrite elem_of_nil. naive_solver. }
  intros [Hx Hnd]%NoDup_cons Hs. rewrite IH; [|done|].
  - rewrite lookup_insert_Some, elem_of_cons. pose proof (Hs x ltac:(by left)) as Hsx.
    split; [|intros [E|[[-> | Hin] <-]]]; [naive_solver| |by left; left|by right].
    left. right. split; [|done]. congruence.
  - intros y Hy. rewrite lookup_insert_ne; [apply Hs; by right|]. intros E. apply Hx. rewrite E.
    by apply list_elem_of_fmap_2.
Qed.

Lemma FromMachines_lookup l k m :
  NoDup (m_Name <$> l) → FromMachines (Some <$> l) !! k = Some m ↔ m ∈ l ∧ m_Name m = k.
Proof.
  intros Hnd. unfold FromMachines. rewrite Insert_all; [|done|by intros; apply lookup_empty].
  unfold Machines_New. rewrite lookup_empty. naive_solver.
Qed.

Lemma FromMachineList_FromMachines l : FromMachineList l = FromMachines (Some <$> l).
Proof.
  unfold FromMachineList, FromMachines. generalize Machines_New.
  induction l as [|m l IH]; intros s; [done|]. simpl. apply IH.
Qed.

Lemma keyed_FromMachines l : keyed (FromMachines l).
Proof. apply keyed_Insert. intros k m. unfold Machines_New. by rewrite lookup_empty. Qed.

Lemma FromMachines_nonempty `{GoRange} l (f : Func) :
  NoDup (m_Name <$> l) →
  bool_decide (Filter (FromMachines (Some <$> l)) [f] ≠ ∅) = existsb (λ m, f (Some m)) l.
Proof.
  intros Hnd. pose proof (keyed_FromMachines (Some <$> l)) as Hk. case_bool_decide as Hne; symmetry.
  - apply map_choose in Hne as (k & m & [Hm Hf]%Filter_lookup); [|done].
    apply FromMachines_lookup in Hm as [Hin _]; [|done]. apply existsb_exists. exists m.
    split; [by apply list_elem_of_In|]. apply Hf. by left.
  - apply not_true_iff_false. intros (m & Hin%list_elem_of_In & Hf)%existsb_exists.
    pose proof (proj2 (Filter_lookup (FromMachines (Some <$> l)) [f] (m_Name m) m Hk)) as Hl.
    rewrite Hne, lookup_empty in Hl. discriminate Hl. split; [by apply FromMachines_lookup|].
    by intros g ->%list_elem_of_singleton.
Qed.
