(* ===== verification/MachineSetStatus.v ===== *)
(** * The v1beta2 status of a MachineSet (internal/controllers/machineset/machineset_controller_status.go)

    [ms_updateStatus] computes the replica counters and the six conditions the MachineSet
    controller owns.  One reading of the clock stands for the readings within one update of the
    status. *)

From S2P Require Import Prelude GoStd Api Conditions Collections ConditionsV1Beta2 ConditionsMerge.
From S2P Require Import StatusConditions.

(** ** Counters *)

Definition count_machines (f : Machine → bool) (machines : list Machine) : Z :=
  foldl (λ n machine, if f machine then n +32 1 else n) 0 machines.

Definition ms_setReplicas `{MetaConditions} (ms : MachineSet) (machines : list Machine)
    (getAndAdoptMachinesForMachineSetSucceeded : bool) : MachineSet :=
  if negb getAndAdoptMachinesForMachineSetSucceeded then ms
  else
    let readyReplicas := count_machines (λ m, v1beta2_IsTrue m ReadyV1Beta2Condition) machines in
    let availableReplicas :=
      count_machines (λ m, v1beta2_IsTrue m AvailableV1Beta2Condition) machines in
    let upToDateReplicas := count_machines (λ m, v1beta2_IsTrue m "UpToDate") machines in
    let v := default emptyMSV1Beta2 (mst_V1Beta2 (ms_Status ms)) in
    ms_set_V1Beta2 (Some {| msv_Conditions := msv_Conditions v;
      msv_ReadyReplicas := Some readyReplicas; msv_AvailableReplicas := Some availableReplicas;
      msv_UpToDateReplicas := Some upToDateReplicas |}) ms.

(** ** Conditions *)

Definition calculateMissingReferencesMessage (ms : MachineSet)
    (bootstrapTemplateNotFound infraMachineTemplateNotFound : bool) : result string :=
  missingObjects ← missing_objects (mt_Spec (mss_Template (ms_Spec ms))) bootstrapTemplateNotFound
                     infraMachineTemplateNotFound;
  mret (match missingObjects with
        | [] => ""
        | [o] => o +:+ " does not exist"
        | _ => Join missingObjects " and " +:+ " do not exist"
        end).

(** No replicas are desired of a MachineSet that is being deleted. *)
Definition ms_desiredReplicas (ms : MachineSet) (replicas : Z) : Z :=
  if negb (IsZero (om_DeletionTimestamp (ms_Meta ms))) then 0 else replicas.

Definition from_to (current desired : Z) : string :=
  "from " +:+ FormatInt current +:+ " to " +:+ FormatInt desired +:+ " replicas".

Definition scalingUpCondition (ms : MachineSet) (machines : list Machine)
    (bootstrapObjectNotFound infrastructureObjectNotFound
     getAndAdoptMachinesForMachineSetSucceeded : bool) (scaleUpPreflightCheckErrMessage : string) :
    result MetaCondition :=
  let t := ScalingUpV1Beta2Condition in
  if negb getAndAdoptMachinesForMachineSetSucceeded then Ok (internal_error t)
  else
    match ms_Replicas ms with
    | None => Ok (new_condition t (ConditionUnknown, WaitingForReplicasSetV1Beta2Reason, ""%string))
    | Some replicas =>
        let desiredReplicas := ms_desiredReplicas ms replicas in
        let currentReplicas := wrap32 (Z.of_nat (length machines)) in
        missingReferencesMessage ←
          calculateMissingReferencesMessage ms bootstrapObjectNotFound infrastructureObjectNotFound;
        if desiredReplicas <=? currentReplicas
        then
          let message := if negb (String.eqb missingReferencesMessage "")
                         then "Scaling up would be blocked because " +:+ missingReferencesMessage
                         else ""%string in
          Ok (new_condition t (ConditionFalse, NotScalingUpV1Beta2Reason, message))
        else
          let message := "Scaling up " +:+ from_to currentReplicas desiredReplicas in
          let blockMessages := filter (λ s, String.eqb s "" = false)
                                 [missingReferencesMessage; scaleUpPreflightCheckErrMessage] in
          let message :=
            if negb (String.eqb missingReferencesMessage "")
               || negb (String.eqb scaleUpPreflightCheckErrMessage "")
            then message +:+ " is blocked because " +:+ Join blockMessages " and "
            else message in
          Ok (new_condition t (ConditionTrue, ScalingUpV1Beta2Reason, message))
    end.

Definition scalingDownCondition (now : Time) (ms : MachineSet) (machines : list Machine)
    (getAndAdoptMachinesForMachineSetSucceeded : bool) : MetaCondition :=
  let t := ScalingDownV1Beta2Condition in
  if negb getAndAdoptMachinesForMachineSetSucceeded then internal_error t
  else
    match ms_Replicas ms with
    | None => new_condition t (ConditionUnknown, WaitingForReplicasSetV1Beta2Reason, ""%string)
    | Some replicas =>
        let desiredReplicas := ms_desiredReplicas ms replicas in
        let currentReplicas := wrap32 (Z.of_nat (length machines)) in
        if desiredReplicas <? currentReplicas
        then
          let message := with_stale ("Scaling down " +:+ from_to currentReplicas desiredReplicas)
                           now machines in
          new_condition t (ConditionTrue, ScalingDownV1Beta2Reason, message)
        else new_condition t (ConditionFalse, NotScalingDownV1Beta2Reason, ""%string)
    end.

Definition deletingCondition (now : Time) (ms : MachineSet) (machines : list Machine)
    (getAndAdoptMachinesForMachineSetSucceeded : bool) : MetaCondition :=
  let t := DeletingV1Beta2Condition in
  if negb getAndAdoptMachinesForMachineSetSucceeded then internal_error t
  else if IsZero (om_DeletionTimestamp (ms_Meta ms))
  then new_condition t (ConditionFalse, DeletionTimestampNotSetV1Beta2Reason, ""%string)
  else new_condition t (ConditionTrue, DeletionTimestampSetV1Beta2Reason,
         deleting_message now machines).

Definition unhealthy_not_remediated : string := "not healthy (not to be remediated by MachineSet)".

(** The fields of the scope that the update of the status reads. *)
Record ms_scope := {
  sc_machines : list Machine;
  sc_bootstrapObjectNotFound : bool;
  sc_infrastructureObjectNotFound : bool;
  sc_getAndAdoptMachinesForMachineSetSucceeded : bool;
  sc_scaleUpPreflightCheckErrMessage : string;
}.

Section status.
Context `{MetaConditions, Flect, GoRange, GoSort}.

Definition ms_updateStatus (now : Time) (s : ms_scope) (ms : MachineSet) : result MachineSet :=
  let machines := sc_machines s in
  let succeeded := sc_getAndAdoptMachinesForMachineSetSucceeded s in
  let ms := ms_setReplicas ms machines succeeded in
  c ← scalingUpCondition ms machines (sc_bootstrapObjectNotFound s)
        (sc_infrastructureObjectNotFound s) succeeded (sc_scaleUpPreflightCheckErrMessage s);
  let ms := v1beta2_Set now now ms c in
  let ms := v1beta2_Set now now ms (scalingDownCondition now ms machines succeeded) in
  c ← machinesReadyCondition machines succeeded;
  let ms := v1beta2_Set now now ms c in
  c ← machinesUpToDateCondition machines succeeded;
  let ms := v1beta2_Set now now ms c in
  let collection := FromMachines (Some <$> machines) in
  let machinesToBeRemediated := Filter collection [IsUnhealthyAndOwnerRemediated] in
  let unhealthyMachines := Filter collection [IsUnhealthy] in
  c ← remediatingCondition machinesToBeRemediated unhealthyMachines unhealthy_not_remediated succeeded;
  let ms := v1beta2_Set now now ms c in
  mret (v1beta2_Set now now ms (deletingCondition now ms machines succeeded)).
End status.

(** ** Theory *)

Lemma count_machines_length f machines :
  count_machines f machines = wrap32 (Z.of_nat (length (filter (λ m, f m = true) machines))).
Proof.
  unfold count_machines. induction machines as [|m machines IH] using rev_ind; [done|].
  rewrite foldl_app, IH, filter_app, length_app. simpl. rewrite filter_cons, filter_nil.
  destruct (f m) eqn:E; case_decide; try congruence; simpl.
  - rewrite wrap32_add_l. f_equal. lia.
  - f_equal. lia.
Qed.

Section theory.
Context `{MetaConditions, Flect, GoRange, GoSort}.

Lemma ms_Set_fields now apiNow (ms : MachineSet) c :
  ms_Spec (v1beta2_Set now apiNow ms c) = ms_Spec ms ∧
  ms_Meta (v1beta2_Set now apiNow ms c) = ms_Meta ms.
Proof.
  unfold v1beta2_Set, v1beta2_Set_sorted. destruct (setStatusCondition _ _ _ _) as [cs changed].
  by destruct changed.
Qed.

Definition v1beta2_counters (ms : MachineSet) : option Z * option Z * option Z :=
  match mst_V1Beta2 (ms_Status ms) with
  | Some v => (msv_ReadyReplicas v, msv_AvailableReplicas v, msv_UpToDateReplicas v)
  | None => (None, None, None)
  end.

Lemma ms_Set_counters now apiNow (ms : MachineSet) c :
  v1beta2_counters (v1beta2_Set now apiNow ms c) = v1beta2_counters ms.
Proof.
  unfold v1beta2_Set, v1beta2_Set_sorted. destruct (setStatusCondition _ _ _ _) as [cs changed].
  destruct changed; [|done]. unfold v1beta2_counters. simpl. by destruct (mst_V1Beta2 (ms_Status ms)).
Qed.

Lemma ms_sets_counters now (ms : MachineSet) cs :
  v1beta2_counters (sets now ms cs) = v1beta2_counters ms.
Proof.
  revert ms. induction cs as [|c cs IH]; intros ms; [done|]. simpl. by rewrite IH, ms_Set_counters.
Qed.

Lemma ms_setReplicas_fields ms machines succeeded :
  ms_Spec (ms_setReplicas ms machines succeeded) = ms_Spec ms ∧
  ms_Meta (ms_setReplicas ms machines succeeded) = ms_Meta ms.
Proof. unfold ms_setReplicas. by destruct succeeded. Qed.

Lemma ms_setReplicas_conditions ms machines succeeded :
  GetV1Beta2Conditions (ms_setReplicas ms machines succeeded) = GetV1Beta2Conditions ms.
Proof.
  unfold ms_setReplicas. destruct succeeded; [|done]. simpl. unfold ms_GetV1Beta2Conditions. simpl.
  by destruct (mst_V1Beta2 (ms_Status ms)).
Qed.

(** The conditions of the status depend on nothing the status functions change. *)
Lemma scalingDown_ext now ms ms' machines b :
  ms_Spec ms = ms_Spec ms' → ms_Meta ms = ms_Meta ms' →
  scalingDownCondition now ms machines b = scalingDownCondition now ms' machines b.
Proof. intros E E'. unfold scalingDownCondition, ms_Replicas, ms_desiredReplicas. by rewrite E, E'. Qed.

Lemma scalingUp_ext ms ms' machines b i a msg :
  ms_Spec ms = ms_Spec ms' → ms_Meta ms = ms_Meta ms' →
  scalingUpCondition ms machines b i a msg = scalingUpCondition ms' machines b i a msg.
Proof.
  intros E E'. unfold scalingUpCondition, calculateMissingReferencesMessage, ms_Replicas,
    ms_desiredReplicas. by rewrite E, E'.
Qed.

Lemma deleting_ext now ms ms' machines b :
  ms_Meta ms = ms_Meta ms' → deletingCondition now ms machines b = deletingCondition now ms' machines b.
Proof. intros E. unfold deletingCondition. by rewrite E. Qed.

Definition to_be_remediated (s : ms_scope) : gmap string Machine :=
  Filter (FromMachines (Some <$> sc_machines s)) [IsUnhealthyAndOwnerRemediated].

(** An update of the status is the counters followed by one set of each condition. *)
Lemma ms_updateStatus_sets now s ms :
  let machines := sc_machines s in
  let succeeded := sc_getAndAdoptMachinesForMachineSetSucceeded s in
  ms_updateStatus now s ms =
    up ← scalingUpCondition ms machines (sc_bootstrapObjectNotFound s)
          (sc_infrastructureObjectNotFound s) succeeded (sc_scaleUpPreflightCheckErrMessage s);
    ready ← machinesReadyCondition machines succeeded;
    upToDate ← machinesUpToDateCondition machines succeeded;
    remediating ← remediatingCondition (to_be_remediated s)
      (Filter (FromMachines (Some <$> machines)) [IsUnhealthy]) unhealthy_not_remediated succeeded;
    mret (sets now (ms_setReplicas ms machines succeeded)
      [up; scalingDownCondition now ms machines succeeded; ready; upToDate; remediating;
       deletingCondition now ms machines succeeded]).
Proof.
  intros machines succeeded. unfold ms_updateStatus. fold machines succeeded.
  destruct (ms_setReplicas_fields ms machines succeeded) as [Es Em].
  rewrite (scalingUp_ext _ ms) by done.
  destruct (scalingUpCondition ms _ _ _ _ _) as [up| |]; cbn [mbind result_bind]; [|done|done].
  destruct (ms_Set_fields now now (ms_setReplicas ms machines succeeded) up) as [Es1 Em1].
  rewrite (scalingDown_ext now _ ms) by congruence.
  destruct (machinesReadyCondition machines succeeded) as [ready| |]; cbn [mbind result_bind]; [|done|done].
  destruct (machinesUpToDateCondition machines succeeded) as [utd| |]; cbn [mbind result_bind]; [|done|done].
  unfold to_be_remediated. fold machines.
  destruct (remediatingCondition _ _ _ _) as [rem| |]; cbn [mbind result_bind]; [|done|done].
  rewrite (deleting_ext now _ ms); [done|]. rewrite !(proj2 (ms_Set_fields _ _ _ _)). congruence.
Qed.

(** How many machines report True in a condition. *)
Definition true_count (t : string) (machines : list Machine) : Z :=
  Z.of_nat (length (filter (λ m, v1beta2_IsTrue m t = true) machines)).

Lemma true_count_bounds t machines : 0 ≤ true_count t machines ≤ Z.of_nat (length machines).
Proof. unfold true_count. split; [lia|]. apply inj_le, length_filter. Qed.

Lemma ms_setReplicas_counters ms machines :
  Z.of_nat (length machines) ≤ int32_max →
  v1beta2_counters (ms_setReplicas ms machines true) =
    (Some (true_count ReadyV1Beta2Condition machines),
     Some (true_count AvailableV1Beta2Condition machines), Some (true_count "UpToDate" machines)).
Proof.
  intros Hmax. unfold v1beta2_counters, ms_setReplicas. simpl.
  assert (∀ t, count_machines (λ m, v1beta2_IsTrue m t) machines = true_count t machines) as Hcount.
  { intros t. rewrite count_machines_length. apply wrap32_id.
    pose proof (true_count_bounds t machines). unfold true_count, in_int32, int32_min in *. lia. }
  by rewrite !Hcount.
Qed.

Lemma ms_updateStatus_counters now s ms ms' :
  sc_getAndAdoptMachinesForMachineSetSucceeded s = true →
  Z.of_nat (length (sc_machines s)) ≤ int32_max →
  ms_updateStatus now s ms = Ok ms' →
  v1beta2_counters ms' =
    (Some (true_count ReadyV1Beta2Condition (sc_machines s)),
     Some (true_count AvailableV1Beta2Condition (sc_machines s)),
     Some (true_count "UpToDate" (sc_machines s))).
Proof.
  intros Es Hmax. rewrite ms_updateStatus_sets, Es.
  destruct (scalingUpCondition _ _ _ _ _ _) as [?| |]; [|done|done]. simpl.
  destruct (machinesReadyCondition _ _) as [?| |]; [|done|done]. simpl.
  destruct (machinesUpToDateCondition _ _) as [?| |]; [|done|done]. simpl.
  destruct (remediatingCondition _ _ _ _) as [?| |]; [|done|done]. simpl.
  intros [= <-]. rewrite !ms_Set_counters. by apply ms_setReplicas_counters.
Qed.

(** The conditions owned by the controller, in the order it sets them. *)
Definition ms_owned : list string :=
  [ScalingUpV1Beta2Condition; ScalingDownV1Beta2Condition; MachinesReadyV1Beta2Condition;
   MachinesUpToDateV1Beta2Condition; RemediatingV1Beta2Condition; DeletingV1Beta2Condition].

Lemma ms_owned_NoDup : NoDup ms_owned.
Proof. apply (bool_decide_unpack _). by vm_compute. Qed.

(** A bootstrap template can only be missing when there is a reference to it. *)
Definition refs_present (s : ms_scope) (ms : MachineSet) : Prop :=
  sc_bootstrapObjectNotFound s = true →
  is_Some (b_ConfigRef (sp_Bootstrap (mt_Spec (mss_Template (ms_Spec ms))))).

Lemma scalingUp_Ok s ms machines succeeded msg :
  refs_present s ms →
  ∃ c, scalingUpCondition ms machines (sc_bootstrapObjectNotFound s)
         (sc_infrastructureObjectNotFound s) succeeded msg = Ok c ∧
    mc_Type c = ScalingUpV1Beta2Condition ∧
    (succeeded = true → ∀ n, ms_Replicas ms = Some n →
      mc_Status c = BoolToStatus (wrap32 (Z.of_nat (length machines)) <? ms_desiredReplicas ms n)).
Proof.
  intros Hrefs. unfold scalingUpCondition. destruct succeeded; simpl; [|by eexists].
  destruct (ms_Replicas ms) as [n|]; [|by eexists].
  assert (∃ m, calculateMissingReferencesMessage ms (sc_bootstrapObjectNotFound s)
    (sc_infrastructureObjectNotFound s) = Ok m) as [m ->].
  { unfold calculateMissingReferencesMessage, missing_objects.
    destruct (sc_bootstrapObjectNotFound s) eqn:E; [|by eexists].
    destruct (Hrefs E) as [ref ->]. by eexists. }
  simpl. destruct (Z.leb_spec (ms_desiredReplicas ms n) (wrap32 (Z.of_nat (length machines)))) as [Hle|Hlt];
    eexists; (split; [done|]); (split; [done|]); intros _ n' [= <-]; simpl.
  - destruct (Z.ltb_spec (wrap32 (Z.of_nat (length machines))) (ms_desiredReplicas ms n)); [lia|done].
  - destruct (Z.ltb_spec (wrap32 (Z.of_nat (length machines))) (ms_desiredReplicas ms n)); [done|lia].
Qed.

(** The update of the status runs to the end and sets exactly the owned conditions. *)
Lemma ms_updateStatus_run now s ms :
  let machines := sc_machines s in
  let succeeded := sc_getAndAdoptMachinesForMachineSetSucceeded s in
  refs_present s ms →
  ∃ up ready utd rem,
    let cs := [up; scalingDownCondition now ms machines succeeded; ready; utd; rem;
               deletingCondition now ms machines succeeded] in
    ms_updateStatus now s ms = Ok (sets now (ms_setReplicas ms machines succeeded) cs) ∧
    types cs = ms_owned ∧
    if succeeded then
      (∀ n, ms_Replicas ms = Some n →
        mc_Status up = BoolToStatus (wrap32 (Z.of_nat (length machines)) <? ms_desiredReplicas ms n)) ∧
      decided_by machines ReadyV1Beta2Condition (mc_Status ready) ∧
      decided_by machines "UpToDate" (mc_Status utd) ∧
      mc_Status rem = BoolToStatus (bool_decide (to_be_remediated s ≠ ∅))
    else Forall (λ c, state_of c = state_of (internal_error "")) cs.
Proof.
  intros machines succeeded Hrefs. rewrite ms_updateStatus_sets. fold machines succeeded.
  destruct (scalingUp_Ok s ms machines succeeded (sc_scaleUpPreflightCheckErrMessage s) Hrefs)
    as (up & Eup & Htup & Hup). rewrite Eup.
  assert (mc_Type (scalingDownCondition now ms machines succeeded) = ScalingDownV1Beta2Condition) as Htd.
  { unfold scalingDownCondition. by repeat case_match. }
  assert (mc_Type (deletingCondition now ms machines succeeded) = DeletingV1Beta2Condition) as Htdel.
  { unfold deletingCondition. by repeat case_match. }
  destruct succeeded.
  - destruct (machinesReady_reports machines) as (ready & -> & Htr & Hr).
    destruct (machinesUpToDate_reports machines) as (utd & -> & Htu & Hu).
    destruct (remediating_reports (to_be_remediated s)
      (Filter (FromMachines (Some <$> machines)) [IsUnhealthy]) unhealthy_not_remediated)
      as (rem & -> & Htrem & Hrem).
    exists up, ready, utd, rem. split; [done|]. split; [|by eauto].
    unfold types. simpl. by rewrite Htup, Htd, Htr, Htu, Htrem, Htdel.
  - exists up, (internal_error MachinesReadyV1Beta2Condition),
      (internal_error MachinesUpToDateV1Beta2Condition), (internal_error RemediatingV1Beta2Condition).
    split; [done|]. split; [unfold types; simpl; by rewrite Htup|]. injection Eup as <-.
    by repeat constructor.
Qed.

Lemma ms_setReplicas_wf ms machines succeeded :
  wf_conditions ms → wf_conditions (ms_setReplicas ms machines succeeded).
Proof. unfold wf_conditions. by rewrite ms_setReplicas_conditions. Qed.

Lemma ms_setReplicas_Get ms machines succeeded t :
  v1beta2_Get (ms_setReplicas ms machines succeeded) t = v1beta2_Get ms t.
Proof. unfold v1beta2_Get. by rewrite ms_setReplicas_conditions. Qed.
End theory.

(** ** What the status reports *)

(** An update of the v1beta2 status of a MachineSet always finishes and leaves each of
    the six conditions the controller owns set exactly once and every other condition as it
    was; when the machines could not be listed all six report an internal error with status
    Unknown, and the replica counters keep their values. *)
Theorem ms_updateStatus_complete `{MetaConditions, Flect, GoRange, GoSort} (now : Time)
    (s : ms_scope) (ms : MachineSet) :
  wf_conditions ms → refs_present s ms →
  ∃ ms', ms_updateStatus now s ms = Ok ms' ∧ wf_conditions ms' ∧
    (∀ t, t ∈ ms_owned → is_Some (v1beta2_Get ms' t)) ∧
    (∀ t, t ∉ ms_owned → v1beta2_Get ms' t = v1beta2_Get ms t) ∧
    (sc_getAndAdoptMachinesForMachineSetSucceeded s = false →
     v1beta2_counters ms' = v1beta2_counters ms ∧
     ∀ t, t ∈ ms_owned → reported ms' t = Some (ConditionUnknown, InternalErrorV1Beta2Reason,
       "Please check controller logs for errors"%string)).
Proof.
  intros Hwf Hrefs. destruct (ms_updateStatus_run now s ms Hrefs) as (up & ready & utd & rem & E & Ht & Hcs).
  set (cs := [up; _; ready; utd; rem; _]) in *. eexists. split; [exact E|].
  pose proof (ms_setReplicas_wf ms (sc_machines s) (sc_getAndAdoptMachinesForMachineSetSucceeded s) Hwf) as Hwf'.
  assert (NoDup (types cs)) as Hnd by (rewrite Ht; apply ms_owned_NoDup).
  assert (∀ t, t ∈ ms_owned → ∃ c, c ∈ cs ∧ mc_Type c = t) as Hc.
  { intros t Hin. rewrite <- Ht in Hin. apply list_elem_of_fmap in Hin as (c & -> & Hin). eauto. }
  split; [by apply sets_wf|]. split_and!.
  - intros t (c & Hin & <-)%Hc. pose proof (sets_reported now _ cs c Hwf' Hnd Hin) as Hr.
    unfold reported in Hr. by apply fmap_Some in Hr as (d & -> & _).
  - intros t Hni. rewrite sets_other; [apply ms_setReplicas_Get|done|by rewrite Ht].
  - intros Es. rewrite Es in Hcs. split; [rewrite ms_sets_counters; unfold ms_setReplicas; by rewrite Es|].
    intros t (c & Hin & <-)%Hc. rewrite (sets_reported now _ cs c Hwf' Hnd Hin).
    rewrite Forall_forall in Hcs. by rewrite Hcs.
Qed.

(** C22: When the machines of a MachineSet were listed and its size is set, the status counts
    the machines that are ready, available and up to date; it reports scaling up exactly when
    there are fewer machines than desired and scaling down exactly when there are more, so
    never both; MachinesReady and MachinesUpToDate are True when all machines are, and False
    when one is not; Remediating is True exactly when a machine waits for remediation by its
    owner, and Deleting exactly when the MachineSet is being deleted. *)
Theorem ms_updateStatus_reports `{MetaConditions, Flect, GoRange, GoSort} (now : Time)
    (s : ms_scope) (ms : MachineSet) (n : Z) :
  let machines := sc_machines s in
  let current := Z.of_nat (length machines) in
  let desired := if IsZero (om_DeletionTimestamp (ms_Meta ms)) then n else 0 in
  wf_conditions ms → refs_present s ms → NoDup (m_Name <$> machines) → current ≤ int32_max →
  sc_getAndAdoptMachinesForMachineSetSucceeded s = true → ms_Replicas ms = Some n →
  ∃ ms' ready utd, ms_updateStatus now s ms = Ok ms' ∧
    v1beta2_counters ms' = (Some (true_count ReadyV1Beta2Condition machines),
      Some (true_count AvailableV1Beta2Condition machines), Some (true_count "UpToDate" machines)) ∧
    reported_status ms' ScalingUpV1Beta2Condition = Some (BoolToStatus (current <? desired)) ∧
    reported_status ms' ScalingDownV1Beta2Condition = Some (BoolToStatus (desired <? current)) ∧
    reported_status ms' MachinesReadyV1Beta2Condition = Some ready ∧
    decided_by machines ReadyV1Beta2Condition ready ∧
    reported_status ms' MachinesUpToDateV1Beta2Condition = Some utd ∧
    decided_by machines "UpToDate" utd ∧
    reported_status ms' RemediatingV1Beta2Condition = Some (BoolToStatus
      (existsb (λ m, IsUnhealthyAndOwnerRemediated (Some m)) machines)) ∧
    reported_status ms' DeletingV1Beta2Condition =
      Some (BoolToStatus (negb (IsZero (om_DeletionTimestamp (ms_Meta ms))))).
Proof.
  intros machines current desired Hwf Hrefs Hnames Hmax Es En.
  destruct (ms_updateStatus_run now s ms Hrefs) as (up & ready & utd & rem & E & Ht & Hcs).
  rewrite Es in E, Ht, Hcs. destruct Hcs as (Hup & Hready & Hutd & Hrem).
  change (sc_machines s) with machines in E, Ht, Hup, Hready, Hutd.
  set (cs := [up; _; ready; utd; rem; _]) in *.
  pose proof (ms_setReplicas_wf ms machines true Hwf) as Hwf'.
  assert (NoDup (types cs)) as Hnd by (rewrite Ht; apply ms_owned_NoDup).
  assert (wrap32 current = current) as Hw.
  { apply wrap32_id. unfold in_int32, int32_min, current in *. lia. }
  assert (ms_desiredReplicas ms n = desired) as Hd.
  { unfold ms_desiredReplicas, desired. by destruct (IsZero _). }
  assert (∀ i c t, cs !! i = Some c → ms_owned !! i = Some t →
    reported_status (sets now (ms_setReplicas ms machines true) cs) t = Some (mc_Status c)) as Hr.
  { intros i c t Hi Hti. rewrite <- Ht in Hti. unfold types in Hti. rewrite list_lookup_fmap, Hi in Hti.
    injection Hti as <-. eapply reported_status_of, sets_reported; [done|done|].
    by eapply list_elem_of_lookup_2. }
  eexists _, (mc_Status ready), (mc_Status utd). split; [exact E|].
  rewrite (Hr 0%nat _ _ eq_refl eq_refl), (Hr 1%nat _ _ eq_refl eq_refl),
    (Hr 2%nat _ _ eq_refl eq_refl), (Hr 3%nat _ _ eq_refl eq_refl), (Hr 4%nat _ _ eq_refl eq_refl),
    (Hr 5%nat _ _ eq_refl eq_refl). split_and!; [| | |done|done|done|done| |].
  - rewrite ms_sets_counters. by apply ms_setReplicas_counters.
  - rewrite (Hup n En). fold current. by rewrite Hw, Hd.
  - unfold scalingDownCondition. simpl. rewrite En, Hd. fold current. rewrite Hw.
    by destruct (desired <? current).
  - rewrite Hrem. unfold to_be_remediated. fold machines. by rewrite FromMachines_nonempty.
  - unfold deletingCondition. simpl. by destruct (IsZero _).
Qed.

(** ** Examples *)

Definition ms_of (replicas : Z) : MachineSet := ms_set_Replicas replicas inhabitant.

Definition scope_of (machines : list Machine) (succeeded : bool) : ms_scope :=
  {| sc_machines := machines; sc_bootstrapObjectNotFound := false;
     sc_infrastructureObjectNotFound := true;
     sc_getAndAdoptMachinesForMachineSetSucceeded := succeeded;
     sc_scaleUpPreflightCheckErrMessage := "" |}.

Lemma ms_updateStatus_complete_witness :
  ∃ ms', ms_updateStatus 5 (scope_of [] false) (ms_of 3) = Ok ms' ∧
    reported ms' DeletingV1Beta2Condition = Some (ConditionUnknown, InternalErrorV1Beta2Reason,
      "Please check controller logs for errors"%string).
Proof.
  destruct (ms_updateStatus_complete 5 (scope_of [] false) (ms_of 3)) as (ms' & E & _ & _ & _ & Hr);
    [constructor|done|]. exists ms'. split; [exact E|]. apply (Hr eq_refl).
  apply (bool_decide_unpack _). by vm_compute.
Defined.

Lemma ms_updateStatus_reports_witness :
  ∃ ms', ms_updateStatus 5 (scope_of example_machines true) (ms_of 5) = Ok ms' ∧
    reported_status ms' ScalingUpV1Beta2Condition = Some ConditionTrue ∧
    reported_status ms' ScalingDownV1Beta2Condition = Some ConditionFalse.
Proof.
  destruct (ms_updateStatus_reports 5 (scope_of example_machines true) (ms_of 5) 5)
    as (ms' & ready & utd & E & _ & Hup & Hdown & _);
    [constructor|done|apply (bool_decide_unpack _); by vm_compute|by vm_compute|done|done|].
  exists ms'. split; [exact E|]. split; [exact Hup|exact Hdown].
Defined.
