(* ===== verification/MachineDeploymentStatus.v ===== *)
(** * The v1beta2 status of a MachineDeployment (internal/controllers/machinedeployment/machinedeployment_status.go)

    [md_updateStatus] sums the counters of the MachineSets ([setReplicas] of MachineDeployment), computes the seven conditions the
    controller owns, and returns the error of listing the machines beside the updated object.
    The conversion of the selector and the list call are arguments.  The last part follows the
    counters through two controllers: MachineSets whose status was computed from their machines,
    and the MachineDeployment that owns them. *)

From S2P Require Import Prelude GoStd Api Apimachinery Conditions MdUtil MachineDeployment Collections.
From S2P Require Import ConditionsV1Beta2 ConditionsMerge StatusConditions MachineSetStatus.

(** ** Conditions *)

Definition WaitingForAvailableReplicasSetV1Beta2Reason : string := "WaitingForAvailableReplicasSet".

(** [intstrString] is the String method of [*intstr.IntOrString]. *)
Definition availableCondition `{Apimachinery} (intstrString : option IntOrString → string)
    (md : MachineDeployment) (getAndAdoptMachineSetsForDeploymentSucceeded : bool) :
    result MetaCondition :=
  let t := AvailableV1Beta2Condition in
  if negb getAndAdoptMachineSetsForDeploymentSucceeded then Ok (internal_error t)
  else
    match md_Replicas md with
    | None => Ok (new_condition t (ConditionUnknown, WaitingForReplicasSetV1Beta2Reason, ""%string))
    | Some replicas =>
        match mdt_V1Beta2 (md_Status md) ≫= mdv_AvailableReplicas with
        | None => Ok (new_condition t (ConditionUnknown,
                        WaitingForAvailableReplicasSetV1Beta2Reason, ""%string))
        | Some availableReplicas =>
            maxUnavailable ← MaxUnavailable md;
            let minReplicasNeeded := replicas -32 maxUnavailable in
            if minReplicasNeeded <=? availableReplicas
            then Ok (new_condition t (ConditionTrue, AvailableV1Beta2Reason, ""%string))
            else
              rolling ← IsRollingUpdate md;
              let message := FormatInt availableReplicas +:+ " available replicas, at least "
                +:+ FormatInt minReplicasNeeded +:+ " required" in
              let message :=
                match mds_Strategy (md_Spec md) ≫= mdst_RollingUpdate with
                | Some ru =>
                    if (rolling : bool)
                    then message +:+ " (spec.strategy.rollout.maxUnavailable is "
                      +:+ intstrString (ru_MaxUnavailable ru) +:+ ", spec.replicas is "
                      +:+ FormatInt replicas +:+ ")"
                    else message
                | None => message
                end in
              Ok (new_condition t (ConditionFalse, NotAvailableV1Beta2Reason, message))
        end
    end.

Definition md_calculateMissingReferencesMessage (md : MachineDeployment)
    (bootstrapTemplateNotFound infraMachineTemplateNotFound : bool) : result string :=
  missingObjects ← missing_objects (mt_Spec (md_Template md)) bootstrapTemplateNotFound
                     infraMachineTemplateNotFound;
  mret (match missingObjects with
        | [] => ""
        | [o] => "because " +:+ o +:+ " does not exist"
        | _ => "because " +:+ Join missingObjects " and " +:+ " do not exist"
        end).

Definition md_desiredReplicas (md : MachineDeployment) (replicas : Z) : Z :=
  if negb (IsZero (om_DeletionTimestamp (md_Meta md))) then 0 else replicas.

Definition md_scalingUpCondition (md : MachineDeployment) (machineSets : list (option MachineSet))
    (bootstrapObjectNotFound infrastructureObjectNotFound
     getAndAdoptMachineSetsForDeploymentSucceeded : bool) : result MetaCondition :=
  let t := ScalingUpV1Beta2Condition in
  if negb getAndAdoptMachineSetsForDeploymentSucceeded then Ok (internal_error t)
  else
    match md_Replicas md with
    | None => Ok (new_condition t (ConditionUnknown, WaitingForReplicasSetV1Beta2Reason, ""%string))
    | Some replicas =>
        let desiredReplicas := md_desiredReplicas md replicas in
        let currentReplicas := GetActualReplicaCountForMachineSets machineSets in
        missingReferencesMessage ←
          md_calculateMissingReferencesMessage md bootstrapObjectNotFound infrastructureObjectNotFound;
        if desiredReplicas <=? currentReplicas
        then
          let message := if negb (String.eqb missingReferencesMessage "")
                         then "Scaling up would be blocked " +:+ missingReferencesMessage
                         else ""%string in
          Ok (new_condition t (ConditionFalse, NotScalingUpV1Beta2Reason, message))
        else
          let message := "Scaling up " +:+ from_to currentReplicas desiredReplicas in
          let message := if negb (String.eqb missingReferencesMessage "")
                         then message +:+ " is blocked " +:+ missingReferencesMessage
                         else message in
          Ok (new_condition t (ConditionTrue, ScalingUpV1Beta2Reason, message))
    end.

Definition md_scalingDownCondition `{GoRange} (now : Time) (md : MachineDeployment)
    (machineSets : list (option MachineSet)) (machines : gmap string Machine)
    (getAndAdoptMachineSetsForDeploymentSucceeded getMachinesSucceeded : bool) : MetaCondition :=
  let t := ScalingDownV1Beta2Condition in
  if negb getAndAdoptMachineSetsForDeploymentSucceeded then internal_error t
  else
    match md_Replicas md with
    | None => new_condition t (ConditionUnknown, WaitingForReplicasSetV1Beta2Reason, ""%string)
    | Some replicas =>
        let desiredReplicas := md_desiredReplicas md replicas in
        let currentReplicas := GetActualReplicaCountForMachineSets machineSets in
        if desiredReplicas <? currentReplicas
        then
          let message := "Scaling down " +:+ from_to currentReplicas desiredReplicas in
          let message := if getMachinesSucceeded then with_stale message now (go_values machines)
                         else message in
          new_condition t (ConditionTrue, ScalingDownV1Beta2Reason, message)
        else new_condition t (ConditionFalse, NotScalingDownV1Beta2Reason, ""%string)
    end.

Definition md_deletingCondition `{GoRange} (now : Time) (md : MachineDeployment)
    (machineSets : list (option MachineSet)) (machines : gmap string Machine)
    (getAndAdoptMachineSetsForDeploymentSucceeded getMachinesSucceeded : bool) : MetaCondition :=
  let t := DeletingV1Beta2Condition in
  if negb getAndAdoptMachineSetsForDeploymentSucceeded || negb getMachinesSucceeded
  then internal_error t
  else if IsZero (om_DeletionTimestamp (md_Meta md))
  then new_condition t (ConditionFalse, DeletionTimestampNotSetV1Beta2Reason, ""%string)
  else
    let message := deleting_message now (go_values machines) in
    let message := if (size machines =? 0)%nat && (0 <? length machineSets)%nat
                   then "Deleting " +:+ FormatInt (Z.of_nat (length machineSets)) +:+ " MachineSets"
                   else message in
    new_condition t (ConditionTrue, DeletionTimestampSetV1Beta2Reason, message).

Definition md_unhealthy_not_remediated : string :=
  "not healthy (not to be remediated by MachineDeployment/MachineSet)".

Definition md_machinesReadyCondition `{Flect, GoRange, GoSort} (machines : gmap string Machine)
    (getMachinesSucceeded : bool) : result MetaCondition :=
  machinesReadyCondition (UnsortedList machines) getMachinesSucceeded.

Definition md_machinesUpToDateCondition `{Flect, GoRange, GoSort} (machines : gmap string Machine)
    (getMachinesSucceeded : bool) : result MetaCondition :=
  machinesUpToDateCondition (UnsortedList machines) getMachinesSucceeded.

Definition md_remediatingCondition `{Flect, GoRange, GoSort}
    (machinesToBeRemediated unhealthyMachines : gmap string Machine) (getMachinesSucceeded : bool) :
    result MetaCondition :=
  remediatingCondition machinesToBeRemediated unhealthyMachines md_unhealthy_not_remediated
    getMachinesSucceeded.

(** The fields of the scope that the update of the status reads. *)
Record md_scope := {
  dsc_machineSets : list (option MachineSet);
  dsc_bootstrapTemplateNotFound : bool;
  dsc_infrastructureTemplateNotFound : bool;
  dsc_getAndAdoptMachineSetsForDeploymentSucceeded : bool;
}.

Section status.
Context `{Apimachinery, MetaConditions, Flect, GoRange, GoSort}.
Context (intstrString : option IntOrString → string).
Context (labelSelectorAsMap : LabelSelector → result (gmap string string)).
Context (listMachines : string → gmap string string → result (list Machine)).

(** The machines the selector matches; [None] when they could not be listed. *)
Definition list_machines (md : MachineDeployment) : result (option (gmap string Machine) * option error) :=
  match labelSelectorAsMap (mds_Selector (md_Spec md)) with
  | Panic => Panic
  | Err e => Ok (None, Some (Wrap "failed to convert label selector to a map" e))
  | Ok selectorMap =>
      match listMachines (om_Namespace (md_Meta md)) selectorMap with
      | Panic => Panic
      | Err e => Ok (None, Some (Wrap "failed to list machines" e))
      | Ok items => Ok (Some (FromMachineList items), None)
      end
  end.

Definition md_updateStatus (now : Time) (s : md_scope) (md : MachineDeployment) :
    result (MachineDeployment * option error) :=
  '(listed, retErr) ← list_machines md;
  let getMachinesSucceeded := bool_decide (is_Some listed) in
  let machines := default ∅ listed in
  let machinesToBeRemediated := Filter machines [IsUnhealthyAndOwnerRemediated] in
  let unhealthyMachines := Filter machines [IsUnhealthy] in
  let machineSets := dsc_machineSets s in
  let succeeded := dsc_getAndAdoptMachineSetsForDeploymentSucceeded s in
  let md := if succeeded then setReplicas md machineSets else md in
  c ← availableCondition intstrString md succeeded;
  let md := v1beta2_Set now now md c in
  c ← md_scalingUpCondition md machineSets (dsc_bootstrapTemplateNotFound s)
        (dsc_infrastructureTemplateNotFound s) succeeded;
  let md := v1beta2_Set now now md c in
  let md := v1beta2_Set now now md
    (md_scalingDownCondition now md machineSets machines succeeded getMachinesSucceeded) in
  c ← md_machinesReadyCondition machines getMachinesSucceeded;
  let md := v1beta2_Set now now md c in
  c ← md_machinesUpToDateCondition machines getMachinesSucceeded;
  let md := v1beta2_Set now now md c in
  c ← md_remediatingCondition machinesToBeRemediated unhealthyMachines getMachinesSucceeded;
  let md := v1beta2_Set now now md c in
  let md := v1beta2_Set now now md
    (md_deletingCondition now md machineSets machines succeeded getMachinesSucceeded) in
  mret (md, retErr).
End status.

(** ** Theory *)

Definition md_owned : list string := AvailableV1Beta2Condition :: ms_owned.

Lemma md_owned_NoDup : NoDup md_owned.
Proof. apply (bool_decide_unpack _). by vm_compute. Qed.

Lemma v1beta2_count_sum counter l (f : MachineSet → Z) :
  l ≠ [] → Forall (λ ms, (mst_V1Beta2 (ms_Status ms) ≫= counter) = Some (f ms)) l →
  v1beta2_count counter (Some <$> l) = Some (wrap32 (sumZ f l)).
Proof.
  intros Hne Hl. unfold v1beta2_count.
  assert (∀ k, foldl (λ total ms, match mbind counter (mbind (λ ms, mst_V1Beta2 (ms_Status ms)) ms) with
    | Some n => Some (default 0 total +32 n) | None => total end) (Some (wrap32 k)) (Some <$> l) =
    Some (wrap32 (k + sumZ f l))) as Hgen.
  { clear Hne. induction Hl as [|ms l Hms Hl IH]; intros k; simpl; [by rewrite Z.add_0_r|].
    simpl in Hms. rewrite Hms. simpl. rewrite wrap32_add_l, IH. do 2 f_equal. lia. }
  destruct Hl as [|ms l Hms Hl]; [done|]. specialize (Hgen 0). simpl in *. by rewrite Hms in *.
Qed.

Section theory.
Context `{Apimachinery, MetaConditions, Flect, GoRange, GoSort}.

Lemma md_Set_fields now apiNow (md : MachineDeployment) c :
  md_Spec (v1beta2_Set now apiNow md c) = md_Spec md ∧
  md_Meta (v1beta2_Set now apiNow md c) = md_Meta md.
Proof.
  unfold v1beta2_Set, v1beta2_Set_sorted. destruct (setStatusCondition _ _ _ _) as [cs changed].
  by destruct changed.
Qed.

Lemma md_scalingUp_ext md md' mss b i a :
  md_Spec md = md_Spec md' → md_Meta md = md_Meta md' →
  md_scalingUpCondition md mss b i a = md_scalingUpCondition md' mss b i a.
Proof.
  intros E E'. unfold md_scalingUpCondition, md_calculateMissingReferencesMessage, md_Replicas,
    md_desiredReplicas, md_Template. by rewrite E, E'.
Qed.

Lemma md_scalingDown_ext now md md' mss machines a b :
  md_Spec md = md_Spec md' → md_Meta md = md_Meta md' →
  md_scalingDownCondition now md mss machines a b = md_scalingDownCondition now md' mss machines a b.
Proof. intros E E'. unfold md_scalingDownCondition, md_Replicas, md_desiredReplicas. by rewrite E, E'. Qed.

Lemma md_deleting_ext now md md' mss machines a b :
  md_Meta md = md_Meta md' →
  md_deletingCondition now md mss machines a b = md_deletingCondition now md' mss machines a b.
Proof. intros E. unfold md_deletingCondition. by rewrite E. Qed.

Definition md_counted (s : md_scope) (md : MachineDeployment) : MachineDeployment :=
  if dsc_getAndAdoptMachineSetsForDeploymentSucceeded s then setReplicas md (dsc_machineSets s) else md.

Lemma md_counted_fields s md :
  md_Spec (md_counted s md) = md_Spec md ∧ md_Meta (md_counted s md) = md_Meta md ∧
  GetV1Beta2Conditions (md_counted s md) = GetV1Beta2Conditions md.
Proof.
  unfold md_counted. case_match; [|done]. split_and!; [done|done|]. simpl.
  unfold md_GetV1Beta2Conditions. simpl. by destruct (mdt_V1Beta2 (md_Status md)).
Qed.

Context (intstrString : option IntOrString → string).
Context (labelSelectorAsMap : LabelSelector → result (gmap string string)).
Context (listMachines : string → gmap string string → result (list Machine)).

(** An update of the status is the counters followed by one set of each condition. *)
Lemma md_updateStatus_sets now s md :
  let mss := dsc_machineSets s in
  let succeeded := dsc_getAndAdoptMachineSetsForDeploymentSucceeded s in
  md_updateStatus intstrString labelSelectorAsMap listMachines now s md =
    '(listed, retErr) ← list_machines labelSelectorAsMap listMachines md;
    let got := bool_decide (is_Some listed) in
    let machines := default ∅ listed in
    available ← availableCondition intstrString (md_counted s md) succeeded;
    up ← md_scalingUpCondition md mss (dsc_bootstrapTemplateNotFound s)
           (dsc_infrastructureTemplateNotFound s) succeeded;
    ready ← machinesReadyCondition (UnsortedList machines) got;
    upToDate ← machinesUpToDateCondition (UnsortedList machines) got;
    remediating ← remediatingCondition (Filter machines [IsUnhealthyAndOwnerRemediated])
      (Filter machines [IsUnhealthy]) md_unhealthy_not_remediated got;
    mret (sets now (md_counted s md)
      [available; up; md_scalingDownCondition now md mss machines succeeded got; ready; upToDate;
       remediating; md_deletingCondition now md mss machines succeeded got], retErr).
Proof.
  intros mss succeeded. unfold md_updateStatus, md_machinesReadyCondition, md_machinesUpToDateCondition,
    md_remediatingCondition. fold mss succeeded.
  destruct (list_machines _ _ md) as [[listed retErr]| |]; cbn [mbind result_bind]; [|done|done].
  set (got := bool_decide (is_Some listed)). set (machines := default ∅ listed).
  destruct (md_counted_fields s md) as (Es & Em & _). fold (md_counted s md).
  change (if succeeded then setReplicas md mss else md) with (md_counted s md).
  destruct (availableCondition _ _ _) as [av| |]; cbn [mbind result_bind]; [|done|done].
  rewrite (md_scalingUp_ext (v1beta2_Set now now (md_counted s md) av) md)
    by (rewrite ?(proj1 (md_Set_fields _ _ _ _)), ?(proj2 (md_Set_fields _ _ _ _)); done).
  destruct (md_scalingUpCondition _ _ _ _ _) as [up| |]; cbn [mbind result_bind]; [|done|done].
  rewrite (md_scalingDown_ext now (v1beta2_Set now now (v1beta2_Set now now (md_counted s md) av) up) md)
    by (rewrite ?(proj1 (md_Set_fields _ _ _ _)), ?(proj2 (md_Set_fields _ _ _ _));
        rewrite ?(proj1 (md_Set_fields _ _ _ _)), ?(proj2 (md_Set_fields _ _ _ _)); done).
  destruct (machinesReadyCondition _ _) as [ready| |]; cbn [mbind result_bind]; [|done|done].
  destruct (machinesUpToDateCondition _ _) as [utd| |]; cbn [mbind result_bind]; [|done|done].
  destruct (remediatingCondition _ _ _ _) as [rem| |]; cbn [mbind result_bind]; [|done|done].
  rewrite (md_deleting_ext now _ md); [done|]. rewrite !(proj2 (md_Set_fields _ _ _ _)). done.
Qed.

(** A bootstrap template can only be missing when there is a reference to it. *)
Definition md_refs_present (s : md_scope) (md : MachineDeployment) : Prop :=
  dsc_bootstrapTemplateNotFound s = true →
  is_Some (b_ConfigRef (sp_Bootstrap (mt_Spec (md_Template md)))).

Lemma md_scalingUp_Ok s md mss n :
  md_refs_present s md → md_Replicas md = Some n →
  ∃ c, md_scalingUpCondition md mss (dsc_bootstrapTemplateNotFound s)
         (dsc_infrastructureTemplateNotFound s) true = Ok c ∧
    mc_Type c = ScalingUpV1Beta2Condition ∧
    mc_Status c = BoolToStatus (GetActualReplicaCountForMachineSets mss <? md_desiredReplicas md n).
Proof.
  intros Hrefs En. unfold md_scalingUpCondition. simpl. rewrite En.
  assert (∃ m, md_calculateMissingReferencesMessage md (dsc_bootstrapTemplateNotFound s)
    (dsc_infrastructureTemplateNotFound s) = Ok m) as [m ->].
  { unfold md_calculateMissingReferencesMessage, missing_objects.
    destruct (dsc_bootstrapTemplateNotFound s) eqn:E; [|by eexists].
    destruct (Hrefs E) as [ref ->]. by eexists. }
  simpl. rewrite Z.ltb_antisym.
  destruct (md_desiredReplicas md n <=? GetActualReplicaCountForMachineSets mss); by eexists.
Qed.

(** Availability: enough of the replicas that the MachineSets report. *)
Definition md_available (md : MachineDeployment) (mss : list (option MachineSet)) (n unavailable : Z) :
    string :=
  match GetV1Beta2AvailableReplicaCountForMachineSets mss with
  | None => ConditionUnknown
  | Some available => BoolToStatus (n - unavailable <=? available)
  end.

Lemma available_Ok s md n :
  dsc_getAndAdoptMachineSetsForDeploymentSucceeded s = true → wf_deployment md n →
  ∃ c unavailable, availableCondition intstrString (md_counted s md) true = Ok c ∧
    mc_Type c = AvailableV1Beta2Condition ∧ MaxUnavailable md = Ok unavailable ∧
    mc_Status c = md_available md (dsc_machineSets s) n unavailable.
Proof.
  intros Es Hwf. destruct (limits_wf md n Hwf) as (surge & u & _ & Hu & _ & Hb & _).
  destruct (IsRollingUpdate_wf md n Hwf) as [rolling Hro]. destruct Hwf as [En Hn _].
  unfold availableCondition, md_counted, md_available. rewrite Es. simpl.
  change (md_Replicas (setReplicas md (dsc_machineSets s))) with (md_Replicas md). rewrite En.
  destruct (GetV1Beta2AvailableReplicaCountForMachineSets _) as [a|]; [|by eexists _, u].
  change (MaxUnavailable (setReplicas md (dsc_machineSets s))) with (MaxUnavailable md).
  change (IsRollingUpdate (setReplicas md (dsc_machineSets s))) with (IsRollingUpdate md).
  rewrite Hu. simpl. rewrite wrap32_id by (unfold in_int32, int32_min; lia).
  destruct (n - u <=? a) eqn:Ea; [eexists _, u; split_and!; [done..|simpl; by rewrite Ea]|].
  rewrite Hro. simpl. eexists _, u. split_and!; [done..|simpl; by rewrite Ea].
Qed.

(** The update of the status runs to the end and sets exactly the owned conditions. *)
Lemma md_updateStatus_run now s md n listed retErr :
  let mss := dsc_machineSets s in
  let got := bool_decide (is_Some listed) in
  let machines := default ∅ listed in
  dsc_getAndAdoptMachineSetsForDeploymentSucceeded s = true → wf_deployment md n →
  md_refs_present s md → list_machines labelSelectorAsMap listMachines md = Ok (listed, retErr) →
  ∃ available unavailable up ready utd rem,
    let cs := [available; up; md_scalingDownCondition now md mss machines true got; ready; utd; rem;
               md_deletingCondition now md mss machines true got] in
    md_updateStatus intstrString labelSelectorAsMap listMachines now s md =
      Ok (sets now (setReplicas md mss) cs, retErr) ∧ types cs = md_owned ∧
    MaxUnavailable md = Ok unavailable ∧ mc_Status available = md_available md mss n unavailable ∧
    mc_Status up = BoolToStatus (GetActualReplicaCountForMachineSets mss <? md_desiredReplicas md n) ∧
    (got = true →
      decided_by (UnsortedList machines) ReadyV1Beta2Condition (mc_Status ready) ∧
      decided_by (UnsortedList machines) "UpToDate" (mc_Status utd) ∧
      mc_Status rem = BoolToStatus (bool_decide (Filter machines [IsUnhealthyAndOwnerRemediated] ≠ ∅))).
Proof.
  intros mss got machines Es Hwf Hrefs El. rewrite md_updateStatus_sets, El, Es. cbn [mbind result_bind].
  fold mss got machines.
  destruct (available_Ok s md n Es Hwf) as (av & u & -> & Hta & Hu & Hav).
  destruct (md_scalingUp_Ok s md mss n Hrefs (wf_replicas _ _ Hwf)) as (up & -> & Htup & Hup).
  assert (md_counted s md = setReplicas md mss) as -> by (unfold md_counted; by rewrite Es).
  assert (mc_Type (md_scalingDownCondition now md mss machines true got) = ScalingDownV1Beta2Condition)
    as Htd by (unfold md_scalingDownCondition; by repeat case_match).
  assert (mc_Type (md_deletingCondition now md mss machines true got) = DeletingV1Beta2Condition)
    as Htdel by (unfold md_deletingCondition; by repeat case_match).
  destruct got.
  - destruct (machinesReady_reports (UnsortedList machines)) as (ready & -> & Htr & Hr).
    destruct (machinesUpToDate_reports (UnsortedList machines)) as (utd & -> & Htu & Hud).
    destruct (remediating_reports (Filter machines [IsUnhealthyAndOwnerRemediated])
      (Filter machines [IsUnhealthy]) md_unhealthy_not_remediated) as (rem & -> & Htrem & Hrem).
    exists av, u, up, ready, utd, rem. split; [done|]. split; [|done].
    unfold types. simpl. by rewrite Hta, Htup, Htd, Htr, Htu, Htrem, Htdel.
  - exists av, u, up, (internal_error MachinesReadyV1Beta2Condition),
      (internal_error MachinesUpToDateV1Beta2Condition), (internal_error RemediatingV1Beta2Condition).
    split; [done|]. split; [|done]. unfold types. simpl. by rewrite Hta, Htup, Htd.
Qed.

Lemma setReplicas_wf md mss : wf_conditions md → wf_conditions (setReplicas md mss).
Proof.
  unfold wf_conditions. simpl. unfold md_GetV1Beta2Conditions. simpl.
  by destruct (mdt_V1Beta2 (md_Status md)).
Qed.

(** What the sequence of sets reports, by position. *)
Lemma sets_owned now (md : MachineDeployment) cs i c t :
  wf_conditions md → types cs = md_owned → cs !! i = Some c → md_owned !! i = Some t →
  reported_status (sets now md cs) t = Some (mc_Status c).
Proof.
  intros Hwf Ht Hi Hti. rewrite <- Ht in Hti. unfold types in Hti.
  rewrite list_lookup_fmap, Hi in Hti. injection Hti as <-.
  eapply reported_status_of, sets_reported; [done|rewrite Ht; apply md_owned_NoDup|].
  by eapply list_elem_of_lookup_2.
Qed.
End theory.

Lemma decided_by_ext `{MetaConditions} a b source status :
  (∀ m, m ∈ a ↔ m ∈ b) → decided_by a source status → decided_by b source status.
Proof. intros Hab. unfold decided_by. by setoid_rewrite Hab. Qed.

Lemma listed_elem `{GoRange} items m :
  NoDup (m_Name <$> items) → m ∈ UnsortedList (FromMachineList items) ↔ m ∈ items.
Proof.
  intros Hnd. rewrite FromMachineList_FromMachines, elem_of_UnsortedList by apply keyed_FromMachines.
  rewrite FromMachines_lookup by done. naive_solver.
Qed.

(** C23: An update of the v1beta2 status of an admitted MachineDeployment whose MachineSets
    and machines were listed finishes without an error and sets its seven conditions, and no
    other: Available compares the available replicas that the MachineSets count with the size
    minus what may be unavailable (Unknown while no MachineSet has counted), ScalingUp and
    ScalingDown compare the actual with the desired replicas, MachinesReady and
    MachinesUpToDate are decided by the machines, Remediating is True exactly when a machine
    waits for remediation, Deleting exactly when the deployment is being deleted. *)
Theorem md_updateStatus_reports `{Apimachinery, MetaConditions, Flect, GoRange, GoSort} (now : Time)
    intstrString labelSelectorAsMap listMachines (s : md_scope) (md : MachineDeployment) (n : Z)
    selectorMap items :
  let mss := dsc_machineSets s in
  let actual := GetActualReplicaCountForMachineSets mss in
  let desired := if IsZero (om_DeletionTimestamp (md_Meta md)) then n else 0 in
  wf_conditions md → wf_deployment md n → md_refs_present s md →
  dsc_getAndAdoptMachineSetsForDeploymentSucceeded s = true →
  labelSelectorAsMap (mds_Selector (md_Spec md)) = Ok selectorMap →
  listMachines (om_Namespace (md_Meta md)) selectorMap = Ok items → NoDup (m_Name <$> items) →
  ∃ md' unavailable ready utd,
    md_updateStatus intstrString labelSelectorAsMap listMachines now s md = Ok (md', None) ∧
    MaxUnavailable md = Ok unavailable ∧
    reported_status md' AvailableV1Beta2Condition = Some (md_available md mss n unavailable) ∧
    reported_status md' ScalingUpV1Beta2Condition = Some (BoolToStatus (actual <? desired)) ∧
    reported_status md' ScalingDownV1Beta2Condition = Some (BoolToStatus (desired <? actual)) ∧
    reported_status md' MachinesReadyV1Beta2Condition = Some ready ∧
    decided_by items ReadyV1Beta2Condition ready ∧
    reported_status md' MachinesUpToDateV1Beta2Condition = Some utd ∧
    decided_by items "UpToDate" utd ∧
    reported_status md' RemediatingV1Beta2Condition = Some (BoolToStatus
      (existsb (λ m, IsUnhealthyAndOwnerRemediated (Some m)) items)) ∧
    reported_status md' DeletingV1Beta2Condition =
      Some (BoolToStatus (negb (IsZero (om_DeletionTimestamp (md_Meta md))))) ∧
    ∀ t, t ∉ md_owned → v1beta2_Get md' t = v1beta2_Get md t.
Proof.
  intros mss actual desired Hc Hwf Hrefs Es Esel Elist Hnd.
  assert (list_machines labelSelectorAsMap listMachines md = Ok (Some (FromMachineList items), None)) as El
    by (unfold list_machines; by rewrite Esel, Elist).
  destruct (md_updateStatus_run intstrString _ _ now s md n _ _ Es Hwf Hrefs El)
    as (av & u & up & ready & utd & rem & E & Ht & Hu & Hav & Hup & Hgot).
  destruct (Hgot eq_refl) as (Hready & Hutd & Hrem).
  change (dsc_machineSets s) with mss in E, Ht, Hav, Hup. set (cs := [av; up; _; ready; utd; rem; _]) in *.
  pose proof (setReplicas_wf md mss Hc) as Hc'.
  assert (md_desiredReplicas md n = desired) as Hd
    by (unfold md_desiredReplicas, desired; by destruct (IsZero _)).
  pose proof (λ i c t, sets_owned now _ cs i c t Hc' Ht) as Hr.
  eexists _, u, (mc_Status ready), (mc_Status utd). split; [exact E|]. split; [done|].
  rewrite (Hr 0%nat _ _ eq_refl eq_refl), (Hr 1%nat _ _ eq_refl eq_refl),
    (Hr 2%nat _ _ eq_refl eq_refl), (Hr 3%nat _ _ eq_refl eq_refl), (Hr 4%nat _ _ eq_refl eq_refl),
    (Hr 5%nat _ _ eq_refl eq_refl), (Hr 6%nat _ _ eq_refl eq_refl).
  split_and!; [by rewrite Hav| | |done| |done| | | |].
  - by rewrite Hup, Hd.
  - unfold md_scalingDownCondition. simpl. rewrite (wf_replicas _ _ Hwf), Hd. fold actual.
    by destruct (desired <? actual).
  - eapply decided_by_ext; [|exact Hready]. intros m. by apply listed_elem.
  - eapply decided_by_ext; [|exact Hutd]. intros m. by apply listed_elem.
  - rewrite Hrem. simpl. by rewrite FromMachineList_FromMachines, FromMachines_nonempty.
  - unfold md_deletingCondition. simpl. by destruct (IsZero _).
  - intros t Hni. rewrite sets_other; [|done|by rewrite Ht].
    unfold v1beta2_Get. simpl. unfold md_GetV1Beta2Conditions. simpl.
    by destruct (mdt_V1Beta2 (md_Status md)).
Qed.

(** ** Counting through two controllers *)

(** [ms'] is a MachineSet whose status the MachineSet controller computed from the machines
    of [s]. *)
Definition counted_from `{MetaConditions, Flect, GoRange, GoSort} (s : ms_scope) (ms' : MachineSet) :
    Prop :=
  sc_getAndAdoptMachinesForMachineSetSucceeded s = true ∧
  ∃ now ms, ms_updateStatus now s ms = Ok ms'.

Lemma true_count_app `{MetaConditions} t a b : true_count t (a ++ b) = true_count t a + true_count t b.
Proof. unfold true_count. rewrite filter_app, length_app. lia. Qed.

Section end_to_end.
Context `{Apimachinery, MetaConditions, Flect, GoRange, GoSort}.

Lemma counted_total scopes mss :
  Forall2 counted_from scopes mss → mss ≠ [] →
  Z.of_nat (length (mjoin (sc_machines <$> scopes))) ≤ int32_max →
  GetV1Beta2AvailableReplicaCountForMachineSets (Some <$> mss) =
    Some (true_count AvailableV1Beta2Condition (mjoin (sc_machines <$> scopes))).
Proof.
  intros Hf Hne Hmax.
  assert (∃ f, Forall (λ ms, (mst_V1Beta2 (ms_Status ms) ≫= msv_AvailableReplicas) = Some (f ms)) mss ∧
    sumZ f mss = true_count AvailableV1Beta2Condition (mjoin (sc_machines <$> scopes))) as (f & Hall & Hsum).
  { exists (λ ms, default 0 (mst_V1Beta2 (ms_Status ms) ≫= msv_AvailableReplicas)). clear Hne.
    induction Hf as [|s ms scopes mss (Es & now & ms0 & E) Hf IH]; [done|].
    rewrite fmap_cons in *. simpl in *. rewrite length_app in Hmax.
    apply ms_updateStatus_counters in E; [|done|lia]. destruct IH as [IHf IHs]; [lia|].
    assert ((mst_V1Beta2 (ms_Status ms) ≫= msv_AvailableReplicas) =
      Some (true_count AvailableV1Beta2Condition (sc_machines s))) as Ea.
    { unfold v1beta2_counters in E. destruct (mst_V1Beta2 (ms_Status ms)); [|done]. simpl. by injection E as _ -> _. }
    rewrite Ea, true_count_app. simpl. split; [constructor; [by rewrite Ea|done]|lia]. }
  unfold GetV1Beta2AvailableReplicaCountForMachineSets.
  rewrite (v1beta2_count_sum _ mss f Hne Hall), Hsum. f_equal. apply wrap32_id.
  pose proof (true_count_bounds AvailableV1Beta2Condition (mjoin (sc_machines <$> scopes))).
  unfold in_int32, int32_min. lia.
Qed.

(** The status of a MachineDeployment counts the machines behind its MachineSets: when
    the MachineSet controller computed the status of each MachineSet from its machines, the
    MachineDeployment is reported available exactly when the number of available machines of
    all MachineSets together is at least the desired size minus what the strategy allows to
    be unavailable, whether or not the machines can be listed again. *)
Theorem availability_end_to_end (now : Time) intstrString labelSelectorAsMap listMachines
    (s : md_scope) (md : MachineDeployment) (n : Z) scopes mss listed retErr :
  let machines := mjoin (sc_machines <$> scopes) in
  wf_conditions md → wf_deployment md n → md_refs_present s md →
  dsc_getAndAdoptMachineSetsForDeploymentSucceeded s = true →
  dsc_machineSets s = Some <$> mss → mss ≠ [] → Forall2 counted_from scopes mss →
  Z.of_nat (length machines) ≤ int32_max →
  list_machines labelSelectorAsMap listMachines md = Ok (listed, retErr) →
  ∃ md' unavailable,
    md_updateStatus intstrString labelSelectorAsMap listMachines now s md = Ok (md', retErr) ∧
    MaxUnavailable md = Ok unavailable ∧
    reported_status md' AvailableV1Beta2Condition = Some (BoolToStatus
      (n - unavailable <=? true_count AvailableV1Beta2Condition machines)).
Proof.
  intros machines Hc Hwf Hrefs Es Emss Hne Hf Hmax El.
  destruct (md_updateStatus_run intstrString _ _ now s md n _ _ Es Hwf Hrefs El)
    as (av & u & up & ready & utd & rem & E & Ht & Hu & Hav & _).
  eexists _, u. split; [exact E|]. split; [done|].
  rewrite (sets_owned now _ _ 0%nat av AvailableV1Beta2Condition
    (setReplicas_wf md (dsc_machineSets s) Hc) Ht eq_refl eq_refl), Hav.
  unfold md_available. by rewrite Emss, (counted_total scopes).
Qed.
End end_to_end.

(** ** Examples *)

Definition status_md : MachineDeployment :=
  {| md_TypeMeta := emptyTypeMeta; md_Meta := emptyMeta; md_Spec := md_spec_of 3 (FromInt 1) (FromInt 1);
     md_Status := emptyMDStatus |}.

Lemma status_md_wf : wf_deployment status_md 3.
Proof.
  split; [done|unfold int32_max; lia|]. eexists. split; [done|]. left. split; [done|].
  eexists. split; [done|]. simpl. unfold int32_max. lia.
Qed.

Definition available_machine (name : string) : Machine :=
  machine_named name [condition_of "Available" "True" "Available" ""].

Definition fleet_scope : ms_scope := scope_of [available_machine "a"; available_machine "b"] true.

Definition fleet_ms : MachineSet :=
  match ms_updateStatus 7 fleet_scope (ms_of 2) with Ok ms => ms | _ => inhabitant end.

Definition fleet_md_scope : md_scope :=
  {| dsc_machineSets := [Some fleet_ms]; dsc_bootstrapTemplateNotFound := false;
     dsc_infrastructureTemplateNotFound := false;
     dsc_getAndAdoptMachineSetsForDeploymentSucceeded := true |}.

Lemma md_updateStatus_reports_witness :
  ∃ md', md_updateStatus (λ _, ""%string) (λ _, Ok ∅) (λ _ _, Ok [available_machine "a"]) 9
      fleet_md_scope status_md = Ok (md', None) ∧
    reported_status md' ScalingUpV1Beta2Condition = Some ConditionTrue.
Proof.
  destruct (md_updateStatus_reports 9 (λ _, ""%string) (λ _, Ok ∅) (λ _ _, Ok [available_machine "a"])
    fleet_md_scope status_md 3 ∅ [available_machine "a"])
    as (md' & u & ready & utd & E & _ & _ & Hup & _);
    [constructor|apply status_md_wf|done|done|done|done|apply NoDup_singleton|].
  exists md'. split; [exact E|]. rewrite Hup. vm_compute. reflexivity.
Defined.

Lemma availability_end_to_end_witness :
  ∃ md', md_updateStatus (λ _, ""%string) (λ _, Ok ∅) (λ _ _, Err (Errorf "timeout")) 9
      fleet_md_scope status_md = Ok (md', Some (Wrap "failed to list machines" (Errorf "timeout"))) ∧
    reported_status md' AvailableV1Beta2Condition = Some ConditionTrue.
Proof.
  destruct (availability_end_to_end 9 (λ _, ""%string) (λ _, Ok ∅) (λ _ _, Err (Errorf "timeout"))
    fleet_md_scope status_md 3 [fleet_scope] [fleet_ms] None
    (Some (Wrap "failed to list machines" (Errorf "timeout")))) as (md' & u & E & Hu & Ha);
    [constructor|apply status_md_wf|done|done|done|done| |by vm_compute|done|].
  - constructor; [|constructor]. split; [done|]. exists 7, (ms_of 2). vm_compute. reflexivity.
  - exists md'. split; [exact E|]. rewrite Ha. vm_compute in Hu. injection Hu as <-. vm_compute. reflexivity.
Defined.
