(* ===== verification/ConditionsUnstructured.v ===== *)
(** * Conditions of unstructured objects (util/conditions/v1beta2/getter.go, mirror.go)

    Provider objects are read as maps of Go values of dynamic type; [uvalue] has the types
    such a value may have, and a failed type assertion panics.  Walking the map and parsing
    a time belong to apimachinery: the class [UnstructuredContent]. *)

From Stdlib Require Import Floats.SpecFloat.
From S2P Require Import Prelude GoStd Api ConditionsV1Beta2 ConditionsMerge.

(** ** Values *)

Inductive uvalue :=
| UNil
| UBool (b : bool)
| UInt64 (z : Z)
| UFloat64 (f : spec_float)
| UString (s : string)
| USlice (l : list uvalue)
| UMap (m : option (list (string * uvalue))).

(** [m[k]]; the keys of a map are distinct, and a nil map has none. *)
Definition map_get (m : list (string * uvalue)) (k : string) : option uvalue :=
  snd <$> find (λ kv, String.eqb (fst kv) k) m.

Record UnstructuredObject := {
  u_Kind : string;
  u_Name : string;
  u_Content : list (string * uvalue);
}.

#[global] Instance UnstructuredObject_ConditionOwner : ConditionOwner UnstructuredObject := {
  owner_kind o := Some (u_Kind o);
  owner_type_name := "Unstructured";
  owner_name o := Some (u_Name o);
}.

(** The value a path of fields leads to, through maps only. *)
Fixpoint value_at (v : uvalue) (fields : list string) : option uvalue :=
  match fields with
  | [] => Some v
  | field :: fields =>
      match v with
      | UMap (Some m) => map_get m field ≫= λ v, value_at v fields
      | _ => None
      end
  end.

(** RFC 3339 has years of four digits. *)
Definition max_time : Time := 9998 * 365 * 24 * Hour.

(** [NestedFieldNoCopy] returns a value, whether it was found, and an error when the path
    leads through something that is not a map. [FormatTime] is the RFC 3339 text of a time. *)
Class UnstructuredContent := {
  NestedFieldNoCopy : list (string * uvalue) → list string → uvalue * bool * option error;
  UnmarshalQueryParameter : string → result Time;
  FormatTime : Time → string;
  NestedFieldNoCopy_found : ∀ m fields v,
    NestedFieldNoCopy m fields = (v, true, None) ↔ value_at (UMap (Some m)) fields = Some v;
  UnmarshalQueryParameter_Format : ∀ t, t mod Second = 0 → 0 < t < max_time →
    FormatTime t ≠ ""%string ∧ UnmarshalQueryParameter (FormatTime t) = Ok t;
  UnmarshalQueryParameter_total : ∀ s, UnmarshalQueryParameter s ≠ Panic;
}.

(** ** Conversion *)

Definition NoReasonReported : string := "NoReasonReported".

(** [v.(string)] and [v.(int64)]. *)
Definition as_string (v : uvalue) : result string := match v with UString s => Ok s | _ => Panic end.
Definition as_int64 (v : uvalue) : result Z := match v with UInt64 z => Ok z | _ => Panic end.

Definition string_field (cMap : list (string * uvalue)) (k : string) : result string :=
  match map_get cMap k with Some v => as_string v | None => Ok ""%string end.

Definition int64_field (cMap : list (string * uvalue)) (k : string) : result Z :=
  match map_get cMap k with Some v => as_int64 v | None => Ok 0 end.

Definition valid_status (status : string) : bool :=
  String.eqb status ConditionFalse || String.eqb status ConditionTrue
  || String.eqb status ConditionUnknown.

Definition validateAndFixConvertedCondition (c : MetaCondition) : result MetaCondition :=
  if String.eqb (mc_Type c) "" then Err (Errorf "type must be set for all conditions")
  else if String.eqb (mc_Status c) ""
  then Err (Errorf ("status must be set for the " +:+ mc_Type c +:+ " condition"))
  else if negb (valid_status (mc_Status c))
  then Err (Errorf ("status for the " +:+ mc_Type c +:+ " condition must be one of "
                    +:+ ConditionTrue +:+ ", " +:+ ConditionFalse +:+ ", " +:+ ConditionUnknown))
  else if String.eqb (mc_Reason c) ""
  then Ok {| mc_Type := mc_Type c; mc_Status := mc_Status c;
             mc_ObservedGeneration := mc_ObservedGeneration c;
             mc_LastTransitionTime := mc_LastTransitionTime c; mc_Reason := NoReasonReported;
             mc_Message := mc_Message c |}
  else Ok c.

Section conversion.
Context `{UnstructuredContent}.

Definition time_field (cMap : list (string * uvalue)) : result Time :=
  match map_get cMap "lastTransitionTime" with
  | None | Some UNil => Ok zero_time
  | Some v =>
      s ← as_string v;
      if String.eqb s "" then Ok zero_time
      else
        match UnmarshalQueryParameter s with
        | Ok t => Ok t
        | Err e => Err (Wrap ("failed to unmarshal lastTransitionTime value: " +:+ s) e)
        | Panic => Panic
        end
  end.

Definition convert_condition (cMap : list (string * uvalue)) : result MetaCondition :=
  conditionType ← string_field cMap "type";
  status ← string_field cMap "status";
  observedGeneration ← int64_field cMap "observedGeneration";
  lastTransitionTime ← time_field cMap;
  reason ← string_field cMap "reason";
  message ← string_field cMap "message";
  validateAndFixConvertedCondition
    {| mc_Type := conditionType; mc_Status := status; mc_ObservedGeneration := observedGeneration;
       mc_LastTransitionTime := lastTransitionTime; mc_Reason := reason; mc_Message := message |}.

(** What is not a map, and the nil map, is skipped. *)
Fixpoint convertFromUnstructuredConditions (conditions : list uvalue) : result (list MetaCondition) :=
  match conditions with
  | [] => Ok []
  | UMap (Some cMap) :: rest =>
      c ← convert_condition cMap;
      convertedConditions ← convertFromUnstructuredConditions rest;
      Ok (c :: convertedConditions)
  | _ :: rest => convertFromUnstructuredConditions rest
  end.

(** The slice under a path, when there is one. *)
Definition slice_at (content : list (string * uvalue)) (fields : list string) : option (list uvalue) :=
  match NestedFieldNoCopy content fields with
  | (USlice conditions, true, None) => Some conditions
  | _ => None
  end.

Definition convert_at (sourceObj : UnstructuredObject) (path : string) (conditions : list uvalue) :
    result (list MetaCondition) :=
  match convertFromUnstructuredConditions conditions with
  | Ok r => Ok r
  | Err e => Err (Wrap ("failed to convert " +:+ path +:+ " from "
                        +:+ co_Kind (getConditionOwnerInfo sourceObj) +:+ " to []metav1.Condition") e)
  | Panic => Panic
  end.

Definition UnstructuredGetAll (sourceObj : option UnstructuredObject) : result (list MetaCondition) :=
  match sourceObj with
  | None => Err (Errorf "sourceObj is nil")
  | Some sourceObj =>
      match slice_at (u_Content sourceObj) ["status"; "v1beta2"; "conditions"]%string with
      | Some conditions => convert_at sourceObj "status.v1beta2.conditions" conditions
      | None =>
          match slice_at (u_Content sourceObj) ["status"; "conditions"]%string with
          | Some conditions => convert_at sourceObj "status.conditions" conditions
          | None => Ok []
          end
      end
  end.

Definition UnstructuredGet `{MetaConditions} (sourceObj : option UnstructuredObject)
    (sourceConditionType : string) : result (option MetaCondition) :=
  r ← UnstructuredGetAll sourceObj;
  Ok (FindStatusCondition r sourceConditionType).

Definition SetMirrorConditionFromUnstructured {T} `{V1Beta2Setter T, MetaConditions}
    (now apiNow : Time) (sourceObj : option UnstructuredObject) (targetObj : T)
    (sourceConditionType : string) (opts : list MirrorOption) : result T :=
  condition ← UnstructuredGet sourceObj sourceConditionType;
  Ok (v1beta2_Set now apiNow targetObj (newMirrorCondition condition sourceConditionType opts)).
End conversion.

(** ** Theory *)

(** A concrete instance, with the nanoseconds of a time as its text. *)
Definition nested_field (m : list (string * uvalue)) (fields : list string) :
    uvalue * bool * option error :=
  match value_at (UMap (Some m)) fields with
  | Some v => (v, true, None)
  | None => (UNil, false, None)
  end.

Definition parse_time (s : string) : result Time :=
  match ParseInt s 128 with
  | (t, None) => Ok t
  | (_, Some _) => Err (Errorf "parsing time")
  end.

#[export] Program Instance concrete_UnstructuredContent : UnstructuredContent | 100 := {
  NestedFieldNoCopy := nested_field;
  UnmarshalQueryParameter := parse_time;
  FormatTime := FormatInt;
}.
Next Obligation.
  intros m fields v. unfold nested_field. destruct (value_at _ _) as [w|]; naive_solver.
Qed.
Next Obligation.
  intros t _ Ht. split.
  - unfold FormatInt. destruct (Z.ltb_spec t 0); [done|].
    destruct (FormatUint_cons t) as (c & s & ->). done.
  - unfold parse_time. rewrite ParseInt_FormatInt; [done| |]; unfold max_time, Hour, Minute, Second in *; lia.
Qed.
Next Obligation.
  intros s. unfold parse_time. by destruct (ParseInt s 128) as [? [?|]].
Qed.

(** A condition that may be surfaced on another object. *)
Definition reported_valid (c : MetaCondition) : Prop :=
  mc_Type c ≠ ""%string ∧ valid_status (mc_Status c) = true ∧ mc_Reason c ≠ ""%string.

Lemma validate_valid c d : validateAndFixConvertedCondition c = Ok d → reported_valid d.
Proof.
  unfold validateAndFixConvertedCondition, reported_valid.
  destruct (String.eqb_spec (mc_Type c) "") as [|Ht]; [done|].
  destruct (String.eqb_spec (mc_Status c) "") as [|Hs]; [done|].
  destruct (valid_status (mc_Status c)) eqn:Ev; [|done]. simpl.
  by destruct (String.eqb_spec (mc_Reason c) "") as [|Hr]; intros [= <-].
Qed.

Lemma validate_id c : reported_valid c → validateAndFixConvertedCondition c = Ok c.
Proof.
  intros (Ht & Hs & Hr). unfold validateAndFixConvertedCondition. rewrite Hs.
  destruct (String.eqb_spec (mc_Type c) "") as [|_]; [done|].
  destruct (String.eqb_spec (mc_Status c) "") as [E|_]; [by rewrite E in Hs|].
  by destruct (String.eqb_spec (mc_Reason c) "") as [|_].
Qed.

Section theory.
Context `{UnstructuredContent}.

Lemma convert_condition_valid m c : convert_condition m = Ok c → reported_valid c.
Proof.
  unfold convert_condition. destruct (string_field m "type") as [t| |]; [|done|done]; simpl.
  destruct (string_field m "status") as [s| |]; [|done|done]; simpl.
  destruct (int64_field m _) as [g| |]; [|done|done]; simpl.
  destruct (time_field m) as [lt| |]; [|done|done]; simpl.
  destruct (string_field m "reason") as [r| |]; [|done|done]; simpl.
  destruct (string_field m "message") as [msg| |]; [|done|done]; simpl. apply validate_valid.
Qed.

Lemma convert_valid l cs : convertFromUnstructuredConditions l = Ok cs → Forall reported_valid cs.
Proof.
  revert cs. induction l as [|v l IH]; intros cs; simpl; [by intros [= <-]|].
  destruct v as [| | | | | |[m|]]; try apply IH.
  destruct (convert_condition m) as [c| |] eqn:Ec; [|done|done]. simpl.
  destruct (convertFromUnstructuredConditions l) as [ds| |]; [|done|done]. simpl.
  intros [= <-]. constructor; [by eapply convert_condition_valid|by apply IH].
Qed.

Lemma convert_at_valid o p l cs : convert_at o p l = Ok cs → Forall reported_valid cs.
Proof.
  unfold convert_at. destruct (convertFromUnstructuredConditions l) as [ds| |] eqn:E; [|done|done].
  intros [= <-]. by eapply convert_valid.
Qed.

(** Every condition read from a provider object can be surfaced. *)
Lemma UnstructuredGetAll_valid o cs : UnstructuredGetAll o = Ok cs → Forall reported_valid cs.
Proof.
  unfold UnstructuredGetAll. destruct o as [o|]; [|done].
  destruct (slice_at _ _); [apply convert_at_valid|].
  destruct (slice_at _ _); [apply convert_at_valid|]. by intros [= <-].
Qed.

Lemma UnstructuredGet_valid `{MetaConditions} o t c :
  UnstructuredGet o t = Ok (Some c) → reported_valid c ∧ mc_Type c = t.
Proof.
  unfold UnstructuredGet. destruct (UnstructuredGetAll o) as [cs| |] eqn:E; [|done|done]. simpl.
  rewrite FindStatusCondition_first. intros [= [<- Hin]%find_type].
  apply UnstructuredGetAll_valid in E. rewrite Forall_forall in E. auto.
Qed.

(** *** Round trip *)

Definition to_unstructured (c : MetaCondition) : uvalue :=
  UMap (Some [("type", UString (mc_Type c)); ("status", UString (mc_Status c));
    ("observedGeneration", UInt64 (mc_ObservedGeneration c));
    ("lastTransitionTime", UString (FormatTime (mc_LastTransitionTime c)));
    ("reason", UString (mc_Reason c)); ("message", UString (mc_Message c))]%string).

Definition serializable (c : MetaCondition) : Prop :=
  reported_valid c ∧ mc_LastTransitionTime c mod Second = 0 ∧ 0 < mc_LastTransitionTime c < max_time.

Lemma convert_to_unstructured cs :
  Forall serializable cs → convertFromUnstructuredConditions (to_unstructured <$> cs) = Ok cs.
Proof.
  induction 1 as [|c cs (Hv & Hm & Ht) Hcs IH]; [done|]. rewrite fmap_cons. simpl. rewrite IH.
  destruct (UnmarshalQueryParameter_Format (mc_LastTransitionTime c) Hm Ht) as [Hne Hp].
  unfold convert_condition, string_field, int64_field, time_field. simpl.
  destruct (String.eqb_spec (FormatTime (mc_LastTransitionTime c)) "") as [|_]; [done|]. rewrite Hp. simpl.
  destruct c. rewrite validate_id by done. done.
Qed.
End theory.

(** An object that has conditions where contract objects of the newer version have them. *)
Definition object_with `{UnstructuredContent} (kind : string) (cs : list MetaCondition) :
    UnstructuredObject :=
  {| u_Kind := kind; u_Name := "x"; u_Content :=
    [("status", UMap (Some [("v1beta2", UMap (Some [("conditions",
       USlice (to_unstructured <$> cs))]))]))]%string |}.

(** Conditions written into the status of a provider object and read back through the
    unstructured map are the same conditions, provided they are valid and their times are
    whole seconds, which is what the serialized form keeps. *)
Theorem unstructured_roundtrip `{UnstructuredContent} kind cs :
  Forall serializable cs → UnstructuredGetAll (Some (object_with kind cs)) = Ok cs.
Proof.
  intros Hcs. unfold UnstructuredGetAll, slice_at.
  rewrite (proj2 (NestedFieldNoCopy_found _ _ (USlice (to_unstructured <$> cs)))) by done.
  unfold convert_at. by rewrite convert_to_unstructured.
Qed.

Definition example_condition : MetaCondition :=
  {| mc_Type := "Ready"; mc_Status := "True"; mc_ObservedGeneration := 3;
     mc_LastTransitionTime := 60 * Second; mc_Reason := "AllGood"; mc_Message := "" |}.

Lemma unstructured_roundtrip_witness :
  UnstructuredGetAll (Some (object_with "DockerMachine" [example_condition])) = Ok [example_condition].
Proof.
  apply unstructured_roundtrip. constructor; [|constructor]. unfold serializable, reported_valid.
  split_and!; vm_compute; try reflexivity; discriminate.
Defined.

(** A reason that is null in the status of a provider object makes the conversion panic; only
    for the transition time does it treat null like a missing field. *)
Lemma null_reason_panics :
  convertFromUnstructuredConditions [UMap (Some [("type", UString "Ready"); ("status", UString "True");
    ("lastTransitionTime", UNil)]%string)] = Ok [{| mc_Type := "Ready"; mc_Status := "True";
      mc_ObservedGeneration := 0; mc_LastTransitionTime := zero_time; mc_Reason := NoReasonReported;
      mc_Message := "" |}] ∧
  convertFromUnstructuredConditions [UMap (Some [("type", UString "Ready"); ("status", UString "True");
    ("reason", UNil)]%string)] = Panic.
Proof. split; reflexivity. Qed.
