(* ===== verification/MachineConditions.v ===== *)
(** * The status of a Machine (internal/controllers/machine/machine_controller_status.go)

    [machine_updateStatus] mirrors the Ready conditions of the bootstrap and infrastructure
    objects, summarizes the conditions of the Node, and derives Deleting, Ready, Available and
    the phase.  The texts of errors and times, and the test for a lost connection, belong to
    other packages and are arguments.  One reading of the clock stands for the readings within
    one update of the status. *)

From S2P Require Import Prelude GoStd Api Conditions ConditionsV1Beta2 ConditionsMerge.
From S2P Require Import ConditionsUnstructured StatusConditions.

(** ** Types and reasons (api/v1beta1/machine_types.go) *)

Definition BootstrapConfigReadyV1Beta2Condition : string := "BootstrapConfigReady".
Definition InfrastructureReadyV1Beta2Condition : string := "InfrastructureReady".
Definition MachineNodeHealthyV1Beta2Condition : string := "NodeHealthy".
Definition MachineNodeReadyV1Beta2Condition : string := "NodeReady".
Definition HealthCheckSucceededV1Beta2Condition : string := "HealthCheckSucceeded".

Definition MachineBootstrapDataSecretProvidedV1Beta2Reason : string := "DataSecretProvided".
Definition InvalidConditionReportedV1Beta2Reason : string := "InvalidConditionReported".
Definition NoReasonReportedV1Beta2Reason : string := "NoReasonReported".
Definition ObjectDoesNotExistV1Beta2Reason : string := "ObjectDoesNotExist".
Definition ObjectDeletedV1Beta2Reason : string := "ObjectDeleted".
Definition InspectionFailedV1Beta2Reason : string := "InspectionFailed".
Definition ConnectionDownV1Beta2Reason : string := "ConnectionDown".
Definition MachineNodeReadyV1Beta2Reason : string := "NodeReady".
Definition MachineNodeNotReadyV1Beta2Reason : string := "NodeNotReady".
Definition MachineNodeReadyUnknownV1Beta2Reason : string := "NodeReadyUnknown".
Definition MachineNodeHealthyV1Beta2Reason : string := "NodeHealthy".
Definition MachineNodeNotHealthyV1Beta2Reason : string := "NodeNotHealthy".
Definition MachineNodeHealthUnknownV1Beta2Reason : string := "NodeHealthyUnknown".
Definition MachineDeletingV1Beta2Reason : string := "Deleting".
Definition MachineDeletingDrainingNodeV1Beta2Reason : string := "DrainingNode".
Definition MachineDeletingWaitingForVolumeDetachV1Beta2Reason : string := "WaitingForVolumeDetach".
Definition MachineWaitingForMinReadySecondsV1Beta2Reason : string := "WaitingForMinReadySeconds".

(** The fields of a condition of a Node that are read. *)
Record CoreNodeCondition := {
  cnc_Type : string;
  cnc_Status : string;
  cnc_LastTransitionTime : Time;
  cnc_Message : string;
}.

Definition NodeReady : string := "Ready".
Definition NodeMemoryPressure : string := "MemoryPressure".
Definition NodeDiskPressure : string := "DiskPressure".
Definition NodePIDPressure : string := "PIDPressure".

(** ** Conditions of the Node *)

(** The last condition of a type: the loops of the code keep the last match. *)
Definition last_of_type (t : string) (cs : list CoreNodeCondition) : option CoreNodeCondition :=
  last (filter (λ c, cnc_Type c = t) cs).

Definition nodeReadyCondition (cs : list CoreNodeCondition) : MetaCondition :=
  match last_of_type NodeReady cs with
  | Some condition =>
      let message := if String.eqb (cnc_Message condition) "" then ""%string
                     else "* Node.Ready: " +:+ cnc_Message condition in
      let reason := if String.eqb (cnc_Status condition) ConditionFalse
                    then MachineNodeNotReadyV1Beta2Reason
                    else if String.eqb (cnc_Status condition) ConditionUnknown
                    then MachineNodeReadyUnknownV1Beta2Reason
                    else if String.eqb (cnc_Status condition) ConditionTrue
                    then MachineNodeReadyV1Beta2Reason else ""%string in
      {| mc_Type := MachineNodeReadyV1Beta2Condition; mc_Status := cnc_Status condition;
         mc_ObservedGeneration := 0; mc_LastTransitionTime := cnc_LastTransitionTime condition;
         mc_Reason := reason; mc_Message := message |}
  | None => new_condition MachineNodeReadyV1Beta2Condition
      (ConditionUnknown, MachineNodeReadyUnknownV1Beta2Reason,
       "* Node.Ready: Condition not yet reported"%string)
  end.

(** The counters of statuses that are semantically false and unknown, and the messages. *)
Definition summarize_node_type (cs : list CoreNodeCondition) (acc : nat * nat * list string)
    (conditionType : string) : nat * nat * list string :=
  let '(semanticallyFalse, unknown, messages) := acc in
  match last_of_type conditionType cs with
  | None => (semanticallyFalse, S unknown,
             messages ++ ["* Node." +:+ conditionType +:+ ": Condition not yet reported"]%string)
  | Some condition =>
      let good := if String.eqb conditionType NodeReady then ConditionTrue else ConditionFalse in
      if String.eqb (cnc_Status condition) good then acc
      else
        let m := if String.eqb (cnc_Message condition) ""
                 then "Condition is " +:+ cnc_Status condition else cnc_Message condition in
        let messages := messages ++ ["* Node." +:+ cnc_Type condition +:+ ": " +:+ m]%string in
        if String.eqb (cnc_Status condition) ConditionUnknown
        then (semanticallyFalse, S unknown, messages)
        else (S semanticallyFalse, unknown, messages)
  end.

Definition node_types : list string := [NodeReady; NodeMemoryPressure; NodeDiskPressure; NodePIDPressure].

Definition summarizeNodeV1Beta2Conditions (cs : list CoreNodeCondition) : string * string * string :=
  let '(semanticallyFalse, unknown, messages) :=
    foldl (summarize_node_type cs) (0%nat, 0%nat, []) node_types in
  let message := Join messages nl in
  if (0 <? semanticallyFalse)%nat
  then (ConditionFalse, MachineNodeNotHealthyV1Beta2Reason, message)
  else if (0 <? unknown)%nat
  then (ConditionUnknown, MachineNodeHealthUnknownV1Beta2Reason, message)
  else (ConditionTrue, MachineNodeHealthyV1Beta2Reason, ""%string).

Definition maxTime (t1 t2 : Time) : Time := if t2 <? t1 then t1 else t2.

Definition format_bool (b : bool) : string := if b then "true" else "false".

Definition bootstrapConfigReadyFallBackMessage (kind : string) (ready : bool) : string :=
  kind +:+ " status.ready is " +:+ format_bool ready.
Definition infrastructureReadyFallBackMessage (kind : string) (ready : bool) : string :=
  kind +:+ " status.ready is " +:+ format_bool ready.

(** [contract.Bootstrap().ReadyConditionType()] and that of InfrastructureMachine. *)
Definition ReadyConditionType : string := "Ready".

Definition m_deleting (machine : Machine) : bool := negb (IsZero (om_DeletionTimestamp (m_Meta machine))).

(** ** The status functions *)

Section status.
Context `{UnstructuredContent, MetaConditions, Flect, GoRange, GoSort}.
Context (errorString : error → string) (isClusterNotConnected : error → bool)
        (formatRFC3339 : Time → string).

Definition set_state (now : Time) (machine : Machine) (t status reason message : string) : Machine :=
  v1beta2_Set now now machine (new_condition t (status, reason, message)).

(** The mirror of the Ready condition of an external object, or why it cannot be mirrored. *)
Definition mirror_ready (now : Time) (machine : Machine) (obj : UnstructuredObject)
    (target fallback message : string) : result Machine :=
  match SetMirrorConditionFromUnstructured now now (Some obj) machine ReadyConditionType
          [MirrorTargetConditionType target;
           FallbackCondition fallback NoReasonReportedV1Beta2Reason message] with
  | Ok machine => Ok machine
  | Err e => Ok (set_state now machine target ConditionUnknown InvalidConditionReportedV1Beta2Reason
                   (errorString e))
  | Panic => Panic
  end.

Definition internal_error_message : string := "Please check controller logs for errors".

Definition setBootstrapReadyCondition (now : Time) (machine : Machine)
    (bootstrapConfig : option UnstructuredObject) (bootstrapConfigIsNotFound : bool) : result Machine :=
  let t := BootstrapConfigReadyV1Beta2Condition in
  match b_ConfigRef (sp_Bootstrap (m_Spec machine)) with
  | None => Ok (set_state now machine t ConditionTrue MachineBootstrapDataSecretProvidedV1Beta2Reason "")
  | Some configRef =>
      let ready := st_BootstrapReady (m_Status machine) in
      match bootstrapConfig with
      | Some obj => mirror_ready now machine obj t (BoolToStatus ready)
                      (bootstrapConfigReadyFallBackMessage (ref_Kind configRef) ready)
      | None =>
          if negb bootstrapConfigIsNotFound
          then Ok (set_state now machine t ConditionUnknown InternalErrorV1Beta2Reason internal_error_message)
          else if m_deleting machine && ready
          then Ok (set_state now machine t ConditionUnknown ObjectDeletedV1Beta2Reason
                     (ref_Kind configRef +:+ " has been deleted"))
          else Ok (set_state now machine t ConditionUnknown ObjectDoesNotExistV1Beta2Reason
                     (ref_Kind configRef +:+ " does not exist"))
      end
  end.

Definition setInfrastructureReadyCondition (now : Time) (machine : Machine)
    (infraMachine : option UnstructuredObject) (infraMachineIsNotFound : bool) : result Machine :=
  let t := InfrastructureReadyV1Beta2Condition in
  let kind := ref_Kind (sp_InfrastructureRef (m_Spec machine)) in
  let ready := st_InfrastructureReady (m_Status machine) in
  match infraMachine with
  | Some obj => mirror_ready now machine obj t (BoolToStatus ready)
                  (infrastructureReadyFallBackMessage kind ready)
  | None =>
      Ok (if negb infraMachineIsNotFound
          then set_state now machine t ConditionUnknown InternalErrorV1Beta2Reason internal_error_message
          else if m_deleting machine
          then
            if ready
            then set_state now machine t ConditionUnknown ObjectDeletedV1Beta2Reason
                   (kind +:+ " has been deleted")
            else set_state now machine t ConditionUnknown ObjectDoesNotExistV1Beta2Reason
                   (kind +:+ " does not exist")
          else if ready
          then set_state now machine t ConditionFalse ObjectDeletedV1Beta2Reason
                 (kind +:+ " has been deleted while the machine still exists")
          else set_state now machine t ConditionUnknown ObjectDoesNotExistV1Beta2Reason
                 (kind +:+ " does not exist"))
  end.

Definition setNodeConditions (now : Time) (machine : Machine) (status reason msg : string) : Machine :=
  foldl (λ machine t, set_state now machine t status reason msg) machine
    [MachineNodeReadyV1Beta2Condition; MachineNodeHealthyV1Beta2Condition].

Definition lastProbeSuccessMessage (lastProbeSuccessTime : Time) : string :=
  if IsZero (Some lastProbeSuccessTime) then ""
  else "Last successful probe at " +:+ formatRFC3339 lastProbeSuccessTime.

Definition ptr_string (p : option string) : string := default ""%string p.

Definition setNodeHealthyAndReadyConditions (now : Time) (cluster : Cluster) (machine : Machine)
    (node : option (list CoreNodeCondition)) (nodeGetErr : option error)
    (lastProbeSuccessTime : Time) (remoteConditionsGracePeriod : Z) : Machine :=
  let unknown := setNodeConditions now machine ConditionUnknown in
  if negb (clt_InfrastructureReady (cl_Status cluster))
  then unknown InspectionFailedV1Beta2Reason "Waiting for Cluster status.infrastructureReady to be true"
  else
    match Get cluster ControlPlaneInitializedCondition with
    | None => unknown InspectionFailedV1Beta2Reason "Waiting for Cluster control plane to be initialized"
    | Some controlPlaneInitialized =>
        if negb (String.eqb (c_Status controlPlaneInitialized) ConditionTrue)
        then unknown InspectionFailedV1Beta2Reason "Waiting for Cluster control plane to be initialized"
        else if remoteConditionsGracePeriod <?
                  time_Sub now (maxTime lastProbeSuccessTime
                    (c_LastTransitionTime controlPlaneInitialized))
        then unknown ConnectionDownV1Beta2Reason (lastProbeSuccessMessage lastProbeSuccessTime)
        else
          match nodeGetErr, node with
          | Some e, _ =>
              if isClusterNotConnected e
              then if negb (v1beta2_Has machine MachineNodeReadyV1Beta2Condition)
                      || negb (v1beta2_Has machine MachineNodeHealthyV1Beta2Condition)
                   then unknown ConnectionDownV1Beta2Reason (lastProbeSuccessMessage lastProbeSuccessTime)
                   else machine
              else unknown InternalErrorV1Beta2Reason internal_error_message
          | None, Some cs =>
              let machine := v1beta2_Set now now machine (nodeReadyCondition cs) in
              let '(status, reason, message) := summarizeNodeV1Beta2Conditions cs in
              set_state now machine MachineNodeHealthyV1Beta2Condition status reason message
          | None, None =>
              if m_deleting machine
              then
                match st_NodeRef (m_Status machine) with
                | Some ref => unknown ObjectDeletedV1Beta2Reason
                                ("Node " +:+ ref_Name ref +:+ " has been deleted")
                | None => unknown ObjectDoesNotExistV1Beta2Reason "Node does not exist"
                end
              else
                match st_NodeRef (m_Status machine) with
                | Some ref => setNodeConditions now machine ConditionFalse ObjectDeletedV1Beta2Reason
                    ("Node " +:+ ref_Name ref +:+ " has been deleted while the machine still exists")
                | None =>
                    let providerID := ptr_string (sp_ProviderID (m_Spec machine)) in
                    if negb (String.eqb providerID "")
                    then unknown ObjectDoesNotExistV1Beta2Reason
                           ("Waiting for a Node with spec.providerID " +:+ providerID +:+ " to exist")
                    else unknown ObjectDoesNotExistV1Beta2Reason
                           ("Waiting for " +:+ ref_Kind (sp_InfrastructureRef (m_Spec machine))
                            +:+ " to report spec.providerID")
                end
          end
    end.

Definition m_setDeletingCondition (now : Time) (machine : Machine) (reconcileDeleteExecuted : bool)
    (deletingReason deletingMessage : string) : Machine :=
  if negb (m_deleting machine)
  then set_state now machine DeletingV1Beta2Condition ConditionFalse DeletionTimestampNotSetV1Beta2Reason ""
  else if negb reconcileDeleteExecuted then machine
  else set_state now machine DeletingV1Beta2Condition ConditionTrue deletingReason deletingMessage.

(** *** Ready *)

(** A condition of an external object that is known not to exist any more. *)
Definition gone (c : MetaCondition) (t : string) : bool :=
  String.eqb (mc_Type c) t && String.eqb (mc_Status c) ConditionUnknown
  && (String.eqb (mc_Reason c) ObjectDeletedV1Beta2Reason
      || String.eqb (mc_Reason c) ObjectDoesNotExistV1Beta2Reason).

Definition machine_priority (machine : Machine) (negative : list string) (c : MetaCondition) :
    MergePriority :=
  if m_deleting machine
     && (gone c BootstrapConfigReadyV1Beta2Condition || gone c InfrastructureReadyV1Beta2Condition
         || gone c MachineNodeHealthyV1Beta2Condition)
  then InfoMergePriority
  else GetDefaultMergePriorityFunc negative c.

Definition machineConditionCustomMergeStrategy (machine : Machine) (negative : list string) :
    defaultMergeStrategy :=
  DefaultMergeStrategy
    [GetPriorityFunc (Some (machine_priority machine negative));
     ComputeReasonFunc (Some (GetDefaultComputeMergeReasonFunc NotReadyV1Beta2Reason
       ReadyUnknownV1Beta2Reason ReadyV1Beta2Reason))].

Definition machine_owner (machine : Machine) : ConditionOwnerInfo :=
  {| co_Kind := "Machine"; co_Name := m_Name machine |}.

Definition since_more_than_30m (now : Time) (start : option Time) : bool :=
  match start with Some t => 30 * Minute <? time_Sub now t | None => false end.

Definition calculateDeletingConditionForSummary (now : Time) (machine : Machine) :
    ConditionWithOwnerInfo :=
  let deletion := st_Deletion (m_Status machine) in
  let msg :=
    match v1beta2_Get machine DeletingV1Beta2Condition with
    | None => "Machine deletion in progress"%string
    | Some c =>
        let stage := "Machine deletion in progress, stage: " +:+ mc_Reason c in
        if String.eqb (mc_Reason c) MachineDeletingDrainingNodeV1Beta2Reason
           && since_more_than_30m now (deletion ≫= mds_NodeDrainStartTime)
        then stage +:+ " (since more than 30m)"
        else if String.eqb (mc_Reason c) MachineDeletingWaitingForVolumeDetachV1Beta2Reason
                && since_more_than_30m now (deletion ≫= mds_WaitForNodeVolumeDetachStartTime)
        then stage +:+ " (since more than 30m)"
        else stage
    end in
  {| cw_OwnerResource := machine_owner machine;
     cw_Condition := new_condition DeletingV1Beta2Condition
       (ConditionTrue, MachineDeletingV1Beta2Reason, msg) |}.

(** A condition of the machine, without its message when that only repeats the fallback. *)
Definition override_of (machine : Machine) (c : MetaCondition) (drop : bool) : ConditionWithOwnerInfo :=
  {| cw_OwnerResource := machine_owner machine;
     cw_Condition := new_condition (mc_Type c)
       (mc_Status c, mc_Reason c, if drop then ""%string else mc_Message c) |}.

Definition calculateInfrastructureReadyForSummary (machine : Machine) : option ConditionWithOwnerInfo :=
  c ← v1beta2_Get machine InfrastructureReadyV1Beta2Condition;
  let drop := String.eqb (mc_Status c) ConditionTrue
    && String.eqb (mc_Message c) (infrastructureReadyFallBackMessage
         (ref_Kind (sp_InfrastructureRef (m_Spec machine))) (st_InfrastructureReady (m_Status machine))) in
  Some (override_of machine c drop).

Definition calculateBootstrapConfigReadyForSummary (machine : Machine) : option ConditionWithOwnerInfo :=
  c ← v1beta2_Get machine BootstrapConfigReadyV1Beta2Condition;
  let drop :=
    match b_ConfigRef (sp_Bootstrap (m_Spec machine)) with
    | Some configRef => String.eqb (mc_Status c) ConditionTrue
        && String.eqb (mc_Message c) (bootstrapConfigReadyFallBackMessage (ref_Kind configRef)
             (st_BootstrapReady (m_Status machine)))
    | None => false
    end in
  Some (override_of machine c drop).

Definition ready_types (machine : Machine) : list string :=
  [DeletingV1Beta2Condition; BootstrapConfigReadyV1Beta2Condition; InfrastructureReadyV1Beta2Condition;
   MachineNodeHealthyV1Beta2Condition; HealthCheckSucceededV1Beta2Condition]
  ++ (rg_ConditionType <$> sp_ReadinessGates (m_Spec machine)).

Definition ready_overrides (now : Time) (machine : Machine) : list ConditionWithOwnerInfo :=
  (if m_deleting machine then [calculateDeletingConditionForSummary now machine] else [])
  ++ option_list (calculateInfrastructureReadyForSummary machine)
  ++ option_list (calculateBootstrapConfigReadyForSummary machine).

Definition ready_options (now : Time) (machine : Machine) : list SummaryOption :=
  [ForConditionTypes (ready_types machine);
   IgnoreTypesIfMissing [HealthCheckSucceededV1Beta2Condition];
   SummaryMergeStrategy (Merge (machineConditionCustomMergeStrategy machine [DeletingV1Beta2Condition]));
   SummaryNegativePolarity [DeletingV1Beta2Condition]]
  ++ match ready_overrides now machine with [] => [] | overrides => [OverrideConditions overrides] end.

Definition setReadyCondition (now : Time) (machine : Machine) : result Machine :=
  readyCondition ← or_internal_error ReadyV1Beta2Condition
    (NewSummaryCondition machine ReadyV1Beta2Condition (ready_options now machine));
  Ok (v1beta2_Set now now machine readyCondition).

(** *** Available, phase *)

Definition m_setAvailableCondition (now : Time) (machine : Machine) : Machine :=
  let t := AvailableV1Beta2Condition in
  match v1beta2_Get machine ReadyV1Beta2Condition with
  | None => set_state now machine t ConditionUnknown InternalErrorV1Beta2Reason internal_error_message
  | Some readyCondition =>
      if negb (String.eqb (mc_Status readyCondition) ConditionTrue)
      then set_state now machine t ConditionFalse NotReadyV1Beta2Reason ""
      else if 0 <=? time_Sub now (mc_LastTransitionTime readyCondition)
      then set_state now machine t ConditionTrue AvailableV1Beta2Reason ""
      else set_state now machine t ConditionFalse MachineWaitingForMinReadySecondsV1Beta2Reason ""
  end.

Definition m_set_phase (phase : string) (lastUpdated : option Time) (m : Machine) : Machine :=
  let st := m_Status m in
  {| m_TypeMeta := m_TypeMeta m; m_Meta := m_Meta m; m_Spec := m_Spec m; m_Status :=
    {| st_NodeRef := st_NodeRef st; st_NodeInfo := st_NodeInfo st; st_LastUpdated := lastUpdated;
       st_FailureReason := st_FailureReason st; st_FailureMessage := st_FailureMessage st;
       st_Addresses := st_Addresses st; st_Phase := phase;
       st_CertificatesExpiryDate := st_CertificatesExpiryDate st;
       st_BootstrapReady := st_BootstrapReady st; st_InfrastructureReady := st_InfrastructureReady st;
       st_ObservedGeneration := st_ObservedGeneration st; st_Conditions := st_Conditions st;
       st_Deletion := st_Deletion st; st_V1Beta2 := st_V1Beta2 st |} |}.

Definition machine_phase (m : Machine) : string :=
  let st := m_Status m in
  let phase := if String.eqb (st_Phase st) "" then "Pending"%string else st_Phase st in
  let phase := if st_BootstrapReady st && negb (st_InfrastructureReady st)
               then "Provisioning"%string else phase in
  let phase := match sp_ProviderID (m_Spec m) with Some _ => "Provisioned"%string | None => phase end in
  let phase := match st_NodeRef st with
               | Some _ => if st_InfrastructureReady st then "Running"%string else phase
               | None => phase
               end in
  let phase := match st_FailureReason st, st_FailureMessage st with
               | None, None => phase
               | _, _ => "Failed"%string
               end in
  if m_deleting m then "Deleting"%string else phase.

Definition setMachinePhaseAndLastUpdated (now : Time) (m : Machine) : Machine :=
  let phase := machine_phase m in
  m_set_phase phase (if String.eqb phase (st_Phase (m_Status m)) then st_LastUpdated (m_Status m)
                     else Some now) m.

(** The fields of the scope and of the reconciler that the update of the status reads. *)
Record machine_scope := {
  msc_cluster : Cluster;
  msc_infraMachine : option UnstructuredObject;
  msc_infraMachineIsNotFound : bool;
  msc_bootstrapConfig : option UnstructuredObject;
  msc_bootstrapConfigIsNotFound : bool;
  msc_node : option (list CoreNodeCondition);
  msc_nodeGetError : option error;
  msc_reconcileDeleteExecuted : bool;
  msc_deletingReason : string;
  msc_deletingMessage : string;
  msc_lastProbeSuccessTime : Time;
  msc_remoteConditionsGracePeriod : Z;
}.

Definition machine_updateStatus (now : Time) (s : machine_scope) (machine : Machine) : result Machine :=
  machine ← setBootstrapReadyCondition now machine (msc_bootstrapConfig s)
              (msc_bootstrapConfigIsNotFound s);
  machine ← setInfrastructureReadyCondition now machine (msc_infraMachine s)
              (msc_infraMachineIsNotFound s);
  let machine := setNodeHealthyAndReadyConditions now (msc_cluster s) machine (msc_node s)
    (msc_nodeGetError s) (msc_lastProbeSuccessTime s) (msc_remoteConditionsGracePeriod s) in
  let machine := m_setDeletingCondition now machine (msc_reconcileDeleteExecuted s)
    (msc_deletingReason s) (msc_deletingMessage s) in
  machine ← setReadyCondition now machine;
  let machine := m_setAvailableCondition now machine in
  mret (setMachinePhaseAndLastUpdated now machine).
End status.

(** ** Theory *)

(** A condition type is not in a list of literals. *)
Ltac not_listed := let Hin := fresh in intros Hin%(bool_decide_pack _); by vm_compute in Hin.

(** A step of the update changes only conditions of some types. *)
Record touches `{MetaConditions} (ts : list string) (m m' : Machine) : Prop := {
  touches_meta : m_Meta m' = m_Meta m;
  touches_spec : m_Spec m' = m_Spec m;
  touches_wf : wf_conditions m';
  touches_other : ∀ t, t ∉ ts → v1beta2_Get m' t = v1beta2_Get m t;
}.

Section theory.
Context `{UnstructuredContent, MetaConditions, Flect, GoRange, GoSort}.

Lemma touches_refl m : wf_conditions m → touches [] m m.
Proof. by split. Qed.

Lemma touches_trans ts us m1 m2 m3 : touches ts m1 m2 → touches us m2 m3 → touches (ts ++ us) m1 m3.
Proof.
  intros [] []. split; [congruence|congruence|done|]. intros t [Ht Hu]%not_elem_of_app.
  rewrite touches_other1 by done. auto.
Qed.

Lemma touches_weaken ts us m m' : (∀ t, t ∈ ts → t ∈ us) → touches ts m m' → touches us m m'.
Proof. intros Hsub []. split; auto. Qed.

Lemma Set_touches now m c : wf_conditions m → touches [mc_Type c] m (v1beta2_Set now now m c).
Proof.
  intros Hwf.
  assert (m_Meta (v1beta2_Set now now m c) = m_Meta m ∧ m_Spec (v1beta2_Set now now m c) = m_Spec m)
    as [Hm Hs].
  { unfold v1beta2_Set, v1beta2_Set_sorted. destruct (setStatusCondition _ _ _ _) as [cs changed].
    by destruct changed. }
  split; [done|done|by apply v1beta2_Set_wf|]. intros t Ht%not_elem_of_cons.
  apply v1beta2_Set_other; [done|]. apply Ht.
Qed.

Lemma set_touches now m t s r msg : wf_conditions m → touches [t] m (set_state now m t s r msg).
Proof. apply (Set_touches now m (new_condition t (s, r, msg))). Qed.

Lemma set_reported now m t s r msg :
  wf_conditions m → reported (set_state now m t s r msg) t = Some (s, r, msg).
Proof.
  intros Hwf. unfold set_state.
  by rewrite (v1beta2_Set_reports now now m (new_condition t (s, r, msg)) Hwf).
Qed.

Context (errorString : error → string) (isClusterNotConnected : error → bool)
        (formatRFC3339 : Time → string).

Lemma newMirrorCondition_type c t opts :
  mc_Type (newMirrorCondition c t opts) =
    mi_targetConditionType (foldl ApplyToMirror {| mi_targetConditionType := t;
      mi_fallbackStatus := ""; mi_fallbackReason := ""; mi_fallbackMessage := "" |} opts).
Proof. unfold newMirrorCondition. repeat case_match; done. Qed.

Lemma mirror_touches now m obj t fb msg m' :
  wf_conditions m → mirror_ready errorString now m obj t fb msg = Ok m' →
  touches [t] m m' ∧ is_Some (v1beta2_Get m' t).
Proof.
  intros Hwf. unfold mirror_ready, SetMirrorConditionFromUnstructured.
  destruct (UnstructuredGet _ _) as [c|e|]; [| |done]; simpl; intros [= <-].
  - set (d := newMirrorCondition _ _ _). assert (mc_Type d = t) as Ht by (unfold d; by rewrite newMirrorCondition_type).
    pose proof (Set_touches now m d Hwf) as Hs. pose proof (v1beta2_Set_reports now now m d Hwf) as Hr.
    rewrite Ht in Hs, Hr. split; [done|]. unfold reported in Hr. by apply fmap_Some in Hr as (x & -> & _).
  - split; [by apply set_touches|].
    pose proof (set_reported now m t ConditionUnknown InvalidConditionReportedV1Beta2Reason
      (errorString e) Hwf) as Hr. unfold reported in Hr. by apply fmap_Some in Hr as (x & -> & _).
Qed.

Lemma set_touches_some now m t s r msg :
  wf_conditions m → touches [t] m (set_state now m t s r msg) ∧
    is_Some (v1beta2_Get (set_state now m t s r msg) t).
Proof.
  intros Hwf. split; [by apply set_touches|]. pose proof (set_reported now m t s r msg Hwf) as Hr.
  unfold reported in Hr. by apply fmap_Some in Hr as (x & -> & _).
Qed.

Lemma bootstrap_touches now m cfg nf m' :
  wf_conditions m → setBootstrapReadyCondition errorString now m cfg nf = Ok m' →
  touches [BootstrapConfigReadyV1Beta2Condition] m m' ∧
    is_Some (v1beta2_Get m' BootstrapConfigReadyV1Beta2Condition).
Proof.
  intros Hwf. unfold setBootstrapReadyCondition.
  destruct (b_ConfigRef _) as [ref|]; [|intros [= <-]; by apply set_touches_some].
  destruct cfg as [obj|]; [by apply mirror_touches|].
  repeat case_match; intros [= <-]; by apply set_touches_some.
Qed.

Lemma infrastructure_touches now m infra nf m' :
  wf_conditions m → setInfrastructureReadyCondition errorString now m infra nf = Ok m' →
  touches [InfrastructureReadyV1Beta2Condition] m m' ∧
    is_Some (v1beta2_Get m' InfrastructureReadyV1Beta2Condition).
Proof.
  intros Hwf. unfold setInfrastructureReadyCondition.
  destruct infra as [obj|]; [by apply mirror_touches|]. intros [= <-].
  repeat case_match; by apply set_touches_some.
Qed.

Definition node_owned : list string := [MachineNodeReadyV1Beta2Condition; MachineNodeHealthyV1Beta2Condition].

(** Only the two conditions of the Node change, and both are set. *)
Definition node_set (m m' : Machine) : Prop :=
  touches node_owned m m' ∧ ∀ t, t ∈ node_owned → is_Some (v1beta2_Get m' t).

Lemma two_sets now m c d :
  wf_conditions m → mc_Type c = MachineNodeReadyV1Beta2Condition →
  mc_Type d = MachineNodeHealthyV1Beta2Condition →
  node_set m (v1beta2_Set now now (v1beta2_Set now now m c) d).
Proof.
  intros Hwf Hc Hd. pose proof (Set_touches now m c Hwf) as Ha.
  pose proof (Set_touches now _ d (touches_wf _ _ _ Ha)) as Hb. split.
  - eapply touches_weaken, touches_trans; [|exact Ha|exact Hb]. rewrite Hc, Hd. done.
  - intros t Ht.
    assert (is_Some (reported (v1beta2_Set now now (v1beta2_Set now now m c) d) t)) as [x Hr].
    { rewrite reported_Set by apply Ha. case_decide as E; [done|].
      rewrite reported_Set by done. rewrite decide_True; [done|].
      rewrite Hc. apply elem_of_cons in Ht as [->|Ht%list_elem_of_singleton]; [done|]. congruence. }
    unfold reported in Hr. by apply fmap_Some in Hr as (y & -> & _).
Qed.

Lemma setNodeConditions_set now m s r msg : wf_conditions m → node_set m (setNodeConditions now m s r msg).
Proof. intros Hwf. by apply two_sets. Qed.

Lemma nodeReadyCondition_type cs : mc_Type (nodeReadyCondition cs) = MachineNodeReadyV1Beta2Condition.
Proof. unfold nodeReadyCondition. by case_match. Qed.

Lemma node_touches now cl m node e probe grace :
  wf_conditions m →
  node_set m (setNodeHealthyAndReadyConditions isClusterNotConnected formatRFC3339 now cl m node e probe grace).
Proof.
  intros Hwf. unfold setNodeHealthyAndReadyConditions.
  destruct (negb _); [by apply setNodeConditions_set|].
  destruct (Get cl _) as [cp|]; [|by apply setNodeConditions_set].
  destruct (negb _); [by apply setNodeConditions_set|].
  destruct (_ <? _); [by apply setNodeConditions_set|].
  destruct e as [e|].
  - destruct (isClusterNotConnected e); [|by apply setNodeConditions_set].
    destruct (v1beta2_Has m MachineNodeReadyV1Beta2Condition) eqn:Er; [|by apply setNodeConditions_set].
    destruct (v1beta2_Has m MachineNodeHealthyV1Beta2Condition) eqn:Eh; [|by apply setNodeConditions_set].
    apply bool_decide_eq_true in Er, Eh. split; [by apply (touches_weaken []); [set_solver|apply touches_refl]|].
    intros t [->|Ht%list_elem_of_singleton]%elem_of_cons; [done|by subst].
  - destruct node as [cs|].
    + destruct (summarizeNodeV1Beta2Conditions cs) as [[s r] msg].
      by apply two_sets; [|apply nodeReadyCondition_type|].
    + repeat case_match; by apply setNodeConditions_set.
Qed.
End theory.

(** *** The summary of Ready *)

Section ready.
Context `{MetaConditions}.

Lemma Get_type (m : Machine) t c : v1beta2_Get m t = Some c → mc_Type c = t.
Proof. unfold v1beta2_Get. rewrite FindStatusCondition_first. by intros [? _]%find_type. Qed.

Lemma Get_in_types (m : Machine) t c : v1beta2_Get m t = Some c → t ∈ types (GetV1Beta2Conditions m).
Proof.
  unfold v1beta2_Get, types. rewrite FindStatusCondition_first. intros [<- Hin]%find_type.
  by apply list_elem_of_fmap_2.
Qed.

Lemma elem_of_ready_overrides now m c :
  c ∈ ready_overrides now m →
  m_deleting m = true ∧ c = calculateDeletingConditionForSummary now m ∨
  ∃ d drop, v1beta2_Get m (mc_Type d) = Some d ∧ c = override_of m d drop.
Proof.
  unfold ready_overrides. rewrite !elem_of_app. intros [Hc|[Hc|Hc]].
  - destruct (m_deleting m); [|by apply not_elem_of_nil in Hc].
    apply list_elem_of_singleton in Hc as ->. by left.
  - right. unfold calculateInfrastructureReadyForSummary in Hc.
    destruct (v1beta2_Get m InfrastructureReadyV1Beta2Condition) as [d|] eqn:E; [|by apply not_elem_of_nil in Hc].
    apply list_elem_of_singleton in Hc as ->. eexists d, _. by rewrite (Get_type m _ d E).
  - right. unfold calculateBootstrapConfigReadyForSummary in Hc.
    destruct (v1beta2_Get m BootstrapConfigReadyV1Beta2Condition) as [d|] eqn:E; [|by apply not_elem_of_nil in Hc].
    apply list_elem_of_singleton in Hc as ->. eexists d, _. by rewrite (Get_type m _ d E).
Qed.

Lemma ready_overrides_NoDup now m : NoDup (cw_Type <$> ready_overrides now m).
Proof.
  unfold ready_overrides, calculateInfrastructureReadyForSummary, calculateBootstrapConfigReadyForSummary.
  destruct (v1beta2_Get m InfrastructureReadyV1Beta2Condition) as [d|] eqn:Ed,
    (v1beta2_Get m BootstrapConfigReadyV1Beta2Condition) as [e|] eqn:Ee, (m_deleting m); simpl;
    unfold cw_Type; simpl; rewrite ?(Get_type m _ d Ed), ?(Get_type m _ e Ee);
    apply (bool_decide_unpack _); by vm_compute.
Qed.

(** When the machine is being deleted the summary needs its Deleting condition. *)
Definition deleting_reported (m : Machine) : Prop :=
  m_deleting m = true → is_Some (v1beta2_Get m DeletingV1Beta2Condition).

#[global] Instance deleting_reported_dec m : Decision (deleting_reported m).
Proof. unfold deleting_reported. apply _. Defined.

Context `{Flect, GoRange, GoSort}.

Lemma ready_options_apply now m :
  SummaryOptions_ApplyOptions (ready_options now m) =
    {| su_mergeStrategy := Some (Merge (machineConditionCustomMergeStrategy m [DeletingV1Beta2Condition]));
       su_conditionTypes := ready_types m;
       su_negativePolarityConditionTypes := [DeletingV1Beta2Condition];
       su_ignoreTypesIfMissing := [HealthCheckSucceededV1Beta2Condition];
       su_overrideConditions := ready_overrides now m |}.
Proof. unfold ready_options. by destruct (ready_overrides now m). Qed.

Lemma ready_overrides_valid now m :
  deleting_reported m ↔ overrides_valid m (SummaryOptions_ApplyOptions (ready_options now m)).
Proof.
  rewrite ready_options_apply. split.
  - intros Hd. split; [apply ready_overrides_NoDup|]. intros c Hc. simpl in Hc.
    apply elem_of_ready_overrides in Hc as [[Hdel ->]|(d & drop & Hg & ->)].
    + destruct (Hd Hdel) as [e He]. by apply (Get_in_types m _ e).
    + by apply (Get_in_types m _ d).
  - intros [_ Hin] Hdel. simpl in Hin.
    assert (calculateDeletingConditionForSummary now m ∈ ready_overrides now m) as Ht%Hin.
    { unfold ready_overrides. rewrite Hdel. left. }
    unfold v1beta2_Get. rewrite FindStatusCondition_first.
    destruct (find _ _) as [e|] eqn:Ef; [done|]. by apply find_type_None in Ef.
Qed.

(** What the summary makes of a type of a machine that is not being deleted: the condition,
    with another message at most. *)
Lemma effective_ready now m t :
  m_deleting m = false →
  let o := SummaryOptions_ApplyOptions (ready_options now m) in
  match effective m o t, v1beta2_Get m t with
  | Some e, Some c => mc_Type e = t ∧ mc_Status e = mc_Status c
  | Some e, None => t ≠ HealthCheckSucceededV1Beta2Condition ∧ mc_Type e = t ∧ mc_Status e = ConditionUnknown
  | None, Some _ => False
  | None, None => t = HealthCheckSucceededV1Beta2Condition
  end.
Proof.
  intros Hdel o. unfold o. rewrite ready_options_apply. unfold effective. simpl.
  destruct (find _ (ready_overrides now m)) as [c|] eqn:Ef.
  - apply find_override_type in Ef as [<- Hin].
    apply elem_of_ready_overrides in Hin as [[? _]|(d & drop & Hg & ->)]; [congruence|].
    change (cw_Type (override_of m d drop)) with (mc_Type d). by rewrite Hg.
  - destruct (v1beta2_Get m t) as [c|] eqn:Eg; [split; [by apply (Get_type m)|done]|].
    case_bool_decide as Hi; [by apply list_elem_of_singleton in Hi|].
    split; [by intros ->; apply Hi, list_elem_of_singleton|done].
Qed.

Lemma machine_priority_proper m negative : proper_priority (machine_priority m negative).
Proof.
  intros c. unfold machine_priority. destruct (_ && _); [by right; right|]. apply default_priority_proper.
Qed.

Lemma machine_priority_info m c :
  m_deleting m = false →
  machine_priority m [DeletingV1Beta2Condition] c = InfoMergePriority ↔
  mc_Status c = if String.eqb (mc_Type c) DeletingV1Beta2Condition then ConditionFalse else ConditionTrue.
Proof.
  intros Hdel. unfold machine_priority. rewrite Hdel. simpl. rewrite default_priority_status.
  assert (bool_decide (mc_Type c ∈ [DeletingV1Beta2Condition]) =
    String.eqb (mc_Type c) DeletingV1Beta2Condition) as ->.
  { apply eq_true_iff_eq. by rewrite bool_decide_eq_true, list_elem_of_singleton, String.eqb_eq. }
  destruct (String.eqb (mc_Type c) DeletingV1Beta2Condition);
    repeat match goal with |- context [String.eqb ?a ?b] => destruct (String.eqb_spec a b) end;
    unfold ConditionTrue, ConditionFalse, IssueMergePriority, UnknownMergePriority, InfoMergePriority in *;
    naive_solver congruence.
Qed.

Lemma worst_status_True f cs :
  proper_priority f → worst_status f true cs = ConditionTrue ↔ ∀ c, c ∈ cs → f c = InfoMergePriority.
Proof.
  intros Hf. unfold worst_status.
  destruct (reports f IssueMergePriority cs) eqn:Ei;
    [|destruct (reports f UnknownMergePriority cs) eqn:Eu].
  - apply reports_elem in Ei as (c & Hc & Ec). split; [done|]. intros Hall.
    specialize (Hall c Hc). by rewrite Ec in Hall.
  - apply reports_elem in Eu as (c & Hc & Ec). split; [done|]. intros Hall.
    specialize (Hall c Hc). by rewrite Ec in Hall.
  - split; [|done]. intros _ c Hc. apply not_true_iff_false in Ei, Eu. rewrite reports_elem in Ei, Eu.
    destruct (Hf c) as [E|[E|E]]; [|..|done]; exfalso; eauto.
Qed.

(** A listed condition does not keep a machine from being ready. *)
Definition ready_ok (m : Machine) (t : string) : bool :=
  if String.eqb t DeletingV1Beta2Condition then v1beta2_IsFalse m t
  else if String.eqb t HealthCheckSucceededV1Beta2Condition
  then negb (v1beta2_Has m t) || v1beta2_IsTrue m t
  else v1beta2_IsTrue m t.

Lemma effective_ok now m t e :
  m_deleting m = false →
  effective m (SummaryOptions_ApplyOptions (ready_options now m)) t = Some e →
  machine_priority m [DeletingV1Beta2Condition] e = InfoMergePriority ↔ ready_ok m t = true.
Proof.
  intros Hdel He. rewrite machine_priority_info by done. pose proof (effective_ready now m t Hdel) as Hr.
  cbn zeta in Hr. rewrite He in Hr. unfold ready_ok, v1beta2_Has, v1beta2_IsTrue, v1beta2_IsFalse.
  destruct (v1beta2_Get m t) as [c|].
  - destruct Hr as [-> ->]. rewrite (bool_decide_eq_true_2 (is_Some (Some c))) by done. simpl.
    destruct (String.eqb t DeletingV1Beta2Condition); [by rewrite bool_decide_eq_true|].
    destruct (String.eqb t HealthCheckSucceededV1Beta2Condition); by rewrite bool_decide_eq_true.
  - destruct Hr as (Hne & -> & ->). destruct (String.eqb_spec t DeletingV1Beta2Condition); [done|].
    by destruct (String.eqb_spec t HealthCheckSucceededV1Beta2Condition).
Qed.

Lemma effective_missing_ok now m t :
  m_deleting m = false →
  effective m (SummaryOptions_ApplyOptions (ready_options now m)) t = None → ready_ok m t = true.
Proof.
  intros Hdel He. pose proof (effective_ready now m t Hdel) as Hr. cbn zeta in Hr. rewrite He in Hr.
  unfold ready_ok, v1beta2_Has. destruct (v1beta2_Get m t) as [c|]; [done|]. by subst.
Qed.

Definition gates (m : Machine) : list string := rg_ConditionType <$> sp_ReadinessGates (m_Spec m).

Lemma ready_summarizable now m :
  summarizable m (SummaryOptions_ApplyOptions (ready_options now m)) ReadyV1Beta2Condition ↔
  (ReadyV1Beta2Condition ∉ gates m) ∧ deleting_reported m.
Proof.
  unfold summarizable. rewrite <- ready_overrides_valid. rewrite ready_options_apply at 1. simpl.
  unfold ready_types. rewrite not_elem_of_app. split; [tauto|]. intros [Hg Hd].
  split_and!; [|done|done|].
  - not_listed.
  - exists MachineNodeHealthyV1Beta2Condition. split; [rewrite ready_options_apply; simpl; set_solver|].
    rewrite ready_options_apply. unfold effective. simpl. destruct (find _ _) as [c|]; [done|].
    by destruct (v1beta2_Get _ _).
Qed.

Lemma deleting_priority now m :
  machine_priority m [DeletingV1Beta2Condition]
    (cw_Condition (calculateDeletingConditionForSummary now m)) = IssueMergePriority.
Proof. unfold machine_priority. rewrite andb_false_r. done. Qed.

(** What Ready is set to. *)
Lemma setReady_spec now m :
  wf_conditions m →
  ∃ c, setReadyCondition now m = Ok (v1beta2_Set now now m c) ∧ mc_Type c = ReadyV1Beta2Condition ∧
    if bool_decide ((ReadyV1Beta2Condition ∉ gates m) ∧ deleting_reported m) then
      if m_deleting m then mc_Status c = ConditionFalse
      else mc_Status c = ConditionTrue ↔ ∀ t, t ∈ ready_types m → ready_ok m t = true
    else state_of c = state_of (internal_error ReadyV1Beta2Condition).
Proof.
  intros Hwf. unfold setReadyCondition. set (f := machine_priority m [DeletingV1Beta2Condition]).
  destruct (summary_cases m ReadyV1Beta2Condition (ready_options now m) Hwf) as [[e E]|Hs].
  - rewrite E. simpl. eexists. split; [done|]. split; [done|].
    rewrite bool_decide_eq_false_2; [done|]. rewrite <- (ready_summarizable now). intros Hs.
    destruct (summary_merge m ReadyV1Beta2Condition (ready_options now m)
      (machineConditionCustomMergeStrategy m [DeletingV1Beta2Condition]) f Hwf) as (? & ? & ? & E' & _);
      [unfold summary_strategy; by rewrite ready_options_apply|done|done|apply machine_priority_proper|done|done|].
    congruence.
  - destruct (summary_merge m ReadyV1Beta2Condition (ready_options now m)
      (machineConditionCustomMergeStrategy m [DeletingV1Beta2Condition]) f Hwf) as (cs & r & msg & E & Hcs);
      [unfold summary_strategy; by rewrite ready_options_apply|done|done|apply machine_priority_proper|done|done|].
    rewrite E. simpl. eexists. split; [done|]. split; [done|].
    rewrite bool_decide_eq_true_2 by by apply (ready_summarizable now). simpl.
    assert (su_conditionTypes (SummaryOptions_ApplyOptions (ready_options now m)) = ready_types m)
      as Htypes by by rewrite ready_options_apply.
    cbn zeta in Hcs. rewrite Htypes in Hcs. destruct (m_deleting m) eqn:Hdel.
    + unfold worst_status. assert (reports f IssueMergePriority cs = true) as ->; [|done].
      apply reports_elem. eexists. split; [|apply (deleting_priority now)]. apply Hcs.
      exists DeletingV1Beta2Condition. split; [left|]. rewrite ready_options_apply. unfold effective. simpl.
      unfold ready_overrides at 1. by rewrite Hdel.
    + rewrite worst_status_True by apply machine_priority_proper. setoid_rewrite Hcs. split.
      * intros Hall t Ht. destruct (effective m (SummaryOptions_ApplyOptions (ready_options now m)) t) as [e|] eqn:Ee.
        -- apply (effective_ok now m t e Hdel Ee). apply Hall. eauto.
        -- by apply (effective_missing_ok now).
      * intros Hall c (t & Ht & Ee). apply (effective_ok now m t c Hdel Ee). auto.
Qed.
End ready.

(** *** The whole update *)

Section update.
Context `{UnstructuredContent, MetaConditions, Flect, GoRange, GoSort}.
Context (errorString : error → string) (isClusterNotConnected : error → bool)
        (formatRFC3339 : Time → string).

Definition observed_types : list string :=
  [BootstrapConfigReadyV1Beta2Condition; InfrastructureReadyV1Beta2Condition;
   MachineNodeReadyV1Beta2Condition; MachineNodeHealthyV1Beta2Condition].

Definition machine_owned : list string :=
  observed_types ++ [DeletingV1Beta2Condition; ReadyV1Beta2Condition; AvailableV1Beta2Condition].

Lemma deleting_touches now m executed reason msg :
  wf_conditions m →
  let m' := m_setDeletingCondition now m executed reason msg in
  touches [DeletingV1Beta2Condition] m m' ∧
  (m_deleting m = false → v1beta2_IsFalse m' DeletingV1Beta2Condition = true) ∧
  (m_deleting m = true → executed = false → m' = m) ∧
  (m_deleting m = false ∨ executed = true → is_Some (v1beta2_Get m' DeletingV1Beta2Condition)).
Proof.
  intros Hwf m'. unfold m', m_setDeletingCondition. destruct (m_deleting m) eqn:Hd; simpl.
  - destruct executed; simpl.
    + destruct (set_touches_some now m DeletingV1Beta2Condition ConditionTrue reason msg Hwf). naive_solver.
    + split; [by apply (touches_weaken []); [set_solver|apply touches_refl]|]. naive_solver.
  - destruct (set_touches_some now m DeletingV1Beta2Condition ConditionFalse
      DeletionTimestampNotSetV1Beta2Reason "" Hwf) as [Ht Hs].
    split_and!; [done| |done|done]. intros _. apply IsFalse_iff.
    pose proof (set_reported now m DeletingV1Beta2Condition ConditionFalse
      DeletionTimestampNotSetV1Beta2Reason "" Hwf) as Hr.
    unfold reported in Hr. apply fmap_Some in Hr as (c & -> & [= ->]). eauto.
Qed.

Lemma m_deleting_touches ts m m' : touches ts m m' → m_deleting m' = m_deleting m.
Proof. intros []. unfold m_deleting. by rewrite touches_meta0. Qed.

(** The machine as it is when Ready is computed. *)
Lemma machine_updateStatus_run now s m m' :
  wf_conditions m →
  machine_updateStatus errorString isClusterNotConnected formatRFC3339 now s m = Ok m' →
  ∃ m4 m5, touches (observed_types ++ [DeletingV1Beta2Condition]) m m4 ∧
    (∀ t, t ∈ observed_types → is_Some (v1beta2_Get m4 t)) ∧
    (m_deleting m = false → v1beta2_IsFalse m4 DeletingV1Beta2Condition = true) ∧
    (m_deleting m = true → msc_reconcileDeleteExecuted s = false →
      v1beta2_Get m4 DeletingV1Beta2Condition = v1beta2_Get m DeletingV1Beta2Condition) ∧
    (m_deleting m = false ∨ msc_reconcileDeleteExecuted s = true →
      is_Some (v1beta2_Get m4 DeletingV1Beta2Condition)) ∧
    (∃ m2, touches [BootstrapConfigReadyV1Beta2Condition; InfrastructureReadyV1Beta2Condition] m m2 ∧
      v1beta2_Get m4 MachineNodeHealthyV1Beta2Condition =
      v1beta2_Get (setNodeHealthyAndReadyConditions isClusterNotConnected formatRFC3339 now
        (msc_cluster s) m2 (msc_node s) (msc_nodeGetError s) (msc_lastProbeSuccessTime s)
        (msc_remoteConditionsGracePeriod s)) MachineNodeHealthyV1Beta2Condition) ∧
    setReadyCondition now m4 = Ok m5 ∧
    m' = setMachinePhaseAndLastUpdated now (m_setAvailableCondition now m5).
Proof.
  intros Hwf. unfold machine_updateStatus.
  destruct (setBootstrapReadyCondition _ _ _ _ _) as [m1| |] eqn:E1; [|done|done]. simpl.
  destruct (bootstrap_touches _ _ _ _ _ _ Hwf E1) as [T1 S1].
  destruct (setInfrastructureReadyCondition _ _ _ _ _) as [m2| |] eqn:E2; [|done|done]. simpl.
  destruct (infrastructure_touches _ _ _ _ _ _ (touches_wf _ _ _ T1) E2) as [T2 S2].
  set (m3 := setNodeHealthyAndReadyConditions _ _ _ _ _ _ _ _ _).
  destruct (node_touches isClusterNotConnected formatRFC3339 now (msc_cluster s) m2 (msc_node s)
    (msc_nodeGetError s) (msc_lastProbeSuccessTime s) (msc_remoteConditionsGracePeriod s)
    (touches_wf _ _ _ T2)) as [T3 S3]. fold m3 in T3, S3.
  pose proof (deleting_touches now m3 (msc_reconcileDeleteExecuted s) (msc_deletingReason s)
    (msc_deletingMessage s) (touches_wf _ _ _ T3)) as (T4 & F4 & N4 & S4).
  set (m4 := m_setDeletingCondition _ _ _ _ _) in *.
  pose proof (touches_trans _ _ _ _ _ T1 (touches_trans _ _ _ _ _ T2 T3)) as T123.
  rewrite (m_deleting_touches _ _ _ T123) in *.
  destruct (setReadyCondition now m4) as [m5| |] eqn:E5; [|done|done]. simpl. intros [= <-].
  exists m4, m5. split_and!; [by eapply touches_weaken, (touches_trans _ _ _ _ _ T123 T4)| |done| |done| |done|done].
  - intros t Ht. rewrite (touches_other _ _ _ T4);
      [|intros ->%list_elem_of_singleton; apply (bool_decide_pack _) in Ht; by vm_compute in Ht].
    unfold observed_types in Ht. destruct (decide (t ∈ node_owned)) as [Hn|Hn]; [by apply S3|].
    rewrite (touches_other _ _ _ T3) by done.
    repeat (apply elem_of_cons in Ht as [->|Ht]; [|]).
    + rewrite (touches_other _ _ _ T2); [done|not_listed].
    + done.
    + by destruct Hn; left.
    + by destruct Hn; right; left.
    + by apply not_elem_of_nil in Ht.
  - intros Hd He. rewrite (N4 Hd He). apply (touches_other _ _ _ T123).
    not_listed.
  - exists m2. split; [apply (touches_trans _ _ _ _ _ T1 T2)|]. apply (touches_other _ _ _ T4).
    not_listed.
Qed.

(** *** The health of the Node *)

Definition node_good (t : string) : string := if String.eqb t NodeReady then ConditionTrue else ConditionFalse.

(** The Node is ready and reports no pressure. *)
Definition node_healthy (cs : list CoreNodeCondition) : bool :=
  forallb (λ t, match last_of_type t cs with
                | Some c => String.eqb (cnc_Status c) (node_good t)
                | None => false
                end) node_types.

Lemma summarize_counts cs l n u ms :
  let '(n', u', _) := foldl (summarize_node_type cs) (n, u, ms) l in
  (n ≤ n')%nat ∧ (u ≤ u')%nat ∧
  ((n' = n ∧ u' = u) ↔ forallb (λ t, match last_of_type t cs with
                                 | Some c => String.eqb (cnc_Status c) (node_good t)
                                 | None => false
                                 end) l = true).
Proof.
  revert n u ms. induction l as [|t l IH]; intros n u ms; [done|]. cbn [foldl forallb].
  unfold summarize_node_type at 2. destruct (last_of_type t cs) as [c|].
  - fold (node_good t). destruct (String.eqb (cnc_Status c) (node_good t)); [apply IH|].
    destruct (String.eqb (cnc_Status c) ConditionUnknown);
      match goal with |- context [foldl (summarize_node_type cs) (?a, ?b, ?d) l] =>
        specialize (IH a b d); destruct (foldl (summarize_node_type cs) (a, b, d) l) as [[n' u'] ?] end;
      simpl; split_and!; lia.
  - match goal with |- context [foldl (summarize_node_type cs) (?a, ?b, ?d) l] =>
      specialize (IH a b d); destruct (foldl (summarize_node_type cs) (a, b, d) l) as [[n' u'] ?] end.
    simpl. split_and!; lia.
Qed.

Lemma summarizeNode_True cs :
  (summarizeNodeV1Beta2Conditions cs).1.1 = ConditionTrue ↔ node_healthy cs = true.
Proof.
  pose proof (summarize_counts cs node_types 0 0 []) as Hs. unfold summarizeNodeV1Beta2Conditions.
  destruct (foldl _ _ _) as [[n u] ms]. destruct Hs as (_ & _ & Hs). fold (node_healthy cs) in Hs.
  rewrite <- Hs. destruct n as [|n], u as [|u]; simpl; split; try done; try lia.
Qed.

(** A healthy Node was seen now, or earlier and the connection was lost since, for less than
    the grace period. *)
Lemma node_healthy_seen now cl m node e probe grace :
  wf_conditions m →
  v1beta2_IsTrue (setNodeHealthyAndReadyConditions isClusterNotConnected formatRFC3339 now cl m node e
    probe grace) MachineNodeHealthyV1Beta2Condition = true →
  (e = None ∧ ∃ cs, node = Some cs ∧ node_healthy cs = true) ∨
  (∃ err cp, e = Some err ∧ isClusterNotConnected err = true ∧
    v1beta2_IsTrue m MachineNodeHealthyV1Beta2Condition = true ∧
    Get cl ControlPlaneInitializedCondition = Some cp ∧
    time_Sub now (maxTime probe (c_LastTransitionTime cp)) ≤ grace).
Proof.
  intros Hwf.
  assert (∀ s r msg, v1beta2_IsTrue (setNodeConditions now m s r msg) MachineNodeHealthyV1Beta2Condition = true
    → s = ConditionTrue) as Hset.
  { intros s r msg (c & Hc & Hs)%IsTrue_iff. unfold setNodeConditions in Hc. simpl in Hc.
    pose proof (set_reported now (set_state now m MachineNodeReadyV1Beta2Condition s r msg)
      MachineNodeHealthyV1Beta2Condition s r msg (touches_wf _ _ _ (set_touches _ _ _ _ _ _ Hwf))) as Hr.
    unfold reported in Hr. rewrite Hc in Hr. injection Hr as <-. done. }
  unfold setNodeHealthyAndReadyConditions.
  destruct (negb _); [by intros ?%Hset|].
  destruct (Get cl _) as [cp|]; [|by intros ?%Hset].
  destruct (negb _); [by intros ?%Hset|].
  destruct (Z.ltb_spec grace (time_Sub now (maxTime probe (c_LastTransitionTime cp)))) as [|Hle];
    [by intros ?%Hset|].
  destruct e as [e|].
  - destruct (isClusterNotConnected e) eqn:Ee; [|by intros ?%Hset].
    destruct (_ || _); [by intros ?%Hset|]. intros Ht. right. eauto 8.
  - destruct node as [cs|].
    + pose proof (summarizeNode_True cs) as Hsum.
      destruct (summarizeNodeV1Beta2Conditions cs) as [[s r] msg]. intros (c & Hc & Hs)%IsTrue_iff.
      pose proof (set_reported now (v1beta2_Set now now m (nodeReadyCondition cs))
        MachineNodeHealthyV1Beta2Condition s r msg (touches_wf _ _ _ (Set_touches _ _ _ Hwf))) as Hr.
      unfold reported in Hr. rewrite Hc in Hr. injection Hr as E _ _. left. split; [done|].
      exists cs. split; [done|]. apply Hsum. simpl. congruence.
    + repeat case_match; by intros ?%Hset.
Qed.

(** *** Available *)

Lemma phase_conditions now m :
  GetV1Beta2Conditions (setMachinePhaseAndLastUpdated now m) = GetV1Beta2Conditions m.
Proof. done. Qed.

Lemma time_Sub_nonneg t u : 0 <= time_Sub t u ↔ u ≤ t.
Proof. unfold time_Sub, int64_min, int64_max. lia. Qed.

Lemma available_spec now m r :
  wf_conditions m → v1beta2_Get m ReadyV1Beta2Condition = Some r →
  let m' := setMachinePhaseAndLastUpdated now (m_setAvailableCondition now m) in
  touches [AvailableV1Beta2Condition] m m' ∧ is_Some (v1beta2_Get m' AvailableV1Beta2Condition) ∧
  (v1beta2_IsTrue m' AvailableV1Beta2Condition = true ↔
    mc_Status r = ConditionTrue ∧ mc_LastTransitionTime r ≤ now).
Proof.
  intros Hwf Hr m'. set (m1 := m_setAvailableCondition now m).
  assert (∀ t, v1beta2_Get m' t = v1beta2_Get m1 t) as Hg by done.
  assert (∃ s reason, m1 = set_state now m AvailableV1Beta2Condition s reason "" ∧
    (s = ConditionTrue ↔ mc_Status r = ConditionTrue ∧ mc_LastTransitionTime r ≤ now))
    as (s & reason & E & Hs).
  { unfold m1, m_setAvailableCondition. rewrite Hr.
    destruct (String.eqb_spec (mc_Status r) ConditionTrue) as [Et|Et]; simpl.
    - destruct (Z.leb_spec 0 (time_Sub now (mc_LastTransitionTime r))) as [Hle|Hlt].
      + apply (proj1 (time_Sub_nonneg _ _)) in Hle. eexists _, _. split; [reflexivity|]. split; [intros _; done|done].
      + eexists _, _. split; [done|]. split; [done|]. intros [_ Hle%(proj2 (time_Sub_nonneg _ _))]. lia.
    - eexists _, _. split; [done|]. split; [done|]. by intros [? _]. }
  destruct (set_touches_some now m AvailableV1Beta2Condition s reason "" Hwf) as [[] Hsome].
  rewrite <- E in *. split; [by split|]. split; [by rewrite Hg|]. rewrite <- Hs.
  pose proof (set_reported now m AvailableV1Beta2Condition s reason "" Hwf) as Hrep.
  rewrite <- E in Hrep. unfold reported in Hrep. apply fmap_Some in Hrep as (c & Hc & [= -> _ _]).
  unfold v1beta2_IsTrue. rewrite Hg, Hc. by rewrite bool_decide_eq_true.
Qed.

(** Everything after the conditions Ready is derived from. *)
Lemma ready_available now m4 m5 m' :
  wf_conditions m4 → setReadyCondition now m4 = Ok m5 →
  m' = setMachinePhaseAndLastUpdated now (m_setAvailableCondition now m5) →
  ∃ c r, touches [ReadyV1Beta2Condition; AvailableV1Beta2Condition] m4 m' ∧
    v1beta2_Get m' ReadyV1Beta2Condition = Some r ∧ is_Some (v1beta2_Get m' AvailableV1Beta2Condition) ∧
    state_of r = state_of c ∧
    (v1beta2_IsTrue m' AvailableV1Beta2Condition = true ↔
      mc_Status r = ConditionTrue ∧ mc_LastTransitionTime r ≤ now) ∧
    if bool_decide ((ReadyV1Beta2Condition ∉ gates m4) ∧ deleting_reported m4) then
      if m_deleting m4 then mc_Status c = ConditionFalse
      else mc_Status c = ConditionTrue ↔ ∀ t, t ∈ ready_types m4 → ready_ok m4 t = true
    else state_of c = state_of (internal_error ReadyV1Beta2Condition).
Proof.
  intros Hwf E5 ->. destruct (setReady_spec now m4 Hwf) as (c & E & Ht & Hc).
  rewrite E in E5. injection E5 as <-. pose proof (Set_touches now m4 c Hwf) as T5.
  pose proof (v1beta2_Set_reports now now m4 c Hwf) as Hr. rewrite Ht in Hr, T5.
  unfold reported in Hr. apply fmap_Some in Hr as (r & Hr & Hst).
  destruct (available_spec now _ r (touches_wf _ _ _ T5) Hr) as (T6 & S6 & A6).
  exists c, r. split_and!; [apply (touches_trans _ _ _ _ _ T5 T6)| |done|done|done|done].
  rewrite (touches_other _ _ _ T6); [done|not_listed].
Qed.

(** A readiness gate holds when the condition it names is True.  Deleting is read the other
    way round and does not hold a machine back that is not in deletion; the health check may
    be missing; and Available is still that of the update before. *)
Definition gate_holds (m m' : Machine) (g : string) : Prop :=
  if decide (g = DeletingV1Beta2Condition) then True
  else if decide (g = HealthCheckSucceededV1Beta2Condition)
  then v1beta2_Has m' g = true → v1beta2_IsTrue m' g = true
  else v1beta2_IsTrue (if decide (g = AvailableV1Beta2Condition) then m else m') g = true.

Lemma gate_holds_ok m m4 m' g :
  touches (observed_types ++ [DeletingV1Beta2Condition]) m m4 →
  touches [ReadyV1Beta2Condition; AvailableV1Beta2Condition] m4 m' →
  v1beta2_IsFalse m4 DeletingV1Beta2Condition = true → g ≠ ReadyV1Beta2Condition →
  gate_holds m m' g ↔ ready_ok m4 g = true.
Proof.
  intros T4 T Hf Hr. unfold gate_holds, ready_ok.
  assert (g ≠ AvailableV1Beta2Condition → v1beta2_Get m' g = v1beta2_Get m4 g) as Hg.
  { intros Ha. apply (touches_other _ _ _ T). rewrite !not_elem_of_cons. auto using not_elem_of_nil. }
  destruct (decide (g = DeletingV1Beta2Condition)) as [->|Hd]; [by rewrite String.eqb_refl|].
  rewrite (proj2 (String.eqb_neq _ _) Hd).
  destruct (decide (g = HealthCheckSucceededV1Beta2Condition)) as [->|Hh].
  - rewrite String.eqb_refl. unfold v1beta2_Has, v1beta2_IsTrue. rewrite Hg by done.
    destruct (bool_decide (is_Some _)); simpl; naive_solver.
  - rewrite (proj2 (String.eqb_neq _ _) Hh). unfold v1beta2_IsTrue. destruct (decide _) as [->|Ha].
    + by rewrite (touches_other _ _ _ T4) by not_listed.
    + by rewrite Hg.
Qed.

Lemma elem_of_ready_types m t :
  t ∈ ready_types m ↔ t = DeletingV1Beta2Condition ∨ t = BootstrapConfigReadyV1Beta2Condition ∨
    t = InfrastructureReadyV1Beta2Condition ∨ t = MachineNodeHealthyV1Beta2Condition ∨
    t = HealthCheckSucceededV1Beta2Condition ∨ t ∈ gates m.
Proof.
  unfold ready_types. fold (gates m). rewrite elem_of_app, !elem_of_cons, elem_of_nil. tauto.
Qed.


Lemma deleting_unavailable (now : Time) (s : machine_scope) (m m' : Machine) :
  wf_conditions m → m_deleting m = true →
  machine_updateStatus errorString isClusterNotConnected formatRFC3339 now s m = Ok m' →
  v1beta2_IsTrue m' ReadyV1Beta2Condition = false ∧
  v1beta2_IsTrue m' AvailableV1Beta2Condition = false.
Proof.
  intros Hwf Hdel E.
  destruct (machine_updateStatus_run _ _ _ _ Hwf E) as (m4 & m5 & T4 & _ & _ & _ & _ & _ & E5 & E').
  destruct (ready_available now m4 m5 m' (touches_wf _ _ _ T4) E5 E') as (c & r & T & Hr & _ & Hst & Ha & Hc).
  rewrite (m_deleting_touches _ _ _ T4), Hdel in Hc. injection Hst as Hst _ _.
  assert (mc_Status r ≠ ConditionTrue) as Hne.
  { rewrite Hst. destruct (bool_decide _); [by rewrite Hc|]. injection Hc as -> _ _. done. }
  split; apply not_true_iff_false.
  - unfold v1beta2_IsTrue. by rewrite Hr, bool_decide_eq_true.
  - rewrite Ha. tauto.
Qed.

(** A machine that is being deleted is never reported ready or available, whatever its
    conditions, its Node and the external objects say. *)
Theorem deleting_machine_unavailable (now : Time) (s : machine_scope) (m m' : Machine) :
  wf_conditions m → m_deleting m = true →
  machine_updateStatus errorString isClusterNotConnected formatRFC3339 now s m = Ok m' →
  v1beta2_IsTrue m' ReadyV1Beta2Condition = false ∧
  v1beta2_IsTrue m' AvailableV1Beta2Condition = false.
Proof. apply deleting_unavailable. Qed.

(** A healthy Node is behind a machine: it was read in this update and is ready without
    pressure, or it was reported healthy before and the connection to its cluster is down for
    no longer than the grace period. *)
Definition node_behind (now : Time) (s : machine_scope) (m : Machine) : Prop :=
  (∃ cs, msc_nodeGetError s = None ∧ msc_node s = Some cs ∧ node_healthy cs = true) ∨
  (∃ e cp, msc_nodeGetError s = Some e ∧ isClusterNotConnected e = true ∧
    v1beta2_IsTrue m MachineNodeHealthyV1Beta2Condition = true ∧
    Get (msc_cluster s) ControlPlaneInitializedCondition = Some cp ∧
    time_Sub now (maxTime (msc_lastProbeSuccessTime s) (c_LastTransitionTime cp)) ≤
      msc_remoteConditionsGracePeriod s).

Lemma ready_node_behind (now : Time) (s : machine_scope) (m m' : Machine) :
  wf_conditions m →
  machine_updateStatus errorString isClusterNotConnected formatRFC3339 now s m = Ok m' →
  v1beta2_IsTrue m' ReadyV1Beta2Condition = true →
  node_behind now s m.
Proof.
  intros Hwf E Hready.
  destruct (machine_updateStatus_run _ _ _ _ Hwf E) as (m4 & m5 & T4 & _ & _ & _ & _ & (m2 & T2 & Hn) & E5 & E').
  destruct (ready_available now m4 m5 m' (touches_wf _ _ _ T4) E5 E') as (c & r & T & Hr & _ & Hst & _ & Hc).
  injection Hst as Hst _ _. apply IsTrue_iff in Hready as (r' & Hr' & Hs). rewrite Hr in Hr'.
  injection Hr' as <-. rewrite Hst in Hs.
  destruct (bool_decide _); [|by injection Hc as E1 _ _; rewrite Hs in E1].
  destruct (m_deleting m4); [by rewrite Hs in Hc|].
  assert (ready_ok m4 MachineNodeHealthyV1Beta2Condition = true) as Hok.
  { apply (proj1 Hc Hs). apply elem_of_app. left. apply (bool_decide_unpack _). by vm_compute. }
  unfold ready_ok, v1beta2_IsTrue in Hok. simpl in Hok. rewrite Hn in Hok.
  destruct (node_healthy_seen _ _ _ _ _ _ _ (touches_wf _ _ _ T2) Hok)
    as [(He & cs & Hcs & Hh)|(e & cp & He & Hc1 & Hold & Hcp & Hg)]; [left; eauto|right].
  exists e, cp. split_and!; [done|done| |done|done].
  unfold v1beta2_IsTrue in Hold |- *. rewrite (touches_other _ _ _ T2) in Hold; [done|not_listed].
Qed.

(** C25: A machine is only reported ready if a healthy Node is behind it: the Node was read in
    this update and is ready without pressure, or it was reported healthy before and the
    connection to its cluster is down for no longer than the grace period. *)
Theorem ready_machine_has_healthy_node (now : Time) (s : machine_scope) (m m' : Machine) :
  wf_conditions m →
  machine_updateStatus errorString isClusterNotConnected formatRFC3339 now s m = Ok m' →
  v1beta2_IsTrue m' ReadyV1Beta2Condition = true →
  node_behind now s m.
Proof. apply ready_node_behind. Qed.

Lemma available_node_behind now s m m' :
  wf_conditions m →
  machine_updateStatus errorString isClusterNotConnected formatRFC3339 now s m = Ok m' →
  v1beta2_IsTrue m' AvailableV1Beta2Condition = true →
  m_deleting m = false ∧ node_behind now s m.
Proof.
  intros Hwf E Ha. split.
  - destruct (m_deleting m) eqn:Hd; [|done].
    destruct (deleting_unavailable now s m m' Hwf Hd E) as [_ Ha']. congruence.
  - apply (ready_node_behind now s m m' Hwf E).
    destruct (machine_updateStatus_run _ _ _ _ Hwf E) as (m4 & m5 & T4 & _ & _ & _ & _ & _ & E5 & E').
    destruct (ready_available now m4 m5 m' (touches_wf _ _ _ T4) E5 E') as (c & r & _ & Hr & _ & _ & Hav & _).
    apply Hav in Ha as [Hs _]. apply IsTrue_iff. eauto.
Qed.

(** Reading the Ready condition of an object does not panic. *)
Definition readable (o : option UnstructuredObject) : Prop :=
  match o with Some _ => UnstructuredGet o ReadyConditionType ≠ Panic | None => True end.

Lemma mirror_total now m obj t fb msg :
  UnstructuredGet (Some obj) ReadyConditionType ≠ Panic →
  ∃ m', mirror_ready errorString now m obj t fb msg = Ok m'.
Proof.
  intros Hp. unfold mirror_ready, SetMirrorConditionFromUnstructured.
  destruct (UnstructuredGet _ _) as [c|e|]; [by eexists|by eexists|done].
Qed.

(** An update of the status of a Machine always finishes when the conditions of the
    external objects can be read; it sets all conditions the controller owns and leaves every
    other condition as it was.  The only condition that may stay unset is Deleting, when the
    deletion was not worked on in this pass. *)
Theorem machine_status_complete (now : Time) (s : machine_scope) (m : Machine) :
  wf_conditions m → readable (msc_bootstrapConfig s) → readable (msc_infraMachine s) →
  ∃ m', machine_updateStatus errorString isClusterNotConnected formatRFC3339 now s m = Ok m' ∧
    wf_conditions m' ∧
    (∀ t, t ∈ observed_types ++ [ReadyV1Beta2Condition; AvailableV1Beta2Condition] →
      is_Some (v1beta2_Get m' t)) ∧
    (m_deleting m = false ∨ msc_reconcileDeleteExecuted s = true →
      is_Some (v1beta2_Get m' DeletingV1Beta2Condition)) ∧
    (∀ t, t ∉ machine_owned → v1beta2_Get m' t = v1beta2_Get m t).
Proof.
  intros Hwf Hb Hi.
  assert (∃ m', machine_updateStatus errorString isClusterNotConnected formatRFC3339 now s m = Ok m') as [m' E].
  { unfold machine_updateStatus.
    assert (∃ m1, setBootstrapReadyCondition errorString now m (msc_bootstrapConfig s)
      (msc_bootstrapConfigIsNotFound s) = Ok m1) as [m1 E1].
    { unfold setBootstrapReadyCondition. destruct (b_ConfigRef _); [|by eexists].
      destruct (msc_bootstrapConfig s); [by apply mirror_total|]. repeat case_match; by eexists. }
    rewrite E1. cbn [mbind result_bind]. apply bootstrap_touches in E1 as [T1 _]; [|done].
    assert (∃ m2, setInfrastructureReadyCondition errorString now m1 (msc_infraMachine s)
      (msc_infraMachineIsNotFound s) = Ok m2) as [m2 E2].
    { unfold setInfrastructureReadyCondition. destruct (msc_infraMachine s); [by apply mirror_total|].
      by eexists. }
    rewrite E2. cbn [mbind result_bind]. apply infrastructure_touches in E2 as [T2 _]; [|apply T1].
    pose proof (node_touches isClusterNotConnected formatRFC3339 now (msc_cluster s) m2 (msc_node s)
      (msc_nodeGetError s) (msc_lastProbeSuccessTime s) (msc_remoteConditionsGracePeriod s)
      (touches_wf _ _ _ T2)) as [T3 _].
    pose proof (deleting_touches now _ (msc_reconcileDeleteExecuted s) (msc_deletingReason s)
      (msc_deletingMessage s) (touches_wf _ _ _ T3)) as [T4 _].
    destruct (setReady_spec now _ (touches_wf _ _ _ T4)) as (c & -> & _). cbn [mbind result_bind]. by eexists. }
  exists m'. split; [done|].
  destruct (machine_updateStatus_run _ _ _ _ Hwf E) as (m4 & m5 & T4 & S4 & _ & _ & D4 & _ & E5 & E').
  destruct (ready_available now m4 m5 m' (touches_wf _ _ _ T4) E5 E') as (c & r & T & Hr & Ha & _ & _ & _).
  split_and!; [apply T| | |].
  - intros t [Ht|Ht]%elem_of_app.
    + rewrite (touches_other _ _ _ T); [by apply S4|]. intros Hin.
      repeat (apply elem_of_cons in Ht as [->|Ht]; [by apply (bool_decide_pack _) in Hin|]).
      by apply not_elem_of_nil in Ht.
    + apply elem_of_cons in Ht as [->|Ht%list_elem_of_singleton]; [by rewrite Hr|by subst].
  - intros Hd. rewrite (touches_other _ _ _ T); [by apply D4|not_listed].
  - intros t Ht. rewrite (touches_other _ _ _ (touches_trans _ _ _ _ _ T4 T)); [done|].
    intros Hin. apply Ht. unfold machine_owned. rewrite <- (assoc_L (++)) in Hin. exact Hin.
Qed.

(** While the deletion of a machine without a Deleting condition is not worked on, Ready
    reports an internal error: the override of Deleting is rejected by the summary, although
    the computation of the override has a message for the missing condition. *)
Lemma missing_deleting_internal_error now s m m' :
  wf_conditions m → m_deleting m = true → msc_reconcileDeleteExecuted s = false →
  v1beta2_Get m DeletingV1Beta2Condition = None →
  machine_updateStatus errorString isClusterNotConnected formatRFC3339 now s m = Ok m' →
  reported m' ReadyV1Beta2Condition =
    Some (ConditionUnknown, InternalErrorV1Beta2Reason, internal_error_message).
Proof.
  intros Hwf Hdel Hex Hno E.
  destruct (machine_updateStatus_run _ _ _ _ Hwf E) as (m4 & m5 & T4 & _ & _ & N4 & _ & _ & E5 & E').
  destruct (ready_available now m4 m5 m' (touches_wf _ _ _ T4) E5 E') as (c & r & T & Hr & _ & Hst & _ & Hc).
  rewrite bool_decide_eq_false_2 in Hc.
  - unfold reported. rewrite Hr. simpl. by rewrite Hst, Hc.
  - intros [_ Hd]. unfold deleting_reported in Hd. rewrite (m_deleting_touches _ _ _ T4), Hdel in Hd.
    destruct (Hd eq_refl) as [d Hd']. by rewrite (N4 Hdel Hex), Hno in Hd'.
Qed.
End update.

(** ** Examples *)

Definition good_node : list CoreNodeCondition :=
  (λ t, {| cnc_Type := t; cnc_Status := node_good t; cnc_LastTransitionTime := Minute;
           cnc_Message := "" |}) <$> node_types.

Definition running_cluster : Cluster :=
  {| cl_TypeMeta := emptyTypeMeta; cl_Meta := emptyMeta; cl_Spec := cl_Spec emptyCluster;
     cl_Status := {| clt_InfrastructureReady := true; clt_ControlPlaneReady := true;
       clt_Conditions := [{| c_Type := ControlPlaneInitializedCondition; c_Status := ConditionTrue;
         c_Severity := ""; c_LastTransitionTime := Minute; c_Reason := ""; c_Message := "" |}];
       clt_V1Beta2 := None |} |}.

Definition running_scope : machine_scope :=
  {| msc_cluster := running_cluster;
     msc_infraMachine := Some (object_with "DockerMachine" [example_condition]);
     msc_infraMachineIsNotFound := false; msc_bootstrapConfig := None;
     msc_bootstrapConfigIsNotFound := false; msc_node := Some good_node; msc_nodeGetError := None;
     msc_reconcileDeleteExecuted := false; msc_deletingReason := ""; msc_deletingMessage := "";
     msc_lastProbeSuccessTime := Hour; msc_remoteConditionsGracePeriod := 5 * Minute |}.

Definition deleted_machine : Machine :=
  {| m_TypeMeta := emptyTypeMeta;
     m_Meta := {| om_Name := "m"; om_Namespace := "default"; om_UID := "m"; om_Generation := 1;
       om_CreationTimestamp := Second; om_DeletionTimestamp := Some Minute; om_Labels := ∅;
       om_Annotations := ∅; om_OwnerReferences := []; om_Finalizers := [] |};
     m_Spec := emptySpec; m_Status := emptyStatus |}.

(** [machine_updateStatus] with constant texts. *)
Definition update_status (now : Time) (s : machine_scope) (m : Machine) : result Machine :=
  machine_updateStatus (λ _, ""%string) (λ _, false) FormatInt now s m.

Definition updated_machine (m : Machine) : Machine :=
  match update_status Hour running_scope m with Ok m' => m' | _ => emptyMachine end.


Lemma ready_machine_has_healthy_node_witness :
  v1beta2_IsTrue (updated_machine emptyMachine) ReadyV1Beta2Condition = true ∧
  ∃ cs, msc_node running_scope = Some cs ∧ node_healthy cs = true.
Proof.
  assert (wf_conditions emptyMachine) as Hwf by constructor.
  assert (machine_updateStatus (λ _, ""%string) (λ _, false) FormatInt Hour running_scope emptyMachine
    = Ok (updated_machine emptyMachine)) as E by (vm_compute; reflexivity).
  assert (v1beta2_IsTrue (updated_machine emptyMachine) ReadyV1Beta2Condition = true) as Hr
    by (vm_compute; reflexivity).
  split; [exact Hr|].
  pose proof (ready_machine_has_healthy_node (λ _, ""%string) (λ _, false) FormatInt Hour running_scope
    emptyMachine (updated_machine emptyMachine) Hwf E Hr) as [(cs & _ & Hcs & Hh)|(e & cp & He & _)];
    [exists cs; split; [exact Hcs|exact Hh]|discriminate He].
Defined.

Lemma deleting_machine_unavailable_witness :
  machine_updateStatus (λ _, ""%string) (λ _, false) FormatInt Hour running_scope deleted_machine
    = Ok (updated_machine deleted_machine) ∧
  v1beta2_IsTrue (updated_machine deleted_machine) ReadyV1Beta2Condition = false.
Proof.
  assert (wf_conditions deleted_machine) as Hwf by constructor.
  assert (machine_updateStatus (λ _, ""%string) (λ _, false) FormatInt Hour running_scope deleted_machine
    = Ok (updated_machine deleted_machine)) as E by (vm_compute; reflexivity).
  split; [exact E|].
  pose proof (deleting_machine_unavailable (λ _, ""%string) (λ _, false) FormatInt Hour running_scope
    deleted_machine (updated_machine deleted_machine) Hwf eq_refl E) as [Hr _]. exact Hr.
Defined.

Lemma machine_status_complete_witness :
  ∃ m', machine_updateStatus (λ _, ""%string) (λ _, false) FormatInt Hour running_scope deleted_machine
      = Ok m' ∧
    is_Some (v1beta2_Get m' AvailableV1Beta2Condition).
Proof.
  destruct (machine_status_complete (λ _, ""%string) (λ _, false) FormatInt Hour running_scope
    deleted_machine) as (m' & E & _ & Hs & _); [constructor|exact I|vm_compute; discriminate|].
  exists m'. split; [exact E|]. apply Hs. apply (bool_decide_unpack _). vm_compute. exact I.
Defined.
