(* ===== verification/StatusEndToEnd.v ===== *)
(** * Availability through three controllers

    The Machine controller reports each machine (MachineConditions), the MachineSet controller
    counts the machines of a MachineSet (MachineSetStatus), and the MachineDeployment
    controller sums the counters of its MachineSets (MachineDeploymentStatus).  The theorem here
    follows a report of availability of the deployment back to the Nodes. *)

From S2P Require Import Prelude GoStd Api Apimachinery Conditions MdUtil MachineDeployment.
From S2P Require Import ConditionsV1Beta2 ConditionsMerge ConditionsUnstructured StatusConditions.
From S2P Require Import MachineSetStatus MachineDeploymentStatus MachineConditions.

Section end_to_end.
Context `{Apimachinery, UnstructuredContent, MetaConditions, Flect, GoRange, GoSort}.
Context (errorString : error → string) (isClusterNotConnected : error → bool)
        (formatRFC3339 : Time → string).

Abbreviation updateStatus := (machine_updateStatus errorString isClusterNotConnected formatRFC3339) (only parsing).

(** The updates of the status of one Machine, the latest first, from its creation on.  A new
    Machine has no NodeHealthy condition; between two updates the Machine may change in any
    way, but the controller alone writes that condition. *)
Inductive history : list (Time * machine_scope) → Machine → Prop :=
  | history_new m :
      wf_conditions m → v1beta2_Get m MachineNodeHealthyV1Beta2Condition = None → history [] m
  | history_change h m m' :
      history h m → wf_conditions m' →
      v1beta2_Get m' MachineNodeHealthyV1Beta2Condition = v1beta2_Get m MachineNodeHealthyV1Beta2Condition →
      history h m'
  | history_update h m m' now s :
      history h m → updateStatus now s m = Ok m' → history ((now, s) :: h) m'.

(** The Node was read and is ready without pressure in one of the updates; in those after it
    the connection to the cluster was down, for no longer than the grace period. *)
Fixpoint node_seen (h : list (Time * machine_scope)) : Prop :=
  match h with
  | [] => False
  | (now, s) :: h =>
      (∃ cs, msc_nodeGetError s = None ∧ msc_node s = Some cs ∧ node_healthy cs = true) ∨
      (∃ e cp, msc_nodeGetError s = Some e ∧ isClusterNotConnected e = true ∧
         Get (msc_cluster s) ControlPlaneInitializedCondition = Some cp ∧
         time_Sub now (maxTime (msc_lastProbeSuccessTime s) (c_LastTransitionTime cp)) ≤
           msc_remoteConditionsGracePeriod s) ∧ node_seen h
  end.

Lemma history_wf h m : history h m → wf_conditions m.
Proof.
  induction 1 as [m Hwf _|h m m' _ _ Hwf _|h m m' now s _ IH E]; [done..|].
  destruct (machine_updateStatus_run _ _ _ _ _ _ _ IH E) as (m4 & m5 & T4 & _ & _ & _ & _ & _ & E5 & E').
  destruct (ready_available now m4 m5 m' (touches_wf _ _ _ T4) E5 E') as (c & r & T & _).
  exact (touches_wf _ _ _ T).
Qed.

(** A Machine whose Node is reported healthy has been seen with a healthy Node. *)
Lemma history_node_seen h m :
  history h m → v1beta2_IsTrue m MachineNodeHealthyV1Beta2Condition = true → node_seen h.
Proof.
  induction 1 as [m _ Hn|h m m' _ IH _ Hn|h m m' now s Hh IH E].
  - unfold v1beta2_IsTrue. by rewrite Hn.
  - unfold v1beta2_IsTrue in *. by rewrite Hn.
  - intros Ht. apply history_wf in Hh as Hwf.
    destruct (machine_updateStatus_run _ _ _ _ _ _ _ Hwf E) as (m4 & m5 & T4 & _ & _ & _ & _ & (m2 & T2 & Hn) & E5 & E').
    destruct (ready_available now m4 m5 m' (touches_wf _ _ _ T4) E5 E') as (c & r & T & _).
    unfold v1beta2_IsTrue in Ht. rewrite (touches_other _ _ _ T), Hn in Ht by not_listed.
    destruct (node_healthy_seen _ _ _ _ _ _ _ _ _ (touches_wf _ _ _ T2) Ht)
      as [(He & cs & Hcs & Hc)|(e & cp & He & Hc & Hold & Hcp & Hg)]; [left; eauto|right].
    split; [by exists e, cp|]. apply IH. unfold v1beta2_IsTrue in Hold |- *.
    by rewrite (touches_other _ _ _ T2) in Hold by not_listed.
Qed.

(** It was not being deleted when its status was last computed, and a healthy Node was seen. *)
Definition backed (m' : Machine) : Prop :=
  ∃ now s h m, history h m ∧ updateStatus now s m = Ok m' ∧ m_deleting m = false ∧
    node_seen ((now, s) :: h).

Lemma available_backed now s h m m' :
  history h m → updateStatus now s m = Ok m' → v1beta2_IsTrue m' AvailableV1Beta2Condition = true → backed m'.
Proof.
  intros Hh E Ha. destruct (available_node_behind _ _ _ now s m m' (history_wf _ _ Hh) E Ha) as [Hd Hb].
  exists now, s, h, m. split_and!; [done..|].
  destruct Hb as [Hb|(e & cp & He & Hc & Hold & Hcp & Hg)]; [by left|right].
  split; [by exists e, cp|]. by eapply history_node_seen.
Qed.

End end_to_end.

(** ** Example *)

Definition live_machine : Machine := updated_machine emptyMachine.

Definition live_scope : ms_scope := scope_of [live_machine] true.

Definition live_ms : MachineSet :=
  match ms_updateStatus Hour live_scope (ms_of 1) with Ok ms => ms | _ => inhabitant end.

Definition live_md : MachineDeployment :=
  {| md_TypeMeta := emptyTypeMeta; md_Meta := emptyMeta; md_Spec := md_spec_of 2 (FromInt 1) (FromInt 1);
     md_Status := emptyMDStatus |}.

Definition live_md_scope : md_scope :=
  {| dsc_machineSets := [Some live_ms]; dsc_bootstrapTemplateNotFound := false;
     dsc_infrastructureTemplateNotFound := false;
     dsc_getAndAdoptMachineSetsForDeploymentSucceeded := true |}.

Definition live_md' : MachineDeployment :=
  match md_updateStatus (λ _, ""%string) (λ _, Ok ∅) (λ _ _, Ok []) Hour live_md_scope live_md with
  | Ok (md, _) => md
  | _ => live_md
  end.

Lemma live_md_wf : wf_deployment live_md 2.
Proof.
  split; [done|unfold int32_max; lia|]. eexists. split; [done|]. left. split; [done|].
  eexists. split; [done|]. simpl. unfold int32_max. lia.
Qed.

Lemma live_counted : Forall2 counted_from [live_scope] [live_ms].
Proof.
  constructor; [|constructor]. split; [done|]. exists Hour, (ms_of 1). vm_compute. reflexivity.
Qed.

