(* ===== verification/MachineSetPolicy.v ===== *)
(** * Policies of the MachineSet controller

    Which Machines a MachineSet deletes first when it scales down
    (machineset_delete_policy.go), and the checks it makes before it creates Machines
    (machineset_preflight.go). *)

From S2P Require Import Prelude GoStd Api Apimachinery Util Conditions Version Collections.
From Stdlib Require Import Ascii.

(** ** float64 arithmetic *)

Definition float64_add (x y : spec_float) : spec_float := SFadd 53 1024 x y.
Definition float64_sub (x y : spec_float) : spec_float := SFsub 53 1024 x y.
Definition float64_mul (x y : spec_float) : spec_float := SFmul 53 1024 x y.

(** [d.Seconds()] of a duration. *)
Definition Seconds (d : Z) : spec_float :=
  float64_add (float64_of_int (Z.quot d Second))
    (float64_div (float64_of_int (Z.rem d Second)) (float64_of_int (10 ^ 9))).

(** ** Delete priorities (machineset_delete_policy.go) *)

Definition deletePriority : Type := spec_float.
Definition deletePriorityFunc : Type := Machine → deletePriority.

Definition mustDelete : deletePriority := float64_of_int 100.
Definition shouldDelete : deletePriority := float64_of_int 75.
Definition betterDelete : deletePriority := float64_of_int 50.
Definition couldDelete : deletePriority := float64_of_int 20.
Definition mustNotDelete : deletePriority := float64_of_int 0.
Definition secondsPerTenDays : spec_float := float64_of_int 864000.

Definition isMachineHealthy (machine : Machine) : bool :=
  let st := m_Status machine in
  match st_NodeRef st with
  | None => false
  | Some _ =>
      if bool_decide (is_Some (st_FailureReason st)) || bool_decide (is_Some (st_FailureMessage st))
      then false
      else if (match Get machine MachineNodeHealthyCondition with
               | Some c => bool_decide (c_Status c = ConditionFalse)
               | None => false
               end) then false
      else if (match Get machine MachineHealthCheckSucceededCondition with
               | Some c => bool_decide (c_Status c = ConditionFalse)
               | None => false
               end) then false
      else true
  end.

Definition is_deleting (machine : Machine) : bool :=
  negb (IsZero (om_DeletionTimestamp (m_Meta machine))).

Definition has_delete_annotation (machine : Machine) : bool :=
  bool_decide (is_Some (om_Annotations (m_Meta machine) !! DeleteMachineAnnotation)).

(** The exponential function of the math package and the clock are parameters.  All
    readings of the clock during one sort are taken to be the same. *)
Section priorities.
Context (math_Exp : spec_float → spec_float) (now : Time).

Definition oldestDeletePriority (machine : Machine) : deletePriority :=
  if is_deleting machine then mustDelete
  else if has_delete_annotation machine then shouldDelete
  else if negb (isMachineHealthy machine) then betterDelete
  else if om_CreationTimestamp (m_Meta machine) =? zero_time then mustNotDelete
  else
    let d := time_Sub now (om_CreationTimestamp (m_Meta machine)) in
    if SFltb (Seconds d) (float64_of_int 0) then mustNotDelete
    else float64_mul betterDelete
           (float64_sub (float64_of_int 1)
              (math_Exp (float64_div (SFopp (Seconds d)) secondsPerTenDays))).

Definition newestDeletePriority (machine : Machine) : deletePriority :=
  if is_deleting machine then mustDelete
  else if has_delete_annotation machine then shouldDelete
  else if negb (isMachineHealthy machine) then betterDelete
  else float64_sub betterDelete (oldestDeletePriority machine).

Definition randomDeletePolicy (machine : Machine) : deletePriority :=
  if is_deleting machine then mustDelete
  else if has_delete_annotation machine then betterDelete
  else if negb (isMachineHealthy machine) then betterDelete
  else couldDelete.

Definition RandomMachineSetDeletePolicy : string := "Random".
Definition NewestMachineSetDeletePolicy : string := "Newest".
Definition OldestMachineSetDeletePolicy : string := "Oldest".

Definition getDeletePriorityFunc (ms : MachineSet) : result deletePriorityFunc :=
  let msdp := mss_DeletePolicy (ms_Spec ms) in
  if String.eqb msdp RandomMachineSetDeletePolicy then Ok randomDeletePolicy
  else if String.eqb msdp NewestMachineSetDeletePolicy then Ok newestDeletePriority
  else if String.eqb msdp OldestMachineSetDeletePolicy then Ok oldestDeletePriority
  else if String.eqb msdp "" then Ok randomDeletePolicy
  else Err (Errorf ("Unsupported delete policy " +:+ msdp
              +:+ ". Must be one of 'Random', 'Newest', or 'Oldest'")).
End priorities.

Definition sortableMachines_Less (priority : deletePriorityFunc) (a b : Machine) : bool :=
  let priorityI := priority a in
  let priorityJ := priority b in
  if SFeqb priorityI priorityJ then string_ltb (m_Name a) (m_Name b)
  else SFltb priorityJ priorityI.

(** The sort is in place: the second component is the caller's slice afterwards. *)
Definition getMachinesToDeletePrioritized `{GoSort} {P} (get : P → Machine)
    (filteredMachines : list P) (diff : Z) (fun_ : deletePriorityFunc) : list P * list P :=
  if Z.of_nat (length filteredMachines) <=? diff then (filteredMachines, filteredMachines)
  else if diff <=? 0 then ([], filteredMachines)
  else
    let sorted := go_sort (λ p q, sortableMachines_Less fun_ (get p) (get q)) filteredMachines in
    (take (Z.to_nat diff) sorted, sorted).

(** ** The control plane contract (internal/contract/controlplane.go)

    The fields of an unstructured control plane object, each found, missing, or of another
    type than expected. *)

Inductive field (A : Type) := Found (a : A) | NotFound | Malformed (e : error).
Arguments Found {A} _.
Arguments NotFound {A}.
Arguments Malformed {A} _.

Record ControlPlaneObject := {
  cp_Kind : string;
  cp_Namespace : string;
  cp_Name : string;
  cp_Version : field string;
  cp_StatusVersion : field string;
  cp_Replicas : field Z;
  cp_StatusReplicas : field Z;
  cp_UpdatedReplicas : field Z;
  cp_ReadyReplicas : field Z;
  cp_UnavailableReplicas : field Z;
}.

Definition ErrFieldNotFound : error := Errorf "field not found".

Definition IsProvisioning (obj : ControlPlaneObject) : result bool :=
  match cp_StatusVersion obj with
  | NotFound => Ok true
  | Malformed e => Err (Wrap "failed to get control plane status version" e)
  | Found statusVersion => Ok (String.eqb statusVersion "")
  end.

Definition parse_error : error := Errorf "semver: parse error".

Definition IsUpgrading `{Semver} (obj : ControlPlaneObject) : result bool :=
  match cp_Version obj with
  | NotFound => Err (Wrap "failed to get control plane spec version" ErrFieldNotFound)
  | Malformed e => Err (Wrap "failed to get control plane spec version" e)
  | Found specVersion =>
      match ParseTolerant specVersion with
      | None => Err (Wrap "failed to parse control plane spec version" parse_error)
      | Some specV =>
          match cp_StatusVersion obj with
          | NotFound => Ok false
          | Malformed e => Err (Wrap "failed to get control plane status version" e)
          | Found statusVersion =>
              match ParseTolerant statusVersion with
              | None => Err (Wrap "failed to parse control plane status version" parse_error)
              | Some statusV => Ok (1 <=? Compare specV statusV [WithBuildTags])
              end
          end
      end
  end.

Definition IsScaling (obj : ControlPlaneObject) : result bool :=
  match cp_Replicas obj with
  | NotFound => Err (Wrap "failed to get control plane spec replicas" ErrFieldNotFound)
  | Malformed e => Err (Wrap "failed to get control plane spec replicas" e)
  | Found desiredReplicas =>
      match cp_StatusReplicas obj with
      | NotFound => Ok true
      | Malformed e => Err (Wrap "failed to get control plane status replicas" e)
      | Found statusReplicas =>
          match cp_UpdatedReplicas obj with
          | NotFound => Ok true
          | Malformed e => Err (Wrap "failed to get control plane status updatedReplicas" e)
          | Found updatedReplicas =>
              match cp_ReadyReplicas obj with
              | NotFound => Ok true
              | Malformed e => Err (Wrap "failed to get control plane status readyReplicas" e)
              | Found readyReplicas =>
                  let scaling unavailableReplicas :=
                    negb (statusReplicas =? desiredReplicas)
                    || negb (updatedReplicas =? desiredReplicas)
                    || negb (readyReplicas =? desiredReplicas) || (0 <? unavailableReplicas) in
                  match cp_UnavailableReplicas obj with
                  | NotFound => Ok (scaling 0)
                  | Malformed e =>
                      Err (Wrap "failed to get control plane status unavailableReplicas" e)
                  | Found unavailableReplicas => Ok (scaling unavailableReplicas)
                  end
              end
          end
      end
  end.

(** ** Preflight checks (machineset_preflight.go) *)

Definition preflightFailedRequeueAfter : Z := 15 * Second.

Definition MachineSetSkipPreflightChecksAnnotation : string :=
  "machineset.cluster.x-k8s.io/skip-preflight-checks".
Definition MachineSetPreflightCheckAll : string := "All".
Definition MachineSetPreflightCheckKubeadmVersionSkew : string := "KubeadmVersionSkew".
Definition MachineSetPreflightCheckKubernetesVersionSkew : string := "KubernetesVersionSkew".
Definition MachineSetPreflightCheckControlPlaneIsStable : string := "ControlPlaneIsStable".
Definition bootstrapGroup : string := "bootstrap.cluster.x-k8s.io".

(** [semver.MustParse("1.28.0")] *)
Definition minVerKubernetesKubeletVersionSkewThree : semver_Version :=
  {| v_Major := 1; v_Minor := 28; v_Patch := 0; v_Pre := []; v_Build := [] |}.

(** Arithmetic of [uint64]. *)
Definition wrapU64 (z : Z) : Z := z mod 2 ^ 64.

Definition skippedPreflightChecks (ms : option MachineSet) : list string :=
  match ms with
  | None => []
  | Some ms =>
      let skip := default ""%string (ms_Annotations ms !! MachineSetSkipPreflightChecksAnnotation) in
      if String.eqb skip "" then [] else TrimSpace <$> Split skip ","
  end.

Section preflight.
Context `{Apimachinery} `{Semver}.
Context (KRef : string → string → string) (semver_String : semver_Version → string).

Definition failed (check : string) : string :=
  " (" +:+ quoted check +:+ " preflight check failed)".

Definition controlPlaneStablePreflightCheck (controlPlane : ControlPlaneObject) :
    result (option string) :=
  let ref := KRef (cp_Namespace controlPlane) (cp_Name controlPlane) in
  let check := MachineSetPreflightCheckControlPlaneIsStable in
  let msg := "failed to perform " +:+ quoted check +:+ " preflight check" in
  isProvisioning ← wrapErr msg (IsProvisioning controlPlane);
  if (isProvisioning : bool)
  then Ok (Some (cp_Kind controlPlane +:+ " " +:+ ref +:+ " is provisioning" +:+ failed check))
  else
    isUpgrading ← wrapErr msg (IsUpgrading controlPlane);
    if (isUpgrading : bool)
    then Ok (Some (cp_Kind controlPlane +:+ " " +:+ ref +:+ " is upgrading" +:+ failed check))
    else Ok None.

Definition kubernetesVersionPreflightCheck (cpSemver msSemver : semver_Version) : option string :=
  let check := MachineSetPreflightCheckKubernetesVersionSkew in
  let who := "MachineSet version (" +:+ semver_String msSemver +:+ ") and ControlPlane version ("
    +:+ semver_String cpSemver +:+ ") do not conform to the kubernetes version skew policy as " in
  if v_Minor cpSemver <? v_Minor msSemver
  then Some (who +:+ "MachineSet version is higher than ControlPlane version" +:+ failed check)
  else
    let minorSkew :=
      if semver_Compare cpSemver minVerKubernetesKubeletVersionSkewThree =? -1 then 2 else 3 in
    if v_Minor msSemver <? wrapU64 (v_Minor cpSemver - minorSkew)
    then Some (who +:+ "MachineSet version is more than " +:+ FormatInt minorSkew
           +:+ " minor versions older than the ControlPlane version" +:+ failed check)
    else None.

Definition kubeadmVersionPreflightCheck (cpSemver msSemver : semver_Version) (ms : MachineSet) :
    result (option string) :=
  let check := MachineSetPreflightCheckKubeadmVersionSkew in
  match b_ConfigRef (sp_Bootstrap (mt_Spec (mss_Template (ms_Spec ms)))) with
  | None => Ok None
  | Some bootstrapConfigRef =>
      match ParseGroupVersion (ref_APIVersion bootstrapConfigRef) with
      | None =>
          Err (Errorf ("failed to perform " +:+ quoted check
            +:+ " preflight check: failed to parse bootstrap configRef APIVersion "
            +:+ ref_APIVersion bootstrapConfigRef))
      | Some group =>
          if String.eqb (ref_Kind bootstrapConfigRef) "KubeadmConfigTemplate"
             && String.eqb group bootstrapGroup
          then
            if negb (v_Minor cpSemver =? v_Minor msSemver)
            then Ok (Some ("MachineSet version (" +:+ semver_String msSemver
                   +:+ ") and ControlPlane version (" +:+ semver_String cpSemver
                   +:+ ") do not conform to kubeadm version skew policy as kubeadm only supports joining with the same major+minor version as the control plane"
                   +:+ failed check))
            else Ok None
          else Ok None
      end
  end.

(** A check that returns a message, an error or nothing. *)
Definition collect (skip : bool) (check : result (option string))
    (acc : list error * list string) : list error * list string :=
  let '(errList, preflightCheckErrs) := acc in
  if skip then acc
  else match check with
       | Ok (Some msg) => (errList, preflightCheckErrs ++ [msg])
       | Ok None => acc
       | Err e => (errList ++ [e], preflightCheckErrs)
       | Panic => acc
       end.

Definition preflight_verdict (action : string) (acc : list error * list string) :
    result (ctrl_Result * string) :=
  match acc with
  | ([], []) => Ok ({| cr_Requeue := false; cr_RequeueAfter := 0 |}, ""%string)
  | ([], msgs) =>
      Ok ({| cr_Requeue := false; cr_RequeueAfter := preflightFailedRequeueAfter |}, Join msgs "; ")
  | (errs, _) =>
      Err (Wrap ("failed to perform " +:+ quoted action
        +:+ ": failed to perform preflight checks") (NewAggregate errs))
  end.

(** The control plane is [None] when the cluster has no reference to one; [Some (Err e)]
    when it could not be read. *)
Definition runPreflightChecks (enabled : bool) (controlPlane : option (result ControlPlaneObject))
    (ms : MachineSet) (action : string) : result (ctrl_Result * string) :=
  let pass := Ok ({| cr_Requeue := false; cr_RequeueAfter := 0 |}, ""%string) in
  let fail_ (e : error) :=
    Err (Wrap ("failed to perform " +:+ quoted action +:+ ": failed to perform preflight checks") e) in
  let skipped := skippedPreflightChecks (Some ms) in
  let skips (check : string) := bool_decide (check ∈ skipped) in
  if negb enabled then pass
  else if skips MachineSetPreflightCheckAll then pass
  else match controlPlane with
  | None => pass
  | Some Panic => Panic
  | Some (Err e) => fail_ e
  | Some (Ok controlPlane) =>
      match cp_Version controlPlane with
      | NotFound => pass
      | Malformed e => fail_ e
      | Found cpVersion =>
          match ParseTolerant cpVersion with
          | None => fail_ parse_error
          | Some cpSemver =>
              let acc := collect (skips MachineSetPreflightCheckControlPlaneIsStable)
                (controlPlaneStablePreflightCheck controlPlane) ([], []) in
              match sp_Version (mt_Spec (mss_Template (ms_Spec ms))) with
              | None => preflight_verdict action acc
              | Some msVersion =>
                  match ParseTolerant msVersion with
                  | None => fail_ parse_error
                  | Some msSemver =>
                      let acc := collect (skips MachineSetPreflightCheckKubernetesVersionSkew)
                        (Ok (kubernetesVersionPreflightCheck cpSemver msSemver)) acc in
                      let acc := collect (skips MachineSetPreflightCheckKubeadmVersionSkew)
                        (kubeadmVersionPreflightCheck cpSemver msSemver ms) acc in
                      preflight_verdict action acc
                  end
              end
          end
      end
  end.
End preflight.

(** ** Theory of priorities *)

Definition is_number (f : spec_float) : Prop := f ≠ S754_nan.

(** The sign and kind, the exponent and the mantissa of a number, as keys that sort like the
    numbers. *)
Definition rank_kind (f : spec_float) : Z :=
  match f with
  | S754_infinity true => -2
  | S754_finite true _ _ => -1
  | S754_finite false _ _ => 1
  | S754_infinity false => 2
  | _ => 0
  end.

Definition rank_exponent (f : spec_float) : Z :=
  match f with S754_finite s _ e => if s then - e else e | _ => 0 end.

Definition rank_mantissa (f : spec_float) : Z :=
  match f with S754_finite s m _ => if s then - Zpos m else Zpos m | _ => 0 end.

Definition float_less (f g : spec_float) : bool :=
  lex_less rank_kind (lex_less rank_exponent (λ a b, rank_mantissa a <? rank_mantissa b)) f g.

Lemma Pos_compare_cont_Z m n : Pos.compare_cont Eq m n = Z.compare (Zpos m) (Zpos n).
Proof. done. Qed.

Lemma SFltb_less f g : is_number f → is_number g → SFltb f g = float_less f g.
Proof.
  unfold is_number, SFltb, float_less, lex_less. intros Hf Hg.
  destruct f as [?|[]| |[] m e], g as [?|[]| |[] m' e']; simpl; try done.
  - rewrite Pos_compare_cont_Z. destruct (Z.compare_spec e e');
      [subst; rewrite Z.eqb_refl|rewrite (proj2 (Z.eqb_neq _ _)) by lia..].
    + destruct (Z.compare_spec (Z.pos m) (Z.pos m')); simpl; symmetry; (apply Z.ltb_lt; lia) || (apply Z.ltb_ge; lia).
    + symmetry. apply Z.ltb_ge. lia.
    + symmetry. apply Z.ltb_lt. lia.
  - rewrite Pos_compare_cont_Z. destruct (Z.compare_spec e e');
      [subst; rewrite Z.eqb_refl|rewrite (proj2 (Z.eqb_neq _ _)) by lia..].
    + destruct (Z.compare_spec (Z.pos m) (Z.pos m')); simpl; symmetry; (apply Z.ltb_lt; lia) || (apply Z.ltb_ge; lia).
    + symmetry. apply Z.ltb_lt. lia.
    + symmetry. apply Z.ltb_ge. lia.
Qed.

Lemma SFeqb_neither f g :
  is_number f → is_number g → SFeqb f g = negb (SFltb f g) && negb (SFltb g f).
Proof.
  unfold is_number, SFeqb, SFltb. intros Hf Hg.
  destruct f as [?|[]| |[] m e], g as [?|[]| |[] m' e']; simpl; try done;
    rewrite (Z.compare_antisym e e'), !Pos_compare_cont_Z, (Z.compare_antisym (Z.pos m) (Z.pos m'));
    by destruct (e ?= e'), (Z.pos m ?= Z.pos m').
Qed.

Lemma strict_weak_float : strict_weak float_less.
Proof. unfold float_less. eauto with capi. Qed.

(** What follows from an order on priorities and one on names. *)
Lemma strict_weak_then {A} (less1 less2 : A → A → bool) :
  strict_weak less1 → strict_weak less2 →
  strict_weak (λ a b, if negb (less1 a b) && negb (less1 b a) then less2 a b else less1 a b).
Proof.
  intros H1 H2. split.
  - intros a b. pose proof (sw_asym _ H1 a b). pose proof (sw_asym _ H1 b a).
    pose proof (sw_asym _ H2 a b).
    destruct (less1 a b), (less1 b a); simpl; naive_solver.
  - intros a b c. pose proof (sw_negtrans _ H1 a b c). pose proof (sw_negtrans _ H1 c b a).
    pose proof (sw_negtrans _ H1 b c a). pose proof (sw_negtrans _ H1 a c b).
    pose proof (sw_negtrans _ H1 b a c). pose proof (sw_negtrans _ H1 c a b).
    pose proof (sw_negtrans _ H2 a b c). pose proof (sw_asym _ H1 a b).
    pose proof (sw_asym _ H1 b c). pose proof (sw_asym _ H1 a c).
    destruct (less1 a b), (less1 b a), (less1 b c), (less1 c b), (less1 a c), (less1 c a);
      simpl in *; naive_solver.
Qed.

Lemma sortableMachines_Less_order (priority : deletePriorityFunc) a b :
  is_number (priority a) → is_number (priority b) →
  sortableMachines_Less priority a b =
    if negb (float_less (priority b) (priority a)) && negb (float_less (priority a) (priority b))
    then string_ltb (m_Name a) (m_Name b) else float_less (priority b) (priority a).
Proof.
  intros Ha Hb. unfold sortableMachines_Less.
  rewrite SFeqb_neither, !SFltb_less by done. by rewrite andb_comm.
Qed.

Section prioritized.
Context `{GoSort} {P : Type} (get : P → Machine) (priority : deletePriorityFunc).

Lemma strict_weak_sortable (l : list P) :
  (∀ p, p ∈ l → is_number (priority (get p))) →
  strict_weak_in (λ p q, sortableMachines_Less priority (get p) (get q)) l.
Proof.
  intros Hn. set (less := λ p q : P,
    if negb (float_less (priority (get q)) (priority (get p)))
       && negb (float_less (priority (get p)) (priority (get q)))
    then string_ltb (m_Name (get p)) (m_Name (get q))
    else float_less (priority (get q)) (priority (get p))).
  apply (strict_weak_in_ext _ less).
  - intros p q Hp Hq. apply sortableMachines_Less_order; auto.
  - apply strict_weak_all. unfold less.
    apply (strict_weak_then (λ p q, float_less (priority (get q)) (priority (get p)))
      (λ p q, string_ltb (m_Name (get p)) (m_Name (get q)))).
    + apply (strict_weak_reverse (λ p q, float_less (priority (get p)) (priority (get q)))).
      apply (strict_weak_on (λ p, priority (get p))), strict_weak_float.
    + apply (strict_weak_string (λ p, m_Name (get p))).
Qed.

Lemma getMachinesToDeletePrioritized_outcome (l : list P) (diff : Z) :
  0 ≤ diff → (∀ p, p ∈ l → is_number (priority (get p))) →
  let del := (getMachinesToDeletePrioritized get l diff priority).1 in
  Z.of_nat (length del) = Z.min diff (Z.of_nat (length l)) ∧
  ∃ kept, l ≡ₚ del ++ kept ∧ ∀ d k, d ∈ del → k ∈ kept →
    sortableMachines_Less priority (get k) (get d) = false.
Proof.
  intros Hd Hn. cbv zeta. unfold getMachinesToDeletePrioritized.
  destruct (Z.leb_spec (Z.of_nat (length l)) diff).
  { split; [simpl; lia|]. exists []. rewrite app_nil_r. split; [done|].
    by intros ??? ?%not_elem_of_nil. }
  destruct (Z.leb_spec diff 0).
  { split; [simpl; lia|]. exists l. split; [done|]. by intros ?? ?%not_elem_of_nil. }
  cbn [fst]. set (less := λ p q, sortableMachines_Less priority (get p) (get q)).
  pose proof (go_sort_sorted_in less l (strict_weak_sortable l Hn)) as Hs.
  pose proof (go_sort_perm less l) as Hp. split.
  { rewrite length_take, (length_go_sort less). lia. }
  exists (drop (Z.to_nat diff) (go_sort less l)). split; [by rewrite take_drop|].
  intros d k Hdel Hkept. rewrite <- (take_drop (Z.to_nat diff) (go_sort less l)) in Hs.
  exact (StronglySorted_app_1_elem_of (not_after less) _ _ d k Hs Hdel Hkept).
Qed.
End prioritized.

(** ** Theory of preflight checks *)

#[local] Arguments collect : simpl never.
#[local] Arguments preflight_verdict : simpl never.

Section preflight_theory.
Context `{Apimachinery} `{Semver}.
Context (KRef : string → string → string) (semver_String : semver_Version → string).

Abbreviation check_kubernetes := (kubernetesVersionPreflightCheck semver_String) (only parsing).

(** How many minor versions a kubelet may be behind. *)
Definition allowed_skew (cpSemver : semver_Version) : Z :=
  if semver_Compare cpSemver minVerKubernetesKubeletVersionSkewThree =? -1 then 2 else 3.

Lemma allowed_skew_range v : 2 ≤ allowed_skew v ≤ 3.
Proof. unfold allowed_skew. case_match; lia. Qed.

Lemma kubernetesVersion_outcome cpSemver msSemver :
  0 ≤ v_Minor cpSemver < 2 ^ 64 → 0 ≤ v_Minor msSemver < 2 ^ 64 →
  check_kubernetes cpSemver msSemver = None ↔
    v_Minor msSemver ≤ v_Minor cpSemver ∧ allowed_skew cpSemver ≤ v_Minor cpSemver ∧
    v_Minor cpSemver - allowed_skew cpSemver ≤ v_Minor msSemver.
Proof.
  intros Hcp Hms. pose proof (allowed_skew_range cpSemver) as Hr.
  unfold kubernetesVersionPreflightCheck. fold (allowed_skew cpSemver).
  destruct (Z.ltb_spec (v_Minor cpSemver) (v_Minor msSemver)); [split; [done|lia]|].
  assert (wrapU64 (v_Minor cpSemver - allowed_skew cpSemver) =
    if decide (allowed_skew cpSemver ≤ v_Minor cpSemver)
    then v_Minor cpSemver - allowed_skew cpSemver
    else v_Minor cpSemver - allowed_skew cpSemver + 2 ^ 64) as ->.
  { unfold wrapU64. destruct (decide _).
    - apply Z.mod_small. lia.
    - rewrite <- (Z.mod_add _ 1) by lia. rewrite Z.mul_1_l. apply Z.mod_small. lia. }
  destruct (decide (allowed_skew cpSemver ≤ v_Minor cpSemver)).
  - case Z.ltb_spec; intros; split; intros; try done; lia.
  - case Z.ltb_spec; intros; split; intros; try done; lia.
Qed.

Lemma controlPlaneStable_no_panic controlPlane : controlPlaneStablePreflightCheck KRef controlPlane ≠ Panic.
Proof.
  unfold controlPlaneStablePreflightCheck, IsProvisioning, IsUpgrading.
  repeat (case_match; simpl; simplify_eq; try done).
Qed.

Lemma controlPlaneStable_outcome controlPlane cpVersion cpSemver :
  cp_Version controlPlane = Found cpVersion → ParseTolerant cpVersion = Some cpSemver →
  controlPlaneStablePreflightCheck KRef controlPlane = Ok None ↔
  ∃ status statusSemver, cp_StatusVersion controlPlane = Found status ∧ status ≠ ""%string ∧
    ParseTolerant status = Some statusSemver ∧ Compare cpSemver statusSemver [WithBuildTags] < 1.
Proof.
  intros Hcp Hcps. unfold controlPlaneStablePreflightCheck, IsProvisioning, IsUpgrading. rewrite Hcp, Hcps.
  destruct (cp_StatusVersion controlPlane) as [status| |]; simpl; [|naive_solver..].
  destruct (String.eqb_spec status ""); simpl; [naive_solver|].
  destruct (ParseTolerant status) as [statusSemver|] eqn:E; simpl; [|naive_solver].
  destruct (Z.leb_spec 1 (Compare cpSemver statusSemver [WithBuildTags])); naive_solver lia.
Qed.

Lemma kubeadmVersion_no_panic cpSemver msSemver ms :
  kubeadmVersionPreflightCheck semver_String cpSemver msSemver ms ≠ Panic.
Proof. unfold kubeadmVersionPreflightCheck. by repeat case_match. Qed.

Lemma kubeadmVersion_outcome cpSemver msSemver ms :
  kubeadmVersionPreflightCheck semver_String cpSemver msSemver ms = Ok None ↔
  ∀ ref, b_ConfigRef (sp_Bootstrap (mt_Spec (mss_Template (ms_Spec ms)))) = Some ref →
    ∃ group, ParseGroupVersion (ref_APIVersion ref) = Some group ∧
      (ref_Kind ref = "KubeadmConfigTemplate"%string → group = bootstrapGroup →
       v_Minor cpSemver = v_Minor msSemver).
Proof.
  unfold kubeadmVersionPreflightCheck. destruct (b_ConfigRef _) as [ref|]; [|naive_solver].
  destruct (ParseGroupVersion (ref_APIVersion ref)) as [group|] eqn:E; [|naive_solver].
  destruct (String.eqb_spec (ref_Kind ref) "KubeadmConfigTemplate"), (String.eqb_spec group bootstrapGroup),
    (Z.eqb_spec (v_Minor cpSemver) (v_Minor msSemver)); simpl; naive_solver.
Qed.

(** Nothing is collected when nothing was and the check passes. *)
Lemma collect_none check acc :
  check ≠ Panic → collect false check acc = ([], []) ↔ acc = ([], []) ∧ check = Ok None.
Proof.
  unfold collect. destruct acc as [errs msgs], check as [[msg|]|e|]; simpl; intros; [..|done].
  1, 3: split; [intros [= E1 E2]; by destruct errs, msgs|naive_solver]. naive_solver.
Qed.

Lemma preflight_verdict_iff action acc :
  preflight_verdict action acc = Ok ({| cr_Requeue := false; cr_RequeueAfter := 0 |}, ""%string) ↔
  acc = ([], []).
Proof. destruct acc as [[|e errs] [|msg msgs]]; simpl; naive_solver. Qed.
End preflight_theory.

(** ** Properties *)

(** C16: scaling down by [diff] chooses exactly that many Machines (or all of them), and no
    Machine that is kept comes before a chosen one in the order by priority and name. *)
Theorem getMachinesToDeletePrioritized_spec `{GoSort} (machines : list Machine) (diff : Z)
    (priority : deletePriorityFunc) :
  0 ≤ diff → (∀ m, m ∈ machines → is_number (priority m)) →
  let del := (getMachinesToDeletePrioritized id machines diff priority).1 in
  Z.of_nat (length del) = Z.min diff (Z.of_nat (length machines)) ∧
  ∃ kept, machines ≡ₚ del ++ kept ∧ ∀ d k, d ∈ del → k ∈ kept →
    SFltb (priority d) (priority k) = false ∧
    (SFeqb (priority d) (priority k) = true → string_ltb (m_Name k) (m_Name d) = false).
Proof.
  intros Hd Hn del. destruct (getMachinesToDeletePrioritized_outcome id priority machines diff Hd Hn)
    as (Hl & kept & Hp & Hk). fold del in Hl, Hp, Hk. split; [done|]. exists kept.
  split; [done|]. intros d k Hdel Hkept. specialize (Hk d k Hdel Hkept).
  assert (is_number (priority d)) by (apply Hn; rewrite Hp; set_solver).
  assert (is_number (priority k)) by (apply Hn; rewrite Hp; set_solver).
  unfold sortableMachines_Less in Hk. simpl in Hk.
  rewrite (SFeqb_neither (priority k)) in Hk by done. rewrite (SFeqb_neither (priority d)) by done.
  destruct (SFltb (priority d) (priority k)), (SFltb (priority k) (priority d)); simpl in *; done.
Qed.

(** Under the random policy, the default, a Machine with the delete annotation is not
    given top priority: an unhealthy Machine without it is deleted first when its name comes
    first. *)
Theorem random_policy_annotation_not_top :
  ∃ annotated unhealthy,
    has_delete_annotation annotated = true ∧ isMachineHealthy annotated = true ∧
    has_delete_annotation unhealthy = false ∧
    (getMachinesToDeletePrioritized id [annotated; unhealthy] 1 randomDeletePolicy).1 = [unhealthy].
Proof.
  set (node := {| ref_Kind := "Node"; ref_Namespace := ""; ref_Name := "n"; ref_UID := "u";
                  ref_APIVersion := "v1"; ref_ResourceVersion := ""; ref_FieldPath := "" |}).
  exists {| m_TypeMeta := emptyTypeMeta;
       m_Meta := meta_set_Annotations {[DeleteMachineAnnotation := "yes"]}
         (m_Meta (machine_at "b" "v1.30.0" 0));
       m_Spec := emptySpec;
       m_Status := {| st_NodeRef := Some node; st_NodeInfo := None; st_LastUpdated := None;
         st_FailureReason := None; st_FailureMessage := None; st_Addresses := []; st_Phase := "";
         st_CertificatesExpiryDate := None; st_BootstrapReady := true;
         st_InfrastructureReady := true; st_ObservedGeneration := 1; st_Conditions := [];
         st_Deletion := None; st_V1Beta2 := None |} |}, (machine_at "a" "v1.30.0" 0).
  split_and!; by vm_compute.
Qed.

(** The Kubernetes version skew check passes exactly when the MachineSet is not newer
    than the control plane and at most the allowed number of minor versions older; and, since
    the lower bound is computed in unsigned arithmetic, only when the minor version of the
    control plane is not below that number. *)
Theorem kubernetesVersionPreflightCheck_iff `{Semver} (semver_String : semver_Version → string)
    (cpSemver msSemver : semver_Version) :
  0 ≤ v_Minor cpSemver < 2 ^ 64 → 0 ≤ v_Minor msSemver < 2 ^ 64 →
  kubernetesVersionPreflightCheck semver_String cpSemver msSemver = None ↔
    v_Minor msSemver ≤ v_Minor cpSemver ∧ allowed_skew cpSemver ≤ v_Minor cpSemver ∧
    v_Minor cpSemver - allowed_skew cpSemver ≤ v_Minor msSemver.
Proof. apply kubernetesVersion_outcome. Qed.


(** ** Witnesses *)

Lemma random_is_number m : is_number (randomDeletePolicy m).
Proof. unfold randomDeletePolicy, is_number. repeat case_match; by vm_compute. Qed.

Lemma getMachinesToDeletePrioritized_spec_witness :
  Z.of_nat (length (getMachinesToDeletePrioritized id
    [machine_at "b" "v1.30.0" 0; machine_at "a" "v1.30.0" 0] 1 randomDeletePolicy).1) = 1.
Proof.
  refine (proj1 (getMachinesToDeletePrioritized_spec
    [machine_at "b" "v1.30.0" 0; machine_at "a" "v1.30.0" 0] 1 randomDeletePolicy _ _)).
  - lia.
  - intros m _. apply random_is_number.
Defined.

Lemma kubernetesVersionPreflightCheck_iff_witness :
  kubernetesVersionPreflightCheck (λ _, ""%string) (version_of "v1.1.0") (version_of "v1.1.0") ≠ None.
Proof.
  intros E. apply kubernetesVersionPreflightCheck_iff in E as (_ & Hskew & _).
  - revert Hskew. vm_compute. intros Hskew. apply Hskew. reflexivity.
  - vm_compute. split; [discriminate|reflexivity].
  - vm_compute. split; [discriminate|reflexivity].
Defined.

Definition stable_control_plane : ControlPlaneObject :=
  {| cp_Kind := "KubeadmControlPlane"; cp_Namespace := "default"; cp_Name := "cp";
     cp_Version := Found "v1.30.0"%string; cp_StatusVersion := Found "v1.30.0"%string;
     cp_Replicas := Found 3; cp_StatusReplicas := Found 3; cp_UpdatedReplicas := Found 3;
     cp_ReadyReplicas := Found 3; cp_UnavailableReplicas := Found 0 |}.

Definition versioned_set (version : string) : MachineSet :=
  {| ms_TypeMeta := emptyTypeMeta; ms_Meta := emptyMeta; ms_Status := emptyMSStatus;
     ms_Spec := {| mss_ClusterName := "c"; mss_Replicas := Some 3; mss_MinReadySeconds := 0;
       mss_DeletePolicy := ""; mss_Selector := emptySelector;
       mss_Template := {| mt_Meta := {| tm_Labels := ∅; tm_Annotations := ∅ |};
         mt_Spec := m_Spec (machine_at "t" version 0) |} |} |}.

