(* ===== verification/MachineSet.v ===== *)
(** * The MachineSet controller (internal/controllers/machineset/machineset_controller.go)

    Machines live in a heap of pointers, as the controller passes pointers around; calls of
    the API are recorded in the state, and their outcomes are functions of the calls made so
    far.  The patch helper, the creation of external objects from templates and
    server-side apply appear as calls.  The texts of wrapped errors leave out the names of
    external objects that the code formats into them; which errors are wrapped, aggregated or
    dropped is kept. *)

From S2P Require Import Prelude GoStd Api Apimachinery Util Conditions Version Collections.
From S2P Require Import ConditionsV1Beta2 MdUtil MachineSetPolicy.
From Stdlib Require Import Ascii.

(** ** Nodes (controllers/noderefutil/util.go) *)

Record NodeCondition := {
  nc_Type : string;
  nc_Status : string;
  nc_LastTransitionTime : Time;
}.

Record Node := { node_Name : string; node_Conditions : list NodeCondition }.

Definition NodeReady : string := "Ready".

Definition GetReadyCondition (conditions : list NodeCondition) : option NodeCondition :=
  find (λ c, bool_decide (nc_Type c = NodeReady)) conditions.

Definition IsNodeReady (node : option Node) : bool :=
  match node with
  | None => false
  | Some node =>
      match GetReadyCondition (node_Conditions node) with
      | Some c => bool_decide (nc_Status c = ConditionTrue)
      | None => false
      end
  end.

Definition IsNodeUnreachable (node : option Node) : bool :=
  match node with
  | None => false
  | Some node =>
      match GetReadyCondition (node_Conditions node) with
      | Some c => bool_decide (nc_Status c = ConditionUnknown)
      | None => false
      end
  end.

(** A ready Node has a ready condition. *)
Definition IsNodeAvailable (node : option Node) (minReadySeconds : Z) (now : Time) : bool :=
  if negb (IsNodeReady node) then false
  else if minReadySeconds =? 0 then true
  else
    match node with
    | None => false
    | Some node =>
        match GetReadyCondition (node_Conditions node) with
        | None => false
        | Some readyCondition =>
            negb (IsZero (Some (nc_LastTransitionTime readyCondition)))
            && (nc_LastTransitionTime readyCondition + minReadySeconds * Second <? now)
        end
    end.

(** ** State and calls *)

Abbreviation mptr := nat (only parsing).

Inductive MsCall :=
| CreateFromTemplate (template : ObjectReference) (name : string) (m : Machine)
| ApplyMachine (m : Machine)
| DeleteExternal (ref : ObjectReference)
| DeleteMachine (m : Machine)
| NewHelper (m : Machine)
| PatchMachine (m : Machine)
| GetMachine (name : string)
| GetNode (name : string)
| ListMachines (namespace : string) (labels : gmap string string)
| GetControlPlane
| CleanUpManagedFields (m : Machine)
| GetExternal (ref : ObjectReference)
| DropManagedFields (ref : ObjectReference)
| ApplyExternal (ref : ObjectReference) (labels annotations : gmap string string).

Record MsState := {
  z_heap : gmap mptr Machine;
  z_ms : MachineSet;
  z_machines : list mptr;
  z_adopted : bool;
  z_scaleUpMessage : string;
  z_calls : list MsCall;
}.

(** The outcomes of the calls, the clock, generated names, and the functions of other
    packages.  [e_polls] is how often [wait.PollUntilContextTimeout], started after the given
    calls, runs its condition before the timeout: any number, zero included. *)
Record MsEnv := {
  e_error : list MsCall → MsCall → option error;
  e_created : list MsCall → MsCall → ObjectReference;
  e_applied : list MsCall → Machine → Machine;
  e_cached : list MsCall → Machine → bool;
  e_machine : list MsCall → string → Machine;
  e_node : list MsCall → string → Node;
  e_machines : list MsCall → list Machine;
  e_controlPlane : list MsCall → ControlPlaneObject;
  e_now : list MsCall → Time;
  e_generateName : list MsCall → string → string;
  e_polls : list MsCall → nat;
  e_preflightEnabled : bool;
  e_hasControlPlaneRef : bool;
  e_KRef : string → string → string;
  e_semverString : semver_Version → string;
  e_Exp : spec_float → spec_float;
  e_errorString : error → string;
  e_MustFormatValue : string → string;
  e_selectorString : LabelSelector → result string;
  e_selectorAsMap : LabelSelector → option (gmap string string);
  e_labelsMatch : gmap string string → gmap string string → bool;
  e_removeFinalizer : list string → string → list string;
  e_deprecatedInfraMachineNaming : bool;
}.

Definition mheap_get (h : gmap mptr Machine) (p : mptr) : Machine := default emptyMachine (h !! p).

Definition z_set_heap (h : gmap mptr Machine) (s : MsState) : MsState :=
  {| z_heap := h; z_ms := z_ms s; z_machines := z_machines s; z_adopted := z_adopted s;
     z_scaleUpMessage := z_scaleUpMessage s; z_calls := z_calls s |}.

Definition z_set_ms (ms : MachineSet) (s : MsState) : MsState :=
  {| z_heap := z_heap s; z_ms := ms; z_machines := z_machines s; z_adopted := z_adopted s;
     z_scaleUpMessage := z_scaleUpMessage s; z_calls := z_calls s |}.

Definition z_set_machines (l : list mptr) (s : MsState) : MsState :=
  {| z_heap := z_heap s; z_ms := z_ms s; z_machines := l; z_adopted := z_adopted s;
     z_scaleUpMessage := z_scaleUpMessage s; z_calls := z_calls s |}.

Definition z_set_adopted (l : list mptr) (s : MsState) : MsState :=
  {| z_heap := z_heap s; z_ms := z_ms s; z_machines := l; z_adopted := true;
     z_scaleUpMessage := z_scaleUpMessage s; z_calls := z_calls s |}.

Definition z_set_scaleUpMessage (msg : string) (s : MsState) : MsState :=
  {| z_heap := z_heap s; z_ms := z_ms s; z_machines := z_machines s; z_adopted := z_adopted s;
     z_scaleUpMessage := msg; z_calls := z_calls s |}.

Definition z_add_call (c : MsCall) (s : MsState) : MsState :=
  {| z_heap := z_heap s; z_ms := z_ms s; z_machines := z_machines s; z_adopted := z_adopted s;
     z_scaleUpMessage := z_scaleUpMessage s; z_calls := z_calls s ++ [c] |}.

Definition mload (p : mptr) : M MsState Machine := gets (λ s, mheap_get (z_heap s) p).

Definition mstore (p : mptr) (m : Machine) : M MsState unit :=
  modify (λ s, z_set_heap (<[p := m]> (z_heap s)) s).

Definition malloc (m : Machine) : M MsState mptr := λ s,
  let p := fresh (dom (z_heap s)) in (Ok p, z_set_heap (<[p := m]> (z_heap s)) s).

(** [apierrors.IsNotFound(err)], which looks through wrapped errors. *)
Fixpoint IsNotFound (e : error) : bool :=
  match e with ApiError notFound _ => notFound | Wrap _ e => IsNotFound e | _ => false end.

Definition zero_Result : ctrl_Result := {| cr_Requeue := false; cr_RequeueAfter := 0 |}.

Definition MachineFinalizer : string := "machine.cluster.x-k8s.io".
Definition MachineSetFinalizer : string := "cluster.x-k8s.io/machineset".
Definition MachineUpToDateV1Beta2Condition : string := "UpToDate".
Definition MachineHealthCheckSucceededV1Beta2Condition : string := "HealthCheckSucceeded".
Definition MachineOwnerRemediatedV1Beta2Condition : string := "OwnerRemediated".

(** ** Pure parts *)

Definition isDeploymentChild (ms : MachineSet) : bool :=
  bool_decide (is_Some (om_Labels (ms_Meta ms) !! MachineDeploymentNameLabel)).

(** Reading a missing key gives the empty string. *)
Definition lookup_string (m : gmap string string) (k : string) : string := default ""%string (m !! k).

Definition isCurrentMachineSet (ms : MachineSet) (md : option MachineDeployment) : bool :=
  match md with
  | None => false
  | Some md => String.eqb (lookup_string (md_Annotations md) RevisionAnnotation)
                 (lookup_string (ms_Annotations ms) RevisionAnnotation)
  end.

Definition GroupVersion : string := "cluster.x-k8s.io/v1beta1".

Definition ms_shouldAdopt `{Apimachinery} (ms : MachineSet) : bool :=
  if HasOwner (om_OwnerReferences (ms_Meta ms)) GroupVersion
       ["MachineDeployment"; "Cluster"]%string
  then false else negb (isDeploymentChild ms).

Definition shouldExcludeMachine `{Apimachinery} (machineSet : MachineSet) (machine : Machine) : bool :=
  bool_decide (is_Some (GetControllerOf (m_Meta machine)))
  && negb (metav1_IsControlledBy (m_Meta machine) (ms_Meta machineSet)).

(** [s.reconciliationTime] and [s.owningMachineDeployment] are arguments. *)
Definition newMachineUpToDateCondition (reconciliationTime : Time)
    (owningMachineDeployment : option MachineDeployment) (machineSet : MachineSet) :
    option MetaCondition :=
  match owningMachineDeployment with
  | None => None
  | Some md =>
      let '(upToDate, _, conditionMessages) :=
        MachineTemplateUpToDate (mss_Template (ms_Spec machineSet)) (mds_Template (md_Spec md)) in
      let '(upToDate, conditionMessages) :=
        match mds_RolloutAfter (md_Spec md) with
        | None => (upToDate, conditionMessages)
        | Some rolloutAfter =>
            if (rolloutAfter <? reconciliationTime)
               && negb (rolloutAfter <? ms_CreationTimestamp machineSet)
            then (false, conditionMessages ++ ["MachineDeployment spec.rolloutAfter expired"%string])
            else (upToDate, conditionMessages)
        end in
      Some (if (upToDate : bool)
            then {| mc_Type := MachineUpToDateV1Beta2Condition; mc_Status := ConditionTrue;
                    mc_ObservedGeneration := 0; mc_LastTransitionTime := zero_time;
                    mc_Reason := "UpToDate"; mc_Message := "" |}
            else {| mc_Type := MachineUpToDateV1Beta2Condition; mc_Status := ConditionFalse;
                    mc_ObservedGeneration := 0; mc_LastTransitionTime := zero_time;
                    mc_Reason := "NotUpToDate"; mc_Message := Join conditionMessages "; " |})
  end.

(** The in-place mutable fields that a Machine takes over from the template. *)
Definition sp_set_mutable (t sp : MachineSpec) : MachineSpec :=
  {| sp_ClusterName := sp_ClusterName sp; sp_Bootstrap := sp_Bootstrap sp;
     sp_InfrastructureRef := sp_InfrastructureRef sp; sp_Version := sp_Version sp;
     sp_ProviderID := sp_ProviderID sp; sp_FailureDomain := sp_FailureDomain sp;
     sp_ReadinessGates := sp_ReadinessGates t; sp_NodeDrainTimeout := sp_NodeDrainTimeout t;
     sp_NodeVolumeDetachTimeout := sp_NodeVolumeDetachTimeout t;
     sp_NodeDeletionTimeout := sp_NodeDeletionTimeout t |}.

Definition sp_set_refs (cluster : string) (configRef : option ObjectReference)
    (infrastructureRef : ObjectReference) (sp : MachineSpec) : MachineSpec :=
  {| sp_ClusterName := cluster;
     sp_Bootstrap := {| b_ConfigRef := configRef;
                        b_DataSecretName := b_DataSecretName (sp_Bootstrap sp) |};
     sp_InfrastructureRef := infrastructureRef; sp_Version := sp_Version sp;
     sp_ProviderID := sp_ProviderID sp; sp_FailureDomain := sp_FailureDomain sp;
     sp_ReadinessGates := sp_ReadinessGates sp; sp_NodeDrainTimeout := sp_NodeDrainTimeout sp;
     sp_NodeVolumeDetachTimeout := sp_NodeVolumeDetachTimeout sp;
     sp_NodeDeletionTimeout := sp_NodeDeletionTimeout sp |}.

Definition m_set_Spec (sp : MachineSpec) (m : Machine) : Machine :=
  {| m_TypeMeta := m_TypeMeta m; m_Meta := m_Meta m; m_Spec := sp; m_Status := m_Status m |}.

Definition m_set_Meta (meta : Meta) (m : Machine) : Machine :=
  {| m_TypeMeta := m_TypeMeta m; m_Meta := meta; m_Spec := m_Spec m; m_Status := m_Status m |}.

Section controller.
Context `{Apimachinery} `{Semver} `{GoSort} `{GoRange} `{MetaConditions} (env : MsEnv).

Definition machineLabelsFromMachineSet (machineSet : MachineSet) : gmap string string :=
  let machineLabels := tm_Labels (mt_Meta (mss_Template (ms_Spec machineSet))) in
  let machineLabels :=
    <[MachineSetNameLabel := e_MustFormatValue env (ms_Name machineSet)]> machineLabels in
  match om_Labels (ms_Meta machineSet) !! MachineDeploymentNameLabel with
  | Some mdName => <[MachineDeploymentNameLabel := mdName]> machineLabels
  | None => machineLabels
  end.

Definition machineAnnotationsFromMachineSet (machineSet : MachineSet) : gmap string string :=
  tm_Annotations (mt_Meta (mss_Template (ms_Spec machineSet))).

(** [generated] is the name of the name generator. *)
Definition computeDesiredMachine (machineSet : MachineSet) (existingMachine : option Machine)
    (generated : string) : Machine :=
  let template := mt_Spec (mss_Template (ms_Spec machineSet)) in
  let '(name, uid, finalizers, configRef, infrastructureRef) :=
    match existingMachine with
    | None => (generated, ""%string, [MachineFinalizer], None, emptyRef)
    | Some m =>
        let finalizers := om_Finalizers (m_Meta m) in
        (m_Name m, om_UID (m_Meta m),
         (if bool_decide (MachineFinalizer ∈ finalizers) then finalizers
          else finalizers ++ [MachineFinalizer]),
         b_ConfigRef (sp_Bootstrap (m_Spec m)), sp_InfrastructureRef (m_Spec m))
    end in
  {| m_TypeMeta := {| tm_Kind := "Machine"; tm_APIVersion := GroupVersion |};
     m_Meta := {| om_Name := name; om_Namespace := om_Namespace (ms_Meta machineSet);
       om_UID := uid; om_Generation := 0; om_CreationTimestamp := zero_time;
       om_DeletionTimestamp := None; om_Labels := machineLabelsFromMachineSet machineSet;
       om_Annotations := machineAnnotationsFromMachineSet machineSet;
       om_OwnerReferences := [NewControllerRef (ms_Meta machineSet) "MachineSet"];
       om_Finalizers := finalizers |};
     m_Spec := sp_set_mutable template
       (sp_set_refs (mss_ClusterName (ms_Spec machineSet)) configRef infrastructureRef template);
     m_Status := emptyStatus |}.

(** ** Calls *)

Definition mcall (c : MsCall) : M MsState unit := λ s,
  match e_error env (z_calls s) c with
  | None => (Ok tt, z_add_call c s)
  | Some e => (Err e, z_add_call c s)
  end.

(** Server-side apply of the Machine at [p], with the original of the caching proxy. *)
Definition m_ssa_Patch (p : mptr) (original : option mptr) : M MsState unit :=
  m ← mload p;
  calls ← gets z_calls;
  match original with
  | Some o =>
      if e_cached env calls m then original ← mload o; mstore p original
      else _ ← mcall (ApplyMachine m); mstore p (e_applied env calls m)
  | None => _ ← mcall (ApplyMachine m); mstore p (e_applied env calls m)
  end.

Definition mark_ms (f : Time → MachineSet → MachineSet) : M MsState unit :=
  modify (λ s, z_set_ms (f (e_now env (z_calls s)) (z_ms s)) s).

(** [r.runPreflightChecks] with the reads of the control plane it makes. *)
Definition ms_runPreflightChecks (action : string) : M MsState (ctrl_Result * string) := λ s,
  let skipped := skippedPreflightChecks (Some (z_ms s)) in
  let reads := e_preflightEnabled env
    && negb (bool_decide (MachineSetPreflightCheckAll ∈ skipped)) && e_hasControlPlaneRef env in
  let '(controlPlane, s') :=
    if reads then
      match mcall GetControlPlane s with
      | (Err e, s') => (Some (Err e), s')
      | (_, s') => (Some (Ok (e_controlPlane env (z_calls s))), s')
      end
    else (None, s) in
  (runPreflightChecks (e_KRef env) (e_semverString env) (e_preflightEnabled env) controlPlane
     (z_ms s) action, s').

(** ** Waiting *)

(** The condition is run until it is done or fails, at most [polls] times. *)
Fixpoint poll_created (polls : nat) (name : string) : M MsState unit :=
  match polls with
  | O => throw (Errorf "context deadline exceeded")
  | S polls =>
      err ← try_err (mcall (GetMachine name));
      match err with
      | None => mret tt
      | Some e => if IsNotFound e then poll_created polls name else throw e
      end
  end.

Definition waitForMachineCreation (machineList : list mptr) : M MsState unit :=
  forM machineList (λ p,
    m ← mload p;
    calls ← gets z_calls;
    mwrap "failed waiting for machine object to be created" (poll_created (e_polls env calls) (m_Name m))).

Fixpoint poll_deleted (polls : nat) (name : string) : M MsState unit :=
  match polls with
  | O => throw (Errorf "context deadline exceeded")
  | S polls =>
      calls ← gets z_calls;
      err ← try_err (mcall (GetMachine name));
      match err with
      | None => if is_deleting (e_machine env calls name) then mret tt else poll_deleted polls name
      | Some e => if IsNotFound e then mret tt else throw e
      end
  end.

Definition waitForMachineDeletion (machineList : list mptr) : M MsState unit :=
  forM machineList (λ p,
    m ← mload p;
    calls ← gets z_calls;
    mwrap "failed waiting for machine object to be deleted" (poll_deleted (e_polls env calls) (m_Name m))).

(** ** Scaling *)

(** Creates the external objects of one Machine and the Machine itself; an error of the
    templates ends the loop, an error of the Machine is collected after cleaning up. *)
Definition create_machine (acc : list error * list mptr) : M MsState (list error * list mptr) :=
  let '(errs, machineList) := acc in
  ms ← gets z_ms;
  calls ← gets z_calls;
  let template := mt_Spec (mss_Template (ms_Spec ms)) in
  let machine := computeDesiredMachine ms None (e_generateName env calls (ms_Name ms +:+ "-")) in
  bootstrapRef ←
    match b_ConfigRef (sp_Bootstrap template) with
    | None => mret None
    | Some templateRef =>
        calls ← gets z_calls;
        let c := CreateFromTemplate templateRef (m_Name machine) machine in
        err ← try_err (mcall c);
        match err with
        | Some e =>
            _ ← mark_ms (λ now ms, MarkFalse now ms MachinesCreatedCondition
                  "BootstrapTemplateCloningFailed" ConditionSeverityError (e_errorString env e));
            throw (Wrap "failed to clone bootstrap configuration while creating a machine" e)
        | None => mret (Some (e_created env calls c))
        end
    end;
  let machine := m_set_Spec (sp_set_refs (sp_ClusterName (m_Spec machine)) bootstrapRef
    (sp_InfrastructureRef (m_Spec machine)) (m_Spec machine)) machine in
  calls ← gets z_calls;
  let infraMachineName :=
    if e_deprecatedInfraMachineNaming env
    then e_generateName env calls (ref_Name (sp_InfrastructureRef template) +:+ "-")
    else m_Name machine in
  let c := CreateFromTemplate (sp_InfrastructureRef template) infraMachineName machine in
  err ← try_err (mcall c);
  match err with
  | Some e =>
      _ ← mark_ms (λ now ms, MarkFalse now ms MachinesCreatedCondition
            "InfrastructureTemplateCloningFailed" ConditionSeverityError (e_errorString env e));
      throw (Wrap "failed to clone infrastructure machine while creating a machine" e)
  | None =>
      let infraRef := e_created env calls c in
      p ← malloc (m_set_Spec (sp_set_refs (sp_ClusterName (m_Spec machine)) bootstrapRef infraRef
                    (m_Spec machine)) machine);
      err ← try_err (m_ssa_Patch p None);
      match err with
      | Some e =>
          _ ← mark_ms (λ now ms, MarkFalse now ms MachinesCreatedCondition
                "MachineCreationFailed" ConditionSeverityError (e_errorString env e));
          _ ← try_err (mcall (DeleteExternal infraRef));
          _ ← match bootstrapRef with
              | Some ref => try_err (mcall (DeleteExternal ref))
              | None => mret None
              end;
          mret (errs ++ [e], machineList)
      | None => mret (errs, machineList ++ [p])
      end
  end.

Fixpoint create_machines (n : nat) (acc : list error * list mptr) :
    M MsState (list error * list mptr) :=
  match n with
  | O => mret acc
  | S n => acc ← create_machine acc; create_machines n acc
  end.

Definition scale_up (replicas diff : Z) : M MsState ctrl_Result :=
  ms ← gets z_ms;
  if bool_decide (is_Some (ms_Annotations ms !! DisableMachineCreateAnnotation))
  then mret zero_Result
  else
    let failed (msg : string) : M MsState unit :=
      _ ← modify (z_set_scaleUpMessage msg);
      mark_ms (λ now ms, MarkFalse now ms MachinesCreatedCondition "PreflightCheckFailed"
        ConditionSeverityError msg) in
    λ s,
      match ms_runPreflightChecks "Scale up" s with
      | (Panic, s') => (Panic, s')
      | (Err e, s') => (_ ← failed (e_errorString env e); throw e) s'
      | (Ok (result, msg), s') =>
          (if negb (ctrl_Result_IsZero result) then _ ← failed msg; mret result
           else
             '(errs, machineList) ← create_machines (Z.to_nat diff) ([], []);
             match errs with
             | [] => _ ← waitForMachineCreation machineList; mret zero_Result
             | _ => throw (NewAggregate errs)
             end) s'
      end.

(** The clock read by the priorities is that of the start of the sort. *)
Definition delete_machines (machinesToDelete : list mptr) (errs : list error) :
    M MsState (list error) :=
  foldM (λ errs p,
      m ← mload p;
      if is_deleting m then mret (inl errs)
      else
        err ← try_err (mcall (DeleteMachine m));
        mret (inl (match err with Some e => errs ++ [e] | None => errs end)))
    errs machinesToDelete.

Definition scale_down (diff : Z) : M MsState ctrl_Result :=
  ms ← gets z_ms;
  calls ← gets z_calls;
  priority ← lift (getDeletePriorityFunc (e_Exp env) (e_now env calls) ms);
  machines ← gets z_machines;
  h ← gets z_heap;
  let '(machinesToDelete, sorted) :=
    getMachinesToDeletePrioritized (mheap_get h) machines diff priority in
  _ ← modify (z_set_machines sorted);
  errs ← delete_machines machinesToDelete [];
  match errs with
  | [] => _ ← waitForMachineDeletion machinesToDelete; mret zero_Result
  | _ => throw (NewAggregate errs)
  end.

Definition syncReplicas : M MsState ctrl_Result :=
  adopted ← gets z_adopted;
  if negb (adopted : bool) then mret zero_Result
  else
    ms ← gets z_ms;
    match ms_Replicas ms with
    | None =>
        throw (Errorf ("the Replicas field in Spec for MachineSet " +:+ ms_Name ms
          +:+ " is nil, this should not be allowed"))
    | Some replicas =>
        machines ← gets z_machines;
        let diff := Z.of_nat (length machines) - replicas in
        if diff <? 0 then scale_up replicas (diff * -1)
        else if 0 <? diff then scale_down diff
        else mret zero_Result
    end.

(** ** Adoption and deletion *)

Definition ms_adoptOrphan (p : mptr) : M MsState unit :=
  ms ← gets z_ms;
  m ← mload p;
  let newRef := NewControllerRef (ms_Meta ms) "MachineSet" in
  let m' := m_set_Meta (meta_set_OwnerReferences
    (EnsureOwnerRef (om_OwnerReferences (m_Meta m)) newRef) (m_Meta m)) m in
  _ ← mstore p m';
  mcall (PatchMachine m').

Definition malloc_all (items : list Machine) : M MsState (list mptr) :=
  foldM (λ l m, p ← malloc m; mret (inl (l ++ [p]))) [] items.

Definition adopt_machine (filtered : list mptr) (p : mptr) :
    M MsState (list mptr + list mptr) :=
  ms ← gets z_ms;
  m ← mload p;
  if shouldExcludeMachine ms m then mret (inl filtered)
  else
    match GetControllerOf (m_Meta m) with
    | Some _ => mret (inl (filtered ++ [p]))
    | None =>
        err ← try_err (ms_adoptOrphan p);
        match err with
        | Some _ => mret (inl filtered)
        | None => mret (inl (filtered ++ [p]))
        end
    end.

Definition getAndAdoptMachinesForMachineSet : M MsState ctrl_Result :=
  ms ← gets z_ms;
  match e_selectorAsMap env (mss_Selector (ms_Spec ms)) with
  | None =>
      throw (Errorf ("failed to convert MachineSet " +:+ quoted (ms_Name ms)
        +:+ " label selector to a map"))
  | Some selectorMap =>
      calls ← gets z_calls;
      _ ← mwrap "failed to list machines"
            (mcall (ListMachines (om_Namespace (ms_Meta ms)) selectorMap));
      allMachines ← malloc_all (e_machines env calls);
      filteredMachines ← foldM adopt_machine [] allMachines;
      _ ← modify (z_set_adopted filteredMachines);
      mret zero_Result
  end.

Definition ms_remove_finalizer (ms : MachineSet) : MachineSet :=
  let m := ms_Meta ms in
  ms_set_Meta {| om_Name := om_Name m; om_Namespace := om_Namespace m; om_UID := om_UID m;
    om_Generation := om_Generation m; om_CreationTimestamp := om_CreationTimestamp m;
    om_DeletionTimestamp := om_DeletionTimestamp m; om_Labels := om_Labels m;
    om_Annotations := om_Annotations m; om_OwnerReferences := om_OwnerReferences m;
    om_Finalizers := e_removeFinalizer env (om_Finalizers m) MachineSetFinalizer |} ms.

Definition ms_reconcileDelete : M MsState ctrl_Result :=
  adopted ← gets z_adopted;
  if negb (adopted : bool) then mret zero_Result
  else
    machineList ← gets z_machines;
    match machineList with
    | [] => _ ← modify (λ s, z_set_ms (ms_remove_finalizer (z_ms s)) s); mret zero_Result
    | _ =>
        _ ← forM machineList (λ p,
              m ← mload p;
              if is_deleting m then mret tt
              else
                err ← try_err (mcall (DeleteMachine m));
                match err with
                | Some e =>
                    if IsNotFound e then mret tt
                    else throw (Wrap ("failed to delete Machine " +:+ e_KRef env (om_Namespace (m_Meta m)) (m_Name m)) e)
                | None => mret tt
                end);
        mret zero_Result
    end.

(** ** Status *)

(** The counters of fully labelled, ready and available replicas after one Machine. *)
Definition count_machine (counts : Z * Z * Z) (p : mptr) :
    M MsState (Z * Z * Z + Z * Z * Z) :=
  let '(fullyLabeled, ready, available) := counts in
  ms ← gets z_ms;
  machine ← mload p;
  let fullyLabeled :=
    if e_labelsMatch env (tm_Labels (mt_Meta (mss_Template (ms_Spec ms)))) (om_Labels (m_Meta machine))
    then fullyLabeled + 1 else fullyLabeled in
  match st_NodeRef (m_Status machine) with
  | None => mret (inl (fullyLabeled, ready, available))
  | Some ref =>
      calls ← gets z_calls;
      err ← try_err (mcall (GetNode (ref_Name ref)));
      let node := match err with None => Some (e_node env calls (ref_Name ref)) | Some _ => None end in
      if bool_decide (is_Some err) && IsZero (om_DeletionTimestamp (m_Meta machine))
      then mret (inl (fullyLabeled, ready, available))
      else if IsNodeReady node then
        now ← gets (λ s, e_now env (z_calls s));
        mret (inl (fullyLabeled, ready + 1,
          if IsNodeAvailable node (mss_MinReadySeconds (ms_Spec ms)) now
          then available + 1 else available))
      else mret (inl (fullyLabeled, ready, available))
  end.

Definition ms_set_Status (st : MachineSetStatus) (ms : MachineSet) : MachineSet :=
  {| ms_TypeMeta := ms_TypeMeta ms; ms_Meta := ms_Meta ms; ms_Spec := ms_Spec ms; ms_Status := st |}.

Definition status_with (st : MachineSetStatus) (selector : string)
    (replicas fullyLabeled ready available generation : Z) : MachineSetStatus :=
  {| mst_Selector := selector; mst_Replicas := replicas; mst_FullyLabeledReplicas := fullyLabeled;
     mst_ReadyReplicas := ready; mst_AvailableReplicas := available;
     mst_ObservedGeneration := generation; mst_FailureReason := mst_FailureReason st;
     mst_FailureMessage := mst_FailureMessage st; mst_Conditions := mst_Conditions st;
     mst_V1Beta2 := mst_V1Beta2 st |}.

Definition mark_resized (desiredReplicas replicas readyReplicas : Z) (now : Time) (ms : MachineSet) :
    MachineSet :=
  let text (what : string) := "Scaling " +:+ what +:+ " MachineSet to " +:+ FormatInt desiredReplicas
    +:+ " replicas (actual " +:+ FormatInt replicas +:+ ")" in
  if replicas <? desiredReplicas
  then MarkFalse now ms ResizedCondition "ScalingUp" ConditionSeverityWarning (text "up")
  else if desiredReplicas <? replicas
  then MarkTrue now (MarkFalse now ms ResizedCondition "ScalingDown" ConditionSeverityWarning
         (text "down")) MachinesCreatedCondition
  else
    let ms := if readyReplicas =? replicas then MarkTrue now ms ResizedCondition else ms in
    MarkTrue now ms MachinesCreatedCondition.

Definition ms_reconcileStatus : M MsState unit :=
  adopted ← gets z_adopted;
  if negb (adopted : bool) then mret tt
  else
    ms ← gets z_ms;
    match ms_Replicas ms with
    | None => throw (Errorf "Cannot update status when MachineSet spec.replicas is not set")
    | Some replicas =>
        selector ← mwrap ("failed to update status for MachineSet " +:+ om_Namespace (ms_Meta ms) +:+ "/"
          +:+ ms_Name ms)
          (lift (e_selectorString env (mss_Selector (ms_Spec ms))));
        let desiredReplicas :=
          if negb (IsZero (om_DeletionTimestamp (ms_Meta ms))) then 0 else replicas in
        machines ← gets z_machines;
        '(fullyLabeled, ready, available) ← foldM count_machine (0, 0, 0) machines;
        let st := ms_Status ms in
        let newReplicas := wrap32 (Z.of_nat (length machines)) in
        let fullyLabeled := wrap32 fullyLabeled in
        let ready := wrap32 ready in
        let available := wrap32 available in
        _ ← (if negb (mst_Replicas st =? newReplicas)
                || negb (mst_FullyLabeledReplicas st =? fullyLabeled)
                || negb (mst_ReadyReplicas st =? ready)
                || negb (mst_AvailableReplicas st =? available)
                || negb (om_Generation (ms_Meta ms) =? mst_ObservedGeneration st)
             then modify (λ s, z_set_ms (ms_set_Status (status_with st selector newReplicas
                    fullyLabeled ready available (om_Generation (ms_Meta ms))) (z_ms s)) s)
             else mret tt);
        _ ← mark_ms (mark_resized desiredReplicas newReplicas ready);
        h ← gets z_heap;
        mark_ms (λ now ms, SetAggregate now ms MachinesReadyCondition
          (ConditionGetters (FromMachines ((λ p, Some (mheap_get h p)) <$> machines))) [AddSourceRef])
    end.

Definition shouldRequeueForReplicaCountersRefresh (ms : MachineSet) : ctrl_Result :=
  let replicas := default 0 (ms_Replicas ms) in
  let st := ms_Status ms in
  if (0 <? mss_MinReadySeconds (ms_Spec ms)) && (mst_ReadyReplicas st =? replicas)
     && negb (mst_AvailableReplicas st =? replicas)
  then {| cr_Requeue := false; cr_RequeueAfter := mss_MinReadySeconds (ms_Spec ms) * Second |}
  else if negb (mst_ReadyReplicas st =? replicas)
  then {| cr_Requeue := false; cr_RequeueAfter := 15 * Second |}
  else zero_Result.

(** ** Remediation *)

(** The loop of [patchMachineConditions] on one Machine. *)
Definition patch_one (v1beta2Condition : MetaCondition) (condition : option Condition)
    (errs : list error) (p : mptr) : M MsState (list error + list error) :=
  m ← mload p;
  err ← try_err (mcall (NewHelper m));
  match err with
  | Some e => mret (inl (errs ++ [e]))
  | None =>
      now ← gets (λ s, e_now env (z_calls s));
      let m := match condition with Some c => Set_ now m (Some c) | None => m end in
      let m := v1beta2_Set now now m v1beta2Condition in
      _ ← mstore p m;
      err ← try_err (mcall (PatchMachine m));
      mret (inl (match err with Some e => errs ++ [e] | None => errs end))
  end.

Definition patchMachineConditions (machines : list mptr) (v1beta2Condition : MetaCondition)
    (condition : option Condition) : M MsState unit :=
  errs ← foldM (patch_one v1beta2Condition condition) [] machines;
  match errs with
  | [] => mret tt
  | _ => throw (Wrap "failed to patch Machines" (NewAggregate errs))
  end.

(** Removes a stale OwnerRemediated condition from one healthy Machine. *)
Definition cleanup_remediated (errList : list error) (p : mptr) :
    M MsState (list error + list error) :=
  m ← mload p;
  if is_deleting m then mret (inl errList)
  else
    let shouldCleanup := IsTrue m MachineHealthCheckSucceededCondition
      && IsFalse m MachineOwnerRemediatedCondition in
    let shouldCleanupV1Beta2 := v1beta2_IsTrue m MachineHealthCheckSucceededV1Beta2Condition
      && v1beta2_IsFalse m MachineOwnerRemediatedV1Beta2Condition in
    if negb (shouldCleanup || shouldCleanupV1Beta2) then mret (inl errList)
    else
      err ← try_err (mcall (NewHelper m));
      match err with
      | Some e => mret (inl (errList ++ [e]))
      | None =>
          let m := if shouldCleanup then Delete m MachineOwnerRemediatedCondition else m in
          m ← (if shouldCleanupV1Beta2
               then lift (v1beta2_Delete m MachineOwnerRemediatedV1Beta2Condition) else mret m);
          _ ← mstore p m;
          err ← try_err (mcall (PatchMachine m));
          mret (inl (match err with Some e => errList ++ [e] | None => errList end))
      end.

(** [collections.FromMachines(machines...)], on pointers. *)
Definition by_name (h : gmap mptr Machine) (machines : list mptr) : gmap string mptr :=
  foldl (λ s p, <[m_Name (mheap_get h p) := p]> s) ∅ machines.

Definition to_remediate (h : gmap mptr Machine) (machines : list mptr) : list mptr :=
  go_values (filter (λ '(_, p), And [IsUnhealthyAndOwnerRemediated; Not HasDeletionTimestamp]
    (Some (mheap_get h p)) = true) (by_name h machines)).

(** Machines that are being deleted because this controller remediated them. *)
Definition remediation_in_flight (h : gmap mptr Machine) (machines : list mptr) : Z :=
  Z.of_nat (length (filter (λ p, is_deleting (mheap_get h p) = true ∧
    IsTrue (mheap_get h p) MachineOwnerRemediatedCondition = true) machines)).

Definition remediated_condition (reason message : string) : MetaCondition :=
  {| mc_Type := MachineOwnerRemediatedV1Beta2Condition; mc_Status := ConditionFalse;
     mc_ObservedGeneration := 0; mc_LastTransitionTime := zero_time; mc_Reason := reason;
     mc_Message := message |}.

Definition owner_remediated (status reason : string) (severity : ConditionSeverity)
    (message : string) : Condition :=
  {| c_Type := MachineOwnerRemediatedCondition; c_Status := status; c_Severity := severity;
     c_LastTransitionTime := zero_time; c_Reason := reason; c_Message := message |}.

Definition intstr_String (v : option IntOrString) : string :=
  match v with None => "<nil>" | Some (FromInt i) => FormatInt i | Some (FromString s) => s end.

(** [owner.Spec.Strategy.Remediation.MaxInFlight], through pointers that may be nil. *)
Definition deferred_message (owner : option MachineDeployment) : result string :=
  md ← deref owner;
  strategy ← deref (mds_Strategy (md_Spec md));
  remediation ← deref (mdst_Remediation strategy);
  Ok ("Waiting because there are already too many remediations in progress (spec.strategy.remediation.maxInFlight is "
    +:+ intstr_String (rs_MaxInFlight remediation) +:+ ")").

Definition remediation_MaxInFlight (md : MachineDeployment) : option IntOrString :=
  match mds_Strategy (md_Spec md) with
  | Some strategy =>
      match mdst_Remediation strategy with
      | Some remediation => rs_MaxInFlight remediation
      | None => None
      end
  | None => None
  end.

(** The limit of the deployment, or none; [inr] when the MachineSet is not the current one. *)
Definition max_in_flight (ms : MachineSet) (owner : option MachineDeployment) : result (Z + unit) :=
  if negb (isDeploymentChild ms) then Ok (inl int64_max)
  else
    match owner with
    | None => Panic
    | Some md =>
        if negb (String.eqb (lookup_string (md_Annotations md) RevisionAnnotation)
                   (lookup_string (ms_Annotations ms) RevisionAnnotation))
        then Ok (inr tt)
        else
          match remediation_MaxInFlight md with
          | None => Ok (inl int64_max)
          | Some limit =>
              match GetScaledValueFromIntOrPercent (Some limit) (default 1 (md_Replicas md)) true with
              | Ok n => Ok (inl n)
              | Err e => Err (Wrap "failed to calculate maxInFlight to remediate machines" e)
              | Panic => Panic
              end
          end
    end.

Definition newest_first_less (h : gmap mptr Machine) (p q : mptr) : bool :=
  om_CreationTimestamp (m_Meta (mheap_get h q)) <? om_CreationTimestamp (m_Meta (mheap_get h p)).

(** Deletes the Machines; a Machine that is already gone is no error. *)
Definition delete_unhealthy (errs : list error) (p : mptr) : M MsState (list error + list error) :=
  m ← mload p;
  err ← try_err (mcall (DeleteMachine m));
  mret (inl (match err with
             | Some e => if IsNotFound e then errs
                         else errs ++ [Wrap ("failed to delete Machine " +:+ e_KRef env (om_Namespace (m_Meta m)) (m_Name m)) e]
             | None => errs
             end)).

(** Preflight checks, then the conditions, then the deletions. *)
Definition remediate (machinesToRemediate : list mptr) : M MsState ctrl_Result := λ s,
  let '(checks, s') := ms_runPreflightChecks "Machine remediation" s in
  let waiting (msg : string) : M MsState unit :=
    patchMachineConditions machinesToRemediate (remediated_condition "RemediationDeferred" msg)
      (Some (owner_remediated ConditionFalse "WaitingForRemediation" ConditionSeverityWarning msg)) in
  let go_on : M MsState ctrl_Result :=
    _ ← patchMachineConditions machinesToRemediate
          (remediated_condition "MachineDeleted" "Machine deletionTimestamp set")
          (Some (owner_remediated ConditionTrue "" ConditionSeverityNone ""));
    errs ← foldM delete_unhealthy [] machinesToRemediate;
    match errs with
    | [] => mret zero_Result
    | _ => throw (Wrap "failed to delete unhealthy Machines" (NewAggregate errs))
    end in
  match checks with
  | Panic => (Panic, s')
  | Err e => (_ ← waiting (e_errorString env e); mret zero_Result) s'
  | Ok (result, msg) =>
      (if negb (ctrl_Result_IsZero result) then _ ← waiting msg; mret result else go_on) s'
  end.

Definition reconcileUnhealthyMachines (owner : option MachineDeployment) : M MsState ctrl_Result :=
  adopted ← gets z_adopted;
  if negb (adopted : bool) then mret zero_Result
  else
    machines ← gets z_machines;
    errList ← foldM cleanup_remediated [] machines;
    match errList with
    | _ :: _ =>
        throw (Wrap "failed to remove OwnerRemediated condition from healhty Machines"
          (NewAggregate errList))
    | [] =>
        h ← gets z_heap;
        ms ← gets z_ms;
        let machinesToRemediate := to_remediate h machines in
        match machinesToRemediate with
        | [] => mret zero_Result
        | _ =>
            limit ← lift (max_in_flight ms owner);
            match limit with
            | inr _ =>
                _ ← patchMachineConditions machinesToRemediate
                      (remediated_condition "CannotBeRemediated"
                         "Machine won't be remediated because it is pending removal due to rollout")
                      None;
                mret zero_Result
            | inl limit =>
                let maxInFlight := limit - remediation_in_flight h machines in
                if maxInFlight <=? 0 then
                  msg ← lift (deferred_message owner);
                  _ ← patchMachineConditions machinesToRemediate
                        (remediated_condition "RemediationDeferred" msg) None;
                  mret zero_Result
                else
                  let sorted := insertion_sort (newest_first_less h) machinesToRemediate in
                  if maxInFlight <? Z.of_nat (length sorted) then
                    msg ← lift (deferred_message owner);
                    _ ← patchMachineConditions (drop (Z.to_nat maxInFlight) sorted)
                          (remediated_condition "RemediationDeferred" msg) None;
                    remediate (take (Z.to_nat maxInFlight) sorted)
                  else remediate sorted
            end
        end
    end.

(** ** In-place propagation *)

Definition updateExternalObject (ref : ObjectReference) : M MsState unit :=
  ms ← gets z_ms;
  mwrap ("failed to update " +:+ ref_Name ref)
    (mcall (ApplyExternal ref (machineLabelsFromMachineSet ms) (machineAnnotationsFromMachineSet ms))).

Definition sync_external (what : string) (ref : ObjectReference) : M MsState unit :=
  _ ← mwrap ("failed to get " +:+ what) (mcall (GetExternal ref));
  _ ← mwrap ("failed to update machine: failed to adjust the managedFields of the " +:+ what)
        (mcall (DropManagedFields ref));
  mwrap ("failed to update " +:+ what) (updateExternalObject ref).

Definition set_up_to_date (p : mptr) (upToDateCondition : option MetaCondition) : M MsState unit :=
  match upToDateCondition with
  | None => mret tt
  | Some c =>
      now ← gets (λ s, e_now env (z_calls s));
      m ← mload p;
      mstore p (v1beta2_Set now now m c)
  end.

Definition patch_machine (p : mptr) : M MsState unit :=
  m ← mload p; mcall (PatchMachine m).

(** One Machine; the answer is the pointer that replaces it in the slice. *)
Definition sync_machine (upToDateCondition : option MetaCondition) (p : mptr) : M MsState mptr :=
  m ← mload p;
  ms ← gets z_ms;
  if is_deleting m then
    _ ← mcall (NewHelper m);
    _ ← mstore p (m_set_Spec
          (sp_set_mutable (mt_Spec (mss_Template (ms_Spec ms))) (m_Spec m)) m);
    _ ← set_up_to_date p upToDateCondition;
    _ ← patch_machine p;
    mret p
  else
    _ ← match upToDateCondition with
        | None => mret tt
        | Some _ =>
            _ ← mcall (NewHelper m);
            _ ← set_up_to_date p upToDateCondition;
            patch_machine p
        end;
    m ← mload p;
    _ ← mwrap "failed to update machine: failed to adjust the managedFields of the Machine"
          (mcall (CleanUpManagedFields m));
    calls ← gets z_calls;
    q ← malloc (computeDesiredMachine ms (Some m) (e_generateName env calls (ms_Name ms +:+ "-")));
    _ ← mwrap "failed to update Machine" (m_ssa_Patch q (Some p));
    mret q.

Definition sync_externals (q : mptr) : M MsState unit :=
  updatedMachine ← mload q;
  _ ← sync_external "InfrastructureMachine" (sp_InfrastructureRef (m_Spec updatedMachine));
  match b_ConfigRef (sp_Bootstrap (m_Spec updatedMachine)) with
  | None => mret tt
  | Some ref => sync_external "BootstrapConfig" ref
  end.

Definition replace_machine (i : nat) (q : mptr) : M MsState unit :=
  modify (λ s, z_set_machines (<[i := q]> (z_machines s)) s).

Fixpoint sync_loop (upToDateCondition : option MetaCondition) (i : nat) (machines : list mptr) :
    M MsState unit :=
  match machines with
  | [] => mret tt
  | p :: rest =>
      m ← mload p;
      q ← sync_machine upToDateCondition p;
      _ ← (if is_deleting m then mret tt else _ ← replace_machine i q; sync_externals q);
      sync_loop upToDateCondition (S i) rest
  end.

Definition syncMachines (reconciliationTime : Time) (owner : option MachineDeployment) :
    M MsState ctrl_Result :=
  adopted ← gets z_adopted;
  if negb (adopted : bool) then mret zero_Result
  else
    ms ← gets z_ms;
    machines ← gets z_machines;
    _ ← sync_loop (newMachineUpToDateCondition reconciliationTime owner ms) 0 machines;
    mret zero_Result.

(** ** Phases *)

Definition phase : Type := M MsState ctrl_Result.

Definition wrapErrMachineSetReconcileFunc (f : phase) (msg : string) : phase := mwrap msg f.

(** Every phase runs; the requeue results count until the first error. *)
Fixpoint run_phases (phases : list phase) (res : ctrl_Result) (errs : list error) :
    M MsState (ctrl_Result * list error) :=
  match phases with
  | [] => mret (res, errs)
  | f :: phases => λ s,
      match f s with
      | (Panic, s') => (Panic, s')
      | (Err e, s') => run_phases phases res (errs ++ [e]) s'
      | (Ok phaseResult, s') =>
          run_phases phases
            (match errs with [] => LowestNonZeroResult res phaseResult | _ => res end) errs s'
      end
  end.

Definition doReconcile (phases : list phase) : phase :=
  '(res, errs) ← run_phases phases zero_Result [];
  match errs with
  | [] => mret res
  | _ => throw (NewAggregate errs)
  end.
End controller.
