(* ===== verification/MachineSetSpec.v ===== *)
(** * Theory of the MachineSet controller

    Which calls the operations of MachineSet.v make and what they do to the Machines.  The
    relation [runs P R] is the one of the prelude at the log of calls. *)

From S2P Require Import Prelude GoStd Api Apimachinery Util Conditions Version Collections.
From S2P Require Import ConditionsV1Beta2 MdUtil MachineSetPolicy MachineSet.

(** ** Actions and their calls *)

Abbreviation runs := (logged z_calls).

Lemma runs_mcall (P : MsCall → Prop) (R : MsState → MsState → Prop) env c :
  P c → (∀ s, R s (z_add_call c s)) → runs P R (mcall env c).
Proof.
  intros HP HR s r s' E. unfold mcall in E. assert (s' = z_add_call c s) as ->.
  { by destruct (e_error env (z_calls s) c); injection E. }
  split; [done|]. exists [c]. split; [done|]. by constructor.
Qed.

Lemma runs_mload (P : MsCall → Prop) (R : MsState → MsState → Prop) `{!PreOrder R} p :
  runs P R (mload p).
Proof. by apply runs_gets. Qed.
(** The Machines keep their metadata, and the scope its Machines. *)
Record same_meta (s s' : MsState) : Prop := {
  sm_machines : z_machines s' = z_machines s;
  sm_ms : z_ms s' = z_ms s;
  sm_meta : ∀ p, m_Meta (mheap_get (z_heap s') p) = m_Meta (mheap_get (z_heap s) p);
}.

#[global] Instance same_meta_preorder : PreOrder same_meta.
Proof.
  split; [by split|]. intros s1 s2 s3 [? ? H12] [? ? H23].
  split; [congruence..|]. intros p. by rewrite H23.
Qed.

Lemma same_meta_call c s : same_meta s (z_add_call c s).
Proof. by split. Qed.

Lemma same_meta_store p m s :
  m_Meta m = m_Meta (mheap_get (z_heap s) p) → same_meta s (z_set_heap (<[p := m]> (z_heap s)) s).
Proof.
  intros Hm. split; try done. intros q. simpl. unfold mheap_get.
  destruct (decide (q = p)) as [->|Hne].
  - by rewrite lookup_insert_eq.
  - by rewrite lookup_insert_ne.
Qed.

Create HintDb runs.
#[export] Hint Resolve runs_ret runs_throw runs_lift runs_gets runs_bind runs_try_err
  runs_mwrap runs_mload same_meta_call same_meta_preorder : runs.

Definition deletes (c : MsCall) : Prop := match c with DeleteMachine _ => True | _ => False end.
#[global] Instance deletes_dec c : Decision (deletes c).
Proof. destruct c; apply _. Defined.

Definition creates (c : MsCall) : Prop := match c with ApplyMachine _ => True | _ => False end.
#[global] Instance creates_dec c : Decision (creates c).
Proof. destruct c; apply _. Defined.

(** Calls that neither create nor delete a Machine. *)
Definition quiet (c : MsCall) : Prop :=
  match c with DeleteMachine _ | ApplyMachine _ => False | _ => True end.

Lemma quiet_spec c : quiet c → ¬ deletes c ∧ ¬ creates c.
Proof. destruct c; simpl; tauto. Qed.

(** Nothing but the list of calls changes. *)
Record frozen (s s' : MsState) : Prop := {
  fr_heap : z_heap s' = z_heap s;
  fr_ms : z_ms s' = z_ms s;
  fr_machines : z_machines s' = z_machines s;
}.

#[global] Instance frozen_preorder : PreOrder frozen.
Proof. split; [by split|]. intros s1 s2 s3 [] []. split; congruence. Qed.

Lemma frozen_call c s : frozen s (z_add_call c s).
Proof. by split. Qed.
#[export] Hint Resolve frozen_call frozen_preorder : runs.

Section theory.
Context `{Apimachinery} `{Semver} `{GoSort} `{GoRange} `{MetaConditions} (env : MsEnv).

(** ** Scaling down *)

Definition reads (c : MsCall) : Prop := match c with GetMachine _ => True | _ => False end.

Lemma poll_deleted_runs polls name : runs reads frozen (poll_deleted env polls name).
Proof.
  induction polls as [|polls IH]; simpl; [apply runs_throw, _|].
  apply runs_bind; [apply _|apply runs_gets, _|]. intros calls.
  apply runs_bind; [apply _| |].
  - apply runs_try_err, runs_mcall; [done|]. intros. apply frozen_call.
  - intros [e|].
    + destruct (IsNotFound e); [apply runs_ret, _|apply runs_throw, _].
    + destruct (is_deleting _); [apply runs_ret, _|done].
Qed.

Lemma waitForMachineDeletion_runs l : runs reads frozen (waitForMachineDeletion env l).
Proof.
  apply runs_forM; [apply _|]. intros p _. apply runs_bind; [apply _|apply runs_mload, _|].
  intros m. apply runs_bind; [apply _|apply runs_gets, _|]. intros calls. apply runs_mwrap, poll_deleted_runs.
Qed.

(** The Machines of a list of pointers that are not yet being deleted. *)
Definition pending (h : gmap nat Machine) (l : list nat) : list Machine :=
  filter (λ m, is_deleting m = false) (mheap_get h <$> l).

Lemma delete_machines_exact l errs s :
  ∃ errs' s', delete_machines env l errs s = (Ok errs', s') ∧ frozen s s' ∧
    z_calls s' = z_calls s ++ (DeleteMachine <$> pending (z_heap s) l).
Proof.
  unfold delete_machines. revert errs s. induction l as [|p l IH]; intros errs s; simpl.
  { exists errs, s. split_and!; [done|done|]. by rewrite app_nil_r. }
  unfold pending. rewrite fmap_cons, filter_cons. fold (pending (z_heap s) l).
  unfold mbind, M_bind, mload, gets at 1. simpl.
  destruct (is_deleting (mheap_get (z_heap s) p)) eqn:Ed.
  - rewrite decide_False by done. apply IH.
  - rewrite decide_True by done.
    unfold try_err, mcall. destruct (e_error env (z_calls s) _) as [e|]; simpl;
      edestruct IH as (errs' & s' & E & Hf & Hc); exists errs', s';
      (split; [exact E|]); (split; [etrans; [apply frozen_call|exact Hf]|]);
      rewrite Hc; simpl; by rewrite <- app_assoc.
Qed.

Lemma scale_down_outcome diff s r s' priority :
  getDeletePriorityFunc (e_Exp env) (e_now env (z_calls s)) (z_ms s) = Ok priority →
  scale_down env diff s = (r, s') →
  let '(chosen, sorted) :=
    getMachinesToDeletePrioritized (mheap_get (z_heap s)) (z_machines s) diff priority in
  z_heap s' = z_heap s ∧ z_ms s' = z_ms s ∧ z_machines s' = sorted ∧
  ∃ gets, z_calls s' = z_calls s ++ (DeleteMachine <$> pending (z_heap s) chosen) ++ gets ∧
    Forall reads gets.
Proof.
  intros Hp E. unfold scale_down in E. unfold mbind, M_bind, gets, lift in E. rewrite Hp in E.
  destruct (getMachinesToDeletePrioritized _ _ _ _) as [chosen sorted].
  unfold modify in E. simpl in E.
  destruct (delete_machines_exact chosen [] (z_set_machines sorted s))
    as (errs & s1 & E1 & [Hh Hms Hm] & Hc).
  rewrite E1 in E. simpl in Hh, Hms, Hm, Hc. destruct errs as [|e errs].
  - destruct (waitForMachineDeletion env chosen s1) as [x s2] eqn:E2.
    destruct (waitForMachineDeletion_runs chosen _ _ _ E2) as ([Hh2 Hms2 Hm2] & gets & Hg & Hgs).
    assert (s' = s2) as -> by (destruct x; by injection E).
    split_and!; [congruence..|]. exists gets. by rewrite Hg, Hc, app_assoc.
  - injection E as <- <-. split_and!; [done..|]. exists []. by rewrite app_nil_r.
Qed.

(** ** Scaling up *)

Definition same_machines (s s' : MsState) : Prop := z_machines s' = z_machines s.

#[global] Instance same_machines_preorder : PreOrder same_machines.
Proof. split; unfold same_machines; [done|]. intros s1 s2 s3 E1 E2. congruence. Qed.

(** How many Machines were sent to the API. *)
Definition applied (cs : list MsCall) : nat := length (filter creates cs).

Lemma applied_app cs cs' : applied (cs ++ cs') = (applied cs + applied cs')%nat.
Proof. unfold applied. by rewrite filter_app, length_app. Qed.

Lemma applied_none cs : Forall (λ c, ¬ creates c) cs → applied cs = 0%nat.
Proof. unfold applied. induction 1; [done|]. by rewrite filter_cons_False. Qed.

(** An action that returns [a] after [n] creations satisfies [Q a n]; one that fails has made
    at most [B]. *)
Definition spends {A} (m : M MsState A) (Q : A → nat → Prop) (B : nat) : Prop :=
  ∀ s r s', m s = (r, s') → same_machines s s' ∧
    ∃ cs, z_calls s' = z_calls s ++ cs ∧ Forall (λ c, ¬ deletes c) cs ∧
      match r with Ok a => Q a (applied cs) | _ => (applied cs ≤ B)%nat end.

Lemma spends_bind {A C} (m : M MsState A) (f : A → M MsState C) Q1 Q B :
  spends m Q1 B →
  (∀ a n, Q1 a n → (n ≤ B)%nat ∧ spends (f a) (λ c k, Q c (n + k)%nat) (B - n)) →
  spends (m ≫= f) Q B.
Proof.
  intros Hm Hf s r s' E. unfold mbind, M_bind in E.
  destruct (m s) as [[a|e|] s1] eqn:E1; destruct (Hm _ _ _ E1) as (Hs & cs & Hcs & Hd & HQ).
  - destruct (Hf a _ HQ) as [Hle Hfa].
    destruct (Hfa _ _ _ E) as (Hs' & cs' & Hcs' & Hd' & HQ'). split; [by etrans|].
    exists (cs ++ cs'). rewrite Hcs', Hcs, app_assoc. split; [done|]. split; [by apply Forall_app|].
    rewrite applied_app. destruct r; [done|lia|lia].
  - injection E as <- <-. eauto.
  - injection E as <- <-. eauto.
Qed.

(** An action without creations and deletions costs nothing. *)
Lemma spends_quiet {A} (m : M MsState A) B :
  runs quiet same_machines m → spends m (λ _ n, n = 0%nat) B.
Proof.
  intros Hm s r s' E. destruct (Hm _ _ _ E) as (Hs & cs & Hcs & Hq). split; [done|].
  exists cs. split; [done|]. split; [eapply Forall_impl; [exact Hq|]; by intros ? [? ?]%quiet_spec|].
  rewrite applied_none by (eapply Forall_impl; [exact Hq|]; by intros ? [? ?]%quiet_spec).
  destruct r; [done|lia|lia].
Qed.

Lemma spends_quiet_bind {A C} (m : M MsState A) (f : A → M MsState C) Q B :
  runs quiet same_machines m → (∀ a, spends (f a) Q B) → spends (m ≫= f) Q B.
Proof.
  intros Hm Hf. eapply spends_bind; [by apply spends_quiet|]. intros a n ->.
  split; [lia|]. rewrite Nat.sub_0_r. apply Hf.
Qed.

Lemma spends_ret {A} (a : A) (Q : A → nat → Prop) B : Q a 0%nat → spends (mret a) Q B.
Proof.
  intros HQ s r s' [= <- <-]. split; [done|]. exists []. rewrite app_nil_r. done.
Qed.

Lemma spends_throw {A} e (Q : A → nat → Prop) B : spends (throw e) Q B.
Proof.
  intros s r s' [= <- <-]. split; [done|]. exists []. rewrite app_nil_r.
  split_and!; try done. apply Nat.le_0_l.
Qed.

Lemma quiet_call c : quiet c → runs quiet same_machines (mcall env c).
Proof. intros Hc. by apply runs_mcall. Qed.

Lemma quiet_try_call c : quiet c → runs quiet same_machines (try_err (mcall env c)).
Proof. intros Hc. by apply runs_try_err, quiet_call. Qed.

Lemma quiet_mark f : runs quiet same_machines (mark_ms env f).
Proof. by apply runs_modify. Qed.

Lemma quiet_malloc m : runs quiet same_machines (malloc m).
Proof.
  intros s r s' [= <- <-]. split; [done|]. exists []. by rewrite app_nil_r.
Qed.

#[local] Hint Resolve quiet_call quiet_try_call quiet_mark quiet_malloc runs_gets : runs.

(** Sending a Machine to the API is one creation. *)
Lemma spends_apply p :
  spends (try_err (m_ssa_Patch env p None)) (λ _ n, n = 1%nat) 1.
Proof.
  intros s r s' E. unfold try_err, m_ssa_Patch, mload, gets, mbind, M_bind, mcall, mstore, modify in E.
  simpl in E. destruct (e_error env (z_calls s) _) as [e|]; injection E as <- <-;
    (split; [done|]); eexists; (split; [done|]); (split; [|done]); repeat constructor; by intros [].
Qed.

Lemma create_machine_spends acc :
  spends (create_machine env acc)
    (λ acc' n, n = 1%nat ∧ (length acc'.1 + length acc'.2 = S (length acc.1 + length acc.2))%nat) 1.
Proof.
  destruct acc as [errs machineList]. unfold create_machine.
  apply spends_quiet_bind; [apply runs_gets, _|]. intros ms.
  apply spends_quiet_bind; [apply runs_gets, _|]. intros calls.
  set (template := mt_Spec _). set (machine := computeDesiredMachine _ _ _ _).
  apply spends_quiet_bind.
  { destruct (b_ConfigRef (sp_Bootstrap template)) as [ref|]; [|apply runs_ret, _].
    apply runs_bind; [apply _|apply runs_gets, _|]. intros calls'.
    apply runs_bind; [apply _|by apply quiet_try_call|]. intros [e|]; [|apply runs_ret, _].
    apply runs_bind; [apply _|apply quiet_mark|]. intros _. apply runs_throw, _. }
  intros bootstrapRef. apply spends_quiet_bind; [apply runs_gets, _|]. intros calls'.
  apply spends_quiet_bind; [by apply quiet_try_call|]. intros [e|].
  { apply spends_quiet_bind; [apply quiet_mark|]. intros _. apply spends_throw. }
  apply spends_quiet_bind; [apply quiet_malloc|]. intros p.
  eapply spends_bind; [apply spends_apply|]. intros [e|] n ->; (split; [lia|]).
  - apply spends_quiet_bind; [apply quiet_mark|]. intros _.
    apply spends_quiet_bind; [by apply quiet_try_call|]. intros _.
    apply spends_quiet_bind; [destruct bootstrapRef; [by apply quiet_try_call|apply runs_ret, _]|].
    intros _. apply spends_ret. simpl. rewrite length_app. simpl. lia.
  - apply spends_ret. simpl. rewrite length_app. simpl. lia.
Qed.

Lemma create_machines_spends n acc :
  spends (create_machines env n acc)
    (λ acc' k, k = n ∧ (length acc'.1 + length acc'.2 = n + (length acc.1 + length acc.2))%nat) n.
Proof.
  revert acc. induction n as [|n IH]; intros acc; simpl; [by apply spends_ret|].
  eapply spends_bind.
  - intros s r s' E. destruct (create_machine_spends acc _ _ _ E) as (Hs & cs & Hcs & Hd & HQ).
    split; [done|]. exists cs. split; [done|]. split; [done|].
    instantiate (1 := λ acc' n, n = 1%nat ∧
      (length acc'.1 + length acc'.2 = S (length acc.1 + length acc.2))%nat).
    destruct r; [done|lia|lia].
  - intros acc' k [-> Hl]. split; [lia|]. replace (S n - 1)%nat with n by lia.
    intros s r s' E. destruct (IH acc' _ _ _ E) as (Hs & cs & Hcs & Hd & HQ).
    split; [done|]. exists cs. split; [done|]. split; [done|].
    destruct r as [acc''| |]; [|done|done]. destruct HQ as [-> Hl']. split; lia.
Qed.

Lemma poll_created_runs polls name : runs quiet same_machines (poll_created env polls name).
Proof.
  induction polls as [|polls IH]; simpl; [apply runs_throw, _|].
  apply runs_bind; [apply _|by apply quiet_try_call|]. intros [e|]; [|apply runs_ret, _].
  destruct (IsNotFound e); [done|apply runs_throw, _].
Qed.

Lemma waitForMachineCreation_runs l : runs quiet same_machines (waitForMachineCreation env l).
Proof.
  apply runs_forM; [apply _|]. intros p _. apply runs_bind; [apply _|apply runs_mload, _|].
  intros m. apply runs_bind; [apply _|apply runs_gets, _|]. intros calls. apply runs_mwrap, poll_created_runs.
Qed.

Lemma preflight_runs (R : MsState → MsState → Prop) `{!PreOrder R} action :
  (∀ c s, R s (z_add_call c s)) → runs quiet R (ms_runPreflightChecks env action).
Proof.
  intros HR s r s' E. unfold ms_runPreflightChecks, mcall in E.
  destruct (_ && _ && _).
  - destruct (e_error env (z_calls s) GetControlPlane); injection E as <- <-;
      (split; [apply HR|]); exists [GetControlPlane]; (split; [done|]); by repeat constructor.
  - injection E as <- <-. split; [done|]. exists []. by rewrite app_nil_r.
Qed.

Lemma scale_up_spends n diff :
  spends (scale_up env n diff) (λ _ k, k = 0%nat ∨ k = Z.to_nat diff) (Z.to_nat diff).
Proof.
  unfold scale_up. apply spends_quiet_bind; [apply runs_gets, _|]. intros ms.
  case_bool_decide; [by apply spends_ret; left|].
  intros s r s' E. pose proof (preflight_runs same_machines "Scale up" (λ _ _, eq_refl)) as Hpre.
  destruct (ms_runPreflightChecks env "Scale up" s) as [x s1] eqn:E1.
  destruct (Hpre _ _ _ E1) as (Hs & cs & Hcs & Hq).
  assert (∀ m : M MsState ctrl_Result,
    spends m (λ _ k, k = 0%nat ∨ k = Z.to_nat diff) (Z.to_nat diff) → m s1 = (r, s') →
    same_machines s s' ∧ ∃ cs, z_calls s' = z_calls s ++ cs ∧ Forall (λ c, ¬ deletes c) cs ∧
      match r with Ok _ => applied cs = 0%nat ∨ applied cs = Z.to_nat diff
                 | _ => (applied cs ≤ Z.to_nat diff)%nat end) as Hafter.
  { intros m Hm Em. destruct (Hm _ _ _ Em) as (Hs' & cs' & Hcs' & Hd & HQ).
    split; [by etrans|]. exists (cs ++ cs'). rewrite Hcs', Hcs, app_assoc. split; [done|].
    split; [apply Forall_app; split; [|done]; eapply Forall_impl; [exact Hq|]; by intros ? [? ?]%quiet_spec|].
    rewrite applied_app, (applied_none cs); [done|].
    eapply Forall_impl; [exact Hq|]. by intros ? [? ?]%quiet_spec. }
  assert (∀ msg, runs quiet same_machines
    (_ ← modify (z_set_scaleUpMessage msg); mark_ms env (λ now ms, MarkFalse now ms
       MachinesCreatedCondition "PreflightCheckFailed" ConditionSeverityError msg))) as Hfail.
  { intros msg. apply runs_bind; [apply _|by apply runs_modify|]. intros _. apply quiet_mark. }
  destruct x as [[result msg]|e|]; cbv zeta in E.
  - destruct (negb (ctrl_Result_IsZero result)).
    + eapply Hafter, E. apply spends_quiet_bind; [apply Hfail|]. intros _. apply spends_ret. by left.
    + eapply Hafter, E. eapply spends_bind; [apply create_machines_spends|].
      intros [errs l] k [-> Hl]. split; [lia|]. destruct errs.
      * apply spends_quiet_bind; [apply waitForMachineCreation_runs|]. intros _.
        apply spends_ret. right. lia.
      * apply spends_throw.
  - eapply Hafter, E. apply spends_quiet_bind; [apply Hfail|]. intros _. apply spends_throw.
  - injection E as <- <-. split; [done|]. exists cs. split; [done|].
    split; [eapply Forall_impl; [exact Hq|]; by intros ? [? ?]%quiet_spec|].
    rewrite applied_none; [lia|]. eapply Forall_impl; [exact Hq|]. by intros ? [? ?]%quiet_spec.
Qed.

(** ** Remediation *)

Lemma Set_meta now (m : Machine) c : m_Meta (Set_ now m c) = m_Meta m.
Proof. unfold Set_. by repeat case_match. Qed.

Lemma v1beta2_Set_meta now apiNow (m : Machine) c : m_Meta (v1beta2_Set now apiNow m c) = m_Meta m.
Proof. unfold v1beta2_Set, v1beta2_Set_sorted. by repeat case_match. Qed.

Lemma patch_one_runs v1beta2Condition condition errs p :
  runs quiet same_meta (patch_one env v1beta2Condition condition errs p).
Proof.
  intros s r s' E. unfold patch_one, mbind, M_bind, mload, gets, try_err, mcall, mstore, modify in E.
  simpl in E. destruct (e_error env (z_calls s) _) as [e|]; simpl in E.
  { injection E as <- <-. split; [apply same_meta_call|]. eexists. split; [done|]. by repeat constructor. }
  set (m' := v1beta2_Set _ _ _ _) in E.
  assert (m_Meta m' = m_Meta (mheap_get (z_heap s) p)) as Hm'.
  { unfold m'. rewrite v1beta2_Set_meta. by destruct condition. }
  assert (s' = z_add_call (PatchMachine m') (z_set_heap (<[p := m']> (z_heap s))
    (z_add_call (NewHelper (mheap_get (z_heap s) p)) s))) as ->.
  { by destruct (e_error env _ _); injection E. }
  split.
  - etrans; [apply same_meta_call|]. etrans; [|apply same_meta_call].
    by apply (same_meta_store p m' (z_add_call (NewHelper _) s)).
  - eexists. simpl. rewrite <- app_assoc. split; [done|]. by repeat constructor.
Qed.

Lemma patchMachineConditions_runs l v1beta2Condition condition :
  runs quiet same_meta (patchMachineConditions env l v1beta2Condition condition).
Proof.
  apply runs_bind; [apply _| |].
  - apply runs_foldM; [apply _|]. intros. apply patch_one_runs.
  - intros [|e errs]; [apply runs_ret, _|apply runs_throw, _].
Qed.

(** What cleaning up stale conditions may do to the Machines. *)
Record cleaned (s s' : MsState) : Prop := {
  cl_meta : same_meta s s';
  cl_deleting : ∀ p, is_deleting (mheap_get (z_heap s) p) = true →
    mheap_get (z_heap s') p = mheap_get (z_heap s) p;
  cl_unhealthy : ∀ p, IsUnhealthyAndOwnerRemediated (Some (mheap_get (z_heap s') p)) = true →
    IsUnhealthyAndOwnerRemediated (Some (mheap_get (z_heap s) p)) = true;
}.

#[global] Instance cleaned_preorder : PreOrder cleaned.
Proof.
  split; [by split|]. intros s1 s2 s3 [M1 D1 U1] [M2 D2 U2]. split; [by etrans| |auto].
  intros p Hp. rewrite D2; [auto|]. rewrite D1; done.
Qed.

Lemma cleaned_call c s : cleaned s (z_add_call c s).
Proof. by split; [apply same_meta_call| |]. Qed.

Lemma cleaned_store p m s :
  is_deleting (mheap_get (z_heap s) p) = false →
  m_Meta m = m_Meta (mheap_get (z_heap s) p) →
  (IsUnhealthyAndOwnerRemediated (Some m) = true →
   IsUnhealthyAndOwnerRemediated (Some (mheap_get (z_heap s) p)) = true) →
  cleaned s (z_set_heap (<[p := m]> (z_heap s)) s).
Proof.
  intros Hd Hm Hu. split; [by apply same_meta_store|..]; intros q; simpl; unfold mheap_get;
    (destruct (decide (q = p)) as [->|Hne]; [rewrite lookup_insert_eq|by rewrite lookup_insert_ne]).
  - intros Hdel. unfold mheap_get in Hd. congruence.
  - exact Hu.
Qed.

Lemma IsFalse_Delete (m : Machine) t : IsFalse (Delete m t) t = false.
Proof.
  unfold IsFalse, Get, Delete. simpl.
  assert (find_condition t (filter (λ c, c_Type c ≠ t) (st_Conditions (m_Status m))) = None) as ->; [|done].
  induction (st_Conditions (m_Status m)) as [|c cs IH]; [done|]. rewrite filter_cons.
  case_decide; [|done]. simpl. by rewrite bool_decide_eq_false_2.
Qed.

Lemma v1beta2_Delete_conditions (m m' : Machine) t :
  v1beta2_Delete m t = Ok m' → m_Meta m' = m_Meta m ∧ st_Conditions (m_Status m') = st_Conditions (m_Status m).
Proof. unfold v1beta2_Delete. case_match; [done|]. by intros [= <-]. Qed.

(** A Machine from which the stale conditions were removed. *)
Lemma cleanup_machine (m m1 m' : Machine) (a b : bool) :
  a = IsTrue m MachineHealthCheckSucceededCondition && IsFalse m MachineOwnerRemediatedCondition →
  m1 = (if a then Delete m MachineOwnerRemediatedCondition else m) →
  (if b then v1beta2_Delete m1 MachineOwnerRemediatedV1Beta2Condition else Ok m1) = Ok m' →
  m_Meta m' = m_Meta m ∧
  (IsUnhealthyAndOwnerRemediated (Some m') = true → IsUnhealthyAndOwnerRemediated (Some m) = true).
Proof.
  intros Ha -> E.
  assert (m_Meta m' = m_Meta m ∧ st_Conditions (m_Status m') =
    st_Conditions (m_Status (if a then Delete m MachineOwnerRemediatedCondition else m))) as [Hm Hc].
  { destruct b; [|injection E as <-; by destruct a].
    apply v1beta2_Delete_conditions in E as [-> ->]. by destruct a. }
  split; [done|]. simpl. unfold IsFalse at 1 2, Get. simpl. rewrite Hc.
  destruct a; [|done]. fold (GetConditions (Delete m MachineOwnerRemediatedCondition)).
  fold (Get (Delete m MachineOwnerRemediatedCondition) MachineOwnerRemediatedCondition).
  fold (IsFalse (Delete m MachineOwnerRemediatedCondition) MachineOwnerRemediatedCondition).
  intros [_ Hf]%andb_true_iff. exfalso.
  pose proof (IsFalse_Delete m MachineOwnerRemediatedCondition) as Hd.
  unfold IsFalse, Get in Hd. simpl in Hd, Hf. congruence.
Qed.

Lemma cleanup_remediated_runs errs p : runs quiet cleaned (cleanup_remediated env errs p).
Proof.
  intros s r s' E. unfold cleanup_remediated, mbind, M_bind, mload, gets in E. cbn beta iota zeta in E.
  remember (mheap_get (z_heap s) p) as m eqn:Em. destruct (is_deleting m) eqn:Ed.
  { injection E as <- <-. split; [done|]. exists []. by rewrite app_nil_r. }
  remember (IsTrue m MachineHealthCheckSucceededCondition
    && IsFalse m MachineOwnerRemediatedCondition) as a eqn:Ha.
  remember (v1beta2_IsTrue m MachineHealthCheckSucceededV1Beta2Condition
    && v1beta2_IsFalse m MachineOwnerRemediatedV1Beta2Condition) as b eqn:Hb.
  destruct (negb (a || b)).
  { injection E as <- <-. split; [done|]. exists []. by rewrite app_nil_r. }
  unfold try_err, mcall in E. destruct (e_error env (z_calls s) (NewHelper m)) as [e|].
  { injection E as <- <-. split; [apply cleaned_call|]. eexists. split; [done|]. by repeat constructor. }
  remember (if a then Delete m MachineOwnerRemediatedCondition else m) as m1 eqn:Hm1.
  destruct (if b then v1beta2_Delete m1 MachineOwnerRemediatedV1Beta2Condition else Ok m1)
    as [m'| |] eqn:E1.
  - destruct (cleanup_machine m m1 m' a b Ha Hm1 E1) as [Hmeta Hun].
    assert (s' = z_add_call (PatchMachine m') (z_set_heap (<[p := m']> (z_heap s))
      (z_add_call (NewHelper m) s))) as ->.
    { destruct b; rewrite ?E1 in E; [|injection E1 as ->]; unfold lift, mstore, modify in E;
        simpl in E; rewrite ?E1 in E; destruct (e_error env _ _); by injection E. }
    split.
    + etrans; [apply cleaned_call|]. etrans; [|apply cleaned_call].
      apply (cleaned_store p m' (z_add_call (NewHelper m) s)); simpl; rewrite <- Em; done.
    + eexists. simpl. rewrite <- app_assoc. split; [done|]. by repeat constructor.
  - exfalso. destruct b; [|done]. unfold v1beta2_Delete in E1. by case_match.
  - destruct b; [|done]. unfold lift in E. rewrite E1 in E. injection E as <- <-.
    split; [apply cleaned_call|]. eexists. split; [done|]. by repeat constructor.
Qed.

Lemma by_name_elem h l k p : by_name h l !! k = Some p → p ∈ l.
Proof.
  unfold by_name. assert (∀ m : gmap string nat, (∀ k p, m !! k = Some p → p ∈ l) →
    ∀ l', (∀ p, p ∈ l' → p ∈ l) → ∀ k p,
    foldl (λ s p, <[m_Name (mheap_get h p) := p]> s) m l' !! k = Some p → p ∈ l) as Hind.
  { intros m Hm l'. revert m Hm. induction l' as [|q l' IH]; intros m Hm Hl' k' p'; simpl; [apply Hm|].
    apply IH; [|intros; apply Hl'; by right]. intros k2 p2 [[_ <-]|[_ Hk]]%lookup_insert_Some.
    - apply Hl'. left.
    - by eapply Hm. }
  apply Hind; [|done]. intros ? ?. by rewrite lookup_empty.
Qed.

Lemma elem_of_to_remediate h l p :
  p ∈ to_remediate h l → p ∈ l ∧ IsUnhealthyAndOwnerRemediated (Some (mheap_get h p)) = true ∧
    is_deleting (mheap_get h p) = false.
Proof.
  unfold to_remediate. intros [k [Hk Hp]%map_lookup_filter_Some]%elem_of_go_values.
  split; [by eapply by_name_elem|]. rewrite And_true in Hp.
  split; [apply Hp; left|]. specialize (Hp (Not HasDeletionTimestamp)). unfold is_deleting.
  apply negb_true_iff. apply Hp. right. left.
Qed.

Lemma to_remediate_length h l : (length (to_remediate h l) ≤ length l)%nat.
Proof.
  unfold to_remediate. rewrite length_go_values. etrans; [apply map_size_filter|].
  unfold by_name. rewrite <- (Nat.add_0_l (length l)).
  assert (∀ m : gmap string nat, (size (foldl (λ s p, <[m_Name (mheap_get h p) := p]> s) m l)
    ≤ size m + length l)%nat) as Hs; [|apply Hs].
  induction l as [|p l IH]; intros m; simpl; [lia|]. etrans; [apply IH|].
  rewrite map_size_insert. case_match; simpl; lia.
Qed.

Lemma in_flight_cleaned s s' l :
  cleaned s s' → remediation_in_flight (z_heap s') l = remediation_in_flight (z_heap s) l.
Proof.
  intros [[_ _ Hm] Hd _]. unfold remediation_in_flight. do 2 f_equal. apply list_filter_iff.
  intros p. unfold is_deleting in *. rewrite Hm. split; intros [Hdel Hc]; split; try done.
  - by rewrite <- Hd.
  - by rewrite Hd.
Qed.

Definition removed (cs : list MsCall) : Z := Z.of_nat (length (filter deletes cs)).

Lemma removed_app cs cs' : removed (cs ++ cs') = removed cs + removed cs'.
Proof. unfold removed. rewrite filter_app, length_app. lia. Qed.

Lemma removed_quiet cs : Forall quiet cs → removed cs = 0.
Proof.
  unfold removed. induction 1 as [|c cs Hc]; [done|]. rewrite filter_cons_False; [done|].
  by apply quiet_spec.
Qed.

(** Deletes one Machine of the list, as it is in the heap. *)
Definition deletes_one_of (s : MsState) (l : list nat) (c : MsCall) : Prop :=
  quiet c ∨ ∃ p m, p ∈ l ∧ c = DeleteMachine m ∧ m_Meta m = m_Meta (mheap_get (z_heap s) p).

(** At most [n] deletions, all of Machines in [l]. *)
Definition removes_within (l : list nat) (n : Z) (s s' : MsState) : Prop :=
  same_meta s s' ∧ ∃ cs, z_calls s' = z_calls s ++ cs ∧ Forall (deletes_one_of s l) cs ∧ removed cs ≤ n.

Lemma removes_within_quiet l n s s1 s' cs :
  same_meta s s1 → z_calls s1 = z_calls s ++ cs → Forall quiet cs →
  removes_within l n s1 s' → removes_within l n s s'.
Proof.
  intros Hm Hcs Hq (Hm' & cs' & Hcs' & Hd & Hn). split; [by etrans|].
  exists (cs ++ cs'). rewrite Hcs', Hcs, app_assoc. split; [done|]. split.
  - apply Forall_app. split; [eapply Forall_impl; [exact Hq|]; by left|].
    eapply Forall_impl; [exact Hd|]. intros c [?|(p & m & ? & ? & Em)]; [by left|].
    right. exists p, m. split_and!; try done. by rewrite Em, (sm_meta _ _ Hm).
  - rewrite removed_app, (removed_quiet cs) by done. lia.
Qed.

Lemma removes_within_stop {A} l n s (m : M MsState A) r s' :
  runs quiet same_meta m → 0 ≤ n → m s = (r, s') → removes_within l n s s'.
Proof.
  intros Hm Hn E. destruct (Hm _ _ _ E) as (Hs & cs & Hcs & Hq). split; [done|].
  exists cs. split; [done|]. rewrite removed_quiet by done.
  split; [|done]. eapply Forall_impl; [exact Hq|]. by left.
Qed.

Lemma delete_unhealthy_step errs p s :
  ∃ errs', delete_unhealthy env errs p s
    = (Ok (inl errs'), z_add_call (DeleteMachine (mheap_get (z_heap s) p)) s).
Proof.
  unfold delete_unhealthy, mbind, M_bind, mload, gets, try_err, mcall.
  destruct (e_error env (z_calls s) (DeleteMachine (mheap_get (z_heap s) p))); by eexists.
Qed.

Lemma delete_unhealthy_exact l errs s :
  ∃ errs' s', foldM (delete_unhealthy env) errs l s = (Ok errs', s') ∧ frozen s s' ∧
    z_calls s' = z_calls s ++ (DeleteMachine <$> (mheap_get (z_heap s) <$> l)).
Proof.
  revert errs s. induction l as [|p l IH]; intros errs s; cbn [foldM].
  { exists errs, s. split_and!; [done|done|]. by rewrite app_nil_r. }
  destruct (delete_unhealthy_step errs p s) as (errs1 & E1).
  unfold mbind, M_bind. rewrite E1. edestruct IH as (errs' & s' & E & Hf & Hc).
  exists errs', s'. split; [exact E|]. split; [etrans; [apply frozen_call|exact Hf]|].
  rewrite Hc. simpl. by rewrite <- app_assoc.
Qed.

Lemma removed_deletes (l : list Machine) : removed (DeleteMachine <$> l) = Z.of_nat (length l).
Proof.
  unfold removed. induction l as [|m l IH]; [done|]. rewrite fmap_cons.
  rewrite filter_cons_True by done. simpl length. lia.
Qed.

Lemma removes_deletions l errs s x s' :
  foldM (delete_unhealthy env) errs l s = (x, s') → removes_within l (Z.of_nat (length l)) s s'.
Proof.
  intros E. destruct (delete_unhealthy_exact l errs s) as (errs' & s1 & E1 & [Hh Hms Hmc] & Hc).
  rewrite E in E1. injection E1 as -> ->. split.
  - split; [done|done|]. intros p. by rewrite Hh.
  - eexists. split; [exact Hc|]. split.
    + apply Forall_fmap, Forall_fmap, Forall_forall. intros p Hp. right.
      exists p, (mheap_get (z_heap s) p). done.
    + rewrite removed_deletes, length_fmap. lia.
Qed.

Lemma remediate_removes l s r s' :
  remediate env l s = (r, s') → removes_within l (Z.of_nat (length l)) s s'.
Proof.
  unfold remediate. intros E.
  destruct (ms_runPreflightChecks env "Machine remediation" s) as [x s1] eqn:E1.
  destruct (preflight_runs same_meta "Machine remediation" same_meta_call _ _ _ E1)
    as (Hm & cs & Hcs & Hq).
  apply (removes_within_quiet _ _ _ _ _ _ Hm Hcs Hq). destruct x as [[result msg]|e|]; cbv zeta in E.
  - destruct (negb (ctrl_Result_IsZero result)).
    + eapply removes_within_stop; [|lia|exact E].
      apply runs_bind; [apply _|apply patchMachineConditions_runs|]. intros _. apply runs_ret, _.
    + unfold mbind at 1, M_bind at 1 in E.
      destruct (patchMachineConditions _ _ _ _ s1) as [y s2] eqn:E2.
      destruct (patchMachineConditions_runs _ _ _ _ _ _ E2) as (Hm2 & cs2 & Hcs2 & Hq2).
      apply (removes_within_quiet _ _ _ _ _ _ Hm2 Hcs2 Hq2).
      destruct y as [[]|e|]; [|injection E as <- <-..].
      * unfold mbind, M_bind in E. destruct (foldM (delete_unhealthy env) [] l s2) as [z s3] eqn:E3.
        pose proof (removes_deletions _ _ _ _ _ E3) as Hr.
        assert (s' = s3) as ->; [|done].
        destruct z as [[|]|e|]; by injection E.
      * by eapply (removes_within_stop _ _ _ (mret tt)); [apply runs_ret, _|lia|].
      * by eapply (removes_within_stop _ _ _ (mret tt)); [apply runs_ret, _|lia|].
  - eapply removes_within_stop; [|lia|exact E].
    apply runs_bind; [apply _|apply patchMachineConditions_runs|]. intros _. apply runs_ret, _.
  - injection E as <- <-.
    by eapply (removes_within_stop _ _ _ (mret tt)); [apply runs_ret, _|lia|].
Qed.

Lemma removes_within_weaken l l' n n' s s' :
  (∀ p, p ∈ l → p ∈ l') → n ≤ n' → removes_within l n s s' → removes_within l' n' s s'.
Proof.
  intros Hl Hn (Hm & cs & Hcs & Hd & Hr). split; [done|]. exists cs. split_and!; [done| |lia].
  eapply Forall_impl; [exact Hd|]. intros c [?|(p & m & ? & ? & ?)]; [by left|].
  right. exists p, m. auto.
Qed.

Lemma patched_then {A} l n targets v1beta2Condition condition (k : M MsState A) s r s' :
  0 ≤ n → (∀ s1 r s', k s1 = (r, s') → removes_within l n s1 s') →
  (_ ← patchMachineConditions env targets v1beta2Condition condition; k) s = (r, s') →
  removes_within l n s s'.
Proof.
  intros Hn Hk E. unfold mbind, M_bind in E.
  destruct (patchMachineConditions _ _ _ _ s) as [y s1] eqn:E1.
  destruct y as [[]|e|].
  - destruct (patchMachineConditions_runs _ _ _ _ _ _ E1) as (Hm & cs & Hcs & Hq).
    apply (removes_within_quiet _ _ _ _ _ _ Hm Hcs Hq). by eapply Hk.
  - injection E as <- <-. by eapply removes_within_stop; [apply patchMachineConditions_runs|lia|].
  - injection E as <- <-. by eapply removes_within_stop; [apply patchMachineConditions_runs|lia|].
Qed.

Lemma ret_removes {A} (a : A) l n s r s' :
  0 ≤ n → (mret a : M MsState A) s = (r, s') → removes_within l n s s'.
Proof. intros Hn. by apply removes_within_stop; [apply runs_ret, _|]. Qed.

(** What follows the selection of the Machines to remediate. *)
Lemma remediation_limited owner machines maxInFlight s r s' :
  (if maxInFlight <=? 0 then
     msg ← lift (deferred_message owner);
     _ ← patchMachineConditions env machines (remediated_condition "RemediationDeferred" msg) None;
     mret zero_Result
   else
     let sorted := insertion_sort (newest_first_less (z_heap s)) machines in
     if maxInFlight <? Z.of_nat (length sorted) then
       msg ← lift (deferred_message owner);
       _ ← patchMachineConditions env (drop (Z.to_nat maxInFlight) sorted)
             (remediated_condition "RemediationDeferred" msg) None;
       remediate env (take (Z.to_nat maxInFlight) sorted)
     else remediate env sorted) s = (r, s') →
  removes_within machines (Z.max 0 maxInFlight) s s'.
Proof.
  intros E. destruct (Z.leb_spec maxInFlight 0) as [Hle|Hpos].
  - destruct (deferred_message owner) as [msg|e|]; unfold mbind at 1, M_bind at 1, lift in E.
    + eapply patched_then; [lia| |exact E]. intros s1 r1 s1'. apply ret_removes. lia.
    + injection E as <- <-. by eapply (ret_removes tt); [lia|].
    + injection E as <- <-. by eapply (ret_removes tt); [lia|].
  - cbv zeta in E. set (sorted := insertion_sort _ machines) in *.
    assert (Hel : ∀ p, p ∈ sorted → p ∈ machines).
    { intros p. unfold sorted. by rewrite insertion_sort_perm. }
    destruct (Z.ltb_spec maxInFlight (Z.of_nat (length sorted))) as [Hlt|Hge].
    + destruct (deferred_message owner) as [msg|e|]; unfold mbind at 1, M_bind at 1, lift in E.
      * eapply patched_then; [lia| |exact E]. intros s1 r1 s1' Er%remediate_removes.
        eapply removes_within_weaken; [| |exact Er].
        -- intros p Hp. apply Hel. apply elem_of_take in Hp as (j & Hj & _).
           by eapply list_elem_of_lookup_2.
        -- rewrite length_take. lia.
      * injection E as <- <-. by eapply (ret_removes tt); [lia|].
      * injection E as <- <-. by eapply (ret_removes tt); [lia|].
    + apply remediate_removes in E. eapply removes_within_weaken; [exact Hel| |exact E]. lia.
Qed.

(** The Machines that remediation may delete. *)
Definition remediable (s : MsState) (meta : Meta) : Prop :=
  ∃ p, p ∈ z_machines s ∧ meta = m_Meta (mheap_get (z_heap s) p) ∧
    IsUnhealthyAndOwnerRemediated (Some (mheap_get (z_heap s) p)) = true ∧
    is_deleting (mheap_get (z_heap s) p) = false.

Lemma removes_remediable s s1 s' n cs0 :
  cleaned s s1 → z_calls s1 = z_calls s ++ cs0 → Forall quiet cs0 →
  removes_within (to_remediate (z_heap s1) (z_machines s)) n s1 s' →
  ∃ cs, z_calls s' = z_calls s ++ cs ∧ removed cs ≤ n ∧
    Forall (λ c, quiet c ∨ ∃ m, c = DeleteMachine m ∧ remediable s (m_Meta m)) cs.
Proof.
  intros [[Hmc Hms Hm] Hd Hu] Hcs0 Hq (_ & cs & Hcs & Hdel & Hr).
  exists (cs0 ++ cs). rewrite Hcs, Hcs0, app_assoc. split; [done|].
  rewrite removed_app, (removed_quiet cs0) by done. split; [lia|].
  apply Forall_app. split; [eapply Forall_impl; [exact Hq|]; by left|].
  eapply Forall_impl; [exact Hdel|]. intros c [?|(p & m & Hp & -> & Em)]; [by left|].
  right. exists m. split; [done|]. apply elem_of_to_remediate in Hp as (Hp & Hunh & Hndel).
  exists p. split_and!; [done|by rewrite Em, Hm|by apply Hu|].
  revert Hndel. unfold is_deleting. by rewrite Hm.
Qed.

Lemma reconcileUnhealthyMachines_outcome owner limit s r s' :
  max_in_flight (z_ms s) owner = Ok (inl limit) →
  reconcileUnhealthyMachines env owner s = (r, s') →
  ∃ cs, z_calls s' = z_calls s ++ cs ∧
    removed cs ≤ Z.max 0 (limit - remediation_in_flight (z_heap s) (z_machines s)) ∧
    Forall (λ c, quiet c ∨ ∃ m, c = DeleteMachine m ∧ remediable s (m_Meta m)) cs.
Proof.
  intros Hlimit E. set (bound := Z.max 0 _). assert (0 ≤ bound) by lia.
  unfold reconcileUnhealthyMachines in E. unfold mbind at 1, M_bind at 1, gets at 1 in E.
  assert (∃ s1 cs0, cleaned s s1 ∧ z_calls s1 = z_calls s ++ cs0 ∧ Forall quiet cs0 ∧
    removes_within (to_remediate (z_heap s1) (z_machines s)) bound s1 s')
    as (s1 & cs0 & Hcl & Hcs0 & Hq & Hr); [|by eapply removes_remediable].
  assert (∀ s1 (r1 : result unit), (mret tt : M MsState unit) s1 = (r1, s1) → ∀ l, removes_within l bound s1 s1) as Hstay.
  { intros s1 r1 E1 l. by eapply ret_removes. }
  destruct (z_adopted s); cbn [negb] in E.
  2: { injection E as <- <-. exists s, []. rewrite app_nil_r.
       split_and!; [done|done|constructor|by eapply Hstay]. }
  unfold mbind at 1, M_bind at 1, gets at 1 in E. unfold mbind at 1, M_bind at 1 in E. cbn beta iota in E.
  destruct (foldM (cleanup_remediated env) [] (z_machines s) s) as [x s1] eqn:E1.
  destruct (runs_foldM quiet cleaned (cleanup_remediated env) (z_machines s) []
    (λ acc p _, cleanup_remediated_runs acc p) _ _ _ E1) as (Hcl & cs0 & Hcs0 & Hq).
  exists s1, cs0. split_and!; [done..|].
  destruct x as [[|e errs]|e|]; [|cbv [throw] in E; injection E as <- <-; by eapply Hstay..].
  unfold mbind at 1, M_bind at 1, gets at 1 in E. unfold mbind at 1, M_bind at 1, gets at 1 in E.
  destruct (to_remediate (z_heap s1) (z_machines s)) as [|p l] eqn:El.
  { injection E as <- <-. by eapply Hstay. }
  rewrite (sm_ms _ _ (cl_meta _ _ Hcl)), Hlimit in E.
  unfold mbind at 1, M_bind at 1, lift at 1 in E.
  rewrite (in_flight_cleaned _ _ _ Hcl) in E.
  by eapply remediation_limited.
Qed.
End theory.

(** ** Properties *)

Section properties.
Context `{Apimachinery} `{Semver} `{GoSort} `{GoRange} `{MetaConditions} (env : MsEnv).

Lemma filter_deletes_reads l gs :
  Forall reads gs → filter deletes ((DeleteMachine <$> l) ++ gs) = DeleteMachine <$> l.
Proof.
  intros Hgs. rewrite filter_app.
  assert (filter deletes gs = []) as ->; [|rewrite app_nil_r].
  - induction Hgs as [|c gs Hc]; [done|]. rewrite filter_cons_False; [done|].
    intros Hd. by destruct c; simpl in *.
  - induction l as [|m l IH]; [done|]. rewrite fmap_cons, filter_cons_True by done. by rewrite IH.
Qed.

Lemma applied_deletes_reads l gs : Forall reads gs → applied ((DeleteMachine <$> l) ++ gs) = 0%nat.
Proof.
  intros Hgs. apply applied_none, Forall_app. split.
  - apply Forall_fmap, Forall_forall. intros m _ Hc. exact Hc.
  - eapply Forall_impl; [exact Hgs|]. intros c Hc Hd. by destruct c; simpl in *.
Qed.

Lemma removed_no_deletes cs : Forall (λ c, ¬ deletes c) cs → removed cs = 0.
Proof.
  unfold removed. induction 1 as [|c cs Hc]; [done|]. by rewrite filter_cons_False.
Qed.

(** C14: once the Machines of the MachineSet have been adopted, [syncReplicas] moves their number
    towards [spec.replicas] and never past it.  With Machines missing it deletes none, applies at
    most the missing number, and without an error applies either all of them or, when creation is
    disabled or a preflight check fails, none.  With too many Machines it creates none and deletes
    exactly those of the surplus prioritised for deletion that are not being deleted yet.  With
    the right number it calls nothing. *)
Theorem syncReplicas_scales (n : Z) s r s' :
  z_adopted s = true → ms_Replicas (z_ms s) = Some n → syncReplicas env s = (r, s') →
  let missing := n - Z.of_nat (length (z_machines s)) in
  ∃ cs, z_calls s' = z_calls s ++ cs ∧
    (0 < missing → removed cs = 0 ∧ Z.of_nat (applied cs) ≤ missing ∧
       (∀ res, r = Ok res → applied cs = 0%nat ∨ Z.of_nat (applied cs) = missing)) ∧
    (missing < 0 → ∀ priority,
       getDeletePriorityFunc (e_Exp env) (e_now env (z_calls s)) (z_ms s) = Ok priority →
       applied cs = 0%nat ∧
       filter deletes cs = DeleteMachine <$> pending (z_heap s)
         (getMachinesToDeletePrioritized (mheap_get (z_heap s)) (z_machines s)
            (- missing) priority).1) ∧
    (missing = 0 → cs = []).
Proof.
  intros Had Hn E missing. unfold syncReplicas in E.
  unfold mbind at 1, M_bind at 1, gets at 1 in E. rewrite Had in E. cbn [negb] in E.
  unfold mbind at 1, M_bind at 1, gets at 1 in E. rewrite Hn in E.
  unfold mbind at 1, M_bind at 1, gets at 1 in E. cbv zeta in E.
  replace (Z.of_nat (length (z_machines s)) - n) with (- missing) in E by lia.
  destruct (Z.ltb_spec (- missing) 0) as [Hup|].
  - replace (- missing * -1) with missing in E by lia.
    destruct (scale_up_spends env n missing _ _ _ E) as (_ & cs & Hcs & Hd & HQ).
    exists cs. split_and!; [done| |lia|lia]. intros _. split; [by apply removed_no_deletes|].
    split; [destruct r; lia|]. intros res ->. destruct HQ; [by left|right; lia].
  - destruct (Z.ltb_spec 0 (- missing)) as [Hdown|].
    + destruct (getDeletePriorityFunc (e_Exp env) (e_now env (z_calls s)) (z_ms s)) as [p|e|] eqn:Ep.
      * pose proof (scale_down_outcome env _ _ _ _ _ Ep E) as Ho.
        destruct (getMachinesToDeletePrioritized _ _ _ _) as [chosen sorted] eqn:Ec.
        destruct Ho as (_ & _ & _ & gs & Hcs & Hgs).
        exists ((DeleteMachine <$> pending (z_heap s) chosen) ++ gs). split_and!; [done|lia| |lia].
        intros _ priority [= <-]. rewrite Ec. split; [by apply applied_deletes_reads|].
        by apply filter_deletes_reads.
      * unfold scale_down, mbind, M_bind, gets, lift in E. rewrite Ep in E. injection E as <- <-.
        exists []. rewrite app_nil_r. split_and!; [done|lia|by intros|done].
      * unfold scale_down, mbind, M_bind, gets, lift in E. rewrite Ep in E. injection E as <- <-.
        exists []. rewrite app_nil_r. split_and!; [done|lia|by intros|done].
    + injection E as <- <-. exists []. rewrite app_nil_r. split_and!; [done|lia|lia|done].
Qed.

End properties.

(** ** Witnesses *)

Definition quiet_ms_env : MsEnv :=
  {| e_error _ _ := None; e_created _ _ := emptyRef; e_applied _ m := m; e_cached _ _ := true;
     e_machine _ _ := emptyMachine; e_node _ _ := {| node_Name := ""; node_Conditions := [] |};
     e_machines _ := []; e_controlPlane _ := stable_control_plane; e_now _ := 100;
     e_generateName _ n := n; e_polls _ := O; e_preflightEnabled := false;
     e_hasControlPlaneRef := false; e_KRef _ n := n; e_semverString _ := "";
     e_Exp x := x; e_errorString _ := ""; e_MustFormatValue s := s;
     e_selectorString _ := Ok ""%string; e_selectorAsMap _ := None; e_labelsMatch _ _ := true;
     e_removeFinalizer l _ := l; e_deprecatedInfraMachineNaming := false |}.

(** A Machine that failed its health check and waits for its owner. *)
Definition sick_machine (name : string) : Machine :=
  SetConditions
    [ {| c_Type := MachineHealthCheckSucceededCondition; c_Status := ConditionFalse;
         c_Severity := ConditionSeverityError; c_LastTransitionTime := 0; c_Reason := "";
         c_Message := "" |};
      {| c_Type := MachineOwnerRemediatedCondition; c_Status := ConditionFalse;
         c_Severity := ConditionSeverityError; c_LastTransitionTime := 0; c_Reason := "";
         c_Message := "" |} ] (machine_at name "v1.29.0" 0).

Definition sick_set : MsState :=
  {| z_heap := <[0%nat := sick_machine "a"]> (<[1%nat := sick_machine "b"]>
       (<[2%nat := machine_at "c" "v1.29.0" 0]> (<[3%nat := machine_at "d" "v1.29.0" 0]> ∅)));
     z_ms := versioned_set "v1.29.0"; z_machines := [0; 1; 2; 3]%nat; z_adopted := true;
     z_scaleUpMessage := ""; z_calls := [] |}.

Lemma syncReplicas_scales_witness :
  m_Name <$> pending (z_heap sick_set)
    (getMachinesToDeletePrioritized (mheap_get (z_heap sick_set)) (z_machines sick_set)
      1 randomDeletePolicy).1 = ["a"%string] ∧
  ∃ cs, z_calls (syncReplicas quiet_ms_env sick_set).2 = cs ∧ applied cs = 0%nat.
Proof.
  split; [vm_compute; reflexivity|].
  edestruct (syncReplicas_scales quiet_ms_env 3 sick_set) as (cs & Hcs & _ & Hdown & _).
  - reflexivity.
  - reflexivity.
  - apply surjective_pairing.
  - exists cs. split; [exact Hcs|].
    refine (proj1 (Hdown _ randomDeletePolicy _)); vm_compute; reflexivity.
Defined.

