(* ===== verification/Kubeadm.v ===== *)
(** * The kubeadm types (bootstrap/kubeadm/api/v1beta1)

    The configuration of kubeadm and of the bootstrap data of a machine
    (kubeadm_types.go, kubeadmconfig_types.go), its defaults and validation, and the JSON encoding of a
    ClusterConfiguration, which the control plane keeps in an annotation of its Machines.  A nil
    slice or map is [None] and differs from an empty one, as it does for a deep comparison. *)

From Stdlib Require Import Ascii.
From S2P Require Import Prelude GoStd Json JsonCodec Api.

Abbreviation slice A := (option (list A)).
Abbreviation go_map A := (option (gmap string A)).

(** A value of a type of another library, by its JSON encoding. *)
Definition EnvVarSource : Type := json.

#[export] Instance TypeMeta_eq_dec : EqDecision TypeMeta.
Proof. solve_decision. Defined.

(** ** kubeadm_types.go *)

Record ImageMeta := {
  im_ImageRepository : string;
  im_ImageTag : string;
}.

#[export] Instance ImageMeta_eq_dec : EqDecision ImageMeta.
Proof. solve_decision. Defined.

Definition im_set_ImageRepository (v : string) (x : ImageMeta) : ImageMeta :=
  {| im_ImageRepository := v; im_ImageTag := im_ImageTag x |}.

Definition im_set_ImageTag (v : string) (x : ImageMeta) : ImageMeta :=
  {| im_ImageRepository := im_ImageRepository x; im_ImageTag := v |}.

Record DNS := {
  dns_ImageMeta : ImageMeta;
}.

#[export] Instance DNS_eq_dec : EqDecision DNS.
Proof. solve_decision. Defined.

Definition dns_set_ImageMeta (v : ImageMeta) (x : DNS) : DNS :=
  {| dns_ImageMeta := v |}.

Record Networking := {
  nw_ServiceSubnet : string;
  nw_PodSubnet : string;
  nw_DNSDomain : string;
}.

#[export] Instance Networking_eq_dec : EqDecision Networking.
Proof. solve_decision. Defined.

Definition nw_set_ServiceSubnet (v : string) (x : Networking) : Networking :=
  {| nw_ServiceSubnet := v; nw_PodSubnet := nw_PodSubnet x; nw_DNSDomain := nw_DNSDomain x |}.

Definition nw_set_PodSubnet (v : string) (x : Networking) : Networking :=
  {| nw_ServiceSubnet := nw_ServiceSubnet x; nw_PodSubnet := v;
     nw_DNSDomain := nw_DNSDomain x |}.

Definition nw_set_DNSDomain (v : string) (x : Networking) : Networking :=
  {| nw_ServiceSubnet := nw_ServiceSubnet x; nw_PodSubnet := nw_PodSubnet x;
     nw_DNSDomain := v |}.

Record EnvVar := {
  ev_Name : string;
  ev_Value : string;
  ev_ValueFrom : option EnvVarSource;
}.

#[export] Instance EnvVar_eq_dec : EqDecision EnvVar.
Proof. solve_decision. Defined.

Definition ev_set_Name (v : string) (x : EnvVar) : EnvVar :=
  {| ev_Name := v; ev_Value := ev_Value x; ev_ValueFrom := ev_ValueFrom x |}.

Definition ev_set_Value (v : string) (x : EnvVar) : EnvVar :=
  {| ev_Name := ev_Name x; ev_Value := v; ev_ValueFrom := ev_ValueFrom x |}.

Definition ev_set_ValueFrom (v : option EnvVarSource) (x : EnvVar) : EnvVar :=
  {| ev_Name := ev_Name x; ev_Value := ev_Value x; ev_ValueFrom := v |}.

Record HostPathMount := {
  hp_Name : string;
  hp_HostPath : string;
  hp_MountPath : string;
  hp_ReadOnly : bool;
  hp_PathType : string;
}.

#[export] Instance HostPathMount_eq_dec : EqDecision HostPathMount.
Proof. solve_decision. Defined.

Definition hp_set_Name (v : string) (x : HostPathMount) : HostPathMount :=
  {| hp_Name := v; hp_HostPath := hp_HostPath x; hp_MountPath := hp_MountPath x;
     hp_ReadOnly := hp_ReadOnly x; hp_PathType := hp_PathType x |}.

Definition hp_set_HostPath (v : string) (x : HostPathMount) : HostPathMount :=
  {| hp_Name := hp_Name x; hp_HostPath := v; hp_MountPath := hp_MountPath x;
     hp_ReadOnly := hp_ReadOnly x; hp_PathType := hp_PathType x |}.

Definition hp_set_MountPath (v : string) (x : HostPathMount) : HostPathMount :=
  {| hp_Name := hp_Name x; hp_HostPath := hp_HostPath x; hp_MountPath := v;
     hp_ReadOnly := hp_ReadOnly x; hp_PathType := hp_PathType x |}.

Definition hp_set_ReadOnly (v : bool) (x : HostPathMount) : HostPathMount :=
  {| hp_Name := hp_Name x; hp_HostPath := hp_HostPath x; hp_MountPath := hp_MountPath x;
     hp_ReadOnly := v; hp_PathType := hp_PathType x |}.

Definition hp_set_PathType (v : string) (x : HostPathMount) : HostPathMount :=
  {| hp_Name := hp_Name x; hp_HostPath := hp_HostPath x; hp_MountPath := hp_MountPath x;
     hp_ReadOnly := hp_ReadOnly x; hp_PathType := v |}.

Record ControlPlaneComponent := {
  cpc_ExtraArgs : go_map string;
  cpc_ExtraVolumes : slice HostPathMount;
  cpc_ExtraEnvs : slice EnvVar;
}.

#[export] Instance ControlPlaneComponent_eq_dec : EqDecision ControlPlaneComponent.
Proof. solve_decision. Defined.

Definition cpc_set_ExtraArgs (v : go_map string) (x : ControlPlaneComponent) :
    ControlPlaneComponent :=
  {| cpc_ExtraArgs := v; cpc_ExtraVolumes := cpc_ExtraVolumes x;
     cpc_ExtraEnvs := cpc_ExtraEnvs x |}.

Definition cpc_set_ExtraVolumes (v : slice HostPathMount) (x : ControlPlaneComponent) :
    ControlPlaneComponent :=
  {| cpc_ExtraArgs := cpc_ExtraArgs x; cpc_ExtraVolumes := v;
     cpc_ExtraEnvs := cpc_ExtraEnvs x |}.

Definition cpc_set_ExtraEnvs (v : slice EnvVar) (x : ControlPlaneComponent) :
    ControlPlaneComponent :=
  {| cpc_ExtraArgs := cpc_ExtraArgs x; cpc_ExtraVolumes := cpc_ExtraVolumes x;
     cpc_ExtraEnvs := v |}.

Record APIServer := {
  as_ControlPlaneComponent : ControlPlaneComponent;
  as_CertSANs : slice string;
  as_TimeoutForControlPlane : option Z;
}.

#[export] Instance APIServer_eq_dec : EqDecision APIServer.
Proof. solve_decision. Defined.

Definition as_set_ControlPlaneComponent (v : ControlPlaneComponent) (x : APIServer) : APIServer :=
  {| as_ControlPlaneComponent := v; as_CertSANs := as_CertSANs x;
     as_TimeoutForControlPlane := as_TimeoutForControlPlane x |}.

Definition as_set_CertSANs (v : slice string) (x : APIServer) : APIServer :=
  {| as_ControlPlaneComponent := as_ControlPlaneComponent x; as_CertSANs := v;
     as_TimeoutForControlPlane := as_TimeoutForControlPlane x |}.

Definition as_set_TimeoutForControlPlane (v : option Z) (x : APIServer) : APIServer :=
  {| as_ControlPlaneComponent := as_ControlPlaneComponent x; as_CertSANs := as_CertSANs x;
     as_TimeoutForControlPlane := v |}.

Record LocalEtcd := {
  le_ImageMeta : ImageMeta;
  le_DataDir : string;
  le_ExtraArgs : go_map string;
  le_ExtraEnvs : slice EnvVar;
  le_ServerCertSANs : slice string;
  le_PeerCertSANs : slice string;
}.

#[export] Instance LocalEtcd_eq_dec : EqDecision LocalEtcd.
Proof. solve_decision. Defined.

Definition le_set_ImageMeta (v : ImageMeta) (x : LocalEtcd) : LocalEtcd :=
  {| le_ImageMeta := v; le_DataDir := le_DataDir x; le_ExtraArgs := le_ExtraArgs x;
     le_ExtraEnvs := le_ExtraEnvs x; le_ServerCertSANs := le_ServerCertSANs x;
     le_PeerCertSANs := le_PeerCertSANs x |}.

Definition le_set_DataDir (v : string) (x : LocalEtcd) : LocalEtcd :=
  {| le_ImageMeta := le_ImageMeta x; le_DataDir := v; le_ExtraArgs := le_ExtraArgs x;
     le_ExtraEnvs := le_ExtraEnvs x; le_ServerCertSANs := le_ServerCertSANs x;
     le_PeerCertSANs := le_PeerCertSANs x |}.

Definition le_set_ExtraArgs (v : go_map string) (x : LocalEtcd) : LocalEtcd :=
  {| le_ImageMeta := le_ImageMeta x; le_DataDir := le_DataDir x; le_ExtraArgs := v;
     le_ExtraEnvs := le_ExtraEnvs x; le_ServerCertSANs := le_ServerCertSANs x;
     le_PeerCertSANs := le_PeerCertSANs x |}.

Definition le_set_ExtraEnvs (v : slice EnvVar) (x : LocalEtcd) : LocalEtcd :=
  {| le_ImageMeta := le_ImageMeta x; le_DataDir := le_DataDir x; le_ExtraArgs := le_ExtraArgs x;
     le_ExtraEnvs := v; le_ServerCertSANs := le_ServerCertSANs x;
     le_PeerCertSANs := le_PeerCertSANs x |}.

Definition le_set_ServerCertSANs (v : slice string) (x : LocalEtcd) : LocalEtcd :=
  {| le_ImageMeta := le_ImageMeta x; le_DataDir := le_DataDir x; le_ExtraArgs := le_ExtraArgs x;
     le_ExtraEnvs := le_ExtraEnvs x; le_ServerCertSANs := v;
     le_PeerCertSANs := le_PeerCertSANs x |}.

Definition le_set_PeerCertSANs (v : slice string) (x : LocalEtcd) : LocalEtcd :=
  {| le_ImageMeta := le_ImageMeta x; le_DataDir := le_DataDir x; le_ExtraArgs := le_ExtraArgs x;
     le_ExtraEnvs := le_ExtraEnvs x; le_ServerCertSANs := le_ServerCertSANs x;
     le_PeerCertSANs := v |}.

Record ExternalEtcd := {
  ee_Endpoints : slice string;
  ee_CAFile : string;
  ee_CertFile : string;
  ee_KeyFile : string;
}.

#[export] Instance ExternalEtcd_eq_dec : EqDecision ExternalEtcd.
Proof. solve_decision. Defined.

Definition ee_set_Endpoints (v : slice string) (x : ExternalEtcd) : ExternalEtcd :=
  {| ee_Endpoints := v; ee_CAFile := ee_CAFile x; ee_CertFile := ee_CertFile x;
     ee_KeyFile := ee_KeyFile x |}.

Definition ee_set_CAFile (v : string) (x : ExternalEtcd) : ExternalEtcd :=
  {| ee_Endpoints := ee_Endpoints x; ee_CAFile := v; ee_CertFile := ee_CertFile x;
     ee_KeyFile := ee_KeyFile x |}.

Definition ee_set_CertFile (v : string) (x : ExternalEtcd) : ExternalEtcd :=
  {| ee_Endpoints := ee_Endpoints x; ee_CAFile := ee_CAFile x; ee_CertFile := v;
     ee_KeyFile := ee_KeyFile x |}.

Definition ee_set_KeyFile (v : string) (x : ExternalEtcd) : ExternalEtcd :=
  {| ee_Endpoints := ee_Endpoints x; ee_CAFile := ee_CAFile x; ee_CertFile := ee_CertFile x;
     ee_KeyFile := v |}.

Record Etcd := {
  et_Local : option LocalEtcd;
  et_External : option ExternalEtcd;
}.

#[export] Instance Etcd_eq_dec : EqDecision Etcd.
Proof. solve_decision. Defined.

Definition et_set_Local (v : option LocalEtcd) (x : Etcd) : Etcd :=
  {| et_Local := v; et_External := et_External x |}.

Definition et_set_External (v : option ExternalEtcd) (x : Etcd) : Etcd :=
  {| et_Local := et_Local x; et_External := v |}.

Record ClusterConfiguration := {
  cc_TypeMeta : TypeMeta;
  cc_Etcd : Etcd;
  cc_Networking : Networking;
  cc_KubernetesVersion : string;
  cc_ControlPlaneEndpoint : string;
  cc_APIServer : APIServer;
  cc_ControllerManager : ControlPlaneComponent;
  cc_Scheduler : ControlPlaneComponent;
  cc_DNS : DNS;
  cc_CertificatesDir : string;
  cc_ImageRepository : string;
  cc_FeatureGates : go_map bool;
  cc_ClusterName : string;
}.

#[export] Instance ClusterConfiguration_eq_dec : EqDecision ClusterConfiguration.
Proof. solve_decision. Defined.

Definition cc_set_TypeMeta (v : TypeMeta) (x : ClusterConfiguration) : ClusterConfiguration :=
  {| cc_TypeMeta := v; cc_Etcd := cc_Etcd x; cc_Networking := cc_Networking x;
     cc_KubernetesVersion := cc_KubernetesVersion x;
     cc_ControlPlaneEndpoint := cc_ControlPlaneEndpoint x; cc_APIServer := cc_APIServer x;
     cc_ControllerManager := cc_ControllerManager x; cc_Scheduler := cc_Scheduler x;
     cc_DNS := cc_DNS x; cc_CertificatesDir := cc_CertificatesDir x;
     cc_ImageRepository := cc_ImageRepository x; cc_FeatureGates := cc_FeatureGates x;
     cc_ClusterName := cc_ClusterName x |}.

Definition cc_set_Etcd (v : Etcd) (x : ClusterConfiguration) : ClusterConfiguration :=
  {| cc_TypeMeta := cc_TypeMeta x; cc_Etcd := v; cc_Networking := cc_Networking x;
     cc_KubernetesVersion := cc_KubernetesVersion x;
     cc_ControlPlaneEndpoint := cc_ControlPlaneEndpoint x; cc_APIServer := cc_APIServer x;
     cc_ControllerManager := cc_ControllerManager x; cc_Scheduler := cc_Scheduler x;
     cc_DNS := cc_DNS x; cc_CertificatesDir := cc_CertificatesDir x;
     cc_ImageRepository := cc_ImageRepository x; cc_FeatureGates := cc_FeatureGates x;
     cc_ClusterName := cc_ClusterName x |}.

Definition cc_set_Networking (v : Networking) (x : ClusterConfiguration) : ClusterConfiguration :=
  {| cc_TypeMeta := cc_TypeMeta x; cc_Etcd := cc_Etcd x; cc_Networking := v;
     cc_KubernetesVersion := cc_KubernetesVersion x;
     cc_ControlPlaneEndpoint := cc_ControlPlaneEndpoint x; cc_APIServer := cc_APIServer x;
     cc_ControllerManager := cc_ControllerManager x; cc_Scheduler := cc_Scheduler x;
     cc_DNS := cc_DNS x; cc_CertificatesDir := cc_CertificatesDir x;
     cc_ImageRepository := cc_ImageRepository x; cc_FeatureGates := cc_FeatureGates x;
     cc_ClusterName := cc_ClusterName x |}.

Definition cc_set_KubernetesVersion (v : string) (x : ClusterConfiguration) :
    ClusterConfiguration :=
  {| cc_TypeMeta := cc_TypeMeta x; cc_Etcd := cc_Etcd x; cc_Networking := cc_Networking x;
     cc_KubernetesVersion := v; cc_ControlPlaneEndpoint := cc_ControlPlaneEndpoint x;
     cc_APIServer := cc_APIServer x; cc_ControllerManager := cc_ControllerManager x;
     cc_Scheduler := cc_Scheduler x; cc_DNS := cc_DNS x;
     cc_CertificatesDir := cc_CertificatesDir x; cc_ImageRepository := cc_ImageRepository x;
     cc_FeatureGates := cc_FeatureGates x; cc_ClusterName := cc_ClusterName x |}.

Definition cc_set_ControlPlaneEndpoint (v : string) (x : ClusterConfiguration) :
    ClusterConfiguration :=
  {| cc_TypeMeta := cc_TypeMeta x; cc_Etcd := cc_Etcd x; cc_Networking := cc_Networking x;
     cc_KubernetesVersion := cc_KubernetesVersion x; cc_ControlPlaneEndpoint := v;
     cc_APIServer := cc_APIServer x; cc_ControllerManager := cc_ControllerManager x;
     cc_Scheduler := cc_Scheduler x; cc_DNS := cc_DNS x;
     cc_CertificatesDir := cc_CertificatesDir x; cc_ImageRepository := cc_ImageRepository x;
     cc_FeatureGates := cc_FeatureGates x; cc_ClusterName := cc_ClusterName x |}.

Definition cc_set_APIServer (v : APIServer) (x : ClusterConfiguration) : ClusterConfiguration :=
  {| cc_TypeMeta := cc_TypeMeta x; cc_Etcd := cc_Etcd x; cc_Networking := cc_Networking x;
     cc_KubernetesVersion := cc_KubernetesVersion x;
     cc_ControlPlaneEndpoint := cc_ControlPlaneEndpoint x; cc_APIServer := v;
     cc_ControllerManager := cc_ControllerManager x; cc_Scheduler := cc_Scheduler x;
     cc_DNS := cc_DNS x; cc_CertificatesDir := cc_CertificatesDir x;
     cc_ImageRepository := cc_ImageRepository x; cc_FeatureGates := cc_FeatureGates x;
     cc_ClusterName := cc_ClusterName x |}.

Definition cc_set_ControllerManager (v : ControlPlaneComponent) (x : ClusterConfiguration) :
    ClusterConfiguration :=
  {| cc_TypeMeta := cc_TypeMeta x; cc_Etcd := cc_Etcd x; cc_Networking := cc_Networking x;
     cc_KubernetesVersion := cc_KubernetesVersion x;
     cc_ControlPlaneEndpoint := cc_ControlPlaneEndpoint x; cc_APIServer := cc_APIServer x;
     cc_ControllerManager := v; cc_Scheduler := cc_Scheduler x; cc_DNS := cc_DNS x;
     cc_CertificatesDir := cc_CertificatesDir x; cc_ImageRepository := cc_ImageRepository x;
     cc_FeatureGates := cc_FeatureGates x; cc_ClusterName := cc_ClusterName x |}.

Definition cc_set_Scheduler (v : ControlPlaneComponent) (x : ClusterConfiguration) :
    ClusterConfiguration :=
  {| cc_TypeMeta := cc_TypeMeta x; cc_Etcd := cc_Etcd x; cc_Networking := cc_Networking x;
     cc_KubernetesVersion := cc_KubernetesVersion x;
     cc_ControlPlaneEndpoint := cc_ControlPlaneEndpoint x; cc_APIServer := cc_APIServer x;
     cc_ControllerManager := cc_ControllerManager x; cc_Scheduler := v; cc_DNS := cc_DNS x;
     cc_CertificatesDir := cc_CertificatesDir x; cc_ImageRepository := cc_ImageRepository x;
     cc_FeatureGates := cc_FeatureGates x; cc_ClusterName := cc_ClusterName x |}.

Definition cc_set_DNS (v : DNS) (x : ClusterConfiguration) : ClusterConfiguration :=
  {| cc_TypeMeta := cc_TypeMeta x; cc_Etcd := cc_Etcd x; cc_Networking := cc_Networking x;
     cc_KubernetesVersion := cc_KubernetesVersion x;
     cc_ControlPlaneEndpoint := cc_ControlPlaneEndpoint x; cc_APIServer := cc_APIServer x;
     cc_ControllerManager := cc_ControllerManager x; cc_Scheduler := cc_Scheduler x; cc_DNS := v;
     cc_CertificatesDir := cc_CertificatesDir x; cc_ImageRepository := cc_ImageRepository x;
     cc_FeatureGates := cc_FeatureGates x; cc_ClusterName := cc_ClusterName x |}.

Definition cc_set_CertificatesDir (v : string) (x : ClusterConfiguration) :
    ClusterConfiguration :=
  {| cc_TypeMeta := cc_TypeMeta x; cc_Etcd := cc_Etcd x; cc_Networking := cc_Networking x;
     cc_KubernetesVersion := cc_KubernetesVersion x;
     cc_ControlPlaneEndpoint := cc_ControlPlaneEndpoint x; cc_APIServer := cc_APIServer x;
     cc_ControllerManager := cc_ControllerManager x; cc_Scheduler := cc_Scheduler x;
     cc_DNS := cc_DNS x; cc_CertificatesDir := v; cc_ImageRepository := cc_ImageRepository x;
     cc_FeatureGates := cc_FeatureGates x; cc_ClusterName := cc_ClusterName x |}.

Definition cc_set_ImageRepository (v : string) (x : ClusterConfiguration) :
    ClusterConfiguration :=
  {| cc_TypeMeta := cc_TypeMeta x; cc_Etcd := cc_Etcd x; cc_Networking := cc_Networking x;
     cc_KubernetesVersion := cc_KubernetesVersion x;
     cc_ControlPlaneEndpoint := cc_ControlPlaneEndpoint x; cc_APIServer := cc_APIServer x;
     cc_ControllerManager := cc_ControllerManager x; cc_Scheduler := cc_Scheduler x;
     cc_DNS := cc_DNS x; cc_CertificatesDir := cc_CertificatesDir x; cc_ImageRepository := v;
     cc_FeatureGates := cc_FeatureGates x; cc_ClusterName := cc_ClusterName x |}.

Definition cc_set_FeatureGates (v : go_map bool) (x : ClusterConfiguration) :
    ClusterConfiguration :=
  {| cc_TypeMeta := cc_TypeMeta x; cc_Etcd := cc_Etcd x; cc_Networking := cc_Networking x;
     cc_KubernetesVersion := cc_KubernetesVersion x;
     cc_ControlPlaneEndpoint := cc_ControlPlaneEndpoint x; cc_APIServer := cc_APIServer x;
     cc_ControllerManager := cc_ControllerManager x; cc_Scheduler := cc_Scheduler x;
     cc_DNS := cc_DNS x; cc_CertificatesDir := cc_CertificatesDir x;
     cc_ImageRepository := cc_ImageRepository x; cc_FeatureGates := v;
     cc_ClusterName := cc_ClusterName x |}.

Definition cc_set_ClusterName (v : string) (x : ClusterConfiguration) : ClusterConfiguration :=
  {| cc_TypeMeta := cc_TypeMeta x; cc_Etcd := cc_Etcd x; cc_Networking := cc_Networking x;
     cc_KubernetesVersion := cc_KubernetesVersion x;
     cc_ControlPlaneEndpoint := cc_ControlPlaneEndpoint x; cc_APIServer := cc_APIServer x;
     cc_ControllerManager := cc_ControllerManager x; cc_Scheduler := cc_Scheduler x;
     cc_DNS := cc_DNS x; cc_CertificatesDir := cc_CertificatesDir x;
     cc_ImageRepository := cc_ImageRepository x; cc_FeatureGates := cc_FeatureGates x;
     cc_ClusterName := v |}.

Record APIEndpoint := {
  ae_AdvertiseAddress : string;
  ae_BindPort : Z;
}.

#[export] Instance APIEndpoint_eq_dec : EqDecision APIEndpoint.
Proof. solve_decision. Defined.

(** A taint of a Node (k8s.io/api/core/v1). *)
Record Taint := {
  ta_Key : string;
  ta_Value : string;
  ta_Effect : string;
  ta_TimeAdded : option Time;
}.

#[export] Instance Taint_eq_dec : EqDecision Taint.
Proof. solve_decision. Defined.

Record NodeRegistrationOptions := {
  nr_Name : string;
  nr_CRISocket : string;
  nr_Taints : slice Taint;
  nr_KubeletExtraArgs : go_map string;
  nr_IgnorePreflightErrors : slice string;
  nr_ImagePullPolicy : string;
  nr_ImagePullSerial : option bool;
}.

#[export] Instance NodeRegistrationOptions_eq_dec : EqDecision NodeRegistrationOptions.
Proof. solve_decision. Defined.

Definition nr_set_ImagePullPolicy (v : string) (x : NodeRegistrationOptions) :
    NodeRegistrationOptions :=
  {| nr_Name := nr_Name x; nr_CRISocket := nr_CRISocket x; nr_Taints := nr_Taints x;
     nr_KubeletExtraArgs := nr_KubeletExtraArgs x;
     nr_IgnorePreflightErrors := nr_IgnorePreflightErrors x; nr_ImagePullPolicy := v;
     nr_ImagePullSerial := nr_ImagePullSerial x |}.

Record BootstrapTokenString := {
  bts_ID : string;
  bts_Secret : string;
}.

#[export] Instance BootstrapTokenString_eq_dec : EqDecision BootstrapTokenString.
Proof. solve_decision. Defined.

Record BootstrapToken := {
  bt_Token : option BootstrapTokenString;
  bt_Description : string;
  bt_TTL : option Z;
  bt_Expires : option Time;
  bt_Usages : slice string;
  bt_Groups : slice string;
}.

#[export] Instance BootstrapToken_eq_dec : EqDecision BootstrapToken.
Proof. solve_decision. Defined.

Record Patches := {
  pa_Directory : string;
}.

#[export] Instance Patches_eq_dec : EqDecision Patches.
Proof. solve_decision. Defined.

Record InitConfiguration := {
  ic_TypeMeta : TypeMeta;
  ic_BootstrapTokens : slice BootstrapToken;
  ic_NodeRegistration : NodeRegistrationOptions;
  ic_LocalAPIEndpoint : APIEndpoint;
  ic_SkipPhases : slice string;
  ic_Patches : option Patches;
}.

#[export] Instance InitConfiguration_eq_dec : EqDecision InitConfiguration.
Proof. solve_decision. Defined.

Definition ic_set_TypeMeta (v : TypeMeta) (x : InitConfiguration) : InitConfiguration :=
  {| ic_TypeMeta := v; ic_BootstrapTokens := ic_BootstrapTokens x;
     ic_NodeRegistration := ic_NodeRegistration x; ic_LocalAPIEndpoint := ic_LocalAPIEndpoint x;
     ic_SkipPhases := ic_SkipPhases x; ic_Patches := ic_Patches x |}.

Definition ic_set_NodeRegistration (v : NodeRegistrationOptions) (x : InitConfiguration) :
    InitConfiguration :=
  {| ic_TypeMeta := ic_TypeMeta x; ic_BootstrapTokens := ic_BootstrapTokens x;
     ic_NodeRegistration := v; ic_LocalAPIEndpoint := ic_LocalAPIEndpoint x;
     ic_SkipPhases := ic_SkipPhases x; ic_Patches := ic_Patches x |}.

Record JoinControlPlane := {
  jcp_LocalAPIEndpoint : APIEndpoint;
}.

#[export] Instance JoinControlPlane_eq_dec : EqDecision JoinControlPlane.
Proof. solve_decision. Defined.

Record BootstrapTokenDiscovery := {
  btd_Token : string;
  btd_APIServerEndpoint : string;
  btd_CACertHashes : slice string;
  btd_UnsafeSkipCAVerification : bool;
}.

#[export] Instance BootstrapTokenDiscovery_eq_dec : EqDecision BootstrapTokenDiscovery.
Proof. solve_decision. Defined.

Record KubeConfigCluster := {
  kcc_Server : string;
  kcc_TLSServerName : string;
  kcc_InsecureSkipTLSVerify : bool;
  kcc_CertificateAuthorityData : slice ascii;
  kcc_ProxyURL : string;
}.

#[export] Instance KubeConfigCluster_eq_dec : EqDecision KubeConfigCluster.
Proof. solve_decision. Defined.

Record KubeConfigAuthProvider := {
  kcp_ap_Name : string;
  kcp_ap_Config : go_map string;
}.

#[export] Instance KubeConfigAuthProvider_eq_dec : EqDecision KubeConfigAuthProvider.
Proof. solve_decision. Defined.

Record KubeConfigAuthExecEnv := {
  kce_Name : string;
  kce_Value : string;
}.

#[export] Instance KubeConfigAuthExecEnv_eq_dec : EqDecision KubeConfigAuthExecEnv.
Proof. solve_decision. Defined.

Record KubeConfigAuthExec := {
  kcx_Command : string;
  kcx_Args : slice string;
  kcx_Env : slice KubeConfigAuthExecEnv;
  kcx_APIVersion : string;
  kcx_ProvideClusterInfo : bool;
}.

#[export] Instance KubeConfigAuthExec_eq_dec : EqDecision KubeConfigAuthExec.
Proof. solve_decision. Defined.

Definition kcx_set_APIVersion (v : string) (x : KubeConfigAuthExec) : KubeConfigAuthExec :=
  {| kcx_Command := kcx_Command x; kcx_Args := kcx_Args x; kcx_Env := kcx_Env x;
     kcx_APIVersion := v; kcx_ProvideClusterInfo := kcx_ProvideClusterInfo x |}.

Record KubeConfigUser := {
  kcu_AuthProvider : option KubeConfigAuthProvider;
  kcu_Exec : option KubeConfigAuthExec;
}.

#[export] Instance KubeConfigUser_eq_dec : EqDecision KubeConfigUser.
Proof. solve_decision. Defined.

Definition kcu_set_Exec (v : option KubeConfigAuthExec) (x : KubeConfigUser) : KubeConfigUser :=
  {| kcu_AuthProvider := kcu_AuthProvider x; kcu_Exec := v |}.

Record FileDiscoveryKubeConfig := {
  fdk_Cluster : option KubeConfigCluster;
  fdk_User : KubeConfigUser;
}.

#[export] Instance FileDiscoveryKubeConfig_eq_dec : EqDecision FileDiscoveryKubeConfig.
Proof. solve_decision. Defined.

Definition fdk_set_User (v : KubeConfigUser) (x : FileDiscoveryKubeConfig) :
    FileDiscoveryKubeConfig :=
  {| fdk_Cluster := fdk_Cluster x; fdk_User := v |}.

Record FileDiscovery := {
  fdi_KubeConfigPath : string;
  fdi_KubeConfig : option FileDiscoveryKubeConfig;
}.

#[export] Instance FileDiscovery_eq_dec : EqDecision FileDiscovery.
Proof. solve_decision. Defined.

Definition fdi_set_KubeConfig (v : option FileDiscoveryKubeConfig) (x : FileDiscovery) :
    FileDiscovery :=
  {| fdi_KubeConfigPath := fdi_KubeConfigPath x; fdi_KubeConfig := v |}.

Record Discovery := {
  di_BootstrapToken : option BootstrapTokenDiscovery;
  di_File : option FileDiscovery;
  di_TLSBootstrapToken : string;
  di_Timeout : option Z;
}.

#[export] Instance Discovery_eq_dec : EqDecision Discovery.
Proof. solve_decision. Defined.

Definition di_set_File (v : option FileDiscovery) (x : Discovery) : Discovery :=
  {| di_BootstrapToken := di_BootstrapToken x; di_File := v;
     di_TLSBootstrapToken := di_TLSBootstrapToken x; di_Timeout := di_Timeout x |}.

Record JoinConfiguration := {
  jc_TypeMeta : TypeMeta;
  jc_NodeRegistration : NodeRegistrationOptions;
  jc_CACertPath : string;
  jc_Discovery : Discovery;
  jc_ControlPlane : option JoinControlPlane;
  jc_SkipPhases : slice string;
  jc_Patches : option Patches;
}.

#[export] Instance JoinConfiguration_eq_dec : EqDecision JoinConfiguration.
Proof. solve_decision. Defined.

Definition jc_set_TypeMeta (v : TypeMeta) (x : JoinConfiguration) : JoinConfiguration :=
  {| jc_TypeMeta := v; jc_NodeRegistration := jc_NodeRegistration x;
     jc_CACertPath := jc_CACertPath x; jc_Discovery := jc_Discovery x;
     jc_ControlPlane := jc_ControlPlane x; jc_SkipPhases := jc_SkipPhases x;
     jc_Patches := jc_Patches x |}.

Definition jc_set_NodeRegistration (v : NodeRegistrationOptions) (x : JoinConfiguration) :
    JoinConfiguration :=
  {| jc_TypeMeta := jc_TypeMeta x; jc_NodeRegistration := v; jc_CACertPath := jc_CACertPath x;
     jc_Discovery := jc_Discovery x; jc_ControlPlane := jc_ControlPlane x;
     jc_SkipPhases := jc_SkipPhases x; jc_Patches := jc_Patches x |}.

Definition jc_set_Discovery (v : Discovery) (x : JoinConfiguration) : JoinConfiguration :=
  {| jc_TypeMeta := jc_TypeMeta x; jc_NodeRegistration := jc_NodeRegistration x;
     jc_CACertPath := jc_CACertPath x; jc_Discovery := v; jc_ControlPlane := jc_ControlPlane x;
     jc_SkipPhases := jc_SkipPhases x; jc_Patches := jc_Patches x |}.

Definition jc_set_ControlPlane (v : option JoinControlPlane) (x : JoinConfiguration) :
    JoinConfiguration :=
  {| jc_TypeMeta := jc_TypeMeta x; jc_NodeRegistration := jc_NodeRegistration x;
     jc_CACertPath := jc_CACertPath x; jc_Discovery := jc_Discovery x; jc_ControlPlane := v;
     jc_SkipPhases := jc_SkipPhases x; jc_Patches := jc_Patches x |}.

(** ** kubeadmconfig_types.go *)

Record SecretFileSource := {
  sfs_Name : string;
  sfs_Key : string;
}.

#[export] Instance SecretFileSource_eq_dec : EqDecision SecretFileSource.
Proof. solve_decision. Defined.

Record FileSource := {
  fso_Secret : SecretFileSource;
}.

#[export] Instance FileSource_eq_dec : EqDecision FileSource.
Proof. solve_decision. Defined.

Record File := {
  fi_Path : string;
  fi_Owner : string;
  fi_Permissions : string;
  fi_Encoding : string;
  fi_Append : bool;
  fi_Content : string;
  fi_ContentFrom : option FileSource;
}.

#[export] Instance File_eq_dec : EqDecision File.
Proof. solve_decision. Defined.

Record SecretPasswdSource := {
  sps_Name : string;
  sps_Key : string;
}.

#[export] Instance SecretPasswdSource_eq_dec : EqDecision SecretPasswdSource.
Proof. solve_decision. Defined.

Record PasswdSource := {
  pso_Secret : SecretPasswdSource;
}.

#[export] Instance PasswdSource_eq_dec : EqDecision PasswdSource.
Proof. solve_decision. Defined.

Record User := {
  us_Name : string;
  us_Gecos : option string;
  us_Groups : option string;
  us_HomeDir : option string;
  us_Inactive : option bool;
  us_Shell : option string;
  us_Passwd : option string;
  us_PasswdFrom : option PasswdSource;
  us_PrimaryGroup : option string;
  us_LockPassword : option bool;
  us_Sudo : option string;
  us_SSHAuthorizedKeys : slice string;
}.

#[export] Instance User_eq_dec : EqDecision User.
Proof. solve_decision. Defined.

Record NTP := {
  ntp_Servers : slice string;
  ntp_Enabled : option bool;
}.

#[export] Instance NTP_eq_dec : EqDecision NTP.
Proof. solve_decision. Defined.

Record Partition := {
  pt_Device : string;
  pt_Layout : bool;
  pt_Overwrite : option bool;
  pt_TableType : option string;
}.

#[export] Instance Partition_eq_dec : EqDecision Partition.
Proof. solve_decision. Defined.

Record Filesystem := {
  fs_Device : string;
  fs_Filesystem : string;
  fs_Label : string;
  fs_Partition : option string;
  fs_Overwrite : option bool;
  fs_ReplaceFS : option string;
  fs_ExtraOpts : slice string;
}.

#[export] Instance Filesystem_eq_dec : EqDecision Filesystem.
Proof. solve_decision. Defined.

Record DiskSetup := {
  ds_Partitions : slice Partition;
  ds_Filesystems : slice Filesystem;
}.

#[export] Instance DiskSetup_eq_dec : EqDecision DiskSetup.
Proof. solve_decision. Defined.

Record ContainerLinuxConfig := {
  clc_AdditionalConfig : string;
  clc_Strict : bool;
}.

#[export] Instance ContainerLinuxConfig_eq_dec : EqDecision ContainerLinuxConfig.
Proof. solve_decision. Defined.

Record IgnitionSpec := {
  ig_ContainerLinuxConfig : option ContainerLinuxConfig;
}.

#[export] Instance IgnitionSpec_eq_dec : EqDecision IgnitionSpec.
Proof. solve_decision. Defined.

Record KubeadmConfigSpec := {
  kcs_ClusterConfiguration : option ClusterConfiguration;
  kcs_InitConfiguration : option InitConfiguration;
  kcs_JoinConfiguration : option JoinConfiguration;
  kcs_Files : slice File;
  kcs_DiskSetup : option DiskSetup;
  kcs_Mounts : slice (slice string);
  kcs_PreKubeadmCommands : slice string;
  kcs_PostKubeadmCommands : slice string;
  kcs_Users : slice User;
  kcs_NTP : option NTP;
  kcs_Format : string;
  kcs_Verbosity : option Z;
  kcs_UseExperimentalRetryJoin : bool;
  kcs_Ignition : option IgnitionSpec;
}.

#[export] Instance KubeadmConfigSpec_eq_dec : EqDecision KubeadmConfigSpec.
Proof. solve_decision. Defined.

Definition kcs_set_ClusterConfiguration (v : option ClusterConfiguration) (x : KubeadmConfigSpec) :
    KubeadmConfigSpec :=
  {| kcs_ClusterConfiguration := v; kcs_InitConfiguration := kcs_InitConfiguration x;
     kcs_JoinConfiguration := kcs_JoinConfiguration x; kcs_Files := kcs_Files x;
     kcs_DiskSetup := kcs_DiskSetup x; kcs_Mounts := kcs_Mounts x;
     kcs_PreKubeadmCommands := kcs_PreKubeadmCommands x;
     kcs_PostKubeadmCommands := kcs_PostKubeadmCommands x; kcs_Users := kcs_Users x;
     kcs_NTP := kcs_NTP x; kcs_Format := kcs_Format x; kcs_Verbosity := kcs_Verbosity x;
     kcs_UseExperimentalRetryJoin := kcs_UseExperimentalRetryJoin x;
     kcs_Ignition := kcs_Ignition x |}.

Definition kcs_set_InitConfiguration (v : option InitConfiguration) (x : KubeadmConfigSpec) :
    KubeadmConfigSpec :=
  {| kcs_ClusterConfiguration := kcs_ClusterConfiguration x; kcs_InitConfiguration := v;
     kcs_JoinConfiguration := kcs_JoinConfiguration x; kcs_Files := kcs_Files x;
     kcs_DiskSetup := kcs_DiskSetup x; kcs_Mounts := kcs_Mounts x;
     kcs_PreKubeadmCommands := kcs_PreKubeadmCommands x;
     kcs_PostKubeadmCommands := kcs_PostKubeadmCommands x; kcs_Users := kcs_Users x;
     kcs_NTP := kcs_NTP x; kcs_Format := kcs_Format x; kcs_Verbosity := kcs_Verbosity x;
     kcs_UseExperimentalRetryJoin := kcs_UseExperimentalRetryJoin x;
     kcs_Ignition := kcs_Ignition x |}.

Definition kcs_set_JoinConfiguration (v : option JoinConfiguration) (x : KubeadmConfigSpec) :
    KubeadmConfigSpec :=
  {| kcs_ClusterConfiguration := kcs_ClusterConfiguration x;
     kcs_InitConfiguration := kcs_InitConfiguration x; kcs_JoinConfiguration := v;
     kcs_Files := kcs_Files x; kcs_DiskSetup := kcs_DiskSetup x; kcs_Mounts := kcs_Mounts x;
     kcs_PreKubeadmCommands := kcs_PreKubeadmCommands x;
     kcs_PostKubeadmCommands := kcs_PostKubeadmCommands x; kcs_Users := kcs_Users x;
     kcs_NTP := kcs_NTP x; kcs_Format := kcs_Format x; kcs_Verbosity := kcs_Verbosity x;
     kcs_UseExperimentalRetryJoin := kcs_UseExperimentalRetryJoin x;
     kcs_Ignition := kcs_Ignition x |}.

Definition kcs_set_Format (v : string) (x : KubeadmConfigSpec) : KubeadmConfigSpec :=
  {| kcs_ClusterConfiguration := kcs_ClusterConfiguration x;
     kcs_InitConfiguration := kcs_InitConfiguration x;
     kcs_JoinConfiguration := kcs_JoinConfiguration x; kcs_Files := kcs_Files x;
     kcs_DiskSetup := kcs_DiskSetup x; kcs_Mounts := kcs_Mounts x;
     kcs_PreKubeadmCommands := kcs_PreKubeadmCommands x;
     kcs_PostKubeadmCommands := kcs_PostKubeadmCommands x; kcs_Users := kcs_Users x;
     kcs_NTP := kcs_NTP x; kcs_Format := v; kcs_Verbosity := kcs_Verbosity x;
     kcs_UseExperimentalRetryJoin := kcs_UseExperimentalRetryJoin x;
     kcs_Ignition := kcs_Ignition x |}.

Record KubeadmConfigStatus := {
  kct_Ready : bool;
  kct_DataSecretName : option string;
  kct_FailureReason : string;
  kct_FailureMessage : string;
  kct_ObservedGeneration : Z;
  kct_Conditions : Conditions;
  kct_V1Beta2 : option (list MetaCondition);
}.

Record KubeadmConfig := {
  kc_Meta : Meta;
  kc_Spec : KubeadmConfigSpec;
  kc_Status : KubeadmConfigStatus;
}.

Definition kc_set_Spec (v : KubeadmConfigSpec) (x : KubeadmConfig) : KubeadmConfig :=
  {| kc_Meta := kc_Meta x; kc_Spec := v; kc_Status := kc_Status x |}.
Definition kc_set_Meta (v : Meta) (x : KubeadmConfig) : KubeadmConfig :=
  {| kc_Meta := v; kc_Spec := kc_Spec x; kc_Status := kc_Status x |}.
Definition emptyKubeadmConfigStatus : KubeadmConfigStatus :=
  {| kct_Ready := false; kct_DataSecretName := None; kct_FailureReason := ""; kct_FailureMessage := "";
     kct_ObservedGeneration := 0; kct_Conditions := []; kct_V1Beta2 := None |}.
