(* ===== verification/KubeadmConfig.v ===== *)
(** * Defaults, validation and encoding of kubeadm configurations

    [KubeadmConfigSpec.Default] and [Validate] (bootstrap/kubeadm/api/v1beta1), and
    [json.Marshal] and [json.Unmarshal] of a ClusterConfiguration.  The two types of other
    libraries it contains have encodings of their own: the class [KubeTypes]. *)

From Stdlib Require Import Ascii.
From S2P Require Import Prelude GoStd Json JsonCodec Api Kubeadm.

(** ** Defaults *)

Definition CloudConfig : string := "cloud-config".
Definition Ignition : string := "ignition".

Definition default_pull_policy (n : NodeRegistrationOptions) : NodeRegistrationOptions :=
  if String.eqb (nr_ImagePullPolicy n) "" then nr_set_ImagePullPolicy "IfNotPresent" n else n.

Definition default_exec (e : KubeConfigAuthExec) : KubeConfigAuthExec :=
  if String.eqb (kcx_APIVersion e) "" then kcx_set_APIVersion "client.authentication.k8s.io/v1" e else e.

Definition default_discovery (d : Discovery) : Discovery :=
  match di_File d with
  | None => d
  | Some file =>
      match fdi_KubeConfig file with
      | None => d
      | Some kfg =>
          let user := fdk_User kfg in
          di_set_File (Some (fdi_set_KubeConfig (Some (fdk_set_User
            (kcu_set_Exec (default_exec <$> kcu_Exec user) user) kfg)) file)) d
      end
  end.

Definition default_join (j : JoinConfiguration) : JoinConfiguration :=
  let j := jc_set_NodeRegistration (default_pull_policy (jc_NodeRegistration j)) j in
  jc_set_Discovery (default_discovery (jc_Discovery j)) j.

Definition Default (c : KubeadmConfigSpec) : KubeadmConfigSpec :=
  let c := if String.eqb (kcs_Format c) "" then kcs_set_Format CloudConfig c else c in
  let c := kcs_set_InitConfiguration ((λ i,
    ic_set_NodeRegistration (default_pull_policy (ic_NodeRegistration i)) i) <$> kcs_InitConfiguration c) c in
  kcs_set_JoinConfiguration (default_join <$> kcs_JoinConfiguration c) c.

(** ** Validation

    The errors of k8s.io/apimachinery/pkg/util/validation/field, without the offending value. *)

Inductive path_element := Child (name : string) | Index (i : nat).

#[export] Instance path_element_eq_dec : EqDecision path_element.
Proof. solve_decision. Defined.

Inductive field_error :=
| FieldInvalid (path : list path_element) (detail : string)
| FieldRequired (path : list path_element) (detail : string)
| FieldForbidden (path : list path_element) (detail : string).

#[export] Instance field_error_eq_dec : EqDecision field_error.
Proof. solve_decision. Defined.

Definition cannotUseWithIgnition : string :=
  "not supported when spec.format is set to: " +:+ quoted Ignition.
Definition conflictingFileSourceMsg : string :=
  "only one of content or contentFrom may be specified for a single file".
Definition conflictingUserSourceMsg : string :=
  "only one of passwd or passwdFrom may be specified for a single user".
Definition kubeadmBootstrapFormatIgnitionFeatureDisabledMsg : string :=
  "can be set only if the KubeadmBootstrapFormatIgnition feature gate is enabled".
Definition missingSecretNameMsg : string := "secret file source must specify non-empty secret name".
Definition missingSecretKeyMsg : string := "secret file source must specify non-empty secret key".
Definition pathConflictMsg : string := "path property must be unique among all files".

(** The errors of a loop over a slice. *)
Definition errors_at {A} (f : nat → A → list field_error) (l : slice A) : list field_error :=
  concat (imap f (default [] l)).

Definition secret_errors (path : list path_element) (name key : string) : list field_error :=
  (if String.eqb name "" then [FieldRequired (path ++ [Child "name"]) missingSecretNameMsg] else []) ++
  (if String.eqb key "" then [FieldRequired (path ++ [Child "key"]) missingSecretKeyMsg] else []).

Section validate.
Context (pathPrefix : list path_element).

(** [known] are the paths of the files before this one. *)
Definition file_errors (known : list string) (i : nat) (file : File) : list field_error :=
  let at_file := pathPrefix ++ [Child "files"; Index i] in
  (if negb (String.eqb (fi_Content file) "") && bool_decide (is_Some (fi_ContentFrom file))
   then [FieldInvalid at_file conflictingFileSourceMsg] else []) ++
  match fi_ContentFrom file with
  | Some source =>
      secret_errors (at_file ++ [Child "contentFrom"; Child "secret"])
        (sfs_Name (fso_Secret source)) (sfs_Key (fso_Secret source))
  | None => []
  end ++
  (if bool_decide (fi_Path file ∈ known)
   then [FieldInvalid (at_file ++ [Child "path"]) pathConflictMsg] else []).

Fixpoint validate_files_from (known : list string) (i : nat) (files : list File) : list field_error :=
  match files with
  | [] => []
  | file :: files => file_errors known i file ++ validate_files_from (fi_Path file :: known) (S i) files
  end.

Definition validateFiles (c : KubeadmConfigSpec) : list field_error :=
  validate_files_from [] 0 (default [] (kcs_Files c)).

Definition user_errors (i : nat) (user : User) : list field_error :=
  let at_user := pathPrefix ++ [Child "users"; Index i] in
  (if bool_decide (is_Some (us_Passwd user)) && bool_decide (is_Some (us_PasswdFrom user))
   then [FieldInvalid at_user conflictingUserSourceMsg] else []) ++
  match us_PasswdFrom user with
  | Some source =>
      secret_errors (at_user ++ [Child "passwdFrom"; Child "secret"])
        (sps_Name (pso_Secret source)) (sps_Key (pso_Secret source))
  | None => []
  end.

Definition validateUsers (c : KubeadmConfigSpec) : list field_error := errors_at user_errors (kcs_Users c).

Definition forbidden_if (b : bool) (path : list path_element) (detail : string) : list field_error :=
  if b then [FieldForbidden (pathPrefix ++ path) detail] else [].

Definition ignition_disabled_errors (c : KubeadmConfigSpec) : list field_error :=
  forbidden_if (String.eqb (kcs_Format c) Ignition) [Child "format"]
    kubeadmBootstrapFormatIgnitionFeatureDisabledMsg ++
  forbidden_if (bool_decide (is_Some (kcs_Ignition c))) [Child "ignition"]
    kubeadmBootstrapFormatIgnitionFeatureDisabledMsg.

Definition disk_errors (setup : DiskSetup) : list field_error :=
  errors_at (λ i partition,
    match pt_TableType partition with
    | Some t =>
        if String.eqb t "gpt" then []
        else [FieldInvalid (pathPrefix ++ [Child "diskSetup"; Child "partitions"; Index i; Child "tableType"])
                ("only partition type " +:+ quoted "gpt" +:+ " is supported when spec.format is set to "
                 +:+ quoted Ignition)]
    | None => []
    end) (ds_Partitions setup) ++
  errors_at (λ i fs,
    forbidden_if (bool_decide (is_Some (fs_ReplaceFS fs)))
      [Child "diskSetup"; Child "filesystems"; Index i; Child "replaceFS"] cannotUseWithIgnition ++
    forbidden_if (bool_decide (is_Some (fs_Partition fs)))
      [Child "diskSetup"; Child "filesystems"; Index i; Child "partition"] cannotUseWithIgnition)
    (ds_Filesystems setup).

Definition validateIgnition (ignitionEnabled : bool) (c : KubeadmConfigSpec) : list field_error :=
  if negb ignitionEnabled then ignition_disabled_errors c
  else if negb (String.eqb (kcs_Format c) Ignition) then
    if bool_decide (is_Some (kcs_Ignition c)) then
      [FieldInvalid (pathPrefix ++ [Child "format"])
         ("must be set to " +:+ quoted Ignition +:+ " if spec.ignition is set")]
    else []
  else
    errors_at (λ i user,
      forbidden_if (bool_decide (us_Inactive user = Some true))
        [Child "users"; Index i; Child "inactive"] cannotUseWithIgnition) (kcs_Users c) ++
    forbidden_if (kcs_UseExperimentalRetryJoin c) [Child "useExperimentalRetryJoin"] cannotUseWithIgnition ++
    errors_at (λ i file,
      forbidden_if (String.eqb (fi_Encoding file) "gzip" || String.eqb (fi_Encoding file) "gzip+base64")
        [Child "files"; Index i; Child "encoding"] cannotUseWithIgnition) (kcs_Files c) ++
    match kcs_DiskSetup c with None => [] | Some setup => disk_errors setup end.

Definition discovery_errors (c : KubeadmConfigSpec) : list field_error :=
  match (kcs_JoinConfiguration c ≫= λ j, di_File (jc_Discovery j)) ≫= fdi_KubeConfig with
  | None => []
  | Some kfg =>
      let userPath := pathPrefix ++
        [Child "joinConfiguration"; Child "discovery"; Child "file"; Child "kubeconfig"; Child "user"] in
      match kcu_AuthProvider (fdk_User kfg), kcu_Exec (fdk_User kfg) with
      | None, None => [FieldInvalid userPath "at least one of authProvider or exec must be defined"]
      | Some _, Some _ => [FieldInvalid userPath "either authProvider or exec must be defined"]
      | _, _ => []
      end
  end.

Definition Validate (ignitionEnabled : bool) (c : KubeadmConfigSpec) : list field_error :=
  validateFiles c ++ validateUsers c ++ validateIgnition ignitionEnabled c ++ discovery_errors c.
End validate.

(** ** JSON of a ClusterConfiguration *)

(** [metav1.Duration] is a text in JSON and is read back as it was written; [EnvVarSource]
    belongs to k8s.io/api/core/v1. *)
Class KubeTypes := {
  Duration_MarshalJSON : Z → string;
  Duration_UnmarshalJSON : string → option Z;
  EnvVarSource_decode : json → option EnvVarSource;
  Duration_roundtrip : ∀ d, in_int64 d → Duration_UnmarshalJSON (Duration_MarshalJSON d) = Some d;
}.

#[export] Instance concrete_KubeTypes : KubeTypes | 100.
Proof.
  refine {| Duration_MarshalJSON := FormatInt;
            Duration_UnmarshalJSON s := match ParseInt s 64 with (d, None) => Some d | _ => None end;
            EnvVarSource_decode := Some |}.
  intros d [Hlo Hhi]. unfold int64_min, int64_max in *. rewrite ParseInt_FormatInt by lia. done.
Defined.

Section codecs.
Context `{KubeTypes}.

Definition duration_codec : codec Z := {|
  zero_value := 0;
  is_empty _ := false;
  marshal d := JString (Duration_MarshalJSON d);
  unmarshal j old := match j with JString s => Duration_UnmarshalJSON s | JNull => Some old | _ => None end;
  survives := in_int64;
|}.

Definition env_source_codec : codec EnvVarSource := {|
  zero_value := JObject [];
  is_empty _ := false;
  marshal j := j;
  unmarshal j _ := EnvVarSource_decode j;
  survives j := EnvVarSource_decode j = Some j;
|}.

Definition TypeMeta_fields : list (field TypeMeta) :=
  [ Field string_codec "kind" true tm_Kind (λ v x, {| tm_Kind := v; tm_APIVersion := tm_APIVersion x |});
    Field string_codec "apiVersion" true tm_APIVersion (λ v x, {| tm_Kind := tm_Kind x; tm_APIVersion := v |}) ].

Definition emptyImageMeta : ImageMeta := {| im_ImageRepository := ""; im_ImageTag := "" |}.

Definition ImageMeta_fields : list (field ImageMeta) :=
  [ Field string_codec "imageRepository" true im_ImageRepository im_set_ImageRepository;
    Field string_codec "imageTag" true im_ImageTag im_set_ImageTag ].

Definition emptyDNS : DNS := {| dns_ImageMeta := emptyImageMeta |}.

Definition DNS_codec : codec DNS :=
  struct_codec emptyDNS (inline dns_ImageMeta dns_set_ImageMeta ImageMeta_fields).

Definition Networking_codec : codec Networking :=
  struct_codec {| nw_ServiceSubnet := ""; nw_PodSubnet := ""; nw_DNSDomain := "" |}
    [ Field string_codec "serviceSubnet" true nw_ServiceSubnet nw_set_ServiceSubnet;
      Field string_codec "podSubnet" true nw_PodSubnet nw_set_PodSubnet;
      Field string_codec "dnsDomain" true nw_DNSDomain nw_set_DNSDomain ].

Definition EnvVar_codec : codec EnvVar :=
  struct_codec {| ev_Name := ""; ev_Value := ""; ev_ValueFrom := None |}
    [ Field string_codec "name" false ev_Name ev_set_Name;
      Field string_codec "value" true ev_Value ev_set_Value;
      Field (pointer_codec env_source_codec) "valueFrom" true ev_ValueFrom ev_set_ValueFrom ].

Definition HostPathMount_codec : codec HostPathMount :=
  struct_codec {| hp_Name := ""; hp_HostPath := ""; hp_MountPath := ""; hp_ReadOnly := false; hp_PathType := "" |}
    [ Field string_codec "name" false hp_Name hp_set_Name;
      Field string_codec "hostPath" false hp_HostPath hp_set_HostPath;
      Field string_codec "mountPath" false hp_MountPath hp_set_MountPath;
      Field bool_codec "readOnly" true hp_ReadOnly hp_set_ReadOnly;
      Field string_codec "pathType" true hp_PathType hp_set_PathType ].

Definition emptyComponent : ControlPlaneComponent :=
  {| cpc_ExtraArgs := None; cpc_ExtraVolumes := None; cpc_ExtraEnvs := None |}.

Definition ControlPlaneComponent_fields : list (field ControlPlaneComponent) :=
  [ Field (map_codec string_codec) "extraArgs" true cpc_ExtraArgs cpc_set_ExtraArgs;
    Field (slice_codec HostPathMount_codec) "extraVolumes" true cpc_ExtraVolumes cpc_set_ExtraVolumes;
    Field (slice_codec EnvVar_codec) "extraEnvs" true cpc_ExtraEnvs cpc_set_ExtraEnvs ].

Definition ControlPlaneComponent_codec : codec ControlPlaneComponent :=
  struct_codec emptyComponent ControlPlaneComponent_fields.

Definition emptyAPIServer : APIServer :=
  {| as_ControlPlaneComponent := emptyComponent; as_CertSANs := None; as_TimeoutForControlPlane := None |}.

Definition APIServer_codec : codec APIServer :=
  struct_codec emptyAPIServer
    (inline as_ControlPlaneComponent as_set_ControlPlaneComponent ControlPlaneComponent_fields ++
    [ Field (slice_codec string_codec) "certSANs" true as_CertSANs as_set_CertSANs;
      Field (pointer_codec duration_codec) "timeoutForControlPlane" true
        as_TimeoutForControlPlane as_set_TimeoutForControlPlane ]).

Definition LocalEtcd_codec : codec LocalEtcd :=
  struct_codec {| le_ImageMeta := emptyImageMeta; le_DataDir := ""; le_ExtraArgs := None; le_ExtraEnvs := None;
    le_ServerCertSANs := None; le_PeerCertSANs := None |}
    (inline le_ImageMeta le_set_ImageMeta ImageMeta_fields ++
    [ Field string_codec "dataDir" true le_DataDir le_set_DataDir;
      Field (map_codec string_codec) "extraArgs" true le_ExtraArgs le_set_ExtraArgs;
      Field (slice_codec EnvVar_codec) "extraEnvs" true le_ExtraEnvs le_set_ExtraEnvs;
      Field (slice_codec string_codec) "serverCertSANs" true le_ServerCertSANs le_set_ServerCertSANs;
      Field (slice_codec string_codec) "peerCertSANs" true le_PeerCertSANs le_set_PeerCertSANs ]).

Definition ExternalEtcd_codec : codec ExternalEtcd :=
  struct_codec {| ee_Endpoints := None; ee_CAFile := ""; ee_CertFile := ""; ee_KeyFile := "" |}
    [ Field (slice_codec string_codec) "endpoints" false ee_Endpoints ee_set_Endpoints;
      Field string_codec "caFile" false ee_CAFile ee_set_CAFile;
      Field string_codec "certFile" false ee_CertFile ee_set_CertFile;
      Field string_codec "keyFile" false ee_KeyFile ee_set_KeyFile ].

Definition emptyEtcd : Etcd := {| et_Local := None; et_External := None |}.

Definition Etcd_codec : codec Etcd :=
  struct_codec emptyEtcd
    [ Field (pointer_codec LocalEtcd_codec) "local" true et_Local et_set_Local;
      Field (pointer_codec ExternalEtcd_codec) "external" true et_External et_set_External ].

Definition emptyClusterConfiguration : ClusterConfiguration :=
  {| cc_TypeMeta := emptyTypeMeta; cc_Etcd := emptyEtcd;
     cc_Networking := {| nw_ServiceSubnet := ""; nw_PodSubnet := ""; nw_DNSDomain := "" |};
     cc_KubernetesVersion := ""; cc_ControlPlaneEndpoint := ""; cc_APIServer := emptyAPIServer;
     cc_ControllerManager := emptyComponent; cc_Scheduler := emptyComponent; cc_DNS := emptyDNS;
     cc_CertificatesDir := ""; cc_ImageRepository := ""; cc_FeatureGates := None; cc_ClusterName := "" |}.

Definition ClusterConfiguration_codec : codec ClusterConfiguration :=
  struct_codec emptyClusterConfiguration
    (inline cc_TypeMeta cc_set_TypeMeta TypeMeta_fields ++
    [ Field Etcd_codec "etcd" true cc_Etcd cc_set_Etcd;
      Field Networking_codec "networking" true cc_Networking cc_set_Networking;
      Field string_codec "kubernetesVersion" true cc_KubernetesVersion cc_set_KubernetesVersion;
      Field string_codec "controlPlaneEndpoint" true cc_ControlPlaneEndpoint cc_set_ControlPlaneEndpoint;
      Field APIServer_codec "apiServer" true cc_APIServer cc_set_APIServer;
      Field ControlPlaneComponent_codec "controllerManager" true cc_ControllerManager cc_set_ControllerManager;
      Field ControlPlaneComponent_codec "scheduler" true cc_Scheduler cc_set_Scheduler;
      Field DNS_codec "dns" true cc_DNS cc_set_DNS;
      Field string_codec "certificatesDir" true cc_CertificatesDir cc_set_CertificatesDir;
      Field string_codec "imageRepository" true cc_ImageRepository cc_set_ImageRepository;
      Field (map_codec bool_codec) "featureGates" true cc_FeatureGates cc_set_FeatureGates;
      Field string_codec "clusterName" true cc_ClusterName cc_set_ClusterName ]).

(** [json.Marshal] and [json.Unmarshal] of a pointer to a ClusterConfiguration. *)
Definition Marshal_ClusterConfiguration (c : option ClusterConfiguration) : string :=
  encode_value (marshal (pointer_codec ClusterConfiguration_codec) c).

Definition Unmarshal_ClusterConfiguration (s : string) (old : option ClusterConfiguration) :
    option (option ClusterConfiguration) :=
  j ← decode s; unmarshal (pointer_codec ClusterConfiguration_codec) j old.

(** ** Round trip *)

Lemma duration_lawful : lawful duration_codec.
Proof. exact Duration_roundtrip. Qed.

Lemma env_source_lawful : lawful env_source_codec.
Proof. by intros j Hj. Qed.

Hint Resolve duration_lawful env_source_lawful : lawful.

Lemma DNS_lawful : lawful DNS_codec.
Proof. struct_lawful as [[]]. Qed.

Lemma Networking_lawful : lawful Networking_codec.
Proof. struct_lawful as []. Qed.

Lemma EnvVar_lawful : lawful EnvVar_codec.
Proof. struct_lawful as []. Qed.

Lemma HostPathMount_lawful : lawful HostPathMount_codec.
Proof. struct_lawful as []. Qed.

Lemma ExternalEtcd_lawful : lawful ExternalEtcd_codec.
Proof. struct_lawful as []. Qed.

Hint Resolve DNS_lawful Networking_lawful EnvVar_lawful HostPathMount_lawful ExternalEtcd_lawful : lawful.

Lemma ControlPlaneComponent_lawful : lawful ControlPlaneComponent_codec.
Proof. struct_lawful as []. Qed.

Lemma APIServer_lawful : lawful APIServer_codec.
Proof. struct_lawful as [[]]. Qed.

Lemma LocalEtcd_lawful : lawful LocalEtcd_codec.
Proof. struct_lawful as [[]]. Qed.

Hint Resolve ControlPlaneComponent_lawful APIServer_lawful LocalEtcd_lawful : lawful.

Lemma Etcd_lawful : lawful Etcd_codec.
Proof. struct_lawful as []. Qed.

Hint Resolve Etcd_lawful : lawful.

Lemma ClusterConfiguration_lawful : lawful ClusterConfiguration_codec.
Proof. struct_lawful as [[]]. Qed.

(** The configurations that survive: ASCII texts, no empty slice or map where the field is
    left out when empty. *)
Definition json_stable (c : option ClusterConfiguration) : Prop :=
  let codec := pointer_codec ClusterConfiguration_codec in
  survives codec c ∧ printable (marshal codec c) = true ∧ nesting (marshal codec c) ≤ max_nesting_depth.

Lemma ClusterConfiguration_roundtrip c old :
  json_stable c → default emptyClusterConfiguration old = emptyClusterConfiguration →
  Unmarshal_ClusterConfiguration (Marshal_ClusterConfiguration c) old = Some c.
Proof.
  intros (Hs & Hp & Hn) Hold. unfold Unmarshal_ClusterConfiguration, Marshal_ClusterConfiguration.
  rewrite decode_encode_value by done. simpl option_bind.
  pose proof (pointer_lawful _ ClusterConfiguration_lawful c Hs) as E.
  destruct c as [c|]; [|done]. simpl in E |- *. by rewrite Hold.
Qed.
End codecs.
