(* ===== verification/KcpTypes.v ===== *)
(** * The types of the KubeadmControlPlane
      (controlplane/kubeadm/api/v1beta1, controlplane/kubeadm/internal/control_plane.go)

    The API object with its conditions, and the [ControlPlane] that a reconciliation works on.
    Infrastructure machines are read through their metadata only; an etcd member through its name. *)

From S2P Require Import Prelude GoStd Api Conditions ConditionsV1Beta2 Collections FailureDomains.
From S2P Require Import JsonCodec Kubeadm.

(** ** Specification *)

Record KubeadmControlPlaneMachineTemplate := {
  kmt_ObjectMeta : TemplateMeta;
  kmt_InfrastructureRef : ObjectReference;
  kmt_NodeDrainTimeout : option Z;
  kmt_NodeVolumeDetachTimeout : option Z;
  kmt_NodeDeletionTimeout : option Z;
}.

Record KcpRollingUpdate := { kru_MaxSurge : option IntOrString }.

Record KcpRolloutStrategy := {
  krt_Type : string;
  krt_RollingUpdate : option KcpRollingUpdate;
}.

Record KcpRemediationStrategy := {
  krs_MaxRetry : option Z;
  krs_RetryPeriod : Z;
  krs_MinHealthyPeriod : option Z;
}.

Record MachineNamingStrategy := { mns_Template : string }.

Record KubeadmControlPlaneSpec := {
  ksp_Replicas : option Z;
  ksp_Version : string;
  ksp_MachineTemplate : KubeadmControlPlaneMachineTemplate;
  ksp_KubeadmConfigSpec : KubeadmConfigSpec;
  ksp_RolloutBefore : option RolloutBefore;
  ksp_RolloutAfter : option Time;
  ksp_RolloutStrategy : option KcpRolloutStrategy;
  ksp_RemediationStrategy : option KcpRemediationStrategy;
  ksp_MachineNamingStrategy : option MachineNamingStrategy;
}.

(** ** Status *)

Record LastRemediationStatus := {
  lrs_Machine : string;
  lrs_Timestamp : Time;
  lrs_RetryCount : Z;
}.

Record KubeadmControlPlaneV1Beta2Status := {
  ksv_Conditions : list MetaCondition;
  ksv_ReadyReplicas : option Z;
  ksv_AvailableReplicas : option Z;
  ksv_UpToDateReplicas : option Z;
}.

Record KubeadmControlPlaneStatus := {
  kst_Selector : string;
  kst_Replicas : Z;
  kst_Version : option string;
  kst_UpdatedReplicas : Z;
  kst_ReadyReplicas : Z;
  kst_UnavailableReplicas : Z;
  kst_Initialized : bool;
  kst_Ready : bool;
  kst_FailureReason : string;
  kst_FailureMessage : option string;
  kst_ObservedGeneration : Z;
  kst_Conditions : Conditions;
  kst_LastRemediation : option LastRemediationStatus;
  kst_V1Beta2 : option KubeadmControlPlaneV1Beta2Status;
}.

Record KubeadmControlPlane := {
  kcp_TypeMeta : TypeMeta;
  kcp_Meta : Meta;
  kcp_Spec : KubeadmControlPlaneSpec;
  kcp_Status : KubeadmControlPlaneStatus;
}.

Definition kcp_KubeadmConfigSpec (k : KubeadmControlPlane) : KubeadmConfigSpec :=
  ksp_KubeadmConfigSpec (kcp_Spec k).
Definition kcp_ClusterConfiguration (k : KubeadmControlPlane) : option ClusterConfiguration :=
  kcs_ClusterConfiguration (kcp_KubeadmConfigSpec k).
Definition kcp_RemediationStrategy (k : KubeadmControlPlane) : option KcpRemediationStrategy :=
  ksp_RemediationStrategy (kcp_Spec k).
Definition kcp_Initialized (k : KubeadmControlPlane) : bool := kst_Initialized (kcp_Status k).

Definition kcp_set_Annotations (a : gmap string string) (k : KubeadmControlPlane) :
    KubeadmControlPlane :=
  {| kcp_TypeMeta := kcp_TypeMeta k; kcp_Meta := meta_set_Annotations a (kcp_Meta k);
     kcp_Spec := kcp_Spec k; kcp_Status := kcp_Status k |}.

Definition kcp_set_Status (st : KubeadmControlPlaneStatus) (k : KubeadmControlPlane) :
    KubeadmControlPlane :=
  {| kcp_TypeMeta := kcp_TypeMeta k; kcp_Meta := kcp_Meta k; kcp_Spec := kcp_Spec k; kcp_Status := st |}.

Definition emptyKcpV1Beta2 : KubeadmControlPlaneV1Beta2Status :=
  {| ksv_Conditions := []; ksv_ReadyReplicas := None; ksv_AvailableReplicas := None;
     ksv_UpToDateReplicas := None |}.

Definition kst_set_Conditions (cs : Conditions) (st : KubeadmControlPlaneStatus) :
    KubeadmControlPlaneStatus :=
  {| kst_Selector := kst_Selector st; kst_Replicas := kst_Replicas st; kst_Version := kst_Version st;
     kst_UpdatedReplicas := kst_UpdatedReplicas st; kst_ReadyReplicas := kst_ReadyReplicas st;
     kst_UnavailableReplicas := kst_UnavailableReplicas st; kst_Initialized := kst_Initialized st;
     kst_Ready := kst_Ready st; kst_FailureReason := kst_FailureReason st;
     kst_FailureMessage := kst_FailureMessage st; kst_ObservedGeneration := kst_ObservedGeneration st;
     kst_Conditions := cs; kst_LastRemediation := kst_LastRemediation st; kst_V1Beta2 := kst_V1Beta2 st |}.

Definition kst_set_V1Beta2 (v : option KubeadmControlPlaneV1Beta2Status) (st : KubeadmControlPlaneStatus) :
    KubeadmControlPlaneStatus :=
  {| kst_Selector := kst_Selector st; kst_Replicas := kst_Replicas st; kst_Version := kst_Version st;
     kst_UpdatedReplicas := kst_UpdatedReplicas st; kst_ReadyReplicas := kst_ReadyReplicas st;
     kst_UnavailableReplicas := kst_UnavailableReplicas st; kst_Initialized := kst_Initialized st;
     kst_Ready := kst_Ready st; kst_FailureReason := kst_FailureReason st;
     kst_FailureMessage := kst_FailureMessage st; kst_ObservedGeneration := kst_ObservedGeneration st;
     kst_Conditions := kst_Conditions st; kst_LastRemediation := kst_LastRemediation st; kst_V1Beta2 := v |}.

#[global] Instance KubeadmControlPlane_Getter : Getter KubeadmControlPlane := {
  GetConditions k := kst_Conditions (kcp_Status k);
  GetName k := om_Name (kcp_Meta k);
  GetKind k := tm_Kind (kcp_TypeMeta k);
}.
#[global] Instance KubeadmControlPlane_Setter : Setter KubeadmControlPlane.
Proof.
  by refine {| SetConditions cs k := kcp_set_Status (kst_set_Conditions cs (kcp_Status k)) k |}.
Defined.

Definition kcp_GetV1Beta2Conditions (k : KubeadmControlPlane) : list MetaCondition :=
  match kst_V1Beta2 (kcp_Status k) with None => [] | Some v => ksv_Conditions v end.

Definition kcp_SetV1Beta2Conditions (conditions : list MetaCondition) (k : KubeadmControlPlane) :
    KubeadmControlPlane :=
  let v := default emptyKcpV1Beta2 (kst_V1Beta2 (kcp_Status k)) in
  kcp_set_Status (kst_set_V1Beta2 (Some {| ksv_Conditions := conditions;
    ksv_ReadyReplicas := ksv_ReadyReplicas v; ksv_AvailableReplicas := ksv_AvailableReplicas v;
    ksv_UpToDateReplicas := ksv_UpToDateReplicas v |}) (kcp_Status k)) k.

#[global] Instance KubeadmControlPlane_V1Beta2Getter : V1Beta2Getter KubeadmControlPlane :=
  { GetV1Beta2Conditions := kcp_GetV1Beta2Conditions }.
#[global] Instance KubeadmControlPlane_V1Beta2Setter : V1Beta2Setter KubeadmControlPlane := {
  SetV1Beta2Conditions := kcp_SetV1Beta2Conditions;
  GetGeneration k := om_Generation (kcp_Meta k);
  Get_SetV1Beta2Conditions cs x := eq_refl;
}.

(** ** The control plane of a reconciliation *)

Record PreflightCheckResults := {
  pre_HasDeletingMachine : bool;
  pre_ControlPlaneComponentsNotHealthy : bool;
  pre_EtcdClusterNotHealthy : bool;
}.

(** The part of the Cluster that is read. *)
Record KcpCluster := {
  kcl_Name : string;
  kcl_UID : string;
  kcl_FailureDomains : FailureDomains;
  kcl_InfrastructureReady : bool;
  kcl_ControlPlaneEndpoint : string * Z;
}.

Record ControlPlane := {
  cpl_KCP : KubeadmControlPlane;
  cpl_Cluster : KcpCluster;
  cpl_Machines : Machines;
  cpl_machinesNotUptoDate : Machines;
  cpl_machinesNotUptoDateConditionMessages : gmap string (list string);
  cpl_KubeadmConfigs : gmap string KubeadmConfig;
  cpl_InfraResources : gmap string Meta;
  cpl_PreflightCheckResults : PreflightCheckResults;
  cpl_InfraMachineTemplateIsNotFound : bool;
  cpl_EtcdMembers : option (list string);
  cpl_EtcdMembersAgreeOnMemberList : bool;
  cpl_EtcdMembersAgreeOnClusterID : bool;
  cpl_EtcdMembersAndMachinesAreMatching : bool;
  cpl_DeletingReason : string;
  cpl_DeletingMessage : string;
  cpl_workloadCluster : bool;
}.

Definition cpl_ClusterName (c : ControlPlane) : string := kcl_Name (cpl_Cluster c).
Definition cpl_FailureDomains (c : ControlPlane) : FailureDomains := kcl_FailureDomains (cpl_Cluster c).

Definition cpl_set_KCP (k : KubeadmControlPlane) (c : ControlPlane) : ControlPlane :=
  {| cpl_KCP := k; cpl_Cluster := cpl_Cluster c; cpl_Machines := cpl_Machines c;
     cpl_machinesNotUptoDate := cpl_machinesNotUptoDate c;
     cpl_machinesNotUptoDateConditionMessages := cpl_machinesNotUptoDateConditionMessages c;
     cpl_KubeadmConfigs := cpl_KubeadmConfigs c; cpl_InfraResources := cpl_InfraResources c;
     cpl_PreflightCheckResults := cpl_PreflightCheckResults c;
     cpl_InfraMachineTemplateIsNotFound := cpl_InfraMachineTemplateIsNotFound c;
     cpl_EtcdMembers := cpl_EtcdMembers c;
     cpl_EtcdMembersAgreeOnMemberList := cpl_EtcdMembersAgreeOnMemberList c;
     cpl_EtcdMembersAgreeOnClusterID := cpl_EtcdMembersAgreeOnClusterID c;
     cpl_EtcdMembersAndMachinesAreMatching := cpl_EtcdMembersAndMachinesAreMatching c;
     cpl_DeletingReason := cpl_DeletingReason c; cpl_DeletingMessage := cpl_DeletingMessage c;
     cpl_workloadCluster := cpl_workloadCluster c |}.

Definition cpl_set_Machines (ms : Machines) (c : ControlPlane) : ControlPlane :=
  {| cpl_KCP := cpl_KCP c; cpl_Cluster := cpl_Cluster c; cpl_Machines := ms;
     cpl_machinesNotUptoDate := cpl_machinesNotUptoDate c;
     cpl_machinesNotUptoDateConditionMessages := cpl_machinesNotUptoDateConditionMessages c;
     cpl_KubeadmConfigs := cpl_KubeadmConfigs c; cpl_InfraResources := cpl_InfraResources c;
     cpl_PreflightCheckResults := cpl_PreflightCheckResults c;
     cpl_InfraMachineTemplateIsNotFound := cpl_InfraMachineTemplateIsNotFound c;
     cpl_EtcdMembers := cpl_EtcdMembers c;
     cpl_EtcdMembersAgreeOnMemberList := cpl_EtcdMembersAgreeOnMemberList c;
     cpl_EtcdMembersAgreeOnClusterID := cpl_EtcdMembersAgreeOnClusterID c;
     cpl_EtcdMembersAndMachinesAreMatching := cpl_EtcdMembersAndMachinesAreMatching c;
     cpl_DeletingReason := cpl_DeletingReason c; cpl_DeletingMessage := cpl_DeletingMessage c;
     cpl_workloadCluster := cpl_workloadCluster c |}.

Definition cpl_set_KubeadmConfigs (cs : gmap string KubeadmConfig) (c : ControlPlane) : ControlPlane :=
  {| cpl_KCP := cpl_KCP c; cpl_Cluster := cpl_Cluster c; cpl_Machines := cpl_Machines c;
     cpl_machinesNotUptoDate := cpl_machinesNotUptoDate c;
     cpl_machinesNotUptoDateConditionMessages := cpl_machinesNotUptoDateConditionMessages c;
     cpl_KubeadmConfigs := cs; cpl_InfraResources := cpl_InfraResources c;
     cpl_PreflightCheckResults := cpl_PreflightCheckResults c;
     cpl_InfraMachineTemplateIsNotFound := cpl_InfraMachineTemplateIsNotFound c;
     cpl_EtcdMembers := cpl_EtcdMembers c;
     cpl_EtcdMembersAgreeOnMemberList := cpl_EtcdMembersAgreeOnMemberList c;
     cpl_EtcdMembersAgreeOnClusterID := cpl_EtcdMembersAgreeOnClusterID c;
     cpl_EtcdMembersAndMachinesAreMatching := cpl_EtcdMembersAndMachinesAreMatching c;
     cpl_DeletingReason := cpl_DeletingReason c; cpl_DeletingMessage := cpl_DeletingMessage c;
     cpl_workloadCluster := cpl_workloadCluster c |}.

Definition cpl_set_Preflight (p : PreflightCheckResults) (c : ControlPlane) : ControlPlane :=
  {| cpl_KCP := cpl_KCP c; cpl_Cluster := cpl_Cluster c; cpl_Machines := cpl_Machines c;
     cpl_machinesNotUptoDate := cpl_machinesNotUptoDate c;
     cpl_machinesNotUptoDateConditionMessages := cpl_machinesNotUptoDateConditionMessages c;
     cpl_KubeadmConfigs := cpl_KubeadmConfigs c; cpl_InfraResources := cpl_InfraResources c;
     cpl_PreflightCheckResults := p;
     cpl_InfraMachineTemplateIsNotFound := cpl_InfraMachineTemplateIsNotFound c;
     cpl_EtcdMembers := cpl_EtcdMembers c;
     cpl_EtcdMembersAgreeOnMemberList := cpl_EtcdMembersAgreeOnMemberList c;
     cpl_EtcdMembersAgreeOnClusterID := cpl_EtcdMembersAgreeOnClusterID c;
     cpl_EtcdMembersAndMachinesAreMatching := cpl_EtcdMembersAndMachinesAreMatching c;
     cpl_DeletingReason := cpl_DeletingReason c; cpl_DeletingMessage := cpl_DeletingMessage c;
     cpl_workloadCluster := cpl_workloadCluster c |}.

Definition cpl_set_TemplateNotFound (b : bool) (c : ControlPlane) : ControlPlane :=
  {| cpl_KCP := cpl_KCP c; cpl_Cluster := cpl_Cluster c; cpl_Machines := cpl_Machines c;
     cpl_machinesNotUptoDate := cpl_machinesNotUptoDate c;
     cpl_machinesNotUptoDateConditionMessages := cpl_machinesNotUptoDateConditionMessages c;
     cpl_KubeadmConfigs := cpl_KubeadmConfigs c; cpl_InfraResources := cpl_InfraResources c;
     cpl_PreflightCheckResults := cpl_PreflightCheckResults c;
     cpl_InfraMachineTemplateIsNotFound := b; cpl_EtcdMembers := cpl_EtcdMembers c;
     cpl_EtcdMembersAgreeOnMemberList := cpl_EtcdMembersAgreeOnMemberList c;
     cpl_EtcdMembersAgreeOnClusterID := cpl_EtcdMembersAgreeOnClusterID c;
     cpl_EtcdMembersAndMachinesAreMatching := cpl_EtcdMembersAndMachinesAreMatching c;
     cpl_DeletingReason := cpl_DeletingReason c; cpl_DeletingMessage := cpl_DeletingMessage c;
     cpl_workloadCluster := cpl_workloadCluster c |}.

(** What the inspection of the etcd cluster found. *)
Definition cpl_set_Etcd (members : option (list string)) (agreeOnMemberList agreeOnClusterID
    matching : bool) (c : ControlPlane) : ControlPlane :=
  {| cpl_KCP := cpl_KCP c; cpl_Cluster := cpl_Cluster c; cpl_Machines := cpl_Machines c;
     cpl_machinesNotUptoDate := cpl_machinesNotUptoDate c;
     cpl_machinesNotUptoDateConditionMessages := cpl_machinesNotUptoDateConditionMessages c;
     cpl_KubeadmConfigs := cpl_KubeadmConfigs c; cpl_InfraResources := cpl_InfraResources c;
     cpl_PreflightCheckResults := cpl_PreflightCheckResults c;
     cpl_InfraMachineTemplateIsNotFound := cpl_InfraMachineTemplateIsNotFound c;
     cpl_EtcdMembers := members; cpl_EtcdMembersAgreeOnMemberList := agreeOnMemberList;
     cpl_EtcdMembersAgreeOnClusterID := agreeOnClusterID;
     cpl_EtcdMembersAndMachinesAreMatching := matching;
     cpl_DeletingReason := cpl_DeletingReason c; cpl_DeletingMessage := cpl_DeletingMessage c;
     cpl_workloadCluster := cpl_workloadCluster c |}.

Definition cpl_set_Deleting (reason message : string) (c : ControlPlane) : ControlPlane :=
  {| cpl_KCP := cpl_KCP c; cpl_Cluster := cpl_Cluster c; cpl_Machines := cpl_Machines c;
     cpl_machinesNotUptoDate := cpl_machinesNotUptoDate c;
     cpl_machinesNotUptoDateConditionMessages := cpl_machinesNotUptoDateConditionMessages c;
     cpl_KubeadmConfigs := cpl_KubeadmConfigs c; cpl_InfraResources := cpl_InfraResources c;
     cpl_PreflightCheckResults := cpl_PreflightCheckResults c;
     cpl_InfraMachineTemplateIsNotFound := cpl_InfraMachineTemplateIsNotFound c;
     cpl_EtcdMembers := cpl_EtcdMembers c;
     cpl_EtcdMembersAgreeOnMemberList := cpl_EtcdMembersAgreeOnMemberList c;
     cpl_EtcdMembersAgreeOnClusterID := cpl_EtcdMembersAgreeOnClusterID c;
     cpl_EtcdMembersAndMachinesAreMatching := cpl_EtcdMembersAndMachinesAreMatching c;
     cpl_DeletingReason := reason; cpl_DeletingMessage := message;
     cpl_workloadCluster := cpl_workloadCluster c |}.

Definition cpl_set_workloadCluster (b : bool) (c : ControlPlane) : ControlPlane :=
  {| cpl_KCP := cpl_KCP c; cpl_Cluster := cpl_Cluster c; cpl_Machines := cpl_Machines c;
     cpl_machinesNotUptoDate := cpl_machinesNotUptoDate c;
     cpl_machinesNotUptoDateConditionMessages := cpl_machinesNotUptoDateConditionMessages c;
     cpl_KubeadmConfigs := cpl_KubeadmConfigs c; cpl_InfraResources := cpl_InfraResources c;
     cpl_PreflightCheckResults := cpl_PreflightCheckResults c;
     cpl_InfraMachineTemplateIsNotFound := cpl_InfraMachineTemplateIsNotFound c;
     cpl_EtcdMembers := cpl_EtcdMembers c;
     cpl_EtcdMembersAgreeOnMemberList := cpl_EtcdMembersAgreeOnMemberList c;
     cpl_EtcdMembersAgreeOnClusterID := cpl_EtcdMembersAgreeOnClusterID c;
     cpl_EtcdMembersAndMachinesAreMatching := cpl_EtcdMembersAndMachinesAreMatching c;
     cpl_DeletingReason := cpl_DeletingReason c; cpl_DeletingMessage := cpl_DeletingMessage c;
     cpl_workloadCluster := b |}.

(** ** An example: three replicas, rolled out with one Machine more *)

Definition demo_config_spec : KubeadmConfigSpec :=
  {| kcs_ClusterConfiguration := None; kcs_InitConfiguration := None; kcs_JoinConfiguration := None;
     kcs_Files := None; kcs_DiskSetup := None; kcs_Mounts := None; kcs_PreKubeadmCommands := None;
     kcs_PostKubeadmCommands := None; kcs_Users := None; kcs_NTP := None; kcs_Format := "";
     kcs_Verbosity := None; kcs_UseExperimentalRetryJoin := false; kcs_Ignition := None |}.

Definition demo_kcp_spec (config : KubeadmConfigSpec) : KubeadmControlPlaneSpec :=
  {| ksp_Replicas := Some 3; ksp_Version := "v1.31.0";
     ksp_MachineTemplate := {| kmt_ObjectMeta := {| tm_Labels := ∅; tm_Annotations := ∅ |};
       kmt_InfrastructureRef := emptyRef; kmt_NodeDrainTimeout := None;
       kmt_NodeVolumeDetachTimeout := None; kmt_NodeDeletionTimeout := None |};
     ksp_KubeadmConfigSpec := config; ksp_RolloutBefore := None; ksp_RolloutAfter := None;
     ksp_RolloutStrategy := Some {| krt_Type := "RollingUpdate";
       krt_RollingUpdate := Some {| kru_MaxSurge := Some (FromInt 1) |} |};
     ksp_RemediationStrategy := Some {| krs_MaxRetry := Some 3; krs_RetryPeriod := Minute;
       krs_MinHealthyPeriod := None |};
     ksp_MachineNamingStrategy := None |}.

Definition demo_kcp (config : KubeadmConfigSpec) : KubeadmControlPlane :=
  {| kcp_TypeMeta := emptyTypeMeta; kcp_Meta := emptyMeta; kcp_Spec := demo_kcp_spec config;
     kcp_Status := {| kst_Selector := ""; kst_Replicas := 0; kst_Version := None; kst_UpdatedReplicas := 0;
       kst_ReadyReplicas := 0; kst_UnavailableReplicas := 0; kst_Initialized := true; kst_Ready := true;
       kst_FailureReason := ""; kst_FailureMessage := None; kst_ObservedGeneration := 0;
       kst_Conditions := []; kst_LastRemediation := None; kst_V1Beta2 := None |} |}.
