(* ===== verification/KubeadmControlPlane.v ===== *)
(** * The KubeadmControlPlane controller (controlplane/kubeadm/internal)

    Choosing the control plane Machine to delete, the checks before scaling, and the
    remediation of unhealthy control plane Machines with its retry limits and its protection
    of the etcd quorum.  A set of Machines is keyed by name, so a pointer to one of its
    Machines is its name; calls are recorded in the state and their outcomes are functions of
    the calls made so far.  Log lines and events are left out. *)

From S2P Require Import Prelude GoStd Api Apimachinery Util Conditions Version Collections.
From S2P Require Import FailureDomains ConditionsV1Beta2 MachineSetPolicy MachineSet JsonCodec Kubeadm KcpTypes.

(** ** Questions about a control plane (control_plane.go) *)

Section control_plane.
Context `{GoSort} `{GoRange}.

(** [FailureDomains.GetIDs] of api/v1beta1/cluster_types.go. *)
Definition GetIDs (fds : FailureDomains) : list (option string) := Some <$> (go_range fds).*1.

Definition FailureDomainWithMostMachines (c : ControlPlane) (machines : Machines) :
    result (option string) :=
  let notInFailureDomains := Filter machines
    [Not (InFailureDomains (GetIDs (FilterControlPlane (cpl_FailureDomains c))))] in
  if (0 <? Z.of_nat (size notInFailureDomains)) then
    oldest ← deref (Oldest notInFailureDomains);
    Ok (sp_FailureDomain (m_Spec oldest))
  else Ok (PickMost (FilterControlPlane (cpl_FailureDomains c)) (cpl_Machines c) machines).

Definition MachineInFailureDomainWithMostMachines (c : ControlPlane) (machines : Machines) :
    result Machine :=
  fd ← FailureDomainWithMostMachines c machines;
  match Oldest (Filter machines [InFailureDomains [fd]]) with
  | Some machineToMark => Ok machineToMark
  | None => Err (Errorf "failed to pick control plane Machine to mark for deletion")
  end.

Definition MachineWithDeleteAnnotation (machines : Machines) : Machines :=
  Filter machines [HasAnnotationKey DeleteMachineAnnotation].

Definition UpToDateMachines (c : ControlPlane) : Machines :=
  Difference (cpl_Machines c) (cpl_machinesNotUptoDate c).

Definition NextFailureDomainForScaleUp (c : ControlPlane) : option string :=
  if (size (FilterControlPlane (cpl_FailureDomains c)) =? 0)%nat then None
  else PickFewest (FilterControlPlane (cpl_FailureDomains c))
         (Filter (UpToDateMachines c) [Not HasDeletionTimestamp]).

Definition HasDeletingMachine (c : ControlPlane) : bool :=
  0 <? Z.of_nat (size (Filter (cpl_Machines c) [HasDeletionTimestamp])).

Definition DeletingMachines (c : ControlPlane) : Machines :=
  Filter (cpl_Machines c) [HasDeletionTimestamp].

(** Without the log messages kept beside the Machines. *)
Definition MachinesNeedingRollout (c : ControlPlane) : Machines :=
  Filter (cpl_machinesNotUptoDate c) [Not HasDeletionTimestamp].

Definition NotUpToDateMachines (c : ControlPlane) : Machines := cpl_machinesNotUptoDate c.

Definition IsEtcdManaged (c : ControlPlane) : bool :=
  match kcp_ClusterConfiguration (cpl_KCP c) with
  | None => true
  | Some cc => match et_External (cc_Etcd cc) with None => true | Some _ => false end
  end.

Definition UnhealthyMachinesWithUnhealthyControlPlaneComponents (c : ControlPlane)
    (machines : Machines) : Machines :=
  Filter machines [HasUnhealthyControlPlaneComponents (IsEtcdManaged c)].

Definition UnhealthyMachines (c : ControlPlane) : Machines := Filter (cpl_Machines c) [IsUnhealthy].

Definition HealthyMachines (c : ControlPlane) : Machines :=
  Filter (cpl_Machines c) [Not IsUnhealthy].

Definition MachinesToBeRemediatedByKCP (c : ControlPlane) : Machines :=
  Filter (cpl_Machines c) [IsUnhealthyAndOwnerRemediated].

Definition HasHealthyMachineStillProvisioning (c : ControlPlane) : bool :=
  0 <? Z.of_nat (size (Filter (HealthyMachines c) [Not HasNode])).

(** ** Scaling (controllers/scale.go) *)

Definition selectMachineForScaleDown (c : ControlPlane) (outdatedMachines : Machines) :
    result Machine :=
  let machines := cpl_Machines c in
  let machines :=
    if 0 <? Machines_Len (MachineWithDeleteAnnotation outdatedMachines)
    then MachineWithDeleteAnnotation outdatedMachines
    else if 0 <? Machines_Len (MachineWithDeleteAnnotation machines)
    then MachineWithDeleteAnnotation machines
    else if 0 <? Machines_Len (UnhealthyMachinesWithUnhealthyControlPlaneComponents c outdatedMachines)
    then UnhealthyMachinesWithUnhealthyControlPlaneComponents c outdatedMachines
    else if 0 <? Machines_Len outdatedMachines
    then outdatedMachines
    else machines in
  MachineInFailureDomainWithMostMachines c machines.

Definition deleteRequeueAfter : Z := 30 * Second.
Definition kcp_preflightFailedRequeueAfter : Z := 15 * Second.

Definition preflightCheckCondition (kind : string) (obj : Machine) (condition : ConditionType) :
    option error :=
  let says (what : string) := Some (Errorf (kind +:+ " " +:+ m_Name obj +:+ what)) in
  match Get obj condition with
  | None => says (" does not have " +:+ condition +:+ " condition")
  | Some c =>
      if String.eqb (c_Status c) ConditionFalse then
        says (" reports " +:+ condition +:+ " condition is false (" +:+ c_Severity c +:+ ", "
          +:+ c_Message c +:+ ")")
      else if String.eqb (c_Status c) ConditionUnknown then
        says (" reports " +:+ condition +:+ " condition is unknown (" +:+ c_Message c +:+ ")")
      else None
  end.

Definition allMachineHealthConditions (etcdManaged : bool) : list ConditionType :=
  [ MachineAPIServerPodHealthyCondition; MachineControllerManagerPodHealthyCondition;
    MachineSchedulerPodHealthyCondition ]
  ++ (if etcdManaged then [MachineEtcdPodHealthyCondition; MachineEtcdMemberHealthyCondition] else []).

Definition components_not_healthy (p : PreflightCheckResults) : PreflightCheckResults :=
  {| pre_HasDeletingMachine := pre_HasDeletingMachine p; pre_ControlPlaneComponentsNotHealthy := true;
     pre_EtcdClusterNotHealthy := pre_EtcdClusterNotHealthy p |}.

Definition etcd_not_healthy (p : PreflightCheckResults) : PreflightCheckResults :=
  {| pre_HasDeletingMachine := pre_HasDeletingMachine p;
     pre_ControlPlaneComponentsNotHealthy := pre_ControlPlaneComponentsNotHealthy p;
     pre_EtcdClusterNotHealthy := true |}.

Definition check_condition (machine : Machine) (acc : list error * PreflightCheckResults)
    (condition : ConditionType) : list error * PreflightCheckResults :=
  match preflightCheckCondition "Machine" machine condition with
  | None => acc
  | Some err =>
      (acc.1 ++ [err],
       if String.eqb condition MachineEtcdMemberHealthyCondition then etcd_not_healthy acc.2
       else components_not_healthy acc.2)
  end.

Definition check_machine (etcdManaged : bool) (excludeFor : list Machine)
    (acc : list error * PreflightCheckResults) (machine : Machine) :
    list error * PreflightCheckResults :=
  if existsb (λ excluded, String.eqb (m_Name machine) (m_Name excluded)) excludeFor then acc
  else
    match st_NodeRef (m_Status machine) with
    | None =>
        (acc.1 ++ [Errorf ("Machine " +:+ m_Name machine +:+
           " does not have a corresponding Node yet (Machine.status.nodeRef not set)")],
         let p := components_not_healthy acc.2 in if etcdManaged then etcd_not_healthy p else p)
    | Some _ => foldl (check_condition machine) acc (allMachineHealthConditions etcdManaged)
    end.

Definition preflightChecks (excludeFor : list Machine) (c : ControlPlane) :
    ctrl_Result * ControlPlane :=
  if Machines_Len (cpl_Machines c) =? 0 then (zero_Result, c)
  else if HasDeletingMachine c then
    let p := cpl_PreflightCheckResults c in
    ({| cr_Requeue := false; cr_RequeueAfter := deleteRequeueAfter |},
     cpl_set_Preflight {| pre_HasDeletingMachine := true;
       pre_ControlPlaneComponentsNotHealthy := pre_ControlPlaneComponentsNotHealthy p;
       pre_EtcdClusterNotHealthy := pre_EtcdClusterNotHealthy p |} c)
  else
    let '(machineErrors, p) := foldl (check_machine (IsEtcdManaged c) excludeFor)
      ([], cpl_PreflightCheckResults c) (go_values (cpl_Machines c)) in
    let c := cpl_set_Preflight p c in
    match machineErrors with
    | [] => (zero_Result, c)
    | _ => ({| cr_Requeue := false; cr_RequeueAfter := kcp_preflightFailedRequeueAfter |}, c)
    end.
End control_plane.

(** ** Remediation data (controllers/remediation.go) *)

Record RemediationData := {
  rd_Machine : string;
  rd_Timestamp : Time;
  rd_RetryCount : Z;
}.

Definition ToStatus (r : RemediationData) : LastRemediationStatus :=
  {| lrs_Machine := rd_Machine r; lrs_Timestamp := rd_Timestamp r;
     lrs_RetryCount := wrap32 (rd_RetryCount r) |}.

Definition RemediationInProgressAnnotation : string :=
  "controlplane.cluster.x-k8s.io/remediation-in-progress".
Definition RemediationForAnnotation : string := "controlplane.cluster.x-k8s.io/remediation-for".
Definition DefaultMinHealthyPeriod : Z := 1 * Hour.

(** ** Calls and state *)

(** Operations of the workload cluster that take part in an upgrade. *)
Inductive WorkloadOp :=
| ReconcileKubeletRBACRole (version : semver_Version)
| ReconcileKubeletRBACBinding (version : semver_Version)
| AllowBootstrapTokensToGetNodes
| AllowClusterAdminPermissions (version : semver_Version)
| UpdateClusterConfiguration (version : semver_Version)
    (mutators : list (ClusterConfiguration → ClusterConfiguration))
| UpdateKubeletConfigMap (version : semver_Version)
| UpdateKubeProxyImageInfo (version : semver_Version)
| UpdateCoreDNS (version : semver_Version).

(** The calls of the controller: to the API server (helpers and patches of Machines and of
    other objects, server side apply, creations and deletions), to the certificate and
    kubeconfig helpers, and to the workload cluster. *)
Inductive KcpCall :=
| KNewHelper (m : Machine)
| KPatchMachine (m : Machine)
| KDeleteMachine (m : Machine)
| GetWorkloadClusterCall
| EtcdMembersCall
| ForwardEtcdLeadership (m : Machine) (leaderCandidate : option Machine)
| RemoveEtcdMemberForMachine (m : Machine)
| ReconcileEtcdMembersCall (nodeNames : list string)
| UpdateStaticPodConditions
| UpdateEtcdConditions
| KWorkload (op : WorkloadOp)
| GetAPIServerCertificateExpiry (config : KubeadmConfig) (nodeName : string)
| KUpdateReference (ref : ObjectReference)
| KGetExternal (ref : ObjectReference)
| KObjectHelper (obj : Meta)
| KPatchObject (obj : Meta)
| KLookupOrGenerate (config : ClusterConfiguration) (owner : OwnerReference)
| KEnsureCertificatesOwner (owner : OwnerReference)
| KGetKubeconfig (cluster : string)
| KCreateKubeconfig (cluster endpoint : string) (owner : OwnerReference)
| KRegenerateKubeconfig (secret : Meta)
| KCleanUpManagedFields (m : Machine)
| KDropManagedFields (obj : Meta)
| KApplyMachine (m : Machine)
| KApplyObject (obj : Meta)
| KCreateFromTemplate (template : ObjectReference) (name : string) (owner : OwnerReference)
    (labels annotations : gmap string string)
| KCreateConfig (config : KubeadmConfig)
| KCreateMachine (m : Machine)
| KDeleteObject (ref : ObjectReference)
| KGetMachinesForCluster
| KGetMachinePoolsForCluster.

Record KcpState := {
  k_cp : ControlPlane;
  k_calls : list KcpCall;
}.

(** The outcomes of the calls, the clock, the JSON encoding of the remediation data and the
    texts of errors and durations. *)
Record KcpEnv := {
  ke_error : list KcpCall → KcpCall → option error;
  ke_etcdMembers : list KcpCall → list string;
  ke_now : list KcpCall → Time;
  ke_unmarshal : string → RemediationData + error;
  ke_marshal : RemediationData → string + error;
  ke_errorString : error → string;
  ke_durationString : Z → string;
}.

Definition k_set_cp (c : ControlPlane) (s : KcpState) : KcpState :=
  {| k_cp := c; k_calls := k_calls s |}.
Definition k_add_call (c : KcpCall) (s : KcpState) : KcpState :=
  {| k_cp := k_cp s; k_calls := k_calls s ++ [c] |}.
Definition k_machines (s : KcpState) : Machines := cpl_Machines (k_cp s).

Section controller.
Context `{Apimachinery} `{GoSort} `{GoRange} `{MetaConditions} (env : KcpEnv).

Definition kcall (c : KcpCall) : M KcpState unit := λ s,
  (match ke_error env (k_calls s) c with Some e => Err e | None => Ok tt end, k_add_call c s).

Definition kload (name : string) : M KcpState Machine :=
  gets (λ s, default emptyMachine (k_machines s !! name)).

Definition kstore (name : string) (m : Machine) : M KcpState unit :=
  modify (λ s, k_set_cp (cpl_set_Machines (<[name := m]> (k_machines s)) (k_cp s)) s).

(** The client of the workload cluster is created once. *)
Definition GetWorkloadCluster : M KcpState unit :=
  cached ← gets (λ s, cpl_workloadCluster (k_cp s));
  if (cached : bool) then mret tt
  else
    _ ← kcall GetWorkloadClusterCall;
    modify (λ s, k_set_cp (cpl_set_workloadCluster true (k_cp s)) s).

Definition RemediationDataFromAnnotation (value : string) : result RemediationData :=
  match ke_unmarshal env value with
  | inl d => Ok d
  | inr e => Err (Wrap ("failed to unmarshal value " +:+ value
      +:+ " for RemediationInProgress annotation") e)
  end.

Definition Marshal (r : RemediationData) : result string :=
  match ke_marshal env r with
  | inl b => Ok b
  | inr e => Err (Wrap "failed to marshal value for RemediationInProgress annotation" e)
  end.

(** [conditions.MarkFalse] and [v1beta2conditions.Set] of the OwnerRemediated conditions. *)
Definition mark_remediated (name reason : string) (severity : ConditionSeverity) (message : string)
    (v1beta2Reason v1beta2Message : string) : M KcpState unit :=
  now ← gets (λ s, ke_now env (k_calls s));
  m ← kload name;
  let m := MarkFalse now m MachineOwnerRemediatedCondition reason severity message in
  kstore name (v1beta2_Set now now m (remediated_condition v1beta2Reason v1beta2Message)).

Definition RemediationFailedReason : string := "RemediationFailed".
Definition RemediationInProgressReason : string := "RemediationInProgress".

Definition internal_error (name : string) (e : error) : M KcpState unit :=
  mark_remediated name RemediationFailedReason ConditionSeverityError (Sprintf (ke_errorString env e))
    "InternalError" "Please check controller logs for errors".

Definition wait_for_remediation (name message v1beta2Reason v1beta2Message : string) :
    M KcpState unit :=
  mark_remediated name WaitingForRemediationReason ConditionSeverityWarning message
    v1beta2Reason v1beta2Message.

(** ** Remediation *)

Definition getMachineToBeRemediated (unhealthyMachines : Machines) : option Machine :=
  match Oldest (Filter unhealthyMachines [Not HasNode]) with
  | Some m => Some m
  | None => Oldest unhealthyMachines
  end.

Definition minHealthyPeriod (k : KubeadmControlPlane) : Z :=
  match kcp_RemediationStrategy k with
  | Some strategy => default DefaultMinHealthyPeriod (krs_MinHealthyPeriod strategy)
  | None => DefaultMinHealthyPeriod
  end.

Definition retryPeriod (k : KubeadmControlPlane) : Z :=
  match kcp_RemediationStrategy k with
  | Some strategy => krs_RetryPeriod strategy
  | None => 0
  end.

Definition maxRetry (k : KubeadmControlPlane) : option Z :=
  match kcp_RemediationStrategy k with
  | Some strategy => krs_MaxRetry strategy
  | None => None
  end.

(** The time of the last remediation; if missing, one for which both periods have expired. *)
Definition lastRemediationTime (k : KubeadmControlPlane) (reconciliationTime : Time)
    (last : RemediationData) : Time :=
  if rd_Timestamp last =? zero_time
  then reconciliationTime + wrap64 (-2 * Z.max (minHealthyPeriod k) (retryPeriod k))
  else rd_Timestamp last.

Definition checkRetryLimits (name : string) (reconciliationTime : Time) :
    M KcpState (RemediationData * bool) :=
  k ← gets (λ s, cpl_KCP (k_cp s));
  m ← kload name;
  let fresh count := {| rd_Machine := m_Name m; rd_Timestamp := reconciliationTime;
    rd_RetryCount := count |} in
  match om_Annotations (m_Meta m) !! RemediationForAnnotation with
  | None => mret (fresh 0, true)
  | Some value =>
      last ← lift (RemediationDataFromAnnotation value);
      let time := lastRemediationTime k reconciliationTime last in
      if negb (reconciliationTime <? time + minHealthyPeriod k) then mret (fresh 0, true)
      else if reconciliationTime <? time + retryPeriod k then
        let msg := "KCP can't remediate this machine because the operation already failed in the latest "
          +:+ ke_durationString env (retryPeriod k) +:+ " (RetryPeriod)" in
        _ ← wait_for_remediation name msg "RemediationDeferred" msg;
        mret (fresh (rd_RetryCount last), false)
      else
        let allowed := mret (fresh (wrap64 (rd_RetryCount last + 1)), true) in
        match maxRetry k with
        | None => allowed
        | Some limit =>
            if limit <=? rd_RetryCount last then
              let msg := "KCP can't remediate this machine because the operation already failed "
                +:+ FormatInt limit +:+ " times (MaxRetry)" in
              _ ← wait_for_remediation name msg "CannotBeRemediated" msg;
              mret (fresh (rd_RetryCount last), false)
            else allowed
        end
  end.

(** The Machine whose Node hosts an etcd member. *)
Definition on_node (member : string) (m : Machine) : bool :=
  match st_NodeRef (m_Status m) with
  | Some ref => String.eqb (ref_Name ref) member
  | None => false
  end.

Definition project_member (machines : list Machine) (target : Machine) (acc : Z * Z)
    (member : string) : Z * Z :=
  let '(total, unhealthy) := acc in
  if on_node member target then (total, unhealthy)
  else
    match find (on_node member) machines with
    | None => (total + 1, unhealthy + 1)
    | Some machine =>
        if negb (IsTrue machine MachineEtcdMemberHealthyCondition) then (total + 1, unhealthy + 1)
        else (total + 1, unhealthy)
    end.

Definition quorum_after_removal (machines : list Machine) (target : Machine) (members : list string) :
    bool :=
  let '(targetTotalMembers, targetUnhealthyMembers) :=
    foldl (project_member machines target) (0, 0) members in
  let targetQuorum := Z.quot targetTotalMembers 2 + 1 in
  targetQuorum <=? targetTotalMembers - targetUnhealthyMembers.

Definition canSafelyRemoveEtcdMember (name : string) : M KcpState bool :=
  cluster ← gets (λ s, cpl_ClusterName (k_cp s));
  _ ← mwrap ("failed to get client for workload cluster " +:+ cluster) GetWorkloadCluster;
  members ← gets (λ s, ke_etcdMembers env (k_calls s));
  _ ← mwrap ("failed to get etcdStatus for workload cluster " +:+ cluster) (kcall EtcdMembersCall);
  machines ← gets k_machines;
  target ← kload name;
  mret (quorum_after_removal (go_values machines) target members).

(** Removes a stale OwnerRemediated condition from one healthy Machine. *)
Definition kcp_cleanup (errList : list error) (name : string) :
    M KcpState (list error + list error) :=
  m ← kload name;
  if is_deleting m then mret (inl errList)
  else
    let shouldCleanup := IsTrue m MachineHealthCheckSucceededCondition
      && IsFalse m MachineOwnerRemediatedCondition in
    let shouldCleanupV1Beta2 := v1beta2_IsTrue m MachineHealthCheckSucceededV1Beta2Condition
      && v1beta2_IsFalse m MachineOwnerRemediatedV1Beta2Condition in
    if negb (shouldCleanup || shouldCleanupV1Beta2) then mret (inl errList)
    else
      err ← try_err (kcall (KNewHelper m));
      match err with
      | Some e => mret (inl (errList ++ [e]))
      | None =>
          let m := if shouldCleanup then Delete m MachineOwnerRemediatedCondition else m in
          m ← (if shouldCleanupV1Beta2
               then lift (v1beta2_Delete m MachineOwnerRemediatedV1Beta2Condition) else mret m);
          _ ← kstore name m;
          err ← try_err (kcall (KPatchMachine m));
          mret (inl (match err with Some e => errList ++ [e] | None => errList end))
      end.

(** Is another remediation in progress, whose replacement Machine does not exist yet?  A stale
    annotation is removed. *)
Definition remediation_in_progress : M KcpState bool :=
  c ← gets k_cp;
  let annotations := om_Annotations (kcp_Meta (cpl_KCP c)) in
  match annotations !! RemediationInProgressAnnotation with
  | None => mret false
  | Some v =>
      remediationData ← lift (RemediationDataFromAnnotation v);
      if existsb (λ m, rd_Timestamp remediationData <? om_CreationTimestamp (m_Meta m))
           (UnsortedList (cpl_Machines c))
      then
        _ ← modify (λ s, k_set_cp (cpl_set_KCP (kcp_set_Annotations
              (delete RemediationInProgressAnnotation annotations) (cpl_KCP (k_cp s))) (k_cp s)) s);
        mret false
      else mret true
  end.

(** The checks of an initialized control plane; [false] when the remediation has to wait. *)
Definition remediation_is_safe (name : string) : M KcpState bool :=
  c ← gets k_cp;
  if Machines_Len (cpl_Machines c) <=? 1 then
    _ ← wait_for_remediation name "KCP can't remediate if current replicas are less or equal to 1"
          "CannotBeRemediated" "KCP can't remediate if current replicas are less or equal to 1";
    mret false
  else if HasHealthyMachineStillProvisioning c then
    _ ← wait_for_remediation name
          "KCP waiting for control plane machine provisioning to complete before triggering remediation"
          "RemediationDeferred"
          "KCP waiting for control plane Machine provisioning to complete before triggering remediation";
    mret false
  else if HasDeletingMachine c then
    _ ← wait_for_remediation name
          "KCP waiting for control plane machine deletion to complete before triggering remediation"
          "RemediationDeferred"
          "KCP waiting for control plane Machine deletion to complete before triggering remediation";
    mret false
  else if negb (IsEtcdManaged c) then mret true
  else
    r ← attempt (canSafelyRemoveEtcdMember name);
    match r with
    | inr e => _ ← internal_error name e; throw e
    | inl false =>
        _ ← wait_for_remediation name
              "KCP can't remediate this machine because this could result in etcd loosing quorum"
              "CannotBeRemediated"
              "KCP can't remediate this Machine because this could result in etcd loosing quorum";
        mret false
    | inl true => mret true
    end.

(** Moves the etcd leadership to a healthy Machine; [false] when there is none. *)
Definition forward_leadership (name : string) : M KcpState bool :=
  _ ← mwrap "failed to create client to workload cluster" GetWorkloadCluster;
  c ← gets k_cp;
  if negb (IsEtcdManaged c) then mret true
  else
    match Newest (HealthyMachines c) with
    | None =>
        _ ← mark_remediated name RemediationFailedReason ConditionSeverityWarning
              "A control plane machine needs remediation, but there is no healthy machine to forward etcd leadership to. Skipping remediation"
              "CannotBeRemediated"
              "KCP can't remediate this Machine because there is no healthy Machine to forward etcd leadership to";
        mret false
    | Some etcdLeaderCandidate =>
        m ← kload name;
        err ← try_err (kcall (ForwardEtcdLeadership m (Some etcdLeaderCandidate)));
        match err with
        | Some e => _ ← internal_error name e; throw e
        | None => mret true
        end
    end.

Definition delete_unhealthy_machine (name : string) (data : RemediationData) :
    M KcpState ctrl_Result :=
  m ← kload name;
  err ← try_err (kcall (KDeleteMachine m));
  match err with
  | Some e =>
      _ ← internal_error name e;
      throw (Wrap ("failed to delete unhealthy machine " +:+ m_Name m) e)
  | None =>
      _ ← mark_remediated name RemediationInProgressReason ConditionSeverityWarning ""
            "MachineDeleted" "Machine deletionTimestamp set";
      value ← lift (Marshal data);
      _ ← modify (λ s, let k := cpl_KCP (k_cp s) in
            k_set_cp (cpl_set_KCP (kcp_set_Annotations
              (<[RemediationInProgressAnnotation := value]> (om_Annotations (kcp_Meta k))) k) (k_cp s)) s);
      mret {| cr_Requeue := true; cr_RequeueAfter := 0 |}
  end.

Definition remediate_machine (name : string) (reconciliationTime : Time) : M KcpState ctrl_Result :=
  '(data, canRemediate) ← checkRetryLimits name reconciliationTime;
  if negb (canRemediate : bool) then mret zero_Result
  else
    initialized ← gets (λ s, kcp_Initialized (cpl_KCP (k_cp s)));
    if negb (initialized : bool) then delete_unhealthy_machine name data
    else
      safe ← remediation_is_safe name;
      if negb (safe : bool) then mret zero_Result
      else
        forwarded ← forward_leadership name;
        if negb (forwarded : bool) then mret zero_Result else delete_unhealthy_machine name data.

(** The deferred patch of the Machine; its error is returned when there is no other. *)
Definition deferred_patch {A} (name : string) (body : M KcpState A) : M KcpState A := λ s,
  let '(r, s1) := body s in
  let m := default emptyMachine (k_machines s1 !! name) in
  let '(p, s2) := kcall (KPatchMachine m) s1 in
  (match r, p with
   | Ok _, Err e => Err (Wrap ("failed to patch control plane Machine " +:+ m_Name m) e)
   | r, _ => r
   end, s2).

Definition kcp_reconcileUnhealthyMachines : M KcpState ctrl_Result :=
  reconciliationTime ← gets (λ s, ke_now env (k_calls s));
  machines ← gets k_machines;
  errList ← foldM kcp_cleanup [] (go_range machines).*1;
  match errList with
  | _ :: _ => throw (NewAggregate errList)
  | [] =>
      c ← gets k_cp;
      let machinesToBeRemediated := MachinesToBeRemediatedByKCP c in
      if (size machinesToBeRemediated =? 0)%nat then mret zero_Result
      else
        m ← lift (deref (getMachineToBeRemediated machinesToBeRemediated));
        if is_deleting m then mret zero_Result
        else
          in_progress ← remediation_in_progress;
          if (in_progress : bool) then mret zero_Result
          else
            _ ← kcall (KNewHelper m);
            deferred_patch (m_Name m) (remediate_machine (m_Name m) reconciliationTime)
  end.

(** ** Scaling down (controllers/scale.go) *)

Definition kcp_preflight (excludeFor : list Machine) : M KcpState ctrl_Result := λ s,
  let '(result, c) := preflightChecks excludeFor (k_cp s) in (Ok result, k_set_cp c s).

Definition scaleDownControlPlane (outdatedMachines : Machines) : M KcpState ctrl_Result :=
  c ← gets k_cp;
  machineToDelete ← lift (wrapErr "failed to select machine for scale down"
    (selectMachineForScaleDown c outdatedMachines));
  result ← kcp_preflight [machineToDelete];
  if negb (ctrl_Result_IsZero result) then mret result
  else
    _ ← mwrap "failed to create client to workload cluster" GetWorkloadCluster;
    _ ← (if IsEtcdManaged c then
           kcall (ForwardEtcdLeadership machineToDelete (Newest (cpl_Machines c)))
         else mret tt);
    err ← try_err (kcall (KDeleteMachine machineToDelete));
    match err with
    | Some e => if IsNotFound e then mret {| cr_Requeue := true; cr_RequeueAfter := 0 |} else throw e
    | None => mret {| cr_Requeue := true; cr_RequeueAfter := 0 |}
    end.
End controller.
