(* ===== verification/KubeadmControlPlaneSpec.v ===== *)
(** * Theory of the KubeadmControlPlane controller

    Scaling down picks a Machine of the preferred class in the most populated failure domain;
    remediation keeps the etcd quorum and respects the retry limits. *)

From S2P Require Import Prelude GoStd Api Apimachinery Util Conditions Version Collections.
From S2P Require Import FailureDomains ConditionsV1Beta2 MachineSetPolicy MachineSet.
From S2P Require Import MachineSetSpec JsonCodec Kubeadm KubeadmConfig KcpTypes KubeadmControlPlane.

(** ** The etcd quorum *)

Section quorum.
Context `{GoRange}.

(** The members that stay in the etcd cluster when [target] is removed. *)
Definition remaining (target : Machine) (members : list string) : list string :=
  filter (λ e, on_node e target = false) members.

(** A member is healthy when a Machine on its Node says so. *)
Definition healthy_member (machines : list Machine) (e : string) : bool :=
  existsb (λ m, on_node e m && IsTrue m MachineEtcdMemberHealthyCondition) machines.

Definition distinct_nodes (machines : list Machine) : Prop :=
  ∀ m m' e, m ∈ machines → m' ∈ machines → on_node e m = true → on_node e m' = true → m = m'.

Lemma find_member machines e :
  distinct_nodes machines →
  match find (on_node e) machines with
  | Some m => IsTrue m MachineEtcdMemberHealthyCondition
  | None => false
  end = healthy_member machines e.
Proof.
  intros Hd. unfold healthy_member. destruct (find _ _) as [m|] eqn:E.
  - apply find_some in E as [Hm He]. apply list_elem_of_In in Hm.
    destruct (IsTrue m _) eqn:Et; symmetry.
    + apply existsb_exists. exists m. rewrite He, Et. split; [by apply list_elem_of_In|done].
    + apply not_true_iff_false. intros (m' & Hm' & [He' Ht]%andb_true_iff)%existsb_exists.
      apply list_elem_of_In in Hm'. rewrite (Hd m m' e) in Et by done. congruence.
  - symmetry. apply not_true_iff_false. intros (m' & Hm' & [He' _]%andb_true_iff)%existsb_exists.
    apply (find_none _ _ E) in Hm'. congruence.
Qed.

Lemma project_members machines target members t u :
  distinct_nodes machines →
  foldl (project_member machines target) (t, u) members =
    (t + Z.of_nat (length (remaining target members)),
     u + Z.of_nat (length (filter (λ e, healthy_member machines e = false) (remaining target members)))).
Proof.
  intros Hd. revert t u. induction members as [|e l IH]; intros t u; simpl.
  { f_equal; lia. }
  unfold remaining. rewrite filter_cons. fold (remaining target l).
  destruct (on_node e target) eqn:Et; simpl; [by rewrite IH|].
  rewrite filter_cons, <- (find_member _ _ Hd).
  destruct (find (on_node e) machines) as [m|]; [destruct (IsTrue m _)|]; simpl; rewrite IH;
    f_equal; lia.
Qed.

Lemma filter_split {A} (f : A → bool) (l : list A) :
  (length (filter (λ x, f x = true) l) + length (filter (λ x, f x = false) l) = length l)%nat.
Proof.
  induction l as [|x l IH]; [done|]. rewrite !filter_cons.
  destruct (f x) eqn:E; simpl; lia.
Qed.

Lemma quorum_after_removal_majority machines target members :
  distinct_nodes machines →
  quorum_after_removal machines target members = true ↔
  (length (remaining target members) <
    2 * length (filter (λ e, healthy_member machines e = true) (remaining target members)))%nat.
Proof.
  intros Hd. unfold quorum_after_removal. rewrite project_members by done.
  pose proof (filter_split (healthy_member machines) (remaining target members)) as Hs.
  rewrite Z.leb_le, Z.quot_div_nonneg by lia. split; intros Hq.
  - pose proof (Z.mod_pos_bound (0 + Z.of_nat (length (remaining target members))) 2 ltac:(lia)).
    pose proof (Z.div_mod (0 + Z.of_nat (length (remaining target members))) 2 ltac:(lia)). lia.
  - pose proof (Z.mod_pos_bound (0 + Z.of_nat (length (remaining target members))) 2 ltac:(lia)).
    pose proof (Z.div_mod (0 + Z.of_nat (length (remaining target members))) 2 ltac:(lia)). lia.
Qed.

(** Without the member on the Node of [target], the healthy members are a strict majority. *)
Definition keeps_majority (machines : list Machine) (target : Machine) (members : list string) : Prop :=
  (length (remaining target members) <
    2 * length (filter (λ e, healthy_member machines e = true) (remaining target members)))%nat.
End quorum.

(** ** Choosing the Machine to delete *)

Section selection.
Context `{GoSort} `{GoRange}.

Lemma Oldest_Some (s : Machines) k m0 :
  keyed s → s !! k = Some m0 → ∃ m, Oldest s = Some m ∧ s !! m_Name m = Some m ∧
    ∀ k' m', s !! k' = Some m' → m' ≠ m → machinesByCreationTimestamp_Less m m' = true.
Proof.
  intros Hs Hk. destruct (Oldest_outcome s Hs) as (Hnone & _ & _ & Hold & _).
  destruct (Oldest s) as [m|].
  - destruct (Hold m eq_refl) as [Hm Hleast]. exists m. split; [done|].
    split; [by apply elem_of_UnsortedList|]. intros k' m' Hk'. apply Hleast, elem_of_go_values. eauto.
  - destruct Hnone as [Hnone _]. rewrite Hnone in Hk by done. by rewrite lookup_empty in Hk.
Qed.

Lemma in_failure_domains_true ids m :
  in_failure_domains ids m = true ↔ sp_FailureDomain (m_Spec m) ∈ ids.
Proof.
  induction ids as [|[fd|] ids IH]; simpl.
  - split; [done|]. by intros ?%not_elem_of_nil.
  - rewrite elem_of_cons. destruct (sp_FailureDomain (m_Spec m)) as [d|] eqn:Ed.
    + case_bool_decide as Hd; [subst; naive_solver|]. rewrite IH. naive_solver.
    + rewrite IH. naive_solver.
  - rewrite elem_of_cons. case_bool_decide as Hd; [naive_solver|]. rewrite IH. naive_solver.
Qed.

Lemma InFailureDomains_true ids m :
  InFailureDomains ids (Some m) = true ↔ sp_FailureDomain (m_Spec m) ∈ ids.
Proof. apply in_failure_domains_true. Qed.

Lemma elem_of_GetIDs (fds : FailureDomains) fd :
  fd ∈ GetIDs fds ↔ ∃ id, fd = Some id ∧ is_Some (fds !! id).
Proof.
  unfold GetIDs. rewrite list_elem_of_fmap. setoid_rewrite elem_of_domains. naive_solver.
Qed.

Lemma size_pos (s : Machines) : (0 <? Z.of_nat (size s)) = true ↔ ∃ k m, s !! k = Some m.
Proof.
  rewrite Z.ltb_lt. split.
  - intros Hs. destruct (map_choose s) as (k & m & Hk); [|eauto].
    intros ->. rewrite map_size_empty in Hs. lia.
  - intros (k & m & Hk). assert (size s ≠ 0%nat); [|lia].
    rewrite map_size_empty_iff. intros ->. by rewrite lookup_empty in Hk.
Qed.

Lemma Filter_pos s f : keyed s →
  (0 <? Z.of_nat (size (Filter s [f]))) = true ↔ ∃ k m, s !! k = Some m ∧ f (Some m) = true.
Proof.
  intros Hs. rewrite size_pos. setoid_rewrite Filter_lookup; [|done].
  split; intros (k & m & Hk & Hf); exists k, m; (split; [done|]).
  - apply Hf. left.
  - by intros f' ->%list_elem_of_singleton.
Qed.

Lemma Filter_pos_false s f : keyed s →
  (0 <? Z.of_nat (size (Filter s [f]))) = false ↔ ∀ k m, s !! k = Some m → f (Some m) = false.
Proof.
  intros Hs. rewrite <- not_true_iff_false, Filter_pos by done. split.
  - intros Hno k m Hk. apply not_true_iff_false. intros Hf. apply Hno. eauto.
  - intros Hno (k & m & Hk & Hf). rewrite (Hno k m) in Hf; done.
Qed.

(** The failure domain of [m] is the one to remove a Machine from: it is no longer one of the
    control plane, or none of the domains of the candidates holds more of its Machines. *)
Definition domain_to_shrink (c : ControlPlane) (candidates : Machines) (m : Machine) : Prop :=
  (∀ id, sp_FailureDomain (m_Spec m) = Some id → FilterControlPlane (cpl_FailureDomains c) !! id = None) ∨
  ∃ id, sp_FailureDomain (m_Spec m) = Some id ∧
    ∀ k x id', candidates !! k = Some x → sp_FailureDomain (m_Spec x) = Some id' →
      population (cpl_Machines c) id' ≤ population (cpl_Machines c) id.

Lemma oldest_in_domain machines fd m0 k0 :
  keyed machines → machines !! k0 = Some m0 → sp_FailureDomain (m_Spec m0) = fd →
  ∃ m, Oldest (Filter machines [InFailureDomains [fd]]) = Some m ∧ machines !! m_Name m = Some m ∧
    sp_FailureDomain (m_Spec m) = fd ∧
    ∀ k x, machines !! k = Some x → sp_FailureDomain (m_Spec x) = fd → x ≠ m →
      machinesByCreationTimestamp_Less m x = true.
Proof.
  intros Hs Hk0 Hfd.
  assert (∀ k x, Filter machines [InFailureDomains [fd]] !! k = Some x ↔
    machines !! k = Some x ∧ sp_FailureDomain (m_Spec x) = fd) as Hl.
  { intros k x. rewrite Filter_lookup by done. split; intros [Hx Hf]; split; try done.
    - apply list_elem_of_singleton, InFailureDomains_true, Hf. left.
    - intros f ->%list_elem_of_singleton. by apply InFailureDomains_true, list_elem_of_singleton. }
  destruct (Oldest_Some (Filter machines [InFailureDomains [fd]]) k0 m0) as (m & Ho & Hm & Hleast).
  - by apply keyed_Filter.
  - by apply Hl.
  - apply Hl in Hm as [Hm Hmfd]. exists m. split_and!; try done.
    intros k x Hx Hxfd. apply (Hleast k). by apply Hl.
Qed.

Lemma domain_population c machines :
  keyed machines →
  (∀ k x, machines !! k = Some x → InFailureDomains
    (GetIDs (FilterControlPlane (cpl_FailureDomains c))) (Some x) = true) →
  (∃ k x, machines !! k = Some x) →
  ∃ id k x, PickMost (FilterControlPlane (cpl_FailureDomains c)) (cpl_Machines c) machines = Some id ∧
    machines !! k = Some x ∧ sp_FailureDomain (m_Spec x) = Some id ∧
    ∀ m, sp_FailureDomain (m_Spec m) = Some id → domain_to_shrink c machines m.
Proof.
  intros Hs Hin (k0 & x0 & Hk0).
  pose proof (PickMost_outcome (FilterControlPlane (cpl_FailureDomains c)) (cpl_Machines c) machines) as Hp.
  assert (∀ k x, machines !! k = Some x → ∃ id, sp_FailureDomain (m_Spec x) = Some id ∧
    eligible (FilterControlPlane (cpl_FailureDomains c)) machines id) as Hel.
  { intros k x Hx. specialize (Hin k x Hx).
    apply InFailureDomains_true, elem_of_GetIDs in Hin as (id & Hid & Hfd).
    exists id. split; [done|]. split; [done|]. exists x. split; [apply elem_of_go_values; eauto|done]. }
  destruct (PickMost _ _ _) as [id|].
  - destruct Hp as [[_ (x & [k Hx]%elem_of_go_values & Hd)] Hmax]. exists id, k, x.
    split_and!; try done. intros m Hm. right. exists id. split; [done|].
    intros k' x' id' Hx' Hid'. destruct (Hel _ _ Hx') as (id2 & Hid2 & He).
    rewrite Hid' in Hid2. injection Hid2 as <-. by apply Hmax.
  - destruct (Hel _ _ Hk0) as (id & _ & He). by destruct (Hp id).
Qed.

Lemma MachineInFailureDomain_outcome c machines :
  keyed machines → (∃ k x, machines !! k = Some x) →
  ∃ m, MachineInFailureDomainWithMostMachines c machines = Ok m ∧ machines !! m_Name m = Some m ∧
    domain_to_shrink c machines m ∧
    ∀ k x, machines !! k = Some x → sp_FailureDomain (m_Spec x) = sp_FailureDomain (m_Spec m) →
      x ≠ m → machinesByCreationTimestamp_Less m x = true.
Proof.
  intros Hs Hne. unfold MachineInFailureDomainWithMostMachines, FailureDomainWithMostMachines.
  set (out := Not _). destruct (0 <? Z.of_nat (size (Filter machines [out]))) eqn:E.
  - assert (keyed (Filter machines [out])) as Hks by (by apply keyed_Filter).
    pose proof E as (k0 & x0 & Hx0)%size_pos.
    destruct (Oldest_Some _ k0 x0 Hks Hx0) as (o & -> & Ho & _).
    apply Filter_lookup in Ho as [Ho Hout]; [|done].
    destruct (oldest_in_domain machines (sp_FailureDomain (m_Spec o)) o (m_Name o))
      as (m & Hm & Hin & Hfd & Hleast); try done.
    exists m. simpl. rewrite Hm. split_and!; try done.
    + left. intros id Hid. specialize (Hout out ltac:(left)). unfold out, Not in Hout.
      apply negb_true_iff, not_true_iff_false in Hout. rewrite InFailureDomains_true, elem_of_GetIDs in Hout.
      apply eq_None_not_Some. intros Hsome. apply Hout. exists id. split; congruence.
    + intros k x Hx Hxfd. apply (Hleast k); congruence.
  - destruct (domain_population c machines Hs) as (id & k & x & Hp & Hx & Hid & Hshrink); [|done|].
    { intros k x Hx. apply Filter_pos_false with (k := k) (m := x) in E; try done.
      by apply negb_false_iff in E. }
    destruct (oldest_in_domain machines (Some id) x k) as (m & Hm & Hin & Hfd & Hleast); try done.
    exists m. unfold mbind, result_bind. rewrite Hp, Hm. split_and!; [done..|by apply Hshrink|].
    intros k' x' Hx' Hxfd. apply (Hleast k'); congruence.
Qed.

(** How early a Machine is considered for deletion. *)
Definition scale_down_rank (c : ControlPlane) (outdated : Machines) (x : Machine) : nat :=
  match outdated !! m_Name x, HasAnnotationKey DeleteMachineAnnotation (Some x) with
  | Some _, true => 0
  | None, true => 1
  | Some _, false => if HasUnhealthyControlPlaneComponents (IsEtcdManaged c) (Some x) then 2 else 3
  | None, false => 4
  end.

Definition of_rank (c : ControlPlane) (outdated : Machines) (n : nat) : Machines :=
  filter (λ '(_, x), scale_down_rank c outdated x = n) (cpl_Machines c).

Lemma lookup_of_rank c outdated n k x :
  of_rank c outdated n !! k = Some x ↔
  cpl_Machines c !! k = Some x ∧ scale_down_rank c outdated x = n.
Proof. apply map_lookup_filter_Some. Qed.

Section ranks.
Context (c : ControlPlane) (outdated : Machines).
Context (Hkeyed : keyed (cpl_Machines c)) (Hout : outdated ⊆ cpl_Machines c).

Lemma keyed_outdated : keyed outdated.
Proof using Hkeyed Hout. intros k m Hk. apply Hkeyed. by eapply lookup_weaken. Qed.

Lemma outdated_lookup k x : cpl_Machines c !! k = Some x → outdated !! m_Name x = outdated !! k.
Proof using Hkeyed. intros Hk. by rewrite (Hkeyed _ _ Hk). Qed.

Lemma outdated_same k x y : cpl_Machines c !! k = Some x → outdated !! k = Some y → y = x.
Proof using Hout. intros Hx Hy. eapply lookup_weaken in Hy; [|done]. congruence. Qed.

(** A set of candidates that is exactly one rank, the lowest there is. *)
Definition is_rank (s : Machines) (n : nat) : Prop :=
  (∀ k x, s !! k = Some x ↔ cpl_Machines c !! k = Some x ∧ scale_down_rank c outdated x = n) ∧
  (∀ k x, cpl_Machines c !! k = Some x → (n ≤ scale_down_rank c outdated x)%nat).

Lemma Filter1_lookup s f k x :
  keyed s → Filter s [f] !! k = Some x ↔ s !! k = Some x ∧ f (Some x) = true.
Proof using.
  intros Hs. rewrite Filter_lookup by done. split; intros [Hk Hf]; split; try done.
  - apply Hf. left.
  - by intros ? ->%list_elem_of_singleton.
Qed.

Lemma select_rank :
  (∃ k x, cpl_Machines c !! k = Some x) →
  ∃ n s, selectMachineForScaleDown c outdated = MachineInFailureDomainWithMostMachines c s ∧
    is_rank s n ∧ ∃ k x, s !! k = Some x.
Proof using Hkeyed Hout.
  intros Hne. pose proof keyed_outdated as Hko. unfold selectMachineForScaleDown, Machines_Len,
    MachineWithDeleteAnnotation, UnhealthyMachinesWithUnhealthyControlPlaneComponents.
  set (annotated := HasAnnotationKey DeleteMachineAnnotation).
  set (sick := HasUnhealthyControlPlaneComponents (IsEtcdManaged c)).
  assert (∀ k x, cpl_Machines c !! k = Some x → scale_down_rank c outdated x =
    match outdated !! k, annotated (Some x) with
    | Some _, true => 0 | None, true => 1
    | Some _, false => if sick (Some x) then 2 else 3 | None, false => 4 end%nat) as Hrank.
  { intros k x Hk. unfold scale_down_rank. by rewrite (outdated_lookup k). }
  assert (∀ k x, outdated !! k = Some x → cpl_Machines c !! k = Some x) as Hsub
    by (intros; by eapply lookup_weaken).
  destruct (0 <? Z.of_nat (size (Filter outdated [annotated]))) eqn:E1;
    [|destruct (0 <? Z.of_nat (size (Filter (cpl_Machines c) [annotated]))) eqn:E2;
    [|destruct (0 <? Z.of_nat (size (Filter outdated [sick]))) eqn:E3;
    [|destruct (0 <? Z.of_nat (size outdated)) eqn:E4]]].
  - exists 0%nat, (Filter outdated [annotated]). apply size_pos in E1. split_and!; try done.
    split; [|lia]. intros k x. rewrite Filter1_lookup by done. split.
    + intros [Hk Ha]. rewrite (Hrank k) by auto. by rewrite Hk, Ha; auto.
    + intros [Hk Hr]. rewrite (Hrank k) in Hr by done. destruct (outdated !! k) as [y|] eqn:Ey;
        destruct (annotated (Some x)) eqn:Ea; try done; [|by destruct (sick _)].
      by rewrite (outdated_same k x y).
  - exists 1%nat, (Filter (cpl_Machines c) [annotated]). apply size_pos in E2. split_and!; try done.
    assert (∀ k x, cpl_Machines c !! k = Some x → annotated (Some x) = true → outdated !! k = None) as Hno.
    { intros k x Hk Ha. apply eq_None_not_Some. intros [y Hy].
      pose proof (outdated_same k x y Hk Hy). subst y.
      eapply Filter_pos_false in E1; [|done|exact Hy]. congruence. }
    split.
    + intros k x. rewrite Filter1_lookup by done. split; intros [Hk Hr]; (split; [done|]).
      * rewrite (Hrank k) by done. by rewrite Hr, (Hno k x).
      * rewrite (Hrank k) in Hr by done. destruct (outdated !! k), (annotated (Some x)); try done.
        by destruct (sick _).
    + intros k x Hk. rewrite (Hrank k) by done.
      destruct (annotated (Some x)) eqn:Ea; [by rewrite (Hno k x)|].
      destruct (outdated !! k); [destruct (sick _)|]; lia.
  - exists 2%nat, (Filter outdated [sick]). apply size_pos in E3. split_and!; try done.
    pose proof (proj1 (Filter_pos_false _ _ Hkeyed) E2) as Hno. split.
    + intros k x. rewrite Filter1_lookup by done. split.
      * intros [Hk Hs]. split; [auto|]. rewrite (Hrank k) by auto. by rewrite Hk, (Hno k x), Hs by auto.
      * intros [Hk Hr]. rewrite (Hrank k), (Hno k x) in Hr by done.
        destruct (outdated !! k) as [y|] eqn:Ey; [|done]. rewrite (outdated_same k x y) by done.
        split; [done|]. by destruct (sick _).
    + intros k x Hk. rewrite (Hrank k), (Hno k x) by done.
      destruct (outdated !! k); [destruct (sick _)|]; lia.
  - exists 3%nat, outdated. apply size_pos in E4. split_and!; try done.
    pose proof (proj1 (Filter_pos_false _ _ Hkeyed) E2) as Hno.
    pose proof (proj1 (Filter_pos_false _ _ Hko) E3) as Hns. split.
    + intros k x. split.
      * intros Hk. split; [auto|]. rewrite (Hrank k) by auto. by rewrite Hk, (Hno k x), (Hns k x) by auto.
      * intros [Hk Hr]. rewrite (Hrank k), (Hno k x) in Hr by done.
        destruct (outdated !! k) as [y|] eqn:Ey; [|done]. by rewrite (outdated_same k x y).
    + intros k x Hk. rewrite (Hrank k), (Hno k x) by done.
      destruct (outdated !! k) as [y|] eqn:Ey; [|lia].
      pose proof (outdated_same k x y Hk Ey). subst y. rewrite (Hns k x) by done. lia.
  - exists 4%nat, (cpl_Machines c). split_and!; try done.
    pose proof (proj1 (Filter_pos_false _ _ Hkeyed) E2) as Hno.
    assert (∀ k, outdated !! k = None) as Hemp.
    { intros k. apply eq_None_not_Some. intros [y Hy]. apply not_true_iff_false in E4.
      apply E4, size_pos. eauto. }
    split; [intros k x; split; [|by intros []]; intros Hk; split; [done|]|intros k x Hk];
      rewrite (Hrank k), (Hno k x), (Hemp k) by done; lia.
Qed.
End ranks.

(** Scaling down a control plane always finds a Machine to delete, and it is one of the
    control plane of the lowest rank there is: outdated with the delete annotation, annotated,
    outdated with unhealthy components, outdated, any.  Its failure domain is not one of the
    control plane any more or no domain of that rank holds more control plane Machines, and it
    is the oldest of that rank in its domain. *)
Theorem selectMachineForScaleDown_spec (c : ControlPlane) (outdated : Machines) :
  keyed (cpl_Machines c) → outdated ⊆ cpl_Machines c → cpl_Machines c ≠ ∅ →
  ∃ m, selectMachineForScaleDown c outdated = Ok m ∧ cpl_Machines c !! m_Name m = Some m ∧
    let rank := scale_down_rank c outdated in
    (∀ k x, cpl_Machines c !! k = Some x → (rank m ≤ rank x)%nat) ∧
    domain_to_shrink c (of_rank c outdated (rank m)) m ∧
    ∀ k x, cpl_Machines c !! k = Some x → rank x = rank m →
      sp_FailureDomain (m_Spec x) = sp_FailureDomain (m_Spec m) → x ≠ m →
      machinesByCreationTimestamp_Less m x = true.
Proof.
  intros Hk Hout (k0 & x0 & Hk0)%map_choose.
  destruct (select_rank c outdated Hk Hout) as (n & s & -> & [Hs Hmin] & Hne); [eauto|].
  assert (keyed s) as Hks by (intros k x [? _]%Hs; by apply Hk).
  destruct (MachineInFailureDomain_outcome c s Hks Hne) as (m & -> & Hm & Hd & Hold).
  apply Hs in Hm as [Hm Hr]. exists m. split_and!; [done|done|]. cbv zeta. rewrite Hr.
  split_and!; [done| |].
  - destruct Hd as [Hd|(id & Hid & Hd)]; [by left|]. right. exists id. split; [done|].
    intros k x id' Hx. apply (Hd k). by apply Hs, lookup_of_rank.
  - intros k x Hx Hrx. apply (Hold k). by apply Hs.
Qed.
End selection.

(** ** Retry limits *)

Section limits.
Context `{Apimachinery} `{GoSort} `{GoRange} `{MetaConditions} (env : KcpEnv).

Definition machine_of (s : KcpState) (name : string) : Machine :=
  default emptyMachine (k_machines s !! name).

Lemma lastRemediationTime_missing k now last :
  rd_Timestamp last = zero_time → 0 ≤ minHealthyPeriod k ≤ 2 ^ 62 - 1 → retryPeriod k ≤ 2 ^ 62 - 1 →
  lastRemediationTime k now last + minHealthyPeriod k ≤ now.
Proof.
  intros Hz Hm Hr. unfold lastRemediationTime. rewrite Hz, Z.eqb_refl, wrap64_id; [lia|].
  unfold in_int64, int64_min, int64_max. lia.
Qed.

Lemma mark_remediated_state name reason severity message v1r v1m s :
  ∃ m', mark_remediated env name reason severity message v1r v1m s
    = (Ok tt, k_set_cp (cpl_set_Machines (<[name := m']> (k_machines s)) (k_cp s)) s) ∧
    m_Meta m' = m_Meta (machine_of s name).
Proof.
  unfold mark_remediated, mbind, M_bind, gets, kload, kstore, modify. eexists. split; [done|].
  rewrite v1beta2_Set_meta. apply Set_meta.
Qed.

(** The verdict of [checkRetryLimits] on a Machine that replaced another one: [inl] the retry
    count of the remediation that may go on, [inr] when it has to wait. *)
Definition retry_verdict (k : KubeadmControlPlane) (now : Time) (last : RemediationData) : Z + unit :=
  let time := lastRemediationTime k now last in
  if negb (now <? time + minHealthyPeriod k) then inl 0
  else if now <? time + retryPeriod k then inr tt
  else match maxRetry k with
       | Some limit => if limit <=? rd_RetryCount last then inr tt
                       else inl (wrap64 (rd_RetryCount last + 1))
       | None => inl (wrap64 (rd_RetryCount last + 1))
       end.

Lemma checkRetryLimits_outcome name now s :
  let m := machine_of s name in
  let k := cpl_KCP (k_cp s) in
  match om_Annotations (m_Meta m) !! RemediationForAnnotation with
  | None => checkRetryLimits env name now s =
      (Ok ({| rd_Machine := m_Name m; rd_Timestamp := now; rd_RetryCount := 0 |}, true), s)
  | Some value =>
      match ke_unmarshal env value with
      | inr _ => ∃ e, checkRetryLimits env name now s = (Err e, s)
      | inl last =>
          match retry_verdict k now last with
          | inl count => checkRetryLimits env name now s =
              (Ok ({| rd_Machine := m_Name m; rd_Timestamp := now; rd_RetryCount := count |}, true), s)
          | inr _ => ∃ data m', checkRetryLimits env name now s =
              (Ok (data, false), k_set_cp (cpl_set_Machines (<[name := m']> (k_machines s)) (k_cp s)) s) ∧
              m_Meta m' = m_Meta m
          end
      end
  end.
Proof.
  cbv zeta. destruct (om_Annotations (m_Meta (machine_of s name)) !! _) as [value|] eqn:Ea.
  2: { unfold checkRetryLimits, mbind, M_bind, kload, gets. fold (machine_of s name). by rewrite Ea. }
  destruct (checkRetryLimits env name now s) as [r s'] eqn:E. revert E.
  unfold checkRetryLimits. unfold mbind at 1, M_bind at 1, gets at 1.
  unfold mbind at 1, M_bind at 1, kload, gets at 1. cbv beta iota zeta. fold (machine_of s name).
  rewrite Ea. unfold mbind at 1, M_bind at 1, lift, RemediationDataFromAnnotation.
  destruct (ke_unmarshal env value) as [last|e]; [|by intros [= <- <-]; eauto]. unfold retry_verdict.
  destruct (negb (now <? _)); [by intros [= <- <-]|]. destruct (now <? _).
  { unfold mbind, M_bind, wait_for_remediation. edestruct mark_remediated_state as (m' & -> & Hm).
    intros [= <- <-]. eauto. }
  destruct (maxRetry (cpl_KCP (k_cp s))) as [limit|]; [|by intros [= <- <-]].
  destruct (limit <=? rd_RetryCount last); [|by intros [= <- <-]].
  unfold mbind, M_bind, wait_for_remediation. edestruct mark_remediated_state as (m' & -> & Hm).
  intros [= <- <-]. eauto.
Qed.

End limits.

(** ** Remediation *)

Abbreviation kruns := (logged k_calls).

(** Calls that neither create nor delete a Machine. *)
Definition calm (c : KcpCall) : Prop :=
  match c with KDeleteMachine _ | KCreateMachine _ => False | _ => True end.

(** Nothing is known of the state. *)
Definition any_state (_ _ : KcpState) : Prop := True.

#[global] Instance any_state_preorder : PreOrder any_state.
Proof. by split. Qed.

(** The Machines and the KubeadmControlPlane are as before. *)
Record steady (s s' : KcpState) : Prop := {
  st_machines : k_machines s' = k_machines s;
  st_kcp : cpl_KCP (k_cp s') = cpl_KCP (k_cp s);
}.

#[global] Instance steady_preorder : PreOrder steady.
Proof. split; [by split|]. intros s1 s2 s3 [? ?] [? ?]. split; congruence. Qed.

Lemma runs_kcall env (P : KcpCall → Prop) (R : KcpState → KcpState → Prop) c :
  P c → (∀ s, R s (k_add_call c s)) → kruns P R (kcall env c).
Proof.
  intros HP HR s r s' [= <- <-]. split; [done|]. exists [c]. split; [done|]. by constructor.
Qed.

Lemma steady_call c s : steady s (k_add_call c s).
Proof. by split. Qed.

Section remediation.
Context `{Apimachinery} `{GoSort} `{GoRange} `{MetaConditions} (env : KcpEnv).

Lemma calm_kcall c : calm c → kruns calm steady (kcall env c).
Proof. intros Hc. apply runs_kcall; [done|]. intros. apply steady_call. Qed.

Lemma calm_any {A} (m : M KcpState A) : kruns calm steady m → kruns calm any_state m.
Proof. by apply runs_weaken. Qed.

Lemma mark_remediated_runs name reason severity message v1r v1m :
  kruns calm any_state (mark_remediated env name reason severity message v1r v1m).
Proof.
  intros s r s' E. destruct (mark_remediated_state env name reason severity message v1r v1m s)
    as (m' & E' & _). rewrite E' in E. injection E as <- <-. split; [done|].
  exists []. by rewrite app_nil_r.
Qed.

Lemma GetWorkloadCluster_runs : kruns calm steady (GetWorkloadCluster env).
Proof.
  apply runs_bind; [apply _|apply runs_gets, _|]. intros [|]; [apply runs_ret, _|].
  apply runs_bind; [apply _|by apply calm_kcall|]. intros _. apply runs_modify. by split.
Qed.

Lemma canSafely_runs name : kruns calm steady (canSafelyRemoveEtcdMember env name).
Proof.
  repeat first [apply GetWorkloadCluster_runs | apply runs_ret, _ | apply runs_gets, _
    | apply runs_mwrap | by apply calm_kcall | apply runs_bind; [apply _| |intros ?]].
Qed.

Lemma canSafely_true name s s' :
  canSafelyRemoveEtcdMember env name s = (Ok true, s') →
  ∃ before, k_calls s' = k_calls s ++ before ++ [EtcdMembersCall] ∧
    ke_error env (k_calls s ++ before) EtcdMembersCall = None ∧
    quorum_after_removal (go_values (k_machines s)) (machine_of s name)
      (ke_etcdMembers env (k_calls s ++ before)) = true.
Proof.
  unfold canSafelyRemoveEtcdMember. unfold mbind at 1, M_bind at 1, gets at 1.
  unfold mbind at 1, M_bind at 1.
  destruct (mwrap _ (GetWorkloadCluster env) s) as [[[]|e|] s1] eqn:E1; try done.
  destruct (runs_mwrap calm steady _ _ GetWorkloadCluster_runs _ _ _ E1) as ([Hm _] & before & Hc & _).
  unfold mbind, M_bind, gets, mwrap, kcall, kload, mret, M_ret.
  destruct (ke_error _ _ _) eqn:Ee; simpl; [done|]. intros [= Hq <-].
  exists before. rewrite Hc in Hq, Ee. unfold machine_of. rewrite <- Hm.
  split_and!; [simpl; by rewrite Hc, app_assoc|done|exact Hq].
Qed.

(** The etcd members were read, and most of those that stay are healthy.  A Node hosts one
    Machine. *)
Definition quorum_kept (s : KcpState) (before : list KcpCall) (m : Machine) : Prop :=
  ∃ b1 b2, before = b1 ++ EtcdMembersCall :: b2 ∧ ke_error env (k_calls s ++ b1) EtcdMembersCall = None ∧
    (distinct_nodes (go_values (k_machines s)) →
     keeps_majority (go_values (k_machines s)) m (ke_etcdMembers env (k_calls s ++ b1))).

(** What the checks of an initialized control plane ensure, with the requests [before]. *)
Record safe_to_remediate (s : KcpState) (before : list KcpCall) (m : Machine) : Prop := {
  sr_replicas : 1 < Machines_Len (k_machines s);
  sr_settled : ∀ k x, k_machines s !! k = Some x →
    is_deleting x = false ∧ (IsUnhealthy (Some x) = false → HasNode (Some x) = true);
  sr_quorum : IsEtcdManaged (k_cp s) = true → quorum_kept s before m;
}.

Lemma quorum_kept_app s before after m : quorum_kept s before m → quorum_kept s (before ++ after) m.
Proof.
  intros (b1 & b2 & -> & He & Hq). exists b1, (b2 ++ after). by rewrite <- app_assoc.
Qed.

Lemma safe_app s before after m : safe_to_remediate s before m → safe_to_remediate s (before ++ after) m.
Proof. intros [? ? Hq]. split; [done..|]. intros He. by apply quorum_kept_app, Hq. Qed.

Lemma HasDeletingMachine_false c :
  keyed (cpl_Machines c) → HasDeletingMachine c = false →
  ∀ k x, cpl_Machines c !! k = Some x → is_deleting x = false.
Proof. intros Hk E k x Hx. by apply (proj1 (Filter_pos_false _ _ Hk) E k). Qed.

Lemma HasHealthyMachineStillProvisioning_false c :
  keyed (cpl_Machines c) → HasHealthyMachineStillProvisioning c = false →
  ∀ k x, cpl_Machines c !! k = Some x → IsUnhealthy (Some x) = false → HasNode (Some x) = true.
Proof.
  intros Hk E k x Hx Hh. apply negb_false_iff.
  apply (proj1 (Filter_pos_false _ _ (keyed_Filter _ _ Hk)) E k).
  apply Filter1_lookup; [done|]. split; [done|]. unfold Not. by rewrite Hh.
Qed.

Lemma wait_then_runs name message v1r v1m :
  kruns calm any_state (_ ← wait_for_remediation env name message v1r v1m; mret false).
Proof. apply runs_bind; [apply _|apply mark_remediated_runs|]. intros _. apply runs_ret, _. Qed.

Lemma wait_then_false name message v1r v1m s s' :
  (_ ← wait_for_remediation env name message v1r v1m; mret false) s ≠ (Ok true, s').
Proof.
  unfold mbind, M_bind, wait_for_remediation.
  edestruct (mark_remediated_state env) as (m' & -> & _). by intros [= ?].
Qed.

Lemma internal_error_runs {A} name e :
  kruns calm any_state (_ ← internal_error env name e; (throw e : M KcpState A)).
Proof. apply runs_bind; [apply _|apply mark_remediated_runs|]. intros _. apply runs_throw, _. Qed.

Lemma internal_error_Err {A} name e s (a : A) s' :
  (_ ← internal_error env name e; (throw e : M KcpState A)) s ≠ (Ok a, s').
Proof.
  unfold mbind, M_bind, internal_error.
  edestruct (mark_remediated_state env) as (m' & -> & _). by intros [= ?].
Qed.

Lemma remediation_is_safe_runs name : kruns calm any_state (remediation_is_safe env name).
Proof.
  apply runs_bind; [apply _|apply runs_gets, _|]. intros c.
  repeat case_match; try apply wait_then_runs; try apply runs_ret, _.
  apply runs_bind; [apply _|apply runs_attempt, calm_any, canSafely_runs|].
  intros [[|]|e]; [apply runs_ret, _|apply wait_then_runs|apply internal_error_runs].
Qed.

Lemma remediation_is_safe_true name s s' :
  keyed (k_machines s) → remediation_is_safe env name s = (Ok true, s') →
  steady s s' ∧ ∃ cs, k_calls s' = k_calls s ++ cs ∧ safe_to_remediate s cs (machine_of s name).
Proof.
  intros Hk. unfold remediation_is_safe. unfold mbind at 1, M_bind at 1, gets at 1.
  destruct (Z.leb_spec (Machines_Len (cpl_Machines (k_cp s))) 1) as [|Hlen]; [by intros ?%wait_then_false|].
  destruct (HasHealthyMachineStillProvisioning _) eqn:Ep; [by intros ?%wait_then_false|].
  destruct (HasDeletingMachine _) eqn:Ed; [by intros ?%wait_then_false|].
  assert (∀ k x, k_machines s !! k = Some x →
    is_deleting x = false ∧ (IsUnhealthy (Some x) = false → HasNode (Some x) = true)) as Hsettled.
  { intros k x Hx. split; [by eapply HasDeletingMachine_false|].
    by eapply HasHealthyMachineStillProvisioning_false. }
  destruct (IsEtcdManaged (k_cp s)) eqn:Ee; cbn [negb].
  - unfold mbind at 1, M_bind at 1, attempt.
    destruct (canSafelyRemoveEtcdMember env name s) as [[[|]|e|] s1] eqn:E1; try done.
    unfold mret, M_ret. intros [= <-]. destruct (canSafely_runs _ _ _ _ E1) as (Hs & _). split; [done|].
    apply canSafely_true in E1 as (before & Hc & He & Hq). eexists. split; [exact Hc|].
    split; [done|done|]. intros _. exists before, []. split_and!; [done..|].
    intros Hd. by apply quorum_after_removal_majority.
  - unfold mret, M_ret. intros [= <-]. split; [done|]. exists []. rewrite app_nil_r. split; [done|].
    split; [done|done|]. congruence.
Qed.

Lemma forward_leadership_runs name : kruns calm any_state (forward_leadership env name).
Proof.
  apply runs_bind; [apply _|apply calm_any, runs_mwrap, GetWorkloadCluster_runs|]. intros _.
  apply runs_bind; [apply _|apply runs_gets, _|]. intros c.
  case_match; [apply runs_ret, _|]. case_match.
  - apply runs_bind; [apply _|apply runs_gets, _|]. intros ?.
    apply runs_bind; [apply _|by apply runs_try_err, calm_any, calm_kcall|].
    intros [e|]; [apply internal_error_runs|apply runs_ret, _].
  - apply runs_bind; [apply _|apply mark_remediated_runs|]. intros _. apply runs_ret, _.
Qed.

Lemma Newest_healthy c m :
  keyed (cpl_Machines c) → Newest (HealthyMachines c) = Some m →
  cpl_Machines c !! m_Name m = Some m ∧ IsUnhealthy (Some m) = false.
Proof.
  intros Hk Hn. assert (keyed (HealthyMachines c)) as Hkh by (by apply keyed_Filter).
  destruct (Oldest_outcome _ Hkh) as (_ & _ & _ & _ & Hnew & _).
  destruct (Hnew m Hn) as [Hm _]. apply elem_of_UnsortedList in Hm; [|done].
  apply Filter1_lookup in Hm as [Hm Hf]; [|done]. split; [done|]. by apply negb_true_iff in Hf.
Qed.

Lemma forward_leadership_true name s s' :
  keyed (k_machines s) → forward_leadership env name s = (Ok true, s') →
  steady s s' ∧ ∃ cs, k_calls s' = k_calls s ++ cs ∧ Forall calm cs ∧
    (IsEtcdManaged (k_cp s) = true → ∃ cand before, k_machines s !! m_Name cand = Some cand ∧
      IsUnhealthy (Some cand) = false ∧ cs = before ++ [ForwardEtcdLeadership (machine_of s name) (Some cand)] ∧
      ke_error env (k_calls s ++ before) (ForwardEtcdLeadership (machine_of s name) (Some cand)) = None).
Proof.
  intros Hk. unfold forward_leadership. unfold mbind at 1, M_bind at 1.
  destruct (mwrap _ (GetWorkloadCluster env) s) as [[[]|e|] s1] eqn:E1; try done.
  destruct (runs_mwrap calm steady _ _ GetWorkloadCluster_runs _ _ _ E1) as (Hs & cs & Hcs & Hc).
  assert (IsEtcdManaged (k_cp s1) = IsEtcdManaged (k_cp s)) as He.
  { unfold IsEtcdManaged. by rewrite (st_kcp _ _ Hs). }
  unfold mbind at 1, M_bind at 1, gets at 1. rewrite He.
  destruct (IsEtcdManaged (k_cp s)); cbn [negb].
  2: { unfold mret, M_ret. intros [= <-]. split; [done|]. exists cs. by split_and!. }
  destruct (Newest (HealthyMachines (k_cp s1))) as [cand|] eqn:En.
  2: { unfold mbind, M_bind. edestruct (mark_remediated_state env) as (m' & -> & _). by intros [= ?]. }
  apply Newest_healthy in En as [Hcand Hh]; [|by rewrite <- (st_machines _ _ Hs) in Hk].
  unfold mbind at 1, M_bind at 1, kload, gets at 1. cbv beta iota zeta. fold (machine_of s1 name).
  unfold mbind at 1, M_bind at 1, try_err, kcall.
  destruct (ke_error env (k_calls s1) _) eqn:Ee; [by intros ?%internal_error_Err|].
  unfold mret, M_ret. intros [= <-]. split; [etrans; [exact Hs|apply steady_call]|].
  assert (machine_of s1 name = machine_of s name) as Hmo.
  { unfold machine_of. by rewrite (st_machines _ _ Hs). }
  exists (cs ++ [ForwardEtcdLeadership (machine_of s1 name) (Some cand)]). split_and!.
  - simpl. by rewrite Hcs, app_assoc.
  - apply Forall_app. split; [done|]. by constructor.
  - intros _. exists cand, cs. rewrite <- Hmo, <- Hcs. split_and!; [by rewrite <- (st_machines _ _ Hs)|done..].
Qed.

(** What removing stale conditions may do to a Machine: the OwnerRemediated condition goes. *)
Record same_node (m m' : Machine) : Prop := {
  sn_meta : m_Meta m' = m_Meta m;
  sn_node : st_NodeRef (m_Status m') = st_NodeRef (m_Status m);
  sn_conditions : ∀ t, t ≠ MachineOwnerRemediatedCondition → Get m' t = Get m t;
  sn_remediated : ∀ c, Get m' MachineOwnerRemediatedCondition = Some c →
    Get m MachineOwnerRemediatedCondition = Some c;
}.

Record tidied (s s' : KcpState) : Prop := {
  td_initialized : kcp_Initialized (cpl_KCP (k_cp s')) = kcp_Initialized (cpl_KCP (k_cp s));
  td_config : kcp_ClusterConfiguration (cpl_KCP (k_cp s')) = kcp_ClusterConfiguration (cpl_KCP (k_cp s));
  td_machines : ∀ k, option_Forall2 same_node (k_machines s !! k) (k_machines s' !! k);
}.

#[local] Instance same_node_preorder : PreOrder same_node.
Proof.
  split; [by split|]. intros m1 m2 m3 [? ? C1 R1] [? ? C2 R2]. split; [congruence..| |by auto].
  intros t Ht. by rewrite C2, C1.
Qed.

Lemma option_Forall2_trans {A} (R : A → A → Prop) `{!Transitive R} x y z :
  option_Forall2 R x y → option_Forall2 R y z → option_Forall2 R x z.
Proof. intros [a b Hab|]; inversion 1; subst; constructor; by etrans. Qed.

#[global] Instance tidied_preorder : PreOrder tidied.
Proof.
  split.
  - intros s. split; [done..|]. intros k. by destruct (k_machines s !! k); constructor.
  - intros s1 s2 s3 [I1 K1 M1] [I2 K2 M2]. split; [congruence..|]. intros k.
    eapply option_Forall2_trans; [apply _|apply M1|apply M2].
Qed.

Lemma tidied_keyed s s' : keyed (k_machines s) → tidied s s' → keyed (k_machines s').
Proof.
  intros Hk [_ _ Ht] k m' Hm'. specialize (Ht k). rewrite Hm' in Ht. inversion Ht as [m ? [Hmeta _ _ _] Hm|].
  unfold m_Name. rewrite Hmeta. by apply Hk.
Qed.

Lemma Delete_status (m : Machine) : same_node m (Delete m MachineOwnerRemediatedCondition).
Proof.
  split; [by unfold Delete; destruct (GetConditions m)..| |].
  - intros t Ht. by rewrite Delete_Get, decide_False.
  - intros c. by rewrite Delete_Get, decide_True.
Qed.

Lemma v1beta2_Delete_status (m m' : Machine) t : v1beta2_Delete m t = Ok m' → same_node m m'.
Proof. unfold v1beta2_Delete. destruct (_ <? 0); [done|]. by intros [= <-]. Qed.

Lemma tidied_store name m m' s :
  k_machines s !! name = Some m → same_node m m' →
  tidied s (k_set_cp (cpl_set_Machines (<[name := m']> (k_machines s)) (k_cp s)) s).
Proof.
  intros Hm Hs. split; [done..|]. intros k. unfold k_machines at 2. simpl.
  destruct (decide (k = name)) as [->|Hne].
  - rewrite lookup_insert_eq, Hm. by constructor.
  - rewrite lookup_insert_ne by done. by destruct (k_machines s !! k); constructor.
Qed.

Lemma tidied_call c s : tidied s (k_add_call c s).
Proof. split; [done..|]. intros k. simpl. by destruct (k_machines s !! k) eqn:E; unfold k_machines in *; simpl; rewrite E; constructor. Qed.

(** One Machine of the loop that removes stale conditions. *)
Lemma kcp_cleanup_step errs name s r s' :
  is_Some (k_machines s !! name) → kcp_cleanup env errs name s = (r, s') →
  tidied s s' ∧ ∃ cs, k_calls s' = k_calls s ++ cs ∧ Forall calm cs.
Proof.
  intros [m Hm] E. unfold kcp_cleanup, mbind, M_bind, kload, gets in E. cbn beta iota zeta in E.
  rewrite Hm in E. cbn [default from_option id] in E.
  assert (∀ P : Prop, (tidied s s ∧ (∃ cs, k_calls s = k_calls s ++ cs ∧ Forall calm cs) → P) → P) as Hstay.
  { intros P HP. apply HP. split; [done|]. exists []. by rewrite app_nil_r. }
  destruct (is_deleting m); [injection E as <- <-; by apply Hstay|].
  destruct (negb _); [injection E as <- <-; by apply Hstay|].
  unfold try_err, kcall in E. destruct (ke_error env (k_calls s) _).
  { injection E as <- <-. split; [apply tidied_call|]. by exists [KNewHelper m]; split; [|constructor]. }
  set (s1 := k_add_call (KNewHelper m) s) in *.
  set (m1 := if _ : bool then Delete m _ else m) in *.
  assert (same_node m m1) as Hm1 by (unfold m1; repeat case_match; first [apply Delete_status|done]).
  match type of E with context [(if ?b then lift ?x else ?z) s1] =>
    assert (∃ y', (if b then lift x else z) s1 = (y', s1) ∧ (∀ m2, y' = Ok m2 → same_node m1 m2)) as (y & Ey & Hy)
  end.
  { match goal with |- context [if ?b then lift _ else _] => destruct b end;
      (eexists; split; [reflexivity|]); [|by intros ? [= <-]]. intros m2. apply v1beta2_Delete_status. }
  rewrite Ey in E. destruct y as [m2|e|].
  2-3: injection E as <- <-; (split; [apply tidied_call|]); by exists [KNewHelper m]; split; [|constructor].
  specialize (Hy m2 eq_refl). unfold kstore, modify in E.
  assert (tidied s (k_set_cp (cpl_set_Machines (<[name := m2]> (k_machines s1)) (k_cp s1)) s1)) as Ht.
  { etrans; [apply (tidied_call (KNewHelper m))|]. apply (tidied_store name m); [done|]. by etrans. }
  destruct (ke_error env _ _); injection E as <- <-;
    (split; [etrans; [exact Ht|apply tidied_call]|]);
    (exists [KNewHelper m; KPatchMachine m2]; split; [by simpl; rewrite <- app_assoc|by repeat constructor]).
Qed.

Lemma kcp_cleanup_all names errs s r s' :
  (∀ n, n ∈ names → is_Some (k_machines s !! n)) → foldM (kcp_cleanup env) errs names s = (r, s') →
  tidied s s' ∧ ∃ cs, k_calls s' = k_calls s ++ cs ∧ Forall calm cs.
Proof.
  revert errs s. induction names as [|n names IH]; intros errs s Hn E; cbn [foldM] in E.
  { injection E as <- <-. split; [done|]. exists []. by rewrite app_nil_r. }
  unfold mbind, M_bind in E. destruct (kcp_cleanup env errs n s) as [x s1] eqn:E1.
  destruct (kcp_cleanup_step _ _ _ _ _ (Hn n ltac:(left)) E1) as (Ht & cs & Hcs & Hc).
  destruct x as [[errs'|errs']|e|]; [|injection E as <- <-; eauto..].
  destruct (IH errs' s1) as (Ht' & cs' & Hcs' & Hc'); [|done|].
  - intros n' Hn'. destruct (Hn n' ltac:(by right)) as [m Hm]. pose proof (td_machines _ _ Ht n') as Hf.
    rewrite Hm in Hf. inversion Hf. eauto.
  - split; [by etrans|]. exists (cs ++ cs'). rewrite Hcs', Hcs, app_assoc. split; [done|].
    by apply Forall_app.
Qed.

Lemma delete_unhealthy_machine_calls name data s r s' :
  delete_unhealthy_machine env name data s = (r, s') →
  k_calls s' = k_calls s ++ [KDeleteMachine (machine_of s name)].
Proof.
  unfold delete_unhealthy_machine. unfold mbind at 1, M_bind at 1, kload, gets at 1.
  cbv beta iota zeta. fold (machine_of s name). unfold mbind at 1, M_bind at 1, try_err, kcall.
  destruct (ke_error _ _ _).
  - unfold mbind, M_bind, internal_error. edestruct (mark_remediated_state env) as (m' & -> & _).
    by intros [= <- <-].
  - unfold mbind, M_bind. edestruct (mark_remediated_state env) as (m' & -> & _).
    unfold lift, Marshal. destruct (ke_marshal env data); by intros [= <- <-].
Qed.

(** The leadership was moved to a healthy Machine. *)
Definition leadership_moved (s : KcpState) (before : list KcpCall) (m : Machine) : Prop :=
  ∃ cand b1 x c b2, k_machines s !! m_Name cand = Some cand ∧ IsUnhealthy (Some cand) = false ∧
    m_Name x = m_Name m ∧ m_Name c = m_Name cand ∧ before = b1 ++ ForwardEtcdLeadership x (Some c) :: b2 ∧
    ke_error env (k_calls s ++ b1) (ForwardEtcdLeadership x (Some c)) = None.

(** The Machine [m] of [s] may be deleted after the requests [before], which start in [s]. *)
Record deleted_safely (s : KcpState) (before : list KcpCall) (m : Machine) : Prop := {
  ds_machine : k_machines s !! m_Name m = Some m;
  ds_unhealthy : IsUnhealthyAndOwnerRemediated (Some m) = true;
  ds_not_deleting : is_deleting m = false;
  ds_safe : kcp_Initialized (cpl_KCP (k_cp s)) = true → safe_to_remediate s before m;
  ds_leader : kcp_Initialized (cpl_KCP (k_cp s)) = true → IsEtcdManaged (k_cp s) = true →
    leadership_moved s before m;
}.

(** No deletion, or one that was safe. *)
Definition at_most_one_safe (s : KcpState) (cs : list KcpCall) : Prop :=
  Forall calm cs ∨ ∃ m d before after, cs = before ++ KDeleteMachine d :: after ∧ m_Name d = m_Name m ∧
    Forall calm before ∧ Forall calm after ∧ deleted_safely s before m.

Lemma at_most_one_append s cs c :
  calm c → at_most_one_safe s cs → at_most_one_safe s (cs ++ [c]).
Proof.
  intros Hc [H0'|(m & d & before & after & -> & Hn & Hb & Ha & Hd)].
  - left. apply Forall_app. split; [done|]. by constructor.
  - right. exists m, d, before, (after ++ [c]). rewrite <- app_assoc. split_and!; try done.
    apply Forall_app. split; [done|]. by constructor.
Qed.

(** What is known in a tidied state holds in the state before. *)
Section carry.
Context (s s1 : KcpState) (cs0 : list KcpCall).
Hypothesis Hkey : keyed (k_machines s).
Hypothesis Ht : tidied s s1.
Hypothesis Hc0 : k_calls s1 = k_calls s ++ cs0.

Lemma carry_machine k m1 :
  k_machines s1 !! k = Some m1 → ∃ m, k_machines s !! k = Some m ∧ same_node m m1.
Proof.
  intros Hm1. pose proof (td_machines _ _ Ht k) as Hf. rewrite Hm1 in Hf. inversion Hf; eauto.
Qed.

Lemma carry_later k m :
  k_machines s !! k = Some m → ∃ m1, k_machines s1 !! k = Some m1 ∧ same_node m m1.
Proof.
  intros Hm1. pose proof (td_machines _ _ Ht k) as Hf. rewrite Hm1 in Hf. inversion Hf; eauto.
Qed.

Lemma same_node_name m m1 : same_node m m1 → m_Name m1 = m_Name m.
Proof. intros Hs. unfold m_Name. by rewrite (sn_meta _ _ Hs). Qed.

Lemma same_node_on e m m1 : same_node m m1 → on_node e m1 = on_node e m.
Proof. intros Hs. unfold on_node. by rewrite (sn_node _ _ Hs). Qed.

Lemma carry_distinct : distinct_nodes (go_values (k_machines s)) → distinct_nodes (go_values (k_machines s1)).
Proof.
  intros Hd m1 m2 e [k1 Hx1]%elem_of_go_values [k2 Hx2]%elem_of_go_values He1 He2.
  destruct (carry_machine _ _ Hx1) as (n1 & Hn1 & S1), (carry_machine _ _ Hx2) as (n2 & Hn2 & S2).
  rewrite (same_node_on e _ _ S1) in He1. rewrite (same_node_on e _ _ S2) in He2.
  assert (n1 = n2) as E by (apply (Hd n1 n2 e); try done; apply elem_of_go_values; eauto).
  pose proof (Hkey _ _ Hn1) as K1. pose proof (Hkey _ _ Hn2) as K2. congruence.
Qed.

Lemma carry_healthy e :
  healthy_member (go_values (k_machines s1)) e = healthy_member (go_values (k_machines s)) e.
Proof.
  assert (∀ m m1, same_node m m1 → on_node e m1 && IsTrue m1 MachineEtcdMemberHealthyCondition =
    on_node e m && IsTrue m MachineEtcdMemberHealthyCondition) as Heq.
  { intros m m1 Hs. unfold IsTrue. by rewrite (same_node_on e _ _ Hs), (sn_conditions _ _ Hs). }
  apply eq_true_iff_eq. unfold healthy_member. rewrite !existsb_exists. split.
  - intros (m1 & [k Hm1]%list_elem_of_In%elem_of_go_values & E).
    destruct (carry_machine _ _ Hm1) as (m & Hm & Hs). exists m. rewrite <- (Heq _ _ Hs). split; [|done].
    apply list_elem_of_In, elem_of_go_values. eauto.
  - intros (m & [k Hm]%list_elem_of_In%elem_of_go_values & E).
    destruct (carry_later _ _ Hm) as (m1 & Hm1 & Hs). exists m1. rewrite (Heq _ _ Hs). split; [|done].
    apply list_elem_of_In, elem_of_go_values. eauto.
Qed.

Lemma carry_majority m m1 members :
  same_node m m1 → keeps_majority (go_values (k_machines s1)) m1 members →
  keeps_majority (go_values (k_machines s)) m members.
Proof.
  intros Hs. unfold keeps_majority.
  assert (remaining m1 members = remaining m members) as ->.
  { apply list_filter_iff. intros e. by rewrite (same_node_on e _ _ Hs). }
  rewrite (list_filter_iff (λ e, healthy_member (go_values (k_machines s1)) e = true)
    (λ e, healthy_member (go_values (k_machines s)) e = true)); [done|]. intros e. by rewrite carry_healthy.
Qed.

Lemma carry_etcd : IsEtcdManaged (k_cp s1) = IsEtcdManaged (k_cp s).
Proof. unfold IsEtcdManaged. by rewrite (td_config _ _ Ht). Qed.

Lemma carry_quorum before m m1 :
  same_node m m1 → quorum_kept s1 before m1 → quorum_kept s (cs0 ++ before) m.
Proof.
  intros Hs (b1 & b2 & -> & He & Hq). exists (cs0 ++ b1), b2. rewrite Hc0, <- app_assoc in He, Hq.
  rewrite <- app_assoc. split_and!; [done..|]. intros Hd. eapply carry_majority; [exact Hs|].
  by apply Hq, carry_distinct.
Qed.

Lemma carry_safe before m m1 :
  same_node m m1 → safe_to_remediate s1 before m1 → safe_to_remediate s (cs0 ++ before) m.
Proof.
  intros Hs [Hr Hset Hq]. split.
  - assert (dom (k_machines s1) = dom (k_machines s)) as Hd.
    { apply set_eq. intros k. rewrite !elem_of_dom. split; intros [x Hx].
      - destruct (carry_machine _ _ Hx) as (? & ? & _). eauto.
      - destruct (carry_later _ _ Hx) as (? & ? & _). eauto. }
    unfold Machines_Len in *. by rewrite <- size_dom, <- Hd, size_dom.
  - intros k x Hx. destruct (carry_later _ _ Hx) as (x1 & Hx1 & S1). destruct (Hset k x1 Hx1) as [Hdel Hn].
    unfold is_deleting in *. rewrite (sn_meta _ _ S1) in Hdel. split; [done|].
    unfold IsUnhealthy, HasNode, IsFalse in *. simpl in *. by rewrite (sn_conditions _ _ S1), (sn_node _ _ S1) in Hn.
  - intros He. eapply carry_quorum; [exact Hs|]. apply Hq. by rewrite carry_etcd.
Qed.

Lemma carry_leader before m m1 :
  same_node m m1 → leadership_moved s1 before m1 → leadership_moved s (cs0 ++ before) m.
Proof.
  intros Hs (cand & b1 & x & c & b2 & Hcand & Hh & Hx & Hcn & -> & He).
  destruct (carry_machine _ _ Hcand) as (cand0 & Hcand0 & S0). rewrite Hc0, <- app_assoc in He.
  pose proof (same_node_name _ _ S0) as En.
  exists cand0, (cs0 ++ b1), x, c, b2. rewrite <- En, <- app_assoc. split_and!; [done| |by rewrite Hx, (same_node_name _ _ Hs)|done..].
  unfold IsUnhealthy, IsFalse in *. simpl in *. by rewrite (sn_conditions _ _ S0) in Hh.
Qed.

Lemma carry_deleted before m1 :
  deleted_safely s1 before m1 → ∃ m, m_Name m = m_Name m1 ∧ deleted_safely s (cs0 ++ before) m.
Proof.
  intros [Hm Hu Hd Hsafe Hl]. destruct (carry_machine _ _ Hm) as (m & Hm0 & Hs). exists m.
  pose proof (same_node_name _ _ Hs) as En. split; [done|]. split.
  - by rewrite <- En.
  - unfold IsUnhealthyAndOwnerRemediated, IsFalse in *. simpl in *.
    apply andb_true_iff in Hu as [Hu1 Hu2]. rewrite (sn_conditions _ _ Hs) in Hu1 by done. rewrite Hu1. simpl.
    destruct (Get m1 MachineOwnerRemediatedCondition) as [c|] eqn:Ec; [|done].
    by rewrite (sn_remediated _ _ Hs c Ec).
  - unfold is_deleting in *. by rewrite (sn_meta _ _ Hs) in Hd.
  - intros Hi. rewrite <- (td_initialized _ _ Ht) in Hi. by eapply carry_safe, Hsafe.
  - intros Hi He. rewrite <- (td_initialized _ _ Ht) in Hi. rewrite <- carry_etcd in He. by eapply carry_leader, Hl.
Qed.

Lemma carry_one cs : Forall calm cs0 → at_most_one_safe s1 cs → at_most_one_safe s (cs0 ++ cs).
Proof.
  intros H0' [Hc|(m & d & before & after & -> & Hn & Hb & Ha & Hd)].
  - left. by apply Forall_app.
  - right. destruct (carry_deleted _ _ Hd) as (m0 & Hn0 & Hd0). exists m0, d, (cs0 ++ before), after.
    rewrite <- app_assoc. split_and!; try done; [congruence|]. by apply Forall_app.
Qed.
End carry.

(** The choice of the retry limits either stops or leaves the state alone. *)
Lemma checkRetryLimits_cases name now s :
  (∃ data, checkRetryLimits env name now s = (Ok (data, true), s)) ∨
  (∃ data s', checkRetryLimits env name now s = (Ok (data, false), s') ∧ k_calls s' = k_calls s) ∨
  (∃ e, checkRetryLimits env name now s = (Err e, s)).
Proof.
  pose proof (checkRetryLimits_outcome env name now s) as Ho. cbv zeta in Ho.
  destruct (om_Annotations _ !! _) as [value|]; [|eauto].
  destruct (ke_unmarshal env value) as [last|e]; [|destruct Ho; eauto].
  destruct (retry_verdict _ _ _) as [count|[]]; [eauto|]. destruct Ho as (data & m' & Ho & _).
  right. left. eexists _, _. split; [exact Ho|done].
Qed.

Lemma delete_machine_safe name data s s0 cs0 r s' :
  k_machines s = k_machines s0 → k_calls s = k_calls s0 ++ cs0 → Forall calm cs0 →
  k_machines s0 !! name = Some (machine_of s0 name) → m_Name (machine_of s0 name) = name →
  deleted_safely s0 cs0 (machine_of s0 name) →
  delete_unhealthy_machine env name data s = (r, s') →
  ∃ cs, k_calls s' = k_calls s0 ++ cs ∧ at_most_one_safe s0 cs.
Proof.
  intros Hm Hc Hcalm Hn Hname Hd E%delete_unhealthy_machine_calls.
  assert (machine_of s name = machine_of s0 name) as Hmo by (unfold machine_of; by rewrite Hm).
  rewrite Hc, Hmo, <- app_assoc in E. exists (cs0 ++ [KDeleteMachine (machine_of s0 name)]).
  split; [done|]. right. eexists _, _, _, []. split_and!; [done..|constructor|done].
Qed.

Lemma remediate_machine_safe name now s r s' :
  keyed (k_machines s) → k_machines s !! name = Some (machine_of s name) →
  IsUnhealthyAndOwnerRemediated (Some (machine_of s name)) = true →
  is_deleting (machine_of s name) = false →
  remediate_machine env name now s = (r, s') →
  ∃ cs, k_calls s' = k_calls s ++ cs ∧ at_most_one_safe s cs.
Proof.
  intros Hk Hn Hu Hd E. unfold remediate_machine in E. unfold mbind at 1, M_bind at 1 in E.
  assert (m_Name (machine_of s name) = name) as Hname by (by apply Hk).
  assert (∃ cs, k_calls s = k_calls s ++ cs ∧ at_most_one_safe s cs) as Hstay.
  { exists []. rewrite app_nil_r. split; [done|]. left. constructor. }
  destruct (checkRetryLimits_cases name now s) as [(data & Ec)|[(data & s1 & Ec & Hc1)|(e & Ec)]];
    rewrite Ec in E; cbn [negb] in E.
  2: { injection E as <- <-. by rewrite Hc1. }
  2: { by injection E as <- <-. }
  unfold mbind at 1, M_bind at 1, gets at 1 in E.
  destruct (kcp_Initialized (cpl_KCP (k_cp s))) eqn:Ei; cbn [negb] in E.
  2: { eapply (delete_machine_safe name data s s []); try done; [by rewrite app_nil_r|].
       split; [by rewrite Hname|done|done|congruence..]. }
  unfold mbind at 1, M_bind at 1 in E.
  destruct (remediation_is_safe env name s) as [x s1] eqn:E1.
  destruct (remediation_is_safe_runs _ _ _ _ E1) as (_ & cs1 & Hc1 & Hcalm1).
  destruct x as [[|]|e|]; cbn [negb] in E.
  2-4: injection E as <- <-; exists cs1; by split; [|left].
  apply remediation_is_safe_true in E1 as (Hs1 & cs1' & Hc1' & Hsafe); [|done].
  assert (cs1' = cs1) as -> by (rewrite Hc1 in Hc1'; by apply app_inv_head in Hc1').
  unfold mbind at 1, M_bind at 1 in E.
  destruct (forward_leadership env name s1) as [y s2] eqn:E2.
  destruct (forward_leadership_runs _ _ _ _ E2) as (_ & cs2 & Hc2 & Hcalm2).
  assert (k_calls s2 = k_calls s ++ cs1 ++ cs2) as Hc12 by (by rewrite Hc2, Hc1, app_assoc).
  assert (Forall calm (cs1 ++ cs2)) by (by apply Forall_app).
  destruct y as [[|]|e|]; cbn [negb] in E.
  2-4: injection E as <- <-; exists (cs1 ++ cs2); by split; [|left].
  apply forward_leadership_true in E2 as (Hs2 & cs2' & Hc2' & _ & Hl); [|by rewrite (st_machines _ _ Hs1)].
  assert (cs2' = cs2) as -> by (rewrite Hc2 in Hc2'; by apply app_inv_head in Hc2').
  eapply (delete_machine_safe name data s2 s (cs1 ++ cs2)); try done.
  { by rewrite (st_machines _ _ Hs2), (st_machines _ _ Hs1). }
  split; [by rewrite Hname|done|done|by intros _; apply safe_app|]. intros _ He.
  destruct Hl as (cand & b & Hcand & Hh & -> & Hok).
  { unfold IsEtcdManaged in *. by rewrite (st_kcp _ _ Hs1). }
  rewrite (st_machines _ _ Hs1) in Hcand. rewrite Hc1, <- app_assoc in Hok.
  unfold machine_of at 1 in Hok. rewrite (st_machines _ _ Hs1) in Hok. fold (machine_of s name) in Hok.
  assert (machine_of s1 name = machine_of s name) as Hmo by (unfold machine_of; by rewrite (st_machines _ _ Hs1)).
  exists cand, (cs1 ++ b), (machine_of s name), cand, []. rewrite Hmo, <- app_assoc. by split_and!.
Qed.

Lemma remediation_in_progress_state s r s' :
  remediation_in_progress env s = (r, s') →
  k_machines s' = k_machines s ∧ k_calls s' = k_calls s ∧
  kcp_Initialized (cpl_KCP (k_cp s')) = kcp_Initialized (cpl_KCP (k_cp s)) ∧
  kcp_ClusterConfiguration (cpl_KCP (k_cp s')) = kcp_ClusterConfiguration (cpl_KCP (k_cp s)).
Proof.
  unfold remediation_in_progress. unfold mbind at 1, M_bind at 1, gets at 1.
  destruct (om_Annotations _ !! _) as [v|]; [|by intros [= <- <-]].
  unfold mbind at 1, M_bind at 1, lift, RemediationDataFromAnnotation.
  destruct (ke_unmarshal env v) as [d|e]; [|by intros [= <- <-]].
  destruct (existsb _ _); by intros [= <- <-].
Qed.

Lemma getMachineToBeRemediated_in s m :
  keyed s → getMachineToBeRemediated s = Some m → s !! m_Name m = Some m.
Proof.
  intros Hk. unfold getMachineToBeRemediated.
  assert (∀ t x, keyed t → Oldest t = Some x → t !! m_Name x = Some x) as Hin.
  { intros t x Hkt Ho. destruct (Oldest_outcome t Hkt) as (_ & _ & _ & Hold & _).
    destruct (Hold x Ho) as [Hx _]. by apply elem_of_UnsortedList. }
  destruct (Oldest (Filter s [Not HasNode])) as [x|] eqn:E.
  - intros [= ->]. apply Hin in E; [|by apply keyed_Filter]. by apply Filter1_lookup in E as [? _].
  - by apply Hin.
Qed.

Lemma deferred_patch_calls {A} name (body : M KcpState A) s r s' :
  deferred_patch env name body s = (r, s') →
  ∃ x s1 m, body s = (x, s1) ∧ k_calls s' = k_calls s1 ++ [KPatchMachine m].
Proof.
  unfold deferred_patch. destruct (body s) as [x s1]. unfold kcall. intros [= _ <-]. by eexists _, _, _.
Qed.

(** C13: [canSafelyRemoveEtcdMember] answers yes exactly when, without the member on the Node of
    the Machine, the healthy members are a strict majority of the etcd cluster; a member is
    healthy only if the Machine on its Node says so.  Here no two Machines share a Node. *)
Theorem canSafelyRemoveEtcdMember_majority name s b s' :
  distinct_nodes (go_values (k_machines s)) →
  canSafelyRemoveEtcdMember env name s = (Ok b, s') →
  steady s s' ∧
  ∃ calls, let rest := remaining (machine_of s name) (ke_etcdMembers env calls) in
    b = true ↔ (length rest < 2 * length (filter (λ e,
      healthy_member (go_values (k_machines s)) e = true) rest))%nat.
Proof.
  intros Hd E. destruct (canSafely_runs _ _ _ _ E) as (Hs & _). split; [done|].
  unfold canSafelyRemoveEtcdMember in E. unfold mbind at 1, M_bind at 1, gets at 1 in E.
  unfold mbind at 1, M_bind at 1 in E.
  destruct (mwrap _ (GetWorkloadCluster env) s) as [[[]|e|] s1] eqn:E1; try done.
  destruct (runs_mwrap calm steady _ _ GetWorkloadCluster_runs _ _ _ E1) as ([Hm _] & _).
  unfold mbind, M_bind, gets, mwrap, kcall, kload, mret, M_ret in E.
  destruct (ke_error _ _ _); simpl in E; [done|]. injection E as <- _.
  exists (k_calls s1). cbv zeta. unfold machine_of. rewrite <- Hm. unfold k_machines in *. simpl.
  apply quorum_after_removal_majority. by rewrite Hm.
Qed.

Lemma remediation_calls s r s' :
  keyed (k_machines s) → kcp_reconcileUnhealthyMachines env s = (r, s') →
  ∃ cs, k_calls s' = k_calls s ++ cs ∧ at_most_one_safe s cs.
Proof.
  intros Hk E. unfold kcp_reconcileUnhealthyMachines in E.
  unfold mbind at 1, M_bind at 1, gets at 1 in E. unfold mbind at 1, M_bind at 1, gets at 1 in E.
  unfold mbind at 1, M_bind at 1 in E.
  destruct (foldM (kcp_cleanup env) [] (go_range (k_machines s)).*1 s) as [x s1] eqn:E1.
  destruct (kcp_cleanup_all _ _ _ _ _ (λ n, proj1 (elem_of_go_keys (k_machines s) n)) E1)
    as (Ht & cs0 & Hc0 & Hcalm0).
  enough (∃ cs, k_calls s' = k_calls s1 ++ cs ∧ at_most_one_safe s1 cs) as (cs & Hcs & Hone).
  { exists (cs0 ++ cs). rewrite Hcs, Hc0, app_assoc. split_and!; [done..|]. by apply (carry_one s s1 cs0). }
  assert (∃ cs, k_calls s1 = k_calls s1 ++ cs ∧ at_most_one_safe s1 cs) as Hstay.
  { exists []. rewrite app_nil_r. split; [done|]. left. constructor. }
  destruct x as [[|e errs]|e|]; [|unfold throw in E; by injection E as <- <-..].
  unfold mbind at 1, M_bind at 1, gets at 1 in E.
  destruct (size _ =? 0)%nat; [by injection E as <- <-|].
  unfold mbind at 1, M_bind at 1, lift in E.
  destruct (getMachineToBeRemediated _) as [m|] eqn:Em; [|by injection E as <- <-].
  pose proof (tidied_keyed _ _ Hk Ht) as Hk1.
  apply getMachineToBeRemediated_in in Em; [|by apply keyed_Filter].
  apply Filter1_lookup in Em as [Em Hu]; [|done]. simpl deref in E. cbn match in E.
  destruct (is_deleting m) eqn:Ed; [by injection E as <- <-|].
  unfold mbind at 1, M_bind at 1 in E.
  destruct (remediation_in_progress env s1) as [y s2] eqn:E2.
  apply remediation_in_progress_state in E2 as (Hm2 & Hc2 & Hi2 & Hcc2).
  destruct y as [[|]|e|]; [injection E as <- <-; by rewrite Hc2| |injection E as <- <-; by rewrite Hc2..].
  unfold mbind at 1, M_bind at 1, kcall at 1 in E.
  destruct (ke_error _ _ _).
  { injection E as <- <-. exists [KNewHelper m]. simpl. rewrite Hc2. split; [done|]. left. by constructor. }
  apply deferred_patch_calls in E as (z & s3 & m' & E3 & Hc3).
  set (s2' := k_add_call (KNewHelper m) s2) in *.
  assert (machine_of s2' (m_Name m) = m) as Hmo.
  { unfold machine_of, s2', k_machines in *. simpl. by rewrite Hm2, Em. }
  destruct (remediate_machine_safe (m_Name m) (ke_now env (k_calls s)) s2' z s3) as (cs & Hcs & Hone).
  - unfold s2', k_machines in *. simpl. by rewrite Hm2.
  - rewrite Hmo. unfold s2', k_machines in *. simpl. by rewrite Hm2.
  - by rewrite Hmo.
  - by rewrite Hmo.
  - exact E3.
  - exists ([KNewHelper m] ++ (cs ++ [KPatchMachine m'])). rewrite Hc3, Hcs. simpl. rewrite Hc2.
    split; [by rewrite <- !app_assoc|]. apply (carry_one s1 s2' [KNewHelper m]); [done| | |by constructor|].
    + split; [done..|]. intros k. unfold s2', k_machines in *. simpl. rewrite Hm2.
      by destruct (cpl_Machines (k_cp s1) !! k); constructor.
    + unfold s2'. simpl. by rewrite Hc2.
    + by apply at_most_one_append.
Qed.

(** C3: remediation of a control plane deletes at most one Machine, and only a safe one,
    whatever the API answers.  The Machine is unhealthy, waits for its owner and is not being
    deleted; and on an initialized control plane there is more than one Machine, none is being
    deleted and every healthy one has a Node.  With a managed etcd the members were read before
    the deletion, and of those read that do not run on the Node of the Machine a strict majority
    is healthy (a member is, when the Machine on its Node says so; no two Machines share a
    Node); and the leadership was successfully handed to a healthy Machine.  All this is said
    of the Machines the remediation starts with. *)
Theorem kcp_remediation_safe s r s' :
  keyed (k_machines s) → kcp_reconcileUnhealthyMachines env s = (r, s') →
  ∃ cs, k_calls s' = k_calls s ++ cs ∧ at_most_one_safe s cs.
Proof. apply remediation_calls. Qed.
End remediation.

(** ** Preflight checks and scaling down *)

Section scaling.
Context `{Apimachinery} `{GoSort} `{GoRange} `{MetaConditions} (env : KcpEnv).

(** A condition that does not hold up an operation. *)
Definition condition_passes (m : Machine) (t : ConditionType) : Prop :=
  ∃ c, Get m t = Some c ∧ c_Status c ≠ ConditionFalse ∧ c_Status c ≠ ConditionUnknown.

Lemma preflightCheckCondition_None kind m t :
  preflightCheckCondition kind m t = None ↔ condition_passes m t.
Proof.
  unfold preflightCheckCondition, condition_passes. destruct (Get m t) as [c|]; [|naive_solver].
  destruct (String.eqb_spec (c_Status c) ConditionFalse); [naive_solver|].
  destruct (String.eqb_spec (c_Status c) ConditionUnknown); naive_solver.
Qed.

Lemma check_conditions_errors m ts acc :
  (foldl (check_condition m) acc ts).1 = [] ↔ acc.1 = [] ∧ ∀ t, t ∈ ts → condition_passes m t.
Proof.
  revert acc. induction ts as [|t ts IH]; intros acc; simpl; [set_solver|].
  rewrite IH. unfold check_condition. setoid_rewrite elem_of_cons.
  destruct (preflightCheckCondition "Machine" m t) eqn:E; simpl.
  - split; [by intros [[]%app_nil _]|]. intros [_ Hall].
    rewrite (proj2 (preflightCheckCondition_None "Machine" m t)) in E; [done|]. apply Hall. by left.
  - apply preflightCheckCondition_None in E. naive_solver.
Qed.

Definition machine_passes (etcdManaged : bool) (excludeFor : list Machine) (m : Machine) : Prop :=
  (∃ x, x ∈ excludeFor ∧ m_Name m = m_Name x) ∨
  is_Some (st_NodeRef (m_Status m)) ∧
  ∀ t, t ∈ allMachineHealthConditions etcdManaged → condition_passes m t.

Lemma check_machine_errors etcd excl acc m :
  (check_machine etcd excl acc m).1 = [] ↔ acc.1 = [] ∧ machine_passes etcd excl m.
Proof.
  unfold check_machine, machine_passes. destruct (existsb _ excl) eqn:E.
  - apply existsb_exists in E as (x & Hx%list_elem_of_In & Hn%String.eqb_eq). naive_solver.
  - assert (¬ ∃ x, x ∈ excl ∧ m_Name m = m_Name x) as Hno.
    { intros (x & Hx & Hn). apply not_true_iff_false in E. apply E, existsb_exists. exists x.
      split; [by apply list_elem_of_In|by apply String.eqb_eq]. }
    destruct (st_NodeRef (m_Status m)) as [ref|]; cbn [fst].
    + rewrite check_conditions_errors. split; [intros [? ?]; split; [done|right; eauto]|].
      intros [? [Hx|[_ ?]]]; [by destruct Hno|done].
    + split; [by intros []%app_nil|]. intros [_ [Hx|[[? [=]] _]]]. by destruct Hno.
Qed.

Lemma check_machines_errors etcd excl l acc :
  (foldl (check_machine etcd excl) acc l).1 = [] ↔ acc.1 = [] ∧ ∀ m, m ∈ l → machine_passes etcd excl m.
Proof.
  revert acc. induction l as [|m l IH]; intros acc; simpl; [set_solver|].
  rewrite IH, check_machine_errors. setoid_rewrite elem_of_cons. naive_solver.
Qed.

Lemma preflightChecks_pass excl c :
  keyed (cpl_Machines c) →
  ctrl_Result_IsZero (preflightChecks excl c).1 = true ↔
  ∀ k m, cpl_Machines c !! k = Some m →
    is_deleting m = false ∧ machine_passes (IsEtcdManaged c) excl m.
Proof.
  intros Hk. unfold preflightChecks, Machines_Len.
  destruct (Z.eqb_spec (Z.of_nat (size (cpl_Machines c))) 0) as [Hz|Hz].
  { split; [|done]. intros _ k m. assert (cpl_Machines c = ∅) as -> by (apply map_size_empty_iff; lia).
    by rewrite lookup_empty. }
  destruct (HasDeletingMachine c) eqn:Ed.
  { split; [done|]. intros Hall. unfold HasDeletingMachine in Ed.
    apply Filter_pos in Ed as (k & m & Hm & Hf); [|done]. destruct (Hall k m Hm) as [Hd _].
    unfold is_deleting in Hd. unfold HasDeletionTimestamp, on_machine in Hf. congruence. }
  pose proof (HasDeletingMachine_false c Hk Ed) as Hnd.
  destruct (foldl _ _ _) as [errs p] eqn:Ef.
  assert (errs = [] ↔ ∀ k m, cpl_Machines c !! k = Some m → machine_passes (IsEtcdManaged c) excl m) as He.
  { change errs with (errs, p).1. rewrite <- Ef, check_machines_errors. simpl.
    setoid_rewrite elem_of_go_values. naive_solver. }
  destruct errs as [|e errs]; simpl; (split; [|done || intros Hall]).
  - intros _ k m Hm. split; [by eapply Hnd|]. by eapply He.
  - done.
  - assert (e :: errs = []); [|done]. apply He. intros k m Hm. by apply (Hall k).
Qed.

Lemma scaleDown_calls outdated s r s' :
  keyed (k_machines s) → scaleDownControlPlane env outdated s = (r, s') →
  ∃ cs, k_calls s' = k_calls s ++ cs ∧
    (Forall calm cs ∨ ∃ m before, cs = before ++ [KDeleteMachine m] ∧ Forall calm before ∧
      selectMachineForScaleDown (k_cp s) outdated = Ok m ∧
      (∀ k x, k_machines s !! k = Some x → is_deleting x = false ∧
        machine_passes (IsEtcdManaged (k_cp s)) [m] x) ∧
      (IsEtcdManaged (k_cp s) = true → ForwardEtcdLeadership m (Newest (k_machines s)) ∈ before)).
Proof.
  intros Hk E. unfold scaleDownControlPlane in E. unfold mbind at 1, M_bind at 1, gets at 1 in E.
  unfold mbind at 1, M_bind at 1, lift in E.
  destruct (selectMachineForScaleDown (k_cp s) outdated) as [m|e|] eqn:Es; simpl wrapErr in E.
  2-3: injection E as <- <-; exists []; rewrite app_nil_r; split; [done|by left; constructor].
  unfold mbind at 1, M_bind at 1, kcp_preflight in E.
  pose proof (preflightChecks_pass [m] (k_cp s) Hk) as Hp.
  destruct (preflightChecks [m] (k_cp s)) as [res c] eqn:Ep. simpl in Hp.
  destruct (ctrl_Result_IsZero res) eqn:Ez; cbn [negb] in E.
  2: { injection E as <- <-. exists []. rewrite app_nil_r. split; [done|by left; constructor]. }
  unfold mbind at 1, M_bind at 1 in E.
  destruct (mwrap _ (GetWorkloadCluster env) (k_set_cp c s)) as [x s1] eqn:E1.
  destruct (runs_mwrap calm steady _ _ (GetWorkloadCluster_runs env) _ _ _ E1) as (_ & cs & Hcs & Hc).
  destruct x as [[]|e|]; [|injection E as <- <-; exists cs; by split; [|left]..].
  unfold mbind at 1, M_bind at 1 in E.
  assert (∃ y cs2, (if IsEtcdManaged (k_cp s) then kcall env (ForwardEtcdLeadership m (Newest (cpl_Machines (k_cp s))))
     else mret tt) s1 = (y, {| k_cp := k_cp s1; k_calls := k_calls s1 ++ cs2 |}) ∧ Forall calm cs2 ∧
     (IsEtcdManaged (k_cp s) = true → ForwardEtcdLeadership m (Newest (k_machines s)) ∈ cs2))
    as (y & cs2 & Ey & Hc2 & Hfwd).
  { destruct (IsEtcdManaged (k_cp s)).
    - eexists _, [_]. split; [reflexivity|]. split; [by constructor|]. intros _. left.
    - exists (Ok tt), []. rewrite app_nil_r. by destruct s1. }
  rewrite Ey in E.
  assert (k_calls s1 ++ cs2 = k_calls s ++ cs ++ cs2) as Hcalls by (rewrite Hcs; by rewrite <- app_assoc).
  assert (Forall calm (cs ++ cs2)) by (by apply Forall_app).
  destruct y as [[]|e|]; [|injection E as <- <-; exists (cs ++ cs2); by split; [|left]..].
  unfold mbind, M_bind, try_err, kcall in E. simpl in E.
  assert (k_calls s' = (k_calls s1 ++ cs2) ++ [KDeleteMachine m]) as Hfin.
  { destruct (ke_error _ _ _) as [e|]; [destruct (IsNotFound e)|]; by injection E as <- <-. }
  exists ((cs ++ cs2) ++ [KDeleteMachine m]). rewrite Hfin, Hcalls, <- app_assoc. split; [done|].
  right. exists m, (cs ++ cs2). split_and!; try done; [by apply Hp|].
  intros He. apply elem_of_app. right. by apply Hfwd.
Qed.

(** Scaling down a control plane makes one deletion at most, its last call: the Machine that
    [selectMachineForScaleDown] picks, and only when no Machine is being deleted and every other
    Machine has a Node and reports no failing or unknown component; with a managed etcd the
    leadership was forwarded before. *)
Theorem scaleDownControlPlane_safe outdated s r s' :
  keyed (k_machines s) → scaleDownControlPlane env outdated s = (r, s') →
  ∃ cs, k_calls s' = k_calls s ++ cs ∧
    (Forall calm cs ∨ ∃ m before, cs = before ++ [KDeleteMachine m] ∧ Forall calm before ∧
      selectMachineForScaleDown (k_cp s) outdated = Ok m ∧
      (∀ k x, k_machines s !! k = Some x → is_deleting x = false ∧
        machine_passes (IsEtcdManaged (k_cp s)) [m] x) ∧
      (IsEtcdManaged (k_cp s) = true → ForwardEtcdLeadership m (Newest (k_machines s)) ∈ before)).
Proof. apply scaleDown_calls. Qed.
End scaling.

(** ** Witnesses *)

Definition condition_of (t status : string) : Condition :=
  {| c_Type := t; c_Status := status; c_Severity := ""; c_LastTransitionTime := 0; c_Reason := "";
     c_Message := "" |}.

(** A control plane Machine with a Node of the same name. *)
Definition control_plane_machine (name : string) (conditions : list Condition) : Machine :=
  let m := machine_at name "v1.31.0" 0 in
  let m := m_set_Meta (meta_set_Annotations (<[RemediationForAnnotation := "x"%string]> ∅) (m_Meta m)) m in
  let ref := {| ref_Kind := "Node"; ref_Namespace := ""; ref_Name := name; ref_UID := "";
    ref_APIVersion := "v1"; ref_ResourceVersion := ""; ref_FieldPath := "" |} in
  m_set_Conditions conditions (m_set_NodeRef (Some ref) m).

Definition healthy_machine (name : string) : Machine :=
  control_plane_machine name
    ((λ t, condition_of t ConditionTrue) <$> allMachineHealthConditions true).

Definition unhealthy_machine (name : string) : Machine :=
  control_plane_machine name [condition_of MachineHealthCheckSucceededCondition ConditionFalse;
    condition_of MachineOwnerRemediatedCondition ConditionFalse].

Definition demo_control_plane (machines : list Machine) : ControlPlane :=
  {| cpl_KCP := demo_kcp demo_config_spec;
     cpl_Cluster := {| kcl_Name := "c"; kcl_UID := "u"; kcl_FailureDomains := ∅; kcl_InfrastructureReady := true;
       kcl_ControlPlaneEndpoint := ("10.0.0.1", 6443) |};
     cpl_Machines := FromMachines (Some <$> machines); cpl_machinesNotUptoDate := ∅;
     cpl_machinesNotUptoDateConditionMessages := ∅; cpl_KubeadmConfigs := ∅; cpl_InfraResources := ∅;
     cpl_PreflightCheckResults := {| pre_HasDeletingMachine := false;
       pre_ControlPlaneComponentsNotHealthy := false; pre_EtcdClusterNotHealthy := false |};
     cpl_InfraMachineTemplateIsNotFound := false; cpl_EtcdMembers := None;
     cpl_EtcdMembersAgreeOnMemberList := false; cpl_EtcdMembersAgreeOnClusterID := false;
     cpl_EtcdMembersAndMachinesAreMatching := false; cpl_DeletingReason := ""; cpl_DeletingMessage := "";
     cpl_workloadCluster := false |}.

Definition demo_state (machines : list Machine) : KcpState :=
  {| k_cp := demo_control_plane machines; k_calls := [] |}.

(** Every call succeeds; the last remediation was half an hour ago. *)
Definition demo_kcp_env : KcpEnv :=
  {| ke_error _ _ := None; ke_etcdMembers _ := ["a"; "b"; "c"]%string; ke_now _ := 10 * Hour;
     ke_unmarshal _ := inl {| rd_Machine := "z"; rd_Timestamp := 10 * Hour - 30 * Minute;
       rd_RetryCount := 2 |};
     ke_marshal _ := inl "x"%string; ke_errorString _ := ""; ke_durationString _ := "1m" |}.

Definition one_sick : list Machine :=
  [unhealthy_machine "a"; healthy_machine "b"; healthy_machine "c"].

Lemma demo_keyed machines : keyed (k_machines (demo_state machines)).
Proof. apply keyed_Insert. intros k m. unfold Machines_New. by rewrite lookup_empty. Qed.

Lemma selectMachineForScaleDown_spec_witness :
  ∃ m, selectMachineForScaleDown (demo_control_plane one_sick) ∅ = Ok m.
Proof.
  destruct (selectMachineForScaleDown_spec (demo_control_plane one_sick) ∅) as (m & Hm & _).
  - exact (demo_keyed one_sick).
  - apply map_empty_subseteq.
  - intros E. apply (f_equal size) in E. vm_compute in E. discriminate E.
  - exists m. exact Hm.
Defined.


Lemma distinct_nodes_demo : distinct_nodes (go_values (k_machines (demo_state one_sick))).
Proof.
  assert (∀ m, m ∈ go_values (k_machines (demo_state one_sick)) → m ∈ one_sick) as Hin.
  { intros m [k Hk]%elem_of_go_values. unfold one_sick. unfold k_machines, demo_state, demo_control_plane,
      FromMachines, one_sick, Machines_Insert, Machines_New in Hk. simpl in Hk.
    rewrite !lookup_insert_Some, lookup_empty in Hk.
    destruct Hk as [[_ <-]|[_ [[_ <-]|[_ [[_ <-]|[_ [=]]]]]]]; set_solver. }
  intros m m' e Hm%Hin Hm'%Hin. unfold one_sick in *. rewrite !elem_of_cons, elem_of_nil in *.
  destruct Hm as [->|[->|[->|[]]]], Hm' as [->|[->|[->|[]]]]; try done;
    unfold on_node; cbn [st_NodeRef m_Status m_set_Conditions m_set_NodeRef unhealthy_machine
      healthy_machine control_plane_machine ref_Name];
    intros E1%String.eqb_eq E2%String.eqb_eq; rewrite <- E1 in E2; discriminate E2.
Qed.

Lemma canSafelyRemoveEtcdMember_majority_witness :
  (canSafelyRemoveEtcdMember demo_kcp_env "a" (demo_state one_sick)).1 = Ok true ∧
  steady (demo_state one_sick) (canSafelyRemoveEtcdMember demo_kcp_env "a" (demo_state one_sick)).2.
Proof.
  split; [vm_compute; reflexivity|].
  refine (proj1 (canSafelyRemoveEtcdMember_majority demo_kcp_env "a" (demo_state one_sick) true _
    distinct_nodes_demo _)).
  rewrite (surjective_pairing (canSafelyRemoveEtcdMember _ _ _)) at 1.
  apply (f_equal2 pair); [vm_compute; reflexivity|reflexivity].
Defined.

Lemma kcp_remediation_safe_witness :
  let run := kcp_reconcileUnhealthyMachines demo_kcp_env (demo_state one_sick) in
  m_Name <$> omap (λ c, if c is KDeleteMachine m then Some m else None) (k_calls run.2) = ["a"%string] ∧
  ∃ cs, k_calls run.2 = k_calls (demo_state one_sick) ++ cs ∧ at_most_one_safe demo_kcp_env (demo_state one_sick) cs.
Proof.
  intros run. split; [vm_compute; reflexivity|].
  exact (kcp_remediation_safe demo_kcp_env (demo_state one_sick) _ _ (demo_keyed one_sick) (surjective_pairing run)).
Defined.

Lemma scaleDownControlPlane_safe_witness :
  length (k_calls (scaleDownControlPlane demo_kcp_env ∅
    (demo_state [healthy_machine "b"; healthy_machine "c"])).2) = 3%nat ∧
  ∃ cs, k_calls (scaleDownControlPlane demo_kcp_env ∅
    (demo_state [healthy_machine "b"; healthy_machine "c"])).2 = cs.
Proof.
  split; [vm_compute; reflexivity|].
  destruct (scaleDownControlPlane_safe demo_kcp_env ∅
    (demo_state [healthy_machine "b"; healthy_machine "c"]) _ _ (demo_keyed _)
    (surjective_pairing _)) as (cs & Hcs & _). exists cs. exact Hcs.
Defined.
