(* ===== verification/KcpUpToDate.v ===== *)
(** * Which control plane Machines are up to date
      (controlplane/kubeadm/internal/filters.go, internal/util/compare)

    A Machine is compared with the KubeadmControlPlane by its version, by the
    ClusterConfiguration kept in an annotation, by its KubeadmConfig and by the template its
    infrastructure machine was cloned from.  Comparing defaults and cleans up the KubeadmConfig
    in place: the functions return the changed one. *)

From Stdlib Require Import Ascii.
From S2P Require Import Prelude GoStd Json JsonCodec Api Apimachinery Util Conditions Version Collections.
From S2P Require Import FailureDomains ConditionsV1Beta2 External MachineSetPolicy MachineSet.
From S2P Require Import Kubeadm KubeadmConfig KcpTypes KubeadmControlPlane.

(** ** Differences of values (internal/util/compare) *)

(** [strings.ReplaceAll] for a pattern that is not empty; [skip] bytes belong to the last match. *)
Fixpoint replace_from (skip : nat) (s old new : string) : string :=
  match s with
  | EmptyString => EmptyString
  | String c s' =>
      match skip with
      | S skip => replace_from skip s' old new
      | O => if HasPrefix s old then new +:+ replace_from (String.length old - 1) s' old new
             else String c (replace_from 0 s' old new)
      end
  end.

Definition ReplaceAll (s old new : string) : string := replace_from 0 s old new.

Inductive panic_value := PanicError (e : error) | PanicString (s : string) | PanicOther (type : string).

(** [cmp.Diff] of github.com/google/go-cmp reports the removed and inserted parts of a value,
    marked with a minus or a plus; for equal values the report is empty.  It panics on
    unexported fields, which the types compared here do not have. *)
Class GoCmp := {
  cmp_Diff : ∀ {A : Type} `{EqDecision A}, A → A → string + panic_value;
  cmp_Diff_equal : ∀ A (H : EqDecision A) (x : A), cmp_Diff x x = inl ""%string;
  cmp_Diff_differs : ∀ A (H : EqDecision A) (x y : A), x ≠ y →
    ∃ report, cmp_Diff x y = inl report ∧ (ContainsByte report "-" || ContainsByte report "+") = true;
}.

#[export] Instance concrete_GoCmp : GoCmp | 100.
Proof.
  refine {| cmp_Diff A H x y := inl (if decide (x = y) then ""%string else "-x +y"%string) |}.
  - intros A H x. by rewrite decide_True.
  - intros A H x y Hne. rewrite decide_False by done. by eexists.
Defined.

Section compare.
Context `{GoCmp}.

Definition nbsp : string := bytes [194; 160]%N.
Definition tab : string := bytes [9]%N.

Definition compare_Diff {A} `{EqDecision A} (x y : A) : result (bool * string) :=
  match cmp_Diff x y with
  | inr (PanicError e) => Err (Wrap "error diffing objects" e)
  | inr (PanicString s) => Err (Errorf ("error diffing objects: " +:+ s))
  | inr (PanicOther t) => Err (Errorf ("error diffing objects: panic of unknown type " +:+ t))
  | inl diff =>
      let diff :=
        if negb (String.eqb diff "") then TrimSpace (ReplaceAll (ReplaceAll diff nbsp " ") tab "  ") else diff in
      Ok (String.eqb diff "", diff)
  end.
End compare.

Lemma HasPrefix_length s p : HasPrefix s p = true → (String.length p ≤ String.length s)%nat.
Proof.
  revert s. induction p as [|a p IH]; intros [|c s]; simpl; try lia; try done.
  intros [_ Hp]%andb_true_iff. apply IH in Hp. lia.
Qed.

Lemma HasPrefix_split s p : HasPrefix s p = true → ∃ t, s = p +:+ t.
Proof.
  revert s. induction p as [|a p IH]; intros [|c s]; simpl; try done; try (by eexists).
  intros [->%Ascii.eqb_eq [t ->]%IH]%andb_true_iff. by exists t.
Qed.

Lemma ContainsByte_app s t c : ContainsByte (s +:+ t) c = ContainsByte s c || ContainsByte t c.
Proof. induction s as [|a s IH]; simpl; [done|]. by rewrite IH, orb_assoc. Qed.

Lemma replace_skip p t old new :
  replace_from (String.length p) (p +:+ t) old new = replace_from 0 t old new.
Proof. induction p as [|a p IH]; simpl; [|done]. by destruct t. Qed.

(** A byte outside of the pattern is kept. *)
Lemma ReplaceAll_keeps s old new c :
  old ≠ ""%string → ContainsByte old c = false → ContainsByte s c = true →
  ContainsByte (ReplaceAll s old new) c = true.
Proof.
  intros Hne Hold. unfold ReplaceAll. remember (String.length s) as n eqn:En.
  revert s En. induction n as [n IH] using lt_wf_ind. intros [|a s] En Hs; [done|]. simpl in En.
  destruct old as [|o old]; [done|]. cbn [replace_from].
  destruct (HasPrefix (String a s) (String o old)) eqn:Hp.
  - apply HasPrefix_split in Hp as [t [= -> ->]]. replace (String.length (String o old) - 1)%nat with (String.length old) by (simpl; lia). rewrite replace_skip.
    change (String o (old +:+ t)) with (String o old +:+ t) in Hs. rewrite ContainsByte_app, Hold in Hs.
    rewrite ContainsByte_app, (IH (String.length t)), orb_true_r; [done| |done|done].
    rewrite length_append in En. lia.
  - simpl in Hs |- *. destruct (Ascii.eqb a c) eqn:Ea; [done|]. simpl in *.
    apply (IH (String.length s)); [lia|done|done].
Qed.

Definition keeps_byte (strip : string → string → string) (c : ascii) : Prop :=
  ∀ s w, w ∈ white_space → ContainsByte s c = true → ContainsByte (strip s w) c = true.

Lemma trim_rounds_keeps strip c n s :
  keeps_byte strip c → ContainsByte s c = true → ContainsByte (trim_rounds n strip s) c = true.
Proof.
  intros Hk. revert s. induction n as [|n IH]; intros s Hs; simpl; [done|]. apply IH. unfold trim_once.
  assert (∀ ws s, ws ⊆ white_space → ContainsByte s c = true → ContainsByte (foldl strip s ws) c = true) as Hf.
  { clear - Hk. induction ws as [|w ws IH]; intros s Hw Hs; simpl; [done|].
    apply IH; [set_solver|]. apply Hk; [set_solver|done]. }
  by apply Hf.
Qed.

Lemma substring_all n s : String.substring 0 (String.length s + n) s = s.
Proof. induction s as [|c s IH]; simpl; [by destruct n|]. by rewrite IH. Qed.

Lemma substring_app_r p t n :
  n = String.length t → String.substring (String.length p) n (p +:+ t) = t.
Proof.
  intros ->. induction p as [|c p IH]; simpl; [|done].
  pose proof (substring_all 0 t) as E. rewrite Nat.add_0_r in E. done.
Qed.

Lemma HasSuffix_split s w : HasSuffix s w = true → ∃ t, s = t +:+ w.
Proof.
  induction s as [|c s IH]; cbn [HasSuffix]; intros E; apply orb_true_iff in E as [E|E];
    try (apply String.eqb_eq in E; exists ""%string; by rewrite <- E); try done.
  apply IH in E as [t ->]. by exists (String c t).
Qed.

Lemma white_space_bytes c w :
  (c = "-"%char ∨ c = "+"%char) → w ∈ white_space → ContainsByte w c = false.
Proof.
  intros Hc Hw. assert (forallb (λ w, negb (ContainsByte w c)) white_space = true) as Hall
    by (destruct Hc as [-> | ->]; by vm_compute).
  rewrite forallb_elem in Hall. by apply negb_true_iff, Hall.
Qed.

Lemma TrimSpace_keeps s c :
  (c = "-"%char ∨ c = "+"%char) → ContainsByte s c = true → ContainsByte (TrimSpace s) c = true.
Proof.
  intros Hc Hs. unfold TrimSpace. apply trim_rounds_keeps; [|apply trim_rounds_keeps; [|done]].
  - intros t w Hw Ht. unfold TrimSuffix. destruct (HasSuffix t w) eqn:E; [|done].
    apply HasSuffix_split in E as [u ->]. rewrite ContainsByte_app, (white_space_bytes c w), orb_false_r in Ht by done.
    rewrite length_append, Nat.add_sub, substring_append. done.
  - intros t w Hw Ht. unfold TrimPrefix. destruct (HasPrefix t w) eqn:E; [|done].
    apply HasPrefix_split in E as [u ->]. rewrite ContainsByte_app, (white_space_bytes c w) in Ht by done.
    by rewrite length_append, substring_app_r by lia.
Qed.

(** The comparison decides equality. *)
Lemma compare_Diff_spec `{GoCmp} {A} `{EqDecision A} (x y : A) :
  ∃ diff, compare_Diff x y = Ok (bool_decide (x = y), diff).
Proof.
  unfold compare_Diff. destruct (decide (x = y)) as [->|Hne].
  { rewrite cmp_Diff_equal, bool_decide_true by done. by eexists. }
  destruct (cmp_Diff_differs _ _ x y Hne) as (report & -> & Hr). rewrite bool_decide_false by done.
  assert (∃ c, (c = "-"%char ∨ c = "+"%char) ∧ ContainsByte report c = true) as (c & Hc & Hin).
  { apply orb_true_iff in Hr as [Hr|Hr]; eauto. }
  assert (report ≠ ""%string) as Hrep by (intros ->; done).
  rewrite (proj2 (String.eqb_neq _ _) Hrep). simpl negb. cbv iota.
  set (t := TrimSpace _). assert (ContainsByte t c = true) as Ht.
  { apply TrimSpace_keeps; [done|]. apply ReplaceAll_keeps; [done|by destruct Hc as [-> | ->]|].
    apply ReplaceAll_keeps; [done|by destruct Hc as [-> | ->]|done]. }
  exists t. do 2 f_equal. apply String.eqb_neq. intros E. by rewrite E in Ht.
Qed.

(** ** Comparing configurations (filters.go) *)

Definition KubeadmClusterConfigurationAnnotation : string :=
  "controlplane.cluster.x-k8s.io/kubeadm-cluster-configuration".

Definition emptyDiscovery : Discovery :=
  {| di_BootstrapToken := None; di_File := None; di_TLSBootstrapToken := ""; di_Timeout := None |}.

Definition emptyNodeRegistration : NodeRegistrationOptions :=
  {| nr_Name := ""; nr_CRISocket := ""; nr_Taints := None; nr_KubeletExtraArgs := None;
     nr_IgnorePreflightErrors := None; nr_ImagePullPolicy := ""; nr_ImagePullSerial := None |}.

Definition getAdjustedKcpConfig (kcp : KubeadmControlPlane) (machineConfig : KubeadmConfigSpec) :
    KubeadmConfigSpec :=
  let kcpConfig := kcp_KubeadmConfigSpec kcp in
  let kcpConfig := match kcs_JoinConfiguration machineConfig with
                   | None => kcs_set_JoinConfiguration None kcpConfig | Some _ => kcpConfig end in
  match kcs_InitConfiguration machineConfig with
  | None => kcs_set_InitConfiguration None kcpConfig
  | Some _ => kcpConfig
  end.

(** The JoinConfigurations of the control plane and of the machine, when both have one. *)
Definition cleanup_join (kj mj : JoinConfiguration) : JoinConfiguration * JoinConfiguration :=
  let kj := jc_set_Discovery emptyDiscovery kj in
  let mj := jc_set_Discovery emptyDiscovery mj in
  let mj := match jc_ControlPlane kj with None => jc_set_ControlPlane None mj | Some _ => mj end in
  let mj := if bool_decide (jc_NodeRegistration kj = emptyNodeRegistration)
            then jc_set_NodeRegistration emptyNodeRegistration mj else mj in
  (kj, jc_set_TypeMeta (jc_TypeMeta kj) mj).

(** Returns the two configurations with the fields that do not matter for the comparison reset. *)
Definition cleanupConfigFields (kcpConfig machineConfig : KubeadmConfigSpec) :
    KubeadmConfigSpec * KubeadmConfigSpec :=
  let kcpConfig := kcs_set_ClusterConfiguration None kcpConfig in
  let machineConfig := kcs_set_ClusterConfiguration None machineConfig in
  let '(kcpConfig, machineConfig) :=
    match kcs_JoinConfiguration kcpConfig, kcs_JoinConfiguration machineConfig with
    | None, _ => (kcpConfig, kcs_set_JoinConfiguration None machineConfig)
    | Some kj, None => (kcs_set_JoinConfiguration (Some (jc_set_Discovery emptyDiscovery kj)) kcpConfig, machineConfig)
    | Some kj, Some mj =>
        let '(kj, mj) := cleanup_join kj mj in
        (kcs_set_JoinConfiguration (Some kj) kcpConfig, kcs_set_JoinConfiguration (Some mj) machineConfig)
    end in
  let machineConfig :=
    match kcs_InitConfiguration machineConfig, kcs_InitConfiguration kcpConfig with
    | Some mi, Some ki => kcs_set_InitConfiguration (Some (ic_set_TypeMeta (ic_TypeMeta ki) mi)) machineConfig
    | _, _ => machineConfig
    end in
  (kcpConfig, machineConfig).

Section filters.
Context `{GoCmp} `{KubeTypes} `{Unstructured}.

Definition matchInitOrJoinConfiguration (machineConfig : option KubeadmConfig) (kcp : KubeadmControlPlane) :
    result (bool * string * option KubeadmConfig) :=
  match machineConfig with
  | None => Ok (true, ""%string, None)
  | Some machineConfig =>
      let kcpConfig := Default (getAdjustedKcpConfig kcp (kc_Spec machineConfig)) in
      let '(kcpConfig, spec) := cleanupConfigFields kcpConfig (Default (kc_Spec machineConfig)) in
      '(matches, diff) ← wrapErr "failed to match InitConfiguration or JoinConfiguration"
        (compare_Diff spec kcpConfig);
      Ok (matches, diff, Some (kc_set_Spec spec machineConfig))
  end.

Definition matchClusterConfiguration (kcp : KubeadmControlPlane) (machine : Machine) :
    result (bool * string) :=
  match om_Annotations (m_Meta machine) !! KubeadmClusterConfigurationAnnotation with
  | None => Ok (true, ""%string)
  | Some machineClusterConfigStr =>
      match Unmarshal_ClusterConfiguration machineClusterConfigStr (Some emptyClusterConfiguration) with
      | None => Ok (false, ""%string)
      | Some machineClusterConfig =>
          let machineClusterConfig := default emptyClusterConfiguration machineClusterConfig in
          let kcpLocalClusterConfiguration :=
            default emptyClusterConfiguration (kcp_ClusterConfiguration kcp) in
          let machineClusterConfig := cc_set_DNS (cc_DNS kcpLocalClusterConfiguration) machineClusterConfig in
          wrapErr "failed to match ClusterConfiguration"
            (compare_Diff machineClusterConfig kcpLocalClusterConfiguration)
      end
  end.

(** The reason, whether the configurations match, and the KubeadmConfigs that are left. *)
Definition matchesKubeadmBootstrapConfig (machineConfigs : gmap string KubeadmConfig)
    (kcp : KubeadmControlPlane) (machine : option Machine) :
    result (string * bool * gmap string KubeadmConfig) :=
  match machine with
  | None => Ok ("Machine KubeadmConfig cannot be compared: Machine is nil", false, machineConfigs)
  | Some machine =>
      '(matches, diff) ← wrapErr "failed to match KubeadmConfig" (matchClusterConfiguration kcp machine);
      if negb matches then
        Ok ("Machine KubeadmConfig ClusterConfiguration is outdated: diff: " +:+ diff, false, machineConfigs)
      else
        match b_ConfigRef (sp_Bootstrap (m_Spec machine)), machineConfigs !! m_Name machine with
        | None, _ | _, None => Ok (""%string, true, machineConfigs)
        | Some _, Some machineConfig =>
            '(matches, diff, machineConfig') ← wrapErr "failed to match KubeadmConfig"
              (matchInitOrJoinConfiguration (Some machineConfig) kcp);
            let machineConfigs := match machineConfig' with
                                  | Some mc => <[m_Name machine := mc]> machineConfigs
                                  | None => machineConfigs
                                  end in
            if negb matches then
              Ok ("Machine KubeadmConfig InitConfiguration or JoinConfiguration are outdated: diff: " +:+ diff,
                  false, machineConfigs)
            else Ok (""%string, true, machineConfigs)
        end
  end.

Definition matchesTemplateClonedFrom (infraConfigs : gmap string Meta) (kcp : KubeadmControlPlane)
    (machine : option Machine) : string * bool :=
  match machine with
  | None => ("Machine cannot be compared with KCP.spec.machineTemplate.infrastructureRef: Machine is nil", false)
  | Some machine =>
      match infraConfigs !! m_Name machine with
      | None => (""%string, true)
      | Some infraObj =>
          let ref := kmt_InfrastructureRef (ksp_MachineTemplate (kcp_Spec kcp)) in
          let groupKind := groupKind_String (ref_TypeMeta ref) in
          match om_Annotations infraObj !! TemplateClonedFromNameAnnotation,
                om_Annotations infraObj !! TemplateClonedFromGroupKindAnnotation with
          | Some clonedFromName, Some clonedFromGroupKind =>
              if negb (String.eqb clonedFromName (ref_Name ref))
                 || negb (String.eqb clonedFromGroupKind groupKind) then
                ("Infrastructure template on KCP rotated from " +:+ clonedFromGroupKind +:+ " "
                   +:+ clonedFromName +:+ " to " +:+ groupKind +:+ " " +:+ ref_Name ref, false)
              else (""%string, true)
          | _, _ => (""%string, true)
          end
      end
  end.

(** Log messages, condition messages, and the KubeadmConfigs that are left. *)
Definition matchesMachineSpec (infraConfigs : gmap string Meta) (machineConfigs : gmap string KubeadmConfig)
    (kcp : KubeadmControlPlane) (machine : option Machine) :
    result (bool * list string * list string * gmap string KubeadmConfig) :=
  let version := ksp_Version (kcp_Spec kcp) in
  let '(logMessages, conditionMessages) :=
    if negb (MatchesKubernetesVersion version machine) then
      let machineVersion := default ""%string (machine ≫= λ m, sp_Version (m_Spec m)) in
      (["Machine version " +:+ quoted machineVersion +:+ " is not equal to KCP version " +:+ quoted version],
       ["Version " +:+ machineVersion +:+ ", " +:+ version +:+ " required"])
    else ([], []) in
  '(reason, matches, machineConfigs) ← wrapErr "failed to match Machine spec"
    (matchesKubeadmBootstrapConfig machineConfigs kcp machine);
  let '(logMessages, conditionMessages) :=
    if negb matches then (logMessages ++ [reason], conditionMessages ++ ["KubeadmConfig is not up-to-date"])
    else (logMessages, conditionMessages) in
  '(logMessages, conditionMessages) ←
    (let '(reason, matches) := matchesTemplateClonedFrom infraConfigs kcp machine in
     if negb matches then
       m ← deref machine;
       Ok (logMessages ++ [reason],
           conditionMessages ++ [ref_Kind (sp_InfrastructureRef (m_Spec m)) +:+ " is not up-to-date"])
     else Ok (logMessages, conditionMessages));
  match logMessages, conditionMessages with
  | [], [] => Ok (true, [], [], machineConfigs)
  | _, _ => Ok (false, logMessages, conditionMessages, machineConfigs)
  end.

Definition UpToDate (machine : option Machine) (kcp : KubeadmControlPlane) (reconciliationTime : option Time)
    (infraConfigs : gmap string Meta) (machineConfigs : gmap string KubeadmConfig) :
    result (bool * list string * list string * gmap string KubeadmConfig) :=
  let spec := kcp_Spec kcp in
  expires ← ShouldRolloutBefore reconciliationTime (ksp_RolloutBefore spec) machine;
  let '(logMessages, conditionMessages) :=
    if (expires : bool)
    then (["certificates will expire soon, rolloutBefore expired"], ["Certificates will expire soon"])
    else ([], []) in
  let '(logMessages, conditionMessages) :=
    if ShouldRolloutAfter reconciliationTime (ksp_RolloutAfter spec) machine
    then (logMessages ++ ["rolloutAfter expired"],
          conditionMessages ++ ["KubeadmControlPlane spec.rolloutAfter expired"])
    else (logMessages, conditionMessages) in
  match matchesMachineSpec infraConfigs machineConfigs kcp machine with
  | Panic => Panic
  | Err e =>
      m ← deref machine;
      Err (Wrap ("failed to determine if Machine " +:+ m_Name m +:+ " is up-to-date") e)
  | Ok (matches, specLogMessages, specConditionMessages, machineConfigs) =>
      let '(logMessages, conditionMessages) :=
        if negb matches then (logMessages ++ specLogMessages, conditionMessages ++ specConditionMessages)
        else (logMessages, conditionMessages) in
      match logMessages, conditionMessages with
      | [], [] => Ok (true, [], [], machineConfigs)
      | _, _ => Ok (false, logMessages, conditionMessages, machineConfigs)
      end
  end.
End filters.
