(* ===== verification/KcpMachines.v ===== *)
(** * Creating control plane Machines
      (controlplane/kubeadm/internal/controllers/helpers.go, control_plane.go)

    The Machine and the KubeadmConfig a KubeadmControlPlane creates, how the bootstrap
    provider completes the KubeadmConfig; when exactly a Machine is up to date ([same_config]
    says what is compared), and that a Machine created from the present specification is, with
    the exception of [missing_InitConfiguration_rolled_out]. *)

From Stdlib Require Import Ascii.
From S2P Require Import Prelude GoStd Json JsonCodec Api Apimachinery Util Conditions Version Collections.
From S2P Require Import FailureDomains ConditionsV1Beta2 External MachineSetPolicy MachineSet.
From S2P Require Import Kubeadm KubeadmConfig KcpTypes KubeadmControlPlane KcpUpToDate.

(** ** Machines (helpers.go) *)

Definition MachineControlPlaneNameLabel : string := "cluster.x-k8s.io/control-plane-name".
Definition PreTerminateDeleteHookAnnotationPrefix : string := "pre-terminate.delete.hook.machine.cluster.x-k8s.io".
Definition PreTerminateHookCleanupAnnotation : string :=
  PreTerminateDeleteHookAnnotationPrefix +:+ "/kcp-cleanup".
Definition KubeadmControlPlaneMachineAPIServerPodHealthyV1Beta2Condition : string := "APIServerPodHealthy".
Definition KubeadmControlPlaneMachineControllerManagerPodHealthyV1Beta2Condition : string :=
  "ControllerManagerPodHealthy".
Definition KubeadmControlPlaneMachineSchedulerPodHealthyV1Beta2Condition : string := "SchedulerPodHealthy".
Definition KubeadmControlPlaneMachineEtcdPodHealthyV1Beta2Condition : string := "EtcdPodHealthy".
Definition KubeadmControlPlaneMachineEtcdMemberHealthyV1Beta2Condition : string := "EtcdMemberHealthy".

Definition mandatoryMachineReadinessGates : list MachineReadinessGate :=
  (λ t, {| rg_ConditionType := t |}) <$>
    [ KubeadmControlPlaneMachineAPIServerPodHealthyV1Beta2Condition;
      KubeadmControlPlaneMachineControllerManagerPodHealthyV1Beta2Condition;
      KubeadmControlPlaneMachineSchedulerPodHealthyV1Beta2Condition;
      KubeadmControlPlaneMachineEtcdPodHealthyV1Beta2Condition;
      KubeadmControlPlaneMachineEtcdMemberHealthyV1Beta2Condition ].

(** Gates that are missing are appended in order. *)
Definition ensureMandatoryReadinessGates (gates : list MachineReadinessGate) : list MachineReadinessGate :=
  foldl (λ gates want,
    if existsb (λ got, String.eqb (rg_ConditionType got) (rg_ConditionType want)) gates
    then gates else gates ++ [want]) gates mandatoryMachineReadinessGates.

(** [strings.Contains(s, substr)]. *)
Fixpoint Strings_Contains (s substr : string) : bool :=
  HasPrefix s substr || match s with EmptyString => false | String _ s' => Strings_Contains s' substr end.

Section machines.
Context `{Apimachinery} `{KubeTypes} (MustFormatValue : string → string).

Definition ControlPlaneMachineLabelsForCluster (kcp : KubeadmControlPlane) (clusterName : string) :
    gmap string string :=
  let labels := tm_Labels (kmt_ObjectMeta (ksp_MachineTemplate (kcp_Spec kcp))) in
  <[MachineControlPlaneNameLabel := MustFormatValue (om_Name (kcp_Meta kcp))]>
    (<[MachineControlPlaneLabel := ""%string]> (<[ClusterNameLabel := clusterName]> labels)).

(** The template of the names of new Machines. *)
Definition machine_name_template (kcp : KubeadmControlPlane) : result string :=
  let default_template := "{{ .kubeadmControlPlane.name }}-{{ .random }}"%string in
  match ksp_MachineNamingStrategy (kcp_Spec kcp) with
  | Some strategy =>
      if String.eqb (mns_Template strategy) "" then Ok default_template
      else if Strings_Contains (mns_Template strategy) "{{ .random }}" then Ok (mns_Template strategy)
      else Err (Errorf "cannot generate KCP machine name: {{ .random }} is missing in machineNamingStrategy.template")
  | None => Ok default_template
  end.

Definition keep_annotation (key : string) (from : gmap string string) (to : gmap string string) :
    gmap string string :=
  match from !! key with Some v => <[key := v]> to | None => to end.

(** Name, UID, version and annotations of a new Machine; [generate] is the name generator. *)
Definition new_machine_identity (generate : string → result string) (kcp : KubeadmControlPlane) :
    result (string * string * option string * gmap string string) :=
  nameTemplate ← machine_name_template kcp;
  generatedMachineName ← wrapErr "failed to generate name for KCP Machine" (generate nameTemplate);
  let annotations := <[KubeadmClusterConfigurationAnnotation :=
    Marshal_ClusterConfiguration (kcp_ClusterConfiguration kcp)]> (∅ : gmap string string) in
  let annotations :=
    match om_Annotations (kcp_Meta kcp) !! RemediationInProgressAnnotation with
    | Some remediationData => <[RemediationForAnnotation := remediationData]> annotations
    | None => annotations
    end in
  Ok (generatedMachineName, ""%string, Some (ksp_Version (kcp_Spec kcp)), annotations).

Definition existing_machine_identity (m : Machine) : string * string * option string * gmap string string :=
  let existing := om_Annotations (m_Meta m) in
  (m_Name m, om_UID (m_Meta m), sp_Version (m_Spec m),
   keep_annotation RemediationForAnnotation existing
     (keep_annotation KubeadmClusterConfigurationAnnotation existing ∅)).

Definition kcp_computeDesiredMachine (generate : string → result string) (kcp : KubeadmControlPlane)
    (clusterName : string) (failureDomain : option string) (existingMachine : option Machine) :
    result Machine :=
  '(machineName, machineUID, version, annotations) ←
    match existingMachine with
    | None => new_machine_identity generate kcp
    | Some m => Ok (existing_machine_identity m)
    end;
  let annotations := <[PreTerminateHookCleanupAnnotation := ""%string]> annotations in
  let template := ksp_MachineTemplate (kcp_Spec kcp) in
  let '(configRef, infrastructureRef, gates) :=
    match existingMachine with
    | None => (None, emptyRef, [])
    | Some m => (b_ConfigRef (sp_Bootstrap (m_Spec m)), sp_InfrastructureRef (m_Spec m),
                 sp_ReadinessGates (m_Spec m))
    end in
  Ok {| m_TypeMeta := {| tm_Kind := "Machine"; tm_APIVersion := GroupVersion |};
        m_Meta := {| om_Name := machineName; om_Namespace := om_Namespace (kcp_Meta kcp);
          om_UID := machineUID; om_Generation := 0; om_CreationTimestamp := zero_time;
          om_DeletionTimestamp := None;
          om_Labels := ControlPlaneMachineLabelsForCluster kcp clusterName;
          om_Annotations := annotations ∪ tm_Annotations (kmt_ObjectMeta template);
          om_OwnerReferences := [NewControllerRef (kcp_Meta kcp) "KubeadmControlPlane"];
          om_Finalizers := [] |};
        m_Spec := {| sp_ClusterName := clusterName;
          sp_Bootstrap := {| b_ConfigRef := configRef; b_DataSecretName := None |};
          sp_InfrastructureRef := infrastructureRef; sp_Version := version; sp_ProviderID := None;
          sp_FailureDomain := failureDomain; sp_ReadinessGates := ensureMandatoryReadinessGates gates;
          sp_NodeDrainTimeout := kmt_NodeDrainTimeout template;
          sp_NodeVolumeDetachTimeout := kmt_NodeVolumeDetachTimeout template;
          sp_NodeDeletionTimeout := kmt_NodeDeletionTimeout template |};
        m_Status := emptyStatus |}.

Definition m_set_InfrastructureRef (ref : ObjectReference) (m : Machine) : Machine :=
  let sp := m_Spec m in
  {| m_TypeMeta := m_TypeMeta m; m_Meta := m_Meta m; m_Status := m_Status m;
     m_Spec := {| sp_ClusterName := sp_ClusterName sp; sp_Bootstrap := sp_Bootstrap sp;
       sp_InfrastructureRef := ref; sp_Version := sp_Version sp; sp_ProviderID := sp_ProviderID sp;
       sp_FailureDomain := sp_FailureDomain sp; sp_ReadinessGates := sp_ReadinessGates sp;
       sp_NodeDrainTimeout := sp_NodeDrainTimeout sp;
       sp_NodeVolumeDetachTimeout := sp_NodeVolumeDetachTimeout sp;
       sp_NodeDeletionTimeout := sp_NodeDeletionTimeout sp |} |}.

Definition m_set_ConfigRef (ref : option ObjectReference) (m : Machine) : Machine :=
  let sp := m_Spec m in
  {| m_TypeMeta := m_TypeMeta m; m_Meta := m_Meta m; m_Status := m_Status m;
     m_Spec := {| sp_ClusterName := sp_ClusterName sp;
       sp_Bootstrap := {| b_ConfigRef := ref; b_DataSecretName := b_DataSecretName (sp_Bootstrap sp) |};
       sp_InfrastructureRef := sp_InfrastructureRef sp; sp_Version := sp_Version sp;
       sp_ProviderID := sp_ProviderID sp; sp_FailureDomain := sp_FailureDomain sp;
       sp_ReadinessGates := sp_ReadinessGates sp; sp_NodeDrainTimeout := sp_NodeDrainTimeout sp;
       sp_NodeVolumeDetachTimeout := sp_NodeVolumeDetachTimeout sp;
       sp_NodeDeletionTimeout := sp_NodeDeletionTimeout sp |} |}.

(** ** KubeadmConfigs (control_plane.go, helpers.go) *)

Definition InitialControlPlaneConfig (kcp : KubeadmControlPlane) : KubeadmConfigSpec :=
  kcs_set_JoinConfiguration None (kcp_KubeadmConfigSpec kcp).

Definition JoinControlPlaneConfig (kcp : KubeadmControlPlane) : KubeadmConfigSpec :=
  kcs_set_InitConfiguration None (kcp_KubeadmConfigSpec kcp).

Definition ControlPlaneKubeletLocalMode : string := "ControlPlaneKubeletLocalMode".

(** The version is below 1.31.0, the first with ControlPlaneKubeletLocalMode. *)
Definition before_local_mode `{Semver} (v : semver_Version) : bool :=
  semver_Compare v {| v_Major := 1; v_Minor := 31; v_Patch := 0; v_Pre := []; v_Build := [] |} <? 0.

Definition DefaultFeatureGates `{Semver} (spec : KubeadmConfigSpec) (kubernetesVersion : semver_Version) :
    KubeadmConfigSpec :=
  if before_local_mode kubernetesVersion then spec
  else
    let config := default emptyClusterConfiguration (kcs_ClusterConfiguration spec) in
    let gates := default ∅ (cc_FeatureGates config) in
    let gates := match gates !! ControlPlaneKubeletLocalMode with
                 | Some _ => gates
                 | None => <[ControlPlaneKubeletLocalMode := true]> gates
                 end in
    kcs_set_ClusterConfiguration (Some (cc_set_FeatureGates (Some gates) config)) spec.

(** The KubeadmConfig that [generateKubeadmConfig] creates. *)
Definition generated_KubeadmConfig (kcp : KubeadmControlPlane) (clusterName : string)
    (spec : KubeadmConfigSpec) (name : string) : KubeadmConfig :=
  {| kc_Meta := {| om_Name := name; om_Namespace := om_Namespace (kcp_Meta kcp); om_UID := "";
       om_Generation := 0; om_CreationTimestamp := zero_time; om_DeletionTimestamp := None;
       om_Labels := ControlPlaneMachineLabelsForCluster kcp clusterName;
       om_Annotations := tm_Annotations (kmt_ObjectMeta (ksp_MachineTemplate (kcp_Spec kcp)));
       om_OwnerReferences := [{| or_APIVersion := "controlplane.cluster.x-k8s.io/v1beta1";
         or_Kind := "KubeadmControlPlane"; or_Name := om_Name (kcp_Meta kcp); or_UID := om_UID (kcp_Meta kcp);
         or_Controller := None; or_BlockOwnerDeletion := None |}];
       om_Finalizers := [] |};
     kc_Spec := spec; kc_Status := emptyKubeadmConfigStatus |}.
End machines.

(** ** How the bootstrap provider completes a KubeadmConfig
       (bootstrap/kubeadm/internal/controllers/kubeadmconfig_controller.go) *)

Record ClusterNetwork := {
  cn_Services : option (list string);
  cn_Pods : option (list string);
  cn_ServiceDomain : string;
}.

(** The part of the Cluster that is read; the endpoint is a host and a port. *)
Record BootstrapCluster := {
  bc_Name : string;
  bc_ControlPlaneEndpoint : string * Z;
  bc_ClusterNetwork : option ClusterNetwork;
}.

Definition endpoint_IsValid (e : string * Z) : bool := negb (String.eqb e.1 "") && negb (e.2 =? 0).

(** [net.JoinHostPort]: a host with a colon or a percent sign is put in brackets. *)
Definition endpoint_String (e : string * Z) : string :=
  if ContainsByte e.1 ":" || ContainsByte e.1 "%"
  then "[" +:+ e.1 +:+ "]:" +:+ FormatInt e.2 else e.1 +:+ ":" +:+ FormatInt e.2.

Definition if_empty (s value : string) : string := if String.eqb s "" then value else s.

Definition ranges_String (ranges : option (list string)) : string := Join (default [] ranges) ",".

Definition reconcileTopLevelObjectSettings (cluster : BootstrapCluster) (machineVersion : option string)
    (config : ClusterConfiguration) : ClusterConfiguration :=
  let config :=
    if endpoint_IsValid (bc_ControlPlaneEndpoint cluster)
    then cc_set_ControlPlaneEndpoint
           (if_empty (cc_ControlPlaneEndpoint config) (endpoint_String (bc_ControlPlaneEndpoint cluster))) config
    else config in
  let config := cc_set_ClusterName (if_empty (cc_ClusterName config) (bc_Name cluster)) config in
  let config :=
    match bc_ClusterNetwork cluster with
    | None => config
    | Some network =>
        let n := cc_Networking config in
        let n := nw_set_DNSDomain (if_empty (nw_DNSDomain n) (cn_ServiceDomain network)) n in
        let n := nw_set_ServiceSubnet (if_empty (nw_ServiceSubnet n) (ranges_String (cn_Services network))) n in
        let n := nw_set_PodSubnet (if_empty (nw_PodSubnet n) (ranges_String (cn_Pods network))) n in
        cc_set_Networking n config
    end in
  match machineVersion with
  | Some v => cc_set_KubernetesVersion (if_empty (cc_KubernetesVersion config) v) config
  | None => config
  end.

Definition kubeadm_TypeMeta (kind : string) : TypeMeta :=
  {| tm_Kind := kind; tm_APIVersion := "kubeadm.k8s.io/v1beta4" |}.

Definition emptyAPIEndpoint : APIEndpoint := {| ae_AdvertiseAddress := ""; ae_BindPort := 0 |}.

Definition emptyInitConfiguration : InitConfiguration :=
  {| ic_TypeMeta := emptyTypeMeta; ic_BootstrapTokens := None; ic_NodeRegistration := emptyNodeRegistration;
     ic_LocalAPIEndpoint := emptyAPIEndpoint; ic_SkipPhases := None; ic_Patches := None |}.

Definition emptyJoinConfiguration : JoinConfiguration :=
  {| jc_TypeMeta := emptyTypeMeta; jc_NodeRegistration := emptyNodeRegistration; jc_CACertPath := "";
     jc_Discovery := emptyDiscovery; jc_ControlPlane := None; jc_SkipPhases := None; jc_Patches := None |}.

(** Without any of the two configurations the machine waits to join. *)
Definition handles_init (c : KubeadmConfigSpec) : bool :=
  match kcs_InitConfiguration c, kcs_ClusterConfiguration c with None, None => false | _, _ => true end.

(** What [handleClusterNotInitialized] does to the specification, in two steps. *)
Definition complete_ClusterConfiguration (cluster : BootstrapCluster) (machineVersion : option string)
    (c : KubeadmConfigSpec) : KubeadmConfigSpec :=
  let config := default (cc_set_TypeMeta (kubeadm_TypeMeta "ClusterConfiguration") emptyClusterConfiguration)
                  (kcs_ClusterConfiguration c) in
  kcs_set_ClusterConfiguration (Some (reconcileTopLevelObjectSettings cluster machineVersion config)) c.

Definition complete_InitConfiguration (c : KubeadmConfigSpec) : KubeadmConfigSpec :=
  kcs_set_InitConfiguration (Some (default
    (ic_set_TypeMeta (kubeadm_TypeMeta "InitConfiguration") emptyInitConfiguration)
    (kcs_InitConfiguration c))) c.

Definition emptyBootstrapTokenDiscovery : BootstrapTokenDiscovery :=
  {| btd_Token := ""; btd_APIServerEndpoint := ""; btd_CACertHashes := None;
     btd_UnsafeSkipCAVerification := false |}.

Section discovery.
Context (cluster : BootstrapCluster).
(** The hashes of the CA certificate, its bytes, and a new bootstrap token. *)
Context (hashes : result (list string)) (ca : option (list ascii)) (token : result string).

Definition emptyKubeConfigCluster : KubeConfigCluster :=
  {| kcc_Server := ""; kcc_TLSServerName := ""; kcc_InsecureSkipTLSVerify := false;
     kcc_CertificateAuthorityData := None; kcc_ProxyURL := "" |}.

Definition set_file_cluster (c : KubeConfigCluster) (d : Discovery) : Discovery :=
  match di_File d with
  | Some file =>
      di_set_File (Some (fdi_set_KubeConfig ((λ kfg,
        {| fdk_Cluster := Some c; fdk_User := fdk_User kfg |}) <$> fdi_KubeConfig file) file)) d
  | None => d
  end.

Definition requeue_in_10s : ctrl_Result := {| cr_Requeue := false; cr_RequeueAfter := 10 * Second |}.

Definition reconcileDiscoveryFile (cfg : FileDiscoveryKubeConfig) : M Discovery ctrl_Result :=
  let c := default emptyKubeConfigCluster (fdk_Cluster cfg) in
  _ ← modify (set_file_cluster c);
  if String.eqb (kcc_Server c) "" && negb (endpoint_IsValid (bc_ControlPlaneEndpoint cluster))
  then mret requeue_in_10s
  else
    let c := {| kcc_Server := if_empty (kcc_Server c) ("https://" +:+ endpoint_String (bc_ControlPlaneEndpoint cluster));
                kcc_TLSServerName := kcc_TLSServerName c; kcc_InsecureSkipTLSVerify := kcc_InsecureSkipTLSVerify c;
                kcc_CertificateAuthorityData := kcc_CertificateAuthorityData c; kcc_ProxyURL := kcc_ProxyURL c |} in
    _ ← modify (set_file_cluster c);
    match kcc_CertificateAuthorityData c, ca with
    | Some (_ :: _), _ => mret zero_Result
    | _, None => throw (Errorf "failed to retrieve Cluster CA")
    | _, Some cert =>
        _ ← modify (set_file_cluster {| kcc_Server := kcc_Server c; kcc_TLSServerName := kcc_TLSServerName c;
              kcc_InsecureSkipTLSVerify := kcc_InsecureSkipTLSVerify c;
              kcc_CertificateAuthorityData := Some cert; kcc_ProxyURL := kcc_ProxyURL c |});
        mret zero_Result
    end.

Definition set_token_discovery (t : BootstrapTokenDiscovery) (d : Discovery) : Discovery :=
  {| di_BootstrapToken := Some t; di_File := di_File d; di_TLSBootstrapToken := di_TLSBootstrapToken d;
     di_Timeout := di_Timeout d |}.

Definition has_hashes (t : BootstrapTokenDiscovery) : bool :=
  match btd_CACertHashes t with Some (_ :: _) => true | _ => false end.

Definition reconcileDiscovery : M Discovery ctrl_Result :=
  d ← gets id;
  match di_File d with
  | Some file =>
      match fdi_KubeConfig file with
      | None => mret zero_Result
      | Some cfg => reconcileDiscoveryFile cfg
      end
  | None =>
      let t := default emptyBootstrapTokenDiscovery (di_BootstrapToken d) in
      _ ← modify (set_token_discovery t);
      t ← (if has_hashes t then mret t
           else
             hs ← lift hashes;
             mret {| btd_Token := btd_Token t; btd_APIServerEndpoint := btd_APIServerEndpoint t;
                     btd_CACertHashes := Some hs;
                     btd_UnsafeSkipCAVerification := btd_UnsafeSkipCAVerification t |});
      _ ← modify (set_token_discovery t);
      if String.eqb (btd_APIServerEndpoint t) "" && negb (endpoint_IsValid (bc_ControlPlaneEndpoint cluster))
      then mret requeue_in_10s
      else
        let t := {| btd_Token := btd_Token t;
                    btd_APIServerEndpoint := if_empty (btd_APIServerEndpoint t)
                      (endpoint_String (bc_ControlPlaneEndpoint cluster));
                    btd_CACertHashes := btd_CACertHashes t;
                    btd_UnsafeSkipCAVerification := btd_UnsafeSkipCAVerification t |} in
        _ ← modify (set_token_discovery t);
        token ← (if String.eqb (btd_Token t) "" then lift token else mret (btd_Token t));
        let t := {| btd_Token := token; btd_APIServerEndpoint := btd_APIServerEndpoint t;
                    btd_CACertHashes := btd_CACertHashes t;
                    btd_UnsafeSkipCAVerification := btd_UnsafeSkipCAVerification t || negb (has_hashes t) |} in
        _ ← modify (set_token_discovery t);
        mret zero_Result
  end.

End discovery.

(** What a reconcile of a joining control plane machine does to the specification, in three
    steps. *)
Definition complete_JoinConfiguration (c : KubeadmConfigSpec) : KubeadmConfigSpec :=
  kcs_set_JoinConfiguration (Some (default emptyJoinConfiguration (kcs_JoinConfiguration c))) c.

Definition complete_JoinControlPlane (c : KubeadmConfigSpec) : KubeadmConfigSpec :=
  kcs_set_JoinConfiguration ((λ j,
    match jc_ControlPlane j with
    | None => jc_set_ControlPlane (Some {| jcp_LocalAPIEndpoint := emptyAPIEndpoint |}) j
    | Some _ => j
    end) <$> kcs_JoinConfiguration c) c.

Definition complete_Discovery (cluster : BootstrapCluster) (hashes : result (list string))
    (ca : option (list ascii)) (token : result string) (c : KubeadmConfigSpec) : KubeadmConfigSpec :=
  kcs_set_JoinConfiguration ((λ j,
    jc_set_Discovery (reconcileDiscovery cluster hashes ca token (jc_Discovery j)).2 j)
    <$> kcs_JoinConfiguration c) c.

(** The specification is defaulted on every write and completed by the bootstrap provider:
    first for the machine that initializes the cluster, then for one that joins. *)
Inductive init_step (cluster : BootstrapCluster) : KubeadmConfigSpec → KubeadmConfigSpec → Prop :=
| init_default c : init_step cluster c (Default c)
| init_cluster v c : handles_init c = true → init_step cluster c (complete_ClusterConfiguration cluster v c)
| init_configuration c : handles_init c = true → init_step cluster c (complete_InitConfiguration c).

Inductive join_step (cluster : BootstrapCluster) : KubeadmConfigSpec → KubeadmConfigSpec → Prop :=
| join_default c : join_step cluster c (Default c)
| join_configuration c : join_step cluster c (complete_JoinConfiguration c)
| join_control_plane c : join_step cluster c (complete_JoinControlPlane c)
| join_discovery hashes ca token c :
    join_step cluster c (complete_Discovery cluster hashes ca token c).

(** ** Created Machines are up to date *)

(** The parts of a specification that are compared as they are. *)
Record same_rest (k c : KubeadmConfigSpec) : Prop := {
  sr_files : kcs_Files c = kcs_Files k;
  sr_disks : kcs_DiskSetup c = kcs_DiskSetup k;
  sr_mounts : kcs_Mounts c = kcs_Mounts k;
  sr_pre : kcs_PreKubeadmCommands c = kcs_PreKubeadmCommands k;
  sr_post : kcs_PostKubeadmCommands c = kcs_PostKubeadmCommands k;
  sr_users : kcs_Users c = kcs_Users k;
  sr_ntp : kcs_NTP c = kcs_NTP k;
  sr_format : if_empty (kcs_Format c) CloudConfig = if_empty (kcs_Format k) CloudConfig;
  sr_verbosity : kcs_Verbosity c = kcs_Verbosity k;
  sr_retry : kcs_UseExperimentalRetryJoin c = kcs_UseExperimentalRetryJoin k;
  sr_ignition : kcs_Ignition c = kcs_Ignition k;
}.

(** No image pull policy is the same as [IfNotPresent]. *)
Record same_registration (k n : NodeRegistrationOptions) : Prop := {
  nr_name : nr_Name n = nr_Name k;
  nr_socket : nr_CRISocket n = nr_CRISocket k;
  nr_taints : nr_Taints n = nr_Taints k;
  nr_args : nr_KubeletExtraArgs n = nr_KubeletExtraArgs k;
  nr_errors : nr_IgnorePreflightErrors n = nr_IgnorePreflightErrors k;
  nr_policy : if_empty (nr_ImagePullPolicy n) "IfNotPresent" = if_empty (nr_ImagePullPolicy k) "IfNotPresent";
  nr_serial : nr_ImagePullSerial n = nr_ImagePullSerial k;
}.

Lemma same_registration_iff k n : same_registration k n ↔ default_pull_policy n = default_pull_policy k.
Proof.
  assert (∀ n, default_pull_policy n = nr_set_ImagePullPolicy (if_empty (nr_ImagePullPolicy n) "IfNotPresent") n) as Hd.
  { intros [? ? ? ? ? q ?]. unfold default_pull_policy, if_empty. simpl. by destruct (String.eqb q ""). }
  rewrite !Hd. destruct k, n. unfold nr_set_ImagePullPolicy. simpl. split.
  - intros []. simpl in *. congruence.
  - intros [=]. by split.
Qed.

(** Two JoinConfigurations agree on what is compared: not on the TypeMeta and the discovery,
    and on the control plane part only if the first has one. *)
Record same_join (k j : JoinConfiguration) : Prop := {
  sj_registration : same_registration (jc_NodeRegistration k) (jc_NodeRegistration j);
  sj_path : jc_CACertPath j = jc_CACertPath k;
  sj_control_plane : jc_ControlPlane k = None ∨ jc_ControlPlane j = jc_ControlPlane k;
  sj_phases : jc_SkipPhases j = jc_SkipPhases k;
  sj_patches : jc_Patches j = jc_Patches k;
}.

Record same_init (k i : InitConfiguration) : Prop := {
  si_registration : same_registration (ic_NodeRegistration k) (ic_NodeRegistration i);
  si_tokens : ic_BootstrapTokens i = ic_BootstrapTokens k;
  si_endpoint : ic_LocalAPIEndpoint i = ic_LocalAPIEndpoint k;
  si_phases : ic_SkipPhases i = ic_SkipPhases k;
  si_patches : ic_Patches i = ic_Patches k;
}.

(** The KubeadmConfig [c] of a Machine agrees with the configuration [k] of the control plane.
    JoinConfigurations are compared when both have one; a Machine with an InitConfiguration
    needs one in the control plane. *)
Record same_config (k c : KubeadmConfigSpec) : Prop := {
  sg_rest : same_rest k c;
  sg_join : ∀ kj j, kcs_JoinConfiguration k = Some kj → kcs_JoinConfiguration c = Some j → same_join kj j;
  sg_init : ∀ i, kcs_InitConfiguration c = Some i →
    ∃ ki, kcs_InitConfiguration k = Some ki ∧ same_init ki i;
}.

Definition joins_like (k c : KubeadmConfigSpec) : Prop :=
  same_rest k c ∧ kcs_InitConfiguration c = None ∧
  ∀ kj, kcs_JoinConfiguration k = Some kj → ∃ j, kcs_JoinConfiguration c = Some j ∧ same_join kj j.

Definition inits_like (k c : KubeadmConfigSpec) : Prop :=
  same_rest k c ∧ kcs_JoinConfiguration c = None ∧
  ∀ ki, kcs_InitConfiguration k = Some ki → ∃ i, kcs_InitConfiguration c = Some i ∧ same_init ki i.

Lemma default_pull_policy_idem n : default_pull_policy (default_pull_policy n) = default_pull_policy n.
Proof.
  unfold default_pull_policy. destruct (String.eqb_spec (nr_ImagePullPolicy n) ""); [done|].
  by rewrite (proj2 (String.eqb_neq _ _)).
Qed.

Lemma Default_fields c :
  kcs_ClusterConfiguration (Default c) = kcs_ClusterConfiguration c ∧
  kcs_InitConfiguration (Default c) =
    (λ i, ic_set_NodeRegistration (default_pull_policy (ic_NodeRegistration i)) i) <$> kcs_InitConfiguration c ∧
  kcs_JoinConfiguration (Default c) = default_join <$> kcs_JoinConfiguration c ∧
  same_rest c (Default c) ∧ kcs_Format (Default c) = if_empty (kcs_Format c) CloudConfig.
Proof.
  unfold Default, if_empty. destruct (String.eqb_spec (kcs_Format c) "") as [E|E]; simpl; split_and!; try done;
    split; simpl; try done; unfold if_empty; rewrite ?E; try done.
Qed.

Lemma same_rest_refl k : same_rest k k.
Proof. by split. Qed.

Lemma same_rest_trans a b c : same_rest a b → same_rest b c → same_rest a c.
Proof. intros [] []. split; congruence. Qed.

#[local] Instance same_registration_preorder : PreOrder same_registration.
Proof. split; [by split|]. intros a b c [] []. split; congruence. Qed.

Lemma same_registration_default n : same_registration n (default_pull_policy n).
Proof. apply same_registration_iff, default_pull_policy_idem. Qed.

Lemma same_join_refl k : same_join k k.
Proof. by split; auto. Qed.

(** The changes of a JoinConfiguration that are not compared. *)
Lemma same_join_change k j j' :
  same_join k j → same_registration (jc_NodeRegistration j) (jc_NodeRegistration j') →
  jc_CACertPath j' = jc_CACertPath j → jc_SkipPhases j' = jc_SkipPhases j → jc_Patches j' = jc_Patches j →
  jc_ControlPlane j = None ∨ jc_ControlPlane j' = jc_ControlPlane j → same_join k j'.
Proof.
  intros [Hn Hp Hc Hs Ha] En Ep Es Ea Ec. split; [by etrans|congruence| |congruence..].
  destruct Hc as [Hc|Hc]; [by left|]. destruct Ec as [Ec|Ec]; [left|right]; congruence.
Qed.

Lemma joins_like_change k c c' f :
  joins_like k c → same_rest c c' → kcs_InitConfiguration c' = None →
  kcs_JoinConfiguration c' = f <$> kcs_JoinConfiguration c →
  (∀ kj j, same_join kj j → same_join kj (f j)) → joins_like k c'.
Proof.
  intros (Hr & Hi & Hj) Hr' Hi' Ej Hf. split_and!; [by eapply same_rest_trans|done|].
  intros kj Hk. destruct (Hj kj Hk) as (j & E & Hs). exists (f j). rewrite Ej, E. auto.
Qed.

Lemma join_step_like cluster k c c' : join_step cluster c c' → joins_like k c → joins_like k c'.
Proof.
  intros [d|d|d|hashes ca token d] Hl.
  - destruct (Default_fields d) as (_ & Ei & Ej & Hr & _).
    apply (joins_like_change k d _ default_join); [done|done| |done|].
    { by rewrite Ei, (proj1 (proj2 Hl)). }
    intros kj j Hs. apply (same_join_change kj j); simpl; auto using same_registration_default.
  - destruct Hl as (Hr & Hi & Hj). split_and!; [by destruct Hr; split|done|].
    intros kj Hk. destruct (Hj kj Hk) as (j & E & Hs). exists j. split; [simpl; by rewrite E|done].
  - eapply joins_like_change; [done|by split|apply Hl|reflexivity|].
    intros kj j Hs. simpl. destruct (jc_ControlPlane j) eqn:E; [done|].
    apply (same_join_change kj j); simpl; first [reflexivity|auto].
  - eapply joins_like_change; [done|by split|apply Hl|reflexivity|].
    intros kj j Hs. apply (same_join_change kj j); simpl; first [reflexivity|auto].
Qed.

Lemma init_step_like cluster k c c' : init_step cluster c c' → inits_like k c → inits_like k c'.
Proof.
  intros Hstep (Hr & Hj & Hi). destruct Hstep as [c|v c _|c _].
  - destruct (Default_fields c) as (_ & Ei & Ej & Hr' & _).
    split_and!; [by eapply same_rest_trans|by rewrite Ej, Hj|].
    intros ki Hk. destruct (Hi ki Hk) as (i & Ec & Hs). eexists. rewrite Ei, Ec. split; [done|].
    destruct Hs as [Hn]. split; try done. simpl. etrans; [exact Hn|]. apply same_registration_default.
  - by split_and!; [by destruct Hr; split|done|].
  - split_and!; [by destruct Hr; split|done|]. intros ki Hk. destruct (Hi ki Hk) as (i & Ec & Hs).
    exists i. simpl. by rewrite Ec.
Qed.

Lemma joins_like_created `{Semver} k v : joins_like k (DefaultFeatureGates (kcs_set_InitConfiguration None k) v).
Proof.
  unfold DefaultFeatureGates. destruct (before_local_mode v).
  all: split_and!; [by split|done|]; intros kj E; exists kj; split; [done|apply same_join_refl].
Qed.

Lemma inits_like_created `{Semver} k v :
  inits_like k (DefaultFeatureGates (kcs_set_JoinConfiguration None k) v).
Proof.
  unfold DefaultFeatureGates. destruct (before_local_mode v).
  all: split_and!; [by split|done|]; intros ki E; exists ki; by split.
Qed.

Lemma spec_eta (x : KubeadmConfigSpec) y :
  kcs_ClusterConfiguration x = kcs_ClusterConfiguration y → kcs_InitConfiguration x = kcs_InitConfiguration y →
  kcs_JoinConfiguration x = kcs_JoinConfiguration y → same_rest y x → kcs_Format x = kcs_Format y → x = y.
Proof. destruct x, y. simpl. intros -> -> -> [] ->. simpl in *. by subst. Qed.

(** The comparison of the cleaned up specifications. *)
Definition specs_match (kcp : KubeadmControlPlane) (c : KubeadmConfigSpec) : Prop :=
  let '(k, m) := cleanupConfigFields (Default (getAdjustedKcpConfig kcp c)) (Default c) in m = k.

Lemma cleanup_join_iff kj j :
  let '(k', j') := cleanup_join (default_join kj) (default_join j) in j' = k' ↔ same_join kj j.
Proof.
  unfold cleanup_join. simpl. rewrite bool_decide_eq_false_2.
  2: { unfold default_pull_policy, emptyNodeRegistration. case_match eqn:E; [done|]. intros En.
       rewrite En in E. done. }
  destruct kj as [kt kn kp kd kc ks ka], j as [t n p d c s a]. unfold default_join, jc_set_Discovery,
    jc_set_ControlPlane, jc_set_TypeMeta, jc_set_NodeRegistration. simpl. split.
  - destruct kc as [kc|]; intros [=]; (split; simpl; [by apply same_registration_iff|..]); auto.
  - intros [Hn%same_registration_iff Hp Hc Hs Ha]. simpl in *. destruct kc as [kc|].
    + destruct Hc as [|Hc]; [done|]. simpl. congruence.
    + simpl. congruence.
Qed.

Lemma cleanup_init_iff ki i :
  ic_set_TypeMeta (ic_TypeMeta ki) (ic_set_NodeRegistration (default_pull_policy (ic_NodeRegistration i)) i) =
    ic_set_NodeRegistration (default_pull_policy (ic_NodeRegistration ki)) ki ↔ same_init ki i.
Proof.
  destruct ki, i. unfold ic_set_TypeMeta, ic_set_NodeRegistration. simpl. split.
  - intros [=]. subst. split; simpl; [by apply same_registration_iff|done..].
  - intros [Hn%same_registration_iff ? ? ? ?]. simpl in *. congruence.
Qed.

Lemma adjusted_rest kcp c : same_rest (kcp_KubeadmConfigSpec kcp) (getAdjustedKcpConfig kcp c).
Proof.
  unfold getAdjustedKcpConfig. by destruct (kcs_JoinConfiguration c), (kcs_InitConfiguration c); split.
Qed.

Lemma adjusted_join kcp c :
  kcs_JoinConfiguration (getAdjustedKcpConfig kcp c) =
    match kcs_JoinConfiguration c with None => None | Some _ => kcs_JoinConfiguration (kcp_KubeadmConfigSpec kcp) end.
Proof. unfold getAdjustedKcpConfig. by destruct (kcs_JoinConfiguration c), (kcs_InitConfiguration c). Qed.

Lemma adjusted_init kcp c :
  kcs_InitConfiguration (getAdjustedKcpConfig kcp c) =
    match kcs_InitConfiguration c with None => None | Some _ => kcs_InitConfiguration (kcp_KubeadmConfigSpec kcp) end.
Proof. unfold getAdjustedKcpConfig. by destruct (kcs_JoinConfiguration c), (kcs_InitConfiguration c). Qed.

(** The defaulted specifications agree on what is compared as it is. *)
Lemma defaulted_rest kcp c :
  same_rest (kcp_KubeadmConfigSpec kcp) c ↔
  same_rest (Default (getAdjustedKcpConfig kcp c)) (Default c) ∧
  kcs_Format (Default c) = kcs_Format (Default (getAdjustedKcpConfig kcp c)).
Proof.
  destruct (Default_fields c) as (_ & _ & _ & Hc & Fc).
  destruct (Default_fields (getAdjustedKcpConfig kcp c)) as (_ & _ & _ & Ha & Fa).
  pose proof (adjusted_rest kcp c) as Hk. rewrite Fc, Fa. split.
  - intros Hr. split; destruct Hr, Hc, Ha, Hk; [split|]; congruence.
  - intros [Hr Hf]. destruct Hr, Hc, Ha, Hk. split; congruence.
Qed.

Lemma cleanup_match K m :
  (let '(k', m') := cleanupConfigFields K m in m' = k') ↔
  (same_rest K m ∧ kcs_Format m = kcs_Format K) ∧
  match kcs_JoinConfiguration K, kcs_JoinConfiguration m with
  | None, _ => True
  | Some _, None => False
  | Some kj, Some mj => let '(k', j') := cleanup_join kj mj in j' = k'
  end ∧
  match kcs_InitConfiguration m, kcs_InitConfiguration K with
  | Some mi, Some ki => ic_set_TypeMeta (ic_TypeMeta ki) mi = ki
  | None, None => True
  | _, _ => False
  end.
Proof.
  unfold cleanupConfigFields. set (clean := cleanup_join). clearbody clean.
  destruct K as [kcc ki kj ? ? ? ? ? ? ? ? ? ? ?], m as [mcc mi mj ? ? ? ? ? ? ? ? ? ? ?].
  unfold kcs_set_ClusterConfiguration, kcs_set_JoinConfiguration, kcs_set_InitConfiguration. simpl.
  destruct kj as [kj|], mj as [mj|]; [destruct (clean kj mj) as [k' j']|..]; simpl;
    destruct mi as [mi|], ki as [ki|]; simpl.
  all: split; [intros [=]; subst; split_and!; try done; split; simpl; try done; congruence|].
  all: intros ([[] ?] & ? & ?); simpl in *; subst; try done; congruence.
Qed.

(** The comparison is the one of the fields. *)
Lemma specs_match_iff kcp c : specs_match kcp c ↔ same_config (kcp_KubeadmConfigSpec kcp) c.
Proof.
  set (k := kcp_KubeadmConfigSpec kcp).
  assert (same_config k c ↔ same_rest k c ∧
    (∀ kj j, kcs_JoinConfiguration k = Some kj → kcs_JoinConfiguration c = Some j → same_join kj j) ∧
    (∀ i, kcs_InitConfiguration c = Some i → ∃ ki, kcs_InitConfiguration k = Some ki ∧ same_init ki i)) as ->
    by (split; [by intros []|intros (? & ? & ?); by split]).
  unfold specs_match. rewrite cleanup_match. unfold k at 1. rewrite (defaulted_rest kcp c).
  destruct (Default_fields c) as (_ & -> & -> & _).
  destruct (Default_fields (getAdjustedKcpConfig kcp c)) as (_ & -> & -> & _).
  rewrite adjusted_init, adjusted_join. fold k. apply and_iff_compat_l, ZifyClasses.and_morph.
  - destruct (kcs_JoinConfiguration c) as [j|], (kcs_JoinConfiguration k) as [kj|]; [|by cbn; naive_solver..].
    change (default_join <$> Some ?x) with (Some (default_join x)). pose proof (cleanup_join_iff kj j) as Hj.
    cbv beta iota zeta in *. destruct (cleanup_join _ _). rewrite Hj. naive_solver.
  - destruct (kcs_InitConfiguration c) as [i|], (kcs_InitConfiguration k) as [ki|]; simpl; try by naive_solver.
    pose proof (cleanup_init_iff ki i) as Hi. simpl in Hi. rewrite Hi. naive_solver.
Qed.

Lemma joins_like_same k c : joins_like k c → same_config k c.
Proof.
  intros (Hr & Hi & Hj). split; [done| |by rewrite Hi]. intros kj j Hk Hc.
  destruct (Hj kj Hk) as (j' & Ej & Hs). by simplify_eq.
Qed.

Lemma inits_like_same k c :
  inits_like k c →
  same_config k c ↔ (is_Some (kcs_InitConfiguration c) → is_Some (kcs_InitConfiguration k)).
Proof.
  intros (Hr & Hj & Hi). split.
  - intros [_ _ Hg] [i Ei]. destruct (Hg i Ei) as (ki & -> & _). by eexists.
  - intros Hk. split; [done|by rewrite Hj|]. intros i Ei. destruct Hk as [ki Hk]; [by eexists|].
    destruct (Hi ki Hk) as (i' & Ei' & Hs). simplify_eq. by exists ki.
Qed.

(** ** What it means to be up to date *)

Section uptodate.
Context `{GoCmp} `{KubeTypes} `{Unstructured}.
Context (kcp : KubeadmControlPlane).

(** A rollout is due by time: certificates expire within the days given, or the Machine is
    older than the time to roll out after, which is past. *)
Definition rollout_due (m : Machine) (now : Time) : Prop :=
  (∃ days expiry, ksp_RolloutBefore (kcp_Spec kcp) = Some {| CertificatesExpiryDays := Some days |} ∧
     st_CertificatesExpiryDate (m_Status m) = Some expiry ∧ expiry < now + expiry_window days) ∨
  (∃ after, ksp_RolloutAfter (kcp_Spec kcp) = Some after ∧
     om_CreationTimestamp (m_Meta m) < after ∧ after < now).

Lemma rollout_due_iff m now :
  ¬ rollout_due m now ↔
  ShouldRolloutBefore (Some now) (ksp_RolloutBefore (kcp_Spec kcp)) (Some m) = Ok false ∧
  ShouldRolloutAfter (Some now) (ksp_RolloutAfter (kcp_Spec kcp)) (Some m) = false.
Proof.
  assert (ShouldRolloutBefore (Some now) (ksp_RolloutBefore (kcp_Spec kcp)) (Some m) = Ok false ↔
    ¬ ∃ days expiry, ksp_RolloutBefore (kcp_Spec kcp) = Some {| CertificatesExpiryDays := Some days |} ∧
      st_CertificatesExpiryDate (m_Status m) = Some expiry ∧ expiry < now + expiry_window days) as ->.
  { unfold ShouldRolloutBefore. destruct (ksp_RolloutBefore _) as [[[days|]]|]; [|naive_solver..].
    destruct (st_CertificatesExpiryDate _) as [expiry|]; [|naive_solver]. simpl.
    destruct (Z.ltb_spec expiry (now + expiry_window days)); naive_solver lia. }
  assert (ShouldRolloutAfter (Some now) (ksp_RolloutAfter (kcp_Spec kcp)) (Some m) = false ↔
    ¬ ∃ after, ksp_RolloutAfter (kcp_Spec kcp) = Some after ∧
      om_CreationTimestamp (m_Meta m) < after ∧ after < now) as ->.
  { unfold ShouldRolloutAfter, on_machine. destruct (ksp_RolloutAfter _) as [after|]; [|naive_solver]. simpl.
    destruct (Z.ltb_spec (om_CreationTimestamp (m_Meta m)) after), (Z.ltb_spec after now); simpl; naive_solver lia. }
  unfold rollout_due. tauto.
Qed.

(** The ClusterConfiguration in the annotation, if there is one, is the present one, but for
    its DNS. *)
Definition cluster_configuration_current (m : Machine) : Prop :=
  match om_Annotations (m_Meta m) !! KubeadmClusterConfigurationAnnotation with
  | None => True
  | Some s =>
      let present := default emptyClusterConfiguration (kcp_ClusterConfiguration kcp) in
      ∃ c, Unmarshal_ClusterConfiguration s (Some emptyClusterConfiguration) = Some c ∧
           cc_set_DNS (cc_DNS present) (default emptyClusterConfiguration c) = present
  end.

(** The KubeadmConfig it refers to, if it is known, agrees with that of the control plane. *)
Definition config_current (configs : gmap string KubeadmConfig) (m : Machine) : Prop :=
  ∀ kc, is_Some (b_ConfigRef (sp_Bootstrap (m_Spec m))) → configs !! m_Name m = Some kc →
    same_config (kcp_KubeadmConfigSpec kcp) (kc_Spec kc).

(** Its infrastructure machine, if it is known and says so, is a clone of the present template. *)
Definition template_current (infra : gmap string Meta) (m : Machine) : Prop :=
  ∀ obj name groupKind, infra !! m_Name m = Some obj →
    om_Annotations obj !! TemplateClonedFromNameAnnotation = Some name →
    om_Annotations obj !! TemplateClonedFromGroupKindAnnotation = Some groupKind →
    let ref := kmt_InfrastructureRef (ksp_MachineTemplate (kcp_Spec kcp)) in
    name = ref_Name ref ∧ groupKind = groupKind_String (ref_TypeMeta ref).

Lemma matchInitOrJoin_spec kc :
  ∃ b diff kc', matchInitOrJoinConfiguration (Some kc) kcp = Ok (b, diff, Some kc') ∧
    (b = true ↔ same_config (kcp_KubeadmConfigSpec kcp) (kc_Spec kc)).
Proof.
  setoid_rewrite <- specs_match_iff. unfold matchInitOrJoinConfiguration, specs_match.
  destruct (cleanupConfigFields _ _) as [k spec].
  destruct (compare_Diff_spec spec k) as [diff ->]. eexists _, _, _. split; [reflexivity|].
  by rewrite bool_decide_eq_true.
Qed.

Lemma matchCluster_spec m :
  ∃ b diff, matchClusterConfiguration kcp m = Ok (b, diff) ∧ (b = true ↔ cluster_configuration_current m).
Proof.
  unfold matchClusterConfiguration, cluster_configuration_current.
  destruct (om_Annotations (m_Meta m) !! _) as [s|]; [|by eexists _, _].
  destruct (Unmarshal_ClusterConfiguration s _) as [c|].
  - match goal with |- context [compare_Diff ?x ?y] => destruct (compare_Diff_spec x y) as [diff ->] end.
    eexists _, _. split; [reflexivity|]. rewrite bool_decide_eq_true. naive_solver.
  - eexists _, _. split; [reflexivity|]. naive_solver.
Qed.

Lemma matchesBootstrap_spec configs m :
  ∃ reason b configs', matchesKubeadmBootstrapConfig configs kcp (Some m) = Ok (reason, b, configs') ∧
    (b = true ↔ cluster_configuration_current m ∧ config_current configs m).
Proof.
  unfold matchesKubeadmBootstrapConfig. destruct (matchCluster_spec m) as (b & diff & -> & Hb).
  cbn [wrapErr mbind result_bind]. destruct b; cbn [negb]; [|eexists _, _, _; split; [reflexivity|]; naive_solver].
  assert (cluster_configuration_current m) as Hc by naive_solver. unfold config_current.
  destruct (b_ConfigRef _) as [ref|], (configs !! m_Name m) as [kc|] eqn:Ekc; try destruct ref;
    try (eexists _, _, _; split; [reflexivity|]; naive_solver).
  destruct (matchInitOrJoin_spec kc) as (b & diff' & kc' & E & Hb').
  rewrite E. simpl. destruct b; simpl; eexists _, _, _; (split; [reflexivity|]); naive_solver.
Qed.

Lemma matchesTemplate_spec infra m :
  (matchesTemplateClonedFrom infra kcp (Some m)).2 = true ↔ template_current infra m.
Proof.
  unfold matchesTemplateClonedFrom, template_current.
  destruct (infra !! m_Name m) as [obj|]; [|naive_solver].
  set (ref := kmt_InfrastructureRef _).
  destruct (om_Annotations obj !! TemplateClonedFromNameAnnotation) as [name|] eqn:En;
    [destruct (om_Annotations obj !! TemplateClonedFromGroupKindAnnotation) as [gk|] eqn:Eg|];
    [|split; [intros _ ? ? ? [= <-]; congruence|done]..].
  destruct (String.eqb_spec name (ref_Name ref)), (String.eqb_spec gk (groupKind_String (ref_TypeMeta ref)));
    simpl; (split; [try done; intros _ ? ? ? [= <-]; rewrite En, Eg; naive_solver|]); try done;
    intros Hall; destruct (Hall obj name gk); congruence.
Qed.

Lemma matchesMachineSpec_spec infra configs m :
  ∃ b logs conds configs', matchesMachineSpec infra configs kcp (Some m) = Ok (b, logs, conds, configs') ∧
    (b = true ↔ sp_Version (m_Spec m) = Some (ksp_Version (kcp_Spec kcp)) ∧
       cluster_configuration_current m ∧ config_current configs m ∧ template_current infra m) ∧
    (b = false → conds ≠ []) ∧ (b = true → logs = [] ∧ conds = []).
Proof.
  unfold matchesMachineSpec. destruct (matchesBootstrap_spec configs m) as (reason & b & configs' & -> & Hb).
  pose proof (matchesTemplate_spec infra m) as Ht.
  destruct (matchesTemplateClonedFrom infra kcp (Some m)) as [reason' t]. simpl in Ht.
  assert (MatchesKubernetesVersion (ksp_Version (kcp_Spec kcp)) (Some m) = true ↔
    sp_Version (m_Spec m) = Some (ksp_Version (kcp_Spec kcp))) as Hv.
  { unfold MatchesKubernetesVersion, on_machine. destruct (sp_Version (m_Spec m)) as [v|]; [|naive_solver].
    rewrite bool_decide_eq_true. naive_solver. }
  destruct (MatchesKubernetesVersion _ _), b, t; simpl; eexists _, _, _, _; (split; [reflexivity|]);
    (split; [|by split]); naive_solver.
Qed.

Lemma UpToDate_outcome m now infra configs :
  ∃ b logs conds configs',
    UpToDate (Some m) kcp (Some now) infra configs = Ok (b, logs, conds, configs') ∧
    (b = true ↔ ¬ rollout_due m now ∧
       sp_Version (m_Spec m) = Some (ksp_Version (kcp_Spec kcp)) ∧
       cluster_configuration_current m ∧ config_current configs m ∧ template_current infra m) ∧
    ((b = true → logs = [] ∧ conds = []) ∧ (b = false → conds ≠ [])).
Proof.
  setoid_rewrite rollout_due_iff. unfold UpToDate.
  destruct (matchesMachineSpec_spec infra configs m) as (b & logs & conds & configs' & -> & Hb & Hf & Ht).
  assert (∃ e, ShouldRolloutBefore (Some now) (ksp_RolloutBefore (kcp_Spec kcp)) (Some m) = Ok e) as [e ->].
  { unfold ShouldRolloutBefore. destruct (ksp_RolloutBefore _) as [[[days|]]|]; [|eauto..].
    destruct (st_CertificatesExpiryDate _); eauto. }
  destruct e, (ShouldRolloutAfter (Some now) (ksp_RolloutAfter (kcp_Spec kcp)) (Some m)), b; simpl;
    try (destruct Ht as [-> ->]; [done|]); try (specialize (Hf eq_refl); destruct conds as [|x conds]; [done|]);
    simpl; eexists _, _, _, _; (split; [try reflexivity; by destruct logs|]); naive_solver.
Qed.

End uptodate.

Lemma rtc_preserves {A} (R : A → A → Prop) (P : A → Prop) a b :
  (∀ x y, R x y → P x → P y) → rtc R a b → P a → P b.
Proof. intros Hstep. induction 1; eauto. Qed.

Section created.
Context `{Apimachinery} `{Semver} `{GoCmp} `{KubeTypes} `{Unstructured}.
Context (MustFormatValue : string → string) (cluster : BootstrapCluster) (kcp : KubeadmControlPlane).

(** The specification of a KubeadmConfig created for a Machine, however far the bootstrap
    provider is: of one that joins the cluster, or of the first one. *)
Definition joining_spec (spec : KubeadmConfigSpec) : Prop :=
  ∃ v, rtc (join_step cluster) (DefaultFeatureGates (JoinControlPlaneConfig kcp) v) spec.

Definition first_spec (spec : KubeadmConfigSpec) : Prop :=
  ∃ v, rtc (init_step cluster) (DefaultFeatureGates (InitialControlPlaneConfig kcp) v) spec.

(** An infrastructure machine cloned from the template of the control plane. *)
Definition created_infra (obj : Meta) : Prop :=
  ∃ GenerateName i o, GenerateTemplate GenerateName i = Ok o ∧
    gt_TemplateRef i = kmt_InfrastructureRef (ksp_MachineTemplate (kcp_Spec kcp)) ∧
    (∀ key, key = TemplateClonedFromNameAnnotation ∨ key = TemplateClonedFromGroupKindAnnotation →
       om_Annotations obj !! key = om_Annotations (o_Meta o) !! key).

(** A Machine as it is read after it was created: versioned and annotated as computed. *)
Definition created_machine (m : Machine) : Prop :=
  ∃ generate clusterName failureDomain computed,
    kcp_computeDesiredMachine MustFormatValue generate kcp clusterName failureDomain None = Ok computed ∧
    sp_Version (m_Spec m) = sp_Version (m_Spec computed) ∧
    om_Annotations (m_Meta m) !! KubeadmClusterConfigurationAnnotation =
      om_Annotations (m_Meta computed) !! KubeadmClusterConfigurationAnnotation.

Lemma joining_like spec : joining_spec spec → joins_like (kcp_KubeadmConfigSpec kcp) spec.
Proof.
  intros [v Hr]. eapply rtc_preserves; [|exact Hr|apply joins_like_created]. intros x y. apply join_step_like.
Qed.

Lemma first_like spec : first_spec spec → inits_like (kcp_KubeadmConfigSpec kcp) spec.
Proof.
  intros [v Hr]. eapply rtc_preserves; [|exact Hr|apply inits_like_created]. intros x y. apply init_step_like.
Qed.

Lemma created_infra_current infra m :
  (∀ obj, infra !! m_Name m = Some obj → created_infra obj) → template_current kcp infra m.
Proof.
  intros Hinfra obj name gk Hobj Hn Hg. destruct (Hinfra obj Hobj) as (gen & i & o & Hgen & Href & Ha).
  rewrite Ha in Hn, Hg by auto. unfold GenerateTemplate in Hgen.
  destruct (NestedMap _ _) as [[t []] [e|]]; try done. injection Hgen as <-.
  autorewrite with unstructured in Hn, Hg. rewrite <- Href.
  destruct (gt_OwnerRef i); simpl in Hn, Hg; rewrite lookup_insert_eq in Hg;
    rewrite lookup_insert_ne, lookup_insert_eq in Hn by done; naive_solver.
Qed.

Lemma created_machine_current m :
  created_machine m → json_stable (kcp_ClusterConfiguration kcp) →
  cluster_configuration_current kcp m ∧ sp_Version (m_Spec m) = Some (ksp_Version (kcp_Spec kcp)).
Proof.
  intros (gen & c & fd & m0 & Hc & Hv & Ha) Hs. unfold kcp_computeDesiredMachine, new_machine_identity in Hc.
  destruct (machine_name_template kcp) as [t|e|]; [|done..]. cbn [mbind result_bind] in Hc.
  destruct (gen t) as [name|e|]; [|done..]. cbn [wrapErr mbind result_bind] in Hc. injection Hc as <-.
  split; [|by rewrite Hv]. unfold cluster_configuration_current. rewrite Ha. clear Ha Hv.
  set (text := Marshal_ClusterConfiguration _).
  match goal with |- context [?a !! KubeadmClusterConfigurationAnnotation] =>
    assert (a !! KubeadmClusterConfigurationAnnotation = Some text) as -> end.
  { simpl. rewrite lookup_union_l'; rewrite lookup_insert_ne by done;
      destruct (om_Annotations (kcp_Meta kcp) !! RemediationInProgressAnnotation);
      rewrite ?lookup_insert_ne, lookup_insert_eq by done; done. }
  exists (kcp_ClusterConfiguration kcp). split; [by apply ClusterConfiguration_roundtrip|].
  by destruct (default emptyClusterConfiguration (kcp_ClusterConfiguration kcp)).
Qed.

(** C18: A Machine created from the present specification of its control plane is up to date,
    however far the bootstrap provider has completed its KubeadmConfig, as long as no rollout
    is due by time: always when it joined the cluster, and when it is the first one unless the
    provider has added an InitConfiguration to its KubeadmConfig that the control plane does
    not have.  The ClusterConfiguration is one that its JSON text represents
    ([json_stable]). *)
Theorem created_machine_up_to_date m now infra configs :
  json_stable (kcp_ClusterConfiguration kcp) → created_machine m →
  (∀ obj, infra !! m_Name m = Some obj → created_infra obj) →
  is_Some (b_ConfigRef (sp_Bootstrap (m_Spec m))) → ¬ rollout_due kcp m now →
  ∃ b logs conds configs', UpToDate (Some m) kcp (Some now) infra configs = Ok (b, logs, conds, configs') ∧
    (configs !! m_Name m = None → b = true) ∧
    ∀ kc, configs !! m_Name m = Some kc →
      (joining_spec (kc_Spec kc) → b = true) ∧
      (first_spec (kc_Spec kc) →
         b = true ↔ (is_Some (kcs_InitConfiguration (kc_Spec kc)) →
                     is_Some (kcs_InitConfiguration (kcp_KubeadmConfigSpec kcp)))).
Proof.
  intros Hs Hm Hi Href Hdue. destruct (created_machine_current m Hm Hs) as [Hcc Hv].
  destruct (UpToDate_outcome kcp m now infra configs) as (b & logs & conds & configs' & E & Hiff & Hmsg).
  assert (b = true ↔ config_current kcp configs m) as Hb.
  { rewrite Hiff. split; [by intros (_ & _ & _ & Hc & _)|]. intros Hsame.
    by split_and!; [done..|apply created_infra_current]. }
  exists b, logs, conds, configs'. split; [done|]. split; [intros En; apply Hb; intros kc; by rewrite En|].
  intros kc Hkc. assert (b = true ↔ same_config (kcp_KubeadmConfigSpec kcp) (kc_Spec kc)) as ->.
  { rewrite Hb. split; [intros Hc; by apply Hc|]. intros Hsame kc' _ Hkc'. by simplify_eq. }
  split; [intros Hj; by apply joins_like_same, joining_like|].
  intros Hf. by apply inits_like_same, first_like.
Qed.
End created.

(** ** Examples *)

Definition demo_cluster_configuration : ClusterConfiguration :=
  cc_set_APIServer (as_set_CertSANs (Some ["api.example.com"]) emptyAPIServer)
    (cc_set_ClusterName "c" emptyClusterConfiguration).

Definition demo_bootstrap_cluster : BootstrapCluster :=
  {| bc_Name := "c"; bc_ControlPlaneEndpoint := ("10.0.0.1", 6443); bc_ClusterNetwork := None |}.

(** A control plane whose JoinConfiguration is not given. *)
Definition demo_created_kcp (init : option InitConfiguration) : KubeadmControlPlane :=
  demo_kcp (kcs_set_ClusterConfiguration (Some demo_cluster_configuration)
    (kcs_set_InitConfiguration init demo_config_spec)).

Definition demo_created_machine (kcp : KubeadmControlPlane) : Machine :=
  match kcp_computeDesiredMachine id (λ _, Ok "cp-1"%string) kcp "c" None None with
  | Ok m => m
  | _ => emptyMachine
  end.

Definition demo_joined (kcp : KubeadmControlPlane) : KubeadmConfigSpec :=
  complete_Discovery demo_bootstrap_cluster (Ok ["sha256:0"]) None (Ok "abcdef.0123456789abcdef"%string)
    (complete_JoinControlPlane (complete_JoinConfiguration
      (DefaultFeatureGates (JoinControlPlaneConfig kcp) semver_zero))).

Lemma demo_stable init : json_stable (kcp_ClusterConfiguration (demo_created_kcp init)).
Proof.
  split; [|by vm_compute]. simpl. survive.
Qed.

(** The Machine joined the cluster, and its KubeadmConfig is completed. *)
Lemma created_machine_up_to_date_witness :
  let kcp := demo_created_kcp None in
  let m := m_set_ConfigRef (Some emptyRef) (demo_created_machine kcp) in
  ∃ logs conds configs', UpToDate (Some m) kcp (Some 5) ∅
    {[ "cp-1" := generated_KubeadmConfig id kcp "c" (demo_joined kcp) "cp-1" ]} = Ok (true, logs, conds, configs').
Proof.
  intros kcp m.
  destruct (created_machine_up_to_date id demo_bootstrap_cluster kcp m 5 ∅
    {[ "cp-1"%string := generated_KubeadmConfig id kcp "c" (demo_joined kcp) "cp-1" ]})
    as (b & logs & conds & configs' & E & _ & Hkc).
  - apply demo_stable.
  - eexists (λ _, Ok "cp-1"%string), "c"%string, None, (demo_created_machine kcp). by split_and!.
  - intros obj. by rewrite lookup_empty.
  - by eexists.
  - intros [(days & expiry & Hd & _)|(after & Ha & _)]; [discriminate Hd|discriminate Ha].
  - exists logs, conds, configs'. rewrite E. do 4 f_equal.
    eapply (proj1 (Hkc _ ltac:(change (m_Name m) with "cp-1"%string; apply lookup_singleton_eq))).
    exists semver_zero. eapply rtc_l; [apply join_configuration|]. eapply rtc_l; [apply join_control_plane|].
    eapply rtc_l; [apply join_discovery|]. apply rtc_refl.
Defined.

(** Without an InitConfiguration in the control plane, the bootstrap provider still adds one to
    the KubeadmConfig of the first Machine, and the Machine is rolled out again. *)
Lemma missing_InitConfiguration_rolled_out `{GoCmp} `{Unstructured} :
  let kcp := demo_created_kcp None in
  let m := m_set_ConfigRef (Some emptyRef) (demo_created_machine kcp) in
  let created := DefaultFeatureGates (InitialControlPlaneConfig kcp) semver_zero in
  let spec := complete_InitConfiguration
    (complete_ClusterConfiguration demo_bootstrap_cluster (Some "v1.31.0"%string) created) in
  rtc (init_step demo_bootstrap_cluster) created spec ∧
  ∃ logs conds configs', UpToDate (Some m) kcp (Some 5) ∅
    {[ "cp-1" := generated_KubeadmConfig id kcp "c" spec "cp-1" ]} = Ok (false, logs, conds, configs').
Proof.
  intros kcp m created spec. split.
  { eapply rtc_l; [by apply init_cluster|]. eapply rtc_l; [by apply init_configuration|]. apply rtc_refl. }
  destruct (UpToDate_outcome kcp m 5 ∅ {[ "cp-1" := generated_KubeadmConfig id kcp "c" spec "cp-1" ]})
    as (b & logs & conds & configs' & E & Hiff & _).
  exists logs, conds, configs'. rewrite E. destruct b; [|done]. exfalso.
  destruct (proj1 Hiff eq_refl) as (_ & _ & _ & Hc & _).
  destruct (Hc (generated_KubeadmConfig id kcp "c" spec "cp-1")) as [_ _ Hinit]; [by eexists| |].
  { change (m_Name m) with "cp-1"%string. apply lookup_singleton_eq. }
  edestruct Hinit as (ki & Hki & _); [vm_compute; reflexivity|]. discriminate Hki.
Qed.
