(* ===== verification/KcpWorkload.v ===== *)
(** * The workload cluster of a KubeadmControlPlane (controlplane/kubeadm/internal)

    The etcd operations (workload_cluster_etcd.go, etcd_client_generator.go): removing members
    and moving the leadership; and the update of the ClusterConfiguration that kubeadm keeps in
    a ConfigMap (workload_cluster.go).  Calls are recorded; their outcomes are functions of the
    calls made before. *)

From S2P Require Import Prelude GoStd Api Version JsonCodec Kubeadm KubeadmConfig KcpTypes MachineSet KcpMachines.

(** ** Etcd clients (etcd_client_generator.go) *)

Record Member := {
  em_ClusterID : Z;
  em_ID : Z;
  em_Name : string;
  em_IsLearner : bool;
  em_Alarms : list Z;
}.

Inductive EtcdCall :=
| EListNodes (label : string)
| EDial (nodeName : string)
| EMembers (nodeName : string)
| ERemoveMember (nodeName : string) (id : Z)
| EMoveLeader (nodeName : string) (id : Z).

(** A client is connected to the etcd Pod of a Node and knows who was the leader. *)
Record EtcdClient := { ec_Node : string; ec_LeaderID : Z }.

Record EtcdEnv := {
  ee_error : list EtcdCall → EtcdCall → option error;
  ee_nodes : list EtcdCall → string → list string;
  ee_leader : list EtcdCall → string → Z;
  ee_members : list EtcdCall → string → list Member;
  ee_isNodeConnection : error → bool;
}.

Definition labelNodeRoleOldControlPlane : string := "node-role.kubernetes.io/master".
Definition labelNodeRoleControlPlane : string := "node-role.kubernetes.io/control-plane".
Definition errEtcdNodeConnection : error := Errorf "failed to connect to etcd node".
Definition ErrControlPlaneMinNodes : error :=
  Errorf "cluster has fewer than 2 control plane nodes; removing an etcd member is not supported".

Section etcd.
Context (env : EtcdEnv).

(** The outcome of a call, read before the call is recorded. *)
Definition ecall (c : EtcdCall) : M (list EtcdCall) unit := λ calls,
  (match ee_error env calls c with Some e => Err e | None => Ok tt end, calls ++ [c]).

Definition createClient (nodeName : string) : M (list EtcdCall) EtcdClient :=
  leader ← gets (λ calls, ee_leader env calls nodeName);
  _ ← ecall (EDial nodeName);
  mret {| ec_Node := nodeName; ec_LeaderID := leader |}.

Definition Members (client : EtcdClient) : M (list EtcdCall) (list Member) :=
  members ← gets (λ calls, ee_members env calls (ec_Node client));
  _ ← ecall (EMembers (ec_Node client));
  mret members.

(** The first Node that can be reached, with the errors of those before. *)
Fixpoint first_available (nodeNames : list string) (errs : list error) : M (list EtcdCall) EtcdClient :=
  match nodeNames with
  | [] => throw (Wrap "could not establish a connection to any etcd node" (NewAggregate errs))
  | name :: rest =>
      client ← attempt (createClient name);
      match client with
      | inl client => mret client
      | inr e => first_available rest (errs ++ [e])
      end
  end.

Definition no_nodes : error :=
  Errorf "invalid argument: forLeader can't be called with an empty list of nodes".

Definition forFirstAvailableNode (nodeNames : list string) : M (list EtcdCall) EtcdClient :=
  match nodeNames with [] => throw no_nodes | _ => first_available nodeNames [] end.

(** A failure to connect is joined with [errEtcdNodeConnection]. *)
Definition node_connection {A} (m : M (list EtcdCall) A) : M (list EtcdCall) A :=
  r ← attempt m;
  match r with inl a => mret a | inr e => throw (NewAggregate [e; errEtcdNodeConnection]) end.

Definition getLeaderClient (nodeName : string) (allNodes : list string) : M (list EtcdCall) EtcdClient :=
  client ← node_connection (forFirstAvailableNode [nodeName]);
  members ← node_connection (Members client);
  match find (λ m, em_ID m =? ec_LeaderID client) members with
  | Some leaderMember =>
      if bool_decide (em_Name leaderMember ∈ allNodes) then forFirstAvailableNode [em_Name leaderMember]
      else throw (Errorf ("etcd leader is reported with name " +:+ em_Name leaderMember
                          +:+ ", but we couldn't find a corresponding Node in the cluster"))
  | None => throw (Errorf "etcd leader is reported, but we couldn't find any matching member")
  end.

Fixpoint for_leader (nodeNames allNodes : list string) (errs : list error) : M (list EtcdCall) EtcdClient :=
  match nodeNames with
  | [] => throw (Wrap "could not establish a connection to the etcd leader" (NewAggregate errs))
  | nodeName :: rest =>
      client ← attempt (getLeaderClient nodeName allNodes);
      match client with
      | inl client => mret client
      | inr e => if ee_isNodeConnection env e then for_leader rest allNodes (errs ++ [e]) else throw e
      end
  end.

Definition forLeader (nodeNames : list string) : M (list EtcdCall) EtcdClient :=
  match nodeNames with [] => throw no_nodes | _ => for_leader nodeNames nodeNames [] end.

(** ** Etcd members (workload_cluster_etcd.go, workload_cluster.go) *)

(** The Nodes with one of the two labels, each once. *)
Definition getControlPlaneNodes : M (list EtcdCall) (list string) :=
  foldM (λ controlPlaneNodes label,
    nodes ← gets (λ calls, ee_nodes env calls label);
    _ ← ecall (EListNodes label);
    mret (inl (foldl (λ acc node, if bool_decide (node ∈ acc) then acc else acc ++ [node])
                 controlPlaneNodes nodes)))
    [] [labelNodeRoleOldControlPlane; labelNodeRoleControlPlane].

Definition MemberForName (members : list Member) (name : string) : option Member :=
  find (λ m, String.eqb (em_Name m) name) members.

Definition removeMemberForNode (name : string) : M (list EtcdCall) unit :=
  controlPlaneNodes ← getControlPlaneNodes;
  if (length controlPlaneNodes <? 2)%nat then throw ErrControlPlaneMinNodes
  else
    let remainingNodes := filter (λ n, n ≠ name) controlPlaneNodes in
    etcdClient ← mwrap "failed to create etcd client" (forFirstAvailableNode remainingNodes);
    members ← mwrap "failed to list etcd members using etcd client" (Members etcdClient);
    match MemberForName members name with
    | None => mret tt
    | Some member =>
        mwrap "failed to remove member from etcd" (ecall (ERemoveMember (ec_Node etcdClient) (em_ID member)))
    end.

Definition etcd_RemoveEtcdMemberForMachine (machine : option Machine) : M (list EtcdCall) unit :=
  match machine with
  | None => mret tt
  | Some m => match st_NodeRef (m_Status m) with
              | None => mret tt
              | Some ref => removeMemberForNode (ref_Name ref)
              end
  end.

(** Members without a Node are removed; a member that was just added has no name yet. *)
Definition reconcile_member (nodeNames : list string) (acc : list string * list error) (member : Member) :
    M (list EtcdCall) (list string * list error + list string * list error) :=
  if String.eqb (em_Name member) "" || bool_decide (em_Name member ∈ nodeNames) then mret (inl acc)
  else
    err ← try_err (removeMemberForNode (em_Name member));
    mret (inl (acc.1 ++ [em_Name member], acc.2 ++ option_list err)).

Definition reconcileEtcdMember (nodeNames : list string) (nodeName : string) :
    M (list EtcdCall) (list string * list error) :=
  members ← attempt (etcdClient ← forFirstAvailableNode [nodeName]; Members etcdClient);
  match members with
  | inr _ => mret ([], [])
  | inl members => foldM (reconcile_member nodeNames) ([], []) members
  end.

(** Returns the removed members with the error, if any. *)
Definition ReconcileEtcdMembers (nodeNames : list string) :
    M (list EtcdCall) (list string * option error) :=
  '(allRemovedMembers, allErrs) ← foldM (λ acc nodeName,
    '(removedMembers, errs) ← reconcileEtcdMember nodeNames nodeName;
    mret (inl (acc.1 ++ removedMembers, acc.2 ++ errs))) ([], []) nodeNames;
  mret (allRemovedMembers, match allErrs with [] => None | _ => Some (NewAggregate allErrs) end).

Definition etcd_ForwardEtcdLeadership (machine leaderCandidate : option Machine) : M (list EtcdCall) unit :=
  match machine ≫= λ m, st_NodeRef (m_Status m) with
  | None => mret tt
  | Some machineNode =>
      match leaderCandidate with
      | None => throw (Errorf "leader candidate cannot be nil")
      | Some candidate =>
          match st_NodeRef (m_Status candidate) with
          | None => throw (Errorf "leader has no node reference")
          | Some candidateNode =>
              nodeNames ← mwrap "failed to list control plane nodes" getControlPlaneNodes;
              etcdClient ← mwrap "failed to create etcd client" (forLeader nodeNames);
              members ← mwrap "failed to list etcd members using etcd client" (Members etcdClient);
              match MemberForName members (ref_Name machineNode) with
              | None => mret tt
              | Some currentMember =>
                  if negb (em_ID currentMember =? ec_LeaderID etcdClient) then mret tt
                  else
                    match MemberForName members (ref_Name candidateNode) with
                    | None => throw (Errorf ("failed to get etcd member from node " +:+ ref_Name candidateNode))
                    | Some nextLeader =>
                        mwrap "failed to move leader"
                          (ecall (EMoveLeader (ec_Node etcdClient) (em_ID nextLeader)))
                    end
              end
          end
      end
  end.

Definition EtcdMembers : M (list EtcdCall) (list string) :=
  nodeNames ← mwrap "failed to list control plane nodes" getControlPlaneNodes;
  etcdClient ← mwrap "failed to create etcd client" (forLeader nodeNames);
  members ← mwrap "failed to list etcd members using etcd client" (Members etcdClient);
  mret (em_Name <$> members).
End etcd.

(** ** Which members are removed and where the leadership goes *)

Section etcd_safety.
Context (env : EtcdEnv).

Definition no_state (_ _ : list EtcdCall) : Prop := True.

#[global] Instance no_state_preorder : PreOrder no_state.
Proof. by split. Qed.

Abbreviation eruns := (logged (id : list EtcdCall → list EtcdCall)).

Lemma runs_bind_Ok {A B} (P : EtcdCall → Prop) (m : M (list EtcdCall) A) (f : A → M (list EtcdCall) B) :
  eruns P no_state m → (∀ s a s1, m s = (Ok a, s1) → eruns P no_state (f a)) →
  eruns P no_state (m ≫= f).
Proof.
  intros Hm Hf s r s' E. unfold mbind, M_bind in E.
  destruct (m s) as [[a|e|] s1] eqn:E1; destruct (Hm _ _ _ E1) as (_ & cs & Hcs & HP).
  - destruct (Hf _ _ _ E1 _ _ _ E) as (_ & cs' & Hcs' & HP'). split; [done|].
    exists (cs ++ cs'). rewrite Hcs', Hcs, app_assoc. split; [done|]. by apply Forall_app.
  - injection E as <- <-. eauto.
  - injection E as <- <-. eauto.
Qed.

Lemma runs_ecall (P : EtcdCall → Prop) c : P c → eruns P no_state (ecall env c).
Proof. intros HP s r s' [= <- <-]. split; [done|]. exists [c]. split; [done|]. by constructor. Qed.

(** Calls that only read. *)
Definition reads (c : EtcdCall) : Prop :=
  match c with ERemoveMember _ _ | EMoveLeader _ _ => False | _ => True end.

Ltac etcd_step :=
  match goal with
  | |- logged _ _ _ (ecall _ _) => by apply runs_ecall
  | |- logged _ _ _ (foldM _ _ _) => apply runs_foldM; [apply _|intros ? ? _]
  | |- _ => logged_step
  end.

Lemma createClient_reads node : eruns reads no_state (createClient env node).
Proof. unfold createClient. repeat etcd_step. Qed.

Lemma Members_reads client : eruns reads no_state (Members env client).
Proof. unfold Members. repeat etcd_step. Qed.

Lemma forFirst_reads nodes : eruns reads no_state (forFirstAvailableNode env nodes).
Proof.
  unfold forFirstAvailableNode. destruct nodes as [|n nodes]; [etcd_step|].
  generalize (@nil error) as errs. generalize (n :: nodes) as l. clear.
  induction l as [|n l IH]; intros errs; simpl; [etcd_step|].
  repeat first [apply createClient_reads | apply IH | etcd_step].
Qed.

Lemma getLeaderClient_reads node all : eruns reads no_state (getLeaderClient env node all).
Proof.
  unfold getLeaderClient, node_connection.
  repeat first [apply forFirst_reads | apply Members_reads | etcd_step].
Qed.

Lemma forLeader_reads nodes : eruns reads no_state (forLeader env nodes).
Proof.
  unfold forLeader. destruct nodes as [|n nodes]; [etcd_step|].
  generalize (@nil error) as errs. generalize (n :: nodes) at 2 as all. generalize (n :: nodes) as l. clear.
  induction l as [|n l IH]; intros all errs; simpl; [etcd_step|].
  repeat first [apply getLeaderClient_reads | apply IH | etcd_step].
Qed.

Lemma getControlPlaneNodes_reads : eruns reads no_state (getControlPlaneNodes env).
Proof. unfold getControlPlaneNodes. repeat etcd_step. Qed.

(** A client answers from the Node it was made for. *)
Lemma forFirst_node nodes s c s' :
  forFirstAvailableNode env nodes s = (Ok c, s') → ec_Node c ∈ nodes.
Proof.
  unfold forFirstAvailableNode. destruct nodes as [|n nodes]; [done|].
  generalize (@nil error) as errs. revert s. generalize (n :: nodes) as l. clear.
  induction l as [|n l IH]; intros s errs; simpl; [done|].
  intros (r & s1 & E & Er)%bind_Ok. destruct r as [client|e].
  - injection Er as <- <-. unfold attempt in E.
    destruct (createClient env n s) as [[c|?|] s2] eqn:E2; simplify_eq.
    apply bind_Ok in E2 as (? & ? & [= <- <-] & E2). apply bind_Ok in E2 as (? & ? & _ & [= <- <-]). left.
  - right. by eapply IH.
Qed.

Lemma Members_answer c s ms s' :
  Members env c s = (Ok ms, s') → ms = ee_members env s (ec_Node c).
Proof.
  intros (? & ? & [= <- <-] & E)%bind_Ok. apply bind_Ok in E as (? & ? & _ & [= <- <-]). done.
Qed.

(** A removed member: listed by a Node of the control plane that is not its own, while the
    control plane has at least two Nodes, and with a name in [ok]. *)
Definition removes (ok : string → Prop) (c : EtcdCall) : Prop :=
  match c with
  | ERemoveMember node id =>
      ∃ before after nodes calls member,
        getControlPlaneNodes env before = (Ok nodes, after) ∧ (2 ≤ length nodes)%nat ∧ node ∈ nodes ∧
        member ∈ ee_members env calls node ∧ em_ID member = id ∧ em_Name member ≠ node ∧ ok (em_Name member)
  | EMoveLeader _ _ => False
  | _ => True
  end.

Lemma reads_removes {A} ok (m : M (list EtcdCall) A) : eruns reads no_state m → eruns (removes ok) no_state m.
Proof. apply runs_weaken; [by intros []|done]. Qed.

Lemma MemberForName_Some ms name m :
  MemberForName ms name = Some m → m ∈ ms ∧ em_Name m = name.
Proof. intros [Hm%list_elem_of_In Hn]%find_some. by apply String.eqb_eq in Hn. Qed.

Lemma removeMemberForNode_removes (ok : string → Prop) name :
  ok name → eruns (removes ok) no_state (removeMemberForNode env name).
Proof.
  intros Hok. apply runs_bind_Ok; [apply reads_removes, getControlPlaneNodes_reads|].
  intros before nodes after Hnodes. destruct (Nat.ltb_spec (length nodes) 2); [etcd_step|].
  apply runs_bind_Ok; [apply runs_mwrap, reads_removes, forFirst_reads|].
  intros s c s1 Hc%mwrap_Ok%forFirst_node. apply list_elem_of_filter in Hc as [Hne Hc].
  apply runs_bind_Ok; [apply runs_mwrap, reads_removes, Members_reads|].
  intros s2 ms s3 Hms%mwrap_Ok%Members_answer.
  destruct (MemberForName ms name) as [m|] eqn:Em; [|etcd_step].
  apply MemberForName_Some in Em as [Hm Hn]. apply runs_mwrap, runs_ecall. subst name ms. simpl.
  exists before, after, nodes, s2, m. split_and!; auto.
Qed.

Lemma ReconcileEtcdMembers_removes nodeNames :
  eruns (removes (λ name, name ≠ ""%string ∧ name ∉ nodeNames)) no_state (ReconcileEtcdMembers env nodeNames).
Proof.
  unfold ReconcileEtcdMembers, reconcileEtcdMember, reconcile_member.
  repeat first [apply reads_removes, forFirst_reads | apply reads_removes, Members_reads | etcd_step].
  apply removeMemberForNode_removes. apply orb_false_iff in Heqb as [Hne Hin].
  split; [by apply String.eqb_neq|]. by apply bool_decide_eq_false in Hin.
Qed.

(** The leadership is moved from the Machine to the candidate. *)
Definition moves (from to : string) (c : EtcdCall) : Prop :=
  match c with
  | EMoveLeader node id => ∃ calls old new,
      old ∈ ee_members env calls node ∧ em_Name old = from ∧
      new ∈ ee_members env calls node ∧ em_Name new = to ∧ em_ID new = id
  | ERemoveMember _ _ => False
  | _ => True
  end.

Lemma ForwardEtcdLeadership_moves m candidate from to :
  st_NodeRef (m_Status m) = Some from → st_NodeRef (m_Status candidate) = Some to →
  eruns (moves (ref_Name from) (ref_Name to)) no_state
    (etcd_ForwardEtcdLeadership env (Some m) (Some candidate)).
Proof.
  intros Hf Ht. unfold etcd_ForwardEtcdLeadership. simpl. rewrite Hf, Ht.
  assert (∀ A (a : M (list EtcdCall) A), eruns reads no_state a →
    eruns (moves (ref_Name from) (ref_Name to)) no_state a) as Hw by (intros A a; by apply runs_weaken; [intros []|]).
  apply runs_bind_Ok; [apply runs_mwrap, Hw, getControlPlaneNodes_reads|]. intros s nodes s1 _.
  apply runs_bind_Ok; [apply runs_mwrap, Hw, forLeader_reads|]. intros s2 c s3 _.
  apply runs_bind_Ok; [apply runs_mwrap, Hw, Members_reads|]. intros s4 ms s5 Hms%mwrap_Ok%Members_answer.
  destruct (MemberForName ms (ref_Name from)) as [old|] eqn:Eo; [|etcd_step].
  destruct (negb _); [etcd_step|].
  destruct (MemberForName ms (ref_Name to)) as [new|] eqn:En; [|etcd_step].
  apply MemberForName_Some in Eo as [? ?]. apply MemberForName_Some in En as [? ?].
  apply runs_mwrap, runs_ecall. simpl. subst ms. by exists s4, old, new.
Qed.
End etcd_safety.

(** ** The ClusterConfiguration of kubeadm (workload_cluster.go) *)

Definition version_at (major minor patch : Z) : semver_Version :=
  {| v_Major := major; v_Minor := minor; v_Patch := patch; v_Pre := []; v_Build := [] |}.

Section mutators.
Context `{Semver} (semver_String : semver_Version → string).

Definition ver_LT (v w : semver_Version) : bool := semver_Compare v w <? 0.
Definition ver_LTE (v w : semver_Version) : bool := semver_Compare v w <=? 0.
Definition ver_GTE (v w : semver_Version) : bool := 0 <=? semver_Compare v w.

Definition DefaultImageRepository : string := "registry.k8s.io".
Definition OldDefaultImageRepository : string := "k8s.gcr.io".

(** [GetDefaultRegistry] (internal/util/kubeadm). *)
Definition GetDefaultRegistry (version : semver_Version) : string :=
  if ver_LTE version (version_at 1 22 16) then OldDefaultImageRepository
  else if ver_GTE version (version_at 1 22 17) && ver_LT version (version_at 1 23 0) then DefaultImageRepository
  else if ver_GTE version (version_at 1 23 0) && ver_LTE version (version_at 1 23 14) then OldDefaultImageRepository
  else if ver_GTE version (version_at 1 23 15) && ver_LT version (version_at 1 24 0) then DefaultImageRepository
  else if ver_GTE version (version_at 1 24 0) && ver_LTE version (version_at 1 24 8) then OldDefaultImageRepository
  else DefaultImageRepository.

Definition ImageRepositoryFromClusterConfig (clusterConfig : option ClusterConfiguration)
    (kubernetesVersion : semver_Version) : string :=
  let registry :=
    if ver_GTE kubernetesVersion (version_at 1 22 0) && ver_LT kubernetesVersion (version_at 1 26 0)
    then GetDefaultRegistry kubernetesVersion else ""%string in
  match clusterConfig with
  | Some cc => if negb (String.eqb (cc_ImageRepository cc) "") then cc_ImageRepository cc else registry
  | None => registry
  end.

Definition UpdateImageRepositoryInKubeadmConfigMap (imageRepository : string) (c : ClusterConfiguration) :
    ClusterConfiguration :=
  if String.eqb imageRepository "" then c else cc_set_ImageRepository imageRepository c.

(** Used only when the control plane has a ClusterConfiguration. *)
Definition UpdateFeatureGatesInKubeadmConfigMap (kubeadmConfigSpec : KubeadmConfigSpec)
    (kubernetesVersion : semver_Version) (c : ClusterConfiguration) : ClusterConfiguration :=
  let spec := DefaultFeatureGates kubeadmConfigSpec kubernetesVersion in
  cc_set_FeatureGates (cc_FeatureGates (default emptyClusterConfiguration (kcs_ClusterConfiguration spec))) c.

Definition UpdateKubernetesVersionInKubeadmConfigMap (version : semver_Version) (c : ClusterConfiguration) :
    ClusterConfiguration := cc_set_KubernetesVersion ("v" +:+ semver_String version) c.

Definition UpdateEtcdLocalInKubeadmConfigMap (etcdLocal : option LocalEtcd) (c : ClusterConfiguration) :
    ClusterConfiguration :=
  match et_Local (cc_Etcd c) with
  | Some _ => cc_set_Etcd {| et_Local := etcdLocal; et_External := et_External (cc_Etcd c) |} c
  | None => c
  end.

Definition UpdateEtcdExternalInKubeadmConfigMap (etcdExternal : option ExternalEtcd) (c : ClusterConfiguration) :
    ClusterConfiguration :=
  match et_External (cc_Etcd c) with
  | Some _ => cc_set_Etcd {| et_Local := et_Local (cc_Etcd c); et_External := etcdExternal |} c
  | None => c
  end.

(** The mutators that an upgrade passes ([upgradeControlPlane], controllers/upgrade.go). *)
Definition kubeadmCMMutators (k : KubeadmControlPlane) (parsedVersion : semver_Version)
    (parsedVersionTolerant : result semver_Version) :
    result (list (ClusterConfiguration → ClusterConfiguration)) :=
  let first := UpdateKubernetesVersionInKubeadmConfigMap parsedVersion in
  match kcp_ClusterConfiguration k with
  | None => Ok [first]
  | Some cc =>
      parsedVersionTolerant ← parsedVersionTolerant;
      let imageRepository := ImageRepositoryFromClusterConfig (Some cc) parsedVersionTolerant in
      Ok ([ first;
            UpdateImageRepositoryInKubeadmConfigMap imageRepository;
            UpdateFeatureGatesInKubeadmConfigMap (kcp_KubeadmConfigSpec k) parsedVersionTolerant;
            cc_set_APIServer (cc_APIServer cc);
            cc_set_ControllerManager (cc_ControllerManager cc);
            cc_set_Scheduler (cc_Scheduler cc) ]
          ++ match et_Local (cc_Etcd cc) with
             | Some local => [UpdateEtcdLocalInKubeadmConfigMap (Some local)]
             | None => [UpdateEtcdExternalInKubeadmConfigMap (et_External (cc_Etcd cc))]
             end)
  end.

Definition mutated (mutators : list (ClusterConfiguration → ClusterConfiguration)) (c : ClusterConfiguration) :
    ClusterConfiguration := foldl (λ c f, f c) c mutators.
End mutators.

(** *** Updating the ConfigMap *)

Definition clusterConfigurationKey : string := "ClusterConfiguration".

Inductive ConfigMapCall :=
| CGet
| CUpdate (data : gmap string string).

(** The data that a read finds, errors, and the conversion of the ClusterConfiguration from and
    to the kubeadm API of the version (bootstrap/kubeadm/types). *)
Record ConfigMapEnv := {
  ce_error : list ConfigMapCall → ConfigMapCall → option error;
  ce_data : list ConfigMapCall → gmap string string;
  ce_isConflict : error → bool;
  ce_Unmarshal : string → result ClusterConfiguration;
  ce_Marshal : ClusterConfiguration → semver_Version → result string;
}.

Section config_map.
Context (env : ConfigMapEnv).

Definition ccall (c : ConfigMapCall) : M (list ConfigMapCall) unit := λ calls,
  (match ce_error env calls c with Some e => Err e | None => Ok tt end, calls ++ [c]).

Definition update_once (version : semver_Version)
    (mutators : list (ClusterConfiguration → ClusterConfiguration)) : M (list ConfigMapCall) unit :=
  data ← gets (ce_data env);
  _ ← mwrap "failed to get kubeadmConfigMap" (ccall CGet);
  match data !! clusterConfigurationKey with
  | None => throw (Errorf ("unable to find " +:+ clusterConfigurationKey +:+ " in the kubeadm-config ConfigMap"))
  | Some currentData =>
      currentObj ← lift (wrapErr ("unable to decode " +:+ clusterConfigurationKey
        +:+ " in the kubeadm-config ConfigMap's from YAML") (ce_Unmarshal env currentData));
      let updatedObj := mutated mutators currentObj in
      if bool_decide (updatedObj = currentObj) then mret tt
      else
        updatedData ← lift (wrapErr ("unable to encode " +:+ clusterConfigurationKey
          +:+ " kubeadm-config ConfigMap's to YAML") (ce_Marshal env updatedObj version));
        mwrap "failed to upgrade cluster configuration in the kubeadmConfigMap"
          (ccall (CUpdate (<[clusterConfigurationKey := updatedData]> data)))
  end.

(** [retry.RetryOnConflict]: the last error is returned when all attempts were conflicts. *)
Fixpoint RetryOnConflict (steps : nat) (fn : M (list ConfigMapCall) unit) : M (list ConfigMapCall) unit :=
  match steps with
  | O => fn
  | S steps =>
      err ← try_err fn;
      match err with
      | None => mret tt
      | Some e => if ce_isConflict env e then RetryOnConflict steps fn else throw e
      end
  end.

(** [retry.DefaultBackoff] has four steps. *)
Definition w_UpdateClusterConfiguration (version : semver_Version)
    (mutators : list (ClusterConfiguration → ClusterConfiguration)) : M (list ConfigMapCall) unit :=
  RetryOnConflict 3 (update_once version mutators).

(** The ConfigMap holds the mutated configuration: either the last read found it so, or it was
    written, all else being kept. *)
Definition holds_mutated (version : semver_Version)
    (mutators : list (ClusterConfiguration → ClusterConfiguration)) (calls : list ConfigMapCall) : Prop :=
  ∃ before text current, ce_data env before !! clusterConfigurationKey = Some text ∧
    ce_Unmarshal env text = Ok current ∧
    (mutated mutators current = current ∧ calls = before ++ [CGet] ∨
     ∃ text', ce_Marshal env (mutated mutators current) version = Ok text' ∧
       calls = before ++ [CGet; CUpdate (<[clusterConfigurationKey := text']> (ce_data env before))] ∧
       ce_error env (before ++ [CGet]) (CUpdate (<[clusterConfigurationKey := text']> (ce_data env before))) = None).

Lemma update_once_Ok version mutators s s' :
  update_once version mutators s = (Ok tt, s') → holds_mutated version mutators s'.
Proof.
  intros (data & s1 & [= <- <-] & E)%bind_Ok. apply bind_Ok in E as ([] & s2 & E1 & E).
  apply mwrap_Ok in E1. injection E1 as _ <-.
  destruct (ce_data env s !! clusterConfigurationKey) as [text|] eqn:Et; [|done].
  apply bind_Ok in E as (current & s2 & [Eu%wrapErr_Ok ->]%lift_Ok & E).
  exists s, text, current. split_and!; [done..|]. cbv zeta in E. revert E. case_bool_decide as Hm; intros E.
  - injection E as <-. by left.
  - right. apply bind_Ok in E as (text' & s3 & [Em%wrapErr_Ok ->]%lift_Ok & E). exists text'. split; [done|].
    apply mwrap_Ok in E. unfold ccall in E. destruct (ce_error env _ _) eqn:Ee; [done|].
    injection E as <-. by rewrite <- app_assoc.
Qed.

Lemma RetryOnConflict_Ok (Q : list ConfigMapCall → Prop) fn steps s s' :
  (∀ s s', fn s = (Ok tt, s') → Q s') → RetryOnConflict steps fn s = (Ok tt, s') → Q s'.
Proof.
  intros Hfn. revert s. induction steps as [|steps IH]; intros s; simpl; [apply Hfn|].
  intros (err & s1 & E1 & E)%bind_Ok. unfold try_err in E1.
  destruct (fn s) as [[[]|e|] s2] eqn:Ef; simplify_eq.
  - injection E as <-. by eapply Hfn.
  - destruct (ce_isConflict env e); [by eapply IH|done].
Qed.
End config_map.

(** *** What an upgrade writes *)

Section upgrade.
Context `{Semver} (semver_String : semver_Version → string).

Definition from (v lo : semver_Version) : Prop := 0 ≤ semver_Compare v lo.
Definition upto (v hi : semver_Version) : Prop := semver_Compare v hi ≤ 0.

(** The versions between 1.22 and 1.25, whose kubeadm pulls from one of the two registries,
    and those of them that pull from the old one. *)
Definition migrating (v : semver_Version) : Prop := from v (version_at 1 22 0) ∧ ¬ from v (version_at 1 26 0).

Definition pulls_from_old (v : semver_Version) : Prop :=
  from v (version_at 1 22 0) ∧ upto v (version_at 1 22 16) ∨
  from v (version_at 1 23 0) ∧ upto v (version_at 1 23 14) ∨
  from v (version_at 1 24 0) ∧ upto v (version_at 1 24 8).

(** The image repository that a configuration with the repository [image] gets. *)
Record image_follows (cc : ClusterConfiguration) (v : semver_Version) (image image' : string) : Prop := {
  if_given : cc_ImageRepository cc ≠ ""%string → image' = cc_ImageRepository cc;
  if_old : cc_ImageRepository cc = ""%string → pulls_from_old v → image' = "k8s.gcr.io"%string;
  if_new : cc_ImageRepository cc = ""%string → migrating v → ¬ pulls_from_old v → image' = "registry.k8s.io"%string;
  if_kept : cc_ImageRepository cc = ""%string → ¬ migrating v → image' = image;
}.

(** The feature gates are the given ones; from 1.31.0 on ControlPlaneKubeletLocalMode is true
    unless it is given. *)
Definition gates_follow (cc : ClusterConfiguration) (v : semver_Version) (gates : option (gmap string bool)) : Prop :=
  (¬ from v (version_at 1 31 0) → gates = cc_FeatureGates cc) ∧
  (from v (version_at 1 31 0) → ∃ g, gates = Some g ∧
     g !! ControlPlaneKubeletLocalMode =
       Some (default true (default ∅ (cc_FeatureGates cc) !! ControlPlaneKubeletLocalMode)) ∧
     ∀ key, key ≠ ControlPlaneKubeletLocalMode → g !! key = default ∅ (cc_FeatureGates cc) !! key).

(** The configuration of kubeadm follows the ClusterConfiguration of the control plane; what
    the control plane does not manage here is kept. *)
Record upgraded (cc : ClusterConfiguration) (version tolerant : semver_Version)
    (c c' : ClusterConfiguration) : Prop := {
  up_version : cc_KubernetesVersion c' = "v" +:+ semver_String version;
  up_image : image_follows cc tolerant (cc_ImageRepository c) (cc_ImageRepository c');
  up_gates : gates_follow cc tolerant (cc_FeatureGates c');
  up_components : cc_APIServer c' = cc_APIServer cc ∧ cc_ControllerManager c' = cc_ControllerManager cc ∧
    cc_Scheduler c' = cc_Scheduler cc;
  up_etcd : et_Local (cc_Etcd c') =
      match et_Local (cc_Etcd cc), et_Local (cc_Etcd c) with
      | Some local, Some _ => Some local
      | _, local => local
      end ∧
    et_External (cc_Etcd c') =
      match et_Local (cc_Etcd cc), et_External (cc_Etcd c) with
      | None, Some _ => et_External (cc_Etcd cc)
      | _, external => external
      end;
  up_kept : cc_TypeMeta c' = cc_TypeMeta c ∧ cc_Networking c' = cc_Networking c ∧
    cc_ControlPlaneEndpoint c' = cc_ControlPlaneEndpoint c ∧ cc_DNS c' = cc_DNS c ∧
    cc_CertificatesDir c' = cc_CertificatesDir c ∧ cc_ClusterName c' = cc_ClusterName c;
}.

Lemma from_mono v lo lo' : semver_Compare lo lo' = -1 → from v lo' → from v lo.
Proof.
  unfold from. intros Hlt Hv. pose proof (tc_sym _ semver_Compare_total v lo).
  pose proof (tc_sym _ semver_Compare_total v lo'). pose proof (tc_trans _ semver_Compare_total lo lo' v). lia.
Qed.

Lemma upto_below v hi lo : semver_Compare hi lo = -1 → upto v hi → ¬ from v lo.
Proof.
  unfold from, upto. intros Hlt Hv. pose proof (tc_sym _ semver_Compare_total v hi).
  pose proof (tc_sym _ semver_Compare_total v lo). pose proof (tc_sym _ semver_Compare_total hi lo).
  pose proof (tc_trans _ semver_Compare_total lo v hi). lia.
Qed.

Lemma GetDefaultRegistry_spec v :
  from v (version_at 1 22 0) →
  (pulls_from_old v → GetDefaultRegistry v = "k8s.gcr.io"%string) ∧
  (¬ pulls_from_old v → GetDefaultRegistry v = "registry.k8s.io"%string).
Proof.
  intros H22. unfold GetDefaultRegistry, ver_LTE, ver_GTE, ver_LT, pulls_from_old.
  assert (from v (version_at 1 24 0) → from v (version_at 1 23 0)) as H23
    by (apply from_mono, semver_Compare_core; simpl; lia).
  unfold from, upto in *.
  repeat (case_match; rewrite ?andb_true_iff, ?andb_false_iff, ?Z.leb_le, ?Z.leb_gt, ?Z.ltb_lt, ?Z.ltb_ge in *);
    split; first [reflexivity|intros ?; exfalso; lia].
Qed.

Lemma pulls_from_old_migrating v : pulls_from_old v → migrating v.
Proof.
  intros Hold. split; (destruct Hold as [[Hf Hu]|[[Hf Hu]|[Hf Hu]]]).
  all: try (eapply upto_below; [|exact Hu]; apply semver_Compare_core; simpl; lia).
  1: exact Hf. all: eapply from_mono; [|exact Hf]; apply semver_Compare_core; simpl; lia.
Qed.

Lemma image_followed cc v c :
  image_follows cc v (cc_ImageRepository c)
    (cc_ImageRepository (UpdateImageRepositoryInKubeadmConfigMap (ImageRepositoryFromClusterConfig (Some cc) v) c)).
Proof.
  unfold UpdateImageRepositoryInKubeadmConfigMap, ImageRepositoryFromClusterConfig.
  destruct (String.eqb_spec (cc_ImageRepository cc) "") as [E|E]; simpl.
  2: { rewrite (proj2 (String.eqb_neq _ _) E). by split. }
  assert (ver_GTE v (version_at 1 22 0) && ver_LT v (version_at 1 26 0) = true ↔ migrating v) as Hm.
  { unfold ver_GTE, ver_LT, migrating, from. rewrite andb_true_iff, Z.leb_le, Z.ltb_lt. lia. }
  pose proof (pulls_from_old_migrating v) as Ho. pose proof (GetDefaultRegistry_spec v) as Hd.
  destruct (_ && _).
  - destruct (proj1 Hm eq_refl) as [H22 _]. destruct (Hd H22) as [Hold Hnew].
    split; intros; try done; [rewrite Hold by done|rewrite Hnew by done|naive_solver]; done.
  - simpl. split; try done; naive_solver.
Qed.

Lemma gates_followed k cc v c :
  kcp_ClusterConfiguration k = Some cc →
  gates_follow cc v (cc_FeatureGates (UpdateFeatureGatesInKubeadmConfigMap (kcp_KubeadmConfigSpec k) v c)).
Proof.
  unfold kcp_ClusterConfiguration. intros Hcc. unfold UpdateFeatureGatesInKubeadmConfigMap, DefaultFeatureGates, gates_follow, from.
  change (semver_Compare v (version_at 1 31 0)) with (semver_Compare v {| v_Major := 1; v_Minor := 31; v_Patch := 0; v_Pre := []; v_Build := [] |}).
  unfold before_local_mode. rewrite Hcc.
  destruct (Z.ltb_spec (semver_Compare v {| v_Major := 1; v_Minor := 31; v_Patch := 0; v_Pre := []; v_Build := [] |}) 0);
    simpl; rewrite ?Hcc; (split; intros Hv); [done|lia|lia|]. eexists. split; [reflexivity|].
  destruct (default ∅ (cc_FeatureGates cc) !! ControlPlaneKubeletLocalMode) eqn:E; [done|].
  split; [by rewrite lookup_insert_eq|]. intros key Hk. by rewrite lookup_insert_ne.
Qed.

Lemma mutated_upgraded k cc version tolerant ms c :
  kcp_ClusterConfiguration k = Some cc → kubeadmCMMutators semver_String k version (Ok tolerant) = Ok ms →
  upgraded cc version tolerant c (mutated ms c).
Proof.
  intros Hcc. unfold kubeadmCMMutators. rewrite Hcc. cbn [mbind result_bind].
  pose proof (image_followed cc tolerant c) as Himg. pose proof (gates_followed k cc tolerant c Hcc) as Hgates.
  revert Himg Hgates. set (repository := ImageRepositoryFromClusterConfig (Some cc) tolerant).
  unfold UpdateImageRepositoryInKubeadmConfigMap, UpdateFeatureGatesInKubeadmConfigMap,
    UpdateKubernetesVersionInKubeadmConfigMap, UpdateEtcdLocalInKubeadmConfigMap,
    UpdateEtcdExternalInKubeadmConfigMap.
  destruct c as [tm [local external] net ver ep api cm sch dns dir img gates name].
  destruct (String.eqb repository "") eqn:Er, (et_Local (cc_Etcd cc)) as [l|] eqn:El;
    intros Himg Hgates [= <-]; unfold mutated; simpl; destruct local, external; split;
    cbn -[DefaultFeatureGates]; rewrite ?El; done.
Qed.

(** Writing the configuration again changes nothing. *)
Lemma mutated_idem k cc version tolerant ms c :
  kcp_ClusterConfiguration k = Some cc → kubeadmCMMutators semver_String k version (Ok tolerant) = Ok ms →
  mutated ms (mutated ms c) = mutated ms c.
Proof.
  intros Hcc. unfold kubeadmCMMutators. rewrite Hcc. cbn [mbind result_bind].
  set (repository := ImageRepositoryFromClusterConfig (Some cc) tolerant).
  unfold UpdateImageRepositoryInKubeadmConfigMap, UpdateFeatureGatesInKubeadmConfigMap,
    UpdateKubernetesVersionInKubeadmConfigMap, UpdateEtcdLocalInKubeadmConfigMap,
    UpdateEtcdExternalInKubeadmConfigMap.
  set (gates' := cc_FeatureGates (default emptyClusterConfiguration _)).
  set (version' := ("v" +:+ semver_String version)%string). clearbody gates' version' repository.
  destruct cc as [? [etcdLocal etcdExternal] ? ? ? api' cm' sch' ? ? ? ? ?]. cbn [cc_Etcd et_Local et_External
    cc_APIServer cc_ControllerManager cc_Scheduler]. clear Hcc.
  destruct c as [tm [local external] net ver ep api cm sch dns dir img gates name].
  destruct (String.eqb repository ""), etcdLocal as [l|], etcdExternal;
    intros [= <-]; destruct local, external; vm_compute; reflexivity.
Qed.

(** C33: when [UpdateClusterConfiguration] succeeds, with the mutators of an upgrade, the
    kubeadm-config ConfigMap holds the mutated configuration: the last read found it so, or it
    was written with every other key kept.  Without a ClusterConfiguration in the control plane
    the mutated configuration differs in the Kubernetes version only.  With one the version, the
    API server, the controller manager and the scheduler are those of the control plane; the
    image repository is the given one, without one the registry of the kubeadm of that version
    between 1.22 and 1.25, and kept for other versions; the feature gates are the given ones,
    from 1.31 on with ControlPlaneKubeletLocalMode; etcd follows where it is of the same kind;
    everything else is kept.  Mutating again changes nothing. *)
Theorem UpdateClusterConfiguration_upgrades env k version parsed ms calls :
  kubeadmCMMutators semver_String k version parsed = Ok ms →
  w_UpdateClusterConfiguration env version ms [] = (Ok tt, calls) →
  holds_mutated env version ms calls ∧
  ∀ c, mutated ms (mutated ms c) = mutated ms c ∧
    match kcp_ClusterConfiguration k with
    | None => mutated ms c = cc_set_KubernetesVersion ("v" +:+ semver_String version) c
    | Some cc => ∃ tolerant, parsed = Ok tolerant ∧ upgraded cc version tolerant c (mutated ms c)
    end.
Proof.
  intros Hms E. split; [eapply RetryOnConflict_Ok; [|exact E]; apply update_once_Ok|]. intros c.
  destruct (kcp_ClusterConfiguration k) as [cc|] eqn:Hcc.
  - destruct parsed as [tolerant|e|]; [|by unfold kubeadmCMMutators in Hms; rewrite Hcc in Hms..].
    split; [by eapply mutated_idem|]. exists tolerant. split; [done|by eapply mutated_upgraded].
  - unfold kubeadmCMMutators in Hms. rewrite Hcc in Hms. by injection Hms as <-.
Qed.
End upgrade.

(** C34: [ReconcileEtcdMembers] only removes etcd members that have a name and whose name is
    not that of a Node of the control plane Machines; each removal is requested from another
    Node of the control plane, which listed the member, while at least two Nodes exist.
    Leadership is not moved. *)
Theorem ReconcileEtcdMembers_safe env nodeNames r calls :
  ReconcileEtcdMembers env nodeNames [] = (r, calls) →
  (∀ node id, ERemoveMember node id ∈ calls →
    ∃ before after nodes listed member,
      getControlPlaneNodes env before = (Ok nodes, after) ∧ (2 ≤ length nodes)%nat ∧ node ∈ nodes ∧
      member ∈ ee_members env listed node ∧ em_ID member = id ∧ em_Name member ≠ node ∧
      em_Name member ≠ ""%string ∧ em_Name member ∉ nodeNames) ∧
  (∀ node id, EMoveLeader node id ∉ calls).
Proof.
  intros (_ & cs & Hc & Hcs)%ReconcileEtcdMembers_removes. change (calls = cs) in Hc. subst cs. rewrite Forall_forall in Hcs.
  split; intros node id Hin; apply Hcs in Hin; [|done].
  destruct Hin as (before & after & nodes & listed & member & ? & ? & ? & ? & ? & ? & ? & ?).
  by exists before, after, nodes, listed, member.
Qed.

(** [ForwardEtcdLeadership] moves the leadership, if at all, from the etcd member of the
    Machine to the member of the candidate, both listed by the same Node; it removes no
    member. *)
Theorem ForwardEtcdLeadership_safe env m candidate from to r calls :
  st_NodeRef (m_Status m) = Some from → st_NodeRef (m_Status candidate) = Some to →
  etcd_ForwardEtcdLeadership env (Some m) (Some candidate) [] = (r, calls) →
  (∀ node id, EMoveLeader node id ∈ calls → ∃ listed old new,
    old ∈ ee_members env listed node ∧ em_Name old = ref_Name from ∧
    new ∈ ee_members env listed node ∧ em_Name new = ref_Name to ∧ em_ID new = id) ∧
  (∀ node id, ERemoveMember node id ∉ calls).
Proof.
  intros Hf Ht E. destruct (ForwardEtcdLeadership_moves env m candidate from to Hf Ht _ _ _ E)
    as (_ & cs & Hc & Hcs). change (calls = cs) in Hc. subst cs. rewrite Forall_forall in Hcs.
  split; intros node id Hin; by apply Hcs in Hin.
Qed.

(** ** Examples: three Nodes, of which one has lost its Machine *)

Definition demo_member (id : Z) (name : string) : Member :=
  {| em_ClusterID := 1; em_ID := id; em_Name := name; em_IsLearner := false; em_Alarms := [] |}.

Definition demo_etcd_env : EtcdEnv :=
  {| ee_error _ _ := None; ee_nodes _ label := if String.eqb label labelNodeRoleControlPlane
       then ["n1"; "n2"; "n3"]%string else [];
     ee_leader _ _ := 1; ee_members _ _ := [demo_member 1 "n1"; demo_member 2 "n2"; demo_member 3 "n3"];
     ee_isNodeConnection _ := false |}.

Lemma ReconcileEtcdMembers_safe_witness :
  let calls := (ReconcileEtcdMembers demo_etcd_env ["n1"; "n2"] [] : _ * list EtcdCall).2 in
  ERemoveMember "n1" 3 ∈ calls ∧
  ∃ before after nodes listed member,
    getControlPlaneNodes demo_etcd_env before = (Ok nodes, after) ∧ (2 ≤ length nodes)%nat ∧ "n1"%string ∈ nodes ∧
    member ∈ ee_members demo_etcd_env listed "n1" ∧ em_ID member = 3 ∧ em_Name member ≠ "n1"%string ∧
    em_Name member ≠ ""%string ∧ em_Name member ∉ ["n1"; "n2"]%string.
Proof.
  intros calls.
  assert (ERemoveMember "n1" 3 ∈ calls) as Hin.
  { apply list_elem_of_In. vm_compute. tauto. }
  split; [exact Hin|].
  destruct (ReconcileEtcdMembers_safe demo_etcd_env ["n1"; "n2"]%string _ calls
    (surjective_pairing (ReconcileEtcdMembers demo_etcd_env ["n1"; "n2"]%string []))) as [Hr _].
  exact (Hr _ _ Hin).
Defined.

Definition on (node : string) : Machine :=
  m_set_NodeRef (Some {| ref_Kind := "Node"; ref_Namespace := ""; ref_Name := node; ref_UID := "";
    ref_APIVersion := ""; ref_ResourceVersion := ""; ref_FieldPath := "" |}) emptyMachine.

Lemma ForwardEtcdLeadership_safe_witness :
  let calls := (etcd_ForwardEtcdLeadership demo_etcd_env (Some (on "n1")) (Some (on "n2")) [] :
                 _ * list EtcdCall).2 in
  EMoveLeader "n1" 2 ∈ calls ∧ ∃ listed old new,
    old ∈ ee_members demo_etcd_env listed "n1" ∧ em_Name old = "n1"%string ∧
    new ∈ ee_members demo_etcd_env listed "n1" ∧ em_Name new = "n2"%string ∧ em_ID new = 2.
Proof.
  intros calls.
  assert (EMoveLeader "n1" 2 ∈ calls) as Hin.
  { apply list_elem_of_In. vm_compute. tauto. }
  split; [exact Hin|].
  destruct (ForwardEtcdLeadership_safe demo_etcd_env (on "n1") (on "n2") _ _ _ calls eq_refl eq_refl
    (surjective_pairing (etcd_ForwardEtcdLeadership demo_etcd_env (Some (on "n1")) (Some (on "n2")) [])))
    as [Hm _].
  exact (Hm _ _ Hin).
Defined.

(** A ConfigMap whose ClusterConfiguration is older than the control plane. *)
Definition demo_config_map_env : ConfigMapEnv :=
  {| ce_error _ _ := None; ce_data _ := {[ clusterConfigurationKey := "old"%string ]};
     ce_isConflict _ := false; ce_Unmarshal _ := Ok emptyClusterConfiguration;
     ce_Marshal _ _ := Ok "new"%string |}.

Lemma UpdateClusterConfiguration_upgrades_witness :
  let k := demo_created_kcp None in
  ∃ ms calls, kubeadmCMMutators (λ _, "1.31.0"%string) k (version_at 1 31 0) (Ok (version_at 1 31 0)) = Ok ms ∧
    w_UpdateClusterConfiguration demo_config_map_env (version_at 1 31 0) ms [] = (Ok tt, calls) ∧
    holds_mutated demo_config_map_env (version_at 1 31 0) ms calls.
Proof.
  eexists _, [CGet; CUpdate _]. split; [reflexivity|]. split.
  - vm_compute. reflexivity.
  - eapply (UpdateClusterConfiguration_upgrades (λ _, "1.31.0"%string) demo_config_map_env (demo_created_kcp None) _
      (Ok (version_at 1 31 0))); [reflexivity|]. vm_compute. reflexivity.
Defined.
