(* ===== verification/KcpReconcile.v ===== *)
(** * Reconciling a KubeadmControlPlane (controlplane/kubeadm/internal/controllers)

    The handlers [reconcile] and [reconcileDelete] of controller.go with everything they call:
    the external reference, certificates and kubeconfig, the synchronization of Machines, the
    conditions, the etcd members, the pre-terminate hook, the creation of Machines
    (helpers.go), scaling (scale.go) and the rollout (upgrade.go).  The remediation and the
    choice of the Machine to delete are in KubeadmControlPlane.v.  Outcomes of calls are given
    by an environment; what the inspection of the workload cluster finds is one of them. *)

From S2P Require Import Prelude GoStd Json JsonCodec Api Apimachinery Util Conditions Version Collections.
From S2P Require Import FailureDomains ConditionsV1Beta2 ConditionsMerge StatusConditions External MachineSetPolicy MachineSet.
From S2P Require Import Kubeadm KubeadmConfig KcpTypes KubeadmControlPlane KcpUpToDate KcpMachines KcpWorkload.

(** ** Environment *)

(** What an inspection of the workload cluster reports: conditions of the control plane and of
    its Machines, and what is known of the etcd members. *)
Record Inspection := {
  in_kcp : Conditions * list MetaCondition;
  in_machine : string → Conditions * list MetaCondition;
  in_etcdMembers : option (list string);
  in_agreeOnMemberList : bool;
  in_agreeOnClusterID : bool;
  in_matching : bool;
}.

(** Outcomes of calls are functions of the calls made before; the last group are the settings
    of the controller and functions of packages outside the repository. *)
Record ReconcileEnv := {
  re_kcp : KcpEnv;
  re_contractVersion : list KcpCall → string;
  re_template : list KcpCall → Meta;
  re_kubeconfig : list KcpCall → Meta * string;
  re_needsRotation : list KcpCall → Meta → result bool;
  re_applied : list KcpCall → Machine → Machine;
  re_inspect : list KcpCall → ControlPlane → Inspection;
  re_lastProbe : list KcpCall → Time;
  re_expiry : list KcpCall → string;
  re_cloned : list KcpCall → ObjectReference;
  re_UID : list KcpCall → string;
  re_generateName : list KcpCall → string → result string;
  re_simpleName : list KcpCall → string → string;
  re_allMachines : list KcpCall → Machines;
  re_machinePools : list KcpCall → list string;
  re_certNotFound : error → bool;
  re_notConnected : error → bool;
  re_gracePeriod : Z;
  re_DeprecatedInfraMachineNaming : bool;
  re_MachinePool : bool;
  re_formatTime : Time → string;
  re_versionString : semver_Version → string;
  re_MustFormatValue : string → string;
}.

(** ** Constants *)

Definition kcp_CertificatesAvailableCondition : ConditionType := "CertificatesAvailable".
Definition CertificatesGenerationFailedReason : string := "CertificatesGenerationFailed".
Definition kcp_AvailableCondition : ConditionType := "Available".
Definition WaitingForKubeadmInitReason : string := "WaitingForKubeadmInit".
Definition MachinesSpecUpToDateCondition : ConditionType := "MachinesSpecUpToDate".
Definition RollingUpdateInProgressReason : string := "RollingUpdateInProgress".
Definition kcp_ResizedCondition : ConditionType := "Resized".
Definition kcp_MachinesCreatedCondition : ConditionType := "MachinesCreated".
Definition InfrastructureTemplateCloningFailedReason : string := "InfrastructureTemplateCloningFailed".
Definition BootstrapTemplateCloningFailedReason : string := "BootstrapTemplateCloningFailed".
Definition MachineGenerationFailedReason : string := "MachineGenerationFailed".
Definition EtcdClusterHealthyCondition : ConditionType := "EtcdClusterHealthy".
Definition kcp_DeletingReason : string := "Deleting".
Definition PreTerminateDeleteHookSucceededCondition : ConditionType := "PreTerminateDeleteHookSucceeded".
Definition WaitingExternalHookReason : string := "WaitingExternalHook".
Definition MachineCertificatesExpiryDateAnnotation : string :=
  "machine.cluster.x-k8s.io/certificates-expiry".
Definition KubeadmControlPlaneFinalizer : string := "kubeadm.controlplane.cluster.x-k8s.io".
Definition ClusterSecretType : string := "cluster.x-k8s.io/secret".
Definition kcpControllerKind : string := "KubeadmControlPlane".
Definition dependentCertRequeueAfter : Z := 30 * Second.

Definition EtcdClusterHealthyV1Beta2 : string := "EtcdClusterHealthy".
Definition ControlPlaneComponentsHealthyV1Beta2 : string := "ControlPlaneComponentsHealthy".
Definition CertificatesAvailableV1Beta2 : string := "CertificatesAvailable".
Definition kcp_InspectionFailed : string := "InspectionFailed".
Definition kcp_ConnectionDown : string := "ConnectionDown".

Definition kcp_set_Meta (m : Meta) (k : KubeadmControlPlane) : KubeadmControlPlane :=
  {| kcp_TypeMeta := kcp_TypeMeta k; kcp_Meta := m; kcp_Spec := kcp_Spec k; kcp_Status := kcp_Status k |}.

(** The API version of the reference to the infrastructure template. *)
Definition kcp_set_InfrastructureRef (ref : ObjectReference) (k : KubeadmControlPlane) :
    KubeadmControlPlane :=
  let sp := kcp_Spec k in let mt := ksp_MachineTemplate sp in
  {| kcp_TypeMeta := kcp_TypeMeta k; kcp_Meta := kcp_Meta k; kcp_Status := kcp_Status k;
     kcp_Spec := {| ksp_Replicas := ksp_Replicas sp; ksp_Version := ksp_Version sp;
       ksp_MachineTemplate := {| kmt_ObjectMeta := kmt_ObjectMeta mt; kmt_InfrastructureRef := ref;
         kmt_NodeDrainTimeout := kmt_NodeDrainTimeout mt;
         kmt_NodeVolumeDetachTimeout := kmt_NodeVolumeDetachTimeout mt;
         kmt_NodeDeletionTimeout := kmt_NodeDeletionTimeout mt |};
       ksp_KubeadmConfigSpec := ksp_KubeadmConfigSpec sp; ksp_RolloutBefore := ksp_RolloutBefore sp;
       ksp_RolloutAfter := ksp_RolloutAfter sp; ksp_RolloutStrategy := ksp_RolloutStrategy sp;
       ksp_RemediationStrategy := ksp_RemediationStrategy sp;
       ksp_MachineNamingStrategy := ksp_MachineNamingStrategy sp |} |}.

Definition ref_set_APIVersion (v : string) (r : ObjectReference) : ObjectReference :=
  {| ref_Kind := ref_Kind r; ref_Namespace := ref_Namespace r; ref_Name := ref_Name r;
     ref_UID := ref_UID r; ref_APIVersion := v; ref_ResourceVersion := ref_ResourceVersion r;
     ref_FieldPath := ref_FieldPath r |}.

Definition meta_set_Finalizers (fs : list string) (m : Meta) : Meta :=
  {| om_Name := om_Name m; om_Namespace := om_Namespace m; om_UID := om_UID m;
     om_Generation := om_Generation m; om_CreationTimestamp := om_CreationTimestamp m;
     om_DeletionTimestamp := om_DeletionTimestamp m; om_Labels := om_Labels m;
     om_Annotations := om_Annotations m; om_OwnerReferences := om_OwnerReferences m; om_Finalizers := fs |}.

Definition m_set_Annotations (a : gmap string string) (m : Machine) : Machine :=
  m_set_Meta (meta_set_Annotations a (m_Meta m)) m.

(** The timeouts of a deletion. *)
Definition m_set_timeouts (drain detach deletion : option Z) (m : Machine) : Machine :=
  let sp := m_Spec m in
  {| m_TypeMeta := m_TypeMeta m; m_Meta := m_Meta m; m_Status := m_Status m;
     m_Spec := {| sp_ClusterName := sp_ClusterName sp; sp_Bootstrap := sp_Bootstrap sp;
       sp_InfrastructureRef := sp_InfrastructureRef sp; sp_Version := sp_Version sp;
       sp_ProviderID := sp_ProviderID sp; sp_FailureDomain := sp_FailureDomain sp;
       sp_ReadinessGates := sp_ReadinessGates sp; sp_NodeDrainTimeout := drain;
       sp_NodeVolumeDetachTimeout := detach; sp_NodeDeletionTimeout := deletion |} |}.

(** [intstr.IntOrString.IntValue]: a text that is no number counts as zero. *)
Definition IntValue (v : IntOrString) : Z :=
  match v with FromInt i => i | FromString s => (ParseInt s 64).1 end.

Section reconcile.
Context `{Apimachinery} `{GoSort} `{GoRange} `{MetaConditions} `{Semver} `{LabelSelectors} `{KubeTypes}.
Context (env : ReconcileEnv).

Abbreviation kenv := (re_kcp env) (only parsing).

Definition clock : M KcpState Time := gets (λ s, ke_now kenv (k_calls s)).

Definition get_kcp : M KcpState KubeadmControlPlane := gets (λ s, cpl_KCP (k_cp s)).

Definition set_kcp (f : KubeadmControlPlane → KubeadmControlPlane) : M KcpState unit :=
  modify (λ s, k_set_cp (cpl_set_KCP (f (cpl_KCP (k_cp s))) (k_cp s)) s).

(** [conditions.MarkFalse] and [v1beta2conditions.Set] on the control plane. *)
Definition kcp_MarkFalse (t : ConditionType) (reason : string) (severity : ConditionSeverity)
    (message : string) : M KcpState unit :=
  now ← clock; set_kcp (λ k, MarkFalse now k t reason severity message).

Definition kcp_Set (t status reason message : string) : M KcpState unit :=
  now ← clock; set_kcp (λ k, v1beta2_Set now now k (new_condition t (status, reason, message))).

(** ** The external reference (helpers.go) *)

Definition reconcileExternalReference : M KcpState unit :=
  c ← gets k_cp;
  let ref := kmt_InfrastructureRef (ksp_MachineTemplate (kcp_Spec (cpl_KCP c))) in
  if negb (HasSuffix (ref_Kind ref) "Template") then mret tt
  else
    version ← gets (λ s, re_contractVersion env (k_calls s));
    _ ← kcall kenv (KUpdateReference ref);
    let ref := ref_set_APIVersion version ref in
    _ ← set_kcp (kcp_set_InfrastructureRef ref);
    obj ← gets (λ s, re_template env (k_calls s));
    err ← try_err (kcall kenv (KGetExternal ref));
    match err with
    | Some e =>
        _ ← (if IsNotFound e then modify (λ s, k_set_cp (cpl_set_TemplateNotFound true (k_cp s)) s)
             else mret tt);
        throw e
    | None =>
        _ ← kcall kenv (KObjectHelper obj);
        let owner := {| or_APIVersion := GroupVersion; or_Kind := "Cluster"; or_Name := cpl_ClusterName c;
          or_UID := kcl_UID (cpl_Cluster c); or_Controller := None; or_BlockOwnerDeletion := None |} in
        kcall kenv (KPatchObject (meta_set_OwnerReferences
          (EnsureOwnerRef (om_OwnerReferences obj) owner) obj))
    end.

(** ** Certificates and kubeconfig *)

Definition kcp_controllerRef (k : KubeadmControlPlane) : OwnerReference :=
  NewControllerRef (kcp_Meta k) kcpControllerKind.

Definition certificates_error : M KcpState unit :=
  kcp_Set CertificatesAvailableV1Beta2 ConditionUnknown InternalErrorV1Beta2Reason
    "Please check controller logs for errors".

Definition reconcileClusterCertificates : M KcpState unit :=
  k ← get_kcp;
  let config := default emptyClusterConfiguration (kcp_ClusterConfiguration k) in
  err ← try_err (kcall kenv (KLookupOrGenerate config (kcp_controllerRef k)));
  match err with
  | Some e =>
      _ ← kcp_MarkFalse kcp_CertificatesAvailableCondition CertificatesGenerationFailedReason
            ConditionSeverityWarning (Sprintf (ke_errorString kenv e));
      _ ← certificates_error;
      throw (Wrap "error in look up or create cluster certificates" e)
  | None =>
      err ← try_err (kcall kenv (KEnsureCertificatesOwner (kcp_controllerRef k)));
      match err with
      | Some e => _ ← certificates_error; throw (Wrap "error in ensuring cluster certificates ownership" e)
      | None =>
          now ← clock;
          _ ← set_kcp (λ k, MarkTrue now k kcp_CertificatesAvailableCondition);
          kcp_Set CertificatesAvailableV1Beta2 ConditionTrue AvailableV1Beta2Reason ""
      end
  end.

(** The owners of the kubeconfig Secret after adoption. *)
Definition adopted_owners (k : KubeadmControlPlane) (secret : Meta) (type : string) :
    list OwnerReference :=
  let refs := om_OwnerReferences secret in
  let ensure refs := EnsureOwnerRef refs (kcp_controllerRef k) in
  match GetControllerOf secret with
  | Some controller =>
      if String.eqb (or_Kind controller) kcpControllerKind then ensure refs
      else if String.eqb type ClusterSecretType then ensure (RemoveOwnerRef refs controller)
      else refs
  | None => if String.eqb type ClusterSecretType then ensure refs else refs
  end.

Definition adoptKubeconfigSecret (k : KubeadmControlPlane) (secret : Meta) (type : string) :
    M KcpState Meta :=
  _ ← kcall kenv (KObjectHelper secret);
  let secret := meta_set_OwnerReferences (adopted_owners k secret type) secret in
  err ← try_err (kcall kenv (KPatchObject secret));
  match err with Some e => throw (NewAggregate [e]) | None => mret secret end.

Definition reconcileKubeconfig : M KcpState ctrl_Result :=
  c ← gets k_cp;
  let endpoint := kcl_ControlPlaneEndpoint (cpl_Cluster c) in
  if String.eqb endpoint.1 "" && (endpoint.2 =? 0) then mret zero_Result
  else
    let k := cpl_KCP c in
    '(secret, type) ← gets (λ s, re_kubeconfig env (k_calls s));
    err ← try_err (kcall kenv (KGetKubeconfig (cpl_ClusterName c)));
    match err with
    | Some e =>
        if IsNotFound e then
          err ← try_err (kcall kenv (KCreateKubeconfig (cpl_ClusterName c) (endpoint_String endpoint)
                  (kcp_controllerRef k)));
          match err with
          | Some e =>
              if re_certNotFound env e
              then mret {| cr_Requeue := false; cr_RequeueAfter := dependentCertRequeueAfter |}
              else throw e
          | None => mret zero_Result
          end
        else throw (Wrap "failed to retrieve kubeconfig Secret" e)
    | None =>
        secret ← adoptKubeconfigSecret k secret type;
        if negb (IsControlledBy secret (kcp_TypeMeta k) (kcp_Meta k)) then mret zero_Result
        else
          calls ← gets k_calls;
          needsRotation ← lift (re_needsRotation env calls secret);
          _ ← (if (needsRotation : bool)
               then mwrap "failed to regenerate kubeconfig" (kcall kenv (KRegenerateKubeconfig secret))
               else mret tt);
          mret zero_Result
    end.

(** ** Synchronizing Machines *)

(** Only labels and annotations are updated; the UID makes the apply an update. *)
Definition kcp_updateExternalObject (obj : Meta) (kind : string) : M KcpState unit :=
  c ← gets k_cp;
  let k := cpl_KCP c in
  mwrap ("failed to update " +:+ kind) (kcall kenv (KApplyObject
    {| om_Name := om_Name obj; om_Namespace := om_Namespace obj; om_UID := om_UID obj;
       om_Generation := 0; om_CreationTimestamp := zero_time; om_DeletionTimestamp := None;
       om_Labels := ControlPlaneMachineLabelsForCluster (re_MustFormatValue env) k (cpl_ClusterName c);
       om_Annotations := tm_Annotations (kmt_ObjectMeta (ksp_MachineTemplate (kcp_Spec k)));
       om_OwnerReferences := []; om_Finalizers := [] |})).

Definition updateMachine (machine : Machine) : M KcpState Machine :=
  c ← gets k_cp;
  calls ← gets k_calls;
  updatedMachine ← lift (wrapErr "failed to update Machine: failed to compute desired Machine"
    (kcp_computeDesiredMachine (re_MustFormatValue env) (re_generateName env calls) (cpl_KCP c)
       (cpl_ClusterName c) (sp_FailureDomain (m_Spec machine)) (Some machine)));
  _ ← mwrap "failed to update Machine" (kcall kenv (KApplyMachine updatedMachine));
  mret (re_applied env calls updatedMachine).

Definition sync_deleting (name : string) (m : Machine) : M KcpState unit :=
  template ← gets (λ s, ksp_MachineTemplate (kcp_Spec (cpl_KCP (k_cp s))));
  _ ← kcall kenv (KNewHelper m);
  let m := m_set_timeouts (kmt_NodeDrainTimeout template) (kmt_NodeVolumeDetachTimeout template)
             (kmt_NodeDeletionTimeout template) m in
  _ ← kstore name m;
  _ ← kcall kenv (KPatchMachine m);
  kcall kenv (KNewHelper m).

Definition kcp_sync_external (obj : Meta) (kind : string) : M KcpState unit :=
  _ ← mwrap ("failed to clean up managedFields of " +:+ kind +:+ " " +:+ om_Name obj)
        (kcall kenv (KDropManagedFields obj));
  mwrap ("failed to update " +:+ kind +:+ " " +:+ om_Name obj) (kcp_updateExternalObject obj kind).

Definition kcp_sync_machine (name : string) : M KcpState unit :=
  m ← kload name;
  if is_deleting m then sync_deleting name m
  else
    _ ← mwrap ("failed to update Machine: failed to adjust the managedFields of the Machine " +:+ m_Name m)
          (kcall kenv (KCleanUpManagedFields m));
    updatedMachine ← mwrap ("failed to update Machine: " +:+ m_Name m) (updateMachine m);
    _ ← kstore name updatedMachine;
    _ ← kcall kenv (KNewHelper updatedMachine);
    c ← gets k_cp;
    _ ← match cpl_InfraResources c !! name with
        | Some infraMachine => kcp_sync_external infraMachine "InfrastructureMachine"
        | None => mret tt
        end;
    match cpl_KubeadmConfigs c !! name with
    | Some kubeadmConfig =>
        _ ← lift (deref (b_ConfigRef (sp_Bootstrap (m_Spec m))));
        kcp_sync_external (kc_Meta kubeadmConfig) "KubeadmConfig"
    | None => mret tt
    end.

Definition kcp_syncMachines : M KcpState unit :=
  machines ← gets k_machines;
  forM (go_range machines).*1 kcp_sync_machine.

(** ** Conditions *)

(** Sets a v1beta2 condition of every Machine. *)
Definition machines_Set (condition : Machine → MetaCondition) : M KcpState unit :=
  now ← clock;
  modify (λ s, k_set_cp (cpl_set_Machines
    ((λ m, v1beta2_Set now now m (condition m)) <$> k_machines s) (k_cp s)) s).

Definition reconcileMachineUpToDateCondition : M KcpState unit :=
  c ← gets k_cp;
  let machinesNotUptoDateNames := Names (NotUpToDateMachines c) in
  machines_Set (λ m,
    if bool_decide (m_Name m ∈ machinesNotUptoDateNames) then
      let message := match cpl_machinesNotUptoDateConditionMessages c !! m_Name m with
                     | Some reasons => Join reasons "; "
                     | None => ""%string
                     end in
      new_condition MachineUpToDateV1Beta2Condition (ConditionFalse, NotUpToDateV1Beta2Reason, message)
    else new_condition MachineUpToDateV1Beta2Condition (ConditionTrue, UpToDateV1Beta2Reason, ""%string)).

(** The reasons of the conditions of the etcd cluster, the components, the static pods and the
    etcd members are the same constant in each of the calls. *)
Definition setConditionsToUnknown (overwrite : bool) (reason message : string) : M KcpState unit :=
  c ← gets k_cp;
  let etcdClusterHealthySet := v1beta2_Has (cpl_KCP c) EtcdClusterHealthyV1Beta2 in
  let controlPlaneComponentsHealthySet := v1beta2_Has (cpl_KCP c) ControlPlaneComponentsHealthyV1Beta2 in
  let unknown t := new_condition t (ConditionUnknown, reason, message) in
  _ ← (if overwrite || negb etcdClusterHealthySet then
         _ ← kcp_Set EtcdClusterHealthyV1Beta2 ConditionUnknown reason message;
         if IsEtcdManaged c
         then machines_Set (λ _, unknown KubeadmControlPlaneMachineEtcdMemberHealthyV1Beta2Condition)
         else mret tt
       else mret tt);
  if overwrite || negb controlPlaneComponentsHealthySet then
    _ ← kcp_Set ControlPlaneComponentsHealthyV1Beta2 ConditionUnknown reason message;
    forM ([ KubeadmControlPlaneMachineAPIServerPodHealthyV1Beta2Condition;
            KubeadmControlPlaneMachineControllerManagerPodHealthyV1Beta2Condition;
            KubeadmControlPlaneMachineSchedulerPodHealthyV1Beta2Condition ]
          ++ (if IsEtcdManaged c then [KubeadmControlPlaneMachineEtcdPodHealthyV1Beta2Condition] else []))
      (λ condition, machines_Set (λ _, unknown condition))
  else mret tt.

Definition kcp_lastProbeSuccessMessage (lastProbeSuccessTime : Time) : string :=
  if lastProbeSuccessTime =? zero_time then ""
  else "Last successful probe at " +:+ re_formatTime env lastProbeSuccessTime.

Definition kcp_maxTime (t1 t2 : Time) : Time := if t2 <? t1 then t1 else t2.

Definition m_inspected (i : Inspection) (m : Machine) : Machine :=
  SetV1Beta2Conditions (in_machine i (m_Name m)).2 (SetConditions (in_machine i (m_Name m)).1 m).

(** What is found is stored in the control plane; the calls report no error. *)
Definition inspected (i : Inspection) (c : ControlPlane) : ControlPlane :=
  cpl_set_Etcd (in_etcdMembers i) (in_agreeOnMemberList i) (in_agreeOnClusterID i) (in_matching i)
    (cpl_set_KCP (SetV1Beta2Conditions (in_kcp i).2 (SetConditions (in_kcp i).1 (cpl_KCP c)))
      (cpl_set_Machines (m_inspected i <$> cpl_Machines c) c)).

Definition inspect (call : KcpCall) : M KcpState unit :=
  modify (λ s, k_add_call call (k_set_cp (inspected (re_inspect env (k_calls s) (k_cp s)) (k_cp s)) s)).

Definition inspect_conditions : M KcpState unit :=
  _ ← reconcileMachineUpToDateCondition;
  k ← get_kcp;
  let not_initialized := setConditionsToUnknown true kcp_InspectionFailed
        "Waiting for Cluster control plane to be initialized" in
  match Get k kcp_AvailableCondition with
  | None => not_initialized
  | Some controlPlaneInitialized =>
      if negb (kcp_Initialized k) || negb (String.eqb (c_Status controlPlaneInitialized) ConditionTrue)
      then not_initialized
      else
        lastProbeSuccessTime ← gets (λ s, re_lastProbe env (k_calls s));
        now ← clock;
        let since := time_Sub now (kcp_maxTime lastProbeSuccessTime
                       (c_LastTransitionTime controlPlaneInitialized)) in
        if re_gracePeriod env <? since then
          _ ← setConditionsToUnknown true kcp_ConnectionDown (kcp_lastProbeSuccessMessage lastProbeSuccessTime);
          throw (Errorf "connection to the workload cluster is down")
        else
          err ← try_err (GetWorkloadCluster kenv);
          match err with
          | Some e =>
              _ ← (if re_notConnected env e
                   then setConditionsToUnknown false kcp_ConnectionDown
                          (kcp_lastProbeSuccessMessage lastProbeSuccessTime)
                   else setConditionsToUnknown true kcp_InspectionFailed
                          "Please check controller logs for errors");
              throw (Wrap "cannot get client for the workload cluster" e)
          | None => _ ← inspect UpdateStaticPodConditions; inspect UpdateEtcdConditions
          end
  end.

(** Every Machine has a patch helper since the control plane was read. *)
Definition PatchMachines : M KcpState (list error) :=
  machines ← gets k_machines;
  foldM (λ errList m,
    err ← try_err (kcall kenv (KPatchMachine m));
    mret (inl (match err with Some e => errList ++ [e] | None => errList end))) [] (go_values machines).

Definition reconcileControlPlaneAndMachinesConditions : M KcpState unit :=
  reterr ← try_err inspect_conditions;
  errList ← PatchMachines;
  match option_list reterr ++ (match errList with [] => [] | _ => [NewAggregate errList] end) with
  | [] => mret tt
  | errs => throw (NewAggregate errs)
  end.

(** ** Etcd members and the pre-terminate hook *)

(** The Nodes of all Machines, if all of them have one. *)
Definition node_names (machines : Machines) : option (list string) :=
  mapM (λ m, ref_Name <$> st_NodeRef (m_Status m)) (go_values machines).

Definition reconcileEtcdMembers : M KcpState unit :=
  c ← gets k_cp;
  if negb (IsEtcdManaged c) then mret tt
  else if Machines_Len (cpl_Machines c) =? 0 then mret tt
  else
    match node_names (cpl_Machines c) with
    | None => mret tt
    | Some nodeNames =>
        if IsTrue (cpl_KCP c) EtcdClusterHealthyCondition then mret tt
        else
          _ ← mwrap "cannot get remote client to workload cluster" (GetWorkloadCluster kenv);
          mwrap "failed attempt to reconcile etcd members" (kcall kenv (ReconcileEtcdMembersCall nodeNames))
    end.

Definition removePreTerminateHookAnnotationFromMachine (name : string) : M KcpState unit :=
  m ← kload name;
  match om_Annotations (m_Meta m) !! PreTerminateHookCleanupAnnotation with
  | None => mret tt
  | Some _ =>
      let m := m_set_Annotations (delete PreTerminateHookCleanupAnnotation (om_Annotations (m_Meta m))) m in
      _ ← kstore name m;
      mwrap ("failed to remove pre-terminate hook from control plane Machine " +:+ m_Name m)
        (kcall kenv (KPatchMachine m))
  end.

Definition machineHasOtherPreTerminateHooks (machine : Machine) : bool :=
  existsb (λ kv, HasPrefix kv.1 PreTerminateDeleteHookAnnotationPrefix
                 && negb (String.eqb kv.1 PreTerminateHookCleanupAnnotation))
    (map_to_list (om_Annotations (m_Meta machine))).

Definition v1_31 : semver_Version :=
  {| v_Major := 1; v_Minor := 31; v_Patch := 0; v_Pre := []; v_Build := [] |}.

Definition requeue_deletion : ctrl_Result :=
  {| cr_Requeue := false; cr_RequeueAfter := deleteRequeueAfter |}.

(** The Machine controller waits for the hook of this Machine. *)
Definition waits_for_hook (m : Machine) : bool :=
  match Get m PreTerminateDeleteHookSucceededCondition with
  | None => false
  | Some c => String.eqb (c_Status c) ConditionFalse && String.eqb (c_Reason c) WaitingExternalHookReason
  end.

(** Moves the leadership away and removes the etcd member of a Machine in deletion. *)
Definition remove_etcd_member (deletingMachine : Machine) : M KcpState unit :=
  c ← gets k_cp;
  let failed := "failed to remove etcd member for deleting Machine " +:+ m_Name deletingMachine in
  if (1 <? Machines_Len (cpl_Machines c)) && IsEtcdManaged c then
    _ ← mwrap (failed +:+ ": failed to create client to workload cluster") (GetWorkloadCluster kenv);
    _ ← match Newest (Filter (cpl_Machines c) [Not HasDeletionTimestamp]) with
        | Some etcdLeaderCandidate =>
            mwrap ("failed to move leadership to candidate Machine " +:+ m_Name etcdLeaderCandidate)
              (kcall kenv (ForwardEtcdLeadership deletingMachine (Some etcdLeaderCandidate)))
        | None => mret tt
        end;
    mwrap failed (kcall kenv (RemoveEtcdMemberForMachine deletingMachine))
  else mret tt.

Definition reconcilePreTerminateHook : M KcpState ctrl_Result :=
  c ← gets k_cp;
  if negb (HasDeletingMachine c) then mret zero_Result
  else if existsb (λ m, negb (hasAnnotation (m_Meta m) PreTerminateHookCleanupAnnotation))
            (go_values (DeletingMachines c)) then mret requeue_deletion
  else
    deletingMachine ← lift (deref (OldestDeletionTimestamp (DeletingMachines c)));
    let version := ksp_Version (kcp_Spec (cpl_KCP c)) in
    match ParseTolerant version with
    | None => throw (Errorf ("failed to parse Kubernetes version " +:+ version))
    | Some parsedVersion =>
        if (0 <=? Compare parsedVersion v1_31 [WithoutPreReleases])
           && machineHasOtherPreTerminateHooks deletingMachine then mret requeue_deletion
        else if negb (waits_for_hook deletingMachine) then mret requeue_deletion
        else
          _ ← remove_etcd_member deletingMachine;
          _ ← removePreTerminateHookAnnotationFromMachine (m_Name deletingMachine);
          mret requeue_deletion
    end.

(** ** Creating a Machine (helpers.go) *)

Definition generateKubeadmConfig (spec : KubeadmConfigSpec) (name : string) : M KcpState ObjectReference :=
  c ← gets k_cp;
  let bootstrapConfig :=
    generated_KubeadmConfig (re_MustFormatValue env) (cpl_KCP c) (cpl_ClusterName c) spec name in
  uid ← gets (λ s, re_UID env (k_calls s));
  _ ← mwrap "Failed to create bootstrap configuration" (kcall kenv (KCreateConfig bootstrapConfig));
  mret {| ref_APIVersion := "bootstrap.cluster.x-k8s.io/v1beta1"; ref_Kind := "KubeadmConfig";
          ref_Name := name; ref_Namespace := om_Namespace (kc_Meta bootstrapConfig); ref_UID := uid;
          ref_ResourceVersion := ""; ref_FieldPath := "" |}.

(** Creating the replacement completes a remediation. *)
Definition createMachine (machine : Machine) : M KcpState unit :=
  _ ← mwrap "failed to create Machine" (kcall kenv (KCreateMachine machine));
  set_kcp (λ k, kcp_set_Annotations
    (delete RemediationInProgressAnnotation (om_Annotations (kcp_Meta k))) k).

(** Only kind, API version, namespace and name of the reference are used. *)
Definition cleanupFromGeneration (remoteRefs : list (option ObjectReference)) : M KcpState unit :=
  errs ← foldM (λ errs ref,
    match ref with
    | None => mret (inl errs)
    | Some ref =>
        err ← try_err (kcall kenv (KDeleteObject ref));
        mret (inl (match err with
                   | Some e => if IsNotFound e then errs
                               else errs ++ [Wrap "failed to cleanup generated resources after error" e]
                   | None => errs
                   end))
    end) [] remoteRefs;
  match errs with [] => mret tt | _ => throw (NewAggregate errs) end.

Definition creation_failed (reason : string) (e : error) : M KcpState unit :=
  kcp_MarkFalse kcp_MachinesCreatedCondition reason ConditionSeverityError (Sprintf (ke_errorString kenv e)).

(** Creates the bootstrap configuration and then the Machine; returns the reference to the
    configuration, if it was created, and the errors. *)
Definition create_bootstrap_and_machine (bootstrapSpec : KubeadmConfigSpec) (machine : Machine) :
    M KcpState (option ObjectReference * list error) :=
  bootstrapRef ← attempt (generateKubeadmConfig bootstrapSpec (m_Name machine));
  match bootstrapRef with
  | inr e =>
      _ ← creation_failed BootstrapTemplateCloningFailedReason e;
      mret (None, [Wrap "failed to generate bootstrap config" e])
  | inl ref =>
      err ← try_err (createMachine (m_set_ConfigRef (Some ref) machine));
      match err with
      | Some e =>
          _ ← creation_failed MachineGenerationFailedReason e;
          mret (Some ref, [Wrap "failed to create Machine" e])
      | None => mret (Some ref, [])
      end
  end.

Definition cloneConfigsAndGenerateMachine (bootstrapSpec : KubeadmConfigSpec)
    (failureDomain : option string) : M KcpState unit :=
  c ← gets k_cp;
  calls ← gets k_calls;
  let k := cpl_KCP c in
  let template := ksp_MachineTemplate (kcp_Spec k) in
  machine ← lift (wrapErr "failed to create Machine: failed to compute desired Machine"
    (kcp_computeDesiredMachine (re_MustFormatValue env) (re_generateName env calls) k
       (cpl_ClusterName c) failureDomain None));
  let infraCloneOwner := {| or_APIVersion := "controlplane.cluster.x-k8s.io/v1beta1";
    or_Kind := kcpControllerKind; or_Name := om_Name (kcp_Meta k); or_UID := om_UID (kcp_Meta k);
    or_Controller := None; or_BlockOwnerDeletion := None |} in
  let infraMachineName :=
    if re_DeprecatedInfraMachineNaming env
    then re_simpleName env calls (ref_Name (kmt_InfrastructureRef template) +:+ "-") else m_Name machine in
  err ← try_err (kcall kenv (KCreateFromTemplate (kmt_InfrastructureRef template) infraMachineName
          infraCloneOwner (ControlPlaneMachineLabelsForCluster (re_MustFormatValue env) k (cpl_ClusterName c))
          (tm_Annotations (kmt_ObjectMeta template))));
  match err with
  | Some e =>
      _ ← creation_failed InfrastructureTemplateCloningFailedReason e;
      throw (Wrap "failed to clone infrastructure template" e)
  | None =>
      let infraRef := re_cloned env calls in
      '(bootstrapRef, errs) ← create_bootstrap_and_machine bootstrapSpec
                                (m_set_InfrastructureRef infraRef machine);
      match errs with
      | [] => mret tt
      | _ =>
          err ← try_err (cleanupFromGeneration [Some infraRef; bootstrapRef]);
          throw (NewAggregate (errs ++ (Wrap "failed to cleanup generated resources" <$> option_list err)))
      end
  end.

(** ** Scaling up (scale.go) *)

Definition requeue_now : ctrl_Result := {| cr_Requeue := true; cr_RequeueAfter := 0 |}.

(** The steps that the first and the other Machines have in common. *)
Definition create_control_plane_machine (bootstrapSpec : KubeadmConfigSpec) : M KcpState ctrl_Result :=
  c ← gets k_cp;
  let version := ksp_Version (kcp_Spec (cpl_KCP c)) in
  parsedVersionTolerant ← lift (wrapErr ("failed to parse kubernetes version " +:+ version)
    (ParseMajorMinorPatchTolerant version));
  _ ← cloneConfigsAndGenerateMachine (DefaultFeatureGates bootstrapSpec parsedVersionTolerant)
        (NextFailureDomainForScaleUp c);
  mret requeue_now.

Definition initializeControlPlane : M KcpState ctrl_Result :=
  k ← get_kcp; create_control_plane_machine (InitialControlPlaneConfig k).

Definition scaleUpControlPlane : M KcpState ctrl_Result :=
  result ← kcp_preflight [];
  if negb (ctrl_Result_IsZero result) then mret result
  else k ← get_kcp; create_control_plane_machine (JoinControlPlaneConfig k).

(** ** Rolling out (upgrade.go) *)

Definition workload (op : WorkloadOp) : M KcpState unit := kcall kenv (KWorkload op).

Definition mutators_of (k : KubeadmControlPlane) (parsedVersion : semver_Version) :
    result (list (ClusterConfiguration → ClusterConfiguration)) :=
  let version := ksp_Version (kcp_Spec k) in
  kubeadmCMMutators (re_versionString env) k parsedVersion
    (wrapErr ("failed to parse kubernetes version " +:+ version) (ParseMajorMinorPatchTolerant version)).

(** Prepares the workload cluster for Machines of the new version. *)
Definition upgrade_workload (k : KubeadmControlPlane) : M KcpState unit :=
  _ ← GetWorkloadCluster kenv;
  let version := ksp_Version (kcp_Spec k) in
  match ParseTolerant version with
  | None => throw (Errorf ("failed to parse kubernetes version " +:+ version))
  | Some parsedVersion =>
      _ ← mwrap "failed to reconcile the remote kubelet RBAC role" (workload (ReconcileKubeletRBACRole parsedVersion));
      _ ← mwrap "failed to reconcile the remote kubelet RBAC binding"
            (workload (ReconcileKubeletRBACBinding parsedVersion));
      _ ← mwrap "failed to set role and role binding for kubeadm" (workload AllowBootstrapTokensToGetNodes);
      _ ← mwrap "failed to set cluster-admin ClusterRoleBinding for kubeadm"
            (workload (AllowClusterAdminPermissions parsedVersion));
      mutators ← lift (mutators_of k parsedVersion);
      _ ← workload (UpdateClusterConfiguration parsedVersion mutators);
      mwrap "failed to upgrade kubelet config map" (workload (UpdateKubeletConfigMap parsedVersion))
  end.

Definition upgradeControlPlane (machinesRequireUpgrade : Machines) : M KcpState ctrl_Result :=
  k ← get_kcp;
  match ksp_RolloutStrategy (kcp_Spec k) with
  | Some {| krt_Type := type; krt_RollingUpdate := Some rollingUpdate |} =>
      _ ← upgrade_workload k;
      if String.eqb type "RollingUpdate" then
        replicas ← lift (deref (ksp_Replicas (kcp_Spec k)));
        maxSurge ← lift (deref (kru_MaxSurge rollingUpdate));
        let maxNodes := replicas +32 wrap32 (IntValue maxSurge) in
        numMachines ← gets (λ s, wrap32 (Machines_Len (k_machines s)));
        if numMachines <? maxNodes then scaleUpControlPlane
        else scaleDownControlPlane kenv machinesRequireUpgrade
      else mret zero_Result
  | _ => throw (Errorf "rolloutStrategy is not set")
  end.

(** ** Certificate expiry *)

Definition reconcile_certificate_expiry (name : string) : M KcpState unit :=
  c ← gets k_cp;
  match cpl_Machines c !! name with
  | None => mret tt
  | Some m =>
      match cpl_KubeadmConfigs c !! m_Name m with
      | None => mret tt
      | Some kubeadmConfig =>
          let annotations := om_Annotations (kc_Meta kubeadmConfig) in
          if hasAnnotation (kc_Meta kubeadmConfig) MachineCertificatesExpiryDateAnnotation then mret tt
          else
            match st_NodeRef (m_Status m) with
            | None => mret tt
            | Some nodeRef =>
                let failed := "failed to reconcile certificate expiry for Machine/" +:+ m_Name m in
                expiry ← gets (λ s, re_expiry env (k_calls s));
                _ ← mwrap failed (kcall kenv (GetAPIServerCertificateExpiry kubeadmConfig (ref_Name nodeRef)));
                _ ← mwrap failed (kcall kenv (KObjectHelper (kc_Meta kubeadmConfig)));
                let meta := meta_set_Annotations
                  (<[MachineCertificatesExpiryDateAnnotation := expiry]> annotations) (kc_Meta kubeadmConfig) in
                _ ← modify (λ s, k_set_cp (cpl_set_KubeadmConfigs
                      (<[m_Name m := kc_set_Meta meta kubeadmConfig]> (cpl_KubeadmConfigs (k_cp s))) (k_cp s)) s);
                mwrap failed (kcall kenv (KPatchObject meta))
            end
      end
  end.

Definition reconcileCertificateExpiries : M KcpState unit :=
  c ← gets k_cp;
  if Machines_Len (cpl_Machines c) =? 0 then mret tt
  else if negb (kcp_Initialized (cpl_KCP c)) then mret tt
  else
    _ ← mwrap "failed to reconcile certificate expiries: cannot get remote client to workload cluster"
          (GetWorkloadCluster kenv);
    forM (go_range (Filter (cpl_Machines c) [Not HasDeletionTimestamp])).*1 reconcile_certificate_expiry.

(** ** The handler *)

Definition waiting_conditions (message : string) : M KcpState unit :=
  _ ← kcp_Set EtcdClusterHealthyV1Beta2 ConditionUnknown kcp_InspectionFailed message;
  kcp_Set ControlPlaneComponentsHealthyV1Beta2 ConditionUnknown kcp_InspectionFailed message.

(** The workload cluster once all Machines are as desired. *)
Definition reconcile_addons : M KcpState ctrl_Result :=
  k ← get_kcp;
  err ← try_err (GetWorkloadCluster kenv);
  match err with
  | Some _ => mret requeue_now
  | None =>
      _ ← mwrap "failed to set role and role binding for kubeadm" (workload AllowBootstrapTokensToGetNodes);
      let version := ksp_Version (kcp_Spec k) in
      parsedVersion ← lift (wrapErr ("failed to parse kubernetes version " +:+ version)
        (ParseMajorMinorPatchTolerant version));
      _ ← workload (UpdateKubeProxyImageInfo parsedVersion);
      _ ← mwrap "failed to update CoreDNS deployment" (workload (UpdateCoreDNS parsedVersion));
      _ ← reconcileCertificateExpiries;
      mret zero_Result
  end.

(** Rolls out, then scales, then looks after the workload cluster. *)
Definition reconcile_replicas : M KcpState ctrl_Result :=
  c ← gets k_cp;
  let machinesNeedingRollout := MachinesNeedingRollout c in
  if (0 <? size machinesNeedingRollout)%nat then
    let n := Z.of_nat (size machinesNeedingRollout) in
    _ ← kcp_MarkFalse MachinesSpecUpToDateCondition RollingUpdateInProgressReason ConditionSeverityWarning
          ("Rolling " +:+ FormatInt n +:+ " replicas with outdated spec ("
           +:+ FormatInt (Machines_Len (cpl_Machines c) - n) +:+ " replicas up to date)");
    upgradeControlPlane machinesNeedingRollout
  else
    now ← clock;
    _ ← (if Has (cpl_KCP c) MachinesSpecUpToDateCondition
         then set_kcp (λ k, MarkTrue now k MachinesSpecUpToDateCondition) else mret tt);
    let numMachines := Machines_Len (cpl_Machines c) in
    desiredReplicas ← lift (deref (ksp_Replicas (kcp_Spec (cpl_KCP c))));
    if (numMachines <? desiredReplicas) && (numMachines =? 0) then
      _ ← kcp_MarkFalse kcp_AvailableCondition WaitingForKubeadmInitReason ConditionSeverityInfo "";
      initializeControlPlane
    else if (numMachines <? desiredReplicas) && (0 <? numMachines) then scaleUpControlPlane
    else if desiredReplicas <? numMachines then scaleDownControlPlane kenv ∅
    else reconcile_addons.

(** Continues when the result asks for nothing. *)
Definition if_zero (m k : M KcpState ctrl_Result) : M KcpState ctrl_Result :=
  result ← m; if negb (ctrl_Result_IsZero result) then mret result else k.

(** [reconcile] up to the changes of Machines; [inl] where it returns before. *)
Definition or_return (m : M KcpState ctrl_Result) (k : M KcpState (ctrl_Result + unit)) :
    M KcpState (ctrl_Result + unit) :=
  result ← m; if negb (ctrl_Result_IsZero result) then mret (inl result) else k.

Definition kcp_prepare : M KcpState (ctrl_Result + unit) :=
  _ ← reconcileExternalReference;
  cluster ← gets (λ s, cpl_Cluster (k_cp s));
  if negb (kcl_InfrastructureReady cluster) then
    _ ← waiting_conditions "Waiting for Cluster status.infrastructureReady to be true"; mret (inl zero_Result)
  else
    _ ← reconcileClusterCertificates;
    if negb (endpoint_IsValid (kcl_ControlPlaneEndpoint cluster)) then
      _ ← waiting_conditions "Waiting for Cluster spec.controlPlaneEndpoint to be set"; mret (inl zero_Result)
    else
      or_return reconcileKubeconfig (
      _ ← mwrap "failed to sync Machines" kcp_syncMachines;
      now ← clock;
      machines ← gets k_machines;
      _ ← set_kcp (λ k, SetAggregate now k MachinesReadyCondition (ConditionGetters machines) [AddSourceRef]);
      _ ← reconcileControlPlaneAndMachinesConditions;
      _ ← reconcileEtcdMembers;
      or_return reconcilePreTerminateHook (mret (inr tt))).

Definition kcp_reconcile : M KcpState ctrl_Result :=
  prepared ← kcp_prepare;
  match prepared with
  | inl result => mret result
  | inr _ => if_zero (kcp_reconcileUnhealthyMachines kenv) reconcile_replicas
  end.

(** ** Deletion *)

Definition set_deleting (reason message : string) : M KcpState unit :=
  modify (λ s, k_set_cp (cpl_set_Deleting reason message (k_cp s)) s).

Definition deleting_error : M KcpState unit :=
  set_deleting InternalErrorV1Beta2Reason "Please check controller logs for errors".

Definition objectsPendingDeleteNames (allMachines : Machines) (allMachinePools : list string)
    (clusterName : string) : result (list string) :=
  controlPlane ← ControlPlaneMachines clusterName;
  let workerMachines := Difference allMachines (Filter allMachines [controlPlane]) in
  let machinePools :=
    if re_MachinePool env && negb (bool_decide (allMachinePools = []))
    then ["MachinePools: " +:+ ListToString (sort_Strings allMachinePools) 5] else [] in
  let workerMachineNames := m_Name <$> UnsortedList workerMachines in
  let machines :=
    if bool_decide (workerMachineNames = []) then []
    else ["Machines: " +:+ ListToString (sort_Strings workerMachineNames) 5] in
  Ok (machinePools ++ machines).

(** Removes the hook from a Machine and deletes it, unless that has happened. *)
Definition delete_control_plane_machine (errs : list error) (name : string) :
    M KcpState (list error + list error) :=
  err ← try_err (removePreTerminateHookAnnotationFromMachine name);
  match err with
  | Some e => mret (inl (errs ++ [e]))
  | None =>
      m ← kload name;
      if is_deleting m then mret (inl errs)
      else
        err ← try_err (kcall kenv (KDeleteMachine m));
        mret (inl (match err with
                   | Some e => if IsNotFound e then errs
                               else errs ++ [Wrap ("failed to delete control plane Machine " +:+ m_Name m) e]
                   | None => errs
                   end))
  end.

(** Deletes all control plane Machines. *)
Definition kcp_delete_machines : M KcpState ctrl_Result :=
  machines ← gets k_machines;
  errs ← foldM delete_control_plane_machine [] (go_range machines).*1;
  match errs with
  | _ :: _ => _ ← deleting_error; throw (NewAggregate errs)
  | [] =>
      _ ← kcp_MarkFalse kcp_ResizedCondition kcp_DeletingReason ConditionSeverityInfo "";
      now ← clock;
      machines ← gets k_machines;
      _ ← set_deleting "WaitingForMachineDeletion" (deleting_message now (go_values machines));
      mret requeue_deletion
  end.

(** The error of a call is kept as the reason of the deletion. *)
Definition or_deleting_error {A} (m : M KcpState A) : M KcpState A :=
  r ← attempt m;
  match r with inl a => mret a | inr e => _ ← deleting_error; throw e end.

Definition kcp_reconcileDelete : M KcpState ctrl_Result :=
  machines ← gets k_machines;
  if (size machines =? 0)%nat then
    _ ← set_deleting "DeletionCompleted" "";
    _ ← set_kcp (λ k, kcp_set_Meta (meta_set_Finalizers
          (filter (λ f, f ≠ KubeadmControlPlaneFinalizer) (om_Finalizers (kcp_Meta k))) (kcp_Meta k)) k);
    mret zero_Result
  else
    _ ← try_err reconcileControlPlaneAndMachinesConditions;
    now ← clock;
    machines ← gets k_machines;
    _ ← set_kcp (λ k, SetAggregate now k MachinesReadyCondition (ConditionGetters machines) [AddSourceRef]);
    allMachines ← gets (λ s, re_allMachines env (k_calls s));
    _ ← or_deleting_error (kcall kenv KGetMachinesForCluster);
    allMachinePools ←
      (if re_MachinePool env then
         allMachinePools ← gets (λ s, re_machinePools env (k_calls s));
         _ ← or_deleting_error (kcall kenv KGetMachinePoolsForCluster);
         mret allMachinePools
       else mret []);
    c ← gets k_cp;
    if negb (size allMachines =? size (cpl_Machines c))%nat || negb (length allMachinePools =? 0)%nat then
      _ ← kcp_MarkFalse kcp_ResizedCondition kcp_DeletingReason ConditionSeverityInfo
            "Waiting for worker nodes to be deleted first";
      names ← lift (objectsPendingDeleteNames allMachines allMachinePools (cpl_ClusterName c));
      _ ← set_deleting "WaitingForWorkersDeletion"
            ("KubeadmControlPlane deletion blocked because following objects still exist:" +:+ nl
             +:+ Join ((λ name, "* " +:+ name) <$> names) nl);
      mret requeue_deletion
    else kcp_delete_machines.
End reconcile.
