(* ===== verification/KcpReconcileSpec.v ===== *)
(** * What one reconciliation of a KubeadmControlPlane does

    A program logic for the handlers of KcpReconcile.v, and its results: a reconciliation
    creates or deletes at most one Machine, and only when it may; a creation that fails leaves
    no object behind; the etcd member of a Machine goes before its pre-terminate hook; and a
    deletion waits for the workers. *)

From S2P Require Import Prelude GoStd Json JsonCodec Api Apimachinery Util Conditions Version Collections.
From S2P Require Import FailureDomains ConditionsV1Beta2 ConditionsMerge StatusConditions External MachineSetPolicy MachineSet MachineSetSpec.
From S2P Require Import Kubeadm KubeadmConfig KcpTypes KubeadmControlPlane KubeadmControlPlaneSpec KcpUpToDate.
From S2P Require Import KcpMachines KcpWorkload KcpReconcile.

(** ** Program logic *)

(** The Machines have the names [N] and are stored under them. *)
Record settled (N : gset string) (s : KcpState) : Prop := {
  se_names : dom (k_machines s) = N;
  se_keyed : keyed (k_machines s);
}.

(** The parts of the KubeadmControlPlane that no handler changes. *)
Record same_spec (k k' : KubeadmControlPlane) : Prop := {
  ss_replicas : ksp_Replicas (kcp_Spec k') = ksp_Replicas (kcp_Spec k);
  ss_version : ksp_Version (kcp_Spec k') = ksp_Version (kcp_Spec k);
  ss_strategy : ksp_RolloutStrategy (kcp_Spec k') = ksp_RolloutStrategy (kcp_Spec k);
  ss_config : kcp_KubeadmConfigSpec k' = kcp_KubeadmConfigSpec k;
  ss_finalizers : om_Finalizers (kcp_Meta k') = om_Finalizers (kcp_Meta k);
}.

Record kept (s s' : KcpState) : Prop := {
  kp_outdated : cpl_machinesNotUptoDate (k_cp s') = cpl_machinesNotUptoDate (k_cp s);
  kp_cluster : cpl_Cluster (k_cp s') = cpl_Cluster (k_cp s);
  kp_spec : same_spec (cpl_KCP (k_cp s)) (cpl_KCP (k_cp s'));
}.

#[global] Instance same_spec_preorder : PreOrder same_spec.
Proof. split; [by split|]. intros k1 k2 k3 [] []. split; congruence. Qed.

#[global] Instance kept_preorder : PreOrder kept.
Proof. split; [by split|]. intros s1 s2 s3 [? ? ?] [? ? ?]. split; [congruence..|by etrans]. Qed.

Definition triple {A} (N : gset string) (P : KcpCall → Prop) (m : M KcpState A) (Q : A → Prop) : Prop :=
  ∀ s r s', settled N s → m s = (r, s') →
    settled N s' ∧ kept s s' ∧ (∃ cs, k_calls s' = k_calls s ++ cs ∧ Forall P cs) ∧ (∀ a, r = Ok a → Q a).

(** Nothing is said of the value. *)
Definition anything {A} (_ : A) : Prop := True.

Section logic.
Context (N : gset string) (P : KcpCall → Prop).

Lemma t_stay {A} (m : M KcpState A) (Q : A → Prop) :
  (∀ s, settled N s → (m s).2 = s ∧ ∀ a, (m s).1 = Ok a → Q a) → triple N P m Q.
Proof.
  intros Hm s r s' Hs E. destruct (Hm s Hs) as [H2 H1]. rewrite E in H1, H2. simpl in H1, H2. subst s'.
  split_and!; [done..| |done]. exists []. by rewrite app_nil_r.
Qed.

Lemma t_ret {A} (a : A) (Q : A → Prop) : Q a → triple N P (mret a) Q.
Proof. intros Ha. apply t_stay. intros s _. split; [done|]. by intros ? [= <-]. Qed.

Lemma t_throw {A} e (Q : A → Prop) : triple N P (throw e) Q.
Proof. by apply t_stay. Qed.

Lemma t_lift {A} (r : result A) (Q : A → Prop) : (∀ a, r = Ok a → Q a) → triple N P (lift r) Q.
Proof. intros Hr. by apply t_stay. Qed.

Lemma t_gets {A} (f : KcpState → A) (Q : A → Prop) : (∀ s, settled N s → Q (f s)) → triple N P (gets f) Q.
Proof. intros Hf. apply t_stay. intros s Hs. split; [done|]. intros ? [= <-]. auto. Qed.

Lemma t_bind {A B} (m : M KcpState A) (f : A → M KcpState B) (Q1 : A → Prop) (Q : B → Prop) :
  triple N P m Q1 → (∀ a, Q1 a → triple N P (f a) Q) → triple N P (m ≫= f) Q.
Proof.
  intros Hm Hf s r s' Hs E. unfold mbind, M_bind in E.
  destruct (m s) as [[a|e|] s1] eqn:E1; destruct (Hm _ _ _ Hs E1) as (Hs1 & Hk1 & (cs & Hcs & HP) & Hq).
  - destruct (Hf a (Hq a eq_refl) _ _ _ Hs1 E) as (Hs2 & Hk2 & (cs' & Hcs' & HP') & Hq').
    split_and!; [done|by etrans| |done]. exists (cs ++ cs'). rewrite Hcs', Hcs, app_assoc.
    split; [done|]. by apply Forall_app.
  - injection E as <- <-. split_and!; eauto. done.
  - injection E as <- <-. split_and!; eauto. done.
Qed.

Lemma t_mono {A} (m : M KcpState A) (Q Q' : A → Prop) :
  triple N P m Q → (∀ a, Q a → Q' a) → triple N P m Q'.
Proof. intros Hm HQ s r s' Hs E. destruct (Hm _ _ _ Hs E) as (? & ? & ? & ?). split_and!; auto. Qed.

Lemma t_mwrap {A} msg (m : M KcpState A) (Q : A → Prop) : triple N P m Q → triple N P (mwrap msg m) Q.
Proof.
  intros Hm s r s' Hs E. unfold mwrap in E. destruct (m s) as [x s1] eqn:E1. injection E as <- <-.
  destruct (Hm _ _ _ Hs E1) as (? & ? & ? & Hq). split_and!; [done..|]. intros a ->%wrapErr_Ok. auto.
Qed.

Lemma t_attempt {A} (m : M KcpState A) (Q : A → Prop) :
  triple N P m Q → triple N P (attempt m) (λ r, match r with inl a => Q a | inr _ => True end).
Proof.
  intros Hm s r s' Hs E. unfold attempt in E.
  destruct (m s) as [[a|e|] s1] eqn:E1; injection E as <- <-;
    destruct (Hm _ _ _ Hs E1) as (? & ? & ? & Hq); split_and!; try done; intros ? [= <-]; auto.
Qed.

Lemma t_try_err (m : M KcpState unit) : triple N P m anything → triple N P (try_err m) anything.
Proof.
  intros Hm s r s' Hs E. unfold try_err in E.
  destruct (m s) as [[a|e|] s1] eqn:E1; injection E as <- <-;
    destruct (Hm _ _ _ Hs E1) as (? & ? & ? & Hq); by split_and!.
Qed.

Lemma t_forM {A} (body : A → M KcpState unit) l :
  (∀ x, x ∈ l → triple N P (body x) anything) → triple N P (forM l body) anything.
Proof.
  induction l as [|x l IH]; intros Hb; simpl; [by apply t_ret|].
  eapply t_bind; [apply Hb; left|]. intros _ _. apply IH. intros. apply Hb. by right.
Qed.

Lemma t_foldM {A B} (body : B → A → M KcpState (B + B)) l acc :
  (∀ acc x, x ∈ l → triple N P (body acc x) anything) → triple N P (foldM body acc l) anything.
Proof.
  revert acc. induction l as [|x l IH]; intros acc Hb; simpl; [by apply t_ret|].
  eapply t_bind; [apply Hb; left|]. intros [acc'|acc'] _; [|by apply t_ret].
  apply IH. intros. apply Hb. by right.
Qed.

Lemma t_modify (f : KcpState → KcpState) :
  (∀ s, settled N s → settled N (f s) ∧ kept s (f s) ∧ k_calls (f s) = k_calls s) →
  triple N P (modify f) anything.
Proof.
  intros Hf s r s' Hs [= <- <-]. destruct (Hf s Hs) as (? & ? & ->). split_and!; try done.
  exists []. by rewrite app_nil_r.
Qed.

Lemma t_kcall env c : P c → triple N P (kcall env c) anything.
Proof.
  intros HP s r s' [] [= <- <-]. split_and!; [by split..| |done]. exists [c]. split; [done|]. by constructor.
Qed.

Lemma t_kload name : name ∈ N → triple N P (kload name) (λ m, m_Name m = name).
Proof.
  intros Hn. apply t_gets. intros s [Hd Hk]. rewrite <- Hd in Hn. apply elem_of_dom in Hn as [m Hm].
  rewrite Hm. simpl. by apply Hk.
Qed.

Lemma t_kstore name m : name ∈ N → m_Name m = name → triple N P (kstore name m) anything.
Proof.
  intros Hn Hm. apply t_modify. intros s [Hd Hk]. split_and!; [|by split|done].
  split; unfold k_machines in *; simpl.
  - rewrite dom_insert_L, Hd. set_solver.
  - intros k x [[<- <-]|[? Hx]]%lookup_insert_Some; [done|]. by apply Hk.
Qed.

Lemma t_machines (f : Machine → Machine) :
  (∀ m, m_Name (f m) = m_Name m) →
  triple N P (modify (λ s, k_set_cp (cpl_set_Machines (f <$> k_machines s) (k_cp s)) s)) anything.
Proof.
  intros Hf. apply t_modify. intros s [Hd Hk]. split_and!; [|by split|done].
  split; unfold k_machines in *; simpl.
  - by rewrite dom_fmap_L.
  - intros k x (m & <- & Hm)%lookup_fmap_Some. rewrite Hf. by apply Hk.
Qed.

Lemma t_set_kcp (f : KubeadmControlPlane → KubeadmControlPlane) :
  (∀ k, same_spec k (f k)) → triple N P (set_kcp f) anything.
Proof.
  intros Hf. apply t_modify. intros s [Hd Hk]. split_and!; [by split| |done]. split; [done..|apply Hf].
Qed.
End logic.

(** ** The handlers keep the Machines *)

Create HintDb kcp.

Lemma same_spec_Set `{GoSort} now (k : KubeadmControlPlane) c : same_spec k (Set_ now k c).
Proof. unfold Set_. destruct c; by split. Qed.

Lemma same_spec_v1beta2_Set `{MetaConditions} now apiNow (k : KubeadmControlPlane) c :
  same_spec k (v1beta2_Set now apiNow k c).
Proof. unfold v1beta2_Set, v1beta2_Set_sorted. repeat case_match; by split. Qed.

Lemma same_spec_SetAggregate `{GoSort} now (k : KubeadmControlPlane) t (from : list Machine) options :
  same_spec k (SetAggregate now k t from options).
Proof. apply same_spec_Set. Qed.

#[export] Hint Resolve same_spec_Set same_spec_v1beta2_Set same_spec_SetAggregate : kcp.

(** One step of a proof about a handler. *)
Ltac t_step :=
  match goal with
  | |- triple _ _ (mret _) _ => by apply t_ret
  | |- triple _ _ (throw _) _ => apply t_throw
  | |- triple _ _ (lift _) _ => by apply t_lift
  | |- triple _ _ (gets _) anything => by apply t_gets
  | |- triple _ _ (kcall _ _) _ => by apply t_kcall
  | |- triple _ _ (mwrap _ _) _ => apply t_mwrap
  | |- triple _ _ (try_err _) _ => apply t_try_err
  | |- triple _ _ (kstore _ _) _ => apply t_kstore; [done|try assumption]
  | |- triple _ _ (set_kcp _) _ => apply t_set_kcp; intros ?; auto with kcp; by split
  | |- triple _ _ (kload ?n ≫= _) _ => eapply t_bind; [by apply t_kload|intros ? ?]
  | |- triple _ _ (attempt _ ≫= _) _ => eapply t_bind; [apply t_attempt with (Q := anything)|intros [?|?] _]
  | |- triple _ _ (_ ≫= _) _ => eapply (t_bind _ _ _ _ anything); [|intros ? _]
  | |- triple _ _ (match ?x with _ => _ end) _ => destruct x eqn:?
  | |- triple _ _ (forM _ _) _ => apply t_forM; intros ? ?
  | |- triple _ _ (foldM _ _ _) _ => apply t_foldM; intros ? ? ?
  | |- triple _ _ _ _ => progress cbn beta zeta
  end.

Section handlers.
Context `{Apimachinery} `{GoSort} `{GoRange} `{MetaConditions} `{Semver} `{LabelSelectors} `{KubeTypes}.
Context (env : ReconcileEnv) (N : gset string) (P : KcpCall → Prop).
Hypothesis Pcalm : ∀ c, calm c → P c.

(** A response to an apply is about the same Machine. *)
Hypothesis applied_name : ∀ calls m, m_Name (re_applied env calls m) = m_Name m.

Abbreviation kenv := (re_kcp env) (only parsing).

Lemma t_calm ke c : calm c → triple N P (kcall ke c) anything.
Proof. intros Hc. by apply t_kcall, Pcalm. Qed.

Ltac h_step :=
  match goal with
  | |- triple _ _ (kcall _ _) _ => by apply t_calm
  | |- _ => t_step
  end.

Lemma t_reconcileExternalReference : triple N P (reconcileExternalReference env) anything.
Proof.
  unfold reconcileExternalReference. repeat h_step.
  apply t_modify. intros s []. by split_and!; split.
Qed.

Lemma t_clock : triple N P (clock env) anything.
Proof. unfold clock. repeat h_step. Qed.

Lemma t_get_kcp : triple N P get_kcp anything.
Proof. unfold get_kcp. repeat h_step. Qed.

Lemma t_kcp_MarkFalse t reason severity message :
  triple N P (kcp_MarkFalse env t reason severity message) anything.
Proof. unfold kcp_MarkFalse, MarkFalse. repeat first [apply t_clock|h_step]. Qed.

Lemma t_kcp_Set t status reason message : triple N P (kcp_Set env t status reason message) anything.
Proof. unfold kcp_Set. repeat first [apply t_clock|h_step]. Qed.

Ltac h_auto := repeat first [apply t_clock | apply t_get_kcp | apply t_kcp_MarkFalse | apply t_kcp_Set | h_step].

Lemma t_GetWorkloadCluster ke : triple N P (GetWorkloadCluster ke) anything.
Proof.
  unfold GetWorkloadCluster. h_auto. apply t_modify. intros s []. by split_and!; split.
Qed.

Lemma t_reconcileClusterCertificates : triple N P (reconcileClusterCertificates env) anything.
Proof. unfold reconcileClusterCertificates, certificates_error, MarkTrue. h_auto. Qed.

Lemma t_reconcileKubeconfig : triple N P (reconcileKubeconfig env) anything.
Proof. unfold reconcileKubeconfig, adoptKubeconfigSecret. h_auto. Qed.

(** Machines computed for an update keep their names. *)
Lemma computed_update_name f generate k cluster fd m m' :
  kcp_computeDesiredMachine f generate k cluster fd (Some m) = Ok m' → m_Name m' = m_Name m.
Proof. by intros [= <-]. Qed.

Lemma t_updateMachine m : triple N P (updateMachine env m) (λ m', m_Name m' = m_Name m).
Proof.
  unfold updateMachine. do 2 (eapply (t_bind _ _ _ _ anything); [by apply t_gets|intros ? _]).
  eapply t_bind; [apply t_lift with (Q := λ m', m_Name m' = m_Name m)|].
  { intros m' E%wrapErr_Ok. by eapply computed_update_name. }
  intros m' Hm'. eapply (t_bind _ _ _ _ anything); [h_auto|]. intros _ _. apply t_ret.
  by rewrite applied_name.
Qed.

Lemma t_sync_external obj kind : triple N P (kcp_sync_external env obj kind) anything.
Proof. unfold kcp_sync_external, kcp_updateExternalObject. h_auto. Qed.

Lemma t_sync_machine name : name ∈ N → triple N P (kcp_sync_machine env name) anything.
Proof.
  intros Hn. unfold kcp_sync_machine. h_step. destruct (is_deleting a).
  { unfold sync_deleting. h_auto. }
  eapply (t_bind _ _ _ _ anything); [h_auto|]. intros _ _.
  eapply t_bind; [apply t_mwrap, t_updateMachine|]. intros m' Hm'.
  eapply (t_bind _ _ _ _ anything); [apply t_kstore; [done|congruence]|]. intros _ _.
  repeat first [apply t_sync_external|h_step].
Qed.

(** The names of a collection read from the state. *)
Lemma t_k_machines : triple N P (gets k_machines) (λ ms, dom ms = N ∧ keyed ms).
Proof. apply t_gets. by intros s []. Qed.

Lemma go_keys_in (ms : Machines) name : dom ms = N → name ∈ (go_range ms).*1 → name ∈ N.
Proof. intros <- Hin. by apply elem_of_dom, elem_of_go_keys. Qed.

Lemma t_syncMachines : triple N P (kcp_syncMachines env) anything.
Proof.
  unfold kcp_syncMachines. eapply t_bind; [apply t_k_machines|]. intros ms [Hd _]. h_step.
  apply t_sync_machine. by eapply go_keys_in.
Qed.

Lemma t_machines_Set condition : triple N P (machines_Set env condition) anything.
Proof.
  unfold machines_Set. eapply (t_bind _ _ _ _ anything); [apply t_clock|]. intros now _. apply t_machines.
  intros m. unfold m_Name. by rewrite v1beta2_Set_meta.
Qed.

Lemma t_setConditionsToUnknown overwrite reason message :
  triple N P (setConditionsToUnknown env overwrite reason message) anything.
Proof. unfold setConditionsToUnknown. repeat first [apply t_machines_Set|apply t_kcp_Set|h_step]. Qed.

Lemma t_inspect c : calm c → triple N P (inspect env c) anything.
Proof.
  intros Hc s r s' [Hd Hk] [= <- <-]. split_and!; [|split; [done|done|by split]| |done].
  - split; unfold k_machines in *; simpl; [by rewrite dom_fmap_L|].
    intros k x (m & <- & Hm)%lookup_fmap_Some. exact (Hk _ _ Hm).
  - exists [c]. split; [done|]. constructor; auto.
Qed.

Ltac i_step :=
  match goal with
  | |- triple _ _ (machines_Set _ _) _ => apply t_machines_Set
  | |- triple _ _ (setConditionsToUnknown _ _ _ _) _ => apply t_setConditionsToUnknown
  | |- triple _ _ (inspect _ _) _ => by apply t_inspect
  | |- triple _ _ (GetWorkloadCluster _) _ => apply t_GetWorkloadCluster
  | |- triple _ _ (clock _) _ => apply t_clock
  | |- triple _ _ get_kcp _ => apply t_get_kcp
  | |- _ => h_step
  end.

Lemma t_inspect_conditions : triple N P (inspect_conditions env) anything.
Proof. unfold inspect_conditions, reconcileMachineUpToDateCondition. repeat i_step. Qed.

Lemma t_reconcileControlPlaneAndMachinesConditions :
  triple N P (reconcileControlPlaneAndMachinesConditions env) anything.
Proof.
  unfold reconcileControlPlaneAndMachinesConditions, PatchMachines.
  repeat first [apply t_inspect_conditions | i_step].
Qed.

Lemma t_reconcileEtcdMembers : triple N P (reconcileEtcdMembers env) anything.
Proof. unfold reconcileEtcdMembers. repeat first [apply t_GetWorkloadCluster|h_step]. Qed.

Lemma t_removeHook name :
  name ∈ N → triple N P (removePreTerminateHookAnnotationFromMachine env name) anything.
Proof. intros Hn. unfold removePreTerminateHookAnnotationFromMachine. h_auto. Qed.

(** The Machine whose hook is run is one of the Machines in deletion. *)
Lemma oldest_deleting (ms : Machines) m :
  keyed ms → OldestDeletionTimestamp (Filter ms [HasDeletionTimestamp]) = Some m →
  ms !! m_Name m = Some m ∧ is_deleting m = true.
Proof.
  intros Hk Hm. assert (keyed (Filter ms [HasDeletionTimestamp])) as Hkf by (by apply keyed_Filter).
  destruct (Oldest_outcome _ Hkf) as (_ & _ & _ & _ & _ & Hold). destruct (Hold m Hm) as [Hin _].
  apply elem_of_UnsortedList in Hin; [|done]. by apply Filter1_lookup in Hin as [? ?].
Qed.

Lemma t_k_cp : triple N P (gets k_cp) (λ c, dom (cpl_Machines c) = N ∧ keyed (cpl_Machines c)).
Proof. apply t_gets. by intros s []. Qed.

Lemma t_remove_etcd_member m : triple N P (remove_etcd_member env m) anything.
Proof. unfold remove_etcd_member. repeat first [apply t_GetWorkloadCluster|h_step]. Qed.

Lemma t_reconcilePreTerminateHook : triple N P (reconcilePreTerminateHook env) anything.
Proof.
  unfold reconcilePreTerminateHook. eapply t_bind; [apply t_k_cp|]. intros c [Hd Hk].
  destruct (negb _); [h_step|]. destruct (existsb _ _); [h_step|].
  eapply t_bind; [apply t_lift with (Q := λ m, m_Name m ∈ N)|].
  { intros m. unfold deref, DeletingMachines. destruct (OldestDeletionTimestamp _) as [x|] eqn:Eo; [|done].
    intros [= <-]. apply oldest_deleting in Eo as [Hm _]; [|done]. rewrite <- Hd. by apply elem_of_dom_2 in Hm. }
  intros m Hm. repeat first [apply t_remove_etcd_member|by apply t_removeHook|h_step].
Qed.

(** *** Remediation *)

Lemma t_mark_remediated ke name reason severity message v1r v1m :
  name ∈ N → triple N P (mark_remediated ke name reason severity message v1r v1m) anything.
Proof.
  intros Hn. unfold mark_remediated. h_step; [h_step|]. h_step. apply t_kstore; [done|].
  unfold m_Name, MarkFalse. by rewrite v1beta2_Set_meta, Set_meta.
Qed.

Ltac r_auto Hn := repeat first [by apply t_mark_remediated | apply t_GetWorkloadCluster | h_step].

Lemma t_kcp_cleanup ke errs name : name ∈ N → triple N P (kcp_cleanup ke errs name) anything.
Proof.
  intros Hn. unfold kcp_cleanup. h_step. destruct (is_deleting a); [h_step|]. cbv zeta. destruct (negb _); [h_step|].
  eapply (t_bind _ _ _ _ anything); [h_auto|]. intros [e|] _; [h_step|].
  set (m1 := if _ && _ then Delete a _ else a).
  assert (m_Name m1 = name) as Hm1.
  { unfold m1. case_match; [|done]. by rewrite (same_node_name _ _ (Delete_status a)). }
  clearbody m1. eapply t_bind with (Q1 := λ m, m_Name m = name).
  { case_match; [|by apply t_ret]. apply t_lift. intros m' Hm'%v1beta2_Delete_status. by rewrite (same_node_name _ _ Hm'). }
  intros m' Hm'. h_auto.
Qed.

Lemma t_deferred_patch ke {A} name (body : M KcpState A) (Q : A → Prop) :
  triple N P body Q → triple N P (deferred_patch ke name body) Q.
Proof.
  intros Hb s r s' Hs E. unfold deferred_patch in E. destruct (body s) as [x s1] eqn:E1.
  destruct (Hb _ _ _ Hs E1) as (Hs1 & Hk1 & (cs & Hcs & HP) & Hq).
  set (m := default emptyMachine _) in E. destruct (kcall ke (KPatchMachine m) s1) as [p s2] eqn:E2.
  destruct (t_calm ke (KPatchMachine m) I _ _ _ Hs1 E2) as (Hs2 & Hk2 & (cs' & Hcs' & HP') & _).
  injection E as <- <-. split_and!; [done|by etrans| |].
  - exists (cs ++ cs'). rewrite Hcs', Hcs, app_assoc. split; [done|]. by apply Forall_app.
  - destruct x, p; intros; simplify_eq; auto.
Qed.

Lemma t_checkRetryLimits ke name now : name ∈ N → triple N P (checkRetryLimits ke name now) anything.
Proof. intros Hn. unfold checkRetryLimits, wait_for_remediation. r_auto Hn. Qed.

Lemma t_remediation_is_safe ke name : name ∈ N → triple N P (remediation_is_safe ke name) anything.
Proof.
  intros Hn. unfold remediation_is_safe, wait_for_remediation, internal_error, canSafelyRemoveEtcdMember.
  r_auto Hn.
Qed.

Lemma t_forward_leadership ke name : name ∈ N → triple N P (forward_leadership ke name) anything.
Proof. intros Hn. unfold forward_leadership, internal_error. r_auto Hn. Qed.

Lemma t_remediation_in_progress ke : triple N P (remediation_in_progress ke) anything.
Proof.
  unfold remediation_in_progress. h_auto. apply t_modify. intros s' [].
  split_and!; [by split|split; [done..|by split]|done].
Qed.

Lemma t_delete_unhealthy_machine ke name data :
  (∀ m, P (KDeleteMachine m)) → name ∈ N → triple N P (delete_unhealthy_machine ke name data) anything.
Proof.
  intros Pdel Hn. unfold delete_unhealthy_machine, internal_error. h_step.
  eapply (t_bind _ _ _ _ anything); [apply t_try_err, t_kcall, Pdel|]. intros [e|] _; [r_auto Hn|].
  r_auto Hn. apply t_modify. intros s' []. split_and!; [by split|split; [done..|by split]|done].
Qed.

Lemma t_remediate_machine ke name now :
  (∀ m, P (KDeleteMachine m)) → name ∈ N → triple N P (remediate_machine ke name now) anything.
Proof.
  intros Pdel Hn. unfold remediate_machine.
  repeat first [by apply t_checkRetryLimits | by apply t_remediation_is_safe | by apply t_forward_leadership
    | by apply t_delete_unhealthy_machine | h_step].
Qed.

Lemma t_kcp_reconcileUnhealthyMachines ke :
  (∀ m, P (KDeleteMachine m)) → triple N P (kcp_reconcileUnhealthyMachines ke) anything.
Proof.
  intros Pdel. unfold kcp_reconcileUnhealthyMachines. h_step; [h_step|].
  eapply t_bind; [apply t_k_machines|]. intros ms [Hd _].
  eapply (t_bind _ _ _ _ anything).
  { h_step. apply t_kcp_cleanup. by eapply go_keys_in. }
  intros [|e errs] _; [|h_step]. eapply t_bind; [apply t_k_cp|]. intros c [Hd' Hk]. cbv zeta.
  destruct (_ =? _)%nat; [h_step|].
  eapply t_bind; [apply t_lift with (Q := λ m, m_Name m ∈ N)|].
  { intros m. unfold deref. destruct (getMachineToBeRemediated _) as [x|] eqn:Em; [|done]. intros [= <-].
    apply getMachineToBeRemediated_in in Em; [|by apply keyed_Filter].
    apply Filter1_lookup in Em as [Em _]; [|done]. rewrite <- Hd'. by eapply elem_of_dom_2. }
  intros m Hm. destruct (is_deleting m); [h_step|].
  eapply (t_bind _ _ _ _ anything); [apply t_remediation_in_progress|]. intros [|] _; [h_step|].
  eapply (t_bind _ _ _ _ anything); [h_auto|]. intros _ _.
  by apply t_deferred_patch, t_remediate_machine.
Qed.
End handlers.

(** ** A remediation that lets the reconciliation go on deletes nothing *)

Definition quiet (s s' : KcpState) : Prop := ∃ cs, k_calls s' = k_calls s ++ cs ∧ Forall calm cs.

#[global] Instance quiet_preorder : PreOrder quiet.
Proof.
  split.
  - intros s. exists []. by rewrite app_nil_r.
  - intros s1 s2 s3 (cs & Hcs & Hc) (cs' & Hcs' & Hc'). exists (cs ++ cs').
    rewrite Hcs', Hcs, app_assoc. split; [done|]. by apply Forall_app.
Qed.

Section zero.
Context `{Apimachinery} `{GoSort} `{GoRange} `{MetaConditions}.
Context (ke : KcpEnv) (N : gset string).

Lemma triple_quiet {A} (m : M KcpState A) (Q : A → Prop) s a s' :
  triple N calm m Q → settled N s → m s = (Ok a, s') → settled N s' ∧ quiet s s' ∧ Q a.
Proof. intros Hm Hs E. destruct (Hm _ _ _ Hs E) as (? & ? & ? & ?). split_and!; auto. Qed.

Lemma delete_unhealthy_nonzero name data s res s' :
  delete_unhealthy_machine ke name data s = (Ok res, s') → ctrl_Result_IsZero res = false.
Proof.
  intros (m & s1 & _ & E)%bind_Ok. apply bind_Ok in E as ([e|] & s2 & _ & E).
  - by apply bind_Ok in E as (? & ? & _ & [=]).
  - apply bind_Ok in E as (? & ? & _ & E). apply bind_Ok in E as (? & ? & _ & E).
    apply bind_Ok in E as (? & ? & _ & E). by injection E as <- <-.
Qed.

Lemma remediate_machine_zero name now s res s' :
  name ∈ N → settled N s → remediate_machine ke name now s = (Ok res, s') →
  ctrl_Result_IsZero res = true → quiet s s'.
Proof.
  intros Hn Hs ([data can] & s1 & E1 & E)%bind_Ok Hz.
  apply (triple_quiet _ anything) in E1 as (Hs1 & Hq1 & _); [|by apply t_checkRetryLimits|done].
  destruct can; simpl in E; [|injection E as _ <-; done].
  apply bind_Ok in E as (init & s2 & E2 & E). injection E2 as <- <-.
  destruct (kcp_Initialized _); cbn [negb] in E; [|apply delete_unhealthy_nonzero in E; congruence].
  apply bind_Ok in E as (safe & s2 & E2 & E).
  apply (triple_quiet _ anything) in E2 as (Hs2 & Hq2 & _); [|by apply t_remediation_is_safe|done].
  destruct safe; simpl in E; [|injection E as _ <-; by etrans].
  apply bind_Ok in E as (fwd & s3 & E3 & E).
  apply (triple_quiet _ anything) in E3 as (Hs3 & Hq3 & _); [|by apply t_forward_leadership|done].
  destruct fwd; simpl in E; [apply delete_unhealthy_nonzero in E; congruence|].
  injection E as _ <-. by do 2 (etrans; [|eassumption]).
Qed.

Lemma deferred_patch_Ok {A} name (body : M KcpState A) s a s' :
  deferred_patch ke name body s = (Ok a, s') → ∃ s1, body s = (Ok a, s1) ∧ quiet s1 s'.
Proof.
  unfold deferred_patch. destruct (body s) as [x s1] eqn:E1. set (m := default emptyMachine _).
  unfold kcall. destruct (ke_error ke (k_calls s1) (KPatchMachine m)), x; intros [=]; simplify_eq;
    exists s1; (split; [done|]); exists [KPatchMachine m]; (split; [done|by constructor]).
Qed.

Lemma remediation_zero_quiet s res s' :
  settled N s → kcp_reconcileUnhealthyMachines ke s = (Ok res, s') →
  ctrl_Result_IsZero res = true → quiet s s'.
Proof.
  intros Hs (now & s0 & [= <- <-] & E)%bind_Ok Hz. apply bind_Ok in E as (ms & s0 & [= <- <-] & E).
  apply bind_Ok in E as (errs & s1 & E1 & E).
  apply (triple_quiet _ anything) in E1 as (Hs1 & Hq1 & _); [| |done].
  2: { apply t_foldM. intros acc x Hx. apply t_kcp_cleanup; [done|].
       eapply go_keys_in; [|exact Hx]. apply Hs. }
  destruct errs; [|done]. apply bind_Ok in E as (c & s2 & [= <- <-] & E).
  cbv zeta in E. destruct (size _ =? 0)%nat; [injection E as _ <-; done|].
  apply bind_Ok in E as (m & s2 & [Em ->]%lift_Ok & E).
  assert (m_Name m ∈ N) as Hm.
  { unfold deref in Em. destruct (getMachineToBeRemediated _) as [x|] eqn:Eg; [|done]. injection Em as <-.
    apply getMachineToBeRemediated_in in Eg; [|apply keyed_Filter, Hs1].
    apply Filter1_lookup in Eg as [Eg _]; [|apply Hs1]. rewrite <- (se_names _ _ Hs1). by eapply elem_of_dom_2. }
  destruct (is_deleting m); [injection E as _ <-; done|].
  apply bind_Ok in E as (b & s2 & E2 & E).
  apply (triple_quiet _ anything) in E2 as (Hs2 & Hq2 & _); [|by apply t_remediation_in_progress|done].
  destruct b; [injection E as _ <-; by etrans|].
  apply bind_Ok in E as ([] & s3 & E3 & E).
  apply (triple_quiet _ anything) in E3 as (Hs3 & Hq3 & _); [|by apply t_kcall|done].
  apply deferred_patch_Ok in E as (s4 & E & Hq5).
  apply remediate_machine_zero in E as Hq4; [|done..].
  by do 4 (etrans; [|eassumption]).
Qed.
End zero.

(** ** Creating a Machine *)

Section creation.
Context `{Apimachinery} `{GoSort} `{GoRange} `{MetaConditions} `{Semver} `{LabelSelectors} `{KubeTypes}.
Context (env : ReconcileEnv).

Abbreviation kenv := (re_kcp env) (only parsing).

(** The objects of a creation in state [s]: the computed Machine, the clone of the infrastructure
    template, the KubeadmConfig, and the Machine with references to both. *)
Definition computes (fd : option string) (s : KcpState) : result Machine :=
  kcp_computeDesiredMachine (re_MustFormatValue env) (re_generateName env (k_calls s)) (cpl_KCP (k_cp s))
    (cpl_ClusterName (k_cp s)) fd None.

Definition clone_call (machine : Machine) (s : KcpState) : KcpCall :=
  let k := cpl_KCP (k_cp s) in
  let template := ksp_MachineTemplate (kcp_Spec k) in
  KCreateFromTemplate (kmt_InfrastructureRef template)
    (if re_DeprecatedInfraMachineNaming env
     then re_simpleName env (k_calls s) (ref_Name (kmt_InfrastructureRef template) +:+ "-") else m_Name machine)
    {| or_APIVersion := "controlplane.cluster.x-k8s.io/v1beta1"; or_Kind := kcpControllerKind;
       or_Name := om_Name (kcp_Meta k); or_UID := om_UID (kcp_Meta k);
       or_Controller := None; or_BlockOwnerDeletion := None |}
    (ControlPlaneMachineLabelsForCluster (re_MustFormatValue env) k (cpl_ClusterName (k_cp s)))
    (tm_Annotations (kmt_ObjectMeta template)).

Definition config_call (spec : KubeadmConfigSpec) (machine : Machine) (s : KcpState) : KcpCall :=
  KCreateConfig (generated_KubeadmConfig (re_MustFormatValue env) (cpl_KCP (k_cp s))
    (cpl_ClusterName (k_cp s)) spec (m_Name machine)).

Definition config_ref (machine : Machine) (s : KcpState) : ObjectReference :=
  {| ref_APIVersion := "bootstrap.cluster.x-k8s.io/v1beta1"; ref_Kind := "KubeadmConfig";
     ref_Name := m_Name machine; ref_Namespace := om_Namespace (kcp_Meta (cpl_KCP (k_cp s)));
     ref_UID := re_UID env (k_calls s ++ [clone_call machine s]);
     ref_ResourceVersion := ""; ref_FieldPath := "" |}.

Definition new_machine (machine : Machine) (s : KcpState) : Machine :=
  m_set_ConfigRef (Some (config_ref machine s))
    (m_set_InfrastructureRef (re_cloned env (k_calls s)) machine).

Lemma set_kcp_calls f s r s' : set_kcp f s = (r, s') → r = Ok tt ∧ k_calls s' = k_calls s.
Proof. by intros [= <- <-]. Qed.

Lemma creation_failed_calls reason e s r s' :
  creation_failed env reason e s = (r, s') → r = Ok tt ∧ k_calls s' = k_calls s.
Proof. by intros [= <- <-]. Qed.

Lemma cleanup_calls refs s :
  ∃ r s', cleanupFromGeneration env refs s = (r, s') ∧ (r = Ok tt ∨ ∃ e, r = Err e) ∧
    k_calls s' = k_calls s ++ (KDeleteObject <$> (refs ≫= option_list)).
Proof.
  unfold cleanupFromGeneration. unfold mbind at 1, M_bind at 1.
  match goal with |- context [foldM ?b _ _ _] => set (body := b) end.
  assert (∀ errs s, ∃ errs' s', foldM body errs refs s = (Ok errs', s') ∧
    k_calls s' = k_calls s ++ (KDeleteObject <$> (refs ≫= option_list))) as Hf.
  { induction refs as [|ref refs IH]; intros errs s0.
    - exists errs, s0. split; [done|]. by rewrite app_nil_r.
    - cbn [foldM]. unfold mbind at 1, M_bind at 1. destruct ref as [ref|].
      + unfold body at 1. unfold mbind at 1, M_bind at 1, try_err, kcall.
        destruct (ke_error _ _ _) as [e|]; cbn [mret M_ret];
          (edestruct IH as (errs' & s' & E & Hc); exists errs', s'; split; [exact E|]; rewrite Hc; simpl;
           by rewrite <- app_assoc).
      + unfold body at 1. edestruct IH as (errs' & s' & E & Hc). exists errs', s'. split; [exact E|]. exact Hc. }
  destruct (Hf [] s) as (errs' & s' & -> & Hc). destruct errs'; eexists _, s'; (split; [reflexivity|]); eauto.
Qed.

(** Which calls a creation makes, and with which outcome. *)
Definition creation_outcome (spec : KubeadmConfigSpec) (m : Machine) (s : KcpState) (r : result unit)
    (cs : list KcpCall) : Prop :=
  let clone := clone_call m s in
  let config := config_call spec m s in
  let create := KCreateMachine (new_machine m s) in
  let fails c before := is_Some (ke_error kenv (k_calls s ++ before) c) in
  (∃ e, r = Err e) ∧ fails clone [] ∧ cs = [clone] ∨
  (∃ e, r = Err e) ∧ fails config [clone] ∧ cs = [clone; config; KDeleteObject (re_cloned env (k_calls s))] ∨
  (∃ e, r = Err e) ∧ fails create [clone; config] ∧
    cs = [clone; config; create; KDeleteObject (re_cloned env (k_calls s)); KDeleteObject (config_ref m s)] ∨
  r = Ok tt ∧ (∀ c before, (c, before) ∈ [(clone, []); (config, [clone]); (create, [clone; config])] →
                 ke_error kenv (k_calls s ++ before) c = None) ∧ cs = [clone; config; create].

Lemma createMachine_calls m s :
  ∃ s', createMachine env m s =
    (match ke_error kenv (k_calls s) (KCreateMachine m) with
     | Some e => Err (Wrap "failed to create Machine" e) | None => Ok tt end, s') ∧
    k_calls s' = k_calls s ++ [KCreateMachine m].
Proof.
  unfold createMachine, mbind, M_bind, mwrap, kcall.
  destruct (ke_error _ _ _); eexists; (split; [reflexivity|done]).
Qed.

Lemma create_bootstrap_and_machine_calls spec m s :
  let config := KCreateConfig (generated_KubeadmConfig (re_MustFormatValue env) (cpl_KCP (k_cp s))
    (cpl_ClusterName (k_cp s)) spec (m_Name m)) in
  let ref := {| ref_APIVersion := "bootstrap.cluster.x-k8s.io/v1beta1"; ref_Kind := "KubeadmConfig";
     ref_Name := m_Name m; ref_Namespace := om_Namespace (kcp_Meta (cpl_KCP (k_cp s)));
     ref_UID := re_UID env (k_calls s); ref_ResourceVersion := ""; ref_FieldPath := "" |} in
  let create := KCreateMachine (m_set_ConfigRef (Some ref) m) in
  ∃ s' bootstrapRef errs, create_bootstrap_and_machine env spec m s = (Ok (bootstrapRef, errs), s') ∧
    (is_Some (ke_error kenv (k_calls s) config) ∧ bootstrapRef = None ∧ errs ≠ [] ∧
       k_calls s' = k_calls s ++ [config] ∨
     ke_error kenv (k_calls s) config = None ∧ bootstrapRef = Some ref ∧
       k_calls s' = k_calls s ++ [config; create] ∧
       (errs ≠ [] ∧ is_Some (ke_error kenv (k_calls s ++ [config]) create) ∨
        errs = [] ∧ ke_error kenv (k_calls s ++ [config]) create = None)).
Proof.
  intros config ref create. unfold create_bootstrap_and_machine, generateKubeadmConfig.
  unfold mbind, M_bind, attempt, gets, mwrap, kcall. cbv beta iota zeta. fold config.
  destruct (ke_error kenv (k_calls s) config) as [e|] eqn:Ec; cbn [wrapErr].
  - eexists _, None, _. split; [reflexivity|]. left. eauto.
  - cbn [mret M_ret]. unfold try_err.
    match goal with |- context [createMachine env ?x ?st] =>
      change x with (m_set_ConfigRef (Some ref) m); change st with (k_add_call config s) end.
    edestruct (createMachine_calls (m_set_ConfigRef (Some ref) m) (k_add_call config s)) as (s1 & -> & Hc).
    fold create in Hc |- *. change (k_calls (k_add_call config s)) with (k_calls s ++ [config]) in *.
    rewrite <- app_assoc in Hc.
    destruct (ke_error kenv (k_calls s ++ [config]) create) as [e|] eqn:Em; eexists _, (Some ref), _;
      (split; [reflexivity|]); right; (split_and!; [done|done|exact Hc|]); eauto.
Qed.

Lemma cloneConfigs_outcome spec fd s r s' :
  cloneConfigsAndGenerateMachine env spec fd s = (r, s') →
  match computes fd s with
  | Ok m => ∃ cs, k_calls s' = k_calls s ++ cs ∧ creation_outcome spec m s r cs
  | _ => r ≠ Ok tt ∧ k_calls s' = k_calls s
  end.
Proof.
  unfold cloneConfigsAndGenerateMachine. do 2 (unfold mbind at 1, M_bind at 1, gets at 1).
  unfold mbind at 1, M_bind at 1, lift. fold (computes fd s).
  destruct (computes fd s) as [m|e|]; cbn [wrapErr]; [|by intros [= <- <-]..].
  cbv zeta. fold (clone_call m s). set (clone := clone_call m s).
  unfold mbind at 1, M_bind at 1, try_err, kcall.
  destruct (ke_error kenv (k_calls s) clone) as [e|] eqn:Ee.
  { intros [= <- <-]. exists [clone]. split; [done|]. left. split_and!; [eauto| |done].
    rewrite app_nil_r. by exists e. }
  set (s1 := k_add_call clone s). unfold mbind at 1, M_bind at 1.
  destruct (create_bootstrap_and_machine_calls spec (m_set_InfrastructureRef (re_cloned env (k_calls s)) m) s1)
    as (s2 & bootstrapRef & errs & -> & Hcase).
  change (m_Name (m_set_InfrastructureRef _ m)) with (m_Name m) in Hcase.
  change (k_calls s1) with (k_calls s ++ [clone]) in Hcase.
  fold (config_call spec m s) (config_ref m s) (new_machine m s) in Hcase.
  assert (∀ ref, errs ≠ [] → ∀ r s', match errs with [] => mret tt | _ =>
      err ← try_err (cleanupFromGeneration env [Some (re_cloned env (k_calls s)); ref]);
      throw (NewAggregate (errs ++ (Wrap "failed to cleanup generated resources" <$> option_list err))) end s2
      = (r, s') → (∃ e, r = Err e) ∧
      k_calls s' = k_calls s2 ++ KDeleteObject (re_cloned env (k_calls s)) :: (KDeleteObject <$> option_list ref))
    as Hclean.
  { clear. intros ref Hne r s'. destruct errs as [|e errs]; [done|]. unfold mbind, M_bind, try_err.
    destruct (cleanup_calls [Some (re_cloned env (k_calls s)); ref] s2) as (r0 & s3 & -> & Hr & Hc).
    destruct Hr as [->|[e0 ->]]; intros [= <- <-]; (split; [eauto|]); by destruct ref. }
  destruct Hcase as [(He & -> & Hne & Hc2)|(He & -> & Hc2 & [(Hne & Hm)|(-> & Hm)])].
  - intros [Hr Hc]%Hclean; [|done]. eexists. rewrite Hc, Hc2, <- !app_assoc. split; [reflexivity|].
    right; left. by split_and!.
  - intros [Hr Hc]%Hclean; [|done]. eexists. rewrite Hc, Hc2, <- !app_assoc. split; [reflexivity|].
    right; right; left. rewrite <- app_assoc in Hm. by split_and!.
  - intros [= <- <-]. eexists. rewrite Hc2, <- !app_assoc. split; [reflexivity|].
    right; right; right. rewrite <- app_assoc in Hm. split_and!; [done| |done].
    intros c before. rewrite !elem_of_cons. intros [[= -> ->]|[[= -> ->]|[[= -> ->]|[]%elem_of_nil]]]; try done.
    by rewrite app_nil_r.
Qed.

(** C31: Creating a Machine either creates, in this order, the clone of the infrastructure
    template, the KubeadmConfig and the Machine that refers to both, or fails and leaves no
    object behind: whatever was created before the failure is deleted after it, and no Machine
    was created. *)
Theorem failed_creation_cleans_up spec fd s r s' :
  cloneConfigsAndGenerateMachine env spec fd s = (r, s') →
  ∃ cs, k_calls s' = k_calls s ++ cs ∧
    (r = Ok tt → ∃ m, computes fd s = Ok m ∧
       cs = [clone_call m s; config_call spec m s; KCreateMachine (new_machine m s)]) ∧
    (r ≠ Ok tt → ∀ before c after, cs = before ++ c :: after → ke_error kenv (k_calls s ++ before) c = None →
       match c with
       | KCreateFromTemplate _ _ _ _ _ => KDeleteObject (re_cloned env (k_calls s)) ∈ after
       | KCreateConfig config => ∃ ref, ref_Kind ref = "KubeadmConfig"%string ∧
           ref_Name ref = om_Name (kc_Meta config) ∧ ref_Namespace ref = om_Namespace (kc_Meta config) ∧
           KDeleteObject ref ∈ after
       | KCreateMachine _ => False
       | _ => True
       end).
Proof.
  intros E%cloneConfigs_outcome. destruct (computes fd s) as [m|e|].
  2-3: destruct E as [Hr ->]; exists []; rewrite app_nil_r; split_and!; [done|done|by intros _ [|]].
  destruct E as (cs & Hcs & Hout). exists cs. split; [done|].
  destruct Hout as [([e ->] & Hf & ->)|[([e ->] & Hf & ->)|[([e ->] & Hf & ->)|(-> & _ & ->)]]];
    (split; [first [done|intros _; exists m; done]|]); [intros _ before c after|intros _ before c after|intros _ before c after|done].
  - destruct before as [|? before]; [|destruct before; intros [=]]. intros [= <- <-] Hok.
    destruct Hf as [? Hf]. congruence.
  - destruct before as [|? [|? [|? before]]]; intros [=]; simplify_eq; intros Hok; simpl in *.
    + set_solver.
    + destruct Hf as [? Hf]. congruence.
    + done.
    + by destruct before.
  - destruct before as [|? [|? [|? [|? [|? before]]]]]; intros [=]; simplify_eq; intros Hok; simpl in *.
    + set_solver.
    + exists (config_ref m s). split_and!; [done..|set_solver].
    + destruct Hf as [? Hf]. congruence.
    + done.
    + done.
    + by destruct before.
Qed.
End creation.

(** ** At most one Machine is created or deleted *)

Definition max_surge (k : KubeadmControlPlane) : option IntOrString :=
  strategy ← ksp_RolloutStrategy (kcp_Spec k); rollingUpdate ← krt_RollingUpdate strategy; kru_MaxSurge rollingUpdate.

(** The number of Machines that may exist: one more than desired during a rollout, when the
    strategy says so. *)
Definition max_machines `{GoSort} `{GoRange} (s : KcpState) : option Z :=
  replicas ← ksp_Replicas (kcp_Spec (cpl_KCP (k_cp s)));
  if (size (MachinesNeedingRollout (k_cp s)) =? 0)%nat then Some replicas
  else surge ← max_surge (cpl_KCP (k_cp s)); Some (replicas +32 wrap32 (IntValue surge)).

(** The number of Machines as it is compared: an [int] for scaling, an [int32] for a rollout. *)
Definition machine_count `{GoSort} `{GoRange} (s : KcpState) : Z :=
  if (size (MachinesNeedingRollout (k_cp s)) =? 0)%nat then Machines_Len (k_machines s)
  else wrap32 (Machines_Len (k_machines s)).

(** The Machines are as before. *)
Definition steady_machines (s s' : KcpState) : Prop := k_machines s' = k_machines s.

#[global] Instance steady_machines_preorder : PreOrder steady_machines.
Proof. split; [by intros s|]. intros s1 s2 s3. unfold steady_machines. congruence. Qed.

Section one_change.
Context `{Apimachinery} `{GoSort} `{GoRange} `{MetaConditions} `{Semver} `{LabelSelectors} `{KubeTypes}.
Context (env : ReconcileEnv).
Hypothesis applied_name : ∀ calls m, m_Name (re_applied env calls m) = m_Name m.

Abbreviation kenv := (re_kcp env) (only parsing).

(** Nothing is in deletion, and every Machine but those of [excl] has a Node and healthy
    components. *)
Definition stable (excl : list Machine) (s : KcpState) : Prop :=
  ∀ k x, k_machines s !! k = Some x → is_deleting x = false ∧ machine_passes (IsEtcdManaged (k_cp s)) excl x.

(** A new Machine, as the control plane asks for: its version, the failure domain with the
    fewest up-to-date Machines, and the hook that guards its etcd member. *)
Record as_specified (s : KcpState) (m : Machine) : Prop := {
  as_version : sp_Version (m_Spec m) = Some (ksp_Version (kcp_Spec (cpl_KCP (k_cp s))));
  as_cluster : sp_ClusterName (m_Spec m) = cpl_ClusterName (k_cp s);
  as_domain : sp_FailureDomain (m_Spec m) = NextFailureDomainForScaleUp (k_cp s);
  as_hook : hasAnnotation (m_Meta m) PreTerminateHookCleanupAnnotation = true;
}.

(** Too few Machines: one is created. *)
Definition creates (s s2 : KcpState) (m : Machine) : Prop :=
  (∃ limit, max_machines s = Some limit ∧ machine_count s < limit) ∧ stable [] s2 ∧ as_specified s2 m.

(** The Machine to scale down; as long as the outdated Machines are as before, it is the oldest
    of its failure domain in the lowest rank. *)
Definition picked (c : ControlPlane) (outdated : Machines) (m : Machine) : Prop :=
  selectMachineForScaleDown c outdated = Ok m ∧
  (outdated ⊆ cpl_Machines c → ∀ k x, cpl_Machines c !! k = Some x →
     (scale_down_rank c outdated m ≤ scale_down_rank c outdated x)%nat ∧
     (scale_down_rank c outdated x = scale_down_rank c outdated m →
      sp_FailureDomain (m_Spec x) = sp_FailureDomain (m_Spec m) → x ≠ m →
      machinesByCreationTimestamp_Less m x = true)).

(** Too many Machines: the one chosen to scale down, after the leadership was moved. *)
Definition scales_down (s s2 : KcpState) (before : list KcpCall) (m : Machine) : Prop :=
  (∃ limit, max_machines s = Some limit ∧ limit ≤ machine_count s ∧
     (MachinesNeedingRollout (k_cp s) = ∅ → limit < machine_count s)) ∧
  picked (k_cp s2) (MachinesNeedingRollout (k_cp s)) m ∧ stable [m] s2 ∧
  (IsEtcdManaged (k_cp s2) = true → ForwardEtcdLeadership m (Newest (k_machines s2)) ∈ before).

(** The changes of [reconcile_replicas], seen from a state [s2] with the same Machines. *)
Definition scaled (s s2 : KcpState) (cs : list KcpCall) : Prop :=
  Forall calm cs ∨
  ∃ m before after, Forall calm before ∧ Forall calm after ∧
    (cs = before ++ KCreateMachine m :: after ∧ creates s s2 m ∨
     cs = before ++ KDeleteMachine m :: after ∧ scales_down s s2 before m).

(** Every Machine that is not in deletion was updated from the control plane. *)
Definition synchronized (s s1 : KcpState) : Prop :=
  ∃ cs, k_calls s1 = k_calls s ++ cs ∧ ∀ name m, k_machines s !! name = Some m → is_deleting m = false →
    ∃ before d after, cs = before ++ KApplyMachine d :: after ∧ m_Name d = name ∧
      ke_error kenv (k_calls s ++ before) (KApplyMachine d) = None.

(** The state in which a reconciliation decides about Machines: synchronized and inspected
    ([s1]), and with nothing to remediate ([s2]). *)
Definition decides (s s2 : KcpState) : Prop :=
  ∃ s1 res, kcp_prepare env s = (Ok (inr tt), s1) ∧ synchronized s s1 ∧
    kcp_reconcileUnhealthyMachines kenv s1 = (Ok res, s2) ∧ ctrl_Result_IsZero res = true.

Definition one_change (s : KcpState) (cs : list KcpCall) : Prop :=
  Forall calm cs ∨
  (∃ s1 cs1 cs2, kcp_prepare env s = (Ok (inr tt), s1) ∧ k_calls s1 = k_calls s ++ cs1 ∧ Forall calm cs1 ∧
     cs = cs1 ++ cs2 ∧ at_most_one_safe kenv s1 cs2) ∨
  (∃ s2, decides s s2 ∧ scaled s s2 cs).

Lemma t_preflight N P excl : triple N P (kcp_preflight excl) anything.
Proof.
  intros s r s' [Hd Hk] E. unfold kcp_preflight, preflightChecks in E.
  repeat case_match; simplify_eq; (split_and!; [by split|by split| |done]); exists []; by rewrite app_nil_r.
Qed.

(** The Machines are the same, and what [kept] says. *)
Definition still (s s' : KcpState) : Prop := k_machines s' = k_machines s ∧ kept s s'.

#[local] Instance still_preorder : PreOrder still.
Proof. split; [by split|]. intros s1 s2 s3 [? ?] [? ?]. split; [congruence|by etrans]. Qed.

Lemma preflight_still excl s r s' : kcp_preflight excl s = (r, s') → still s s'.
Proof. unfold kcp_preflight, preflightChecks. repeat case_match; intros; simplify_eq; by split. Qed.

Lemma preflight_calls excl s r s' : kcp_preflight excl s = (r, s') → k_calls s' = k_calls s.
Proof. unfold kcp_preflight, preflightChecks. repeat case_match; intros; by simplify_eq. Qed.

Lemma still_etcd s s' : still s s' → IsEtcdManaged (k_cp s') = IsEtcdManaged (k_cp s).
Proof.
  intros [_ Hk]. unfold IsEtcdManaged, kcp_ClusterConfiguration. by rewrite (ss_config _ _ (kp_spec _ _ Hk)).
Qed.

Lemma still_domain s s' : still s s' → NextFailureDomainForScaleUp (k_cp s') = NextFailureDomainForScaleUp (k_cp s).
Proof.
  intros [Hm [Ho Hc _]]. unfold k_machines in Hm.
  unfold NextFailureDomainForScaleUp, UpToDateMachines, cpl_FailureDomains. by rewrite Hm, Ho, Hc.
Qed.

Lemma as_specified_still s s' m : still s s' → as_specified s' m → as_specified s m.
Proof.
  intros Hs [Hv Hc Hd Hh]. pose proof (still_domain _ _ Hs) as Ed. destruct Hs as [_ [_ Hcl Hsp]].
  unfold cpl_ClusterName in *. rewrite Hcl in Hc. rewrite (ss_version _ _ Hsp) in Hv.
  split; [done..| |done]. by rewrite <- Ed.
Qed.

Lemma stable_still excl s s' : still s s' → stable excl s' → stable excl s.
Proof. intros Hs Hst k x Hx. rewrite <- (still_etcd _ _ Hs). apply (Hst k). by rewrite (proj1 Hs). Qed.

Lemma computed_as_specified s m :
  computes env (NextFailureDomainForScaleUp (k_cp s)) s = Ok m → as_specified s (new_machine env m s).
Proof.
  unfold computes, kcp_computeDesiredMachine, new_machine_identity.
  destruct (machine_name_template _); [|done..]. simpl. destruct (wrapErr _ _); [|done..]. simpl.
  intros [= <-]. split; [done..|].
  unfold hasAnnotation. simpl. apply bool_decide_eq_true_2. rewrite lookup_union, lookup_insert_eq.
  by destruct (_ !! _).
Qed.

(** The calls of a creation. *)
Lemma create_calls spec s r s' :
  create_control_plane_machine env spec s = (r, s') →
  ∃ cs, k_calls s' = k_calls s ++ cs ∧
    (Forall calm cs ∨ ∃ before after m, as_specified s m ∧
       cs = before ++ KCreateMachine m :: after ∧ Forall calm before ∧ Forall calm after).
Proof.
  unfold create_control_plane_machine. unfold mbind at 1, M_bind at 1, gets at 1.
  unfold mbind at 1, M_bind at 1, lift.
  assert (∀ x : result ctrl_Result, (x, s) = (r, s') → ∃ cs, k_calls s' = k_calls s ++ cs ∧ Forall calm cs) as Hstay.
  { intros x [= <- <-]. exists []. by rewrite app_nil_r. }
  destruct (wrapErr _ _) as [v|e|]; [|intros (cs & ? & ?)%Hstay; eauto..].
  unfold mbind at 1, M_bind at 1. destruct (cloneConfigsAndGenerateMachine _ _ _ s) as [x s1] eqn:E1. intros E.
  assert (s' = s1) as -> by (by destruct x; injection E as _ <-).
  apply cloneConfigs_outcome in E1. destruct (computes env _ s) as [m|e|] eqn:Em.
  2-3: exists []; destruct E1 as [_ ->]; rewrite app_nil_r; split; [done|by left].
  destruct E1 as (cs & Hcs & Hout). exists cs. split; [done|].
  destruct Hout as [(_ & _ & ->)|[(_ & _ & ->)|[(_ & _ & ->)|(_ & _ & ->)]]].
  - left. by repeat constructor.
  - left. by repeat constructor.
  - right. eexists [_; _], [_; _], _. split_and!; [by apply computed_as_specified|reflexivity|by repeat constructor..].
  - right. eexists [_; _], [], _. split_and!; [by apply computed_as_specified|reflexivity|by repeat constructor..].
Qed.

Lemma scaleUp_calls s r s' :
  keyed (k_machines s) → scaleUpControlPlane env s = (r, s') →
  ∃ cs, k_calls s' = k_calls s ++ cs ∧
    (Forall calm cs ∨ stable [] s ∧ ∃ before after m, as_specified s m ∧
       cs = before ++ KCreateMachine m :: after ∧ Forall calm before ∧ Forall calm after).
Proof.
  intros Hk. unfold scaleUpControlPlane. unfold mbind at 1, M_bind at 1.
  pose proof (preflightChecks_pass [] (k_cp s) Hk) as Hp.
  destruct (kcp_preflight [] s) as [x s1] eqn:E1. pose proof (preflight_still _ _ _ _ E1) as Hst.
  pose proof (preflight_calls _ _ _ _ E1) as Hc.
  unfold kcp_preflight in E1. destruct (preflightChecks [] (k_cp s)) as [res c] eqn:Ep. simpl in Hp.
  injection E1 as <- <-. destruct (ctrl_Result_IsZero res); cbn [negb].
  2: { intros [= <- <-]. exists []. rewrite app_nil_r. split; [done|by left]. }
  unfold mbind at 1, M_bind at 1, get_kcp, gets at 1. intros (cs & Hcs & Hcase)%create_calls.
  exists cs. rewrite Hcs, Hc. split; [done|]. destruct Hcase as [|(before & after & m & Hm & Ecs & Hb & Ha)]; [by left|].
  right. split; [exact (proj1 Hp eq_refl)|]. exists before, after, m. split_and!; [|done..].
  by eapply as_specified_still.
Qed.

Lemma rollout_kept s0 s : kept s0 s → MachinesNeedingRollout (k_cp s) = MachinesNeedingRollout (k_cp s0).
Proof. intros Hk. unfold MachinesNeedingRollout. by rewrite (kp_outdated _ _ Hk). Qed.

Lemma max_machines_kept s0 s : kept s0 s → max_machines s = max_machines s0.
Proof.
  intros Hk. unfold max_machines, max_surge. rewrite (rollout_kept _ _ Hk). destruct Hk as [_ _ [-> _ -> _]]. done.
Qed.

Lemma count_settled N s0 s : settled N s0 → settled N s → Machines_Len (k_machines s) = Machines_Len (k_machines s0).
Proof. intros [H0' _] [Hd _]. unfold Machines_Len. rewrite <- !size_dom. by rewrite Hd, H0'. Qed.

Lemma machine_count_kept N s0 s : settled N s0 → settled N s → kept s0 s → machine_count s = machine_count s0.
Proof. intros H0' Hs Hk. unfold machine_count. by rewrite (rollout_kept _ _ Hk), (count_settled N s0 s). Qed.

Lemma select_still s s' outdated : still s s' →
  selectMachineForScaleDown (k_cp s') outdated = selectMachineForScaleDown (k_cp s) outdated.
Proof.
  intros Hs. pose proof (still_etcd _ _ Hs) as He. destruct Hs as [Hm [_ Hc _]]. unfold k_machines in Hm.
  unfold selectMachineForScaleDown, UnhealthyMachinesWithUnhealthyControlPlaneComponents,
    MachineInFailureDomainWithMostMachines, FailureDomainWithMostMachines, cpl_FailureDomains.
  by rewrite Hm, He, Hc.
Qed.

Lemma picked_still s s' outdated m : still s s' → picked (k_cp s') outdated m → picked (k_cp s) outdated m.
Proof.
  intros Hs [Hsel Hmin]. split; [by rewrite <- (select_still _ _ _ Hs)|].
  pose proof (still_etcd _ _ Hs) as He. destruct Hs as [Hm _]. unfold k_machines in Hm.
  unfold scale_down_rank in *. by rewrite <- He, <- Hm.
Qed.

Lemma select_picked c outdated m : keyed (cpl_Machines c) → selectMachineForScaleDown c outdated = Ok m → picked c outdated m.
Proof.
  intros Hk E. split; [done|]. intros Hsub k x Hx.
  destruct (selectMachineForScaleDown_spec c outdated Hk Hsub) as (m' & E' & _ & Hmin & _ & Hold).
  { intros He. by rewrite He, lookup_empty in Hx. }
  rewrite E in E'. injection E' as <-. eauto.
Qed.

(** The number of Machines only depends on what every handler keeps. *)
Lemma scaled_kept N s0 s s2 cs :
  settled N s0 → settled N s → kept s0 s → scaled s s2 cs → scaled s0 s2 cs.
Proof.
  intros Hs0 Hs Hk [Hc|(m & before & after & Hb & Ha & Hcase)]; [by left|]. right. exists m, before, after.
  split_and!; [done..|]. unfold creates, scales_down in *.
  by rewrite <- (max_machines_kept _ _ Hk), <- (machine_count_kept N s0 s), <- (rollout_kept _ _ Hk).
Qed.

(** A quiet action that leaves the Machines alone may come first. *)
Lemma scaled_from N s0 s cs0 cs :
  settled N s0 → settled N s → still s0 s → Forall calm cs0 → scaled s s cs → scaled s0 s0 (cs0 ++ cs).
Proof.
  intros Hs0 Hs Hst Hc0 Hsc. apply (scaled_kept N s0 s) in Hsc; [|done..|apply Hst].
  destruct Hsc as [Hc|(m & before & after & Hb & Ha & Hcase)]; [left; by apply Forall_app|].
  right. exists m, (cs0 ++ before), after. rewrite <- !app_assoc. split_and!; [by apply Forall_app|done|].
  destruct Hcase as [(-> & Hl & Hstab & Hn)|(-> & Hl & Hsel & Hstab & Hf)]; [left|right]; (split; [done|]).
  - split_and!; [done|by eapply stable_still|by eapply as_specified_still].
  - split_and!; [done|by eapply picked_still|by eapply stable_still|]. intros He.
    rewrite <- (proj1 Hst). apply elem_of_app. right. apply Hf. by rewrite (still_etcd _ _ Hst).
Qed.

Lemma t_upgrade_workload N k : triple N calm (upgrade_workload env k) anything.
Proof.
  unfold upgrade_workload, workload. repeat first [by apply t_GetWorkloadCluster|t_step].
Qed.

Lemma scaleUp_change N s r s' limit :
  settled N s → max_machines s = Some limit → machine_count s < limit →
  scaleUpControlPlane env s = (r, s') → ∃ cs, k_calls s' = k_calls s ++ cs ∧ scaled s s cs.
Proof.
  intros Hs Hm Hlt (cs & Hcs & Hcase)%scaleUp_calls; [|apply Hs]. exists cs. split; [done|].
  destruct Hcase as [Hc|(Hst & before & after & m & Hm' & -> & Hb & Ha)]; [by left|].
  right. exists m, before, after. split_and!; [done..|]. left. split; [done|]. split_and!; eauto.
Qed.

Lemma scaleDown_change N s r s' limit :
  settled N s → max_machines s = Some limit → limit ≤ machine_count s →
  (MachinesNeedingRollout (k_cp s) = ∅ → limit < machine_count s) →
  scaleDownControlPlane kenv (MachinesNeedingRollout (k_cp s)) s = (r, s') →
  ∃ cs, k_calls s' = k_calls s ++ cs ∧ scaled s s cs.
Proof.
  intros Hs Hm Hle Hlt (cs & Hcs & Hcase)%scaleDown_calls; [|apply Hs]. exists cs. split; [done|].
  destruct Hcase as [Hc|(m & before & -> & Hb & Hsel & Hst & Hf)]; [by left|].
  right. exists m, before, []. split_and!; [done..|]. right. split; [done|].
  split_and!; [eauto| |done..]. by apply select_picked; [apply Hs|].
Qed.

(** A quiet action first. *)
Definition stays {A} (m : M KcpState A) : Prop := ∀ s r s', m s = (r, s') → k_machines s' = k_machines s.

Lemma after_quiet {A} N (m : M KcpState A) (f : A → M KcpState ctrl_Result) s r s' :
  triple N calm m anything → stays m → settled N s → (m ≫= f) s = (r, s') →
  (∀ a s1, m s = (Ok a, s1) → settled N s1 → still s s1 → f a s1 = (r, s') →
     ∃ cs, k_calls s' = k_calls s1 ++ cs ∧ scaled s1 s1 cs) →
  ∃ cs, k_calls s' = k_calls s ++ cs ∧ scaled s s cs.
Proof.
  intros Hm Hst Hs E Hf. unfold mbind, M_bind in E. destruct (m s) as [x s1] eqn:E1.
  destruct (Hm _ _ _ Hs E1) as (Hs1 & Hk1 & (cs1 & Hcs1 & Hc1) & _). apply Hst in E1 as Hm1.
  destruct x as [a|e|]; [|injection E as <- <-; exists cs1; (split; [done|by left])..].
  destruct (Hf a s1 eq_refl Hs1 (conj Hm1 Hk1) E) as (cs & Hcs & Hone).
  exists (cs1 ++ cs). rewrite Hcs, Hcs1, app_assoc. split; [done|]. by eapply scaled_from.
Qed.

Lemma quiet_change {A} N (m : M KcpState A) s r s' :
  triple N calm m anything → settled N s → m s = (r, s') → ∃ cs, k_calls s' = k_calls s ++ cs ∧ scaled s s cs.
Proof.
  intros Hm Hs E. destruct (Hm _ _ _ Hs E) as (_ & _ & (cs & Hcs & Hc) & _). exists cs. split; [done|by left].
Qed.

Lemma stays_runs {A} (m : M KcpState A) : kruns (λ _, True) steady_machines m → stays m.
Proof. intros Hm s r s' E. by destruct (Hm _ _ _ E) as (? & _). Qed.

Lemma stays_lift {A} (x : result A) : stays (lift x).
Proof. by intros s r s' [= _ <-]. Qed.

Lemma stays_set_kcp f : stays (set_kcp f).
Proof. by intros s r s' [= _ <-]. Qed.

Lemma stays_MarkFalse t reason severity message : stays (kcp_MarkFalse env t reason severity message).
Proof. by intros s r s' [= _ <-]. Qed.

Lemma stays_upgrade_workload k : stays (upgrade_workload env k).
Proof.
  apply stays_runs. unfold upgrade_workload, workload, GetWorkloadCluster.
  repeat first [apply runs_ret, _ | apply runs_gets, _ | apply runs_throw, _ | apply runs_lift, _ | apply runs_mwrap
    | apply runs_kcall; [done|done] | apply runs_modify; done
    | apply runs_bind; [apply _| |intros ?] | case_match].
Qed.

Lemma upgrade_change N s r s' :
  settled N s → size (MachinesNeedingRollout (k_cp s)) ≠ 0%nat →
  upgradeControlPlane env (MachinesNeedingRollout (k_cp s)) s = (r, s') →
  ∃ cs, k_calls s' = k_calls s ++ cs ∧ scaled s s cs.
Proof.
  intros Hs Hn. unfold upgradeControlPlane. unfold mbind at 1, M_bind at 1, get_kcp, gets at 1.
  set (k := cpl_KCP (k_cp s)).
  destruct (ksp_RolloutStrategy (kcp_Spec k)) as [[type [ru|]]|] eqn:Est;
    [|by apply (quiet_change N), Hs; apply t_throw..].
  intros E. eapply after_quiet; [apply t_upgrade_workload|apply stays_upgrade_workload|exact Hs|exact E|]. clear E. intros [] s1 _ Hs1 [Hm1 Hk1].
  destruct (String.eqb type "RollingUpdate"); [|by apply (quiet_change N), Hs1; apply t_ret].
  intros E. eapply after_quiet; [by apply t_lift|apply stays_lift|exact Hs1|exact E|]. clear E.
  intros replicas s2 [Er ->]%lift_Ok _ _ E. unfold deref in Er.
  destruct (ksp_Replicas (kcp_Spec k)) as [z|] eqn:Ez; [|done]. injection Er as ->.
  eapply after_quiet; [by apply t_lift|apply stays_lift|exact Hs1|exact E|]. clear E.
  intros surge s2 [Esu ->]%lift_Ok _ _ E. unfold deref in Esu.
  destruct (kru_MaxSurge ru) as [v|] eqn:Ev; [|done]. injection Esu as ->.
  unfold mbind at 1, M_bind at 1, gets at 1 in E.
  assert (max_machines s1 = Some (replicas +32 wrap32 (IntValue surge))) as Hmax.
  { rewrite (max_machines_kept _ _ Hk1). unfold max_machines, max_surge. fold k. rewrite Ez, Est. simpl.
    rewrite Ev. destruct (Nat.eqb_spec (size (MachinesNeedingRollout (k_cp s))) 0); [done|reflexivity]. }
  assert (machine_count s1 = wrap32 (Machines_Len (k_machines s1))) as Hcount.
  { unfold machine_count. rewrite (rollout_kept _ _ Hk1).
    by destruct (Nat.eqb_spec (size (MachinesNeedingRollout (k_cp s))) 0). }
  rewrite <- (rollout_kept _ _ Hk1), <- Hcount in E.
  destruct (Z.ltb_spec (machine_count s1) (replicas +32 wrap32 (IntValue surge))) as [Hlt|Hge].
  - by eapply scaleUp_change.
  - eapply scaleDown_change; [done..| |exact E]. intros He.
    rewrite (rollout_kept _ _ Hk1) in He. by rewrite He, map_size_empty in Hn.
Qed.

Lemma create_change N s r s' spec limit :
  settled N s → max_machines s = Some limit → machine_count s < limit → k_machines s = ∅ →
  create_control_plane_machine env spec s = (r, s') → ∃ cs, k_calls s' = k_calls s ++ cs ∧ scaled s s cs.
Proof.
  intros Hs Hm Hlt He (cs & Hcs & Hcase)%create_calls. exists cs. split; [done|].
  destruct Hcase as [Hc|(before & after & m & Hm' & -> & Hb & Ha)]; [by left|].
  right. exists m, before, after. split_and!; [done..|]. left. split; [done|]. split_and!; [eauto| |done].
  intros k x. by rewrite He, lookup_empty.
Qed.

Lemma t_reconcile_addons N : triple N calm (reconcile_addons env) anything.
Proof.
  unfold reconcile_addons, workload, reconcileCertificateExpiries, reconcile_certificate_expiry.
  repeat first [by apply t_get_kcp | by apply t_GetWorkloadCluster | t_step].
  apply t_modify. intros s []. by split_and!; split.
Qed.

(** Scaling when nothing has to be rolled out. *)
Lemma scale_change N s r s' replicas :
  settled N s → MachinesNeedingRollout (k_cp s) = ∅ → ksp_Replicas (kcp_Spec (cpl_KCP (k_cp s))) = Some replicas →
  (let numMachines := Machines_Len (k_machines s) in
   if (numMachines <? replicas) && (numMachines =? 0) then
     _ ← kcp_MarkFalse env kcp_AvailableCondition WaitingForKubeadmInitReason ConditionSeverityInfo "";
     initializeControlPlane env
   else if (numMachines <? replicas) && (0 <? numMachines) then scaleUpControlPlane env
   else if replicas <? numMachines then scaleDownControlPlane kenv ∅
   else reconcile_addons env) s = (r, s') →
  ∃ cs, k_calls s' = k_calls s ++ cs ∧ scaled s s cs.
Proof.
  intros Hs Hnone Er E.
  assert (max_machines s = Some replicas) as Hmax by (unfold max_machines; by rewrite Er, Hnone).
  assert (machine_count s = Machines_Len (k_machines s)) as Hcount by (unfold machine_count; by rewrite Hnone).
  cbv zeta in E. destruct (Z.ltb_spec (Machines_Len (k_machines s)) replicas) as [Hlt|Hge]; cbn [andb] in E.
  - destruct (Z.eqb_spec (Machines_Len (k_machines s)) 0) as [Hz|Hz].
    + eapply after_quiet; [apply (t_kcp_MarkFalse env N calm)|apply stays_MarkFalse|exact Hs|exact E|]. clear E. intros [] s1 _ Hs1 [Hm1 Hk1] E.
      unfold initializeControlPlane in E. unfold mbind at 1, M_bind at 1, get_kcp, gets at 1 in E.
      eapply create_change; [exact Hs1|by rewrite (max_machines_kept _ _ Hk1)
        |by rewrite (machine_count_kept N _ _ Hs Hs1 Hk1), Hcount| |exact E].
      rewrite <- (count_settled N _ _ Hs Hs1) in Hz. apply map_size_empty_iff. unfold Machines_Len in Hz. lia.
    + destruct (0 <? Machines_Len (k_machines s)) eqn:Ep.
      2: { apply Z.ltb_ge in Ep. unfold Machines_Len in *. lia. }
      eapply scaleUp_change; [done..|by rewrite Hcount|exact E].
  - destruct (Z.ltb_spec replicas (Machines_Len (k_machines s))) as [Hgt|_].
    + rewrite <- Hnone in E. eapply scaleDown_change; [done..|rewrite Hcount; lia|rewrite Hcount; lia|exact E].
    + by eapply quiet_change; [apply t_reconcile_addons|exact Hs|].
Qed.

Lemma replicas_change N s r s' :
  settled N s → reconcile_replicas env s = (r, s') → ∃ cs, k_calls s' = k_calls s ++ cs ∧ scaled s s cs.
Proof.
  intros Hs. unfold reconcile_replicas. unfold mbind at 1, M_bind at 1, gets at 1. cbv zeta.
  destruct (Nat.ltb_spec 0 (size (MachinesNeedingRollout (k_cp s)))) as [Hn|Hn]; intros E.
  - eapply after_quiet; [apply (t_kcp_MarkFalse env N calm)|apply stays_MarkFalse|exact Hs|exact E|]. clear E. intros [] s1 _ Hs1 [Hm1 Hk1] E.
    rewrite <- (rollout_kept _ _ Hk1) in E, Hn. eapply upgrade_change; [exact Hs1|lia|exact E].
  - assert (MachinesNeedingRollout (k_cp s) = ∅) as Hnone by (apply map_size_empty_iff; lia).
    unfold mbind at 1, M_bind at 1, clock, gets at 1 in E.
    eapply after_quiet; [| |exact Hs|exact E|].
    { destruct (Has _ _); [apply t_set_kcp; intros k; apply same_spec_Set|by apply t_ret]. }
    { destruct (Has _ _); [apply stays_set_kcp|by intros ? ? ? [= _ <-]]. }
    clear E. intros [] s1 _ Hs1 [Hm1 Hk1] E.
    eapply after_quiet; [by apply t_lift|apply stays_lift|exact Hs1|exact E|]. clear E.
    intros replicas s2 [Er ->]%lift_Ok _ _ E. unfold deref in Er.
    destruct (ksp_Replicas _) as [z|] eqn:Ez; [|done]. injection Er as ->.
    apply (scale_change N s1 r s' replicas); [done|by rewrite (rollout_kept _ _ Hk1)
      |by rewrite (ss_replicas _ _ (kp_spec _ _ Hk1))|].
    change (cpl_Machines (k_cp s)) with (k_machines s) in E. by rewrite <- (count_settled N _ _ Hs Hs1) in E.
Qed.

(** ** The preparation *)

(** A run that succeeds and asks for more. *)
Definition extends (s s' : KcpState) : Prop := ∃ cs, k_calls s' = k_calls s ++ cs.

#[local] Instance extends_preorder : PreOrder extends.
Proof.
  split; [intros s; exists []; by rewrite app_nil_r|].
  intros s1 s2 s3 [c1 E1] [c2 E2]. exists (c1 ++ c2). by rewrite E2, E1, app_assoc.
Qed.

(** A successful request in the log between two states. *)
Definition applied (s s' : KcpState) (name : string) : Prop :=
  ∃ before d after, k_calls s' = k_calls s ++ before ++ KApplyMachine d :: after ∧ m_Name d = name ∧
    ke_error kenv (k_calls s ++ before) (KApplyMachine d) = None.

Lemma applied_before s0 s s' name : extends s0 s → applied s s' name → applied s0 s' name.
Proof.
  intros [cs Hc] (b & d & a & Hcs & Hn & He). exists (cs ++ b), d, a.
  rewrite Hc, <- !app_assoc in Hcs. rewrite Hc, <- app_assoc in He. by rewrite <- app_assoc.
Qed.

Lemma applied_after s s' s2 name : extends s' s2 → applied s s' name → applied s s2 name.
Proof.
  intros [cs Hc] (b & d & a & Hcs & Hn & He). exists b, d, (a ++ cs). rewrite Hc, Hcs, <- !app_assoc. done.
Qed.

Lemma triple_extends {A} N P (m : M KcpState A) Q s r s' :
  triple N P m Q → settled N s → m s = (r, s') → settled N s' ∧ extends s s'.
Proof. intros Hm Hs E. destruct (Hm _ _ _ Hs E) as (? & _ & (cs & Hcs & _) & _). split; [done|by exists cs]. Qed.

(** One Machine is synchronized; the others stay. *)
Definition others (name : string) (s s' : KcpState) : Prop :=
  ∀ n, n ≠ name → k_machines s' !! n = k_machines s !! n.

#[local] Instance others_preorder name : PreOrder (others name).
Proof. split; [by intros s n|]. intros s1 s2 s3 H12 H23 n Hn. by rewrite H23, H12. Qed.

Lemma others_kstore name m : kruns (λ _, True) (others name) (kstore name m).
Proof.
  apply runs_modify. intros s. split; [|done]. intros n Hn. unfold k_machines. simpl. by rewrite lookup_insert_ne.
Qed.

Lemma sync_external_others name obj kind : kruns (λ _, True) (others name) (kcp_sync_external env obj kind).
Proof.
  unfold kcp_sync_external, kcp_updateExternalObject.
  apply runs_bind; [apply _|by apply runs_mwrap, runs_kcall|intros _]. apply runs_mwrap.
  apply runs_bind; [apply _|apply runs_gets, _|intros c]. apply runs_mwrap, runs_kcall; done.
Qed.

Lemma sync_machine_others name : kruns (λ _, True) (others name) (kcp_sync_machine env name).
Proof.
  unfold kcp_sync_machine, sync_deleting, updateMachine, kload.
  repeat first [apply sync_external_others | apply runs_ret, _ | apply runs_gets, _ | apply runs_throw, _ | apply runs_lift, _ | apply runs_mwrap
    | apply runs_kcall; [done|done] | apply others_kstore
    | apply runs_bind; [apply _| |intros ?] | case_match].
Qed.

Lemma kcall_Ok c s a s' : kcall kenv c s = (Ok a, s') → s' = k_add_call c s ∧ ke_error kenv (k_calls s) c = None.
Proof. unfold kcall. by destruct (ke_error kenv (k_calls s) c); intros [= <-]. Qed.

Lemma sync_machine_applied N name s m s' :
  settled N s → k_machines s !! name = Some m → is_deleting m = false →
  kcp_sync_machine env name s = (Ok tt, s') → applied s s' name.
Proof.
  intros Hs Hm Hd E. unfold kcp_sync_machine in E. unfold mbind at 1, M_bind at 1, kload, gets at 1 in E.
  rewrite Hm in E. cbn [default from_option id] in E. rewrite Hd in E.
  apply bind_Ok in E as ([] & s1 & [-> _]%mwrap_Ok%kcall_Ok & E).
  set (s1 := k_add_call _ s) in *.
  apply bind_Ok in E as (u & s2 & E1%mwrap_Ok & E).
  unfold updateMachine in E1. do 2 unfold mbind at 1, M_bind at 1, gets at 1 in E1.
  apply bind_Ok in E1 as (d & s3 & [Ed%wrapErr_Ok ->]%lift_Ok & E1).
  apply bind_Ok in E1 as ([] & s4 & [-> He]%mwrap_Ok%kcall_Ok & [= <- <-]).
  assert (m_Name d = name) as Hn.
  { rewrite (computed_update_name _ _ _ _ _ _ _ Ed). by apply (se_keyed _ _ Hs). }
  apply (applied_after _ (k_add_call (KApplyMachine d) s1)).
  - assert (name ∈ N) as Hin by (rewrite <- (se_names _ _ Hs); by eapply elem_of_dom_2).
    assert (settled N (k_add_call (KApplyMachine d) s1)) as Hs1 by (destruct Hs; by split).
    eapply (triple_extends N (λ _, True)); [|exact Hs1|exact E].
    eapply (t_bind _ _ _ _ anything); [apply t_kstore; [done|by rewrite applied_name]|]. intros _ _.
    repeat first [by apply t_sync_external|t_step].
  - exists [KCleanUpManagedFields m], d, []. simpl. by rewrite <- app_assoc.
Qed.

Lemma sync_all N names s s' :
  settled N s → NoDup names → (∀ n, n ∈ names → n ∈ N) →
  forM names (kcp_sync_machine env) s = (Ok tt, s') →
  ∀ n m, n ∈ names → k_machines s !! n = Some m → is_deleting m = false → applied s s' n.
Proof.
  revert s. induction names as [|x names IH]; intros s Hs Hnd HN E n m Hn Hm Hd; [by apply not_elem_of_nil in Hn|].
  apply NoDup_cons in Hnd as [Hx Hnd]. cbn [forM] in E. apply bind_Ok in E as ([] & s1 & E1 & E).
  destruct (triple_extends N (λ _, True) _ anything _ _ _ (t_sync_machine env N _ (λ _ _, I) applied_name x (HN x ltac:(left))) Hs E1)
    as [Hs1 Hx1].
  assert (extends s1 s') as Hx2.
  { eapply (triple_extends N (λ _, True)); [|exact Hs1|exact E]. apply t_forM. intros y Hy.
    apply t_sync_machine; [done|done|]. apply HN. by right. }
  apply elem_of_cons in Hn as [->|Hn].
  - eapply applied_after; [exact Hx2|]. by eapply sync_machine_applied.
  - eapply applied_before; [exact Hx1|]. apply (IH s1 Hs1 Hnd) with m; [|done|done| |done].
    + intros y Hy. apply HN. by right.
    + destruct (sync_machine_others x _ _ _ E1) as (Ho & _). rewrite Ho; [done|]. by intros ->.
Qed.

Lemma t_waiting N message : triple N calm (_ ← waiting_conditions env message; (mret (inl zero_Result) : M KcpState (ctrl_Result + unit))) anything.
Proof. unfold waiting_conditions. repeat first [apply (t_kcp_Set env N calm)|t_step]. Qed.

Lemma t_or_return N (m : M KcpState ctrl_Result) k :
  triple N calm m anything → triple N calm k anything → triple N calm (or_return m k) anything.
Proof.
  intros Hm Hk. eapply (t_bind _ _ _ _ anything); [done|]. intros res _. cbv beta. case_match; [by apply t_ret|done].
Qed.

(** The part of the preparation after the Machines were synchronized. *)
Lemma t_inspection N :
  triple N calm
    (now ← clock env;
     machines ← gets k_machines;
     _ ← set_kcp (λ k, SetAggregate now k MachinesReadyCondition (ConditionGetters machines) [AddSourceRef]);
     _ ← reconcileControlPlaneAndMachinesConditions env;
     _ ← reconcileEtcdMembers env;
     or_return (reconcilePreTerminateHook env) (mret (inr tt))) anything.
Proof.
  eapply (t_bind _ _ _ _ anything); [by apply t_clock|intros now _].
  eapply (t_bind _ _ _ _ anything); [by apply t_gets|intros machines _].
  eapply (t_bind _ _ _ _ anything); [apply t_set_kcp; intros k; apply same_spec_SetAggregate|intros _ _].
  eapply (t_bind _ _ _ _ anything); [by apply t_reconcileControlPlaneAndMachinesConditions|intros _ _].
  eapply (t_bind _ _ _ _ anything); [by apply t_reconcileEtcdMembers|intros _ _].
  apply t_or_return; [by apply t_reconcilePreTerminateHook|by apply t_ret].
Qed.

Lemma t_kcp_prepare N : triple N calm (kcp_prepare env) anything.
Proof.
  unfold kcp_prepare. eapply (t_bind _ _ _ _ anything); [by apply t_reconcileExternalReference|intros _ _].
  eapply (t_bind _ _ _ _ anything); [by apply t_gets|intros cluster _].
  case_match; [apply t_waiting|].
  eapply (t_bind _ _ _ _ anything); [by apply t_reconcileClusterCertificates|intros _ _].
  case_match; [apply t_waiting|]. apply t_or_return; [by apply t_reconcileKubeconfig|].
  eapply (t_bind _ _ _ _ anything); [by apply t_mwrap, t_syncMachines|intros _ _]. apply t_inspection.
Qed.

(** What comes before does not touch the Machines. *)
Ltac stays_auto :=
  repeat first [apply runs_ret, _ | apply runs_gets, _ | apply runs_throw, _ | apply runs_lift, _ | apply runs_mwrap
    | apply runs_try_err | apply runs_attempt | apply runs_kcall; [done|done] | apply runs_modify; done
    | apply runs_bind; [apply _| |intros ?] | case_match].

Lemma stays_external : stays (reconcileExternalReference env).
Proof. apply stays_runs. unfold reconcileExternalReference, get_kcp, set_kcp. stays_auto. Qed.

Lemma stays_certificates : stays (reconcileClusterCertificates env).
Proof.
  apply stays_runs. unfold reconcileClusterCertificates, certificates_error, kcp_MarkFalse, kcp_Set, clock, get_kcp, set_kcp.
  stays_auto.
Qed.

Lemma stays_kubeconfig : stays (reconcileKubeconfig env).
Proof.
  apply stays_runs. unfold reconcileKubeconfig, adoptKubeconfigSecret, get_kcp, set_kcp. stays_auto.
Qed.

Lemma prepare_synchronizes N s s1 :
  settled N s → kcp_prepare env s = (Ok (inr tt), s1) → synchronized s s1.
Proof.
  intros Hs E. destruct (triple_extends _ _ _ _ _ _ _ (t_kcp_prepare N) Hs E) as [_ [cs Hcs]].
  exists cs. split; [done|].
  enough (∀ n m, k_machines s !! n = Some m → is_deleting m = false → applied s s1 n) as Ha.
  { intros n m Hm Hd. destruct (Ha n m Hm Hd) as (b & d & a & Hc & Hn & He). exists b, d, a.
    rewrite Hcs in Hc. by apply app_inv_head in Hc as ->. }
  clear Hcs cs. unfold kcp_prepare in E. apply bind_Ok in E as ([] & s2 & E1 & E).
  destruct (triple_extends N calm _ anything _ _ _ (t_reconcileExternalReference env N calm (λ _ H, H)) Hs E1) as [Hs2 X1].
  apply stays_external in E1. unfold mbind at 1, M_bind at 1, gets at 1 in E.
  destruct (negb _); [by apply bind_Ok in E as (? & ? & _ & [=])|].
  apply bind_Ok in E as ([] & s3 & E2 & E).
  destruct (triple_extends N calm _ anything _ _ _ (t_reconcileClusterCertificates env N calm (λ _ H, H)) Hs2 E2) as [Hs3 X2].
  apply stays_certificates in E2.
  destruct (negb _); [by apply bind_Ok in E as (? & ? & _ & [=])|].
  unfold or_return at 1 in E. apply bind_Ok in E as (res & s4 & E3 & E).
  destruct (triple_extends N calm _ anything _ _ _ (t_reconcileKubeconfig env N calm (λ _ H, H)) Hs3 E3) as [Hs4 X3].
  apply stays_kubeconfig in E3. destruct (negb _); [done|].
  apply bind_Ok in E as ([] & s5 & E4%mwrap_Ok & E).
  assert (extends s s4) as X by (by do 2 (etrans; [eassumption|])).
  destruct (triple_extends N calm _ anything _ _ _ (t_syncMachines env N calm (λ _ H, H) applied_name) Hs4 E4) as [Hs5 _].
  destruct (triple_extends _ _ _ _ _ _ _ (t_inspection N) Hs5 E) as [_ X5].
  intros n m Hm Hd. eapply applied_before; [exact X|]. eapply applied_after; [exact X5|].
  assert (k_machines s4 = k_machines s) as Hms by congruence. rewrite <- Hms in Hm.
  unfold kcp_syncMachines in E4. unfold mbind at 1, M_bind at 1, gets at 1 in E4.
  eapply (sync_all N); [exact Hs4| | |exact E4| |exact Hm|exact Hd].
  - rewrite go_range_perm. apply NoDup_fst_map_to_list.
  - intros x Hx. apply elem_of_go_keys in Hx. rewrite <- (se_names _ _ Hs4). by apply elem_of_dom.
  - apply elem_of_go_keys. eauto.
Qed.

Lemma reconcile_change N s r s' :
  settled N s → kcp_reconcile env s = (r, s') → ∃ cs, k_calls s' = k_calls s ++ cs ∧ one_change s cs.
Proof.
  intros Hs E. unfold kcp_reconcile, mbind, M_bind in E. destruct (kcp_prepare env s) as [x s1] eqn:E1.
  destruct (t_kcp_prepare N _ _ _ Hs E1) as (Hs1 & Hk1 & (cs1 & Hcs1 & Hc1) & _).
  destruct x as [[res|[]]|e|]; [injection E as <- <-; exists cs1; split; [done|by left]| |
    injection E as <- <-; exists cs1; (split; [done|by left])..].
  unfold if_zero, mbind, M_bind in E.
  destruct (kcp_reconcileUnhealthyMachines kenv s1) as [x s2] eqn:E2.
  destruct (t_kcp_reconcileUnhealthyMachines N (λ _, True) (λ _ _, I) kenv (λ _, I) _ _ _ Hs1 E2)
    as (Hs2 & Hk2 & _ & _).
  destruct (remediation_calls kenv s1 x s2 (se_keyed _ _ Hs1) E2) as (cs2 & Hcs2 & Hone).
  assert (one_change s (cs1 ++ cs2)) as Hrem by (right; left; eauto 10).
  assert (k_calls s2 = k_calls s ++ cs1 ++ cs2) as Hc12 by (by rewrite Hcs2, Hcs1, app_assoc).
  destruct x as [res|e|]; [|injection E as <- <-; eauto..].
  destruct (ctrl_Result_IsZero res) eqn:Ez; cbn [negb] in E; [|injection E as <- <-; eauto].
  destruct (remediation_zero_quiet kenv N s1 res s2 Hs1 E2 Ez) as (cs2' & Hcs2' & Hc2).
  assert (cs2' = cs2) as -> by (rewrite Hcs2 in Hcs2'; by apply app_inv_head in Hcs2').
  apply (replicas_change N) in E as (cs3 & Hcs3 & Hsc); [|done].
  exists ((cs1 ++ cs2) ++ cs3). rewrite Hcs3, Hc12, <- app_assoc. split; [done|]. right; right. exists s2. split.
  - exists s1, res. split_and!; [done|by eapply prepare_synchronizes|done..].
  - apply (scaled_kept N s s2) in Hsc; [|done..|by etrans].
    destruct Hsc as [Hc|(m & before & after & Hb & Ha & Hcase)]; [left; by repeat apply Forall_app_2|].
    right. exists m, ((cs1 ++ cs2) ++ before), after. split_and!; [by repeat apply Forall_app_2|done|].
    rewrite <- !(app_assoc _ before).
    destruct Hcase as [(-> & Hcr)|(-> & Hl & Hsel & Hst & Hf)]; [by left|right].
    do 4 (split; [done|]). intros He. apply elem_of_app. right. by apply Hf.
Qed.

(** C1: One reconciliation of a control plane creates or deletes at most one Machine, whatever
    the calls answer.  A remediation deletes at most one, and safely.  Otherwise every Machine
    not in deletion was first updated from the control plane, and the change is decided on the
    state [s2] that the preparation and the remediation have reached.  A Machine is created
    only below the number of Machines allowed (the desired replicas, or with [maxSurge] more
    during a rollout), when in [s2] no Machine is being deleted and all have a Node and
    healthy components; the Machine has the version, the failure domain and the hook the
    control plane asks for.  One is deleted only above that number, or at it during a rollout:
    the one selected for scaling down, when nothing is being deleted and all others are
    healthy, after a request to move the etcd leadership.  A response to an update of a
    Machine is about the same Machine. *)
Theorem kcp_reconcile_one_change s r s' :
  keyed (k_machines s) → kcp_reconcile env s = (r, s') →
  ∃ cs, k_calls s' = k_calls s ++ cs ∧ one_change s cs.
Proof. intros Hk. by apply (reconcile_change (dom (k_machines s))). Qed.
End one_change.

(** ** Examples *)

(** Every call of the reconciliation answers as [error] says; Machines are healthy once they
    are synchronized. *)
Definition demo_reconcile_env (error : KcpCall → option error) : ReconcileEnv :=
  {| re_kcp := {| ke_error _ := error; ke_etcdMembers := ke_etcdMembers demo_kcp_env;
       ke_now := ke_now demo_kcp_env; ke_unmarshal := ke_unmarshal demo_kcp_env;
       ke_marshal := ke_marshal demo_kcp_env; ke_errorString := ke_errorString demo_kcp_env;
       ke_durationString := ke_durationString demo_kcp_env |};
     re_contractVersion _ := "v1"; re_template _ := emptyMeta; re_kubeconfig _ := (emptyMeta, ""%string);
     re_needsRotation _ _ := Ok false; re_applied _ m := healthy_machine (m_Name m);
     re_inspect _ c := {| in_kcp := ([], []); in_machine _ := ([], []); in_etcdMembers := None;
       in_agreeOnMemberList := true; in_agreeOnClusterID := true; in_matching := true |};
     re_lastProbe _ := 10 * Hour; re_expiry _ := ""; re_cloned _ := emptyRef; re_UID _ := "uid";
     re_generateName _ _ := Ok "cp-new"%string; re_simpleName _ s := s;
     re_allMachines _ := FromMachines [Some (healthy_machine "a"); Some (healthy_machine "b")];
     re_machinePools _ := []; re_certNotFound _ := false; re_notConnected _ := false;
     re_gracePeriod := Minute; re_DeprecatedInfraMachineNaming := false; re_MachinePool := false;
     re_formatTime _ := ""; re_versionString _ := "1.31.0"; re_MustFormatValue s := s |}.

(** The Machines that are created and deleted. *)
Definition changes (cs : list KcpCall) : list (bool * string) :=
  omap (λ c, match c with
             | KCreateMachine m => Some (true, m_Name m)
             | KDeleteMachine m => Some (false, m_Name m)
             | _ => None
             end) cs.

(** Two of three Machines exist: one is created. *)
Lemma kcp_reconcile_one_change_witness :
  let s := demo_state [healthy_machine "a"; healthy_machine "b"] in
  let s' := (kcp_reconcile (demo_reconcile_env (λ _, None)) s).2 in
  changes (k_calls s') = [(true, "cp-new"%string)] ∧
  ∃ cs, k_calls s' = k_calls s ++ cs ∧ one_change (demo_reconcile_env (λ _, None)) s cs.
Proof.
  intros s s'. split; [vm_compute; reflexivity|].
  exact (kcp_reconcile_one_change (demo_reconcile_env (λ _, None)) (λ _ _, eq_refl) s _ s'
    (demo_keyed _) (surjective_pairing _)).
Defined.

(** The Machine cannot be created: the clone and the KubeadmConfig are deleted again. *)
Lemma failed_creation_cleans_up_witness :
  let env := demo_reconcile_env (λ c, if c is KCreateMachine _ then Some (Errorf "denied") else None) in
  let s := demo_state [] in
  let run := cloneConfigsAndGenerateMachine env demo_config_spec None s in
  run.1 ≠ Ok tt ∧ length (k_calls run.2) = 5%nat ∧
  ∃ cs, k_calls run.2 = k_calls s ++ cs ∧
    ∀ before config after, cs = before ++ KCreateConfig config :: after →
      ∃ ref, ref_Name ref = om_Name (kc_Meta config) ∧ KDeleteObject ref ∈ after.
Proof.
  intros env s run.
  assert (run.1 ≠ Ok tt) as Hr by (vm_compute; discriminate).
  split; [exact Hr|]. split; [vm_compute; reflexivity|].
  destruct (failed_creation_cleans_up env demo_config_spec None s run.1 run.2 (surjective_pairing run))
    as (cs & Hcs & _ & Hf).
  exists cs. split; [exact Hcs|]. intros before config after E.
  destruct (Hf Hr before _ after E eq_refl) as (ref & _ & Hn & _ & Hin). exists ref. split; assumption.
Defined.
