(* ===== verification/KcpDeletionSpec.v ===== *)
(** * Deleting control plane Machines

    What the handlers of KcpReconcile.v do while Machines are in deletion: the etcd member of a
    Machine is removed before its pre-terminate hook, one Machine at a time, and the control
    plane itself waits for all workers. *)

From S2P Require Import Prelude GoStd Json JsonCodec Api Apimachinery Util Conditions Version Collections.
From S2P Require Import FailureDomains ConditionsV1Beta2 ConditionsMerge StatusConditions External MachineSetPolicy MachineSet MachineSetSpec.
From S2P Require Import Kubeadm KubeadmConfig KcpTypes KubeadmControlPlane KubeadmControlPlaneSpec KcpUpToDate.
From S2P Require Import KcpMachines KcpWorkload KcpReconcile KcpReconcileSpec.

(** ** The pre-terminate hook *)

Section hook.
Context `{Apimachinery} `{GoSort} `{GoRange} `{MetaConditions} `{Semver} `{LabelSelectors} `{KubeTypes}.
Context (env : ReconcileEnv).

Abbreviation kenv := (re_kcp env) (only parsing).

(** The Machine whose hook is run: the one in deletion for longest, when every Machine in
    deletion still has its hook and the Machine controller waits for this one, and from
    Kubernetes 1.31 on, when no other hook is left. *)
Record hook_due (s : KcpState) (m : Machine) : Prop := {
  hd_machine : k_machines s !! m_Name m = Some m;
  hd_deleting : is_deleting m = true;
  hd_waits : waits_for_hook m = true;
  hd_oldest : ∀ k x, k_machines s !! k = Some x → is_deleting x = true → x ≠ m →
    machinesByDeletionTimestamp_Less m x = true;
  hd_hooks : ∀ k x, k_machines s !! k = Some x → is_deleting x = true →
    hasAnnotation (m_Meta x) PreTerminateHookCleanupAnnotation = true;
  hd_last : ∀ v, ParseTolerant (ksp_Version (kcp_Spec (cpl_KCP (k_cp s)))) = Some v →
    0 ≤ Compare v v1_31 [WithoutPreReleases] → machineHasOtherPreTerminateHooks m = false;
}.

(** The etcd cluster has to lose the member. *)
Definition has_member (s : KcpState) : bool :=
  (1 <? Machines_Len (k_machines s)) && IsEtcdManaged (k_cp s).

Definition member_call (m : Machine) (b : bool) (c : KcpCall) : Prop :=
  match c with
  | GetWorkloadClusterCall => True
  | ForwardEtcdLeadership x _ => x = m
  | RemoveEtcdMemberForMachine x => x = m ∧ b = true
  | _ => False
  end.

Lemma GetWorkloadCluster_member m b : kruns (member_call m b) steady (GetWorkloadCluster kenv).
Proof.
  unfold GetWorkloadCluster. apply runs_bind; [apply _|apply runs_gets, _|]. intros [|]; [apply runs_ret, _|].
  apply runs_bind; [apply _|apply runs_kcall; [done|apply steady_call]|]. intros _. apply runs_modify. by split.
Qed.

Lemma remove_etcd_member_calls m s r s' :
  remove_etcd_member env m s = (r, s') →
  steady s s' ∧ ∃ cs, k_calls s' = k_calls s ++ cs ∧ Forall (member_call m (has_member s)) cs ∧
    (r = Ok tt → has_member s = true → ∃ before, cs = before ++ [RemoveEtcdMemberForMachine m] ∧
       ke_error kenv (k_calls s ++ before) (RemoveEtcdMemberForMachine m) = None).
Proof.
  unfold remove_etcd_member. unfold mbind at 1, M_bind at 1, gets at 1. cbv zeta.
  change (cpl_Machines (k_cp s)) with (k_machines s). fold (has_member s).
  destruct (has_member s) eqn:Eh.
  2: { intros [= <- <-]. split; [done|]. exists []. by rewrite app_nil_r. }
  set (fwd := match Newest _ with Some _ => _ | None => _ end). intros E.
  assert (kruns (member_call m true) steady fwd) as Hfwd.
  { unfold fwd. destruct (Newest _); [|apply runs_ret, _].
    apply runs_mwrap, runs_kcall; [done|apply steady_call]. }
  clearbody fwd. unfold mbind at 1, M_bind at 1 in E.
  destruct (mwrap _ (GetWorkloadCluster kenv) s) as [x s1] eqn:E1.
  destruct (runs_mwrap _ _ _ _ (GetWorkloadCluster_member m true) _ _ _ E1) as (Hs1 & cs1 & Hc1 & HP1).
  destruct x as [[]|e|]; [|injection E as <- <-; split; [done|]; by exists cs1..].
  unfold mbind at 1, M_bind at 1 in E. destruct (fwd s1) as [y s2] eqn:E2.
  destruct (Hfwd _ _ _ E2) as (Hs2 & cs2 & Hc2 & HP2).
  assert (k_calls s2 = k_calls s ++ cs1 ++ cs2) as Hc by (by rewrite Hc2, Hc1, app_assoc).
  assert (Forall (member_call m true) (cs1 ++ cs2)) by (by apply Forall_app).
  destruct y as [[]|e|]; [|injection E as <- <-; split; [by etrans|]; by exists (cs1 ++ cs2)..].
  unfold mwrap, kcall in E.
  destruct (ke_error kenv (k_calls s2) (RemoveEtcdMemberForMachine m)) eqn:Er; injection E as <- <-;
    (split; [etrans; [by etrans|apply steady_call]|]);
    exists ((cs1 ++ cs2) ++ [RemoveEtcdMemberForMachine m]); simpl;
    (split_and!; [by rewrite Hc, !app_assoc|apply Forall_app; split; [done|by constructor]|]); [done|].
  intros _ _. exists (cs1 ++ cs2). split; [done|]. by rewrite <- Hc.
Qed.

Lemma removeHook_calls m s r s' :
  k_machines s !! m_Name m = Some m →
  hasAnnotation (m_Meta m) PreTerminateHookCleanupAnnotation = true →
  removePreTerminateHookAnnotationFromMachine env (m_Name m) s = (r, s') →
  let p := m_set_Annotations (delete PreTerminateHookCleanupAnnotation (om_Annotations (m_Meta m))) m in
  k_calls s' = k_calls s ++ [KPatchMachine p] ∧ k_machines s' = <[m_Name m := p]> (k_machines s).
Proof.
  intros Hm Ha. unfold removePreTerminateHookAnnotationFromMachine, mbind, M_bind, kload, gets. rewrite Hm.
  unfold hasAnnotation in Ha. apply bool_decide_eq_true in Ha as [v Hv]. cbn [default from_option]. unfold id.
  rewrite Hv. unfold kstore, modify, mwrap, kcall. destruct (ke_error _ _ _); by intros [= <- <-].
Qed.

Lemma due_machine s m :
  keyed (k_machines s) → OldestDeletionTimestamp (DeletingMachines (k_cp s)) = Some m →
  k_machines s !! m_Name m = Some m ∧ is_deleting m = true ∧
  ∀ k x, k_machines s !! k = Some x → is_deleting x = true → x ≠ m → machinesByDeletionTimestamp_Less m x = true.
Proof.
  intros Hk Hm. unfold DeletingMachines in Hm. destruct (oldest_deleting _ _ Hk Hm) as [? ?]. split_and!; [done..|].
  intros k x Hx Hd Hne.
  assert (keyed (Filter (k_machines s) [HasDeletionTimestamp])) as Hkf by (by apply keyed_Filter).
  destruct (Oldest_outcome _ Hkf) as (_ & _ & _ & _ & _ & Hold). apply (Hold m Hm); [|done].
  apply elem_of_go_values. exists k. by apply Filter1_lookup.
Qed.

(** What the handler asks of the clusters: nothing, or the calls for one due Machine, where
    the hook is taken off last. *)
Definition hook_calls (s : KcpState) (cs : list KcpCall) : Prop :=
  cs = [] ∨ ∃ m, hook_due s m ∧
    (Forall (member_call m (has_member s)) cs ∨
     ∃ before, Forall (member_call m (has_member s)) before ∧
       cs = before ++ [KPatchMachine
         (m_set_Annotations (delete PreTerminateHookCleanupAnnotation (om_Annotations (m_Meta m))) m)] ∧
       (has_member s = true → ∃ first, before = first ++ [RemoveEtcdMemberForMachine m] ∧
          ke_error kenv (k_calls s ++ first) (RemoveEtcdMemberForMachine m) = None)).

(** C7: the controller takes the etcd member out before it lets the infrastructure of a
    Machine go, and for one Machine at a time.  It acts only when every Machine in deletion
    still has the hook, on the Machine deleted first, and once the Machine controller waits for
    the hook (from Kubernetes 1.31 on, as the only hook left).  It removes no member but that
    of this Machine, and only from a managed etcd cluster of more than one Machine; the hook
    is removed by the last request, which in such a cluster directly follows the successful
    removal of the member. *)
Theorem pre_terminate_hook_order s r s' :
  keyed (k_machines s) →
  reconcilePreTerminateHook env s = (r, s') →
  ∃ cs, k_calls s' = k_calls s ++ cs ∧ hook_calls s cs.
Proof.
  intros Hk. unfold reconcilePreTerminateHook. unfold mbind at 1, M_bind at 1, gets at 1. cbv zeta.
  assert (∃ cs, k_calls s = k_calls s ++ cs ∧ hook_calls s cs) as Hnone.
  { exists []. rewrite app_nil_r. split; [done|by left]. }
  destruct (negb (HasDeletingMachine (k_cp s))); [by intros [= _ <-]|].
  destruct (existsb _ _) eqn:Eh; [by intros [= _ <-]|].
  destruct (OldestDeletionTimestamp _) as [m|] eqn:Em; [|by intros [= _ <-]].
  unfold mbind at 1, M_bind at 1, lift, deref.
  destruct (ParseTolerant _) as [v|] eqn:Ev; [|by intros [= _ <-]].
  destruct (_ && machineHasOtherPreTerminateHooks m) eqn:Eo; [by intros [= _ <-]|].
  destruct (negb (waits_for_hook m)) eqn:Ew; [by intros [= _ <-]|]. apply negb_false_iff in Ew.
  destruct (due_machine s m Hk Em) as (Hm & Hdel & Hold).
  assert (∀ k x, k_machines s !! k = Some x → is_deleting x = true →
            hasAnnotation (m_Meta x) PreTerminateHookCleanupAnnotation = true) as Hhook.
  { intros k x Hx Hd. destruct (hasAnnotation _ _) eqn:Ea; [done|]. exfalso. revert Eh. apply not_false_iff_true.
    apply existsb_exists. exists x. rewrite Ea. split; [|done]. apply list_elem_of_In, elem_of_go_values.
    exists k. by apply Filter1_lookup. }
  assert (hook_due s m) as Hdue.
  { split; [done..|]. intros v' [= <-]%(eq_trans (eq_sym Ev)) Hge. apply Z.leb_le in Hge. by rewrite Hge in Eo. }
  intros E. unfold mbind at 1, M_bind at 1 in E.
  destruct (remove_etcd_member env m s) as [x s1] eqn:E1.
  destruct (remove_etcd_member_calls m s x s1 E1) as (Hs1 & cs & Hc & HP & Hok).
  destruct x as [[]|e|]; [|injection E as _ <-; exists cs; split; [done|]; right; eauto..].
  destruct Hs1 as [Hms _]. unfold mbind at 1, M_bind at 1 in E.
  destruct (removePreTerminateHookAnnotationFromMachine env (m_Name m) s1) as [y s2] eqn:E2.
  apply removeHook_calls in E2 as [Hc2 _]; [|by rewrite Hms|by eapply Hhook].
  assert (s' = s2) as -> by (by destruct y; injection E as _ <-).
  eexists. rewrite Hc2, Hc, <- app_assoc. split; [done|]. right. exists m. split; [done|]. right. eauto.
Qed.
End hook.

(** ** Deleting the control plane *)

Section deletion.
Context `{Apimachinery} `{GoSort} `{GoRange} `{MetaConditions} `{Semver} `{LabelSelectors} `{KubeTypes}.
Context (env : ReconcileEnv).

Abbreviation kenv := (re_kcp env) (only parsing).

(** The requests of a deletion: Machines of the control plane are deleted, once each. *)
Definition delete_call (N : gset string) (c : KcpCall) : Prop :=
  match c with
  | KCreateMachine _ => False
  | KDeleteMachine m => m_Name m ∈ N ∧ is_deleting m = false
  | _ => True
  end.

Lemma calm_delete_call N c : calm c → delete_call N c.
Proof. by destruct c. Qed.
#[local] Hint Resolve calm_delete_call : core.

Lemma t_set_deleting N P reason message : triple N P (set_deleting reason message) anything.
Proof. apply t_modify. intros s []. by split_and!; split. Qed.

Lemma t_or_deleting_error {A} N P (m : M KcpState A) :
  triple N P m anything → triple N P (or_deleting_error m) anything.
Proof.
  intros Hm. unfold or_deleting_error, deleting_error. eapply t_bind; [apply t_attempt, Hm|].
  intros [a|e] _; [by apply t_ret|].
  eapply (t_bind _ _ _ _ anything); [apply t_set_deleting|intros _ _; apply t_throw].
Qed.

Lemma t_delete_machine N errs name :
  name ∈ N → triple N (delete_call N) (delete_control_plane_machine env errs name) anything.
Proof.
  intros Hn. unfold delete_control_plane_machine.
  eapply (t_bind _ _ _ _ anything); [apply t_try_err, t_removeHook; auto|intros [e|] _; [by apply t_ret|]].
  eapply t_bind; [by apply t_kload|]. intros m Hm. destruct (is_deleting m) eqn:Ed; [by apply t_ret|].
  eapply (t_bind _ _ _ _ anything); [|intros; by apply t_ret].
  apply t_try_err, t_kcall. simpl. by rewrite Hm.
Qed.

Lemma t_delete_machines N :
  triple N (delete_call N) (kcp_delete_machines env) (λ res, res = requeue_deletion).
Proof.
  unfold kcp_delete_machines. eapply t_bind; [apply t_k_machines|]. intros ms [Hd _].
  eapply (t_bind _ _ _ _ anything).
  { apply t_foldM. intros errs name Hn. apply t_delete_machine. by eapply go_keys_in. }
  intros [|e errs] _.
  - eapply (t_bind _ _ _ _ anything); [by apply t_kcp_MarkFalse|intros _ _].
    eapply (t_bind _ _ _ _ anything); [by apply t_clock|intros now _].
    eapply (t_bind _ _ _ _ anything); [by apply t_gets|intros ms' _].
    eapply (t_bind _ _ _ _ anything); [apply t_set_deleting|intros _ _]. by apply t_ret.
  - eapply (t_bind _ _ _ _ anything); [apply t_set_deleting|intros _ _]. apply t_throw.
Qed.

Lemma or_deleting_call c s r s' :
  or_deleting_error (kcall kenv c) s = (r, s') →
  k_calls s' = k_calls s ++ [c] ∧ (∀ a, r = Ok a → ke_error kenv (k_calls s) c = None).
Proof.
  unfold or_deleting_error, attempt, kcall, mbind, M_bind. cbv zeta.
  destruct (ke_error kenv (k_calls s) c); by intros [= <- <-].
Qed.

(** The list of the MachinePools, empty where the feature is off. *)
Lemma read_pools s r s' :
  (if re_MachinePool env then
     allMachinePools ← gets (λ s, re_machinePools env (k_calls s));
     _ ← or_deleting_error (kcall kenv KGetMachinePoolsForCluster);
     mret allMachinePools
   else mret []) s = (r, s') →
  ∃ cs, k_calls s' = k_calls s ++ cs ∧ Forall calm cs ∧
    ∀ pools, r = Ok pools → re_MachinePool env = true →
      cs = [KGetMachinePoolsForCluster] ∧ pools = re_machinePools env (k_calls s) ∧
      ke_error kenv (k_calls s) KGetMachinePoolsForCluster = None.
Proof.
  destruct (re_MachinePool env).
  2: { intros [= <- <-]. exists []. by rewrite app_nil_r. }
  unfold mbind, M_bind, gets. destruct (or_deleting_error _ s) as [x s1] eqn:E.
  apply or_deleting_call in E as [Hc He]. intros E. exists [KGetMachinePoolsForCluster].
  destruct x as [a|e|]; injection E as <- <-; (split_and!; [done|by constructor|]); [|done..].
  intros pools [= <-] _. split_and!; [done..|]. by eapply He.
Qed.

(** The Cluster was found to have no other Machines, and no MachinePools. *)
Definition workers_gone (s : KcpState) (before : list KcpCall) : Prop :=
  ∃ b1 b2, before = b1 ++ KGetMachinesForCluster :: b2 ∧
    ke_error kenv (k_calls s ++ b1) KGetMachinesForCluster = None ∧
    size (re_allMachines env (k_calls s ++ b1)) = size (k_machines s) ∧
    (re_MachinePool env = true → ∃ b3, b2 = KGetMachinePoolsForCluster :: b3 ∧
       ke_error kenv (k_calls s ++ b1 ++ [KGetMachinesForCluster]) KGetMachinePoolsForCluster = None ∧
       re_machinePools env (k_calls s ++ b1 ++ [KGetMachinesForCluster]) = []).

Lemma calm_prefix cs ds before m after :
  Forall calm cs → cs ++ ds = before ++ KDeleteMachine m :: after →
  ∃ b, before = cs ++ b ∧ ds = b ++ KDeleteMachine m :: after.
Proof.
  intros Hcs. revert before. induction Hcs as [|c cs Hc _ IH]; intros before E; [by exists before|].
  destruct before as [|c' before]; injection E as -> E; [done|].
  apply IH in E as (b & -> & ->). by exists b.
Qed.

Lemma calm_no_delete cs before m after : Forall calm cs → cs ≠ before ++ KDeleteMachine m :: after.
Proof. intros Hcs ->. by apply Forall_app in Hcs as [_ [? _]%Forall_cons]. Qed.

(** What a deletion with Machines left asks for and answers. *)
Record deletes (s : KcpState) (r : result ctrl_Result) (s' : KcpState) (cs : list KcpCall) : Prop := {
  de_finalizers : om_Finalizers (kcp_Meta (cpl_KCP (k_cp s'))) = om_Finalizers (kcp_Meta (cpl_KCP (k_cp s)));
  de_requeue : ∀ res, r = Ok res → res = requeue_deletion;
  de_calls : Forall (delete_call (dom (k_machines s))) cs;
  de_last : ∀ before m after, cs = before ++ KDeleteMachine m :: after → workers_gone s before;
}.

Lemma calm_deletes s r s' cs :
  kept s s' → (∀ res, r = Ok res → res = requeue_deletion) → Forall calm cs → deletes s r s' cs.
Proof.
  intros [_ _ Hk] Hr Hcs. split; [apply Hk|done|eapply Forall_impl; [done|auto]|].
  intros before m after E. by apply calm_no_delete in E.
Qed.

(** The last part: waiting for the workers, or deleting the Machines. *)
Lemma t_wait N k allMachines pools :
  triple N calm
    (_ ← kcp_MarkFalse env kcp_ResizedCondition kcp_DeletingReason ConditionSeverityInfo
           "Waiting for worker nodes to be deleted first";
     names ← lift (objectsPendingDeleteNames env allMachines pools k);
     _ ← set_deleting "WaitingForWorkersDeletion"
           ("KubeadmControlPlane deletion blocked because following objects still exist:" +:+ nl
            +:+ Join ((λ name, "* " +:+ name) <$> names) nl);
     mret requeue_deletion) (λ res, res = requeue_deletion).
Proof.
  eapply (t_bind _ _ _ _ anything); [by apply t_kcp_MarkFalse|intros _ _].
  eapply (t_bind _ _ _ _ anything); [by apply t_lift|intros names _].
  eapply (t_bind _ _ _ _ anything); [apply t_set_deleting|intros _ _]. by apply t_ret.
Qed.

Lemma t_read_pools N :
  triple N calm
    (if re_MachinePool env then
       allMachinePools ← gets (λ s, re_machinePools env (k_calls s));
       _ ← or_deleting_error (kcall kenv KGetMachinePoolsForCluster);
       mret allMachinePools
     else mret []) anything.
Proof.
  destruct (re_MachinePool env); [|by apply t_ret].
  eapply (t_bind _ _ _ _ anything); [by apply t_gets|intros pools _].
  eapply (t_bind _ _ _ _ anything); [by apply t_or_deleting_error, t_kcall|intros _ _]. by apply t_ret.
Qed.

Lemma after_calm {A} N s0 cs0 (m : M KcpState A) (f : A → M KcpState ctrl_Result) s r s' :
  triple N calm m anything → settled N s → kept s0 s → k_calls s = k_calls s0 ++ cs0 → Forall calm cs0 →
  (m ≫= f) s = (r, s') →
  (∀ a s1 cs1, m s = (Ok a, s1) → settled N s1 → kept s0 s1 →
     k_calls s1 = k_calls s ++ cs1 → k_calls s1 = k_calls s0 ++ cs0 ++ cs1 → Forall calm (cs0 ++ cs1) →
     f a s1 = (r, s') → ∃ cs, k_calls s' = k_calls s0 ++ cs ∧ deletes s0 r s' cs) →
  ∃ cs, k_calls s' = k_calls s0 ++ cs ∧ deletes s0 r s' cs.
Proof.
  intros Hm Hs Hk Hc0 HP0 E Hf. unfold mbind, M_bind in E. destruct (m s) as [x s1] eqn:E1.
  destruct (Hm _ _ _ Hs E1) as (Hs1 & Hk1 & (cs1 & Hcs1 & HP1) & _).
  assert (k_calls s1 = k_calls s0 ++ cs0 ++ cs1) as Hc by (by rewrite Hcs1, Hc0, app_assoc).
  assert (Forall calm (cs0 ++ cs1)) as HP by (by apply Forall_app).
  assert (kept s0 s1) as Hk' by (by etrans).
  destruct x as [a|e|]; [by eapply Hf|injection E as <- <-; exists (cs0 ++ cs1); split; [done|]..];
    by apply calm_deletes.
Qed.

(** A read of the cluster appends itself, and its answer is that of the calls before it. *)
Lemma delete_after_reads N s cs1 s3 allMachines pools cs3 r s' :
  settled N s → settled N s3 → kept s s3 →
  k_calls s3 = k_calls s ++ cs1 ++ [KGetMachinesForCluster] ++ cs3 →
  Forall calm (cs1 ++ [KGetMachinesForCluster] ++ cs3) →
  allMachines = re_allMachines env (k_calls s ++ cs1) →
  ke_error kenv (k_calls s ++ cs1) KGetMachinesForCluster = None →
  (re_MachinePool env = true → cs3 = [KGetMachinePoolsForCluster] ∧
     pools = re_machinePools env (k_calls s ++ cs1 ++ [KGetMachinesForCluster]) ∧
     ke_error kenv (k_calls s ++ cs1 ++ [KGetMachinesForCluster]) KGetMachinePoolsForCluster = None) →
  size allMachines = size (k_machines s3) → pools = [] →
  kcp_delete_machines env s3 = (r, s') →
  ∃ cs, k_calls s' = k_calls s ++ cs ∧ deletes s r s' cs.
Proof.
  intros Hs Hs3 Hk3 Hc HP -> He Hp Hsize -> E.
  destruct (t_delete_machines N _ _ _ Hs3 E) as (_ & Hk & (ds & Hds & HD) & Hr).
  eexists. rewrite Hds, Hc, <- app_assoc. split; [done|]. destruct Hs as [HN _]. split.
  - apply (ss_finalizers _ _ (kp_spec s s' (transitivity Hk3 Hk))).
  - done.
  - rewrite HN. apply Forall_app. split; [|done]. eapply Forall_impl; [done|auto].
  - intros before m after (b & -> & _)%calm_prefix; [|done]. exists cs1, (cs3 ++ b).
    split_and!; [by rewrite <- !app_assoc|done| |].
    + rewrite Hsize. destruct Hs3 as [HN3 _]. by rewrite <- !size_dom, HN, HN3.
    + intros Hpool. destruct (Hp Hpool) as (-> & Hnone & Hpe). by exists b.
Qed.

(** The next step of the handler makes calm requests only. *)
Tactic Notation "next" hyp(E) "by" tactic3(tac) "as" simple_intropattern(a) simple_intropattern(s1)
    simple_intropattern(cs) simple_intropattern(E1) simple_intropattern(Hs) simple_intropattern(Hk)
    simple_intropattern(Hc') simple_intropattern(Hc) simple_intropattern(HP) :=
  eapply after_calm in E; [exact E|tac|eassumption..|]; clear E; intros a s1 cs E1 Hs Hk Hc' Hc HP E.

(** C12: the control plane is deleted last.  With no Machines left the finalizer is removed
    and nothing is asked of the cluster.  Otherwise the finalizer stays, no Machine is created,
    only Machines of the control plane that are not yet in deletion are deleted, and the first
    of them only after the Machines of the Cluster were listed and are no more than those of
    the control plane, and no MachinePools were found; the control plane is looked at again
    later, unless an error is returned. *)
Theorem control_plane_deleted_last s r s' :
  (∀ calls m, m_Name (re_applied env calls m) = m_Name m) →
  keyed (k_machines s) →
  kcp_reconcileDelete env s = (r, s') →
  ∃ cs, k_calls s' = k_calls s ++ cs ∧
    if decide (k_machines s = ∅) then
      cs = [] ∧ r = Ok zero_Result ∧
      om_Finalizers (kcp_Meta (cpl_KCP (k_cp s'))) =
        filter (λ f, f ≠ KubeadmControlPlaneFinalizer) (om_Finalizers (kcp_Meta (cpl_KCP (k_cp s))))
    else deletes s r s' cs.
Proof.
  intros Happ Hkey. unfold kcp_reconcileDelete. unfold mbind at 1, M_bind at 1, gets at 1.
  destruct (decide (k_machines s = ∅)) as [Hnone|Hsome].
  { rewrite Hnone. intros [= <- <-]. exists []. by rewrite app_nil_r. }
  destruct (size (k_machines s) =? 0)%nat eqn:Esize.
  { apply Nat.eqb_eq, map_size_empty_iff in Esize. done. }
  set (N := dom (k_machines s)). assert (settled N s) as Hs by done. intros E.
  assert (k_calls s = k_calls s ++ []) as Hc0 by (by rewrite app_nil_r).
  assert (Forall calm []) as HP0 by done. assert (kept s s) as Hk0 by done.
  next E by (by apply t_try_err, t_reconcileControlPlaneAndMachinesConditions) as ? s1 cs1 ? Hs1 Hk1 ? Hc1 HP1.
  next E by (by apply t_clock) as now s2 cs2 ? Hs2 Hk2 ? Hc2 HP2.
  next E by (by apply t_gets) as machines s3 cs3 ? Hs3 Hk3 ? Hc3 HP3.
  next E by (by repeat t_step) as ? s4 cs4 ? Hs4 Hk4 ? Hc4 HP4.
  unfold mbind at 1, M_bind at 1, gets at 1 in E.
  next E by (by apply t_or_deleting_error, t_kcall) as ? s5 cs5 E5 Hs5 Hk5 Hq5 Hc5 HP5.
  apply or_deleting_call in E5 as [Hc5' He5]. specialize (He5 _ eq_refl).
  next E by (by apply t_read_pools) as pools s6 cs6 E6 Hs6 Hk6 Hq6 Hc6 HP6.
  apply read_pools in E6 as (cs6' & Hc6'' & _ & Hpools). specialize (Hpools _ eq_refl).
  unfold mbind at 1, M_bind at 1, gets at 1 in E.
  assert (cs5 = [KGetMachinesForCluster]) as -> by (by apply (app_inv_head (k_calls s4)); rewrite <- Hq5).
  assert (cs6' = cs6) as -> by (by apply (app_inv_head (k_calls s5)); rewrite <- Hq6).
  change (cpl_Machines (k_cp s6)) with (k_machines s6) in E.
  destruct (_ || _) eqn:Ew.
  - destruct (t_wait N _ _ _ _ _ _ Hs6 E) as (_ & Hk & (ds & Hds & HD) & Hr).
    eexists. rewrite Hds, Hc6, <- app_assoc. split; [done|].
    apply calm_deletes; [by etrans|done|by apply Forall_app].
  - apply orb_false_iff in Ew as [Em%negb_false_iff%Nat.eqb_eq Ep%negb_false_iff%Nat.eqb_eq%nil_length_inv].
    rewrite Hc5', Hc4, <- app_assoc in Hpools.
    rewrite Hc4 in He5. rewrite Hc4 in Em. rewrite <- (app_assoc _ _ cs6) in Hc6, HP6.
    by eapply (delete_after_reads N).
Qed.
End deletion.

(** ** Examples *)

Definition meta_set_DeletionTimestamp (t : option Time) (m : Meta) : Meta :=
  {| om_Name := om_Name m; om_Namespace := om_Namespace m; om_UID := om_UID m;
     om_Generation := om_Generation m; om_CreationTimestamp := om_CreationTimestamp m;
     om_DeletionTimestamp := t; om_Labels := om_Labels m; om_Annotations := om_Annotations m;
     om_Finalizers := om_Finalizers m; om_OwnerReferences := om_OwnerReferences m |}.

(** A Machine in deletion that waits for the hook. *)
Definition waiting_machine (name : string) : Machine :=
  let m := control_plane_machine name
    [{| c_Type := PreTerminateDeleteHookSucceededCondition; c_Status := ConditionFalse; c_Severity := "Info";
        c_LastTransitionTime := 0; c_Reason := WaitingExternalHookReason; c_Message := "" |}] in
  m_set_Meta (meta_set_DeletionTimestamp (Some 5) (meta_set_Annotations
    (<[PreTerminateHookCleanupAnnotation := ""%string]> ∅) (m_Meta m))) m.

(** The member of the Machine in deletion is removed, then its hook. *)
Lemma pre_terminate_hook_order_witness :
  let env := demo_reconcile_env (λ _, None) in
  let s := demo_state [healthy_machine "a"; waiting_machine "b"; healthy_machine "c"] in
  let s' := (reconcilePreTerminateHook env s).2 in
  has_member s = true ∧ length (k_calls s') = 4%nat ∧
  ∃ cs, k_calls s' = k_calls s ++ cs ∧ hook_calls env s cs.
Proof.
  intros env s s'. split; [vm_compute; reflexivity|]. split; [vm_compute; reflexivity|].
  exact (pre_terminate_hook_order env s _ s' (demo_keyed _) (surjective_pairing _)).
Defined.

(** Selectors that take every key and value for valid labels. *)
Definition requirement_matches (r : string * option string) (labels : gmap string string) : bool :=
  match r.2 with
  | Some v => bool_decide (labels !! r.1 = Some v)
  | None => bool_decide (is_Some (labels !! r.1))
  end.

Definition new_requirement (k : string) (op : selection_Operator) (values : list string) :
    result (string * option string) :=
  match op, values with
  | selection_Equals, [v] => Ok (k, Some v)
  | selection_Exists, [] => Ok (k, None)
  | _, _ => Err (Errorf "values: Invalid value")
  end.

#[local] Instance demo_LabelSelectors : LabelSelectors.
Proof.
  refine {| NewRequirement := new_requirement; Requirement_Matches := requirement_matches;
            Selector_Matches rs labels := forallb (λ r, requirement_matches r labels) rs |}.
  - by intros k [] [|? []].
  - by intros k v r labels [= <-].
  - by intros k r labels [= <-].
  - done.
Defined.

(** The two Machines of the control plane are the only ones: both are deleted. *)
Lemma control_plane_deleted_last_witness :
  let env := demo_reconcile_env (λ _, None) in
  let s := demo_state [healthy_machine "a"; healthy_machine "b"] in
  let run := kcp_reconcileDelete env s in
  changes (k_calls run.2) = [(false, "a"); (false, "b")]%string ∧
  ∃ cs, k_calls run.2 = k_calls s ++ cs ∧ deletes env s run.1 run.2 cs.
Proof.
  intros env s run. split; [vm_compute; reflexivity|].
  exact (control_plane_deleted_last env s run.1 run.2 (λ _ _, eq_refl) (demo_keyed _) (surjective_pairing _)).
Defined.
