(* ===== verification/RolloutLiveness.v ===== *)
(** * Rolling updates finish

    The MachineDeployment controller only changes sizes; between two of its reconciliations the
    MachineSet controller and the infrastructure bring the Machines to those sizes.  This file
    shows that rounds of a rolling reconciliation, each followed by the MachineSets settling,
    complete a rollout: the new MachineSet reaches the desired size and the old ones are empty
    after at most as many rounds as there are replicas to add and to remove, with the minimum of
    available replicas kept on the way. *)

From S2P Require Import Prelude GoStd Api Apimachinery Util Conditions MdUtil.
From S2P Require Import MachineDeployment MachineDeploymentSpec.

Section liveness.
Context `{Apimachinery} `{GoSort} (env : Env).

Definition no_failures : Prop := ∀ calls c, api_error env calls c = None.

Context (Hquiet : no_failures).

(** ** Without failures every step succeeds *)

Lemma scaleMachineSet_Ok p k s :
  readable (s_md s) → is_Some (ms_Replicas (heap_get (s_heap s) p)) →
  ∃ s', scaleMachineSet env p k s = (Ok tt, s').
Proof using Hquiet.
  intros [[n Hn] [surge Hsurge]] [m Hm].
  unfold scaleMachineSet, load, gets, mbind, M_bind. rewrite Hm, Hn. unfold lift. rewrite Hsurge.
  destruct ((m =? k) && _); [by eexists|].
  unfold call, store, modify. cbn beta iota zeta. rewrite Hquiet. cbn beta iota zeta.
  rewrite Hquiet. by eexists.
Qed.

Definition total_step (limit : Z) (step : Z → ptr → M State (Z + Z)) : Prop :=
  ∀ total p s, 0 ≤ total ≤ limit → readable (s_md s) → good (s_heap s) p →
    ∃ x s', step total p s = (Ok x, s').

Lemma cleanup_step_total limit : limit ≤ int32_max → total_step limit (cleanup_step env limit).
Proof using Hquiet.
  intros Hlim total p s Ht Hmd ([m Hm] & Ha & Hr).
  assert (reps (s_heap s) p = m) as Er by (unfold reps; by rewrite Hm).
  unfold cleanup_step, load, gets, mbind, M_bind. rewrite Hm.
  fold (avail (s_heap s) p). unfold int32_max in *.
  destruct (Z.leb_spec limit total); [by eexists _, _|].
  destruct (m =? 0); [by eexists _, _|]. destruct (m =? _); [by eexists _, _|].
  unwrap32. set (d := Z.min (limit - total) (m - avail (s_heap s) p)).
  assert (0 ≤ d ≤ limit - total ∧ d ≤ m - avail (s_heap s) p) as Hd by lia.
  unwrap32. destruct (Z.ltb_spec m (m - d)); [lia|].
  destruct (scaleMachineSet_Ok p (m - d) s Hmd) as [s1 ->]; eauto.
Qed.

Lemma scaleDown_step_total limit : limit ≤ int32_max → total_step limit (scaleDown_step env limit).
Proof using Hquiet.
  intros Hlim total p s Ht Hmd ([m Hm] & Ha & Hr).
  assert (reps (s_heap s) p = m) as Er by (unfold reps; by rewrite Hm).
  unfold scaleDown_step, load, gets, mbind, M_bind. rewrite Hm. unfold int32_max in *.
  destruct (Z.leb_spec limit total); [by eexists _, _|].
  destruct (m =? 0); [by eexists _, _|].
  unwrap32. set (d := Z.min m (limit - total)).
  assert (0 ≤ d ≤ limit - total ∧ d ≤ m) as Hd by lia.
  unwrap32. destruct (Z.ltb_spec m (m - d)); [lia|].
  destruct (scaleMachineSet_Ok p (m - d) s Hmd) as [s1 ->]; eauto.
Qed.

Lemma loop_total limit floor step :
  step_spec limit floor step → total_step limit step →
  ∀ l total s, NoDup l → 0 ≤ total ≤ limit → readable (s_md s) →
    (∀ p, p ∈ l → good (s_heap s) p) → ∃ t s', foldM step total l s = (Ok t, s').
Proof using.
  intros Hstep Htot. induction l as [|p l IH]; intros total s Hnd Ht Hmd Hgood; simpl; [by eexists _, _|].
  apply NoDup_cons in Hnd as [Hp Hnd]. unfold mbind, M_bind.
  destruct (Htot total p s Ht Hmd (Hgood p (list_elem_of_here _ _))) as (x & s1 & E).
  destruct (Hstep total p s _ _ Ht Hmd (Hgood p (list_elem_of_here _ _)) E)
    as (Emd & Hf & _ & Hoth & d & Hd & Hlim & Hrep & _ & Hinl & _).
  rewrite E. destruct x as [t1|t1]; [|by eexists _, _].
  destruct (Hinl t1 eq_refl) as [-> _]. apply IH; [done|lia|by rewrite Emd|].
  intros q Hq. eapply good_stable; [exact Hf| |by apply Hgood, list_elem_of_further].
  unfold reps. rewrite Hoth; [done|]. by intros ->.
Qed.

Lemma cleanupUnhealthyReplicas_Ok l limit s :
  NoDup l → 0 ≤ limit ≤ int32_max → readable (s_md s) → (∀ p, p ∈ l → good (s_heap s) p) →
  ∃ x s', cleanupUnhealthyReplicas env l limit s = (Ok x, s').
Proof using Hquiet.
  intros Hnd Hlim Hmd Hgood. unfold cleanupUnhealthyReplicas, gets, mbind, M_bind.
  set (l0 := go_sort (by_creation (s_heap s)) l).
  assert (l0 ≡ₚ l) as Hp by apply go_sort_perm. clearbody l0.
  destruct (loop_total limit avail (cleanup_step env limit) (cleanup_step_spec env limit (proj2 Hlim))
    (cleanup_step_total limit (proj2 Hlim)) l0 0 s) as (t & s' & ->); try done; try lia.
  - by rewrite Hp.
  - intros p. rewrite Hp. apply Hgood.
  - by eexists _, _.
Qed.

Lemma scaleDownOld_Ok l newMS n u s :
  wf_deployment (s_md s) n → MaxUnavailable (s_md s) = Ok u → NoDup l →
  (∀ p, p ∈ l ++ [newMS] → good (s_heap s) p) →
  sumZ (avail (s_heap s)) (l ++ [newMS]) ≤ int32_max →
  ∃ t s', scaleDownOldMachineSetsForRollingUpdate env ((Some <$> l) ++ [Some newMS]) l s
    = (Ok t, s').
Proof using Hquiet.
  intros Hwf Hu Hnd Hgood Hmax.
  destruct (limits_wf _ _ Hwf) as (surge & u' & _ & Hu' & _ & Hub & _).
  assert (u' = u) as -> by congruence. pose proof (wf_readable _ _ Hwf) as Hread.
  destruct Hwf as [Hn Hr _].
  assert (0 ≤ sumZ (avail (s_heap s)) (l ++ [newMS])) as Hpos
    by (apply sumZ_nonneg; intros p Hp; destruct (Hgood p Hp) as (_ & ? & _); lia).
  unfold scaleDownOldMachineSetsForRollingUpdate, gets, lift, mbind, M_bind. rewrite Hn, Hu.
  rewrite view_snoc, GetAvailableReplicaCount_sum, sumZ_view_avail.
  unfold int32_max in *. unwrap32.
  destruct (Z.leb_spec (sumZ (avail (s_heap s)) (l ++ [newMS])) (n - u)); [by eexists _, _|].
  unwrap32. set (T := sumZ (avail (s_heap s)) (l ++ [newMS]) - (n - u)).
  set (l0 := go_sort (by_creation (s_heap s)) l).
  assert (l0 ≡ₚ l) as Hp by apply go_sort_perm. clearbody l0.
  assert (T ≤ int32_max) as HT by (unfold T, int32_max; lia).
  apply (loop_total T (λ _ _, 0) _ (scaleDown_step_spec env T HT) (scaleDown_step_total T HT));
    [by rewrite Hp|lia|done|].
  intros p. rewrite Hp. intros Hin. apply Hgood. set_solver.
Qed.

(** ** Settled old MachineSets shrink *)

Lemma reconcileOld_shrinks l newMS n u s :
  wf_deployment (s_md s) n → MaxUnavailable (s_md s) = Ok u →
  NoDup l → newMS ∉ l → (∀ p, p ∈ l ++ [newMS] → good (s_heap s) p) →
  sumZ (reps (s_heap s)) (l ++ [newMS]) ≤ int32_max →
  (∀ p, p ∈ l → avail (s_heap s) p = reps (s_heap s) p) →
  0 < sumZ (reps (s_heap s)) l → n - u < sumZ (avail (s_heap s)) (l ++ [newMS]) →
  ∃ s', reconcileOldMachineSets env ((Some <$> l) ++ [Some newMS]) l newMS s = (Ok tt, s') ∧
    sumZ (reps (s_heap s')) l < sumZ (reps (s_heap s)) l.
Proof using Hquiet.
  intros Hwf Hu Hnd Hnew Hgood Hmax Heq Ho Hbudget.
  destruct (limits_wf _ _ Hwf) as (surge & u' & _ & Hu' & _ & Hub & _).
  assert (u' = u) as -> by congruence.
  assert (md_Replicas (s_md s) = Some n ∧ 0 ≤ n ≤ int32_max) as [Hn Hr] by by destruct Hwf.
  destruct (Hgood newMS) as ([m Hm] & Ham & Hrm); [set_solver|].
  assert (reps (s_heap s) newMS = m) as Em by (unfold reps; by rewrite Hm).
  assert (sumZ (avail (s_heap s)) l = sumZ (reps (s_heap s)) l) as Ea by by apply sumZ_ext.
  assert (sumZ (reps (s_heap s)) (l ++ [newMS]) = sumZ (reps (s_heap s)) l + m) as Esum
    by (rewrite sumZ_app; simpl; lia).
  rewrite sumZ_app in Hbudget. simpl in Hbudget.
  unfold reconcileOldMachineSets, load, gets, lift, mbind, M_bind. rewrite Hn, Hm, Hu.
  rewrite view_snoc, !GetReplicaCount_sum, !sumZ_view_spec.
  fold (avail (s_heap s) newMS). unfold int32_max in *. unwrap32.
  destruct (Z.eqb_spec (sumZ (reps (s_heap s)) l) 0); [lia|].
  destruct (Z.leb_spec (sumZ (reps (s_heap s)) (l ++ [newMS]) - (n - u)
    - (m - avail (s_heap s) newMS)) 0); [lia|].
  match goal with |- context [cleanupUnhealthyReplicas env l ?k s] => set (limit := k) end.
  assert (0 ≤ limit ≤ int32_max) as Hlim by (unfold limit, int32_max; lia).
  assert (∀ p, p ∈ l → good (s_heap s) p) as Hgl by (intros; apply Hgood; set_solver).
  destruct (cleanupUnhealthyReplicas_Ok l limit s) as ([l1 t1] & s1 & E1);
    [done..|by apply (wf_readable _ n)|done|].
  pose proof E1 as (Emd1 & Hf1 & _ & Hoth1 & Hb1 & d1 & _ & _ & Hok1)%cleanupUnhealthyReplicas_outcome;
    [|done..|by apply (wf_readable _ n)|done].
  destruct (Hok1 _ _ eq_refl) as (Hp1 & _). rewrite E1.
  assert (l1 ++ [newMS] ≡ₚ l ++ [newMS]) as Hp' by by rewrite Hp1.
  assert (∀ q, q ∈ l ++ [newMS] → reps (s_heap s1) q = reps (s_heap s) q) as Hr1.
  { intros q [Hq| ->%list_elem_of_singleton]%elem_of_app; [|unfold reps; by rewrite Hoth1].
    specialize (Hb1 q Hq). rewrite (Heq q Hq) in Hb1. lia. }
  assert (∀ q, q ∈ l1 ++ [newMS] → good (s_heap s1) q) as Hg1.
  { intros q. rewrite Hp'. intros Hq. eapply good_stable; [done|by apply Hr1|by apply Hgood]. }
  assert (∀ k, sumZ (avail (s_heap s1)) k = sumZ (avail (s_heap s)) k) as Ea1
    by (intros k; apply sumZ_ext; intros q _; by apply frame_avail).
  destruct (scaleDownOld_Ok l1 newMS n u s1) as (t & s2 & E2);
    [by rewrite Emd1..|by rewrite Hp1|done| |].
  { rewrite (sumZ_perm _ _ _ Hp'), Ea1, sumZ_app. simpl. unfold int32_max. lia. }
  rewrite E2. eexists. split; [reflexivity|].
  apply (scaleDownOld_outcome env l1 newMS n u) in E2
    as (_ & _ & _ & _ & _ & d & _ & Hsum & Hok); [|by rewrite Emd1..|by rewrite Hp1|by rewrite Hp1
     |done|rewrite (sumZ_perm _ _ _ Hp'), Ea1, sumZ_app; simpl; unfold int32_max; lia].
  destruct (Hok t eq_refl) as [-> Hend].
  rewrite (sumZ_perm _ _ _ Hp'), Ea1, sumZ_app in Hend. simpl in Hend.
  rewrite !(sumZ_perm _ _ _ Hp1) in Hsum.
  rewrite (sumZ_ext (reps (s_heap s1)) (reps (s_heap s))) in Hsum
    by (intros q Hq; apply Hr1; set_solver).
  destruct Hend as [->|Hz]; [lia|]. setoid_rewrite Hp1 in Hz.
  rewrite (sumZ_0 _ _ Hz). lia.
Qed.

Lemma reconcileNewMachineSet_Ok l newMS n surge s :
  wf_deployment (s_md s) n → MaxSurge (s_md s) = Ok surge → n + surge ≤ int32_max →
  (∀ p, p ∈ l ++ [newMS] → good (s_heap s) p) → reps (s_heap s) newMS ≤ n →
  sumZ (machines (s_heap s)) (l ++ [newMS]) ≤ int32_max →
  ∃ s', reconcileNewMachineSet env ((Some <$> l) ++ [Some newMS]) newMS s = (Ok tt, s').
Proof using Hquiet.
  intros Hwf Hsurge Hmax Hgood Hle Hsum.
  pose proof (wf_readable _ _ Hwf) as Hread.
  assert (md_Replicas (s_md s) = Some n) as Hn by by destruct Hwf.
  destruct (Hgood newMS) as ([m Hm] & Hm0 & _); [set_solver|].
  assert (reps (s_heap s) newMS = m) as Em by (unfold reps; by rewrite Hm).
  assert (∀ p, p ∈ l ++ [newMS] → 0 ≤ machines (s_heap s) p) as Hp0
    by (intros p Hp; destruct (Hgood p Hp) as (_ & ? & _); unfold machines; lia).
  pose proof (sumZ_elem_le _ _ newMS Hp0 ltac:(set_solver)) as Hin.
  unfold reconcileNewMachineSet, load, gets, lift, mbind, M_bind. rewrite Hn, Hm.
  destruct (Z.eqb_spec m n); [by eexists|]. destruct (Z.ltb_spec n m); [lia|].
  destruct (NewMSNewReplicas_bounds_aux (s_md s) n surge (view (s_heap s)
    (Some <$> (l ++ [newMS]))) m) as (k & Ek & _); [done|done|done
    |apply view_has_replicas; intros p Hp; by apply Hgood
    |rewrite sumZ_view_total; unfold int32_max, machines in *; lia|lia
    |rewrite sumZ_view_total; unfold machines in *; lia|].
  rewrite view_snoc, Ek. apply scaleMachineSet_Ok; eauto.
Qed.

(** ** One rolling reconciliation *)

(** A MachineSet whose Machines all exist and are available. *)
Definition settled (h : gmap ptr MachineSet) (p : ptr) : Prop :=
  good h p ∧ avail h p = reps h p ∧ mst_Replicas (ms_Status (heap_get h p)) = reps h p.

(** The replicas still to add to the new MachineSet and to remove from the old ones. *)
Definition remaining (newMS : ptr) (oldMSs : list ptr) (n : Z) (h : gmap ptr MachineSet) : Z :=
  (n - reps h newMS) + sumZ (reps h) oldMSs.

(** A settled deployment in the middle of a rolling update. *)
Record rolling_update (newMS : ptr) (oldMSs : list ptr) (n surge u : Z) (s : State) : Prop := {
  ru_ready : rolling_ready s newMS oldMSs n surge u;
  ru_rolling : IsRollingUpdate (s_md s) = Ok true;
  ru_settled : ∀ p, p ∈ oldMSs ++ [newMS] → settled (s_heap s) p;
}.

Lemma settled_machines h (l : list ptr) :
  (∀ p, p ∈ l → settled h p) → sumZ (machines h) l = sumZ (reps h) l.
Proof using.
  intros Hs. apply sumZ_ext. intros p Hp. destruct (Hs p Hp) as (_ & _ & E).
  unfold machines. lia.
Qed.

Lemma settled_avail h (l : list ptr) :
  (∀ p, p ∈ l → settled h p) → sumZ (avail h) l = sumZ (reps h) l.
Proof using. intros Hs. apply sumZ_ext. intros p Hp. by destruct (Hs p Hp) as (_ & ? & _). Qed.

(** The heap after a rolling reconciliation is the one after the old MachineSets were
    reconciled. *)
Lemma rolloutRolling_heap msList templateExists newMS oldMSs n surge u s s1 s2 r s' :
  getAllMachineSetsAndSyncRevision env msList true templateExists s
    = (Ok (Some newMS, oldMSs), s1) →
  rolling_ready s1 newMS oldMSs n surge u →
  reconcileNewMachineSet env ((Some <$> oldMSs) ++ [Some newMS]) newMS s1 = (Ok tt, s2) →
  rolloutRolling env msList templateExists s = (r, s') →
  ∃ s3 r4 s4, s_heap s3 = s_heap s2 ∧ md_Spec (s_md s3) = md_Spec (s_md s1) ∧
    reconcileOldMachineSets env ((Some <$> oldMSs) ++ [Some newMS]) oldMSs newMS s3 = (r4, s4) ∧
    s_heap s' = s_heap s4.
Proof using Hquiet.
  intros Hget Hready E2. pose proof Hready as [].
  unfold rolloutRolling, mbind, M_bind. rewrite Hget, E2.
  apply (reconcileNewMachineSet_outcome env oldMSs newMS n surge) in E2
    as (_ & Emd2 & Hf2 & Hoth2 & Hm2 & Hb2 & _); try done.
  2:{ intros p Hp. destruct (rr_good p Hp) as (? & ? & _). split; [done|lia]. }
  destruct (ready_after_new newMS oldMSs n surge u s1 s2) as (Hgood2 & Hsum2 & _); try done; [lia|].
  assert (wf_deployment (s_md s2) n) as Hwf2 by by rewrite Emd2.
  destruct (syncDeploymentStatus env _ _ s2) as [r3 s3] eqn:E3.
  apply (syncDeploymentStatus_outcome _ _ _ n) in E3 as (-> & Eh3 & _ & Esp3); [|done].
  destruct (limits_spec (s_md s2) (s_md s3) Esp3) as (Es3 & Eu3 & Hwf3).
  destruct (reconcileOldMachineSets env _ oldMSs newMS s3) as [r4 s4] eqn:E4. intros E.
  exists s3, r4, s4. split_and!; try done; [by rewrite Esp3, Emd2|].
  apply NoDup_app in rr_nodup as (Hndo & Hdis & _).
  apply (reconcileOldMachineSets_outcome env oldMSs newMS n u) in E4 as (_ & Emd4 & _);
    [|by apply Hwf3|by rewrite Eu3, Emd2|done|intros Hin; apply (Hdis _ Hin); set_solver
     |by rewrite Eh3|by rewrite Eh3].
  revert E. destruct r4 as [[]|e|]; [|by intros [= _ <-]..].
  destruct (syncDeploymentStatus env _ _ s4) as [r5 s5] eqn:E5.
  apply (syncDeploymentStatus_outcome _ _ _ n) in E5 as (-> & Eh5 & _ & Esp5);
    [|rewrite Emd4; by apply Hwf3].
  intros E6. apply (cleanup_if_complete_outcome _ _ n) in E6 as [_ Eh6];
    [congruence|apply (limits_spec (s_md s4)); [done|rewrite Emd4; by apply Hwf3]].
Qed.

(** A rolling reconciliation of a settled deployment grows the new MachineSet or shrinks the
    old ones, unless nothing is left to do. *)
Lemma rolloutRolling_progress msList templateExists newMS oldMSs n surge u s s1 r s' :
  getAllMachineSetsAndSyncRevision env msList true templateExists s
    = (Ok (Some newMS, oldMSs), s1) →
  rolling_update newMS oldMSs n surge u s1 →
  rolloutRolling env msList templateExists s = (r, s') →
  remaining newMS oldMSs n (s_heap s1) = 0 ∨ reps (s_heap s1) newMS < reps (s_heap s') newMS ∨
  sumZ (reps (s_heap s')) oldMSs < sumZ (reps (s_heap s1)) oldMSs.
Proof using Hquiet.
  intros Hget [Hready Hroll Hset] E. pose proof Hready as [].
  destruct (limits_wf _ _ rr_wf) as (surge' & u' & Es & Eu & Hsb & Hub & Hfence & _).
  assert (surge' = surge ∧ u' = u) as [-> ->] by (split; congruence). specialize (Hfence Hroll).
  apply NoDup_app in rr_nodup as HND. destruct HND as (Hndo & Hdis & _).
  assert (newMS ∉ oldMSs) as Hnin by (intros Hin; apply (Hdis _ Hin); set_solver).
  assert (0 ≤ sumZ (reps (s_heap s1)) oldMSs) as Ho0.
  { apply sumZ_nonneg. intros p Hp. destruct (rr_good p) as (_ & ? & _); [set_solver|lia]. }
  pose proof (settled_machines _ _ Hset) as Em. pose proof (settled_avail _ _ Hset) as Ea.
  destruct (reconcileNewMachineSet_Ok oldMSs newMS n surge s1) as [s2 E2]; try done.
  destruct (rolloutRolling_heap _ _ _ _ _ _ _ _ _ _ _ _ Hget Hready E2 E)
    as (s3 & r4 & s4 & Eh3 & Esp3 & E4 & Eh4).
  apply (reconcileNewMachineSet_outcome env oldMSs newMS n surge) in E2
    as (_ & _ & Hf2 & Hoth2 & Hm2 & Hb2 & Hok2); try done.
  2:{ intros p Hp. destruct (rr_good p Hp) as (? & ? & _). split; [done|lia]. }
  destruct (ready_after_new newMS oldMSs n surge u s1 s2) as (Hgood2 & Hsum2 & _); try done; [lia|].
  destruct (Hok2 eq_refl) as [_ Hfull]. rewrite Em, sumZ_app in Hfull. simpl in Hfull.
  destruct (limits_spec _ _ Esp3) as (Es3 & Eu3 & Hwf3).
  assert (∀ q, q ∈ oldMSs → heap_get (s_heap s2) q = heap_get (s_heap s1) q) as Hold2
    by (intros q Hq; apply Hoth2; by intros ->).
  assert (sumZ (reps (s_heap s2)) oldMSs = sumZ (reps (s_heap s1)) oldMSs) as Eo2
    by (apply sumZ_ext; intros q Hq; unfold reps; by rewrite Hold2).
  assert (∀ k, sumZ (avail (s_heap s2)) k = sumZ (avail (s_heap s1)) k) as Ea2
    by (intros k; apply sumZ_ext; intros q _; by apply frame_avail).
  destruct (decide (reps (s_heap s1) newMS < reps (s_heap s2) newMS)) as [Hgrow|Hstuck].
  { right; left. rewrite Eh4.
    apply (reconcileOldMachineSets_outcome env oldMSs newMS n u) in E4 as (_ & _ & _ & Hoth4 & _);
      [|by apply Hwf3|by rewrite Eu3|done|done|by rewrite Eh3|by rewrite Eh3].
    unfold reps in *. by rewrite (Hoth4 newMS Hnin), Eh3. }
  destruct (decide (0 < sumZ (reps (s_heap s1)) oldMSs)) as [Hsome|Hnone];
    [right; right|left; unfold remaining; lia].
  rewrite !sumZ_app in Ea. simpl in Ea.
  destruct (reconcileOld_shrinks oldMSs newMS n u s3) as (s4' & E4' & Hlt);
    [by apply Hwf3|by rewrite Eu3|done|done|by rewrite Eh3|by rewrite Eh3| | | |].
  - intros p Hp. rewrite Eh3. unfold avail, reps. rewrite (Hold2 p Hp). apply Hset. set_solver.
  - by rewrite Eh3, Eo2.
  - destruct (rr_good newMS) as (_ & ? & _); [set_solver|]. rewrite Eh3, Ea2, sumZ_app. simpl. lia.
  - rewrite E4 in E4'. injection E4' as _ <-. by rewrite Eh4, <- Eo2, <- Eh3.
Qed.

(** ** Rounds *)

(** What a reconciliation starts from: the MachineSets listed, the state, and the new and old
    MachineSets it determines, with the state then. *)
Record Snapshot := {
  sn_list : list ptr;
  sn_template : bool;
  sn_start : State;
  sn_found : State;
  sn_new : ptr;
  sn_old : list ptr;
}.

Definition sn_all (sn : Snapshot) : list ptr := sn_old sn ++ [sn_new sn].
Definition sn_size (sn : Snapshot) : ptr → Z := reps (s_heap (sn_found sn)).
Definition sn_available (sn : Snapshot) : Z := sumZ (avail (s_heap (sn_found sn))) (sn_all sn).

Definition discovered (sn : Snapshot) : Prop :=
  getAllMachineSetsAndSyncRevision env (sn_list sn) true (sn_template sn) (sn_start sn)
    = (Ok (Some (sn_new sn), sn_old sn), sn_found sn).

(** A round: a rolling reconciliation, after which the MachineSets settle at the sizes it gave
    them, so that the next reconciliation finds the new MachineSet with its size and the old
    ones with as many replicas in total, all Machines available and the deployment unchanged. *)
Inductive round (sn sn' : Snapshot) : Prop :=
  | Round r s' :
      rolloutRolling env (sn_list sn) (sn_template sn) (sn_start sn) = (r, s') →
      discovered sn' →
      md_Spec (s_md (sn_found sn')) = md_Spec (s_md (sn_found sn)) →
      NoDup (sn_all sn') → Z.of_nat (length (sn_old sn')) ≤ int32_max →
      (∀ p, p ∈ sn_all sn' → settled (s_heap (sn_found sn')) p) →
      sn_size sn' (sn_new sn') = reps (s_heap s') (sn_new sn) →
      sumZ (sn_size sn') (sn_old sn') = sumZ (reps (s_heap s')) (sn_old sn) →
      round sn sn'.

(** The snapshot of a rolling update that is under way. *)
Definition updating (n surge u : Z) (sn : Snapshot) : Prop :=
  discovered sn ∧ rolling_update (sn_new sn) (sn_old sn) n surge u (sn_found sn).

Definition sn_remaining (n : Z) (sn : Snapshot) : Z :=
  remaining (sn_new sn) (sn_old sn) n (s_heap (sn_found sn)).

(** One round keeps the update going, and leaves less to do unless nothing is left. *)
Lemma round_progress n surge u sn sn' :
  updating n surge u sn → round sn sn' →
  updating n surge u sn' ∧ Z.min (n - u) (sn_available sn) ≤ sn_available sn' ∧
  sn_remaining n sn' ≤ Z.max 0 (sn_remaining n sn - 1).
Proof using Hquiet.
  intros [Hget Hup] [r s' Hroll Hget' Espec Hnd Hlen Hset En Eo]. pose proof Hup as [Hready Hru Hset0].
  pose proof (rolloutRolling_outcome env _ _ _ _ _ _ _ _ _ _ _ Hget Hready Hroll)
    as [_ (Htot & Hnew & Hold & Hsurv)].
  assert (sumZ (sn_size sn') (sn_all sn') = sumZ (reps (s_heap s')) (sn_all sn)) as Eall
    by (unfold sn_all; rewrite !sumZ_app; simpl; lia).
  destruct (limits_spec _ _ Espec) as (Es & Eu & Hwf). split_and!.
  - split; [done|]. destruct Hready. split; [split|..]; try done.
    + by apply Hwf.
    + by rewrite Es.
    + by rewrite Eu.
    + intros p Hp. by apply Hset.
    + unfold sn_size in *. lia.
    + fold (sn_all sn'). rewrite settled_machines by done. fold (sn_size sn'). rewrite Eall.
      etransitivity; [apply (sumZ_le _ (machines (s_heap s'))); unfold machines; lia|].
      unfold sn_all. lia.
    + unfold IsRollingUpdate, strategy_Type in *. by rewrite Espec.
  - unfold sn_available. rewrite (settled_avail (s_heap (sn_found sn'))) by done.
    fold (sn_size sn'). rewrite Eall. etransitivity; [exact Hsurv|]. apply sumZ_le. lia.
  - assert (sumZ (reps (s_heap s')) (sn_old sn) ≤ sumZ (sn_size sn) (sn_old sn)) as Hle
      by (apply sumZ_le; intros p Hp; by apply Hold).
    unfold sn_remaining. destruct (rolloutRolling_progress _ _ _ _ _ _ _ _ _ _ _ Hget Hup Hroll);
      unfold remaining, sn_size in *; lia.
Qed.

(** Any number of rounds. *)
Lemma rounds_progress n surge u k sn sn' :
  updating n surge u sn → nsteps round k sn sn' →
  updating n surge u sn' ∧ Z.min (n - u) (sn_available sn) ≤ sn_available sn' ∧
  sn_remaining n sn' ≤ Z.max 0 (sn_remaining n sn - Z.of_nat k).
Proof using Hquiet.
  intros Hup Hsteps. induction Hsteps as [sn|k sn sn1 sn' Hstep _ IH].
  - split_and!; [done|lia|lia].
  - destruct (round_progress _ _ _ _ _ Hup Hstep) as (Hup1 & Hav1 & Hrem1).
    destruct (IH Hup1) as (Hup' & Hav' & Hrem'). split_and!; [done|lia|lia].
Qed.

(** C5: a rolling update finishes.  When no call of the API fails and after each reconciliation
    the MachineSets settle at the sizes it gave them, then after as many rounds as there are
    replicas to add to the new MachineSet and to remove from the old ones (or more), the new
    MachineSet has exactly the desired replicas and every old one is empty; the available
    replicas never drop below the minimum (or their initial number) on the way. *)
Theorem rollout_completes (n surge u : Z) (k : nat) (sn sn' : Snapshot) :
  updating n surge u sn → nsteps round k sn sn' → sn_remaining n sn ≤ Z.of_nat k →
  sn_size sn' (sn_new sn') = n ∧ (∀ p, p ∈ sn_old sn' → sn_size sn' p = 0) ∧
  Z.min (n - u) (sn_available sn) ≤ sn_available sn'.
Proof using Hquiet.
  intros Hup Hsteps Hk.
  destruct (rounds_progress _ _ _ _ _ _ Hup Hsteps) as ([_ [[] _ _]] & Hav & Hrem).
  assert (∀ p, p ∈ sn_old sn' → 0 ≤ sn_size sn' p) as Hpos.
  { intros p Hp. destruct (rr_good p) as (_ & ? & _); [set_solver|]. unfold sn_size. lia. }
  pose proof (sumZ_nonneg _ _ Hpos). unfold sn_remaining, remaining, sn_size in *.
  split_and!; [lia| |done]. intros p Hp.
  pose proof (sumZ_elem_le _ _ _ Hpos Hp). specialize (Hpos p Hp). lia.
Qed.
End liveness.

(** ** A concrete rollout *)

(** Machines that are created and deleted at once. *)
Definition settle_ms (ms : MachineSet) : MachineSet :=
  let k := default 0 (ms_Replicas ms) in
  {| ms_TypeMeta := ms_TypeMeta ms; ms_Meta := ms_Meta ms; ms_Spec := ms_Spec ms;
     ms_Status := ms_Status (sized_ms "" k k 0) |}.

Definition settle (s : State) : State :=
  {| s_heap := settle_ms <$> s_heap s; s_md := s_md s; s_calls := s_calls s |}.

(** An API server that never fails and returns applied objects with their status. *)
Definition settled_env : Env :=
  {| api_error := λ _ _, None; api_applied := λ _ ms, settle_ms ms; api_cached := λ _ _, false;
     api_machines := λ _ _, []; api_machineSets := λ _ _, []; env_now := λ _, 100 * Second;
     env_random := λ _, "abcde"%string; env_polls := 1; selector_String := λ _, ""%string;
     selector_AsMap := λ _, Some ∅; selector_Matches := λ _, Some (λ _, true);
     selector_Empty := λ _, false; remove_finalizer := λ fs f, filter (λ x, x ≠ f) fs |}.

Definition snapshot (l : list ptr) (s : State) : Snapshot :=
  let found := getAllMachineSetsAndSyncRevision settled_env l true true s in
  {| sn_list := l; sn_template := true; sn_start := s; sn_found := found.2;
     sn_new := match found.1 with Ok (Some p, _) => p | _ => 0%nat end;
     sn_old := match found.1 with Ok (_, l) => l | _ => [] end |}.

Definition next (sn : Snapshot) : Snapshot :=
  snapshot (sn_all sn) (settle (rolloutRolling settled_env (sn_list sn) true (sn_start sn)).2).

(** Two replicas of an old version, to be replaced. *)
Definition two_old : State :=
  {| s_heap := {[0%nat := with_version "v1" (sized_ms "old" 2 2 0)]};
     s_md := rolling_md 2; s_calls := [] |}.

Definition sn0 : Snapshot := snapshot [0%nat] two_old.

#[local] Instance settled_dec h p : Decision (settled h p).
Proof. unfold settled, good. apply _. Defined.

(** The conditions of a round that are to be checked for [next]. *)
Definition round_checks (sn : Snapshot) : bool :=
  let sn' := next sn in
  let s' := (rolloutRolling settled_env (sn_list sn) true (sn_start sn)).2 in
  bool_decide (NoDup (sn_all sn')) && bool_decide (Z.of_nat (length (sn_old sn')) ≤ int32_max)
  && forallb (λ p, bool_decide (settled (s_heap (sn_found sn')) p)) (sn_all sn')
  && (sn_size sn' (sn_new sn') =? reps (s_heap s') (sn_new sn))
  && (sumZ (sn_size sn') (sn_old sn') =? sumZ (reps (s_heap s')) (sn_old sn)).

Lemma discovered_snapshot l s p q :
  (getAllMachineSetsAndSyncRevision settled_env l true true s).1 = Ok (Some p, q) →
  discovered settled_env (snapshot l s).
Proof.
  unfold discovered, snapshot. simpl.
  destruct (getAllMachineSetsAndSyncRevision settled_env l true true s) as [r s']. simpl.
  by intros ->.
Qed.

Lemma round_next sn :
  sn_template sn = true → discovered settled_env (next sn) →
  md_Spec (s_md (sn_found (next sn))) = md_Spec (s_md (sn_found sn)) →
  round_checks sn = true → round settled_env sn (next sn).
Proof.
  intros Ht Hd Hs Hc. unfold round_checks in Hc.
  apply andb_prop in Hc as [Hc H5]. apply andb_prop in Hc as [Hc H4].
  apply andb_prop in Hc as [Hc H3]. apply andb_prop in Hc as [H1 H2].
  apply bool_decide_eq_true in H1, H2. apply Z.eqb_eq in H4, H5.
  rewrite forallb_forall in H3.
  eapply Round; [rewrite Ht; apply surjective_pairing|done..| |done|done].
  intros p Hp%list_elem_of_In. by apply (bool_decide_eq_true_1 _), H3.
Qed.

Lemma sn0_updating : updating settled_env 2 1 1 sn0.
Proof.
  split; [apply discovered_snapshot with 1%nat [0%nat]; vm_compute; reflexivity|].
  split; [split|..].
  - apply (limits_spec (rolling_md 2)); [vm_compute; reflexivity|].
    apply rolling_md_wf. unfold int32_max. lia.
  - vm_compute; reflexivity.
  - vm_compute; reflexivity.
  - unfold int32_max; lia.
  - apply (bool_decide_unpack _). vm_compute. exact I.
  - intros p Hp. assert (p ∈ [0%nat; 1%nat]) as Hp' by exact Hp. clear Hp. revert p Hp'.
    apply Forall_forall, (bool_decide_unpack _). vm_compute. exact I.
  - vm_compute; discriminate.
  - vm_compute; discriminate.
  - vm_compute; reflexivity.
  - intros p Hp. assert (p ∈ [0%nat; 1%nat]) as Hp' by exact Hp. clear Hp. revert p Hp'.
    apply Forall_forall, (bool_decide_unpack _). vm_compute. exact I.
Qed.

Lemma rollout_completes_witness :
  let sn3 := next (next (next sn0)) in
  sn_size sn3 (sn_new sn3) = 2 ∧ (∀ p, p ∈ sn_old sn3 → sn_size sn3 p = 0) ∧
  Z.min (2 - 1) (sn_available sn0) ≤ sn_available sn3.
Proof.
  apply (rollout_completes settled_env) with (surge := 1) (k := 3%nat).
  - intros calls c. reflexivity.
  - exact sn0_updating.
  - do 3 (eapply nsteps_l; [apply round_next; [reflexivity|
      eapply discovered_snapshot; vm_compute; reflexivity|vm_compute; reflexivity
      |vm_compute; reflexivity]|]).
    apply nsteps_O.
  - vm_compute. discriminate.
Defined.
