(* ===== verification/MachineHealthCheck.v ===== *)
(** * The MachineHealthCheck controller (internal/controllers/machinehealthcheck)

    [needsRemediation] and [isAllowedRemediation] are pure; the handler records the calls it
    makes in its state, and their outcomes are functions of the calls made so far.  Every
    reading of the clock is a new value.  The patch helper appears as a call with the object
    patched; logging is left out, events are calls.  Targets are values: every target has a
    Machine of its own, which only the target's own steps change. *)

From S2P Require Import Prelude GoStd Api Apimachinery Util Conditions Version Collections.
From S2P Require Import ConditionsV1Beta2 External MdUtil MachineSetPolicy MachineSet.
From Stdlib Require Import Ascii.

(** ** The API type (machinehealthcheck_types.go) *)

Record UnhealthyCondition := { uc_Type : string; uc_Status : string; uc_Timeout : Z }.

Record MachineHealthCheckSpec := {
  mhs_ClusterName : string;
  mhs_Selector : LabelSelector;
  mhs_UnhealthyConditions : list UnhealthyCondition;
  mhs_MaxUnhealthy : option IntOrString;
  mhs_UnhealthyRange : option string;
  mhs_NodeStartupTimeout : option Z;
  mhs_RemediationTemplate : option ObjectReference;
}.

Record MachineHealthCheckStatus := {
  mht_ExpectedMachines : Z;
  mht_CurrentHealthy : Z;
  mht_RemediationsAllowed : Z;
  mht_ObservedGeneration : Z;
  mht_Targets : list string;
  mht_Conditions : Conditions;
  mht_V1Beta2 : option (list MetaCondition);
}.

Record MachineHealthCheck := {
  mh_TypeMeta : TypeMeta;
  mh_Meta : Meta;
  mh_Spec : MachineHealthCheckSpec;
  mh_Status : MachineHealthCheckStatus;
}.

Definition mh_set_Meta (meta : Meta) (m : MachineHealthCheck) : MachineHealthCheck :=
  {| mh_TypeMeta := mh_TypeMeta m; mh_Meta := meta; mh_Spec := mh_Spec m; mh_Status := mh_Status m |}.

Definition mh_set_Status (st : MachineHealthCheckStatus) (m : MachineHealthCheck) :
    MachineHealthCheck :=
  {| mh_TypeMeta := mh_TypeMeta m; mh_Meta := mh_Meta m; mh_Spec := mh_Spec m; mh_Status := st |}.

Definition mh_set_Conditions (cs : Conditions) (m : MachineHealthCheck) : MachineHealthCheck :=
  let st := mh_Status m in
  mh_set_Status
    {| mht_ExpectedMachines := mht_ExpectedMachines st; mht_CurrentHealthy := mht_CurrentHealthy st;
       mht_RemediationsAllowed := mht_RemediationsAllowed st;
       mht_ObservedGeneration := mht_ObservedGeneration st; mht_Targets := mht_Targets st;
       mht_Conditions := cs; mht_V1Beta2 := mht_V1Beta2 st |} m.

Definition mh_set_V1Beta2Conditions (cs : list MetaCondition) (m : MachineHealthCheck) :
    MachineHealthCheck :=
  let st := mh_Status m in
  mh_set_Status
    {| mht_ExpectedMachines := mht_ExpectedMachines st; mht_CurrentHealthy := mht_CurrentHealthy st;
       mht_RemediationsAllowed := mht_RemediationsAllowed st;
       mht_ObservedGeneration := mht_ObservedGeneration st; mht_Targets := mht_Targets st;
       mht_Conditions := mht_Conditions st; mht_V1Beta2 := Some cs |} m.

Definition mh_set_targets (expected : Z) (targets : list string) (m : MachineHealthCheck) :
    MachineHealthCheck :=
  let st := mh_Status m in
  mh_set_Status
    {| mht_ExpectedMachines := expected; mht_CurrentHealthy := mht_CurrentHealthy st;
       mht_RemediationsAllowed := mht_RemediationsAllowed st;
       mht_ObservedGeneration := mht_ObservedGeneration st; mht_Targets := targets;
       mht_Conditions := mht_Conditions st; mht_V1Beta2 := mht_V1Beta2 st |} m.

Definition mh_set_CurrentHealthy (healthy : Z) (m : MachineHealthCheck) : MachineHealthCheck :=
  let st := mh_Status m in
  mh_set_Status
    {| mht_ExpectedMachines := mht_ExpectedMachines st; mht_CurrentHealthy := healthy;
       mht_RemediationsAllowed := mht_RemediationsAllowed st;
       mht_ObservedGeneration := mht_ObservedGeneration st; mht_Targets := mht_Targets st;
       mht_Conditions := mht_Conditions st; mht_V1Beta2 := mht_V1Beta2 st |} m.

Definition mh_set_RemediationsAllowed (n : Z) (m : MachineHealthCheck) : MachineHealthCheck :=
  let st := mh_Status m in
  mh_set_Status
    {| mht_ExpectedMachines := mht_ExpectedMachines st; mht_CurrentHealthy := mht_CurrentHealthy st;
       mht_RemediationsAllowed := n;
       mht_ObservedGeneration := mht_ObservedGeneration st; mht_Targets := mht_Targets st;
       mht_Conditions := mht_Conditions st; mht_V1Beta2 := mht_V1Beta2 st |} m.

#[global] Instance MachineHealthCheck_Getter : Getter MachineHealthCheck := {
  GetConditions m := mht_Conditions (mh_Status m);
  GetName m := om_Name (mh_Meta m);
  GetKind m := tm_Kind (mh_TypeMeta m);
}.
#[global] Instance MachineHealthCheck_Setter : Setter MachineHealthCheck.
Proof. by refine {| SetConditions := mh_set_Conditions |}. Defined.

#[global] Instance MachineHealthCheck_V1Beta2Getter : V1Beta2Getter MachineHealthCheck := {
  GetV1Beta2Conditions m := default [] (mht_V1Beta2 (mh_Status m));
}.
#[global] Instance MachineHealthCheck_V1Beta2Setter : V1Beta2Setter MachineHealthCheck := {
  SetV1Beta2Conditions := mh_set_V1Beta2Conditions;
  GetGeneration m := om_Generation (mh_Meta m);
  Get_SetV1Beta2Conditions cs x := eq_refl;
}.

Definition DefaultNodeStartupTimeout : Z := 10 * Minute.
Definition disabledNodeStartupTimeout : Z := 0.

Definition HasRemediateMachineAnnotationReason : string := "HasRemediateMachineAnnotation".
Definition MachineHasFailureReason : string := "MachineHasFailure".
Definition NodeNotFoundReason : string := "NodeNotFound".
Definition NodeStartupTimeoutReason : string := "NodeStartupTimeout".
Definition UnhealthyNodeConditionReason : string := "UnhealthyNode".
Definition TooManyUnhealthyReason : string := "TooManyUnhealthy".
Definition RemediationAllowedCondition : ConditionType := "RemediationAllowed".
Definition ExternalRemediationTemplateAvailableCondition : ConditionType :=
  "ExternalRemediationTemplateAvailable".
Definition ExternalRemediationTemplateNotFoundReason : string :=
  "ExternalRemediationTemplateNotFound".
Definition ExternalRemediationRequestAvailableCondition : ConditionType :=
  "ExternalRemediationRequestAvailable".
Definition ExternalRemediationRequestCreationFailedReason : string :=
  "ExternalRemediationRequestCreationFailed".
Definition MachineExternallyRemediatedV1Beta2Condition : string := "ExternallyRemediated".

(** ** Targets (machinehealthcheck_targets.go) *)

Record healthCheckTarget := {
  hct_Cluster : Cluster;
  hct_Machine : Machine;
  hct_Node : option Node;
  hct_MHC : MachineHealthCheck;
  hct_nodeMissing : bool;
}.

Definition hct_set_Machine (m : Machine) (t : healthCheckTarget) : healthCheckTarget :=
  {| hct_Cluster := hct_Cluster t; hct_Machine := m; hct_Node := hct_Node t; hct_MHC := hct_MHC t;
     hct_nodeMissing := hct_nodeMissing t |}.

Definition nodeName (t : healthCheckTarget) : string :=
  match hct_Node t with Some n => node_Name n | None => "" end.

Definition target_string (t : healthCheckTarget) : string :=
  om_Namespace (mh_Meta (hct_MHC t)) +:+ "/" +:+ om_Name (mh_Meta (hct_MHC t)) +:+ "/"
  +:+ m_Name (hct_Machine t) +:+ "/" +:+ nodeName t.

Definition getNodeCondition (node : Node) (conditionType : string) : option NodeCondition :=
  find (λ c, bool_decide (nc_Type c = conditionType)) (node_Conditions node).

Definition minDuration (durations : list Z) : Z :=
  match durations with
  | [] => 0
  | d :: rest => foldl (λ m nc, if nc <? m then nc else m) d rest
  end.

Definition shouldSkipRemediation (m : Machine) : bool * string :=
  if HasPaused (m_Meta m)
  then (true, "machine has " +:+ quoted PausedAnnotation +:+ " annotation")
  else if HasSkipRemediation (m_Meta m)
  then (true, "machine has " +:+ quoted MachineSkipRemediationAnnotation +:+ " annotation")
  else (false, ""%string).

(** The clock readings of one health check: [time.Now], and those of the conditions set. *)
Record Readings := { rd_now : Time; rd_condition : Time; rd_v1beta2 : Time; rd_api : Time }.

Definition meta_condition (type status reason message : string) : MetaCondition :=
  {| mc_Type := type; mc_Status := status; mc_ObservedGeneration := 0;
     mc_LastTransitionTime := zero_time; mc_Reason := reason; mc_Message := message |}.

Section targets.
Context `{GoSort} `{MetaConditions}.

(** The conditions of an unhealthy target. *)
Definition mark_unhealthy (rd : Readings) (reason message : string) (m : Machine) : Machine :=
  MarkFalse (rd_condition rd) m MachineHealthCheckSucceededCondition reason ConditionSeverityWarning
    message.

Definition set_unhealthy (rd : Readings) (reason message : string) (m : Machine) : Machine :=
  v1beta2_Set (rd_v1beta2 rd) (rd_api rd) m
    (meta_condition MachineHealthCheckSucceededV1Beta2Condition ConditionFalse reason message).

(** [if c && t != nil && t.Time.After(comparisonTime) { comparisonTime = t.Time }]. *)
Definition later_of (c : bool) (t : option Time) (comparisonTime : Time) : Time :=
  match t with
  | Some t => if c && (comparisonTime <? t) then t else comparisonTime
  | None => comparisonTime
  end.

Definition comparison_time (t : healthCheckTarget) : Time :=
  let c := hct_Cluster t in
  let m := hct_Machine t in
  later_of (IsTrue m InfrastructureReadyCondition)
    (GetLastTransitionTime m InfrastructureReadyCondition)
    (later_of (IsTrue c InfrastructureReadyCondition)
      (GetLastTransitionTime c InfrastructureReadyCondition)
      (later_of (IsTrue c ControlPlaneInitializedCondition)
        (GetLastTransitionTime c ControlPlaneInitializedCondition)
        (om_CreationTimestamp (m_Meta m)))).

(** [timeout - now.Sub(since) + time.Second], in 64 bits. *)
Definition next_check (timeout : Z) (now since : Time) : Z :=
  wrap64 (wrap64 (timeout - time_Sub now since) + Second).

(** The loop over the unhealthy conditions: the first one that is in its state for longer than
    allowed, or the times of the next checks. *)
Fixpoint check_conditions (now : Time) (node : Node) (cs : list UnhealthyCondition)
    (nextCheckTimes : list Z) : UnhealthyCondition + list Z :=
  match cs with
  | [] => inr nextCheckTimes
  | c :: cs =>
      match getNodeCondition node (uc_Type c) with
      | None => check_conditions now node cs nextCheckTimes
      | Some nodeCondition =>
          if negb (String.eqb (nc_Status nodeCondition) (uc_Status c))
          then check_conditions now node cs nextCheckTimes
          else if nc_LastTransitionTime nodeCondition + uc_Timeout c <? now then inl c
          else
            let nextCheck := next_check (uc_Timeout c) now (nc_LastTransitionTime nodeCondition) in
            check_conditions now node cs
              (if 0 <? nextCheck then nextCheckTimes ++ [nextCheck] else nextCheckTimes)
      end
  end.

(** The last part of [needsRemediation], on a target whose health is evaluated. *)
Definition check_health (rd : Readings) (t : healthCheckTarget) (timeoutForMachineToHaveNode : Z) :
    result (healthCheckTarget * (bool * Z)) :=
  let m := hct_Machine t in
  let now := rd_now rd in
  let unhealthy m' := Ok (hct_set_Machine m' t, (true, 0)) in
  match hct_Node t with
  | None =>
      if timeoutForMachineToHaveNode =? disabledNodeStartupTimeout then Ok (t, (false, 0))
      else
        let comparisonTime := comparison_time t in
        let message := "Node failed to report startup in "
                       +:+ Duration_String timeoutForMachineToHaveNode in
        if comparisonTime + timeoutForMachineToHaveNode <? now
        then unhealthy (set_unhealthy rd "NodeStartupTimeout" message
                          (mark_unhealthy rd NodeStartupTimeoutReason message m))
        else Ok (t, (false, next_check timeoutForMachineToHaveNode now comparisonTime))
  | Some node =>
      match check_conditions now node (mhs_UnhealthyConditions (mh_Spec (hct_MHC t))) [] with
      | inl c =>
          let rest := uc_Status c +:+ " for more than " +:+ Duration_String (uc_Timeout c) in
          unhealthy (set_unhealthy rd "UnhealthyNode"
                       ("Condition " +:+ uc_Type c +:+ " on Node is reporting status " +:+ rest)
                       (mark_unhealthy rd UnhealthyNodeConditionReason
                          ("Condition " +:+ uc_Type c +:+ " on node is reporting status " +:+ rest) m))
      | inr nextCheckTimes => Ok (t, (false, minDuration nextCheckTimes))
      end
  end.

(** The target with its Machine as marked, and the answer. *)
Definition needsRemediation (rd : Readings) (t : healthCheckTarget)
    (timeoutForMachineToHaveNode : Z) : result (healthCheckTarget * (bool * Z)) :=
  let m := hct_Machine t in
  let unhealthy m' := Ok (hct_set_Machine m' t, (true, 0)) in
  if HasRemediateMachine (m_Meta m) then
    unhealthy (set_unhealthy rd "HasRemediateAnnotation"
                 "Marked for remediation via cluster.x-k8s.io/remediate-machine annotation"
                 (mark_unhealthy rd HasRemediateMachineAnnotationReason
                    "Marked for remediation via remediate-machine annotation" m))
  else match st_FailureReason (m_Status m) with
  | Some reason =>
      unhealthy (mark_unhealthy rd MachineHasFailureReason ("FailureReason: " +:+ reason) m)
  | None =>
  match st_FailureMessage (m_Status m) with
  | Some message =>
      unhealthy (mark_unhealthy rd MachineHasFailureReason ("FailureMessage: " +:+ message) m)
  | None =>
  if hct_nodeMissing t then
    let m' := mark_unhealthy rd NodeNotFoundReason "" m in
    match st_NodeRef (m_Status m') with
    | None => Panic
    | Some ref =>
        unhealthy (set_unhealthy rd "NodeDeleted"
                     ("Node " +:+ ref_Name ref +:+ " has been deleted") m')
    end
  else if negb (IsTrue (hct_Cluster t) ControlPlaneInitializedCondition)
          && negb (IsControlPlaneMachine m) then Ok (t, (false, 0))
  else if negb (IsTrue (hct_Cluster t) InfrastructureReadyCondition) then Ok (t, (false, 0))
  else check_health rd t timeoutForMachineToHaveNode
  end end.
End targets.

(** ** Whether remediation is allowed (machinehealthcheck_controller.go) *)

Section allowed.
Context `{Apimachinery}.

(** [int(ExpectedMachines - CurrentHealthy)], the difference being one of 32 bits. *)
Definition unhealthyMachineCount (mhc : MachineHealthCheck) : Z :=
  mht_ExpectedMachines (mh_Status mhc) -32 mht_CurrentHealthy (mh_Status mhc).

Definition getMaxUnhealthy (mhc : MachineHealthCheck) : result Z :=
  match mhs_MaxUnhealthy (mh_Spec mhc) with
  | None => Err (Errorf "spec.maxUnhealthy must be set")
  | Some v => GetScaledValueFromIntOrPercent (Some v) (mht_ExpectedMachines (mh_Status mhc)) false
  end.

(** The slice [s[1 : len(s)-1]] panics when the string has less than two bytes, and the
    index of [parts] when there is no dash. *)
Definition getUnhealthyRange (mhc : MachineHealthCheck) : result (Z * Z) :=
  unhealthyRange ← deref (mhs_UnhealthyRange (mh_Spec mhc));
  let len := String.length unhealthyRange in
  if (len <? 2)%nat then Panic
  else
    let parts := Split (String.substring 1 (len - 2) unhealthyRange) "-"%char in
    match parts with
    | [] => Panic
    | first :: rest =>
        match ParseUint first 32 with
        | (_, Some e) => Err (Errorf (NumError_Error "ParseUint" first e))
        | (minVal, None) =>
            match rest with
            | [] => Panic
            | second :: _ =>
                match ParseUint second 32 with
                | (_, Some e) => Err (Errorf (NumError_Error "ParseUint" second e))
                | (maxVal, None) =>
                    if maxVal <? minVal
                    then Err (Errorf ("max value " +:+ FormatUint maxVal
                                +:+ " cannot be less than min value " +:+ FormatUint minVal
                                +:+ " for unhealthyRange"))
                    else Ok (minVal, maxVal)
                end
            end
        end
    end.

Definition isAllowedRemediation (mhc : MachineHealthCheck) : result (bool * Z) :=
  match mhs_UnhealthyRange (mh_Spec mhc) with
  | Some _ =>
      '(minVal, maxVal) ← getUnhealthyRange mhc;
      let count := unhealthyMachineCount mhc in
      Ok ((minVal <=? count) && (count <=? maxVal), wrap32 (maxVal - count))
  | None =>
      maxUnhealthy ← getMaxUnhealthy mhc;
      let count := unhealthyMachineCount mhc in
      Ok (count <=? maxUnhealthy, wrap32 (maxUnhealthy - count))
  end.
End allowed.

(** ** Pausing (util/paused/paused.go) *)

Definition PausedV1Beta2Reason : string := "Paused".
Definition NotPausedV1Beta2Reason : string := "NotPaused".

(** [kind] is the kind the scheme knows for the object, if any. *)
Definition pausedCondition (kind : option string) (cluster : option Cluster) (obj : Meta)
    (targetConditionType : string) : MetaCondition :=
  let clusterPaused := match cluster with Some c => cls_Paused (cl_Spec c) | None => false end in
  let '(status, reason, message) :=
    if clusterPaused || HasPaused obj then
      let messages :=
        (if clusterPaused then ["Cluster spec.paused is set to true"%string] else [])
        ++ (if HasPaused obj
            then [(default "Object" kind +:+ " has the cluster.x-k8s.io/paused annotation")%string]
            else []) in
      (ConditionTrue, PausedV1Beta2Reason, Join messages ", ")
    else (ConditionFalse, NotPausedV1Beta2Reason, ""%string) in
  {| mc_Type := targetConditionType; mc_Status := status;
     mc_ObservedGeneration := om_Generation obj; mc_LastTransitionTime := zero_time;
     mc_Reason := reason; mc_Message := message |}.

(** ** State and calls of the handler *)

Section handler.
Context `{Apimachinery} `{GoSort} `{MetaConditions} `{Unstructured}.

Inductive HcCall :=
| HcGetMHC
| HcGetCluster (namespace name : string)
| HcNewHelperMHC (m : MachineHealthCheck)
| HcPatchMHC (m : MachineHealthCheck) (observedGeneration : bool)
| HcGetClient
| HcWatchNodes
| HcListMachines (namespace : string) (selector : LabelSelector) (cluster : string)
| HcNewHelper (m : Machine)
| HcGetNode (name : string)
| HcPatchMachine (m : Machine)
| HcGetExternal (ref : ObjectReference) (namespace : string)
| HcCreateExternal (o : Obj)
| HcDeleteExternal (o : Obj)
| HcEvent (name reason message : string).

Record HcState := { hc_mhc : MachineHealthCheck; hc_ticks : nat; hc_calls : list HcCall }.

Record HcEnv := {
  he_error : list HcCall → HcCall → option error;
  he_mhc : list HcCall → MachineHealthCheck;
  he_cluster : list HcCall → Cluster;
  he_machines : list HcCall → list Machine;
  he_node : list HcCall → string → Node;
  he_external : list HcCall → ObjectReference → string → Obj;
  he_clock : nat → Time;
  he_generateName : list HcCall → string → string;
  he_selectorError : LabelSelector → option error;
  he_errorString : error → string;
  he_KRef : string → string → string;
  he_intstr : option IntOrString → string;
  he_kind : option string;
}.

Context (env : HcEnv).

Definition hcall (c : HcCall) : M HcState unit := λ s,
  let s' := {| hc_mhc := hc_mhc s; hc_ticks := hc_ticks s; hc_calls := hc_calls s ++ [c] |} in
  match he_error env (hc_calls s) c with None => (Ok tt, s') | Some e => (Err e, s') end.

(** Events are recorded and cannot fail. *)
Definition hevent (name reason message : string) : M HcState unit :=
  modify (λ s, {| hc_mhc := hc_mhc s; hc_ticks := hc_ticks s;
                  hc_calls := hc_calls s ++ [HcEvent name reason message] |}).

Definition tick : M HcState Time := λ s,
  (Ok (he_clock env (hc_ticks s)),
   {| hc_mhc := hc_mhc s; hc_ticks := S (hc_ticks s); hc_calls := hc_calls s |}).

Definition readings : M HcState Readings :=
  now ← tick; condition ← tick; v1beta2 ← tick; api ← tick;
  mret {| rd_now := now; rd_condition := condition; rd_v1beta2 := v1beta2; rd_api := api |}.

Definition set_mhc (f : MachineHealthCheck → MachineHealthCheck) : M HcState unit :=
  modify (λ s, {| hc_mhc := f (hc_mhc s); hc_ticks := hc_ticks s; hc_calls := hc_calls s |}).

(** A condition of the MachineHealthCheck, with the clock readings it takes. *)
Definition mark_mhc (f : Time → MachineHealthCheck → MachineHealthCheck) : M HcState unit :=
  now ← tick; set_mhc (f now).

Definition set_mhc_v1beta2 (c : MetaCondition) : M HcState unit :=
  now ← tick; api ← tick; set_mhc (λ m, v1beta2_Set now api m c).

Definition external_Get (ref : ObjectReference) (namespace : string) : M HcState Obj :=
  calls ← gets hc_calls;
  _ ← mwrap ("failed to retrieve " +:+ ref_Kind ref +:+ " external object " +:+ quoted namespace
             +:+ "/" +:+ quoted (ref_Name ref))
        (hcall (HcGetExternal ref namespace));
  mret (he_external env calls ref namespace).

(** ** Finding the targets *)

Definition getMachinesFromMHC (mhc : MachineHealthCheck) : M HcState (list Machine) :=
  match he_selectorError env (mhs_Selector (mh_Spec mhc)) with
  | Some e => throw (Wrap "failed to build selector" e)
  | None =>
      calls ← gets hc_calls;
      _ ← mwrap "failed to list machines"
            (hcall (HcListMachines (om_Namespace (mh_Meta mhc)) (mhs_Selector (mh_Spec mhc))
                      (mhs_ClusterName (mh_Spec mhc))));
      mret (he_machines env calls)
  end.

Definition getNodeFromMachine (machine : Machine) : M HcState (option Node) :=
  match st_NodeRef (m_Status machine) with
  | None => mret None
  | Some ref =>
      calls ← gets hc_calls;
      _ ← hcall (HcGetNode (ref_Name ref));
      mret (Some (he_node env calls (ref_Name ref)))
  end.

(** The target of one Machine; without a client of the workload cluster no Node is read. *)
Definition target_of (hasClient : bool) (cluster : Cluster) (mhc : MachineHealthCheck)
    (m : Machine) : M HcState healthCheckTarget :=
  _ ← hcall (HcNewHelper m);
  let target node missing :=
    {| hct_Cluster := cluster; hct_Machine := m; hct_Node := node; hct_MHC := mhc;
       hct_nodeMissing := missing |} in
  if hasClient then
    r ← attempt (getNodeFromMachine m);
    match r with
    | inl node => mret (target node false)
    | inr e => if negb (IsNotFound e) then throw (Wrap "error getting node" e)
               else mret (target None true)
    end
  else mret (target None false).

Fixpoint targets_of (hasClient : bool) (cluster : Cluster) (mhc : MachineHealthCheck)
    (machines : list Machine) : M HcState (list healthCheckTarget) :=
  match machines with
  | [] => mret []
  | m :: machines =>
      if (shouldSkipRemediation m).1 then targets_of hasClient cluster mhc machines
      else
        t ← target_of hasClient cluster mhc m;
        ts ← targets_of hasClient cluster mhc machines;
        mret (t :: ts)
  end.

Definition getTargetsFromMHC (hasClient : bool) (cluster : Cluster) (mhc : MachineHealthCheck) :
    M HcState (list healthCheckTarget) :=
  machines ← mwrap "error getting machines from MachineHealthCheck" (getMachinesFromMHC mhc);
  targets_of hasClient cluster mhc machines.

(** ** Health checking *)

Definition namespaced (m : Machine) : string := om_Namespace (m_Meta m) +:+ "/" +:+ m_Name m.

(** The healthy and unhealthy targets and the times of the next checks so far. *)
Record Checked := {
  ck_healthy : list healthCheckTarget;
  ck_unhealthy : list healthCheckTarget;
  ck_next : list Z;
}.

(** A target that passes. *)
Definition mark_healthy (t : healthCheckTarget) : M HcState healthCheckTarget :=
  condition ← tick; v1beta2 ← tick; api ← tick;
  let m := MarkTrue condition (hct_Machine t) MachineHealthCheckSucceededCondition in
  mret (hct_set_Machine
          (v1beta2_Set v1beta2 api m
             (meta_condition MachineHealthCheckSucceededV1Beta2Condition ConditionTrue
                "HealthCheckSucceeded" "")) t).

(** One turn of the loop of [healthCheckTargets]. *)
Definition health_check (timeout : Z) (ck : Checked) (t : healthCheckTarget) : M HcState Checked :=
  rd ← readings;
  '(t, (needsRemediation, nextCheck)) ← lift (needsRemediation rd t timeout);
  if (needsRemediation : bool) then
    mret {| ck_healthy := ck_healthy ck; ck_unhealthy := ck_unhealthy ck ++ [t];
            ck_next := ck_next ck |}
  else if 0 <? nextCheck then
    let m := hct_Machine t in
    _ ← hevent (m_Name m) "DetectedUnhealthy"
          ("Machine " +:+ he_KRef env (om_Namespace (m_Meta m)) (m_Name m) +:+ " has unhealthy Node "
           +:+ nodeName t);
    mret {| ck_healthy := ck_healthy ck; ck_unhealthy := ck_unhealthy ck;
            ck_next := ck_next ck ++ [nextCheck] |}
  else if IsZero (om_DeletionTimestamp (m_Meta (hct_Machine t)))
          && bool_decide (is_Some (hct_Node t)) then
    t ← mark_healthy t;
    mret {| ck_healthy := ck_healthy ck ++ [t]; ck_unhealthy := ck_unhealthy ck;
            ck_next := ck_next ck |}
  else mret ck.

Fixpoint check_all (timeout : Z) (ck : Checked) (targets : list healthCheckTarget) :
    M HcState Checked :=
  match targets with
  | [] => mret ck
  | t :: targets => ck ← health_check timeout ck t; check_all timeout ck targets
  end.

Definition healthCheckTargets (targets : list healthCheckTarget) (timeout : Z) : M HcState Checked :=
  check_all timeout {| ck_healthy := []; ck_unhealthy := []; ck_next := [] |} targets.

(** ** Patching the targets *)

Definition getExternalRemediationRequest (template : ObjectReference) (namespace machineName : string) :
    M HcState Obj :=
  mwrap "failed to retrieve external remediation request object"
    (external_Get
       {| ref_Kind := TrimSuffix (ref_Kind template) TemplateSuffix; ref_Namespace := "";
          ref_Name := machineName; ref_UID := ""; ref_APIVersion := ref_APIVersion template;
          ref_ResourceVersion := ""; ref_FieldPath := "" |} namespace).

Definition externalRemediationRequestExists (template : ObjectReference)
    (namespace machineName : string) : M HcState bool :=
  r ← attempt (getExternalRemediationRequest template namespace machineName);
  mret (match r with inl _ => true | inr _ => false end).

Definition within (m : Machine) : string :=
  " for machine " +:+ quoted (m_Name m) +:+ " in namespace " +:+ quoted (om_Namespace (m_Meta m))
  +:+ " within cluster ".

Definition is_None {A} (o : option A) : bool := match o with None => true | Some _ => false end.

(** The remediation request of a healthy Machine is deleted; the answer is the error to record
    and whether to go on with the Machine. *)
Definition delete_request (template : ObjectReference) (namespace : string) (m : Machine) :
    M HcState (option error * bool) :=
  r ← attempt (getExternalRemediationRequest template namespace (m_Name m));
  match r with
  | inr e =>
      mret (if negb (IsNotFound e)
            then Some (Wrap ("failed to fetch remediation request" +:+ within m
                             +:+ quoted (sp_ClusterName (m_Spec m))) e)
            else None, false)
  | inl obj =>
      if is_None (om_DeletionTimestamp (o_Meta obj)) then
        e ← try_err (hcall (HcDeleteExternal obj));
        mret (match e with
              | Some e =>
                  if negb (IsNotFound e)
                  then (Some (Wrap ("failed to delete " +:+ described obj +:+ " for Machine "
                                    +:+ quoted (m_Name m)) e), false)
                  else (None, true)
              | None => (None, true)
              end)
      else mret (None, true)
  end.

(** [patchHelper.Patch] of the Machine of a target, with the error to record. *)
Definition patch_machine_of (message : string) (t : healthCheckTarget) : M HcState (option error) :=
  e ← try_err (hcall (HcPatchMachine (hct_Machine t)));
  mret (match e with
        | Some e => Some (Wrap (message +:+ namespaced (hct_Machine t)) e)
        | None => None
        end).

Definition of_option {A} (o : option A) : list A := match o with Some a => [a] | None => [] end.

Fixpoint patchHealthyTargets (healthy : list healthCheckTarget) (m : MachineHealthCheck) :
    M HcState (list error) :=
  match healthy with
  | [] => mret []
  | t :: healthy =>
      '(e, continue) ←
        match mhs_RemediationTemplate (mh_Spec m) with
        | Some template => delete_request template (om_Namespace (mh_Meta m)) (hct_Machine t)
        | None => mret (None, true)
        end;
      e' ← (if (continue : bool)
            then patch_machine_of "failed to patch healthy machine status for machine: " t
            else mret None);
      errs ← patchHealthyTargets healthy m;
      mret (of_option e ++ of_option e' ++ errs)
  end.

(** Marks a Machine for remediation by its owner, unless a remediation is under way. *)
Definition mark_for_owner (m : Machine) : M HcState Machine :=
  m ← (if negb (Has m MachineOwnerRemediatedCondition) || IsTrue m MachineOwnerRemediatedCondition
       then now ← tick;
            mret (MarkFalse now m MachineOwnerRemediatedCondition WaitingForRemediationReason
                    ConditionSeverityWarning "")
       else mret m);
  if match v1beta2_Get m MachineOwnerRemediatedV1Beta2Condition with
     | None => true
     | Some c => bool_decide (mc_Status c = ConditionTrue)
     end
  then now ← tick; api ← tick;
       mret (v1beta2_Set now api m
               (meta_condition MachineOwnerRemediatedV1Beta2Condition ConditionFalse
                  "WaitingForRemediation" "Waiting for remediation"))
  else mret m.

Definition set_externally (reason message : string) (m : Machine) : M HcState Machine :=
  now ← tick; api ← tick;
  mret (v1beta2_Set now api m
          (meta_condition MachineExternallyRemediatedV1Beta2Condition ConditionFalse reason message)).

(** Creates the remediation request of a Machine; [inr] is a [return] of the errors. *)
Definition remediate_externally (template : ObjectReference) (condition : option Condition)
    (t : healthCheckTarget) : M HcState (healthCheckTarget + list error) :=
  mhc ← gets hc_mhc;
  let m := hct_Machine t in
  let namespace := om_Namespace (m_Meta m) in
  let described_template := gvk_String (ref_TypeMeta template) +:+ " " +:+ quoted (ref_Name template) in
  exists_ ← externalRemediationRequestExists template (om_Namespace (mh_Meta mhc)) (m_Name m);
  if (exists_ : bool) then mret (inr [])
  else
    from ← attempt (external_Get template namespace);
    match from with
    | inr e =>
        _ ← mark_mhc (λ now mhc, MarkFalse now mhc ExternalRemediationTemplateAvailableCondition
                        ExternalRemediationTemplateNotFoundReason ConditionSeverityError
                        (Sprintf (he_errorString env e)));
        _ ← set_externally "RemediationTemplateNotFound"
              ("Error retrieving remediation template " +:+ ref_Kind template +:+ " "
               +:+ he_KRef env namespace (ref_Name template)) m;
        mret (inr [Wrap ("error retrieving remediation template " +:+ described_template
                         +:+ within m +:+ quoted (mhs_ClusterName (mh_Spec mhc))) e])
    | inl from =>
        calls ← gets hc_calls;
        match GenerateTemplate (he_generateName env calls)
                {| gt_Template := from; gt_TemplateRef := template; gt_Namespace := namespace;
                   gt_Name := ""; gt_ClusterName := sp_ClusterName (m_Spec m);
                   gt_OwnerRef := Some {| or_APIVersion := GroupVersion; or_Kind := "Machine";
                     or_Name := m_Name m; or_UID := om_UID (m_Meta m); or_Controller := None;
                     or_BlockOwnerDeletion := None |};
                   gt_Labels := ∅; gt_Annotations := ∅ |} with
        | Panic => lift Panic
        | Err e =>
            mret (inr [Wrap ("failed to create template for remediation request "
                             +:+ described_template +:+ within m
                             +:+ quoted (mhs_ClusterName (mh_Spec mhc))) e])
        | Ok to =>
            let to := o_SetName (m_Name m) to in
            _ ← lift (deref condition);
            e ← try_err (hcall (HcCreateExternal to));
            match e with
            | Some e =>
                _ ← mark_mhc (λ now mhc, MarkFalse now mhc ExternalRemediationRequestAvailableCondition
                                ExternalRemediationRequestCreationFailedReason ConditionSeverityError
                                (Sprintf (he_errorString env e)));
                _ ← set_externally "RemediationRequestCreationFailed"
                      "Please check controller logs for errors" m;
                mret (inr [Wrap ("error creating remediation request" +:+ within m
                                 +:+ quoted (sp_ClusterName (m_Spec m))) e])
            | None =>
                m ← set_externally "WaitingForRemediation" "" m;
                mret (inl (hct_set_Machine m t))
            end
        end
    end.

(** One unhealthy target: what is set on its Machine, or the errors to return. *)
Definition remediate_target (cluster : Cluster) (t : healthCheckTarget) :
    M HcState (healthCheckTarget + list error) :=
  mhc ← gets hc_mhc;
  let m := hct_Machine t in
  let condition := Get m MachineHealthCheckSucceededCondition in
  if IsPaused cluster (m_Meta m) then _ ← lift (deref condition); mret (inl t)
  else
    match mhs_RemediationTemplate (mh_Spec mhc) with
    | Some template => remediate_externally template condition t
    | None =>
        _ ← lift (deref condition);
        m ← mark_for_owner m;
        mret (inl (hct_set_Machine m t))
    end.

Fixpoint patchUnhealthyTargets (unhealthy : list healthCheckTarget) (cluster : Cluster) :
    M HcState (list error) :=
  match unhealthy with
  | [] => mret []
  | t :: unhealthy =>
      r ← remediate_target cluster t;
      match r with
      | inr errs => mret errs
      | inl t =>
          e ← patch_machine_of "failed to patch unhealthy machine status for machine: " t;
          _ ← (if is_None e
               then hevent (m_Name (hct_Machine t)) "MachineMarkedUnhealthy"
                      ("Machine " +:+ target_string t +:+ " has been marked as unhealthy")
               else mret tt);
          errs ← patchUnhealthyTargets unhealthy cluster;
          mret (of_option e ++ errs)
      end
  end.

(** ** Reconciliation *)

Definition too_many_message (m : MachineHealthCheck) (total unhealthy : Z) : string :=
  match mhs_UnhealthyRange (mh_Spec m) with
  | None =>
      "Remediation is not allowed, the number of not started or unhealthy machines exceeds maxUnhealthy (total: "
      +:+ FormatInt total +:+ ", unhealthy: " +:+ FormatInt unhealthy +:+ ", maxUnhealthy: "
      +:+ he_intstr env (mhs_MaxUnhealthy (mh_Spec m)) +:+ ")"
  | Some range =>
      "Remediation is not allowed, the number of not started or unhealthy machines does not fall within the range (total: "
      +:+ FormatInt total +:+ ", unhealthy: " +:+ FormatInt unhealthy +:+ ", unhealthyRange: "
      +:+ range +:+ ")"
  end.

Fixpoint patch_all (targets : list healthCheckTarget) : M HcState (list error) :=
  match targets with
  | [] => mret []
  | t :: targets =>
      e ← patch_machine_of "failed to patch machine status for machine: " t;
      errs ← patch_all targets;
      mret (of_option e ++ errs)
  end.

(** The branch of [reconcile] that short-circuits remediation. *)
Definition restrict_remediation (total : Z) (ck : Checked) : M HcState ctrl_Result :=
  m ← gets hc_mhc;
  let message := too_many_message m total (Z.of_nat (length (ck_unhealthy ck))) in
  _ ← set_mhc (mh_set_RemediationsAllowed 0);
  _ ← mark_mhc (λ now m, Set_ now m
        (Some {| c_Type := RemediationAllowedCondition; c_Status := ConditionFalse;
                 c_Severity := ConditionSeverityWarning; c_LastTransitionTime := zero_time;
                 c_Reason := TooManyUnhealthyReason; c_Message := message |}));
  _ ← set_mhc_v1beta2 (meta_condition "RemediationAllowed" ConditionFalse "TooManyUnhealthy" message);
  _ ← (if bool_decide (ck_unhealthy ck = []) then mret tt
       else hevent (om_Name (mh_Meta m)) "RemediationRestricted" message);
  errs ← patch_all (ck_healthy ck ++ ck_unhealthy ck);
  if bool_decide (errs = []) then mret {| cr_Requeue := true; cr_RequeueAfter := 0 |}
  else throw (NewAggregate errs).

(** The branch of [reconcile] that remediates. *)
Definition remediate_unhealthy (cluster : Cluster) (count : Z) (ck : Checked) : M HcState ctrl_Result :=
  _ ← set_mhc (mh_set_RemediationsAllowed count);
  _ ← mark_mhc (λ now m, MarkTrue now m RemediationAllowedCondition);
  _ ← set_mhc_v1beta2 (meta_condition "RemediationAllowed" ConditionTrue "RemediationAllowed" "");
  errs ← patchUnhealthyTargets (ck_unhealthy ck) cluster;
  m ← gets hc_mhc;
  errs' ← patchHealthyTargets (ck_healthy ck) m;
  if bool_decide (errs ++ errs' = []) then
    let minNextCheck := minDuration (ck_next ck) in
    mret (if 0 <? minNextCheck then {| cr_Requeue := false; cr_RequeueAfter := minNextCheck |}
          else zero_Result)
  else throw (NewAggregate (errs ++ errs')).

Definition own_by_cluster (cluster : Cluster) (m : MachineHealthCheck) : MachineHealthCheck :=
  mh_set_Meta (meta_set_OwnerReferences
    (EnsureOwnerRef (om_OwnerReferences (mh_Meta m))
       {| or_APIVersion := GroupVersion; or_Kind := "Cluster"; or_Name := om_Name (cl_Meta cluster);
          or_UID := om_UID (cl_Meta cluster); or_Controller := None;
          or_BlockOwnerDeletion := None |}) (mh_Meta m)) m.

(** The client of the workload cluster and the watch on its Nodes, once it is initialized. *)
Definition connect (initialized : bool) : M HcState unit :=
  if initialized then _ ← hcall HcGetClient; hcall HcWatchNodes else mret tt.

(** The end of [reconcile], once the targets are checked. *)
Definition decide_remediation (cluster : Cluster) (totalTargets : Z) (ck : Checked) :
    M HcState ctrl_Result :=
  m ← gets hc_mhc;
  '(remediationAllowed, remediationCount) ←
    lift (wrapErr "error checking if remediation is allowed" (isAllowedRemediation m));
  if (remediationAllowed : bool) then remediate_unhealthy cluster remediationCount ck
  else restrict_remediation totalTargets ck.

Definition mhc_reconcile (cluster : Cluster) : M HcState ctrl_Result :=
  _ ← set_mhc (own_by_cluster cluster);
  let initialized := IsTrue cluster ControlPlaneInitializedCondition in
  _ ← connect initialized;
  m ← gets hc_mhc;
  targets ← getTargetsFromMHC initialized cluster m;
  let totalTargets := Z.of_nat (length targets) in
  _ ← set_mhc (mh_set_targets (wrap32 totalTargets)
                 (go_sort string_ltb ((λ t, m_Name (hct_Machine t)) <$> targets)));
  let timeout := default DefaultNodeStartupTimeout (mhs_NodeStartupTimeout (mh_Spec m)) in
  ck ← healthCheckTargets targets timeout;
  _ ← set_mhc (mh_set_CurrentHealthy (wrap32 (Z.of_nat (length (ck_healthy ck)))));
  decide_remediation cluster totalTargets ck.

(** [errors.Is(err, clustercache.ErrClusterNotConnected)]; the error with this text stands for
    that variable. *)
Fixpoint isNotConnected (e : error) : bool :=
  match e with
  | Errorf msg => String.eqb msg "connection to the workload cluster is down"
  | ApiError _ _ => false
  | Wrap _ e => isNotConnected e
  | NewAggregate errs => existsb isNotConnected errs
  end.

(** Whether the object is paused, and whether the condition was changed. *)
Definition EnsurePausedCondition (cluster : Cluster) : M HcState (bool * bool) :=
  m ← gets hc_mhc;
  let oldCondition := v1beta2_Get m PausedV1Beta2Condition in
  let newCondition := pausedCondition (he_kind env) (Some cluster) (mh_Meta m) PausedV1Beta2Condition in
  let isPaused := bool_decide (mc_Status newCondition = ConditionTrue) in
  if match oldCondition with Some c => v1beta2_HasSameState c newCondition | None => false end
  then mret (isPaused, false)
  else
    _ ← hcall (HcNewHelperMHC m);
    _ ← set_mhc_v1beta2 newCondition;
    m ← gets hc_mhc;
    _ ← hcall (HcPatchMHC m false);
    mret (isPaused, true).

Definition with_cluster_label (m : MachineHealthCheck) : MachineHealthCheck :=
  mh_set_Meta (meta_set_Labels (<[ClusterNameLabel := mhs_ClusterName (mh_Spec m)]>
                 (om_Labels (mh_Meta m))) (mh_Meta m)) m.

(** The body with the deferred patch, which also runs during a panic, where no error is
    returned yet; its error is aggregated with the error returned. *)
Definition with_deferred_patch (body : M HcState ctrl_Result) : M HcState ctrl_Result := λ s,
  let '(r, s) := body s in
  let '(p, s') :=
    hcall (HcPatchMHC (hc_mhc s) (match r with Err _ => false | _ => true end)) s in
  (match r, p with
   | Ok _, Err e => Err (NewAggregate [e])
   | Err e, Err e' => Err (NewAggregate [e; e'])
   | _, _ => r
   end, s').

Definition mhc_Reconcile : M HcState ctrl_Result :=
  calls ← gets hc_calls;
  got ← try_err (hcall HcGetMHC);
  match got with
  | Some e => if IsNotFound e then mret zero_Result else throw e
  | None =>
      _ ← set_mhc (λ _, he_mhc env calls);
      m ← gets hc_mhc;
      calls ← gets hc_calls;
      let name := mhs_ClusterName (mh_Spec m) in
      _ ← mwrap ("failed to get Cluster/" +:+ name)
            (hcall (HcGetCluster (om_Namespace (mh_Meta m)) name));
      let cluster := he_cluster env calls in
      '(isPaused, conditionChanged) ← EnsurePausedCondition cluster;
      if (isPaused || conditionChanged : bool) then mret zero_Result
      else
        m ← gets hc_mhc;
        _ ← hcall (HcNewHelperMHC m);
        with_deferred_patch
          (_ ← set_mhc with_cluster_label;
           r ← attempt (mhc_reconcile cluster);
           match r with
           | inl result => mret result
           | inr e => if isNotConnected e
                      then mret {| cr_Requeue := false; cr_RequeueAfter := Minute |}
                      else throw e
           end)
  end.
End handler.

(** ** Watches *)

Definition machineNames (machines : list Machine) : list string := m_Name <$> machines.

(** [listed] are the Machines that the index lists for the Node; [text] formats a list of
    names. *)
Definition getMachineFromNode (text : list string → string) (listed : result (list Machine))
    (nodeName : string) : result Machine :=
  machines ← wrapErr "failed getting machine list" listed;
  let items := filter (λ m, ref_Name <$> st_NodeRef (m_Status m) = Some nodeName) machines in
  match items with
  | [m] => Ok m
  | _ => Err (Errorf ("expecting one machine for node " +:+ nodeName +:+ ", got "
                +:+ text (machineNames items)))
  end.

(** [machine.HasMatchingLabels]; [asSelector] is the selector of apimachinery: whether it is
    empty and what it matches, or nothing when the label selector is not valid. *)
Definition HasMatchingLabels
    (asSelector : LabelSelector → option (bool * (gmap string string → bool)))
    (matchSelector : LabelSelector) (matchLabels : gmap string string) : bool :=
  match asSelector matchSelector with
  | None => false
  | Some (empty, matches) => if empty then false else matches matchLabels
  end.

(** The keys of the MachineHealthChecks to reconcile for a Machine, of those listed. *)
Definition machineToMachineHealthCheck
    (asSelector : LabelSelector → option (bool * (gmap string string → bool)))
    (listed : result (list MachineHealthCheck)) (m : Machine) : list (string * string) :=
  match listed with
  | Ok mhcs =>
      (λ mhc, (om_Namespace (mh_Meta mhc), om_Name (mh_Meta mhc)))
      <$> filter (λ mhc, HasMatchingLabels asSelector (mhs_Selector (mh_Spec mhc))
                           (om_Labels (m_Meta m)) = true) mhcs
  | _ => []
  end.

Definition clusterToMachineHealthCheck (listed : result (list MachineHealthCheck)) :
    list (string * string) :=
  match listed with
  | Ok mhcs => (λ mhc, (om_Namespace (mh_Meta mhc), om_Name (mh_Meta mhc))) <$> mhcs
  | _ => []
  end.

Definition nodeToMachineHealthCheck
    (asSelector : LabelSelector → option (bool * (gmap string string → bool)))
    (text : list string → string) (machines : result (list Machine))
    (listed : Machine → result (list MachineHealthCheck)) (nodeName : string) :
    list (string * string) :=
  match getMachineFromNode text machines nodeName with
  | Ok m => machineToMachineHealthCheck asSelector (listed m) m
  | _ => []
  end.
