(* ===== verification/MachineHealthCheckSpec.v ===== *)
(** * What the MachineHealthCheck controller guarantees

    When a target needs remediation and when to look at it again; when remediation is allowed;
    and that a reconciliation remediates only then. *)

From S2P Require Import Prelude GoStd Api Apimachinery Util Conditions Version Collections.
From S2P Require Import ConditionsV1Beta2 External MdUtil MachineSetPolicy MachineSet.
From S2P Require Import MachineHealthCheck.
From Stdlib Require Import Ascii.

(** ** When a target is unhealthy *)

(** A Machine that was marked, that failed, or whose Node is gone. *)
Definition unhealthy_at_once (t : healthCheckTarget) : Prop :=
  HasRemediateMachine (m_Meta (hct_Machine t)) = true ∨
  is_Some (st_FailureReason (m_Status (hct_Machine t))) ∨
  is_Some (st_FailureMessage (m_Status (hct_Machine t))) ∨ hct_nodeMissing t = true.

(** Health is only evaluated on a cluster that has its infrastructure and its control plane; a
    control plane Machine does not wait for the latter. *)
Definition evaluated (t : healthCheckTarget) : Prop :=
  (IsTrue (hct_Cluster t) ControlPlaneInitializedCondition = true ∨
   IsControlPlaneMachine (hct_Machine t) = true) ∧
  IsTrue (hct_Cluster t) InfrastructureReadyCondition = true.

#[global] Instance evaluated_dec t : Decision (evaluated t).
Proof. unfold evaluated. apply _. Defined.

(** The instants from which a Machine has the startup timeout to get a Node: its creation, and
    the transitions of the conditions of the cluster and of the Machine that are true. *)
Definition transition_of {T} `{Getter T} (x : T) (c : ConditionType) : list Time :=
  if IsTrue x c then of_option (GetLastTransitionTime x c) else [].

Definition startup_times (t : healthCheckTarget) : list Time :=
  om_CreationTimestamp (m_Meta (hct_Machine t))
  :: transition_of (hct_Cluster t) ControlPlaneInitializedCondition
  ++ transition_of (hct_Cluster t) InfrastructureReadyCondition
  ++ transition_of (hct_Machine t) InfrastructureReadyCondition.

(** The conditions of the Node that are in a state reported as unhealthy, with the instants
    after which they are too long in it. *)
Definition bad_since (node : Node) (c : UnhealthyCondition) : option (Time * Z) :=
  match getNodeCondition node (uc_Type c) with
  | Some nc => if String.eqb (nc_Status nc) (uc_Status c)
               then Some (nc_LastTransitionTime nc, uc_Timeout c) else None
  | None => None
  end.

(** What is waited for: since when and for how long. *)
Definition deadlines (t : healthCheckTarget) (timeout : Z) : list (Time * Z) :=
  match hct_Node t with
  | None => if timeout =? 0 then [] else [(comparison_time t, timeout)]
  | Some node => omap (bad_since node) (mhs_UnhealthyConditions (mh_Spec (hct_MHC t)))
  end.

Definition passed (now : Time) (d : Time * Z) : Prop := d.1 + d.2 < now.

Definition unhealthy_at (t : healthCheckTarget) (timeout : Z) (now : Time) : Prop :=
  unhealthy_at_once t ∨ (evaluated t ∧ Exists (passed now) (deadlines t timeout)).

(** The comparison time is the latest of the startup times. *)
Lemma later_of_lt c t acc x now :
  later_of c t acc + x < now ↔
  acc + x < now ∧ Forall (λ s, s + x < now) (if c then of_option t else []).
Proof.
  unfold later_of. destruct t as [t|], c; simpl; rewrite ?Forall_cons, ?Forall_nil; try tauto.
  destruct (Z.ltb_spec acc t); intuition lia.
Qed.

Lemma comparison_time_lt t timeout now :
  comparison_time t + timeout < now ↔ Forall (λ s, s + timeout < now) (startup_times t).
Proof.
  unfold comparison_time, startup_times, transition_of.
  rewrite Forall_cons, !Forall_app, !later_of_lt. tauto.
Qed.

(** ** The loop over the conditions *)

(** [next_check] without overflow. *)
Definition time_left (now : Time) (d : Time * Z) : Z := d.2 - (now - d.1) + Second.

(** A deadline that is computed with in 64 bits. *)
Definition sane (now : Time) (d : Time * Z) : Prop :=
  0 ≤ d.2 ≤ 2 ^ 61 ∧ - 2 ^ 61 ≤ now - d.1 ≤ 2 ^ 61.

Lemma next_check_exact timeout now since :
  sane now (since, timeout) → next_check timeout now since = time_left now (since, timeout).
Proof.
  intros [Ht Hn]. simpl in *. unfold next_check, time_left, time_Sub, Second. simpl.
  rewrite Z.min_r by (unfold int64_max; lia). rewrite Z.max_r by (unfold int64_min; lia).
  rewrite (wrap64_id (timeout - (now - since))) by (unfold in_int64, int64_min, int64_max; lia).
  rewrite wrap64_id; unfold in_int64, int64_min, int64_max; lia.
Qed.

Lemma check_conditions_spec now node cs acc :
  match check_conditions now node cs acc with
  | inl c => ∃ d, c ∈ cs ∧ bad_since node c = Some d ∧ passed now d
  | inr next =>
      Forall (λ d, ¬ passed now d) (omap (bad_since node) cs) ∧
      (Forall (sane now) (omap (bad_since node) cs) →
       next = acc ++ (time_left now <$> omap (bad_since node) cs))
  end.
Proof.
  revert acc. induction cs as [|c cs IH]; intros acc; simpl.
  { split; [apply Forall_nil_2|]. intros _. by rewrite app_nil_r. }
  assert (∀ acc', match check_conditions now node cs acc' with
    | inl c' => ∃ d, c' ∈ c :: cs ∧ bad_since node c' = Some d ∧ passed now d
    | inr next => Forall (λ d, ¬ passed now d) (omap (bad_since node) cs) ∧
        (Forall (sane now) (omap (bad_since node) cs) →
         next = acc' ++ (time_left now <$> omap (bad_since node) cs))
    end) as IH'.
  { intros acc'. specialize (IH acc'). case_match; [|done].
    destruct IH as (d & Hin & Hd). exists d. split; [by right|done]. }
  destruct (getNodeCondition node (uc_Type c)) as [nc|] eqn:En;
    [destruct (String.eqb (nc_Status nc) (uc_Status c)) eqn:Es|];
    pose proof (eq_refl (bad_since node c)) as Eb; unfold bad_since in Eb at 2;
    rewrite En in Eb; try rewrite Es in Eb; rewrite Eb; [|apply IH'..].
  simpl. destruct (Z.ltb_spec (nc_LastTransitionTime nc + uc_Timeout c) now) as [Hlt|Hge].
  { eexists. split; [left|]. split; [exact Eb|exact Hlt]. }
  match goal with |- context [check_conditions now node cs ?a] => specialize (IH' a) end.
  case_match; [done|]. destruct IH' as [Hf Hnext]. split.
  { constructor; [|done]. unfold passed. simpl. lia. }
  intros [Hs Hss]%Forall_cons. rewrite Hnext by done. rewrite next_check_exact by done.
  destruct (Z.ltb_spec 0 (time_left now (nc_LastTransitionTime nc, uc_Timeout c))) as [|Hz].
  - by rewrite <- app_assoc.
  - unfold time_left, Second in Hz. simpl in Hz. lia.
Qed.

Lemma foldl_min d l : ∀ x,
  foldl (λ m nc : Z, if nc <? m then nc else m) d l ≤ x ↔ Exists (λ y, y ≤ x) (d :: l).
Proof.
  intros x. revert d. induction l as [|y l IH]; intros d; simpl.
  { rewrite Exists_cons, Exists_nil. tauto. }
  rewrite IH, !Exists_cons. destruct (Z.ltb_spec y d); intuition lia.
Qed.

(** The next check is due when the first deadline is over. *)
Lemma minDuration_spec l :
  l ≠ [] → ∀ x, minDuration l ≤ x ↔ Exists (λ y, y ≤ x) l.
Proof. destruct l as [|d l]; [done|]. intros _. apply foldl_min. Qed.

(** ** What a check changes *)

Definition wf_machine (m : Machine) : Prop :=
  NoDup (condition_types (GetConditions m)) ∧ NoDup (types (GetV1Beta2Conditions m)).

Section checks.
Context `{GoSort} `{MetaConditions}.

(** [m'] is [m] up to conditions of the types [ts] and [vs]. *)
Record same_except (ts : list ConditionType) (vs : list string) (m m' : Machine) : Prop := {
  se_Meta : m_Meta m' = m_Meta m;
  se_Spec : m_Spec m' = m_Spec m;
  se_NodeRef : st_NodeRef (m_Status m') = st_NodeRef (m_Status m);
  se_conditions : ∀ t, t ∉ ts → Get m' t = Get m t;
  se_v1beta2 : ∀ t, t ∉ vs → v1beta2_Get m' t = v1beta2_Get m t;
  se_wf : wf_machine m';
}.

Lemma same_except_refl ts vs m : wf_machine m → same_except ts vs m m.
Proof. by split. Qed.

Lemma same_except_trans ts vs m1 m2 m3 :
  same_except ts vs m1 m2 → same_except ts vs m2 m3 → same_except ts vs m1 m3.
Proof.
  intros [E1 E2 E3 E4 E5 _] [F1 F2 F3 F4 F5 F6]. split; try congruence; try done.
  - intros t Ht. by rewrite F4, E4.
  - intros t Ht. by rewrite F5, E5.
Qed.

Lemma same_except_weaken ts ts' vs vs' m m' :
  ts ⊆ ts' → vs ⊆ vs' → same_except ts vs m m' → same_except ts' vs' m m'.
Proof. intros Ht Hv [E1 E2 E3 E4 E5 E6]. split; try done; intros t Hn; [apply E4|apply E5]; set_solver. Qed.

Lemma Set_same now m c ts vs :
  wf_machine m → c_Type c ∈ ts → same_except ts vs m (Set_ now m (Some c)).
Proof.
  intros [Hnd Hv] Hc. split; try done.
  - intros t Ht. rewrite Set_Get_aux by done. rewrite decide_False; [done|]. by intros ->.
  - split; [|done]. by apply Set_wf_aux.
Qed.

Lemma v1beta2_Set_same now api (m : Machine) c ts vs :
  wf_machine m → mc_Type c ∈ vs → same_except ts vs m (v1beta2_Set now api m c).
Proof.
  intros [Hnd Hv] Hc. pose proof (v1beta2_Set_Get_aux (Some defaultSortLessFunc) now api m c) as Hg.
  assert (∀ P : Machine → Prop, P m → (∀ cs, P (m_set_V1Beta2Conditions cs m)) →
    P (v1beta2_Set now api m c)) as Hcase.
  { intros P H1 H2. unfold v1beta2_Set, v1beta2_Set_sorted.
    destruct (setStatusCondition _ _ _ _) as [cs []]; [apply H2|exact H1]. }
  split; try (by apply Hcase).
  - intros t Ht. unfold v1beta2_Set. rewrite (proj2 (Hg t Hv)).
    rewrite decide_False; [done|]. by intros ->.
  - split; [by apply Hcase|]. unfold v1beta2_Set. apply (proj1 (Hg ""%string Hv)).
Qed.

(** Marking a Machine unhealthy makes the condition false. *)
Lemma mark_unhealthy_spec rd reason message m :
  wf_machine m →
  IsFalse (mark_unhealthy rd reason message m) MachineHealthCheckSucceededCondition = true.
Proof.
  intros [Hnd _]. unfold IsFalse, mark_unhealthy, MarkFalse. rewrite Set_Get_aux by done.
  simpl. unfold set_value. destruct (Get m _) as [e|]; [|done].
  destruct (HasSameState e _) eqn:E; [|done]. unfold HasSameState in E.
  do 3 apply andb_prop in E as [E _]. by apply andb_prop in E as [_ E].
Qed.

Abbreviation hc_same := (same_except [MachineHealthCheckSucceededCondition]
  [MachineHealthCheckSucceededV1Beta2Condition]).

Definition marked (m m' : Machine) : Prop :=
  IsFalse m' MachineHealthCheckSucceededCondition = true ∧ hc_same m m'.

Lemma mark_unhealthy_marked rd reason message m :
  wf_machine m → marked m (mark_unhealthy rd reason message m).
Proof. intros Hwf. split; [by apply mark_unhealthy_spec|apply Set_same; [done|set_solver]]. Qed.

Lemma set_unhealthy_marked rd reason message m m' :
  marked m m' → marked m (set_unhealthy rd reason message m').
Proof.
  intros [Hf Hs].
  assert (hc_same m' (set_unhealthy rd reason message m')) as Hs'
    by (apply v1beta2_Set_same; [by apply Hs|set_solver]).
  split; [|by eapply same_except_trans].
  unfold IsFalse, Get, set_unhealthy, v1beta2_Set, v1beta2_Set_sorted in *.
  by destruct (setStatusCondition _ _ _ _) as [cs []].
Qed.

(** What [needsRemediation] answers on a target at a time. *)
Record check_answer (t : healthCheckTarget) (timeout now : Z) (t' : healthCheckTarget)
    (b : bool) (d : Z) : Prop := {
  ca_iff : b = true ↔ unhealthy_at t timeout now;
  ca_marked : b = true → d = 0 ∧ t' = hct_set_Machine (hct_Machine t') t ∧
    marked (hct_Machine t) (hct_Machine t');
  ca_same : b = false → t' = t;
  ca_next : b = false → evaluated t → Forall (sane now) (deadlines t timeout) →
    d = minDuration (time_left now <$> deadlines t timeout);
  ca_idle : b = false → ¬ evaluated t → d = 0;
}.

Lemma answer_true t timeout now m' :
  unhealthy_at t timeout now → marked (hct_Machine t) m' →
  check_answer t timeout now (hct_set_Machine m' t) true 0.
Proof. intros Hu Hm. by split. Qed.

Lemma answer_idle t timeout now :
  ¬ unhealthy_at_once t → ¬ evaluated t → check_answer t timeout now t false 0.
Proof. intros Hu He. split; try done. split; [done|]. intros [?|[? _]]; contradiction. Qed.

Lemma answer_false t timeout now d :
  ¬ unhealthy_at_once t → evaluated t → Forall (λ x, ¬ passed now x) (deadlines t timeout) →
  (Forall (sane now) (deadlines t timeout) → d = minDuration (time_left now <$> deadlines t timeout)) →
  check_answer t timeout now t false d.
Proof.
  intros Hu He Hp Hd. split; try done; try (intros _ _; exact Hd).
  split; [done|]. intros [?|[_ Hx]]; [contradiction|].
  apply Exists_exists in Hx as (x & Hin & Hx). by apply (proj1 (Forall_forall _ _) Hp x Hin) in Hx.
Qed.

Lemma check_health_outcome rd t timeout :
  wf_machine (hct_Machine t) → ¬ unhealthy_at_once t → evaluated t →
  ∃ t' b d, check_health rd t timeout = Ok (t', (b, d)) ∧
    check_answer t timeout (rd_now rd) t' b d.
Proof.
  intros Hwf Honce Hev. unfold check_health.
  destruct (hct_Node t) as [node|] eqn:Hn.
  - pose proof (check_conditions_spec (rd_now rd) node
      (mhs_UnhealthyConditions (mh_Spec (hct_MHC t))) []) as Hcc.
    destruct (check_conditions _ _ _ _) as [c|next].
    + destruct Hcc as (d & Hin & Hb & Hp). eexists _, _, _. split; [reflexivity|].
      apply answer_true; [|by apply set_unhealthy_marked, mark_unhealthy_marked].
      right. split; [done|]. apply Exists_exists. exists d. split; [|done].
      unfold deadlines. rewrite Hn. apply list_elem_of_omap. eauto.
    + destruct Hcc as [Hnp Hnext]. eexists _, _, _. split; [reflexivity|].
      apply answer_false; unfold deadlines; rewrite ?Hn; try done.
      intros Hsane. by rewrite (Hnext Hsane).
  - unfold disabledNodeStartupTimeout. destruct (Z.eqb_spec timeout 0) as [->|Ht].
    { eexists _, _, _. split; [reflexivity|].
      apply answer_false; unfold deadlines; rewrite ?Hn; done. }
    apply Z.eqb_neq in Ht.
    destruct (Z.ltb_spec (comparison_time t + timeout) (rd_now rd)) as [Hlt|Hge];
      (eexists _, _, _; split; [reflexivity|]).
    + apply answer_true; [|by apply set_unhealthy_marked, mark_unhealthy_marked].
      right. split; [done|]. unfold deadlines. rewrite Hn, Ht. by left.
    + apply answer_false; unfold deadlines; rewrite ?Hn, ?Ht; try done.
      * apply Forall_singleton. unfold passed. simpl. lia.
      * intros Hs. apply next_check_exact. by inversion Hs.
Qed.

Lemma needsRemediation_outcome rd t timeout :
  wf_machine (hct_Machine t) →
  (hct_nodeMissing t = true → is_Some (st_NodeRef (m_Status (hct_Machine t)))) →
  ∃ t' b d, needsRemediation rd t timeout = Ok (t', (b, d)) ∧
    check_answer t timeout (rd_now rd) t' b d.
Proof.
  intros Hwf Hmissing. unfold needsRemediation.
  destruct (HasRemediateMachine (m_Meta (hct_Machine t))) eqn:Hr.
  { eexists _, _, _. split; [reflexivity|]. apply answer_true; [by left; left|].
    by apply set_unhealthy_marked, mark_unhealthy_marked. }
  destruct (st_FailureReason (m_Status (hct_Machine t))) as [fr|] eqn:Hfr.
  { eexists _, _, _. split; [reflexivity|].
    apply answer_true; [left; right; left; by eexists|by apply mark_unhealthy_marked]. }
  destruct (st_FailureMessage (m_Status (hct_Machine t))) as [fm|] eqn:Hfm.
  { eexists _, _, _. split; [reflexivity|].
    apply answer_true; [left; right; right; left; by eexists|by apply mark_unhealthy_marked]. }
  destruct (hct_nodeMissing t) eqn:Hnm.
  { destruct (Hmissing eq_refl) as [ref Hnr].
    assert (marked (hct_Machine t) (mark_unhealthy rd NodeNotFoundReason "" (hct_Machine t))) as Hm
      by by apply mark_unhealthy_marked.
    rewrite (se_NodeRef _ _ _ _ (proj2 Hm)), Hnr. eexists _, _, _. split; [reflexivity|].
    apply answer_true; [left; by right; right; right|by apply set_unhealthy_marked]. }
  assert (¬ unhealthy_at_once t) as Honce.
  { unfold unhealthy_at_once. rewrite Hr, Hfr, Hfm, Hnm. by intros [?|[[]%is_Some_None|[[]%is_Some_None|?]]]. }
  unfold evaluated. destruct (negb _ && negb _) eqn:Hcp; [|destruct (negb (IsTrue (hct_Cluster t) InfrastructureReadyCondition)) eqn:Hinf].
  { eexists _, _, _. split; [reflexivity|]. apply answer_idle; [done|]. unfold evaluated.
    apply andb_prop in Hcp as [?%negb_true_iff ?%negb_true_iff]. by intros [[?|?] _]; congruence. }
  { eexists _, _, _. split; [reflexivity|]. apply answer_idle; [done|]. unfold evaluated.
    apply negb_true_iff in Hinf. intros [_ ?]; congruence. }
  assert (evaluated t) as Hev.
  { split; [|by apply negb_false_iff].
    apply andb_false_iff in Hcp as [?%negb_false_iff|?%negb_false_iff]; auto. }
  by apply check_health_outcome.
Qed.

(** The next check comes a second after the first deadline, and only then the answer changes. *)
Lemma recheck_iff t timeout now t' d now' :
  check_answer t timeout now t' false d → Forall (sane now) (deadlines t timeout) →
  unhealthy_at t timeout now' ↔ 0 < d ∧ now + d - Second < now'.
Proof.
  intros [Hiff _ _ Hnext Hidle] Hsane.
  assert (¬ unhealthy_at t timeout now) as Hno by (intros Hu; by apply Hiff in Hu).
  assert (¬ unhealthy_at_once t) as Honce by (intros Hu; apply Hno; by left).
  assert (unhealthy_at t timeout now' ↔ evaluated t ∧ Exists (passed now') (deadlines t timeout))
    as -> by (unfold unhealthy_at; tauto).
  destruct (decide (evaluated t)) as [Hev|Hev]; [specialize (Hnext eq_refl Hev Hsane)
    |specialize (Hidle eq_refl Hev); intuition lia].
  destruct (deadlines t timeout) as [|x l] eqn:Edl.
  { simpl in Hnext. rewrite Exists_nil. intuition lia. }
  assert (Forall (λ y, Second ≤ time_left now y) (x :: l)) as Hpos.
  { apply Forall_forall. intros y Hy. destruct (decide (Second ≤ time_left now y)); [done|].
    exfalso. apply Hno. right. split; [done|]. rewrite Edl. apply Exists_exists. exists y.
    split; [done|]. unfold passed, time_left, Second in *. lia. }
  assert ((time_left now <$> x :: l) ≠ []) as Hne by done.
  pose proof (minDuration_spec _ Hne) as Hmin.
  assert (0 < d).
  { destruct (decide (0 < d)) as [|Hle]; [done|]. exfalso. assert (d ≤ 0) as Hle' by lia.
    rewrite Hnext, Hmin, Exists_fmap in Hle'. apply Exists_exists in Hle' as (y & Hy & Hle').
    rewrite Forall_forall in Hpos. specialize (Hpos y Hy). unfold compose, Second in *. lia. }
  transitivity (d ≤ now' - now + Second - 1); [|lia].
  rewrite Hnext, Hmin, Exists_fmap.
  split; [intros [_ Hx]|intros Hx; split; [done|]]; (eapply Exists_impl; [exact Hx|]);
    intros y; unfold compose, passed, time_left; simpl; lia.
Qed.
End checks.

(** ** When remediation is allowed *)

(** The limits that can be configured: a range, a number, or a percentage. *)
Inductive limit := Range (lo hi : Z) | AtMost (n : Z) | Percent (p : Z).

Definition range_text (x y : string) : string := "[" +:+ x +:+ "-" +:+ y +:+ "]".

Definition configured (mhc : MachineHealthCheck) (l : limit) : Prop :=
  match l with
  | Range lo hi =>
      mhs_UnhealthyRange (mh_Spec mhc) = Some (range_text (FormatUint lo) (FormatUint hi)) ∧
      0 ≤ lo ≤ hi ∧ hi < 2 ^ 32
  | AtMost n =>
      mhs_UnhealthyRange (mh_Spec mhc) = None ∧ mhs_MaxUnhealthy (mh_Spec mhc) = Some (FromInt n)
  | Percent p =>
      mhs_UnhealthyRange (mh_Spec mhc) = None ∧
      mhs_MaxUnhealthy (mh_Spec mhc) = Some (FromString (FormatInt p +:+ "%")) ∧ 0 ≤ p ≤ 100
  end.

Definition within_limit (l : limit) (total unhealthy : Z) : Prop :=
  match l with
  | Range lo hi => lo ≤ unhealthy ≤ hi
  | AtMost n => unhealthy ≤ n
  | Percent p => 100 * unhealthy ≤ p * total
  end.

#[global] Instance within_limit_dec l total unhealthy : Decision (within_limit l total unhealthy).
Proof. destruct l; simpl; apply _. Defined.

Lemma range_text_cons x y : range_text x y = String "[" ((x +:+ String "-" y) +:+ "]").
Proof. exact (f_equal (String "[") (string_app_assoc x (String "-" y) "]")). Qed.

Lemma range_slice x y :
  String.substring 1 (String.length (range_text x y) - 2) (range_text x y) = x +:+ String "-" y.
Proof.
  rewrite range_text_cons. cbn [String.length]. rewrite length_append.
  replace (S (String.length (x +:+ String "-" y) + String.length "]") - 2)%nat
    with (String.length (x +:+ String "-" y)) by (simpl String.length at 3; lia).
  apply substring_append.
Qed.

Lemma range_length x y : (String.length (range_text x y) <? 2)%nat = false.
Proof.
  apply Nat.ltb_ge. rewrite range_text_cons. cbn [String.length]. rewrite length_append.
  simpl String.length at 2. lia.
Qed.

Section allowed_spec.
Context `{Apimachinery}.

Lemma getUnhealthyRange_format mhc lo hi :
  mhs_UnhealthyRange (mh_Spec mhc) = Some (range_text (FormatUint lo) (FormatUint hi)) →
  0 ≤ lo ≤ hi → hi < 2 ^ 32 → getUnhealthyRange mhc = Ok (lo, hi).
Proof.
  intros E Hlo Hhi. unfold getUnhealthyRange. rewrite E. simpl deref. cbn [mbind result_bind].
  rewrite range_length, range_slice.
  rewrite Split_app by (by apply FormatUint_contains).
  rewrite Split_none by (by apply FormatUint_contains).
  rewrite !ParseUint_FormatUint by lia.
  by destruct (Z.ltb_spec hi lo); [lia|].
Qed.

(** The CRD admits only ranges with a dash between brackets. *)
Lemma getUnhealthyRange_no_panic mhc x y :
  mhs_UnhealthyRange (mh_Spec mhc) = Some (range_text x y) → getUnhealthyRange mhc ≠ Panic.
Proof.
  intros E. unfold getUnhealthyRange. rewrite E. simpl deref. cbn [mbind result_bind].
  rewrite range_length, range_slice.
  assert (∃ p q ps, Split (x +:+ String "-" y) "-" = p :: q :: ps) as (p & q & ps & ->).
  { clear E. induction x as [|c x (p & q & ps & IH)].
    - change (EmptyString +:+ String "-" y) with (String "-" y). simpl.
      destruct (Split_cons y "-") as (q & ps & ->). eauto.
    - change (String c x +:+ String "-" y) with (String c (x +:+ String "-" y)). simpl.
      rewrite IH. case_match; eauto. }
  destruct (ParseUint p 32) as [v [e|]]; [done|].
  destruct (ParseUint q 32) as [w [e|]]; [done|]. by case_match.
Qed.

Lemma isAllowedRemediation_outcome mhc l :
  let total := mht_ExpectedMachines (mh_Status mhc) in
  let healthy := mht_CurrentHealthy (mh_Status mhc) in
  configured mhc l → 0 ≤ healthy ≤ total → total ≤ int32_max →
  ∃ count, isAllowedRemediation mhc = Ok (bool_decide (within_limit l total (total - healthy)), count).
Proof.
  intros total healthy Hl Hh Ht. unfold isAllowedRemediation.
  assert (unhealthyMachineCount mhc = total - healthy) as ->
    by (unfold unhealthyMachineCount; fold total healthy; unfold int32_max in *; by unwrap32).
  destruct l as [lo hi|n|p]; simpl in Hl.
  - destruct Hl as (E & Hlo & Hhi). rewrite E, (getUnhealthyRange_format _ _ _ E Hlo Hhi).
    eexists. simpl. do 2 f_equal. apply eq_true_iff_eq.
    rewrite bool_decide_eq_true, andb_true_iff, !Z.leb_le. lia.
  - destruct Hl as [E En]. rewrite E. unfold getMaxUnhealthy. rewrite En, scaled_int.
    eexists. simpl. do 2 f_equal. apply eq_true_iff_eq. rewrite bool_decide_eq_true, Z.leb_le. lia.
  - destruct Hl as (E & En & Hp). rewrite E. unfold getMaxUnhealthy. rewrite En.
    fold total. rewrite scaled_percent by lia. eexists. simpl. do 2 f_equal.
    apply eq_true_iff_eq. rewrite bool_decide_eq_true, Z.leb_le. unfold percent_of.
    pose proof (Z.div_mod (p * total) 100). pose proof (Z.mod_pos_bound (p * total) 100). lia.
Qed.
End allowed_spec.

(** ** The handler *)

Section handler_spec.
Context `{Apimachinery} `{GoSort} `{MetaConditions} `{Unstructured} (env : HcEnv).

(** Calls that neither change a Machine nor create a remediation request. *)
Definition harmless (c : HcCall) : Prop :=
  match c with HcPatchMachine _ | HcCreateExternal _ => False | _ => True end.

(** *** Targets *)

(** A target of a listed Machine, whose patch helper was made. *)
Record listed_target (cluster : Cluster) (mhc : MachineHealthCheck) (machines : list Machine)
    (cs : list HcCall) (t : healthCheckTarget) : Prop := {
  lt_cluster : hct_Cluster t = cluster;
  lt_mhc : hct_MHC t = mhc;
  lt_machine : hct_Machine t ∈ machines;
  lt_helper : HcNewHelper (hct_Machine t) ∈ cs;
  lt_missing : hct_nodeMissing t = true → ∃ ref calls e, st_NodeRef (m_Status (hct_Machine t)) = Some ref ∧
    he_error env calls (HcGetNode (ref_Name ref)) = Some e ∧ IsNotFound e = true;
  lt_node : ∀ node, hct_Node t = Some node → ∃ ref calls, st_NodeRef (m_Status (hct_Machine t)) = Some ref ∧
    he_error env calls (HcGetNode (ref_Name ref)) = None ∧ node = he_node env calls (ref_Name ref);
}.

Lemma listed_target_mono cluster mhc machines machines' cs cs' t :
  machines ⊆ machines' → cs ⊆ cs' → listed_target cluster mhc machines cs t →
  listed_target cluster mhc machines' cs' t.
Proof. intros Hm Hc []. split; auto. Qed.

Lemma target_of_outcome hasClient cluster mhc m s r s' :
  target_of env hasClient cluster mhc m s = (r, s') →
  r ≠ Panic ∧ hc_mhc s' = hc_mhc s ∧ ∃ cs, hc_calls s' = hc_calls s ++ cs ∧ Forall harmless cs ∧
    ∀ t, r = Ok t → hct_Machine t = m ∧ listed_target cluster mhc [m] cs t.
Proof.
  unfold target_of, hcall, mbind, M_bind.
  destruct (he_error env _ _) as [e|].
  { intros [= <- <-]. split; [done|]. split; [done|]. eexists. split; [reflexivity|].
    by rewrite Forall_singleton. }
  destruct hasClient.
  2:{ intros [= <- <-]. split; [done|]. split; [done|]. eexists. split; [reflexivity|].
    rewrite Forall_singleton. split; [done|]. intros t [= <-]. split; [done|]. split; try done; set_solver. }
  unfold attempt, getNodeFromMachine, gets, hcall, mbind, M_bind.
  destruct (st_NodeRef (m_Status m)) as [ref|] eqn:Enr; simpl.
  2:{ intros [= <- <-]. split; [done|]. split; [done|]. eexists. split; [reflexivity|].
    rewrite Forall_singleton. split; [done|]. intros t [= <-]. split; [done|]. split; try done; set_solver. }
  destruct (he_error env _ (HcGetNode _)) as [e|] eqn:Ee; simpl; [destruct (IsNotFound e) eqn:Enf; simpl|];
    intros [= <- <-]; (split; [done|]); (split; [done|]); rewrite <- app_assoc;
    (eexists; split; [reflexivity|]); simpl; (split; [by repeat constructor|]);
    intros t [= <-]; (split; [done|]); split; simpl; try done; try set_solver.
Qed.

Lemma targets_of_outcome hasClient cluster mhc machines s r s' :
  targets_of env hasClient cluster mhc machines s = (r, s') →
  r ≠ Panic ∧ hc_mhc s' = hc_mhc s ∧ ∃ cs, hc_calls s' = hc_calls s ++ cs ∧ Forall harmless cs ∧
    ∀ ts, r = Ok ts →
      hct_Machine <$> ts = filter (λ m, (shouldSkipRemediation m).1 = false) machines ∧
      Forall (listed_target cluster mhc machines cs) ts.
Proof.
  revert s r s'. induction machines as [|m machines IH]; intros s r s'; simpl.
  { intros [= <- <-]. split; [done|]. split; [done|]. exists []. rewrite app_nil_r.
    split; [done|]. split; [constructor|]. by intros ts [= <-]. }
  rewrite filter_cons. destruct (shouldSkipRemediation m).1 eqn:Hskip.
  { intros E. destruct (IH _ _ _ E) as (Hnp & Em & cs & Ec & Hh & Hok). split; [done|].
    split; [done|]. exists cs. split; [done|]. split; [done|]. intros ts Ets.
    destruct (Hok ts Ets) as [Hms Hall]. split; [by rewrite decide_False|]. eapply Forall_impl; [exact Hall|].
    intros t. apply listed_target_mono; set_solver. }
  unfold mbind, M_bind. destruct (target_of env _ _ _ m s) as [r1 s1] eqn:E1.
  destruct (target_of_outcome _ _ _ _ _ _ _ E1) as (Hnp1 & Em1 & cs1 & Ec1 & Hh1 & Hok1).
  destruct r1 as [t|e|]; [|intros [= <- <-]; naive_solver|done].
  destruct (targets_of env _ _ _ machines s1) as [r2 s2] eqn:E2.
  destruct (IH _ _ _ E2) as (Hnp2 & Em2 & cs2 & Ec2 & Hh2 & Hok2).
  assert (hc_mhc s2 = hc_mhc s ∧ hc_calls s2 = hc_calls s ++ (cs1 ++ cs2) ∧
    Forall harmless (cs1 ++ cs2)) as (Em & Ec & Hh).
  { split; [congruence|]. split; [by rewrite Ec2, Ec1, app_assoc|by apply Forall_app]. }
  destruct r2 as [ts|e|]; [|intros [= <- <-]; split; [done|]; split; [done|]; by exists (cs1 ++ cs2)|done].
  intros [= <- <-]. split; [done|]. split; [done|]. exists (cs1 ++ cs2). split; [done|].
  split; [done|]. intros ts' [= <-]. destruct (Hok2 ts eq_refl) as [Hms Hall].
  destruct (Hok1 t eq_refl) as [Ht Hlt]. rewrite decide_True by done.
  split; [by rewrite fmap_cons, Ht, Hms|]. constructor.
  - eapply listed_target_mono; [| |exact Hlt]; set_solver.
  - eapply Forall_impl; [exact Hall|]. intros t'. apply listed_target_mono; set_solver.
Qed.

Abbreviation list_call mhc := (HcListMachines (om_Namespace (mh_Meta mhc)) (mhs_Selector (mh_Spec mhc))
  (mhs_ClusterName (mh_Spec mhc))).

Lemma getTargetsFromMHC_outcome hasClient cluster mhc s r s' :
  getTargetsFromMHC env hasClient cluster mhc s = (r, s') →
  r ≠ Panic ∧ hc_mhc s' = hc_mhc s ∧ ∃ cs, hc_calls s' = hc_calls s ++ cs ∧ Forall harmless cs ∧
    ∀ ts, r = Ok ts → (∃ after, cs = list_call mhc :: after) ∧
      hct_Machine <$> ts = filter (λ m, (shouldSkipRemediation m).1 = false) (he_machines env (hc_calls s)) ∧
      Forall (listed_target cluster mhc (he_machines env (hc_calls s)) cs) ts.
Proof.
  unfold getTargetsFromMHC, getMachinesFromMHC, mwrap, gets, hcall, mbind, M_bind.
  destruct (he_selectorError env _) as [e|]; simpl.
  { intros [= <- <-]. split; [done|]. split; [done|]. exists []. by rewrite app_nil_r. }
  destruct (he_error env _ _) as [e|]; simpl.
  { intros [= <- <-]. split; [done|]. split; [done|]. eexists. split; [reflexivity|].
    by rewrite Forall_singleton. }
  intros E. apply targets_of_outcome in E as (Hnp & Em & cs & Ec & Hh & Hok). split; [done|].
  split; [done|]. simpl in Ec. rewrite <- app_assoc in Ec. eexists. split; [exact Ec|].
  split; [by constructor|]. intros ts Ets. destruct (Hok ts Ets) as [Hms Hall].
  split; [by exists cs|]. split; [done|]. eapply Forall_impl; [exact Hall|].
  intros t. apply listed_target_mono; set_solver.
Qed.

(** *** Health checks *)

Abbreviation hc_same := (same_except [MachineHealthCheckSucceededCondition]
  [MachineHealthCheckSucceededV1Beta2Condition]).

Definition is_event (c : HcCall) : Prop := match c with HcEvent _ _ _ => True | _ => False end.

Definition checkable (t : healthCheckTarget) : Prop :=
  wf_machine (hct_Machine t) ∧
  (hct_nodeMissing t = true → is_Some (st_NodeRef (m_Status (hct_Machine t)))).

(** [t'] is one of the targets after a check that found it unhealthy. *)
Definition found_unhealthy (timeout : Z) (ts : list healthCheckTarget) (t' : healthCheckTarget) : Prop :=
  ∃ t k, t ∈ ts ∧ unhealthy_at t timeout (he_clock env k) ∧
    t' = hct_set_Machine (hct_Machine t') t ∧ marked (hct_Machine t) (hct_Machine t').

Definition found_healthy (ts : list healthCheckTarget) (t' : healthCheckTarget) : Prop :=
  ∃ t, t ∈ ts ∧ hc_same (hct_Machine t) (hct_Machine t').

(** Whether a target counts as healthy at a time: it is not unhealthy, not in deletion, has a
    Node, and none of the conditions of the Node is in a bad state. *)
Record verdict (timeout now : Z) (t : healthCheckTarget) (v : bool) : Prop := {
  vd_healthy : v = true → ¬ unhealthy_at t timeout now ∧ is_Some (hct_Node t) ∧
    IsZero (om_DeletionTimestamp (m_Meta (hct_Machine t))) = true ∧
    (evaluated t → Forall (sane now) (deadlines t timeout) → deadlines t timeout = []);
  vd_other : v = false → unhealthy_at t timeout now ∨ hct_Node t = None ∨
    IsZero (om_DeletionTimestamp (m_Meta (hct_Machine t))) = false ∨ (evaluated t ∧ deadlines t timeout ≠ []);
}.

Definition judged (timeout : Z) (t : healthCheckTarget) (v : bool) : Prop :=
  ∃ k, verdict timeout (he_clock env k) t v.

(** How many of the targets do not count as healthy. *)
Definition not_healthy (vs : list bool) : Z := Z.of_nat (length (filter (λ v, v = false) vs)).

(** What a loop over [ts] adds to the results so far. *)
Definition added (timeout : Z) (ts : list healthCheckTarget) (ck ck' : Checked) : Prop :=
  ∃ h u vs, ck_healthy ck' = ck_healthy ck ++ h ∧ ck_unhealthy ck' = ck_unhealthy ck ++ u ∧
    Forall2 (judged timeout) ts vs ∧ Z.of_nat (length h) = Z.of_nat (length ts) - not_healthy vs ∧
    (length h + length u ≤ length ts)%nat ∧
    Forall (found_healthy ts) h ∧ Forall (found_unhealthy timeout ts) u.

Lemma healthy_same a b c m :
  wf_machine m →
  hc_same m (v1beta2_Set b c (MarkTrue a m MachineHealthCheckSucceededCondition)
    (meta_condition MachineHealthCheckSucceededV1Beta2Condition ConditionTrue
       "HealthCheckSucceeded" "")).
Proof.
  intros Hwf.
  assert (hc_same m (MarkTrue a m MachineHealthCheckSucceededCondition)) as Hs
    by (apply Set_same; [done|set_solver]).
  eapply same_except_trans; [exact Hs|]. apply v1beta2_Set_same; [by apply Hs|set_solver].
Qed.

(** A check that announces no next one found no deadline. *)
Lemma answer_no_deadline t timeout now t' d :
  check_answer t timeout now t' false d → evaluated t → Forall (sane now) (deadlines t timeout) →
  d ≤ 0 → deadlines t timeout = [].
Proof.
  intros Hca Hev Hsane Hd. destruct (deadlines t timeout) as [|x l] eqn:Edl; [done|]. exfalso.
  rewrite <- Edl in Hsane. destruct (proj1 (recheck_iff _ _ _ _ _ (x.1 + x.2 + 1) Hca Hsane)); [|lia].
  right. split; [done|]. rewrite Edl. left. unfold passed. lia.
Qed.

Lemma answer_deadline t timeout now t' d :
  check_answer t timeout now t' false d → 0 < d → evaluated t ∧ deadlines t timeout ≠ [].
Proof.
  intros [_ _ _ Hnext Hidle] Hd. destruct (decide (evaluated t)) as [Hev|Hev]; [|rewrite Hidle in Hd by done; lia].
  split; [done|]. intros Edl. rewrite Edl in Hnext. rewrite Hnext in Hd; [simpl in Hd; lia|done..|constructor].
Qed.

(** A check that adds nothing to the healthy targets. *)
Lemma added_other timeout t k ck ck' u :
  ck_healthy ck' = ck_healthy ck → ck_unhealthy ck' = ck_unhealthy ck ++ u → (length u ≤ 1)%nat →
  verdict timeout (he_clock env k) t false → Forall (found_unhealthy timeout [t]) u → added timeout [t] ck ck'.
Proof.
  intros Eh Eu Hl Hv Hu. exists [], u, [false]. rewrite app_nil_r.
  split_and!; [done|done| |done|done|constructor|done]. constructor; [by exists k|constructor].
Qed.

Lemma added_none timeout t k ck ck' :
  ck_healthy ck' = ck_healthy ck → ck_unhealthy ck' = ck_unhealthy ck →
  verdict timeout (he_clock env k) t false → added timeout [t] ck ck'.
Proof.
  intros Eh Eu Hv. apply (added_other _ _ k) with []; [done|by rewrite app_nil_r|simpl; lia|done|constructor].
Qed.

Lemma health_check_outcome timeout ck t s r s' :
  checkable t → health_check env timeout ck t s = (r, s') →
  hc_mhc s' = hc_mhc s ∧ ∃ cs ck', hc_calls s' = hc_calls s ++ cs ∧ Forall is_event cs ∧
    r = Ok ck' ∧ added timeout [t] ck ck'.
Proof.
  intros [Hwf Hmissing]. unfold health_check, readings, tick, lift, mbind, M_bind. simpl.
  match goal with |- context [needsRemediation ?x t timeout] => set (rd := x) end.
  destruct (needsRemediation_outcome rd t timeout Hwf Hmissing) as (t' & b & d & -> & Hca).
  change (rd_now rd) with (he_clock env (hc_ticks s)) in Hca. destruct b.
  - destruct (ca_marked _ _ _ _ _ _ Hca eq_refl) as (_ & Et & Hm).
    pose proof (proj1 (ca_iff _ _ _ _ _ _ Hca) eq_refl) as Hun.
    intros [= <- <-]. split; [done|]. exists []. eexists. rewrite app_nil_r.
    split; [done|]. split; [constructor|]. split; [reflexivity|].
    apply (added_other _ _ (hc_ticks s)) with [t']; [done|done|done|split; [done|by left]|].
    rewrite Forall_singleton. exists t, (hc_ticks s). split; [set_solver|done].
  - rewrite (ca_same _ _ _ _ _ _ Hca eq_refl).
    assert (¬ unhealthy_at t timeout (he_clock env (hc_ticks s))) as Hun
      by (intros Hu; by apply (ca_iff _ _ _ _ _ _ Hca) in Hu).
    destruct (Z.ltb_spec 0 d) as [Hd|Hd].
    { intros [= <- <-]. split; [done|]. eexists _, _. split; [reflexivity|].
      rewrite Forall_singleton. split; [done|]. split; [reflexivity|].
      apply (added_none _ _ (hc_ticks s)); [done..|].
      split; [done|]. intros _. right; right; right. by eapply answer_deadline. }
    destruct (IsZero _) eqn:Ez; [destruct (bool_decide_reflect (is_Some (hct_Node t))) as [Hn|Hn]|]; simpl.
    + intros [= <- <-]. split; [done|]. exists []. eexists. rewrite app_nil_r. split; [done|].
      split; [constructor|]. split; [reflexivity|]. eexists [_], [], [true]. rewrite app_nil_r.
      split; [reflexivity|]. split; [done|]. split.
      { constructor; [|constructor]. exists (hc_ticks s). split; [|done]. intros _. split_and!; [done..|].
        intros Hev Hsane. by eapply answer_no_deadline. }
      split; [done|]. split; [done|]. rewrite Forall_singleton.
      split; [|constructor]. exists t. split; [set_solver|by apply healthy_same].
    + intros [= <- <-]. split; [done|]. exists [], ck. rewrite app_nil_r. split_and!; [done|constructor|done|].
      apply (added_none _ _ (hc_ticks s)); [done..|].
      split; [done|]. intros _. right; left. by apply eq_None_not_Some.
    + intros [= <- <-]. split; [done|]. exists [], ck. rewrite app_nil_r. split_and!; [done|constructor|done|].
      apply (added_none _ _ (hc_ticks s)); [done..|].
      split; [done|]. intros _. by right; right; left.
Qed.

Lemma not_healthy_app vs vs' : not_healthy (vs ++ vs') = not_healthy vs + not_healthy vs'.
Proof. unfold not_healthy. rewrite filter_app, length_app. lia. Qed.

Lemma added_trans timeout t ts ck ck1 ck2 :
  added timeout [t] ck ck1 → added timeout ts ck1 ck2 → added timeout (t :: ts) ck ck2.
Proof.
  intros (h1 & u1 & vs1 & Eh1 & Eu1 & Hv1 & Hc1 & Hl1 & Hh1 & Hu1) (h2 & u2 & vs2 & Eh2 & Eu2 & Hv2 & Hc2 & Hl2 & Hh2 & Hu2).
  exists (h1 ++ h2), (u1 ++ u2), (vs1 ++ vs2). rewrite Eh2, Eh1, Eu2, Eu1, !app_assoc, !length_app, not_healthy_app.
  split; [done|]. split; [done|]. split; [exact (Forall2_app Hv1 Hv2)|]. simpl in *. split; [lia|]. split; [lia|].
  rewrite !Forall_app. unfold found_healthy, found_unhealthy in *.
  split; (split; (eapply Forall_impl; [eassumption|]); naive_solver set_solver).
Qed.

Lemma check_all_outcome timeout ts ck s r s' :
  Forall checkable ts → check_all env timeout ck ts s = (r, s') →
  hc_mhc s' = hc_mhc s ∧ ∃ cs ck', hc_calls s' = hc_calls s ++ cs ∧ Forall is_event cs ∧
    r = Ok ck' ∧ added timeout ts ck ck'.
Proof.
  revert ck s r s'. induction ts as [|t ts IH]; intros ck s r s' Hts; simpl.
  { intros [= <- <-]. split; [done|]. exists [], ck. rewrite app_nil_r. split; [done|].
    split; [constructor|]. split; [done|]. exists [], [], []. by rewrite !app_nil_r. }
  apply Forall_cons in Hts as [Ht Hts]. unfold mbind, M_bind.
  destruct (health_check env timeout ck t s) as [r1 s1] eqn:E1.
  destruct (health_check_outcome _ _ _ _ _ _ Ht E1) as (Em1 & cs1 & ck1 & Ec1 & He1 & -> & Ha1).
  intros E2. destruct (IH _ _ _ _ Hts E2) as (Em2 & cs2 & ck2 & Ec2 & He2 & -> & Ha2).
  split; [congruence|]. exists (cs1 ++ cs2), ck2. split; [by rewrite Ec2, Ec1, app_assoc|].
  split; [by apply Forall_app|]. split; [done|]. by eapply added_trans.
Qed.

(** *** Patching *)

(** The handler does not change the specification of its object. *)
Definition same_object (s s' : HcState) : Prop := mh_Spec (hc_mhc s') = mh_Spec (hc_mhc s).

#[local] Instance same_object_PreOrder : PreOrder same_object.
Proof. split; [done|]. intros s1 s2 s3. unfold same_object. congruence. Qed.

Abbreviation runs := (logged hc_calls).

Lemma hcall_runs (P : HcCall → Prop) c : P c → runs P same_object (hcall env c).
Proof.
  intros Hc s r s' E. unfold hcall in E.
  destruct (he_error env (hc_calls s) c); injection E as _ <-; (split; [done|]);
    exists [c]; simpl; by rewrite Forall_singleton.
Qed.

Lemma hevent_runs (P : HcCall → Prop) name reason message :
  P (HcEvent name reason message) → runs P same_object (hevent name reason message).
Proof. intros Hc s r s' [= _ <-]. split; [done|]. eexists. split; [reflexivity|]. by apply Forall_singleton. Qed.

Lemma tick_runs (P : HcCall → Prop) : runs P same_object (tick env).
Proof. intros s r s' [= _ <-]. split; [done|]. exists []. by rewrite app_nil_r. Qed.

Lemma set_mhc_runs (P : HcCall → Prop) f :
  (∀ m, mh_Spec (f m) = mh_Spec m) → runs P same_object (set_mhc f).
Proof. intros Hf. apply runs_modify. intros s. split; [apply Hf|done]. Qed.

Lemma v1beta2_Set_mhc now api (m : MachineHealthCheck) c :
  mh_Spec (v1beta2_Set now api m c) = mh_Spec m.
Proof.
  unfold v1beta2_Set, v1beta2_Set_sorted. by destruct (setStatusCondition _ _ _ _) as [cs []].
Qed.

Ltac runs_step :=
  match goal with
  | |- logged _ _ _ (hcall _ _) => apply hcall_runs
  | |- logged _ _ _ (tick _) => apply tick_runs
  | |- logged _ _ _ (set_mhc _) => apply set_mhc_runs; intros ?
  | |- logged _ _ _ (hevent _ _ _) => apply hevent_runs
  | |- _ => logged_step
  end.

(** Calls for the Machines with names in [U]. *)
Definition named (U : list string) (c : HcCall) : Prop :=
  match c with
  | HcCreateExternal o => om_Name (o_Meta o) ∈ U
  | HcPatchMachine m => m_Name m ∈ U
  | _ => True
  end.

Lemma remediate_target_runs U cluster t :
  m_Name (hct_Machine t) ∈ U → runs (named U) same_object (remediate_target env cluster t).
Proof.
  intros Hin. unfold remediate_target, remediate_externally, externalRemediationRequestExists,
    getExternalRemediationRequest, external_Get, mark_mhc, set_externally, mark_for_owner.
  repeat runs_step; try done. simpl. unfold o_SetName. by rewrite o_Meta_set.
Qed.

(** An action that never returns an error or panics, and whose results satisfy [Q]. *)
Definition answers {A} (Q : A → Prop) (m : M HcState A) : Prop :=
  ∀ s, ∃ a s', m s = (Ok a, s') ∧ Q a.

Lemma answers_ret {A} (Q : A → Prop) a : Q a → answers Q (mret a).
Proof. intros Ha s. by exists a, s. Qed.

Lemma answers_gets {A} (f : HcState → A) : answers (λ _, True) (gets f).
Proof. intros s. by eexists _, _. Qed.

Lemma answers_bind {A B} (P : A → Prop) (Q : B → Prop) (m : M HcState A) (f : A → M HcState B) :
  answers P m → (∀ a, P a → answers Q (f a)) → answers Q (m ≫= f).
Proof.
  intros Hm Hf s. unfold mbind, M_bind. destruct (Hm s) as (a & s1 & -> & Ha). by apply Hf.
Qed.

Lemma answers_deref {A} (o : option A) : is_Some o → answers (λ _, True) (lift (deref o)).
Proof. intros [a ->] s. by eexists _, _. Qed.

Lemma answers_tick : answers (λ _, True) (tick env).
Proof. intros s. by eexists _, _. Qed.

Lemma answers_set_mhc f : answers (λ _, True) (set_mhc f).
Proof. intros s. by eexists _, _. Qed.

Lemma answers_mark_mhc f : answers (λ _, True) (mark_mhc env f).
Proof. intros s. by eexists _, _. Qed.

Lemma answers_hevent name reason message : answers (λ _, True) (hevent name reason message).
Proof. intros s. by eexists _, _. Qed.

Lemma answers_try c : answers (λ _, True) (try_err (hcall env c)).
Proof. intros s. unfold try_err, hcall. destruct (he_error env _ _); by eexists _, _. Qed.

Lemma answers_attempt_external ref namespace :
  answers (λ _, True) (attempt (external_Get env ref namespace)).
Proof.
  intros s. unfold attempt, external_Get, mwrap, gets, hcall, mbind, M_bind.
  destruct (he_error env _ _); by eexists _, _.
Qed.

Lemma answers_attempt_request template namespace name :
  answers (λ _, True) (attempt (getExternalRemediationRequest env template namespace name)).
Proof.
  intros s. unfold attempt, getExternalRemediationRequest, external_Get, mwrap, gets, hcall,
    mbind, M_bind. destruct (he_error env _ _); by eexists _, _.
Qed.

Create HintDb answers.
#[local] Hint Resolve answers_gets answers_deref answers_tick answers_set_mhc answers_mark_mhc answers_hevent answers_try
  answers_attempt_external answers_attempt_request : answers.

(** Steps that succeed whatever they return. *)
Ltac answers_step :=
  match goal with
  | |- answers _ (mret _) => apply answers_ret
  | |- answers _ (match ?x with _ => _ end) => destruct x eqn:?
  | |- answers _ (mbind _ _) => eapply (answers_bind (λ _, True)); [solve [auto with answers]|intros ? _]
  | |- _ => progress cbn beta zeta
  end.

(** The target that goes on keeps its identity. *)
Definition keeps_meta (t : healthCheckTarget) (x : healthCheckTarget + list error) : Prop :=
  ∀ t', x = inl t' → m_Meta (hct_Machine t') = m_Meta (hct_Machine t).

Lemma v1beta2_Set_Meta now api (m : Machine) c : m_Meta (v1beta2_Set now api m c) = m_Meta m.
Proof.
  unfold v1beta2_Set, v1beta2_Set_sorted. by destruct (setStatusCondition _ _ _ _) as [cs []].
Qed.

Lemma set_externally_answers reason message m :
  answers (λ m', m_Meta m' = m_Meta m) (set_externally env reason message m).
Proof. unfold set_externally. repeat answers_step. apply v1beta2_Set_Meta. Qed.

Lemma mark_for_owner_answers m : answers (λ m', m_Meta m' = m_Meta m) (mark_for_owner env m).
Proof.
  unfold mark_for_owner. eapply (answers_bind (λ m', m_Meta m' = m_Meta m)).
  - repeat answers_step; done.
  - intros m' Hm. repeat answers_step; rewrite ?v1beta2_Set_Meta; done.
Qed.

Lemma remediate_externally_answers template condition t :
  is_Some condition → answers (keeps_meta t) (remediate_externally env template condition t).
Proof.
  intros Hc. unfold remediate_externally, externalRemediationRequestExists.
  eapply (answers_bind (λ _, True)); [auto with answers|intros mhc _].
  eapply (answers_bind (λ _, True)); [repeat answers_step; done|intros [] _].
  { by apply answers_ret. }
  eapply (answers_bind (λ _, True)); [auto with answers|intros [from|e] _].
  - eapply (answers_bind (λ _, True)); [auto with answers|intros calls _].
    destruct (GenerateTemplate _ _) as [to|e|] eqn:Eg; [|by apply answers_ret
      |by apply GenerateTemplate_no_panic in Eg].
    do 2 answers_step. case_match.
    + answers_step. eapply answers_bind; [apply set_externally_answers|intros m' _].
      by apply answers_ret.
    + eapply answers_bind; [apply set_externally_answers|intros m' Hm].
      apply answers_ret. by intros t' [= <-].
  - answers_step. eapply answers_bind; [apply set_externally_answers|intros m' _].
    by apply answers_ret.
Qed.

Lemma remediate_target_answers cluster t :
  is_Some (Get (hct_Machine t) MachineHealthCheckSucceededCondition) →
  answers (keeps_meta t) (remediate_target env cluster t).
Proof.
  intros Hc. unfold remediate_target. answers_step. cbn zeta. destruct (IsPaused _ _).
  - answers_step. apply answers_ret. by intros t' [= <-].
  - case_match; [by apply remediate_externally_answers|]. answers_step.
    eapply answers_bind; [apply mark_for_owner_answers|intros m' Hm].
    apply answers_ret. by intros t' [= <-].
Qed.

Lemma patch_machine_of_answers message t : answers (λ _, True) (patch_machine_of env message t).
Proof. unfold patch_machine_of. by repeat answers_step. Qed.

Lemma patch_machine_of_runs (P : HcCall → Prop) message t :
  P (HcPatchMachine (hct_Machine t)) → runs P same_object (patch_machine_of env message t).
Proof. intros HP. unfold patch_machine_of. by repeat runs_step. Qed.

(** What a loop over targets does: it answers, and makes calls in [P]. *)
Definition answers_runs {A} (P : HcCall → Prop) (m : M HcState A) : Prop :=
  answers (λ _, True) m ∧ runs P same_object m.

Lemma patchUnhealthyTargets_spec U unhealthy cluster :
  Forall (λ t, m_Name (hct_Machine t) ∈ U ∧
    is_Some (Get (hct_Machine t) MachineHealthCheckSucceededCondition)) unhealthy →
  answers_runs (named U) (patchUnhealthyTargets env unhealthy cluster).
Proof.
  induction unhealthy as [|t unhealthy IH]; intros Hall; simpl.
  { split; [by apply answers_ret|apply runs_ret, _]. }
  apply Forall_cons in Hall as [[Hn Hc] Hall]. destruct (IH Hall) as [IHa IHr].
  pose proof (remediate_target_answers cluster t Hc) as Ha.
  pose proof (remediate_target_runs U cluster t Hn) as Hr.
  assert (∀ x, keeps_meta t x → answers_runs (named U)
    match x with
    | inl t' => e ← patch_machine_of env "failed to patch unhealthy machine status for machine: " t';
        _ ← (if is_None e then hevent (m_Name (hct_Machine t')) "MachineMarkedUnhealthy"
               ("Machine " +:+ target_string t' +:+ " has been marked as unhealthy") else mret tt);
        errs ← patchUnhealthyTargets env unhealthy cluster; mret (of_option e ++ errs)
    | inr errs => mret errs
    end) as Hrest.
  { intros [t'|errs] Hk; [|split; [by apply answers_ret|apply runs_ret, _]]. split.
    - eapply answers_bind; [apply patch_machine_of_answers|intros e _].
      eapply (answers_bind (λ _, True)); [destruct (is_None e); [apply answers_hevent|by apply answers_ret]|].
      intros _ _. eapply answers_bind; [exact IHa|intros errs _]. by apply answers_ret.
    - apply runs_bind; [apply _| |intros e].
      + apply patch_machine_of_runs. simpl. unfold m_Name. by rewrite (Hk t' eq_refl).
      + apply runs_bind; [apply _|destruct (is_None e); [by apply hevent_runs|apply runs_ret, _]|].
        intros _. apply runs_bind; [apply _|exact IHr|intros errs; apply runs_ret, _]. }
  split; [eapply answers_bind; [exact Ha|intros x Hx; by apply Hrest]|].
  intros s r s' E. unfold mbind, M_bind in E.
  destruct (Ha s) as (x & s1 & E1 & Hk). destruct (Hr _ _ _ E1) as (HR1 & cs1 & Ec1 & HP1).
  rewrite E1 in E. destruct (proj2 (Hrest x Hk) _ _ _ E) as (HR2 & cs2 & Ec2 & HP2).
  split; [by etrans|]. exists (cs1 ++ cs2). rewrite Ec2, Ec1, app_assoc. split; [done|].
  by apply Forall_app.
Qed.

(** Calls that patch a Machine of one of the targets, or no Machine. *)
Definition patches_of (ts : list healthCheckTarget) (c : HcCall) : Prop :=
  match c with
  | HcPatchMachine m => ∃ t, t ∈ ts ∧ m = hct_Machine t
  | HcCreateExternal _ => False
  | _ => True
  end.

Lemma patch_all_spec ts ts' : ts ⊆ ts' → answers_runs (patches_of ts') (patch_all env ts).
Proof.
  induction ts as [|t ts IH]; intros Hsub; simpl; [split; [by apply answers_ret|apply runs_ret, _]|].
  destruct IH as [IHa IHr]; [set_solver|]. split.
  - eapply answers_bind; [apply patch_machine_of_answers|intros e _].
    eapply answers_bind; [exact IHa|intros errs _]. by apply answers_ret.
  - apply runs_bind; [apply _|apply patch_machine_of_runs; exists t; set_solver|intros e].
    apply runs_bind; [apply _|exact IHr|intros errs; apply runs_ret, _].
Qed.

Lemma delete_request_spec ts template namespace m :
  answers_runs (patches_of ts) (delete_request env template namespace m).
Proof.
  split; [by unfold delete_request; repeat answers_step|].
  unfold delete_request, getExternalRemediationRequest, external_Get. by repeat runs_step.
Qed.

Lemma patchHealthyTargets_spec ts ts' m :
  ts ⊆ ts' → answers_runs (patches_of ts') (patchHealthyTargets env ts m).
Proof.
  induction ts as [|t ts IH]; intros Hsub; simpl; [split; [by apply answers_ret|apply runs_ret, _]|].
  destruct IH as [IHa IHr]; [set_solver|].
  assert (answers_runs (patches_of ts') (match mhs_RemediationTemplate (mh_Spec m) with
    | Some template => delete_request env template (om_Namespace (mh_Meta m)) (hct_Machine t)
    | None => mret (None, true) end)) as [Ha Hr].
  { case_match; [apply delete_request_spec|split; [by apply answers_ret|apply runs_ret, _]]. }
  split.
  - eapply answers_bind; [exact Ha|intros [e continue] _].
    eapply (answers_bind (λ _, True)); [destruct continue; [apply patch_machine_of_answers|by apply answers_ret]|].
    intros e' _. eapply answers_bind; [exact IHa|intros errs _]. by apply answers_ret.
  - apply runs_bind; [apply _|exact Hr|intros [e continue]]. apply runs_bind; [apply _| |intros e'].
    + destruct continue; [apply patch_machine_of_runs; exists t; set_solver|apply runs_ret, _].
    + apply runs_bind; [apply _|exact IHr|intros errs; apply runs_ret, _].
Qed.

(** *** Reconciliation *)

(** Only Machines with names in [U] get remediation requests or other changes than that of
    their health check condition since their patch helper was made. *)
Definition confined (U : list string) (cs : list HcCall) (c : HcCall) : Prop :=
  match c with
  | HcCreateExternal o => om_Name (o_Meta o) ∈ U
  | HcPatchMachine m' => m_Name m' ∈ U ∨ ∃ m, HcNewHelper m ∈ cs ∧ hc_same m m'
  | _ => True
  end.

Lemma confined_mono U cs cs' c : cs ⊆ cs' → confined U cs c → confined U cs' c.
Proof. intros Hs. destruct c; simpl; try done. intros [?|(m' & ? & ?)]; [by left|right; eauto]. Qed.

(** A target as found by the listing, after its check. *)
Definition rechecked (cs : list HcCall) (t : healthCheckTarget) : Prop :=
  ∃ m, HcNewHelper m ∈ cs ∧ hc_same m (hct_Machine t).

Lemma restrict_remediation_spec cs total ck s r s' :
  Forall (rechecked cs) (ck_healthy ck ++ ck_unhealthy ck) →
  restrict_remediation env total ck s = (r, s') →
  r ≠ Panic ∧ ∃ cs', hc_calls s' = hc_calls s ++ cs' ∧ Forall (confined [] cs) cs'.
Proof.
  intros Hck E. set (ts := ck_healthy ck ++ ck_unhealthy ck) in *.
  destruct (patch_all_spec ts ts ltac:(done)) as [Ha Hr].
  assert (runs (patches_of ts) same_object (restrict_remediation env total ck)) as Hruns.
  { unfold restrict_remediation, mark_mhc, set_mhc_v1beta2. fold ts.
    repeat first [exact Hr|runs_step]; try done. apply v1beta2_Set_mhc. }
  destruct (Hruns _ _ _ E) as (_ & cs' & Ec & HP). split.
  - intros ->. revert E. unfold restrict_remediation. fold ts.
    unfold mbind, M_bind, gets, set_mhc, mark_mhc, set_mhc_v1beta2, modify, hevent, tick. simpl.
    destruct (bool_decide (ck_unhealthy ck = [])); simpl;
      match goal with |- context [patch_all env ts ?s0] =>
        destruct (Ha s0) as (errs & s1 & -> & _) end; by case_match.
  - exists cs'. split; [done|]. eapply Forall_impl; [exact HP|]. intros c Hc.
    destruct c; simpl in *; try done. destruct Hc as (t & Ht & ->). right.
    rewrite Forall_forall in Hck. by apply Hck.
Qed.

Lemma remediate_unhealthy_spec cs U cluster count ck s r s' :
  Forall (rechecked cs) (ck_healthy ck) →
  Forall (λ t, m_Name (hct_Machine t) ∈ U ∧
    is_Some (Get (hct_Machine t) MachineHealthCheckSucceededCondition)) (ck_unhealthy ck) →
  remediate_unhealthy env cluster count ck s = (r, s') →
  r ≠ Panic ∧ ∃ cs', hc_calls s' = hc_calls s ++ cs' ∧ Forall (confined U cs) cs'.
Proof.
  intros Hh Hu E.
  destruct (patchUnhealthyTargets_spec U (ck_unhealthy ck) cluster Hu) as [Ha1 Hr1].
  pose proof (λ m, patchHealthyTargets_spec (ck_healthy ck) (ck_healthy ck) m ltac:(done)) as Hh2.
  assert (runs (confined U cs) same_object (remediate_unhealthy env cluster count ck)) as Hruns.
  { unfold remediate_unhealthy, mark_mhc, set_mhc_v1beta2.
    assert (∀ (A : Type) (m : M HcState A), runs (named U) same_object m →
      runs (confined U cs) same_object m) as Hw1.
    { intros A m. apply runs_weaken; [|done]. intros c Hc. destruct c; simpl in *; auto. }
    assert (∀ (A : Type) (m : M HcState A), runs (patches_of (ck_healthy ck)) same_object m →
      runs (confined U cs) same_object m) as Hw2.
    { intros A m. apply runs_weaken; [|done]. intros c Hc. destruct c; simpl in *; try done.
      destruct Hc as (t & Ht & ->). right. rewrite Forall_forall in Hh. by apply Hh. }
    repeat first [apply Hw1, Hr1|apply Hw2, Hh2|runs_step]; try done. apply v1beta2_Set_mhc. }
  destruct (Hruns _ _ _ E) as (_ & cs' & Ec & HP). split; [|by exists cs'].
  intros ->. revert E. unfold remediate_unhealthy.
  unfold mbind, M_bind, gets, set_mhc, mark_mhc, set_mhc_v1beta2, modify, tick. simpl.
  match goal with |- context [patchUnhealthyTargets env _ cluster ?s0] =>
    destruct (Ha1 s0) as (errs & s1 & -> & _) end.
  destruct (proj1 (Hh2 (hc_mhc s1)) s1) as (errs' & s2 & -> & _). by case_match.
Qed.

Definition startup_timeout (spec : MachineHealthCheckSpec) : Z :=
  default DefaultNodeStartupTimeout (mhs_NodeStartupTimeout spec).

(** The targets of a reconciliation from state [s]: the Machines it listed, without those to be
    skipped, with the Node that was read, and which of them count as healthy. *)
Record targets_checked (cluster : Cluster) (s : HcState) (cs : list HcCall)
    (ts : list healthCheckTarget) (vs : list bool) : Prop := {
  tc_machines : ∃ before after, cs = before ++ list_call (hc_mhc s) :: after ∧
    hct_Machine <$> ts = filter (λ m, (shouldSkipRemediation m).1 = false)
      (he_machines env (hc_calls s ++ before));
  tc_targets : Forall (λ t, ∃ mhc machines, mh_Spec mhc = mh_Spec (hc_mhc s) ∧
    listed_target cluster mhc machines cs t) ts;
  tc_verdicts : Forall2 (judged (startup_timeout (mh_Spec (hc_mhc s)))) ts vs;
}.

(** The remediation of the Machines [U] is within the limit: they are targets found unhealthy,
    and the number of targets that are not healthy, which is at least theirs, is within it. *)
Definition limited (cluster : Cluster) (l : limit) (s : HcState) (cs : list HcCall) (U : list string) : Prop :=
  ∃ ts vs, targets_checked cluster s cs ts vs ∧
    within_limit l (Z.of_nat (length ts)) (not_healthy vs) ∧ Z.of_nat (length U) ≤ not_healthy vs ∧
    ∀ name, name ∈ U → ∃ t k, t ∈ ts ∧ m_Name (hct_Machine t) = name ∧
      unhealthy_at t (startup_timeout (mh_Spec (hc_mhc s))) (he_clock env k).

(** What a reconciliation that made the calls [cs] may have done. *)
Definition bounded (cluster : Cluster) (l : limit) (s : HcState) (cs : list HcCall) : Prop :=
  ∃ U, Forall (confined U cs) cs ∧ (U = [] ∨ limited cluster l s cs U).

Lemma harmless_confined U cs cs' : Forall harmless cs' → Forall (confined U cs) cs'.
Proof. intros Hh. eapply Forall_impl; [exact Hh|]. by intros []. Qed.

Lemma event_confined U cs cs' : Forall is_event cs' → Forall (confined U cs) cs'.
Proof. intros Hh. eapply Forall_impl; [exact Hh|]. by intros []. Qed.

Lemma bounded_harmless cluster l s cs : Forall harmless cs → bounded cluster l s cs.
Proof. intros Hh. exists []. split; [by apply harmless_confined|by left]. Qed.

Lemma configured_spec m m' l : mh_Spec m' = mh_Spec m → configured m l → configured m' l.
Proof. intros E. destruct l; simpl; by rewrite E. Qed.

(** The last part of a reconciliation, from the checked targets on. *)
Lemma decide_outcome cluster l cs ts ck s r s' :
  let spec := mh_Spec (hc_mhc s) in
  Z.of_nat (length ts) ≤ int32_max → Forall (λ t, HcNewHelper (hct_Machine t) ∈ cs) ts →
  configured (hc_mhc s) l →
  mht_ExpectedMachines (mh_Status (hc_mhc s)) = Z.of_nat (length ts) →
  mht_CurrentHealthy (mh_Status (hc_mhc s)) = Z.of_nat (length (ck_healthy ck)) →
  added (startup_timeout spec) ts {| ck_healthy := []; ck_unhealthy := []; ck_next := [] |} ck →
  decide_remediation env cluster (Z.of_nat (length ts)) ck s = (r, s') →
  r ≠ Panic ∧ ∃ cs' U, hc_calls s' = hc_calls s ++ cs' ∧ Forall (confined U cs) cs' ∧
    (U = [] ∨ ∃ vs, Forall2 (judged (startup_timeout spec)) ts vs ∧
      within_limit l (Z.of_nat (length ts)) (not_healthy vs) ∧ Z.of_nat (length U) ≤ not_healthy vs ∧
      ∀ name, name ∈ U → ∃ t k, t ∈ ts ∧ m_Name (hct_Machine t) = name ∧
        unhealthy_at t (startup_timeout spec) (he_clock env k)).
Proof.
  intros spec Hmax Hlisted Hl Eexp Ehealthy (h & u & vs & Eh & Eu & Hvs & Hcount & Hhu & Hh & Hu).
  simpl in Eh, Eu. rewrite Forall_forall in Hlisted. rewrite <- Eh in *. rewrite <- Eu in *.
  clear h u Eh Eu. unfold decide_remediation, gets, lift, mbind, M_bind.
  destruct (isAllowedRemediation_outcome (hc_mhc s) l Hl) as [count ->]; [lia..|]. simpl.
  assert (∀ t, t ∈ ts → ∀ t', hc_same (hct_Machine t) (hct_Machine t') → rechecked cs t') as Hre.
  { intros t Ht t' Hs. exists (hct_Machine t). auto. }
  assert (Forall (rechecked cs) (ck_healthy ck)) as Hrh.
  { eapply Forall_impl; [exact Hh|]. intros t' (t & Ht & Hs). eauto. }
  destruct (bool_decide _) eqn:Hallowed; intros E.
  - apply bool_decide_eq_true in Hallowed. rewrite Eexp, Ehealthy in Hallowed.
    apply (remediate_unhealthy_spec cs ((λ t, m_Name (hct_Machine t)) <$> ck_unhealthy ck)) in E
      as [Hnp (cs' & Ec & Hc)]; [|done|].
    2:{ apply Forall_forall. intros t' Ht'. split; [by apply (list_elem_of_fmap_2 (λ t, m_Name (hct_Machine t)))|].
      rewrite Forall_forall in Hu. destruct (Hu t' Ht') as (t & k & _ & _ & _ & Hf & _).
      unfold IsFalse in Hf. by destruct (Get _ _). }
    split; [done|]. exists cs', ((λ t, m_Name (hct_Machine t)) <$> ck_unhealthy ck). split; [done|]. split; [done|].
    right. exists vs. split; [done|]. split; [by replace (not_healthy vs) with
      (Z.of_nat (length ts) - Z.of_nat (length (ck_healthy ck))) by lia|]. split; [rewrite length_fmap; lia|].
    intros name (t' & -> & Ht')%list_elem_of_fmap. rewrite Forall_forall in Hu.
    destruct (Hu t' Ht') as (t & k & Ht & Hun & _ & _ & Hs). exists t, k. split_and!; [done| |done].
    unfold m_Name. by rewrite (se_Meta _ _ _ _ Hs).
  - apply (restrict_remediation_spec cs) in E as [Hnp (cs' & Ec & Hc)].
    2:{ apply Forall_app. split; [done|]. eapply Forall_impl; [exact Hu|].
      intros t' (t & k & Ht & _ & _ & _ & Hs). eauto. }
    split; [done|]. exists cs', []. split_and!; [done|done|by left].
Qed.

Lemma connect_outcome (initialized : bool) s r s' :
  connect env initialized s = (r, s') →
  r ≠ Panic ∧ hc_mhc s' = hc_mhc s ∧ ∃ cs, hc_calls s' = hc_calls s ++ cs ∧ Forall harmless cs.
Proof.
  unfold connect. destruct initialized.
  - unfold mbind, M_bind, hcall.
    destruct (he_error env _ HcGetClient) as [e|]; [|destruct (he_error env _ HcWatchNodes) as [e|]];
      intros [= <- <-]; (split; [done|]); (split; [done|]); simpl;
      rewrite <- ?app_assoc; (eexists; split; [reflexivity|]); by repeat constructor.
  - intros [= <- <-]. split; [done|]. split; [done|]. exists []. by rewrite app_nil_r.
Qed.

Lemma mhc_reconcile_outcome cluster l s r s' :
  (∀ calls, Forall wf_machine (he_machines env calls) ∧
    Z.of_nat (length (he_machines env calls)) ≤ int32_max) →
  configured (hc_mhc s) l →
  mhc_reconcile env cluster s = (r, s') →
  r ≠ Panic ∧ ∃ cs, hc_calls s' = hc_calls s ++ cs ∧ bounded cluster l s cs.
Proof.
  intros Hmachines Hl. set (spec := mh_Spec (hc_mhc s)).
  unfold mhc_reconcile, set_mhc, modify, gets, mbind, M_bind. simpl.
  match goal with |- context [connect env ?b ?s0] =>
    destruct (connect env b s0) as [r1 s1] eqn:E1 end.
  apply connect_outcome in E1 as (Hnp1 & Em1 & cs1 & Ec1 & Hh1). simpl in Em1, Ec1.
  destruct r1 as [[]|e|]; [|intros [= <- <-]; split; [done|]; exists cs1;
    split; [done|by apply bounded_harmless]|done].
  destruct (getTargetsFromMHC env _ cluster (hc_mhc s1) s1) as [r2 s2] eqn:E2.
  apply getTargetsFromMHC_outcome in E2 as (Hnp2 & Em2 & cs2 & Ec2 & Hh2 & Hts).
  assert (hc_calls s2 = hc_calls s ++ (cs1 ++ cs2) ∧ Forall harmless (cs1 ++ cs2)) as [Ec12 Hh12]
    by (split; [by rewrite Ec2, Ec1, app_assoc|by apply Forall_app]).
  destruct r2 as [ts|e|]; [|intros [= <- <-]; split; [done|]; exists (cs1 ++ cs2);
    split; [done|by apply bounded_harmless]|done].
  destruct (Hts ts eq_refl) as ([after Ecs2] & Hms & Hlisted). set (machines := he_machines env (hc_calls s1)) in *.
  destruct (Hmachines (hc_calls s1)) as [Hwf Hmax]. fold machines in Hwf, Hmax.
  assert (Z.of_nat (length ts) ≤ int32_max) as Hlen.
  { rewrite <- (length_fmap hct_Machine), Hms.
    pose proof (length_filter (λ m, (shouldSkipRemediation m).1 = false) machines). lia. }
  unfold healthCheckTargets.
  match goal with |- context [check_all env ?t ?ck ts ?s0] =>
    destruct (check_all env t ck ts s0) as [r3 s3] eqn:E3 end.
  apply check_all_outcome in E3 as (Em3 & cs3 & ck & Ec3 & He3 & -> & Hadd).
  2:{ eapply Forall_impl; [exact Hlisted|]. intros t [_ _ Hin _ Hmiss _]. split.
    - rewrite Forall_forall in Hwf. by apply Hwf.
    - intros Hm. destruct (Hmiss Hm) as (ref & _ & _ & -> & _). by exists ref. }
  simpl in Em3, Ec3. intros E.
  assert (hc_mhc s2 = own_by_cluster cluster (hc_mhc s)) as Em12 by congruence.
  match type of E with decide_remediation _ _ _ _ ?s4 = _ => set (s4' := s4) in E end.
  assert (mh_Spec (hc_mhc s4') = spec) as Espec4 by (simpl; by rewrite Em3, Em12).
  assert (mh_Spec (hc_mhc s1) = spec) as Espec1 by by rewrite Em1.
  rewrite Espec1 in Hadd. fold (startup_timeout spec) in Hadd.
  assert (length (ck_healthy ck) ≤ length ts)%nat as Hle.
  { destruct Hadd as (h & u & vs & -> & _ & _ & _ & Hhu & _). simpl. lia. }
  set (cs' := cs1 ++ cs2 ++ cs3) in *.
  apply (decide_outcome cluster l cs' ts) in E
    as [Hnp (cs4 & U & Ec4 & HU & Hcase)]; [..|by rewrite Espec4]; try done.
  - split; [done|]. exists (cs' ++ cs4). simpl in Ec4.
    split; [by rewrite Ec4, Ec3, Ec2, Ec1; unfold cs'; rewrite <- !app_assoc|].
    exists U. split.
    + rewrite Forall_app. split; [unfold cs'; rewrite !Forall_app; split_and!;
        [by apply harmless_confined..|by apply event_confined]|].
      eapply Forall_impl; [exact HU|]. intros c. apply confined_mono. set_solver.
    + destruct Hcase as [->|(vs & Hvs & Hlim & Hn & Hun)]; [by left|right]. rewrite Espec4 in *.
      exists ts, vs. split; [|done]. split; [| |done].
      * exists cs1, (after ++ cs3 ++ cs4). split; [|by rewrite Hms; unfold machines; rewrite Ec1].
        unfold cs'. rewrite Ecs2, <- !app_assoc. simpl. do 2 f_equal. by rewrite Em1.
      * eapply Forall_impl; [exact Hlisted|]. intros t Ht. exists (hc_mhc s1), machines.
        split; [done|]. eapply listed_target_mono; [done| |exact Ht]. unfold cs'. set_solver.
  - eapply Forall_impl; [exact Hlisted|]. intros t []. unfold cs'. set_solver.
  - by apply (configured_spec (hc_mhc s)).
  - simpl. rewrite Em3. simpl. apply wrap32_id. unfold in_int32, int32_min, int32_max in *. lia.
  - simpl. apply wrap32_id. unfold in_int32, int32_min, int32_max in *. lia.
Qed.

(** Once a remediation request exists for one of the Machines, the loop returns: the Machines
    after it get neither a request nor a patch of their conditions. *)
Lemma existing_request_stops template t rest cluster s :
  IsPaused cluster (m_Meta (hct_Machine t)) = false →
  mhs_RemediationTemplate (mh_Spec (hc_mhc s)) = Some template →
  (∀ calls ref namespace, he_error env calls (HcGetExternal ref namespace) = None) →
  ∃ ref namespace, patchUnhealthyTargets env (t :: rest) cluster s
    = (Ok [], {| hc_mhc := hc_mhc s; hc_ticks := hc_ticks s;
                 hc_calls := hc_calls s ++ [HcGetExternal ref namespace] |}).
Proof.
  intros Hp Ht Hget. simpl. unfold remediate_target, gets, mbind, M_bind. rewrite Hp, Ht.
  unfold remediate_externally, externalRemediationRequestExists, getExternalRemediationRequest,
    external_Get, attempt, mwrap, gets, hcall, mbind, M_bind. rewrite Hget. by eexists _, _.
Qed.
End handler_spec.

(** ** Properties *)

Section properties.
Context `{Apimachinery} `{GoSort} `{MetaConditions} `{Unstructured} (env : HcEnv).

(** A target that waits for too long: without a Node after the startup timeout, from the latest
    of its creation and of the true conditions it waits for; or with a Node that has a
    condition to be reported as unhealthy after the timeout of that condition.  [R] compares
    the end of the timeout with the present time. *)
Definition overdue (R : Time → Time → Prop) (t : healthCheckTarget) (timeout : Z) (now : Time) : Prop :=
  match hct_Node t with
  | None => timeout ≠ 0 ∧ Forall (λ since, R (since + timeout) now) (startup_times t)
  | Some node => ∃ c nc, c ∈ mhs_UnhealthyConditions (mh_Spec (hct_MHC t)) ∧
      getNodeCondition node (uc_Type c) = Some nc ∧ nc_Status nc = uc_Status c ∧
      R (nc_LastTransitionTime nc + uc_Timeout c) now
  end.

Lemma overdue_weaken t timeout now : overdue Z.lt t timeout now → overdue Z.le t timeout now.
Proof.
  unfold overdue. destruct (hct_Node t) as [node|].
  - intros (c & nc & ? & ? & ? & ?). exists c, nc. split_and!; [done..|lia].
  - intros [Hne Hall]. split; [done|]. eapply Forall_impl; [exact Hall|]. intros. simpl in *. lia.
Qed.

Lemma passed_overdue t timeout now : Exists (passed now) (deadlines t timeout) ↔ overdue Z.lt t timeout now.
Proof.
  unfold deadlines, overdue. destruct (hct_Node t) as [node|].
  - rewrite Exists_exists. setoid_rewrite list_elem_of_omap. unfold bad_since. split.
    + intros (x & (c & Hc & Hb) & Hp). exists c.
      destruct (getNodeCondition node (uc_Type c)) as [nc|]; [|done].
      destruct (String.eqb_spec (nc_Status nc) (uc_Status c)); simplify_eq. by exists nc.
    + intros (c & nc & Hc & Enc & Est & Hp). exists (nc_LastTransitionTime nc, uc_Timeout c).
      split; [|exact Hp]. exists c. rewrite Enc, Est, String.eqb_refl. done.
  - destruct (Z.eqb_spec timeout 0) as [->|Hne].
    + rewrite Exists_nil. naive_solver.
    + rewrite Exists_cons, Exists_nil, <- comparison_time_lt. unfold passed. simpl. tauto.
Qed.

(** C35: a target needs remediation when its Machine was marked for it, failed or lost its
    Node, or when its health is evaluated and it is overdue for longer than the timeout; and
    only then, except that it may be overdue for just the timeout.  Health is evaluated once
    the infrastructure of the cluster is ready and its control plane is initialized, for which
    a control plane Machine does not wait.  An unhealthy Machine gets a false health check
    condition and keeps its other conditions; a target that needs no remediation is not
    changed.  The Machine has no condition twice, and a missing Node is one it refers to. *)
Theorem needsRemediation_due (rd : Readings) (t : healthCheckTarget) (timeout : Z) :
  wf_machine (hct_Machine t) →
  (hct_nodeMissing t = true → is_Some (st_NodeRef (m_Status (hct_Machine t)))) →
  ∃ t' b d, needsRemediation rd t timeout = Ok (t', (b, d)) ∧
    (unhealthy_at_once t ∨ evaluated t ∧ overdue Z.lt t timeout (rd_now rd) → b = true) ∧
    (b = true → unhealthy_at_once t ∨ evaluated t ∧ overdue Z.le t timeout (rd_now rd)) ∧
    (b = false → t' = t) ∧
    (b = true → IsFalse (hct_Machine t') MachineHealthCheckSucceededCondition = true ∧
      ∀ ty, ty ≠ MachineHealthCheckSucceededCondition →
        Get (hct_Machine t') ty = Get (hct_Machine t) ty).
Proof.
  intros Hwf Hmissing.
  destruct (needsRemediation_outcome rd t timeout Hwf Hmissing) as (t' & b & d & E & []).
  unfold unhealthy_at in ca_iff0. rewrite passed_overdue in ca_iff0.
  exists t', b, d. split_and!; [done|by apply ca_iff0| |done|].
  - intros [?|[? ?%overdue_weaken]]%ca_iff0; auto.
  - intros Hb. destruct (ca_marked0 Hb) as (_ & _ & Hf & []). split; [done|].
    intros ty Hty. apply se_conditions0. set_solver.
Qed.

(** The time of the next check is exact.  When a target needs no remediation now, then at
    any other time [now'] it needs remediation exactly if a next check was announced and
    [now'] is within a second of it or later: no check comes too late, and without an
    announced check the passing of time alone never makes the target unhealthy. *)
Theorem needsRemediation_next_check (rd rd' : Readings) (t t1 : healthCheckTarget)
    (timeout d : Z) :
  wf_machine (hct_Machine t) →
  (hct_nodeMissing t = true → is_Some (st_NodeRef (m_Status (hct_Machine t)))) →
  Forall (sane (rd_now rd)) (deadlines t timeout) →
  needsRemediation rd t timeout = Ok (t1, (false, d)) →
  ∃ t2 d2, needsRemediation rd' t timeout
    = Ok (t2, (bool_decide (0 < d ∧ rd_now rd + d - Second < rd_now rd'), d2)).
Proof.
  intros Hwf Hmissing Hsane E.
  destruct (needsRemediation_outcome rd t timeout Hwf Hmissing) as (t' & b & d' & E' & Hca).
  rewrite E in E'. injection E' as <- <- <-.
  destruct (needsRemediation_outcome rd' t timeout Hwf Hmissing) as (t2 & b2 & d2 & -> & [Hiff _ _ _ _]).
  exists t2, d2. do 3 f_equal. apply eq_true_iff_eq.
  by rewrite Hiff, (recheck_iff _ _ _ _ _ _ Hca Hsane), bool_decide_eq_true.
Qed.

(** Remediation is allowed exactly when the number of targets that are not healthy is
    within the configured range, at most the configured number, or at most the configured
    percentage of all targets. *)
Theorem isAllowedRemediation_iff (mhc : MachineHealthCheck) (l : limit) :
  let total := mht_ExpectedMachines (mh_Status mhc) in
  let healthy := mht_CurrentHealthy (mh_Status mhc) in
  configured mhc l → 0 ≤ healthy ≤ total → total ≤ int32_max →
  ∃ count, isAllowedRemediation mhc
    = Ok (bool_decide (within_limit l total (total - healthy)), count).
Proof. apply isAllowedRemediation_outcome. Qed.

(** C9: a reconciliation remediates within the limit only.  Whatever calls fail, it does not
    panic, and there is a set of Machines such that only these get remediation requests or any
    change of their conditions other than the health check condition.  If it is not empty,
    each of them is a target (a Machine it listed, without those to be skipped, with the Node
    it read) found unhealthy, and the number of these targets that do not count as healthy,
    which is not smaller than the set, is within the configured limit: at least the lower and
    at most the upper bound of a range, at most a number, or at most a percentage of all the
    targets.  A target counts as healthy when it is not unhealthy, not in deletion, has a Node
    and, once health is evaluated, none of the conditions of the Node is in a bad state.  The
    Machines listed have no condition twice and are at most [int32_max]; the limit is a valid
    one. *)
Theorem mhc_remediates_within_limit (cluster : Cluster) (l : limit) (s : HcState)
    (r : result ctrl_Result) (s' : HcState) :
  (∀ calls, Forall wf_machine (he_machines env calls) ∧
    Z.of_nat (length (he_machines env calls)) ≤ int32_max) →
  configured (hc_mhc s) l →
  mhc_reconcile env cluster s = (r, s') →
  r ≠ Panic ∧ ∃ cs U, hc_calls s' = hc_calls s ++ cs ∧ Forall (confined U cs) cs ∧
    (U = [] ∨ limited env cluster l s cs U).
Proof.
  intros Hm Hl E. destruct (mhc_reconcile_outcome env cluster l s r s' Hm Hl E)
    as [Hnp (cs & Ec & U & HU)]. split; [done|]. by exists cs, U.
Qed.
End properties.

(** ** Witnesses *)

(** A cluster that is up, and a Machine without a Node, created at the start. *)
Definition up : Cluster :=
  cl_set_Conditions [TrueCondition InfrastructureReadyCondition;
                     TrueCondition ControlPlaneInitializedCondition] emptyCluster.

Definition at_most_one : MachineHealthCheck :=
  {| mh_TypeMeta := emptyTypeMeta; mh_Meta := emptyMeta;
     mh_Spec := {| mhs_ClusterName := "c"; mhs_Selector := emptySelector;
       mhs_UnhealthyConditions := []; mhs_MaxUnhealthy := Some (FromInt 1);
       mhs_UnhealthyRange := None; mhs_NodeStartupTimeout := None;
       mhs_RemediationTemplate := None |};
     mh_Status := {| mht_ExpectedMachines := 4; mht_CurrentHealthy := 3;
       mht_RemediationsAllowed := 0; mht_ObservedGeneration := 0; mht_Targets := [];
       mht_Conditions := []; mht_V1Beta2 := None |} |}.

Definition waiting : healthCheckTarget :=
  {| hct_Cluster := up; hct_Machine := emptyMachine; hct_Node := None; hct_MHC := at_most_one;
     hct_nodeMissing := false |}.

Definition readings_at (now : Time) : Readings :=
  {| rd_now := now; rd_condition := now; rd_v1beta2 := now; rd_api := now |}.

Lemma wf_emptyMachine : wf_machine emptyMachine.
Proof. split; constructor. Qed.

Lemma needsRemediation_due_witness :
  ∃ t' d, needsRemediation (readings_at (11 * Minute)) waiting (10 * Minute) = Ok (t', (true, d)).
Proof.
  destruct (needsRemediation_due (readings_at (11 * Minute)) waiting (10 * Minute))
    as (t' & b & d & E & Hdue & _); [exact wf_emptyMachine|discriminate|].
  exists t', d. rewrite E. do 3 f_equal. apply Hdue. right.
  assert (startup_times waiting = [0; 0; 0]) as Es by (vm_compute; reflexivity).
  split; [by split; [left|]|]. split; [discriminate|]. rewrite Es. repeat constructor.
Defined.

(** Nine minutes left, and a second. *)
Lemma needsRemediation_next_check_witness :
  ∃ t2 d2, needsRemediation (readings_at (11 * Minute)) waiting (10 * Minute) = Ok (t2, (true, d2)).
Proof.
  destruct (needsRemediation_next_check (readings_at Minute) (readings_at (11 * Minute)) waiting
    waiting (10 * Minute) (9 * Minute + Second)) as (t2 & d2 & E);
    [exact wf_emptyMachine|discriminate|
     |vm_compute; reflexivity|].
  { assert (deadlines waiting (10 * Minute) = [(0, 10 * Minute)]) as Ed by (vm_compute; reflexivity).
    rewrite Ed. repeat constructor; vm_compute; discriminate. }
  exists t2, d2. rewrite E. vm_compute. reflexivity.
Defined.

Lemma isAllowedRemediation_iff_witness :
  ∃ count, isAllowedRemediation at_most_one = Ok (true, count).
Proof.
  destruct (isAllowedRemediation_iff at_most_one (AtMost 1)) as [count E];
    [split; reflexivity|vm_compute; split; discriminate|vm_compute; discriminate|].
  exists count. rewrite E. vm_compute. reflexivity.
Defined.

(** One Machine that fails its health check, so that its owner is asked to remediate it. *)
Definition hc_env : HcEnv :=
  {| he_error _ _ := None; he_mhc _ := at_most_one; he_cluster _ := up;
     he_machines _ := [emptyMachine]; he_node _ _ := {| node_Name := ""; node_Conditions := [] |};
     he_external _ _ _ := {| po_TypeMeta := emptyTypeMeta; po_Meta := emptyMeta; po_template := None |};
     he_clock _ := 11 * Minute; he_generateName _ s := s; he_selectorError _ := None;
     he_errorString _ := ""%string; he_KRef _ s := s; he_intstr _ := "1"%string; he_kind := None |}.

Definition hc_start : HcState := {| hc_mhc := at_most_one; hc_ticks := 0; hc_calls := [] |}.

Lemma mhc_remediates_within_limit_witness :
  (mhc_reconcile hc_env up hc_start).1 ≠ Panic.
Proof.
  refine (proj1 (mhc_remediates_within_limit hc_env up (AtMost 1) hc_start _ _ _ _
    (surjective_pairing _))).
  - intros calls. split; [constructor; [exact wf_emptyMachine|constructor]|vm_compute; discriminate].
  - split; reflexivity.
Defined.

(** The Machine is patched with the conditions that ask its owner for remediation. *)
Example hc_env_remediates :
  match hc_calls (mhc_reconcile hc_env up hc_start).2 with
  | [_; _; _; _; HcPatchMachine m; HcEvent _ _ _] =>
      IsFalse m MachineOwnerRemediatedCondition && IsFalse m MachineHealthCheckSucceededCondition
  | _ => false
  end = true.
Proof. vm_compute. reflexivity. Qed.
