(* ===== verification/TopologyUpgrade.v ===== *)
(** * Managed topologies: the decisions of an upgrade

    The trackers of a reconcile (exp/topology/scope/upgradetracker.go, hookresponsetracker.go), the
    intent to call a hook later (internal/hooks/tracking.go), which version the control plane, the
    MachineDeployments and the MachinePools of a Cluster get
    (exp/topology/desiredstate/desired_state.go), the hooks called afterwards
    (internal/controllers/topology/cluster/reconcile_state.go) and the TopologyReconciled
    condition (conditions.go).

    The scope of a reconcile is the state; extensions, the API server and the patch helper are
    calls of the environment, with their errors.  Logging is left out. *)

From S2P Require Import Prelude GoStd Api Apimachinery Util Conditions Version Collections.
From S2P Require Import ConditionsV1Beta2 External MdUtil MachineSetPolicy MachineSet.
From S2P Require Import MachineHealthCheck.
From Stdlib Require Import Ascii.

(** ** Hooks (exp/runtime/hooks, exp/runtime/catalog) *)

Inductive Hook :=
| BeforeClusterCreate
| AfterControlPlaneInitialized
| BeforeClusterUpgrade
| AfterControlPlaneUpgrade
| AfterClusterUpgrade
| BeforeClusterDelete.

#[global] Instance Hook_eq_dec : EqDecision Hook.
Proof. solve_decision. Defined.

(** The name of the function of the hook. *)
Definition HookName (h : Hook) : string :=
  match h with
  | BeforeClusterCreate => "BeforeClusterCreate"
  | AfterControlPlaneInitialized => "AfterControlPlaneInitialized"
  | BeforeClusterUpgrade => "BeforeClusterUpgrade"
  | AfterControlPlaneUpgrade => "AfterControlPlaneUpgrade"
  | AfterClusterUpgrade => "AfterClusterUpgrade"
  | BeforeClusterDelete => "BeforeClusterDelete"
  end.

(** Only a retry response implements [RetryResponseObject]. *)
Inductive ResponseObject :=
| CommonResponse (message : string)
| CommonRetryResponse (message : string) (retryAfterSeconds : Z).

(** The kind of response of each hook. *)
Definition retryable (h : Hook) : bool :=
  match h with AfterControlPlaneInitialized | AfterClusterUpgrade => false | _ => true end.

(** ** HookResponseTracker *)

Definition HookResponseTracker : Type := gmap string ResponseObject.

Definition tracker_Add (h : Hook) (r : ResponseObject) (t : HookResponseTracker) :
    HookResponseTracker := <[HookName h := r]> t.

Definition IsBlocking (t : HookResponseTracker) (h : Hook) : bool :=
  match t !! HookName h with
  | Some (CommonRetryResponse _ retryAfterSeconds) => negb (retryAfterSeconds =? 0)
  | _ => false
  end.

Section aggregate.
Context `{GoRange}.

Definition AggregateRetryAfter (t : HookResponseTracker) : Z :=
  let res := foldl (λ res r,
    match r with
    | CommonRetryResponse _ retryAfterSeconds => LowestNonZeroInt32 res retryAfterSeconds
    | CommonResponse _ => res
    end) 0 (go_values t) in
  wrap64 (res * Second).

(** The hooks that block, with their messages. *)
Definition blockingHooks (t : HookResponseTracker) : gmap string string :=
  omap (λ r, match r with
             | CommonRetryResponse msg retryAfterSeconds =>
                 if retryAfterSeconds =? 0 then None else Some msg
             | CommonResponse _ => None
             end) t.

Definition AggregateMessage (t : HookResponseTracker) : string :=
  Join ((λ hm, "hook " +:+ quoted hm.1 +:+ " is blocking: " +:+ hm.2)
          <$> go_range (blockingHooks t)) "; ".
End aggregate.

(** ** The intent to call a hook (internal/hooks/tracking.go) *)

Definition PendingHooksAnnotation : string := "runtime.cluster.x-k8s.io/pending-hooks".
Definition OkToDeleteAnnotation : string := "runtime.cluster.x-k8s.io/ok-to-delete".

Section tracking.
Context `{GoSort}.

(** [sets.List]: the elements in order. *)
Definition sets_List (s : gset string) : list string := go_sort string_ltb (elements s).

Definition addToCommaSeparatedList (l : string) (items : list string) : string :=
  Join (sets_List (list_to_set items ∪ (list_to_set (Split l ",") ∖ {[""%string]}))) ",".

Definition isInCommaSeparatedList (l item : string) : bool :=
  bool_decide (item ∈ Split l ",").

Definition removeFromCommaSeparatedList (l : string) (items : list string) : string :=
  Join (sets_List (list_to_set (Split l ",") ∖ {[""%string]} ∖ list_to_set items)) ",".

Definition pending_of (annotations : gmap string string) : string :=
  default ""%string (annotations !! PendingHooksAnnotation).

Definition IsPending (h : Hook) (o : Meta) : bool :=
  if bool_decide (om_Annotations o = ∅) then false
  else isInCommaSeparatedList (pending_of (om_Annotations o)) (HookName h).

(** The annotations [MarkAsPending] and [MarkAsDone] set. *)
Definition mark_pending (hooks : list Hook) (o : Meta) : Meta :=
  let annotations := om_Annotations o in
  meta_set_Annotations
    (<[PendingHooksAnnotation :=
         addToCommaSeparatedList (pending_of annotations) (HookName <$> hooks)]> annotations) o.

Definition mark_done (hooks : list Hook) (o : Meta) : Meta :=
  let annotations := om_Annotations o in
  let l := removeFromCommaSeparatedList (pending_of annotations) (HookName <$> hooks) in
  meta_set_Annotations
    (if String.eqb l "" then delete PendingHooksAnnotation annotations
     else <[PendingHooksAnnotation := l]> annotations) o.

Definition IsOkToDelete (o : Meta) : bool :=
  bool_decide (is_Some (om_Annotations o !! OkToDeleteAnnotation)).
End tracking.

(** ** UpgradeTracker *)

Record ControlPlaneUpgradeTracker := {
  cpt_IsPendingUpgrade : bool;
  cpt_IsProvisioning : bool;
  cpt_IsUpgrading : bool;
  cpt_IsStartingUpgrade : bool;
  cpt_IsScaling : bool;
}.

Record WorkerUpgradeTracker := {
  pendingCreateTopologyNames : gset string;
  pendingUpgradeNames : gset string;
  deferredNames : gset string;
  upgradingNames : gset string;
  maxUpgradeConcurrency : Z;
}.

Record UpgradeTracker := {
  ut_ControlPlane : ControlPlaneUpgradeTracker;
  ut_MachineDeployments : WorkerUpgradeTracker;
  ut_MachinePools : WorkerUpgradeTracker;
}.

Inductive UpgradeTrackerOption :=
| MaxMDUpgradeConcurrency (m : Z)
| MaxMPUpgradeConcurrency (m : Z).

(** The options as the pair of the two limits. *)
Definition ApplyToUpgradeTracker (o : UpgradeTrackerOption) (options : Z * Z) : Z * Z :=
  match o with
  | MaxMDUpgradeConcurrency m => (m, options.2)
  | MaxMPUpgradeConcurrency m => (options.1, m)
  end.

Definition NewWorkerUpgradeTracker (max : Z) : WorkerUpgradeTracker :=
  {| pendingCreateTopologyNames := ∅; pendingUpgradeNames := ∅; deferredNames := ∅;
     upgradingNames := ∅; maxUpgradeConcurrency := max |}.

Definition NewUpgradeTracker (opts : list UpgradeTrackerOption) : UpgradeTracker :=
  let '(md, mp) := foldl (λ options o, ApplyToUpgradeTracker o options) (0, 0) opts in
  let md := if md <? 1 then 1 else md in
  let mp := if mp <? 1 then 1 else mp in
  {| ut_ControlPlane := {| cpt_IsPendingUpgrade := false; cpt_IsProvisioning := false;
       cpt_IsUpgrading := false; cpt_IsStartingUpgrade := false; cpt_IsScaling := false |};
     ut_MachineDeployments := NewWorkerUpgradeTracker md;
     ut_MachinePools := NewWorkerUpgradeTracker mp |}.

Definition IsControlPlaneStable (t : ControlPlaneUpgradeTracker) : bool :=
  if cpt_IsUpgrading t then false
  else if cpt_IsScaling t then false
  else if cpt_IsStartingUpgrade t then false
  else if cpt_IsPendingUpgrade t then false
  else true.

Definition MarkUpgrading (names : list string) (m : WorkerUpgradeTracker) : WorkerUpgradeTracker :=
  {| pendingCreateTopologyNames := pendingCreateTopologyNames m;
     pendingUpgradeNames := pendingUpgradeNames m; deferredNames := deferredNames m;
     upgradingNames := foldl (λ s name, {[name]} ∪ s) (upgradingNames m) names;
     maxUpgradeConcurrency := maxUpgradeConcurrency m |}.

Definition UpgradeConcurrencyReached (m : WorkerUpgradeTracker) : bool :=
  maxUpgradeConcurrency m <=? Z.of_nat (size (upgradingNames m)).

Definition MarkPendingCreate (name : string) (m : WorkerUpgradeTracker) : WorkerUpgradeTracker :=
  {| pendingCreateTopologyNames := {[name]} ∪ pendingCreateTopologyNames m;
     pendingUpgradeNames := pendingUpgradeNames m; deferredNames := deferredNames m;
     upgradingNames := upgradingNames m; maxUpgradeConcurrency := maxUpgradeConcurrency m |}.

Definition MarkPendingUpgrade (name : string) (m : WorkerUpgradeTracker) : WorkerUpgradeTracker :=
  {| pendingCreateTopologyNames := pendingCreateTopologyNames m;
     pendingUpgradeNames := {[name]} ∪ pendingUpgradeNames m; deferredNames := deferredNames m;
     upgradingNames := upgradingNames m; maxUpgradeConcurrency := maxUpgradeConcurrency m |}.

Definition MarkDeferredUpgrade (name : string) (m : WorkerUpgradeTracker) : WorkerUpgradeTracker :=
  {| pendingCreateTopologyNames := pendingCreateTopologyNames m;
     pendingUpgradeNames := pendingUpgradeNames m; deferredNames := {[name]} ∪ deferredNames m;
     upgradingNames := upgradingNames m; maxUpgradeConcurrency := maxUpgradeConcurrency m |}.

Definition IsPendingCreate (m : WorkerUpgradeTracker) (name : string) : bool :=
  bool_decide (name ∈ pendingCreateTopologyNames m).
Definition IsPendingUpgrade (m : WorkerUpgradeTracker) (name : string) : bool :=
  bool_decide (name ∈ pendingUpgradeNames m).
Definition IsAnyPendingCreate (m : WorkerUpgradeTracker) : bool :=
  negb (bool_decide (size (pendingCreateTopologyNames m) = 0%nat)).
Definition IsAnyPendingUpgrade (m : WorkerUpgradeTracker) : bool :=
  negb (bool_decide (size (pendingUpgradeNames m) = 0%nat)).
Definition DeferredUpgrade (m : WorkerUpgradeTracker) : bool :=
  negb (bool_decide (size (deferredNames m) = 0%nat)).

Section names.
Context `{GoSort}.

Definition UpgradingNames (m : WorkerUpgradeTracker) : list string := sets_List (upgradingNames m).
Definition PendingCreateTopologyNames (m : WorkerUpgradeTracker) : list string :=
  sets_List (pendingCreateTopologyNames m).
Definition PendingUpgradeNames (m : WorkerUpgradeTracker) : list string :=
  sets_List (pendingUpgradeNames m).
Definition DeferredUpgradeNames (m : WorkerUpgradeTracker) : list string :=
  sets_List (deferredNames m).
End names.

(** ** The topology of a Cluster (cluster_types.go, clusterclass_types.go) *)

Record MachineHealthCheckClass := {
  mhcc_UnhealthyConditions : list UnhealthyCondition;
  mhcc_MaxUnhealthy : option IntOrString;
  mhcc_UnhealthyRange : option string;
  mhcc_NodeStartupTimeout : option Z;
  mhcc_RemediationTemplate : option ObjectReference;
}.

Record MachineHealthCheckTopology := {
  mhct_Enable : option bool;
  mhct_Class : MachineHealthCheckClass;
}.

Record MachineDeploymentTopology := {
  mdt_Metadata : TemplateMeta;
  mdt_Class : string;
  mdt_Name : string;
  mdt_FailureDomain : option string;
  mdt_Replicas : option Z;
  mdt_MachineHealthCheck : option MachineHealthCheckTopology;
  mdt_NodeDrainTimeout : option Z;
  mdt_NodeVolumeDetachTimeout : option Z;
  mdt_NodeDeletionTimeout : option Z;
  mdt_MinReadySeconds : option Z;
  mdt_Strategy : option MachineDeploymentStrategy;
}.

Record MachinePoolTopology := {
  mpt_Metadata : TemplateMeta;
  mpt_Class : string;
  mpt_Name : string;
  mpt_FailureDomains : list string;
  mpt_NodeDrainTimeout : option Z;
  mpt_NodeVolumeDetachTimeout : option Z;
  mpt_NodeDeletionTimeout : option Z;
  mpt_MinReadySeconds : option Z;
  mpt_Replicas : option Z;
}.

Record WorkersTopology := {
  wt_MachineDeployments : list MachineDeploymentTopology;
  wt_MachinePools : list MachinePoolTopology;
}.

Record Topology := {
  tp_Class : string;
  tp_Version : string;
  tp_ControlPlaneReplicas : option Z;
  tp_Workers : option WorkersTopology;
}.

Definition ClusterTopologyHoldUpgradeSequenceAnnotation : string :=
  "topology.cluster.x-k8s.io/hold-upgrade-sequence".
Definition ClusterTopologyDeferUpgradeAnnotation : string :=
  "topology.cluster.x-k8s.io/defer-upgrade".

(** The part of a MachinePool (exp/api/v1beta1/machinepool_types.go) the decisions look at. *)
Record MachinePool := {
  mp_Meta : Meta;
  mp_Template : MachineTemplateSpec;
  mp_NodeRefs : list ObjectReference;
}.

(** ** The current state (exp/topology/scope/state.go) *)

Section state.
Context `{Unstructured}.

Record MachineDeploymentState := {
  mdst_Object : option MachineDeployment;
  mdst_BootstrapTemplate : option Obj;
  mdst_InfrastructureMachineTemplate : option Obj;
  mdst_MachineHealthCheck : option MachineHealthCheck;
}.

Record MachinePoolState := {
  mpst_Object : option MachinePool;
}.
End state.

(** ** The scope of a reconcile *)

Inductive TpCall :=
| TpListMachines (namespace : string) (labels : gmap string string)
| TpGetClient
| TpGetNode (name : string)
| TpCallExtensions (h : Hook) (versions : list string)
| TpNewHelper (c : Cluster)
| TpPatch (c : Cluster)
| TpGetCluster
| TpGetClusterClass
| TpVariables
| TpGetBlueprint
| TpGetCurrentState
| TpWatches
| TpObjects
| TpShim
| TpApply
| TpPatchConditions (c : Cluster).

Record ClusterClass := {
  cc_Meta : Meta;
  cc_ObservedGeneration : Z;
  cc_Conditions : Conditions;
}.

#[global] Instance ClusterClass_Getter : Getter ClusterClass := {
  GetConditions c := cc_Conditions c;
  GetName c := om_Name (cc_Meta c);
  GetKind c := "ClusterClass"%string;
}.

Record Scope := {
  sc_UpgradeTracker : UpgradeTracker;
  sc_HookResponseTracker : HookResponseTracker;
  sc_Cluster : Cluster;
  sc_ClusterClass : option ClusterClass;
  sc_calls : list TpCall;
}.

Definition ClusterTopologyUpgradeConcurrencyAnnotation : string :=
  "topology.cluster.x-k8s.io/upgrade-concurrency".

(** [scope.New]; [strconv.Atoi] answers a value even when it fails. *)
Definition scope_New (cluster : Cluster) : Scope :=
  let max := match om_Annotations (cl_Meta cluster) !! ClusterTopologyUpgradeConcurrencyAnnotation with
             | Some concurrency => (ParseInt concurrency 64).1
             | None => 1
             end in
  {| sc_UpgradeTracker := NewUpgradeTracker [MaxMDUpgradeConcurrency max; MaxMPUpgradeConcurrency max];
     sc_HookResponseTracker := ∅; sc_Cluster := cluster; sc_ClusterClass := None; sc_calls := [] |}.

(** The answers of the API server and of the extensions, which may depend on the calls made so
    far: the Machines listed, the kubelet versions of Nodes, the responses of hooks (message and
    seconds to retry after) and the ClusterClass. *)
Record TpEnv := {
  te_error : list TpCall → TpCall → option error;
  te_machines : list TpCall → list Machine;
  te_kubelet : list TpCall → string → string;
  te_response : list TpCall → Hook → string * Z;
  te_selectorMap : LabelSelector → result (gmap string string);
  te_class : list TpCall → ClusterClass;
  te_clock : nat → Time;
  te_errorString : error → string;
  te_RuntimeSDK : bool;
}.

Definition sc_set_UpgradeTracker (t : UpgradeTracker) (s : Scope) : Scope :=
  {| sc_UpgradeTracker := t; sc_HookResponseTracker := sc_HookResponseTracker s;
     sc_Cluster := sc_Cluster s; sc_ClusterClass := sc_ClusterClass s; sc_calls := sc_calls s |}.

Definition sc_set_HookResponseTracker (t : HookResponseTracker) (s : Scope) : Scope :=
  {| sc_UpgradeTracker := sc_UpgradeTracker s; sc_HookResponseTracker := t;
     sc_Cluster := sc_Cluster s; sc_ClusterClass := sc_ClusterClass s; sc_calls := sc_calls s |}.

Definition sc_set_Cluster (c : Cluster) (s : Scope) : Scope :=
  {| sc_UpgradeTracker := sc_UpgradeTracker s; sc_HookResponseTracker := sc_HookResponseTracker s;
     sc_Cluster := c; sc_ClusterClass := sc_ClusterClass s; sc_calls := sc_calls s |}.

Definition sc_set_ClusterClass (c : ClusterClass) (s : Scope) : Scope :=
  {| sc_UpgradeTracker := sc_UpgradeTracker s; sc_HookResponseTracker := sc_HookResponseTracker s;
     sc_Cluster := sc_Cluster s; sc_ClusterClass := Some c; sc_calls := sc_calls s |}.

Definition set_ControlPlane (f : ControlPlaneUpgradeTracker → ControlPlaneUpgradeTracker)
    (t : UpgradeTracker) : UpgradeTracker :=
  {| ut_ControlPlane := f (ut_ControlPlane t); ut_MachineDeployments := ut_MachineDeployments t;
     ut_MachinePools := ut_MachinePools t |}.

Definition set_IsPendingUpgrade (b : bool) (t : ControlPlaneUpgradeTracker) :=
  {| cpt_IsPendingUpgrade := b; cpt_IsProvisioning := cpt_IsProvisioning t;
     cpt_IsUpgrading := cpt_IsUpgrading t; cpt_IsStartingUpgrade := cpt_IsStartingUpgrade t;
     cpt_IsScaling := cpt_IsScaling t |}.
Definition set_IsProvisioning (b : bool) (t : ControlPlaneUpgradeTracker) :=
  {| cpt_IsPendingUpgrade := cpt_IsPendingUpgrade t; cpt_IsProvisioning := b;
     cpt_IsUpgrading := cpt_IsUpgrading t; cpt_IsStartingUpgrade := cpt_IsStartingUpgrade t;
     cpt_IsScaling := cpt_IsScaling t |}.
Definition set_IsUpgrading (b : bool) (t : ControlPlaneUpgradeTracker) :=
  {| cpt_IsPendingUpgrade := cpt_IsPendingUpgrade t; cpt_IsProvisioning := cpt_IsProvisioning t;
     cpt_IsUpgrading := b; cpt_IsStartingUpgrade := cpt_IsStartingUpgrade t;
     cpt_IsScaling := cpt_IsScaling t |}.
Definition set_IsStartingUpgrade (b : bool) (t : ControlPlaneUpgradeTracker) :=
  {| cpt_IsPendingUpgrade := cpt_IsPendingUpgrade t; cpt_IsProvisioning := cpt_IsProvisioning t;
     cpt_IsUpgrading := cpt_IsUpgrading t; cpt_IsStartingUpgrade := b;
     cpt_IsScaling := cpt_IsScaling t |}.
Definition set_IsScaling (b : bool) (t : ControlPlaneUpgradeTracker) :=
  {| cpt_IsPendingUpgrade := cpt_IsPendingUpgrade t; cpt_IsProvisioning := cpt_IsProvisioning t;
     cpt_IsUpgrading := cpt_IsUpgrading t; cpt_IsStartingUpgrade := cpt_IsStartingUpgrade t;
     cpt_IsScaling := b |}.

(** An assignment to a field of [s.UpgradeTracker.ControlPlane]. *)
Definition track (f : ControlPlaneUpgradeTracker → ControlPlaneUpgradeTracker) : M Scope unit :=
  modify (λ s, sc_set_UpgradeTracker (set_ControlPlane f (sc_UpgradeTracker s)) s).

(** ** The two kinds of workers

    What the decisions need of a MachineDeployment topology and of a MachinePool topology: its
    name and annotations, and its side of the tracker. *)

Class WorkerKind (T : Type) := {
  wk_Name : T → string;
  wk_Annotations : T → gmap string string;
  wk_topologies : WorkersTopology → list T;
  wk_tracker : UpgradeTracker → WorkerUpgradeTracker;
  wk_set_tracker : WorkerUpgradeTracker → UpgradeTracker → UpgradeTracker;
  wk_get_set : ∀ w t, wk_tracker (wk_set_tracker w t) = w;
  wk_set_get : ∀ t, wk_set_tracker (wk_tracker t) t = t;
  wk_set_set : ∀ w w' t, wk_set_tracker w (wk_set_tracker w' t) = wk_set_tracker w t;
  wk_set_ControlPlane : ∀ w t, ut_ControlPlane (wk_set_tracker w t) = ut_ControlPlane t;
}.
Create Rewrite HintDb topology.
#[export] Hint Rewrite @wk_get_set @wk_set_get @wk_set_set @wk_set_ControlPlane : topology.

#[global] Instance MachineDeployment_WorkerKind : WorkerKind MachineDeploymentTopology := {
  wk_Name := mdt_Name;
  wk_Annotations t := tm_Annotations (mdt_Metadata t);
  wk_topologies := wt_MachineDeployments;
  wk_tracker := ut_MachineDeployments;
  wk_set_tracker w t := {| ut_ControlPlane := ut_ControlPlane t; ut_MachineDeployments := w;
                           ut_MachinePools := ut_MachinePools t |};
  wk_get_set _ _ := eq_refl; wk_set_get t := ltac:(by destruct t); wk_set_set _ _ _ := eq_refl; wk_set_ControlPlane _ _ := eq_refl;
}.

#[global] Instance MachinePool_WorkerKind : WorkerKind MachinePoolTopology := {
  wk_Name := mpt_Name;
  wk_Annotations t := tm_Annotations (mpt_Metadata t);
  wk_topologies := wt_MachinePools;
  wk_tracker := ut_MachinePools;
  wk_set_tracker w t := {| ut_ControlPlane := ut_ControlPlane t;
                           ut_MachineDeployments := ut_MachineDeployments t; ut_MachinePools := w |};
  wk_get_set _ _ := eq_refl; wk_set_get t := ltac:(by destruct t); wk_set_set _ _ _ := eq_refl; wk_set_ControlPlane _ _ := eq_refl;
}.

Section upgrade.
Context `{GoSort} `{GoRange} `{Apimachinery} `{Semver} `{Unstructured}.
Context (env : TpEnv).

(** ** Calls *)

Definition tp_call (c : TpCall) : M Scope unit := λ s,
  let s' := {| sc_UpgradeTracker := sc_UpgradeTracker s;
               sc_HookResponseTracker := sc_HookResponseTracker s; sc_Cluster := sc_Cluster s;
               sc_ClusterClass := sc_ClusterClass s; sc_calls := sc_calls s ++ [c] |} in
  match te_error env (sc_calls s) c with None => (Ok tt, s') | Some e => (Err e, s') end.

(** [CallAllExtensions]: the seconds to retry after and the response. *)
Definition CallAllExtensions (h : Hook) (versions : list string) : M Scope (Z * ResponseObject) :=
  calls ← gets sc_calls;
  _ ← tp_call (TpCallExtensions h versions);
  let '(msg, retryAfterSeconds) := te_response env calls h in
  mret (retryAfterSeconds,
        if retryable h then CommonRetryResponse msg retryAfterSeconds else CommonResponse msg).

Definition add_response (h : Hook) (r : ResponseObject) : M Scope unit :=
  modify (λ s, sc_set_HookResponseTracker (tracker_Add h r (sc_HookResponseTracker s)) s).

(** The patch of the Cluster of the scope by one of the functions of tracking.go. *)
Definition patch_hooks (msg : string) (f : Meta → Meta) : M Scope unit :=
  cluster ← gets sc_Cluster;
  _ ← mwrap msg (tp_call (TpNewHelper cluster));
  let cluster := cl_set_Meta (f (cl_Meta cluster)) cluster in
  _ ← modify (sc_set_Cluster cluster);
  mwrap msg (tp_call (TpPatch cluster)).

Definition hook_names (hooks : list Hook) : string := quoted (Join (HookName <$> hooks) ",").

Definition MarkAsPending (hooks : list Hook) : M Scope unit :=
  patch_hooks ("failed to mark " +:+ hook_names hooks +:+ " hook(s) as pending") (mark_pending hooks).

Definition MarkAsDone (hooks : list Hook) : M Scope unit :=
  patch_hooks ("failed to mark " +:+ hook_names hooks +:+ " hook(s) as done") (mark_done hooks).

(** [gvk] is the kind the scheme knows for the Cluster. *)
Definition MarkAsOkToDelete (KObj : string) (gvk : result string) : M Scope unit :=
  kind ← lift (wrapErr ("failed to mark " +:+ KObj
                        +:+ " as ok to delete: failed to get GVK for object") gvk);
  patch_hooks ("failed to mark " +:+ kind +:+ " " +:+ KObj +:+ " as ok to delete")
    (λ o, meta_set_Annotations (<[OkToDeleteAnnotation := ""%string]> (om_Annotations o)) o).

(** ** Workers that are upgrading (internal/topology/check/upgrade.go) *)

Fixpoint any_other_version (what : string) (version : string) (machines : list Machine) :
    result bool :=
  match machines with
  | [] => Ok false
  | m :: machines =>
      match sp_Version (m_Spec m) with
      | None => Err (Errorf (what +:+ "Machine " +:+ m_Name m +:+ " has no version"))
      | Some v => if negb (String.eqb v version) then Ok true
                  else any_other_version what version machines
      end
  end.

Definition IsMachineDeploymentUpgrading (md : option MachineDeployment) : M Scope bool :=
  md ← lift (deref md);
  let what := "failed to check if MachineDeployment " +:+ md_Name md +:+ " is upgrading: " in
  match sp_Version (mt_Spec (md_Template md)) with
  | None => mret false
  | Some mdVersion =>
      labels ← lift (wrapErr (what +:+ "failed to convert label selector to map")
                       (te_selectorMap env (mds_Selector (md_Spec md))));
      calls ← gets sc_calls;
      _ ← mwrap (what +:+ "failed to list Machines")
            (tp_call (TpListMachines (om_Namespace (md_Meta md)) labels));
      lift (any_other_version what mdVersion (te_machines env calls))
  end.

Fixpoint any_other_kubelet (what : string) (version : string) (refs : list ObjectReference) :
    M Scope bool :=
  match refs with
  | [] => mret false
  | ref :: refs =>
      calls ← gets sc_calls;
      e ← try_err (tp_call (TpGetNode (ref_Name ref)));
      match e with
      | Some _ => throw (Errorf (what +:+ "failed to get Node " +:+ ref_Name ref))
      | None => if negb (String.eqb version (te_kubelet env calls (ref_Name ref))) then mret true
                else any_other_kubelet what version refs
      end
  end.

Definition IsMachinePoolUpgrading (mp : option MachinePool) : M Scope bool :=
  mp ← lift (deref mp);
  match sp_Version (mt_Spec (mp_Template mp)) with
  | None => mret false
  | Some mpVersion =>
      any_other_kubelet ("failed to check if MachinePool " +:+ om_Name (mp_Meta mp)
                         +:+ " is upgrading: ") mpVersion (mp_NodeRefs mp)
  end.

(** The loop of the two [Upgrading] methods. *)
Fixpoint upgrading_of {W} (msg : string) (isUpgrading : W → M Scope bool) (name : W → result string)
    (ws : list W) : M Scope (list string) :=
  match ws with
  | [] => mret []
  | w :: ws =>
      upgrading ← mwrap msg (isUpgrading w);
      names ← (if (upgrading : bool) then n ← lift (name w); mret [n] else mret []);
      rest ← upgrading_of msg isUpgrading name ws;
      mret (names ++ rest)
  end.

Definition MachineDeployments_Upgrading (mds : gmap string MachineDeploymentState) :
    M Scope (list string) :=
  upgrading_of "failed to list upgrading MachineDeployments"
    (λ md, IsMachineDeploymentUpgrading (mdst_Object md))
    (λ md, md_Name <$> deref (mdst_Object md)) (go_values mds).

Definition MachinePools_Upgrading (mps : gmap string MachinePoolState) : M Scope (list string) :=
  upgrading_of "failed to list upgrading MachinePools"
    (λ mp, IsMachinePoolUpgrading (mpst_Object mp))
    (λ mp, (λ o, om_Name (mp_Meta o)) <$> deref (mpst_Object mp)) (go_values mps).

(** ** The version of the control plane *)

Context (topology : Topology) (controlPlane : option ControlPlaneObject).

Definition Version_Get (obj : ControlPlaneObject) : result string :=
  match cp_Version obj with
  | Found v => Ok v
  | NotFound => Err (Wrap "path .spec.version" ErrFieldNotFound)
  | Malformed e => Err (Wrap "failed to get .spec.version from object" e)
  end.

(** The control plane is at the version of the topology and does not upgrade: the
    AfterControlPlaneUpgrade hook is called if the intent to do so is tracked. *)
Definition after_control_plane_upgrade : M Scope unit :=
  cluster ← gets sc_Cluster;
  if te_RuntimeSDK env && IsPending AfterControlPlaneUpgrade (cl_Meta cluster) then
    '(retryAfterSeconds, response) ←
      CallAllExtensions AfterControlPlaneUpgrade [tp_Version topology];
    _ ← add_response AfterControlPlaneUpgrade response;
    if negb (retryAfterSeconds =? 0) then mret tt else MarkAsDone [AfterControlPlaneUpgrade]
  else mret tt.

(** The control plane picks up the version of the topology, unless the BeforeClusterUpgrade hook
    blocks. *)
Definition start_upgrade (currentVersion : string) : M Scope string :=
  let desiredVersion := tp_Version topology in
  blocked ←
    (if te_RuntimeSDK env then
       '(retryAfterSeconds, response) ←
         CallAllExtensions BeforeClusterUpgrade [currentVersion; desiredVersion];
       _ ← add_response BeforeClusterUpgrade response;
       if negb (retryAfterSeconds =? 0) then mret true
       else
         _ ← MarkAsPending [AfterControlPlaneUpgrade; AfterClusterUpgrade];
         mret false
     else mret false);
  if (blocked : bool) then mret currentVersion
  else
    _ ← track (set_IsPendingUpgrade false);
    _ ← track (set_IsStartingUpgrade true);
    mret desiredVersion.

Definition computeControlPlaneVersion : M Scope string :=
  let desiredVersion := tp_Version topology in
  match controlPlane with
  | None => mret desiredVersion
  | Some obj =>
      currentVersion ← lift (wrapErr "failed to get the version from control plane spec"
                               (Version_Get obj));
      _ ← track (set_IsPendingUpgrade true);
      _ ← (if String.eqb currentVersion desiredVersion
           then track (set_IsPendingUpgrade false) else mret tt);
      cpProvisioning ← lift (wrapErr "failed to check if the control plane is being provisioned"
                               (IsProvisioning obj));
      if (cpProvisioning : bool) then
        _ ← track (set_IsProvisioning true);
        mret currentVersion
      else
      cpUpgrading ← lift (wrapErr "failed to check if control plane is upgrading"
                            (IsUpgrading obj));
      if (cpUpgrading : bool) then
        _ ← track (set_IsUpgrading true);
        mret currentVersion
      else
      t ← gets sc_UpgradeTracker;
      if negb (cpt_IsPendingUpgrade (ut_ControlPlane t)) then
        _ ← after_control_plane_upgrade;
        mret currentVersion
      else
      cpScaling ←
        match tp_ControlPlaneReplicas topology with
        | Some _ => lift (wrapErr "failed to check if the control plane is scaling" (IsScaling obj))
        | None => mret false
        end;
      if (cpScaling : bool) then
        _ ← track (set_IsScaling true);
        mret currentVersion
      else if (0 <? Z.of_nat (length (UpgradingNames (ut_MachineDeployments t))))
           || (0 <? Z.of_nat (length (UpgradingNames (ut_MachinePools t)))) then
        mret currentVersion
      else start_upgrade currentVersion
  end.

(** ** The versions of the workers *)

Section worker.
Context {T : Type} `{WorkerKind T}.

Definition has (t : T) (annotation : string) : bool :=
  bool_decide (is_Some (wk_Annotations t !! annotation)).

(** The loop of [isMachineDeploymentDeferred] and [isMachinePoolDeferred]. *)
Fixpoint held_before (name : string) (ts : list T) : bool :=
  match ts with
  | [] => false
  | t :: ts =>
      if has t ClusterTopologyHoldUpgradeSequenceAnnotation then true
      else if String.eqb (wk_Name t) name then false
      else held_before name ts
  end.

Definition isDeferred (t : T) : result bool :=
  if has t ClusterTopologyDeferUpgradeAnnotation then Ok true
  else if has t ClusterTopologyHoldUpgradeSequenceAnnotation then Ok true
  else
    workers ← deref (tp_Workers topology);
    Ok (held_before (wk_Name t) (wk_topologies workers)).

(** A change of the tracker of these workers. *)
Definition track_worker (f : WorkerUpgradeTracker → WorkerUpgradeTracker) : M Scope unit :=
  modify (λ s, let t := sc_UpgradeTracker s in
               sc_set_UpgradeTracker (wk_set_tracker (f (wk_tracker t)) t) s).

(** The current object, if any, is given by its name and the version of its template. *)
Definition computeWorkerVersion (t : T) (current : option (string * option string)) :
    M Scope string :=
  let desiredVersion := tp_Version topology in
  tracker ← gets sc_UpgradeTracker;
  responses ← gets sc_HookResponseTracker;
  let stable := IsControlPlaneStable (ut_ControlPlane tracker) in
  let blocking := IsBlocking responses AfterControlPlaneUpgrade in
  match current with
  | None =>
      _ ← (if negb stable || blocking then track_worker (MarkPendingCreate (wk_Name t))
           else mret tt);
      mret desiredVersion
  | Some (name, version) =>
      currentVersion ← lift (deref version);
      if String.eqb currentVersion desiredVersion then mret currentVersion
      else
      deferred ← lift (isDeferred t);
      if (deferred : bool) then
        _ ← track_worker (MarkDeferredUpgrade name);
        _ ← track_worker (MarkPendingUpgrade name);
        mret currentVersion
      else if blocking then
        _ ← track_worker (MarkPendingUpgrade name);
        mret currentVersion
      else if UpgradeConcurrencyReached (wk_tracker tracker) then
        _ ← track_worker (MarkPendingUpgrade name);
        mret currentVersion
      else if negb stable then
        _ ← track_worker (MarkPendingUpgrade name);
        mret currentVersion
      else
        _ ← track_worker (MarkUpgrading [name]);
        mret desiredVersion
  end.

(** The versions of all workers of the topology, in its order. *)
Fixpoint computeWorkerVersions (current : T → option (string * option string)) (ts : list T) :
    M Scope (list (T * string)) :=
  match ts with
  | [] => mret []
  | t :: ts =>
      v ← computeWorkerVersion t (current t);
      vs ← computeWorkerVersions current ts;
      mret ((t, v) :: vs)
  end.
End worker.

Definition isMachineDeploymentDeferred (t : MachineDeploymentTopology) : result bool := isDeferred t.
Definition isMachinePoolDeferred (t : MachinePoolTopology) : result bool := isDeferred t.

Definition md_current (st : option MachineDeploymentState) : option (string * option string) :=
  st ← st; md ← mdst_Object st; Some (md_Name md, sp_Version (mt_Spec (md_Template md))).
Definition mp_current (st : option MachinePoolState) : option (string * option string) :=
  st ← st; mp ← mpst_Object st; Some (om_Name (mp_Meta mp), sp_Version (mt_Spec (mp_Template mp))).

Definition computeMachineDeploymentVersion (t : MachineDeploymentTopology)
    (current : option MachineDeploymentState) : M Scope string :=
  computeWorkerVersion t (md_current current).
Definition computeMachinePoolVersion (t : MachinePoolTopology)
    (current : option MachinePoolState) : M Scope string :=
  computeWorkerVersion t (mp_current current).

(** The topologies of one kind of workers; none unless [HasMachineDeployments] or
    [HasMachinePools]. *)
Definition topologies {T} `{WorkerKind T} : list T :=
  match tp_Workers topology with Some w => wk_topologies w | None => [] end.

(** The decisions of [Generate], in its order: what is upgrading, then the version of the
    control plane, then those of the MachineDeployments and of the MachinePools. *)
Definition generate_versions (mds : gmap string MachineDeploymentState)
    (mps : gmap string MachinePoolState) :
    M Scope (string * list (MachineDeploymentTopology * string)
             * list (MachinePoolTopology * string)) :=
  mdUpgradingNames ← mwrap "failed to check if any MachineDeployment is upgrading"
                       (MachineDeployments_Upgrading mds);
  _ ← track_worker (T:=MachineDeploymentTopology) (MarkUpgrading mdUpgradingNames);
  _ ← (if bool_decide (0 < size mps)%nat then
         _ ← mwrap "failed to check if any MachinePool is upgrading" (tp_call TpGetClient);
         mpUpgradingNames ← mwrap "failed to check if any MachinePool is upgrading"
                              (MachinePools_Upgrading mps);
         track_worker (T:=MachinePoolTopology) (MarkUpgrading mpUpgradingNames)
       else mret tt);
  version ← mwrap "failed to compute ControlPlane"
              (mwrap "failed to compute version of control plane" computeControlPlaneVersion);
  mdVersions ← computeWorkerVersions (λ t, md_current (mds !! wk_Name t)) topologies;
  mpVersions ← computeWorkerVersions (λ t, mp_current (mps !! wk_Name t)) topologies;
  mret (version, mdVersions, mpVersions).

(** ** Hooks around the reconcile (cluster_controller.go, reconcile_state.go) *)

Definition callBeforeClusterCreateHook : M Scope ctrl_Result :=
  cluster ← gets sc_Cluster;
  if is_None (cls_InfrastructureRef (cl_Spec cluster))
     && is_None (cls_ControlPlaneRef (cl_Spec cluster)) then
    '(retryAfterSeconds, response) ← CallAllExtensions BeforeClusterCreate [];
    _ ← add_response BeforeClusterCreate response;
    mret (if negb (retryAfterSeconds =? 0)
          then {| cr_Requeue := false; cr_RequeueAfter := wrap64 (retryAfterSeconds * Second) |}
          else zero_Result)
  else mret zero_Result.

Definition isControlPlaneInitialized (cluster : Cluster) : bool :=
  existsb (λ c, bool_decide (c_Type c = ControlPlaneInitializedCondition)
                && bool_decide (c_Status c = ConditionTrue)) (GetConditions cluster).

Definition callAfterControlPlaneInitialized : M Scope unit :=
  cluster ← gets sc_Cluster;
  _ ← (if is_None (cls_InfrastructureRef (cl_Spec cluster))
          && is_None (cls_ControlPlaneRef (cl_Spec cluster))
       then MarkAsPending [AfterControlPlaneInitialized] else mret tt);
  cluster ← gets sc_Cluster;
  if IsPending AfterControlPlaneInitialized (cl_Meta cluster)
     && isControlPlaneInitialized cluster then
    '(_, response) ← CallAllExtensions AfterControlPlaneInitialized [];
    _ ← add_response AfterControlPlaneInitialized response;
    MarkAsDone [AfterControlPlaneInitialized]
  else mret tt.

(** Nothing of one kind of workers is upgrading, pending or deferred. *)
Definition workers_settled (m : WorkerUpgradeTracker) : bool :=
  (Z.of_nat (length (UpgradingNames m)) =? 0) && negb (IsAnyPendingCreate m)
  && negb (IsAnyPendingUpgrade m) && negb (DeferredUpgrade m).

Definition callAfterClusterUpgrade : M Scope unit :=
  cluster ← gets sc_Cluster;
  t ← gets sc_UpgradeTracker;
  if IsPending AfterClusterUpgrade (cl_Meta cluster) then
    if IsControlPlaneStable (ut_ControlPlane t) && workers_settled (ut_MachineDeployments t)
       && workers_settled (ut_MachinePools t) then
      '(_, response) ← CallAllExtensions AfterClusterUpgrade [tp_Version topology];
      _ ← add_response AfterClusterUpgrade response;
      MarkAsDone [AfterClusterUpgrade]
    else mret tt
  else mret tt.

Definition callAfterHooks : M Scope unit :=
  _ ← callAfterControlPlaneInitialized; callAfterClusterUpgrade.

Definition topology_reconcileDelete (KObj : string) (gvk : result string) : M Scope ctrl_Result :=
  cluster ← gets sc_Cluster;
  if te_RuntimeSDK env && negb (IsOkToDelete (cl_Meta cluster)) then
    '(retryAfterSeconds, _) ← CallAllExtensions BeforeClusterDelete [];
    if negb (retryAfterSeconds =? 0)
    then mret {| cr_Requeue := false; cr_RequeueAfter := wrap64 (retryAfterSeconds * Second) |}
    else _ ← MarkAsOkToDelete KObj gvk; mret zero_Result
  else mret zero_Result.
(** ** The TopologyReconciled condition (conditions.go) *)

Definition TopologyReconciledCondition : ConditionType := "TopologyReconciled".
Definition ClusterTopologyReconciledV1Beta2Condition : string := "TopologyReconciled".

(** At most five names, then an ellipsis. *)
Definition computeNameList (l : list string) : string :=
  Join (if 5 <? Z.of_nat (length l) then take 5 l ++ ["..."%string] else l) ", ".

(** The condition to set: its reason in either API version, its severity and message. *)
Inductive TopologyVerdict :=
| TopologyReconciled
| TopologyNotReconciled (reason v1beta2Reason : string) (severity : ConditionSeverity)
    (message : string).

Definition same_reason (reason : string) : ConditionSeverity → string → TopologyVerdict :=
  TopologyNotReconciled reason reason.

Definition anything_pending (t : UpgradeTracker) : bool :=
  let mds := ut_MachineDeployments t in
  let mps := ut_MachinePools t in
  cpt_IsPendingUpgrade (ut_ControlPlane t)
  || IsAnyPendingCreate mds || IsAnyPendingUpgrade mds || DeferredUpgrade mds
  || IsAnyPendingCreate mps || IsAnyPendingUpgrade mps || DeferredUpgrade mps.

(** The reason something is pending and the first part of the message. *)
Definition pending_reason (t : UpgradeTracker) : string * string :=
  let version := tp_Version topology in
  let mds := ut_MachineDeployments t in
  let mps := ut_MachinePools t in
  if cpt_IsPendingUpgrade (ut_ControlPlane t) then
    ("ControlPlaneUpgradePending"%string,
     "Control plane rollout and upgrade to version " +:+ version +:+ " on hold.")
  else if IsAnyPendingUpgrade mds then
    ("MachineDeploymentsUpgradePending"%string,
     "MachineDeployment(s) " +:+ computeNameList (PendingUpgradeNames mds)
     +:+ " rollout and upgrade to version " +:+ version +:+ " on hold.")
  else if IsAnyPendingCreate mds then
    ("MachineDeploymentsCreatePending"%string,
     "MachineDeployment(s) for Topologies " +:+ computeNameList (PendingCreateTopologyNames mds)
     +:+ " creation on hold.")
  else if DeferredUpgrade mds then
    ("MachineDeploymentsUpgradeDeferred"%string,
     "MachineDeployment(s) " +:+ computeNameList (DeferredUpgradeNames mds)
     +:+ " rollout and upgrade to version " +:+ version +:+ " deferred.")
  else if IsAnyPendingUpgrade mps then
    ("MachinePoolsUpgradePending"%string,
     "MachinePool(s) " +:+ computeNameList (PendingUpgradeNames mps)
     +:+ " rollout and upgrade to version " +:+ version +:+ " on hold.")
  else if IsAnyPendingCreate mps then
    ("MachinePoolsCreatePending"%string,
     "MachinePool(s) for Topologies " +:+ computeNameList (PendingCreateTopologyNames mps)
     +:+ " creation on hold.")
  else if DeferredUpgrade mps then
    ("MachinePoolsUpgradeDeferred"%string,
     "MachinePool(s) " +:+ computeNameList (DeferredUpgradeNames mps)
     +:+ " rollout and upgrade to version " +:+ version +:+ " deferred.")
  else (""%string, ""%string).

(** What is under way, the second part of the message. *)
Definition pending_cause (t : UpgradeTracker) : result string :=
  let cp := ut_ControlPlane t in
  if cpt_IsProvisioning cp then Ok " Control plane is completing initial provisioning"%string
  else if cpt_IsUpgrading cp then
    obj ← deref controlPlane;
    cpVersion ← wrapErr "failed to get control plane spec version" (Version_Get obj);
    Ok (" Control plane is upgrading to version " +:+ cpVersion)
  else if cpt_IsScaling cp then Ok " Control plane is reconciling desired replicas"%string
  else if 0 <? Z.of_nat (length (UpgradingNames (ut_MachineDeployments t))) then
    Ok (" MachineDeployment(s) " +:+ computeNameList (UpgradingNames (ut_MachineDeployments t))
        +:+ " are upgrading")
  else if 0 <? Z.of_nat (length (UpgradingNames (ut_MachinePools t))) then
    Ok (" MachinePool(s) " +:+ computeNameList (UpgradingNames (ut_MachinePools t))
        +:+ " are upgrading")
  else Ok ""%string.

Definition class_not_reconciled_message : string :=
  "ClusterClass not reconciled. If this condition persists please check ClusterClass status. A ClusterClass is reconciled if.status.observedGeneration == .metadata.generation is true. If this is not the case either ClusterClass reconciliation failed or the ClusterClass is paused".

Definition topology_verdict (s : Scope) (reconcileErr : option error) : result TopologyVerdict :=
  let cluster := sc_Cluster s in
  let paused := cls_Paused (cl_Spec cluster) in
  let annotated := HasPaused (cl_Meta cluster) in
  if paused || annotated then
    Ok (same_reason "Paused" ConditionSeverityInfo
          (Join ((if paused then ["Cluster spec.paused is set to true"%string] else [])
                 ++ (if annotated
                     then ["Cluster has the cluster.x-k8s.io/paused annotation"%string] else []))
             ", "))
  else if negb (IsZero (om_DeletionTimestamp (cl_Meta cluster))) then
    Ok (TopologyNotReconciled "Deleted" "DeletionTimestampSet" ConditionSeverityInfo "")
  else match reconcileErr with
  | Some e => Ok (same_reason "TopologyReconcileFailed" ConditionSeverityError (te_errorString env e))
  | None =>
  if match sc_ClusterClass s with
     | Some class => negb (om_Generation (cc_Meta class) =? cc_ObservedGeneration class)
     | None => false
     end
  then Ok (same_reason "ClusterClassNotReconciled" ConditionSeverityInfo class_not_reconciled_message)
  else if negb (AggregateRetryAfter (sc_HookResponseTracker s) =? 0) then
    Ok (same_reason "LifecycleHookBlocking" ConditionSeverityInfo
          (AggregateMessage (sc_HookResponseTracker s)))
  else if anything_pending (sc_UpgradeTracker s) then
    let '(reason, message) := pending_reason (sc_UpgradeTracker s) in
    cause ← pending_cause (sc_UpgradeTracker s);
    Ok (same_reason reason ConditionSeverityInfo (message +:+ cause))
  else Ok TopologyReconciled
  end.

(** The message of the v1beta1 condition is used as a format, that of the v1beta2 one is not. *)
Definition reconcileTopologyReconciledCondition `{MetaConditions} (s : Scope)
    (reconcileErr : option error) : result Cluster :=
  verdict ← topology_verdict s reconcileErr;
  let set v1beta1 status reason message :=
    v1beta2_Set (te_clock env 1) (te_clock env 2)
      (Set_ (te_clock env 0) (sc_Cluster s) (Some v1beta1))
      (meta_condition ClusterTopologyReconciledV1Beta2Condition status reason message) in
  Ok (match verdict with
      | TopologyReconciled =>
          set (TrueCondition TopologyReconciledCondition) ConditionTrue "TopologyReconcileSucceeded" ""
      | TopologyNotReconciled reason v1beta2Reason severity message =>
          set (FalseCondition TopologyReconciledCondition reason severity (Sprintf message))
            ConditionFalse v1beta2Reason message
      end).

(** ** The reconcile (cluster_controller.go)

    Reading the blueprint and the current state, building the other desired objects and applying
    them are calls of the environment. *)

Definition ClusterClassVariablesReconciledCondition : ConditionType := "VariablesReconciled".

(** [te_class] answers the read of the ClusterClass. *)
Definition getClusterClass (key : string) : M Scope unit :=
  calls ← gets sc_calls;
  _ ← mwrap ("failed to retrieve ClusterClass " +:+ key) (tp_call TpGetClusterClass);
  let class := te_class env calls in
  _ ← modify (sc_set_ClusterClass class);
  if negb (Has class ClusterClassVariablesReconciledCondition)
     || IsFalse class ClusterClassVariablesReconciledCondition then
    throw (Errorf ("ClusterClass is not successfully reconciled: status of "
                   +:+ ClusterClassVariablesReconciledCondition +:+ " condition on ClusterClass must be "
                   +:+ quoted "True"))
  else if negb (om_Generation (cc_Meta class) =? cc_ObservedGeneration class) then
    throw (Errorf ("ClusterClass is not successfully reconciled: ClusterClass.status.observedGeneration must be "
                   +:+ FormatInt (om_Generation (cc_Meta class)) +:+ ", but is "
                   +:+ FormatInt (cc_ObservedGeneration class)))
  else mret tt.

Definition topology_reconcileState : M Scope unit :=
  _ ← tp_call TpShim;
  _ ← (if te_RuntimeSDK env then callAfterHooks else mret tt);
  tp_call TpApply.

Definition topology_reconcile (key : string) (mds : gmap string MachineDeploymentState)
    (mps : gmap string MachinePoolState) : M Scope ctrl_Result :=
  _ ← getClusterClass key;
  _ ← tp_call TpVariables;
  _ ← mwrap "error reading the ClusterClass" (tp_call TpGetBlueprint);
  _ ← mwrap "error reading current state of the Cluster topology" (tp_call TpGetCurrentState);
  res ← (if te_RuntimeSDK env then callBeforeClusterCreateHook else mret zero_Result);
  if negb (ctrl_Result_IsZero res) then mret res
  else
  _ ← mwrap "error creating dynamic watch" (tp_call TpWatches);
  _ ← mwrap "error computing the desired state of the Cluster topology"
        (_ ← generate_versions mds mps; tp_call TpObjects);
  _ ← mwrap "error reconciling the Cluster topology" topology_reconcileState;
  requeueAfter ← gets (λ s, AggregateRetryAfter (sc_HookResponseTracker s));
  mret (if negb (requeueAfter =? 0)
        then {| cr_Requeue := false; cr_RequeueAfter := requeueAfter |} else zero_Result).

(** The deferred update of the condition and patch of the Cluster, with the error returned so
    far; during a panic no error is returned yet. *)
Definition with_conditions `{MetaConditions} (body : M Scope ctrl_Result) : M Scope ctrl_Result :=
  λ s,
  let '(r, s) := body s in
  let reterr := match r with Err e => Some e | _ => None end in
  let failed e := match r with
                  | Panic => Panic
                  | Err e0 => Err (NewAggregate [e0; e])
                  | Ok _ => Err (NewAggregate [e])
                  end in
  match reconcileTopologyReconciledCondition s reterr with
  | Ok cluster =>
      let '(p, s) := tp_call (TpPatchConditions cluster) (sc_set_Cluster cluster s) in
      (match p with Err e => failed e | _ => r end, s)
  | Err e => (failed (Wrap "failed to reconcile cluster topology conditions" e), s)
  | Panic => (Panic, s)
  end.

Definition topology_Reconcile `{MetaConditions} (KObj : string) (gvk : result string) (key : string)
    (mds : gmap string MachineDeploymentState) (mps : gmap string MachinePoolState) :
    M Scope ctrl_Result :=
  got ← try_err (tp_call TpGetCluster);
  match got with
  | Some e => if IsNotFound e then mret zero_Result else throw e
  | None =>
      cluster ← gets sc_Cluster;
      _ ← tp_call (TpNewHelper cluster);
      with_conditions
        (if cls_Paused (cl_Spec cluster) || HasPaused (cl_Meta cluster) then mret zero_Result
         else if negb (IsZero (om_DeletionTimestamp (cl_Meta cluster))) then
           topology_reconcileDelete KObj gvk
         else
           r ← attempt (topology_reconcile key mds mps);
           match r with
           | inl result => mret result
           | inr e => if isNotConnected e
                      then mret {| cr_Requeue := false; cr_RequeueAfter := Minute |}
                      else throw e
           end)
  end.
End upgrade.
