(* ===== verification/TopologyUpgradeSpec.v ===== *)
(** * Managed topologies: properties of an upgrade

    The version of every worker is decided by the relation [decision]; over a whole pass the
    number of workers that upgrade stays within the concurrency of the tracker, workers follow
    the control plane, and a Cluster is reported as reconciled only when every part of it is at
    the version of the topology. *)

From S2P Require Import Prelude GoStd Api Apimachinery Util Conditions Version Collections.
From S2P Require Import ConditionsV1Beta2 External MdUtil MachineSetPolicy MachineSet.
From S2P Require Import MachineHealthCheck TopologyUpgrade.
From Stdlib Require Import Ascii.

(** ** Pending hooks *)

Section pending.
Context `{GoSort}.

Lemma elem_of_sets_List x s : x ∈ sets_List s ↔ x ∈ s.
Proof. unfold sets_List. by rewrite elem_of_go_sort, elem_of_elements. Qed.

Lemma length_sets_List s : length (sets_List s) = size s.
Proof. unfold sets_List. by rewrite length_go_sort. Qed.

Lemma sets_List_nil s : sets_List s = [] ↔ s = ∅.
Proof.
  rewrite <- length_zero_iff_nil, length_sets_List, size_empty_iff. by unfold_leibniz.
Qed.

(** A list of names without commas is read back. *)
Lemma in_joined (s : gset string) x :
  (∀ y, y ∈ s → ContainsByte y "," = false) → x ≠ ""%string →
  isInCommaSeparatedList (Join (sets_List s) ",") x = bool_decide (x ∈ s).
Proof.
  intros Hs Hx. unfold isInCommaSeparatedList. apply bool_decide_ext.
  destruct (decide (s = ∅)) as [->|Hne].
  - rewrite (proj2 (sets_List_nil ∅) eq_refl). split; [|set_solver].
    intros ->%list_elem_of_singleton. done.
  - rewrite Split_Join.
    + apply elem_of_sets_List.
    + by rewrite sets_List_nil.
    + apply Forall_forall. intros y Hy%elem_of_sets_List. by apply Hs.
Qed.

Lemma HookName_plain h : ContainsByte (HookName h) "," = false ∧ HookName h ≠ ""%string.
Proof. by destruct h. Qed.

#[global] Instance HookName_inj : Inj (=) (=) HookName.
Proof. by intros [] []. Qed.

Lemma IsPending_Split h o :
  IsPending h o = bool_decide (HookName h ∈ Split (pending_of (om_Annotations o)) ",").
Proof.
  unfold IsPending, isInCommaSeparatedList. case_bool_decide as He; [|done]. rewrite He.
  unfold pending_of. rewrite lookup_empty. symmetry. apply bool_decide_eq_false.
  intros Hin%list_elem_of_singleton. by destruct (HookName_plain h).
Qed.

Lemma HookName_elem h (hs : list Hook) : HookName h ∈ HookName <$> hs ↔ h ∈ hs.
Proof. apply list_elem_of_fmap_inj, _. Qed.

(** Marking hooks as pending adds them to those pending, and nothing else. *)
Lemma IsPending_mark_pending h hs o :
  IsPending h (mark_pending hs o) = bool_decide (h ∈ hs) || IsPending h o.
Proof.
  rewrite !IsPending_Split. unfold mark_pending, pending_of. simpl. rewrite lookup_insert_eq. simpl.
  fold (pending_of (om_Annotations o)). unfold addToCommaSeparatedList.
  pose proof (HookName_plain h) as [Hc Hne].
  pose proof (in_joined (list_to_set (HookName <$> hs)
    ∪ (list_to_set (Split (pending_of (om_Annotations o)) ",") ∖ {[""%string]})) (HookName h)) as E.
  unfold isInCommaSeparatedList in E. rewrite E; [|..|done].
  - rewrite <- bool_decide_or. apply bool_decide_ext.
    rewrite elem_of_union, elem_of_difference, !elem_of_list_to_set, HookName_elem. set_solver.
  - intros y. rewrite elem_of_union, elem_of_difference, !elem_of_list_to_set.
    intros [(h' & -> & _)%list_elem_of_fmap|[Hy _]]; [apply HookName_plain|].
    by eapply Split_no_sep.
Qed.

(** Marking hooks as done removes them from those pending, and nothing else. *)
Lemma IsPending_mark_done h hs o :
  IsPending h (mark_done hs o) = negb (bool_decide (h ∈ hs)) && IsPending h o.
Proof.
  rewrite !IsPending_Split. pose proof (HookName_plain h) as [Hc Hne].
  set (l := pending_of (om_Annotations o)).
  pose proof (in_joined (list_to_set (Split l ",") ∖ {[""%string]}
    ∖ list_to_set (HookName <$> hs)) (HookName h)) as E.
  unfold isInCommaSeparatedList in E.
  assert (pending_of (om_Annotations (mark_done hs o))
          = removeFromCommaSeparatedList l (HookName <$> hs)) as ->.
  { unfold mark_done, pending_of. simpl. fold (pending_of (om_Annotations o)). fold l.
    destruct (String.eqb_spec (removeFromCommaSeparatedList l (HookName <$> hs)) "") as [->|Hr];
      [by rewrite lookup_delete_eq|by rewrite lookup_insert_eq]. }
  unfold removeFromCommaSeparatedList. rewrite E; [|..|done].
  - rewrite <- bool_decide_not, <- bool_decide_and. apply bool_decide_ext.
    rewrite !elem_of_difference, !elem_of_list_to_set, HookName_elem. set_solver.
  - intros y. rewrite !elem_of_difference, elem_of_list_to_set. intros [[Hy _] _].
    by eapply Split_no_sep.
Qed.
End pending.

(** ** The decision for one worker *)

Section decision.
Context (topology : Topology) {T : Type} `{WorkerKind T}.

(** [stable] and [blocking] are the state of the control plane and of the
    AfterControlPlaneUpgrade hook, [w] and the last argument the tracker before and after. *)
Inductive decision (stable blocking : bool) (w : WorkerUpgradeTracker) (t : T) :
    option (string * option string) → string → WorkerUpgradeTracker → Prop :=
| created :
    decision stable blocking w t None (tp_Version topology)
      (if negb stable || blocking then MarkPendingCreate (wk_Name t) w else w)
| upgraded name :
    decision stable blocking w t (Some (name, Some (tp_Version topology))) (tp_Version topology) w
| deferred name v :
    v ≠ tp_Version topology → isDeferred topology t = Ok true →
    decision stable blocking w t (Some (name, Some v)) v
      (MarkPendingUpgrade name (MarkDeferredUpgrade name w))
| held name v :
    v ≠ tp_Version topology → isDeferred topology t = Ok false →
    blocking || UpgradeConcurrencyReached w || negb stable = true →
    decision stable blocking w t (Some (name, Some v)) v (MarkPendingUpgrade name w)
| picked name v :
    v ≠ tp_Version topology → isDeferred topology t = Ok false →
    blocking = false → UpgradeConcurrencyReached w = false → stable = true →
    decision stable blocking w t (Some (name, Some v)) (tp_Version topology) (MarkUpgrading [name] w).

Definition scope_stable (s : Scope) : bool :=
  IsControlPlaneStable (ut_ControlPlane (sc_UpgradeTracker s)).
Definition scope_blocking (s : Scope) : bool :=
  IsBlocking (sc_HookResponseTracker s) AfterControlPlaneUpgrade.
Definition with_worker (w : WorkerUpgradeTracker) (s : Scope) : Scope :=
  sc_set_UpgradeTracker (wk_set_tracker w (sc_UpgradeTracker s)) s.

Lemma with_worker_stable w s : scope_stable (with_worker w s) = scope_stable s.
Proof. unfold scope_stable, with_worker. simpl. by rewrite wk_set_ControlPlane. Qed.
Lemma with_worker_tracker w s : wk_tracker (sc_UpgradeTracker (with_worker w s)) = w.
Proof. apply wk_get_set. Qed.
Lemma with_worker_twice w w' s : with_worker w (with_worker w' s) = with_worker w s.
Proof. unfold with_worker, sc_set_UpgradeTracker. simpl. by rewrite wk_set_set. Qed.

Lemma with_worker_same s : with_worker (wk_tracker (sc_UpgradeTracker s)) s = s.
Proof. unfold with_worker. rewrite wk_set_get. by destruct s. Qed.

Lemma track_worker_run f s :
  track_worker (T:=T) f s = (Ok tt, with_worker (f (wk_tracker (sc_UpgradeTracker s))) s).
Proof. done. Qed.

(** Every run is a decision, or a panic of a worker without a version or of a topology without
    workers. *)
Lemma computeWorkerVersion_run t current s r s' :
  computeWorkerVersion topology t current s = (r, s') →
  (r = Panic ∧ (tp_Workers topology = None ∨ ∃ name, current = Some (name, None))) ∨
  ∃ v w', r = Ok v ∧ s' = with_worker w' s ∧
    decision (scope_stable s) (scope_blocking s) (wk_tracker (sc_UpgradeTracker s)) t current v w'.
Proof.
  unfold computeWorkerVersion, mbind, M_bind, gets.
  fold (scope_stable s). fold (scope_blocking s).
  destruct current as [[name [cv|]]|]; unfold lift, deref.
  - destruct (String.eqb_spec cv (tp_Version topology)) as [->|Hne].
    { intros [= <- <-]. right. eexists _, _. split_and!; [done| |apply upgraded].
      by rewrite with_worker_same. }
    destruct (isDeferred topology t) as [[]|e|] eqn:Hd.
    + rewrite !track_worker_run, with_worker_tracker, with_worker_twice. intros [= <- <-].
      right. eexists _, _. split_and!; [done..|]. by apply deferred.
    + destruct (scope_blocking s) eqn:Hbl.
      { intros [= <- <-]. right. eexists _, _. split_and!; [done..|]. by apply held. }
      destruct (UpgradeConcurrencyReached _) eqn:Hr.
      { intros [= <- <-]. right. eexists _, _. split_and!; [done..|].
        apply held; [done..|]. by rewrite Hr. }
      destruct (scope_stable s) eqn:Hst; intros [= <- <-]; right;
        eexists _, _; (split_and!; [done..|]); [by apply picked|].
      apply held; [done..|]. by rewrite Hr.
    + revert Hd. unfold isDeferred, mbind, result_bind, deref. by repeat case_match.
    + intros [= <- <-]. left. split; [done|]. left. revert Hd.
      unfold isDeferred, mbind, result_bind, deref. repeat case_match; done.
  - intros [= <- <-]. left. eauto.
  - intros E. right. eexists _, _. split_and!; [..|apply created];
      destruct (negb (scope_stable s) || scope_blocking s); injection E as <- <-; try done.
    by rewrite with_worker_same.
Qed.
End decision.

Section decisions.
Context (topology : Topology) {T : Type} `{WorkerKind T}.
Context (stable blocking : bool) (current : T → option (string * option string)).

Inductive decisions : WorkerUpgradeTracker → list T → list (T * string) →
    WorkerUpgradeTracker → Prop :=
| decisions_nil w : decisions w [] [] w
| decisions_cons w t ts v w' vs w'' :
    decision topology stable blocking w t (current t) v w' → decisions w' ts vs w'' →
    decisions w (t :: ts) ((t, v) :: vs) w''.

Lemma decision_limit w t c v w' :
  decision topology stable blocking w t c v w' →
  maxUpgradeConcurrency w' = maxUpgradeConcurrency w ∧
  upgradingNames w ⊆ upgradingNames w' ∧
  pendingUpgradeNames w ⊆ pendingUpgradeNames w' ∧
  pendingCreateTopologyNames w ⊆ pendingCreateTopologyNames w' ∧
  Z.of_nat (size (upgradingNames w'))
    ≤ Z.max (Z.of_nat (size (upgradingNames w))) (maxUpgradeConcurrency w).
Proof.
  intros []; try (split_and!; simpl; set_solver || lia).
  - destruct (negb stable || blocking); split_and!; simpl; set_solver || lia.
  - match goal with H : UpgradeConcurrencyReached _ = false |- _ => rename H into Hr end.
    split_and!; simpl; try set_solver.
    apply Z.leb_gt in Hr. pose proof (size_union_alt {[name]} (upgradingNames w)) as Hs.
    rewrite size_union_alt, size_singleton.
    pose proof (subseteq_size (upgradingNames w ∖ {[name]}) (upgradingNames w) ltac:(set_solver)).
    lia.
Qed.

Lemma decisions_limit w ts vs w' :
  decisions w ts vs w' →
  maxUpgradeConcurrency w' = maxUpgradeConcurrency w ∧
  upgradingNames w ⊆ upgradingNames w' ∧
  pendingUpgradeNames w ⊆ pendingUpgradeNames w' ∧
  pendingCreateTopologyNames w ⊆ pendingCreateTopologyNames w' ∧
  Z.of_nat (size (upgradingNames w'))
    ≤ Z.max (Z.of_nat (size (upgradingNames w))) (maxUpgradeConcurrency w).
Proof.
  induction 1 as [w|w t ts v w' vs w'' Hd Hds IH]; [split_and!; done || lia|].
  apply decision_limit in Hd. destruct Hd as (? & ? & ? & ? & ?), IH as (? & ? & ? & ? & ?).
  split_and!; [congruence|set_solver..|lia].
Qed.

Lemma decisions_fst w ts vs w' : decisions w ts vs w' → vs.*1 = ts.
Proof. induction 1; csimpl; by f_equal. Qed.

(** The decision of a worker of the list, and what is tracked about it in the end. *)
Lemma decisions_elem w ts vs w' t v :
  decisions w ts vs w' → (t, v) ∈ vs →
  ∃ w1 w2, decision topology stable blocking w1 t (current t) v w2 ∧
    maxUpgradeConcurrency w1 = maxUpgradeConcurrency w' ∧
    upgradingNames w2 ⊆ upgradingNames w' ∧ pendingUpgradeNames w2 ⊆ pendingUpgradeNames w' ∧
    pendingCreateTopologyNames w2 ⊆ pendingCreateTopologyNames w' ∧
    Z.of_nat (size (upgradingNames w')) ≤
      Z.max (Z.of_nat (size (upgradingNames w2))) (maxUpgradeConcurrency w') ∧
    (size (upgradingNames w1) ≤ size (upgradingNames w'))%nat.
Proof.
  induction 1 as [w|w t' ts v' w' vs w'' Hd Hds IH]; [by intros ?%elem_of_nil|].
  intros [[= -> ->]|Hin]%elem_of_cons; [|by apply IH].
  pose proof (decision_limit _ _ _ _ _ Hd) as (Hm & Hu & _).
  pose proof (decisions_limit _ _ _ _ Hds) as (Hm' & ? & ? & ? & ?).
  eexists _, _. split_and!; [done|congruence|done..|by rewrite Hm'|]. apply subseteq_size. set_solver.
Qed.

(** A worker that changes its version is among those upgrading, within the limit. *)
Lemma decisions_moved w ts vs w' t x name c :
  decisions w ts vs w' → (t, x) ∈ vs → current t = Some (name, Some c) → x ≠ c →
  x = tp_Version topology ∧ stable = true ∧ blocking = false ∧ isDeferred topology t = Ok false ∧
  name ∈ upgradingNames w' ∧ Z.of_nat (size (upgradingNames w')) ≤ maxUpgradeConcurrency w'.
Proof.
  intros Hds Hin Hc Hx.
  destruct (decisions_elem _ _ _ _ _ _ Hds Hin) as (w1 & w2 & Hd & Hm & Hu & _ & _ & Hsz & _).
  rewrite Hc in Hd. inversion Hd as [| | | |n v Hv Hdef Hb Hr Hs]; subst; try done.
  split_and!; try done.
  - apply Hu. simpl. set_solver.
  - apply Z.leb_gt in Hr. simpl in Hsz. revert Hsz. rewrite size_union_alt, size_singleton.
    pose proof (subseteq_size (upgradingNames w1 ∖ {[name]}) (upgradingNames w1) ltac:(set_solver)).
    lia.
Qed.

(** The names of the existing workers that change their version. *)
Definition moved (vs : list (T * string)) : list string :=
  omap (λ tx, match current tx.1 with
              | Some (name, Some c) => if String.eqb tx.2 c then None else Some name
              | _ => None
              end) vs.

Lemma elem_of_moved vs name :
  name ∈ moved vs ↔ ∃ t x c, (t, x) ∈ vs ∧ current t = Some (name, Some c) ∧ x ≠ c.
Proof.
  unfold moved. rewrite list_elem_of_omap. split.
  - intros ([t x] & Hin & E). simpl in E. destruct (current t) as [[n [c|]]|] eqn:Hc; try done.
    destruct (String.eqb_spec x c); simplify_eq. eauto 10.
  - intros (t & x & c & Hin & Hc & Hx). exists (t, x). split; [done|]. simpl. rewrite Hc.
    by rewrite (proj2 (String.eqb_neq x c)).
Qed.

(** They and no others are added to those that are upgrading. *)
Lemma decisions_upgrading w ts vs w' :
  decisions w ts vs w' → upgradingNames w' = list_to_set (moved vs) ∪ upgradingNames w.
Proof.
  induction 1 as [w|w t ts v w' vs w'' Hd Hds IH]; [set_solver|]. rewrite IH.
  assert (upgradingNames w' = list_to_set (moved [(t, v)]) ∪ upgradingNames w) as ->.
  { unfold moved. simpl. inversion Hd as [Hc|n Hc|n x Hx Hf Hc|n x Hx Hf Hb Hc|n x Hx Hf Hb Hr Hst Hc]; subst; simpl.
    - destruct (negb stable || blocking); set_solver.
    - rewrite String.eqb_refl. set_solver.
    - rewrite String.eqb_refl. simpl. set_solver.
    - rewrite String.eqb_refl. simpl. set_solver.
    - rewrite (proj2 (String.eqb_neq _ _)) by congruence. simpl. set_solver. }
  replace (moved ((t, v) :: vs)) with (moved [(t, v)] ++ moved vs); [rewrite list_to_set_app_L; set_solver|].
  unfold moved. simpl. by case_match.
Qed.

(** A worker that stays behind is pending, one that cannot be created is as well. *)
Lemma decisions_behind w ts vs w' t x :
  decisions w ts vs w' → (t, x) ∈ vs → x ≠ tp_Version topology →
  pendingUpgradeNames w' ≠ ∅.
Proof.
  intros Hds Hin Hx.
  destruct (decisions_elem _ _ _ _ _ _ Hds Hin) as (w1 & w2 & Hd & _ & _ & Hp & _).
  inversion Hd; subst; try done; simpl in Hp; set_solver.
Qed.

(** While the control plane is not stable nothing starts to upgrade or is created. *)
Lemma decisions_unstable w ts vs w' :
  stable = false → decisions w ts vs w' →
  upgradingNames w' = upgradingNames w ∧
  (∀ t x name c, (t, x) ∈ vs → current t = Some (name, Some c) → x = c) ∧
  (∀ t x, (t, x) ∈ vs → current t = None → IsPendingCreate w' (wk_Name t) = true).
Proof.
  intros Hst Hds. split_and!.
  - induction Hds as [w|w t ts v w' vs w'' Hd Hds IH]; [done|]. rewrite IH.
    destruct Hd; try done; [|congruence]. by destruct (negb stable || blocking).
  - intros t x name c Hin Hc. destruct (decide (x = c)) as [|Hx]; [done|].
    destruct (decisions_moved _ _ _ _ _ _ _ _ Hds Hin Hc Hx) as (_ & ? & _). congruence.
  - intros t x Hin Hc.
    destruct (decisions_elem _ _ _ _ _ _ Hds Hin) as (w1 & w2 & Hd & _ & _ & _ & Hp & _).
    rewrite Hc in Hd. inversion Hd; subst. apply bool_decide_eq_true, Hp. rewrite Hst. simpl. set_solver.
Qed.

(** With a stable control plane and no hook in the way, a worker that stays behind is deferred or
    there are as many upgrading as allowed. *)
Lemma decisions_progress w ts vs w' t x :
  stable = true → blocking = false → decisions w ts vs w' → (t, x) ∈ vs →
  x = tp_Version topology ∨ isDeferred topology t = Ok true ∨
  maxUpgradeConcurrency w' ≤ Z.of_nat (size (upgradingNames w')).
Proof.
  intros Hst Hbl Hds Hin.
  destruct (decisions_elem _ _ _ _ _ _ Hds Hin) as (w1 & w2 & Hd & Hm & _ & _ & _ & _ & Hsz).
  inversion Hd as [| | |n v Hv Hdef Hr|]; subst; try by auto. right. right.
  rewrite Hst, Hbl in Hr. apply orb_true_iff in Hr as [Hr|[=]]. apply Z.leb_le in Hr. lia.
Qed.
End decisions.

Lemma computeWorkerVersions_run topology {T} `{WorkerKind T} current (ts : list T) s r s' :
  computeWorkerVersions topology current ts s = (r, s') →
  (r = Panic ∧ (tp_Workers topology = None ∨ ∃ t name, t ∈ ts ∧ current t = Some (name, None))) ∨
  ∃ vs w', r = Ok vs ∧ s' = with_worker w' s ∧
    decisions topology (scope_stable s) (scope_blocking s) current
      (wk_tracker (sc_UpgradeTracker s)) ts vs w'.
Proof.
  revert s r s'. induction ts as [|t ts IH]; intros s r s' E; simpl in E.
  { injection E as <- <-. right. eexists _, _. split_and!; [done| |constructor].
    by rewrite with_worker_same. }
  unfold mbind, M_bind in E. destruct (computeWorkerVersion topology t (current t) s) as [r1 s1] eqn:E1.
  apply computeWorkerVersion_run in E1 as [[-> Hp]|(v & w1 & -> & -> & Hd)].
  { injection E as <- <-. left. split; [done|]. destruct Hp as [|[name Hn]]; [by left|].
    right. exists t, name. split; [left|done]. }
  destruct (computeWorkerVersions topology current ts _) as [r2 s2] eqn:E2.
  apply IH in E2 as [[-> Hp]|(vs & w2 & -> & -> & Hds)].
  { injection E as <- <-. left. split; [done|]. destruct Hp as [|(t' & name & Hin & Hn)]; [by left|].
    right. exists t', name. split; [by right|done]. }
  injection E as <- <-. right. rewrite with_worker_stable, with_worker_tracker in Hds.
  exists ((t, v) :: vs), w2. split_and!; [done|by rewrite with_worker_twice|].
  by eapply decisions_cons.
Qed.

(** ** The control plane *)

Section control_plane.
Context `{GoSort} `{GoRange} `{Apimachinery} `{Semver} `{Unstructured}.
Context (env : TpEnv) (topology : Topology).

Definition same_tracker (s s' : Scope) : Prop := sc_UpgradeTracker s' = sc_UpgradeTracker s.
#[global] Instance same_tracker_preorder : PreOrder same_tracker.
Proof. split; [done|]. unfold same_tracker. by intros x y z -> ->. Qed.

(** Nothing but the calls and the Cluster or the responses change. *)
Definition untracked {A} (m : M Scope A) : Prop := logged sc_calls (λ _, True) same_tracker m.

Lemma tp_call_untracked c : untracked (tp_call env c).
Proof.
  intros s r s'. unfold tp_call. intros E.
  destruct (te_error env (sc_calls s) c); injection E as <- <-;
    (split; [done|]; eexists; split; [reflexivity|]; by apply Forall_singleton).
Qed.

Ltac untracked_step :=
  match goal with
  | |- logged _ _ _ (tp_call _ _) => apply tp_call_untracked
  | |- logged _ _ _ (modify _) => apply runs_modify; by intros ?
  | |- _ => logged_step
  end.

Lemma patch_hooks_untracked msg f : untracked (patch_hooks env msg f).
Proof. unfold untracked, patch_hooks. repeat untracked_step. Qed.

Lemma CallAllExtensions_untracked h vs : untracked (CallAllExtensions env h vs).
Proof. unfold untracked, CallAllExtensions. repeat untracked_step. Qed.

Lemma after_control_plane_upgrade_untracked : untracked (after_control_plane_upgrade env topology).
Proof.
  unfold untracked, after_control_plane_upgrade, add_response, MarkAsDone.
  repeat (apply CallAllExtensions_untracked || apply patch_hooks_untracked || untracked_step).
Qed.
Lemma tp_call_Ok c s s' :
  tp_call env c s = (Ok tt, s') →
  s' = {| sc_UpgradeTracker := sc_UpgradeTracker s;
          sc_HookResponseTracker := sc_HookResponseTracker s; sc_Cluster := sc_Cluster s;
          sc_ClusterClass := sc_ClusterClass s; sc_calls := sc_calls s ++ [c] |}.
Proof. unfold tp_call. destruct (te_error env (sc_calls s) c); by intros [= <-]. Qed.

Lemma CallAllExtensions_Ok h vs s retry response s' :
  CallAllExtensions env h vs s = (Ok (retry, response), s') →
  sc_calls s' = sc_calls s ++ [TpCallExtensions h vs] ∧ sc_Cluster s' = sc_Cluster s ∧
  sc_HookResponseTracker s' = sc_HookResponseTracker s ∧
  ∃ msg, response = if retryable h then CommonRetryResponse msg retry else CommonResponse msg.
Proof.
  unfold CallAllExtensions. intros (calls & s1 & [= <- <-] & E)%bind_Ok.
  apply bind_Ok in E as ([] & s2 & ->%tp_call_Ok & E).
  destruct (te_response env (sc_calls s) h) as [msg retry'] eqn:Er.
  injection E as <- <- <-. split_and!; eauto.
Qed.

Lemma patch_hooks_Ok msg f s s' :
  patch_hooks env msg f s = (Ok tt, s') →
  cl_Meta (sc_Cluster s') = f (cl_Meta (sc_Cluster s)) ∧
  sc_HookResponseTracker s' = sc_HookResponseTracker s ∧
  ∃ cs, sc_calls s' = sc_calls s ++ cs.
Proof.
  unfold patch_hooks. intros (cluster & s1 & [= <- <-] & E)%bind_Ok.
  apply bind_Ok in E as ([] & s2 & ->%mwrap_Ok%tp_call_Ok & E).
  apply bind_Ok in E as ([] & s3 & [= <-] & ->%mwrap_Ok%tp_call_Ok). simpl.
  split_and!; [done..|]. rewrite <- app_assoc. eauto.
Qed.

Lemma IsBlocking_Add_eq h r t :
  IsBlocking (tracker_Add h r t) h
  = match r with CommonRetryResponse _ retry => negb (retry =? 0) | _ => false end.
Proof. unfold IsBlocking, tracker_Add, HookResponseTracker in *. by rewrite lookup_insert_eq. Qed.

Lemma IsBlocking_Add_ne h h' r t : h ≠ h' → IsBlocking (tracker_Add h r t) h' = IsBlocking t h'.
Proof.
  intros Hne. unfold IsBlocking, tracker_Add, HookResponseTracker in *.
  rewrite lookup_insert_ne; [done|].
  by intros E%(inj HookName).
Qed.

(** The state of the control plane in the tracker. *)
Definition flags (pending provisioning upgrading starting scaling : bool) :
    ControlPlaneUpgradeTracker :=
  {| cpt_IsPendingUpgrade := pending; cpt_IsProvisioning := provisioning;
     cpt_IsUpgrading := upgrading; cpt_IsStartingUpgrade := starting; cpt_IsScaling := scaling |}.

Definition workers_upgrading (t : UpgradeTracker) : Prop :=
  upgradingNames (ut_MachineDeployments t) ≠ ∅ ∨ upgradingNames (ut_MachinePools t) ≠ ∅.

(** The scope [s'] after the hooks of a start of an upgrade from [cv]. *)
Definition hooks_called (cv : string) (s' : Scope) : Prop :=
  te_RuntimeSDK env = true →
  TpCallExtensions BeforeClusterUpgrade [cv; tp_Version topology] ∈ sc_calls s' ∧
  IsBlocking (sc_HookResponseTracker s') BeforeClusterUpgrade = false ∧
  IsPending AfterControlPlaneUpgrade (cl_Meta (sc_Cluster s')) = true ∧
  IsPending AfterClusterUpgrade (cl_Meta (sc_Cluster s')) = true.

(** What is decided for a control plane at version [cv]: it is provisioned for the first time,
    upgrades, is at the version of the topology, waits, or starts to upgrade, in which case
    [hooks] holds. *)
Inductive cp_decision (obj : ControlPlaneObject) (t : UpgradeTracker) (cv : string) (hooks : Prop) :
    string → ControlPlaneUpgradeTracker → Prop :=
| cp_provisioning :
    IsProvisioning obj = Ok true →
    cp_decision obj t cv hooks cv (flags (negb (String.eqb cv (tp_Version topology))) true false false false)
| cp_upgrading :
    IsProvisioning obj = Ok false → IsUpgrading obj = Ok true →
    cp_decision obj t cv hooks cv (flags (negb (String.eqb cv (tp_Version topology))) false true false false)
| cp_at_version :
    IsProvisioning obj = Ok false → IsUpgrading obj = Ok false → cv = tp_Version topology →
    cp_decision obj t cv hooks cv (flags false false false false false)
| cp_waits scaling :
    IsProvisioning obj = Ok false → IsUpgrading obj = Ok false → cv ≠ tp_Version topology →
    (scaling = true → IsScaling obj = Ok true) →
    cp_decision obj t cv hooks cv (flags true false false false scaling)
| cp_starts :
    IsProvisioning obj = Ok false → IsUpgrading obj = Ok false → cv ≠ tp_Version topology →
    (is_Some (tp_ControlPlaneReplicas topology) → IsScaling obj = Ok false) →
    ¬ workers_upgrading t → hooks →
    cp_decision obj t cv hooks (tp_Version topology) (flags false false false true false).

Lemma upgrading_bool (t : UpgradeTracker) :
  (0 <? Z.of_nat (length (UpgradingNames (ut_MachineDeployments t))))
  || (0 <? Z.of_nat (length (UpgradingNames (ut_MachinePools t)))) = false →
  ¬ workers_upgrading t.
Proof.
  unfold UpgradingNames. rewrite !length_sets_List. intros [E1 E2]%orb_false_iff.
  apply Z.ltb_ge in E1, E2. unfold workers_upgrading.
  intros [Hn|Hn]; apply Hn, leibniz_equiv, size_empty_iff; lia.
Qed.

(** The start of an upgrade. *)
Lemma start_upgrade_run cv s v s' :
  start_upgrade env topology cv s = (Ok v, s') →
  (v = cv ∧ same_tracker s s') ∨
  (v = tp_Version topology ∧ hooks_called cv s' ∧
   sc_UpgradeTracker s' = set_ControlPlane (set_IsStartingUpgrade true)
     (set_ControlPlane (set_IsPendingUpgrade false) (sc_UpgradeTracker s))).
Proof.
  unfold start_upgrade. intros (blocked & s1 & E1 & E)%bind_Ok.
  assert (untracked (if te_RuntimeSDK env then
       '(retryAfterSeconds, response) ←
         CallAllExtensions env BeforeClusterUpgrade [cv; tp_Version topology];
       _ ← add_response BeforeClusterUpgrade response;
       if negb (retryAfterSeconds =? 0) then mret true
       else _ ← MarkAsPending env [AfterControlPlaneUpgrade; AfterClusterUpgrade]; mret false
     else mret false)) as Hu.
  { unfold untracked, add_response, MarkAsPending.
    repeat (apply CallAllExtensions_untracked || apply patch_hooks_untracked || untracked_step). }
  destruct (Hu _ _ _ E1) as [Ht _]. destruct blocked; [injection E as <- <-; by left|].
  injection E as <- <-. right. split_and!; [done| |by rewrite Ht].
  intros Hsdk. rewrite Hsdk in E1. simpl.
  apply bind_Ok in E1 as ([retry response] & s2 & E2 & E1).
  apply bind_Ok in E1 as ([] & s3 & [= <-] & E1).
  destruct (retry =? 0) eqn:Hr; [|discriminate]. simpl in E1.
  apply bind_Ok in E1 as ([] & s4 & (HC & HR & cs & Hcs)%patch_hooks_Ok & [= <-]).
  apply CallAllExtensions_Ok in E2 as (Hcalls & _ & _ & msg & ->).
  rewrite Hcs, HR, HC. simpl. rewrite Hcalls, !IsPending_mark_pending. split_and!.
  - set_solver.
  - rewrite IsBlocking_Add_eq. simpl. by rewrite Hr.
  - done.
  - done.
Qed.

(** Every run that returns a version is a decision. *)
Lemma computeControlPlaneVersion_run obj s v s' :
  ut_ControlPlane (sc_UpgradeTracker s) = flags false false false false false →
  computeControlPlaneVersion env topology (Some obj) s = (Ok v, s') →
  ut_MachineDeployments (sc_UpgradeTracker s') = ut_MachineDeployments (sc_UpgradeTracker s) ∧
  ut_MachinePools (sc_UpgradeTracker s') = ut_MachinePools (sc_UpgradeTracker s) ∧
  ∃ cv, Version_Get obj = Ok cv ∧
    cp_decision obj (sc_UpgradeTracker s) cv (hooks_called cv s') v (ut_ControlPlane (sc_UpgradeTracker s')).
Proof.
  intros Hcp E. unfold computeControlPlaneVersion in E.
  apply bind_Ok in E as (cv & s0 & [Hv%wrapErr_Ok ->]%lift_Ok & E).
  apply bind_Ok in E as ([] & s1 & [= <-] & E).
  apply bind_Ok in E as ([] & s2 & E2 & E).
  assert (s2 = sc_set_UpgradeTracker (set_ControlPlane
    (λ _, flags (negb (String.eqb cv (tp_Version topology))) false false false false)
    (sc_UpgradeTracker s)) s) as ->.
  { destruct (String.eqb_spec cv (tp_Version topology)); injection E2 as <-;
      unfold sc_set_UpgradeTracker, set_ControlPlane; simpl; by rewrite Hcp. }
  clear E2. apply bind_Ok in E as (prov & s3 & [Hp%wrapErr_Ok ->]%lift_Ok & E).
  destruct prov.
  { injection E as <- <-. split_and!; [done..|]. exists cv. split; [done|]. by apply cp_provisioning. }
  apply bind_Ok in E as (upg & s4 & [Hu%wrapErr_Ok ->]%lift_Ok & E). destruct upg.
  { injection E as <- <-. split_and!; [done..|]. exists cv. split; [done|]. by apply cp_upgrading. }
  apply bind_Ok in E as (t & s5 & [= <- E5] & E). simpl in E.
  destruct (String.eqb_spec cv (tp_Version topology)) as [Hc|Hc]; simpl in E, E5; subst s5.
  { apply bind_Ok in E as ([] & s6 & E & [= <- <-]).
    destruct (after_control_plane_upgrade_untracked _ _ _ E) as [Ht _]. rewrite Ht.
    split_and!; [done..|]. exists cv. split; [done|]. by apply cp_at_version. }
  apply bind_Ok in E as (scaling & s6 & E6 & E).
  assert ((is_Some (tp_ControlPlaneReplicas topology) → IsScaling obj = Ok scaling) ∧
          (scaling = true → IsScaling obj = Ok true)) as [Hs1 Hs2].
  { destruct (tp_ControlPlaneReplicas topology).
    - apply lift_Ok in E6 as [Hs%wrapErr_Ok _]. rewrite Hs. naive_solver.
    - injection E6 as <- _. split; [by intros []|done]. }
  match type of E6 with _ ?s0 = _ => assert (s6 = s0) as -> end.
  { destruct (tp_ControlPlaneReplicas topology); [by apply lift_Ok in E6 as [_ ->]|by injection E6]. }
  clear E6. destruct scaling.
  { injection E as <- <-. split_and!; [done..|]. exists cv. split; [done|]. by apply (cp_waits _ _ _ _ true). }
  destruct (_ || _) eqn:Hb in E.
  { injection E as <- <-. split_and!; [done..|]. exists cv. split; [done|]. by apply (cp_waits _ _ _ _ false). }
  apply upgrading_bool in Hb.
  apply start_upgrade_run in E as [[-> Ht]|(-> & Hh & Ht)]; rewrite Ht; (split_and!; [done..|]);
    exists cv; (split; [done|]).
  - by apply (cp_waits _ _ _ _ false).
  - by apply cp_starts.
Qed.

(** ** A whole pass *)

Lemma any_other_kubelet_untracked what version refs :
  untracked (any_other_kubelet env what version refs).
Proof. unfold untracked. induction refs; simpl; repeat (apply IHrefs || untracked_step). Qed.

Lemma upgrading_of_untracked {W} msg isUpgrading (name : W → result string) ws :
  (∀ w, untracked (isUpgrading w)) → untracked (upgrading_of msg isUpgrading name ws).
Proof.
  intros Hi. unfold untracked. induction ws; simpl; repeat (apply Hi || apply IHws || untracked_step).
Qed.

Lemma isMachineDeploymentUpgrading_untracked md : untracked (IsMachineDeploymentUpgrading env md).
Proof. unfold untracked, IsMachineDeploymentUpgrading. repeat untracked_step. Qed.

Lemma isMachinePoolUpgrading_untracked mp : untracked (IsMachinePoolUpgrading env mp).
Proof.
  unfold untracked, IsMachinePoolUpgrading. repeat (apply any_other_kubelet_untracked || untracked_step).
Qed.

Lemma MachineDeployments_Upgrading_untracked mds : untracked (MachineDeployments_Upgrading env mds).
Proof. apply upgrading_of_untracked. intros w. apply isMachineDeploymentUpgrading_untracked. Qed.

Lemma MachinePools_Upgrading_untracked mps : untracked (MachinePools_Upgrading env mps).
Proof. apply upgrading_of_untracked. intros w. apply isMachinePoolUpgrading_untracked. Qed.

Lemma MarkUpgrading_nil w : MarkUpgrading [] w = w.
Proof. by destruct w. Qed.

Definition md_of (mds : gmap string MachineDeploymentState) (t : MachineDeploymentTopology) :
    option (string * option string) := md_current (mds !! wk_Name t).
Definition mp_of (mps : gmap string MachinePoolState) (t : MachinePoolTopology) :
    option (string * option string) := mp_current (mps !! wk_Name t).

(** *** What is upgrading

    The report on a worker, its name and whether it is upgrading, from what the API server
    answered in a run that ended in [s'].  A MachineDeployment is upgrading when one of the
    Machines listed for it has another version than its template. *)
Definition asked (s' : Scope) (calls : list TpCall) (c : TpCall) : Prop :=
  te_error env calls c = None ∧ calls ++ [c] `prefix_of` sc_calls s'.

Definition md_report (s' : Scope) (st : MachineDeploymentState) (r : string * bool) : Prop :=
  ∃ md, mdst_Object st = Some md ∧ r.1 = md_Name md ∧
  match sp_Version (mt_Spec (md_Template md)) with
  | None => r.2 = false
  | Some version => ∃ labels calls, te_selectorMap env (mds_Selector (md_Spec md)) = Ok labels ∧
      asked s' calls (TpListMachines (om_Namespace (md_Meta md)) labels) ∧
      (r.2 = true ↔ ∃ m x, m ∈ te_machines env calls ∧ sp_Version (m_Spec m) = Some x ∧ x ≠ version)
  end.

(** A MachinePool is upgrading when one of its Nodes runs a kubelet of another version. *)
Definition mp_report (s' : Scope) (st : MachinePoolState) (r : string * bool) : Prop :=
  ∃ mp, mpst_Object st = Some mp ∧ r.1 = om_Name (mp_Meta mp) ∧
  match sp_Version (mt_Spec (mp_Template mp)) with
  | None => r.2 = false
  | Some version =>
      let kubelet ref v := ∃ calls, asked s' calls (TpGetNode (ref_Name ref)) ∧
        v = te_kubelet env calls (ref_Name ref) in
      if r.2 then ∃ ref v, ref ∈ mp_NodeRefs mp ∧ kubelet ref v ∧ v ≠ version
      else ∀ ref, ref ∈ mp_NodeRefs mp → kubelet ref version
  end.

(** The workers reported as upgrading. *)
Definition upgrading (rs : list (string * bool)) : list string := (filter (λ r, r.2 = true) rs).*1.

Lemma asked_mono s s' calls c : sc_calls s `prefix_of` sc_calls s' → asked s calls c → asked s' calls c.
Proof. intros Hp [He Ha]. split; [done|]. by etrans. Qed.

Lemma md_report_mono s s' st r : sc_calls s `prefix_of` sc_calls s' → md_report s st r → md_report s' st r.
Proof.
  intros Hp (md & Ho & Hn & Hv). exists md. split_and!; [done..|]. case_match; [|done].
  destruct Hv as (labels & calls & Hl & Ha & Hr). exists labels, calls. split_and!; [done| |done..].
  by eapply asked_mono.
Qed.

Lemma mp_report_mono s s' st r : sc_calls s `prefix_of` sc_calls s' → mp_report s st r → mp_report s' st r.
Proof.
  intros Hp (mp & Ho & Hn & Hv). exists mp. split_and!; [done..|]. case_match; [|done].
  destruct r.2; cbn in Hv |- *.
  - destruct Hv as (ref & v & Hin & (calls & Ha & Hk) & Hne). exists ref, v. split_and!; [done| |done].
    exists calls. split; [by eapply asked_mono|done].
  - intros ref Hin. destruct (Hv ref Hin) as (calls & Ha & Hk). exists calls. split; [by eapply asked_mono|done].
Qed.

Lemma tp_call_asked c s s' : tp_call env c s = (Ok tt, s') → asked s' (sc_calls s) c.
Proof.
  unfold tp_call, asked. destruct (te_error env (sc_calls s) c); intros [= <-]. split; [done|]. simpl. done.
Qed.

Lemma any_other_version_spec what version machines b :
  any_other_version what version machines = Ok b →
  b = true ↔ ∃ m x, m ∈ machines ∧ sp_Version (m_Spec m) = Some x ∧ x ≠ version.
Proof.
  induction machines as [|m machines IH]; simpl.
  { intros [= <-]. split; [done|]. by intros (? & ? & []%elem_of_nil & _). }
  destruct (sp_Version (m_Spec m)) as [x|] eqn:Ex; [|done].
  destruct (String.eqb_spec x version) as [->|Hne]; simpl.
  - intros Hb. rewrite (IH Hb). setoid_rewrite elem_of_cons. naive_solver.
  - intros [= <-]. split; [|done]. intros _. exists m, x. split_and!; [left|done..].
Qed.

Lemma md_upgrading_report st s b s' :
  IsMachineDeploymentUpgrading env (mdst_Object st) s = (Ok b, s') →
  ∃ name, md_report s' st (name, b) ∧ md_Name <$> deref (mdst_Object st) = Ok name.
Proof.
  unfold IsMachineDeploymentUpgrading. intros (md & s1 & [Ho ->]%lift_Ok & E)%bind_Ok.
  unfold deref in Ho. destruct (mdst_Object st) as [md'|] eqn:Eo; [|done]. injection Ho as ->.
  exists (md_Name md). split; [|done]. exists md. split_and!; [done..|]. simpl.
  destruct (sp_Version (mt_Spec (md_Template md))) as [version|]; [|by injection E as <- _].
  apply bind_Ok in E as (labels & s2 & [Hl%wrapErr_Ok ->]%lift_Ok & E).
  apply bind_Ok in E as (calls & s3 & [= <- <-] & E).
  apply bind_Ok in E as ([] & s4 & E4%mwrap_Ok & [Hb ->]%lift_Ok).
  exists labels, (sc_calls s). split_and!; [done|by apply tp_call_asked|].
  by eapply any_other_version_spec.
Qed.

Lemma any_other_kubelet_report what version refs s b s' :
  any_other_kubelet env what version refs s = (Ok b, s') →
  let kubelet ref v := ∃ calls, asked s' calls (TpGetNode (ref_Name ref)) ∧
    v = te_kubelet env calls (ref_Name ref) in
  if b then ∃ ref v, ref ∈ refs ∧ kubelet ref v ∧ v ≠ version
  else ∀ ref, ref ∈ refs → kubelet ref version.
Proof.
  revert s. induction refs as [|ref refs IH]; intros s; simpl.
  { intros [= <- <-]. by intros ref ?%elem_of_nil. }
  intros (calls & s1 & [= <- <-] & E)%bind_Ok. apply bind_Ok in E as (e & s2 & E2 & E).
  unfold try_err in E2. destruct (tp_call env (TpGetNode (ref_Name ref)) s) as [[[]|e'|] s3] eqn:E3;
    simplify_eq E2; intros <- <-; [|done]. apply tp_call_asked in E3.
  destruct (String.eqb_spec version (te_kubelet env (sc_calls s) (ref_Name ref))) as [Hv|Hv]; simpl in E.
  - destruct (any_other_kubelet_untracked _ _ _ _ _ _ E) as (_ & cs & Hcs & _).
    apply IH in E. destruct b; cbn in *.
    + destruct E as (ref' & v & Hin & Hk & Hne). exists ref', v. split_and!; [by right|done..].
    + intros ref' [->|Hin]%elem_of_cons; [|by apply E]. exists (sc_calls s). split; [|done].
      eapply asked_mono; [|exact E3]. rewrite Hcs. by apply prefix_app_r.
  - injection E as <- <-. exists ref, (te_kubelet env (sc_calls s) (ref_Name ref)).
    split_and!; [left|by eauto|done].
Qed.

Lemma mp_upgrading_report st s b s' :
  IsMachinePoolUpgrading env (mpst_Object st) s = (Ok b, s') →
  ∃ name, mp_report s' st (name, b) ∧ (λ o, om_Name (mp_Meta o)) <$> deref (mpst_Object st) = Ok name.
Proof.
  unfold IsMachinePoolUpgrading. intros (mp & s1 & [Ho ->]%lift_Ok & E)%bind_Ok.
  unfold deref in Ho. destruct (mpst_Object st) as [mp'|] eqn:Eo; [|done]. injection Ho as ->.
  exists (om_Name (mp_Meta mp)). split; [|done]. exists mp. split_and!; [done..|]. simpl.
  destruct (sp_Version (mt_Spec (mp_Template mp))) as [version|]; [|by injection E as <- _].
  by apply any_other_kubelet_report in E.
Qed.

(** The loop reports on every worker. *)
Lemma upgrading_of_reports {W} msg isUpgrading (name : W → result string)
    (report : Scope → W → string * bool → Prop) ws s names s' :
  (∀ w, untracked (isUpgrading w)) →
  (∀ s s' w r, sc_calls s `prefix_of` sc_calls s' → report s w r → report s' w r) →
  (∀ w s b s', isUpgrading w s = (Ok b, s') → ∃ n, report s' w (n, b) ∧ name w = Ok n) →
  upgrading_of msg isUpgrading name ws s = (Ok names, s') →
  ∃ rs, Forall2 (report s') ws rs ∧ names = upgrading rs.
Proof.
  intros Hu Hmono Hrep. revert s names. induction ws as [|w ws IH]; intros s names; simpl.
  { intros [= <- <-]. by exists []. }
  intros (b & s1 & E1%mwrap_Ok & E)%bind_Ok. apply bind_Ok in E as (ns & s2 & E2 & E).
  apply bind_Ok in E as (rest & s3 & E3 & [= <- <-]).
  destruct (Hrep _ _ _ _ E1) as (n & Hn & En).
  assert (s2 = s1 ∧ ns = if b then [n] else []) as [-> ->].
  { destruct b; [|by injection E2 as <- <-]. rewrite En in E2. by injection E2 as <- <-. }
  destruct (upgrading_of_untracked msg isUpgrading name ws Hu _ _ _ E3) as (_ & cs & Hcs & _).
  destruct (IH _ _ E3) as (rs & Hrs & ->). exists ((n, b) :: rs). split.
  - constructor; [|done]. eapply Hmono; [|exact Hn]. rewrite Hcs. by apply prefix_app_r.
  - unfold upgrading. rewrite filter_cons. by destruct b.
Qed.

(** A pass from the tracker [t0] to the scope [s']: the workers reported as upgrading, the
    decision for the control plane, and those for the workers, made with its outcome. *)
Definition pass_with (controlPlane : option ControlPlaneObject)
    (mds : gmap string MachineDeploymentState) (mps : gmap string MachinePoolState)
    (t0 : UpgradeTracker) (v : string) (mdvs : list (MachineDeploymentTopology * string))
    (mpvs : list (MachinePoolTopology * string)) (s' : Scope) (mdNames mpNames : list string) : Prop :=
  let t := {| ut_ControlPlane := ut_ControlPlane t0;
              ut_MachineDeployments := MarkUpgrading mdNames (ut_MachineDeployments t0);
              ut_MachinePools := MarkUpgrading mpNames (ut_MachinePools t0) |} in
  match controlPlane with
  | None => v = tp_Version topology ∧ ut_ControlPlane (sc_UpgradeTracker s') = ut_ControlPlane t0
  | Some obj => ∃ cv, Version_Get obj = Ok cv ∧
      cp_decision obj t cv (hooks_called cv s') v (ut_ControlPlane (sc_UpgradeTracker s'))
  end ∧
  decisions topology (scope_stable s') (scope_blocking s') (md_of mds)
    (ut_MachineDeployments t) (topologies topology) mdvs
    (ut_MachineDeployments (sc_UpgradeTracker s')) ∧
  decisions topology (scope_stable s') (scope_blocking s') (mp_of mps)
    (ut_MachinePools t) (topologies topology) mpvs (ut_MachinePools (sc_UpgradeTracker s')).

Definition pass controlPlane mds mps t0 v mdvs mpvs s' : Prop :=
  ∃ mdNames mpNames, pass_with controlPlane mds mps t0 v mdvs mpvs s' mdNames mpNames.

(** The control plane only adds to the log. *)
Lemma computeControlPlaneVersion_log controlPlane s r s' :
  computeControlPlaneVersion env topology controlPlane s = (r, s') → sc_calls s `prefix_of` sc_calls s'.
Proof.
  assert (logged sc_calls (λ _, True) (λ _ _, True) (computeControlPlaneVersion env topology controlPlane)) as Hl.
  { assert (∀ A (m : M Scope A), untracked m → logged sc_calls (λ _, True) (λ _ _, True) m) as Hw
      by (intros A m; by apply runs_weaken).
    assert (PreOrder (λ _ _ : Scope, True)) as Hpre by done.
    unfold computeControlPlaneVersion, start_upgrade, add_response, MarkAsPending, track.
    repeat first [apply Hw, after_control_plane_upgrade_untracked | apply Hw, CallAllExtensions_untracked
      | apply Hw, patch_hooks_untracked | apply runs_modify; done
      | match goal with |- logged _ _ _ (mbind _ _) => apply runs_bind; [exact Hpre| |intros ?] end
      | match goal with |- logged _ _ _ (mret _) => apply runs_ret, Hpre end
      | match goal with |- logged _ _ _ (lift _) => apply runs_lift, Hpre end
      | match goal with |- logged _ _ _ (gets _) => apply runs_gets, Hpre end
      | match goal with |- logged _ _ _ (match ?x with _ => _ end) => destruct x eqn:? end
      | progress cbn beta zeta]. }
  intros E. destruct (Hl _ _ _ E) as (_ & cs & -> & _). by apply prefix_app_r.
Qed.

Lemma generate_versions_reported controlPlane mds mps s v mdvs mpvs s' :
  ut_ControlPlane (sc_UpgradeTracker s) = flags false false false false false →
  generate_versions env topology controlPlane mds mps s = (Ok (v, mdvs, mpvs), s') →
  ∃ mdr mpr, Forall2 (md_report s') (go_values mds) mdr ∧ Forall2 (mp_report s') (go_values mps) mpr ∧
    pass_with controlPlane mds mps (sc_UpgradeTracker s) v mdvs mpvs s' (upgrading mdr) (upgrading mpr).
Proof.
  intros Hcp E. unfold generate_versions in E.
  apply bind_Ok in E as (mdNames & s1 & E1%mwrap_Ok & E).
  destruct (MachineDeployments_Upgrading_untracked _ _ _ _ E1) as [Ht1 _].
  apply (upgrading_of_reports _ _ _ md_report) in E1 as (mdr & Hmdr & ->);
    [|intros w; apply (isMachineDeploymentUpgrading_untracked (mdst_Object w))|apply md_report_mono|apply md_upgrading_report].
  apply bind_Ok in E as ([] & s2 & [= <-] & E).
  apply bind_Ok in E as ([] & s3 & E3 & E).
  assert (∃ mpr, Forall2 (mp_report s3) (go_values mps) mpr ∧ sc_calls s1 `prefix_of` sc_calls s3 ∧ sc_UpgradeTracker s3
     = {| ut_ControlPlane := ut_ControlPlane (sc_UpgradeTracker s);
          ut_MachineDeployments := MarkUpgrading (upgrading mdr) (ut_MachineDeployments (sc_UpgradeTracker s));
          ut_MachinePools := MarkUpgrading (upgrading mpr) (ut_MachinePools (sc_UpgradeTracker s)) |})
    as (mpr & Hmpr & Hp3 & Ht3).
  { case_bool_decide as Hsz.
    - apply bind_Ok in E3 as ([] & s4 & ->%mwrap_Ok%tp_call_Ok & E3).
      apply bind_Ok in E3 as (mpNames & s5 & E5%mwrap_Ok & [= <-]).
      destruct (MachinePools_Upgrading_untracked _ _ _ _ E5) as (Ht5 & cs & Hcs & _).
      apply (upgrading_of_reports _ _ _ mp_report) in E5 as (mpr & Hmpr & ->);
        [|intros w; apply (isMachinePoolUpgrading_untracked (mpst_Object w))|apply mp_report_mono|apply mp_upgrading_report].
      exists mpr. split; [done|]. split; [simpl; rewrite Hcs; simpl; rewrite <- app_assoc; by apply prefix_app_r|].
      simpl. rewrite Ht5. simpl. by rewrite Ht1.
    - injection E3 as <-. exists []. simpl. unfold upgrading. simpl. rewrite MarkUpgrading_nil, Ht1.
      split_and!; [|done..]. assert (mps = ∅) as -> by (apply map_size_empty_inv; lia).
      replace (go_values ∅) with (@nil MachinePoolState); [constructor|]. symmetry.
      apply nil_length_inv. by rewrite length_go_values, map_size_empty. }
  clear E3 Ht1. apply bind_Ok in E as (v' & s4 & E4%mwrap_Ok%mwrap_Ok & E).
  apply bind_Ok in E as (mdvs' & s5 & E5 & E). apply bind_Ok in E as (mpvs' & s6 & E6 & E).
  injection E as <- <- <- <-.
  apply computeWorkerVersions_run in E5 as [[[=] _]|(vs & w & Evs & -> & Hmd)].
  injection Evs as <-.
  apply computeWorkerVersions_run in E6 as [[[=] _]|(vs' & w' & Evs & -> & Hmp)].
  injection Evs as <-.
  rewrite with_worker_stable in Hmp. pose proof (computeControlPlaneVersion_log _ _ _ _ E4) as Hp4.
  assert (ut_MachineDeployments (sc_UpgradeTracker s4) = ut_MachineDeployments (sc_UpgradeTracker s3) ∧
    ut_MachinePools (sc_UpgradeTracker s4) = ut_MachinePools (sc_UpgradeTracker s3) ∧
    match controlPlane with
    | None => v' = tp_Version topology ∧
        ut_ControlPlane (sc_UpgradeTracker s4) = ut_ControlPlane (sc_UpgradeTracker s3)
    | Some obj => ∃ cv, Version_Get obj = Ok cv ∧
        cp_decision obj (sc_UpgradeTracker s3) cv (hooks_called cv s4) v'
          (ut_ControlPlane (sc_UpgradeTracker s4))
    end) as (Hm1 & Hm2 & HC).
  { destruct controlPlane as [obj|]; [|by injection E4 as <- <-].
    apply computeControlPlaneVersion_run in E4; [done|by rewrite Ht3]. }
  simpl in Hmd, Hmp. rewrite Hm1, Ht3 in Hmd. rewrite Hm2, Ht3 in Hmp. rewrite Ht3 in HC.
  exists mdr, mpr. split.
  { eapply Forall2_impl; [exact Hmdr|]. intros st r. apply md_report_mono. by etrans. }
  split; [eapply Forall2_impl; [exact Hmpr|]; intros st r; by apply mp_report_mono|].
  split_and!; [done|exact Hmd|exact Hmp].
Qed.

Lemma generate_versions_run controlPlane mds mps s v mdvs mpvs s' :
  ut_ControlPlane (sc_UpgradeTracker s) = flags false false false false false →
  generate_versions env topology controlPlane mds mps s = (Ok (v, mdvs, mpvs), s') →
  pass controlPlane mds mps (sc_UpgradeTracker s) v mdvs mpvs s'.
Proof.
  intros Hcp E. destruct (generate_versions_reported _ _ _ _ _ _ _ _ Hcp E) as (mdr & mpr & _ & _ & Hp).
  by eexists _, _.
Qed.

(** ** Consequences *)

Lemma cp_decision_stable obj t cv hooks v cp :
  cp_decision obj t cv hooks v cp → IsControlPlaneStable cp = true →
  cv = tp_Version topology ∧ v = tp_Version topology ∧
  (IsProvisioning obj = Ok true ∨ IsUpgrading obj = Ok false).
Proof.
  intros [] Hst; cbn in Hst; try discriminate Hst.
  - destruct (String.eqb_spec cv (tp_Version topology)); [auto|done].
  - auto.
  - by destruct scaling.
Qed.

Lemma scope_New_fresh cluster :
  ut_ControlPlane (sc_UpgradeTracker (scope_New cluster)) = flags false false false false false.
Proof. done. Qed.

(** The responses the tracker holds are answers of the extensions. *)
Definition answered (t : HookResponseTracker) : Prop :=
  ∀ h msg retry, t !! HookName h = Some (CommonRetryResponse msg retry) →
    ∃ calls, te_response env calls h = (msg, retry).

Definition keeps_answered (s s' : Scope) : Prop :=
  answered (sc_HookResponseTracker s) → answered (sc_HookResponseTracker s').

#[local] Instance keeps_answered_preorder : PreOrder keeps_answered.
Proof. split; [intros s Ha; exact Ha|]. intros s1 s2 s3 H12 H23 Ha. by apply H23, H12. Qed.

Abbreviation faithful := (logged sc_calls (λ _, True) keeps_answered) (only parsing).

Lemma faithful_call c : faithful (tp_call env c).
Proof.
  intros s r s'. unfold tp_call. intros E.
  destruct (te_error env (sc_calls s) c); injection E as <- <-;
    (split; [intros Ha; exact Ha|]; eexists; split; [reflexivity|]; by apply Forall_singleton).
Qed.

Ltac faithful_step :=
  match goal with
  | |- logged _ _ _ (tp_call _ _) => apply faithful_call
  | |- logged _ _ _ (modify _) => apply runs_modify; intros ?; split; [intros Ha; exact Ha|done]
  | |- _ => logged_step
  end.

Lemma faithful_patch msg f : faithful (patch_hooks env msg f).
Proof. unfold patch_hooks. repeat faithful_step. Qed.

(** A hook is called and its answer tracked. *)
Lemma faithful_hook {A} h vs (k : Z → M Scope A) :
  (∀ retry, faithful (k retry)) →
  faithful ('(retryAfterSeconds, response) ← CallAllExtensions env h vs;
            _ ← add_response h response; k retryAfterSeconds).
Proof.
  intros Hk s r s' E. unfold CallAllExtensions, mbind, M_bind, gets in E.
  destruct (tp_call env (TpCallExtensions h vs) s) as [x s1] eqn:E1.
  destruct (faithful_call _ _ _ _ E1) as [Hs1 (cs1 & Hc1 & Hf1)].
  destruct x as [[]|e|]; [|injection E as <- <-; split; [done|]; by exists cs1..].
  destruct (te_response env (sc_calls s) h) as [msg retry] eqn:Er. cbn [mret M_ret add_response modify] in E.
  match type of E with k _ ?s2 = _ => destruct (Hk _ _ _ _ E) as [Hs2 (cs2 & Hc2 & Hf2)]; set (s2' := s2) in * end.
  split; [|exists (cs1 ++ cs2); rewrite Hc2; simpl; rewrite Hc1, app_assoc; split; [done|by apply Forall_app]].
  intros Ha. apply Hs2. simpl. intros h' msg' retry'. unfold tracker_Add, HookResponseTracker.
  intros [[Hn Heq]|[_ Hl]]%lookup_insert_Some; [|by apply (Hs1 Ha)].
  apply (inj HookName) in Hn as <-. destruct (retryable h); [|done]. injection Heq as <- <-. eauto.
Qed.

Lemma faithful_after : faithful (after_control_plane_upgrade env topology).
Proof.
  unfold after_control_plane_upgrade, MarkAsDone. apply runs_bind; [apply _|apply runs_gets, _|intros cluster0].
  case_match; [|apply runs_ret, _].
  apply faithful_hook. intros retry. case_match; [faithful_step|apply faithful_patch].
Qed.

Lemma faithful_start cv : faithful (start_upgrade env topology cv).
Proof.
  unfold start_upgrade, MarkAsPending. faithful_step.
  - case_match; [|faithful_step]. apply faithful_hook. intros retry.
    repeat first [apply faithful_patch|faithful_step].
  - unfold track. repeat faithful_step.
Qed.

Lemma faithful_control_plane controlPlane : faithful (computeControlPlaneVersion env topology controlPlane).
Proof.
  unfold computeControlPlaneVersion, track.
  repeat first [apply faithful_after | apply faithful_start | faithful_step].
Qed.

Lemma faithful_worker {T} `{WorkerKind T} (t : T) c : faithful (computeWorkerVersion topology t c).
Proof. unfold computeWorkerVersion, track_worker. repeat faithful_step. Qed.

Lemma faithful_workers {T} `{WorkerKind T} current (ts : list T) : faithful (computeWorkerVersions topology current ts).
Proof. induction ts; simpl; repeat first [apply faithful_worker|apply IHts|faithful_step]. Qed.

Lemma faithful_pass controlPlane mds0 mps0 : faithful (generate_versions env topology controlPlane mds0 mps0).
Proof.
  assert (∀ what version refs, faithful (any_other_kubelet env what version refs)) as Hk
    by (intros what version refs; induction refs; simpl; repeat first [apply IHrefs|faithful_step]).
  assert (∀ W msg isU (name : W → result string) ws, (∀ w, faithful (isU w)) →
    faithful (upgrading_of msg isU name ws)) as Hup
    by (intros W msg isU name ws Hi; induction ws; simpl; repeat first [apply Hi|apply IHws|faithful_step]).
  unfold generate_versions, MachineDeployments_Upgrading, MachinePools_Upgrading, track_worker,
    IsMachineDeploymentUpgrading, IsMachinePoolUpgrading.
  repeat first [apply Hup; intros ? | apply Hk | apply faithful_control_plane | apply faithful_workers | faithful_step].
Qed.

Context (obj : ControlPlaneObject) (cluster : Cluster).
Context (mds : gmap string MachineDeploymentState) (mps : gmap string MachinePoolState).
Context (v : string) (mdvs : list (MachineDeploymentTopology * string))
  (mpvs : list (MachinePoolTopology * string)) (s' : Scope).
Hypothesis run : generate_versions env topology (Some obj) mds mps (scope_New cluster)
                 = (Ok (v, mdvs, mpvs), s').

(** The control plane is at the version of the topology, and was before the pass. *)
Definition ready_for_workers : Prop :=
  Version_Get obj = Ok (tp_Version topology) ∧ v = tp_Version topology ∧
  (IsProvisioning obj = Ok true ∨ IsUpgrading obj = Ok false) ∧
  IsBlocking (sc_HookResponseTracker s') AfterControlPlaneUpgrade = false.


(** The control plane changes its version only to that of the topology, and only when it is
    neither being provisioned nor upgrading nor (if its replicas are managed) scaling, when no
    worker is upgrading, and, with the Runtime SDK, after the BeforeClusterUpgrade hook was called
    with the two versions and did not block and the two After hooks are marked as pending.  In
    that pass no existing worker changes its version and no new worker is created. *)
Theorem control_plane_upgrades_alone cv :
  Version_Get obj = Ok cv → v ≠ cv →
  v = tp_Version topology ∧ IsProvisioning obj = Ok false ∧ IsUpgrading obj = Ok false ∧
  (is_Some (tp_ControlPlaneReplicas topology) → IsScaling obj = Ok false) ∧ hooks_called cv s' ∧
  upgradingNames (ut_MachineDeployments (sc_UpgradeTracker s')) = ∅ ∧
  upgradingNames (ut_MachinePools (sc_UpgradeTracker s')) = ∅ ∧
  (∀ t x name c, (t, x) ∈ mdvs → md_of mds t = Some (name, Some c) → x = c) ∧
  (∀ t x name c, (t, x) ∈ mpvs → mp_of mps t = Some (name, Some c) → x = c) ∧
  (∀ t x, (t, x) ∈ mdvs → md_of mds t = None →
     IsPendingCreate (ut_MachineDeployments (sc_UpgradeTracker s')) (wk_Name t) = true) ∧
  (∀ t x, (t, x) ∈ mpvs → mp_of mps t = None →
     IsPendingCreate (ut_MachinePools (sc_UpgradeTracker s')) (wk_Name t) = true).
Proof.
  intros Hv' Hne.
  destruct (generate_versions_run _ _ _ _ _ _ _ _ (scope_New_fresh cluster) run)
    as (mdN & mpN & (cv' & Hv & Hcp) & Hmd & Hmp).
  rewrite Hv in Hv'. injection Hv' as ->.
  remember (ut_ControlPlane (sc_UpgradeTracker s')) as cp eqn:Ecp.
  destruct Hcp as [| | | |Hp Hu Hcv Hs Hw Hh]; try done.
  assert (scope_stable s' = false) as Hst by (unfold scope_stable; by rewrite <- Ecp).
  destruct (decisions_unstable _ _ _ _ _ _ _ _ Hst Hmd) as (Emd & ? & ?).
  destruct (decisions_unstable _ _ _ _ _ _ _ _ Hst Hmp) as (Emp & ? & ?).
  split_and!; try done.
  - rewrite Emd. destruct (decide (upgradingNames (MarkUpgrading mdN (ut_MachineDeployments
      (sc_UpgradeTracker (scope_New cluster)))) = ∅)) as [|Hn]; [done|]. destruct Hw. by left.
  - rewrite Emp. destruct (decide (upgradingNames (MarkUpgrading mpN (ut_MachinePools
      (sc_UpgradeTracker (scope_New cluster)))) = ∅)) as [|Hn]; [done|]. destruct Hw. by right.
Qed.

Definition concurrency : Z :=
  Z.max 1 (match om_Annotations (cl_Meta cluster) !! ClusterTopologyUpgradeConcurrencyAnnotation with
           | Some c => (ParseInt c 64).1
           | None => 1
           end).

Lemma scope_New_concurrency :
  maxUpgradeConcurrency (ut_MachineDeployments (sc_UpgradeTracker (scope_New cluster))) = concurrency ∧
  maxUpgradeConcurrency (ut_MachinePools (sc_UpgradeTracker (scope_New cluster))) = concurrency.
Proof.
  unfold scope_New, concurrency, NewUpgradeTracker. simpl.
  set (n := match _ with Some _ => _ | None => _ end). by destruct (n <? 1) eqn:E; split; lia.
Qed.

(** The workers that are upgrading after a pass: those reported as such at its start and those
    that change their version in it. *)
Definition then_upgrading (rs : list (string * bool)) (names : list string) : gset string :=
  list_to_set (upgrading rs ++ names).

Lemma upgradingNames_mark names w : upgradingNames (MarkUpgrading names w) = list_to_set names ∪ upgradingNames w.
Proof.
  unfold MarkUpgrading. simpl. generalize (upgradingNames w). induction names as [|n names IH]; intros u; simpl;
    [set_solver|]. rewrite IH. set_solver.
Qed.

Lemma upgrading_after {T} `{WorkerKind T} stable blocking current rs (ts : list T) vs w w' :
  upgradingNames w = ∅ → decisions topology stable blocking current (MarkUpgrading (upgrading rs) w) ts vs w' →
  upgradingNames w' = then_upgrading rs (moved current vs).
Proof.
  intros Hw Hds. rewrite (decisions_upgrading _ _ _ _ _ _ _ _ Hds), upgradingNames_mark, Hw.
  unfold then_upgrading. rewrite list_to_set_app_L. set_solver.
Qed.

Lemma moved_limit {T} `{WorkerKind T} stable blocking current rs (ts : list T) vs w w' :
  upgradingNames w = ∅ → decisions topology stable blocking current (MarkUpgrading (upgrading rs) w) ts vs w' →
  moved current vs ≠ [] →
  Z.of_nat (size (then_upgrading rs (moved current vs))) ≤ maxUpgradeConcurrency w.
Proof.
  intros Hw Hds Hm. rewrite <- (upgrading_after _ _ _ _ _ _ _ _ Hw Hds).
  destruct (moved current vs) as [|name names] eqn:Em; [done|].
  assert (name ∈ moved current vs) as (t & x & c & Hin & Hc & Hx)%elem_of_moved by (rewrite Em; left).
  destruct (decisions_moved _ _ _ _ _ _ _ _ _ _ _ _ Hds Hin Hc Hx) as (_ & _ & _ & _ & _ & Hs).
  destruct (decisions_limit _ _ _ _ _ _ _ _ Hds) as (Hmax & _). rewrite Hmax in Hs. exact Hs.
Qed.

(** C10: When a worker picks up the version of the topology in a pass, the workers of its kind
    that are upgrading then are at most as many as the upgrade-concurrency annotation of the
    Cluster allows, and at least one is allowed.  They are the workers that change their
    version in the pass and those upgrading before it: the MachineDeployments for which a
    Machine of another version than the template was listed, and the MachinePools with a Node
    that runs a kubelet of another version. *)
Theorem upgrade_concurrency :
  1 ≤ concurrency ∧
  ∃ mdr mpr, Forall2 (md_report s') (go_values mds) mdr ∧ Forall2 (mp_report s') (go_values mps) mpr ∧
    (moved (md_of mds) mdvs ≠ [] →
       Z.of_nat (size (then_upgrading mdr (moved (md_of mds) mdvs))) ≤ concurrency) ∧
    (moved (mp_of mps) mpvs ≠ [] →
       Z.of_nat (size (then_upgrading mpr (moved (mp_of mps) mpvs))) ≤ concurrency).
Proof.
  destruct (generate_versions_reported _ _ _ _ _ _ _ _ (scope_New_fresh cluster) run)
    as (mdr & mpr & Hmdr & Hmpr & _ & Hmd & Hmp). destruct scope_New_concurrency as [C1 C2].
  split; [unfold concurrency; lia|]. exists mdr, mpr. split_and!; [done..| |]; intros Hm.
  - rewrite <- C1. by eapply moved_limit.
  - rewrite <- C2. by eapply moved_limit.
Qed.

(** What the user defers: a worker with the defer or the hold annotation, and all workers
    after one with the hold annotation. *)
Definition deferred_by_user {T} `{WorkerKind T} (t : T) : Prop :=
  has t ClusterTopologyDeferUpgradeAnnotation = true ∨
  has t ClusterTopologyHoldUpgradeSequenceAnnotation = true ∨
  ∃ before u after, topologies topology = before ++ u :: after ∧
    has u ClusterTopologyHoldUpgradeSequenceAnnotation = true ∧
    Forall (λ x, wk_Name x ≠ wk_Name t) before.

Lemma held_before_spec {T} `{WorkerKind T} name (ts : list T) :
  held_before name ts = true → ∃ before u after, ts = before ++ u :: after ∧
    has u ClusterTopologyHoldUpgradeSequenceAnnotation = true ∧ Forall (λ x, wk_Name x ≠ name) before.
Proof.
  induction ts as [|t ts IH]; simpl; [done|].
  destruct (has t ClusterTopologyHoldUpgradeSequenceAnnotation) eqn:Hh.
  { intros _. by exists [], t, ts. }
  destruct (String.eqb_spec (wk_Name t) name) as [|Hn]; [done|]. intros (b & u & a & -> & Hu & Hb)%IH.
  exists (t :: b), u, a. split_and!; [done..|]. by constructor.
Qed.

Lemma isDeferred_by_user {T} `{WorkerKind T} (t : T) : isDeferred topology t = Ok true → deferred_by_user t.
Proof.
  unfold isDeferred, deferred_by_user, topologies.
  destruct (has t ClusterTopologyDeferUpgradeAnnotation); [auto|].
  destruct (has t ClusterTopologyHoldUpgradeSequenceAnnotation); [auto|].
  destruct (tp_Workers topology) as [w|]; simpl; [|done]. intros [= Hh]. right; right.
  by apply held_before_spec.
Qed.

(** C36: A pass with a control plane at the version of the topology that is neither being
    provisioned nor upgrading nor scaling, whose AfterControlPlaneUpgrade hook does not ask to
    wait, makes progress: every worker gets the version of the topology, unless the user
    defers it or as many workers of its kind as allowed are then upgrading (those reported as
    upgrading at the start of the pass and those that change their version in it). *)
Theorem upgrade_progress :
  Version_Get obj = Ok (tp_Version topology) →
  IsProvisioning obj = Ok false → IsUpgrading obj = Ok false → IsScaling obj = Ok false →
  (∀ calls, (te_response env calls AfterControlPlaneUpgrade).2 = 0) →
  mdvs.*1 = topologies topology ∧ mpvs.*1 = topologies topology ∧
  ∃ mdr mpr, Forall2 (md_report s') (go_values mds) mdr ∧ Forall2 (mp_report s') (go_values mps) mpr ∧
    (∀ t x, (t, x) ∈ mdvs → x = tp_Version topology ∨ deferred_by_user t ∨
       concurrency ≤ Z.of_nat (size (then_upgrading mdr (moved (md_of mds) mdvs)))) ∧
    (∀ t x, (t, x) ∈ mpvs → x = tp_Version topology ∨ deferred_by_user t ∨
       concurrency ≤ Z.of_nat (size (then_upgrading mpr (moved (mp_of mps) mpvs)))).
Proof.
  intros Hv Hp Hu _ Hresp.
  destruct (generate_versions_reported _ _ _ _ _ _ _ _ (scope_New_fresh cluster) run)
    as (mdr & mpr & Hmdr & Hmpr & (cv & Hcv & Hcp) & Hmd & Hmp). destruct scope_New_concurrency as [C1 C2].
  assert (scope_stable s' = true) as Hst.
  { rewrite Hv in Hcv. injection Hcv as <-. unfold scope_stable. inversion Hcp; by try congruence. }
  assert (scope_blocking s' = false) as Hbl.
  { destruct (faithful_pass _ _ _ _ _ _ run) as [Ha _]. unfold scope_blocking, IsBlocking.
    destruct (_ !! _) as [[msg|msg retry]|] eqn:El; [done| |done].
    assert (∀ k, sc_HookResponseTracker (scope_New cluster) !! k = None) as Hnone by (intros k; apply lookup_empty).
    assert (answered (sc_HookResponseTracker (scope_New cluster))) as H0' by (intros h m n; by rewrite Hnone).
    destruct (Ha H0' _ _ _ El) as [calls Hc].
    specialize (Hresp calls). rewrite Hc in Hresp. simpl in Hresp. by rewrite Hresp. }
  split; [by eapply decisions_fst|]. split; [by eapply decisions_fst|].
  exists mdr, mpr. split; [done|]. split; [done|].
  destruct (decisions_limit _ _ _ _ _ _ _ _ Hmd) as (Hm1 & _).
  destruct (decisions_limit _ _ _ _ _ _ _ _ Hmp) as (Hm2 & _).
  apply upgrading_after in Hmd as Umd; [|done]. apply upgrading_after in Hmp as Ump; [|done].
  rewrite <- Umd, <- Ump.
  pose proof (eq_trans Hm1 C1) as E1. pose proof (eq_trans Hm2 C2) as E2.
  split; intros t x Hin.
  - rewrite <- E1. destruct (decisions_progress _ _ _ _ _ _ _ _ t x Hst Hbl Hmd Hin) as [|[?%isDeferred_by_user|]]; auto.
  - rewrite <- E2. destruct (decisions_progress _ _ _ _ _ _ _ _ t x Hst Hbl Hmp Hin) as [|[?%isDeferred_by_user|]]; auto.
Qed.
End control_plane.

(** ** The TopologyReconciled condition *)

Section reconciled.
Context `{GoSort} `{GoRange} `{Apimachinery} `{Semver} `{Unstructured}.
Context (env : TpEnv) (topology : Topology) (controlPlane : option ControlPlaneObject).

Lemma topology_verdict_reconciled s :
  topology_verdict env topology controlPlane s None = Ok TopologyReconciled →
  AggregateRetryAfter (sc_HookResponseTracker s) = 0 ∧ anything_pending (sc_UpgradeTracker s) = false.
Proof.
  unfold topology_verdict. destruct (_ || _); [done|]. destruct (negb (IsZero _)); [done|].
  destruct (match sc_ClusterClass s with Some _ => _ | None => _ end); [done|].
  destruct (AggregateRetryAfter _ =? 0) eqn:Ea; [|done]. apply Z.eqb_eq in Ea.
  destruct (anything_pending _) eqn:Ep; [|done].
  destruct (pending_reason _ _). unfold mbind, result_bind. by destruct (pending_cause _ _).
Qed.

Lemma size_0_empty (s : gset string) : negb (bool_decide (size s = 0%nat)) = false → s = ∅.
Proof. intros E%negb_false_iff%bool_decide_eq_true. by apply leibniz_equiv, size_empty_iff. Qed.

(** A pass after which nothing is pending leaves everything at the version of the topology. *)
Lemma pass_not_pending mds mps t0 v mdvs mpvs s' :
  ut_ControlPlane t0 = flags false false false false false →
  pass env topology controlPlane mds mps t0 v mdvs mpvs s' →
  anything_pending (sc_UpgradeTracker s') = false →
  v = tp_Version topology ∧ mdvs.*1 = topologies topology ∧ mpvs.*1 = topologies topology ∧
  Forall (λ tx, tx.2 = tp_Version topology) mdvs ∧ Forall (λ tx, tx.2 = tp_Version topology) mpvs.
Proof.
  intros Hf (mdN & mpN & Hcp & Hmd & Hmp) Hp. unfold anything_pending in Hp.
  rewrite !orb_false_iff in Hp. destruct Hp as ((((((Hpc & _) & Hpm%size_0_empty) & _) & _) & Hpp%size_0_empty) & _).
  split_and!; [|by eapply decisions_fst|by eapply decisions_fst|apply Forall_forall; intros [t x] Hin..].
  - destruct controlPlane as [obj|]; [|by destruct Hcp]. destruct Hcp as (cv & _ & Hcp).
    revert Hpc. destruct Hcp; simpl; try done;
      by destruct (String.eqb_spec cv (tp_Version topology)).
  - destruct (decide (x = tp_Version topology)) as [|Hx]; [done|].
    by destruct (decisions_behind _ _ _ _ _ _ _ _ _ _ Hmd Hin Hx).
  - destruct (decide (x = tp_Version topology)) as [|Hx]; [done|].
    by destruct (decisions_behind _ _ _ _ _ _ _ _ _ _ Hmp Hin Hx).
Qed.

(** The steps before and after the decisions. *)
Definition same_trackers (s s' : Scope) : Prop :=
  sc_UpgradeTracker s' = sc_UpgradeTracker s ∧ sc_HookResponseTracker s' = sc_HookResponseTracker s.
#[global] Instance same_trackers_preorder : PreOrder same_trackers.
Proof. split; [done|]. unfold same_trackers. intros x y z [-> ->] [-> ->]. done. Qed.

Lemma tp_call_same c : logged sc_calls (λ _, True) same_trackers (tp_call env c).
Proof.
  intros s r s'. unfold tp_call. intros E.
  destruct (te_error env (sc_calls s) c); injection E as <- <-;
    (split; [done|]; eexists; split; [reflexivity|]; by apply Forall_singleton).
Qed.

Lemma getClusterClass_same key : logged sc_calls (λ _, True) same_trackers (getClusterClass env key).
Proof.
  unfold getClusterClass.
  repeat (apply tp_call_same || (apply runs_modify; by intros ?) || logged_step).
Qed.

Lemma topology_reconcileState_untracked : untracked (topology_reconcileState env topology).
Proof.
  unfold untracked, topology_reconcileState, callAfterHooks, callAfterControlPlaneInitialized,
    callAfterClusterUpgrade, add_response, MarkAsPending, MarkAsDone.
  repeat (apply CallAllExtensions_untracked || apply patch_hooks_untracked
    || apply tp_call_untracked || (apply runs_modify; by intros ?) || logged_step).
Qed.

(** A hook that blocks shows in the delay to retry after. *)
Lemma AggregateRetryAfter_single h msg retry :
  in_int32 retry → retry ≠ 0 →
  AggregateRetryAfter (tracker_Add h (CommonRetryResponse msg retry) ∅) ≠ 0.
Proof.
  intros Hr Hne. unfold AggregateRetryAfter, tracker_Add, HookResponseTracker in *.
  assert (go_values (<[HookName h := CommonRetryResponse msg retry]> (∅ : gmap string ResponseObject))
          = [CommonRetryResponse msg retry]) as ->.
  { apply Permutation_singleton_r. unfold go_values. by rewrite go_range_perm, insert_empty, map_to_list_singleton. }
  simpl. unfold LowestNonZeroInt32. simpl. unfold Second.
  rewrite wrap64_id; [lia|]. unfold in_int32, in_int64, int32_min, int32_max, int64_min, int64_max in *. lia.
Qed.

Lemma callBeforeClusterCreateHook_run s res s' :
  (∀ calls h, in_int32 (te_response env calls h).2) → sc_HookResponseTracker s = ∅ →
  callBeforeClusterCreateHook env s = (Ok res, s') →
  same_tracker s s' ∧
  (ctrl_Result_IsZero res = false → AggregateRetryAfter (sc_HookResponseTracker s') ≠ 0).
Proof.
  intros Hint Hs E. split.
  { assert (untracked (callBeforeClusterCreateHook env)) as Hu.
    { unfold untracked, callBeforeClusterCreateHook, add_response.
      repeat (apply CallAllExtensions_untracked || (apply runs_modify; by intros ?) || logged_step). }
    by destruct (Hu _ _ _ E). }
  unfold callBeforeClusterCreateHook in E.
  apply bind_Ok in E as (cluster & s1 & [= <- <-] & E).
  destruct (_ && _) eqn:Hb in E; [|by injection E as <- <-].
  apply bind_Ok in E as ([retry response] & s2 & E2 & E).
  apply bind_Ok in E as ([] & s3 & [= <-] & [= <- <-]).
  assert (in_int32 retry) as Hr.
  { unfold CallAllExtensions in E2. apply bind_Ok in E2 as (calls & s4 & [= <- <-] & E2).
    apply bind_Ok in E2 as ([] & s4 & _ & E2). specialize (Hint (sc_calls s) BeforeClusterCreate).
    destruct (te_response env (sc_calls s) BeforeClusterCreate) as [msg r']. by injection E2 as <- _ _. }
  apply CallAllExtensions_Ok in E2 as (_ & _ & ER & msg & ->). simpl. rewrite ER, Hs.
  destruct (Z.eqb_spec retry 0) as [->|Hne]; [done|]. intros _. by apply AggregateRetryAfter_single.
Qed.

(** If the reconcile of a managed topology succeeds and the Cluster is then reported as
    TopologyReconciled, the versions of its pass were decided, and the control plane, every
    MachineDeployment and every MachinePool of the topology have the version of the topology;
    so the condition is never true while an upgrade is pending, on hold, deferred or
    blocked. *)
Theorem topology_reconciled_at_version cluster key mds mps res s' :
  (∀ calls h, in_int32 (te_response env calls h).2) →
  topology_reconcile env topology controlPlane key mds mps (scope_New cluster) = (Ok res, s') →
  topology_verdict env topology controlPlane s' None = Ok TopologyReconciled →
  ∃ s1 s2 v mdvs mpvs,
    generate_versions env topology controlPlane mds mps s1 = (Ok (v, mdvs, mpvs), s2) ∧
    v = tp_Version topology ∧ mdvs.*1 = topologies topology ∧ mpvs.*1 = topologies topology ∧
    Forall (λ tx, tx.2 = tp_Version topology) mdvs ∧ Forall (λ tx, tx.2 = tp_Version topology) mpvs.
Proof.
  intros Hint E [Ha Hp]%topology_verdict_reconciled. unfold topology_reconcile in E.
  apply bind_Ok in E as ([] & s1 & E1 & E).
  destruct (getClusterClass_same _ _ _ _ E1) as [[Ht1 Hr1] _]. clear E1.
  apply bind_Ok in E as ([] & s2 & ->%tp_call_Ok & E).
  apply bind_Ok in E as ([] & s3 & ->%mwrap_Ok%tp_call_Ok & E).
  apply bind_Ok in E as ([] & s4 & ->%mwrap_Ok%tp_call_Ok & E).
  apply bind_Ok in E as (res0 & s5 & E5 & E).
  assert (sc_UpgradeTracker s5 = sc_UpgradeTracker (scope_New cluster) ∧
    (ctrl_Result_IsZero res0 = false → AggregateRetryAfter (sc_HookResponseTracker s5) ≠ 0))
    as [Ht5 Hz].
  { destruct (te_RuntimeSDK env); [|by injection E5 as <- <-].
    apply callBeforeClusterCreateHook_run in E5 as [Ht5 Hz]; [|done..]. by rewrite Ht5. }
  destruct (ctrl_Result_IsZero res0) eqn:Ez; simpl in E; [|by injection E as <- <-; destruct Hz].
  apply bind_Ok in E as ([] & s6 & ->%mwrap_Ok%tp_call_Ok & E).
  apply bind_Ok in E as ([] & s7 & E7%mwrap_Ok & E).
  apply bind_Ok in E7 as ([[v mdvs] mpvs] & s8 & E8 & ->%tp_call_Ok).
  apply bind_Ok in E as ([] & s9 & E9%mwrap_Ok & E).
  destruct (topology_reconcileState_untracked _ _ _ E9) as [Ht9 _].
  apply bind_Ok in E as (after & s10 & [= <- <-] & [= _ <-]).
  eexists _, s8, v, mdvs, mpvs. split; [exact E8|].
  apply generate_versions_run in E8; [|by simpl; rewrite Ht5].
  eapply pass_not_pending; [|exact E8|]; [by simpl; rewrite Ht5|]. by rewrite <- Hp, Ht9.
Qed.
End reconciled.

(** ** Examples *)

(** A control plane object with three replicas. *)
Definition cp_at (version statusVersion : string) (statusReplicas : Z) : ControlPlaneObject :=
  {| cp_Kind := "KubeadmControlPlane"; cp_Namespace := "ns"; cp_Name := "cp";
     cp_Version := Found version; cp_StatusVersion := Found statusVersion; cp_Replicas := Found 3;
     cp_StatusReplicas := Found statusReplicas; cp_UpdatedReplicas := Found statusReplicas;
     cp_ReadyReplicas := Found statusReplicas; cp_UnavailableReplicas := Found 0 |}.

Definition md_at (name version : string) : MachineDeployment :=
  {| md_TypeMeta := emptyTypeMeta; md_Meta := meta_set_Name name emptyMeta;
     md_Spec := {| mds_ClusterName := "c"; mds_Replicas := Some 1; mds_RolloutAfter := None;
       mds_Selector := emptySelector;
       mds_Template := {| mt_Meta := {| tm_Labels := ∅; tm_Annotations := ∅ |};
         mt_Spec := {| sp_ClusterName := "c"; sp_Bootstrap := sp_Bootstrap emptySpec;
           sp_InfrastructureRef := emptyRef; sp_Version := Some version; sp_ProviderID := None;
           sp_FailureDomain := None; sp_ReadinessGates := []; sp_NodeDrainTimeout := None;
           sp_NodeVolumeDetachTimeout := None; sp_NodeDeletionTimeout := None |} |};
       mds_Strategy := None; mds_MinReadySeconds := None; mds_RevisionHistoryLimit := None;
       mds_Paused := false; mds_ProgressDeadlineSeconds := None |};
     md_Status := emptyMDStatus |}.

Definition md_state (name version : string) `{Unstructured} : MachineDeploymentState :=
  {| mdst_Object := Some (md_at name version); mdst_BootstrapTemplate := None;
     mdst_InfrastructureMachineTemplate := None; mdst_MachineHealthCheck := None |}.

Definition md_topology (name : string) : MachineDeploymentTopology :=
  {| mdt_Metadata := {| tm_Labels := ∅; tm_Annotations := ∅ |}; mdt_Class := "worker";
     mdt_Name := name; mdt_FailureDomain := None; mdt_Replicas := Some 1;
     mdt_MachineHealthCheck := None; mdt_NodeDrainTimeout := None;
     mdt_NodeVolumeDetachTimeout := None; mdt_NodeDeletionTimeout := None;
     mdt_MinReadySeconds := None; mdt_Strategy := None |}.

Definition mp_topology (name : string) : MachinePoolTopology :=
  {| mpt_Metadata := {| tm_Labels := ∅; tm_Annotations := ∅ |}; mpt_Class := "pool";
     mpt_Name := name; mpt_FailureDomains := []; mpt_NodeDrainTimeout := None;
     mpt_NodeVolumeDetachTimeout := None; mpt_NodeDeletionTimeout := None;
     mpt_MinReadySeconds := None; mpt_Replicas := Some 1 |}.

(** Two MachineDeployments of a topology at version 1.31. *)
Definition two_workers : Topology :=
  {| tp_Class := "class"; tp_Version := "v1.31.0"; tp_ControlPlaneReplicas := Some 3;
     tp_Workers := Some {| wt_MachineDeployments := [md_topology "a"; md_topology "b"];
                           wt_MachinePools := [] |} |}.

Definition workers_at (a b : string) : gmap string MachineDeploymentState :=
  <["a"%string := md_state "c-a" a]> {["b"%string := md_state "c-b" b]}.

(** Every call succeeds, every hook answers that there is nothing to wait for. *)
Definition quiet_env : TpEnv :=
  {| te_error _ _ := None; te_machines _ := []; te_kubelet _ _ := "v1.30.0";
     te_response _ _ := (""%string, 0); te_selectorMap _ := Ok ∅;
     te_class _ := {| cc_Meta := emptyMeta; cc_ObservedGeneration := 0;
       cc_Conditions := [TrueCondition ClusterClassVariablesReconciledCondition] |};
     te_clock _ := 0; te_errorString _ := ""; te_RuntimeSDK := true |}.

Definition pass_of (cp : ControlPlaneObject) (mds : gmap string MachineDeploymentState) :=
  generate_versions quiet_env two_workers (Some cp) mds ∅ (scope_New emptyCluster).

Definition workers_pass := pass_of (cp_at "v1.31.0" "v1.31.0" 3) (workers_at "v1.30.0" "v1.30.0").

Lemma workers_pass_run :
  workers_pass = (Ok ("v1.31.0"%string, [(md_topology "a", "v1.31.0"); (md_topology "b", "v1.30.0")]%string,
                      []), workers_pass.2).
Proof. apply run_result. vm_compute. reflexivity. Qed.


(** The first of the two workers is upgraded, as many as allowed. *)
Lemma upgrade_concurrency_witness :
  moved (md_of (workers_at "v1.30.0" "v1.30.0"))
    [(md_topology "a", "v1.31.0"%string); (md_topology "b", "v1.30.0"%string)] = ["c-a"%string] ∧
  ∃ mdr, Forall2 (md_report quiet_env workers_pass.2) (go_values (workers_at "v1.30.0" "v1.30.0")) mdr ∧
    Z.of_nat (size (then_upgrading mdr ["c-a"%string])) ≤ concurrency emptyCluster.
Proof.
  split; [vm_compute; reflexivity|].
  destruct (upgrade_concurrency _ _ _ _ _ _ _ _ _ _ workers_pass_run) as (_ & mdr & mpr & Hr & _ & Hmd & _).
  exists mdr. split; [exact Hr|]. apply Hmd. vm_compute. discriminate.
Defined.

(** The second one waits, since as many as allowed are upgrading. *)
Lemma upgrade_progress_witness :
  ∃ mdr, Forall2 (md_report quiet_env workers_pass.2) (go_values (workers_at "v1.30.0" "v1.30.0")) mdr ∧
    ("v1.30.0"%string = tp_Version two_workers ∨ deferred_by_user two_workers (md_topology "b") ∨
     concurrency emptyCluster ≤ Z.of_nat (size (then_upgrading mdr ["c-a"%string]))).
Proof.
  destruct (upgrade_progress _ _ _ _ _ _ _ _ _ _ workers_pass_run
    ltac:(vm_compute; reflexivity) ltac:(vm_compute; reflexivity) ltac:(vm_compute; reflexivity)
    ltac:(vm_compute; reflexivity) (λ _, eq_refl)) as (_ & _ & mdr & mpr & Hr & _ & Hmd & _).
  exists mdr. split; [exact Hr|]. apply (Hmd (md_topology "b")). right. left.
Defined.

Definition cp_pass := pass_of (cp_at "v1.30.0" "v1.30.0" 3) (workers_at "v1.30.0" "v1.30.0").

Lemma cp_pass_run :
  cp_pass = (Ok ("v1.31.0"%string, [(md_topology "a", "v1.30.0"); (md_topology "b", "v1.30.0")]%string,
                 []), cp_pass.2).
Proof. apply run_result. vm_compute. reflexivity. Qed.

Lemma control_plane_upgrades_alone_witness :
  IsScaling (cp_at "v1.30.0" "v1.30.0" 3) = Ok false ∧
  hooks_called quiet_env two_workers "v1.30.0" cp_pass.2.
Proof.
  destruct (control_plane_upgrades_alone _ _ _ _ _ _ _ _ _ _ cp_pass_run "v1.30.0"%string eq_refl
    ltac:(done)) as (_ & _ & _ & Hs & Hh & _). split; [apply Hs; by eexists|exact Hh].
Defined.

(** A reconcile that finds everything at the version of the topology. *)
Definition settled_reconcile :=
  topology_reconcile quiet_env two_workers (Some (cp_at "v1.31.0" "v1.31.0" 3)) "ns/class"
    (workers_at "v1.31.0" "v1.31.0") ∅ (scope_New emptyCluster).

Lemma topology_reconciled_at_version_witness :
  ∃ s1 s2 v mdvs mpvs,
    generate_versions quiet_env two_workers (Some (cp_at "v1.31.0" "v1.31.0" 3))
      (workers_at "v1.31.0" "v1.31.0") ∅ s1 = (Ok (v, mdvs, mpvs), s2) ∧
    v = tp_Version two_workers ∧ mdvs.*1 = topologies two_workers ∧
    mpvs.*1 = topologies two_workers ∧
    Forall (λ tx, tx.2 = tp_Version two_workers) mdvs ∧
    Forall (λ tx, tx.2 = tp_Version two_workers) mpvs.
Proof.
  apply (topology_reconciled_at_version quiet_env two_workers (Some (cp_at "v1.31.0" "v1.31.0" 3))
           emptyCluster "ns/class" (workers_at "v1.31.0" "v1.31.0") ∅ zero_Result settled_reconcile.2).
  - intros calls h. vm_compute. split; discriminate.
  - apply run_result. vm_compute. reflexivity.
  - vm_compute. reflexivity.
Defined.

(** ** Where the code is less careful than it says *)

(** A control plane at the version of the topology is not checked for scaling, so that it counts
    as stable, and workers start to upgrade, while it scales. *)
Lemma workers_upgrade_while_scaling :
  let cp := cp_at "v1.31.0" "v1.31.0" 2 in
  let s' := (pass_of cp (workers_at "v1.30.0" "v1.30.0")).2 in
  IsScaling cp = Ok true ∧ cpt_IsScaling (ut_ControlPlane (sc_UpgradeTracker s')) = false ∧
  scope_stable s' = true ∧
  (pass_of cp (workers_at "v1.30.0" "v1.30.0")).1
  = Ok ("v1.31.0"%string, [(md_topology "a", "v1.31.0"); (md_topology "b", "v1.30.0")]%string, []).
Proof. vm_compute. done. Qed.

(** One MachinePool, and a workload cluster that cannot be reached. *)
Definition one_pool : Topology :=
  {| tp_Class := "class"; tp_Version := "v1.31.0"; tp_ControlPlaneReplicas := Some 3;
     tp_Workers := Some {| wt_MachineDeployments := []; wt_MachinePools := [mp_topology "p"] |} |}.

Definition down_env : TpEnv :=
  {| te_error _ c := match c with
                     | TpGetClient => Some (Wrap "error getting client"
                         (Errorf "connection to the workload cluster is down"))
                     | _ => None
                     end;
     te_machines := te_machines quiet_env; te_kubelet := te_kubelet quiet_env;
     te_response := te_response quiet_env; te_selectorMap := te_selectorMap quiet_env;
     te_class := te_class quiet_env; te_clock := te_clock quiet_env;
     te_errorString := te_errorString quiet_env; te_RuntimeSDK := true |}.

Definition pools_at (version : string) : gmap string MachinePoolState :=
  {["p"%string := {| mpst_Object := Some {| mp_Meta := meta_set_Name "c-p" emptyMeta;
      mp_Template := md_Template (md_at "" version); mp_NodeRefs := [] |} |}]}.

(** The error of a workload cluster that is down is replaced by a delay before the condition is
    set, so that a Cluster whose control plane and MachinePool are both at an older version is
    reported as TopologyReconciled. *)
Lemma reconciled_while_disconnected :
  let '(r, s') := topology_Reconcile down_env one_pool (Some (cp_at "v1.30.0" "v1.30.0" 3))
                    "ns/c" (Ok "Cluster"%string) "ns/class" ∅ (pools_at "v1.30.0")
                    (scope_New emptyCluster) in
  r = Ok {| cr_Requeue := false; cr_RequeueAfter := Minute |} ∧
  IsTrue (sc_Cluster s') TopologyReconciledCondition = true ∧
  last (sc_calls s') = Some (TpPatchConditions (sc_Cluster s')).
Proof. vm_compute. done. Qed.
