(* ===== verification/TopologyInvariant.v ===== *)
(** * Managed topologies: versions over time

    Users change the version of a topology, reconciles apply (parts of) what a pass decides, and
    everything else, from the status of the control plane to the Machines, changes on its own.
    Over every such history no worker has a version ahead of the control plane. *)

From S2P Require Import Prelude GoStd Api Apimachinery Util Conditions Version Collections.
From S2P Require Import ConditionsV1Beta2 External MdUtil MachineSetPolicy MachineSet.
From S2P Require Import MachineHealthCheck TopologyUpgrade TopologyUpgradeSpec.

(** A new worker that is not pending is created at the version of the topology while the control
    plane is stable. *)
Lemma decisions_created topology {T} `{WorkerKind T} stable blocking current w ts vs w' t x :
  decisions topology stable blocking current w ts vs w' → (t, x) ∈ vs → current t = None →
  x = tp_Version topology ∧ (IsPendingCreate w' (wk_Name t) = false → stable = true).
Proof.
  intros Hds Hin Hc.
  destruct (decisions_elem _ _ _ _ _ _ _ _ _ _ Hds Hin) as (w1 & w2 & Hd & _ & _ & _ & Hp & _).
  rewrite Hc in Hd. inversion Hd; subst. split; [done|].
  intros Hn%bool_decide_eq_false. destruct stable; [done|]. destruct Hn. apply Hp. simpl. set_solver.
Qed.

Section history.
Context `{GoSort} `{GoRange} `{Apimachinery} `{Semver} `{Unstructured}.

(** The parts of a Cluster with a version. *)
Record Fleet := {
  fl_Topology : Topology;
  fl_ControlPlane : ControlPlaneObject;
  fl_mds : gmap string MachineDeploymentState;
  fl_mps : gmap string MachinePoolState;
}.

(** One worker after some of the decisions [vs] were applied: it is as before, is gone, or has the
    version decided; a worker that is pending creation is not created. *)
Definition applied_one {T} `{WorkerKind T} (vs : list (T * string)) (w : WorkerUpgradeTracker)
    (k : string) (before after : option (string * option string)) : Prop :=
  after = before ∨ after = None ∨
  ∃ t x name, (t, x) ∈ vs ∧ wk_Name t = k ∧ after = Some (name, Some x) ∧
    (before = None → IsPendingCreate w k = false).

(** [older] orders the versions that users choose. *)
Context (older : string → string → Prop) `{!Transitive older}.

Definition behind (a b : string) : Prop := a = b ∨ older a b.

Inductive fleet_step : Fleet → Fleet → Prop :=
| step_user f topology' :
    behind (tp_Version (fl_Topology f)) (tp_Version topology') →
    fleet_step f {| fl_Topology := topology'; fl_ControlPlane := fl_ControlPlane f;
                    fl_mds := fl_mds f; fl_mps := fl_mps f |}
| step_observe f cp' mds' mps' :
    Version_Get cp' = Version_Get (fl_ControlPlane f) →
    (∀ k, md_current (mds' !! k) = md_current (fl_mds f !! k)) →
    (∀ k, mp_current (mps' !! k) = mp_current (fl_mps f !! k)) →
    fleet_step f {| fl_Topology := fl_Topology f; fl_ControlPlane := cp';
                    fl_mds := mds'; fl_mps := mps' |}
| step_pass env cluster v mdvs mpvs s' f cp' mds' mps' :
    generate_versions env (fl_Topology f) (Some (fl_ControlPlane f)) (fl_mds f) (fl_mps f)
      (scope_New cluster) = (Ok (v, mdvs, mpvs), s') →
    Version_Get cp' = Version_Get (fl_ControlPlane f) ∨ Version_Get cp' = Ok v →
    (∀ k, applied_one mdvs (ut_MachineDeployments (sc_UpgradeTracker s')) k
            (md_current (fl_mds f !! k)) (md_current (mds' !! k))) →
    (∀ k, applied_one mpvs (ut_MachinePools (sc_UpgradeTracker s')) k
            (mp_current (fl_mps f !! k)) (mp_current (mps' !! k))) →
    fleet_step f {| fl_Topology := fl_Topology f; fl_ControlPlane := cp';
                    fl_mds := mds'; fl_mps := mps' |}.

(** The control plane is at or behind the topology, and every worker at or behind it. *)
Definition skew_ok (f : Fleet) : Prop :=
  ∃ cv, Version_Get (fl_ControlPlane f) = Ok cv ∧ behind cv (tp_Version (fl_Topology f)) ∧
    (∀ k name c, md_current (fl_mds f !! k) = Some (name, Some c) → behind c cv) ∧
    (∀ k name c, mp_current (fl_mps f !! k) = Some (name, Some c) → behind c cv).

Lemma behind_trans a b c : behind a b → behind b c → behind a c.
Proof. unfold behind. intros [->|Hab] [->|Hbc]; eauto. Qed.

(** What a pass applies to one worker keeps it behind the control plane. *)
Lemma applied_behind topology {T} `{WorkerKind T} stable blocking (current : T → option (string * option string))
    w ts vs w' k before after cv v name c :
  decisions topology stable blocking current w ts vs w' →
  (∀ t, wk_Name t = k → current t = before) →
  (stable = true → v = tp_Version topology) → behind cv v →
  (∀ n c', before = Some (n, Some c') → behind c' cv) →
  applied_one vs w' k before after → after = Some (name, Some c) → behind c v.
Proof.
  intros Hds Hcur Hst Hcv Hb Ha Hc.
  destruct Ha as [->|[->|(t & x & n & Hin & <- & -> & Hnew)]]; [|done|].
  { eapply behind_trans; [by eapply Hb|done]. }
  injection Hc as <- ->. specialize (Hcur t eq_refl).
  destruct (current t) as [[n' [c'|]]|] eqn:Ec; subst before.
  - destruct (decide (c = c')) as [->|Hne]; [eapply behind_trans; [by eapply Hb|done]|].
    destruct (decisions_moved _ _ _ _ _ _ _ _ _ _ _ _ Hds Hin Ec Hne) as (-> & Hs & _).
    left. symmetry. by apply Hst.
  - destruct (decisions_elem _ _ _ _ _ _ _ _ _ _ Hds Hin) as (w1 & w2 & Hd & _).
    rewrite Ec in Hd. inversion Hd.
  - destruct (decisions_created _ _ _ _ _ _ _ _ _ _ Hds Hin Ec) as [-> Hp].
    left. symmetry. by apply Hst, Hp, Hnew.
Qed.

Lemma fleet_step_skew f f' : fleet_step f f' → skew_ok f → skew_ok f'.
Proof.
  intros Hstep (cv & Hcv & Htop & Hmd & Hmp).
  destruct Hstep as [f top' Hu|f cp' mds' mps' Hv Emd Emp|env cluster v mdvs mpvs s' f cp' mds' mps' E Hv Amd Amp];
    unfold skew_ok; simpl in *.
  - exists cv. split_and!; try done. by eapply behind_trans.
  - exists cv. rewrite Hv. split_and!; try done.
    + intros k n c. rewrite Emd. apply Hmd.
    + intros k n c. rewrite Emp. apply Hmp.
  - destruct (generate_versions_run _ _ _ _ _ _ _ _ _ _ (scope_New_fresh cluster) E)
      as (mdN & mpN & (cv' & Hcv' & Hcp) & Dmd & Dmp). rewrite Hcv in Hcv'. injection Hcv' as <-.
    assert (∃ cv', Version_Get cp' = Ok cv' ∧ behind cv cv' ∧ behind cv' (tp_Version (fl_Topology f)) ∧
      (scope_stable s' = true → cv' = tp_Version (fl_Topology f))) as (cv' & Hcv' & Hb & Hb' & Hst).
    { assert (scope_stable s' = true →
        cv = tp_Version (fl_Topology f) ∧ v = tp_Version (fl_Topology f)) as Hst.
      { intros Hs. by destruct (cp_decision_stable _ _ _ _ _ _ _ Hcp Hs) as (? & ? & _). }
      destruct Hv as [Hv|Hv]; rewrite Hv.
      - exists cv. split_and!; [done|by left|done|]. intros Hs. by apply Hst.
      - exists v. split_and!; [done|destruct Hcp; first [by left|done]|destruct Hcp; first [by left|done]|].
        intros Hs. by apply Hst. }
    exists cv'. split_and!; [done..| |].
    + intros k n c. intros Hc. refine (applied_behind _ _ _ _ _ _ _ _ k _ _ cv _ _ _ Dmd _ Hst Hb _ (Amd k) Hc);
        [by intros t <-|apply Hmd].
    + intros k n c. intros Hc. refine (applied_behind _ _ _ _ _ _ _ _ k _ _ cv _ _ _ Dmp _ Hst Hb _ (Amp k) Hc);
        [by intros t <-|apply Hmp].
Qed.

(** C4: Whatever users, reconciles (complete or cut short) and the rest of the system do, as long
    as the versions chosen for the topology only move forward, the control plane stays at or
    behind the version of the topology and every MachineDeployment and MachinePool stays at or
    behind the version of the control plane. *)
Theorem version_skew_invariant f f' : rtc fleet_step f f' → skew_ok f → skew_ok f'.
Proof. induction 1 as [|f f1 f' Hs Hrtc IH]; [done|]. intros Hf. eapply IH, fleet_step_skew; eauto. Qed.
End history.

(** ** A history *)

Definition older_text (a b : string) : Prop := string_ltb a b = true.

#[global] Instance older_text_trans : Transitive older_text.
Proof. intros a b c. apply string_ltb_trans. Qed.

Definition fleet (topology : Topology) (cp : ControlPlaneObject) (a b : string) : Fleet :=
  {| fl_Topology := topology; fl_ControlPlane := cp; fl_mds := workers_at a b; fl_mps := ∅ |}.

Definition two_workers_before : Topology :=
  {| tp_Class := "class"; tp_Version := "v1.30.0"; tp_ControlPlaneReplicas := Some 3;
     tp_Workers := tp_Workers two_workers |}.

(** The user asks for 1.31, the control plane picks it up, finishes, and the first worker
    follows. *)
Lemma upgrade_history :
  rtc (fleet_step older_text)
    (fleet two_workers_before (cp_at "v1.30.0" "v1.30.0" 3) "v1.30.0" "v1.30.0")
    (fleet two_workers (cp_at "v1.31.0" "v1.31.0" 3) "v1.31.0" "v1.30.0").
Proof.
  eapply rtc_l; [apply (step_user _ _ two_workers); by right|].
  eapply rtc_l; [eapply (step_pass _ quiet_env emptyCluster _ _ _ _
    (fleet two_workers (cp_at "v1.30.0" "v1.30.0" 3) "v1.30.0" "v1.30.0")
    (cp_at "v1.31.0" "v1.30.0" 3) (workers_at "v1.30.0" "v1.30.0") ∅ cp_pass_run); [by right|by left|by left]|].
  eapply rtc_l; [eapply (step_observe _ _ (cp_at "v1.31.0" "v1.31.0" 3)
    (workers_at "v1.30.0" "v1.30.0") ∅); done|].
  apply rtc_once. eapply (step_pass _ quiet_env emptyCluster _ _ _ _
    (fleet two_workers (cp_at "v1.31.0" "v1.31.0" 3) "v1.30.0" "v1.30.0") _ _ _ workers_pass_run);
    [by left| |by left].
  intros k. destruct (decide (k = "a"%string)) as [->|Hk].
  - right. right. exists (md_topology "a"), "v1.31.0"%string, "c-a"%string. split_and!; [left|done..].
  - left. simpl. unfold workers_at. by rewrite !lookup_insert_ne by done.
Qed.

Lemma version_skew_invariant_witness :
  skew_ok older_text (fleet two_workers (cp_at "v1.31.0" "v1.31.0" 3) "v1.31.0" "v1.30.0").
Proof.
  apply (version_skew_invariant older_text _ _ upgrade_history).
  exists "v1.30.0"%string. split_and!; [done|by left| |done].
  intros k name c. simpl. unfold workers_at.
  destruct (decide (k = "a"%string)) as [->|Hk]; [rewrite lookup_insert_eq; intros [= <- <-]; by left|].
  rewrite lookup_insert_ne by done.
  destruct (decide (k = "b"%string)) as [->|Hk']; [rewrite lookup_singleton_eq; intros [= <- <-]; by left|].
  by rewrite lookup_singleton_ne.
Defined.
