(* ===== verification/RemediationHandoff.v ===== *)
(** * From the MachineHealthCheck to the owners of Machines

    The conditions the MachineHealthCheck controller sets on an unhealthy Machine are the ones the
    MachineSet and KubeadmControlPlane controllers look for: what the first hands over is what the
    others remediate, and a Machine found healthy is left alone. *)

From S2P Require Import Prelude GoStd Api Apimachinery Util Conditions Version Collections.
From S2P Require Import ConditionsV1Beta2 External MdUtil MachineSetPolicy MachineSet MachineSetSpec.
From S2P Require Import KcpTypes KubeadmControlPlane MachineHealthCheck MachineHealthCheckSpec.

Section handoff.
Context `{GoRange} `{Apimachinery} `{GoSort} `{MetaConditions} `{Unstructured}.
Context (env : HcEnv).

(** A Machine is found under its name when no other has it. *)
Lemma by_name_lookup h l p :
  p ∈ l → (∀ q, q ∈ l → m_Name (mheap_get h q) = m_Name (mheap_get h p) → q = p) →
  by_name h l !! m_Name (mheap_get h p) = Some p.
Proof.
  unfold by_name. generalize (∅ : gmap string mptr).
  induction l as [|q l IH] using rev_ind; intros m Hin Huniq; [by apply elem_of_nil in Hin|].
  rewrite foldl_app. simpl.
  destruct (decide (m_Name (mheap_get h q) = m_Name (mheap_get h p))) as [Hq|Hq].
  - rewrite (Huniq q) by (set_solver || done). apply lookup_insert_eq.
  - rewrite lookup_insert_ne by done. apply IH; [set_solver|]. intros q' Hq'. apply Huniq. set_solver.
Qed.

Lemma IsFalse_v1beta2_Set now api (m : Machine) c t : IsFalse (v1beta2_Set now api m c) t = IsFalse m t.
Proof.
  unfold v1beta2_Set, v1beta2_Set_sorted. by destruct (setStatusCondition _ _ _ _) as [cs []].
Qed.

(** The condition of the owner is false after the Machine is marked. *)
Lemma mark_for_owner_run m s :
  wf_machine m →
  (∀ c, Get m MachineOwnerRemediatedCondition = Some c →
     c_Status c = ConditionTrue ∨ c_Status c = ConditionFalse) →
  ∃ m' s', mark_for_owner env m s = (Ok m', s') ∧ m_Meta m' = m_Meta m ∧
    IsFalse m' MachineOwnerRemediatedCondition = true ∧
    IsFalse m' MachineHealthCheckSucceededCondition = IsFalse m MachineHealthCheckSucceededCondition.
Proof.
  intros Hwf Hc. unfold mark_for_owner.
  assert (∃ m1 s1, (if negb (Has m MachineOwnerRemediatedCondition)
      || IsTrue m MachineOwnerRemediatedCondition
    then now ← tick env; mret (MarkFalse now m MachineOwnerRemediatedCondition
           WaitingForRemediationReason ConditionSeverityWarning "")
    else mret m) s = (Ok m1, s1) ∧ m_Meta m1 = m_Meta m ∧
    IsFalse m1 MachineOwnerRemediatedCondition = true ∧
    IsFalse m1 MachineHealthCheckSucceededCondition = IsFalse m MachineHealthCheckSucceededCondition)
    as (m1 & s1 & E1 & Hm1 & Hf1 & Hg1).
  { destruct (negb _ || _) eqn:Hb.
    - eexists _, _. split; [reflexivity|]. split; [done|]. destruct Hwf as [Hnd _].
      unfold IsFalse, MarkFalse. rewrite !Set_Get_aux by done. simpl. split; [|done].
      unfold set_value. destruct (Get m _) as [e|]; [|done].
      destruct (HasSameState e _) eqn:E; [|done]. unfold HasSameState in E.
      do 3 apply andb_prop in E as [E _]. by apply andb_prop in E as [_ E].
    - exists m, s. split_and!; try done. apply orb_false_iff in Hb as [Hh Ht].
      apply negb_false_iff, bool_decide_eq_true in Hh as [c Hg]. unfold IsTrue, IsFalse in *.
      rewrite Hg in *. destruct (Hc c eq_refl) as [Hs|Hs]; [|by rewrite Hs].
      by rewrite Hs in Ht. }
  unfold mbind, M_bind in *. rewrite E1.
  destruct (match v1beta2_Get m1 _ with Some _ => _ | None => _ end).
  - eexists _, _. split; [reflexivity|]. rewrite !IsFalse_v1beta2_Set.
    split_and!; [|done..]. rewrite <- Hm1. apply MachineHealthCheckSpec.v1beta2_Set_Meta.
  - eexists _, _. split; [reflexivity|]. done.
Qed.

(** C37: The hand-over between the controllers fits.  When the health check finds that a Machine
    needs remediation, the Machine is not paused, there is no remediation template and no other
    remediation of it has an unknown outcome, the controller marks the Machine without an error,
    keeps its metadata, and the marked Machine is then among the Machines its owner remediates: a
    MachineSet that lists it, unless it is being deleted, and a KubeadmControlPlane that owns
    it. *)
Theorem remediation_handoff (rd : Readings) (t t' : healthCheckTarget) (timeout d : Z)
    (cluster : Cluster) (s : HcState) :
  wf_machine (hct_Machine t) →
  (hct_nodeMissing t = true → is_Some (st_NodeRef (m_Status (hct_Machine t)))) →
  (∀ c, Get (hct_Machine t) MachineOwnerRemediatedCondition = Some c →
     c_Status c = ConditionTrue ∨ c_Status c = ConditionFalse) →
  needsRemediation rd t timeout = Ok (t', (true, d)) →
  IsPaused cluster (m_Meta (hct_Machine t)) = false →
  mhs_RemediationTemplate (mh_Spec (hc_mhc s)) = None →
  ∃ t'' s', remediate_target env cluster t' s = (Ok (inl t''), s') ∧
    m_Meta (hct_Machine t'') = m_Meta (hct_Machine t) ∧
    (∀ h l p, p ∈ l → mheap_get h p = hct_Machine t'' →
       (∀ q, q ∈ l → m_Name (mheap_get h q) = m_Name (mheap_get h p) → q = p) →
       is_deleting (hct_Machine t'') = false → p ∈ to_remediate h l) ∧
    (∀ c k, keyed (cpl_Machines c) → cpl_Machines c !! k = Some (hct_Machine t'') →
       MachinesToBeRemediatedByKCP c !! k = Some (hct_Machine t'')).
Proof.
  intros Hwf Hnm Hst E Hp Ht.
  destruct (needsRemediation_outcome rd t timeout Hwf Hnm) as (t1 & b & d1 & E1 & Ha).
  rewrite E in E1. injection E1 as <- <- <-.
  destruct (ca_marked _ _ _ _ _ _ Ha eq_refl) as (_ & _ & Hf & Hs).
  destruct (mark_for_owner_run (hct_Machine t') s) as (m' & s' & Em & Hmeta & Ho & Hu).
  { apply Hs. }
  { intros c. rewrite (se_conditions _ _ _ _ Hs) by set_solver. apply Hst. }
  exists (hct_set_Machine m' t'), s'.
  assert (IsUnhealthyAndOwnerRemediated (Some m') = true) as Hsel.
  { simpl. by rewrite Hu, Hf, Ho. }
  split_and!.
  - unfold remediate_target, mbind, M_bind, gets. rewrite (se_Meta _ _ _ _ Hs), Hp, Ht.
    unfold IsFalse in Hf. destruct (Get (hct_Machine t') MachineHealthCheckSucceededCondition); [|done].
    simpl. unfold lift. by rewrite Em.
  - simpl. rewrite Hmeta. apply Hs.
  - simpl. intros h l p Hin Hh Hq Hdel. unfold to_remediate. apply elem_of_go_values.
    exists (m_Name (mheap_get h p)). apply map_lookup_filter_Some.
    split; [by apply by_name_lookup|]. rewrite Hh. apply And_true. intros f Hf'.
    apply elem_of_cons in Hf' as [->|[->|[]%elem_of_nil]%elem_of_cons]; [done|].
    unfold Not. simpl. unfold is_deleting in Hdel. by apply negb_true_iff.
  - simpl. intros c k Hk Hl. apply Filter_lookup; [done|]. split; [done|].
    intros f ->%list_elem_of_singleton. done.
Qed.
End handoff.

(** A Machine without a Node that timed out, owned by a MachineSet with no other Machine. *)
Lemma remediation_handoff_witness :
  ∃ m, IsUnhealthyAndOwnerRemediated (Some m) = true ∧ 1%nat ∈ to_remediate {[1%nat := m]} [1%nat].
Proof.
  destruct (needsRemediation (readings_at (11 * Minute)) waiting (10 * Minute)) as [[t' [b d]]|e|] eqn:E;
    [|vm_compute in E; discriminate..].
  assert (b = true) as -> by (vm_compute in E; by injection E).
  destruct (remediation_handoff hc_env (readings_at (11 * Minute)) waiting t' (10 * Minute) d up hc_start
    wf_emptyMachine ltac:(discriminate) ltac:(discriminate) E eq_refl eq_refl)
    as (t'' & s' & _ & Hm & Hset & _).
  assert (1%nat ∈ to_remediate {[1%nat := hct_Machine t'']} [1%nat]) as Hin.
  { apply Hset.
    - left.
    - unfold mheap_get. by rewrite lookup_singleton_eq.
    - by intros q ->%list_elem_of_singleton.
    - unfold is_deleting. by rewrite Hm. }
  exists (hct_Machine t''). split; [|exact Hin].
  apply elem_of_to_remediate in Hin as (_ & Hu & _). unfold mheap_get in Hu.
  by rewrite lookup_singleton_eq in Hu.
Defined.
