(* ===== verification/InitLock.v ===== *)
(** * The control plane init lock (bootstrap/kubeadm/internal/locking)

    A control plane machine takes a lock before it runs kubeadm init: a ConfigMap of the
    cluster that names the machine.  The reconcilers of the machines run concurrently, so
    [Lock] and [Unlock] are programs of calls to the API server, and the system of all
    machines interleaves them call by call; a call may fail, with or without its effect. *)

From Stdlib Require Import Ascii.
From S2P Require Import Prelude GoStd Json Api.

(** ** Calls to the API server *)

Inductive api_error := NotFound | AlreadyExists | OtherError.

Record ConfigMap := {
  cm_Namespace : string;
  cm_Name : string;
  cm_Labels : gmap string string;
  cm_OwnerReferences : list OwnerReference;
  cm_Data : gmap string string;
}.

Inductive LockProg (A : Type) :=
| Done (a : A)
| GetConfigMap (ns name : string) (k : ConfigMap + api_error → LockProg A)
| GetMachine (ns name : string) (k : unit + api_error → LockProg A)
| CreateConfigMap (cm : ConfigMap) (k : unit + api_error → LockProg A)
| DeleteConfigMap (ns name : string) (k : unit + api_error → LockProg A).
Arguments Done {A} a.
Arguments GetConfigMap {A} ns name k.
Arguments GetMachine {A} ns name k.
Arguments CreateConfigMap {A} cm k.
Arguments DeleteConfigMap {A} ns name k.

#[global] Instance LockProg_ret : MRet LockProg := λ A, Done.
#[global] Instance LockProg_bind : MBind LockProg := λ A B f,
  fix go (p : LockProg A) : LockProg B :=
    match p with
    | Done a => f a
    | GetConfigMap ns name k => GetConfigMap ns name (λ r, go (k r))
    | GetMachine ns name k => GetMachine ns name (λ r, go (k r))
    | CreateConfigMap cm k => CreateConfigMap cm (λ r, go (k r))
    | DeleteConfigMap ns name k => DeleteConfigMap ns name (λ r, go (k r))
    end.

(** ** The semaphore *)

Definition semaphoreInformationKey : string := "lock-information".

Record information := { in_MachineName : string }.

Definition configMapName (clusterName : string) : string := clusterName +:+ "-lock".

Fixpoint to_lower (s : string) : string :=
  match s with
  | EmptyString => EmptyString
  | String c s => String (if (65 <=? byte c) && (byte c <=? 90) then of_byte (byte c + 32) else c) (to_lower s)
  end.

(** [json.Unmarshal] into the struct: a field is matched without regard to case, null leaves
    it as it is, a value of another type is an error that does not stop the decoding. *)
Definition unmarshal_field (st : string * bool) (field : string * json) : string * bool :=
  let '(name, failed) := st in
  let '(key, value) := field in
  if String.eqb (to_lower key) "machinename" then
    match value with
    | JString s => (s, failed)
    | JNull => (name, failed)
    | _ => (name, true)
    end
  else (name, failed).

Definition unmarshal_information (data : string) : result information :=
  match decode data with
  | Some (JObject fields) =>
      let '(name, failed) := foldl unmarshal_field ("", false)%string fields in
      if failed then Err (Errorf "json: cannot unmarshal into Go struct field information.machineName")
      else Ok {| in_MachineName := name |}
  | Some JNull => Ok {| in_MachineName := "" |}
  | Some _ => Err (Errorf "json: cannot unmarshal into Go value of type locking.information")
  | None => Err (Errorf "invalid JSON")
  end.

(** A missing key reads as the empty string. *)
Definition semaphore_information (s : ConfigMap) : result information :=
  wrapErr "failed to unmarshal semaphore information"
    (unmarshal_information (default "" (cm_Data s !! semaphoreInformationKey))).

(** Marshalling a struct of one string never fails. *)
Definition setInformation (i : information) (s : ConfigMap) : ConfigMap :=
  {| cm_Namespace := cm_Namespace s; cm_Name := cm_Name s; cm_Labels := cm_Labels s;
     cm_OwnerReferences := cm_OwnerReferences s;
     cm_Data := {[semaphoreInformationKey := encode_field "machineName" (in_MachineName i)]} |}.

Definition newSemaphore : ConfigMap :=
  {| cm_Namespace := ""; cm_Name := ""; cm_Labels := ∅; cm_OwnerReferences := []; cm_Data := ∅ |}.

Definition setMetadata (cluster : Cluster) (s : ConfigMap) : ConfigMap :=
  {| cm_Namespace := om_Namespace (cl_Meta cluster);
     cm_Name := configMapName (om_Name (cl_Meta cluster));
     cm_Labels := {[ClusterNameLabel := om_Name (cl_Meta cluster)]};
     cm_OwnerReferences :=
       [{| or_APIVersion := "cluster.x-k8s.io/v1beta1"; or_Kind := "Cluster";
           or_Name := om_Name (cl_Meta cluster); or_UID := om_UID (cl_Meta cluster);
           or_Controller := None; or_BlockOwnerDeletion := None |}];
     cm_Data := cm_Data s |}.

(** ** The mutex *)

Definition Unlock (cluster : Cluster) : LockProg bool :=
  let ns := om_Namespace (cl_Meta cluster) in
  let cmName := configMapName (om_Name (cl_Meta cluster)) in
  GetConfigMap ns cmName (λ r,
    match r with
    | inr NotFound => Done true
    | inr _ => Done false
    | inl cm =>
        DeleteConfigMap (cm_Namespace cm) (cm_Name cm) (λ r,
          match r with
          | inr NotFound => Done true
          | inr _ => Done false
          | inl _ => Done true
          end)
    end).

Definition acquire (cluster : Cluster) (machine : string) : LockProg bool :=
  let sema := setInformation {| in_MachineName := machine |} (setMetadata cluster newSemaphore) in
  CreateConfigMap sema (λ r,
    match r with
    | inr _ => Done false
    | inl _ => Done true
    end).

Definition Lock (cluster : Cluster) (machine : string) : LockProg bool :=
  let ns := om_Namespace (cl_Meta cluster) in
  let cmName := configMapName (om_Name (cl_Meta cluster)) in
  GetConfigMap ns cmName (λ r,
    match r with
    | inr NotFound => acquire cluster machine
    | inr _ => Done false
    | inl cm =>
        match semaphore_information cm with
        | Ok info =>
            if String.eqb (in_MachineName info) machine then Done true
            else
              GetMachine ns (in_MachineName info) (λ r,
                match r with
                | inr NotFound => _ ← Unlock cluster; Done false
                | _ => Done false
                end)
        | _ => Done false
        end
    end).

(** ** The API server *)

Record ApiStore := {
  as_configmaps : gmap (string * string) ConfigMap;
  as_machines : gset (string * string);
}.

(** Whether a call works, fails, or takes effect and fails. *)
Inductive fault := Works | Fails | FailsAfter.

Definition answer {A} (f : fault) (r : A + api_error) : A + api_error :=
  match f with Works => r | _ => inr OtherError end.

Definition create (cm : ConfigMap) (st : ApiStore) : ApiStore * (unit + api_error) :=
  let key := (cm_Namespace cm, cm_Name cm) in
  match as_configmaps st !! key with
  | Some _ => (st, inr AlreadyExists)
  | None => ({| as_configmaps := <[key := cm]> (as_configmaps st); as_machines := as_machines st |}, inl tt)
  end.

Definition remove (key : string * string) (st : ApiStore) : ApiStore * (unit + api_error) :=
  match as_configmaps st !! key with
  | Some _ => ({| as_configmaps := delete key (as_configmaps st); as_machines := as_machines st |}, inl tt)
  | None => (st, inr NotFound)
  end.

(** The next call of a program; [None] when it is done. *)
Definition api_step {A} (f : fault) (st : ApiStore) (p : LockProg A) : option (ApiStore * LockProg A) :=
  match p with
  | Done _ => None
  | GetConfigMap ns name k =>
      let r := match as_configmaps st !! (ns, name) with Some cm => inl cm | None => inr NotFound end in
      Some (st, k (answer f r))
  | GetMachine ns name k =>
      let r := if bool_decide ((ns, name) ∈ as_machines st) then inl tt else inr NotFound in
      Some (st, k (answer f r))
  | CreateConfigMap cm k =>
      let '(st', r) := create cm st in
      Some (match f with Fails => st | _ => st' end, k (answer f r))
  | DeleteConfigMap ns name k =>
      let '(st', r) := remove (ns, name) st in
      Some (match f with Fails => st | _ => st' end, k (answer f r))
  end.

(** A program on its own, without faults. *)
Fixpoint run_alone {A} (p : LockProg A) (st : ApiStore) : ApiStore * A :=
  match p with
  | Done a => (st, a)
  | GetConfigMap ns name k =>
      run_alone (k (match as_configmaps st !! (ns, name) with Some cm => inl cm | None => inr NotFound end)) st
  | GetMachine ns name k =>
      run_alone (k (if bool_decide ((ns, name) ∈ as_machines st) then inl tt else inr NotFound)) st
  | CreateConfigMap cm k => let '(st', r) := create cm st in run_alone (k r) st'
  | DeleteConfigMap ns name k => let '(st', r) := remove (ns, name) st in run_alone (k r) st'
  end.

(** ** The machines of a cluster

    Every machine has one reconciler.  While the Cluster it reads does not say that the control
    plane is initialized, it takes the lock before it generates the data for kubeadm init and
    releases it when that fails (handleClusterNotInitialized); otherwise the machine joins, and
    the reconciler first releases whatever lock there is (reconcile).  A reconciler reads the
    Cluster from a cache, so it may miss that the control plane is initialized, but not see it
    too early.  A machine that took the lock and did not release it is in [granted]. *)

Inductive thread :=
| Idle
| Locking (p : LockProg bool)
| Unlocking (p : LockProg bool).

Record LockSystem := {
  ls_store : ApiStore;
  ls_threads : gmap string thread;
  ls_granted : gset string;
  ls_initialized : bool;
}.

Inductive lock_event :=
| StartLock (m : string)
| ApiCall (m : string) (f : fault)
| Finish (m : string)
| GenerationFails (m : string)
| Initialized
| StartJoin (m : string)
| AddMachine (m : string)
| MachineDeleted (m : string).

Section system.
Context (cluster : Cluster).
Let ns := om_Namespace (cl_Meta cluster).

Definition thread_of (s : LockSystem) (m : string) : thread := default Idle (ls_threads s !! m).

Definition set_thread (m : string) (t : thread) (s : LockSystem) : LockSystem :=
  {| ls_store := ls_store s; ls_threads := <[m := t]> (ls_threads s); ls_granted := ls_granted s;
     ls_initialized := ls_initialized s |}.

Definition set_store (st : ApiStore) (s : LockSystem) : LockSystem :=
  {| ls_store := st; ls_threads := ls_threads s; ls_granted := ls_granted s;
     ls_initialized := ls_initialized s |}.

Definition set_granted (g : gset string) (s : LockSystem) : LockSystem :=
  {| ls_store := ls_store s; ls_threads := ls_threads s; ls_granted := g;
     ls_initialized := ls_initialized s |}.

Definition set_machines (ms : gset (string * string)) (s : LockSystem) : LockSystem :=
  set_store {| as_configmaps := as_configmaps (ls_store s); as_machines := ms |} s.

Definition set_initialized (s : LockSystem) : LockSystem :=
  {| ls_store := ls_store s; ls_threads := ls_threads s; ls_granted := ls_granted s; ls_initialized := true |}.

(** A reconciler that sees an initialized control plane releases the lock, whoever took it. *)
Definition join_unlock (m : string) (s : LockSystem) : option LockSystem :=
  match thread_of s m with
  | Idle => if ls_initialized s
            then Some (set_granted (ls_granted s ∖ {[m]}) (set_thread m (Unlocking (Unlock cluster)) s))
            else None
  | _ => None
  end.

Definition lock_step (e : lock_event) (s : LockSystem) : option LockSystem :=
  match e with
  | StartLock m =>
      match thread_of s m with
      | Idle => if bool_decide ((ns, m) ∈ as_machines (ls_store s))
                then Some (set_thread m (Locking (Lock cluster m)) s) else None
      | _ => None
      end
  | ApiCall m f =>
      match thread_of s m with
      | Idle => None
      | Locking p =>
          match api_step f (ls_store s) p with
          | Some (st, p) => Some (set_store st (set_thread m (Locking p) s))
          | None => None
          end
      | Unlocking p =>
          match api_step f (ls_store s) p with
          | Some (st, p) => Some (set_store st (set_thread m (Unlocking p) s))
          | None => None
          end
      end
  | Finish m =>
      match thread_of s m with
      | Locking (Done true) => Some (set_granted ({[m]} ∪ ls_granted s) (set_thread m Idle s))
      | Locking (Done false) => Some (set_thread m Idle s)
      | Unlocking (Done _) => Some (set_thread m Idle s)
      | _ => None
      end
  | GenerationFails m =>
      match thread_of s m with
      | Idle => if bool_decide (m ∈ ls_granted s)
                then Some (set_granted (ls_granted s ∖ {[m]}) (set_thread m (Unlocking (Unlock cluster)) s))
                else None
      | _ => None
      end
  | Initialized => Some (set_initialized s)
  | StartJoin m => join_unlock m s
  | AddMachine m =>
      if all_ascii m then Some (set_machines ({[(ns, m)]} ∪ as_machines (ls_store s)) s) else None
  | MachineDeleted m =>
      match thread_of s m with
      | Idle => Some (set_granted (ls_granted s ∖ {[m]})
                  (set_machines (as_machines (ls_store s) ∖ {[(ns, m)]}) s))
      | _ => None
      end
  end.

Fixpoint lock_run (es : list lock_event) (s : LockSystem) : option LockSystem :=
  match es with
  | [] => Some s
  | e :: es => s ← lock_step e s; lock_run es s
  end.
End system.

(** Before the first machine: no lock, nothing granted, nothing initialized. *)
Definition no_machines (cms : gmap (string * string) ConfigMap) : LockSystem :=
  {| ls_store := {| as_configmaps := cms; as_machines := ∅ |}; ls_threads := ∅; ls_granted := ∅;
     ls_initialized := false |}.

(** ** Theory *)

Lemma information_setInformation m cm :
  all_ascii m = true →
  semaphore_information (setInformation {| in_MachineName := m |} cm) = Ok {| in_MachineName := m |}.
Proof.
  intros Hm. unfold semaphore_information, unmarshal_information, setInformation. simpl cm_Data.
  rewrite lookup_singleton_eq. simpl default.
  by rewrite decode_encode_field.
Qed.

Section theory.
Context (cluster : Cluster).
Let ns := om_Namespace (cl_Meta cluster).
Let key := (ns, configMapName (om_Name (cl_Meta cluster))).

(** The lock of a machine as it is stored. *)
Definition lock_of (m : string) : ConfigMap :=
  setInformation {| in_MachineName := m |} (setMetadata cluster newSemaphore).

Lemma information_lock_of m :
  all_ascii m = true → semaphore_information (lock_of m) = Ok {| in_MachineName := m |}.
Proof. apply information_setInformation. Qed.

Definition holds (st : ApiStore) (m : string) : Prop := as_configmaps st !! key = Some (lock_of m).

Lemma lock_of_inj m m' : all_ascii m = true → all_ascii m' = true → lock_of m = lock_of m' → m = m'.
Proof.
  intros Hm Hm' E. pose proof (information_lock_of m Hm) as Hi. rewrite E in Hi.
  rewrite information_lock_of in Hi by done. by injection Hi.
Qed.

(** What a program of [Lock] may still do, in a store. *)
Inductive lock_ok (st : ApiStore) (m : string) : LockProg bool → Prop :=
| lock_ok_start : lock_ok st m (Lock cluster m)
| lock_ok_acquire : lock_ok st m (acquire cluster m)
| lock_ok_true : holds st m → lock_ok st m (Done true)
| lock_ok_false : lock_ok st m (Done false)
| lock_ok_wait h k :
    (ns, h) ∈ as_machines st → (∀ r, r ≠ inr NotFound → k r = Done false) →
    lock_ok st m (GetMachine ns h k).

(** What a program of [Unlock] may still do: until it deletes the lock it is the holder. *)
Inductive unlock_ok (st : ApiStore) (m : string) : LockProg bool → Prop :=
| unlock_ok_start : holds st m → unlock_ok st m (Unlock cluster)
| unlock_ok_delete k :
    holds st m → (∀ r, ∃ b, k r = Done b) → unlock_ok st m (DeleteConfigMap key.1 key.2 k)
| unlock_ok_done b : unlock_ok st m (Done b).

Definition thread_ok (s : LockSystem) (m : string) : Prop :=
  match thread_of s m with
  | Idle => True
  | Locking p => (ns, m) ∈ as_machines (ls_store s) ∧ lock_ok (ls_store s) m p
  | Unlocking p => (ns, m) ∈ as_machines (ls_store s) ∧ (m ∉ ls_granted s) ∧ unlock_ok (ls_store s) m p
  end.

(** A stored lock is the one of a machine of the cluster. *)
Definition store_ok (st : ApiStore) : Prop :=
  (∀ m, (ns, m) ∈ as_machines st → all_ascii m = true) ∧
  (∀ cm, as_configmaps st !! key = Some cm → ∃ m, cm = lock_of m ∧ (ns, m) ∈ as_machines st).

Record lock_inv (s : LockSystem) : Prop := {
  li_store : store_ok (ls_store s);
  li_granted : ∀ m, m ∈ ls_granted s → (ns, m) ∈ as_machines (ls_store s) ∧ holds (ls_store s) m;
  li_threads : ∀ m, thread_ok s m;
}.

(** A store that leaves the holder alone and forgets no machine. *)
Definition keeps (m : string) (st st' : ApiStore) : Prop :=
  as_machines st ⊆ as_machines st' ∧
  ∀ j, j ≠ m → (ns, j) ∈ as_machines st → holds st j → holds st' j.

Lemma lock_ok_keeps m j st st' p :
  keeps m st st' → j ≠ m → (ns, j) ∈ as_machines st → lock_ok st j p → lock_ok st' j p.
Proof. intros [Hm Hh] Hne Hj Hp. destruct Hp; constructor; auto. Qed.

Lemma unlock_ok_keeps m j st st' p :
  keeps m st st' → j ≠ m → (ns, j) ∈ as_machines st → unlock_ok st j p → unlock_ok st' j p.
Proof. intros [Hm Hh] Hne Hj Hp. destruct Hp; constructor; auto. Qed.

Lemma thread_of_set m t s j : thread_of (set_thread m t s) j = if decide (j = m) then t else thread_of s j.
Proof.
  unfold thread_of, set_thread. simpl. case_decide as E; [subst; by rewrite lookup_insert_eq|].
  by rewrite lookup_insert_ne.
Qed.

(** Only the thread of [m] moves, and the others keep what they rely on. *)
Lemma inv_step m t st g i s :
  lock_inv s → store_ok st → keeps m (ls_store s) st →
  (∀ j, j ≠ m → j ∈ g ↔ j ∈ ls_granted s) →
  (m ∈ g → (ns, m) ∈ as_machines st ∧ holds st m) →
  thread_ok {| ls_store := st; ls_threads := <[m := t]> (ls_threads s); ls_granted := g; ls_initialized := i |} m →
  lock_inv {| ls_store := st; ls_threads := <[m := t]> (ls_threads s); ls_granted := g; ls_initialized := i |}.
Proof.
  intros [Hst Hg Ht] Hst' Hk Hother Hm Hthread. split; simpl; [done| |].
  - intros j Hj. destruct (decide (j = m)) as [->|Hne]; [auto|].
    apply Hother in Hj; [|done]. destruct (Hg j Hj) as [Hin Hh]. destruct Hk as [Hsub Hk]. auto.
  - intros j. destruct (decide (j = m)) as [->|Hne]; [done|]. specialize (Ht j).
    unfold thread_ok, thread_of in *. simpl in *. rewrite lookup_insert_ne by done.
    destruct (default Idle (ls_threads s !! j)); [done|..].
    + destruct Ht as [Hin Hl]. split; [by apply Hk|by eapply lock_ok_keeps].
    + destruct Ht as (Hin & Hn & Hl). split_and!; [by apply Hk|by rewrite Hother|by eapply unlock_ok_keeps].
Qed.

Lemma keeps_refl m st : keeps m st st.
Proof. by split. Qed.

(** The step of the holder's or of a waiting thread on the store. *)
Lemma lock_api_step f st m p st' p' :
  store_ok st → (ns, m) ∈ as_machines st → lock_ok st m p → api_step f st p = Some (st', p') →
  store_ok st' ∧ keeps m st st' ∧ as_machines st' = as_machines st ∧ lock_ok st' m p' ∧
  (holds st m → holds st' m).
Proof.
  intros Hst Hm Hp E. assert (∀ q, lock_ok st m q → store_ok st ∧ keeps m st st ∧
    as_machines st = as_machines st ∧ lock_ok st m q ∧ (holds st m → holds st m)) as Hsame
    by (intros q Hq; split_and!; try done; apply keeps_refl).
  destruct Hp as [| |Hh| |h k Hh Hk]; simpl in E; [| |done|done|].
  - injection E as <- <-. fold ns key. apply Hsame.
    destruct f; simpl; [|constructor..].
    destruct (as_configmaps st !! key) as [cm|] eqn:Ecm; [|constructor].
    destruct (proj2 Hst cm Ecm) as (h & -> & Hin).
    rewrite information_lock_of by (by apply Hst). simpl.
    destruct (String.eqb_spec h m) as [->|Hne]; [by constructor|].
    constructor; [done|]. intros [[]|[]] Hr; done.
  - fold (lock_of m) in E. change (cm_Namespace (lock_of m), cm_Name (lock_of m)) with key in E.
    unfold create in E. change (cm_Namespace (lock_of m), cm_Name (lock_of m)) with key in E.
    destruct (as_configmaps st !! key) as [cm|] eqn:Ecm.
    { injection E as <- <-. destruct f; apply Hsame; constructor. }
    set (st1 := {| as_configmaps := <[key := lock_of m]> (as_configmaps st); as_machines := as_machines st |}) in E.
    assert (holds st1 m) as Hh by apply lookup_insert_eq.
    assert (store_ok st1 ∧ keeps m st st1 ∧ as_machines st1 = as_machines st ∧ (holds st m → holds st1 m))
      as (H1 & H2 & H3 & H4).
    { split_and!; [|split; [done|]|done|done].
      - split; [apply Hst|]. simpl. rewrite lookup_insert_eq. intros cm [= <-]. eauto.
      - intros j _ _ Hj. unfold holds in Hj. congruence. }
    injection E as <- <-. destruct f; simpl; [|apply Hsame; constructor|].
    + split_and!; try done. by constructor.
    + split_and!; try done. constructor.
  - injection E as <- <-. apply Hsame. fold ns.
    rewrite bool_decide_eq_true_2 by done. destruct f; simpl; rewrite Hk by done; constructor.
Qed.

Lemma unlock_api_step f st m p st' p' :
  store_ok st → (ns, m) ∈ as_machines st → unlock_ok st m p → api_step f st p = Some (st', p') →
  store_ok st' ∧ keeps m st st' ∧ as_machines st' = as_machines st ∧ unlock_ok st' m p'.
Proof.
  intros Hst Hm Hp E. destruct Hp as [Hh|k Hh Hk|b]; simpl in E; [| |done].
  - injection E as <- <-. fold ns key. split_and!; [done|apply keeps_refl|done|].
    destruct f; simpl; [|constructor..]. rewrite Hh. simpl.
    by apply unlock_ok_delete; [|intros [|[]]; eauto].
  - change (remove ?k st) with (remove key st) in E. unfold remove in E. rewrite Hh in E.
    assert (∀ st r, unlock_ok st m (k r)) as Hd.
    { intros st0 r. destruct (Hk r) as [b ->]. constructor. }
    set (st1 := {| as_configmaps := delete key (as_configmaps st); as_machines := as_machines st |}) in E.
    assert (store_ok st1 ∧ keeps m st st1 ∧ as_machines st1 = as_machines st) as (H1 & H2 & H3).
    { split_and!; [|split; [done|]|done].
      - split; [apply Hst|]. simpl. by rewrite lookup_delete_eq.
      - intros j Hj Hin Hold. destruct Hj. unfold holds in Hold. rewrite Hh in Hold. apply (inj Some) in Hold.
        symmetry. by apply lock_of_inj; [apply Hst..|]. }
    injection E as <- <-. destruct f; simpl; split_and!; try done; apply keeps_refl.
Qed.

Definition no_deletion (e : lock_event) : Prop := match e with MachineDeleted _ => False | _ => True end.

Lemma lock_inv_step e s s' :
  lock_inv s → no_deletion e → ls_initialized s' = false → lock_step cluster e s = Some s' → lock_inv s'.
Proof.
  intros Hinv Hno Hi E. pose proof Hinv as [Hst Hg Ht].
  destruct e as [m|m f|m|m| |m|m|m]; simpl in E, Hno; [| | | | | | |done].
  - destruct (thread_of s m) eqn:Em; [|done..]. fold ns in E. case_bool_decide as Hin; [|done].
    injection E as <-. apply inv_step; [done|done|apply keeps_refl|done|intros Hm; by apply Hg|].
    unfold thread_ok, thread_of. simpl. rewrite lookup_insert_eq. split; [done|constructor].
  - specialize (Ht m). unfold thread_ok in Ht. destruct (thread_of s m) as [|p|p] eqn:Em; [done|..];
      destruct (api_step f (ls_store s) p) as [[st p']|] eqn:Ea; try done; injection E as <-.
    + destruct Ht as [Hin Hp]. eapply lock_api_step in Ea as (H1 & H2 & H3 & H4 & H5); [|done..].
      apply inv_step; [done|done|done|done|..].
      * intros Hm. rewrite H3. split; [done|]. by apply H5, Hg.
      * unfold thread_ok, thread_of. simpl. rewrite lookup_insert_eq. simpl. by rewrite H3.
    + destruct Ht as (Hin & Hn & Hp). eapply unlock_api_step in Ea as (H1 & H2 & H3 & H4); [|done..].
      apply inv_step; [done|done|done|done|by intros Hm; destruct (Hn Hm)|].
      unfold thread_ok, thread_of. simpl. rewrite lookup_insert_eq. simpl. by rewrite H3.
  - specialize (Ht m). unfold thread_ok in Ht. destruct (thread_of s m) as [|[[]| | | |]|[| | | |]] eqn:Em;
      try done; injection E as <-;
      (apply inv_step; [done|done|apply keeps_refl|set_solver| |
        by unfold thread_ok, thread_of; simpl; rewrite lookup_insert_eq]); intros Hm; try (by apply Hg).
    destruct Ht as [Hin Hp]. split; [done|]. by inversion Hp.
  - destruct (thread_of s m) eqn:Em; [|done..]. case_bool_decide as Hm; [|done]. injection E as <-.
    destruct (Hg m Hm) as [Hin Hh]. apply inv_step; [done|done|apply keeps_refl|set_solver|set_solver|].
    unfold thread_ok, thread_of. simpl. rewrite lookup_insert_eq. simpl.
    split_and!; [done|set_solver|by constructor].
  - by injection E as <-.
  - unfold join_unlock in E. destruct (thread_of s m); [|done..].
    destruct (ls_initialized s) eqn:Es; [|done]. injection E as <-. simpl in Hi. congruence.
  - destruct (all_ascii m) eqn:Ha; [|done]. injection E as <-.
    assert (store_ok {| as_configmaps := as_configmaps (ls_store s);
      as_machines := {[(ns, m)]} ∪ as_machines (ls_store s) |}) as Hst'.
    { split; simpl.
      - intros j [E|Hj]%elem_of_union; [|by apply Hst].
        apply elem_of_singleton in E. by injection E as ->.
      - intros cm Hcm. destruct (proj2 Hst cm Hcm) as (h & -> & Hh). exists h. set_solver. }
    split; simpl; [done| |].
    + intros j Hj. destruct (Hg j Hj) as [? ?]. split; [set_solver|done].
    + intros j. specialize (Ht j). unfold thread_ok, thread_of in *. simpl in *.
      destruct (default Idle (ls_threads s !! j)); [done|..].
      * destruct Ht as [Hin Hp]. split; [set_solver|].
        destruct Hp; constructor; try done. set_solver.
      * destruct Ht as (Hin & Hn & Hp). split_and!; [set_solver|done|]. destruct Hp; by constructor.
Qed.

(** Initialization is not undone. *)
Lemma initialized_step e s s' : lock_step cluster e s = Some s' → ls_initialized s' = false → ls_initialized s = false.
Proof.
  destruct e; simpl; unfold join_unlock; intros E Hi; repeat case_match; simplify_eq/=; congruence.
Qed.

Lemma initialized_run es s s' : lock_run cluster es s = Some s' → ls_initialized s' = false → ls_initialized s = false.
Proof.
  revert s. induction es as [|e es IH]; intros s; simpl; [by intros [= <-]|].
  intros (s1 & E & E')%bind_Some Hi. eauto using initialized_step.
Qed.

Lemma lock_inv_run es s s' :
  lock_inv s → Forall no_deletion es → lock_run cluster es s = Some s' → ls_initialized s' = false → lock_inv s'.
Proof.
  revert s. induction es as [|e es IH]; intros s Hinv Hno; simpl; [by intros [= <-]|].
  apply Forall_cons in Hno as [He Hno]. intros (s1 & E & E')%bind_Some Hi.
  eapply IH; [|done..]. eapply lock_inv_step; eauto using initialized_run.
Qed.

Lemma lock_inv_init cms : cms !! key = None → lock_inv (no_machines cms).
Proof.
  intros Hno. split; simpl.
  - split; simpl; [set_solver|]. by rewrite Hno.
  - set_solver.
  - intros m. done.
Qed.
End theory.

(** A machine alone: it takes a free lock, and has it again when it asks again; the lock of a
    machine that no longer exists is released by the first attempt and taken by the
    second. *)
Lemma Lock_alone cluster st m :
  let key := (om_Namespace (cl_Meta cluster), configMapName (om_Name (cl_Meta cluster))) in
  as_configmaps st !! key = None →
  run_alone (Lock cluster m) st =
    ({| as_configmaps := <[key := lock_of cluster m]> (as_configmaps st); as_machines := as_machines st |}, true).
Proof.
  intros key Hno. simpl. fold key. rewrite Hno. simpl. unfold create. simpl. fold key. by rewrite Hno.
Qed.

Lemma Lock_again cluster st m :
  all_ascii m = true → holds cluster st m → run_alone (Lock cluster m) st = (st, true).
Proof.
  intros Hm Hh. unfold holds in Hh. simpl. rewrite Hh, information_lock_of by done. simpl.
  by rewrite String.eqb_refl.
Qed.

Lemma stale_lock_recovered cluster st m h :
  all_ascii h = true → m ≠ h → holds cluster st h →
  (om_Namespace (cl_Meta cluster), h) ∉ as_machines st →
  ∃ st1 st2, run_alone (Lock cluster m) st = (st1, false) ∧
    run_alone (Lock cluster m) st1 = (st2, true) ∧ holds cluster st2 m.
Proof.
  intros Ha Hne Hh Hno. unfold holds in Hh. eexists _, _. split; [|split].
  - simpl. rewrite Hh, information_lock_of by done. simpl.
    rewrite (proj2 (String.eqb_neq _ _)) by done. simpl.
    rewrite bool_decide_eq_false_2 by done. simpl. rewrite Hh. simpl. unfold remove. rewrite Hh. reflexivity.
  - apply Lock_alone. simpl. apply lookup_delete_eq.
  - apply lookup_insert_eq.
Qed.

(** C38: The init lock excludes: start from a cluster without a lock, add machines, and let
    their reconcilers take and release the lock in any interleaving of the single calls to
    the API server, any of which may fail with or without its effect.  As long as no machine
    is deleted and the control plane is not initialized, at most one machine has the lock, and
    the stored ConfigMap names it.  Both conditions are needed: [stale_unlock_race],
    [stale_cluster_race]. *)
Theorem init_lock_exclusive cluster cms es s a b :
  cms !! (om_Namespace (cl_Meta cluster), configMapName (om_Name (cl_Meta cluster))) = None →
  Forall no_deletion es → lock_run cluster es (no_machines cms) = Some s → ls_initialized s = false →
  a ∈ ls_granted s → b ∈ ls_granted s → a = b ∧ holds cluster (ls_store s) a.
Proof.
  intros Hno Hes Hrun Hi Ha Hb.
  pose proof (lock_inv_run _ _ _ _ (lock_inv_init cluster cms Hno) Hes Hrun Hi) as [Hst Hg _].
  destruct (Hg a Ha) as [Hina Hha], (Hg b Hb) as [Hinb Hhb]. split; [|done].
  unfold holds in Hha, Hhb. rewrite Hha in Hhb. apply (inj Some) in Hhb.
  by apply lock_of_inj in Hhb; [|apply Hst..].
Qed.

Definition example_cluster : Cluster :=
  cl_set_Meta {| om_Name := "c"; om_Namespace := "default"; om_UID := "u"; om_Generation := 1;
    om_CreationTimestamp := Second; om_DeletionTimestamp := None; om_Labels := ∅;
    om_Annotations := ∅; om_OwnerReferences := []; om_Finalizers := [] |} emptyCluster.

(** A machine that finds no lock and takes it. *)
Definition takes_lock (m : string) : list lock_event :=
  [StartLock m; ApiCall m Works; ApiCall m Works; Finish m].

Definition example_events : list lock_event :=
  [AddMachine "a"; AddMachine "b"; StartLock "b"; ApiCall "b" Works] ++ takes_lock "a"
  ++ [ApiCall "b" Works; Finish "b"].

Lemma init_lock_exclusive_witness :
  ∃ s, lock_run example_cluster example_events (no_machines ∅) = Some s ∧
    ls_granted s = {["a"%string]} ∧ holds example_cluster (ls_store s) "a".
Proof.
  set (r := lock_run example_cluster example_events (no_machines ∅)).
  assert (r = Some (default (no_machines ∅) r)) as E by (vm_compute; reflexivity).
  exists (default (no_machines ∅) r). split; [exact E|].
  assert (ls_granted (default (no_machines ∅) r) = {["a"%string]}) as Hg by (vm_compute; reflexivity).
  split; [exact Hg|].
  apply (init_lock_exclusive example_cluster ∅ example_events _ "a" "a"); [apply lookup_empty| |exact E|..].
  - simpl. repeat (apply Forall_cons; split; [exact I|]). apply Forall_nil. exact I.
  - vm_compute. reflexivity.
  - rewrite Hg. by apply elem_of_singleton.
  - rewrite Hg. by apply elem_of_singleton.
Defined.

(** When the machine that has the lock is deleted, a machine that noticed so and is about to
    release the lock may release the one another machine took in the meantime: two machines
    that exist have the lock. *)
Lemma stale_unlock_race :
  ∃ s, lock_run example_cluster
      ([AddMachine "a"; AddMachine "b"; AddMachine "c"; AddMachine "d"] ++ takes_lock "a"
       ++ [MachineDeleted "a"; StartLock "b"; ApiCall "b" Works; ApiCall "b" Works]
       ++ [StartLock "c"; ApiCall "c" Works; ApiCall "c" Works; ApiCall "c" Works; ApiCall "c" Works; Finish "c"]
       ++ takes_lock "c" ++ [ApiCall "b" Works; ApiCall "b" Works; Finish "b"] ++ takes_lock "d")
      (no_machines ∅) = Some s ∧
    ls_granted s = {["c"; "d"]}%string ∧
    ("default", "c")%string ∈ as_machines (ls_store s) ∧ ("default", "d")%string ∈ as_machines (ls_store s).
Proof.
  match goal with |- ∃ s, ?run = _ ∧ _ => set (r := run) end.
  exists (default (no_machines ∅) r). split; [vm_compute; reflexivity|].
  split; [vm_compute; reflexivity|]. split; apply (bool_decide_unpack _); vm_compute; exact I.
Qed.

(** When the control plane is initialized, a machine that joins releases the lock of the one
    that initialized it, and a machine whose reconciler has not yet seen the initialization
    takes it: two machines were told to run kubeadm init. *)
Lemma stale_cluster_race :
  ∃ s, lock_run example_cluster
      ([AddMachine "a"; AddMachine "b"; AddMachine "w"] ++ takes_lock "a"
       ++ [Initialized; StartJoin "w"; ApiCall "w" Works; ApiCall "w" Works; Finish "w"] ++ takes_lock "b")
      (no_machines ∅) = Some s ∧
    ls_granted s = {["a"; "b"]}%string.
Proof.
  match goal with |- ∃ s, ?run = _ ∧ _ => set (r := run) end.
  exists (default (no_machines ∅) r). split; vm_compute; reflexivity.
Qed.
