(* ===== verification/StructuredMerge.v ===== *)
(** * Filtering and diffing of intents (internal/util/ssa, topology/cluster/structuredmerge)

    An object is a nested map of JSON values ([Json.json]): FilterIntent and FilterObject
    (filterintent.go) keep the allowed paths and drop the ignored ones, dropDiff
    (drop_diff.go) resets them to the original, and NewTwoWaysPatchHelper
    (twowayspatchhelper.go) turns the result into a merge patch.  The two functions of the
    json-patch library are the class [JsonPatch]. *)

From S2P Require Import Prelude Json.

(** ** Paths (internal/contract/types.go) *)

Definition Path : Type := list string.

(** The elements of [p] are those of [other] at the same indices. *)
Fixpoint same_elements (p other : Path) : bool :=
  match p, other with
  | [], _ => true
  | x :: p, y :: other => String.eqb x y && same_elements p other
  | _ :: _, [] => false
  end.

Definition IsParentOf (p other : Path) : bool :=
  if (length other <=? length p)%nat then false else same_elements p other.

Definition Path_Equal (p other : Path) : bool :=
  if negb (length p =? length other)%nat then false else same_elements p other.

Definition Overlaps (p other : Path) : bool :=
  Path_Equal other p || IsParentOf other p || IsParentOf p other.

(** ** Filtering (internal/util/ssa/filterintent.go) *)

Definition empty_map (v : json) : bool := match v with JObject [] => true | _ => false end.

Fixpoint FilterIntent (ShouldFilter : Path → bool) (path : Path) (value : json) : json * bool :=
  match value with
  | JObject fields =>
      let '(fields, gotDeletions) :=
        (fix range (fields : list (string * json)) : list (string * json) * bool :=
           match fields with
           | [] => ([], false)
           | (field, v) :: rest =>
               let '(rest, gotDeletions) := range rest in
               let fieldPath := path ++ [field] in
               if ShouldFilter fieldPath then (rest, true)
               else
                 let '(v, removed) := FilterIntent ShouldFilter fieldPath v in
                 if removed && empty_map v then (rest, true)
                 else ((field, v) :: rest, gotDeletions)
           end) fields in
      (JObject fields, gotDeletions)
  | _ => (value, false)
  end.

Definition IsPathAllowed (allowedPaths : list Path) (path : Path) : bool :=
  existsb (λ p, Overlaps path p) allowedPaths.

Definition IsPathNotAllowed (allowedPaths : list Path) (path : Path) : bool :=
  negb (IsPathAllowed allowedPaths path).

Definition IsPathIgnored (ignorePaths : list Path) (path : Path) : bool :=
  existsb (λ p, Path_Equal path p) ignorePaths.

Record FilterObjectInput := { fo_AllowedPaths : list Path; fo_IgnorePaths : list Path }.

Definition FilterObject (obj : json) (input : FilterObjectInput) : json :=
  let obj := match fo_AllowedPaths input with
             | [] => obj
             | allowed => (FilterIntent (IsPathNotAllowed allowed) [] obj).1
             end in
  match fo_IgnorePaths input with
  | [] => obj
  | ignored => (FilterIntent (IsPathIgnored ignored) [] obj).1
  end.

(** ** Fields and paths of a value *)

Definition lookup_field (fields : list (string * json)) (k : string) : option json :=
  match find (λ '(k', _), String.eqb k' k) fields with Some (_, v) => Some v | None => None end.

Definition as_map (v : json) : list (string * json) :=
  match v with JObject fields => fields | _ => [] end.

Fixpoint json_at (p : Path) (v : json) : option json :=
  match p with
  | [] => Some v
  | k :: p => v' ← lookup_field (as_map v) k; json_at p v'
  end.

Definition is_map (v : json) : bool := match v with JObject _ => true | _ => false end.

(** A map has a key at most once. *)
Fixpoint json_wf (v : json) : Prop :=
  match v with
  | JObject fields =>
      NoDup fields.*1 ∧
      (fix all (fields : list (string * json)) : Prop :=
         match fields with [] => True | (_, v) :: fields => json_wf v ∧ all fields end) fields
  | JArray l => (fix all (l : list json) : Prop :=
                   match l with [] => True | v :: l => json_wf v ∧ all l end) l
  | _ => True
  end.

(** ** Dropping differences (drop_diff.go)

    A lookup in a value that is no map, or of a missing field, gives nil. *)

Fixpoint dropDiff (shouldDropDiffFunc : Path → bool) (path : Path) (original modified : json) : json :=
  match modified with
  | JObject fields =>
      JObject ((fix range (fields : list (string * json)) : list (string * json) :=
        match fields with
        | [] => []
        | (field, v) :: rest =>
            let fieldPath := path ++ [field] in
            let o := lookup_field (as_map original) field in
            if shouldDropDiffFunc fieldPath then
              match o with
              | Some o => (field, o) :: range rest
              | None => range rest
              end
            else
              let v := dropDiff shouldDropDiffFunc fieldPath (default JNull o) v in
              if empty_map v then range rest else (field, v) :: range rest
        end) fields)
  | _ => modified
  end.

(** ** Merge patches (github.com/evanphx/json-patch)

    A merge patch of RFC 7386: a map is merged field by field, null removes a field, and any
    other value replaces the target. *)

Definition set_field (k : string) (v : json) (fields : list (string * json)) : list (string * json) :=
  if bool_decide (k ∈ fields.*1)
  then (λ '(k', v'), (k', if String.eqb k' k then v else v')) <$> fields
  else fields ++ [(k, v)].

Definition remove_field (k : string) (fields : list (string * json)) : list (string * json) :=
  filter (λ kv, kv.1 ≠ k) fields.

Fixpoint merge_patch (target patch : json) : json :=
  match patch with
  | JObject fields =>
      JObject ((fix merge (fields : list (string * json)) (target : list (string * json)) :
          list (string * json) :=
        match fields with
        | [] => target
        | (k, JNull) :: fields => merge fields (remove_field k target)
        | (k, v) :: fields =>
            merge fields (set_field k (merge_patch (default JNull (lookup_field target k)) v) target)
        end) fields (as_map target))
  | _ => patch
  end.

(** Two values have the same content: maps at the same paths, and the same other values. *)
Definition content (v : json) (p : Path) : option (option json) :=
  w ← json_at p v; Some (if is_map w then None else Some w).

Definition same_content (v w : json) : Prop := ∀ p, content v p = content w p.

(** No field of a map is null. *)
Definition null_free (v : json) : Prop := ∀ p, p ≠ [] → json_at p v ≠ Some JNull.

Class JsonPatch := {
  MergePatch : json → json → result json;
  CreateMergePatch : json → json → result json;
  MergePatch_rfc : ∀ target patch,
    is_map target = true → is_map patch = true → MergePatch target patch = Ok (merge_patch target patch);
  CreateMergePatch_applies : ∀ original modified,
    is_map original = true → is_map modified = true → json_wf original → json_wf modified →
    null_free modified →
    ∃ patch, CreateMergePatch original modified = Ok patch ∧ is_map patch = true ∧
      same_content (merge_patch original patch) modified;
  CreateMergePatch_same : ∀ original,
    is_map original = true → json_wf original → CreateMergePatch original original = Ok (JObject []);
}.

(** ** The two ways patch (twowayspatchhelper.go) *)

(** [json.Unmarshal] into a map: null leaves it empty, another value is an error. *)
Definition unmarshal_map (msg : string) (v : json) : result json :=
  match v with
  | JObject _ => Ok v
  | JNull => Ok (JObject [])
  | _ => Err (Wrap msg (Errorf "json: cannot unmarshal into Go value of type map[string]interface {}"))
  end.

Definition twoways_applyOptions (original modified : json) (options : FilterObjectInput) : result json :=
  originalMap ← unmarshal_map "failed to unmarshal original" original;
  modifiedMap ← unmarshal_map "failed to unmarshal modified" modified;
  let modifiedMap := match fo_AllowedPaths options with
                     | [] => modifiedMap
                     | allowed => dropDiff (IsPathNotAllowed allowed) [] originalMap modifiedMap
                     end in
  let modifiedMap := match fo_IgnorePaths options with
                     | [] => modifiedMap
                     | ignored => dropDiff (IsPathIgnored ignored) [] originalMap modifiedMap
                     end in
  Ok modifiedMap.

Record TwoWaysPatchHelper := {
  tw_original : option json;
  tw_patch : json;
  tw_hasSpecChanges : bool;
  tw_changes : option json;
}.

Definition two_ways_allowed (creating : bool) : list Path :=
  [["metadata"; "labels"]; ["metadata"; "annotations"]; ["spec"]]%string
  ++ (if creating
      then [["apiVersion"]; ["kind"]; ["metadata"; "name"]; ["metadata"; "namespace"];
            ["metadata"; "ownerReferences"]]%string
      else []).

(** [ignorePaths] is what the options set; the objects are given as the JSON they marshal
    to, [None] for a nil original. *)
Definition NewTwoWaysPatchHelper `{JsonPatch} (original : option json) (modified : json)
    (ignorePaths : list Path) : result TwoWaysPatchHelper :=
  let options := {| fo_AllowedPaths := two_ways_allowed (bool_decide (original = None));
                    fo_IgnorePaths := ignorePaths |} in
  let originalJSON := default (JObject []) original in
  modifiedJSON ← wrapErr "failed to apply options to modified" (twoways_applyOptions originalJSON modified options);
  originalWithModifiedJSON ←
    wrapErr "failed to apply modified json to original json" (MergePatch originalJSON modifiedJSON);
  twoWayPatch ←
    wrapErr "failed to create merge patch" (CreateMergePatch originalJSON originalWithModifiedJSON);
  twoWayPatchMap ← unmarshal_map "failed to unmarshal two way merge patch" twoWayPatch;
  let hasChanges := negb (empty_map twoWayPatchMap) in
  let hasSpecChanges :=
    match lookup_field (as_map twoWayPatchMap) "spec" with
    | Some JNull | None => false
    | Some _ => true
    end in
  Ok {| tw_original := original; tw_patch := twoWayPatch; tw_hasSpecChanges := hasSpecChanges;
        tw_changes := if hasChanges
          then Some (FilterIntent (IsPathIgnored [["metadata"; "managedFields"]]%string) [] twoWayPatchMap).1
          else None |}.

Definition HasSpecChanges (h : TwoWaysPatchHelper) : bool := tw_hasSpecChanges h.
Definition HasChanges (h : TwoWaysPatchHelper) : bool := negb (empty_map (tw_patch h)).

(** The call Patch makes, if any: a create of the patched object, or a merge patch. *)
Inductive PatchCall := CreateCall (obj : json) | MergePatchCall (original patch : json).

Definition TwoWays_Patch (h : TwoWaysPatchHelper) : result (option PatchCall) :=
  if negb (HasChanges h) then Ok None
  else
    match tw_original h with
    | None =>
        modifiedMap ← unmarshal_map "failed to unmarshal two way merge patch" (tw_patch h);
        Ok (Some (CreateCall modifiedMap))
    | Some original => Ok (Some (MergePatchCall original (tw_patch h)))
    end.

(** ** Theory: values *)

Lemma lookup_field_cons k v fields k' :
  lookup_field ((k, v) :: fields) k' = if decide (k = k') then Some v else lookup_field fields k'.
Proof.
  unfold lookup_field. simpl. destruct (String.eqb_spec k k') as [->|Hne]; [by rewrite decide_True|].
  by rewrite decide_False.
Qed.

Lemma lookup_field_None fields k : lookup_field fields k = None ↔ k ∉ fields.*1.
Proof.
  induction fields as [|[k' v] fields IH]; [split; [intros _; apply not_elem_of_nil|done]|].
  rewrite lookup_field_cons, fmap_cons, not_elem_of_cons. simpl. case_decide; [naive_solver|].
  rewrite IH. naive_solver.
Qed.

Lemma lookup_field_elem fields k v : lookup_field fields k = Some v → (k, v) ∈ fields.
Proof.
  induction fields as [|[k' w] fields IH]; [done|]. rewrite lookup_field_cons.
  case_decide as E; [intros [= ->]; subst; left|right; auto].
Qed.

Lemma lookup_field_NoDup fields k v :
  NoDup fields.*1 → (k, v) ∈ fields → lookup_field fields k = Some v.
Proof.
  intros Hnd Hin. induction fields as [|[k' v'] fields IH]; [by apply not_elem_of_nil in Hin|].
  simpl in Hnd. apply NoDup_cons in Hnd as [Hk Hnd]. rewrite lookup_field_cons.
  apply elem_of_cons in Hin as [[= -> ->]|Hin]; [by rewrite decide_True|].
  rewrite decide_False; [by apply IH|]. intros ->. apply Hk. by apply (list_elem_of_fmap_2 fst) in Hin.
Qed.

Lemma lookup_field_app fields gs k :
  lookup_field (fields ++ gs) k =
    match lookup_field fields k with Some v => Some v | None => lookup_field gs k end.
Proof.
  induction fields as [|[k' v] fields IH]; [done|]. simpl. rewrite !lookup_field_cons.
  by case_decide.
Qed.

Lemma json_wf_object fields :
  json_wf (JObject fields) ↔ NoDup fields.*1 ∧ Forall (λ kv, json_wf kv.2) fields.
Proof.
  simpl. f_equiv. induction fields as [|[k v] fields IH]; [done|].
  rewrite Forall_cons, IH. done.
Qed.

Lemma json_wf_field fields k v :
  json_wf (JObject fields) → lookup_field fields k = Some v → json_wf v.
Proof.
  intros [_ Hall]%json_wf_object E%lookup_field_elem. rewrite Forall_forall in Hall.
  apply (Hall (k, v) E).
Qed.

Lemma json_wf_as_map v : json_wf v → json_wf (JObject (as_map v)).
Proof. destruct v; try done; (intros _; apply json_wf_object; split; [apply NoDup_nil_2|done]). Qed.

(** *** Paths *)

Lemma same_elements_prefix p other : same_elements p other = true ↔ p `prefix_of` other.
Proof.
  revert other. induction p as [|x p IH]; intros [|y other]; simpl.
  - split; [intros _; apply prefix_nil|done].
  - split; [intros _; apply prefix_nil|done].
  - split; [done|]. intros ?%prefix_nil_inv. done.
  - rewrite andb_true_iff, String.eqb_eq, IH. split.
    + intros [-> Hp]. by apply prefix_cons.
    + intros Hp. split; [by eapply prefix_cons_inv_1|by eapply prefix_cons_inv_2].
Qed.

Lemma Path_Equal_eq p other : Path_Equal p other = true ↔ p = other.
Proof.
  unfold Path_Equal. destruct (Nat.eqb_spec (length p) (length other)) as [E|E]; simpl.
  - rewrite same_elements_prefix. split; [|by intros ->]. intros Hp.
    apply prefix_length_eq; [done|lia].
  - split; [done|]. by intros ->.
Qed.

Lemma IsParentOf_prefix p other : IsParentOf p other = true ↔ p `prefix_of` other ∧ p ≠ other.
Proof.
  unfold IsParentOf. destruct (Nat.leb_spec (length other) (length p)) as [E|E].
  - split; [done|]. intros [Hp Hne]. destruct Hne. apply prefix_length_eq; [done|lia].
  - rewrite same_elements_prefix. split; [|by intros [? _]]. intros Hp. split; [done|]. intros ->. lia.
Qed.

Lemma Overlaps_prefix p other : Overlaps p other = true ↔ p `prefix_of` other ∨ other `prefix_of` p.
Proof.
  unfold Overlaps. rewrite !orb_true_iff, Path_Equal_eq, !IsParentOf_prefix. split.
  - intros [[->|[? _]]|[? _]]; [left; done|by right|by left].
  - destruct (decide (other = p)) as [->|Hne]; [intros _; left; by left|].
    intros [Hp|Hp]; [right|left; right]; split; congruence || done.
Qed.

(** Whether all steps to a path pass a filter. *)
Definition passes (should : Path → bool) (path p : Path) : Prop :=
  ∀ q, q ≠ [] → q `prefix_of` p → should (path ++ q) = false.

Lemma passes_nil should path : passes should path [].
Proof. intros q Hq Hp%prefix_nil_inv. done. Qed.

Lemma passes_cons should path k p :
  passes should path (k :: p) ↔ should (path ++ [k]) = false ∧ passes should (path ++ [k]) p.
Proof.
  split.
  - intros Hp. split.
    + apply Hp; [done|]. apply prefix_cons, prefix_nil.
    + intros q Hq Hpre. rewrite <- app_assoc. apply Hp; [done|]. by apply prefix_cons.
  - intros [Hk Hp] q Hq Hpre. destruct q as [|k' q]; [done|].
    pose proof (prefix_cons_inv_1 _ _ _ _ Hpre) as ->. apply prefix_cons_inv_2 in Hpre.
    destruct q as [|k2 q]; [done|]. specialize (Hp (k2 :: q)). rewrite <- app_assoc in Hp. by apply Hp.
Qed.

(** ** Theory: filtering *)

Section filter.
Context (should : Path → bool).

(** The loop over the fields of a map. *)
Fixpoint filter_fields (path : Path) (fields : list (string * json)) : list (string * json) * bool :=
  match fields with
  | [] => ([], false)
  | (field, v) :: rest =>
      let '(rest, gotDeletions) := filter_fields path rest in
      if should (path ++ [field]) then (rest, true)
      else
        let '(v, removed) := FilterIntent should (path ++ [field]) v in
        if removed && empty_map v then (rest, true) else ((field, v) :: rest, gotDeletions)
  end.

Lemma FilterIntent_object path fields :
  FilterIntent should path (JObject fields) =
    let '(fields, d) := filter_fields path fields in (JObject fields, d).
Proof.
  simpl. enough (∀ fields, (fix range (fields : list (string * json)) : list (string * json) * bool :=
           match fields with
           | [] => ([], false)
           | (field, v) :: rest =>
               let '(rest, gotDeletions) := range rest in
               if should (path ++ [field]) then (rest, true)
               else
                 let '(v, removed) := FilterIntent should (path ++ [field]) v in
                 if removed && empty_map v then (rest, true)
                 else ((field, v) :: rest, gotDeletions)
           end) fields = filter_fields path fields) as -> by done.
  intros fs. induction fs as [|[k v] fs IH]; [done|]. simpl. by rewrite IH.
Qed.

Lemma filter_fields_keys path fields : (filter_fields path fields).1.*1 `sublist_of` fields.*1.
Proof.
  induction fields as [|[k v] fields IH]; simpl; [done|].
  destruct (filter_fields path fields) as [rest d]. simpl in IH.
  destruct (should (path ++ [k])); [by apply sublist_cons|].
  destruct (FilterIntent should (path ++ [k]) v) as [v' r].
  destruct (r && empty_map v'); [by apply sublist_cons|]. by apply sublist_skip.
Qed.

Lemma filter_fields_lookup path fields k :
  NoDup fields.*1 →
  lookup_field (filter_fields path fields).1 k =
    v ← lookup_field fields k;
    if should (path ++ [k]) then None
    else
      let '(v, removed) := FilterIntent should (path ++ [k]) v in
      if removed && empty_map v then None else Some v.
Proof.
  induction fields as [|[k' v] fields IH]; simpl; [done|]. intros [Hk Hnd]%NoDup_cons.
  specialize (IH Hnd). rewrite lookup_field_cons.
  assert (k' = k → lookup_field (filter_fields path fields).1 k = None) as Hnone.
  { intros <-. rewrite IH. by rewrite (proj2 (lookup_field_None fields k') Hk). }
  destruct (filter_fields path fields) as [rest d]. simpl in IH, Hnone.
  case_decide as E.
  - subst k'. simpl. destruct (should (path ++ [k])); [auto|].
    destruct (FilterIntent should (path ++ [k]) v) as [v' r].
    destruct (r && empty_map v'); [auto|]. simpl. by rewrite lookup_field_cons, decide_True.
  - destruct (should (path ++ [k'])); [done|]. destruct (FilterIntent should (path ++ [k']) v) as [v' r].
    destruct (r && empty_map v'); [done|]. simpl. by rewrite lookup_field_cons, decide_False.
Qed.

Lemma FilterIntent_other path v : is_map v = false → FilterIntent should path v = (v, false).
Proof. by destruct v. Qed.

Lemma FilterIntent_is_map path v : is_map (FilterIntent should path v).1 = is_map v.
Proof.
  destruct v as [| | | | |fields]; try done. rewrite FilterIntent_object. by destruct (filter_fields _ _).
Qed.

Lemma FilterIntent_wf path v : json_wf v → json_wf (FilterIntent should path v).1.
Proof.
  revert path. induction v as [| | | | |fields IH] using json_ind'; intros path; try done.
  rewrite FilterIntent_object, json_wf_object. intros [Hnd Hall].
  pose proof (filter_fields_keys path fields) as Hk.
  assert (Forall (λ kv, json_wf kv.2) (filter_fields path fields).1) as Hwf.
  { clear Hnd Hk. induction fields as [|[k v] fields IHf]; [constructor|]. simpl.
    apply Forall_cons in IH as [IHv IH], Hall as [Hv Hall]. specialize (IHf IH Hall).
    destruct (filter_fields path fields) as [rest d]. simpl in *.
    destruct (should (path ++ [k])); [done|]. specialize (IHv (path ++ [k]) Hv).
    destruct (FilterIntent should (path ++ [k]) v) as [v' r]. simpl in IHv.
    destruct (r && empty_map v'); [done|]. by constructor. }
  destruct (filter_fields path fields) as [rest d]. simpl in *. apply json_wf_object. split; [|done].
  by eapply sublist_NoDup.
Qed.

Lemma json_at_cons k p v : json_at (k :: p) v = lookup_field (as_map v) k ≫= json_at p.
Proof. done. Qed.

(** What is left after filtering: the values (that are no maps) at the paths all of whose
    steps pass. *)
Lemma FilterIntent_at path v p w :
  json_wf v → is_map w = false →
  json_at p (FilterIntent should path v).1 = Some w ↔ json_at p v = Some w ∧ passes should path p.
Proof.
  intros Hwf Hw. revert path v Hwf. induction p as [|k p IH]; intros path v Hwf.
  { simpl. destruct (is_map v) eqn:Em.
    - split; intros E; exfalso.
      + injection E as E. pose proof (FilterIntent_is_map path v). congruence.
      + destruct E as [[= ->] _]. congruence.
    - rewrite FilterIntent_other by done. split; [intros E; split; [done|apply passes_nil]|by intros [? _]]. }
  rewrite !json_at_cons. destruct v as [| | | | |fields]; try (by split; [|intros [? _]]).
  rewrite FilterIntent_object. pose proof (filter_fields_lookup path fields k) as Hl.
  destruct (filter_fields path fields) as [rest d]. simpl as_map. simpl in Hl. rewrite Hl by apply Hwf.
  rewrite passes_cons. destruct (lookup_field fields k) as [v|] eqn:Ev; simpl; [|by split; [|intros [? _]]].
  assert (json_wf v) as Hv by by eapply json_wf_field.
  destruct (should (path ++ [k])); [split; [done|by intros (_ & ? & _)]|].
  specialize (IH (path ++ [k]) v Hv). destruct (FilterIntent should (path ++ [k]) v) as [v' r]. simpl in IH.
  destruct (r && empty_map v') eqn:Er.
  - split; [done|]. intros (E & _ & Hp). exfalso.
    assert (json_at p v' = Some w) as Ew by by apply IH.
    apply andb_true_iff in Er as [_ Er]. destruct v' as [| | | | |[]]; try done.
    destruct p; simpl in Ew; [injection Ew as <-|]; done.
  - simpl. rewrite IH. naive_solver.
Qed.

(** A map is emptied by deletions only. *)
Lemma filter_fields_empty path fields : filter_fields path fields = ([], false) → fields = [].
Proof.
  destruct fields as [|[k v] fields]; [done|]. simpl. destruct (filter_fields path fields) as [rest d].
  destruct (should (path ++ [k])); [done|]. destruct (FilterIntent should (path ++ [k]) v) as [v' r].
  by destruct (r && empty_map v').
Qed.

(** Below the root, the empty maps that are left are those that were empty and pass: a map that
    filtering empties is removed. *)
Lemma FilterIntent_empty path v p :
  json_wf v → p ≠ [] →
  json_at p (FilterIntent should path v).1 = Some (JObject []) ↔ json_at p v = Some (JObject []) ∧ passes should path p.
Proof.
  revert path v. induction p as [|k p IH]; [done|]. intros path v Hwf _.
  rewrite !json_at_cons. destruct v as [| | | | |fields]; try (by split; [|intros [? _]]).
  rewrite FilterIntent_object. pose proof (filter_fields_lookup path fields k) as Hl.
  destruct (filter_fields path fields) as [rest d]. simpl as_map. simpl in Hl. rewrite Hl by apply Hwf.
  rewrite passes_cons. destruct (lookup_field fields k) as [v|] eqn:Ev; simpl; [|by split; [|intros [? _]]].
  assert (json_wf v) as Hv by by eapply json_wf_field.
  destruct (should (path ++ [k])); [split; [done|by intros (_ & ? & _)]|].
  destruct p as [|k2 p].
  - assert (FilterIntent should (path ++ [k]) v = (JObject [], false) ↔ v = JObject []) as He.
    { split; [|by intros ->]. destruct v as [| | | | |fs]; try done. rewrite FilterIntent_object.
      destruct (filter_fields (path ++ [k]) fs) as [rest' d'] eqn:Ef. intros [= -> ->].
      by apply filter_fields_empty in Ef as ->. }
    destruct (FilterIntent should (path ++ [k]) v) as [v' r]. simpl.
    destruct v' as [| | | | |[]], r; simpl; naive_solver eauto using passes_nil.
  - specialize (IH (path ++ [k]) v Hv ltac:(done)). destruct (FilterIntent should (path ++ [k]) v) as [v' r]. simpl fst in IH.
    destruct (r && empty_map v') eqn:Er.
    + split; [done|]. intros (E & _ & Hp). exfalso.
      assert (json_at (k2 :: p) v' = Some (JObject [])) as Ew by by apply IH.
      apply andb_true_iff in Er as [_ Er]. by destruct v' as [| | | | |[]].
    + change (Some v' ≫= json_at (k2 :: p)) with (json_at (k2 :: p) v'). rewrite IH. naive_solver.
Qed.

(** Filtering a value all of whose paths pass changes nothing. *)
Lemma FilterIntent_nothing path v :
  json_wf v → (∀ p w, json_at p v = Some w → passes should path p) →
  FilterIntent should path v = (v, false).
Proof.
  revert path. induction v as [| | | | |fields IH] using json_ind'; intros path; try done.
  rewrite FilterIntent_object, json_wf_object. intros [Hnd Hall] Hp.
  assert (∀ k v, (k, v) ∈ fields → should (path ++ [k]) = false ∧
    FilterIntent should (path ++ [k]) v = (v, false)) as Hf.
  { intros k v Hin. assert (lookup_field fields k = Some v) as El by by apply lookup_field_NoDup.
    assert (∀ p w, json_at p v = Some w → passes should path (k :: p)) as Hk.
    { intros p w E. apply (Hp _ w). by rewrite json_at_cons; simpl; rewrite El. }
    split; [by destruct (proj1 (passes_cons should path k []) (Hk [] v eq_refl))|].
    rewrite Forall_forall in IH, Hall. apply (IH (k, v) Hin); [by apply (Hall (k, v))|].
    intros p w E. by apply Hk, passes_cons in E as [_ ?]. }
  enough (filter_fields path fields = (fields, false)) as -> by done.
  clear IH Hnd Hall Hp. induction fields as [|[k v] fields IHf]; [done|]. simpl.
  rewrite IHf by (intros; apply Hf; by right).
  destruct (Hf k v) as [-> ->]; [left|]. done.
Qed.

(** Every path that is left passes, and was there before. *)
Lemma FilterIntent_paths path v p w :
  json_wf v → json_at p (FilterIntent should path v).1 = Some w →
  passes should path p ∧ is_Some (json_at p v).
Proof.
  revert path v. induction p as [|k p IH]; intros path v Hwf.
  { intros _. split; [apply passes_nil|eauto]. }
  rewrite !json_at_cons. destruct v as [| | | | |fields]; try done.
  rewrite FilterIntent_object. pose proof (filter_fields_lookup path fields k) as Hl.
  destruct (filter_fields path fields) as [rest d]. simpl as_map. simpl in Hl. rewrite Hl by apply Hwf.
  destruct (lookup_field fields k) as [v|] eqn:Ev; simpl; [|done].
  destruct (should (path ++ [k])) eqn:Es; [done|].
  specialize (IH (path ++ [k]) v (json_wf_field _ _ _ Hwf Ev)).
  destruct (FilterIntent should (path ++ [k]) v) as [v' r].
  destruct (r && empty_map v'); [done|]. intros [Hp ?]%IH. split; [by apply passes_cons|done].
Qed.

Lemma FilterIntent_idempotent path v :
  json_wf v →
  FilterIntent should path (FilterIntent should path v).1 = ((FilterIntent should path v).1, false).
Proof.
  intros Hwf. apply FilterIntent_nothing; [by apply FilterIntent_wf|].
  intros p w E. by apply FilterIntent_paths in E as [? _].
Qed.
End filter.

Lemma passes_not_allowed allowed p :
  passes (IsPathNotAllowed allowed) [] p ↔
  p = [] ∨ ∃ a, a ∈ allowed ∧ (p `prefix_of` a ∨ a `prefix_of` p).
Proof.
  unfold passes, IsPathNotAllowed, IsPathAllowed. split.
  - intros Hp. destruct p as [|k p]; [by left|right].
    specialize (Hp (k :: p) ltac:(done) ltac:(done)). apply negb_false_iff, existsb_exists in Hp as (a & Ha & Ho).
    exists a. by rewrite list_elem_of_In, <- Overlaps_prefix.
  - intros [->|(a & Ha & Ho)] q Hq Hpre; [by apply prefix_nil_inv in Hpre|].
    apply negb_false_iff, existsb_exists. exists a. split; [by apply list_elem_of_In|].
    apply Overlaps_prefix. destruct Ho as [Ho|Ho]; [left; by etrans|].
    destruct (prefix_weak_total q a p Hpre Ho); auto.
Qed.

Lemma passes_ignored ignored p :
  passes (IsPathIgnored ignored) [] p ↔ ∀ i, i ∈ ignored → i ≠ [] → ¬ i `prefix_of` p.
Proof.
  unfold passes, IsPathIgnored. split.
  - intros Hp i Hi Hne Hpre. specialize (Hp i Hne Hpre). simpl in Hp.
    apply not_true_iff_false in Hp. apply Hp, existsb_exists. exists i.
    split; [by apply list_elem_of_In|by apply Path_Equal_eq].
  - intros Hno q Hq Hpre. apply not_true_iff_false. intros (i & Hi & E)%existsb_exists.
    apply Path_Equal_eq in E. simpl in E. subst i. by apply (Hno q); [apply list_elem_of_In|..].
Qed.

(** The two filters of [FilterObject]; an empty list of paths filters nothing. *)
Definition in_scope (input : FilterObjectInput) (p : Path) : Prop :=
  (fo_AllowedPaths input = [] ∨ p = [] ∨
     ∃ a, a ∈ fo_AllowedPaths input ∧ (p `prefix_of` a ∨ a `prefix_of` p)) ∧
  ∀ i, i ∈ fo_IgnorePaths input → i ≠ [] → ¬ i `prefix_of` p.

Definition filter_allowed (obj : json) (input : FilterObjectInput) : json :=
  match fo_AllowedPaths input with
  | [] => obj
  | allowed => (FilterIntent (IsPathNotAllowed allowed) [] obj).1
  end.

Definition filter_ignored (obj : json) (input : FilterObjectInput) : json :=
  match fo_IgnorePaths input with
  | [] => obj
  | ignored => (FilterIntent (IsPathIgnored ignored) [] obj).1
  end.

Lemma FilterObject_split obj input :
  FilterObject obj input = filter_ignored (filter_allowed obj input) input.
Proof. done. Qed.

Lemma filter_allowed_wf obj input : json_wf obj → json_wf (filter_allowed obj input).
Proof. unfold filter_allowed. destruct (fo_AllowedPaths input); [done|]. apply FilterIntent_wf. Qed.

Lemma filter_ignored_wf obj input : json_wf obj → json_wf (filter_ignored obj input).
Proof. unfold filter_ignored. destruct (fo_IgnorePaths input); [done|]. apply FilterIntent_wf. Qed.

Lemma filter_ignored_passes obj input (P : json → Path → Prop) p :
  (∀ ignored, P (FilterIntent (IsPathIgnored ignored) [] obj).1 p ↔ P obj p ∧ passes (IsPathIgnored ignored) [] p) →
  P (filter_ignored obj input) p ↔ P obj p ∧ ∀ i, i ∈ fo_IgnorePaths input → i ≠ [] → ¬ i `prefix_of` p.
Proof.
  intros HP. unfold filter_ignored. rewrite <- passes_ignored. destruct (fo_IgnorePaths input) as [|i l]; [|done].
  split; [|by intros [? _]]. intros Hp. split; [done|]. by intros q _ _.
Qed.

Lemma filter_allowed_passes obj input (P : json → Path → Prop) p :
  (∀ allowed, P (FilterIntent (IsPathNotAllowed allowed) [] obj).1 p ↔ P obj p ∧ passes (IsPathNotAllowed allowed) [] p) →
  P (filter_allowed obj input) p ↔ P obj p ∧
    (fo_AllowedPaths input = [] ∨ p = [] ∨
       ∃ a, a ∈ fo_AllowedPaths input ∧ (p `prefix_of` a ∨ a `prefix_of` p)).
Proof.
  intros HP. unfold filter_allowed. rewrite <- passes_not_allowed. destruct (fo_AllowedPaths input) as [|a l]; [naive_solver|].
  rewrite HP. naive_solver.
Qed.

Lemma FilterObject_passes obj input (P : json → Path → Prop) p :
  json_wf obj →
  (∀ should v, json_wf v → P (FilterIntent should [] v).1 p ↔ P v p ∧ passes should [] p) →
  P (FilterObject obj input) p ↔ P obj p ∧ in_scope input p.
Proof.
  intros Hwf HP. rewrite FilterObject_split. unfold in_scope.
  rewrite (filter_ignored_passes (filter_allowed obj input) input P p) by (intros; by apply HP, filter_allowed_wf).
  rewrite (filter_allowed_passes obj input P p) by (intros; by apply HP). tauto.
Qed.

(** Filtering twice is filtering once. *)
Lemma FilterObject_idempotent obj input :
  json_wf obj → FilterObject (FilterObject obj input) input = FilterObject obj input.
Proof.
  intros Hwf. rewrite !FilterObject_split.
  set (obj1 := filter_allowed obj input). assert (json_wf obj1) as Hwf1 by by apply filter_allowed_wf.
  assert (filter_allowed (filter_ignored obj1 input) input = filter_ignored obj1 input) as ->.
  { unfold filter_allowed. destruct (fo_AllowedPaths input) as [|a l] eqn:Ea; [done|].
    rewrite FilterIntent_nothing; [done|..].
    - unfold filter_ignored. destruct (fo_IgnorePaths input); [done|]. by apply FilterIntent_wf.
    - intros p w E. assert (is_Some (json_at p obj1)) as [w' Hw'].
      { unfold filter_ignored in E. destruct (fo_IgnorePaths input); [eauto|].
        by apply FilterIntent_paths in E as [_ ?]. }
      subst obj1. unfold filter_allowed in Hw'. rewrite Ea in Hw'. by apply FilterIntent_paths in Hw' as [? _]. }
  unfold filter_ignored. destruct (fo_IgnorePaths input); [done|]. by rewrite FilterIntent_idempotent.
Qed.

Lemma FilterObject_at obj input p w :
  json_wf obj → is_map w = false →
  json_at p (FilterObject obj input) = Some w ↔ json_at p obj = Some w ∧ in_scope input p.
Proof.
  intros Hwf Hw. apply (FilterObject_passes obj input (λ v p, json_at p v = Some w)); [done|].
  intros should v Hv. by apply FilterIntent_at.
Qed.

(** A path that is left was there and is in scope. *)
Lemma FilterObject_paths obj input p :
  json_wf obj → is_Some (json_at p (FilterObject obj input)) → is_Some (json_at p obj) ∧ in_scope input p.
Proof.
  intros Hwf. rewrite FilterObject_split. intros [w E].
  assert (is_Some (json_at p (filter_allowed obj input)) ∧
    ∀ i, i ∈ fo_IgnorePaths input → i ≠ [] → ¬ i `prefix_of` p) as [[w' E'] Hi].
  { unfold filter_ignored in E. rewrite <- passes_ignored. destruct (fo_IgnorePaths input); [split; [eauto|by intros ?]|].
    apply FilterIntent_paths in E; [naive_solver|]. by apply filter_allowed_wf. }
  unfold in_scope. rewrite <- passes_not_allowed. unfold filter_allowed in E'.
  destruct (fo_AllowedPaths input); [naive_solver|]. apply FilterIntent_paths in E'; naive_solver.
Qed.

(** C40: FilterObject keeps exactly what is in scope, that is at, above or below an allowed path
    (everything, if none is given) and neither at nor below an ignored one.  A value that is no
    map, or a map that is empty, below the root, is in the result if and only if it was in the
    object, at the same path, and that path is in scope; so a map that filtering empties is
    gone.  Every path of the result is in scope and was there before; maps have every key once
    and a map stays a map; and filtering again changes nothing. *)
Theorem FilterObject_exact obj input :
  json_wf obj →
  let obj' := FilterObject obj input in
  (∀ p w, is_map w = false ∨ p ≠ [] ∧ w = JObject [] →
     json_at p obj' = Some w ↔ json_at p obj = Some w ∧ in_scope input p) ∧
  (∀ p, is_Some (json_at p obj') → is_Some (json_at p obj) ∧ in_scope input p) ∧
  json_wf obj' ∧ is_map obj' = is_map obj ∧ FilterObject obj' input = obj'.
Proof.
  intros Hwf obj'. split_and!; [|by intros p; apply FilterObject_paths|..|by apply FilterObject_idempotent].
  - intros p w [Hw|[Hp ->]]; [by apply FilterObject_at|].
    apply (FilterObject_passes obj input (λ v p, json_at p v = Some (JObject []))); [done|].
    intros should v Hv. by apply FilterIntent_empty.
  - unfold obj'. rewrite FilterObject_split. by apply filter_ignored_wf, filter_allowed_wf.
  - unfold obj'. rewrite FilterObject_split. unfold filter_ignored, filter_allowed.
    destruct (fo_IgnorePaths input), (fo_AllowedPaths input); by rewrite ?FilterIntent_is_map.
Qed.

(** ** Theory: merge patches *)

Fixpoint merge_fields (fields target : list (string * json)) : list (string * json) :=
  match fields with
  | [] => target
  | (k, JNull) :: fields => merge_fields fields (remove_field k target)
  | (k, v) :: fields =>
      merge_fields fields (set_field k (merge_patch (default JNull (lookup_field target k)) v) target)
  end.

Lemma merge_patch_object target fields :
  merge_patch target (JObject fields) = JObject (merge_fields fields (as_map target)).
Proof.
  reflexivity.
Qed.

Lemma merge_patch_other target v : is_map v = false → merge_patch target v = v.
Proof. by destruct v. Qed.

Lemma merge_patch_is_map target v : is_map (merge_patch target v) = is_map v.
Proof. by destruct v. Qed.

Definition replace_field (k : string) (v : json) : string * json → string * json :=
  λ '(k', v'), (k', if String.eqb k' k then v else v').

Lemma replace_field_lookup k v fields k' :
  lookup_field (replace_field k v <$> fields) k' =
    w ← lookup_field fields k'; Some (if decide (k = k') then v else w).
Proof.
  induction fields as [|[k1 v1] fields IH]; [done|].
  rewrite fmap_cons. unfold replace_field at 1. rewrite !lookup_field_cons.
  destruct (decide (k1 = k')) as [->|Hne]; [|done]. simpl.
  destruct (String.eqb_spec k' k) as [->|Hne]; [by rewrite decide_True|by rewrite decide_False].
Qed.

Lemma set_field_lookup k v fields k' :
  lookup_field (set_field k v fields) k' = if decide (k = k') then Some v else lookup_field fields k'.
Proof.
  unfold set_field. case_bool_decide as Hk.
  - fold (replace_field k v). rewrite replace_field_lookup.
    destruct (lookup_field fields k') as [w|] eqn:E; simpl; [by case_decide|].
    apply lookup_field_None in E. rewrite decide_False; [done|]. by intros ->.
  - rewrite lookup_field_app. destruct (decide (k = k')) as [<-|Hne].
    + rewrite (proj2 (lookup_field_None fields k)) by done. by rewrite lookup_field_cons, decide_True.
    + destruct (lookup_field fields k'); [done|]. by rewrite lookup_field_cons, decide_False.
Qed.

Lemma remove_field_lookup k fields k' :
  lookup_field (remove_field k fields) k' = if decide (k = k') then None else lookup_field fields k'.
Proof.
  unfold remove_field. induction fields as [|[k1 v1] fields IH]; [by case_decide|].
  rewrite filter_cons. destruct (decide ((k1, v1).1 ≠ k)) as [E|E]; cbn [fst] in E.
  - rewrite !lookup_field_cons, IH. repeat case_decide; congruence.
  - rewrite IH, lookup_field_cons. repeat case_decide; try done. exfalso. apply E. congruence.
Qed.

Lemma merge_fields_cons k v fields target :
  merge_fields ((k, v) :: fields) target =
    merge_fields fields (match v with
                         | JNull => remove_field k target
                         | _ => set_field k (merge_patch (default JNull (lookup_field target k)) v) target
                         end).
Proof. by destruct v. Qed.

Lemma merge_fields_lookup fields target k :
  NoDup fields.*1 →
  lookup_field (merge_fields fields target) k =
    match lookup_field fields k with
    | None => lookup_field target k
    | Some JNull => None
    | Some v => Some (merge_patch (default JNull (lookup_field target k)) v)
    end.
Proof.
  revert target. induction fields as [|[k' v] fields IH]; intros target; [done|].
  rewrite fmap_cons. intros [Hk Hnd]%NoDup_cons. rewrite merge_fields_cons, IH by done.
  rewrite lookup_field_cons. simpl in Hk. destruct (decide (k' = k)) as [->|Hne].
  - rewrite (proj2 (lookup_field_None fields k)) by done.
    destruct v; rewrite ?set_field_lookup, ?remove_field_lookup, decide_True by done; done.
  - assert (lookup_field (match v with
       | JNull => remove_field k' target
       | _ => set_field k' (merge_patch (default JNull (lookup_field target k')) v) target
       end) k = lookup_field target k) as ->; [|done].
    destruct v; rewrite ?set_field_lookup, ?remove_field_lookup, decide_False by done; done.
Qed.

Lemma merge_patch_lookup target fields k :
  NoDup fields.*1 →
  lookup_field (as_map (merge_patch target (JObject fields))) k =
    match lookup_field fields k with
    | None => lookup_field (as_map target) k
    | Some JNull => None
    | Some v => Some (merge_patch (default JNull (lookup_field (as_map target) k)) v)
    end.
Proof. intros Hnd. rewrite merge_patch_object. by apply merge_fields_lookup. Qed.

(** Setting a field to what it is, and removing one that is not there. *)
Lemma set_field_same k v fields :
  NoDup fields.*1 → lookup_field fields k = Some v → set_field k v fields = fields.
Proof.
  intros Hnd E. unfold set_field.
  assert (k ∈ fields.*1) as Hin by (apply lookup_field_elem, (list_elem_of_fmap_2 fst) in E; done).
  rewrite bool_decide_eq_true_2 by done. fold (replace_field k v).
  assert (∀ kv, kv ∈ fields → replace_field k v kv = kv) as Hid.
  { intros [k' v'] Hkv. unfold replace_field. destruct (String.eqb_spec k' k) as [->|]; [|done].
    apply lookup_field_NoDup in Hkv; [|done]. congruence. }
  clear -Hid. induction fields as [|kv fields IH]; [done|]. rewrite fmap_cons. f_equal.
  - apply Hid. left.
  - apply IH. intros kv' Hkv'. apply Hid. by right.
Qed.

Lemma remove_field_none k fields : lookup_field fields k = None → remove_field k fields = fields.
Proof.
  intros Hk%lookup_field_None. unfold remove_field.
  induction fields as [|[k' v] fields IH]; [done|].
  rewrite fmap_cons, not_elem_of_cons in Hk. destruct Hk as [Hne Hk]. rewrite filter_cons.
  rewrite decide_True by (simpl in *; congruence). by rewrite IH.
Qed.

(** A patch every field of which is there already. *)
Lemma merge_fields_id fields target :
  NoDup target.*1 →
  (∀ k v, (k, v) ∈ fields →
     match v with
     | JNull => lookup_field target k = None
     | _ => ∃ w, lookup_field target k = Some w ∧ merge_patch w v = w
     end) →
  merge_fields fields target = target.
Proof.
  intros Hnd. induction fields as [|[k v] fields IH]; intros Hf; [done|].
  rewrite merge_fields_cons. pose proof (Hf k v ltac:(left)) as Hkv.
  assert (match v with
          | JNull => remove_field k target
          | _ => set_field k (merge_patch (default JNull (lookup_field target k)) v) target
          end = target) as ->; [|apply IH; intros; apply Hf; by right].
  destruct v; [by apply remove_field_none|..];
    (destruct Hkv as (w & Ew & Em); rewrite Ew; cbn [default from_option id];
     rewrite Em; by apply set_field_same).
Qed.

Lemma null_free_field v k w :
  null_free v → lookup_field (as_map v) k = Some w → w ≠ JNull ∧ null_free w.
Proof.
  intros Hn E. split.
  - intros ->. apply (Hn [k]); [done|]. by rewrite json_at_cons, E.
  - intros p Hp Ep. apply (Hn (k :: p)); [done|]. by rewrite json_at_cons, E.
Qed.

Lemma null_free_JNull : null_free JNull.
Proof. by intros [|]. Qed.

(** A value without nulls is a patch that leaves it as it is. *)
Lemma merge_self v : json_wf v → null_free v → merge_patch v v = v.
Proof.
  induction v as [| | | | |fields IH] using json_ind'; intros Hwf Hn; try done.
  rewrite merge_patch_object. f_equal. simpl. pose proof Hwf as [Hnd _]%json_wf_object.
  apply merge_fields_id; [done|]. intros k v Hin.
  assert (lookup_field fields k = Some v) as E by by apply lookup_field_NoDup.
  destruct (null_free_field (JObject fields) k v Hn E) as [Hv Hnv].
  rewrite Forall_forall in IH. pose proof (IH (k, v) Hin) as IHv. simpl in IHv.
  pose proof (json_wf_field _ _ _ Hwf E) as Hwv.
  destruct v; try done; eexists; split; try exact E; by apply IHv.
Qed.

Lemma merge_patch_wf target v : json_wf target → json_wf v → json_wf (merge_patch target v).
Proof.
  revert target. induction v as [| | | | |fields IH] using json_ind'; intros target Ht Hv; try done.
  rewrite merge_patch_object. apply json_wf_as_map in Ht. revert Ht. generalize (as_map target). clear target.
  apply json_wf_object in Hv as [_ Hv].
  induction fields as [|[k v] fields IHf]; intros target Ht; [done|].
  apply Forall_cons in IH as [IHv IH], Hv as [Hv Hvs]. rewrite merge_fields_cons. apply IHf; [done..|].
  assert (json_wf (default JNull (lookup_field target k))) as Hd.
  { destruct (lookup_field target k) eqn:E; [by eapply json_wf_field|done]. }
  specialize (IHv _ Hd Hv). simpl in IHv. apply json_wf_object in Ht as [Hnd Hall]. apply json_wf_object.
  assert (∀ w, json_wf w → NoDup (set_field k w target).*1 ∧
    Forall (λ kv, json_wf kv.2) (set_field k w target)) as Hset.
  { intros w Hw. unfold set_field. case_bool_decide as Hk.
    - fold (replace_field k w). split.
      + rewrite <- list_fmap_compose. rewrite (list_fmap_ext _ fst); [done|]. by intros i [k' v'] _.
      + apply Forall_fmap. eapply Forall_impl; [exact Hall|]. intros [k' v'] Hv'. simpl. by case_match.
    - rewrite fmap_app. split.
      + apply NoDup_app. split_and!; [done| |apply NoDup_singleton].
        intros x Hx ->%list_elem_of_singleton. done.
      + apply Forall_app. split; [done|]. by repeat constructor. }
  destruct v; try (apply Hset; exact IHv). unfold remove_field. split.
  - eapply sublist_NoDup; [done|]. apply fmap_sublist, sublist_filter.
  - apply Forall_forall. intros kv [_ Hin]%list_elem_of_filter. rewrite Forall_forall in Hall. auto.
Qed.

(** A merge never leaves a null in a map. *)
Lemma merge_patch_null_free target v :
  json_wf v → null_free target → null_free (merge_patch target v).
Proof.
  intros Hv Ht p. revert target v Hv Ht. induction p as [|k p IH]; intros target v Hv Ht; [done|]. intros _.
  destruct v as [| | | | |fields]; try done. rewrite json_at_cons.
  rewrite merge_patch_lookup by apply Hv.
  destruct (lookup_field fields k) as [w|] eqn:Ew.
  - pose proof (json_wf_field _ _ _ Hv Ew) as Hw.
    assert (null_free (default JNull (lookup_field (as_map target) k))) as Hd.
    { destruct (lookup_field (as_map target) k) eqn:E; [|apply null_free_JNull].
      by destruct (null_free_field target k _ Ht E). }
    destruct p as [|k2 p].
    + destruct w; simpl; congruence || done.
    + pose proof (IH _ w Hw Hd ltac:(done)) as IHw. destruct w; try done; exact IHw.
  - intros E. apply (Ht (k :: p)); [done|]. by rewrite json_at_cons.
Qed.

(** A value of the patch is in the result. *)
Lemma merge_patch_applies target v p w :
  json_wf v → is_map w = false → w ≠ JNull → json_at p v = Some w →
  json_at p (merge_patch target v) = Some w.
Proof.
  intros Hv Hw Hne. revert target v Hv. induction p as [|k p IH]; intros target v Hv.
  { intros [= ->]. simpl. by rewrite merge_patch_other. }
  destruct v as [| | | | |fields]; try done. rewrite !json_at_cons, merge_patch_lookup by apply Hv.
  simpl as_map. destruct (lookup_field fields k) as [v|] eqn:E; [|done]. simpl. intros Ep.
  pose proof (json_wf_field _ _ _ Hv E) as Hwv. specialize (IH (default JNull (lookup_field (as_map target) k)) v Hwv Ep).
  destruct v; try exact IH. destruct p; [|done]. injection Ep as <-. done.
Qed.

(** ** Theory: dropping differences *)

(** Where the original has a map, the modified object has a map or nothing. *)
Definition same_shape (o m : json) : Prop :=
  ∀ p fields w, json_at p o = Some (JObject fields) → json_at p m = Some w → is_map w = true.

Lemma same_shape_field o m k w :
  same_shape o m → lookup_field (as_map m) k = Some w →
  same_shape (default JNull (lookup_field (as_map o) k)) w.
Proof.
  intros Hs Ew p fields w' Eo Em. apply (Hs (k :: p) fields w').
  - rewrite json_at_cons. destruct (lookup_field (as_map o) k); [done|]. by destruct p.
  - by rewrite json_at_cons, Ew.
Qed.

Definition is_null (v : json) : Prop := match v with JNull => True | _ => False end.

#[global] Instance is_null_dec v : Decision (is_null v).
Proof. destruct v; apply _. Defined.

Section drop.
Context (should : Path → bool).

Fixpoint drop_fields (path : Path) (original : json) (fields : list (string * json)) :
    list (string * json) :=
  match fields with
  | [] => []
  | (field, v) :: rest =>
      let o := lookup_field (as_map original) field in
      if should (path ++ [field]) then
        match o with
        | Some o => (field, o) :: drop_fields path original rest
        | None => drop_fields path original rest
        end
      else
        let v := dropDiff should (path ++ [field]) (default JNull o) v in
        if empty_map v then drop_fields path original rest
        else (field, v) :: drop_fields path original rest
  end.

Lemma dropDiff_object path original fields :
  dropDiff should path original (JObject fields) = JObject (drop_fields path original fields).
Proof. simpl. f_equal. induction fields as [|[k v] fields IH]; [done|]. simpl. by rewrite <- IH. Qed.

Lemma dropDiff_other path original v : is_map v = false → dropDiff should path original v = v.
Proof. by destruct v. Qed.

Lemma drop_fields_keys path original fields :
  (drop_fields path original fields).*1 `sublist_of` fields.*1.
Proof.
  induction fields as [|[k v] fields IH]; simpl; [done|].
  repeat case_match; try (by apply sublist_cons); by apply sublist_skip.
Qed.

Lemma drop_fields_lookup path original fields k :
  NoDup fields.*1 →
  lookup_field (drop_fields path original fields) k =
    v ← lookup_field fields k;
    let o := lookup_field (as_map original) k in
    if should (path ++ [k]) then o
    else
      let v := dropDiff should (path ++ [k]) (default JNull o) v in
      if empty_map v then None else Some v.
Proof.
  induction fields as [|[k' v] fields IH]; simpl; [done|]. intros [Hk Hnd]%NoDup_cons.
  specialize (IH Hnd). rewrite lookup_field_cons.
  assert (k' = k → lookup_field (drop_fields path original fields) k = None) as Hnone.
  { intros <-. rewrite IH. by rewrite (proj2 (lookup_field_None fields k') Hk). }
  case_decide as E.
  - subst k'. simpl. destruct (should (path ++ [k])).
    + destruct (lookup_field (as_map original) k); [by rewrite lookup_field_cons, decide_True|auto].
    + case_match; [auto|]. by rewrite lookup_field_cons, decide_True.
  - repeat case_match; rewrite ?lookup_field_cons, ?decide_False by done; done.
Qed.

Lemma dropDiff_wf path original v : json_wf original → json_wf v → json_wf (dropDiff should path original v).
Proof.
  revert path original. induction v as [| | | | |fields IH] using json_ind'; intros path original Ho Hv; try done.
  rewrite dropDiff_object. apply json_wf_object in Hv as [Hnd Hall]. apply json_wf_object. split.
  { eapply sublist_NoDup; [exact Hnd|]. apply drop_fields_keys. }
  clear Hnd. induction fields as [|[k v] fields IHf]; [constructor|].
  apply Forall_cons in IH as [IHv IH], Hall as [Hv Hall]. specialize (IHf IH Hall). simpl.
  apply json_wf_as_map in Ho.
  destruct (lookup_field (as_map original) k) as [o|] eqn:Eo; simpl.
  - pose proof (json_wf_field _ _ _ Ho Eo) as Hwo. destruct (should (path ++ [k])); [by constructor|].
    case_match; [done|]. constructor; [by apply IHv|done].
  - destruct (should (path ++ [k])); [done|]. case_match; [done|]. constructor; [by apply IHv|done].
Qed.

(** The field of the patched object, after differences were dropped. *)
Lemma dropped_lookup path o fields k :
  json_wf o → null_free o → NoDup fields.*1 →
  let a := lookup_field (as_map o) k in
  lookup_field (as_map (merge_patch o (dropDiff should path o (JObject fields)))) k =
    match lookup_field fields k with
    | None => a
    | Some v =>
        if should (path ++ [k]) then a
        else
          match dropDiff should (path ++ [k]) (default JNull a) v with
          | JNull => None
          | v' => if empty_map v' then a else Some (merge_patch (default JNull a) v')
          end
    end.
Proof.
  intros Ho Hn Hnd a. rewrite dropDiff_object, merge_patch_lookup;
    [|eapply sublist_NoDup; [exact Hnd|apply drop_fields_keys]].
  rewrite drop_fields_lookup by done. fold a. destruct (lookup_field fields k) as [v|]; simpl; [|done].
  destruct (should (path ++ [k])).
  - destruct a as [w|] eqn:Ea; [|done]. subst a. destruct (null_free_field o k w Hn Ea) as [Hw Hnw].
    pose proof (merge_self w (json_wf_field _ _ _ (json_wf_as_map _ Ho) Ea) Hnw) as Hm.
    simpl. rewrite Hm. by destruct w.
  - by destruct (dropDiff should (path ++ [k]) (default JNull a) v) as [| | | | |[]].
Qed.

Lemma default_field_wf o k : json_wf o → json_wf (default JNull (lookup_field (as_map o) k)).
Proof.
  intros Ho%json_wf_as_map. destruct (lookup_field (as_map o) k) eqn:E; [by eapply json_wf_field|done].
Qed.

Lemma default_field_null_free o k : null_free o → null_free (default JNull (lookup_field (as_map o) k)).
Proof.
  intros Hn. destruct (lookup_field (as_map o) k) as [w|] eqn:E; [|apply null_free_JNull].
  by destruct (null_free_field o k w Hn E).
Qed.

Lemma dropDiff_JNull path o v : dropDiff should path o v = JNull → v = JNull.
Proof. by destruct v. Qed.

(** Below a path that is dropped the patched object is the original one. *)
Lemma dropDiff_resets path o m p q :
  json_wf o → json_wf m → null_free o → same_shape o m →
  q ≠ [] → q `prefix_of` p → should (path ++ q) = true →
  json_at p (merge_patch o (dropDiff should path o m)) = json_at p o.
Proof.
  revert path o m p. induction q as [|k q IH]; intros path o m p Ho Hm Hn Hs Hq Hpre Hdrop; [done|].
  destruct p as [|k' p]; [by apply prefix_nil_inv in Hpre|].
  pose proof (prefix_cons_inv_1 _ _ _ _ Hpre) as <-. apply prefix_cons_inv_2 in Hpre.
  assert (is_map m = false → json_at (k :: p) o = None) as Hother.
  { intros Em. destruct o as [| | | | |ofs]; try done. exfalso.
    specialize (Hs [] ofs m eq_refl eq_refl). congruence. }
  destruct m as [| | | | |fields]; try (by rewrite Hother).
  rewrite !json_at_cons, dropped_lookup by (done || apply Hm).
  destruct (lookup_field fields k) as [v|] eqn:Ev; [|done].
  destruct q as [|k2 q]; [by rewrite Hdrop|]. destruct (should (path ++ [k])); [done|].
  assert (p ≠ []) as Hp by (intros ->; by apply prefix_nil_inv in Hpre).
  pose proof (same_shape_field o (JObject fields) k v Hs Ev) as Hsv.
  specialize (IH (path ++ [k]) (default JNull (lookup_field (as_map o) k)) v p
    (default_field_wf o k Ho) (json_wf_field _ _ _ Hm Ev) (default_field_null_free o k Hn) Hsv
    ltac:(done) Hpre). rewrite <- app_assoc in IH. specialize (IH Hdrop).
  assert (json_at p (default JNull (lookup_field (as_map o) k)) = lookup_field (as_map o) k ≫= json_at p) as Ed.
  { destruct (lookup_field (as_map o) k); [done|]. by destruct p. }
  destruct (dropDiff should (path ++ [k]) (default JNull (lookup_field (as_map o) k)) v) as [| | | | |[]] eqn:Edrop;
    simpl; try done; try (by rewrite <- Ed).
  (* a removed field *)
  rewrite <- Ed, <- IH. simpl. by destruct p.
Qed.

(** Dropping differences keeps what the patch did not change. *)
Lemma dropDiff_same path o m :
  json_wf o → json_wf m → null_free o → merge_patch o m = o →
  merge_patch o (dropDiff should path o m) = o.
Proof.
  revert path o. induction m as [| | | | |fields IH] using json_ind'; intros path o Ho Hm Hn E; try done.
  rewrite merge_patch_object in E. destruct o as [| | | | |ofs]; try done. injection E as E. simpl in E.
  rewrite dropDiff_object, merge_patch_object. f_equal. simpl.
  pose proof Ho as [Hond _]%json_wf_object. pose proof Hm as [Hnd _]%json_wf_object.
  apply merge_fields_id; [done|]. intros k v' Hin.
  apply (lookup_field_NoDup (drop_fields path (JObject ofs) fields)) in Hin;
    [|eapply sublist_NoDup; [exact Hnd|apply drop_fields_keys]].
  rewrite drop_fields_lookup in Hin by done. simpl as_map in Hin.
  destruct (lookup_field fields k) as [v|] eqn:Ev; [|done]. simpl in Hin.
  pose proof (merge_fields_lookup fields ofs k Hnd) as Hl. rewrite E, Ev in Hl.
  destruct (should (path ++ [k])).
  - destruct (null_free_field (JObject ofs) k v' Hn Hin) as [Hv' Hnv'].
    pose proof (merge_self v' (json_wf_field _ _ _ Ho Hin) Hnv') as Hself.
    destruct v'; try done; by eexists.
  - destruct (empty_map _); [done|]. injection Hin as <-.
    destruct (decide (is_null v)) as [Hnull|Hnull].
    + by destruct v.
    + assert (∃ w, lookup_field ofs k = Some w ∧ merge_patch w v = w) as (w & Ew & Hw).
      { destruct (lookup_field ofs k) as [w|]; [|by destruct v]. exists w. split; [done|].
        destruct v; try done; injection Hl as Hl; exact (eq_sym Hl). }
      rewrite Ew. simpl. rewrite Forall_forall in IH.
      pose proof (IH (k, v) (lookup_field_elem _ _ _ Ev) (path ++ [k]) w (json_wf_field _ _ _ Ho Ew)
        (json_wf_field _ _ _ Hm Ev) (proj2 (null_free_field (JObject ofs) k w Hn Ew)) Hw) as IHv.
      simpl in IHv. destruct (dropDiff should (path ++ [k]) w v) eqn:Ed; [|by eexists..].
      apply dropDiff_JNull in Ed as ->. destruct Hnull. exact I.
Qed.

(** The same at a path. *)
Lemma dropDiff_agrees path o m p :
  json_wf o → json_wf m → null_free o →
  json_at p (merge_patch o m) = json_at p o →
  json_at p (merge_patch o (dropDiff should path o m)) = json_at p o.
Proof.
  revert path o m. induction p as [|k p IH]; intros path o m Ho Hm Hn E.
  { injection E as E. simpl. by rewrite dropDiff_same. }
  destruct m as [| | | | |fields]; try done.
  rewrite json_at_cons, merge_patch_lookup in E by apply Hm.
  rewrite !json_at_cons, dropped_lookup by (done || apply Hm). rewrite json_at_cons in E.
  destruct (lookup_field fields k) as [v|] eqn:Ev; [|done]. destruct (should (path ++ [k])); [done|].
  set (a := default JNull (lookup_field (as_map o) k)) in *.
  destruct (decide (is_null v)) as [Hv|Hv]; [by destruct v|].
  assert (json_at p (merge_patch a v) = lookup_field (as_map o) k ≫= json_at p) as Ev'.
  { destruct v; try exact E. by destruct Hv. }
  assert (p = [] → lookup_field (as_map o) k = Some a) as Hnil.
  { intros ->. simpl in Ev'. subst a. by destruct (lookup_field (as_map o) k). }
  assert (lookup_field (as_map o) k ≫= json_at p = json_at p a) as Ea.
  { destruct p as [|k2 p]; [by rewrite Hnil|]. subst a. by destruct (lookup_field (as_map o) k). }
  specialize (IH (path ++ [k]) a v (default_field_wf o k Ho) (json_wf_field _ _ _ Hm Ev)
    (default_field_null_free o k Hn)). rewrite Ea in Ev'. specialize (IH Ev'). rewrite Ea.
  destruct (dropDiff should (path ++ [k]) a v) as [| | | | |[]] eqn:Ed; simpl; try done.
  - apply dropDiff_JNull in Ed as ->. by destruct Hv.
Qed.

(** What is not dropped stays in the modified object. *)
Lemma dropDiff_keeps path o m p w :
  json_wf m → is_map w = false → passes should path p → json_at p m = Some w →
  json_at p (dropDiff should path o m) = Some w.
Proof.
  intros Hm Hw. revert path o m Hm. induction p as [|k p IH]; intros path o m Hm Hp.
  { intros [= ->]. simpl. by rewrite dropDiff_other. }
  destruct m as [| | | | |fields]; try done. apply passes_cons in Hp as [Hk Hp].
  rewrite dropDiff_object, !json_at_cons. simpl as_map. rewrite drop_fields_lookup by apply Hm.
  destruct (lookup_field fields k) as [v|] eqn:Ev; [|done]. simpl. rewrite Hk. intros E.
  specialize (IH (path ++ [k]) (default JNull (lookup_field (as_map o) k)) v (json_wf_field _ _ _ Hm Ev) Hp E).
  destruct (empty_map _) eqn:Ee; [|done].
  destruct (dropDiff _ _ _ v) as [| | | | |[]]; try done.
  destruct p; simpl in IH; [injection IH as <-|]; done.
Qed.

Lemma dropDiff_shape path o m : json_wf m → same_shape o m → same_shape o (dropDiff should path o m).
Proof.
  intros Hm Hs p. revert path o m Hm Hs. induction p as [|k p IH]; intros path o m Hm Hs fields w Eo Ew.
  { injection Ew as <-. specialize (Hs [] fields m Eo eq_refl). by destruct m. }
  destruct m as [| | | | |mfs]; try done. rewrite dropDiff_object, json_at_cons in Ew. simpl as_map in Ew.
  rewrite drop_fields_lookup in Ew by apply Hm.
  destruct (lookup_field mfs k) as [v|] eqn:Ev; [|done]. simpl in Ew. rewrite json_at_cons in Eo.
  destruct (should (path ++ [k])); [rewrite Eo in Ew; by injection Ew as <-|].
  destruct (empty_map _); [done|]. destruct (lookup_field (as_map o) k) as [ok|] eqn:Eok; [|done].
  pose proof (same_shape_field o (JObject mfs) k v Hs Ev) as Hsv. rewrite Eok in Hsv.
  by apply (IH (path ++ [k]) ok v (json_wf_field _ _ _ Hm Ev) Hsv fields w Eo).
Qed.
End drop.

(** *** The two ways patch *)

Definition out_of_scope (input : FilterObjectInput) (p : Path) : Prop :=
  (p ≠ [] ∧ ∀ a, a ∈ fo_AllowedPaths input → ¬ p `prefix_of` a ∧ ¬ a `prefix_of` p) ∨
  ∃ i, i ∈ fo_IgnorePaths input ∧ i ≠ [] ∧ i `prefix_of` p.

Lemma not_allowed_prefix allowed p :
  p ≠ [] → (∀ a, a ∈ allowed → ¬ p `prefix_of` a ∧ ¬ a `prefix_of` p) → IsPathNotAllowed allowed p = true.
Proof.
  intros Hp Hno. unfold IsPathNotAllowed, IsPathAllowed. apply negb_true_iff, not_true_iff_false.
  intros (a & Ha & Ho)%existsb_exists. apply list_elem_of_In in Ha. apply Overlaps_prefix in Ho.
  destruct (Hno a Ha). naive_solver.
Qed.

Section options.
Context (o m : json) (input : FilterObjectInput).
Hypothesis Ho : json_wf o.
Hypothesis Hm : json_wf m.
Hypothesis Hn : null_free o.
Hypothesis Hs : same_shape o m.

Definition drop_allowed : json :=
  match fo_AllowedPaths input with [] => m | allowed => dropDiff (IsPathNotAllowed allowed) [] o m end.

Definition drop_ignored : json :=
  match fo_IgnorePaths input with
  | [] => drop_allowed
  | ignored => dropDiff (IsPathIgnored ignored) [] o drop_allowed
  end.

Lemma drop_allowed_ok : json_wf drop_allowed ∧ same_shape o drop_allowed.
Proof.
  unfold drop_allowed. destruct (fo_AllowedPaths input); [done|].
  split; [by apply dropDiff_wf|by apply dropDiff_shape].
Qed.

Lemma drop_ignored_wf : json_wf drop_ignored.
Proof.
  destruct drop_allowed_ok. unfold drop_ignored. destruct (fo_IgnorePaths input); [done|].
  by apply dropDiff_wf.
Qed.

Lemma options_reset p :
  fo_AllowedPaths input ≠ [] → out_of_scope input p → json_at p (merge_patch o drop_ignored) = json_at p o.
Proof.
  destruct drop_allowed_ok as [Hwf Hshape]. intros Hne [[Hp Hno]|(i & Hi & Hine & Hpre)].
  - assert (json_at p (merge_patch o drop_allowed) = json_at p o) as E.
    { unfold drop_allowed. destruct (fo_AllowedPaths input) as [|a l] eqn:Ea; [done|]. rewrite <- Ea in *.
      apply (dropDiff_resets _ [] o m p p); try done. by apply not_allowed_prefix. }
    unfold drop_ignored. destruct (fo_IgnorePaths input); [done|]. by apply dropDiff_agrees.
  - unfold drop_ignored. destruct (fo_IgnorePaths input) as [|j l] eqn:Ei; [by apply not_elem_of_nil in Hi|].
    rewrite <- Ei in *. apply (dropDiff_resets _ [] o drop_allowed p i); try done.
    apply existsb_exists. exists i. split; [by apply list_elem_of_In|by apply Path_Equal_eq].
Qed.

Lemma options_apply p w :
  is_map w = false → w ≠ JNull → in_scope input p → json_at p m = Some w →
  json_at p (merge_patch o drop_ignored) = Some w.
Proof.
  intros Hw Hnull [Ha Hi] E. apply merge_patch_applies; [apply drop_ignored_wf|done..|].
  assert (json_at p drop_allowed = Some w) as E1.
  { unfold drop_allowed. destruct (fo_AllowedPaths input) as [|a l] eqn:Ea; [done|].
    apply dropDiff_keeps; [done..| |done]. apply passes_not_allowed. destruct Ha as [|[|]]; auto. done. }
  unfold drop_ignored. destruct (fo_IgnorePaths input) as [|i l]; [done|].
  apply dropDiff_keeps; [apply drop_allowed_ok|done| |done]. by apply passes_ignored.
Qed.
End options.

(** *** A concrete library *)

(** The fields of a patch from [a] to [b]: the ones that differ, and nulls for the ones that
    are gone. *)
Fixpoint create_patch (a b : json) : json :=
  match b with
  | JObject bfields =>
      JObject ((fix changed (fields : list (string * json)) : list (string * json) :=
          match fields with
          | [] => []
          | (k, vb) :: fields =>
              match lookup_field (as_map a) k with
              | None => (k, vb) :: changed fields
              | Some va =>
                  if is_map va && is_map vb then
                    let d := create_patch va vb in
                    if empty_map d then changed fields else (k, d) :: changed fields
                  else if json_eqb va vb then changed fields else (k, vb) :: changed fields
              end
          end) bfields
        ++ ((λ k, (k, JNull)) <$> filter (λ k, k ∉ bfields.*1) (as_map a).*1))
  | _ => b
  end.

Fixpoint changed_fields (a : json) (fields : list (string * json)) : list (string * json) :=
  match fields with
  | [] => []
  | (k, vb) :: fields =>
      match lookup_field (as_map a) k with
      | None => (k, vb) :: changed_fields a fields
      | Some va =>
          if is_map va && is_map vb then
            let d := create_patch va vb in
            if empty_map d then changed_fields a fields else (k, d) :: changed_fields a fields
          else if json_eqb va vb then changed_fields a fields else (k, vb) :: changed_fields a fields
      end
  end.

Lemma create_patch_object a bfields :
  create_patch a (JObject bfields) =
    JObject (changed_fields a bfields
             ++ ((λ k, (k, JNull)) <$> filter (λ k, k ∉ bfields.*1) (as_map a).*1)).
Proof.
  simpl. do 2 f_equal. generalize bfields as fs. induction fs as [|[k v] fs IH]; [done|]. simpl.
  by rewrite <- IH.
Qed.

Lemma changed_fields_keys a fields : (changed_fields a fields).*1 `sublist_of` fields.*1.
Proof.
  induction fields as [|[k v] fields IH]; simpl; [done|].
  repeat case_match; try (by apply sublist_cons); by apply sublist_skip.
Qed.

Lemma changed_fields_lookup a fields k :
  NoDup fields.*1 →
  lookup_field (changed_fields a fields) k =
    vb ← lookup_field fields k;
    match lookup_field (as_map a) k with
    | None => Some vb
    | Some va =>
        if is_map va && is_map vb then
          let d := create_patch va vb in if empty_map d then None else Some d
        else if json_eqb va vb then None else Some vb
    end.
Proof.
  induction fields as [|[k' v] fields IH]; simpl; [done|]. intros [Hk Hnd]%NoDup_cons.
  specialize (IH Hnd). rewrite lookup_field_cons.
  assert (k' = k → lookup_field (changed_fields a fields) k = None) as Hnone.
  { intros <-. rewrite IH. by rewrite (proj2 (lookup_field_None fields k') Hk). }
  case_decide as E; [subst k'; simpl|]; repeat case_match;
    rewrite ?lookup_field_cons, ?decide_True, ?decide_False by done; auto.
Qed.

Lemma create_patch_lookup a bfields k :
  NoDup bfields.*1 →
  lookup_field (as_map (create_patch a (JObject bfields))) k =
    match lookup_field bfields k with
    | Some vb => lookup_field (changed_fields a bfields) k
    | None => if decide (is_Some (lookup_field (as_map a) k)) then Some JNull else None
    end.
Proof.
  intros Hnd. rewrite create_patch_object. simpl as_map. rewrite lookup_field_app.
  assert (∀ l, lookup_field ((λ k, (k, JNull)) <$> l) k = if decide (k ∈ l) then Some JNull else None) as Hl.
  { induction l as [|x l IH]; [done|]. rewrite fmap_cons, lookup_field_cons, IH.
    destruct (decide (x = k)) as [->|Hne]; [by rewrite decide_True by left|].
    destruct (decide (k ∈ l)); [by rewrite decide_True by (by right)|].
    rewrite decide_False; [done|]. set_solver. }
  rewrite Hl, changed_fields_lookup by done.
  destruct (lookup_field bfields k) as [vb|] eqn:Eb; simpl.
  - rewrite decide_False; [by repeat case_match|]. intros [Hn _]%list_elem_of_filter. apply Hn.
    apply lookup_field_elem in Eb. by apply (list_elem_of_fmap_2 fst) in Eb.
  - assert (k ∈ filter (λ k, k ∉ bfields.*1) (as_map a).*1 ↔ is_Some (lookup_field (as_map a) k)) as Hiff.
    { rewrite list_elem_of_filter, <- lookup_field_None, Eb. unfold is_Some.
      destruct (lookup_field (as_map a) k) as [va|] eqn:Ea.
      - apply lookup_field_elem, (list_elem_of_fmap_2 fst) in Ea. naive_solver.
      - apply lookup_field_None in Ea. naive_solver. }
    repeat case_decide; naive_solver.
Qed.

Lemma create_patch_keys a bfields :
  json_wf a → json_wf (JObject bfields) → NoDup (as_map (create_patch a (JObject bfields))).*1.
Proof.
  intros Ha%json_wf_as_map Hb. rewrite create_patch_object. simpl as_map. rewrite fmap_app, <- list_fmap_compose.
  apply NoDup_app. split_and!.
  - eapply sublist_NoDup; [apply Hb|]. apply changed_fields_keys.
  - intros k Hk (k' & -> & [Hn _]%list_elem_of_filter)%list_elem_of_fmap. apply Hn.
    eapply elem_of_sublist; [exact Hk|]. apply changed_fields_keys.
  - rewrite (list_fmap_ext _ id), list_fmap_id by done. apply NoDup_filter. apply Ha.
Qed.

(** Merging into a value that is no map, without nulls, gives the patch. *)
Lemma merge_nothing target v :
  json_wf v → null_free v → is_map target = false → merge_patch target v = v.
Proof.
  revert target. induction v as [| | | | |fields IH] using json_ind'; intros target Hv Hn Ht; try done.
  rewrite merge_patch_object. f_equal. assert (as_map target = []) as -> by by destruct target.
  assert (∀ acc, NoDup (acc ++ fields).*1 → merge_fields fields acc = acc ++ fields) as Hm;
    [|apply Hm; apply Hv].
  assert (∀ k v, (k, v) ∈ fields → v ≠ JNull ∧ null_free v) as Hnf.
  { intros k v Hin. apply (null_free_field (JObject fields) k); [done|].
    apply lookup_field_NoDup; [apply Hv|done]. }
  apply json_wf_object in Hv as [_ Hall]. clear Hn Ht.
  induction fields as [|[k v] fields IHf]; intros acc Hnd; [by rewrite app_nil_r|].
  apply Forall_cons in IH as [IHv IH], Hall as [Hv Hall].
  destruct (Hnf k v ltac:(left)) as [Hnv Hnfv].
  assert (k ∉ acc.*1) as Hk.
  { rewrite fmap_app, fmap_cons in Hnd. apply NoDup_app in Hnd as (_ & Hd & _).
    intros Hin. apply (Hd k Hin). left. }
  assert (match v with
          | JNull => remove_field k acc
          | _ => set_field k (merge_patch (default JNull (lookup_field acc k)) v) acc
          end = acc ++ [(k, v)]) as E.
  { rewrite (proj2 (lookup_field_None acc k) Hk). simpl. unfold set_field.
    rewrite bool_decide_eq_false_2 by done.
    pose proof (IHv JNull Hv Hnfv eq_refl) as E. simpl in E. destruct v; [done|..]; by rewrite E. }
  rewrite merge_fields_cons, E, IHf; [by rewrite <- app_assoc|done..| |].
  - intros k' v' Hin. apply (Hnf k' v'). by right.
  - by rewrite <- app_assoc.
Qed.

Lemma content_cons k p v : content v (k :: p) = lookup_field (as_map v) k ≫= λ w, content w p.
Proof. unfold content. rewrite json_at_cons. by destruct (lookup_field (as_map v) k). Qed.

Lemma create_patch_is_map a b : is_map (create_patch a b) = is_map b.
Proof. by destruct b. Qed.

Lemma create_patch_applies a b :
  is_map a = true → is_map b = true → json_wf a → json_wf b → null_free b →
  same_content (merge_patch a (create_patch a b)) b.
Proof.
  intros Ha Hb Hwa Hwb Hn p. revert a b Ha Hb Hwa Hwb Hn.
  induction p as [|k p IH]; intros a b Ha Hb Hwa Hwb Hn.
  { unfold content. simpl. rewrite merge_patch_is_map, create_patch_is_map, Hb. done. }
  destruct b as [| | | | |bfields]; try done. rewrite !content_cons.
  pose proof (create_patch_keys a bfields Hwa Hwb) as Hk.
  pose proof (create_patch_lookup a bfields k ltac:(apply Hwb)) as Hl.
  destruct (create_patch a (JObject bfields)) as [| | | | |pfields] eqn:Ep; try done. simpl as_map in Hk, Hl.
  rewrite merge_patch_lookup, Hl by done. simpl as_map. clear Hl Hk Ep.
  rewrite changed_fields_lookup by apply Hwb.
  destruct (lookup_field bfields k) as [vb|] eqn:Eb.
  2: { case_decide as E; [done|]. destruct (lookup_field (as_map a) k); [destruct E; eauto|done]. }
  destruct (null_free_field (JObject bfields) k vb Hn Eb) as [Hvb Hnvb].
  pose proof (json_wf_field _ _ _ Hwb Eb) as Hwvb. cbn [mbind option_bind].
  assert (∀ target w, is_map target = false → Some vb ≫= (λ w, content w p) = w →
    match vb with JNull => None | _ => Some (merge_patch target vb) end ≫= (λ w, content w p) = w) as Hnew.
  { intros target w Ht <-. rewrite (merge_nothing target vb) by done. by destruct vb. }
  destruct (lookup_field (as_map a) k) as [va|] eqn:Ea.
  2: { specialize (Hnew JNull _ eq_refl eq_refl). destruct vb; done. }
  pose proof (json_wf_field _ _ _ (json_wf_as_map _ Hwa) Ea) as Hwva.
  destruct (is_map va && is_map vb) eqn:Em.
  - apply andb_true_iff in Em as [Hma Hmb]. specialize (IH va vb Hma Hmb Hwva Hwvb Hnvb).
    destruct (empty_map (create_patch va vb)) eqn:Ee.
    + cbn [mbind option_bind]. rewrite <- IH. destruct (create_patch va vb) as [| | | | |[]]; try done.
      by destruct va.
    + cbn [mbind option_bind]. rewrite <- IH. pose proof (create_patch_is_map va vb) as Hc. rewrite Hmb in Hc.
      by destruct (create_patch va vb).
  - destruct (json_eqb va vb) eqn:Eeq; [apply json_eqb_eq in Eeq as ->; done|].
    destruct (is_map vb) eqn:Hmb.
    + rewrite andb_true_r in Em. specialize (Hnew va _ Em eq_refl). by destruct vb.
    + by destruct vb.
Qed.

Lemma create_patch_same a : is_map a = true → json_wf a → create_patch a a = JObject [].
Proof.
  induction a as [| | | | |fields IH] using json_ind'; intros Ha Hwf; try done.
  rewrite create_patch_object. simpl as_map. f_equal.
  assert (filter (λ k, k ∉ fields.*1) fields.*1 = []) as ->.
  { destruct (filter (λ k, k ∉ fields.*1) fields.*1) as [|k l] eqn:E; [done|].
    assert (k ∈ filter (λ k, k ∉ fields.*1) fields.*1) as [??]%list_elem_of_filter by (rewrite E; left). done. }
  rewrite fmap_nil, app_nil_r.
  assert (∀ fs, (∀ kv, kv ∈ fs → kv ∈ fields) → changed_fields (JObject fields) fs = []) as Hc; [|by apply Hc].
  induction fs as [|[k v] fs IHf]; intros Hin; [done|]. simpl.
  assert ((k, v) ∈ fields) as Hkv by (apply Hin; left).
  rewrite (lookup_field_NoDup fields k v) by (done || apply Hwf).
  rewrite (IHf ltac:(intros; apply Hin; by right)).
  rewrite Forall_forall in IH. pose proof (IH (k, v) Hkv) as IHv. simpl in IHv.
  apply json_wf_object in Hwf as [_ Hall]. rewrite Forall_forall in Hall. specialize (Hall (k, v) Hkv). simpl in Hall.
  destruct (is_map v) eqn:Em; simpl.
  - by rewrite IHv.
  - by rewrite (proj2 (json_eqb_eq v v)).
Qed.

#[export] Instance concrete_JsonPatch : JsonPatch | 100.
Proof.
  refine {| MergePatch target patch := Ok (merge_patch target patch);
            CreateMergePatch original modified := Ok (create_patch original modified) |}.
  - done.
  - intros a b Ha Hb Hwa Hwb Hn. exists (create_patch a b). split; [done|].
    split; [by rewrite create_patch_is_map|]. by apply create_patch_applies.
  - intros a Ha Hwf. by rewrite create_patch_same.
Defined.

Lemma twoways_applyOptions_run o m input :
  is_map o = true → is_map m = true → twoways_applyOptions o m input = Ok (drop_ignored o m input).
Proof. by destruct o, m. Qed.

Lemma drop_ignored_is_map o m input : is_map (drop_ignored o m input) = is_map m.
Proof. unfold drop_ignored, drop_allowed. by destruct (fo_IgnorePaths input), (fo_AllowedPaths input), m. Qed.

(** The helper that is built, with the patch of the library. *)
Lemma NewTwoWaysPatchHelper_run `{JsonPatch} original modified ignored :
  let o := default (JObject []) original in
  let input := {| fo_AllowedPaths := two_ways_allowed (bool_decide (original = None));
                  fo_IgnorePaths := ignored |} in
  let target := merge_patch o (drop_ignored o modified input) in
  is_map o = true → is_map modified = true → json_wf o → json_wf modified → null_free o →
  ∃ h, NewTwoWaysPatchHelper original modified ignored = Ok h ∧
    is_map (tw_patch h) = true ∧ same_content (merge_patch o (tw_patch h)) target ∧
    (target = o → tw_patch h = JObject []).
Proof.
  intros o input target Ho Hm Hwo Hwm Hn. unfold NewTwoWaysPatchHelper. fold o. fold input.
  rewrite twoways_applyOptions_run by done. simpl.
  rewrite MergePatch_rfc by (done || by rewrite drop_ignored_is_map). simpl. fold target.
  assert (json_wf (drop_ignored o modified input)) as Hwd.
  { unfold drop_ignored. assert (json_wf (drop_allowed o modified input)) as Ha
      by (unfold drop_allowed; case_match; [done|by apply dropDiff_wf]).
    case_match; [done|by apply dropDiff_wf]. }
  destruct (CreateMergePatch_applies o target) as (patch & Epatch & Hp & Hc); [done|..].
  - unfold target. by rewrite merge_patch_is_map, drop_ignored_is_map.
  - done.
  - by apply merge_patch_wf.
  - by apply merge_patch_null_free.
  - rewrite Epatch. destruct patch as [| | | | |fields]; try done. simpl.
    eexists. split; [done|]. split; [done|]. split; [done|]. intros E. rewrite E in Epatch.
    rewrite CreateMergePatch_same in Epatch by done. by injection Epatch as <-.
Qed.

(** C39: The patch the topology dry run computes (NewTwoWaysPatchHelper) is for the paths it
    may touch only.  For objects of the same shape, and an original without null fields, the
    helper exists; applying its patch to the original changes nothing outside
    metadata.labels, metadata.annotations and spec (and, for a new object, its identity and
    owners) nor at or below an ignored path; every value of the modified object within these
    paths that is neither a map nor null is in the result (an empty map may be lost:
    [empty_map_lost]); and the patch is empty when the modified object is the original
    one. *)
Theorem two_ways_patch_scope `{JsonPatch} original modified ignored :
  let o := default (JObject []) original in
  let input := {| fo_AllowedPaths := two_ways_allowed (bool_decide (original = None));
                  fo_IgnorePaths := ignored |} in
  is_map o = true → is_map modified = true → json_wf o → json_wf modified → null_free o →
  same_shape o modified →
  ∃ h, NewTwoWaysPatchHelper original modified ignored = Ok h ∧
    (∀ p, out_of_scope input p → content (merge_patch o (tw_patch h)) p = content o p) ∧
    (∀ p w, is_map w = false → w ≠ JNull → in_scope input p → json_at p modified = Some w →
       content (merge_patch o (tw_patch h)) p = Some (Some w)) ∧
    (modified = o → HasChanges h = false).
Proof.
  intros o input Ho Hm Hwo Hwm Hn Hs.
  destruct (NewTwoWaysPatchHelper_run original modified ignored) as (h & Eh & Hmap & Hc & Hsame); [done..|].
  fold o in Hc, Hsame. fold input in Hc, Hsame.
  exists h. split; [done|]. split_and!.
  - intros p Hp. rewrite Hc. unfold content.
    rewrite options_reset; [done..| |done]. unfold input, two_ways_allowed. done.
  - intros p w Hw Hnull Hp E. rewrite Hc. unfold content. erewrite (options_apply o modified input) by done.
    simpl. by rewrite Hw.
  - intros ->. unfold HasChanges. rewrite Hsame; [done|].
    assert (merge_patch o (drop_allowed o o input) = o) as Ha.
    { unfold drop_allowed. case_match; [by apply merge_self|]. apply dropDiff_same; [done..|]. by apply merge_self. }
    unfold drop_ignored. case_match; [done|]. apply dropDiff_same; [done| |done|done].
    unfold drop_allowed. case_match; [done|by apply dropDiff_wf].
Qed.

(** ** Witnesses *)

Definition example_original : json :=
  JObject [("metadata", JObject [("name", JString "m"); ("resourceVersion", JString "7");
                                 ("labels", JObject [("a", JString "1")])]);
           ("spec", JObject [("replicas", JNumber "1"); ("endpoint", JString "10.0.0.1")])]%string.

Definition example_modified : json :=
  JObject [("metadata", JObject [("name", JString "other"); ("labels", JObject [("a", JString "2")])]);
           ("spec", JObject [("replicas", JNumber "3"); ("endpoint", JString "")]);
           ("status", JObject [("ready", JBool true)])]%string.

(** [same_shape] and [null_free] as functions. *)
Fixpoint shape_check (o m : json) : bool :=
  match m with
  | JObject fields =>
      (fix all (fields : list (string * json)) : bool :=
         match fields with
         | [] => true
         | (k, v) :: fields =>
             match lookup_field (as_map o) k with Some w => shape_check w v | None => true end && all fields
         end) fields
  | _ => negb (is_map o)
  end.

Lemma shape_check_sound o m : shape_check o m = true → same_shape o m.
Proof.
  intros Hc p. revert o m Hc. induction p as [|k p IH]; intros o m Hc fields w Eo Ew.
  { injection Eo as ->. injection Ew as <-. by destruct m. }
  destruct m as [| | | | |mfs]; try done. rewrite json_at_cons in Eo, Ew. simpl as_map in Ew.
  destruct (lookup_field (as_map o) k) as [ok|] eqn:Eok; [|done].
  destruct (lookup_field mfs k) as [mk|] eqn:Emk; [|done]. apply (IH ok mk) with (fields := fields); [|done..].
  simpl in Hc. clear -Hc Emk Eok. induction mfs as [|[k' v] mfs IHm]; [done|].
  apply andb_true_iff in Hc as [Hv Hc]. rewrite lookup_field_cons in Emk. case_decide as E; [|auto].
  injection Emk as ->. subst k'. by rewrite Eok in Hv.
Qed.

Fixpoint null_check (v : json) : bool :=
  match v with
  | JObject fields =>
      (fix all (fields : list (string * json)) : bool :=
         match fields with
         | [] => true
         | (_, v) :: fields => negb (json_eqb v JNull) && null_check v && all fields
         end) fields
  | _ => true
  end.

Lemma null_check_sound v : null_check v = true → null_free v.
Proof.
  intros Hc p. revert v Hc. induction p as [|k p IH]; intros v Hc; [done|]. intros _.
  destruct v as [| | | | |fields]; try done. rewrite json_at_cons. simpl as_map.
  destruct (lookup_field fields k) as [w|] eqn:Ew; [|done].
  assert (w ≠ JNull ∧ null_check w = true) as [Hw Hcw].
  { simpl in Hc. clear -Hc Ew. induction fields as [|[k' v] fields IHf]; [done|].
    apply andb_true_iff in Hc as [[Hv Hn]%andb_true_iff Hc]. rewrite lookup_field_cons in Ew.
    case_decide; [|auto]. injection Ew as ->. split; [|done]. intros ->. done. }
  simpl. destruct p as [|k2 p]; [by intros [= ->]|]. by apply IH.
Qed.

Lemma FilterObject_exact_witness :
  let input := {| fo_AllowedPaths := [["metadata"; "labels"]; ["spec"]]%string;
                  fo_IgnorePaths := [["spec"; "endpoint"]]%string |} in
  FilterObject example_original input =
    JObject [("metadata", JObject [("labels", JObject [("a", JString "1")])]);
             ("spec", JObject [("replicas", JNumber "1")])]%string ∧
  (json_at ["spec"; "endpoint"]%string (FilterObject example_original input) = Some (JString "10.0.0.1") ↔
   json_at ["spec"; "endpoint"]%string example_original = Some (JString "10.0.0.1") ∧
     in_scope input ["spec"; "endpoint"]%string).
Proof.
  intros input. split; [vm_compute; reflexivity|].
  apply (FilterObject_exact example_original input); [|left; reflexivity].
  repeat split; try (apply (bool_decide_unpack _); vm_compute; exact I).
Defined.

Lemma two_ways_patch_scope_witness :
  ∃ h, NewTwoWaysPatchHelper (Some example_original) example_modified [["spec"; "endpoint"]]%string = Ok h ∧
    tw_patch h = JObject [("metadata", JObject [("labels", JObject [("a", JString "2")])]);
                          ("spec", JObject [("replicas", JNumber "3")])]%string ∧
    content (merge_patch example_original (tw_patch h)) ["spec"; "replicas"]%string = Some (Some (JNumber "3")).
Proof.
  destruct (two_ways_patch_scope (Some example_original) example_modified [["spec"; "endpoint"]]%string)
    as (h & E & _ & Happ & _); try reflexivity.
  - repeat split; try (apply (bool_decide_unpack _); vm_compute; exact I).
  - repeat split; try (apply (bool_decide_unpack _); vm_compute; exact I).
  - apply null_check_sound. vm_compute. reflexivity.
  - apply shape_check_sound. vm_compute. reflexivity.
  - exists h. split; [exact E|]. split.
    + vm_compute in E. injection E as <-. reflexivity.
    + apply Happ; [done|done| |reflexivity]. split.
      * right. right. exists ["spec"]%string. split; [do 2 right; left|right].
        exists ["replicas"]%string. reflexivity.
      * intros i ->%list_elem_of_singleton _ [t Ht]. discriminate Ht.
Defined.

(** An empty map the modified object adds is dropped with the others: the patch is empty. *)
Lemma empty_map_lost :
  ∃ h, NewTwoWaysPatchHelper (Some (JObject [("spec", JObject [("a", JString "1")])]%string))
      (JObject [("spec", JObject [("a", JString "1"); ("emptyDir", JObject [])])]%string) [] = Ok h ∧
    HasChanges h = false.
Proof. eexists. split; [vm_compute; reflexivity|]. reflexivity. Qed.
